(* ===== verification/_CoqProject ===== *)
-Q . S2P
Prelude.v
Bytes.v
Lists.v
Sched.v
Timer.v
Monitor.v
Segment.v
Page.v
Pmap.v
Vm.v
Bootmem.v
Fs.v
Filp.v
Vnode.v
Interrupt.v
Kqueue.v
Msg.v
Filedesc.v
Pipe.v
Str.v
Dnlc.v
Signal.v
Proc.v
Blocking.v
Vfs.v
Lookup.v
Cache.v
Files.v
Mount.v
Exec.v
Blockcache.v
Extfs.v
