(* ===== verification/Prelude.v ===== *)
(** * A verification development for the Cheviot microkernel

    Cheviot is a microkernel operating system in C for the Raspberry Pi.  The
    kernel schedules processes, manages virtual memory, and turns file system
    calls into messages to servers that run as processes.  It runs one kernel
    thread at a time under a big kernel lock.  This development models the kernel
    for the Raspberry Pi 4 but for its device code: scheduling and timers, virtual
    memory, processes, signals and program loading, and the file system layer
    from descriptors to messages.  Of the servers it models the block layer of
    the ext2 server and the block cache library below it.

    ** Files

    Sources are under kernel/ where no other directory is given.

    - [Prelude]: machine integers, bits, error numbers, record update, counting.
    - [Bytes]: lists of bytes and integers in memory.
    - [Lists]: the macros of h/kernel/lists.h, on a store of link fields, and
      their refinement of lists; [Lists.Seq] is the operations on lists that the
      other files use in their place.
    - [Sched], [Timer], [Monitor]: proc/sched.c and proc/timer.c; the boot of the
      processes (boards/raspberry_pi_4/init_proc.c); and the three composed into
      the reachable states of the kernel seen as a monitor.
    - [Segment], [Page], [Pmap], [Vm], [Bootmem]: vm/segment.c; vm/page.c with
      boards/raspberry_pi_4/init_vm.c; boards/raspberry_pi_4/pmap.c; vm/as.c,
      vm/pagefault.c and vm/vm.c; and the bootstrap allocator of
      boards/raspberry_pi_4/main.c with the page tables of the file cache.
    - [Fs]: the state of the file system layer, the monad its operations are
      written in, and CopyIn and CopyOut of boards/raspberry_pi_4/arm.S.
    - [Filp], [Filedesc]: fs/filp.c and fs/filedesc.c.
    - [Vnode]: fs/vnode.c and the superblocks of fs/mount.c.
    - [Interrupt]: proc/interrupt.c.
    - [Kqueue]: fs/kqueue.c, and interrupt_dpc of proc/interrupt.c.
    - [Msg], [Pipe]: fs/msg.c and fs/pipe.c.
    - [Str]: utility/string.c, and CopyInString of boards/raspberry_pi_4/arm.S.
    - [Dnlc]: fs/dnlc.c, the cache of directory entries.
    - [Signal]: proc/signal.c and boards/raspberry_pi_4/signals.c.
    - [Proc]: proc/proc.c, fs/id.c and the fork of boards/raspberry_pi_4/proc.c,
      over the process table of [Sched], the files of [Fs] and the address
      spaces of [Vm].
    - [Blocking]: calls that sleep halfway, run to their end.
    - [Vfs]: fs/vfs.c, the requests to the servers, over [Msg].
    - [Lookup]: fs/lookup.c, over [Vfs], [Dnlc] and [Vnode].
    - [Cache]: fs/cache.c.
    - [Files]: the system calls on files (open.c, read.c, write.c, seek.c, char.c,
      block.c, access.c, stat.c, truncate.c, dir.c, link.c, symlink.c, rename.c,
      sync.c and ioctl.c of fs), over [Lookup], [Vfs] and [Cache].
    - [Mount]: the system calls of fs/mount.c, and fs/init.c.
    - [Exec]: fs/exec.c and the start of a program of
      boards/raspberry_pi_4/proc.c, over [Files], [Vm] and [Proc].
    - [Blockcache]: lib/libblockdev, and the interface [BlockCache] with its laws
      [BlockCacheOk] between a server and a block cache.
    - [Extfs]: bitmap.c, group_descriptors.c and block.c of
      system/filesystems/extfs, over any block cache with that interface.

    ** How the code is modelled

    A definition has the name of the function or macro it models.  A pointer is
    an integer, NULL being 0 or [None]; the objects of a kind are a map from
    pointers.  In the files up to [Bootmem], and in [Blockcache] and [Extfs], an
    operation that faults (a NULL dereference, a panic, an index out of range, a
    list operation on an entry that is not linked) has no result ([None]); from
    [Fs] on it is the outcome [Fault] of the monad.  An operation that sleeps
    stops there: in [Sched] and [Timer] the scheduler makes another process
    current, in the file system layer the outcome is [Sleep], and what follows
    the wait is a definition of its own ([vnode_get_resume], [kevent_wait],
    [ksendmsg_wait]).  From [Blocking] on, a call that sleeps halfway is given
    what the other processes do meanwhile, and goes on.  KASSERT is modelled
    where its file defines KDEBUG and is empty elsewhere, as in the code.  Kernel
    memory, [kmem], is indexed by the address the code uses: words in page tables
    and in struct FProcess, bytes in buffers, paths and messages.  The layouts of
    the C library (requests, struct stat) and the answers of the servers are
    arguments.

    ** What the theorems show

    - Memory: in every reachable state a store through a writable page is seen by
      no other address space; faults, fork, cleanup and allocation do what they
      are to do, errors included; the page tables implement a map; the page
      allocator hands out free, aligned, cleared slabs; segments are found and
      carved out of free memory.
    - Processes: the invariant of the monitor holds from boot on; the highest
      ready process runs; timers expire exactly when due; fork, exit and wait
      keep the tree of processes, fork shares memory and files with the child,
      and an exit reaches the parent that waits; signal state stays well typed;
      the arguments of exec arrive on the stack of the new program.
    - Files: the lowest free descriptor is allocated; fork keeps the reference
      counts; the name cache implements a map; lookup of a path and stat, through
      all layers down to the messages, answer what the server says; a read passes
      on status and data of the server; delayed writes are sent when due; mount
      gives a server its port; the tables are set up right.
    - Communication: a request to a server is answered with its status and its
      number is reused; sys_readmsg is reading from the parts put end to end; an
      event reaches the process that waits for it; a read from a pipe ends, and
      returns what was written to a fresh pipe.
    - The ext2 server: through the block cache a device behaves as an array of
      blocks; the allocator hands out free blocks and takes them back; the block
      map of a file implements a function from positions to blocks.
    - Where the code does not do what it means to, the theorem states what it
      does: a full message backlog overwrites its bitmap, a close loses its file
      pointer, descriptor 64 is handed out, a refused kevent leaves its queue
      locked, a second write to a pipe overwrites the first, a vnode off the free
      list can be got once, freed segments lose memory, a read at the end of a
      block device hangs, a block in use is given away by the block cache, and
      others.

    ** Bounds

    Loops over tables have the bound of the code.  [Segment.find_loop] has one
    step per entry of the table, more than the binary search takes, and the
    transfer loops of [Pipe] take a number of rounds, of which one is shown to be
    enough for a read of at least one byte.  Loops over strings, paths and lists
    of [Str], [Lookup] and [Cache] take a number of rounds as well; the theorems
    state one that suffices, or that none does.  [Extfs.alloc_bit] has one round
    for each word of the bitmap and [Extfs.alloc_block] one for each group and
    one more, as in the code.  Machine integers are reduced to their width where
    they can exceed it; sizes of messages and offsets in the file cache are taken
    to be below 2{^31}.  What [Blockcache] promises holds for a device with at
    most as many blocks as the cache has buffers; beyond that the code does not
    keep its list of released buffers.

    ** Not modelled

    - The delivery of a signal to its handler: the register frame on the user
      stack.
    - The interrupt flag of the processor, device registers, exception entry, and
      cache and TLB maintenance: they have no effect on the state modelled.  The
      interrupt controller is one flag per line.
    - The Raspberry Pi 1 board, whose functions have the Raspberry Pi 4 versions
      modelled here, and the formatting of debug output.
    - Of the ext2 server, delete_map_entry, which stores behind the end of an
      array, so that its effect is undefined, and all above the block map: inodes,
      directories, reading and writing, and the messages.
    - The other servers, the drivers and libraries in user space, the host tools
      and third-party code. *)

From stdpp Require Export base tactics option list functions fin_maps gmap.
From Stdlib Require Export ZArith Lia.

#[global] Open Scope Z_scope.

(** ** Machine integers *)

(** Reduction of a mathematical integer to a w-bit unsigned value, the effect
    of storing it in a C [uint32_t], [vm_addr], [size_t] and the like. *)
Definition uwrap (w x : Z) : Z := x `mod` 2 ^ w.

(** Reduction to the two's complement value of a w-bit signed integer. *)
Definition swrap (w x : Z) : Z := (x + 2 ^ (w - 1)) `mod` 2 ^ w - 2 ^ (w - 1).

Abbreviation u32 := (uwrap 32).
Abbreviation i32 := (swrap 32).

Lemma uwrap_small w x : 0 <= x < 2 ^ w -> uwrap w x = x.
Proof. apply Z.mod_small. Qed.

Lemma uwrap_range w x : 0 <= w -> 0 <= uwrap w x < 2 ^ w.
Proof. intros Hw. apply Z.mod_pos_bound, Z.pow_pos_nonneg; lia. Qed.

Lemma swrap_small w x : - 2 ^ (w - 1) <= x < 2 ^ (w - 1) -> 1 <= w -> swrap w x = x.
Proof.
  intros Hx Hw. unfold swrap.
  assert (2 ^ w = 2 * 2 ^ (w - 1)) by (rewrite <- Z.pow_succ_r by lia; f_equal; lia).
  rewrite Z.mod_small; lia.
Qed.

(** An integer without bits from position [n] on fits in [n] bits, and back. *)
Lemma bits_bound x n :
  0 <= n -> (forall i, n <= i -> Z.testbit x i = false) -> 0 <= x < 2 ^ n.
Proof.
  intros Hn Hx. assert (x = x `mod` 2 ^ n) as ->.
  { apply Z.bits_inj'. intros i Hi. destruct (decide (i < n)).
    - by rewrite Z.mod_pow2_bits_low by lia.
    - rewrite Z.mod_pow2_bits_high by lia. apply Hx. lia. }
  apply Z.mod_pos_bound, Z.pow_pos_nonneg; lia.
Qed.

Lemma bits_above x n i : 0 <= x < 2 ^ n -> 0 <= n <= i -> Z.testbit x i = false.
Proof.
  intros Hx Hi. rewrite <- (Z.mod_small x (2 ^ n)) by lia. apply Z.mod_pow2_bits_high. lia.
Qed.

(** The bits from [k] up, and a disjoint union of high and low bits. *)
Lemma land_high k x :
  0 <= k <= 32 -> 0 <= x < 2 ^ 32 -> Z.land x (2 ^ 32 - 2 ^ k) = x - x `mod` 2 ^ k.
Proof.
  intros Hk Hx. replace (2 ^ 32 - 2 ^ k) with (Z.ldiff (Z.ones 32) (Z.ones k)).
  - replace (x - x `mod` 2 ^ k) with (Z.ldiff x (Z.ones k)).
    + apply Z.bits_inj'. intros i Hi. rewrite Z.land_spec, !Z.ldiff_spec.
      destruct (decide (i < 32)).
      * by rewrite (Z.ones_spec_low 32) by lia.
      * by rewrite (bits_above x 32) by lia.
    + rewrite Z.ldiff_ones_r, Z.shiftl_mul_pow2, Z.shiftr_div_pow2 by lia.
      pose proof (Z.div_mod x (2 ^ k) ltac:(lia)). lia.
  - rewrite Z.ldiff_ones_r, Z.shiftl_mul_pow2, Z.shiftr_div_pow2 by lia.
    rewrite (Z.ones_equiv 32).
    assert (2 ^ 32 = 2 ^ (32 - k) * 2 ^ k) as E by (rewrite <- Z.pow_add_r by lia; f_equal; lia).
    pose proof (Z.pow_pos_nonneg 2 k ltac:(lia) ltac:(lia)).
    replace (Z.pred (2 ^ 32)) with ((2 ^ (32 - k) - 1) * 2 ^ k + (2 ^ k - 1)) by lia.
    rewrite Z.div_add_l by lia. rewrite (Z.div_small (2 ^ k - 1)) by lia. lia.
Qed.

Lemma lor_low k x b : 0 <= k -> 0 <= x -> x `mod` 2 ^ k = 0 -> 0 <= b < 2 ^ k -> Z.lor x b = x + b.
Proof.
  intros Hk Hx Hm Hb. symmetry. rewrite <- Z.add_lor_land.
  replace (Z.land x b) with 0; [lia|]. symmetry. apply Z.bits_inj_0. intros i.
  rewrite Z.land_spec. destruct (decide (i < k)).
  - destruct (decide (0 <= i)); [|by rewrite !Z.testbit_neg_r by lia].
    rewrite <- (Z.mod_pow2_bits_low x k i), Hm by lia. by rewrite Z.bits_0.
  - rewrite (bits_above b k) by lia. by rewrite andb_false_r.
Qed.

(** The [ALIGN_DOWN] and [ALIGN_UP] macros of vm.h on unsigned operands. *)
Definition ALIGN_DOWN (val alignment : Z) : Z := val - val `mod` alignment.
Definition ALIGN_UP (val alignment : Z) : Z :=
  u32 (u32 (val + alignment - 1) `div` alignment * alignment).

(** [for (; n > 0; n--, t++) s = f(t, s)] *)
Fixpoint iter_from {A} (f : Z -> A -> A) (n : nat) (t : Z) (s : A) : A :=
  match n with O => s | S n => iter_from f n (t + 1) (f t s) end.

Lemma iter_from_O {A} (f : Z -> A -> A) t s : iter_from f 0 t s = s.
Proof. done. Qed.
Lemma iter_from_S {A} (f : Z -> A -> A) n t s : iter_from f (S n) t s = iter_from f n (t + 1) (f t s).
Proof. done. Qed.

(** ** Error numbers (newlib's sys/errno.h) *)
Definition EPERM := 1.
Definition ENOENT := 2.
Definition EINTR := 4.
Definition EIO := 5.
Definition EBADF := 9.
Definition EAGAIN := 11.
Definition ENOMEM := 12.
Definition EACCES := 13.
Definition EFAULT := 14.
Definition EEXIST := 17.
Definition ENOTDIR := 20.
Definition EINVAL := 22.
Definition EMFILE := 24.
Definition ENOSYS := 88.
Definition ETIMEDOUT := 116.
Definition ENOTSUP := 134.

(** ** Record update

    [r <| f := v |>] is [r] with field [f] replaced.  A record type declares the
    function that rebuilds a value from its fields; the setter of a field is
    obtained from it by abstracting the projection. *)
Class Rebuild (R : Type) := rebuild : R -> R.

Class Setter {R T : Type} (proj : R -> T) := update_field : (T -> T) -> R -> R.

Ltac derive_setter :=
  match goal with
  | |- @Setter ?R ?T ?proj =>
      let inst := constr:(_ : Rebuild R) in
      let body := eval hnf in inst in
      match eval pattern proj in body with
      | ?F proj => let s := constr:(fun (g : T -> T) => F (fun r => g (proj r))) in
                   let s' := eval cbv beta in s in exact s'
      end
  end.

#[global] Hint Extern 0 (Setter _) => derive_setter : typeclass_instances.

Notation "r <| f := v |>" :=
  (update_field (proj := f) (fun _ => v) r)
  (at level 12, f at next level, left associativity,
   format "r  <| f  :=  v |>").

Arguments update_field {R T} proj {_} _ _ /.

(** ** Pointer-indexed stores

    Objects reached through pointers live in total maps from addresses, updated
    with stdpp's function update [<[p := v]> m]. *)

Lemma store_eq {A} (m : Z -> A) p v : (<[p := v]> m) p = v.
Proof. apply fn_lookup_insert. Qed.

Lemma store_ne {A} (m : Z -> A) p q v : p <> q -> (<[p := v]> m) q = m q.
Proof. apply fn_lookup_insert_ne. Qed.

(** ** Lists *)

Lemma filter_all {A} (P : A -> Prop) `{!forall x, Decision (P x)} (l : list A) :
  (forall x, x ∈ l -> P x) -> filter P l = l.
Proof.
  induction l as [|x l IH]; intros Hl; [done|].
  rewrite filter_cons_True by (apply Hl; by left). f_equal. apply IH.
  intros y Hy. apply Hl. by right.
Qed.

Lemma filter_ext_in {A} (P Q : A -> Prop) `{!forall x, Decision (P x), !forall x, Decision (Q x)}
    (l : list A) :
  (forall x, x ∈ l -> P x <-> Q x) -> filter P l = filter Q l.
Proof.
  induction l as [|x l IH]; intros Hl; [done|]. rewrite !filter_cons.
  assert (filter P l = filter Q l) as -> by (apply IH; set_solver).
  specialize (Hl x ltac:(set_solver)). by do 2 case_decide; naive_solver.
Qed.

(** One element more satisfies the predicate. *)
Lemma filter_gain {A} (P Q : A -> Prop) `{!forall x, Decision (P x), !forall x, Decision (Q x)}
    (l : list A) x :
  NoDup l -> x ∈ l -> ~ P x -> Q x -> (forall y, y ∈ l -> y <> x -> P y <-> Q y) ->
  length (filter Q l) = S (length (filter P l)).
Proof.
  intros Hn Hx HP HQ Heq. apply list_elem_of_split in Hx as (l1 & l2 & ->).
  apply NoDup_app in Hn as (_ & Hd & [Hx2 _]%NoDup_cons).
  rewrite !filter_app, (filter_cons_False P), (filter_cons_True Q) by done.
  rewrite !length_app. cbn [length].
  rewrite (filter_ext_in P Q l1), (filter_ext_in P Q l2); [lia|..].
  - intros y Hy. apply Heq; [set_solver|]. intros ->. done.
  - intros y Hy. apply Heq; [set_solver|]. intros ->. apply (Hd x Hy). by left.
Qed.

(** One element may change its truth value. *)
Lemma filter_update {A} `{!EqDecision A} (P Q : A -> Prop) `{!forall x, Decision (P x), !forall x, Decision (Q x)}
    (l : list A) x :
  NoDup l -> x ∈ l -> (forall y, y ∈ l -> y <> x -> P y <-> Q y) ->
  Z.of_nat (length (filter Q l)) + (if decide (P x) then 1 else 0) =
  Z.of_nat (length (filter P l)) + (if decide (Q x) then 1 else 0).
Proof.
  intros Hn Hx Heq. destruct (decide (P x)) as [HP|HP], (decide (Q x)) as [HQ|HQ].
  - rewrite (filter_ext_in P Q l); [done|]. intros y Hy. destruct (decide (y = x)); naive_solver.
  - rewrite (filter_gain Q P l x); [lia|done..|]. intros y Hy Hne. symmetry. by apply Heq.
  - rewrite (filter_gain P Q l x); [lia|done..].
  - rewrite (filter_ext_in P Q l); [done|]. intros y Hy. destruct (decide (y = x)); naive_solver.
Qed.
