(* ===== verification/Bytes.v ===== *)
(** * Bytes of memory

    A memory is a map from addresses to bytes.  This file has the lists of bytes
    read from and stored into one, and the 16- and 32-bit integers in it, least
    significant byte first. *)

From S2P Require Import Prelude.

Definition mem_bytes (m : Z -> Z) (a sz : Z) : list Z := map (fun i => m (a + i)) (seqZ 0 sz).

Lemma mem_bytes_length m a sz : 0 <= sz -> Z.of_nat (length (mem_bytes m a sz)) = sz.
Proof. intros. unfold mem_bytes. rewrite length_map, length_seqZ. lia. Qed.

Lemma mem_bytes_lookup m a sz i : 0 <= i < sz -> mem_bytes m a sz !! Z.to_nat i = Some (m (a + i)).
Proof.
  intros Hi. unfold mem_bytes. rewrite list_lookup_fmap, lookup_seqZ_lt by lia. cbn. do 3 f_equal. lia.
Qed.

Lemma mem_bytes_drop m a sz k : 0 <= k <= sz -> drop (Z.to_nat k) (mem_bytes m a sz) = mem_bytes m (a + k) (sz - k).
Proof.
  intros Hk. apply list_eq. intros i. rewrite lookup_drop. destruct (decide (Z.of_nat i < sz - k)) as [Hi|Hi].
  - replace (Z.to_nat k + i)%nat with (Z.to_nat (k + Z.of_nat i)) by lia. rewrite mem_bytes_lookup by lia.
    replace i with (Z.to_nat (Z.of_nat i)) at 2 by lia. rewrite mem_bytes_lookup by lia. do 2 f_equal. lia.
  - rewrite !lookup_ge_None_2; [done|..]; apply Nat2Z.inj_le; rewrite mem_bytes_length by lia; lia.
Qed.

Lemma mem_bytes_same m m' a sz : (forall i, a <= i < a + sz -> m' i = m i) -> mem_bytes m' a sz = mem_bytes m a sz.
Proof. intros H. unfold mem_bytes. apply map_ext_in. intros i Hi%list_elem_of_In%elem_of_seqZ. apply H. lia. Qed.

Lemma mem_bytes_eq m a data :
  (forall i, 0 <= i < Z.of_nat (length data) -> data !! Z.to_nat i = Some (m (a + i))) ->
  mem_bytes m a (Z.of_nat (length data)) = data.
Proof.
  intros H. apply list_eq. intros i. destruct (decide (i < length data)%nat) as [Hi|Hi].
  - rewrite <- (Nat2Z.id i), mem_bytes_lookup by lia. by rewrite H by lia.
  - rewrite (lookup_ge_None_2 data) by lia. apply lookup_ge_None_2. apply Nat2Z.inj_le. rewrite mem_bytes_length; lia.
Qed.

(** ** Stores *)

Definition put_bytes (a : Z) (bs : list Z) (m : Z -> Z) : Z -> Z :=
  fun x => if bool_decide (a <= x) then default (m x) (bs !! Z.to_nat (x - a)) else m x.

Lemma put_bytes_nil a m x : put_bytes a [] m x = m x.
Proof. unfold put_bytes. by case_bool_decide. Qed.

Lemma put_bytes_in a bs m i b : bs !! Z.to_nat i = Some b -> 0 <= i -> put_bytes a bs m (a + i) = b.
Proof. intros E Hi. unfold put_bytes. rewrite bool_decide_true by lia. replace (a + i - a) with i by lia. by rewrite E. Qed.

Lemma put_bytes_out a bs m x : ~ (a <= x < a + Z.of_nat (length bs)) -> put_bytes a bs m x = m x.
Proof. intros H. unfold put_bytes. case_bool_decide; [|done]. rewrite lookup_ge_None_2 by lia. done. Qed.

Lemma put_bytes_ext a bs m m' x : m x = m' x -> put_bytes a bs m x = put_bytes a bs m' x.
Proof. intros E. unfold put_bytes. rewrite E. done. Qed.

Lemma put_bytes_mem a m' b sz m x :
  0 <= sz -> put_bytes a (mem_bytes m' b sz) m x = if bool_decide (a <= x < a + sz) then m' (b + (x - a)) else m x.
Proof.
  intros Hs. case_bool_decide as H.
  - replace x with (a + (x - a)) at 1 by lia. apply put_bytes_in; [|lia]. by rewrite mem_bytes_lookup by lia.
  - apply put_bytes_out. by rewrite mem_bytes_length.
Qed.

Lemma mem_bytes_put a bs m : mem_bytes (put_bytes a bs m) a (Z.of_nat (length bs)) = bs.
Proof.
  apply mem_bytes_eq. intros i Hi. destruct (lookup_lt_is_Some_2 bs (Z.to_nat i)) as [b Hb]; [lia|].
  rewrite Hb. f_equal. symmetry. apply put_bytes_in; [done|lia].
Qed.

(** ** Integers *)

(** The bytes of a 32-bit integer, least significant first. *)
Definition word_bytes (x : Z) : list Z :=
  [Z.land x 255; Z.land (Z.shiftr x 8) 255; Z.land (Z.shiftr x 16) 255; Z.land (Z.shiftr x 24) 255].

Definition word_at (m : Z -> Z) (a : Z) : Z :=
  m a + Z.shiftl (m (a + 1)) 8 + Z.shiftl (m (a + 2)) 16 + Z.shiftl (m (a + 3)) 24.

Definition half_at (m : Z -> Z) (a : Z) : Z := m a + Z.shiftl (m (a + 1)) 8.

Lemma word_bytes_sum x : 0 <= x < 2 ^ 32 ->
  Z.land x 255 + Z.shiftl (Z.land (Z.shiftr x 8) 255) 8 + Z.shiftl (Z.land (Z.shiftr x 16) 255) 16 + Z.shiftl (Z.land (Z.shiftr x 24) 255) 24 = x.
Proof.
  intros Hx. rewrite !Z.shiftr_div_pow2, !Z.shiftl_mul_pow2 by lia. change 255 with (Z.ones 8). rewrite !Z.land_ones by lia.
  change (2 ^ 8) with 256. change (2 ^ 16) with (256 * 256). change (2 ^ 24) with (256 * 256 * 256). change (2 ^ 32) with (256 * 256 * 256 * 256) in Hx.
  rewrite <- !Z.div_div by lia. set (a := x `div` 256). set (b := a `div` 256). set (c := b `div` 256).
  pose proof (Z.div_mod x 256 ltac:(lia)). pose proof (Z.div_mod a 256 ltac:(lia)). pose proof (Z.div_mod b 256 ltac:(lia)).
  pose proof (Z.mod_pos_bound x 256 ltac:(lia)). pose proof (Z.mod_pos_bound a 256 ltac:(lia)). pose proof (Z.mod_pos_bound b 256 ltac:(lia)).
  rewrite (Z.mod_small c 256) by lia. lia.
Qed.

(** A store of a word, and what it leaves. *)
Definition put_word (a x : Z) (m : Z -> Z) : Z -> Z := put_bytes a (word_bytes (u32 x)) m.

Lemma word_at_bytes m a x :
  0 <= x < 256 -> (forall j b, word_bytes x !! j = Some b -> m (a + Z.of_nat j) = b) -> word_at m a = x.
Proof.
  intros Hx H. unfold word_at. pose proof (H 0%nat _ eq_refl) as H0. pose proof (H 1%nat _ eq_refl) as H1.
  pose proof (H 2%nat _ eq_refl) as H2. pose proof (H 3%nat _ eq_refl) as H3. 
  change (Z.of_nat 0) with 0 in H0. change (Z.of_nat 1) with 1 in H1. change (Z.of_nat 2) with 2 in H2.
  change (Z.of_nat 3) with 3 in H3. rewrite Z.add_0_r in H0. rewrite H0, H1, H2, H3. rewrite !(Z.shiftr_div_pow2 x) by lia.
  change (2 ^ 8) with 256. change (2 ^ 16) with 65536. change (2 ^ 24) with 16777216.
  rewrite !(Z.div_small x) by lia.
  change 255 with (Z.ones 8). rewrite (Z.land_ones x) by lia. change (2 ^ 8) with 256. rewrite Z.mod_small by lia. rewrite !Z.land_0_l, !Z.shiftl_0_l. lia.
Qed.

Lemma word_at_ext m m' a : (forall i, a <= i < a + 4 -> m' i = m i) -> word_at m' a = word_at m a.
Proof. intros H. unfold word_at. by rewrite !H by lia. Qed.

Lemma put_word_eq a x m : word_at (put_word a x m) a = u32 x.
Proof.
  unfold word_at, put_word. pose proof (word_bytes_sum (u32 x) (uwrap_range 32 x ltac:(lia))) as H.
  assert (B : forall i b, word_bytes (u32 x) !! Z.to_nat i = Some b -> 0 <= i -> put_bytes a (word_bytes (u32 x)) m (a + i) = b)
    by (intros; by apply put_bytes_in).
  pose proof (B 0 _ eq_refl ltac:(lia)) as B0. rewrite Z.add_0_r in B0.
  rewrite B0, (B 1 _ eq_refl), (B 2 _ eq_refl), (B 3 _ eq_refl) by lia. exact H.
Qed.

Lemma put_word_ne a x m i : ~ (a <= i < a + 4) -> put_word a x m i = m i.
Proof. intros H. apply put_bytes_out. exact H. Qed.

Lemma word_at_shift m m' a delta : (forall i, a <= i < a + 4 -> m' (i + delta) = m i) -> word_at m' (a + delta) = word_at m a.
Proof.
  intros H. unfold word_at. replace (a + delta + 1) with (a + 1 + delta) by lia. replace (a + delta + 2) with (a + 2 + delta) by lia.
  replace (a + delta + 3) with (a + 3 + delta) by lia. by rewrite !H by lia.
Qed.
