(* ===== verification/Lists.v ===== *)
(** * Intrusive linked lists: the macros of kernel/lists.h

    Every queue of the kernel is an intrusive list: the link fields live in the
    queued structures and the header holds the end pointers.  This file
    translates the [LIST_*] macros (doubly linked, head and tail in the header)
    and the [CIRCLEQ_*] macros (circular, current head in the header) assignment
    by assignment, with the link fields of all nodes in one shared store, and
    proves that they implement the operations on mathematical lists that the
    other files use in their place. *)

From S2P Require Import Prelude.

Module Intrusive.

(** One [entrytype]: the [next] and [prev] pointers of a node; [None] is NULL. *)
Record link (node : Type) := Link { next : option node; prev : option node }.
Arguments Link {node} _ _.
Arguments next {node} _.
Arguments prev {node} _.

(** A [headertype] of [LIST_TYPE]. *)
Record header (node : Type) := Header { head : option node; tail : option node }.
Arguments Header {node} _ _.
Arguments head {node} _.
Arguments tail {node} _.

(** A header together with the link store: the [field] members of all nodes. *)
Record lists (node : Type) := Lists { hdr : header node; lnk : node -> link node }.
Arguments Lists {node} _ _.
Arguments hdr {node} _.
Arguments lnk {node} _.

Section macros.
Context {node : Type} `{EqDecision node}.
Implicit Types (n x : node) (s : lists node) (l : list node).

(** Assignments through a node pointer and to the header. *)
Definition set_next n (v : option node) s : lists node :=
  Lists (hdr s) (<[n := Link v (prev (lnk s n))]> (lnk s)).
Definition set_prev n (v : option node) s : lists node :=
  Lists (hdr s) (<[n := Link (next (lnk s n)) v]> (lnk s)).
Definition set_head (v : option node) s : lists node :=
  Lists (Header v (tail (hdr s))) (lnk s).
Definition set_tail (v : option node) s : lists node :=
  Lists (Header (head (hdr s)) v) (lnk s).

(** ** The LIST macros.  [None] is the fault of dereferencing NULL. *)

Definition LIST_INIT s : lists node := set_tail None (set_head None s).

Definition LIST_ADD_HEAD (new_head : node) s : lists node :=
  let s := set_next new_head (head (hdr s)) s in
  let s := set_prev new_head None s in
  let s := match head (hdr s) with
           | Some h => set_prev h (Some new_head) s
           | None => set_tail (Some new_head) s
           end in
  set_head (Some new_head) s.

Definition LIST_ADD_TAIL (new_tail : node) s : lists node :=
  let s := set_next new_tail None s in
  let s := set_prev new_tail (tail (hdr s)) s in
  let s := match tail (hdr s) with
           | Some t => set_next t (Some new_tail) s
           | None => set_head (Some new_tail) s
           end in
  set_tail (Some new_tail) s.

Definition LIST_REM_HEAD s : option (lists node) :=
  h ← head (hdr s);
  let s := set_head (next (lnk s h)) s in
  Some (match head (hdr s) with
        | Some h' => set_prev h' None s
        | None => set_tail None s
        end).

Definition LIST_REM_TAIL s : option (lists node) :=
  t ← tail (hdr s);
  let s := set_tail (prev (lnk s t)) s in
  Some (match tail (hdr s) with
        | Some t' => set_next t' None s
        | None => set_head None s
        end).

Definition LIST_INSERT_AFTER (prev_entry new_entry : node) s : lists node :=
  let s := set_next new_entry (next (lnk s prev_entry)) s in
  let s := set_prev new_entry (Some prev_entry) s in
  let s := set_next prev_entry (Some new_entry) s in
  match next (lnk s new_entry) with
  | Some q => set_prev q (Some new_entry) s
  | None => set_tail (Some new_entry) s
  end.

Definition LIST_INSERT_BEFORE (next_entry new_entry : node) s : lists node :=
  let s := set_prev new_entry (prev (lnk s next_entry)) s in
  let s := set_next new_entry (Some next_entry) s in
  let s := set_prev next_entry (Some new_entry) s in
  match prev (lnk s new_entry) with
  | Some q => set_next q (Some new_entry) s
  | None => set_head (Some new_entry) s
  end.

Definition LIST_REM_ENTRY (entry : node) s : lists node :=
  let s := match prev (lnk s entry) with
           | Some q => set_next q (next (lnk s entry)) s
           | None => set_head (next (lnk s entry)) s
           end in
  match next (lnk s entry) with
  | Some q => set_prev q (prev (lnk s entry)) s
  | None => set_tail (prev (lnk s entry)) s
  end.

(** ** The CIRCLEQ macros; only the head of the header is used. *)

Definition CIRCLEQ_INIT s : lists node := set_head None s.

Definition CIRCLEQ_FORWARD s : option (lists node) :=
  h ← head (hdr s); Some (set_head (next (lnk s h)) s).

Definition CIRCLEQ_REVERSE s : lists node :=
  match head (hdr s) with
  | Some h => set_head (next (lnk s h)) s
  | None => s
  end.

Definition CIRCLEQ_ADD_HEAD (new_head : node) s : option (lists node) :=
  match head (hdr s) with
  | Some h =>
      let s := set_next new_head (Some h) s in
      let s := set_prev new_head (prev (lnk s h)) s in
      let s := set_prev h (Some new_head) s in
      t ← prev (lnk s new_head);
      Some (set_head (Some new_head) (set_next t (Some new_head) s))
  | None =>
      let s := set_next new_head (Some new_head) s in
      let s := set_prev new_head (Some new_head) s in
      Some (set_head (Some new_head) s)
  end.

Definition CIRCLEQ_ADD_TAIL (new_tail : node) s : option (lists node) :=
  match head (hdr s) with
  | Some h =>
      let s := set_next new_tail (Some h) s in
      let s := set_prev new_tail (prev (lnk s h)) s in
      q ← next (lnk s new_tail);
      let s := set_prev q (Some new_tail) s in
      t ← prev (lnk s new_tail);
      Some (set_next t (Some new_tail) s)
  | None =>
      let s := set_next new_tail (Some new_tail) s in
      let s := set_prev new_tail (Some new_tail) s in
      Some (set_head (Some new_tail) s)
  end.

Definition CIRCLEQ_REM_HEAD s : option (lists node) :=
  h ← head (hdr s);
  if decide (next (lnk s h) = Some h) then Some (set_head None s)
  else
    q ← next (lnk s h);
    let s := set_prev q (prev (lnk s h)) s in
    t ← prev (lnk s h);
    let s := set_next t (next (lnk s h)) s in
    Some (set_head (next (lnk s h)) s).

Definition CIRCLEQ_REM_TAIL s : option (lists node) :=
  h ← head (hdr s);
  if decide (next (lnk s h) = Some h) then Some (set_head None s)
  else
    t ← prev (lnk s h);
    u ← prev (lnk s t);
    let s := set_next u (Some h) s in
    t' ← prev (lnk s h);
    Some (set_prev h (prev (lnk s t')) s).

Definition CIRCLEQ_REM_ENTRY (entry : node) s : option (lists node) :=
  if decide (next (lnk s entry) = Some entry) then Some (set_head None s)
  else
    q ← next (lnk s entry);
    let s := set_prev q (prev (lnk s entry)) s in
    t ← prev (lnk s entry);
    let s := set_next t (next (lnk s entry)) s in
    Some (if decide (head (hdr s) = Some entry)
          then set_head (next (lnk s entry)) s else s).


(** ** Abstract lists

    [dseg k p l e]: in store [k] the nodes of [l] are chained in order, the first
    one's [prev] being [p] and the last one's [next] being [e]. *)
Definition first (e : option node) l : option node :=
  match l with [] => e | x :: _ => Some x end.
Definition final (p : option node) l : option node :=
  match last l with Some x => Some x | None => p end.

Fixpoint dseg (k : node -> link node) (p : option node) l (e : option node) : Prop :=
  match l with
  | [] => True
  | x :: l' => k x = Link (first e l') p /\ dseg k (Some x) l' e
  end.

(** A list with header [s] holds the nodes [l]. *)
Definition is_list s l : Prop :=
  hdr s = Header (first None l) (final None l) /\ NoDup l /\ dseg (lnk s) None l None.

(** A circular queue with header [s] holds the nodes [l], from the current head. *)
Definition is_circleq s l : Prop :=
  head (hdr s) = first None l /\ NoDup l /\
  dseg (lnk s) (final None l) l (first None l).

Lemma final_nil p : final p [] = p.
Proof. done. Qed.

Lemma final_snoc p l x : final p (l ++ [x]) = Some x.
Proof. unfold final. by rewrite last_snoc. Qed.

Lemma first_app e l1 l2 : first e (l1 ++ l2) = first (first e l2) l1.
Proof. by destruct l1. Qed.

Lemma final_cons p x l : final p (x :: l) = final (Some x) l.
Proof. unfold final. rewrite last_cons. by destruct (last l). Qed.

Lemma final_app p l1 l2 : final p (l1 ++ l2) = final (final p l1) l2.
Proof. unfold final. rewrite last_app. by destruct (last l2). Qed.

Lemma dseg_app k p l1 l2 e :
  dseg k p (l1 ++ l2) e <-> dseg k p l1 (first e l2) /\ dseg k (final p l1) l2 e.
Proof.
  revert p; induction l1 as [|x l1 IH]; intros p; simpl; [tauto|].
  rewrite IH, first_app, final_cons. tauto.
Qed.

Lemma dseg_frame k k' p l e :
  (forall x, x ∈ l -> k' x = k x) -> dseg k p l e -> dseg k' p l e.
Proof.
  revert p; induction l as [|x l IH]; intros p Hk; simpl; [done|].
  intros [Hx Hl]; split; [by rewrite Hk by set_solver|].
  apply IH; [set_solver|done].
Qed.

(** Redirecting the last [next] or the first [prev] of a segment. *)
Lemma dseg_set_last k k' p l e e' :
  NoDup l -> dseg k p l e ->
  (forall x, x ∈ l -> last l <> Some x -> k' x = k x) ->
  (forall a, last l = Some a -> k' a = Link e' (prev (k a))) ->
  dseg k' p l e'.
Proof.
  destruct l as [|a l _] using rev_ind; [done|].
  intros [Hnd [Ha _]]%NoDup_app Hd Hk Hlast.
  apply dseg_app in Hd as [Hd [Ea _]]. apply dseg_app. simpl in *. split.
  - eapply dseg_frame; [|done]. intros x Hx.
    apply Hk; [set_solver|]. rewrite last_snoc. intros [= ->]. set_solver.
  - split; [|done]. rewrite (Hlast a) by apply last_snoc. by rewrite Ea.
Qed.

Lemma dseg_set_first k k' p p' l e :
  NoDup l -> dseg k p l e ->
  (forall x, x ∈ l -> list.head l <> Some x -> k' x = k x) ->
  (forall b, list.head l = Some b -> k' b = Link (next (k b)) p') ->
  dseg k' p' l e.
Proof.
  destruct l as [|b l]; [done|]. intros [Hb Hnd]%NoDup_cons [Eb Hd] Hk Hfirst.
  simpl in *. split; [rewrite (Hfirst b) by done; by rewrite Eb|].
  eapply dseg_frame; [|done]. intros x Hx.
  apply Hk; [set_solver|]. intros [= ->]. done.
Qed.

(** Two segments chained end to end: all links inside are kept, the two at the
    seam are redirected to each other. *)
Lemma dseg_join k k' p l1 l2 e e1 p2 :
  NoDup (l1 ++ l2) -> dseg k p l1 e1 -> dseg k p2 l2 e ->
  (forall x, x ∈ l1 ++ l2 -> last l1 <> Some x -> list.head l2 <> Some x -> k' x = k x) ->
  (forall a, last l1 = Some a -> k' a = Link (first e l2) (prev (k a))) ->
  (forall b, list.head l2 = Some b -> k' b = Link (next (k b)) (final p l1)) ->
  dseg k' p (l1 ++ l2) e.
Proof.
  intros (Hn1 & Hdisj & Hn2)%NoDup_app H1 H2 Hk Ha Hb. apply dseg_app. split.
  - eapply dseg_set_last; [done|done| |done].
    intros x Hx Hl. apply Hk; [set_solver|done|].
    intros Hh%head_Some_elem_of. set_solver.
  - eapply dseg_set_first; [done|done| |done].
    intros x Hx Hh. apply Hk; [set_solver| |done].
    intros Hl%last_Some_elem_of. set_solver.
Qed.

(** The two shapes of a [LIST_*] operation: linking a node between two parts of
    the list, and unlinking the node between them. *)
Lemma is_list_link s s' l1 n l2 :
  is_list s (l1 ++ l2) -> n ∉ l1 ++ l2 ->
  hdr s' = Header (first None (l1 ++ n :: l2)) (final None (l1 ++ n :: l2)) ->
  lnk s' n = Link (first None l2) (final None l1) ->
  (forall x, x ∈ l1 ++ l2 -> last l1 <> Some x -> list.head l2 <> Some x ->
     lnk s' x = lnk s x) ->
  (forall a, last l1 = Some a -> lnk s' a = Link (Some n) (prev (lnk s a))) ->
  (forall b, list.head l2 = Some b -> lnk s' b = Link (next (lnk s b)) (Some n)) ->
  is_list s' (l1 ++ n :: l2).
Proof.
  intros (_ & Hnd & Hd) Hn Hh En Hk Ha Hb.
  pose proof Hnd as (Hn1 & Hdisj & Hn2)%NoDup_app.
  apply dseg_app in Hd as [H1 H2]. split; [done|]. split.
  { apply NoDup_app. split; [done|]. split; [set_solver|]. constructor; set_solver. }
  apply dseg_app. simpl. split; [|split; [done|]].
  - eapply dseg_set_last; [done|done| |done].
    intros x Hx Hl. apply Hk; [set_solver|done|].
    intros Hh'%head_Some_elem_of. set_solver.
  - eapply dseg_set_first; [done|done| |done].
    intros x Hx Hh'. apply Hk; [set_solver| |done].
    intros Hl%last_Some_elem_of. set_solver.
Qed.

Lemma is_list_unlink s s' l1 n l2 :
  is_list s (l1 ++ n :: l2) ->
  hdr s' = Header (first None (l1 ++ l2)) (final None (l1 ++ l2)) ->
  (forall x, x ∈ l1 ++ l2 -> last l1 <> Some x -> list.head l2 <> Some x ->
     lnk s' x = lnk s x) ->
  (forall a, last l1 = Some a -> lnk s' a = Link (first None l2) (prev (lnk s a))) ->
  (forall b, list.head l2 = Some b -> lnk s' b = Link (next (lnk s b)) (final None l1)) ->
  is_list s' (l1 ++ l2).
Proof.
  intros (_ & Hnd & Hd) Hh Hk Ha Hb.
  apply NoDup_app in Hnd as (Hn1 & Hdisj & [Hn Hn2]%NoDup_cons).
  assert (NoDup (l1 ++ l2)) by (apply NoDup_app; set_solver).
  apply dseg_app in Hd as [H1 [_ H2]].
  split; [done|]. split; [done|]. by eapply dseg_join.
Qed.

(** Links of the nodes around a position of a list. *)
Lemma is_list_at s l1 n l2 :
  is_list s (l1 ++ n :: l2) -> lnk s n = Link (first None l2) (final None l1).
Proof. by intros (_ & _ & [_ [? _]]%dseg_app). Qed.

(** Case analysis on the ends of the two parts of a split list. *)
Ltac ends l1 l2 :=
  let a := fresh "a" in let b := fresh "b" in
  destruct l1 as [|a l1 _] using rev_ind; destruct l2 as [|b l2]; simpl in *.

Ltac lsimp :=
  intros;
  unfold LIST_ADD_HEAD, LIST_ADD_TAIL, LIST_INSERT_AFTER, LIST_INSERT_BEFORE,
    LIST_REM_ENTRY, set_next, set_prev, set_head, set_tail, insert, fn_insert in *;
  simpl in *;
  rewrite ?last_snoc, ?final_snoc, ?final_nil, ?final_cons, ?final_app, ?first_app in *;
  simplify_eq/=; repeat (case_decide; simplify_eq/=);
  rewrite ?final_nil, ?final_cons; try done.
Ltac links := lsimp; try set_solver.

Ltac open_list s Hl :=
  let Hh := fresh "Hh" in let Hnd := fresh "Hnd" in let Hd := fresh "Hd" in
  pose proof Hl as (Hh & Hnd & Hd); destruct s as [h k]; simpl in Hh; subst h;
  simpl in *.

Lemma LIST_ADD_HEAD_ok s l n :
  is_list s l -> n ∉ l -> is_list (LIST_ADD_HEAD n s) (n :: l).
Proof.
  intros Hl Hn. open_list s Hl.
  apply (is_list_link _ _ [] n l Hl); try done; destruct l as [|b l]; links.
Qed.

Lemma LIST_ADD_TAIL_ok s l n :
  is_list s l -> n ∉ l -> is_list (LIST_ADD_TAIL n s) (l ++ [n]).
Proof.
  intros Hl Hn. open_list s Hl.
  apply (is_list_link (Lists (Header (first None l) (final None l)) k) _ l n []);
    rewrite ?app_nil_r; try done; unfold LIST_ADD_TAIL; simpl;
    destruct l as [|a l _] using rev_ind; links.
Qed.

Lemma LIST_INSERT_AFTER_ok s l1 q l2 n :
  is_list s (l1 ++ q :: l2) -> n ∉ l1 ++ q :: l2 ->
  is_list (LIST_INSERT_AFTER q n s) (l1 ++ q :: n :: l2).
Proof.
  intros Hl Hn. pose proof (is_list_at _ _ _ _ Hl) as Eq. open_list s Hl.
  rewrite (cons_middle q), (app_assoc l1 [q]) in *.
  rewrite (cons_middle q l1 (n :: l2)), (app_assoc l1 [q]).
  apply NoDup_app in Hnd as (_ & Hdisj & _).
  eapply is_list_link; [done|done|..]; unfold LIST_INSERT_AFTER; simpl; rewrite ?Eq;
    destruct l2 as [|b l2]; links.
Qed.

Lemma LIST_INSERT_BEFORE_ok s l1 q l2 n :
  is_list s (l1 ++ q :: l2) -> n ∉ l1 ++ q :: l2 ->
  is_list (LIST_INSERT_BEFORE q n s) (l1 ++ n :: q :: l2).
Proof.
  intros Hl Hn. pose proof (is_list_at _ _ _ _ Hl) as Eq. open_list s Hl.
  apply NoDup_app in Hnd as (_ & Hdisj & _).
  eapply is_list_link; [done|done|..]; unfold LIST_INSERT_BEFORE; simpl; rewrite ?Eq;
    destruct l1 as [|a l1 _] using rev_ind; links.
Qed.

Lemma LIST_REM_ENTRY_ok s l1 q l2 :
  is_list s (l1 ++ q :: l2) -> is_list (LIST_REM_ENTRY q s) (l1 ++ l2).
Proof.
  intros Hl. pose proof (is_list_at _ _ _ _ Hl) as Eq. open_list s Hl.
  apply NoDup_app in Hnd as (_ & Hdisj & [? ?]%NoDup_cons).
  eapply is_list_unlink; [done|..]; unfold LIST_REM_ENTRY; simpl; rewrite ?Eq; simpl;
    destruct l1 as [|a l1 _] using rev_ind; destruct l2 as [|b l2]; lsimp;
    rewrite ?Eq; lsimp; rewrite ?Eq; links.
Qed.

Lemma LIST_REM_HEAD_ok s n l :
  is_list s (n :: l) -> exists s', LIST_REM_HEAD s = Some s' /\ is_list s' l.
Proof.
  intros Hl. pose proof (is_list_at s [] n l Hl) as Eq. open_list s Hl.
  eexists. split; [reflexivity|]. apply NoDup_cons in Hnd as [? ?].
  apply (is_list_unlink _ _ [] n l Hl); simpl; rewrite Eq; destruct l as [|b l]; links.
Qed.

Lemma LIST_REM_TAIL_ok s l n :
  is_list s (l ++ [n]) -> exists s', LIST_REM_TAIL s = Some s' /\ is_list s' l.
Proof.
  intros Hl. pose proof (is_list_at s l n [] Hl) as Eq. open_list s Hl.
  unfold LIST_REM_TAIL; simpl. rewrite final_snoc; simpl.
  eexists. split; [reflexivity|]. apply NoDup_app in Hnd as (_ & Hdisj & _).
  rewrite <- (app_nil_r l). eapply is_list_unlink; [done|..]; simpl; rewrite Eq;
    destruct l as [|b l _] using rev_ind; links.
Qed.

(** ** Refinement: every [LIST_*] operation implements its list operation *)

Inductive list_op :=
  | AddHead (n : node) | AddTail (n : node) | RemHead | RemTail
  | InsertAfter (q n : node) | InsertBefore (q n : node) | RemEntry (q : node).

Definition exec_list (o : list_op) s : option (lists node) :=
  match o with
  | AddHead n => Some (LIST_ADD_HEAD n s)
  | AddTail n => Some (LIST_ADD_TAIL n s)
  | RemHead => LIST_REM_HEAD s
  | RemTail => LIST_REM_TAIL s
  | InsertAfter q n => Some (LIST_INSERT_AFTER q n s)
  | InsertBefore q n => Some (LIST_INSERT_BEFORE q n s)
  | RemEntry q => Some (LIST_REM_ENTRY q s)
  end.

(** The abstract operations, as relations on lists without repetition: a node
    is linked only when it is not already queued and unlinked only when it is. *)
Inductive list_spec : list_op -> list node -> list node -> Prop :=
  | spec_add_head n l : n ∉ l -> list_spec (AddHead n) l (n :: l)
  | spec_add_tail n l : n ∉ l -> list_spec (AddTail n) l (l ++ [n])
  | spec_rem_head n l : list_spec RemHead (n :: l) l
  | spec_rem_tail n l : list_spec RemTail (l ++ [n]) l
  | spec_insert_after q n l1 l2 :
      n ∉ l1 ++ q :: l2 -> list_spec (InsertAfter q n) (l1 ++ q :: l2) (l1 ++ q :: n :: l2)
  | spec_insert_before q n l1 l2 :
      n ∉ l1 ++ q :: l2 -> list_spec (InsertBefore q n) (l1 ++ q :: l2) (l1 ++ n :: q :: l2)
  | spec_rem_entry q l1 l2 : list_spec (RemEntry q) (l1 ++ q :: l2) (l1 ++ l2).

(** A sequence of operations on one list. *)
Fixpoint exec_lists (os : list list_op) s : option (lists node) :=
  match os with
  | [] => Some s
  | o :: os => s' ← exec_list o s; exec_lists os s'
  end.

Inductive lists_spec : list list_op -> list node -> list node -> Prop :=
  | specs_nil l : lists_spec [] l l
  | specs_cons o os l l' l'' :
      list_spec o l l' -> lists_spec os l' l'' -> lists_spec (o :: os) l l''.

Lemma exec_list_refines o s l l' :
  is_list s l -> list_spec o l l' -> exists s', exec_list o s = Some s' /\ is_list s' l'.
Proof.
  intros Hl Hs. destruct Hs; simpl; eauto using LIST_ADD_HEAD_ok, LIST_ADD_TAIL_ok,
    LIST_INSERT_AFTER_ok, LIST_INSERT_BEFORE_ok, LIST_REM_ENTRY_ok, LIST_REM_HEAD_ok,
    LIST_REM_TAIL_ok.
Qed.

(** The nodes an operation links into the list. *)
Definition linked (o : list_op) : list node :=
  match o with
  | AddHead n | AddTail n | InsertAfter _ n | InsertBefore _ n => [n]
  | RemHead | RemTail | RemEntry _ => []
  end.

Lemma list_spec_subset o l l' : list_spec o l l' -> l' ⊆ l ++ linked o.
Proof. destruct 1; simpl; set_solver. Qed.

Lemma exec_list_frame o s l l' s' x :
  is_list s l -> list_spec o l l' -> exec_list o s = Some s' ->
  x ∉ l -> x ∉ linked o -> lnk s' x = lnk s x.
Proof.
  intros Hl Hs He Hx Hx'. open_list s Hl.
  destruct Hs as [n l|n l|n l|n l|q n l1 l2|q n l1 l2|q l1 l2]; simplify_eq/=.
  - destruct l; links.
  - destruct l as [|? ? _] using rev_ind; links.
  - pose proof (is_list_at _ [] _ _ Hl) as Eq; simpl in Eq.
    unfold LIST_REM_HEAD in He; simplify_eq/=. rewrite Eq; destruct l; links.
  - pose proof (is_list_at _ _ _ [] Hl) as Eq; simpl in Eq.
    unfold LIST_REM_TAIL in He; simpl in He; rewrite final_snoc in He; simplify_eq/=.
    rewrite Eq; destruct l as [|? ? _] using rev_ind; links.
  - pose proof (is_list_at _ _ _ _ Hl) as Eq; simpl in Eq.
    unfold LIST_INSERT_AFTER; simpl. rewrite ?Eq; destruct l2; links.
  - pose proof (is_list_at _ _ _ _ Hl) as Eq; simpl in Eq.
    unfold LIST_INSERT_BEFORE; simpl. rewrite ?Eq; destruct l1 as [|? ? _] using rev_ind; links.
  - pose proof (is_list_at _ _ _ _ Hl) as Eq; simpl in Eq.
    unfold LIST_REM_ENTRY; simpl. rewrite ?Eq;
      destruct l1 as [|? ? _] using rev_ind; destruct l2; lsimp;
      rewrite ?Eq; lsimp; rewrite ?Eq; links.
Qed.

(** C11. The [LIST_*] macros of kernel/lists.h implement lists: from a header and
    link fields that represent [l], every sequence of link and unlink operations
    allowed on [l] runs without dereferencing NULL and ends in a representation
    of the resulting list, and the link fields of nodes that are neither on the
    list nor linked by the sequence keep their values. *)
Theorem list_macros_refine os s l l' :
  is_list s l -> lists_spec os l l' ->
  exists s', exec_lists os s = Some s' /\ is_list s' l' /\
    forall x, x ∉ l -> x ∉ concat (map linked os) -> lnk s' x = lnk s x.
Proof.
  intros Hl Hs. revert s Hl.
  induction Hs as [l|o os l l1 l2 Ho Hs IH]; intros s Hl; simpl; [eauto|].
  destruct (exec_list_refines _ _ _ _ Hl Ho) as (s1 & E1 & Hl1).
  destruct (IH s1 Hl1) as (s2 & E2 & Hl2 & Hfr).
  exists s2. rewrite E1; simpl. split_and!; [done|done|].
  intros x Hx Hx'. pose proof (list_spec_subset _ _ _ Ho) as Hsub.
  rewrite Hfr by set_solver. eapply exec_list_frame; [done..|set_solver].
Qed.

(** ** Circular queues *)

Definition ring (k : node -> link node) l : Prop :=
  NoDup l /\ dseg k (final None l) l (first None l).

Lemma ring_rotate k x l : ring k (x :: l) <-> ring k (l ++ [x]).
Proof.
  unfold ring. rewrite final_snoc, final_cons, first_app, dseg_app. simpl.
  rewrite NoDup_app, NoDup_cons. split.
  - intros ([Hx Hn] & Ex & Hd). split_and!; try done; [set_solver|apply NoDup_singleton].
  - intros ((Hn & Hx & _) & Hd & Ex & _). split_and!; try done. set_solver.
Qed.

Lemma ring_app k l1 l2 : ring k (l1 ++ l2) <-> ring k (l2 ++ l1).
Proof.
  revert l2; induction l1 as [|x l1 IH]; intros l2; simpl; [by rewrite app_nil_r|].
  rewrite ring_rotate. rewrite <- app_assoc, IH, <- app_assoc. done.
Qed.

Lemma ring_at k l1 q l2 :
  ring k (l1 ++ q :: l2) -> k q = Link (first (Some q) (l2 ++ l1)) (final (Some q) (l2 ++ l1)).
Proof.
  intros H. apply ring_app in H as [_ H]. simpl in H. rewrite final_cons in H. by destruct H.
Qed.

(** Linking [n] behind the last node of a ring that starts at [h]. *)
Lemma ring_link k k' h l n :
  ring k (h :: l) -> n ∉ h :: l ->
  k' n = Link (Some h) (final (Some h) l) ->
  (forall x, x ∈ h :: l -> x <> h -> Some x <> final (Some h) l -> k' x = k x) ->
  next (k' h) = first (Some n) l -> prev (k' h) = Some n ->
  (forall t, last l = Some t -> k' t = Link (Some n) (prev (k t))) ->
  ring k' (h :: l ++ [n]).
Proof.
  intros [Hnd Hd] Hn En Hk Hh Hh' Ht. apply NoDup_cons in Hnd as [Hnh Hnd].
  split.
  { rewrite app_comm_cons. apply NoDup_app. split; [by constructor|].
    split; [set_solver|apply NoDup_singleton]. }
  rewrite final_cons, final_snoc. simpl in *. rewrite first_app. simpl.
  destruct Hd as [Eh Hd]. split.
  { by destruct (k' h); simplify_eq/=. }
  apply dseg_app. simpl. split; [|done].
  eapply dseg_set_last; [done|done| |done].
  intros x Hx Hl. apply Hk; [set_solver|set_solver|].
  unfold final. destruct (last l) eqn:E; [congruence|].
  intros [= ->]. done.
Qed.

(** Unlinking the node [q] from a ring in which it is not alone. *)
Lemma ring_unlink k k' q l :
  ring k (q :: l) -> l <> [] ->
  (forall x, x ∈ l -> list.head l <> Some x -> last l <> Some x -> k' x = k x) ->
  (forall b, list.head l = Some b -> prev (k' b) = last l /\
     (last l <> Some b -> next (k' b) = next (k b))) ->
  (forall t, last l = Some t -> next (k' t) = list.head l /\
     (list.head l <> Some t -> prev (k' t) = prev (k t))) ->
  ring k' l.
Proof.
  intros [Hnd [_ Hd]] Hne Hk Hb Ht. apply NoDup_cons in Hnd as [Hq Hnd].
  split; [done|]. destruct l as [|b l]; [done|]. simpl in *.
  destruct Hd as [Eb Hd]. destruct (Hb b eq_refl) as [Hb1 Hb2].
  apply NoDup_cons in Hnd as [Hbl Hnd]. split.
  - destruct l as [|t l _] using rev_ind; simpl in *.
    + destruct (Ht b eq_refl) as [Ht1 _]. by destruct (k' b); simplify_eq/=.
    + rewrite last_cons, last_snoc in *. rewrite Eb in Hb2. simpl in Hb2.
      specialize (Hb2 ltac:(set_solver)).
      destruct (k' b) as [x y]; simplify_eq/=. rewrite final_cons, final_snoc.
      by rewrite !first_app.
  - eapply dseg_set_last; [done|done| |].
    + intros x Hx Hl. apply Hk; [set_solver|set_solver|].
      rewrite last_cons. destruct (last l) eqn:E; [done|]. intros [= ->]. done.
    + intros a Ha. destruct (Ht a) as [H1 H2]; [rewrite last_cons; by rewrite Ha|].
      specialize (H2 ltac:(intros [= ->]; apply last_Some_elem_of in Ha; done)).
      by destruct (k' a); simplify_eq/=.
Qed.

Lemma is_circleq_ring s l :
  is_circleq s l <-> head (hdr s) = first None l /\ ring (lnk s) l.
Proof. unfold is_circleq, ring. tauto. Qed.

Ltac open_ring s Hl :=
  let Hh := fresh "Hh" in let Hr := fresh "Hr" in
  apply is_circleq_ring in Hl as [Hh Hr]; destruct s as [[h0 t0] k]; simpl in Hh, Hr; subst h0.

Lemma CIRCLEQ_ADD_TAIL_ok s l n :
  is_circleq s l -> n ∉ l ->
  exists s', CIRCLEQ_ADD_TAIL n s = Some s' /\ is_circleq s' (l ++ [n]) /\
    head (hdr s') = first (Some n) l.
Proof.
  intros Hl Hn. open_ring s Hl. destruct l as [|h l]; simpl.
  { eexists. split; [done|]. rewrite is_circleq_ring. split; [split; [done|]|done].
    split; [apply NoDup_singleton|]. links. }
  pose proof (ring_at k [] h l Hr) as Eh. rewrite app_nil_r in Eh.
  unfold CIRCLEQ_ADD_TAIL; simpl. rewrite !fn_lookup_insert. simpl.
  rewrite (fn_lookup_insert_ne k n h) by set_solver. rewrite Eh. simpl.
  rewrite (fn_lookup_insert_ne _ h n) by set_solver. rewrite fn_lookup_insert. simpl.
  destruct (final (Some h) l) as [t|] eqn:Et; [|unfold final in Et; by destruct (last l)].
  simpl. eexists. split; [done|]. rewrite is_circleq_ring. split; [split; [done|]|done].
  pose proof Hr as [[Hhl Hnd]%NoDup_cons _].
  assert (t ∈ h :: l).
  { unfold final in Et. destruct (last l) eqn:E; simplify_eq; [|set_solver].
    apply last_Some_elem_of in E. set_solver. }
  assert (last l = Some t \/ l = [] /\ t = h) as Htl.
  { destruct l as [|x l _] using rev_ind; [right; unfold final in Et; naive_solver|].
    left. by rewrite last_snoc, final_snoc in *. }
  eapply ring_link; [done|done|..]; rewrite ?Et.
  - links.
  - links.
  - destruct Htl as [Htl|[-> ->]]; [|links].
    assert (t <> h) by (apply last_Some_elem_of in Htl; set_solver).
    links. rewrite Eh. by destruct l.
  - links.
  - intros t' Ht'. destruct Htl as [Htl|[-> ->]]; [|done].
    assert (t' <> h) by (apply last_Some_elem_of in Ht'; set_solver).
    assert (t' = t) as -> by congruence. links.
Qed.

Lemma CIRCLEQ_ADD_HEAD_tail s l n :
  is_circleq s l -> n ∉ l ->
  exists s', CIRCLEQ_ADD_HEAD n s = Some (set_head (Some n) s') /\
    CIRCLEQ_ADD_TAIL n s = Some s'.
Proof.
  intros Hl Hn. open_ring s Hl. destruct l as [|h l]; simpl.
  { eexists. split; [|reflexivity]. reflexivity. }
  pose proof (ring_at k [] h l Hr) as Eh. rewrite app_nil_r in Eh.
  unfold CIRCLEQ_ADD_HEAD, CIRCLEQ_ADD_TAIL; simpl.
  rewrite !fn_lookup_insert. simpl.
  rewrite (fn_lookup_insert_ne k n h) by set_solver. rewrite Eh. simpl.
  rewrite !(fn_lookup_insert_ne _ h n) by set_solver. rewrite !fn_lookup_insert. simpl.
  destruct (final (Some h) l) as [t|] eqn:Et; [|unfold final in Et; by destruct (last l)].
  simpl. eauto.
Qed.

Lemma CIRCLEQ_ADD_HEAD_ok s l n :
  is_circleq s l -> n ∉ l ->
  exists s', CIRCLEQ_ADD_HEAD n s = Some s' /\ is_circleq s' (n :: l).
Proof.
  intros Hl Hn. destruct (CIRCLEQ_ADD_HEAD_tail s l n Hl Hn) as (s' & E1 & E2).
  destruct (CIRCLEQ_ADD_TAIL_ok s l n Hl Hn) as (s'' & E3 & Hl' & _).
  simplify_eq. eexists. split; [done|]. apply is_circleq_ring in Hl' as [_ Hr].
  rewrite is_circleq_ring. split; [done|]. by apply ring_rotate.
Qed.

Lemma CIRCLEQ_REM_ENTRY_ok s l1 q l2 :
  is_circleq s (l1 ++ q :: l2) ->
  exists s', CIRCLEQ_REM_ENTRY q s = Some s' /\ is_circleq s' (l1 ++ l2).
Proof.
  intros Hl. open_ring s Hl. pose proof (ring_at k l1 q l2 Hr) as Eq.
  apply ring_app in Hr. simpl in Hr. unfold CIRCLEQ_REM_ENTRY. simpl.
  pose proof Hr as [[Hql Hnd]%NoDup_cons _].
  destruct (l2 ++ l1) as [|b m] eqn:Em.
  { apply app_eq_nil in Em as [-> ->]. simpl in *. rewrite Eq. simpl.
    rewrite decide_True by done. eexists. split; [done|].
    rewrite is_circleq_ring. split; [done|]. split; [constructor|done]. }
  rewrite Eq. simpl. rewrite decide_False by set_solver. simpl.
  rewrite !(fn_lookup_insert_ne _ b q) by set_solver. rewrite Eq. simpl.
  rewrite final_cons.
  destruct (final (Some b) m) as [t|] eqn:Et; [|unfold final in Et; by destruct (last m)].
  simpl. assert (last (b :: m) = Some t) as Htl.
  { rewrite last_cons. unfold final in Et. by destruct (last m); simplify_eq. }
  assert (t <> q) by (apply last_Some_elem_of in Htl; set_solver).
  rewrite !(fn_lookup_insert_ne _ t q) by done.
  rewrite !(fn_lookup_insert_ne _ b q) by set_solver. rewrite Eq. simpl.
  eexists. split; [done|]. rewrite is_circleq_ring. split.
  { destruct l1 as [|c l1]; simpl in *.
    - rewrite app_nil_r in Em. subst l2. by rewrite decide_True.
    - rewrite decide_False; [done|]. intros [= ->]. apply Hql. rewrite <- Em. set_solver. }
  apply ring_app. rewrite Em.
  match goal with |- ring (lnk (if decide ?P then set_head ?v ?x else ?x)) _ =>
    replace (lnk (if decide P then set_head v x else x)) with (lnk x) by (by case_decide) end.
  eapply ring_unlink; [done|done|..]; simpl; rewrite ?Htl; clear Hr.
  - links.
  - intros b' Hb'. split; links.
  - intros t' Ht'. split; links.
Qed.

Lemma CIRCLEQ_FORWARD_ok s h l :
  is_circleq s (h :: l) ->
  exists s', CIRCLEQ_FORWARD s = Some s' /\ is_circleq s' (l ++ [h]) /\ lnk s' = lnk s.
Proof.
  intros Hl. open_ring s Hl. pose proof (ring_at k [] h l Hr) as Eh.
  rewrite app_nil_r in Eh. unfold CIRCLEQ_FORWARD; simpl. eexists. split; [done|].
  split; [|done]. rewrite is_circleq_ring. simpl. rewrite Eh. split; [by destruct l|].
  by apply ring_rotate.
Qed.

Lemma CIRCLEQ_REM_HEAD_ok s h l :
  is_circleq s (h :: l) ->
  exists s', CIRCLEQ_REM_HEAD s = Some s' /\ is_circleq s' l.
Proof.
  intros Hl. destruct (CIRCLEQ_REM_ENTRY_ok s [] h l Hl) as (s' & E & Hl').
  exists s'. split; [|done]. rewrite <- E. clear E.
  open_ring s Hl. unfold CIRCLEQ_REM_HEAD, CIRCLEQ_REM_ENTRY; simpl.
  case_decide; [done|]. destruct (next (k h)) as [q|]; [|done]. simpl.
  match goal with |- context [prev (?f h) ≫= _] => destruct (prev (f h)) end; [|done].
  simpl. by rewrite decide_True.
Qed.

Lemma CIRCLEQ_REM_TAIL_ok s l t :
  is_circleq s (l ++ [t]) ->
  exists s', CIRCLEQ_REM_TAIL s = Some s' /\ is_circleq s' l.
Proof.
  intros Hl. open_ring s Hl. destruct l as [|h l]; simpl.
  { destruct Hr as [_ [Et _]]. unfold CIRCLEQ_REM_TAIL. simpl in *. rewrite Et. simpl.
    rewrite decide_True by done. eexists. split; [done|].
    rewrite is_circleq_ring. split; [done|]. split; [constructor|done]. }
  pose proof (ring_at k [] h (l ++ [t]) Hr) as Eh. rewrite app_nil_r, final_snoc, first_app in Eh.
  pose proof (ring_at k (h :: l) t [] Hr) as Et. simpl in Et. rewrite final_cons in Et.
  apply ring_rotate in Hr. pose proof Hr as [[Htl [Hhl Hnd]%NoDup_cons]%NoDup_cons _].
  unfold CIRCLEQ_REM_TAIL. simpl. rewrite Eh. simpl.
  rewrite decide_False; [|destruct l; set_solver]. simpl. rewrite Et. simpl.
  destruct (final (Some h) l) as [u|] eqn:Eu; [|unfold final in Eu; by destruct (last l)].
  simpl. assert (last (h :: l) = Some u) as Hu.
  { rewrite last_cons. unfold final in Eu. by destruct (last l); simplify_eq. }
  assert (u <> t) by (apply last_Some_elem_of in Hu; set_solver).
  assert (prev (<[u:={| next := Some h; prev := prev (k u) |}]> k h) = Some t) as ->.
  { destruct (decide (u = h)) as [->|]; [rewrite fn_lookup_insert|
      rewrite fn_lookup_insert_ne by done]; simpl; by rewrite Eh. }
  simpl. rewrite (fn_lookup_insert_ne _ u t) by done. rewrite Et. simpl.
  eexists. split; [done|]. rewrite is_circleq_ring. split; [done|].
  eapply ring_unlink; [done|done|..]; simpl; rewrite ?Hu; clear Hr.
  - links.
  - intros b' Hb'. split; links.
  - intros t' Ht'. split; links.
Qed.

Inductive circleq_op :=
  | CAddHead (n : node) | CAddTail (n : node) | CRemHead | CRemTail
  | CRemEntry (q : node) | CForward.

Definition exec_circleq (o : circleq_op) s : option (lists node) :=
  match o with
  | CAddHead n => CIRCLEQ_ADD_HEAD n s
  | CAddTail n => CIRCLEQ_ADD_TAIL n s
  | CRemHead => CIRCLEQ_REM_HEAD s
  | CRemTail => CIRCLEQ_REM_TAIL s
  | CRemEntry q => CIRCLEQ_REM_ENTRY q s
  | CForward => CIRCLEQ_FORWARD s
  end.

Inductive circleq_spec : circleq_op -> list node -> list node -> Prop :=
  | cspec_add_head n l : n ∉ l -> circleq_spec (CAddHead n) l (n :: l)
  | cspec_add_tail n l : n ∉ l -> circleq_spec (CAddTail n) l (l ++ [n])
  | cspec_rem_head n l : circleq_spec CRemHead (n :: l) l
  | cspec_rem_tail n l : circleq_spec CRemTail (l ++ [n]) l
  | cspec_rem_entry q l1 l2 : circleq_spec (CRemEntry q) (l1 ++ q :: l2) (l1 ++ l2)
  | cspec_forward n l : circleq_spec CForward (n :: l) (l ++ [n]).

Fixpoint exec_circleqs (os : list circleq_op) s : option (lists node) :=
  match os with
  | [] => Some s
  | o :: os => s' ← exec_circleq o s; exec_circleqs os s'
  end.

Inductive circleqs_spec : list circleq_op -> list node -> list node -> Prop :=
  | cspecs_nil l : circleqs_spec [] l l
  | cspecs_cons o os l l' l'' :
      circleq_spec o l l' -> circleqs_spec os l' l'' -> circleqs_spec (o :: os) l l''.

Lemma exec_circleq_refines o s l l' :
  is_circleq s l -> circleq_spec o l l' ->
  exists s', exec_circleq o s = Some s' /\ is_circleq s' l'.
Proof.
  intros Hl Ho. destruct Ho; simpl;
    eauto using CIRCLEQ_ADD_HEAD_ok, CIRCLEQ_REM_HEAD_ok, CIRCLEQ_REM_TAIL_ok,
      CIRCLEQ_REM_ENTRY_ok.
  - destruct (CIRCLEQ_ADD_TAIL_ok _ _ _ Hl H) as (? & ? & ? & _). eauto.
  - destruct (CIRCLEQ_FORWARD_ok _ _ _ Hl) as (? & ? & ? & _). eauto.
Qed.

(** C12. The [CIRCLEQ_*] macros that the scheduler's run queues use implement
    rotating queues: from a ring that represents [l] from its head, every allowed
    sequence of insertions, removals and rotations runs without dereferencing
    NULL and ends in a ring that represents the resulting list. *)
Theorem circleq_macros_refine os s l l' :
  is_circleq s l -> circleqs_spec os l l' ->
  exists s', exec_circleqs os s = Some s' /\ is_circleq s' l'.
Proof.
  intros Hl Hs. revert s Hl.
  induction Hs as [l|o os l l1 l2 Ho Hs IH]; intros s Hl; simpl; [eauto|].
  destruct (exec_circleq_refines _ _ _ _ Hl Ho) as (s1 & E1 & Hl1).
  rewrite E1. simpl. by apply IH.
Qed.

End macros.

(** ** Witnesses *)

Definition no_links : Z -> link Z := fun _ => Link None None.

Lemma list_macros_refine_witness :
  exists s', exec_lists [AddTail 1; AddHead 2; InsertAfter 2 3; RemEntry 1; RemHead]
      (LIST_INIT (Lists (Header (Some 7) (Some 7)) no_links)) = Some s' /\
    is_list s' [3] /\
    forall x, x ∉ ([] : list Z) ->
      x ∉ concat (map linked [AddTail 1; AddHead 2; InsertAfter 2 3; RemEntry 1; RemHead]) ->
      lnk s' x = no_links x.
Proof.
  apply (list_macros_refine _
    (LIST_INIT (Lists (Header (Some 7) (Some 7)) no_links)) [] [3]).
  - repeat split; constructor.
  - econstructor; [apply spec_add_tail; set_solver|].
    econstructor; [apply spec_add_head; set_solver|].
    econstructor; [apply (spec_insert_after 2 3 [] [1]); set_solver|].
    econstructor; [apply (spec_rem_entry 1 [2; 3] [])|].
    econstructor; [apply spec_rem_head|]. constructor.
Defined.

Lemma circleq_macros_refine_witness :
  exists s', exec_circleqs [CAddTail 1; CAddTail 2; CAddHead 3; CForward; CRemEntry 2]
      (CIRCLEQ_INIT (Lists (Header (Some 7) None) no_links)) = Some s' /\
    is_circleq s' [1; 3].
Proof.
  apply (circleq_macros_refine _ _ [] [1; 3]).
  - repeat split; constructor.
  - econstructor; [apply cspec_add_tail; set_solver|].
    econstructor; [apply cspec_add_tail; set_solver|].
    econstructor; [apply cspec_add_head; set_solver|].
    econstructor; [apply cspec_forward|].
    econstructor; [apply (cspec_rem_entry 2 [1] [3])|]. constructor.
Defined.

End Intrusive.

(** ** The macros on represented lists

    What the other components use: the effect of each macro on the list a header
    represents, undefined where the macro would dereference NULL or corrupt the
    links. *)
Module Seq.
Section seq.
Context {A : Type} `{EqDecision A}.

Definition add_head (x : A) (l : list A) : option (list A) :=
  if bool_decide (x ∈ l) then None else Some (x :: l).
Definition add_tail (x : A) (l : list A) : option (list A) :=
  if bool_decide (x ∈ l) then None else Some (l ++ [x]).
Definition rem_head (l : list A) : option (list A) :=
  match l with [] => None | _ :: l => Some l end.
Definition rem_entry (x : A) (l : list A) : option (list A) :=
  if bool_decide (x ∈ l) then Some (filter (fun y => y <> x) l) else None.
Definition forward (l : list A) : option (list A) :=
  match l with [] => None | x :: l => Some (l ++ [x]) end.

Lemma filter_ne_id (x : A) (l : list A) : x ∉ l -> filter (fun y => y <> x) l = l.
Proof.
  intros Hx. induction l as [|y l IH]; [done|].
  rewrite filter_cons_True by set_solver. f_equal. apply IH. set_solver.
Qed.

Lemma filter_ne_split (x : A) (l1 l2 : list A) :
  NoDup (l1 ++ x :: l2) -> filter (fun y => y <> x) (l1 ++ x :: l2) = l1 ++ l2.
Proof.
  intros (_ & H1 & [H2 _]%NoDup_cons)%NoDup_app.
  rewrite filter_app, filter_cons_False by (intros H; by apply H).
  rewrite !filter_ne_id; [done|done|]. intros Hx. apply (H1 _ Hx). set_solver.
Qed.

Lemma add_tail_fresh (x : A) (l : list A) : x ∉ l -> add_tail x l = Some (l ++ [x]).
Proof. intros. unfold add_tail. by rewrite bool_decide_false. Qed.

Lemma add_tail_Some (x : A) (l l' : list A) : add_tail x l = Some l' -> x ∉ l /\ l' = l ++ [x].
Proof. unfold add_tail. case_bool_decide; naive_solver. Qed.

Lemma rem_entry_linked (x : A) (l : list A) :
  x ∈ l -> rem_entry x l = Some (filter (fun y => y <> x) l).
Proof. intros. unfold rem_entry. by rewrite bool_decide_true. Qed.

Lemma rem_entry_head (x : A) (l : list A) : NoDup (x :: l) -> rem_entry x (x :: l) = Some l.
Proof.
  intros [Hx _]%NoDup_cons. rewrite rem_entry_linked by set_solver.
  rewrite filter_cons_False by naive_solver. by rewrite filter_ne_id.
Qed.

(** Each of these operations, where it is defined on a list without
    duplicates, is what the corresponding macro of lists.h does. *)
Lemma seq_list_spec (x : A) (l l' : list A) :
  NoDup l ->
  (add_head x l = Some l' -> Intrusive.list_spec (Intrusive.AddHead x) l l') /\
  (add_tail x l = Some l' -> Intrusive.list_spec (Intrusive.AddTail x) l l') /\
  (rem_head l = Some l' -> Intrusive.list_spec Intrusive.RemHead l l') /\
  (rem_entry x l = Some l' -> Intrusive.list_spec (Intrusive.RemEntry x) l l').
Proof.
  intros Hnd. split_and!.
  - unfold add_head. case_bool_decide; intros; simplify_eq. by constructor.
  - intros [Hx ->]%add_tail_Some. by constructor.
  - destruct l; simpl; intros; simplify_eq. constructor.
  - unfold rem_entry. case_bool_decide as Hx; intros; simplify_eq.
    apply list_elem_of_split in Hx as (l1 & l2 & ->).
    rewrite filter_ne_split by done. constructor.
Qed.

Lemma seq_circleq_spec (x : A) (l l' : list A) :
  NoDup l ->
  (add_tail x l = Some l' -> Intrusive.circleq_spec (Intrusive.CAddTail x) l l') /\
  (rem_head l = Some l' -> Intrusive.circleq_spec Intrusive.CRemHead l l') /\
  (rem_entry x l = Some l' -> Intrusive.circleq_spec (Intrusive.CRemEntry x) l l') /\
  (forward l = Some l' -> Intrusive.circleq_spec Intrusive.CForward l l').
Proof.
  intros Hnd. split_and!.
  - intros [Hx ->]%add_tail_Some. by constructor.
  - destruct l; simpl; intros; simplify_eq. constructor.
  - unfold rem_entry. case_bool_decide as Hx; intros; simplify_eq.
    apply list_elem_of_split in Hx as (l1 & l2 & ->).
    rewrite filter_ne_split by done. constructor.
  - destruct l; simpl; intros; simplify_eq. constructor.
Qed.

End seq.
End Seq.
