(* ===== verification/Sched.v ===== *)
(** * Processes, the scheduler and the big kernel lock

    The model of kernel/proc/sched.c together with the parts of [struct Process]
    (kernel/h/kernel/proc.h), [struct Timer] (kernel/h/kernel/timer.h),
    [struct Rendez] (kernel/h/kernel/sync.h) and [struct CPU] that the process
    side of the kernel works on.

    A process is named by its slot in the process table, a rendez and a timer by
    the object that embeds them.  Intrusive lists are the lists they represent
    (the operations of [Lists.Seq]); an operation that would dereference NULL,
    link a node twice, unlink a node that is not linked, index [sched_queue] out
    of range or enter [KernelPanic] has no result ([None]).  Functions that end
    in a context switch are modelled up to the switch, which makes the chosen
    process current. *)

From S2P Require Import Prelude Lists.
Import Lists.Seq.

(** ** Data *)

Definition PROC_STATE_UNALLOC := 0.
Definition PROC_STATE_INIT := 100.
Definition PROC_STATE_ZOMBIE := 200.
Definition PROC_STATE_RUNNING := 300.
Definition PROC_STATE_READY := 500.
Definition PROC_STATE_SEND := 600.
Definition PROC_STATE_RENDEZ_BLOCKED := 800.
Definition PROC_STATE_BKL_BLOCKED := 1200.

Definition SCHED_IDLE := -1.
Definition SCHED_OTHER := 0.
Definition SCHED_FIFO := 1.
Definition SCHED_RR := 2.
Definition SCHED_QUANTA_JIFFIES := 5.

Definition PROCF_USER := 0.
Definition PROCF_KERNEL := 1.
Definition PROCF_ALLOW_IO := 2.

Definition JIFFIES_PER_SECOND := 100.
Definition NANOSECONDS_PER_JIFFY := 10000000.

(** Addresses of [struct Rendez] objects: the one of each process, the timer's
    [timer_rendez], and those embedded in the objects of other components. *)
Inductive rendez_ref :=
  | RProcess (p : Z)
  | RTimer
  | RObject (class : positive) (addr : Z).

#[export] Instance rendez_ref_eq_dec : EqDecision rendez_ref.
Proof. solve_decision. Defined.

(** Addresses of [struct Timer] objects, all embedded in a process. *)
Inductive timer_ref :=
  | TSleep (p : Z)
  | TTimeout (p : Z).

#[export] Instance timer_ref_eq_dec : EqDecision timer_ref.
Proof. solve_decision. Defined.

(** The functions the kernel installs as timer callbacks. *)
Inductive timer_callback :=
  | CallSleepCallback
  | CallTaskTimedSleepCallback.

Record Timer := mkTimer {
  t_armed : bool;
  t_expiration_time : Z;
  t_arg : option rendez_ref;
  t_callback : option timer_callback;
  t_process : option Z
}.

#[export] Instance rebuild_Timer : Rebuild Timer := fun t =>
  mkTimer (t_armed t) (t_expiration_time t) (t_arg t) (t_callback t) (t_process t).

(** Signal state of a process (kernel/h/kernel/signal.h).  The arrays are
    functions of the index. *)
Record Signal := mkSignal {
  s_handler : Z -> Z;
  s_handler_mask : Z -> Z;
  s_si_code : Z -> Z;
  s_sig_info : Z;
  s_sig_mask : Z;
  s_sig_pending : Z;
  s_sig_resethand : Z;
  s_sig_nodefer : Z;
  s_sigsuspend_oldmask : Z;
  s_use_sigsuspend_mask : bool;
  s_restorer : Z
}.

#[export] Instance rebuild_Signal : Rebuild Signal := fun s =>
  mkSignal (s_handler s) (s_handler_mask s) (s_si_code s) (s_sig_info s) (s_sig_mask s)
    (s_sig_pending s) (s_sig_resethand s) (s_sig_nodefer s) (s_sigsuspend_oldmask s)
    (s_use_sigsuspend_mask s) (s_restorer s).

(** [struct Process]: the fields used by the scheduler, the timers, signals,
    identities and process creation. *)
Record Process := mkProcess {
  p_state : Z;
  p_sched_policy : Z;
  p_quanta_used : Z;
  p_priority : Z;
  p_desired_priority : Z;
  p_parent : option Z;
  p_sleep_timer : Timer;
  p_timeout_timer : Timer;
  p_flags : Z;
  p_in_use : bool;
  p_log_level : Z;
  p_signal : Signal;
  p_exit_status : Z;
  p_child_list : list Z;
  p_pid : Z;
  p_uid : Z;
  p_gid : Z;
  p_euid : Z;
  p_egid : Z;
  p_pgrp : Z;
  p_sid : Z
}.

#[export] Instance rebuild_Process : Rebuild Process := fun p =>
  mkProcess (p_state p) (p_sched_policy p) (p_quanta_used p) (p_priority p)
    (p_desired_priority p) (p_parent p) (p_sleep_timer p) (p_timeout_timer p)
    (p_flags p) (p_in_use p) (p_log_level p) (p_signal p) (p_exit_status p)
    (p_child_list p) (p_pid p) (p_uid p) (p_gid p) (p_euid p) (p_egid p) (p_pgrp p)
    (p_sid p).

Definition zero_timer : Timer := mkTimer false 0 None None None.

Definition zero_signal : Signal :=
  mkSignal (fun _ => 0) (fun _ => 0) (fun _ => 0) 0 0 0 0 0 0 false 0.

(** A process slot after [memset(proc, 0, PROCESS_SZ)]. *)
Definition zero_process : Process :=
  mkProcess 0 0 0 0 0 None zero_timer zero_timer 0 false 0 zero_signal 0 [] 0 0 0 0 0 0 0.

(** The value of [bkl_owner]: a process, or the value stored on release. *)
Inductive bkl_holder :=
  | Owner (p : Z)
  | NoOwner (poison : Z).

#[export] Instance bkl_holder_eq_dec : EqDecision bkl_holder.
Proof. solve_decision. Defined.

(** The globals of kernel/proc/globals.c and the one CPU of [cpu_table]. *)
Record kernel := mkKernel {
  procs : Z -> Process;
  sched_queue : Z -> list Z;
  sched_queue_bitmap : Z;
  bkl_locked : bool;
  bkl_owner : bkl_holder;
  bkl_blocked_list : list Z;
  blocked_list : rendez_ref -> list Z;
  timing_wheel : Z -> list timer_ref;
  hardclock_time : Z;
  softclock_time : Z;
  current_process : option Z;
  idle_process : option Z;
  root_process : Z;
  max_process : Z;
  reschedule_request : bool;
  ttbr0 : option Z
}.

#[export] Instance rebuild_kernel : Rebuild kernel := fun k =>
  mkKernel (procs k) (sched_queue k) (sched_queue_bitmap k) (bkl_locked k) (bkl_owner k)
    (bkl_blocked_list k) (blocked_list k) (timing_wheel k) (hardclock_time k)
    (softclock_time k) (current_process k) (idle_process k) (root_process k)
    (max_process k) (reschedule_request k) (ttbr0 k).

(** [get_current_process()] and field updates through a process pointer. *)
Definition get_current_process (k : kernel) : option Z := current_process k.

Definition upd_proc (p : Z) (f : Process -> Process) (k : kernel) : kernel :=
  k <| procs := <[p := f (procs k p)]> (procs k) |>.

Definition set_state (p st : Z) : kernel -> kernel :=
  upd_proc p (fun pr => pr <| p_state := st |>).

Definition upd_queue (q : Z) (f : list Z -> option (list Z)) (k : kernel) : option kernel :=
  if bool_decide (0 <= q < 32) then
    l ← f (sched_queue k q);
    Some (k <| sched_queue := <[q := l]> (sched_queue k) |>)
  else None.

Definition get_timer (k : kernel) (t : timer_ref) : Timer :=
  match t with
  | TSleep p => p_sleep_timer (procs k p)
  | TTimeout p => p_timeout_timer (procs k p)
  end.

Definition upd_timer (t : timer_ref) (f : Timer -> Timer) : kernel -> kernel :=
  match t with
  | TSleep p => upd_proc p (fun pr => pr <| p_sleep_timer := f (p_sleep_timer pr) |>)
  | TTimeout p => upd_proc p (fun pr => pr <| p_timeout_timer := f (p_timeout_timer pr) |>)
  end.

(** An access to [timing_wheel[e % JIFFIES_PER_SECOND]]; the remainder of a
    negative time is negative in C, outside the array. *)
Definition upd_wheel (e : Z) (f : list timer_ref -> option (list timer_ref)) (k : kernel)
    : option kernel :=
  let b := Z.rem e JIFFIES_PER_SECOND in
  if bool_decide (0 <= b) then
    l ← f (timing_wheel k b);
    Some (k <| timing_wheel := <[b := l]> (timing_wheel k) |>)
  else None.

Definition upd_rendez (r : rendez_ref) (f : list Z -> option (list Z)) (k : kernel)
    : option kernel :=
  l ← f (blocked_list k r);
  Some (k <| blocked_list := <[r := l]> (blocked_list k) |>).

Definition upd_bkl_list (f : list Z -> option (list Z)) (k : kernel) : option kernel :=
  l ← f (bkl_blocked_list k);
  Some (k <| bkl_blocked_list := l |>).

(** ** Run queues *)

(** The search for the highest set bit: [for (q = 31; q >= 0; q--)], from
    [q = n - 1], giving -1 when no bit is set. *)
Fixpoint scan_bitmap (bitmap : Z) (n : nat) : Z :=
  match n with
  | O => -1
  | S n => if Z.testbit bitmap (Z.of_nat n) then Z.of_nat n else scan_bitmap bitmap n
  end.

(** The first part of [Reschedule]: accounting for the quantum of the process
    that was running. *)
Definition Reschedule_account (c : Z) (k : kernel) : option kernel :=
  let k := upd_proc c (fun p => p <| p_quanta_used := i32 (p_quanta_used p + 1) |>) k in
  let current := procs k c in
  let reset := upd_proc c (fun p => p <| p_quanta_used := 0 |>) in
  if bool_decide (p_sched_policy current = SCHED_RR) then
    if bool_decide (sched_queue k (p_priority current) <> []) then
      k ← upd_queue (p_priority current) forward k;
      Some (reset k)
    else Some k
  else if bool_decide (p_sched_policy current = SCHED_OTHER) then
    if bool_decide (p_quanta_used current = SCHED_QUANTA_JIFFIES) then
      k ← (if bool_decide (p_priority current > 1) then
             k ← upd_queue (p_priority current) rem_head k;
             let k := upd_proc c (fun p => p <| p_priority := p_priority p - 1 |>) k in
             upd_queue (p_priority (procs k c)) (add_tail c) k
           else upd_queue (p_priority current) forward k);
      Some (reset k)
    else Some k
  else Some k.

(** The choice of the next process: the head of the highest queue whose bit is
    set, or the idle process. *)
Definition Reschedule_next (k : kernel) : option Z :=
  let next :=
    if bool_decide (sched_queue_bitmap k <> 0)
    then list.head (sched_queue k (scan_bitmap (sched_queue_bitmap k) 32))
    else None in
  match next with Some n => Some n | None => idle_process k end.

(** [pmap_switch] loads the page directory of the next process into TTBR0. *)
Definition pmap_switch (next : Z) (k : kernel) : kernel := k <| ttbr0 := Some next |>.

Definition Reschedule (k : kernel) : option kernel :=
  let current := get_current_process k in
  k ← match current with Some c => Reschedule_account c k | None => Some k end;
  let next := Reschedule_next k in
  let k := match next with
           | Some n => pmap_switch n (set_state n PROC_STATE_RUNNING k)
           | None => k
           end in
  if bool_decide (next = current) then Some k
  else
    _ ← current;
    _ ← next;
    Some (k <| current_process := next |>).

Definition SchedReady (p : Z) (k : kernel) : option kernel :=
  let proc := procs k p in
  if bool_decide (p_sched_policy proc = SCHED_RR \/ p_sched_policy proc = SCHED_FIFO \/
                  p_sched_policy proc = SCHED_OTHER) then
    k ← upd_queue (p_priority proc) (add_tail p) k;
    let k := k <| sched_queue_bitmap :=
      Z.lor (sched_queue_bitmap k) (Z.shiftl 1 (p_priority proc)) |> in
    let k := upd_proc p (fun pr => pr <| p_quanta_used := 0 |>) k in
    Some (k <| reschedule_request := true |>)
  else None.

Definition SchedUnready (p : Z) (k : kernel) : option kernel :=
  let proc := procs k p in
  let unlink k :=
    k ← upd_queue (p_priority proc) (rem_entry p) k;
    Some (if bool_decide (sched_queue k (p_priority proc) = []) then
            k <| sched_queue_bitmap :=
              Z.ldiff (sched_queue_bitmap k) (Z.shiftl 1 (p_priority proc)) |>
          else k) in
  k ← (if bool_decide (p_sched_policy proc = SCHED_RR \/ p_sched_policy proc = SCHED_FIFO) then
         k ← unlink k;
         Some (upd_proc p (fun pr => pr <| p_quanta_used := 0 |>) k)
       else if bool_decide (p_sched_policy proc = SCHED_OTHER) then
         k ← unlink k;
         Some (upd_proc p (fun pr => pr <| p_priority := p_desired_priority pr |>
                                        <| p_quanta_used := 0 |>) k)
       else None);
  Some (k <| reschedule_request := true |>).

(** The common part of the two successful branches of [sys_setschedparams]. *)
Definition change_sched (c policy priority : Z) (k : kernel) : option kernel :=
  k ← SchedUnready c k;
  let k := upd_proc c (fun p => p <| p_sched_policy := policy |>
                                  <| p_desired_priority := priority |>
                                  <| p_priority := priority |>) k in
  k ← SchedReady c k;
  Reschedule k.

Definition sys_setschedparams (policy priority : Z) (k : kernel) : option (Z * kernel) :=
  c ← get_current_process k;
  if bool_decide (policy = SCHED_RR \/ policy = SCHED_FIFO) then
    if bool_decide (Z.land (p_flags (procs k c)) PROCF_ALLOW_IO = 0) then Some (- EPERM, k)
    else if bool_decide (priority < 16 \/ priority > 31) then Some (- EINVAL, k)
    else k ← change_sched c policy priority k; Some (0, k)
  else if bool_decide (policy = SCHED_OTHER) then
    if bool_decide (priority < 0 \/ priority > 15) then Some (- EINVAL, k)
    else k ← change_sched c policy priority k; Some (0, k)
  else Some (- EINVAL, k).

(** ** The big kernel lock *)

Definition KernelLock (k : kernel) : option kernel :=
  c ← get_current_process k;
  if bkl_locked k then
    k ← upd_bkl_list (add_tail c) k;
    let k := set_state c PROC_STATE_BKL_BLOCKED k in
    k ← SchedUnready c k;
    Reschedule k
  else Some (k <| bkl_locked := true |> <| bkl_owner := Owner c |>).

Definition KernelUnlock (k : kernel) : option kernel :=
  if bkl_locked k then
    match list.head (bkl_blocked_list k) with
    | Some proc =>
        let k := k <| bkl_locked := true |> <| bkl_owner := Owner proc |> in
        k ← upd_bkl_list rem_head k;
        let k := set_state proc PROC_STATE_READY k in
        k ← SchedReady proc k;
        Reschedule k
    | None => Some (k <| bkl_locked := false |> <| bkl_owner := NoOwner 0xcafef00d |>)
    end
  else None.

(** ** Condition variables *)

Definition InitRendez (r : rendez_ref) (k : kernel) : kernel :=
  k <| blocked_list := <[r := []]> (blocked_list k) |>.

(** The lines that [TaskSleep], [TaskTimedSleep] and [sys_exit] share: the lock
    passes to the first process blocked on it, or is released. *)
Definition release_bkl (poison : Z) (k : kernel) : option kernel :=
  match list.head (bkl_blocked_list k) with
  | Some proc =>
      k ← upd_bkl_list rem_head k;
      let k := set_state proc PROC_STATE_READY k in
      let k := k <| bkl_owner := Owner proc |> in
      SchedReady proc k
  | None => Some (k <| bkl_locked := false |> <| bkl_owner := NoOwner poison |>)
  end.

Definition TaskSleep (r : rendez_ref) (k : kernel) : option kernel :=
  c ← get_current_process k;
  k ← release_bkl 0xdeadbeef k;
  k ← upd_rendez r (add_tail c) k;
  let k := set_state c PROC_STATE_RENDEZ_BLOCKED k in
  k ← SchedUnready c k;
  Reschedule k.

(** [TaskTimedSleep] up to the switch to another process ... *)
Definition TaskTimedSleep (r : rendez_ref) (tv_sec tv_nsec : Z) (k : kernel)
    : option kernel :=
  c ← get_current_process k;
  k ← release_bkl 0xdeadbeef k;
  let e := swrap 64 (hardclock_time k +
             (tv_sec * JIFFIES_PER_SECOND + Z.quot tv_nsec NANOSECONDS_PER_JIFFY)) in
  let k := upd_timer (TSleep c)
    (fun t => t <| t_process := Some c |> <| t_arg := Some r |> <| t_armed := true |>
                <| t_callback := Some CallTaskTimedSleepCallback |>
                <| t_expiration_time := e |>) k in
  k ← upd_wheel e (add_tail (TSleep c)) k;
  k ← upd_rendez r (add_tail c) k;
  let k := set_state c PROC_STATE_RENDEZ_BLOCKED k in
  k ← SchedUnready c k;
  Reschedule k.

(** ... and from its resumption as process [c]. *)
Definition TaskTimedSleep_resume (c : Z) (k : kernel) : option (Z * kernel) :=
  let timer := get_timer k (TSleep c) in
  if t_armed timer then
    k ← upd_wheel (t_expiration_time timer) (rem_entry (TSleep c)) k;
    Some (0, upd_timer (TSleep c)
               (fun t => t <| t_armed := false |> <| t_process := None |>
                           <| t_callback := None |>) k)
  else Some (- ETIMEDOUT, k).

Definition TaskTimedSleepCallback (t : timer_ref) (k : kernel) : option kernel :=
  match t_process (get_timer k t) with
  | Some proc =>
      if bool_decide (p_state (procs k proc) = PROC_STATE_RENDEZ_BLOCKED) then
        r ← t_arg (get_timer k t);
        k ← upd_rendez r (rem_entry proc) k;
        k ← upd_bkl_list (add_tail proc) k;
        Some (set_state proc PROC_STATE_BKL_BLOCKED k)
      else Some k
  | None => Some k
  end.

Definition TaskWakeup (r : rendez_ref) (k : kernel) : option kernel :=
  match list.head (blocked_list k r) with
  | Some proc =>
      k ← upd_rendez r rem_head k;
      k ← upd_bkl_list (add_tail proc) k;
      Some (set_state proc PROC_STATE_BKL_BLOCKED k)
  | None => Some k
  end.

Definition TaskWakeupFromISR (r : rendez_ref) (k : kernel) : option kernel :=
  match list.head (blocked_list k r) with
  | Some proc =>
      k ← upd_rendez r rem_head k;
      k ← upd_bkl_list (add_tail proc) k;
      Some (set_state proc PROC_STATE_BKL_BLOCKED k)
  | None => Some k
  end.

(** One pass of the do-while loop of [TaskWakeupAll] per unit of fuel; the loop
    ends when the rendez has no process left. *)
Fixpoint TaskWakeupAll_loop (fuel : nat) (r : rendez_ref) (k : kernel) : option kernel :=
  match fuel with
  | O => None
  | S fuel =>
      k ← match list.head (blocked_list k r) with
          | Some proc =>
              k ← upd_rendez r rem_head k;
              k ← upd_bkl_list (add_tail proc) k;
              Some (set_state proc PROC_STATE_BKL_BLOCKED k)
          | None => Some k
          end;
      match list.head (blocked_list k r) with
      | Some _ => TaskWakeupAll_loop fuel r k
      | None => Some k
      end
  end.

Definition TaskWakeupAll (r : rendez_ref) (k : kernel) : option kernel :=
  TaskWakeupAll_loop (S (length (blocked_list k r))) r k.

(** ** Well-formedness *)

Definition schedulable (policy : Z) : Prop :=
  policy = SCHED_RR \/ policy = SCHED_FIFO \/ policy = SCHED_OTHER.

(** Scheduling parameters with which [SchedReady] and [SchedUnready] work. *)
Definition params_ok (pr : Process) : Prop :=
  schedulable (p_sched_policy pr) /\ 0 <= p_priority pr < 32 /\
  0 <= p_desired_priority pr < 32.

Definition runnable (st : Z) : Prop :=
  st = PROC_STATE_INIT \/ st = PROC_STATE_READY \/ st = PROC_STATE_RUNNING.

Definition is_ready (st : Z) : Prop :=
  st = PROC_STATE_READY \/ st = PROC_STATE_RUNNING.

(** The list a process is linked in through [sched_entry] or [blocked_link]. *)
Inductive place :=
  | OnQueue (q : Z)
  | OnBkl
  | OnRendez (r : rendez_ref)
  | Nowhere.

Definition at_place (k : kernel) (p : Z) (pl : place) : Prop :=
  (forall q, p ∈ sched_queue k q <-> pl = OnQueue q) /\
  (p ∈ bkl_blocked_list k <-> pl = OnBkl) /\
  (forall r, p ∈ blocked_list k r <-> pl = OnRendez r).

(** What the fields of a process must say at each place. *)
Definition place_ok (pr : Process) (idle : Prop) (pl : place) : Prop :=
  match pl with
  | OnQueue q => q = p_priority pr /\ params_ok pr /\ runnable (p_state pr)
  | OnBkl => params_ok pr /\ p_state pr = PROC_STATE_BKL_BLOCKED
  | OnRendez r => params_ok pr /\ p_state pr = PROC_STATE_RENDEZ_BLOCKED
  | Nowhere => p_state pr <> PROC_STATE_BKL_BLOCKED /\
               p_state pr <> PROC_STATE_RENDEZ_BLOCKED /\ (is_ready (p_state pr) -> idle)
  end.

Definition lists_nodup (k : kernel) : Prop :=
  (forall q, NoDup (sched_queue k q)) /\ NoDup (bkl_blocked_list k) /\
  (forall r, NoDup (blocked_list k r)).

(** Every process is on the list its state says, and on no other: ready and
    running processes on the run queue of their priority, processes blocked on
    the big kernel lock on its list, sleeping processes on exactly one rendez;
    the processes on a list have valid scheduling parameters, and the idle
    process is on none. *)
Record wf_lists (k : kernel) : Prop := {
  wf_place p : exists pl, at_place k p pl /\
    place_ok (procs k p) (idle_process k = Some p) pl;
  wf_nodup : lists_nodup k;
  wf_idle i : idle_process k = Some i -> p_sched_policy (procs k i) = SCHED_IDLE
}.

(** The big kernel lock: free only when nobody waits for it, and otherwise
    owned by a process that can run. *)
Definition wf_lock (k : kernel) : Prop :=
  if bkl_locked k then
    exists p, bkl_owner k = Owner p /\
      (p ∈ sched_queue k (p_priority (procs k p)) \/ idle_process k = Some p)
  else bkl_blocked_list k = [].

(** The current process is the idle process or first in its run queue. *)
Definition wf_current (k : kernel) : Prop :=
  exists c, current_process k = Some c /\
    (idle_process k = Some c \/
     list.head (sched_queue k (p_priority (procs k c))) = Some c).

Record wf (k : kernel) : Prop := {
  wf_wf_lists : wf_lists k;
  wf_wf_lock : wf_lock k;
  wf_wf_current : wf_current k
}.

(** The bitmap has the bit of exactly the queues that are not empty. *)
Definition bitmap_ok (k : kernel) : Prop :=
  0 <= sched_queue_bitmap k < 2 ^ 32 /\
  forall q, 0 <= q < 32 -> Z.testbit (sched_queue_bitmap k) q = true <-> sched_queue k q <> [].

(** ** Lemmas on the updates *)

(** Case analysis on every lookup in an updated store. *)
Ltac upd_cases :=
  repeat match goal with
  | H : context [(<[?a := _]> _) ?a] |- _ => rewrite (fn_lookup_insert _ a) in H
  | |- context [(<[?a := _]> _) ?a] => rewrite (fn_lookup_insert _ a)
  | N : ?a <> ?b, H : context [(<[?a := _]> _) ?b] |- _ =>
      rewrite (fn_lookup_insert_ne _ a b) in H by exact N
  | N : ?a <> ?b |- context [(<[?a := _]> _) ?b] =>
      rewrite (fn_lookup_insert_ne _ a b) by exact N
  | H : context [(<[?a := _]> _) ?b] |- _ =>
      let E := fresh "E" in
      destruct (decide (a = b)) as [E|?];
      [first [subst b | rewrite <- E in *; clear E]|]
  | |- context [(<[?a := _]> _) ?b] =>
      let E := fresh "E" in
      destruct (decide (a = b)) as [E|?];
      [first [subst b | rewrite <- E in *; clear E]|]
  end.

Lemma upd_queue_Some q f k k' :
  upd_queue q f k = Some k' ->
  exists l, 0 <= q < 32 /\ f (sched_queue k q) = Some l /\
    k' = k <| sched_queue := <[q := l]> (sched_queue k) |>.
Proof.
  unfold upd_queue. case_bool_decide; [|done].
  destruct (f _) eqn:E; simpl; intros; simplify_eq; eauto.
Qed.

Lemma upd_queue_eq q f l k :
  0 <= q < 32 -> f (sched_queue k q) = Some l ->
  upd_queue q f k = Some (k <| sched_queue := <[q := l]> (sched_queue k) |>).
Proof. intros Hq E. unfold upd_queue. rewrite bool_decide_true by done. by rewrite E. Qed.

Lemma procs_upd_eq p f k : procs (upd_proc p f k) p = f (procs k p).
Proof. apply fn_lookup_insert. Qed.

(** The result of [SchedReady] on a process that is on no run queue. *)
Definition readied (p : Z) (k : kernel) : kernel :=
  let q := p_priority (procs k p) in
  (upd_proc p (fun pr => pr <| p_quanta_used := 0 |>)
    (k <| sched_queue := <[q := sched_queue k q ++ [p]]> (sched_queue k) |>
       <| sched_queue_bitmap := Z.lor (sched_queue_bitmap k) (Z.shiftl 1 q) |>))
  <| reschedule_request := true |>.

Lemma SchedReady_eq p k :
  params_ok (procs k p) -> p ∉ sched_queue k (p_priority (procs k p)) ->
  SchedReady p k = Some (readied p k).
Proof.
  intros (Hs & Hp & _) Hn. unfold SchedReady. rewrite bool_decide_true by done.
  erewrite upd_queue_eq by eauto using add_tail_fresh. done.
Qed.

(** The result of [SchedUnready] on a process that is on its run queue. *)
Definition unreadied (p : Z) (k : kernel) : kernel :=
  let q := p_priority (procs k p) in
  let l := filter (fun y => y <> p) (sched_queue k q) in
  let pri := if bool_decide (p_sched_policy (procs k p) = SCHED_OTHER)
             then p_desired_priority (procs k p) else q in
  (upd_proc p (fun pr => pr <| p_priority := pri |> <| p_quanta_used := 0 |>)
    (k <| sched_queue := <[q := l]> (sched_queue k) |>
       <| sched_queue_bitmap := if bool_decide (l = [])
            then Z.ldiff (sched_queue_bitmap k) (Z.shiftl 1 q)
            else sched_queue_bitmap k |>))
  <| reschedule_request := true |>.

Lemma SchedUnready_eq p k :
  params_ok (procs k p) -> p ∈ sched_queue k (p_priority (procs k p)) ->
  SchedUnready p k = Some (unreadied p k).
Proof.
  intros (Hs & Hp & _) Hn. unfold SchedUnready, unreadied.
  erewrite upd_queue_eq by eauto using rem_entry_linked. simpl.
  rewrite fn_lookup_insert. unfold upd_proc. simpl.
  destruct Hs as [E|[E|E]]; rewrite E; simpl;
    case_bool_decide; simpl; unfold upd_proc; simpl; try done;
    destruct k as [procs0]; simpl in *; do 3 f_equal; destruct (procs0 p); simpl in *; congruence.
Qed.

Lemma procs_readied p k : procs (readied p k) p = procs k p <| p_quanta_used := 0 |>.
Proof. apply fn_lookup_insert. Qed.

Lemma procs_unreadied p k :
  procs (unreadied p k) p =
  procs k p <| p_priority := p_priority (procs (unreadied p k) p) |> <| p_quanta_used := 0 |>.
Proof. unfold unreadied, upd_proc. cbn [procs update_field]. by rewrite fn_lookup_insert. Qed.

Lemma procs_upd_ne p x f k : x <> p -> procs (upd_proc p f k) x = procs k x.
Proof. intros. by apply fn_lookup_insert_ne. Qed.

Lemma procs_readied_ne p x k : x <> p -> procs (readied p k) x = procs k x.
Proof. intros. by apply fn_lookup_insert_ne. Qed.

Lemma procs_unreadied_ne p x k : x <> p -> procs (unreadied p k) x = procs k x.
Proof. intros. by apply fn_lookup_insert_ne. Qed.

(** ** Moving a process from one list to another *)

Definition same_params (pr pr' : Process) : Prop :=
  p_state pr = p_state pr' /\ p_sched_policy pr = p_sched_policy pr' /\
  p_priority pr = p_priority pr' /\ p_desired_priority pr = p_desired_priority pr'.

Definition same_lists (k k' : kernel) (p : Z) : Prop :=
  (forall q, p ∈ sched_queue k' q <-> p ∈ sched_queue k q) /\
  (p ∈ bkl_blocked_list k' <-> p ∈ bkl_blocked_list k) /\
  (forall r, p ∈ blocked_list k' r <-> p ∈ blocked_list k r).

Lemma place_ok_same pr pr' idle pl :
  same_params pr pr' -> place_ok pr idle pl -> place_ok pr' idle pl.
Proof.
  intros (E1 & E2 & E3 & E4). unfold place_ok, params_ok. by rewrite E1, E2, E3, E4.
Qed.

Lemma at_place_same k k' p pl : same_lists k k' p -> at_place k p pl -> at_place k' p pl.
Proof.
  intros (E1 & E2 & E3) (H1 & H2 & H3).
  split_and!; intros; rewrite ?E1, ?E2, ?E3; done.
Qed.

(** When only [p] moves, only [p]'s new place has to be checked. *)
Lemma wf_move k k' p pl :
  wf_lists k -> idle_process k' = idle_process k ->
  (forall x, x <> p -> same_params (procs k x) (procs k' x) /\ same_lists k k' x) ->
  lists_nodup k' -> at_place k' p pl ->
  place_ok (procs k' p) (idle_process k' = Some p) pl ->
  (idle_process k' = Some p -> p_sched_policy (procs k' p) = SCHED_IDLE) ->
  wf_lists k'.
Proof.
  intros W Ei Hx Hnd Hp Hok Hi. constructor; [|done|].
  - intros x. destruct (decide (x = p)) as [->|Hne]; [eauto|].
    destruct (Hx x Hne) as [Hs Hl]. destruct (wf_place k W x) as (plx & Ha & Ho).
    exists plx. rewrite Ei. eauto using place_ok_same, at_place_same.
  - intros i E. destruct (decide (i = p)) as [->|Hne]; [by apply Hi|].
    rewrite Ei in E. destruct (Hx i Hne) as [(_ & <- & _) _]. by apply (wf_idle k W).
Qed.

(** A change that moves nobody. *)
Lemma wf_lists_ext k k' :
  wf_lists k -> idle_process k' = idle_process k ->
  (forall x, same_params (procs k x) (procs k' x) /\ same_lists k k' x) ->
  lists_nodup k' -> wf_lists k'.
Proof.
  intros W Ei Hx Hnd. constructor; [|done|].
  - intros x. destruct (Hx x) as [Hs Hl]. destruct (wf_place k W x) as (plx & Ha & Ho).
    exists plx. rewrite Ei. eauto using place_ok_same, at_place_same.
  - intros i E. rewrite Ei in E. destruct (Hx i) as [(_ & <- & _) _]. by apply (wf_idle k W).
Qed.

Lemma place_ok_sched pr (idle : Prop) pl :
  place_ok pr idle pl -> pl <> Nowhere -> params_ok pr.
Proof. destruct pl; simpl; naive_solver. Qed.

Lemma params_not_idle k p : wf_lists k -> params_ok (procs k p) -> idle_process k <> Some p.
Proof.
  intros W [Hs _] Hi%(wf_idle k W). rewrite Hi in Hs.
  by destruct Hs as [|[|]].
Qed.

Lemma queue_place k p q :
  wf_lists k -> p ∈ sched_queue k q ->
  at_place k p (OnQueue q) /\ q = p_priority (procs k p) /\ params_ok (procs k p) /\
  runnable (p_state (procs k p)).
Proof.
  intros W Hq. destruct (wf_place k W p) as (pl & Ha & Ho).
  assert (pl = OnQueue q) as -> by (by apply Ha). by split.
Qed.

Lemma bkl_place k p :
  wf_lists k -> p ∈ bkl_blocked_list k ->
  at_place k p OnBkl /\ params_ok (procs k p) /\
  p_state (procs k p) = PROC_STATE_BKL_BLOCKED.
Proof.
  intros W Hq. destruct (wf_place k W p) as (pl & Ha & Ho).
  assert (pl = OnBkl) as -> by (by apply Ha). by split.
Qed.

Lemma rendez_place k r p :
  wf_lists k -> p ∈ blocked_list k r ->
  at_place k p (OnRendez r) /\ params_ok (procs k p) /\
  p_state (procs k p) = PROC_STATE_RENDEZ_BLOCKED.
Proof.
  intros W Hq. destruct (wf_place k W p) as (pl & Ha & Ho).
  assert (pl = OnRendez r) as -> by (by apply Ha). by split.
Qed.

Lemma elem_of_snoc_ne {A} (x p : A) (l : list A) : x <> p -> x ∈ l ++ [p] <-> x ∈ l.
Proof. rewrite elem_of_app, list_elem_of_singleton. naive_solver. Qed.

Lemma elem_of_filter_ne (x p : Z) (l : list Z) :
  x ∈ filter (fun y => y <> p) l <-> x <> p /\ x ∈ l.
Proof. by rewrite list_elem_of_filter. Qed.

Lemma elem_of_cons_ne {A} (x p : A) (l : list A) : x <> p -> x ∈ p :: l <-> x ∈ l.
Proof. rewrite elem_of_cons. naive_solver. Qed.

Lemma NoDup_snoc {A} (p : A) (l : list A) : NoDup l -> p ∉ l -> NoDup (l ++ [p]).
Proof.
  intros H1 H2. apply NoDup_app. split_and!; [done| |apply NoDup_singleton].
  intros x Hx. rewrite list_elem_of_singleton. by intros ->.
Qed.

(** Membership of the updated lists. *)
Ltac members :=
  upd_cases; simpl in *;
  rewrite ?elem_of_filter_ne, ?elem_of_app, ?list_elem_of_singleton, ?elem_of_cons in *;
  try (naive_solver congruence).

Lemma hand_over_wf k p l :
  wf_lists k -> bkl_blocked_list k = p :: l ->
  wf_lists (readied p (set_state p PROC_STATE_READY (k <| bkl_blocked_list := l |>))).
Proof.
  intros W E. pose proof (wf_nodup k W) as (N1 & N2 & N3). rewrite E in N2.
  apply NoDup_cons in N2 as [Hpl N2].
  destruct (bkl_place k p W) as ((A & B & C) & Hok & Hst); [rewrite E; by left|].
  apply (wf_move k _ p (OnQueue (p_priority (procs k p)))); [done|done|..];
    unfold readied, set_state, upd_proc; simpl; rewrite ?fn_lookup_insert; simpl.
  - intros x Hx. split; [|split_and!]; simpl.
    + by rewrite !fn_lookup_insert_ne.
    + intros q. members.
    + rewrite E. members.
    + done.
  - split_and!; [|done|done]. intros q. simpl. upd_cases; [|done].
    apply NoDup_snoc; [done|]. by rewrite A.
  - split_and!; simpl.
    + intros q. members.
    + done.
    + intros r. rewrite C. done.
  - split_and!; try done; apply Hok || by right; left.
  - intros Hi. by destruct (params_not_idle k p W Hok).
Qed.

(** The process [c] leaves its run queue for the place [pl], the lists of
    which already have it as a member. *)
Lemma leave_queue_wf k k1 c st pl :
  wf_lists k -> c ∈ sched_queue k (p_priority (procs k c)) ->
  procs k1 = procs k -> sched_queue k1 = sched_queue k -> idle_process k1 = idle_process k ->
  (forall x, x <> c -> same_lists k k1 x) -> lists_nodup k1 ->
  (forall q, pl <> OnQueue q) ->
  (c ∈ bkl_blocked_list k1 <-> pl = OnBkl) ->
  (forall r, c ∈ blocked_list k1 r <-> pl = OnRendez r) ->
  match pl with
  | OnBkl => st = PROC_STATE_BKL_BLOCKED
  | OnRendez _ => st = PROC_STATE_RENDEZ_BLOCKED
  | _ => ~ is_ready st /\ st <> PROC_STATE_BKL_BLOCKED /\ st <> PROC_STATE_RENDEZ_BLOCKED
  end ->
  wf_lists (unreadied c (set_state c st k1)).
Proof.
  intros W Hc Ep Eq Ei Hx (N1 & N2 & N3) Hpl Hb Hr Hst.
  destruct (queue_place k c _ W Hc) as ((A & _ & _) & _ & (Hs & Hp & Hd) & _).
  apply (wf_move k _ c pl); [done|done|..];
    unfold unreadied, set_state, upd_proc; simpl; rewrite ?fn_lookup_insert; simpl;
    rewrite ?Ep, ?Eq in *.
  - intros x Hne. destruct (Hx x Hne) as (H1 & H2 & H3). rewrite Eq in H1.
    split; [|split_and!]; simpl; [by rewrite !fn_lookup_insert_ne| |done|done].
    intros q. members.
  - split_and!; [|done|done]. intros q. simpl. upd_cases; [|done]. by apply NoDup_filter.
  - split_and!; simpl; [|done|done]. intros q. split; [|by intros ?%Hpl].
    members.
  - assert (params_ok (procs k c <| p_state := st |>
      <| p_priority := if bool_decide (p_sched_policy (procs k c) = SCHED_OTHER)
           then p_desired_priority (procs k c) else p_priority (procs k c) |>
      <| p_quanta_used := 0 |>)) as Hok.
    { split; [done|]. simpl. case_bool_decide; lia. }
    destruct pl; simpl; [by destruct (Hpl q)|done|done|naive_solver].
  - intros Hi. destruct (params_not_idle k c W); [done|congruence].
Qed.

Lemma sleep_wf k r c :
  wf_lists k -> c ∈ sched_queue k (p_priority (procs k c)) ->
  wf_lists (unreadied c (set_state c PROC_STATE_RENDEZ_BLOCKED
    (k <| blocked_list := <[r := blocked_list k r ++ [c]]> (blocked_list k) |>))).
Proof.
  intros W Hc. pose proof (wf_nodup k W) as (N1 & N2 & N3).
  destruct (queue_place k c _ W Hc) as ((A & B & C) & _).
  eapply (leave_queue_wf k _ c _ (OnRendez r)); try done; simpl.
  - intros x Hx. split_and!; simpl; [done|done|]. intros r'. members.
  - split_and!; simpl; [done..|]. intros r'. upd_cases; [|done].
    apply NoDup_snoc; [done|by rewrite C].
  - by rewrite B.
  - intros r'. members.
Qed.

Lemma bkl_block_wf k c :
  wf_lists k -> c ∈ sched_queue k (p_priority (procs k c)) ->
  wf_lists (unreadied c (set_state c PROC_STATE_BKL_BLOCKED
    (k <| bkl_blocked_list := bkl_blocked_list k ++ [c] |>))).
Proof.
  intros W Hc. pose proof (wf_nodup k W) as (N1 & N2 & N3).
  destruct (queue_place k c _ W Hc) as ((A & B & C) & _).
  eapply (leave_queue_wf k _ c _ OnBkl); try done; simpl.
  - intros x Hx. split_and!; simpl; [done| |done]. members.
  - split_and!; simpl; [done| |done]. apply NoDup_snoc; [done|by rewrite B].
  - members.
  - intros r. by rewrite C.
Qed.

Lemma zombie_wf k c :
  wf_lists k -> c ∈ sched_queue k (p_priority (procs k c)) ->
  wf_lists (unreadied c (set_state c PROC_STATE_ZOMBIE k)).
Proof.
  intros W Hc. destruct (queue_place k c _ W Hc) as ((A & B & C) & _).
  eapply (leave_queue_wf k _ c _ Nowhere); try done; simpl; [by apply W|by rewrite B| |].
  - intros r. by rewrite C.
  - split_and!; try done. by intros [|].
Qed.

(** A sleeping process moves to the list of the big kernel lock. *)
Lemma wakeup_wf k r p :
  wf_lists k -> p ∈ blocked_list k r ->
  wf_lists (set_state p PROC_STATE_BKL_BLOCKED
    (k <| blocked_list := <[r := filter (fun y => y <> p) (blocked_list k r)]> (blocked_list k) |>
       <| bkl_blocked_list := bkl_blocked_list k ++ [p] |>)).
Proof.
  intros W Hp. pose proof (wf_nodup k W) as (N1 & N2 & N3).
  destruct (rendez_place k r p W Hp) as ((A & B & C) & Hok & Hst).
  apply (wf_move k _ p OnBkl); [done|done|..];
    unfold set_state, upd_proc; simpl; rewrite ?fn_lookup_insert; simpl.
  - intros x Hx. split; [|split_and!]; simpl; [by rewrite !fn_lookup_insert_ne|done|members|].
    intros r'. members.
  - split_and!; simpl; [done| |].
    + apply NoDup_snoc; [done|by rewrite B].
    + intros r'. upd_cases; [by apply NoDup_filter|done].
  - split_and!; simpl; [|members|].
    + intros q. by rewrite A.
    + intros r'. members.
  - split; [apply Hok|done].
  - intros Hi. by destruct (params_not_idle k p W Hok).
Qed.

(** A process on a run queue moves to the end of the queue [q']. *)
Lemma requeue_wf k k' c q' :
  wf_lists k -> c ∈ sched_queue k (p_priority (procs k c)) ->
  (forall x, x <> c -> procs k' x = procs k x) ->
  params_ok (procs k' c) -> p_priority (procs k' c) = q' -> runnable (p_state (procs k' c)) ->
  idle_process k' = idle_process k -> bkl_blocked_list k' = bkl_blocked_list k ->
  blocked_list k' = blocked_list k ->
  (forall q, sched_queue k' q =
     filter (fun y => y <> c) (sched_queue k q) ++ if decide (q = q') then [c] else []) ->
  wf_lists k'.
Proof.
  intros W Hc Hx Hok Hq Hst Ei Eb Er Eq. pose proof (wf_nodup k W) as (N1 & N2 & N3).
  destruct (queue_place k c _ W Hc) as ((A & B & C) & _ & Hok' & _).
  apply (wf_move k k' c (OnQueue q')); [done|done|..].
  - intros x Hne. rewrite (Hx x Hne). split; [done|].
    split_and!; rewrite ?Eb, ?Er; [|done|done]. intros q. rewrite Eq.
    rewrite elem_of_app, elem_of_filter_ne. case_decide; rewrite ?list_elem_of_singleton;
      [naive_solver|]. rewrite elem_of_nil. naive_solver.
  - split_and!; rewrite ?Eb, ?Er; [|done|done]. intros q. rewrite Eq.
    case_decide; [|rewrite app_nil_r; by apply NoDup_filter].
    apply NoDup_snoc; [by apply NoDup_filter|]. rewrite elem_of_filter_ne. naive_solver.
  - split_and!; rewrite ?Eb, ?Er; [|by rewrite B|intros r; by rewrite C].
    intros q. rewrite Eq, elem_of_app, elem_of_filter_ne.
    case_decide; rewrite ?list_elem_of_singleton, ?elem_of_nil; naive_solver.
  - done.
  - rewrite Ei. intros Hi. by destruct (params_not_idle k c W Hok').
Qed.

Lemma filter_other_queue k c q :
  wf_lists k -> c ∈ sched_queue k (p_priority (procs k c)) -> q <> p_priority (procs k c) ->
  filter (fun y => y <> c) (sched_queue k q) = sched_queue k q.
Proof.
  intros W Hc Hq. destruct (queue_place k c _ W Hc) as ((A & _) & _).
  apply filter_ne_id. rewrite A. congruence.
Qed.

(** New scheduling parameters for a process on a run queue. *)
Lemma change_params_wf k c policy priority :
  wf_lists k -> c ∈ sched_queue k (p_priority (procs k c)) ->
  schedulable policy -> 0 <= priority < 32 ->
  wf_lists (readied c (upd_proc c
    (fun p => p <| p_sched_policy := policy |> <| p_desired_priority := priority |>
                <| p_priority := priority |>) (unreadied c k))).
Proof.
  intros W Hc Hs Hpri. destruct (queue_place k c _ W Hc) as (_ & _ & Hok & Hst).
  set (k1 := unreadied c k).
  assert (procs k1 c = procs k c <| p_priority := p_priority (procs k1 c) |>
            <| p_quanta_used := 0 |>) as E1
    by (unfold k1, unreadied, upd_proc; cbn [procs update_field]; by rewrite !fn_lookup_insert).
  assert (forall x, x <> c -> procs k1 x = procs k x) as E2
    by (intros; by apply fn_lookup_insert_ne).
  assert (forall q, sched_queue k1 q = filter (fun y => y <> c) (sched_queue k q)) as E3.
  { intros q. unfold k1, unreadied, upd_proc; simpl. upd_cases; [done|].
    by rewrite filter_other_queue. }
  assert (idle_process k1 = idle_process k /\ bkl_blocked_list k1 = bkl_blocked_list k /\
    blocked_list k1 = blocked_list k) as (E4 & E5 & E6) by done.
  clearbody k1. unfold readied, upd_proc; simpl. rewrite !fn_lookup_insert. simpl.
  eapply (requeue_wf k _ c priority); [done|done|..]; simpl;
    rewrite ?fn_lookup_insert; simpl; try done.
  - intros x Hx. by rewrite !fn_lookup_insert_ne, E2.
  - by rewrite E1.
  - intros q. rewrite E3. case_decide as Hq; [subst q; by rewrite fn_lookup_insert|].
    rewrite fn_lookup_insert_ne by done. by rewrite app_nil_r, E3.
Qed.

(** ** Rescheduling *)

(** The process fields a reschedule may not change. *)
Definition proc_core (pr : Process) : Process :=
  pr <| p_state := 0 |> <| p_quanta_used := 0 |> <| p_priority := 0 |>.

Record sched_frame (k k' : kernel) : Prop := {
  fr_locked : bkl_locked k' = bkl_locked k;
  fr_owner : bkl_owner k' = bkl_owner k;
  fr_bkl : bkl_blocked_list k' = bkl_blocked_list k;
  fr_blocked : blocked_list k' = blocked_list k;
  fr_wheel : timing_wheel k' = timing_wheel k;
  fr_hard : hardclock_time k' = hardclock_time k;
  fr_soft : softclock_time k' = softclock_time k;
  fr_idle : idle_process k' = idle_process k;
  fr_core p : proc_core (procs k' p) = proc_core (procs k p);
  fr_queued p : p ∈ sched_queue k (p_priority (procs k p)) ->
    p ∈ sched_queue k' (p_priority (procs k' p))
}.

Lemma sched_frame_trans k1 k2 k3 : sched_frame k1 k2 -> sched_frame k2 k3 -> sched_frame k1 k3.
Proof. intros [] []. constructor; try congruence; eauto. Qed.

Lemma wf_lock_frame k k' : wf_lock k -> sched_frame k k' -> wf_lock k'.
Proof.
  intros Hl F. unfold wf_lock in *.
  rewrite (fr_locked _ _ F), (fr_owner _ _ F), (fr_bkl _ _ F), (fr_idle _ _ F).
  destruct (bkl_locked k); [|done]. destruct Hl as (o & Ho & [Hoq|Hoi]); exists o;
    (split; [done|]); [left; by apply F|by right].
Qed.

(** Nothing of the timers and clocks changes. *)
Record timers_same (k k' : kernel) : Prop := {
  ts_timers t : get_timer k' t = get_timer k t;
  ts_wheel : timing_wheel k' = timing_wheel k;
  ts_hard : hardclock_time k' = hardclock_time k;
  ts_soft : softclock_time k' = softclock_time k;
  ts_idle : idle_process k' = idle_process k
}.

#[export] Instance timers_same_trans : Transitive timers_same.
Proof. intros k1 k2 k3 [] []. constructor; intros; congruence. Qed.

Lemma core_timers k k' :
  (forall p, proc_core (procs k' p) = proc_core (procs k p)) ->
  forall t, get_timer k' t = get_timer k t.
Proof. intros Ep [p|p]; simpl; pose proof (Ep p) as Hp; by injection Hp. Qed.

Lemma frame_timers k k' : sched_frame k k' -> timers_same k k'.
Proof. intros F. constructor; try apply F. apply core_timers, F. Qed.

(** Rotating a run queue and touching quanta moves nobody. *)
Lemma rotate_wf k q l h n c :
  wf_lists k -> sched_queue k q = h :: l ->
  let k' := upd_proc c (fun p => p <| p_quanta_used := n |>)
              (k <| sched_queue := <[q := l ++ [h]]> (sched_queue k) |>) in
  wf_lists k' /\ sched_frame k k'.
Proof.
  intros W E. pose proof (wf_nodup k W) as (N1 & N2 & N3). simpl.
  assert (forall x q', x ∈ <[q := l ++ [h]]> (sched_queue k) q' <-> x ∈ sched_queue k q') as Hm.
  { intros x q'. upd_cases; [|done]. rewrite E. clear. set_solver. }
  split.
  - apply (wf_lists_ext k); [done..| |].
    + intros x. unfold upd_proc; simpl. split; [|split_and!; simpl; by try apply Hm].
      upd_cases; by repeat split.
    + unfold upd_proc; split_and!; simpl; [|done|done]. intros q'. upd_cases; [|done].
      specialize (N1 q). rewrite E in N1. apply NoDup_cons in N1 as [H1 H2].
      by apply NoDup_snoc.
  - unfold upd_proc. constructor; simpl; try done.
    + intros p. by upd_cases.
    + intros p. rewrite Hm. by upd_cases.
Qed.

Lemma quanta_wf k n c :
  wf_lists k ->
  let k' := upd_proc c (fun p => p <| p_quanta_used := n |>) k in
  wf_lists k' /\ sched_frame k k'.
Proof.
  intros W. simpl. unfold upd_proc. split.
  - apply (wf_lists_ext k); [done..| |apply W]. intros x. simpl. split; [|done].
    upd_cases; by repeat split.
  - constructor; simpl; try done; intros p; by upd_cases.
Qed.

(** The demotion of the process at the head of its queue. *)
Lemma demote_wf k k' c l :
  wf_lists k -> sched_queue k (p_priority (procs k c)) = c :: l ->
  1 < p_priority (procs k c) ->
  (forall x, x <> c -> procs k' x = procs k x) ->
  procs k' c = procs k c <| p_priority := p_priority (procs k c) - 1 |> <| p_quanta_used := 0 |> ->
  (forall q, sched_queue k' q = filter (fun y => y <> c) (sched_queue k q) ++
     if decide (q = p_priority (procs k c) - 1) then [c] else []) ->
  bkl_locked k' = bkl_locked k -> bkl_owner k' = bkl_owner k ->
  bkl_blocked_list k' = bkl_blocked_list k -> blocked_list k' = blocked_list k ->
  timing_wheel k' = timing_wheel k -> hardclock_time k' = hardclock_time k ->
  softclock_time k' = softclock_time k -> idle_process k' = idle_process k ->
  wf_lists k' /\ sched_frame k k'.
Proof.
  intros W E Hq Ex Ec Eq. intros.
  assert (c ∈ sched_queue k (p_priority (procs k c))) as Hc by (rewrite E; by left).
  destruct (queue_place k c _ W Hc) as (_ & _ & (Hs & Hp & Hd) & Hst). split.
  - eapply (requeue_wf k k' c); try done; rewrite ?Ec; unfold params_ok; simpl;
      split_and?; done || lia.
  - constructor; try done; intros p; destruct (decide (p = c)) as [->|Hne];
      rewrite ?Ec, ?(Ex p Hne); simpl; try done; intros Hin; rewrite Eq, elem_of_app.
    + rewrite decide_True by done. right. by left.
    + left. by apply elem_of_filter_ne.
Qed.

(** The accounting that demotes the current process. *)
Lemma Reschedule_account_demotes k c l :
  wf_lists k -> p_sched_policy (procs k c) = SCHED_OTHER ->
  i32 (p_quanta_used (procs k c) + 1) = SCHED_QUANTA_JIFFIES ->
  sched_queue k (p_priority (procs k c)) = c :: l -> 1 < p_priority (procs k c) ->
  exists k', Reschedule_account c k = Some k' /\ wf_lists k' /\ sched_frame k k' /\
    sched_queue_bitmap k' = sched_queue_bitmap k /\ current_process k' = current_process k /\
    p_priority (procs k' c) = p_priority (procs k c) - 1 /\
    forall q, sched_queue k' q = filter (fun y => y <> c) (sched_queue k q) ++
      if decide (q = p_priority (procs k c) - 1) then [c] else [].
Proof.
  intros W Ho Hq El Hgt.
  assert (c ∈ sched_queue k (p_priority (procs k c))) as Hc by (rewrite El; by left).
  pose proof (wf_nodup k W) as (N1 & _). pose proof (N1 (p_priority (procs k c))) as Hnd.
  rewrite El in Hnd.
  destruct (queue_place k c _ W Hc) as ((A & _) & _ & (_ & Hr & _) & _).
  unfold Reschedule_account. rewrite procs_upd_eq.
  cbn [p_sched_policy p_priority p_quanta_used update_field].
  rewrite Ho, Hq, bool_decide_false, !bool_decide_true by (done || lia).
  erewrite upd_queue_eq; [|done|simpl; by rewrite El]. simpl. rewrite ?fn_lookup_insert. simpl.
  erewrite upd_queue_eq; [|lia|simpl; rewrite fn_lookup_insert_ne by lia; apply add_tail_fresh].
  2: { rewrite A. intros [=]; lia. }
  simpl. eexists. split; [done|].
  match goal with |- wf_lists ?K /\ _ =>
    assert (procs K c = procs k c <| p_priority := p_priority (procs k c) - 1 |>
              <| p_quanta_used := 0 |>) as Ec by (simpl; rewrite !fn_lookup_insert; done);
    assert (forall q, sched_queue K q = filter (fun y => y <> c) (sched_queue k q) ++
      if decide (q = p_priority (procs k c) - 1) then [c] else []) as Eq end.
  { intros q. simpl. case_decide as Hq'.
    - subst q. rewrite fn_lookup_insert. rewrite filter_other_queue; [done..|lia].
    - rewrite fn_lookup_insert_ne by done. rewrite app_nil_r. upd_cases.
      + rewrite El. by rewrite (filter_ne_split c [] l).
      + by rewrite filter_other_queue. }
  match goal with |- wf_lists ?K /\ _ =>
    assert (wf_lists K /\ sched_frame k K) as [W2 F2] end.
  { apply (demote_wf k _ c l); try done.
    intros x Hx. simpl. by rewrite !fn_lookup_insert_ne by done. }
  split_and!; try done. by rewrite Ec.
Qed.

(** What [Reschedule] relies on about the process that was running. *)
Definition account_ok (k : kernel) (c : Z) : Prop :=
  (p_sched_policy (procs k c) = SCHED_IDLE \/ params_ok (procs k c)) /\
  (p_sched_policy (procs k c) = SCHED_OTHER ->
   p_quanta_used (procs k c) = 0 \/
   list.head (sched_queue k (p_priority (procs k c))) = Some c).

Lemma Reschedule_account_wf k c :
  wf_lists k -> account_ok k c ->
  exists k', Reschedule_account c k = Some k' /\ wf_lists k' /\ sched_frame k k' /\
    sched_queue_bitmap k' = sched_queue_bitmap k /\ current_process k' = current_process k.
Proof.
  intros W [Hp Hh]. unfold Reschedule_account.
  set (n := i32 (p_quanta_used (procs k c) + 1)).
  destruct (quanta_wf k n c W) as [W1 F1]. simpl in W1, F1. fold n in W1, F1.
  assert (procs (upd_proc c (fun p => p <| p_quanta_used := n |>) k) c =
          procs k c <| p_quanta_used := n |>) as E by apply fn_lookup_insert.
  change (upd_proc c (fun p => p <| p_quanta_used := i32 (p_quanta_used p + 1) |>) k) with
    (upd_proc c (fun p => p <| p_quanta_used := n |>) k).
  set (k1 := upd_proc c (fun p => p <| p_quanta_used := n |>) k) in *.
  rewrite E. cbn [p_sched_policy p_priority p_quanta_used update_field].
  change (sched_queue k1) with (sched_queue k).
  assert (0 <= p_priority (procs k c) < 32 \/ p_sched_policy (procs k c) = SCHED_IDLE) as Hr
    by (destruct Hp as [?|(_ & ? & _)]; auto).
  assert (forall h l, sched_queue k (p_priority (procs k c)) = h :: l ->
    0 <= p_priority (procs k c) < 32 ->
    exists k', (k2 ← upd_queue (p_priority (procs k c)) forward k1;
      Some (upd_proc c (fun p => p <| p_quanta_used := 0 |>) k2)) = Some k' /\
      wf_lists k' /\ sched_frame k k' /\ sched_queue_bitmap k' = sched_queue_bitmap k /\
      current_process k' = current_process k) as Hrot.
  { intros h l El Hr'. erewrite upd_queue_eq; [|done|simpl; by rewrite El]. simpl.
    destruct (rotate_wf k1 (p_priority (procs k c)) l h 0 c W1) as [W2 F2]; [done|].
    eexists. split; [done|]. split; [apply W2|]. split; [|done].
    by eapply sched_frame_trans. }
  case_bool_decide as Hrr.
  { case_bool_decide as He; [|eauto 10].
    destruct (sched_queue k (p_priority (procs k c))) as [|h l] eqn:El; [done|].
    apply (Hrot h l); [done|]. destruct Hr as [|Hr]; [done|]. by rewrite Hr in Hrr. }
  case_bool_decide as Ho; [|eauto 10].
  case_bool_decide as Hq; [|eauto 10].
  destruct Hr as [Hr|Hr]; [|by rewrite Hr in Ho].
  destruct (Hh Ho) as [H0|H0]; [exfalso; unfold n in Hq; by rewrite H0 in Hq|].
  destruct (sched_queue k (p_priority (procs k c))) as [|h l] eqn:El; simplify_eq/=.
  case_bool_decide as Hgt; [|by apply (Hrot c l)].
  destruct (Reschedule_account_demotes k c l) as (k' & E' & W' & F' & B' & C' & _); try done;
    [lia|].
  exists k'. split; [|done]. rewrite <- E'. unfold Reschedule_account. rewrite procs_upd_eq.
  cbn [p_sched_policy p_priority p_quanta_used update_field].
  by rewrite bool_decide_false, !bool_decide_true by done.
Qed.

(** The process that [Reschedule] chooses starts to run. *)
Lemma run_wf k n :
  wf_lists k ->
  n ∈ sched_queue k (p_priority (procs k n)) \/ idle_process k = Some n ->
  wf_lists (pmap_switch n (set_state n PROC_STATE_RUNNING k)) /\
  sched_frame k (pmap_switch n (set_state n PROC_STATE_RUNNING k)).
Proof.
  intros W Hn. unfold pmap_switch, set_state, upd_proc. split.
  - destruct (wf_place k W n) as (pl & Ha & Ho).
    apply (wf_move k _ n pl); [done|done|..]; simpl; rewrite ?fn_lookup_insert; simpl.
    + intros x Hx. by rewrite fn_lookup_insert_ne.
    + apply W.
    + apply Ha.
    + destruct Hn as [Hn|Hi].
      * destruct Ha as (A & _). apply A in Hn as ->. destruct Ho as (Ho1 & Ho2 & _).
        split_and!; [done|done|by right; right].
      * destruct pl; simpl in *; try (by destruct (params_not_idle k n W); naive_solver).
        by split_and!.
    + intros Hi. by apply (wf_idle k W).
  - constructor; simpl; try done; intros p; by upd_cases.
Qed.

Lemma Reschedule_next_place k n i :
  wf_lists k -> idle_process k = Some i -> Reschedule_next k = Some n ->
  idle_process k = Some n \/ list.head (sched_queue k (p_priority (procs k n))) = Some n.
Proof.
  intros W Hi. unfold Reschedule_next. rewrite Hi.
  case_bool_decide; [|naive_solver].
  destruct (list.head _) as [h|] eqn:Hh; intros; simplify_eq; [|by left]. right.
  assert (n ∈ sched_queue k (scan_bitmap (sched_queue_bitmap k) 32)) as Hn
    by (by apply head_Some_elem_of).
  destruct (queue_place k n _ W Hn) as (_ & <- & _). done.
Qed.

Lemma Reschedule_next_Some k i : idle_process k = Some i -> exists n, Reschedule_next k = Some n.
Proof.
  intros Hi. unfold Reschedule_next. rewrite Hi.
  destruct (if bool_decide _ then _ else _); eauto.
Qed.

(** [Reschedule] leaves a well-formed state in which the process it chose is
    current, and changes nothing else but the accounting. *)
Lemma Reschedule_wf k c i :
  wf_lists k -> current_process k = Some c -> idle_process k = Some i -> account_ok k c ->
  exists k', Reschedule k = Some k' /\ wf_lists k' /\ wf_current k' /\ sched_frame k k'.
Proof.
  intros W Hc Hi Ha. unfold Reschedule, get_current_process. rewrite Hc.
  destruct (Reschedule_account_wf k c W Ha) as (k1 & -> & W1 & F1 & _ & Hc1). simpl.
  rewrite Hc in Hc1. rewrite <- (fr_idle _ _ F1) in Hi.
  destruct (Reschedule_next_Some k1 i Hi) as (n & En). rewrite En.
  pose proof (Reschedule_next_place k1 n i W1 Hi En) as Hn.
  destruct (run_wf k1 n W1) as [W2 F2].
  { destruct Hn as [Hn|Hn]; [by right|left]. by apply head_Some_elem_of. }
  assert (forall k', procs k' = procs (pmap_switch n (set_state n PROC_STATE_RUNNING k1)) ->
    sched_queue k' = sched_queue k1 -> idle_process k' = idle_process k1 ->
    current_process k' = Some n -> wf_current k') as Hcur.
  { intros k' E1 E2 E3 E4. exists n. split; [done|]. rewrite E1, E2, E3. simpl.
    rewrite fn_lookup_insert. done. }
  case_bool_decide as Hd; simplify_eq/=; eexists; (split; [done|]).
  - split_and!; [done|by apply Hcur|by eapply sched_frame_trans].
  - split_and!; [|by apply Hcur|].
    + eapply wf_lists_ext; [apply W2|done|done|apply W2].
    + eapply sched_frame_trans; [done|]. destruct F2. by constructor.
Qed.

(** ** The operations on the lock and the condition variables *)

Lemma unreadied_queue_ne k c p :
  p <> c -> p ∈ sched_queue k (p_priority (procs k p)) ->
  p ∈ sched_queue (unreadied c k) (p_priority (procs (unreadied c k) p)).
Proof.
  intros Hne Hp. unfold unreadied, upd_proc; simpl.
  rewrite (fn_lookup_insert_ne (procs k)) by done. upd_cases; [|done].
  by apply elem_of_filter_ne.
Qed.

(** The current process [c], which has left its run queue in a well-formed
    state [k], gives up the processor; the lock is not its. *)
Lemma give_up_cpu k c i :
  wf_lists k -> current_process k = Some c -> idle_process k = Some i ->
  params_ok (procs k c) -> p_quanta_used (procs k c) = 0 -> wf_lock k ->
  exists k', Reschedule k = Some k' /\ wf k' /\ sched_frame k k'.
Proof.
  intros W Hc Hi Hp Hq Hl.
  destruct (Reschedule_wf k c i W Hc Hi) as (k' & E & W' & C' & F).
  { split; [by right|]. by left. }
  exists k'. split_and!; [done| |done]. constructor; [done| |done]. by eapply wf_lock_frame.
Qed.

Lemma release_bkl_ok poison k c :
  wf_lists k -> bkl_locked k = true -> c ∈ sched_queue k (p_priority (procs k c)) ->
  exists k', release_bkl poison k = Some k' /\ wf_lists k' /\
    bkl_locked k' = bool_decide (bkl_blocked_list k <> []) /\
    bkl_owner k' = match bkl_blocked_list k with p :: _ => Owner p | [] => NoOwner poison end /\
    bkl_blocked_list k' = tail (bkl_blocked_list k) /\
    (forall p, list.head (bkl_blocked_list k) = Some p ->
       p <> c /\ p ∈ sched_queue k' (p_priority (procs k' p))) /\
    c ∈ sched_queue k' (p_priority (procs k' c)) /\ procs k' c = procs k c /\
    blocked_list k' = blocked_list k /\ idle_process k' = idle_process k /\
    current_process k' = current_process k /\ timing_wheel k' = timing_wheel k /\
    hardclock_time k' = hardclock_time k /\ softclock_time k' = softclock_time k /\
    (forall p, proc_core (procs k' p) = proc_core (procs k p)).
Proof.
  intros W Hl Hc. unfold release_bkl, upd_bkl_list.
  destruct (bkl_blocked_list k) as [|p l] eqn:E; simpl.
  { eexists. split; [done|]. split_and!; try done. eapply wf_lists_ext; [done..|apply W]. }
  destruct (bkl_place k p W) as ((A & _) & Hok & Hst); [rewrite E; by left|].
  assert (p <> c) as Hne by (intros ->; by apply A in Hc).
  rewrite SchedReady_eq; simpl; rewrite ?fn_lookup_insert; [|done|by rewrite A].
  eexists. split; [done|]. split_and!; simpl; try done.
  - pose proof (hand_over_wf k p l W E) as W'. eapply wf_lists_ext; [apply W'|done|done|apply W'].
  - intros ? [= <-]. split; [done|]. rewrite !fn_lookup_insert. simpl.
    rewrite ?fn_lookup_insert. apply elem_of_app. right. by left.
  - rewrite !(fn_lookup_insert_ne _ p c) by done. upd_cases; [|done]. apply elem_of_app. by left.
  - by rewrite !fn_lookup_insert_ne by done.
  - intros x. by upd_cases.
Qed.

Lemma current_queued k c :
  wf k -> current_process k = Some c -> idle_process k <> Some c ->
  c ∈ sched_queue k (p_priority (procs k c)).
Proof.
  intros W Hc Hi. destruct (wf_wf_current k W) as (c' & E & [?|Hh]); simplify_eq.
  by apply head_Some_elem_of.
Qed.

(** The lock belongs to a process other than [c] that can run, or is free and
    wanted by nobody. *)
Definition lock_passed (k : kernel) (c : Z) : Prop :=
  if bkl_locked k then
    exists p, p <> c /\ bkl_owner k = Owner p /\ p ∈ sched_queue k (p_priority (procs k p))
  else bkl_blocked_list k = [].

Lemma release_bkl_passed k k' c poison :
  bkl_locked k' = bool_decide (bkl_blocked_list k <> []) ->
  bkl_owner k' = match bkl_blocked_list k with p :: _ => Owner p | [] => NoOwner poison end ->
  bkl_blocked_list k' = tail (bkl_blocked_list k) ->
  (forall p, list.head (bkl_blocked_list k) = Some p ->
     p <> c /\ p ∈ sched_queue k' (p_priority (procs k' p))) ->
  lock_passed k' c.
Proof.
  intros El Eo Eb Hp. unfold lock_passed. rewrite El, Eo, Eb.
  destruct (bkl_blocked_list k) as [|p l]; simpl; [done|].
  destruct (Hp p eq_refl). eauto.
Qed.

(** The end of [TaskSleep] and [TaskTimedSleep]. *)
Lemma block_on_ok k r c i :
  wf_lists k -> current_process k = Some c -> idle_process k = Some i ->
  c ∈ sched_queue k (p_priority (procs k c)) -> lock_passed k c ->
  exists k', (k1 ← upd_rendez r (add_tail c) k;
              k2 ← SchedUnready c (set_state c PROC_STATE_RENDEZ_BLOCKED k1);
              Reschedule k2) = Some k' /\
    wf k' /\ bkl_locked k' = bkl_locked k /\ bkl_owner k' = bkl_owner k /\
    bkl_blocked_list k' = bkl_blocked_list k /\
    blocked_list k' = <[r := blocked_list k r ++ [c]]> (blocked_list k) /\
    timing_wheel k' = timing_wheel k /\ hardclock_time k' = hardclock_time k /\
    softclock_time k' = softclock_time k /\ idle_process k' = idle_process k /\
    (forall p, proc_core (procs k' p) = proc_core (procs k p)).
Proof.
  intros W Hc Hi Hq Hl. destruct (queue_place k c _ W Hq) as ((A & B & C) & _ & Hok & Hst).
  unfold upd_rendez. rewrite add_tail_fresh by (by rewrite C). cbn [mbind option_bind].
  pose proof (sleep_wf k r c W Hq) as W2.
  rewrite SchedUnready_eq;
    [|unfold set_state, upd_proc; simpl; rewrite ?fn_lookup_insert; done..].
  cbn [mbind option_bind]. match goal with |- context [Reschedule ?K] => set (k2 := K) in * end.
  assert (c ∈ blocked_list k2 r) as Hcr.
  { unfold k2; simpl. rewrite fn_lookup_insert. apply elem_of_app. right. by left. }
  destruct (give_up_cpu k2 c i) as (k' & -> & W' & F); try done.
  - by destruct (rendez_place k2 r c W2 Hcr) as (_ & ? & _).
  - unfold k2, unreadied, upd_proc; simpl. by rewrite fn_lookup_insert.
  - unfold lock_passed in Hl. unfold wf_lock. change (bkl_locked k2) with (bkl_locked k).
    destruct (bkl_locked k); [|done]. destruct Hl as (p & Hne & Ho & Hp).
    exists p. split; [done|]. left. apply unreadied_queue_ne; [done|].
    unfold set_state, upd_proc. simpl. by rewrite fn_lookup_insert_ne by done.
  - exists k'. pose proof (fr_core _ _ F) as Hcore. destruct F. split_and!; try done.
    intros p. rewrite Hcore. unfold k2, unreadied, set_state, upd_proc; simpl. by upd_cases.
Qed.

Lemma TaskSleep_ok k r c i :
  wf k -> current_process k = Some c -> idle_process k = Some i -> i <> c ->
  bkl_locked k = true ->
  exists k', TaskSleep r k = Some k' /\ wf k' /\
    bkl_locked k' = bool_decide (bkl_blocked_list k <> []) /\
    bkl_owner k' = match bkl_blocked_list k with p :: _ => Owner p | [] => NoOwner 0xdeadbeef end /\
    bkl_blocked_list k' = tail (bkl_blocked_list k) /\
    blocked_list k' = <[r := blocked_list k r ++ [c]]> (blocked_list k) /\
    timing_wheel k' = timing_wheel k /\ hardclock_time k' = hardclock_time k /\
    softclock_time k' = softclock_time k /\ idle_process k' = idle_process k /\
    (forall p, proc_core (procs k' p) = proc_core (procs k p)).
Proof.
  intros W Hc Hi Hne Hl.
  assert (c ∈ sched_queue k (p_priority (procs k c))) as Hq
    by (apply current_queued; [done..|congruence]).
  unfold TaskSleep, get_current_process. rewrite Hc. cbn [mbind option_bind].
  destruct (release_bkl_ok 0xdeadbeef k c (wf_wf_lists k W) Hl Hq)
    as (k1 & -> & W1 & El & Eo & Eb & Hown & Hq1 & Ec & Er & Ei & Ecur & Ew & Eh & Es & Ep).
  cbn [mbind option_bind]. rewrite Hi in Ei. rewrite Hc in Ecur.
  destruct (block_on_ok k1 r c i W1 Ecur Ei Hq1)
    as (k' & E & W' & El' & Eo' & Eb' & Er' & Ew' & Eh' & Es' & Ei' & Ep');
    [by eapply release_bkl_passed|].
  exists k'. split; [exact E|]. split_and!; congruence.
Qed.

Lemma KernelLock_free_ok k c :
  wf k -> current_process k = Some c -> bkl_locked k = false ->
  exists k', KernelLock k = Some k' /\ wf k' /\ bkl_locked k' = true /\ bkl_owner k' = Owner c /\
    current_process k' = Some c /\ k' = k <| bkl_locked := true |> <| bkl_owner := Owner c |>.
Proof.
  intros W Hc Hl. unfold KernelLock, get_current_process. rewrite Hc, Hl. simpl.
  eexists. split; [done|]. split; [|done].
  pose proof (wf_wf_current k W) as C. constructor; [|exists c; split; [done|]|done].
  - eapply wf_lists_ext; [apply W|done|done|apply W].
  - destruct C as (c' & E & [?|?]); simplify_eq; [by right|left; by apply head_Some_elem_of].
Qed.

Lemma KernelLock_busy_ok k c o i :
  wf k -> current_process k = Some c -> idle_process k = Some i -> i <> c ->
  bkl_locked k = true -> bkl_owner k = Owner o -> o <> c ->
  exists k', KernelLock k = Some k' /\ wf k' /\ bkl_locked k' = true /\ bkl_owner k' = Owner o /\
    bkl_blocked_list k' = bkl_blocked_list k ++ [c] /\ blocked_list k' = blocked_list k /\
    timers_same k k'.
Proof.
  intros W Hc Hi Hne Hl Ho Hoc.
  assert (c ∈ sched_queue k (p_priority (procs k c))) as Hq
    by (apply current_queued; [done..|congruence]).
  pose proof (wf_wf_lists k W) as WL. pose proof (wf_wf_lock k W) as Hlk.
  unfold wf_lock in Hlk. rewrite Hl, Ho in Hlk. destruct Hlk as (p & [= <-] & Hop).
  destruct (queue_place k c _ WL Hq) as ((A & B & C) & _ & Hok & Hst).
  unfold KernelLock, get_current_process, upd_bkl_list. rewrite Hc, Hl. cbn [mbind option_bind].
  rewrite add_tail_fresh by (by rewrite B). cbn [mbind option_bind].
  pose proof (bkl_block_wf k c WL Hq) as W2.
  rewrite SchedUnready_eq;
    [|unfold set_state, upd_proc; simpl; rewrite ?fn_lookup_insert; done..].
  cbn [mbind option_bind]. match goal with |- context [Reschedule ?K] => set (k2 := K) in * end.
  assert (c ∈ bkl_blocked_list k2) as Hcb by (apply elem_of_app; right; by left).
  destruct (give_up_cpu k2 c i) as (k' & -> & W' & F); try done.
  - by destruct (bkl_place k2 c W2 Hcb) as (_ & ? & _).
  - unfold k2, unreadied, upd_proc; simpl. by rewrite fn_lookup_insert.
  - unfold wf_lock. change (bkl_locked k2) with (bkl_locked k). rewrite Hl.
    exists o. split; [done|]. destruct Hop as [Hop|Hop]; [left|by right].
    apply unreadied_queue_ne; [done|].
    unfold set_state, upd_proc. simpl. by rewrite fn_lookup_insert_ne by done.
  - exists k'. split_and!; try done; try (etrans; [apply F|done]).
    etrans; [|by apply frame_timers]. constructor; try done.
    intros []; unfold k2, unreadied, set_state, upd_proc; simpl; by upd_cases.
Qed.

Lemma KernelUnlock_ok k c i :
  wf k -> current_process k = Some c -> idle_process k = Some i -> bkl_locked k = true ->
  exists k', KernelUnlock k = Some k' /\ wf k' /\
    bkl_locked k' = bool_decide (bkl_blocked_list k <> []) /\
    bkl_owner k' = match bkl_blocked_list k with p :: _ => Owner p | [] => NoOwner 0xcafef00d end /\
    bkl_blocked_list k' = tail (bkl_blocked_list k) /\ blocked_list k' = blocked_list k /\
    timers_same k k'.
Proof.
  intros W Hc Hi Hl. pose proof (wf_wf_lists k W) as WL.
  unfold KernelUnlock, upd_bkl_list. rewrite Hl.
  destruct (bkl_blocked_list k) as [|p l] eqn:E; simpl.
  { eexists. split; [done|]. split; [|done].
    constructor; [eapply wf_lists_ext; [apply W|done|done|apply W]|done|apply W]. }
  destruct (bkl_place k p WL) as ((A & _) & Hok & Hst); [rewrite E; by left|].
  rewrite E. cbn [mbind option_bind rem_head].
  rewrite SchedReady_eq; simpl; rewrite ?fn_lookup_insert; [|done|by rewrite A].
  pose proof (hand_over_wf k p l WL E) as W1.
  match goal with |- context [Reschedule ?K] => set (k2 := K) in * end.
  assert (wf_lists k2) as W2 by (eapply wf_lists_ext; [apply W1|done|done|apply W1]).
  assert (p ∈ sched_queue k2 (p_priority (procs k2 p))) as Hp2.
  { unfold k2, readied, set_state, upd_proc; simpl. rewrite !fn_lookup_insert; simpl.
    rewrite ?fn_lookup_insert. apply elem_of_app. right. by left. }
  destruct (Reschedule_wf k2 c i W2) as (k' & -> & W' & C' & F); [done..| |].
  - destruct (wf_wf_current k W) as (c' & Ec & Hcur).
    rewrite Hc in Ec. injection Ec as <-. destruct Hcur as [Hic|Hh].
    + assert (c <> p) as Hcp by (intros ->; by destruct (params_not_idle k p WL Hok)).
      unfold account_ok. assert (procs k2 c = procs k c) as -> by
        (unfold k2, readied, set_state, upd_proc; simpl; by rewrite !fn_lookup_insert_ne by done).
      rewrite (wf_idle k WL c Hic). split; [by left|done].
    + assert (c ∈ sched_queue k (p_priority (procs k c))) as Hq by (by apply head_Some_elem_of).
      assert (c <> p) as Hcp by (intros ->; by apply A in Hq).
      unfold account_ok. assert (procs k2 c = procs k c) as -> by
        (unfold k2, readied, set_state, upd_proc; simpl; by rewrite !fn_lookup_insert_ne by done).
      destruct (queue_place k c _ WL Hq) as (_ & _ & ? & _). split; [by right|].
      intros _. right. unfold k2, readied, set_state, upd_proc; simpl.
      rewrite !fn_lookup_insert; simpl. upd_cases; [|done].
      by destruct (sched_queue k (p_priority (procs k p))).
  - exists k'. split_and!; try done; try (etrans; [apply F|done]).
    + constructor; [done| |done]. unfold wf_lock.
      rewrite (fr_locked _ _ F), (fr_owner _ _ F). simpl. exists p. split; [done|].
      left. by apply F.
    + etrans; [|by apply frame_timers]. constructor; try done.
      intros []; unfold k2, readied, set_state, upd_proc; simpl; by upd_cases.
Qed.

(** A process leaves a rendez for the lock's list while the lock is held. *)
Lemma to_bkl_ok k r p l :
  wf k -> bkl_locked k = true -> p ∈ blocked_list k r ->
  l = filter (fun y => y <> p) (blocked_list k r) ->
  wf (set_state p PROC_STATE_BKL_BLOCKED
    (k <| blocked_list := <[r := l]> (blocked_list k) |>
       <| bkl_blocked_list := bkl_blocked_list k ++ [p] |>)).
Proof.
  intros W Hl Hp ->. pose proof (wakeup_wf k r p (wf_wf_lists k W) Hp) as WL.
  pose proof (wf_wf_lock k W) as Hlk. pose proof (wf_wf_current k W) as (c & Hc & Hcur).
  unfold wf_lock in Hlk. rewrite Hl in Hlk. destruct Hlk as (o & Ho & Hq).
  constructor; [done| |].
  - unfold wf_lock. simpl. rewrite Hl. exists o. split; [done|]. by upd_cases.
  - exists c. split; [done|]. simpl. by upd_cases.
Qed.

(** [TaskWakeup] moves the first sleeper, if any, to the end of the lock's list. *)
Lemma TaskWakeup_ok k r :
  wf k -> bkl_locked k = true ->
  exists k', TaskWakeup r k = Some k' /\ wf k' /\ bkl_locked k' = true /\
    bkl_owner k' = bkl_owner k /\ current_process k' = current_process k /\
    idle_process k' = idle_process k /\
    bkl_blocked_list k' = bkl_blocked_list k ++ option_list (list.head (blocked_list k r)) /\
    (forall r', blocked_list k' r' =
       if decide (r' = r) then tail (blocked_list k r) else blocked_list k r').
Proof.
  intros W Hl. unfold TaskWakeup, upd_rendez, upd_bkl_list.
  destruct (blocked_list k r) as [|p l] eqn:E; simpl.
  { exists k. rewrite app_nil_r. split_and!; try done. intros r'. by case_decide; subst. }
  rewrite ?E. simpl. pose proof (wf_wf_lists k W) as WL.
  destruct (rendez_place k r p WL) as ((_ & B & _) & _); [rewrite E; by left|].
  pose proof (wf_nodup k WL) as (_ & _ & N). specialize (N r). rewrite E in N.
  rewrite add_tail_fresh by (by rewrite B). simpl. eexists. split; [done|]. split.
  { apply to_bkl_ok; [done|done|rewrite E; by left|].
    rewrite E. by rewrite (filter_ne_split p [] l). }
  split_and!; try done. intros r'. simpl. case_decide; subst; [by rewrite fn_lookup_insert|].
  by rewrite fn_lookup_insert_ne by done.
Qed.

Lemma TaskWakeupFromISR_eq r k : TaskWakeupFromISR r k = TaskWakeup r k.
Proof. done. Qed.

Lemma TaskWakeupAll_loop_ok n k r :
  wf k -> bkl_locked k = true -> (length (blocked_list k r) < n)%nat ->
  exists k', TaskWakeupAll_loop n r k = Some k' /\ wf k' /\ bkl_locked k' = true /\
    bkl_owner k' = bkl_owner k /\ current_process k' = current_process k /\
    idle_process k' = idle_process k /\
    bkl_blocked_list k' = bkl_blocked_list k ++ blocked_list k r /\
    (forall r', blocked_list k' r' = if decide (r' = r) then [] else blocked_list k r').
Proof.
  revert k. induction n as [|n IH]; intros k W Hl Hn; [lia|]. simpl.
  destruct (TaskWakeup_ok k r W Hl) as (k1 & E & W1 & L1 & O1 & C1 & I1 & B1 & R1).
  unfold TaskWakeup in E. rewrite E. cbn [mbind option_bind].
  pose proof (R1 r) as Er. rewrite decide_True in Er by done. rewrite Er.
  destruct (blocked_list k r) as [|p l] eqn:El; simpl in *.
  { exists k1. rewrite app_nil_r in B1 |- *. split_and!; try done. }
  destruct l as [|p' l]; simpl.
  { exists k1. split_and!; try done. }
  destruct (IH k1 W1 L1) as (k' & E' & W' & L' & O' & C' & I' & B' & R'); [rewrite Er; simpl in *; lia|].
  exists k'. split; [done|]. split_and!; try done; try congruence.
  - rewrite B', B1, Er. by rewrite <- (assoc_L (++)).
  - intros r'. rewrite R', R1. by case_decide.
Qed.

(** [TaskWakeupAll] ends, with all the sleepers at the end of the lock's list in
    the order in which they went to sleep. *)
Lemma TaskWakeupAll_ok k r :
  wf k -> bkl_locked k = true ->
  exists k', TaskWakeupAll r k = Some k' /\ wf k' /\ bkl_locked k' = true /\
    bkl_owner k' = bkl_owner k /\ current_process k' = current_process k /\
    idle_process k' = idle_process k /\
    bkl_blocked_list k' = bkl_blocked_list k ++ blocked_list k r /\
    (forall r', blocked_list k' r' = if decide (r' = r) then [] else blocked_list k r').
Proof. intros W Hl. apply TaskWakeupAll_loop_ok; [done..|lia]. Qed.

Lemma TaskTimedSleepCallback_ok k t r p :
  wf k -> bkl_locked k = true ->
  t_process (get_timer k t) = Some p -> t_arg (get_timer k t) = Some r ->
  p ∈ blocked_list k r ->
  exists k', TaskTimedSleepCallback t k = Some k' /\ wf k' /\ bkl_locked k' = true /\
    bkl_owner k' = bkl_owner k /\
    bkl_blocked_list k' = bkl_blocked_list k ++ [p] /\
    (forall r', blocked_list k' r' =
       if decide (r' = r) then filter (fun y => y <> p) (blocked_list k r)
       else blocked_list k r').
Proof.
  intros W Hl Hp Hr Hin. pose proof (wf_wf_lists k W) as WL.
  destruct (rendez_place k r p WL Hin) as ((_ & B & _) & _ & Hst).
  unfold TaskTimedSleepCallback, upd_rendez, upd_bkl_list.
  rewrite Hp, Hr, Hst. simpl. rewrite rem_entry_linked by done. simpl.
  rewrite add_tail_fresh by (by rewrite B). simpl. eexists. split; [done|].
  split; [by apply to_bkl_ok|]. split_and!; try done.
  intros r'. simpl. case_decide; subst; [by rewrite fn_lookup_insert|].
  by rewrite fn_lookup_insert_ne by done.
Qed.

Lemma requeued k c policy priority p :
  let f := fun p => p <| p_sched_policy := policy |> <| p_desired_priority := priority |>
                      <| p_priority := priority |> in
  let k' := readied c (upd_proc c f (unreadied c k)) in
  p ∈ sched_queue k (p_priority (procs k p)) -> 
  p ∈ sched_queue k' (p_priority (procs k' p)).
Proof.
  intros f k' Hp. unfold k', readied, upd_proc. simpl. rewrite !fn_lookup_insert. simpl.
  destruct (decide (p = c)) as [->|Hne].
  - rewrite !fn_lookup_insert. simpl. rewrite ?fn_lookup_insert.
    apply elem_of_app. right. by left.
  - rewrite !(fn_lookup_insert_ne _ c p) by done.
    pose proof (unreadied_queue_ne k c p Hne Hp) as Hu. unfold unreadied, upd_proc in Hu.
    simpl in Hu. rewrite !(fn_lookup_insert_ne _ c p) in Hu by done.
    destruct (decide (priority = p_priority (procs k p))) as [->|Hq].
    + rewrite fn_lookup_insert. apply elem_of_app. by left.
    + by rewrite fn_lookup_insert_ne by done.
Qed.

Lemma change_sched_ok k c i policy priority :
  wf k -> current_process k = Some c -> idle_process k = Some i -> i <> c ->
  schedulable policy -> 0 <= priority < 32 ->
  exists k', change_sched c policy priority k = Some k' /\ wf k' /\
    bkl_locked k' = bkl_locked k /\ bkl_owner k' = bkl_owner k /\
    bkl_blocked_list k' = bkl_blocked_list k /\ blocked_list k' = blocked_list k /\
    p_sched_policy (procs k' c) = policy /\ p_desired_priority (procs k' c) = priority /\
    timers_same k k'.
Proof.
  intros W Hc Hi Hne Hs Hp. pose proof (wf_wf_lists k W) as WL.
  assert (c ∈ sched_queue k (p_priority (procs k c))) as Hq
    by (apply current_queued; [done..|congruence]).
  destruct (queue_place k c _ WL Hq) as ((A & B & C) & _ & Hok & Hst).
  unfold change_sched. rewrite SchedUnready_eq by done. cbn [mbind option_bind].
  pose proof (change_params_wf k c policy priority WL Hq Hs Hp) as W2.
  rewrite SchedReady_eq. cbn [mbind option_bind].
  2: { unfold upd_proc; simpl; rewrite !fn_lookup_insert; done. }
  2: { unfold upd_proc; simpl; rewrite !fn_lookup_insert; simpl. upd_cases.
       - rewrite elem_of_filter_ne. naive_solver.
       - rewrite A. congruence. }
  match goal with |- context [Reschedule ?K] => set (k2 := K) in * end.
  assert (procs k2 c = procs k c <| p_sched_policy := policy |> <| p_priority := priority |>
     <| p_desired_priority := priority |> <| p_quanta_used := 0 |>) as Ec.
  { unfold k2. by rewrite procs_readied, procs_upd_eq, procs_unreadied. }
  destruct (Reschedule_wf k2 c i W2) as (k' & -> & W' & C' & F); [done..| |].
  { unfold account_ok. rewrite Ec. split; [right|left]; done. }
  pose proof (fr_core _ _ F c) as Hcore. rewrite Ec in Hcore.
  exists k'. split_and!; try done; try (etrans; [apply F|done]).
  - constructor; [done| |done]. pose proof (wf_wf_lock k W) as Hl. unfold wf_lock in *.
    rewrite (fr_locked _ _ F), (fr_owner _ _ F), (fr_bkl _ _ F), (fr_idle _ _ F).
    change (bkl_locked k2) with (bkl_locked k). destruct (bkl_locked k); [|done].
    destruct Hl as (o & Ho & [Hoq|Hoi]); exists o; (split; [done|]); [left|by right].
    apply (fr_queued _ _ F). by apply requeued.
  - by injection Hcore.
  - by injection Hcore.
  - etrans; [|by apply frame_timers]. constructor; try done.
    assert (forall x, x <> c -> procs k2 x = procs k x) as Ex.
    { intros x Hx. unfold k2. by rewrite procs_readied_ne, procs_upd_ne, procs_unreadied_ne. }
    intros [x|x]; unfold get_timer; destruct (decide (x = c)) as [->|Hx];
      first [by rewrite Ec|by rewrite Ex].
Qed.

(** ** The bitmap and the choice of the next process *)

Lemma testbit_set b q q' :
  0 <= q -> 0 <= q' ->
  Z.testbit (Z.lor b (Z.shiftl 1 q)) q' = Z.testbit b q' || bool_decide (q = q').
Proof.
  intros. rewrite Z.lor_spec, Z.shiftl_1_l, Z.pow2_bits_eqb by lia.
  f_equal. case_bool_decide; [subst; by rewrite Z.eqb_refl|by apply Z.eqb_neq].
Qed.

Lemma testbit_clear b q q' :
  0 <= q -> 0 <= q' ->
  Z.testbit (Z.ldiff b (Z.shiftl 1 q)) q' = Z.testbit b q' && negb (bool_decide (q = q')).
Proof.
  intros. rewrite Z.ldiff_spec, Z.shiftl_1_l, Z.pow2_bits_eqb by lia.
  do 2 f_equal. case_bool_decide; [subst; by rewrite Z.eqb_refl|by apply Z.eqb_neq].
Qed.

Lemma set_bit_range b q : 0 <= b < 2 ^ 32 -> 0 <= q < 32 -> 0 <= Z.lor b (Z.shiftl 1 q) < 2 ^ 32.
Proof.
  intros Hb Hq. apply bits_bound; [done|]. intros i Hi. rewrite testbit_set by lia.
  rewrite (bits_above b 32) by lia. by rewrite bool_decide_false by lia.
Qed.

Lemma clear_bit_range b q : 0 <= b < 2 ^ 32 -> 0 <= q -> 0 <= Z.ldiff b (Z.shiftl 1 q) < 2 ^ 32.
Proof.
  intros Hb Hq. apply bits_bound; [done|]. intros i Hi. rewrite testbit_clear by lia.
  by rewrite (bits_above b 32) by lia.
Qed.

Lemma readied_bitmap k p :
  bitmap_ok k -> 0 <= p_priority (procs k p) < 32 -> bitmap_ok (readied p k).
Proof.
  intros [Hr Hb] Hp. unfold bitmap_ok, readied, upd_proc; simpl.
  split; [by apply set_bit_range|]. intros q Hq. rewrite testbit_set by lia.
  destruct (decide (p_priority (procs k p) = q)) as [<-|Hne].
  - rewrite fn_lookup_insert, bool_decide_true by done. rewrite orb_true_r.
    split; [|done]. intros _. by destruct (sched_queue k _).
  - rewrite fn_lookup_insert_ne, bool_decide_false by done. rewrite orb_false_r. by apply Hb.
Qed.

Lemma unreadied_bitmap k p :
  bitmap_ok k -> p ∈ sched_queue k (p_priority (procs k p)) ->
  0 <= p_priority (procs k p) < 32 -> bitmap_ok (unreadied p k).
Proof.
  intros [Hr Hb] Hin Hp. unfold bitmap_ok, unreadied, upd_proc; simpl.
  case_bool_decide as He; (split; [try apply clear_bit_range; lia|]); intros q Hq.
  - rewrite testbit_clear by lia. destruct (decide (p_priority (procs k p) = q)) as [<-|Hne].
    + rewrite fn_lookup_insert, bool_decide_true by done. rewrite andb_false_r. naive_solver.
    + rewrite fn_lookup_insert_ne, bool_decide_false by done. rewrite andb_true_r. by apply Hb.
  - destruct (decide (p_priority (procs k p) = q)) as [<-|Hne].
    + rewrite fn_lookup_insert. split; [done|]. intros _. apply Hb; [done|]. intros E. rewrite E in Hin.
      by apply elem_of_nil in Hin.
    + rewrite fn_lookup_insert_ne by done. by apply Hb.
Qed.

Lemma scan_bitmap_spec b n :
  (scan_bitmap b n = -1 /\ forall q, 0 <= q < Z.of_nat n -> Z.testbit b q = false) \/
  (0 <= scan_bitmap b n < Z.of_nat n /\ Z.testbit b (scan_bitmap b n) = true /\
   forall q, scan_bitmap b n < q < Z.of_nat n -> Z.testbit b q = false).
Proof.
  induction n as [|n IH]; [left; split; [done|lia]|]. cbn [scan_bitmap].
  destruct (Z.testbit b (Z.of_nat n)) eqn:E.
  { right. split_and!; [lia|lia|done|]. intros. lia. }
  destruct IH as [[IH1 IH2]|(IH1 & IH2 & IH3)]; [left|right].
  - split; [done|]. intros q Hq. destruct (decide (q = Z.of_nat n)) as [->|]; [done|].
    apply IH2. lia.
  - split_and!; [lia|lia|done|]. intros q Hq. destruct (decide (q = Z.of_nat n)) as [->|]; [done|].
    apply IH3. lia.
Qed.

(** The process a scheduler with strict priorities chooses: the first of the
    highest queue that has one, the idle process when there is none. *)
Definition highest_ready (k : kernel) (n : Z) : Prop :=
  (exists q, 0 <= q < 32 /\ list.head (sched_queue k q) = Some n /\
     forall q', q < q' < 32 -> sched_queue k q' = []) \/
  ((forall q, 0 <= q < 32 -> sched_queue k q = []) /\ idle_process k = Some n).

Lemma Reschedule_next_highest k n :
  bitmap_ok k -> Reschedule_next k = Some n -> highest_ready k n.
Proof.
  intros [Hr Hb]. unfold Reschedule_next.
  assert (forall q, 0 <= q < 32 -> Z.testbit (sched_queue_bitmap k) q = false ->
    sched_queue k q = []) as Hempty.
  { intros q Hq Hf. destruct (sched_queue k q) eqn:E; [done|].
    assert (Z.testbit (sched_queue_bitmap k) q = true) by (apply Hb; [done|by rewrite E]).
    congruence. }
  case_bool_decide as H0.
  - destruct (scan_bitmap_spec (sched_queue_bitmap k) 32) as [[_ Hz]|(H1 & H2 & H3)].
    { exfalso. apply H0. apply Z.bits_inj_0. intros q.
      destruct (decide (0 <= q < 32)); [by apply Hz|].
      destruct (decide (q < 0)); [by apply Z.testbit_neg_r|].
      apply (bits_above _ 32); lia. }
    pose proof H2 as Hne%Hb; [|lia].
    destruct (sched_queue k (scan_bitmap _ 32)) as [|h l] eqn:El; [done|].
    simpl. intros [= <-]. left. eexists. split; [exact H1|]. rewrite El. split; [done|].
    intros q' Hq'. apply Hempty; [lia|]. apply H3. lia.
  - intros Hi. right. split; [|done]. intros q Hq. apply Hempty; [done|].
    by rewrite H0, Z.bits_0.
Qed.

(** The current process uses up its quantum at this reschedule. *)
Definition quantum_expires (k : kernel) (c : Z) : Prop :=
  p_sched_policy (procs k c) = SCHED_OTHER /\
  i32 (p_quanta_used (procs k c) + 1) = SCHED_QUANTA_JIFFIES.

Definition rotate (l : list Z) : list Z :=
  match l with [] => [] | x :: l => l ++ [x] end.

Lemma rotate_perm l : rotate l ≡ₚ l.
Proof. destruct l; simpl; [done|]. by rewrite Permutation_app_comm. Qed.

(** The run queues after the accounting, unless it demotes the process. *)
Lemma Reschedule_account_queues k c k1 :
  Reschedule_account c k = Some k1 ->
  ~ (quantum_expires k c /\ 1 < p_priority (procs k c)) ->
  (forall q, sched_queue k1 q = sched_queue k q \/
     (q = p_priority (procs k c) /\ sched_queue k1 q = rotate (sched_queue k q))) /\
  (p_sched_policy (procs k c) = SCHED_RR ->
     sched_queue k1 (p_priority (procs k c)) = rotate (sched_queue k (p_priority (procs k c)))).
Proof.
  intros E Hd. unfold Reschedule_account in E. rewrite procs_upd_eq in E.
  cbn [p_sched_policy p_priority p_quanta_used update_field] in E.
  assert (forall k2, (k3 ← upd_queue (p_priority (procs k c)) forward
      (upd_proc c (fun p => p <| p_quanta_used := i32 (p_quanta_used p + 1) |>) k);
    Some (upd_proc c (fun p => p <| p_quanta_used := 0 |>) k3)) = Some k2 ->
    forall q, sched_queue k2 q = if decide (q = p_priority (procs k c))
      then rotate (sched_queue k q) else sched_queue k q) as Hrot.
  { clear E. intros k2. destruct (upd_queue _ _ _) as [k3|] eqn:E3; [|done].
    apply upd_queue_Some in E3 as (l & _ & El & ->). intros [= <-] q. simpl in *.
    case_decide; subst; [rewrite fn_lookup_insert|by rewrite fn_lookup_insert_ne by done].
    by destruct (sched_queue k _); simplify_eq/=. }
  unfold quantum_expires in Hd.
  repeat case_bool_decide; simplify_eq/=; try (by split; [left|congruence]).
  - specialize (Hrot _ E). split.
    + intros q. rewrite Hrot. case_decide; eauto.
    + intros _. rewrite Hrot. by rewrite decide_True by done.
  - split; [by left|]. intros _.
    by assert (sched_queue k (p_priority (procs k c)) = []) as ->.
  - lia.
  - specialize (Hrot _ E). split; [|congruence].
    intros q. rewrite Hrot. case_decide; eauto.
Qed.

Lemma wf_account_ok k c : wf k -> current_process k = Some c -> account_ok k c.
Proof.
  intros W Hc. pose proof (wf_wf_lists k W) as WL.
  destruct (wf_wf_current k W) as (c' & Ec & Hcur). rewrite Hc in Ec. injection Ec as <-.
  destruct Hcur as [Hi|Hh].
  - pose proof (wf_idle k WL c Hi) as Hp. split; [by left|]. by rewrite Hp.
  - assert (c ∈ sched_queue k (p_priority (procs k c))) as Hq by (by apply head_Some_elem_of).
    destruct (queue_place k c _ WL Hq) as (_ & _ & Hok & _). split; [by right|by right].
Qed.

(** What [Reschedule] does after its accounting. *)
Lemma Reschedule_after k c k1 n k' :
  current_process k = Some c -> Reschedule_account c k = Some k1 -> current_process k1 = current_process k ->
  Reschedule_next k1 = Some n -> Reschedule k = Some k' ->
  sched_queue k' = sched_queue k1 /\ sched_queue_bitmap k' = sched_queue_bitmap k1 /\
  idle_process k' = idle_process k1 /\ current_process k' = Some n /\ ttbr0 k' = Some n.
Proof.
  intros Hc E1 Hc1 En E. unfold Reschedule, get_current_process in E. rewrite Hc, E1 in E.
  cbn [mbind option_bind] in E. rewrite En in E. case_bool_decide; simplify_eq/=; rewrite ?Hc1; by rewrite ?Hc.
Qed.

Lemma Reschedule_highest k c i :
  wf_lists k -> account_ok k c -> bitmap_ok k ->
  current_process k = Some c -> idle_process k = Some i ->
  ~ (quantum_expires k c /\ 1 < p_priority (procs k c)) ->
  exists k' n, Reschedule k = Some k' /\ current_process k' = Some n /\
    wf_lists k' /\ wf_current k' /\ sched_frame k k' /\ bitmap_ok k' /\ highest_ready k' n /\
    ttbr0 k' = Some n /\ (forall q, sched_queue k' q ≡ₚ sched_queue k q) /\
    (p_sched_policy (procs k c) = SCHED_RR ->
     sched_queue k' (p_priority (procs k c)) = rotate (sched_queue k (p_priority (procs k c)))).
Proof.
  intros WL Ha Hb Hc Hi Hd.
  destruct (Reschedule_wf k c i WL Hc Hi Ha) as (k' & E & W' & C' & F).
  destruct (Reschedule_account_wf k c WL Ha) as (k1 & E1 & W1 & F1 & B1 & Hc1).
  destruct (Reschedule_account_queues k c k1 E1 Hd) as [Hq Hrr].
  assert (forall q, sched_queue k1 q ≡ₚ sched_queue k q) as Hperm.
  { intros q. destruct (Hq q) as [->|[_ ->]]; [done|apply rotate_perm]. }
  assert (bitmap_ok k1) as Hb1.
  { destruct Hb as [Hr Hb]. split; [by rewrite B1|]. intros q Hq'. rewrite B1, Hb by done.
    specialize (Hperm q). split; intros Hn Hx; apply Hn, Permutation_nil_r; by rewrite <- Hx. }
  destruct (Reschedule_next_Some k1 i) as (n & En); [by rewrite (fr_idle _ _ F1)|].
  pose proof (Reschedule_next_highest k1 n Hb1 En) as Hh.
  destruct (Reschedule_after k c k1 n k' Hc E1 Hc1 En E) as (Eq & Eb & Eidle & Ecur & Et).
  exists k', n. split_and!; try done.
  - unfold bitmap_ok. by rewrite Eq, Eb.
  - unfold highest_ready. by rewrite Eq, Eidle.
  - intros q. by rewrite Eq.
  - by rewrite Eq.
Qed.

(** The highest set bit of an exact bitmap. *)
Lemma scan_bitmap_top k p :
  bitmap_ok k -> 0 <= p < 32 -> sched_queue k p <> [] ->
  (forall q, p < q < 32 -> sched_queue k q = []) ->
  sched_queue_bitmap k <> 0 /\ scan_bitmap (sched_queue_bitmap k) 32 = p.
Proof.
  intros [Hr Hb] Hp Hne Hhi.
  assert (Z.testbit (sched_queue_bitmap k) p = true) as Ht by (by apply Hb).
  split; [intros E; by rewrite E, Z.bits_0 in Ht|].
  destruct (scan_bitmap_spec (sched_queue_bitmap k) 32) as [[_ Hz]|(H1 & H2 & H3)].
  - rewrite Hz in Ht; [done|lia].
  - destruct (Z.lt_trichotomy (scan_bitmap (sched_queue_bitmap k) 32) p) as [Hlt|[?|Hgt]];
      [|done|].
    + rewrite H3 in Ht; [done|lia].
    + apply Hb in H2; [|lia]. destruct H2. apply Hhi. lia.
Qed.

(** The current process is the only one of the highest non-empty queue. *)
Definition alone_at_top (k : kernel) (c : Z) : Prop :=
  sched_queue k (p_priority (procs k c)) = [c] /\ forall q, p_priority (procs k c) < q < 32 -> sched_queue k q = [].

(** The queues after a demotion. *)
Definition demoted (k : kernel) (c q : Z) : list Z :=
  filter (fun y => y <> c) (sched_queue k q) ++ if decide (q = p_priority (procs k c) - 1) then [c] else [].

(** The choice after a demotion, which leaves the bitmap as it was. *)
Lemma demoted_next k c l i k1 :
  wf_lists k -> bitmap_ok k -> sched_queue k (p_priority (procs k c)) = c :: l -> 0 <= p_priority (procs k c) < 32 ->
  (forall q, sched_queue k1 q = demoted k c q) -> sched_queue_bitmap k1 = sched_queue_bitmap k -> idle_process k1 = Some i ->
  alone_at_top k c /\ Reschedule_next k1 = Some i \/
  ~ alone_at_top k c /\ exists n, Reschedule_next k1 = Some n /\ highest_ready k1 n.
Proof.
  intros W [Hr Hb] El Hp Q1 B1 Hi. set (p := p_priority (procs k c)) in *.
  assert (c ∈ sched_queue k p) as Hin by (rewrite El; by left).
  assert (Z.testbit (sched_queue_bitmap k) p = true) as Ht by (apply Hb; [done|by rewrite El]).
  assert (sched_queue_bitmap k <> 0) as H0 by (intros E; by rewrite E, Z.bits_0 in Ht).
  destruct (scan_bitmap_spec (sched_queue_bitmap k) 32) as [[_ Hz]|(H1 & H2 & H3)]; [rewrite Hz in Ht; [done|lia]|].
  unfold Reschedule_next. rewrite B1, bool_decide_true by done. set (t := scan_bitmap _ 32) in *.
  assert (p <= t) as Hpt by (destruct (decide (p <= t)); [done|]; rewrite H3 in Ht; [done|lia]).
  assert (forall q, t < q < 32 -> sched_queue k q = []) as Hab.
  { intros q Hq. destruct (sched_queue k q) eqn:E; [done|]. specialize (H3 q Hq).
    rewrite (proj2 (Hb q ltac:(lia))) in H3; [done|by rewrite E]. }
  assert (forall q, t < q < 32 -> sched_queue k1 q = []) as Hab1.
  { intros q Hq. rewrite Q1. unfold demoted. rewrite Hab by done. by rewrite decide_False by (fold p; lia). }
  assert (sched_queue k1 t = filter (fun y => y <> c) (sched_queue k t)) as Et.
  { rewrite Q1. unfold demoted. rewrite decide_False by (fold p; lia). apply app_nil_r. }
  destruct (decide (t = p)) as [Etp|Htp].
  - rewrite Etp in *. pose proof (wf_nodup k W) as (N1 & _). pose proof (N1 p) as Hnd. rewrite El in Hnd.
    rewrite El, (filter_ne_split c [] l) in Et by done. cbn in Et. rewrite Et. destruct l as [|n l]; cbn.
    + left. split; [split; [by fold p; rewrite El|done]|done].
    + right. split; [intros [Ha _]; fold p in Ha; by rewrite El in Ha|]. exists n. split; [done|]. left. exists p.
      split; [done|]. by rewrite Et.
  - rewrite (filter_other_queue k c t W Hin Htp) in Et. destruct (sched_queue k t) as [|n l'] eqn:E.
    { apply Hb in H2; [|lia]. by rewrite E in H2. }
    rewrite Et. right. split; [intros [_ Ha]; rewrite Ha in E; [done|fold p; lia]|].
    exists n. split; [done|]. left. exists t. split; [lia|]. by rewrite Et.
Qed.


(** A time-shared process that is alone and uses up its quantum loses the
    processor to the idle process: the demotion moves it to the queue below but
    leaves [sched_queue_bitmap] as it was, so the bit of its old, now empty
    queue is found and the idle process is chosen although the demoted process
    is ready. *)
Theorem demotion_runs_idle k c i :
  wf k -> bitmap_ok k -> current_process k = Some c -> idle_process k = Some i -> i <> c ->
  quantum_expires k c -> 1 < p_priority (procs k c) ->
  sched_queue k (p_priority (procs k c)) = [c] ->
  (forall q, p_priority (procs k c) < q < 32 -> sched_queue k q = []) ->
  exists k', Reschedule k = Some k' /\ current_process k' = Some i /\
    c ∈ sched_queue k' (p_priority (procs k' c)) /\ ~ bitmap_ok k'.
Proof.
  intros W B Hc Hi Hne [Ho Hq] Hp Hsq Hhi. pose proof B as [Hr Hb]. pose proof (wf_wf_lists k W) as WL.
  assert (c ∈ sched_queue k (p_priority (procs k c))) as Hin by (rewrite Hsq; by left).
  destruct (queue_place k c _ WL Hin) as ((A & _) & _ & (_ & Hpr & _) & _).
  destruct (scan_bitmap_top k (p_priority (procs k c))) as [H0 Hscan]; [done..|by rewrite Hsq|done|].
  destruct (Reschedule_account_demotes k c [] WL Ho Hq Hsq Hp)
    as (k1 & E1 & W1 & F1 & B1 & C1 & P1 & Q1).
  assert (sched_queue k1 (p_priority (procs k c)) = []) as Hempty.
  { rewrite Q1, Hsq, decide_False by lia. rewrite filter_cons_False by naive_solver. done. }
  assert (Reschedule_next k1 = Some i) as En.
  { unfold Reschedule_next. by rewrite B1, bool_decide_true, Hscan, Hempty, (fr_idle _ _ F1). }
  unfold Reschedule, get_current_process. rewrite Hc, E1. cbn [mbind option_bind].
  rewrite En, bool_decide_false by congruence. eexists. split; [done|]. split; [done|]. split.
  - unfold set_state, upd_proc. simpl. rewrite fn_lookup_insert_ne by done. by apply F1.
  - intros [_ Hb']. apply (Hb' (p_priority (procs k c))); simpl; [done| |done].
    rewrite B1. apply Hb; [done|]. by rewrite Hsq.
Qed.

(** What a highest queue of one process determines. *)
Lemma highest_ready_only k k' n c :
  highest_ready k' n -> (forall q, sched_queue k' q ≡ₚ sched_queue k q) ->
  0 <= p_priority (procs k c) < 32 ->
  sched_queue k (p_priority (procs k c)) = [c] ->
  (forall q, p_priority (procs k c) < q < 32 -> sched_queue k q = []) -> n = c.
Proof.
  intros Hh Hp Hr Hc Hhi.
  assert (sched_queue k' (p_priority (procs k c)) = [c]) as Hc'.
  { apply Permutation_singleton_r. by rewrite Hp, Hc. }
  assert (forall q, p_priority (procs k c) < q < 32 -> sched_queue k' q = []) as Hhi'.
  { intros q Hq. apply Permutation_nil_r. by rewrite Hp, Hhi. }
  destruct Hh as [(q & Hq & Hn & Hab)|[He _]].
  - destruct (Z.lt_trichotomy q (p_priority (procs k c))) as [Hlt|[->|Hgt]].
    + rewrite Hab in Hc'; [done|lia].
    + rewrite Hc' in Hn. by injection Hn.
    + rewrite Hhi' in Hn; [done|lia].
  - by rewrite He in Hc'.
Qed.

(** [KernelUnlock] can return to its caller while another process owns the
    big kernel lock: when the caller has a higher priority than the process the
    lock passes to, the reschedule picks the caller again. *)
Theorem KernelUnlock_returns_without_lock k c i p l :
  wf k -> bitmap_ok k -> current_process k = Some c -> idle_process k = Some i -> i <> c ->
  bkl_locked k = true -> bkl_blocked_list k = p :: l ->
  p_priority (procs k p) < p_priority (procs k c) ->
  sched_queue k (p_priority (procs k c)) = [c] ->
  (forall q, p_priority (procs k c) < q < 32 -> sched_queue k q = []) ->
  ~ quantum_expires k c ->
  exists k', KernelUnlock k = Some k' /\ current_process k' = Some c /\
    bkl_locked k' = true /\ bkl_owner k' = Owner p /\ p <> c.
Proof.
  intros W B Hc Hi Hne Hl E Hlt Hsq Hhi Hexp. pose proof (wf_wf_lists k W) as WL.
  assert (c ∈ sched_queue k (p_priority (procs k c))) as Hin by (rewrite Hsq; by left).
  destruct (queue_place k c _ WL Hin) as (_ & _ & (_ & Hpr & _) & _).
  destruct (bkl_place k p WL) as ((A & _) & Hok & Hst); [rewrite E; by left|].
  assert (p <> c) as Hpc by (intros ->; lia).
  destruct (KernelUnlock_ok k c i W Hc Hi Hl) as (k' & EU & W' & El & Eo & _).
  exists k'. rewrite E in El, Eo. split_and!; try done. clear El Eo.
  unfold KernelUnlock, upd_bkl_list in EU. rewrite Hl, E in EU. simpl in EU.
  rewrite ?E in EU. cbn [mbind option_bind rem_head] in EU.
  rewrite SchedReady_eq in EU; simpl; rewrite ?fn_lookup_insert; [|done|by rewrite A].
  cbn [mbind option_bind] in EU.
  match type of EU with Reschedule ?K = _ => set (k2 := K) in * end.
  assert (procs k2 c = procs k c) as Ec by
    (unfold k2, readied, set_state, upd_proc; simpl; by rewrite !fn_lookup_insert_ne by done).
  assert (forall q, p_priority (procs k p) < q < 32 -> sched_queue k2 q = sched_queue k q) as Eq.
  { intros q Hq. unfold k2, readied, set_state, upd_proc; simpl. rewrite fn_lookup_insert.
    simpl. by rewrite fn_lookup_insert_ne by lia. }
  assert (bitmap_ok k2) as B2.
  { pose proof (readied_bitmap (set_state p PROC_STATE_READY k) p) as Hrb.
    unfold set_state in Hrb. rewrite procs_upd_eq in Hrb. apply Hrb; [done|apply Hok]. }
  destruct (Reschedule_highest k2 c i) as (k'' & n & E2 & Hn & _ & _ & _ & _ & Hh & _ & Hperm & _);
    try done.
  - pose proof (hand_over_wf k p l WL E) as W1. eapply wf_lists_ext; [apply W1|done|done|apply W1].
  - pose proof (wf_account_ok k c W Hc) as [Ha1 Ha2]. split; rewrite Ec; [done|].
    intros _. right. rewrite Eq by lia. by rewrite Hsq.
  - unfold quantum_expires in *. rewrite Ec. naive_solver.
  - rewrite EU in E2. injection E2 as <-. rewrite Hn. f_equal.
    eapply (highest_ready_only k2); [done|done|rewrite Ec..]; [done|by rewrite Eq by lia|].
    intros q Hq. rewrite Eq by lia. by apply Hhi.
Qed.

(** ** Witnesses

    A kernel in which process 0 runs alone on the queue of priority [pri],
    process 1 is the idle process and, when [waiting], process 0 owns the big
    kernel lock and process 2, of priority 3, waits for it. *)
Definition demo (policy pri quanta : Z) (waiting : bool) : kernel :=
  mkKernel
    (<[0 := zero_process <| p_state := PROC_STATE_RUNNING |> <| p_sched_policy := policy |>
              <| p_quanta_used := quanta |> <| p_priority := pri |>
              <| p_desired_priority := pri |>]>
     (<[1 := zero_process <| p_sched_policy := SCHED_IDLE |>]>
      (<[2 := zero_process <| p_state := if waiting then PROC_STATE_BKL_BLOCKED else 0 |>
                <| p_sched_policy := SCHED_RR |> <| p_priority := 3 |>
                <| p_desired_priority := 3 |>]> (fun _ => zero_process))))
    (<[pri := [0]]> (fun _ => [])) (2 ^ pri) waiting (if waiting then Owner 0 else NoOwner 0)
    (if waiting then [2] else []) (fun _ => []) (fun _ => []) 0 0 (Some 0) (Some 1) 0 3 false None.

Lemma demo_wf policy pri quanta waiting :
  schedulable policy -> 0 <= pri < 32 -> wf (demo policy pri quanta waiting).
Proof.
  intros Hs Hp. constructor.
  - constructor.
    + intros p. destruct (decide (p = 0)) as [->|H0].
      { exists (OnQueue pri). split; [|simpl; split_and!; try done; by right; right].
        split_and!; simpl; [intros q; upd_cases; set_solver|by destruct waiting; set_solver|set_solver]. }
      destruct (decide (p = 2 /\ waiting = true)) as [[-> ->]|H2].
      { exists OnBkl. split; [|split; [split; [by left|simpl; lia]|done]].
        split_and!; simpl; [intros q; upd_cases; set_solver|set_solver|set_solver]. }
      exists Nowhere. split.
      { split_and!; simpl; [intros q; upd_cases; set_solver|destruct waiting; set_solver|set_solver]. }
      simpl. rewrite fn_lookup_insert_ne by done.
      destruct (decide (p = 1)) as [->|H1]; [by split_and!|].
      rewrite fn_lookup_insert_ne by done.
      destruct (decide (p = 2)) as [->|H3].
      * rewrite fn_lookup_insert. simpl. destruct waiting; [naive_solver|].
        split_and!; try done. by intros [|].
      * rewrite fn_lookup_insert_ne by done. split_and!; try done. by intros [|].
    + split_and!; simpl; intros; try constructor.
      * upd_cases; [apply NoDup_singleton|constructor].
      * destruct waiting; [apply NoDup_singleton|constructor].
    + by intros ? [= <-].
  - unfold wf_lock. destruct waiting; simpl; [|done]. exists 0. split; [done|]. left.
    simpl. rewrite fn_lookup_insert. by left.
  - exists 0. split; [done|]. right. simpl. by rewrite fn_lookup_insert.
Qed.

Lemma demo_bitmap policy pri quanta waiting :
  0 <= pri < 32 -> bitmap_ok (demo policy pri quanta waiting).
Proof.
  intros Hp. split; [simpl; split; [apply Z.pow_nonneg; lia|apply Z.pow_lt_mono_r; lia]|].
  intros q Hq. simpl. rewrite Z.pow2_bits_eqb by lia. upd_cases; [by rewrite Z.eqb_refl|].
  rewrite (proj2 (Z.eqb_neq pri q)) by done. naive_solver.
Qed.


Lemma demotion_runs_idle_witness :
  exists k', Reschedule (demo SCHED_OTHER 10 4 false) = Some k' /\
    current_process k' = Some 1 /\ 0 ∈ sched_queue k' (p_priority (procs k' 0)) /\ ~ bitmap_ok k'.
Proof.
  apply (demotion_runs_idle (demo SCHED_OTHER 10 4 false) 0 1);
    [apply demo_wf; [by right; right|lia]|apply demo_bitmap; lia|done|done|done|done|done|done|].
  intros q Hq. simpl in *. by rewrite fn_lookup_insert_ne by lia.
Defined.

Lemma KernelUnlock_returns_without_lock_witness :
  exists k', KernelUnlock (demo SCHED_RR 20 0 true) = Some k' /\ current_process k' = Some 0 /\
    bkl_locked k' = true /\ bkl_owner k' = Owner 2 /\ 2 <> 0.
Proof.
  apply (KernelUnlock_returns_without_lock (demo SCHED_RR 20 0 true) 0 1 2 []);
    [apply demo_wf; [by left|lia]|apply demo_bitmap; lia|done|done|done|done|done|done|done| |].
  - intros q Hq. simpl in *. by rewrite fn_lookup_insert_ne by lia.
  - intros [? _]. discriminate.
Defined.
