(* ===== verification/Timer.v ===== *)
(** * The timing wheel

    The model of kernel/proc/timer.c: the hard and the soft clock, the hashed
    timing wheel of [JIFFIES_PER_SECOND] buckets, the sleeping system calls that
    arm timers and the bottom half that expires them.  A system call that sleeps
    is modelled up to the switch to another process and again from its
    resumption.  Times are mathematical integers reduced to the width of the
    variable that stores them: [hardclock_time] is a 32-bit [long],
    [expiration_time] a 64-bit [long long]. *)

From S2P Require Import Prelude Lists Sched.
Import Lists.Seq.

Definition CLOCK_REALTIME := 1.
Definition CLOCK_MONOTONIC := 4.
Definition CLOCK_MONOTONIC_RAW := 5.

(** What a system call does: return a value, or switch to another process. *)
Inductive outcome :=
  | Returned (v : Z) (k : kernel)
  | Switched (k : kernel).

(** ** Reading the clock *)

Definition get_hardclock (k : kernel) : Z := uwrap 64 (hardclock_time k).

(** The two user-space copies and the board's raw clock are arguments: whether
    [CopyOut] succeeds, and the result of [arch_clock_gettime].  The second
    component is what is copied to the user. *)
Definition sys_gettimeofday (copy_ok : bool) (k : kernel) : Z * option (Z * Z) :=
  let tv := (Z.quot (hardclock_time k) JIFFIES_PER_SECOND,
             Z.rem (hardclock_time k) JIFFIES_PER_SECOND) in
  (0, if copy_ok then Some tv else None).

Definition sys_clock_gettime (arch_clock_gettime : Z -> Z * (Z * Z)) (copy_ok : bool)
    (clock_id : Z) (k : kernel) : Z * option (Z * Z) :=
  let now := (Z.quot (hardclock_time k) JIFFIES_PER_SECOND,
              Z.rem (hardclock_time k) JIFFIES_PER_SECOND * NANOSECONDS_PER_JIFFY) in
  let '(sc, ts) :=
    if bool_decide (clock_id = CLOCK_REALTIME) then (0, now)
    else if bool_decide (clock_id = CLOCK_MONOTONIC) then (0, now)
    else if bool_decide (clock_id = CLOCK_MONOTONIC_RAW) then
      arch_clock_gettime CLOCK_MONOTONIC_RAW
    else (- EINVAL, now) in
  if bool_decide (sc <> 0) then (sc, None)
  else if copy_ok then (0, Some ts) else (- EFAULT, None).

Definition sys_settimeofday (k : kernel) : Z * kernel := (0, k).
Definition sys_clock_settime (k : kernel) : Z * kernel := (- ENOSYS, k).
Definition sys_alarm (k : kernel) : Z * kernel := (- ENOSYS, k).

(** ** Sleeping *)

Definition SleepCallback (t : timer_ref) (k : kernel) : option kernel :=
  process ← t_process (get_timer k t);
  TaskWakeup (RProcess process) k.

(** [while (timer->armed == true) TaskSleep(&current->rendez)], up to the next
    switch. *)
Definition sleep_loop (c : Z) (k : kernel) : option outcome :=
  if t_armed (get_timer k (TSleep c)) then
    k ← TaskSleep (RProcess c) k; Some (Switched k)
  else Some (Returned 0 k).

(** Arming the sleep timer of [c] to call [SleepCallback] at [e]. *)
Definition arm_sleep (c e : Z) (k : kernel) : option kernel :=
  let k := upd_timer (TSleep c)
    (fun t => t <| t_process := Some c |> <| t_armed := true |>
                <| t_callback := Some CallSleepCallback |> <| t_expiration_time := e |>) k in
  upd_wheel e (add_tail (TSleep c)) k.

Definition sys_sleep (seconds : Z) (k : kernel) : option outcome :=
  c ← get_current_process k;
  let e := swrap 64 (hardclock_time k + seconds * JIFFIES_PER_SECOND) in
  k ← arm_sleep c e k;
  sleep_loop c k.

(** [CopyIn] of the request and the board's busy wait are arguments. *)
Definition sys_nanosleep (req : option (Z * Z)) (arch_spin_nanosleep : Z * Z -> Z)
    (k : kernel) : option outcome :=
  c ← get_current_process k;
  match req with
  | None => Some (Returned (- EFAULT) k)
  | Some (tv_sec, tv_nsec) =>
      if bool_decide (tv_sec = 0 /\ tv_nsec < 10000000) &&
         bool_decide (arch_spin_nanosleep (tv_sec, tv_nsec) = 0)
      then Some (Returned 0 k)
      else
        let e := swrap 64 (hardclock_time k + tv_sec * JIFFIES_PER_SECOND +
                           Z.quot tv_nsec NANOSECONDS_PER_JIFFY) in
        k ← arm_sleep c e k;
        sleep_loop c k
  end.

(** Both calls continue here when process [c] runs again. *)
Definition sleep_resume (c : Z) (k : kernel) : option outcome := sleep_loop c k.

Definition SetTimeout (milliseconds : Z) (callback : option timer_callback)
    (arg : option rendez_ref) (k : kernel) : option (Z * kernel) :=
  c ← get_current_process k;
  let timer := get_timer k (TTimeout c) in
  '(remaining, k) ←
    (if t_armed timer then
       k ← upd_wheel (t_expiration_time timer) (rem_entry (TTimeout c)) k;
       Some (i32 (hardclock_time k - Z.quot (t_expiration_time timer) JIFFIES_PER_SECOND),
             upd_timer (TTimeout c) (fun t => t <| t_armed := false |>) k)
     else Some (0, k));
  if bool_decide (milliseconds > 0) then
    let e := swrap 64 (hardclock_time k +
               Z.quot milliseconds (Z.quot 1000 JIFFIES_PER_SECOND) + 1) in
    let k := upd_timer (TTimeout c)
      (fun t => t <| t_expiration_time := e |> <| t_process := Some c |>
                  <| t_callback := callback |> <| t_arg := arg |> <| t_armed := true |>) k in
    k ← upd_wheel e (add_tail (TTimeout c)) k;
    Some (remaining, k)
  else Some (remaining, k).

(** ** The clock interrupt and its bottom half *)

Definition TimerTopHalf (k : kernel) : option kernel :=
  let k := match current_process k with
           | Some c => upd_proc c (fun p => p <| p_quanta_used := i32 (p_quanta_used p + 1) |>) k
           | None => k
           end in
  let k := k <| hardclock_time := i32 (hardclock_time k + 1) |> in
  TaskWakeupFromISR RTimer k.

Definition run_callback (t : timer_ref) (k : kernel) : option kernel :=
  match t_callback (get_timer k t) with
  | Some CallSleepCallback => SleepCallback t k
  | Some CallTaskTimedSleepCallback => TaskTimedSleepCallback t k
  | None => Some k
  end.

(** [LIST_NEXT] on the represented list. *)
Fixpoint list_next (t : timer_ref) (l : list timer_ref) : option timer_ref :=
  match l with
  | [] => None
  | x :: l => if decide (x = t) then list.head l else list_next t l
  end.

(** The body of the inner loop of [TimerBottomHalf] for one timer. *)
Definition expire_timer (t : timer_ref) (k : kernel) : option kernel :=
  if bool_decide (t_expiration_time (get_timer k t) <= softclock_time k) then
    k ← upd_wheel (softclock_time k) (rem_entry t) k;
    let k := upd_timer t (fun tm => tm <| t_armed := false |>) k in
    run_callback t k
  else Some k.

(** The inner loop: the successor is read before the timer is unlinked. *)
Fixpoint expire_bucket (fuel : nat) (timer : option timer_ref) (k : kernel) : option kernel :=
  match timer with
  | None => Some k
  | Some t =>
      match fuel with
      | O => None
      | S fuel =>
          let next := list_next t (timing_wheel k (Z.rem (softclock_time k) JIFFIES_PER_SECOND)) in
          k ← expire_timer t k;
          expire_bucket fuel next k
      end
  end.

(** The outer loop: the soft clock catches up with the hard clock. *)
Fixpoint softclock_loop (fuel : nat) (k : kernel) : option kernel :=
  if bool_decide (softclock_time k < hardclock_time k) then
    match fuel with
    | O => None
    | S fuel =>
        let bucket := timing_wheel k (Z.rem (softclock_time k) JIFFIES_PER_SECOND) in
        k ← expire_bucket (length bucket) (list.head bucket) k;
        softclock_loop fuel (k <| softclock_time := i32 (softclock_time k + 1) |>)
    end
  else Some k.

(** One round of [TimerBottomHalf] after its [TaskSleep] returns, with as many
    steps as the soft clock is behind, and its next sleep. *)
Definition TimerBottomHalf_round (k : kernel) : option kernel :=
  k ← softclock_loop (Z.to_nat (hardclock_time k - softclock_time k)) k;
  TaskSleep RTimer k.

(** ** What a callback does *)

(** [k'] is [k] after the processes [moved] went from their rendez to the list
    of the big kernel lock. *)
Record woke (k k' : kernel) (moved : list Z) : Prop := {
  wk_timers t : get_timer k' t = get_timer k t;
  wk_wheel : timing_wheel k' = timing_wheel k;
  wk_hard : hardclock_time k' = hardclock_time k;
  wk_soft : softclock_time k' = softclock_time k;
  wk_current : current_process k' = current_process k;
  wk_idle : idle_process k' = idle_process k;
  wk_locked : bkl_locked k' = bkl_locked k;
  wk_owner : bkl_owner k' = bkl_owner k;
  wk_bkl : bkl_blocked_list k' = bkl_blocked_list k ++ moved;
  wk_state p : p_state (procs k' p) =
    if decide (p ∈ moved) then PROC_STATE_BKL_BLOCKED else p_state (procs k p);
  wk_blocked r : blocked_list k' r = filter (fun p => p ∉ moved) (blocked_list k r)
}.

Lemma woke_refl k : woke k k [].
Proof.
  constructor; try done; [by rewrite app_nil_r|].
  intros r. rewrite filter_all; [done|]. intros p _. apply not_elem_of_nil.
Qed.

Lemma to_bkl_woke k r p l :
  wf_lists k -> p ∈ blocked_list k r -> l = filter (fun y => y <> p) (blocked_list k r) ->
  woke k (set_state p PROC_STATE_BKL_BLOCKED
    (k <| blocked_list := <[r := l]> (blocked_list k) |>
       <| bkl_blocked_list := bkl_blocked_list k ++ [p] |>)) [p].
Proof.
  intros W Hp ->. destruct (rendez_place k r p W Hp) as ((_ & _ & C) & _).
  unfold set_state, upd_proc. constructor; simpl; try done.
  - intros []; simpl; by upd_cases.
  - intros x. upd_cases; simpl; case_decide; set_solver.
  - intros r'. upd_cases.
    + apply list_filter_iff. intros x. by rewrite list_elem_of_singleton.
    + rewrite filter_all; [done|]. intros x Hx. rewrite list_elem_of_singleton.
      intros ->. by apply C in Hx as [=].
Qed.

Lemma TaskWakeup_woke k r :
  wf k -> bkl_locked k = true ->
  exists k', TaskWakeup r k = Some k' /\ wf k' /\
    woke k k' (option_list (list.head (blocked_list k r))).
Proof.
  intros W Hl. destruct (TaskWakeup_ok k r W Hl) as (k' & E & W' & _). exists k'.
  split_and!; [done..|]. unfold TaskWakeup, upd_rendez, upd_bkl_list in E.
  destruct (blocked_list k r) as [|p l] eqn:Er; simpl in *; [simplify_eq; apply woke_refl|].
  rewrite ?Er in E. simpl in E. pose proof (wf_wf_lists k W) as WL.
  pose proof (wf_nodup k WL) as (_ & _ & N). specialize (N r). rewrite Er in N.
  destruct (add_tail p (bkl_blocked_list k)) as [l'|] eqn:Ea; simpl in E; [|done].
  apply add_tail_Some in Ea as [_ ->]. simplify_eq.
  apply to_bkl_woke; [done|rewrite Er; by left|]. rewrite Er. by rewrite (filter_ne_split p [] l).
Qed.

Lemma TaskTimedSleepCallback_woke k t p r :
  wf k -> bkl_locked k = true ->
  t_process (get_timer k t) = Some p -> t_arg (get_timer k t) = Some r ->
  (p_state (procs k p) = PROC_STATE_RENDEZ_BLOCKED -> p ∈ blocked_list k r) ->
  exists k' moved, TaskTimedSleepCallback t k = Some k' /\ wf k' /\ woke k k' moved /\
    (p_state (procs k p) = PROC_STATE_RENDEZ_BLOCKED -> moved = [p]).
Proof.
  intros W Hl Hp Hr Hin.
  destruct (decide (p_state (procs k p) = PROC_STATE_RENDEZ_BLOCKED)) as [Hs|Hs].
  - specialize (Hin Hs). pose proof (wf_wf_lists k W) as WL.
    destruct (TaskTimedSleepCallback_ok k t r p W Hl Hp Hr Hin) as (k' & E & W' & _).
    exists k', [p]. split_and!; [done..| |done].
    unfold TaskTimedSleepCallback, upd_rendez, upd_bkl_list in E.
    rewrite Hp, Hr, Hs in E. simpl in E. rewrite rem_entry_linked in E by done. simpl in E.
    destruct (add_tail p (bkl_blocked_list k)) as [l'|] eqn:Ea; simpl in E; [|done].
    apply add_tail_Some in Ea as [_ ->]. simplify_eq. by apply to_bkl_woke.
  - exists k, []. split_and!; try done; [|apply woke_refl].
    unfold TaskTimedSleepCallback. by rewrite Hp, bool_decide_false.
Qed.

(** ** Well-formedness of the wheel *)

Record wf_wheel (k : kernel) : Prop := {
  ww_in t b : t ∈ timing_wheel k b ->
    t_armed (get_timer k t) = true /\
    b = Z.rem (t_expiration_time (get_timer k t)) JIFFIES_PER_SECOND;
  ww_armed t : t_armed (get_timer k t) = true ->
    t ∈ timing_wheel k (Z.rem (t_expiration_time (get_timer k t)) JIFFIES_PER_SECOND) /\
    0 <= softclock_time k <= t_expiration_time (get_timer k t);
  ww_nodup b : NoDup (timing_wheel k b);
  ww_sleep t : t_armed (get_timer k t) = true ->
    t_callback (get_timer k t) = Some CallSleepCallback ->
    exists p, t_process (get_timer k t) = Some p;
  ww_timed t : t_armed (get_timer k t) = true ->
    t_callback (get_timer k t) = Some CallTaskTimedSleepCallback ->
    exists p r, t = TSleep p /\ t_process (get_timer k t) = Some p /\
      t_arg (get_timer k t) = Some r /\
      (p_state (procs k p) = PROC_STATE_RENDEZ_BLOCKED -> p ∈ blocked_list k r)
}.

Lemma woke_wf_wheel k k' moved : wf_wheel k -> woke k k' moved -> wf_wheel k'.
Proof.
  intros [] [].
  constructor; intros *; rewrite ?wk_timers0, ?wk_wheel0, ?wk_soft0; eauto.
  intros H1 H2. destruct (ww_timed0 t H1 H2) as (p & r & ? & ? & ? & Hin).
  exists p, r. split_and!; [done..|]. rewrite wk_state0, wk_blocked0, list_elem_of_filter.
  case_decide; [done|]. naive_solver.
Qed.

(** ** Expiry *)

(** Process [p] sleeps until timer [t] expires. *)
Definition due (k : kernel) (t : timer_ref) (p : Z) : Prop :=
  t_process (get_timer k t) = Some p /\
  ((t_callback (get_timer k t) = Some CallSleepCallback /\ blocked_list k (RProcess p) = [p]) \/
   (t_callback (get_timer k t) = Some CallTaskTimedSleepCallback /\
    p_state (procs k p) = PROC_STATE_RENDEZ_BLOCKED)).

(** [k'] is [k] after exactly the timers in [fired] have expired. *)
Record advanced (k k' : kernel) (fired : timer_ref -> Prop) : Prop := {
  ad_timers t : (fired t /\ get_timer k' t = get_timer k t <| t_armed := false |>) \/
                (~ fired t /\ get_timer k' t = get_timer k t);
  ad_hard : hardclock_time k' = hardclock_time k;
  ad_current : current_process k' = current_process k;
  ad_idle : idle_process k' = idle_process k;
  ad_locked : bkl_locked k' = bkl_locked k;
  ad_owner : bkl_owner k' = bkl_owner k;
  ad_bkl p : p ∈ bkl_blocked_list k -> p ∈ bkl_blocked_list k';
  ad_due t p : due k t p -> due k' t p \/ p ∈ bkl_blocked_list k';
  ad_woken t p : fired t -> due k t p -> p ∈ bkl_blocked_list k'
}.

Lemma advanced_refl k : advanced k k (fun _ => False).
Proof. constructor; try done; eauto. Qed.

Lemma advanced_trans k1 k2 k3 f1 f2 :
  advanced k1 k2 f1 -> advanced k2 k3 f2 -> advanced k1 k3 (fun t => f1 t \/ f2 t).
Proof.
  intros A1 A2. constructor.
  - intros t. destruct (ad_timers _ _ _ A1 t) as [[H1 E1]|[H1 E1]],
      (ad_timers _ _ _ A2 t) as [[H2 E2]|[H2 E2]]; rewrite E2, E1; naive_solver.
  - by rewrite (ad_hard _ _ _ A2), (ad_hard _ _ _ A1).
  - by rewrite (ad_current _ _ _ A2), (ad_current _ _ _ A1).
  - by rewrite (ad_idle _ _ _ A2), (ad_idle _ _ _ A1).
  - by rewrite (ad_locked _ _ _ A2), (ad_locked _ _ _ A1).
  - by rewrite (ad_owner _ _ _ A2), (ad_owner _ _ _ A1).
  - intros p Hp. by apply A2, A1.
  - intros t p [Hd|Hb]%(ad_due _ _ _ A1); [by apply A2|right; by apply A2].
  - intros t p [H1|H2] Hd; [apply A2, (ad_woken _ _ _ A1 t); done|].
    destruct (ad_due _ _ _ A1 t p Hd) as [Hd2|Hb]; [by apply (ad_woken _ _ _ A2 t)|by apply A2].
Qed.

Lemma advanced_iff k k' f g :
  (forall t, f t <-> g t) -> advanced k k' f -> advanced k k' g.
Proof.
  intros Hfg A. constructor; try apply A.
  - intros t. rewrite <- (Hfg t). apply A.
  - intros t p. rewrite <- (Hfg t). apply A.
Qed.

Lemma woke_due k k' moved t p :
  woke k k' moved -> due k t p -> due k' t p \/ p ∈ bkl_blocked_list k'.
Proof.
  intros Wk [Hp Hd]. destruct (decide (p ∈ moved)) as [Hm|Hm].
  { right. rewrite (wk_bkl _ _ _ Wk). apply elem_of_app. by right. }
  left. split; [by rewrite (wk_timers _ _ _ Wk)|]. rewrite (wk_timers _ _ _ Wk).
  destruct Hd as [[Hc Hb]|[Hc Hs]]; [left|right].
  - split; [done|]. rewrite (wk_blocked _ _ _ Wk), Hb. by rewrite filter_cons_True.
  - split; [done|]. by rewrite (wk_state _ _ _ Wk), decide_False.
Qed.

Lemma woke_advanced k k' moved : woke k k' moved -> advanced k k' (fun _ => False).
Proof.
  intros Wk. constructor; try apply Wk; try done.
  - intros t. right. split; [naive_solver|]. apply Wk.
  - intros p Hp. rewrite (wk_bkl _ _ _ Wk). apply elem_of_app. by left.
  - intros t p. by apply (woke_due k k' moved).
Qed.

(** Unlinking a timer and updating it with [f]. *)
Definition disarm (f : Timer -> Timer) (t : timer_ref) (b : Z) (k : kernel) : kernel :=
  upd_timer t f
    (k <| timing_wheel :=
         <[b := filter (fun y => y <> t) (timing_wheel k b)]> (timing_wheel k) |>).

Lemma get_upd_timer t t' f k :
  get_timer (upd_timer t f k) t' = if decide (t' = t) then f (get_timer k t) else get_timer k t'.
Proof.
  case_decide as E; [subst t'|];
    destruct t as [p|p]; try destruct t' as [p'|p']; simpl; unfold upd_proc; simpl;
    try (rewrite fn_lookup_insert; done).
  all: destruct (decide (p' = p)) as [->|];
    [rewrite fn_lookup_insert; simpl; congruence|by rewrite fn_lookup_insert_ne by done].
Qed.

Lemma upd_timer_same t f k p : same_params (procs k p) (procs (upd_timer t f k) p).
Proof. destruct t; simpl; by upd_cases. Qed.

Lemma upd_timer_wf_lists t f k : wf_lists k -> wf_lists (upd_timer t f k).
Proof.
  intros WL. eapply wf_lists_ext; [done|by destruct t|..].
  - intros x. split; [apply upd_timer_same|]. by destruct t.
  - destruct t; apply WL.
Qed.

Lemma upd_timer_wf t f k : wf k -> wf (upd_timer t f k).
Proof.
  intros [WL Lk (c & Hc & Hcur)]. constructor; [by apply upd_timer_wf_lists|..].
  - unfold wf_lock in *. destruct t; simpl in *; destruct (bkl_locked k); try done;
      destruct Lk as (o & Ho & Hq); exists o; (split; [done|]); by upd_cases.
  - exists c. destruct t; simpl; (split; [done|]); by upd_cases.
Qed.

Lemma disarm_wf f t b k : wf k -> wf (disarm f t b k).
Proof.
  intros W. apply upd_timer_wf. destruct W as [WL Lk Cu].
  constructor; [|done|done]. eapply wf_lists_ext; [apply WL|done|done|apply WL].
Qed.

Lemma get_disarm f t b k t' :
  get_timer (disarm f t b k) t' =
  if decide (t' = t) then f (get_timer k t) else get_timer k t'.
Proof. unfold disarm. rewrite get_upd_timer. case_decide; [|by destruct t']. by destruct t. Qed.

Lemma disarm_rest f t b k :
  timing_wheel (disarm f t b k) = <[b := filter (fun y => y <> t) (timing_wheel k b)]> (timing_wheel k) /\
  blocked_list (disarm f t b k) = blocked_list k /\
  bkl_blocked_list (disarm f t b k) = bkl_blocked_list k /\
  bkl_locked (disarm f t b k) = bkl_locked k /\ bkl_owner (disarm f t b k) = bkl_owner k /\
  current_process (disarm f t b k) = current_process k /\
  idle_process (disarm f t b k) = idle_process k /\
  hardclock_time (disarm f t b k) = hardclock_time k /\
  softclock_time (disarm f t b k) = softclock_time k /\
  forall p, p_state (procs (disarm f t b k) p) = p_state (procs k p).
Proof.
  destruct t; simpl; unfold upd_proc; simpl; split_and!; try done; intros x; by upd_cases.
Qed.

Lemma disarm_wheel f t b k :
  (forall tm, t_armed (f tm) = false) -> wf_wheel k -> t ∈ timing_wheel k b -> wf_wheel (disarm f t b k).
Proof.
  intros Hf W Ht. pose proof (disarm_rest f t b k) as (Ew & Er & _ & _ & _ & _ & _ & _ & Es & Ep).
  destruct (ww_in k W t b Ht) as [Ha Hb].
  constructor; intros *; rewrite ?get_disarm, ?Ew, ?Er, ?Es.
  - intros H. assert (t0 ∈ timing_wheel k b0 /\ t0 <> t) as [Hin Hne].
    { destruct (decide (b = b0)) as [<-|].
      - rewrite fn_lookup_insert in H. apply list_elem_of_filter in H. naive_solver.
      - rewrite fn_lookup_insert_ne in H by done. split; [done|]. intros ->.
        destruct (ww_in k W t b0 H) as [_ ->]. congruence. }
    rewrite decide_False by done. by apply (ww_in k W).
  - case_decide; [by rewrite Hf|]. intros H'. destruct (ww_armed k W t0 H') as [Hin Hx].
    split; [|done]. upd_cases; [|done]. apply list_elem_of_filter. done.
  - upd_cases; [apply NoDup_filter|]; apply W.
  - case_decide; [by rewrite Hf|]. by apply W.
  - case_decide; [by rewrite Hf|]. intros H1 H2. destruct (ww_timed k W t0 H1 H2) as (p & r & ?).
    exists p, r. by rewrite Ep.
Qed.

(** The callback of a timer succeeds and wakes the process due at it. *)
Lemma run_callback_woke k t :
  wf k -> bkl_locked k = true ->
  (t_callback (get_timer k t) = Some CallSleepCallback ->
     exists p, t_process (get_timer k t) = Some p) ->
  (t_callback (get_timer k t) = Some CallTaskTimedSleepCallback ->
     exists p r, t_process (get_timer k t) = Some p /\ t_arg (get_timer k t) = Some r /\
       (p_state (procs k p) = PROC_STATE_RENDEZ_BLOCKED -> p ∈ blocked_list k r)) ->
  exists k' moved, run_callback t k = Some k' /\ wf k' /\ woke k k' moved /\
    forall p, due k t p -> p ∈ moved.
Proof.
  intros W Hl Hsl Htm. unfold run_callback, due.
  destruct (t_callback (get_timer k t)) as [[|]|].
  - destruct (Hsl eq_refl) as (p & Hp). unfold SleepCallback. rewrite Hp. simpl.
    destruct (TaskWakeup_woke k (RProcess p) W Hl) as (k' & E & W' & Wk).
    eexists _, _. split_and!; [done..|]. intros p' [[= <-] Hd].
    destruct Hd as [[_ ->]|[? _]]; [by left|done].
  - destruct (Htm eq_refl) as (p & r & Hp & Hr & Hin).
    destruct (TaskTimedSleepCallback_woke k t p r W Hl Hp Hr Hin)
      as (k' & moved & E & W' & Wk & Hm).
    eexists _, _. split_and!; [done..|]. intros p' [Hp' Hd]. rewrite Hp in Hp'.
    injection Hp' as <-. destruct Hd as [[? _]|[_ Hst]]; [done|]. rewrite (Hm Hst). by left.
  - exists k, []. split_and!; try done; [apply woke_refl|]. naive_solver.
Qed.

(** One timer of the bucket under the soft clock. *)
Lemma expire_timer_ok k t :
  wf k -> wf_wheel k -> bkl_locked k = true ->
  let b := Z.rem (softclock_time k) JIFFIES_PER_SECOND in
  t ∈ timing_wheel k b ->
  exists k', expire_timer t k = Some k' /\ wf k' /\ wf_wheel k' /\
    advanced k k' (fun t' => t' = t /\ t_expiration_time (get_timer k t) = softclock_time k) /\
    softclock_time k' = softclock_time k /\
    timing_wheel k' b = if decide (t_expiration_time (get_timer k t) = softclock_time k)
      then filter (fun y => y <> t) (timing_wheel k b) else timing_wheel k b.
Proof.
  intros W Ww Hl b Ht. unfold expire_timer. destruct (ww_in k Ww t b Ht) as [Ha Hb].
  destruct (ww_armed k Ww t Ha) as [_ Hs].
  destruct (decide (t_expiration_time (get_timer k t) = softclock_time k)) as [He|He].
  2: { rewrite bool_decide_false by lia. exists k. split_and!; try done.
       eapply advanced_iff; [|apply advanced_refl]. naive_solver. }
  rewrite bool_decide_true by lia. unfold upd_wheel. fold b.
  rewrite bool_decide_true by (unfold b; apply Z.rem_nonneg; done || lia).
  rewrite rem_entry_linked by done. cbn [mbind option_bind]. 
  set (f := fun tm : Timer => tm <| t_armed := false |>). fold (disarm f t b k).
  pose proof (disarm_wf f t b k W) as W1. pose proof (disarm_wheel f t b k (fun _ => eq_refl) Ww Ht) as Ww1.
  pose proof (disarm_rest f t b k) as (Ew & Er & Eb & El & Eo & Ec & Ei & Eh & Es & Ep).
  set (k1 := disarm f t b k) in *.
  assert (get_timer k1 t = get_timer k t <| t_armed := false |>) as Et
    by (unfold k1; by rewrite get_disarm, decide_True).
  assert (forall t', t' <> t -> get_timer k1 t' = get_timer k t') as Ene
    by (intros; unfold k1; by rewrite get_disarm, decide_False).
  assert (forall t' p, due k t' p <-> due k1 t' p) as Hdue.
  { intros t' p. unfold due. rewrite Er, Ep.
    destruct (decide (t' = t)) as [->|]; [by rewrite Et|by rewrite Ene]. }
  destruct (run_callback_woke k1 t) as (k' & moved & E & W' & Wk & Hm); [done|congruence|..].
  { rewrite Et. by apply (ww_sleep k Ww). }
  { rewrite Et. intros Hcb. destruct (ww_timed k Ww t Ha Hcb) as (p & r & _ & Hp).
    exists p, r. by rewrite Ep, Er. }
  exists k'. split_and!; [done|done|by eapply woke_wf_wheel| | |].
  - constructor; rewrite ?(wk_hard _ _ _ Wk), ?(wk_current _ _ _ Wk), ?(wk_idle _ _ _ Wk),
      ?(wk_locked _ _ _ Wk), ?(wk_owner _ _ _ Wk); try congruence.
    + intros t'. rewrite (wk_timers _ _ _ Wk).
      destruct (decide (t' = t)) as [->|]; [left; by rewrite Et|].
      right. split; [naive_solver|]. by apply Ene.
    + intros p Hp. rewrite (wk_bkl _ _ _ Wk), Eb. apply elem_of_app. by left.
    + intros t' p. rewrite Hdue. by apply (woke_due k1 k' moved).
    + intros t' p [-> _]. rewrite Hdue. intros Hd. rewrite (wk_bkl _ _ _ Wk).
      apply elem_of_app. right. by apply Hm.
  - rewrite (wk_soft _ _ _ Wk). done.
  - rewrite (wk_wheel _ _ _ Wk), Ew. by rewrite fn_lookup_insert.
Qed.

Lemma list_next_mid t l1 l2 : t ∉ l1 -> list_next t (l1 ++ t :: l2) = list.head l2.
Proof.
  induction l1 as [|x l1 IH]; intros Ht; simpl; [by rewrite decide_True|].
  rewrite decide_False by set_solver. apply IH. set_solver.
Qed.

(** The timers of the bucket from [todo] on: those that expire now do. *)
Lemma expire_bucket_ok todo : forall fuel k seen,
  wf k -> wf_wheel k -> bkl_locked k = true -> (length todo <= fuel)%nat ->
  timing_wheel k (Z.rem (softclock_time k) JIFFIES_PER_SECOND) = seen ++ todo ->
  exists k', expire_bucket fuel (list.head todo) k = Some k' /\ wf k' /\ wf_wheel k' /\
    softclock_time k' = softclock_time k /\
    advanced k k' (fun t => t ∈ todo /\ t_expiration_time (get_timer k t) = softclock_time k).
Proof.
  induction todo as [|t todo IH]; intros fuel k seen W Ww Hl Hf Eb.
  { exists k. destruct fuel; simpl; split_and!; try done;
      (eapply advanced_iff; [|apply advanced_refl]); set_solver. }
  destruct fuel as [|fuel]; [simpl in Hf; lia|]. simpl in Hf.
  pose proof (ww_nodup k Ww (Z.rem (softclock_time k) JIFFIES_PER_SECOND)) as Hnd.
  rewrite Eb in Hnd. pose proof Hnd as (Hnd1 & Hsep & [Ht Hnd2]%NoDup_cons)%NoDup_app.
  assert (t ∉ seen) as Hts by (intros Hx; apply (Hsep t Hx); by left).
  destruct (expire_timer_ok k t W Ww Hl) as (k1 & E1 & W1 & Ww1 & A1 & S1 & B1).
  { rewrite Eb. apply elem_of_app. right. by left. }
  destruct (IH fuel k1
    (if decide (t_expiration_time (get_timer k t) = softclock_time k) then seen else seen ++ [t]))
    as (k' & E' & W' & Ww' & S' & A'); [done|done| |lia| |].
  { by rewrite (ad_locked _ _ _ A1). }
  { rewrite S1, B1, Eb. case_decide; [by rewrite filter_ne_split|by rewrite <- (assoc_L (++))]. }
  exists k'. cbn [expire_bucket list.head]. rewrite Eb, list_next_mid by done.
  rewrite E1. cbn [mbind option_bind]. split_and!; try done; [by rewrite S'|].
  pose proof (advanced_trans _ _ _ _ _ A1 A') as A.
  assert (forall x, x <> t -> get_timer k1 x = get_timer k x) as Hne.
  { intros x Hx. destruct (ad_timers _ _ _ A1 x) as [[[? _] _]|[_ ?]]; done. }
  assert (forall x, (x = t /\ t_expiration_time (get_timer k t) = softclock_time k \/
      x ∈ todo /\ t_expiration_time (get_timer k1 x) = softclock_time k1) <->
      (x ∈ t :: todo /\ t_expiration_time (get_timer k x) = softclock_time k)) as Hiff.
  { intros x. rewrite elem_of_cons, S1. destruct (decide (x = t)) as [->|Hx]; [naive_solver|].
    rewrite Hne by done. naive_solver. }
  eapply advanced_iff; [exact Hiff|done].
Qed.

Lemma soft_advanced k s : advanced k (k <| softclock_time := s |>) (fun _ => False).
Proof. constructor; try done; eauto. Qed.

Lemma soft_wf k s : wf k -> wf (k <| softclock_time := s |>).
Proof.
  intros [WL Lk Cu]. constructor; [|done|done]. eapply wf_lists_ext; [apply WL|done|done|apply WL].
Qed.

(** One tick of the soft clock. *)
Lemma tick_ok k :
  wf k -> wf_wheel k -> bkl_locked k = true -> 0 <= softclock_time k < 2 ^ 31 - 1 ->
  let bucket := timing_wheel k (Z.rem (softclock_time k) JIFFIES_PER_SECOND) in
  exists k1, expire_bucket (length bucket) (list.head bucket) k = Some k1 /\
    let k' := k1 <| softclock_time := i32 (softclock_time k1 + 1) |> in
    wf k' /\ wf_wheel k' /\ softclock_time k' = softclock_time k + 1 /\
    advanced k k' (fun t => t_armed (get_timer k t) = true /\
      t_expiration_time (get_timer k t) = softclock_time k).
Proof.
  intros W Ww Hl Hs bucket.
  destruct (expire_bucket_ok bucket (length bucket) k []) as (k1 & E1 & W1 & Ww1 & S1 & A1);
    [done..|].
  exists k1. split; [done|]. simpl.
  assert (i32 (softclock_time k1 + 1) = softclock_time k + 1) as Ei
    by (rewrite S1; apply swrap_small; lia).
  rewrite Ei.
  assert (forall t, t ∈ bucket /\ t_expiration_time (get_timer k t) = softclock_time k <->
    t_armed (get_timer k t) = true /\ t_expiration_time (get_timer k t) = softclock_time k) as Hiff.
  { intros t. split; intros [H1 H2]; (split; [|done]).
    - by apply (ww_in k Ww t _ H1).
    - unfold bucket. rewrite <- H2. by apply (ww_armed k Ww). }
  split_and!; [by apply soft_wf| |done|].
  - destruct Ww1. constructor; [done| |done..].
    intros t Ha'. change (t_armed (get_timer k1 t) = true) in Ha'.
    destruct (ww_armed0 t Ha') as [Hin Hle]. split; [done|].
    change (0 <= softclock_time k + 1 <= t_expiration_time (get_timer k1 t)). split; [lia|].
    destruct (ad_timers _ _ _ A1 t) as [[_ Et]|[Hnf Et]]; [by rewrite Et in Ha'|].
    rewrite Hiff, <- Et in Hnf. rewrite S1 in Hle.
    destruct (decide (t_expiration_time (get_timer k1 t) = softclock_time k)); [naive_solver|lia].
  - eapply advanced_iff; [|eapply advanced_trans; [exact A1|apply soft_advanced]].
    intros t. simpl. rewrite <- Hiff. naive_solver.
Qed.

Lemma softclock_loop_ok n : forall k,
  wf k -> wf_wheel k -> bkl_locked k = true ->
  0 <= softclock_time k <= hardclock_time k -> hardclock_time k < 2 ^ 31 ->
  Z.to_nat (hardclock_time k - softclock_time k) = n ->
  exists k', softclock_loop n k = Some k' /\ wf k' /\ wf_wheel k' /\
    softclock_time k' = hardclock_time k /\
    advanced k k' (fun t => t_armed (get_timer k t) = true /\
      t_expiration_time (get_timer k t) < hardclock_time k).
Proof.
  induction n as [|n IH]; intros k W Ww Hl Hs Hh Hn; cbn [softclock_loop].
  { rewrite bool_decide_false by lia. exists k. split_and!; try done; [lia|].
    eapply advanced_iff; [|apply advanced_refl]. intros t. split; [done|].
    intros [Ha Hlt]. apply (ww_armed k Ww) in Ha. lia. }
  rewrite bool_decide_true by lia.
  destruct (tick_ok k W Ww Hl) as (k1 & -> & W1 & Ww1 & S1 & A1); [lia|].
  cbn [mbind option_bind].
  set (k2 := k1 <| softclock_time := i32 (softclock_time k1 + 1) |>) in *.
  assert (hardclock_time k2 = hardclock_time k) as H2 by apply A1.
  destruct (IH k2 W1 Ww1) as (k' & E & W' & Ww' & S' & A'); rewrite ?H2; try lia.
  { rewrite <- Hl. apply A1. }
  exists k'. split_and!; try done; [congruence|].
  eapply advanced_iff; [|by eapply advanced_trans].
  intros t. cbv beta. rewrite H2. destruct (ad_timers _ _ _ A1 t) as [[[Hf1 Hf2] Et]|[Hnf Et]]; rewrite Et; simpl.
  - split; [intros _; split; [done|lia]|naive_solver].
  - split; [intros [[? ?]|[? ?]]; split; done || lia|naive_solver].
Qed.

(** C23. The bottom half of the timer expires exactly the due timers: with the
    big kernel lock held, one run of its loop ends with the soft clock equal to
    the hard clock, every armed timer whose expiration time has passed is
    unlinked and disarmed, no timer expires early, every process that slept
    until one of the expired timers is on the list of the big kernel lock, and
    the scheduler and the wheel stay well formed. *)
Theorem timer_expiry_exact k :
  wf k -> wf_wheel k -> bkl_locked k = true ->
  0 <= softclock_time k <= hardclock_time k -> hardclock_time k < 2 ^ 31 ->
  exists k', softclock_loop (Z.to_nat (hardclock_time k - softclock_time k)) k = Some k' /\
    wf k' /\ wf_wheel k' /\ softclock_time k' = hardclock_time k /\
    (forall t, t_armed (get_timer k t) = true ->
       t_armed (get_timer k' t) = bool_decide (hardclock_time k <= t_expiration_time (get_timer k t))) /\
    (forall t p, t_armed (get_timer k t) = true ->
       t_expiration_time (get_timer k t) < hardclock_time k -> due k t p ->
       p ∈ bkl_blocked_list k').
Proof.
  intros W Ww Hl Hs Hh.
  destruct (softclock_loop_ok _ k W Ww Hl Hs Hh eq_refl) as (k' & E & W' & Ww' & S' & A).
  exists k'. split_and!; try done.
  - intros t Ha. destruct (ad_timers _ _ _ A t) as [[[_ Hlt] ->]|[Hnf ->]].
    + by rewrite bool_decide_false by lia.
    + rewrite Ha, bool_decide_true; [done|]. apply Z.nlt_ge. intros Hlt. by apply Hnf.
  - intros t p Ha Hlt. by apply (ad_woken _ _ _ A t p).
Qed.

(** ** Arming *)

Lemma wheel_wf k w : wf k -> wf (k <| timing_wheel := w |>).
Proof.
  intros [WL Lk Cu]. constructor; [|done|done]. eapply wf_lists_ext; [apply WL|done|done|apply WL].
Qed.

(** A timer that is not armed joins the wheel. *)
Lemma arm_wheel k t f e :
  wf_wheel k -> t_armed (get_timer k t) = false -> t_armed (f (get_timer k t)) = true ->
  t_expiration_time (f (get_timer k t)) = e -> 0 <= softclock_time k <= e ->
  (t_callback (f (get_timer k t)) = Some CallSleepCallback ->
   exists p, t_process (f (get_timer k t)) = Some p) ->
  (t_callback (f (get_timer k t)) = Some CallTaskTimedSleepCallback ->
   exists p r, t = TSleep p /\ t_process (f (get_timer k t)) = Some p /\
     t_arg (f (get_timer k t)) = Some r /\
     (p_state (procs k p) = PROC_STATE_RENDEZ_BLOCKED -> p ∈ blocked_list k r)) ->
  exists k', upd_wheel e (add_tail t) (upd_timer t f k) = Some k' /\ wf_wheel k' /\
    k' = (upd_timer t f k) <| timing_wheel := timing_wheel k' |>.
Proof.
  intros W Ha Ha' He Hs Hsl Htm. unfold upd_wheel. set (b := Z.rem e JIFFIES_PER_SECOND).
  assert (timing_wheel (upd_timer t f k) = timing_wheel k) as Ew by (by destruct t).
  assert (softclock_time (upd_timer t f k) = softclock_time k) as Es by (by destruct t).
  assert (blocked_list (upd_timer t f k) = blocked_list k) as Er by (by destruct t).
  assert (forall p, p_state (procs (upd_timer t f k) p) = p_state (procs k p)) as Ep
    by (intros p; destruct t; simpl; by upd_cases).
  rewrite bool_decide_true by (unfold b; apply Z.rem_nonneg; done || lia).
  assert (forall b', t ∉ timing_wheel k b') as Hn.
  { intros b' [Hx _]%(ww_in k W). congruence. }
  rewrite Ew, add_tail_fresh by done. cbn [mbind option_bind].
  eexists. split; [done|]. split; [|done].
  match goal with |- wf_wheel ?K => set (k' := K) end.
  assert (forall t', get_timer k' t' = if decide (t' = t) then f (get_timer k t) else get_timer k t') as Eg.
  { intros t'. rewrite <- get_upd_timer. by destruct t'. }
  assert (timing_wheel k' = <[b := timing_wheel k b ++ [t]]> (timing_wheel k)) as Ew' by done.
  assert (softclock_time k' = softclock_time k /\ blocked_list k' = blocked_list k /\
    forall p, p_state (procs k' p) = p_state (procs k p)) as (Es' & Er' & Ep') by done.
  clearbody k'. clear Ew Es Er Ep. constructor; intros *; rewrite ?Eg, ?Ew', ?Es', ?Er'.
  - upd_cases.
    + rewrite elem_of_app, list_elem_of_singleton. intros [Hin| ->].
      * rewrite decide_False by (by intros ->; apply (Hn b)). by apply (ww_in k W).
      * rewrite decide_True by done. split; [done|]. by rewrite He.
    + intros Hin. rewrite decide_False by (by intros ->; apply (Hn b0)). by apply (ww_in k W).
  - case_decide as Hd.
    + intros _. rewrite He. fold b. split; [|lia]. rewrite fn_lookup_insert.
      apply elem_of_app. right. subst. by left.
    + intros Hx. destruct (ww_armed k W t0 Hx) as [Hin Hle]. split; [|done].
      upd_cases; [|done]. apply elem_of_app. by left.
  - upd_cases; [|apply W]. apply NoDup_snoc; [apply W|done].
  - case_decide; [by intros _|]. apply W.
  - case_decide as Hd; intros H1 H2.
    + subst t0. destruct (Htm H2) as (p & r & Hx). exists p, r. by rewrite Ep'.
    + destruct (ww_timed k W t0 H1 H2) as (p & r & Hx). exists p, r. by rewrite Ep'.
Qed.

Lemma sleeping_place k p :
  wf_lists k -> p_state (procs k p) = PROC_STATE_RENDEZ_BLOCKED -> exists r, p ∈ blocked_list k r.
Proof.
  intros W Hst. destruct (wf_place k W p) as (pl & (_ & _ & C) & Ho).
  destruct pl; simpl in Ho.
  - destruct Ho as (_ & _ & [?|[?|?]]); by rewrite Hst in *.
  - by rewrite Hst in Ho; destruct Ho.
  - exists r. by apply C.
  - by destruct Ho as (_ & ? & _).
Qed.

(** When processes only leave rendez lists the wheel stays well formed. *)
Lemma wheel_frame k k' :
  wf_lists k -> wf_lists k' -> wf_wheel k ->
  (forall r p, p ∈ blocked_list k' r -> p ∈ blocked_list k r) ->
  timing_wheel k' = timing_wheel k -> softclock_time k' = softclock_time k ->
  (forall t, get_timer k' t = get_timer k t) -> wf_wheel k'.
Proof.
  intros W W' Ww Er Ew Es Et. constructor; intros *; rewrite ?Et, ?Ew, ?Es; try apply Ww.
  intros H1 H2. destruct (ww_timed k Ww t H1 H2) as (p & r' & -> & Hp & Hr & Hin).
  exists p, r'. split_and!; [done..|]. intros Hst.
  destruct (sleeping_place k' p W' Hst) as (rx & Hx).
  destruct (rendez_place k rx p W (Er _ _ Hx)) as ((_ & _ & C) & _ & Hst0).
  specialize (Hin Hst0). apply C in Hin. by injection Hin as ->.
Qed.

(** Falling asleep on [r] keeps the wheel well formed unless a timed sleep of
    the process on another rendez is armed. *)
Lemma sleep_wheel k k' r c :
  wf_lists k -> wf_lists k' -> wf_wheel k ->
  (t_armed (get_timer k (TSleep c)) = true ->
   t_callback (get_timer k (TSleep c)) = Some CallTaskTimedSleepCallback ->
   t_arg (get_timer k (TSleep c)) = Some r) ->
  blocked_list k' = <[r := blocked_list k r ++ [c]]> (blocked_list k) ->
  timing_wheel k' = timing_wheel k -> softclock_time k' = softclock_time k ->
  (forall t, get_timer k' t = get_timer k t) -> wf_wheel k'.
Proof.
  intros W W' Ww Hc Er Ew Es Et. constructor; intros *; rewrite ?Et, ?Ew, ?Es; try apply Ww.
  intros H1 H2. destruct (ww_timed k Ww t H1 H2) as (p & r' & -> & Hp & Hr & Hin).
  exists p, r'. split_and!; [done..|]. intros Hst.
  destruct (decide (p = c)) as [->|Hne].
  { specialize (Hc H1 H2). rewrite Hr in Hc. injection Hc as ->. rewrite Er, fn_lookup_insert.
    apply elem_of_app. right. by left. }
  destruct (sleeping_place k' p W' Hst) as (rx & Hx).
  assert (p ∈ blocked_list k rx) as Hx0.
  { rewrite Er in Hx. upd_cases; [|done]. by apply elem_of_snoc_ne in Hx. }
  destruct (rendez_place k rx p W Hx0) as (_ & _ & Hst0).
  specialize (Hin Hst0). rewrite Er. upd_cases; [|done]. apply elem_of_app. by left.
Qed.

Lemma sys_sleep_ok k c i seconds :
  wf k -> wf_wheel k -> current_process k = Some c -> idle_process k = Some i -> i <> c ->
  bkl_locked k = true -> t_armed (get_timer k (TSleep c)) = false ->
  blocked_list k (RProcess c) = [] ->
  0 <= softclock_time k <= hardclock_time k -> hardclock_time k < 2 ^ 31 ->
  0 <= seconds < 2 ^ 31 ->
  exists k', sys_sleep seconds k = Some (Switched k') /\ wf k' /\ wf_wheel k' /\
    due k' (TSleep c) c /\ t_armed (get_timer k' (TSleep c)) = true /\
    t_expiration_time (get_timer k' (TSleep c)) =
      hardclock_time k + seconds * JIFFIES_PER_SECOND /\
    hardclock_time k' = hardclock_time k /\ softclock_time k' = softclock_time k /\
    idle_process k' = idle_process k.
Proof.
  intros W Ww Hc Hi Hne Hl Ha Hb Hs Hh Hsec. unfold sys_sleep, get_current_process.
  rewrite Hc. cbn [mbind option_bind]. unfold arm_sleep, JIFFIES_PER_SECOND.
  rewrite swrap_small by lia. set (e := hardclock_time k + seconds * 100).
  set (f := fun t : Timer => _).
  destruct (arm_wheel k (TSleep c) f e Ww Ha) as (k1 & E1 & Ww1 & Ek1); try done;
    [unfold e; lia|intros _; by exists c|].
  rewrite E1. cbn [mbind option_bind].
  assert (wf k1) as W1 by (rewrite Ek1; by apply wheel_wf, upd_timer_wf).
  assert (get_timer k1 (TSleep c) = f (get_timer k (TSleep c))) as Et
    by (etrans; [rewrite Ek1; apply (get_upd_timer (TSleep c) (TSleep c) f k)|by rewrite decide_True]).
  assert (current_process k1 = Some c /\ idle_process k1 = Some i /\ bkl_locked k1 = true /\
    blocked_list k1 = blocked_list k /\ hardclock_time k1 = hardclock_time k /\
    softclock_time k1 = softclock_time k)
    as (Hc1 & Hi1 & Hl1 & Hb1 & Hh1 & Hs1) by (rewrite Ek1; done).
  unfold sleep_loop. rewrite Et. cbn [t_armed update_field f].
  destruct (TaskSleep_ok k1 (RProcess c) c i W1 Hc1 Hi1 Hne Hl1)
    as (k' & -> & W' & _ & _ & _ & Er & Ew & Eh & Es & Ei & Ep).
  pose proof (core_timers k1 k' Ep) as Et'.
  assert (wf_wheel k') as Ww'
    by (eapply (sleep_wheel k1 k'); try done; [apply W1|apply W'|by rewrite Et]).
  exists k'. split; [done|]. unfold due. rewrite !Et', Et, Er, Hb1, Hb. split_and!; try done.
  - left. split; [done|]. by rewrite fn_lookup_insert.
  - congruence.
  - congruence.
  - congruence.
Qed.


Lemma nsec_jiffies n : 0 <= n < 10 ^ 9 -> 0 <= n `quot` NANOSECONDS_PER_JIFFY < 100.
Proof.
  intros. unfold NANOSECONDS_PER_JIFFY. rewrite Z.quot_div_nonneg by lia.
  split; [apply Z.div_pos; lia|apply Z.div_lt_upper_bound; lia].
Qed.

(** [TaskTimedSleep] up to its switch. *)
Lemma TaskTimedSleep_ok k r c i tv_sec tv_nsec :
  wf k -> wf_wheel k -> current_process k = Some c -> idle_process k = Some i -> i <> c ->
  bkl_locked k = true -> t_armed (get_timer k (TSleep c)) = false ->
  0 <= softclock_time k <= hardclock_time k -> hardclock_time k < 2 ^ 31 ->
  0 <= tv_sec < 2 ^ 31 -> 0 <= tv_nsec < 10 ^ 9 ->
  exists k', TaskTimedSleep r tv_sec tv_nsec k = Some k' /\ wf k' /\ wf_wheel k' /\
    hardclock_time k' = hardclock_time k /\ softclock_time k' = softclock_time k /\
    idle_process k' = idle_process k /\ due k' (TSleep c) c /\
    t_armed (get_timer k' (TSleep c)) = true /\
    t_expiration_time (get_timer k' (TSleep c)) = hardclock_time k +
      (tv_sec * JIFFIES_PER_SECOND + tv_nsec `quot` NANOSECONDS_PER_JIFFY) /\
    blocked_list k' = <[r := blocked_list k r ++ [c]]> (blocked_list k).
Proof.
  intros W Ww Hc Hi Hne Hl Ha Hs Hh Hsec Hns. pose proof (wf_wf_lists k W) as WL.
  assert (c ∈ sched_queue k (p_priority (procs k c))) as Hq
    by (apply current_queued; [done..|congruence]).
  unfold TaskTimedSleep, get_current_process. rewrite Hc. cbn [mbind option_bind].
  destruct (release_bkl_ok 0xdeadbeef k c WL Hl Hq)
    as (k1 & -> & W1 & El & Eo & Eb & Hown & Hq1 & Ec & Er & Ei & Ecur & Ew & Eh & Es & Ep).
  cbn [mbind option_bind]. pose proof (core_timers k k1 Ep) as Et.
  assert (wf_wheel k1) as Ww1 by (eapply (wheel_frame k); try done; by rewrite Er).
  pose proof (nsec_jiffies tv_nsec Hns) as Hj.
  rewrite Eh, swrap_small by (unfold JIFFIES_PER_SECOND; lia).
  set (e := hardclock_time k + _). set (f := fun t : Timer => _).
  assert (hardclock_time k <= e) as He.
  { unfold e, JIFFIES_PER_SECOND. lia. }
  destruct (queue_place k1 c _ W1 Hq1) as (_ & _ & _ & Hst).
  destruct (arm_wheel k1 (TSleep c) f e Ww1) as (k2 & E2 & Ww2 & Ek2); try done.
  { by rewrite Et. }
  { rewrite Es. lia. }
  { intros _. exists c, r. split_and!; try done. intros Hx. rewrite Hx in Hst.
    by destruct Hst as [?|[?|?]]. }
  rewrite E2. cbn [mbind option_bind].
  assert (get_timer k2 (TSleep c) = f (get_timer k (TSleep c))) as Et2.
  { etrans; [rewrite Ek2; apply (get_upd_timer (TSleep c) (TSleep c) f k1)|].
    by rewrite decide_True, Et. }
  assert (wf_lists k2) as W2.
  { rewrite Ek2. eapply wf_lists_ext; [by apply (upd_timer_wf_lists (TSleep c) f k1)|done|done|].
    by apply (upd_timer_wf_lists (TSleep c) f k1). }
  destruct (block_on_ok k2 r c i W2)
    as (k' & E & W' & El' & Eo' & Eb' & Er' & Ew' & Eh' & Es' & Ei' & Ep').
  { rewrite Ek2. simpl. congruence. }
  { rewrite Ek2. simpl. congruence. }
  { rewrite Ek2. simpl. rewrite fn_lookup_insert. simpl. done. }
  { pose proof (release_bkl_passed k k1 c 0xdeadbeef El Eo Eb Hown) as Hp.
    unfold lock_passed in *. rewrite Ek2. simpl. destruct (bkl_locked k1); [|done].
    destruct Hp as (p & Hpc & Ho & Hpq). exists p. by rewrite fn_lookup_insert_ne by done. }
  pose proof (core_timers k2 k' Ep') as Et'.
  assert (blocked_list k2 = blocked_list k) as Er2 by (rewrite Ek2; done).
  assert (hardclock_time k2 = hardclock_time k /\ softclock_time k2 = softclock_time k)
    as [Eh2 Es2] by (rewrite Ek2; done).
  rewrite Er2 in Er'.
  exists k'. split; [exact E|]. unfold due. rewrite !Et', Et2. split_and!; try done.
  - eapply (sleep_wheel k2 k'); [done|apply W'|done| | |done|done|done].
    + by rewrite Et2.
    + by rewrite Er2.
  - by rewrite Eh', Eh2.
  - by rewrite Es', Es2.
  - rewrite Ei', Ek2. done.
  - right. split; [done|].
    assert (c ∈ blocked_list k' r) as Hcr.
    { rewrite Er', fn_lookup_insert. apply elem_of_app. right. by left. }
    by destruct (rendez_place k' r c (wf_wf_lists k' W') Hcr) as (_ & _ & ?).
Qed.

(** [sys_sleep] puts the caller to sleep until the right time: the call
    switches to another process with the caller alone on its rendez, its timer
    armed, on the wheel and set to [seconds] after the current time, and the
    scheduler and the wheel well formed, so that the bottom half wakes it when
    the hard clock has passed that time and not before. *)
Theorem sys_sleep_arms k c i seconds :
  wf k -> wf_wheel k -> current_process k = Some c -> idle_process k = Some i -> i <> c ->
  bkl_locked k = true -> t_armed (get_timer k (TSleep c)) = false ->
  blocked_list k (RProcess c) = [] ->
  0 <= softclock_time k <= hardclock_time k -> hardclock_time k < 2 ^ 31 ->
  0 <= seconds < 2 ^ 31 ->
  exists k', sys_sleep seconds k = Some (Switched k') /\ wf k' /\ wf_wheel k' /\
    due k' (TSleep c) c /\ t_armed (get_timer k' (TSleep c)) = true /\
    t_expiration_time (get_timer k' (TSleep c)) =
      hardclock_time k + seconds * JIFFIES_PER_SECOND /\
    hardclock_time k' = hardclock_time k.
Proof.
  intros W Ww Hc Hi Hne Hl Ha Hb Hs Hh Hsec.
  destruct (sys_sleep_ok k c i seconds) as (k' & E & W' & Ww' & Hd & Ht & He & Hhc & _); try done.
  exists k'. by split_and!.
Qed.

(** The hard clock alone moves no timer. *)
Lemma hard_wf k h :
  wf k -> wf_wheel k ->
  wf (k <| hardclock_time := h |>) /\ wf_wheel (k <| hardclock_time := h |>).
Proof.
  intros [WL Lk Cu] []. split; [constructor; [|done|done]|by constructor].
  eapply wf_lists_ext; [apply WL|done|done|apply WL].
Qed.

Lemma no_timers_wheel k :
  timing_wheel k = (fun _ => []) -> (forall t, t_armed (get_timer k t) = false) -> wf_wheel k.
Proof.
  intros Ew Ha. constructor; intros *; rewrite ?Ew, ?Ha; try done.
  - by rewrite elem_of_nil.
  - constructor.
Qed.

(** ** Witnesses *)

Lemma sys_sleep_arms_witness :
  exists k', sys_sleep 3 (demo SCHED_RR 16 0 true) = Some (Switched k') /\ wf k' /\ wf_wheel k' /\
    due k' (TSleep 0) 0 /\ t_armed (get_timer k' (TSleep 0)) = true /\
    t_expiration_time (get_timer k' (TSleep 0)) = 300 /\ hardclock_time k' = 0.
Proof.
  apply (sys_sleep_arms (demo SCHED_RR 16 0 true) 0 1 3); try done; [apply demo_wf; [by left|lia]|].
  apply no_timers_wheel; [done|]. intros [p|p]; simpl; by upd_cases.
Defined.

Lemma timer_expiry_exact_witness :
  exists k k', t_expiration_time (get_timer k (TSleep 0)) = 300 /\ hardclock_time k = 301 /\
    due k (TSleep 0) 0 /\ softclock_loop 301 k = Some k' /\ softclock_time k' = 301 /\
    0 ∈ bkl_blocked_list k'.
Proof.
  destruct (sys_sleep_ok (demo SCHED_RR 16 0 true) 0 1 3)
    as (k1 & E & W & Ww & Hd & Ha & He & _ & Hs & _); try done.
  { apply demo_wf; [by left|lia]. }
  { apply no_timers_wheel; [done|]. intros [p|p]; simpl; by upd_cases. }
  assert (bkl_locked k1 = true) as Hl.
  { apply (f_equal (option_map (fun o => match o with Switched k => bkl_locked k | _ => false end))) in E.
    vm_compute in E. by injection E. }
  destruct (hard_wf k1 301 W Ww) as [W' Ww']. change (softclock_time k1 = 0) in Hs.
  set (k := k1 <| hardclock_time := 301 |>) in *.
  destruct (timer_expiry_exact k W' Ww') as (k' & E' & _ & _ & Hs' & _ & Hw);
    [done|change (0 <= softclock_time k1 <= 301); lia|done|].
  exists k, k'. change (softclock_time k) with (softclock_time k1) in E'. rewrite Hs in E'.
  split_and!; try done. by apply (Hw (TSleep 0) 0); [..|change (t_expiration_time
    (get_timer k1 (TSleep 0)) < 301); rewrite He|].
Defined.
