(* ===== verification/Monitor.v ===== *)
(** * The kernel as a monitor

    The big kernel lock and the rendez objects make the kernel a monitor: a
    process enters with [KernelLock], leaves with [KernelUnlock] or waits with
    [TaskSleep], and the clock interrupt comes in at any time.  This file models
    boot (init_processes and create_process of
    kernel/boards/raspberry_pi_4/init_proc.c) and the interrupt wrapper
    (interrupt_handler of boards/raspberry_pi_4/interrupt.c), and composes the
    operations of [Sched] and [Timer] into the reachable states of the monitor,
    for which the invariant is proved. *)

From S2P Require Import Prelude Lists Sched Timer.
Import Lists.Seq.

(** ** Boot *)

(** The scan for a free slot: [pid] from 0 to [max_process - 1], giving the
    last slot looked at when none is free. *)
Fixpoint first_free (fuel : nat) (pid : Z) (k : kernel) : Z :=
  match fuel with
  | O => pid
  | S fuel => if p_in_use (procs k pid) then first_free fuel (pid + 1) k else pid
  end.

(** [create_process] without its message port, file descriptors and page
    directory; [pmap_ok] is whether [pmap_create] succeeds. *)
Definition create_process (pmap_ok : bool) (policy priority flags : Z) (k : kernel)
    : option (option Z * kernel) :=
  let pid := first_free (Z.to_nat (max_process k)) 0 k in
  let proc := if bool_decide (pid = max_process k) then pid - 1 else pid in
  if bool_decide (max_process k <= 0) then Some (None, k)
  else
    let k := upd_proc proc (fun _ => zero_process <| p_pid := pid |> <| p_in_use := true |>
      <| p_state := PROC_STATE_INIT |> <| p_log_level := 5 |>) k in
    let k := InitRendez (RProcess proc) k in
    if negb pmap_ok then Some (None, k)
    else
      let k := upd_proc proc (fun p => p <| p_flags := flags |>) k in
      if bool_decide (policy = SCHED_RR \/ policy = SCHED_FIFO) then
        let k := upd_proc proc (fun p => p <| p_quanta_used := 0 |> <| p_sched_policy := policy |>
          <| p_priority := if bool_decide (priority >= 16) then priority else 16 |>
          <| p_desired_priority := priority |>) k in
        k ← SchedReady proc k; Some (Some proc, k)
      else if bool_decide (policy = SCHED_OTHER) then
        let priority := if bool_decide (priority > 15) then 15 else priority in
        let k := upd_proc proc (fun p => p <| p_quanta_used := 0 |> <| p_sched_policy := policy |>
          <| p_priority := if bool_decide (priority <= 15) then priority else 15 |>
          <| p_desired_priority := priority |>) k in
        k ← SchedReady proc k; Some (Some proc, k)
      else if bool_decide (policy = SCHED_IDLE) then
        Some (Some proc, upd_proc proc (fun p => p <| p_sched_policy := policy |>
          <| p_priority := 0 |> <| p_desired_priority := 0 |>) k)
      else Some (Some proc, k).

(** [init_processes] up to the switch to the root process, for a table of
    [n] slots and memory that the allocator never runs out of. *)
Definition init_processes (n : Z) : option kernel :=
  let k := mkKernel (fun _ => zero_process) (fun _ => []) 0 false (NoOwner 0) [] (fun _ => [])
             (fun _ => []) 0 0 None None 0 n false None in
  '(root, k) ← create_process true SCHED_RR 16 PROCF_USER k;
  '(timer, k) ← create_process true SCHED_RR 31 PROCF_KERNEL k;
  '(idle, k) ← create_process true SCHED_IDLE 0 PROCF_KERNEL k;
  root ← root;
  let k := k <| idle_process := idle |> <| root_process := root |> in
  let k := set_state root PROC_STATE_RUNNING k in
  Some (pmap_switch root (k <| current_process := Some root |>)).

(** ** The clock interrupt *)

(** [interrupt_handler] for the clock interrupt. *)
Definition interrupt_handler (k : kernel) : option kernel :=
  if bkl_locked k then TimerTopHalf k
  else
    k ← KernelLock k;
    k ← TimerTopHalf k;
    KernelUnlock k.

(** ** The operations of the monitor *)

Inductive kop :=
  | OpEnter                                (* KernelLock at system call entry *)
  | OpExit                                 (* KernelUnlock at system call exit *)
  | OpSleep (r : rendez_ref)
  | OpWakeup (r : rendez_ref)
  | OpWakeupAll (r : rendez_ref)
  | OpSetSched (policy priority : Z)
  | OpSysSleep (seconds : Z)
  | OpTimedSleep (r : rendez_ref) (tv_sec tv_nsec : Z)
  | OpTimedResume
  | OpTick                                 (* the clock interrupt *)
  | OpExpire.                              (* the loop of the timer process *)

Definition exec (o : kop) (k : kernel) : option kernel :=
  match o with
  | OpEnter => KernelLock k
  | OpExit => KernelUnlock k
  | OpSleep r => TaskSleep r k
  | OpWakeup r => TaskWakeup r k
  | OpWakeupAll r => TaskWakeupAll r k
  | OpSetSched policy priority => snd <$> sys_setschedparams policy priority k
  | OpSysSleep seconds =>
      o ← sys_sleep seconds k;
      Some match o with Returned _ k => k | Switched k => k end
  | OpTimedSleep r tv_sec tv_nsec => TaskTimedSleep r tv_sec tv_nsec k
  | OpTimedResume => c ← current_process k; snd <$> TaskTimedSleep_resume c k
  | OpTick => interrupt_handler k
  | OpExpire => softclock_loop (Z.to_nat (hardclock_time k - softclock_time k)) k
  end.

(** The current process is a process other than the idle one. *)
Definition in_process (k : kernel) (c : Z) : Prop :=
  current_process k = Some c /\ idle_process k <> Some c.

(** It runs in the kernel: it owns the big kernel lock. *)
Definition in_kernel (k : kernel) (c : Z) : Prop :=
  in_process k c /\ bkl_locked k = true /\ bkl_owner k = Owner c.

(** When an operation can happen.  A process sleeps only with its sleep timer
    disarmed: [TaskTimedSleep] and the sleeping calls return with it so. *)
Definition enabled (o : kop) (k : kernel) : Prop :=
  match o with
  | OpEnter => exists c, in_process k c /\ ~ (bkl_locked k = true /\ bkl_owner k = Owner c)
  | OpExit | OpWakeup _ | OpWakeupAll _ | OpTimedResume | OpExpire => exists c, in_kernel k c
  | OpSetSched _ _ => exists c, in_kernel k c
  | OpSleep _ => exists c, in_kernel k c /\ t_armed (get_timer k (TSleep c)) = false
  | OpSysSleep seconds => exists c, in_kernel k c /\ t_armed (get_timer k (TSleep c)) = false /\
      blocked_list k (RProcess c) = [] /\ 0 <= seconds < 2 ^ 31
  | OpTimedSleep _ tv_sec tv_nsec => exists c, in_kernel k c /\
      t_armed (get_timer k (TSleep c)) = false /\ 0 <= tv_sec < 2 ^ 31 /\ 0 <= tv_nsec < 10 ^ 9
  | OpTick => hardclock_time k < 2 ^ 31 - 1
  end.

Record monitor_inv (k : kernel) : Prop := {
  mi_wf : wf k;
  mi_wheel : wf_wheel k;
  mi_clock : 0 <= softclock_time k <= hardclock_time k;
  mi_hard : hardclock_time k < 2 ^ 31;
  mi_idle : exists i, idle_process k = Some i
}.

(** The states reachable by sequences of enabled operations. *)
Inductive reachable (k0 : kernel) : kernel -> Prop :=
  | reach_refl : reachable k0 k0
  | reach_step k k' o : reachable k0 k -> enabled o k -> exec o k = Some k' -> reachable k0 k'.

(** ** The invariant *)

Lemma inv_frame k k' :
  monitor_inv k -> wf k' -> timers_same k k' ->
  (forall r p, p ∈ blocked_list k' r -> p ∈ blocked_list k r) -> monitor_inv k'.
Proof.
  intros [W Ww Hc Hh Hi] W' T Hr. constructor; [done| |..].
  - eapply (wheel_frame k); try apply T; try done; [apply W|apply W'].
  - by rewrite (ts_soft _ _ T), (ts_hard _ _ T).
  - by rewrite (ts_hard _ _ T).
  - by rewrite (ts_idle _ _ T).
Qed.

Lemma woke_inv k k' moved : monitor_inv k -> wf k' -> woke k k' moved -> monitor_inv k'.
Proof.
  intros [W Ww Hc Hh Hi] W' Wk. constructor; [done|by eapply woke_wf_wheel|..].
  - by rewrite (wk_soft _ _ _ Wk), (wk_hard _ _ _ Wk).
  - by rewrite (wk_hard _ _ _ Wk).
  - by rewrite (wk_idle _ _ _ Wk).
Qed.

Lemma lock_enter_ok k : monitor_inv k -> enabled OpEnter k ->
  exists k', KernelLock k = Some k' /\ monitor_inv k'.
Proof.
  intros I (c & [Hc Hni] & Hn). pose proof I as [W Ww _ _ (i & Hi)].
  destruct (bkl_locked k) eqn:Hl.
  - pose proof (wf_wf_lock k W) as Lk. unfold wf_lock in Lk. rewrite Hl in Lk.
    destruct Lk as (o & Ho & _).
    destruct (KernelLock_busy_ok k c o i) as (k' & E & W' & _ & _ & _ & Er & T);
      [done|done|done|congruence|done|done|naive_solver|].
    exists k'. split; [done|]. eapply inv_frame; [done..|]. by rewrite Er.
  - destruct (KernelLock_free_ok k c W Hc Hl) as (k' & E & W' & _ & _ & _ & ->).
    eexists. split; [done|]. by eapply (inv_frame k).
Qed.

Lemma exit_ok k : monitor_inv k -> bkl_locked k = true ->
  exists k', KernelUnlock k = Some k' /\ monitor_inv k'.
Proof.
  intros I Hl. pose proof I as [W Ww _ _ (i & Hi)]. destruct (wf_wf_current k W) as (c & Hc & _).
  destruct (KernelUnlock_ok k c i W Hc Hi Hl) as (k' & E & W' & _ & _ & _ & Er & T).
  exists k'. split; [done|]. eapply inv_frame; [done..|]. by rewrite Er.
Qed.

Lemma sleep_ok k r : monitor_inv k -> enabled (OpSleep r) k ->
  exists k', TaskSleep r k = Some k' /\ monitor_inv k'.
Proof.
  intros I (c & ([Hc Hni] & Hl & _) & Ha). pose proof I as [W Ww Hcl Hh (i & Hi)].
  destruct (TaskSleep_ok k r c i) as (k' & E & W' & _ & _ & _ & Er & Ew & Eh & Es & Ei & Ep);
    [done|done|done|congruence|done|].
  pose proof (core_timers k k' Ep) as Et.
  exists k'. split; [done|]. constructor; [done| |congruence|congruence|by rewrite Ei; eauto].
  eapply (sleep_wheel k k' r c); try done; [apply W|apply W'|]. by rewrite Ha.
Qed.

Lemma wakeup_all_ok k r : monitor_inv k -> bkl_locked k = true ->
  exists k', TaskWakeupAll r k = Some k' /\ monitor_inv k'.
Proof.
  intros I Hl. unfold TaskWakeupAll.
  assert (length (blocked_list k r) < S (length (blocked_list k r)))%nat as Hn by lia.
  revert Hn. generalize (S (length (blocked_list k r))) as n. intros n. revert k I Hl.
  induction n as [|n IH]; intros k I Hl Hn; [lia|]. simpl.
  pose proof I as [W Ww _ _ _].
  destruct (TaskWakeup_woke k r W Hl) as (k1 & E & W1 & Wk).
  pose proof (woke_inv _ _ _ I W1 Wk) as I1.
  unfold TaskWakeup in E. rewrite E. cbn [mbind option_bind].
  assert (bkl_locked k1 = true) as Hl1 by (by rewrite (wk_locked _ _ _ Wk)).
  destruct (list.head (blocked_list k1 r)) as [h|] eqn:Eh; [|by exists k1].
  apply IH; [done|done|]. rewrite (wk_blocked _ _ _ Wk) in Eh |- *.
  destruct (blocked_list k r) as [|p l]; simpl in *; [done|].
  rewrite filter_cons_False by set_solver. simpl in *.
  pose proof (length_filter (fun x => x ∉ [p]) l). lia.
Qed.

Lemma setsched_ok k policy priority c : monitor_inv k -> in_kernel k c ->
  exists v k', sys_setschedparams policy priority k = Some (v, k') /\ monitor_inv k'.
Proof.
  intros I ([Hc Hni] & Hl & Ho). pose proof I as [W Ww _ _ (i & Hi)].
  unfold sys_setschedparams, get_current_process. rewrite Hc. cbn [mbind option_bind].
  assert (forall p, schedulable p -> 0 <= priority < 32 ->
    exists k', change_sched c p priority k = Some k' /\ monitor_inv k') as Hch.
  { intros p Hp Hr.
    destruct (change_sched_ok k c i p priority) as (k' & E & W' & _ & _ & _ & Er & _ & _ & T);
      [done|done|done|congruence|done|done|].
    exists k'. split; [done|]. eapply inv_frame; [done..|]. by rewrite Er. }
  unfold schedulable in Hch.
  repeat case_bool_decide; eauto;
    (destruct (Hch policy) as (k' & -> & I'); [naive_solver|lia|simpl; eauto]).
Qed.

Lemma sys_sleep_inv k seconds : monitor_inv k -> enabled (OpSysSleep seconds) k ->
  exists k', exec (OpSysSleep seconds) k = Some k' /\ monitor_inv k'.
Proof.
  intros I (c & ([Hc Hni] & Hl & _) & Ha & Hb & Hs). pose proof I as [W Ww Hcl Hh (i & Hi)].
  destruct (sys_sleep_ok k c i seconds) as (k' & E & W' & Ww' & _ & _ & _ & Eh & Es & Ei);
    try done; [congruence|].
  exists k'. simpl. rewrite E. split; [done|]. constructor; [done|done|lia|lia|rewrite Ei; eauto].
Qed.

Lemma timed_sleep_inv k r tv_sec tv_nsec :
  monitor_inv k -> enabled (OpTimedSleep r tv_sec tv_nsec) k ->
  exists k', TaskTimedSleep r tv_sec tv_nsec k = Some k' /\ monitor_inv k'.
Proof.
  intros I (c & ([Hc Hni] & Hl & _) & Ha & Hs & Hn). pose proof I as [W Ww Hcl Hh (i & Hi)].
  destruct (TaskTimedSleep_ok k r c i tv_sec tv_nsec)
    as (k' & E & W' & Ww' & Eh & Es & Ei & _); try done; [congruence|].
  exists k'. split; [done|]. constructor; [done|done|lia|lia|rewrite Ei; eauto].
Qed.

Lemma timed_resume_inv k c : monitor_inv k ->
  exists v k', TaskTimedSleep_resume c k = Some (v, k') /\ monitor_inv k'.
Proof.
  intros I. pose proof I as [W Ww Hcl Hh (i & Hi)]. unfold TaskTimedSleep_resume.
  destruct (t_armed (get_timer k (TSleep c))) eqn:Ha; [|eauto].
  destruct (ww_armed k Ww _ Ha) as [Hin Hle]. unfold upd_wheel.
  rewrite bool_decide_true by (apply Z.rem_nonneg; done || lia).
  rewrite rem_entry_linked by done. cbn [mbind option_bind]. eexists _, _. split; [done|].
  set (b := Z.rem _ _) in *.
  match goal with |- monitor_inv (upd_timer _ ?f _) =>
    pose proof (disarm_wf f (TSleep c) b k W) as W1;
    pose proof (disarm_wheel f (TSleep c) _ k (fun _ => eq_refl) Ww Hin) as Ww1 end.
  constructor; [apply W1|apply Ww1|done|done|by exists i].
Qed.

Lemma quanta_step_wf k c n :
  wf k -> wf (upd_proc c (fun p => p <| p_quanta_used := n |>) k).
Proof.
  intros [WL Lk (c' & Hc & Hcur)]. destruct (quanta_wf k n c WL) as [WL' F].
  constructor; [apply WL'|by eapply wf_lock_frame|].
  exists c'. unfold upd_proc. simpl. split; [done|]. by upd_cases.
Qed.

Lemma hard_inv k h :
  monitor_inv k -> hardclock_time k <= h < 2 ^ 31 -> monitor_inv (k <| hardclock_time := h |>).
Proof.
  intros [W Ww Hc Hh Hi] Hle. destruct (hard_wf k h W Ww).
  constructor; [done|done|simpl; lia|simpl; lia|done].
Qed.

Lemma top_half_ok k :
  monitor_inv k -> bkl_locked k = true -> hardclock_time k < 2 ^ 31 - 1 ->
  exists k', TimerTopHalf k = Some k' /\ monitor_inv k' /\ bkl_locked k' = true.
Proof.
  intros I Hl Hh. pose proof I as [W Ww Hcl _ _].
  destruct (wf_wf_current k W) as (c & Hc & _). unfold TimerTopHalf. rewrite Hc.
  match goal with |- context [upd_proc c ?f k] => set (k1 := upd_proc c f k) end.
  assert (monitor_inv k1) as I1.
  { eapply (inv_frame k); [done|by apply (quanta_step_wf k c)| |done].
    constructor; try done. intros [x|x]; unfold k1, upd_proc; simpl; by upd_cases. }
  change (hardclock_time k1) with (hardclock_time k). rewrite swrap_small by lia.
  assert (monitor_inv (k1 <| hardclock_time := hardclock_time k + 1 |>)) as I2
    by (apply hard_inv; [done|]; change (hardclock_time k1) with (hardclock_time k); lia).
  destruct (TaskWakeup_woke _ RTimer (mi_wf _ I2) Hl) as (k' & E & W' & Wk).
  exists k'. split; [done|]. split; [|by rewrite (wk_locked _ _ _ Wk)].
  by eapply woke_inv.
Qed.

Lemma tick_inv k : monitor_inv k -> enabled OpTick k ->
  exists k', interrupt_handler k = Some k' /\ monitor_inv k'.
Proof.
  intros I Hh. simpl in Hh. unfold interrupt_handler. destruct (bkl_locked k) eqn:Hl.
  { destruct (top_half_ok k I Hl Hh) as (k' & E & I' & _). eauto. }
  pose proof I as [W Ww Hcl _ _]. destruct (wf_wf_current k W) as (c & Hc & _).
  destruct (KernelLock_free_ok k c W Hc Hl) as (k1 & E1 & W1 & Hl1 & _ & _ & Ek1).
  rewrite E1. cbn [mbind option_bind].
  assert (monitor_inv k1) as I1 by (subst k1; by eapply (inv_frame k)).
  destruct (top_half_ok k1 I1 Hl1) as (k2 & E2 & I2 & Hl2); [by subst k1|].
  rewrite E2. cbn [mbind option_bind]. by apply exit_ok.
Qed.

Lemma expire_inv k : monitor_inv k -> bkl_locked k = true ->
  exists k', exec OpExpire k = Some k' /\ monitor_inv k'.
Proof.
  intros I Hl. pose proof I as [W Ww Hcl Hh Hi].
  destruct (softclock_loop_ok _ k W Ww Hl Hcl Hh eq_refl) as (k' & E & W' & Ww' & S' & A).
  exists k'. split; [done|]. constructor; [done|done|..]; rewrite ?(ad_hard _ _ _ A); try lia.
  by rewrite (ad_idle _ _ _ A).
Qed.

(** One enabled operation. *)
Lemma exec_ok o k : monitor_inv k -> enabled o k ->
  exists k', exec o k = Some k' /\ monitor_inv k'.
Proof.
  intros I E. destruct o; simpl exec.
  - by apply lock_enter_ok.
  - destruct E as (c & _ & Hl & _). by apply exit_ok.
  - by apply sleep_ok.
  - destruct E as (c & _ & Hl & _). pose proof (mi_wf k I) as W.
    destruct (TaskWakeup_woke k r W Hl) as (k' & E & W' & Wk). eauto using woke_inv.
  - destruct E as (c & _ & Hl & _). by apply wakeup_all_ok.
  - destruct E as (c & Hk). destruct (setsched_ok k policy priority c I Hk) as (v & k' & -> & I').
    simpl. eauto.
  - by apply sys_sleep_inv.
  - by apply timed_sleep_inv.
  - destruct E as (c & [Hc _] & _). rewrite Hc. simpl.
    destruct (timed_resume_inv k c I) as (v & k' & -> & I'). simpl. eauto.
  - by apply tick_inv.
  - destruct E as (c & _ & Hl & _). by apply expire_inv.
Qed.

(** C20. The monitor invariant: in every state reachable from one that satisfies
    it by entering, leaving and waiting in the kernel, waking others, changing
    scheduling parameters, timed sleeps, clock interrupts and timer expiry, every
    process is on exactly the list its state says, the big kernel lock is free
    only when nobody waits for it and otherwise owned by a process that can run,
    the timing wheel holds exactly the armed timers, none of them overdue, and
    no enabled operation dereferences NULL, corrupts a list or panics. *)
Theorem monitor_safe k0 k :
  monitor_inv k0 -> reachable k0 k ->
  monitor_inv k /\ forall o, enabled o k -> exists k', exec o k = Some k' /\ monitor_inv k'.
Proof.
  intros I0 Hr. assert (monitor_inv k) as I.
  { induction Hr as [|k k' o Hr IH Hen E]; [done|].
    destruct (exec_ok o k IH Hen) as (k'' & E' & I'). congruence. }
  split; [done|]. intros o Hen. by apply exec_ok.
Qed.

(** ** The booted kernel *)

Lemma first_free_spec n : forall pid k,
  let f := first_free n pid k in
  pid <= f <= pid + Z.of_nat n /\
  (forall p, pid <= p < f -> p_in_use (procs k p) = true) /\
  (f < pid + Z.of_nat n -> p_in_use (procs k f) = false).
Proof.
  induction n as [|n IH]; intros pid k; simpl; [split_and!; intros; lia|].
  destruct (p_in_use (procs k pid)) eqn:E.
  - destruct (IH (pid + 1) k) as (H1 & H2 & H3). split_and!; try lia.
    + intros p Hp. destruct (decide (p = pid)) as [->|]; [done|]. apply H2. lia.
    + intros Hlt. apply H3. lia.
  - split_and!; intros; try lia. done.
Qed.

Lemma procs_InitRendez r k : procs (InitRendez r k) = procs k.
Proof. done. Qed.

Lemma blocked_upd_proc p f k : blocked_list (upd_proc p f k) = blocked_list k.
Proof. done. Qed.

(** [create_process] on a free slot [p] for a real-time policy: the new process
    is ready on the queue of its priority and nothing else changes. *)
Lemma create_process_rt k policy priority flags p :
  wf_lists k -> bitmap_ok k -> first_free (Z.to_nat (max_process k)) 0 k = p ->
  0 <= p < max_process k -> at_place k p Nowhere -> idle_process k <> Some p ->
  blocked_list k (RProcess p) = [] ->
  policy = SCHED_RR \/ policy = SCHED_FIFO -> 16 <= priority < 32 ->
  exists k', create_process true policy priority flags k = Some (Some p, k') /\
    wf_lists k' /\ bitmap_ok k' /\
    (forall x, x <> p -> procs k' x = procs k x) /\ p_in_use (procs k' p) = true /\
    p_priority (procs k' p) = priority /\ 
    (forall q, sched_queue k' q = sched_queue k q ++ if decide (q = priority) then [p] else []) /\
    bkl_blocked_list k' = bkl_blocked_list k /\ 
    (forall r, blocked_list k' r = blocked_list k r) /\
    timing_wheel k' = timing_wheel k /\ (forall t, t_armed (get_timer k t) = false -> t_armed (get_timer k' t) = false) /\
    idle_process k' = idle_process k /\ max_process k' = max_process k /\
    bkl_locked k' = bkl_locked k /\ hardclock_time k' = hardclock_time k /\
    softclock_time k' = softclock_time k.
Proof.
  intros W B Hf Hp Ha Hi Hr Hpol Hpri. unfold create_process. rewrite Hf.
  rewrite (bool_decide_false (p = _)), (bool_decide_false (max_process k <= 0)) by lia. simpl negb.
  cbv iota. rewrite (bool_decide_true (policy = SCHED_RR \/ _)) by done.
  rewrite (bool_decide_true (priority >= 16)) by lia.
  match goal with |- context [SchedReady p ?K] => set (k1 := K) end.
  assert (procs k1 p = zero_process <| p_pid := p |> <| p_in_use := true |>
    <| p_state := PROC_STATE_INIT |> <| p_log_level := 5 |> <| p_flags := flags |>
    <| p_sched_policy := policy |> <| p_priority := priority |>
    <| p_desired_priority := priority |>) as Ep.
  { unfold k1. by rewrite !procs_upd_eq, procs_InitRendez, procs_upd_eq. }
  assert (forall x, x <> p -> procs k1 x = procs k x) as Ex.
  { intros x Hx. unfold k1. by rewrite !procs_upd_ne, procs_InitRendez, procs_upd_ne. }
  assert (forall r, blocked_list k1 r = blocked_list k r) as Er.
  { intros r. unfold k1. rewrite !blocked_upd_proc. unfold InitRendez. simpl.
    upd_cases; [by rewrite Hr|done]. }
  assert (sched_queue k1 = sched_queue k /\ sched_queue_bitmap k1 = sched_queue_bitmap k /\
    bkl_blocked_list k1 = bkl_blocked_list k /\ idle_process k1 = idle_process k /\
    timing_wheel k1 = timing_wheel k /\ max_process k1 = max_process k /\
    bkl_locked k1 = bkl_locked k /\ hardclock_time k1 = hardclock_time k /\
    softclock_time k1 = softclock_time k)
    as (Eq & Ebm & Eb & Ei & Ew & Em & El & Eh & Es) by done.
  clearbody k1.
  assert (params_ok (procs k1 p)) as Hok.
  { rewrite Ep. unfold params_ok, schedulable. simpl. naive_solver lia. }
  pose proof Ha as (A & Bk & C).
  rewrite SchedReady_eq; [|done|by rewrite Eq, A]. cbn [mbind option_bind].
  eexists. split; [done|].
  assert (p_priority (procs k1 p) = priority) as Epri by (by rewrite Ep).
  assert (forall q, sched_queue (readied p k1) q =
    sched_queue k q ++ if decide (q = priority) then [p] else []) as Eq'.
  { intros q. unfold readied, upd_proc. simpl. rewrite Epri, Eq. case_decide; subst.
    - by rewrite fn_lookup_insert.
    - by rewrite fn_lookup_insert_ne, app_nil_r by done. }
  split_and!; try done.
  - apply (wf_move k _ p (OnQueue priority)); [done|done|..].
    + intros x Hx. rewrite procs_readied_ne, Ex by done. split; [done|].
      split_and!; [intros q; rewrite Eq'|simpl; by rewrite Eb|intros r; simpl; by rewrite Er].
      case_decide; rewrite ?app_nil_r, ?elem_of_snoc_ne by done; done.
    + pose proof (wf_nodup k W) as (N1 & N2 & N3).
      split_and!; [intros q; rewrite Eq'|simpl; by rewrite Eb|intros r; simpl; by rewrite Er].
      case_decide; [apply NoDup_snoc; [done|by rewrite A]|by rewrite app_nil_r].
    + split_and!; [intros q; rewrite Eq', elem_of_app, A|simpl; by rewrite Eb, Bk
        |intros r; simpl; by rewrite Er, C].
      case_decide; rewrite ?list_elem_of_singleton, ?elem_of_nil; naive_solver.
    + rewrite procs_readied, Ep. split_and!; [done| |by left]. by rewrite Ep in Hok.
    + intros Hx. by rewrite <- Ei in Hi.
  - apply readied_bitmap; [|rewrite Epri; lia]. unfold bitmap_ok. by rewrite Eq, Ebm.
  - intros x Hx. by rewrite procs_readied_ne, Ex.
  - by rewrite procs_readied, Ep.
  - by rewrite procs_readied, Ep.
  - intros [x|x]; unfold get_timer; (destruct (decide (x = p)) as [->|Hx];
      [by rewrite procs_readied, Ep|by rewrite procs_readied_ne, Ex]).
Qed.

(** The idle process takes a slot but joins no queue. *)
Lemma create_process_idle k flags p :
  wf_lists k -> first_free (Z.to_nat (max_process k)) 0 k = p ->
  0 <= p < max_process k -> at_place k p Nowhere -> idle_process k <> Some p ->
  blocked_list k (RProcess p) = [] ->
  exists k', create_process true SCHED_IDLE 0 flags k = Some (Some p, k') /\
    (forall x, x <> p -> procs k' x = procs k x) /\
    p_sched_policy (procs k' p) = SCHED_IDLE /\ p_state (procs k' p) = PROC_STATE_INIT /\
    sched_queue k' = sched_queue k /\ sched_queue_bitmap k' = sched_queue_bitmap k /\
    bkl_blocked_list k' = bkl_blocked_list k /\
    (forall r, blocked_list k' r = blocked_list k r) /\
    timing_wheel k' = timing_wheel k /\
    (forall t, t_armed (get_timer k t) = false -> t_armed (get_timer k' t) = false) /\
    idle_process k' = idle_process k /\
    bkl_locked k' = bkl_locked k /\ hardclock_time k' = hardclock_time k /\
    softclock_time k' = softclock_time k.
Proof.
  intros W Hf Hp Ha Hi Hr. unfold create_process. rewrite Hf.
  rewrite (bool_decide_false (p = _)), (bool_decide_false (max_process k <= 0)) by lia. simpl negb.
  cbv iota. rewrite (bool_decide_false (_ \/ _)), (bool_decide_false (SCHED_IDLE = SCHED_OTHER)),
    (bool_decide_true (SCHED_IDLE = SCHED_IDLE)) by (done || by intros [|]).
  eexists. split; [done|]. match goal with |- context [procs ?K] => set (k1 := K) end.
  assert (procs k1 p = zero_process <| p_pid := p |> <| p_in_use := true |>
    <| p_state := PROC_STATE_INIT |> <| p_log_level := 5 |> <| p_flags := flags |>
    <| p_sched_policy := SCHED_IDLE |>) as Ep
    by (unfold k1; by rewrite !procs_upd_eq, procs_InitRendez, procs_upd_eq).
  assert (forall x, x <> p -> procs k1 x = procs k x) as Ex
    by (intros x Hx; unfold k1; by rewrite !procs_upd_ne, procs_InitRendez, procs_upd_ne).
  split_and!; try done; try (by rewrite Ep).
  - intros r. unfold k1. rewrite !blocked_upd_proc. unfold InitRendez. simpl.
    upd_cases; [by rewrite Hr|done].
  - intros [x|x]; unfold get_timer; (destruct (decide (x = p)) as [->|Hx];
      [by rewrite Ep|by rewrite Ex]).
Qed.

(** The kernel before the first process is created. *)
Definition bare_kernel (n : Z) : kernel :=
  mkKernel (fun _ => zero_process) (fun _ => []) 0 false (NoOwner 0) [] (fun _ => [])
    (fun _ => []) 0 0 None None 0 n false None.

Lemma bare_kernel_wf n : wf_lists (bare_kernel n) /\ bitmap_ok (bare_kernel n).
Proof.
  split.
  - constructor; [|split_and!; intros; constructor|done].
    intros p. exists Nowhere. split; [|by split_and!; try done; intros [|]].
    split_and!; intros; simpl; by rewrite elem_of_nil.
  - split; [done|]. intros q _. simpl. rewrite Z.bits_0. naive_solver.
Qed.

Lemma first_free_eq k p :
  0 <= p < max_process k -> (forall x, 0 <= x < p -> p_in_use (procs k x) = true) ->
  p_in_use (procs k p) = false -> first_free (Z.to_nat (max_process k)) 0 k = p.
Proof.
  intros Hp Hlt Hf.
  destruct (first_free_spec (Z.to_nat (max_process k)) 0 k) as (H1 & H2 & H3).
  set (f := first_free _ _ _) in *.
  destruct (Z.lt_trichotomy f p) as [Hl|[?|Hg]]; [|done|].
  - rewrite Hlt in H3 by lia. discriminate H3. lia.
  - rewrite H2 in Hf by lia. done.
Qed.

(** The idle process becomes known as such. *)
Lemma set_idle_wf k i r :
  wf_lists k -> idle_process k = None -> p_sched_policy (procs k i) = SCHED_IDLE ->
  wf_lists (k <| idle_process := Some i |> <| root_process := r |>).
Proof.
  intros W Hi Hp. constructor; [|apply W|by intros ? [= <-]].
  intros p. destruct (wf_place k W p) as (pl & Ha & Ho). exists pl. split; [done|].
  destruct pl; try done. simpl in *. rewrite Hi in Ho. naive_solver.
Qed.

Lemma init_processes_inv n :
  3 <= n ->
  exists k, init_processes n = Some k /\ monitor_inv k /\ bitmap_ok k /\
    bkl_locked k = false /\ current_process k = Some 0 /\ idle_process k = Some 2 /\
    forall q, sched_queue k q = if decide (q = 16) then [0] else if decide (q = 31) then [1] else [].
Proof.
  intros Hn. destruct (bare_kernel_wf n) as [W0 B0]. unfold init_processes.
  fold (bare_kernel n).
  assert (forall p, at_place (bare_kernel n) p Nowhere) as A0
    by (intros p; split_and!; intros; simpl; by rewrite elem_of_nil).
  destruct (create_process_rt (bare_kernel n) SCHED_RR 16 PROCF_USER 0 W0 B0)
    as (k1 & -> & W1 & B1 & X1 & U1 & P1 & Q1 & L1 & R1 & T1 & G1 & I1 & M1 & K1 & H1 & S1);
    try done; [by apply first_free_eq; simpl; intros; lia || done|simpl; lia|by left|].
  cbn [mbind option_bind].
  destruct (create_process_rt k1 SCHED_RR 31 PROCF_KERNEL 1 W1 B1)
    as (k2 & -> & W2 & B2 & X2 & U2 & P2 & Q2 & L2 & R2 & T2 & G2 & I2 & M2 & K2 & H2 & S2);
    try done.
  { apply first_free_eq; rewrite ?M1; simpl; [lia| |by rewrite X1].
    intros x Hx. by replace x with 0 by lia. }
  { rewrite M1. simpl. lia. }
  { destruct (A0 1) as (_ & Hb & Hr).
    split_and!; [intros q; rewrite Q1; simpl|by rewrite L1|intros r; by rewrite R1].
    case_decide; set_solver. }
  all: try (by rewrite I1); try (by rewrite R1); try (by left).
  cbn [mbind option_bind].
  destruct (create_process_idle k2 PROCF_KERNEL 2 W2)
    as (k3 & -> & X3 & P3 & St3 & Q3 & Bm3 & L3 & R3 & T3 & G3 & I3 & K3 & H3 & S3); try done.
  { apply first_free_eq; rewrite ?M2, ?M1; simpl; [lia| |by rewrite X2, X1].
    intros x Hx. destruct (decide (x = 1)) as [->|]; [done|].
    rewrite X2 by done. by replace x with 0 by lia. }
  { rewrite M2, M1. simpl. lia. }
  { destruct (A0 2) as (_ & Hb & Hr).
    split_and!; [intros q; rewrite Q2, Q1; simpl|by rewrite L2, L1|intros r; by rewrite R2, R1].
    repeat case_decide; set_solver. }
  all: try (by rewrite I2, I1); try (by rewrite R2, R1).
  cbn [mbind option_bind]. eexists. split; [done|].
  assert (forall q, sched_queue k3 q =
    if decide (q = 16) then [0] else if decide (q = 31) then [1] else []) as Q.
  { intros q. rewrite Q3, Q2, Q1. simpl. by repeat case_decide; subst. }
  assert (wf_lists k3) as W3.
  { destruct (A0 2) as (_ & Hb & Hr).
    apply (wf_move k2 k3 2 Nowhere); [done|by rewrite I3|..].
    - intros x Hx. rewrite X3 by done. split; [done|].
      split_and!; intros; by rewrite ?Q3, ?L3, ?R3.
    - destruct (wf_nodup k2 W2) as (N1 & N2 & N3).
      split_and!; intros; rewrite ?Q3, ?L3, ?R3; done.
    - split_and!; [intros q; rewrite Q|by rewrite L3, L2, L1|intros r; by rewrite R3, R2, R1].
      repeat case_decide; set_solver.
    - simpl. rewrite St3. split_and!; try done. by intros [|].
    - done. }
  assert (p_priority (procs k3 0) = 16) as P0 by (by rewrite X3, X2).
  assert (idle_process k3 = None) as I3' by (by rewrite I3, I2, I1).
  pose proof (set_idle_wf k3 2 0 W3 I3' P3) as W4.
  destruct (run_wf _ 0 W4) as [W5 F5]; [left; simpl; rewrite P0, Q; by left|].
  match goal with |- monitor_inv ?K /\ _ => set (k := K) end.
  assert (wf k) as W.
  { constructor; [eapply wf_lists_ext; [apply W5|done|done|apply W5]| |].
    - unfold wf_lock. simpl. by rewrite K3, K2, K1, L3, L2, L1.
    - exists 0. split; [done|]. right. simpl. rewrite ?fn_lookup_insert. simpl. by rewrite P0, Q. }
  split_and!; try done; [|unfold bitmap_ok; simpl; by rewrite Q3, Bm3|by simpl; rewrite K3, K2, K1].
  constructor; [done|..]; simpl; rewrite ?H3, ?H2, ?H1, ?S3, ?S2, ?S1; simpl; [|lia|lia|eauto].
  apply no_timers_wheel; [by simpl; rewrite T3, T2, T1|].
  intros t. change (t_armed (get_timer (set_state 0 PROC_STATE_RUNNING k3) t) = false).
  transitivity (t_armed (get_timer k3 t)); [destruct t; simpl; by upd_cases|].
  by apply G3, G2, G1; destruct t.
Qed.

(** Boot establishes the monitor invariant: with a process table of at least
    three slots, [init_processes] creates the root process ready at priority 16,
    the timer process ready at priority 31 and the idle process, makes the root
    process current and leaves a state that satisfies the invariant, with an
    exact run queue bitmap and the big kernel lock free. *)
Theorem init_processes_ok n :
  3 <= n ->
  exists k, init_processes n = Some k /\ monitor_inv k /\ bitmap_ok k /\
    bkl_locked k = false /\ current_process k = Some 0 /\ idle_process k = Some 2 /\
    forall q, sched_queue k q = if decide (q = 16) then [0] else if decide (q = 31) then [1] else [].
Proof. apply init_processes_inv. Qed.

(** ** Witnesses *)

Lemma monitor_safe_witness :
  exists k0 k, init_processes 256 = Some k0 /\ reachable k0 k /\ bkl_owner k = Owner 0 /\
    monitor_inv k /\ forall o, enabled o k -> exists k', exec o k = Some k' /\ monitor_inv k'.
Proof.
  destruct (init_processes_inv 256) as (k0 & E & I & _ & Hl & Hc & Hi & _); [done|].
  destruct (KernelLock_free_ok k0 0 (mi_wf k0 I) Hc Hl) as (k & Ek & _ & _ & Ho & _).
  assert (reachable k0 k) as Hr.
  { apply (reach_step k0 k0 k OpEnter); [constructor| |done].
    exists 0. split; [by split; [|rewrite Hi]|]. rewrite Hl. by intros []. }
  exists k0, k. split; [done|]. split; [done|]. split; [done|].
  apply (monitor_safe k0 k I Hr).
Defined.

Lemma init_processes_ok_witness :
  exists k, init_processes 256 = Some k /\ monitor_inv k /\ bitmap_ok k /\
    bkl_locked k = false /\ current_process k = Some 0 /\ idle_process k = Some 2 /\
    forall q, sched_queue k q = if decide (q = 16) then [0] else if decide (q = 31) then [1] else [].
Proof. apply (init_processes_ok 256). lia. Defined.
