(* ===== verification/Segment.v ===== *)
(** * Segments of an address space

    The model of kernel/vm/segment.c: the table of an address space in which
    each entry is a page-aligned start address with the type of the segment in
    its low bits, terminated by an entry for the ceiling of user memory.  An
    access outside the table has no result ([None]).  [vm_addr] and [vm_size]
    are 32-bit unsigned, and sums wrap. *)

From S2P Require Import Prelude.

Module Segment.

Definition NSEGMENT := 32.
Definition SEG_TYPE_FREE := 0.
Definition SEG_TYPE_ALLOC := 1.
Definition SEG_TYPE_PHYS := 2.
Definition SEG_TYPE_CEILING := 3.
Definition SEG_TYPE_MASK := 0xf.
Definition SEG_ADDR_MASK := 0xfffff000.
Definition VM_USER_BASE := 0x8000.
Definition VM_USER_CEILING := 0x7F000000.
Definition PAGE_SIZE := 4096.
Definition MAP_FIXED := 8.

(** The part of [struct AddressSpace] that segment.c works on. *)
Record AddressSpace := mkAS {
  segment_table : list Z;
  segment_cnt : Z
}.

#[export] Instance rebuild_AddressSpace : Rebuild AddressSpace := fun a =>
  mkAS (segment_table a) (segment_cnt a).

Definition rd (a : AddressSpace) (i : Z) : option Z :=
  if bool_decide (0 <= i) then segment_table a !! Z.to_nat i else None.

Definition wr (i v : Z) (a : AddressSpace) : option AddressSpace :=
  if bool_decide (0 <= i < Z.of_nat (length (segment_table a))) then
    Some (a <| segment_table := <[Z.to_nat i := v]> (segment_table a) |>)
  else None.

Definition seg_addr (e : Z) : Z := Z.land e SEG_ADDR_MASK.
Definition seg_type (e : Z) : Z := Z.land e SEG_TYPE_MASK.

(** The binary search of [segment_find]; the result is an index, or [Some None]
    for NULL.  [NSEGMENT] steps are enough for any table. *)
Fixpoint find_loop (fuel : nat) (a : AddressSpace) (addr low high : Z) : option (option Z) :=
  if bool_decide (low <= high) then
    match fuel with
    | O => None
    | S fuel =>
        let mid := low + (high - low) `quot` 2 in
        e1 ← rd a (mid + 1);
        if bool_decide (addr >= seg_addr e1) then find_loop fuel a addr (mid + 1) high
        else
          e0 ← rd a mid;
          if bool_decide (addr < seg_addr e0) then find_loop fuel a addr low (mid - 1)
          else Some (Some mid)
    end
  else Some None.

Definition segment_find (a : AddressSpace) (addr : Z) : option (option Z) :=
  find_loop (Z.to_nat NSEGMENT) a addr 0 (segment_cnt a - 1).

(** [for (t = hi; t >= lo; t--) table[t] = table[t - cnt]], [n] entries from
    the top. *)
Fixpoint shift_up (n : nat) (t cnt : Z) (a : AddressSpace) : option AddressSpace :=
  match n with
  | O => Some a
  | S n => v ← rd a (t - cnt); a ← wr t v a; shift_up n (t - 1) cnt a
  end.

Definition segment_insert (index cnt : Z) (a : AddressSpace) : option AddressSpace :=
  a ← shift_up (Z.to_nat (segment_cnt a - index)) (segment_cnt a - 1 + cnt) cnt a;
  let a := a <| segment_cnt := segment_cnt a + cnt |> in
  wr (segment_cnt a) (Z.lor VM_USER_CEILING SEG_TYPE_CEILING) a.

(** The loop of [segment_coalesce] from [t], with [n] iterations left. *)
Fixpoint coalesce_loop (n : nat) (t s : Z) (a : AddressSpace) : option (Z * AddressSpace) :=
  match n with
  | O => Some (s, a)
  | S n =>
      et ← rd a t;
      merge ← (if bool_decide (s > 0) then
                 ep ← rd a (s - 1);
                 Some (bool_decide (seg_type ep = SEG_TYPE_FREE /\ seg_type et = SEG_TYPE_FREE))
               else Some false);
      if merge : bool then a ← wr (s - 1) et a; coalesce_loop n (t + 1) s a
      else a ← wr s et a; coalesce_loop n (t + 1) (s + 1) a
  end.

Definition segment_coalesce (a : AddressSpace) : option AddressSpace :=
  '(s, a) ← coalesce_loop (Z.to_nat (segment_cnt a + 1)) 0 0 a;
  let a := a <| segment_cnt := s |> in
  wr s (Z.lor VM_USER_CEILING SEG_TYPE_CEILING) a.

(** The loop of [segment_alloc] from index [i]: the index of the segment and
    the address chosen in it. *)
Fixpoint alloc_loop (n : nat) (i : Z) (a : AddressSpace) (size addr : Z)
    : option (option (Z * Z)) :=
  match n with
  | O => Some None
  | S n =>
      e ← rd a i;
      if bool_decide (seg_type e <> SEG_TYPE_FREE) then alloc_loop n (i + 1) a size addr
      else
        e1 ← rd a (i + 1);
        if bool_decide (seg_addr e <= addr /\ u32 (addr + size) < seg_addr e1) then
          Some (Some (i, addr))
        else if bool_decide (seg_addr e >= addr /\ size <= u32 (seg_addr e1 - seg_addr e)) then
          Some (Some (i, seg_addr e))
        else alloc_loop n (i + 1) a size addr
  end.

Definition segment_alloc (a : AddressSpace) (size flags ret_addr : Z)
    : option (option (Z * Z)) :=
  let addr := if bool_decide (Z.land flags MAP_FIXED = 0 /\ ret_addr = 0)
              then 0x00800000 else ret_addr in
  alloc_loop (Z.to_nat (segment_cnt a)) 0 a size addr.

Definition segment_splice (addr : Z) (a : AddressSpace) : option (Z * AddressSpace) :=
  if bool_decide (addr = VM_USER_CEILING) then Some (NSEGMENT, a)
  else
    r ← segment_find a addr;
    match r with
    | None => Some (-1, a)
    | Some i =>
        e ← rd a i;
        if bool_decide (addr = seg_addr e) then Some (i, a)
        else
          a ← segment_insert i 1 a;
          e ← rd a i;
          a ← wr (i + 1) e a;
          Some (i, a)
    end.

(** [for (t = lo; t < hi; t++)] marking entries free. *)
Fixpoint mark_free (n : nat) (t : Z) (a : AddressSpace) : option AddressSpace :=
  match n with
  | O => Some a
  | S n => e ← rd a t; a ← wr t (Z.lor (seg_addr e) SEG_TYPE_FREE) a; mark_free n (t + 1) a
  end.

Definition segment_free (base size : Z) (a : AddressSpace) : option AddressSpace :=
  if bool_decide (base = 0) then Some a
  else
    '(lo, a) ← segment_splice base a;
    '(hi, a) ← segment_splice (u32 (base + size)) a;
    a ← mark_free (Z.to_nat (hi - lo)) lo a;
    segment_coalesce a.

(** The end of [segment_create]: the region [addr, addr + size) of the given
    type in the segment at index [t]. *)
Definition install (t addr size type : Z) (a : AddressSpace) : option AddressSpace :=
  e ← rd a t;
  e1 ← rd a (t + 1);
  let last := u32 (addr + size) in
  if bool_decide (seg_addr e = addr /\ seg_addr e1 = last) then
    wr t (Z.lor (Z.ldiff e SEG_TYPE_MASK) (Z.land type SEG_TYPE_MASK)) a
  else if bool_decide (seg_addr e < addr /\ seg_addr e1 > last) then
    let base := seg_addr e in
    a ← segment_insert t 2 a;
    a ← wr t (Z.lor base SEG_TYPE_FREE) a;
    a ← wr (t + 1) (Z.lor addr (Z.land type SEG_TYPE_MASK)) a;
    wr (t + 2) (Z.lor last SEG_TYPE_FREE) a
  else if bool_decide (seg_addr e = addr /\ seg_addr e1 > last) then
    a ← segment_insert t 1 a;
    a ← wr t (Z.lor addr (Z.land type SEG_TYPE_MASK)) a;
    wr (t + 1) (Z.lor last SEG_TYPE_FREE) a
  else
    let base := seg_addr e in
    a ← segment_insert t 1 a;
    a ← wr t (Z.lor base SEG_TYPE_FREE) a;
    wr (t + 1) (Z.lor addr (Z.land type SEG_TYPE_MASK)) a.

(** [segment_create]: the address of the new segment, 0 for NULL. *)
Definition segment_create (addr size type flags : Z) (a : AddressSpace)
    : option (Z * AddressSpace) :=
  if bool_decide (segment_cnt a >= NSEGMENT - 3) then Some (0, a)
  else if bool_decide (size = 0) then Some (0, a)
  else if bool_decide (Z.land flags MAP_FIXED <> 0) then
    r ← segment_find a addr;
    match r with
    | None => Some (0, a)
    | Some t =>
        e ← rd a t;
        if bool_decide (seg_type e <> SEG_TYPE_FREE) then Some (0, a)
        else
          e1 ← rd a (t + 1);
          if bool_decide (u32 (addr + size) > seg_addr e1) then Some (0, a)
          else a ← install t addr size type a; Some (addr, a)
    end
  else
    r ← segment_alloc a size flags addr;
    match r with
    | None => Some (0, a)
    | Some (t, addr) => a ← install t addr size type a; Some (addr, a)
    end.
(** ** Entries *)

Definition aligned (x : Z) : Prop := x `mod` PAGE_SIZE = 0.

Lemma land_addr_mask x : 0 <= x < 2 ^ 32 -> Z.land x SEG_ADDR_MASK = x - x `mod` PAGE_SIZE.
Proof. apply (land_high 12). lia. Qed.

Lemma lor_entry a t : aligned a -> 0 <= a -> 0 <= t < 16 -> Z.lor a t = a + t.
Proof. intros. apply (lor_low 12); done || lia. Qed.

Lemma seg_addr_entry a t :
  aligned a -> 0 <= a < 2 ^ 32 -> 0 <= t < 16 -> seg_addr (Z.lor a t) = a.
Proof.
  intros Ha Hr Ht. rewrite lor_entry by (done || lia). unfold seg_addr.
  pose proof (Z.div_mod a PAGE_SIZE ltac:(done)) as Hd. unfold aligned in Ha. rewrite Ha in Hd.
  assert (a + t < 2 ^ 32).
  { assert (a `div` PAGE_SIZE < 2 ^ 20) by (apply Z.div_lt_upper_bound; unfold PAGE_SIZE; lia).
    unfold PAGE_SIZE in *. lia. }
  rewrite land_addr_mask by lia.
  rewrite Hd, Z.add_0_r, (Z.mul_comm PAGE_SIZE), Z.add_comm, Z.mod_add by done.
  rewrite (Z.mod_small t) by (unfold PAGE_SIZE; lia). lia.
Qed.

Lemma seg_type_entry a t :
  aligned a -> 0 <= a -> 0 <= t < 16 -> seg_type (Z.lor a t) = t.
Proof.
  intros Ha Hr Ht. rewrite lor_entry by (done || lia). unfold seg_type.
  change SEG_TYPE_MASK with (Z.ones 4). rewrite Z.land_ones by lia.
  pose proof (Z.div_mod a PAGE_SIZE ltac:(done)) as Hd. unfold aligned in Ha. rewrite Ha in Hd.
  replace (a + t) with (t + a `div` PAGE_SIZE * 256 * 2 ^ 4) by (unfold PAGE_SIZE in *; lia).
  rewrite Z.mod_add by done. apply Z.mod_small. lia.
Qed.

(** ** What the table represents *)

(** A segment: its start address and type.  It ends where the next starts. *)
Abbreviation seg := (Z * Z)%type.

Definition enc (s : seg) : Z := Z.lor s.1 s.2.

Definition ceiling : seg := (VM_USER_CEILING, SEG_TYPE_CEILING).

(** Page-aligned, strictly increasing start addresses up to the ceiling. *)
Record wf_segs (l : list seg) : Prop := {
  ws_aligned s : s ∈ l -> aligned s.1 /\ VM_USER_BASE <= s.1 < VM_USER_CEILING /\ 0 <= s.2 < 3;
  ws_sorted i j s s' : (i < j)%nat -> l !! i = Some s -> l !! j = Some s' -> s.1 < s'.1;
  ws_base : fst <$> head l = Some VM_USER_BASE
}.

(** The table of [a] holds the segments [l] and the ceiling. *)
Record rep (a : AddressSpace) (l : list seg) : Prop := {
  rep_len : length (segment_table a) = Z.to_nat NSEGMENT;
  rep_cnt : segment_cnt a = Z.of_nat (length l);
  rep_entries i s : (l ++ [ceiling]) !! i = Some s -> segment_table a !! i = Some (enc s)
}.

(** The type of the segment an address is in. *)
Definition type_at (l : list seg) (x : Z) : option Z :=
  snd <$> last (filter (fun s => s.1 <= x) l).

(** The start of the segment after the first [n]. *)
Definition start (l : list seg) (n : nat) : option Z := fst <$> (l ++ [ceiling]) !! n.

Lemma rd_rep a l i s :
  rep a l -> (l ++ [ceiling]) !! i = Some s -> rd a (Z.of_nat i) = Some (enc s).
Proof.
  intros R Hs. unfold rd. rewrite bool_decide_true by lia. rewrite Nat2Z.id. by apply (rep_entries a l).
Qed.

Lemma entry_ok l s :
  wf_segs l -> s ∈ l ++ [ceiling] -> aligned s.1 /\ VM_USER_BASE <= s.1 <= VM_USER_CEILING /\ 0 <= s.2 < 4.
Proof.
  intros W [H| ->%list_elem_of_singleton]%elem_of_app; [|by split_and!].
  destruct (ws_aligned l W s H) as (? & ? & ?). split; [done|lia].
Qed.

Lemma enc_addr l s : wf_segs l -> s ∈ l ++ [ceiling] -> seg_addr (enc s) = s.1.
Proof.
  intros W H. destruct (entry_ok l s W H) as (? & ? & ?).
  apply seg_addr_entry; unfold VM_USER_BASE, VM_USER_CEILING in *; done || lia.
Qed.

Lemma enc_type l s : wf_segs l -> s ∈ l ++ [ceiling] -> seg_type (enc s) = s.2.
Proof.
  intros W H. destruct (entry_ok l s W H) as (? & ? & ?).
  apply seg_type_entry; unfold VM_USER_BASE, VM_USER_CEILING in *; done || lia.
Qed.

Lemma sorted_ceiling l i j s s' :
  wf_segs l -> (i < j)%nat -> (l ++ [ceiling]) !! i = Some s -> (l ++ [ceiling]) !! j = Some s' ->
  s.1 < s'.1.
Proof.
  intros W Hij Hi Hj. apply lookup_app_Some in Hi as [Hi|[Hl Hi]].
  - apply lookup_app_Some in Hj as [Hj|[Hl Hj]]; [by eapply (ws_sorted l)|].
    destruct (ws_aligned l W s) as (_ & H & _); [by eapply list_elem_of_lookup_2|].
    apply list_lookup_singleton_Some in Hj as [_ <-]. simpl. lia.
  - apply list_lookup_singleton_Some in Hi as [? _].
    apply lookup_lt_Some in Hj. rewrite length_app in Hj. simpl in Hj. lia.
Qed.

(** [segment_find] finds the segment of every address below the ceiling, and
    nothing for addresses outside user memory. *)
Lemma find_loop_ok a l addr fuel : forall low high,
  rep a l -> wf_segs l -> 0 <= low -> high < Z.of_nat (length l) ->
  high - low + 1 <= Z.of_nat fuel ->
  (exists i s s', (l ++ [ceiling]) !! i = Some s /\ (l ++ [ceiling]) !! S i = Some s' /\
     low <= Z.of_nat i <= high /\ s.1 <= addr < s'.1 /\
     find_loop fuel a addr low high = Some (Some (Z.of_nat i))) \/
  (find_loop fuel a addr low high = Some None /\
   forall i s s', (l ++ [ceiling]) !! i = Some s -> (l ++ [ceiling]) !! S i = Some s' ->
     low <= Z.of_nat i <= high -> ~ (s.1 <= addr < s'.1)).
Proof.
  induction fuel as [|fuel IH]; intros low high R W Hl Hh Hf; cbn [find_loop].
  { rewrite bool_decide_false by lia. right. split; [done|]. intros. lia. }
  case_bool_decide as Hlh; [|right; split; [done|intros; lia]].
  set (mid := low + (high - low) `quot` 2).
  assert (low <= mid <= high) as Hm.
  { unfold mid. rewrite Z.quot_div_nonneg by lia.
    pose proof (Z.div_pos (high - low) 2). pose proof (Z.div_le_upper_bound (high - low) 2 (high - low)).
    lia. }
  clearbody mid. assert (exists m : nat, mid = Z.of_nat m) as (m & ->)
    by (exists (Z.to_nat mid); lia).
  destruct (lookup_lt_is_Some_2 (l ++ [ceiling]) m) as (s0 & E0); [rewrite length_app; simpl; lia|].
  destruct (lookup_lt_is_Some_2 (l ++ [ceiling]) (S m)) as (s1 & E1); [rewrite length_app; simpl; lia|].
  replace (Z.of_nat m + 1) with (Z.of_nat (S m)) by lia.
  rewrite (rd_rep a l (S m) s1 R E1), (rd_rep a l m s0 R E0). cbn [mbind option_bind].
  rewrite (enc_addr l s1 W), (enc_addr l s0 W) by (by eapply list_elem_of_lookup_2).
  case_bool_decide as H1; [|case_bool_decide as H0].
  - destruct (IH (Z.of_nat (S m)) high R W) as [(i & s & s' & ?)|[E Hn]]; [lia..| |].
    + left. exists i, s, s'. split_and!; try apply H; lia || naive_solver lia.
    + right. split; [done|]. intros i s s' Ei Es Hi.
      destruct (decide (Z.of_nat (S m) <= Z.of_nat i)); [by apply Hn with i; [..|lia]|].
      destruct (decide (i = m)) as [->|]; [rewrite E1 in Es; simplify_eq; lia|].
      assert (S i <= m)%nat as Him by lia.
      assert (s'.1 <= s0.1).
      { destruct (decide (S i = m)) as [<-|]; [by simplify_eq|].
        pose proof (sorted_ceiling l (S i) m s' s0 W). naive_solver lia. }
      pose proof (sorted_ceiling l m (S m) s0 s1 W). naive_solver lia.
  - destruct (IH low (Z.of_nat m - 1) R W) as [(i & s & s' & ?)|[E Hn]]; [lia..| |].
    + left. exists i, s, s'. naive_solver lia.
    + right. split; [done|]. intros i s s' Ei Es Hi.
      destruct (decide (Z.of_nat i <= Z.of_nat m - 1)); [by apply Hn with i; [..|lia]|].
      destruct (decide (i = m)) as [->|]; [simplify_eq; lia|].
      pose proof (sorted_ceiling l m i s0 s W). naive_solver lia.
  - left. exists m, s0, s1. split_and!; done || lia.
Qed.

Lemma straddle (L : list seg) addr x z :
  head L = Some x -> last L = Some z -> x.1 <= addr < z.1 ->
  exists i s s', L !! i = Some s /\ L !! S i = Some s' /\ s.1 <= addr < s'.1.
Proof.
  revert x. induction L as [|y L IH]; intros x Hh Hl Hr; simplify_eq/=.
  destruct L as [|y L]; simplify_eq/=; [lia|].
  destruct (decide (addr < y.1)).
  - exists 0%nat, x, y. split_and!; done || lia.
  - destruct (IH y) as (i & s & s' & H); [done|done|lia|]. by exists (S i), s, s'.
Qed.

Lemma rep_room a l : rep a l -> (length l < 32)%nat.
Proof.
  intros R. assert (is_Some (segment_table a !! length l)) as [? H%lookup_lt_Some].
  { exists (enc ceiling). apply (rep_entries a l R). by rewrite lookup_app_r, Nat.sub_diag by lia. }
  rewrite (rep_len a l R) in H. done.
Qed.

Lemma base_first l : wf_segs l -> exists t, head (l ++ [ceiling]) = Some (VM_USER_BASE, t).
Proof.
  intros W. pose proof (ws_base l W) as Hb. destruct l as [|[x t] l]; simplify_eq/=. eauto.
Qed.

Lemma segment_find_ok a l addr :
  rep a l -> wf_segs l ->
  (VM_USER_BASE <= addr < VM_USER_CEILING ->
   exists i s s', l !! i = Some s /\ (l ++ [ceiling]) !! S i = Some s' /\
     s.1 <= addr < s'.1 /\ segment_find a addr = Some (Some (Z.of_nat i))) /\
  (~ (VM_USER_BASE <= addr < VM_USER_CEILING) -> segment_find a addr = Some None).
Proof.
  intros R W. pose proof (rep_room a l R) as Hroom. unfold segment_find.
  destruct (find_loop_ok a l addr (Z.to_nat NSEGMENT) 0 (segment_cnt a - 1) R W)
    as [(i & s & s' & Ei & Es & Hi & Hs & ->)|[-> Hn]];
    rewrite ?(rep_cnt a l R); unfold NSEGMENT; try lia.
  - rewrite (rep_cnt a l R) in Hi. assert (l !! i = Some s) as Hli.
    { rewrite lookup_app_l in Ei by lia. done. }
    split; [intros _; by exists i, s, s'|]. intros []. 
    destruct (entry_ok l s W) as (_ & ? & _); [by eapply list_elem_of_lookup_2|].
    destruct (entry_ok l s' W) as (_ & ? & _); [by eapply list_elem_of_lookup_2|]. lia.
  - split; [|done]. intros Hr. exfalso. destruct (base_first l W) as (t & Hb).
    destruct (straddle (l ++ [ceiling]) addr (VM_USER_BASE, t) ceiling) as (i & s & s' & Ei & Es & H);
      [done|by rewrite last_snoc|done|].
    apply (Hn i s s' Ei Es); [|done]. rewrite (rep_cnt a l R).
    apply lookup_lt_Some in Es. rewrite length_app in Es. simpl in Es. lia.
Qed.

(** ** Inserting entries *)

Lemma rd_lookup a i : rd a (Z.of_nat i) = segment_table a !! i.
Proof. unfold rd. rewrite bool_decide_true by lia. by rewrite Nat2Z.id. Qed.

Lemma wr_lookup a i v :
  (i < length (segment_table a))%nat ->
  wr (Z.of_nat i) v a = Some (mkAS (<[i := v]> (segment_table a)) (segment_cnt a)).
Proof. intros Hi. unfold wr. rewrite bool_decide_true by lia. by rewrite Nat2Z.id. Qed.

Lemma shift_up_ok cnt n : forall a lo,
  (0 < cnt)%nat -> (lo + cnt + n <= length (segment_table a))%nat ->
  exists a', shift_up n (Z.of_nat (lo + cnt + n) - 1) (Z.of_nat cnt) a = Some a' /\
    segment_cnt a' = segment_cnt a /\ length (segment_table a') = length (segment_table a) /\
    forall i, segment_table a' !! i =
      if decide (lo + cnt <= i < lo + cnt + n)%nat then segment_table a !! (i - cnt)%nat
      else segment_table a !! i.
Proof.
  induction n as [|n IH]; intros a lo Hc Hn; cbn [shift_up].
  { exists a. split_and!; try done. intros i. by rewrite decide_False by lia. }
  replace (Z.of_nat (lo + cnt + S n) - 1 - Z.of_nat cnt) with (Z.of_nat (lo + n)) by lia.
  replace (Z.of_nat (lo + cnt + S n) - 1) with (Z.of_nat (lo + cnt + n)) by lia.
  rewrite rd_lookup. destruct (lookup_lt_is_Some_2 (segment_table a) (lo + n)) as (v & Ev); [lia|].
  rewrite Ev. cbn [mbind option_bind]. rewrite wr_lookup by lia. cbn [mbind option_bind].
  match goal with |- context [shift_up n _ _ ?A] => set (a1 := A) end.
  destruct (IH a1 lo) as (a' & -> & Ec & El & Ei); [done| |].
  { unfold a1; simpl. rewrite length_insert. lia. }
  exists a'. split_and!; [done|done|by rewrite El; unfold a1; simpl; rewrite length_insert|].
  intros i. rewrite Ei. unfold a1; simpl.
  destruct (decide (i = lo + cnt + n)%nat) as [->|Hne].
  - rewrite (decide_False (P := (_ <= _ < lo + cnt + n)%nat)), decide_True by lia.
    rewrite list_lookup_insert_eq by lia. rewrite <- Ev. f_equal. lia.
  - case_decide; case_decide; try lia; by rewrite list_lookup_insert_ne by lia.
Qed.

Lemma insert_rep a l1 s l2 cnt :
  rep a (l1 ++ s :: l2) -> (0 < cnt)%nat -> (length (l1 ++ s :: l2) + cnt < 32)%nat ->
  exists a1, segment_insert (Z.of_nat (length l1)) (Z.of_nat cnt) a = Some a1 /\
    length (segment_table a1) = 32%nat /\
    segment_cnt a1 = Z.of_nat (length (l1 ++ s :: l2) + cnt) /\
    (forall i x, l1 !! i = Some x -> segment_table a1 !! i = Some (enc x)) /\
    (forall i x, (l2 ++ [ceiling]) !! i = Some x ->
       segment_table a1 !! (length l1 + cnt + 1 + i)%nat = Some (enc x)).
Proof.
  intros R Hc Hroom. unfold segment_insert.
  rewrite (rep_cnt _ _ R). rewrite length_app in *. simpl in *.
  replace (Z.to_nat (Z.of_nat (length l1 + S (length l2)) - Z.of_nat (length l1)))
    with (S (length l2)) by lia.
  replace (Z.of_nat (length l1 + S (length l2)) - 1 + Z.of_nat cnt)
    with (Z.of_nat (length l1 + cnt + S (length l2)) - 1) by lia.
  destruct (shift_up_ok cnt (S (length l2)) a (length l1)) as (a0 & -> & Ec & El & Ei);
    [done|rewrite (rep_len _ _ R); change (Z.to_nat NSEGMENT) with 32%nat; lia|].
  rewrite (rep_len _ _ R) in El. change (Z.to_nat NSEGMENT) with 32%nat in El.
  cbn [mbind option_bind]. rewrite (rep_cnt _ _ R) in Ec. rewrite length_app in Ec. simpl in Ec.
  replace (segment_cnt a0 + Z.of_nat cnt) with (Z.of_nat (length l1 + S (length l2) + cnt)) by lia.
  rewrite wr_lookup by (simpl; lia). eexists. split; [done|].
  split_and!; simpl.
  - by rewrite length_insert.
  - lia.
  - intros i x Hx. pose proof (lookup_lt_Some _ _ _ Hx).
    rewrite list_lookup_insert_ne by lia. rewrite Ei, decide_False by lia.
    apply (rep_entries _ _ R). by rewrite <- (assoc_L (++)), lookup_app_l by lia.
  - intros i x Hx. pose proof (lookup_lt_Some _ _ _ Hx) as Hlt. rewrite length_app in Hlt.
    simpl in Hlt. destruct (decide (i = length l2)) as [->|].
    + rewrite lookup_app_r, Nat.sub_diag in Hx by lia. injection Hx as <-.
      replace (length l1 + cnt + 1 + length l2)%nat with (length l1 + S (length l2) + cnt)%nat by lia.
      by rewrite list_lookup_insert_eq by lia.
    + rewrite list_lookup_insert_ne by lia. rewrite Ei, decide_True by lia.
      apply (rep_entries _ _ R). rewrite <- (assoc_L (++)), lookup_app_r by lia.
      replace (length l1 + cnt + 1 + i - cnt - length l1)%nat with (S i) by lia. done.
Qed.

Lemma rep_of_parts a l1 mid l2 :
  length (segment_table a) = 32%nat ->
  segment_cnt a = Z.of_nat (length (l1 ++ mid ++ l2)) ->
  (forall i x, l1 !! i = Some x -> segment_table a !! i = Some (enc x)) ->
  (forall i x, mid !! i = Some x -> segment_table a !! (length l1 + i)%nat = Some (enc x)) ->
  (forall i x, (l2 ++ [ceiling]) !! i = Some x ->
     segment_table a !! (length l1 + length mid + i)%nat = Some (enc x)) ->
  rep a (l1 ++ mid ++ l2).
Proof.
  intros Hl Hc H1 H2 H3. constructor; [done|done|]. intros i s.
  rewrite <- !(assoc_L (++)). intros [Hi|[Hge Hi]]%lookup_app_Some; [by apply H1|].
  apply lookup_app_Some in Hi as [Hi|[Hge2 Hi]].
  - replace i with (length l1 + (i - length l1))%nat by lia. by apply H2.
  - replace i with (length l1 + length mid + (i - length l1 - length mid))%nat by lia. by apply H3.
Qed.

(** Writing three entries after inserting two, two after inserting one. *)
Lemma insert2_rep a l1 s l2 x y z :
  rep a (l1 ++ s :: l2) -> (length (l1 ++ s :: l2) + 2 < 32)%nat ->
  exists a', (a1 ← segment_insert (Z.of_nat (length l1)) 2 a;
    a2 ← wr (Z.of_nat (length l1)) (enc x) a1;
    a3 ← wr (Z.of_nat (length l1) + 1) (enc y) a2;
    wr (Z.of_nat (length l1) + 2) (enc z) a3) = Some a' /\ rep a' (l1 ++ [x; y; z] ++ l2).
Proof.
  intros R Hroom. destruct (insert_rep a l1 s l2 2 R) as (a1 & E & El & Ec & H1 & H2); [lia|done|].
  change (Z.of_nat 2) with 2 in E. rewrite E. cbn [mbind option_bind].
  rewrite length_app in *. simpl in *.
  replace (Z.of_nat (length l1) + 1) with (Z.of_nat (length l1 + 1)) by lia.
  replace (Z.of_nat (length l1) + 2) with (Z.of_nat (length l1 + 2)) by lia.
  rewrite wr_lookup by lia. cbn [mbind option_bind].
  rewrite wr_lookup by (simpl; rewrite length_insert; lia). cbn [mbind option_bind].
  rewrite wr_lookup by (simpl; rewrite !length_insert; lia). eexists. split; [done|].
  apply (rep_of_parts _ l1 [x; y; z] l2); simpl.
  - by rewrite !length_insert.
  - rewrite Ec, length_app. simpl. lia.
  - intros i u Hu. pose proof (lookup_lt_Some _ _ _ Hu).
    rewrite !list_lookup_insert_ne by lia. by apply H1.
  - intros [|[|[|i]]] u Hu; simplify_eq/=.
    + rewrite Nat.add_0_r, !list_lookup_insert_ne, list_lookup_insert_eq by lia. done.
    + rewrite list_lookup_insert_ne, list_lookup_insert_eq by (rewrite ?length_insert; lia). done.
    + rewrite list_lookup_insert_eq by (rewrite !length_insert; lia). done.
  - intros i u Hu. rewrite !list_lookup_insert_ne by lia.
    replace (length l1 + 3 + i)%nat with (length l1 + 2 + 1 + i)%nat by lia. by apply H2.
Qed.

Lemma insert1_rep a l1 s l2 x y :
  rep a (l1 ++ s :: l2) -> (length (l1 ++ s :: l2) + 1 < 32)%nat ->
  exists a', (a1 ← segment_insert (Z.of_nat (length l1)) 1 a;
    a2 ← wr (Z.of_nat (length l1)) (enc x) a1;
    wr (Z.of_nat (length l1) + 1) (enc y) a2) = Some a' /\ rep a' (l1 ++ [x; y] ++ l2).
Proof.
  intros R Hroom. destruct (insert_rep a l1 s l2 1 R) as (a1 & E & El & Ec & H1 & H2); [lia|done|].
  change (Z.of_nat 1) with 1 in E. rewrite E. cbn [mbind option_bind].
  rewrite length_app in *. simpl in *.
  replace (Z.of_nat (length l1) + 1) with (Z.of_nat (length l1 + 1)) by lia.
  rewrite wr_lookup by lia. cbn [mbind option_bind].
  rewrite wr_lookup by (simpl; rewrite length_insert; lia). eexists. split; [done|].
  apply (rep_of_parts _ l1 [x; y] l2); simpl.
  - by rewrite !length_insert.
  - rewrite Ec, length_app. simpl. lia.
  - intros i u Hu. pose proof (lookup_lt_Some _ _ _ Hu).
    rewrite !list_lookup_insert_ne by lia. by apply H1.
  - intros [|[|i]] u Hu; simplify_eq/=.
    + rewrite Nat.add_0_r, !list_lookup_insert_ne, list_lookup_insert_eq by lia. done.
    + rewrite list_lookup_insert_eq by (rewrite !length_insert; lia). done.
  - intros i u Hu. rewrite !list_lookup_insert_ne by lia.
    replace (length l1 + 2 + i)%nat with (length l1 + 1 + 1 + i)%nat by lia. by apply H2.
Qed.

Lemma write_rep a l1 s l2 x :
  rep a (l1 ++ s :: l2) ->
  exists a', wr (Z.of_nat (length l1)) (enc x) a = Some a' /\ rep a' (l1 ++ [x] ++ l2).
Proof.
  intros R. pose proof (rep_room _ _ R) as Hroom. pose proof (rep_len _ _ R) as Hlen.
  change (Z.to_nat NSEGMENT) with 32%nat in Hlen. rewrite length_app in Hroom. simpl in Hroom.
  rewrite wr_lookup by lia. eexists. split; [done|]. apply (rep_of_parts _ l1 [x] l2); simpl.
  - by rewrite length_insert.
  - rewrite (rep_cnt _ _ R), !length_app. simpl. lia.
  - intros i u Hu. pose proof (lookup_lt_Some _ _ _ Hu). rewrite list_lookup_insert_ne by lia.
    apply (rep_entries _ _ R). by rewrite <- (assoc_L (++)), lookup_app_l by lia.
  - intros [|i] u Hu; simplify_eq/=. rewrite Nat.add_0_r. by rewrite list_lookup_insert_eq by lia.
  - intros i u Hu. rewrite list_lookup_insert_ne by lia. apply (rep_entries _ _ R).
    rewrite <- (assoc_L (++)), lookup_app_r by lia.
    replace (length l1 + 1 + i - length l1)%nat with (S i) by lia. done.
Qed.

(** ** Carving a region out of a free segment *)

Definition carve (b addr size nb type : Z) : list seg :=
  (if bool_decide (b < addr) then [(b, SEG_TYPE_FREE)] else []) ++ [(addr, type)] ++
  (if bool_decide (addr + size < nb) then [(addr + size, SEG_TYPE_FREE)] else []).

(** The start of what follows the segments before [l2]. *)
Definition next_start (l2 : list seg) : Z :=
  match l2 with [] => VM_USER_CEILING | s :: _ => s.1 end.

Lemma next_start_lookup l2 : exists t, (l2 ++ [ceiling]) !! 0%nat = Some (next_start l2, t).
Proof. destruct l2 as [|[x t] l2]; simpl; eauto. Qed.

Lemma place_rep a l1 b l2 addr size type :
  rep a (l1 ++ (b, SEG_TYPE_FREE) :: l2) -> wf_segs (l1 ++ (b, SEG_TYPE_FREE) :: l2) ->
  (length (l1 ++ (b, SEG_TYPE_FREE) :: l2) + 2 < 32)%nat ->
  b <= addr -> addr + size <= next_start l2 -> 0 < size -> 0 < type < 3 ->
  exists a', install (Z.of_nat (length l1)) addr size type a = Some a' /\
    rep a' (l1 ++ carve b addr size (next_start l2) type ++ l2).
Proof.
  intros R W Hroom Hb Hn Hsz Hty. set (L := l1 ++ (b, SEG_TYPE_FREE) :: l2) in *.
  assert (length L + 1 < 32)%nat as Hr1 by lia.
  assert ((L ++ [ceiling]) !! length l1 = Some (b, SEG_TYPE_FREE)) as E0.
  { unfold L. rewrite <- (assoc_L (++)), lookup_app_r, Nat.sub_diag by lia. done. }
  destruct (next_start_lookup l2) as (nt & Ent).
  assert ((L ++ [ceiling]) !! S (length l1) = Some (next_start l2, nt)) as E1.
  { unfold L. rewrite <- (assoc_L (++)), lookup_app_r by lia.
    replace (S (length l1) - length l1)%nat with 1%nat by lia. done. }
  destruct (entry_ok L _ W (list_elem_of_lookup_2 _ _ _ E0)) as (Ab & Hbr & _).
  destruct (entry_ok L _ W (list_elem_of_lookup_2 _ _ _ E1)) as (_ & Hnr & _).
  cbn [fst snd] in *.
  unfold install. rewrite (rd_rep a L _ _ R E0). cbn [mbind option_bind].
  replace (Z.of_nat (length l1) + 1) with (Z.of_nat (S (length l1))) by lia.
  rewrite (rd_rep a L _ _ R E1). cbn [mbind option_bind].
  rewrite !(enc_addr L _ W) by (by eapply list_elem_of_lookup_2). cbn [fst].
  rewrite uwrap_small by (unfold VM_USER_BASE, VM_USER_CEILING in *; lia).
  assert (Z.land type SEG_TYPE_MASK = type) as Ety.
  { unfold SEG_TYPE_MASK. change 0xf with (Z.ones 4). rewrite Z.land_ones by lia.
    apply Z.mod_small. lia. }
  rewrite Ety. replace (Z.of_nat (S (length l1))) with (Z.of_nat (length l1) + 1) by lia.
  unfold carve.
  case_bool_decide as H1; [|case_bool_decide as H2; [|case_bool_decide as H3]].
  - destruct H1 as [-> H1]. rewrite !bool_decide_false by lia.
    replace (Z.ldiff (enc (addr, SEG_TYPE_FREE)) SEG_TYPE_MASK) with addr.
    { apply (write_rep a l1 _ l2 (addr, type) R). }
    unfold enc, SEG_TYPE_FREE. cbn [fst snd]. rewrite Z.lor_0_r. change SEG_TYPE_MASK with (Z.ones 4).
    rewrite Z.ldiff_ones_r, Z.shiftl_mul_pow2, Z.shiftr_div_pow2 by lia.
    pose proof (Z.div_mod addr PAGE_SIZE ltac:(done)) as Hd. unfold aligned in Ab.
    assert (addr `mod` 2 ^ 4 = 0) as Hm4.
    { rewrite Hd, Ab, Z.add_0_r. replace (PAGE_SIZE * addr `div` PAGE_SIZE)
        with (256 * addr `div` PAGE_SIZE * 2 ^ 4) by (unfold PAGE_SIZE; lia).
      apply Z.mod_mul. lia. }
    pose proof (Z.div_mod addr (2 ^ 4) ltac:(done)). lia.
  - rewrite !bool_decide_true by lia.
    apply (insert2_rep a l1 _ l2 (b, SEG_TYPE_FREE) (addr, type) (addr + size, SEG_TYPE_FREE) R). done.
  - destruct H3 as [-> H3]. rewrite bool_decide_false, bool_decide_true by lia.
    apply (insert1_rep a l1 _ l2 (addr, type) (addr + size, SEG_TYPE_FREE) R). exact Hr1.
  - rewrite (bool_decide_true (b < addr)), (bool_decide_false (addr + size < _)) by lia.
    apply (insert1_rep a l1 _ l2 (b, SEG_TYPE_FREE) (addr, type) R). exact Hr1.
Qed.

(** Ascending start addresses. *)
Definition asc (l : list seg) : Prop :=
  forall i j s s', (i < j)%nat -> l !! i = Some s -> l !! j = Some s' -> s.1 < s'.1.

Lemma asc_app l1 l2 :
  asc (l1 ++ l2) <-> asc l1 /\ asc l2 /\ forall s s', s ∈ l1 -> s' ∈ l2 -> s.1 < s'.1.
Proof.
  split.
  - intros H. split_and!.
    + intros i j s s' Hij Hi Hj. by eapply (H i j); [|by apply lookup_app_l_Some..].
    + intros i j s s' Hij Hi Hj. eapply (H (length l1 + i)%nat (length l1 + j)%nat); [lia|..];
        rewrite lookup_app_r by lia; by rewrite Nat.add_comm, Nat.add_sub.
    + intros s s' [i Hi]%list_elem_of_lookup [j Hj]%list_elem_of_lookup.
      eapply (H i (length l1 + j)%nat); [apply lookup_lt_Some in Hi; lia|by apply lookup_app_l_Some|].
      rewrite lookup_app_r by lia. by rewrite Nat.add_comm, Nat.add_sub.
  - intros (H1 & H2 & H3) i j s s' Hij Hi Hj.
    apply lookup_app_Some in Hi as [Hi|[Hli Hi]], Hj as [Hj|[Hlj Hj]].
    + by eapply H1.
    + apply H3; by eapply list_elem_of_lookup_2.
    + apply lookup_lt_Some in Hj. lia.
    + eapply (H2 (i - length l1)%nat (j - length l1)%nat); [lia|done|done].
Qed.

Lemma asc_nil : asc [].
Proof. intros i j s s' _ H. by rewrite lookup_nil in H. Qed.

Lemma asc_cons s l : asc (s :: l) <-> asc l /\ forall s', s' ∈ l -> s.1 < s'.1.
Proof.
  change (s :: l) with ([s] ++ l). rewrite asc_app. split.
  - intros (_ & H1 & H2). split; [done|]. intros s' Hs'. apply H2; [by left|done].
  - intros [H1 H2]. split_and!; [|done|by intros ? s' ->%list_elem_of_singleton; apply H2].
    intros i j x y Hij Hi Hj. apply lookup_lt_Some in Hi, Hj. simpl in *. lia.
Qed.

Lemma next_start_le l2 s : asc l2 -> s ∈ l2 -> next_start l2 <= s.1.
Proof.
  destruct l2 as [|x l2]; [by intros _ ?%elem_of_nil|]. intros [_ H]%asc_cons.
  intros [->|Hs]%elem_of_cons; simpl; [lia|]. specialize (H s Hs). lia.
Qed.

Lemma type_at_app l1 l2 x :
  type_at (l1 ++ l2) x = match type_at l2 x with Some t => Some t | None => type_at l1 x end.
Proof.
  unfold type_at. rewrite filter_app, last_app. by destruct (last (filter _ l2)).
Qed.

Lemma type_at_cons b t l x :
  type_at ((b, t) :: l) x =
  match type_at l x with Some t => Some t | None => if bool_decide (b <= x) then Some t else None end.
Proof.
  change ((b, t) :: l) with ([(b, t)] ++ l). rewrite type_at_app.
  unfold type_at at 2. rewrite filter_cons, filter_nil. cbn [fst].
  destruct (decide (b <= x)); [by rewrite bool_decide_true|by rewrite bool_decide_false].
Qed.

Lemma type_at_before l x : asc l -> x < next_start l -> type_at l x = None.
Proof.
  intros Ha Hx. unfold type_at. replace (filter _ l) with (@nil seg); [done|]. symmetry.
  apply list_empty_iff_elem_of || apply elem_of_nil_inv. intros s [Hs Hin]%list_elem_of_filter.
  pose proof (next_start_le l s Ha Hin). lia.
Qed.

Lemma type_at_after l x : l <> [] -> next_start l <= x -> type_at l x <> None.
Proof.
  destruct l as [|[b t] l]; [done|]. intros _ Hx. rewrite type_at_cons. simpl in Hx.
  rewrite bool_decide_true by done. by destruct (type_at l x).
Qed.

Section Carve.
Context (l1 l2 : list seg) (b addr size type : Z).
Hypothesis W : wf_segs (l1 ++ (b, SEG_TYPE_FREE) :: l2).
Hypothesis Hb : b <= addr.
Hypothesis Hn : addr + size <= next_start l2.
Hypothesis Hsz : 0 < size.
Hypothesis Ha : aligned addr.
Hypothesis Hs : aligned size.
Hypothesis Hty : 0 < type < 3.

Lemma carve_parts :
  asc l1 /\ asc l2 /\ (forall s, s ∈ l1 -> s.1 < b) /\ (forall s, s ∈ l2 -> next_start l2 <= s.1) /\
  next_start l2 <= VM_USER_CEILING /\ VM_USER_BASE <= b.
Proof using W.
  clear -W. pose proof (ws_sorted _ W) as Hs'. apply asc_app in Hs' as (H1 & H2 & H3).
  apply asc_cons in H2 as [H2 H4]. split_and!; [done|done|..].
  - intros s Hs'. apply (H3 s (b, SEG_TYPE_FREE) Hs'). by left.
  - intros s Hs'. by apply next_start_le.
  - destruct l2 as [|s l2']; simpl; [unfold VM_USER_CEILING; lia|].
    destruct (ws_aligned _ W s) as (_ & ? & _); [|lia]. apply elem_of_app. right. right. by left.
  - destruct (ws_aligned _ W (b, SEG_TYPE_FREE)) as (_ & ? & _); [|simpl in *; lia].
    apply elem_of_app. right. by left.
Qed.

Lemma carve_elem s :
  s ∈ carve b addr size (next_start l2) type ->
  aligned s.1 /\ b <= s.1 < next_start l2 /\ 0 <= s.2 < 3.
Proof using All.
  destruct (ws_aligned _ W (b, SEG_TYPE_FREE)) as (Hab & _ & _).
  { apply elem_of_app. right. by left. }
  unfold carve, SEG_TYPE_FREE. rewrite !elem_of_app, list_elem_of_singleton.
  intros [Hin|[-> |Hin]].
  - case_bool_decide; [|by apply elem_of_nil in Hin]. apply list_elem_of_singleton in Hin as ->.
    simpl in *. split_and!; done || lia.
  - simpl. split_and!; done || lia.
  - case_bool_decide; [|by apply elem_of_nil in Hin]. apply list_elem_of_singleton in Hin as ->.
    simpl. split_and!; [|lia..]. unfold aligned in *. rewrite Z.add_mod, Ha, Hs by done. done.
Qed.

Lemma carve_asc : asc (carve b addr size (next_start l2) type).
Proof using All.
  assert (forall s, asc [s]) as H1.
  { intros s. apply asc_cons. split; [apply asc_nil|by intros ? ?%elem_of_nil]. }
  unfold carve. do 2 case_bool_decide; rewrite ?app_nil_r, ?app_nil_l; simpl;
    rewrite ?asc_cons; split_and!; try apply asc_nil;
    intros s Hin; rewrite ?elem_of_cons, ?elem_of_nil in Hin; naive_solver lia.
Qed.

Lemma carve_wf : wf_segs (l1 ++ carve b addr size (next_start l2) type ++ l2).
Proof using All.
  destruct carve_parts as (A1 & A2 & L1 & L2 & Hc & Hbase).
  split.
  - intros s [Hin|[Hin|Hin]%elem_of_app]%elem_of_app.
    + apply (ws_aligned _ W). apply elem_of_app. by left.
    + destruct (carve_elem s Hin) as (? & ? & ?). split_and!; done || lia.
    + apply (ws_aligned _ W). apply elem_of_app. right. by right.
  - fold (asc (l1 ++ carve b addr size (next_start l2) type ++ l2)).
    rewrite !asc_app. split_and!; [done|apply carve_asc|done|..].
    + intros s s' H1 H2. apply carve_elem in H1. apply L2 in H2. lia.
    + intros s s' H1 [H2|H2]%elem_of_app.
      * apply L1 in H1. apply carve_elem in H2. lia.
      * apply L1 in H1. apply L2 in H2. lia.
  - pose proof (ws_base _ W) as Hh. destruct l1 as [|s l1']; [|done].
    simpl in *. unfold carve. case_bool_decide; [done|]. simpl. simplify_eq. f_equal. lia.
Qed.

Lemma carve_type_at x :
  x < VM_USER_CEILING ->
  (addr <= x < addr + size -> type_at (l1 ++ (b, SEG_TYPE_FREE) :: l2) x = Some SEG_TYPE_FREE) /\
  type_at (l1 ++ carve b addr size (next_start l2) type ++ l2) x =
  if bool_decide (addr <= x < addr + size) then Some type
  else type_at (l1 ++ (b, SEG_TYPE_FREE) :: l2) x.
Proof using All.
  intros Hx. destruct carve_parts as (A1 & A2 & L1 & L2 & Hc & Hbase).
  rewrite !type_at_app, type_at_cons.
  destruct (decide (x < next_start l2)) as [Hlt|Hge].
  - rewrite (type_at_before l2 x) by done. split.
    { intros ?. by rewrite bool_decide_true by lia. }
    unfold carve. rewrite !type_at_app.
    repeat case_bool_decide; rewrite ?type_at_cons; cbn [type_at filter];
      change (type_at [] x) with (@None Z); repeat case_bool_decide; done || lia.
  - rewrite (bool_decide_false (addr <= x < _)) by lia. split; [lia|].
    destruct l2 as [|s l2']; [simpl in *; lia|].
    pose proof (type_at_after (s :: l2') x ltac:(done) ltac:(lia)).
    by destruct (type_at (s :: l2') x).
Qed.
End Carve.

(** ** [segment_alloc] and [segment_create] *)

(** The address from which [segment_alloc] searches. *)
Definition hint (flags addr : Z) : Z :=
  if bool_decide (Z.land flags MAP_FIXED = 0 /\ addr = 0) then 0x00800000 else addr.

(** The free segment at index [j] of [l], from [b] to [nb], takes [size] bytes
    at [r]. *)
Definition fits (l : list seg) (size : Z) (j : nat) (b nb r : Z) : Prop :=
  l !! j = Some (b, SEG_TYPE_FREE) /\ start l (S j) = Some nb /\ b <= r /\ r + size <= nb.

Lemma fits_split l size j b nb r :
  fits l size j b nb r ->
  exists l1 l2, l = l1 ++ (b, SEG_TYPE_FREE) :: l2 /\ length l1 = j /\ next_start l2 = nb.
Proof.
  intros (Hj & Hs & _). exists (take j l), (drop (S j) l).
  pose proof (lookup_lt_Some _ _ _ Hj). split_and!.
  - by rewrite take_drop_middle.
  - rewrite length_take. lia.
  - unfold start in Hs. destruct (drop (S j) l) as [|s r'] eqn:E.
    + assert (length l <= S j)%nat by (apply (f_equal length) in E; rewrite length_drop in E; simpl in E; lia).
      rewrite lookup_app_r in Hs by lia. replace (S j - length l)%nat with 0%nat in Hs by lia.
      by simplify_eq/=.
    + assert (l !! S j = Some s) as Hl.
      { rewrite <- (Nat.add_0_r (S j)), <- lookup_drop, E. done. }
      rewrite (lookup_app_l_Some _ _ _ _ Hl) in Hs. by simplify_eq/=.
Qed.

Lemma start_gt l j b t nb :
  wf_segs l -> l !! j = Some (b, t) -> start l (S j) = Some nb -> b < nb <= VM_USER_CEILING.
Proof.
  intros W Hj Hs. unfold start in Hs. destruct ((l ++ [ceiling]) !! S j) as [s|] eqn:E; [|done].
  simplify_eq/=. pose proof (sorted_ceiling l j (S j) (b, t) s W ltac:(lia)
    (lookup_app_l_Some _ _ _ _ Hj) E). split; [done|].
  destruct (entry_ok l s W (list_elem_of_lookup_2 _ _ _ E)) as (_ & ? & _); lia.
Qed.

(** [segment_alloc], searching from [h], can put [size] bytes at [r] in the free
    segment at index [j]: at [h] itself, when the segment goes on behind them, or at
    the start of a segment that starts at [h] or above. *)
Definition takes (l : list seg) (size h : Z) (j : nat) (r : Z) : Prop :=
  exists b nb, l !! j = Some (b, SEG_TYPE_FREE) /\ start l (S j) = Some nb /\
    (r = h /\ b <= h /\ h + size < nb \/ r = b /\ h <= b /\ b + size <= nb).

Lemma takes_fits l size h j r : takes l size h j r -> h <= r /\ exists b nb, fits l size j b nb r /\ (r = h \/ r = b).
Proof.
  intros (b & nb & Hj & Hs & [(-> & ? & ?)|(-> & ? & ?)]); (split; [lia|]); exists b, nb; split; auto; unfold fits; split_and!; done || lia.
Qed.

(** The search finds the first segment that can be used. *)
Lemma alloc_loop_ok a l size addr n : forall k,
  rep a l -> wf_segs l -> 0 <= addr -> 0 < size -> addr + size < 2 ^ 32 ->
  (k + n = length l)%nat ->
  (exists j r, alloc_loop n (Z.of_nat k) a size addr = Some (Some (Z.of_nat j, r)) /\
     takes l size addr j r /\ forall j' r', (k <= j')%nat -> takes l size addr j' r' -> (j <= j')%nat) \/
  (alloc_loop n (Z.of_nat k) a size addr = Some None /\ forall j r, (k <= j)%nat -> ~ takes l size addr j r).
Proof.
  induction n as [|n IH]; intros k R W Hpos Hsz Hw Hk.
  { right. split; [done|]. intros j r Hj (b & nb & Hl & _). apply lookup_lt_Some in Hl. lia. }
  destruct (lookup_lt_is_Some_2 l k) as [[b t] Ek]; [lia|].
  destruct (lookup_lt_is_Some_2 (l ++ [ceiling]) (S k)) as [[nb nt] Ek1].
  { rewrite length_app. simpl. lia. }
  pose proof (lookup_app_l_Some _ [ceiling] _ _ Ek) as Ek0.
  assert (start l (S k) = Some nb) as Es by (unfold start; by rewrite Ek1).
  pose proof (start_gt l k b t nb W Ek Es) as Hlt.
  destruct (entry_ok l _ W (list_elem_of_lookup_2 _ _ _ Ek0)) as (_ & Hbr & _).
  assert (VM_USER_CEILING < 2 ^ 32 /\ 0 < VM_USER_BASE) as [Hc Hbp] by done.
  specialize (IH (S k) R W Hpos Hsz Hw ltac:(lia)).
  replace (Z.of_nat (S k)) with (Z.of_nat k + 1) in IH by lia.
  cbn [alloc_loop]. rewrite (rd_rep a l _ _ R Ek0). cbn [mbind option_bind].
  assert (rd a (Z.of_nat k + 1) = Some (enc (nb, nt))) as ->.
  { replace (Z.of_nat k + 1) with (Z.of_nat (S k)) by lia. apply (rd_rep a l _ _ R Ek1). }
  cbn [mbind option_bind].
  rewrite !(enc_addr l), (enc_type l) by (done || by eapply list_elem_of_lookup_2). cbn [fst snd] in *.
  rewrite !uwrap_small by lia.
  assert ((forall r, ~ takes l size addr k r) ->
    (exists j r, alloc_loop n (Z.of_nat k + 1) a size addr = Some (Some (Z.of_nat j, r)) /\
       takes l size addr j r /\ forall j' r', (k <= j')%nat -> takes l size addr j' r' -> (j <= j')%nat) \/
    (alloc_loop n (Z.of_nat k + 1) a size addr = Some None /\ forall j r, (k <= j)%nat -> ~ takes l size addr j r)) as Hskip.
  { intros Hk0. assert (forall j r, (k <= j)%nat -> takes l size addr j r -> (S k <= j)%nat) as Hge.
    { intros j r Hj Ht. destruct (decide (j = k)) as [->|]; [by destruct (Hk0 r)|lia]. }
    destruct IH as [(j & r & E & Ht & Hf)|[E Hn]]; [left|right].
    - exists j, r. split; [done|]. split; [done|]. intros j' r' Hj Ht'. apply (Hf j' r'); [|done]. by eapply Hge.
    - split; [done|]. intros j r Hj Ht. by apply (Hn j r); [eapply Hge|]. }
  assert (forall r, takes l size addr k r -> t = SEG_TYPE_FREE /\
    (r = addr /\ b <= addr /\ addr + size < nb \/ r = b /\ addr <= b /\ b + size <= nb)) as Hinv.
  { intros r (b' & nb' & Hj & Hs & Hr). rewrite Ek in Hj. rewrite Es in Hs. by simplify_eq. }
  case_bool_decide as Ht; [|subst t; case_bool_decide as H1; [|case_bool_decide as H2]].
  - apply Hskip. by intros r [? _]%Hinv.
  - left. exists k, addr. split_and!; [done|exists b, nb; by split_and!; auto|lia].
  - left. exists k, b. split_and!; [done| |lia]. exists b, nb. split_and!; try done. right. lia.
  - apply Hskip. intros r [_ Hr]%Hinv. lia.
Qed.

(** [size] bytes at [r], free in [l], are a segment of type [type] in [l'],
    which is [l] at every other user address. *)
Record carved (l l' : list seg) (r size type : Z) : Prop := {
  cv_wf : wf_segs l';
  cv_range : VM_USER_BASE <= r /\ r + size <= VM_USER_CEILING;
  cv_aligned : aligned r;
  cv_free x : r <= x < r + size -> type_at l x = Some SEG_TYPE_FREE;
  cv_type x : x < VM_USER_CEILING ->
    type_at l' x = if bool_decide (r <= x < r + size) then Some type else type_at l x
}.

Lemma place_fits a l j b nb r size type :
  rep a l -> wf_segs l -> (length l + 2 < 32)%nat -> fits l size j b nb r ->
  0 < size -> aligned r -> aligned size -> 0 < type < 3 ->
  exists a' l', install (Z.of_nat j) r size type a = Some a' /\ rep a' l' /\ carved l l' r size type.
Proof.
  intros R W Hroom Hf Hsz Ar As Hty. destruct (fits_split _ _ _ _ _ _ Hf) as (l1 & l2 & -> & <- & <-).
  destruct Hf as (_ & _ & Hb & Hn).
  destruct (place_rep a l1 b l2 r size type R W Hroom Hb Hn Hsz Hty) as (a' & E & R').
  pose proof (carve_parts l1 l2 b W) as (_ & _ & _ & _ & Hc & Hbase).
  exists a', (l1 ++ carve b r size (next_start l2) type ++ l2). split_and!; [done|done|].
  split; [by apply carve_wf|lia|done|..].
  - intros x Hx. apply (carve_type_at l1 l2 b r size type); done || lia.
  - intros x Hx. apply (carve_type_at l1 l2 b r size type); done || lia.
Qed.

(** Only the segment that holds [addr] can take a region at [addr]. *)
Lemma fits_unique l size addr i s s' j b nb :
  wf_segs l -> l !! i = Some s -> (l ++ [ceiling]) !! S i = Some s' -> s.1 <= addr < s'.1 ->
  0 < size -> fits l size j b nb addr -> j = i.
Proof.
  intros W Ei Ei1 Hr Hsz (Hj & Hs & ? & ?). unfold start in Hs.
  destruct ((l ++ [ceiling]) !! S j) as [z|] eqn:Ej1; [|done]. simplify_eq/=.
  pose proof (lookup_app_l_Some _ [ceiling] _ _ Hj) as Hj0.
  pose proof (lookup_app_l_Some _ [ceiling] _ _ Ei) as Ei0.
  destruct (Nat.lt_trichotomy i j) as [Hlt|[?|Hlt]]; [|done|].
  - destruct (decide (S i = j)) as [<-|].
    + rewrite Ei1 in Hj0. simplify_eq/=. lia.
    + pose proof (sorted_ceiling l (S i) j _ _ W ltac:(lia) Ei1 Hj0). simpl in *. lia.
  - destruct (decide (S j = i)) as [<-|].
    + rewrite Ej1 in Ei0. simplify_eq/=. lia.
    + pose proof (sorted_ceiling l (S j) i _ _ W ltac:(lia) Ej1 Ei0). simpl in *. lia.
Qed.

Lemma segment_create_fixed a l addr size type flags :
  rep a l -> wf_segs l -> (length l < 29)%nat -> Z.land flags MAP_FIXED <> 0 ->
  0 <= addr -> aligned addr -> 0 < size -> aligned size -> addr + size < 2 ^ 32 -> 0 < type < 3 ->
  (segment_create addr size type flags a = Some (0, a) /\
   forall j b nb, ~ fits l size j b nb addr) \/
  (exists a' l' j b nb, segment_create addr size type flags a = Some (addr, a') /\ rep a' l' /\
     carved l l' addr size type /\ fits l size j b nb addr).
Proof.
  intros R W Hroom Hfx Ha0 Aa Hsz As Hw Hty. unfold segment_create.
  rewrite (rep_cnt a l R), bool_decide_false by (unfold NSEGMENT; lia).
  rewrite (bool_decide_false (size = 0)), (bool_decide_true (_ <> 0)) by lia.
  destruct (segment_find_ok a l addr R W) as [Hin Hout].
  assert (forall j b nb, fits l size j b nb addr ->
    VM_USER_BASE <= addr < VM_USER_CEILING) as Hfr.
  { intros j b nb (Hj & Hs & ? & ?). pose proof (start_gt l j _ _ _ W Hj Hs).
    destruct (ws_aligned l W _ (list_elem_of_lookup_2 _ _ _ Hj)) as (_ & ? & _). simpl in *. lia. }
  destruct (decide (VM_USER_BASE <= addr < VM_USER_CEILING)) as [Hr|Hr].
  2:{ rewrite (Hout Hr). left. split; [done|]. intros j b nb Hf. by apply Hr, (Hfr j b nb). }
  destruct (Hin Hr) as (i & [b t] & [nb nt] & Ei & Ei1 & Hb & ->). cbn [mbind option_bind fst] in *.
  pose proof (lookup_app_l_Some _ [ceiling] _ _ Ei) as Ei0.
  assert (start l (S i) = Some nb) as Es by (unfold start; by rewrite Ei1).
  rewrite (rd_rep a l _ _ R Ei0). cbn [mbind option_bind].
  rewrite (enc_type l) by (done || by eapply list_elem_of_lookup_2). cbn [snd].
  assert (forall j b' nb', fits l size j b' nb' addr -> j = i) as Hun
    by (intros j b' nb' Hf; by eapply fits_unique).
  case_bool_decide as Ht.
  { left. split; [done|]. intros j b' nb' Hf. pose proof (Hun _ _ _ Hf) as ->.
    destruct Hf as (? & _). congruence. }
  subst t. replace (Z.of_nat i + 1) with (Z.of_nat (S i)) by lia.
  rewrite (rd_rep a l _ _ R Ei1). cbn [mbind option_bind].
  rewrite (enc_addr l) by (done || by eapply list_elem_of_lookup_2). cbn [fst].
  rewrite uwrap_small by lia. case_bool_decide as Hfit.
  { left. split; [done|]. intros j b' nb' Hf. pose proof (Hun _ _ _ Hf) as ->.
    destruct Hf as (_ & Hs & _ & ?). rewrite Es in Hs. simplify_eq; lia. }
  assert (fits l size i b nb addr) as Hf by (unfold fits; split_and!; done || lia).
  right. destruct (place_fits a l i b nb addr size type) as (a' & l' & -> & R' & C); try done; [lia|].
  by exists a', l', i, b, nb.
Qed.

Lemma segment_create_any a l addr size type flags :
  rep a l -> wf_segs l -> (length l < 29)%nat -> Z.land flags MAP_FIXED = 0 ->
  0 <= addr -> aligned addr -> 0 < size -> aligned size -> hint flags addr + size < 2 ^ 32 ->
  0 < type < 3 ->
  (segment_create addr size type flags a = Some (0, a) /\ forall j r, ~ takes l size (hint flags addr) j r) \/
  (exists r a' l' j, segment_create addr size type flags a = Some (r, a') /\ rep a' l' /\ carved l l' r size type /\
     takes l size (hint flags addr) j r /\ forall j' r', takes l size (hint flags addr) j' r' -> (j <= j')%nat).
Proof.
  intros R W Hroom Hfx Ha0 Aa Hsz As Hw Hty. unfold segment_create.
  rewrite (rep_cnt a l R), bool_decide_false by (unfold NSEGMENT; lia).
  rewrite (bool_decide_false (size = 0)), (bool_decide_false (_ <> 0)) by lia.
  unfold segment_alloc. fold (hint flags addr).
  assert (0 <= hint flags addr /\ aligned (hint flags addr)) as [Hh Ah].
  { unfold hint. case_bool_decide; split; done || lia. }
  rewrite (rep_cnt a l R), Nat2Z.id.
  destruct (alloc_loop_ok a l size (hint flags addr) (length l) 0 R W Hh Hsz Hw)
    as [(j & r & E & Ht & Hfirst)|[E Hno]]; [lia|..];
    change (Z.of_nat 0) with 0 in E; rewrite E; cbn [mbind option_bind].
  - right. destruct (takes_fits _ _ _ _ _ Ht) as (_ & b & nb & Hf & Hr). assert (aligned r) as Ar.
    { destruct Hr as [-> | ->]; [done|]. destruct Hf as (Hj & _).
      by destruct (ws_aligned l W _ (list_elem_of_lookup_2 _ _ _ Hj)). }
    destruct (place_fits a l j b nb r size type) as (a' & l' & -> & R' & C); try done; [lia|].
    exists r, a', l', j. split_and!; try done. intros j' r'. apply Hfirst. lia.
  - left. split; [done|]. intros j r. apply Hno. lia.
Qed.

Lemma segment_create_full a addr size type flags :
  segment_cnt a >= 29 \/ size = 0 -> segment_create addr size type flags a = Some (0, a).
Proof.
  intros H. unfold segment_create. case_bool_decide as Hc; [done|]. unfold NSEGMENT in Hc.
  by rewrite bool_decide_true by lia.
Qed.

(** [segment_find] finds the entry of the segment that holds a user
    address, with a bounded search, and no entry for any other address. *)
Theorem segment_find_correct a l addr :
  rep a l -> wf_segs l ->
  (VM_USER_BASE <= addr < VM_USER_CEILING ->
   exists i s s', l !! i = Some s /\ (l ++ [ceiling]) !! S i = Some s' /\
     s.1 <= addr < s'.1 /\ segment_find a addr = Some (Some (Z.of_nat i))) /\
  (~ (VM_USER_BASE <= addr < VM_USER_CEILING) -> segment_find a addr = Some None).
Proof. apply segment_find_ok. Qed.

(** The requests [segment_create] refuses: the table has no room for two more
    entries, the size is 0, with [MAP_FIXED] the region is not inside one free
    segment, and without it there is no free segment that [segment_alloc] can
    use. *)
Definition refused (l : list seg) (addr size flags : Z) : Prop :=
  (29 <= length l)%nat \/ size = 0 \/
  (Z.land flags MAP_FIXED <> 0 /\ forall j b nb, ~ fits l size j b nb addr) \/
  (Z.land flags MAP_FIXED = 0 /\ forall j r, ~ takes l size (hint flags addr) j r).


(** ** Concrete tables *)

Definition table_of (l : list seg) : AddressSpace :=
  let es := map enc (l ++ [ceiling]) in
  mkAS (es ++ replicate (32 - length es) 0) (Z.of_nat (length l)).

Definition one_alloc : list seg :=
  [(0x8000, SEG_TYPE_FREE); (0x10000, SEG_TYPE_ALLOC); (0x12000, SEG_TYPE_FREE)].

Lemma one_alloc_wf : wf_segs one_alloc.
Proof.
  split; [| |done].
  - intros s. unfold one_alloc. rewrite !elem_of_cons, elem_of_nil. intros [-> |[-> |[-> |[]]]];
      by split_and!.
  - fold (asc one_alloc). unfold one_alloc. rewrite !asc_cons.
    split_and!; [apply asc_nil|..]; intros s; rewrite ?elem_of_cons, ?elem_of_nil; naive_solver.
Qed.

Lemma one_alloc_rep : rep (table_of one_alloc) one_alloc.
Proof.
  split; [done|done|]. intros i s Hi. pose proof (lookup_lt_Some _ _ _ Hi) as Hlt. simpl in Hlt.
  do 4 (destruct i as [|i]; [by simplify_eq/=|]). lia.
Qed.

Lemma segment_find_correct_witness :
  segment_find (table_of one_alloc) 0x11000 = Some (Some 1) /\
  exists i s s', one_alloc !! i = Some s /\ (one_alloc ++ [ceiling]) !! S i = Some s' /\
     s.1 <= 0x11000 < s'.1 /\ segment_find (table_of one_alloc) 0x11000 = Some (Some (Z.of_nat i)).
Proof.
  split; [vm_compute; reflexivity|].
  apply (proj1 (segment_find_correct _ _ 0x11000 one_alloc_rep one_alloc_wf)). vm_compute. split; congruence.
Defined.


(** With two entries to search and the address below both, no entry is found. *)
Lemma find_loop_below n a addr x y :
  seg_addr <$> rd a 0 = Some x -> seg_addr <$> rd a 1 = Some y -> addr < x -> addr < y ->
  find_loop (S (S n)) a addr 0 1 = Some None.
Proof.
  intros H0 H1 Hx Hy. destruct (rd a 0) as [e0|] eqn:E0, (rd a 1) as [e1|] eqn:E1; simplify_eq/=.
  change (0 + (1 - 0) `quot` 2) with 0. change (0 + 1) with 1.
  rewrite E1. cbn [mbind option_bind]. rewrite bool_decide_false by lia.
  rewrite E0. cbn [mbind option_bind]. rewrite bool_decide_true by lia. done.
Qed.

(** Freeing a segment loses the free memory around it: after
    [segment_coalesce] no entry is found for the freed addresses nor for the
    free ones below them, and the count includes the ceiling entry. *)
Theorem segment_free_loses_memory :
  exists a, segment_free 0x10000 0x2000 (table_of one_alloc) = Some a /\
    segment_cnt a = 2 /\ forall x, 0x8000 <= x < 0x12000 -> segment_find a x = Some None.
Proof.
  eexists. split; [vm_compute; reflexivity|]. split; [done|]. intros x Hx.
  match goal with |- segment_find ?a x = _ => set (t := a) end.
  apply (find_loop_below 30 t x 0x12000 VM_USER_CEILING); try done; unfold VM_USER_CEILING; lia.
Qed.

(** With [MAP_FIXED] and a size that wraps around 32 bits
    [segment_create] accepts a region that ends below its start and the table
    is no longer sorted: the check against the next segment compares the
    wrapped sum. *)
Theorem segment_create_wraps :
  exists a, segment_create 0x8000 0xfffff000 SEG_TYPE_ALLOC MAP_FIXED
      (table_of [(VM_USER_BASE, SEG_TYPE_FREE)]) = Some (0x8000, a) /\
    seg_addr <$> rd a 0 = Some 0x8000 /\ seg_addr <$> rd a 1 = Some 0x7000.
Proof. eexists. split_and!; [vm_compute; reflexivity|done|done]. Qed.

End Segment.
