(* ===== verification/Page.v ===== *)
(** * Physical pages

    The state of the virtual memory system and the page allocator: the page
    frame table and the free lists (vm/page.c, vm/globals.c), their
    initialisation at boot (boards/raspberry_pi_4/init_vm.c) and the address
    conversions of boards/raspberry_pi_4/pmap.c.

    A pointer to a page frame is its index in [pageframe_table]; an index
    outside the table has no result ([None]).  [kmem] is the kernel's linear
    mapping of physical memory as 32-bit words by virtual address, so a page
    directory, a page table and the contents of a user page are the words at
    the address the code uses. *)

From stdpp Require Import list_numbers.
From S2P Require Import Prelude Lists.
Import Lists.Intrusive.

Definition PAGE_SIZE := 4096.
Definition PGF_INUSE := 1.
Definition PGF_KERNEL := 8.

Record Pageframe := mkPageframe {
  pf_size : Z;
  physical_addr : Z;
  reference_cnt : Z;
  pf_flags : Z;
  vpte_list : header Z
}.
#[export] Instance rebuild_Pageframe : Rebuild Pageframe := fun r =>
  mkPageframe (pf_size r) (physical_addr r) (reference_cnt r) (pf_flags r) (vpte_list r).

Record vm := mkVm {
  kmem : Z -> Z;                     (* words of kernel virtual memory *)
  vpte_links : Z -> link Z;          (* PmapVPTE.link by address of the PmapVPTE *)
  pageframe_table : Z -> Pageframe;
  max_pageframe : Z;
  mem_size : Z;
  free_4k_pf_list : list Z;
  free_16k_pf_list : list Z;
  free_64k_pf_list : list Z;
  root_pagedir : Z;
  l1_table : Z -> Z                  (* as->pmap.l1_table by address space *)
}.
#[export] Instance rebuild_vm : Rebuild vm := fun r =>
  mkVm (kmem r) (vpte_links r) (pageframe_table r) (max_pageframe r) (mem_size r)
    (free_4k_pf_list r) (free_16k_pf_list r) (free_64k_pf_list r) (root_pagedir r) (l1_table r).

(** ** Page frames and addresses *)

(** [&pageframe_table[i]] *)
Definition pageframe (s : vm) (i : Z) : option Pageframe :=
  if bool_decide (0 <= i < max_pageframe s) then Some (pageframe_table s i) else None.

Definition upd_pf (i : Z) (f : Pageframe -> Pageframe) (s : vm) : option vm :=
  if bool_decide (0 <= i < max_pageframe s) then
    Some (s <| pageframe_table := <[i := f (pageframe_table s i)]> (pageframe_table s) |>)
  else None.

Definition pmap_va_to_pa (vaddr : Z) : Z := u32 (vaddr - 0x80000000).
Definition pmap_pa_to_va (paddr : Z) : Z := u32 (paddr + 0x80000000).
Definition pmap_pa_to_pf (pa : Z) : Z := pa `div` PAGE_SIZE.
Definition pmap_va_to_pf (va : Z) : Z := pmap_va_to_pa va `div` PAGE_SIZE.
Definition pmap_pf_to_pa (pf : Pageframe) : Z := physical_addr pf.
Definition pmap_pf_to_va (pf : Pageframe) : Z := pmap_pa_to_va (physical_addr pf).

Definition pmap_pageframe_init (pf : Pageframe) : Pageframe := pf <| vpte_list := Header None None |>.

(** [memset(va, 0, size)] *)
Definition memset0 (va size : Z) (s : vm) : vm :=
  s <| kmem := fun a => if bool_decide (va <= a < va + size) then 0 else kmem s a |>
    <| vpte_links := fun a => if bool_decide (va <= a < va + size) then Link None None
                              else vpte_links s a |>.

(** ** The page allocator *)

(** [head = LIST_HEAD(list); if (head != NULL) LIST_REM_HEAD(list)] *)
Definition pop (l : list Z) : option Z * list Z :=
  match l with [] => (None, []) | h :: l => (Some h, l) end.

(** The loops that split a 64k slab at [head], for [t] down to 1. *)
Fixpoint split_16k (head : Z) (t : nat) (s : vm) : option vm :=
  match t with
  | O => Some s
  | S t' =>
      let i := head + Z.of_nat t * 4 in
      s ← upd_pf i (fun pf => pf <| pf_size := 16384 |> <| pf_flags := 0 |>) s;
      l ← Seq.add_head i (free_16k_pf_list s);
      split_16k head t' (s <| free_16k_pf_list := l |>)
  end.

Fixpoint split_4k (head : Z) (t : nat) (s : vm) : option vm :=
  match t with
  | O => Some s
  | S t' =>
      let i := head + Z.of_nat t in
      s ← upd_pf i (fun pf => pf <| pf_size := 4096 |> <| pf_flags := 0 |>) s;
      l ← Seq.add_head i (free_4k_pf_list s);
      split_4k head t' (s <| free_4k_pf_list := l |>)
  end.

(** The page frame taken off a free list, if there is one. *)
Definition take_slab (size : Z) (s : vm) : option Z * vm :=
  let '(head, s) :=
    if bool_decide (size = 4096) then
      let '(h, l) := pop (free_4k_pf_list s) in (h, s <| free_4k_pf_list := l |>)
    else if bool_decide (size = 16384) then
      let '(h, l) := pop (free_16k_pf_list s) in (h, s <| free_16k_pf_list := l |>)
    else (None, s) in
  if bool_decide (head = None \/ size = 65536) then
    let '(h, l) := pop (free_64k_pf_list s) in (h, s <| free_64k_pf_list := l |>)
  else (head, s).

(** Splitting a 64k slab for a smaller request. *)
Definition split_slab (head size : Z) (s : vm) : option vm :=
  pf ← pageframe s head;
  if bool_decide (pf_size pf = 65536 /\ size = 16384) then
    s ← split_16k head 3 s;
    upd_pf head (fun pf => pf <| pf_size := 16384 |> <| pf_flags := 0 |>) s
  else if bool_decide (pf_size pf = 65536 /\ size = 4096) then
    s ← split_4k head 15 s;
    upd_pf head (fun pf => pf <| pf_size := 4096 |> <| pf_flags := 0 |>) s
  else Some s.

(** The page frame, or [None] in the first component for NULL. *)
Definition alloc_pageframe (size : Z) (s : vm) : option (option Z * vm) :=
  match take_slab size s with
  | (None, s) => Some (None, s)
  | (Some head, s) =>
      s ← split_slab head size s;
      s ← upd_pf head (fun pf => pf <| pf_flags := PGF_INUSE |> <| reference_cnt := 0 |>) s;
      s ← upd_pf head pmap_pageframe_init s;
      pf ← pageframe s head;
      Some (Some head, memset0 (pmap_pa_to_va (physical_addr pf)) size s)
  end.

(** [free_pageframe] returns at once. *)
Definition free_pageframe (pf : Z) (s : vm) : vm := s.

Definition dup_pageframe (pf : Z) (s : vm) : option vm :=
  upd_pf pf (fun pf => pf <| reference_cnt := reference_cnt pf + 1 |>) s.

(** The kernel virtual address of a fresh page, 0 for NULL. *)
Definition kmalloc_page (s : vm) : option (Z * vm) :=
  '(r, s) ← alloc_pageframe PAGE_SIZE s;
  match r with
  | None => Some (0, s)
  | Some i => pf ← pageframe s i; Some (pmap_pf_to_va pf, s)
  end.

Definition kfree_page (vaddr : Z) (s : vm) : vm := free_pageframe (pmap_va_to_pf vaddr) s.

(** ** Initialisation *)

(** The loop of [init_memory_map] over the frames from [t], [n] of them. *)
Fixpoint init_memory_map_loop (n : nat) (t : Z) (s : vm) : option vm :=
  match n with
  | O => Some s
  | S n =>
      s ← upd_pf t (fun pf => pmap_pageframe_init
            (pf <| pf_size := PAGE_SIZE |> <| physical_addr := t * PAGE_SIZE |>
                <| reference_cnt := 0 |> <| pf_flags := 0 |>)) s;
      init_memory_map_loop n (t + 1) s
  end.

Definition init_memory_map (s : vm) : option vm :=
  init_memory_map_loop (Z.to_nat (max_pageframe s)) 0 s.

Fixpoint init_flags_loop (n : nat) (pa flags : Z) (s : vm) : option vm :=
  match n with
  | O => Some s
  | S n =>
      s ← upd_pf (pa `div` PAGE_SIZE) (fun pf => pf <| pf_flags := flags |>) s;
      init_flags_loop n (pa + PAGE_SIZE) flags s
  end.

Definition init_pageframe_flags (base ceiling flags : Z) (s : vm) : option vm :=
  let base := ALIGN_DOWN base PAGE_SIZE in
  let ceiling := ALIGN_UP ceiling PAGE_SIZE in
  init_flags_loop (Z.to_nat ((ceiling - base) `div` PAGE_SIZE)) base flags s.

(** The number of the [n] pages from [pa2] whose flags are 0. *)
Fixpoint count_free (n : nat) (pa2 : Z) (s : vm) : option Z :=
  match n with
  | O => Some 0
  | S n =>
      pf ← pageframe s (pa2 `div` PAGE_SIZE);
      c ← count_free n (pa2 + PAGE_SIZE) s;
      Some (if bool_decide (pf_flags pf = 0) then c + 1 else c)
  end.

(** The free ones of the [n] pages from [pa2] to the 4k list. *)
Fixpoint add_free_4k (n : nat) (pa2 : Z) (s : vm) : option vm :=
  match n with
  | O => Some s
  | S n =>
      let i := pa2 `div` PAGE_SIZE in
      pf ← pageframe s i;
      if bool_decide (pf_flags pf = 0) then
        s ← upd_pf i (fun pf => pf <| pf_size := PAGE_SIZE |>) s;
        l ← Seq.add_tail i (free_4k_pf_list s);
        add_free_4k n (pa2 + PAGE_SIZE) (s <| free_4k_pf_list := l |>)
      else add_free_4k n (pa2 + PAGE_SIZE) s
  end.

(** One slab of 64k at [pa]. *)
Definition coalesce_slab_at (pa : Z) (s : vm) : option vm :=
  c ← count_free 16 pa s;
  if bool_decide (c * PAGE_SIZE = 0x10000) then
    let i := pa `div` PAGE_SIZE in
    s ← upd_pf i (fun pf => pf <| pf_size := 0x10000 |>) s;
    l ← Seq.add_tail i (free_64k_pf_list s);
    Some (s <| free_64k_pf_list := l |>)
  else add_free_4k 16 pa s.

Fixpoint coalesce_free_loop (n : nat) (pa : Z) (s : vm) : option vm :=
  match n with
  | O => Some s
  | S n => s ← coalesce_slab_at pa s; coalesce_free_loop n (pa + 0x10000) s
  end.

(** The loop runs while [pa + 0x10000 <= mem_size], for a memory of less than
    4GB - 64k once for each whole slab. *)
Definition coalesce_free_pageframes (s : vm) : option vm :=
  let s := s <| free_4k_pf_list := [] |> <| free_16k_pf_list := [] |> <| free_64k_pf_list := [] |> in
  coalesce_free_loop (Z.to_nat (mem_size s `div` 0x10000)) 0 s.

(** What [init_vm] takes from the boot information and the linker script, as
    physical addresses. *)
Record layout := mkLayout {
  videocore_base : Z; videocore_ceiling : Z;
  stext : Z; ebss : Z;
  core_pagetable_base : Z; core_pagetable_ceiling : Z;
  heap_base : Z; heap_current : Z;
  ifs_exe_base : Z; ifs_image : Z
}.

Definition BOOT_BASE_ADDR := 0x1000.
Definition BOOT_CEILING_ADDR := 0x10000.

(** The assertion of [init_vm] on the [n] frames from [pa]: none has more than
    one reference. *)
Fixpoint assert_refs (n : nat) (pa : Z) (s : vm) : option unit :=
  match n with
  | O => Some ()
  | S n =>
      pf ← pageframe s (pa `div` PAGE_SIZE);
      if bool_decide (reference_cnt pf <= 1) then assert_refs n (pa + PAGE_SIZE) s else None
  end.

Definition init_vm (b : layout) (s : vm) : option vm :=
  s ← init_memory_map s;
  s ← init_pageframe_flags 0 BOOT_BASE_ADDR (Z.lor PGF_KERNEL PGF_INUSE) s;
  s ← init_pageframe_flags BOOT_BASE_ADDR BOOT_CEILING_ADDR (Z.lor PGF_KERNEL PGF_INUSE) s;
  s ← init_pageframe_flags (videocore_base b) (videocore_ceiling b) PGF_INUSE s;
  s ← init_pageframe_flags (stext b) (ebss b) (Z.lor PGF_KERNEL PGF_INUSE) s;
  s ← init_pageframe_flags (core_pagetable_base b) (core_pagetable_ceiling b)
        (Z.lor PGF_KERNEL PGF_INUSE) s;
  s ← init_pageframe_flags (heap_base b) (heap_current b) (Z.lor PGF_KERNEL PGF_INUSE) s;
  s ← init_pageframe_flags (heap_current b) (ifs_exe_base b) 0 s;
  s ← init_pageframe_flags (ifs_image b) (mem_size s) PGF_INUSE s;
  assert_refs (Z.to_nat (mem_size s `div` PAGE_SIZE)) 0 s;;
  coalesce_free_pageframes s.

(** ** The allocator's invariant *)

(** The frames of the slabs of [n] frames in a free list. *)
Definition blocks (n : Z) (l : list Z) : list Z := l ≫= fun h => seqZ h n.

Definition free_frames (s : vm) : list Z :=
  free_4k_pf_list s ++ blocks 4 (free_16k_pf_list s) ++ blocks 16 (free_64k_pf_list s).

Record alloc_inv (s : vm) : Prop := {
  ai_max : 0 <= max_pageframe s * PAGE_SIZE <= 2 ^ 31;
  ai_phys i : 0 <= i < max_pageframe s -> physical_addr (pageframe_table s i) = i * PAGE_SIZE;
  ai_nodup : NoDup (free_frames s);
  ai_range i : i ∈ free_frames s -> 0 <= i < max_pageframe s;
  ai_flags i : i ∈ free_frames s -> pf_flags (pageframe_table s i) = 0;
  ai_4k h : h ∈ free_4k_pf_list s -> pf_size (pageframe_table s h) = 4096;
  ai_16k h : h ∈ free_16k_pf_list s ->
    pf_size (pageframe_table s h) = 16384 /\ h `mod` 4 = 0;
  ai_64k h : h ∈ free_64k_pf_list s ->
    pf_size (pageframe_table s h) = 65536 /\ h `mod` 16 = 0
}.

Lemma blocks_cons n h l : blocks n (h :: l) = seqZ h n ++ blocks n l.
Proof. done. Qed.

Lemma blocks_app n l l' : blocks n (l ++ l') = blocks n l ++ blocks n l'.
Proof. apply bind_app. Qed.

Lemma elem_of_blocks n l i : i ∈ blocks n l <-> exists h, h ∈ l /\ h <= i < h + n.
Proof.
  unfold blocks. rewrite list_elem_of_bind. setoid_rewrite elem_of_seqZ. naive_solver.
Qed.

Lemma blocks_head n l h : 0 < n -> h ∈ l -> h ∈ blocks n l.
Proof. intros Hn Hh. apply elem_of_blocks. exists h. split; [done|lia]. Qed.

(** Both sides of an [upd_pf] in range. *)
Lemma upd_pf_ok i f s :
  0 <= i < max_pageframe s ->
  upd_pf i f s = Some (s <| pageframe_table := <[i := f (pageframe_table s i)]> (pageframe_table s) |>).
Proof. intros Hi. unfold upd_pf. by rewrite bool_decide_true. Qed.

Lemma pageframe_ok s i : 0 <= i < max_pageframe s -> pageframe s i = Some (pageframe_table s i).
Proof. intros Hi. unfold pageframe. by rewrite bool_decide_true. Qed.

Lemma add_head_fresh (x : Z) (l : list Z) : x ∉ l -> Seq.add_head x l = Some (x :: l).
Proof. intros H. unfold Seq.add_head. by rewrite bool_decide_false. Qed.

Lemma seqZ_cons' m n : 0 < n -> seqZ m n = m :: seqZ (m + 1) (n - 1).
Proof. intros. rewrite seqZ_cons by lia. by rewrite Z.add_1_r, Z.sub_1_r. Qed.

Lemma seqZ_S m n : seqZ m (Z.of_nat (S n)) = seqZ m (Z.of_nat n) ++ [m + Z.of_nat n].
Proof. rewrite Nat2Z.inj_succ, <- Z.add_1_r. by rewrite seqZ_app by lia. Qed.

Lemma split_4k_ok head t : forall s,
  (forall j, head < j <= head + Z.of_nat t -> 0 <= j < max_pageframe s /\ j ∉ free_4k_pf_list s) ->
  exists T, split_4k head t s =
    Some (s <| pageframe_table := T |>
            <| free_4k_pf_list := seqZ (head + 1) (Z.of_nat t) ++ free_4k_pf_list s |>) /\
    forall i, T i = if bool_decide (head < i <= head + Z.of_nat t)
                    then pageframe_table s i <| pf_size := 4096 |> <| pf_flags := 0 |>
                    else pageframe_table s i.
Proof.
  induction t as [|t IH]; intros s Hs.
  - exists (pageframe_table s). split; [by destruct s|]. intros i. by rewrite bool_decide_false by lia.
  - cbn [split_4k]. destruct (Hs (head + Z.of_nat (S t))) as [Hr Hf]; [lia|].
    rewrite upd_pf_ok by done. cbn [mbind option_bind].
    rewrite add_head_fresh by done. cbn [mbind option_bind].
    match goal with |- context [split_4k head t ?s] => set (s1 := s) end.
    destruct (IH s1) as (T & E & HT).
    { intros j Hj. destruct (Hs j) as [Hrj Hfj]; [lia|]. split; [done|].
      simpl. apply not_elem_of_cons. split; [lia|done]. }
    exists T. rewrite E. split.
    + rewrite seqZ_S. unfold s1. cbn. rewrite <- (assoc_L (++)).
      by replace (head + 1 + Z.of_nat t) with (head + Z.of_nat (S t)) by lia.
    + intros i. rewrite HT. unfold s1. cbn [pageframe_table update_field].
      destruct (decide (i = head + Z.of_nat (S t))) as [-> |Hne].
      * rewrite bool_decide_false, bool_decide_true by lia. by rewrite store_eq.
      * rewrite store_ne by done. by repeat case_bool_decide; try lia.
Qed.

Lemma split_16k_ok head t : forall s,
  (forall j, 0 < j <= Z.of_nat t ->
     0 <= head + j * 4 < max_pageframe s /\ head + j * 4 ∉ free_16k_pf_list s) ->
  exists T, split_16k head t s =
    Some (s <| pageframe_table := T |>
            <| free_16k_pf_list := ((fun j => head + j * 4) <$> seqZ 1 (Z.of_nat t)) ++
                 free_16k_pf_list s |>) /\
    forall i, T i = if bool_decide (head < i <= head + Z.of_nat t * 4 /\ (i - head) `mod` 4 = 0)
                    then pageframe_table s i <| pf_size := 16384 |> <| pf_flags := 0 |>
                    else pageframe_table s i.
Proof.
  induction t as [|t IH]; intros s Hs.
  - exists (pageframe_table s). split; [by destruct s|]. intros i. by rewrite bool_decide_false by lia.
  - cbn [split_16k]. destruct (Hs (Z.of_nat (S t))) as [Hr Hf]; [lia|].
    rewrite upd_pf_ok by done. cbn [mbind option_bind].
    rewrite add_head_fresh by done. cbn [mbind option_bind].
    match goal with |- context [split_16k head t ?s] => set (s1 := s) end.
    destruct (IH s1) as (T & E & HT).
    { intros j Hj. destruct (Hs j) as [Hrj Hfj]; [lia|]. split; [done|].
      simpl. apply not_elem_of_cons. split; [lia|done]. }
    exists T. rewrite E. split.
    + rewrite seqZ_S, fmap_app. unfold s1. cbn. rewrite <- (assoc_L (++)).
      by replace (1 + Z.of_nat t) with (Z.of_nat (S t)) by lia.
    + intros i. rewrite HT. unfold s1. cbn [pageframe_table update_field].
      destruct (decide (i = head + Z.of_nat (S t) * 4)) as [-> |Hne].
      * rewrite bool_decide_false, bool_decide_true.
        { by rewrite store_eq. }
        { split; [lia|]. replace (head + Z.of_nat (S t) * 4 - head) with (Z.of_nat (S t) * 4) by lia.
          by apply Z.mod_mul. }
        { lia. }
      * rewrite store_ne by done. do 2 case_bool_decide; try done; [lia|].
        exfalso. pose proof (Z.div_mod (i - head) 4 ltac:(done)). lia.
Qed.

(** What a step of the allocator leaves alone. *)
Record vm_frame (s s' : vm) : Prop := {
  vf_max : max_pageframe s' = max_pageframe s;
  vf_mem : mem_size s' = mem_size s;
  vf_root : root_pagedir s' = root_pagedir s;
  vf_l1 : l1_table s' = l1_table s
}.

(** A slab of [n] frames at [h], fresh from the free lists of [s]. *)
Record slab_taken (size n h : Z) (s s' : vm) : Prop := {
  st_inv : alloc_inv s';
  st_frames : free_frames s ≡ₚ seqZ h n ++ free_frames s';
  st_align : h `mod` n = 0;
  st_size : pf_size (pageframe_table s' h) = size;
  st_flags i : h <= i < h + n -> pf_flags (pageframe_table s' i) = 0;
  st_table i : i ∉ free_frames s -> pageframe_table s' i = pageframe_table s i;
  st_kmem : kmem s' = kmem s;
  st_links : vpte_links s' = vpte_links s;
  st_frame : vm_frame s s'
}.

(** The invariant after the free lists of [s] changed to cover the frames of
    [s] without the slab at [h]. *)
Lemma alloc_inv_split s s' h n :
  alloc_inv s -> vm_frame s s' ->
  (forall i, physical_addr (pageframe_table s' i) = physical_addr (pageframe_table s i)) ->
  free_frames s ≡ₚ seqZ h n ++ free_frames s' ->
  (forall i, i ∈ free_frames s' -> pf_flags (pageframe_table s' i) = 0) ->
  (forall h, h ∈ free_4k_pf_list s' -> pf_size (pageframe_table s' h) = 4096) ->
  (forall h, h ∈ free_16k_pf_list s' ->
     pf_size (pageframe_table s' h) = 16384 /\ h `mod` 4 = 0) ->
  (forall h, h ∈ free_64k_pf_list s' ->
     pf_size (pageframe_table s' h) = 65536 /\ h `mod` 16 = 0) ->
  alloc_inv s'.
Proof.
  intros I F Hp P Hfl H4 H16 H64. pose proof (vf_max _ _ F) as Em. split.
  - rewrite Em. apply I.
  - intros i Hi. rewrite Hp. apply I. by rewrite <- Em.
  - pose proof (ai_nodup _ I) as Hn. rewrite P in Hn. by apply NoDup_app in Hn as (_ & _ & ?).
  - intros i Hi. rewrite Em. apply (ai_range _ I). rewrite P. apply elem_of_app. by right.
  - done.
  - done.
  - done.
  - done.
Qed.

(** A slab taken off its own list. *)
Lemma pop_4k s h l :
  alloc_inv s -> free_4k_pf_list s = h :: l ->
  slab_taken 4096 1 h s (s <| free_4k_pf_list := l |>).
Proof.
  intros I El. assert (free_frames s ≡ₚ seqZ h 1 ++ free_frames (s <| free_4k_pf_list := l |>)) as P.
  { unfold free_frames. rewrite El. done. }
  split; try done.
  - apply (alloc_inv_split s _ h 1); try done; simpl.
    + intros i Hi. apply (ai_flags _ I). rewrite P. apply elem_of_app. by right.
    + intros x Hx. apply (ai_4k _ I). rewrite El. by right.
    + apply (ai_16k _ I).
    + apply (ai_64k _ I).
  - apply Z.mod_1_r.
  - apply (ai_4k _ I). rewrite El. by left.
  - intros i Hi. apply (ai_flags _ I). rewrite P. apply elem_of_app. left. by apply elem_of_seqZ.
Qed.

Lemma pop_16k s h l :
  alloc_inv s -> free_16k_pf_list s = h :: l ->
  slab_taken 16384 4 h s (s <| free_16k_pf_list := l |>).
Proof.
  intros I El.
  assert (free_frames s ≡ₚ seqZ h 4 ++ free_frames (s <| free_16k_pf_list := l |>)) as P.
  { unfold free_frames. rewrite El, blocks_cons. cbn [free_4k_pf_list free_16k_pf_list free_64k_pf_list update_field].
    solve_Permutation. }
  split; try done.
  - apply (alloc_inv_split s _ h 4); try done; simpl.
    + intros i Hi. apply (ai_flags _ I). rewrite P. apply elem_of_app. by right.
    + apply (ai_4k _ I).
    + intros x Hx. apply (ai_16k _ I). rewrite El. by right.
    + apply (ai_64k _ I).
  - apply (ai_16k _ I). rewrite El. by left.
  - apply (ai_16k _ I). rewrite El. by left.
  - intros i Hi. apply (ai_flags _ I). rewrite P. apply elem_of_app. left. by apply elem_of_seqZ.
Qed.

Lemma pop_64k s h l :
  alloc_inv s -> free_64k_pf_list s = h :: l ->
  slab_taken 65536 16 h s (s <| free_64k_pf_list := l |>).
Proof.
  intros I El.
  assert (free_frames s ≡ₚ seqZ h 16 ++ free_frames (s <| free_64k_pf_list := l |>)) as P.
  { unfold free_frames. rewrite El, blocks_cons. cbn [free_4k_pf_list free_16k_pf_list free_64k_pf_list update_field].
    solve_Permutation. }
  split; try done.
  - apply (alloc_inv_split s _ h 16); try done; simpl.
    + intros i Hi. apply (ai_flags _ I). rewrite P. apply elem_of_app. by right.
    + apply (ai_4k _ I).
    + apply (ai_16k _ I).
    + intros x Hx. apply (ai_64k _ I). rewrite El. by right.
  - apply (ai_64k _ I). rewrite El. by left.
  - apply (ai_64k _ I). rewrite El. by left.
  - intros i Hi. apply (ai_flags _ I). rewrite P. apply elem_of_app. left. by apply elem_of_seqZ.
Qed.

(** The slab at [h] is in the table and apart from the free frames. *)
Lemma slab_frames size n h s s' i :
  alloc_inv s -> slab_taken size n h s s' -> h <= i < h + n ->
  0 <= i < max_pageframe s' /\ i ∉ free_frames s' /\ i ∈ free_frames s.
Proof.
  intros I Sl Hi. assert (i ∈ free_frames s) as Hin.
  { rewrite (st_frames _ _ _ _ _ Sl). apply elem_of_app. left. by apply elem_of_seqZ. }
  split; [|split; [intros Hf|done]].
  - rewrite (vf_max _ _ (st_frame _ _ _ _ _ Sl)). by apply (ai_range _ I).
  - pose proof (ai_nodup _ I) as Hn. rewrite (st_frames _ _ _ _ _ Sl) in Hn.
    apply NoDup_app in Hn as (_ & Hd & _). apply (Hd i); [by apply elem_of_seqZ|done].
Qed.

Lemma free_frames_4k s i : i ∈ free_4k_pf_list s -> i ∈ free_frames s.
Proof. intros. unfold free_frames. set_solver. Qed.
Lemma free_frames_16k s i : i ∈ free_16k_pf_list s -> i ∈ free_frames s.
Proof. intros Hi. unfold free_frames. apply (blocks_head 4) in Hi; [set_solver|lia]. Qed.
Lemma free_frames_64k s i : i ∈ free_64k_pf_list s -> i ∈ free_frames s.
Proof. intros Hi. unfold free_frames. apply (blocks_head 16) in Hi; [set_solver|lia]. Qed.

Lemma split_slab_same h size s :
  0 <= h < max_pageframe s -> pf_size (pageframe_table s h) = size -> split_slab h size s = Some s.
Proof.
  intros Hh Hsz. unfold split_slab. rewrite pageframe_ok by done. cbn [mbind option_bind].
  by rewrite !bool_decide_false by lia.
Qed.

(** The slab [h] of 64k split: a slab of [n] frames is kept and the rest goes
    to the lists of smaller slabs. *)
Lemma split_taken size n h s s1 T l4 l16 :
  alloc_inv s -> slab_taken 65536 16 h s s1 -> 0 < n -> h `mod` n = 0 ->
  (forall i, ~ h <= i < h + 16 -> T i = pageframe_table s1 i) ->
  (forall i, physical_addr (T i) = physical_addr (pageframe_table s1 i)) ->
  (forall i, h <= i < h + 16 -> pf_flags (T i) = 0) ->
  pf_size (T h) = size ->
  seqZ h 16 ≡ₚ seqZ h n ++ l4 ++ blocks 4 l16 ->
  (forall x, x ∈ l4 -> pf_size (T x) = 4096) ->
  (forall x, x ∈ l16 -> pf_size (T x) = 16384 /\ x `mod` 4 = 0) ->
  slab_taken size n h s (s1 <| pageframe_table := T |>
    <| free_4k_pf_list := l4 ++ free_4k_pf_list s1 |>
    <| free_16k_pf_list := l16 ++ free_16k_pf_list s1 |>).
Proof.
  intros I Sl Hn Hal Hout Hphys Hfl Hsz Hperm H4 H16.
  pose proof (st_inv _ _ _ _ _ Sl) as I1. pose proof (st_frame _ _ _ _ _ Sl) as F1.
  set (s2 := s1 <| pageframe_table := T |> <| free_4k_pf_list := _ |> <| free_16k_pf_list := _ |>).
  assert (vm_frame s s2) as F2 by (split; apply F1).
  assert (forall i, i ∈ free_frames s1 -> ~ h <= i < h + 16) as Hapart.
  { intros i Hi Hr. by apply (slab_frames _ _ _ _ _ i I Sl Hr). }
  assert (seqZ h 16 ++ free_frames s1 ≡ₚ seqZ h n ++ free_frames s2) as P1.
  { assert (free_frames s2 = (l4 ++ free_4k_pf_list s1) ++
      blocks 4 (l16 ++ free_16k_pf_list s1) ++ blocks 16 (free_64k_pf_list s1)) as -> by done.
    rewrite Hperm, blocks_app. unfold free_frames. solve_Permutation. }
  assert (free_frames s ≡ₚ seqZ h n ++ free_frames s2) as P
    by (rewrite (st_frames _ _ _ _ _ Sl); done).
  assert (forall i, h <= i < h + n -> h <= i < h + 16) as Hsub.
  { intros i Hi. apply elem_of_seqZ. rewrite Hperm. apply elem_of_app. left. by apply elem_of_seqZ. }
  split; try done; [|intros i Hi; apply Hfl, Hsub; done| |apply Sl|apply Sl].
  - assert (forall i, i ∈ free_frames s2 -> pf_flags (T i) = 0) as Hfl2.
    { intros i Hi. assert (i ∈ seqZ h 16 ++ free_frames s1) as Hi'
        by (rewrite P1; apply elem_of_app; by right).
      destruct (decide (h <= i < h + 16)) as [Hr|Hr]; [by apply Hfl|].
      apply elem_of_app in Hi' as [Hi'|Hi']; [by apply elem_of_seqZ in Hi'|].
      rewrite Hout by done. by apply (ai_flags _ I1). }
    apply (alloc_inv_split s _ h n); try done; cbn.
    + intros i. destruct (decide (i ∈ free_frames s)) as [Hi|Hi].
      * change (physical_addr (T i) = physical_addr (pageframe_table s i)). rewrite Hphys.
        pose proof (ai_range _ I i Hi) as Hr. rewrite (ai_phys _ I i Hr).
        apply (ai_phys _ I1). by rewrite (vf_max _ _ F1).
      * change (physical_addr (T i) = physical_addr (pageframe_table s i)).
        by rewrite Hphys, (st_table _ _ _ _ _ Sl i Hi).
    + intros x [Hx|Hx]%elem_of_app; [by apply H4|]. rewrite Hout.
      * by apply (ai_4k _ I1).
      * by apply Hapart, free_frames_4k.
    + intros x [Hx|Hx]%elem_of_app; [by apply H16|]. rewrite Hout.
      * by apply (ai_16k _ I1).
      * by apply Hapart, free_frames_16k.
    + intros x Hx. rewrite Hout.
      * by apply (ai_64k _ I1).
      * by apply Hapart, free_frames_64k.
  - intros i Hi. change (T i = pageframe_table s i).
    rewrite Hout; [by apply (st_table _ _ _ _ _ Sl)|].
    intros Hr. by apply Hi, (slab_frames _ _ _ _ _ i I Sl Hr).
Qed.

Lemma split_slab_4k h s s1 :
  alloc_inv s -> slab_taken 65536 16 h s s1 ->
  exists s2, split_slab h 4096 s1 = Some s2 /\ slab_taken 4096 1 h s s2.
Proof.
  intros I Sl. pose proof (slab_frames _ _ _ _ _ h I Sl ltac:(lia)) as (Hr & _ & Hh).
  unfold split_slab. rewrite pageframe_ok by done. cbn [mbind option_bind].
  rewrite (st_size _ _ _ _ _ Sl), bool_decide_false, bool_decide_true by lia.
  destruct (split_4k_ok h 15 s1) as (T & -> & HT).
  { intros j Hj. pose proof (slab_frames _ _ _ _ _ j I Sl ltac:(lia)) as (? & Hf & _).
    split; [done|]. intros Hj'. by apply Hf, free_frames_4k. }
  cbn [mbind option_bind]. rewrite upd_pf_ok by done. eexists. split; [done|].
  change (Z.of_nat 15) with 15 in *.
  assert (forall i, h < i < h + 16 -> (<[h := T h <| pf_size := 4096 |> <| pf_flags := 0 |>]> T) i =
    pageframe_table s1 i <| pf_size := 4096 |> <| pf_flags := 0 |>) as Hin.
  { intros i Hi. rewrite store_ne by lia. rewrite HT. by rewrite bool_decide_true by lia. }
  apply (split_taken 4096 1 h s s1 (<[h := T h <| pf_size := 4096 |> <| pf_flags := 0 |>]> T) (seqZ (h + 1) 15) []); try done.
  - apply Z.mod_1_r.
  - intros i Hi. rewrite store_ne by lia. by rewrite HT, bool_decide_false by lia.
  - intros i. destruct (decide (i = h)) as [-> |Hne].
    + rewrite store_eq. by rewrite HT, bool_decide_false by lia.
    + rewrite store_ne by done. rewrite HT. by case_bool_decide.
  - intros i Hi. destruct (decide (i = h)) as [-> |Hne]; [by rewrite store_eq|].
    by rewrite Hin by lia.
  - by rewrite store_eq.
  - by rewrite (seqZ_cons' h 16) by lia.
  - intros x Hx%elem_of_seqZ. by rewrite Hin by lia.
  - by intros x ?%elem_of_nil.
Qed.

Lemma split_slab_16k h s s1 :
  alloc_inv s -> slab_taken 65536 16 h s s1 ->
  exists s2, split_slab h 16384 s1 = Some s2 /\ slab_taken 16384 4 h s s2.
Proof.
  intros I Sl. pose proof (slab_frames _ _ _ _ _ h I Sl ltac:(lia)) as (Hr & _ & Hh).
  unfold split_slab. rewrite pageframe_ok by done. cbn [mbind option_bind].
  rewrite (st_size _ _ _ _ _ Sl), bool_decide_true by lia.
  destruct (split_16k_ok h 3 s1) as (T & -> & HT).
  { intros j Hj. pose proof (slab_frames _ _ _ _ _ (h + j * 4) I Sl ltac:(lia)) as (? & Hf & _).
    split; [done|]. intros Hj'. by apply Hf, free_frames_16k. }
  cbn [mbind option_bind]. rewrite upd_pf_ok by done. eexists. split; [done|].
  change (Z.of_nat 3) with 3 in *. change (3 * 4) with 12 in *.
  assert (h `mod` 4 = 0) as H4.
  { pose proof (st_align _ _ _ _ _ Sl) as Ha. pose proof (Z.div_mod h 16 ltac:(done)) as Hd.
    rewrite Hd, Ha, Z.add_0_r. replace (16 * (h `div` 16)) with (4 * (h `div` 16) * 4) by lia.
    by apply Z.mod_mul. }
  apply (split_taken 16384 4 h s s1 (<[h := T h <| pf_size := 16384 |> <| pf_flags := 0 |>]> T) [] ((fun j => h + j * 4) <$> seqZ 1 3)); try done.
  - intros i Hi. rewrite store_ne by lia. by rewrite HT, bool_decide_false by lia.
  - intros i. destruct (decide (i = h)) as [-> |Hne].
    + rewrite store_eq. by rewrite HT, bool_decide_false by lia.
    + rewrite store_ne by done. rewrite HT. by case_bool_decide.
  - intros i Hi. destruct (decide (i = h)) as [-> |Hne]; [by rewrite store_eq|].
    rewrite store_ne by done. rewrite HT. case_bool_decide; [done|].
    by apply (st_flags _ _ _ _ _ Sl).
  - by rewrite store_eq.
  - change (blocks 4 _) with (seqZ (h + 4) 4 ++ seqZ (h + 8) 4 ++ seqZ (h + 12) 4 ++ []).
    rewrite app_nil_r, app_nil_l. change 16 with (4 + (4 + (4 + 4))).
    rewrite !seqZ_app by lia. by replace (h + 4 + 4) with (h + 8) by lia;
      replace (h + 8 + 4) with (h + 12) by lia.
  - by intros x ?%elem_of_nil.
  - intros x (j & -> & Hj%elem_of_seqZ)%list_elem_of_fmap. rewrite store_ne by lia.
    rewrite HT, bool_decide_true.
    + split; [done|]. by rewrite Z.mod_add.
    + split; [lia|]. replace (h + j * 4 - h) with (j * 4) by lia. by apply Z.mod_mul.
Qed.

(** ** [alloc_pageframe] *)

(** The request for [n] frames is met by the slab at [h]. *)
Record allocated (size n h : Z) (s s' : vm) : Prop := {
  al_inv : alloc_inv s';
  al_frames : free_frames s ≡ₚ seqZ h n ++ free_frames s';
  al_align : h `mod` n = 0;
  al_pf : pageframe_table s' h = mkPageframe size (h * PAGE_SIZE) 0 PGF_INUSE (Header None None);
  al_table i : i ∉ free_frames s -> pageframe_table s' i = pageframe_table s i;
  al_kmem a : kmem s' a =
    if bool_decide (0x80000000 + h * PAGE_SIZE <= a < 0x80000000 + (h + n) * PAGE_SIZE) then 0
    else kmem s a;
  al_links a : vpte_links s' a =
    if bool_decide (0x80000000 + h * PAGE_SIZE <= a < 0x80000000 + (h + n) * PAGE_SIZE)
    then Link None None else vpte_links s a;
  al_frame : vm_frame s s'
}.

Lemma pa_to_va_ok pa : 0 <= pa < 2 ^ 31 -> pmap_pa_to_va pa = pa + 0x80000000.
Proof. intros H. unfold pmap_pa_to_va. apply uwrap_small. lia. Qed.

(** The end of [alloc_pageframe], on a slab of the right size. *)
Lemma alloc_finish size n h s s1 :
  alloc_inv s -> slab_taken size n h s s1 -> size = n * PAGE_SIZE -> 0 < n ->
  exists s2,
    (s ← upd_pf h (fun pf => pf <| pf_flags := PGF_INUSE |> <| reference_cnt := 0 |>) s1;
     s ← upd_pf h pmap_pageframe_init s;
     pf ← pageframe s h;
     Some (Some h, memset0 (pmap_pa_to_va (physical_addr pf)) size s)) = Some (Some h, s2) /\
    allocated size n h s s2.
Proof.
  intros I Sl Esz Hn. pose proof (slab_frames _ _ _ _ _ h I Sl ltac:(lia)) as (Hr & Hnf & Hh).
  pose proof (st_inv _ _ _ _ _ Sl) as I1. pose proof (st_frame _ _ _ _ _ Sl) as F1.
  rewrite upd_pf_ok by done. cbn [mbind option_bind].
  rewrite upd_pf_ok by done. cbn [mbind option_bind].
  rewrite pageframe_ok by done. cbn [mbind option_bind].
  cbn [pageframe_table update_field]. rewrite !store_eq.
  eexists. split; [done|].
  change (physical_addr _) with (physical_addr (pageframe_table s1 h)).
  rewrite (ai_phys _ I1) by done. 
  pose proof (ai_max _ I1) as Hmax.
  rewrite pa_to_va_ok by (unfold PAGE_SIZE in *; lia).
  match goal with |- allocated _ _ _ _ (memset0 _ _ ?s2) => set (T := pageframe_table s2) end.
  change (allocated size n h s (memset0 (h * PAGE_SIZE + 0x80000000) size
    (s1 <| pageframe_table := T |>))).
  assert (T h = mkPageframe size (h * PAGE_SIZE) 0 PGF_INUSE (Header None None)) as Th.
  { unfold T. cbn [pageframe_table update_field]. rewrite !store_eq.
    pose proof (st_size _ _ _ _ _ Sl) as E1. pose proof (ai_phys _ I1 h Hr) as E2.
    destruct (pageframe_table s1 h). by simplify_eq/=. }
  assert (forall i, i <> h -> T i = pageframe_table s1 i) as Tne.
  { intros i Hi. unfold T. cbn [pageframe_table update_field]. by rewrite !store_ne by done. }
  clearbody T.
  assert (forall i, i ∈ free_frames s1 -> i <> h) as Hneq by (intros i Hi ->; done).
  split; try apply Sl; try done.
  - split; cbn [kmem pageframe_table max_pageframe memset0 update_field]; try apply I1.
    + intros i Hi. destruct (decide (i = h)) as [-> |Hne]; [by rewrite Th|]. rewrite Tne by done.
      by apply (ai_phys _ I1).
    + intros i Hi. rewrite Tne by (by apply Hneq). by apply (ai_flags _ I1).
    + intros i Hi. rewrite Tne by (by apply Hneq, free_frames_4k). by apply (ai_4k _ I1).
    + intros i Hi. rewrite Tne by (by apply Hneq, free_frames_16k). by apply (ai_16k _ I1).
    + intros i Hi. rewrite Tne by (by apply Hneq, free_frames_64k). by apply (ai_64k _ I1).
  - intros i Hi. change (T i = pageframe_table s i).
    rewrite Tne by (intros ->; done). by apply (st_table _ _ _ _ _ Sl).
  - intros a. cbn [kmem memset0 update_field]. rewrite (st_kmem _ _ _ _ _ Sl).
    by repeat case_bool_decide; try lia.
  - intros a. cbn [vpte_links memset0 update_field]. rewrite (st_links _ _ _ _ _ Sl).
    by repeat case_bool_decide; try lia.
  - split; apply F1.
Qed.

Lemma alloc_taken size n h s s1 s2 :
  alloc_inv s -> take_slab size s = (Some h, s1) -> split_slab h size s1 = Some s2 ->
  slab_taken size n h s s2 -> size = n * PAGE_SIZE -> 0 < n ->
  exists s', alloc_pageframe size s = Some (Some h, s') /\ allocated size n h s s'.
Proof.
  intros I E1 E2 Sl Esz Hn. unfold alloc_pageframe. rewrite E1, E2. cbn [mbind option_bind].
  by apply alloc_finish with (n := n).
Qed.

(** The list that serves a request before the 64k list is tried. *)
Definition own_list (n : Z) (s : vm) : list Z :=
  if bool_decide (n = 1) then free_4k_pf_list s
  else if bool_decide (n = 4) then free_16k_pf_list s else free_64k_pf_list s.

Lemma alloc_pageframe_ok s n :
  alloc_inv s -> n = 1 \/ n = 4 \/ n = 16 ->
  (exists h s', alloc_pageframe (n * PAGE_SIZE) s = Some (Some h, s') /\
     allocated (n * PAGE_SIZE) n h s s') \/
  (alloc_pageframe (n * PAGE_SIZE) s = Some (None, s) /\
   own_list n s = [] /\ free_64k_pf_list s = []).
Proof.
  intros I Hn.
  destruct (own_list n s) as [|h l] eqn:Eo; [destruct (free_64k_pf_list s) as [|h l] eqn:E64|].
  - right. split; [|done]. unfold alloc_pageframe, take_slab.
    destruct Hn as [-> |[-> | ->]];
      [change (free_4k_pf_list s = []) in Eo|change (free_16k_pf_list s = []) in Eo|];
      cbn; rewrite ?Eo; cbn; rewrite ?E64; cbn; by destruct s; simplify_eq/=.
  - left. assert (n <> 16) as H16 by (intros ->; change (free_64k_pf_list s = []) in Eo; congruence).
    pose proof (pop_64k s h l I E64) as Sl. exists h.
    destruct Hn as [-> |[-> |?]]; [change (free_4k_pf_list s = []) in Eo|
      change (free_16k_pf_list s = []) in Eo|done].
    + destruct (split_slab_4k h s _ I Sl) as (s2 & E2 & S2).
      apply (alloc_taken (1 * PAGE_SIZE) 1 h s (s <| free_64k_pf_list := l |>) s2); try done.
      unfold take_slab. cbn. rewrite Eo. cbn. rewrite E64. by destruct s; simplify_eq/=.
    + destruct (split_slab_16k h s _ I Sl) as (s2 & E2 & S2).
      apply (alloc_taken (4 * PAGE_SIZE) 4 h s (s <| free_64k_pf_list := l |>) s2); try done.
      unfold take_slab. cbn. rewrite Eo. cbn. rewrite E64. by destruct s; simplify_eq/=.
  - left. exists h. destruct Hn as [-> |[-> | ->]];
      [change (free_4k_pf_list s = h :: l) in Eo|change (free_16k_pf_list s = h :: l) in Eo|
       change (free_64k_pf_list s = h :: l) in Eo].
    + pose proof (pop_4k s h l I Eo) as Sl.
      apply (alloc_taken (1 * PAGE_SIZE) 1 h s (s <| free_4k_pf_list := l |>)
        (s <| free_4k_pf_list := l |>)); try done.
      * unfold take_slab. cbn. rewrite Eo. done.
      * apply split_slab_same; [|apply (st_size _ _ _ _ _ Sl)].
        by destruct (slab_frames _ _ _ _ _ h I Sl ltac:(lia)) as (Hr & _).
    + pose proof (pop_16k s h l I Eo) as Sl.
      apply (alloc_taken (4 * PAGE_SIZE) 4 h s (s <| free_16k_pf_list := l |>)
        (s <| free_16k_pf_list := l |>)); try done.
      * unfold take_slab. cbn. rewrite Eo. done.
      * apply split_slab_same; [|apply (st_size _ _ _ _ _ Sl)].
        by destruct (slab_frames _ _ _ _ _ h I Sl ltac:(lia)) as (Hr & _).
    + pose proof (pop_64k s h l I Eo) as Sl.
      apply (alloc_taken (16 * PAGE_SIZE) 16 h s (s <| free_64k_pf_list := l |>)
        (s <| free_64k_pf_list := l |>)); try done.
      * unfold take_slab. rewrite (bool_decide_false (_ = 4096)), (bool_decide_false (_ = 16384)) by done.
        rewrite bool_decide_true by (by left). by rewrite Eo.
      * apply split_slab_same; [|apply (st_size _ _ _ _ _ Sl)].
        by destruct (slab_frames _ _ _ _ _ h I Sl ltac:(lia)) as (Hr & _).
Qed.

(** ** The free lists after boot *)

Definition is_free (T : Z -> Pageframe) (i : Z) : Prop := pf_flags (T i) = 0.
#[export] Instance is_free_dec T i : Decision (is_free T i).
Proof. unfold is_free. apply _. Defined.

(** The table may differ from [T] in sizes only. *)
Definition resized (T T' : Z -> Pageframe) : Prop :=
  forall i, exists sz, T' i = T i <| pf_size := sz |>.

Lemma resized_refl T : resized T T.
Proof. intros i. exists (pf_size (T i)). by destruct (T i). Qed.

Lemma resized_trans T1 T2 T3 : resized T1 T2 -> resized T2 T3 -> resized T1 T3.
Proof. intros H1 H2 i. destruct (H1 i) as [a Ha], (H2 i) as [b Hb]. exists b. by rewrite Hb, Ha. Qed.

Lemma resized_upd T i sz : resized T (<[i := T i <| pf_size := sz |>]> T).
Proof.
  intros j. destruct (decide (j = i)) as [-> |Hne].
  - exists sz. by rewrite store_eq.
  - exists (pf_size (T j)). rewrite store_ne by done. by destruct (T j).
Qed.

Lemma resized_free T T' i : resized T T' -> is_free T' i <-> is_free T i.
Proof. intros H. destruct (H i) as [sz E]. unfold is_free. by rewrite E. Qed.

Lemma resized_phys T T' i : resized T T' -> physical_addr (T' i) = physical_addr (T i).
Proof. intros H. destruct (H i) as [sz E]. by rewrite E. Qed.

Lemma count_free_ok s n : forall i,
  0 <= i -> i + Z.of_nat n <= max_pageframe s ->
  count_free n (i * PAGE_SIZE) s =
  Some (Z.of_nat (length (filter (is_free (pageframe_table s)) (seqZ i (Z.of_nat n))))).
Proof.
  induction n as [|n IH]; intros i H0 Hm; [done|]. cbn [count_free].
  rewrite Z.div_mul by done. rewrite pageframe_ok by lia. cbn [mbind option_bind].
  replace (i * PAGE_SIZE + PAGE_SIZE) with ((i + 1) * PAGE_SIZE) by lia.
  rewrite IH by lia. cbn [mbind option_bind].
  rewrite (seqZ_cons' i (Z.of_nat (S n))) by lia.
  replace (Z.of_nat (S n) - 1) with (Z.of_nat n) by lia. rewrite filter_cons.
  destruct (decide (is_free _ i)) as [Hf|Hf].
  - rewrite bool_decide_true by done. cbn [length]. f_equal. lia.
  - by rewrite bool_decide_false.
Qed.

Lemma add_free_4k_ok n : forall i s,
  0 <= i -> i + Z.of_nat n <= max_pageframe s ->
  (forall j, i <= j -> j ∉ free_4k_pf_list s) ->
  exists T, add_free_4k n (i * PAGE_SIZE) s =
    Some (s <| pageframe_table := T |>
            <| free_4k_pf_list := free_4k_pf_list s ++
                 filter (is_free (pageframe_table s)) (seqZ i (Z.of_nat n)) |>) /\
    resized (pageframe_table s) T /\
    (forall j, ~ i <= j < i + Z.of_nat n -> T j = pageframe_table s j) /\
    (forall j, i <= j < i + Z.of_nat n -> is_free (pageframe_table s) j -> pf_size (T j) = PAGE_SIZE).
Proof.
  induction n as [|n IH]; intros i s H0 Hm Hout.
  { exists (pageframe_table s). split_and!; [|apply resized_refl|done|lia].
    simpl. rewrite app_nil_r. by destruct s. }
  cbn [add_free_4k]. rewrite Z.div_mul by done. rewrite pageframe_ok by lia. cbn [mbind option_bind].
  replace (i * PAGE_SIZE + PAGE_SIZE) with ((i + 1) * PAGE_SIZE) by lia.
  rewrite (seqZ_cons' i (Z.of_nat (S n))) by lia.
  replace (Z.of_nat (S n) - 1) with (Z.of_nat n) by lia. rewrite filter_cons.
  destruct (decide (is_free _ i)) as [Hf|Hf].
  - rewrite bool_decide_true by done. rewrite upd_pf_ok by lia. cbn [mbind option_bind].
    rewrite Seq.add_tail_fresh by (apply Hout; lia). cbn [mbind option_bind].
    match goal with |- context [add_free_4k n _ ?s] => set (s1 := s) end.
    assert (resized (pageframe_table s) (pageframe_table s1)) as R1 by apply resized_upd.
    destruct (IH (i + 1) s1) as (T & -> & R & Ho & Hi); [lia|cbn; lia|..].
    { intros j Hj. cbn. rewrite not_elem_of_app, list_elem_of_singleton. split; [apply Hout|]; lia. }
    exists T. split_and!.
    + unfold s1 at 1. cbn [free_4k_pf_list update_field]. rewrite <- (assoc_L (++)). simpl.
      do 3 f_equal. f_equal. f_equal. apply list_filter_iff. intros j. by apply resized_free.
    + by eapply resized_trans.
    + intros j Hj. rewrite Ho by lia. unfold s1. cbn. by rewrite store_ne by lia.
    + intros j Hj Hfj. destruct (decide (j = i)) as [-> |Hne].
      * rewrite Ho by lia. unfold s1. cbn. by rewrite store_eq.
      * apply Hi; [lia|]. by apply (resized_free _ _ _ R1).
  - rewrite bool_decide_false by done.
    destruct (IH (i + 1) s) as (T & -> & R & Ho & Hi); [lia|lia|intros j Hj; apply Hout; lia|].
    exists T. split_and!; [done|done|intros j Hj; apply Ho; lia|].
    intros j Hj Hfj. apply Hi; [|done]. destruct (decide (j = i)) as [-> |]; [done|lia].
Qed.

(** The free lists hold the free ones of the frames below [n]. *)
Record coalesced (n : Z) (s0 s : vm) : Prop := {
  co_table : resized (pageframe_table s0) (pageframe_table s);
  co_16k : free_16k_pf_list s = [];
  co_nodup : NoDup (free_frames s);
  co_frames i : i ∈ free_frames s <-> 0 <= i < n /\ is_free (pageframe_table s0) i;
  co_4k h : h ∈ free_4k_pf_list s -> pf_size (pageframe_table s h) = 4096;
  co_64k h : h ∈ free_64k_pf_list s ->
    pf_size (pageframe_table s h) = 65536 /\ h `mod` 16 = 0;
  co_kmem : kmem s = kmem s0;
  co_links : vpte_links s = vpte_links s0;
  co_frame : vm_frame s0 s
}.

Lemma coalesced_below n s0 s i : coalesced n s0 s -> n <= i -> i ∉ free_frames s.
Proof. intros C Hi Hin. apply (co_frames _ _ _ C) in Hin. lia. Qed.

Lemma filter_full {A} (P : A -> Prop) `{!forall x, Decision (P x)} (l : list A) :
  length (filter P l) = length l -> forall x, x ∈ l -> P x.
Proof.
  intros Hlen x Hx. apply dec_stable. intros Hn. pose proof (length_filter_lt P l x Hx Hn). lia.
Qed.

(** One slab: its free frames are added. *)
Section Slab.
Context (k : Z) (s0 s : vm).
Hypothesis C : coalesced (16 * k) s0 s.
Hypothesis Hk : 0 <= k.
Hypothesis Hm : 16 * (k + 1) <= max_pageframe s0.

Let ff := filter (is_free (pageframe_table s)) (seqZ (16 * k) 16).

Lemma slab_apart j : 16 * k <= j -> j ∉ free_frames s.
Proof using C. intros Hj. by apply (coalesced_below _ _ _ _ C). Qed.

Lemma slab_free_iff i : i ∈ ff <-> 16 * k <= i < 16 * k + 16 /\ is_free (pageframe_table s0) i.
Proof using C.
  unfold ff. rewrite list_elem_of_filter, elem_of_seqZ, (resized_free _ _ _ (co_table _ _ _ C)).
  naive_solver.
Qed.

Lemma slab_extend s' :
  free_frames s' ≡ₚ free_frames s ++ ff ->
  NoDup (free_frames s') /\
  forall i, i ∈ free_frames s' <-> 0 <= i < 16 * (k + 1) /\ is_free (pageframe_table s0) i.
Proof using C Hk.
  intros P. split.
  - rewrite P. apply NoDup_app. split_and!; [apply C| |apply NoDup_filter, NoDup_seqZ].
    intros x Hx Hff. apply slab_free_iff in Hff as [Hr _]. by apply (slab_apart x); [lia|].
  - intros i. rewrite P, elem_of_app, (co_frames _ _ _ C), slab_free_iff.
    split; [|intros [Hi Hf]]; [naive_solver lia|].
    destruct (decide (i < 16 * k)); [left|right]; split; done || lia.
Qed.

Lemma coalesce_whole :
  length ff = 16%nat ->
  exists s', (s ← upd_pf (16 * k) (fun pf => pf <| pf_size := 0x10000 |>) s;
              l ← Seq.add_tail (16 * k) (free_64k_pf_list s);
              Some (s <| free_64k_pf_list := l |>)) = Some s' /\
    coalesced (16 * (k + 1)) s0 s'.
Proof using C Hk Hm.
  intros Hlen. pose proof (co_frame _ _ _ C) as F. pose proof (vf_max _ _ F) as Em.
  assert (ff = seqZ (16 * k) 16) as Eall.
  { apply filter_all, (filter_full (is_free (pageframe_table s))). fold ff. by rewrite Hlen, length_seqZ. }
  rewrite upd_pf_ok by lia. cbn [mbind option_bind].
  rewrite Seq.add_tail_fresh by (intros Hin; apply (slab_apart (16 * k)); [lia|by apply free_frames_64k]).
  cbn [mbind option_bind]. eexists. split; [done|].
  match goal with |- coalesced _ _ ?x => set (s' := x) end.
  assert (free_frames s' ≡ₚ free_frames s ++ ff) as P.
  { change (free_frames s') with (free_4k_pf_list s ++ blocks 4 (free_16k_pf_list s) ++
      blocks 16 (free_64k_pf_list s ++ [16 * k])). rewrite blocks_app, Eall.
    change (blocks 16 [16 * k]) with (seqZ (16 * k) 16 ++ []). rewrite app_nil_r.
    unfold free_frames. solve_Permutation. }
  destruct (slab_extend s' P) as [Hn1 Hn2].
  assert (forall j, j ∈ free_frames s -> pageframe_table s' j = pageframe_table s j) as Hne.
  { intros j Hj. unfold s'. cbn. rewrite store_ne; [done|]. intros <-. by apply (slab_apart (16 * k)). }
  split; try apply C; try done.
  - eapply resized_trans; [apply C|]. apply resized_upd.
  - intros h Hh. rewrite Hne by (by apply free_frames_4k). by apply (co_4k _ _ _ C).
  - intros h [Hh| ->%list_elem_of_singleton]%elem_of_app.
    + rewrite Hne by (by apply free_frames_64k). by apply (co_64k _ _ _ C).
    + unfold s'. cbn. rewrite store_eq. split; [done|]. rewrite Z.mul_comm. by apply Z.mod_mul.
  - split; apply F.
Qed.

Lemma coalesce_parts :
  exists s', add_free_4k 16 (16 * k * PAGE_SIZE) s = Some s' /\ coalesced (16 * (k + 1)) s0 s'.
Proof using C Hk Hm.
  pose proof (co_frame _ _ _ C) as F. pose proof (vf_max _ _ F) as Em.
  destruct (add_free_4k_ok 16 (16 * k) s) as (T & -> & R & Ho & Hi); [lia|lia|..].
  { intros j Hj Hin. apply (slab_apart j Hj). by apply free_frames_4k. }
  change (Z.of_nat 16) with 16 in *. fold ff. eexists. split; [done|].
  match goal with |- coalesced _ _ ?x => set (s' := x) end.
  assert (free_frames s' ≡ₚ free_frames s ++ ff) as P.
  { change (free_frames s') with ((free_4k_pf_list s ++ ff) ++ blocks 4 (free_16k_pf_list s) ++
      blocks 16 (free_64k_pf_list s)). unfold free_frames. solve_Permutation. }
  destruct (slab_extend s' P) as [Hn1 Hn2].
  assert (forall j, j ∈ free_frames s -> T j = pageframe_table s j) as Hne.
  { intros j Hj. apply Ho. intros Hr. by apply (slab_apart j); [lia|]. }
  split; try apply C; try done.
  - eapply resized_trans; [apply C|done].
  - intros h [Hh|Hh]%elem_of_app; change (pageframe_table s' h) with (T h).
    + rewrite Hne by (by apply free_frames_4k). by apply (co_4k _ _ _ C).
    + apply slab_free_iff in Hh as [Hr Hf]. apply Hi; [done|]. by apply (resized_free _ _ _ (co_table _ _ _ C)).
  - intros h Hh. change (pageframe_table s' h) with (T h).
    rewrite Hne by (by apply free_frames_64k). by apply (co_64k _ _ _ C).
  - split; apply F.
Qed.

Lemma coalesce_slab_ok :
  exists s', coalesce_slab_at (k * 0x10000) s = Some s' /\ coalesced (16 * (k + 1)) s0 s'.
Proof using C Hk Hm.
  pose proof (vf_max _ _ (co_frame _ _ _ C)) as Em. unfold coalesce_slab_at.
  replace (k * 0x10000) with (16 * k * PAGE_SIZE) by (unfold PAGE_SIZE; lia).
  rewrite count_free_ok by lia. cbn [mbind option_bind]. change (Z.of_nat 16) with 16. fold ff.
  case_bool_decide as Hfull; [|apply coalesce_parts]. rewrite Z.div_mul by done.
  apply coalesce_whole. unfold PAGE_SIZE in Hfull. lia.
Qed.
End Slab.

Lemma coalesce_loop_ok n : forall k s0 s,
  coalesced (16 * k) s0 s -> 0 <= k -> 16 * (k + Z.of_nat n) <= max_pageframe s0 ->
  exists s', coalesce_free_loop n (k * 0x10000) s = Some s' /\ coalesced (16 * (k + Z.of_nat n)) s0 s'.
Proof.
  induction n as [|n IH]; intros k s0 s C Hk Hm.
  - exists s. rewrite Z.add_0_r. done.
  - cbn [coalesce_free_loop]. destruct (coalesce_slab_ok k s0 s C) as (s1 & -> & C1); [lia|lia|].
    cbn [mbind option_bind]. replace (k * 0x10000 + 0x10000) with ((k + 1) * 0x10000) by lia.
    destruct (IH (k + 1) s0 s1 C1) as (s2 & -> & C2); [lia|lia|].
    exists s2. split; [done|]. by replace (k + Z.of_nat (S n)) with (k + 1 + Z.of_nat n) by lia.
Qed.

Lemma coalesce_free_ok s :
  0 <= max_pageframe s * PAGE_SIZE <= 2 ^ 31 -> 16 * (mem_size s `div` 0x10000) <= max_pageframe s ->
  0 <= mem_size s ->
  (forall i, 0 <= i < max_pageframe s -> physical_addr (pageframe_table s i) = i * PAGE_SIZE) ->
  exists s', coalesce_free_pageframes s = Some s' /\ alloc_inv s' /\
    resized (pageframe_table s) (pageframe_table s') /\ vm_frame s s' /\
    forall i, i ∈ free_frames s' <->
      0 <= i < 16 * (mem_size s `div` 0x10000) /\ pf_flags (pageframe_table s i) = 0.
Proof.
  intros Hmax Hmem H0 Hp. unfold coalesce_free_pageframes.
  pose proof (Z.div_pos (mem_size s) 0x10000 H0 ltac:(done)) as Hd.
  match goal with |- context [coalesce_free_loop _ _ ?x] => set (s1 := x) end.
  assert (coalesced (16 * 0) s s1) as C0.
  { split; try done; [apply resized_refl|apply NoDup_nil; done|..]; unfold s1; cbn;
      [|by intros ? ?%elem_of_nil..].
    intros i. rewrite elem_of_nil. lia. }
  destruct (coalesce_loop_ok (Z.to_nat (mem_size s `div` 0x10000)) 0 s s1 C0) as (s' & E & C); [lia|lia|].
  rewrite Z.add_0_l, Z2Nat.id in C by done. exists s'. split_and!; [exact E| |apply C|apply C|].
  - pose proof (vf_max _ _ (co_frame _ _ _ C)) as Em. split; rewrite ?Em; try done; try apply C.
    + intros i Hi. rewrite (resized_phys _ _ _ (co_table _ _ _ C)). by apply Hp.
    + intros i Hi%(co_frames _ _ _ C). lia.
    + intros i Hi%(co_frames _ _ _ C). destruct Hi as [_ Hi].
      by apply (resized_free _ _ _ (co_table _ _ _ C)).
    + intros h. rewrite (co_16k _ _ _ C). by intros ?%elem_of_nil.
  - apply (co_frames _ _ _ C).
Qed.

Lemma init_memory_map_loop_ok n : forall t s,
  0 <= t -> t + Z.of_nat n = max_pageframe s ->
  exists T, init_memory_map_loop n t s = Some (s <| pageframe_table := T |>) /\
    (forall i, i < t -> T i = pageframe_table s i) /\
    forall i, t <= i < max_pageframe s ->
      T i = mkPageframe PAGE_SIZE (i * PAGE_SIZE) 0 0 (Header None None).
Proof.
  induction n as [|n IH]; intros t s Ht Hn.
  - exists (pageframe_table s). split_and!; [by destruct s|done|lia].
  - cbn [init_memory_map_loop]. rewrite upd_pf_ok by lia. cbn [mbind option_bind].
    match goal with |- context [init_memory_map_loop n _ ?x] => set (s1 := x) end.
    destruct (IH (t + 1) s1) as (T & -> & Hb & Ha); [lia|cbn; lia|].
    exists T. split_and!; [done|..].
    + intros i Hi. rewrite Hb by lia. unfold s1. cbn. by rewrite store_ne by lia.
    + intros i Hi. destruct (decide (i = t)) as [-> |Hne].
      * rewrite Hb by lia. unfold s1. cbn. by rewrite store_eq.
      * apply Ha. cbn. lia.
Qed.

Lemma init_flags_loop_ok n flags : forall i s,
  0 <= i -> i + Z.of_nat n <= max_pageframe s ->
  exists T, init_flags_loop n (i * PAGE_SIZE) flags s = Some (s <| pageframe_table := T |>) /\
    forall j, T j = if bool_decide (i <= j < i + Z.of_nat n) then pageframe_table s j <| pf_flags := flags |>
                    else pageframe_table s j.
Proof.
  induction n as [|n IH]; intros i s Hi Hn.
  - exists (pageframe_table s). split; [by destruct s|]. intros j. by rewrite bool_decide_false by lia.
  - cbn [init_flags_loop]. rewrite Z.div_mul by done. rewrite upd_pf_ok by lia. cbn [mbind option_bind].
    replace (i * PAGE_SIZE + PAGE_SIZE) with ((i + 1) * PAGE_SIZE) by lia.
    match goal with |- context [init_flags_loop n _ _ ?x] => set (s1 := x) end.
    destruct (IH (i + 1) s1) as (T & -> & HT); [lia|cbn; lia|].
    exists T. split; [done|]. intros j. rewrite HT. unfold s1. cbn.
    destruct (decide (j = i)) as [-> |Hne].
    + rewrite store_eq. by rewrite bool_decide_false, bool_decide_true by lia.
    + rewrite store_ne by done. by repeat case_bool_decide; try lia.
Qed.

(** The frame [i] holds part of the range from [base] to [ceiling]. *)
Definition covers (base ceiling i : Z) : Prop := base < (i + 1) * PAGE_SIZE /\ i * PAGE_SIZE < ceiling.
#[export] Instance covers_dec base ceiling i : Decision (covers base ceiling i).
Proof. unfold covers. apply _. Defined.

Lemma init_flags_ok base ceiling flags s :
  0 <= max_pageframe s * PAGE_SIZE <= 2 ^ 31 ->
  0 <= base -> 0 <= ceiling <= max_pageframe s * PAGE_SIZE ->
  exists T, init_pageframe_flags base ceiling flags s = Some (s <| pageframe_table := T |>) /\
    forall j, T j = if bool_decide (covers base ceiling j)
                    then pageframe_table s j <| pf_flags := flags |> else pageframe_table s j.
Proof.
  intros Hm Hb Hc. unfold init_pageframe_flags, ALIGN_DOWN, ALIGN_UP.
  set (d := base `div` PAGE_SIZE). set (u := (ceiling + PAGE_SIZE - 1) `div` PAGE_SIZE).
  assert (PAGE_SIZE = 4096) as EP by done.
  pose proof (Z.div_mod base PAGE_SIZE ltac:(done)) as Eb. fold d in Eb.
  pose proof (Z.mod_pos_bound base PAGE_SIZE ltac:(done)) as Rb.
  pose proof (Z.div_mod (ceiling + PAGE_SIZE - 1) PAGE_SIZE ltac:(done)) as Ec. fold u in Ec.
  pose proof (Z.mod_pos_bound (ceiling + PAGE_SIZE - 1) PAGE_SIZE ltac:(done)) as Rc.
  rewrite (uwrap_small 32 (ceiling + PAGE_SIZE - 1)) by lia. fold u.
  rewrite uwrap_small by lia.
  replace (base - base `mod` PAGE_SIZE) with (d * PAGE_SIZE) by lia.
  replace (u * PAGE_SIZE - d * PAGE_SIZE) with ((u - d) * PAGE_SIZE) by lia. rewrite Z.div_mul by done.
  destruct (decide (d <= u)) as [Hdu|Hdu].
  - destruct (init_flags_loop_ok (Z.to_nat (u - d)) flags d s) as (T & -> & HT); [lia|lia|].
    exists T. split; [done|]. intros j. rewrite HT. rewrite Z2Nat.id by lia.
    apply bool_decide_ext_if || (unfold covers; repeat case_bool_decide; done || lia).
  - rewrite Z2Nat.inj_neg || replace (Z.to_nat (u - d)) with 0%nat by lia.
    exists (pageframe_table s). split; [by destruct s|]. intros j. rewrite bool_decide_false; [done|].
    unfold covers. lia.
Qed.

(** What a layout asks of the memory it is in. *)
Definition layout_ok (b : layout) (s : vm) : Prop :=
  mem_size s = max_pageframe s * PAGE_SIZE /\ BOOT_CEILING_ADDR <= mem_size s <= 2 ^ 31 /\
  Forall (fun x => 0 <= x <= mem_size s)
    [videocore_base b; videocore_ceiling b; stext b; ebss b; core_pagetable_base b;
     core_pagetable_ceiling b; heap_base b; heap_current b; ifs_exe_base b; ifs_image b].

(** The frame [i] holds memory that boot reserves before it frees the memory
    above the heap. *)
Definition reserved (b : layout) (i : Z) : Prop :=
  covers 0 BOOT_BASE_ADDR i \/ covers BOOT_BASE_ADDR BOOT_CEILING_ADDR i \/
  covers (videocore_base b) (videocore_ceiling b) i \/ covers (stext b) (ebss b) i \/
  covers (core_pagetable_base b) (core_pagetable_ceiling b) i \/
  covers (heap_base b) (heap_current b) i.

Lemma init_flags_upd base ceiling flags s T :
  0 <= max_pageframe s * PAGE_SIZE <= 2 ^ 31 ->
  0 <= base -> 0 <= ceiling <= max_pageframe s * PAGE_SIZE ->
  exists T', init_pageframe_flags base ceiling flags (s <| pageframe_table := T |>) =
      Some (s <| pageframe_table := T' |>) /\
    (forall j, physical_addr (T' j) = physical_addr (T j)) /\
    (forall j, reference_cnt (T' j) = reference_cnt (T j)) /\
    forall j, pf_flags (T' j) = if bool_decide (covers base ceiling j) then flags else pf_flags (T j).
Proof.
  intros Hm Hb Hc.
  destruct (init_flags_ok base ceiling flags (s <| pageframe_table := T |>)) as (T' & -> & HT);
    [done..|]. exists T'. split_and!; [done|..]; intros j; rewrite HT; by case_bool_decide.
Qed.

Lemma assert_refs_ok n : forall i s,
  0 <= i -> i + Z.of_nat n <= max_pageframe s ->
  (forall j, 0 <= j < max_pageframe s -> reference_cnt (pageframe_table s j) = 0) ->
  assert_refs n (i * PAGE_SIZE) s = Some ().
Proof.
  induction n as [|n IH]; intros i s Hi Hn H; [done|]. cbn [assert_refs].
  rewrite Z.div_mul by done. rewrite pageframe_ok by lia. cbn [mbind option_bind].
  rewrite H by lia. rewrite bool_decide_true by lia.
  replace (i * PAGE_SIZE + PAGE_SIZE) with ((i + 1) * PAGE_SIZE) by lia. apply IH; done || lia.
Qed.

Ltac init_flags :=
  match goal with
  | |- context [init_pageframe_flags ?b ?c ?f (?s <| pageframe_table := ?T |>)] =>
      let T' := fresh "T" in let HF := fresh "HF" in let HP := fresh "HP" in
      let HR := fresh "HR" in
      destruct (init_flags_upd b c f s T) as (T' & -> & HP & HR & HF);
        [done|lia|change (mem_size (s <| pageframe_table := T |>)) with (mem_size s); lia|
         cbn [mbind option_bind]]
  end.

Lemma if_nonzero (P : Prop) `{!Decision P} (f g : Z) :
  f <> 0 -> (if bool_decide P then f else g) = 0 <-> ~ P /\ g = 0.
Proof. intros Hf. case_bool_decide; naive_solver. Qed.

Lemma if_zero (P : Prop) `{!Decision P} (g : Z) :
  (if bool_decide P then 0 else g) = 0 <-> P \/ g = 0.
Proof. case_bool_decide; naive_solver. Qed.

Lemma init_vm_free b s :
  layout_ok b s ->
  exists s', init_vm b s = Some s' /\ alloc_inv s' /\ vm_frame s s' /\
    forall i, i ∈ free_frames s' <->
      0 <= i < 16 * (mem_size s `div` 0x10000) /\ ~ covers (ifs_image b) (mem_size s) i /\
      (covers (heap_current b) (ifs_exe_base b) i \/ ~ reserved b i).
Proof.
  intros (Em & Hm & Hl). rewrite !Forall_cons in Hl.
  destruct Hl as (? & ? & ? & ? & ? & ? & ? & ? & ? & ? & _).
  assert (PAGE_SIZE = 4096) as EP by done.
  assert (0 <= max_pageframe s * PAGE_SIZE <= 2 ^ 31) as Hm2 by (unfold BOOT_CEILING_ADDR in *; lia).
  unfold init_vm, init_memory_map, BOOT_BASE_ADDR, BOOT_CEILING_ADDR in *.
  destruct (init_memory_map_loop_ok (Z.to_nat (max_pageframe s)) 0 s) as (T0 & -> & _ & HT0); [lia|lia|].
  cbn [mbind option_bind].
  do 8 init_flags.
  rewrite (assert_refs_ok _ 0) by (try (intros j Hj; cbn [pageframe_table update_field];
      rewrite HR6, HR5, HR4, HR3, HR2, HR1, HR0, HR, HT0 by exact Hj; done);
    cbn [max_pageframe mem_size update_field]; rewrite ?Em, ?Z.div_mul by done; lia).
  cbn [mbind option_bind].
  pose proof (Z.mul_div_le (mem_size s) 0x10000 ltac:(done)) as Hdiv.
  destruct (coalesce_free_ok (s <| pageframe_table := T7 |>)) as (s' & -> & I & R & F & Hf);
    [done|change (16 * (mem_size s `div` 0x10000) <= max_pageframe s); lia|
     change (0 <= mem_size s); lia| |].
  { intros i Hi. cbn [pageframe_table update_field].
    rewrite HP6, HP5, HP4, HP3, HP2, HP1, HP0, HP, HT0 by done. done. }
  exists s'. split_and!; [done|done|split; apply F|]. intros i. rewrite Hf.
  cbn [pageframe_table mem_size update_field].
  rewrite HF6, HF5, HF4, HF3, HF2, HF1, HF0, HF.
  assert (0 <= i < 16 * (mem_size s `div` 65536) -> pf_flags (T0 i) = 0) as Hz
    by (intros Hi; rewrite HT0 by lia; done).
  rewrite if_nonzero, if_zero, !if_nonzero by done. unfold reserved, BOOT_BASE_ADDR, BOOT_CEILING_ADDR.
  tauto.
Qed.

(** C33. [alloc_pageframe], for a size it supports, answers a slab of that size
    that was free: the frames it takes and those still free are exactly those
    that were free, the slab is aligned, marked in use and zeroed, and no frame
    that was in use nor memory outside the slab changes.  It answers NULL only
    when neither the list for that size nor the 64k list has a slab. *)
Theorem alloc_pageframe_correct s n :
  alloc_inv s -> n = 1 \/ n = 4 \/ n = 16 ->
  (exists h s', alloc_pageframe (n * PAGE_SIZE) s = Some (Some h, s') /\
     allocated (n * PAGE_SIZE) n h s s') \/
  (alloc_pageframe (n * PAGE_SIZE) s = Some (None, s) /\
   own_list n s = [] /\ free_64k_pf_list s = []).
Proof. apply alloc_pageframe_ok. Qed.

(** [init_vm] leaves the allocator in its invariant, and the free frames are
    those of the whole 64k slabs of memory that are not reserved for the boot
    loader, the VideoCore, the kernel, its page tables or its heap, nor at or
    above the file system image; the memory between the heap and the image's
    executable is freed even where it was reserved. *)
Theorem init_vm_correct b s :
  layout_ok b s ->
  exists s', init_vm b s = Some s' /\ alloc_inv s' /\ vm_frame s s' /\
    forall i, i ∈ free_frames s' <->
      0 <= i < 16 * (mem_size s `div` 0x10000) /\ ~ covers (ifs_image b) (mem_size s) i /\
      (covers (heap_current b) (ifs_exe_base b) i \/ ~ reserved b i).
Proof. apply init_vm_free. Qed.

(** ** A machine with one megabyte *)

Definition blank_vm : vm :=
  mkVm (fun _ => 0) (fun _ => Link None None) (fun _ => mkPageframe 0 0 0 0 (Header None None))
    256 0x100000 [] [] [] 0 (fun _ => 0).

Definition small_layout : layout :=
  mkLayout 0xF0000 0x100000 0x10000 0x20000 0x20000 0x30000 0x30000 0x40000 0xE0000 0xE0000.

Lemma small_layout_ok : layout_ok small_layout blank_vm.
Proof.
  unfold layout_ok, small_layout, blank_vm, BOOT_CEILING_ADDR, PAGE_SIZE. cbn.
  rewrite !Forall_cons. split_and!; try lia. done.
Qed.

Lemma init_vm_correct_witness :
  exists s', init_vm small_layout blank_vm = Some s' /\ alloc_inv s' /\ 0x40 ∈ free_frames s'.
Proof.
  destruct (init_vm_correct small_layout blank_vm small_layout_ok) as (s' & E & I & _ & H).
  exists s'. split; [exact E|]. split; [exact I|]. apply H. vm_compute. intuition congruence.
Defined.

Lemma booted_inv : match init_vm small_layout blank_vm with Some s => alloc_inv s | None => False end.
Proof. destruct (init_vm_free small_layout blank_vm small_layout_ok) as (s' & -> & I & _). done. Qed.

Definition booted : vm := default blank_vm (init_vm small_layout blank_vm).

Lemma alloc_pageframe_correct_witness :
  alloc_inv booted /\
  exists s', alloc_pageframe (4 * PAGE_SIZE) booted = Some (Some 0x40, s') /\
    allocated (4 * PAGE_SIZE) 4 0x40 booted s'.
Proof.
  assert (alloc_inv booted) as I.
  { pose proof booted_inv as H. unfold booted. destruct (init_vm small_layout blank_vm); [exact H|done]. }
  split; [exact I|].
  destruct (alloc_pageframe_correct booted 4 I ltac:(right; left; reflexivity)) as [(h & s' & E & A)|[E _]].
  - assert (fst <$> alloc_pageframe (4 * PAGE_SIZE) booted = Some (Some 0x40)) as E2
      by (vm_compute; reflexivity).
    rewrite E in E2. injection E2 as ->. exists s'. split; [exact E|exact A].
  - assert (fst <$> alloc_pageframe (4 * PAGE_SIZE) booted = Some (Some 0x40)) as E2
      by (vm_compute; reflexivity).
    rewrite E in E2. discriminate E2.
Defined.
