(* ===== verification/Pmap.v ===== *)
(** * Page tables

    The model of boards/raspberry_pi_4/pmap.c: ARM page directories of 4096
    entries and coarse page tables of 256, each table in a page with a
    [PmapVPTE] (list links and flags) per entry after the hardware table.  An
    address space is named by the process slot it belongs to, and [l1_table]
    gives the address of its page directory.  Cache and TLB maintenance has no
    effect on the model.  [KernelPanic] and an access outside
    [pageframe_table] have no result. *)

From stdpp Require Import list_numbers.
From S2P Require Import Prelude Lists Page.
Import Lists.Intrusive.

Definition PROT_READ := 1.
Definition PROT_WRITE := 2.
Definition PROT_EXEC := 4.
Definition MEM_MASK := 0xF0000000.
Definition MEM_ALLOC := 0x20000000.
Definition MEM_PHYS := 0x30000000.
Definition MAP_COW := 0x04000000.
Definition MAP_USER := 0x08000000.

Definition VPAGETABLE_SZ := 4096.
Definition VPTE_TABLE_OFFS := 1024.
Definition PAGEDIR_SZ := 16384.
Definition N_PAGETABLE_PTE := 256.

Definition L1_ADDR_BITS := 0xFFF00000.
Definition L1_IDX_SHIFT := 20.
Definition L1_TYPE_INV := 0.
Definition L1_TYPE_C := 1.
Definition L1_TYPE_MASK := 3.
Definition L1_C_ADDR_MASK := 0xFFFFFC00.
Definition L2_ADDR_MASK := 0xFFFFF000.
Definition L2_ADDR_BITS := 0xFF000.
Definition L2_IDX_SHIFT := 12.
Definition L2_TYPE_MASK := 3.
Definition L2_TYPE_INV := 0.
Definition L2_TYPE_S := 2.
Definition L2_AP0 := 0x10.
Definition L2_AP1 := 0x20.
Definition L2_AP2 := 0x200.
Definition L2_AP_RWK := L2_AP0.
Definition L2_AP_RWKU := Z.lor L2_AP1 L2_AP0.
Definition L2_AP_RKU := Z.lor (Z.lor L2_AP2 L2_AP1) L2_AP0.

Definition pmap_calc_pa_bits (flags : Z) : Z :=
  if bool_decide (Z.land flags PROT_WRITE <> 0 /\ Z.land flags MAP_COW = 0)
  then Z.lor L2_TYPE_S L2_AP_RWKU else Z.lor L2_TYPE_S L2_AP_RKU.

Definition pde_idx (va : Z) : Z := Z.shiftr (Z.land va L1_ADDR_BITS) L1_IDX_SHIFT.
Definition pte_idx (va : Z) : Z := Z.shiftr (Z.land va L2_ADDR_BITS) L2_IDX_SHIFT.

(** Word access. *)
Definition st (a v : Z) (s : vm) : vm := s <| kmem := <[a := v]> (kmem s) |>.

(** [&l1_table[pde_idx]] of a page directory, [&pt[pte_idx]], the address of
    the [PmapVPTE] of an entry and of its flags. *)
Definition pde_at (pd va : Z) : Z := pd + 4 * pde_idx va.
Definition pte_at (pt va : Z) : Z := pt + 4 * pte_idx va.
Definition vpte_at (pt va : Z) : Z := pt + VPTE_TABLE_OFFS + 12 * pte_idx va.
Definition vpte_flags (vpte : Z) : Z := vpte + 8.

(** The page table of a page directory entry. *)
Definition pt_of (e : Z) : Z := pmap_pa_to_va (Z.land e L1_C_ADDR_MASK).

Definition pde_invalid (e : Z) : bool := bool_decide (Z.land e L1_TYPE_MASK = L1_TYPE_INV).
Definition pte_invalid (e : Z) : bool := bool_decide (Z.land e L2_TYPE_MASK = L2_TYPE_INV).

(** [LIST_ADD_HEAD] and [LIST_REM_ENTRY] on the [vpte_list] of a page frame. *)
Definition vpte_add_head (pf vpte : Z) (s : vm) : option vm :=
  p ← pageframe s pf;
  let r := LIST_ADD_HEAD vpte (Lists (vpte_list p) (vpte_links s)) in
  upd_pf pf (fun p => p <| vpte_list := hdr r |>) (s <| vpte_links := lnk r |>).

Definition vpte_rem_entry (pf vpte : Z) (s : vm) : option vm :=
  p ← pageframe s pf;
  let r := LIST_REM_ENTRY vpte (Lists (vpte_list p) (vpte_links s)) in
  upd_pf pf (fun p => p <| vpte_list := hdr r |>) (s <| vpte_links := lnk r |>).

(** [for (t = 0; t < n; t++) *(a + t) = v] *)
Fixpoint fill_words (n : nat) (a v : Z) (s : vm) : vm :=
  match n with O => s | S n => fill_words n (a + 4) v (st a v s) end.

(** [for (...) *(dst + t) = src[t]] *)
Fixpoint copy_words (n : nat) (dst src : Z) (s : vm) : vm :=
  match n with O => s | S n => copy_words n (dst + 4) (src + 4) (st dst (kmem s src) s) end.

(** The virtual address of the table, 0 for NULL. *)
Definition pmap_alloc_pagetable (s : vm) : option (Z * vm) :=
  '(r, s) ← alloc_pageframe VPAGETABLE_SZ s;
  match r with
  | None => Some (0, s)
  | Some i =>
      pf ← pageframe s i;
      let pt := pmap_pf_to_va pf in
      Some (pt, fill_words 256 pt L2_TYPE_INV (memset0 pt VPAGETABLE_SZ s))
  end.

Definition pmap_free_pagetable (pt : Z) (s : vm) : vm := free_pageframe (pmap_va_to_pf pt) s.

(** The table of [va] for [pmap_enter], allocated if there is none. *)
Definition enter_table (as_ va : Z) (s : vm) : option (option Z * vm) :=
  let l1 := pde_at (l1_table s as_) va in
  if pde_invalid (kmem s l1) then
    '(pt, s) ← pmap_alloc_pagetable s;
    if bool_decide (pt = 0) then Some (None, s)
    else Some (Some pt, st l1 (Z.lor (pmap_va_to_pa pt) L1_TYPE_C) s)
  else Some (Some (pt_of (kmem s l1)), s).

Definition pmap_enter (as_ va pa flags : Z) (s : vm) : option (Z * vm) :=
  if bool_decide (va = 0) then Some (- EFAULT, s)
  else
    '(r, s) ← enter_table as_ va s;
    match r with
    | None => Some (- ENOMEM, s)
    | Some pt =>
        if pte_invalid (kmem s (pte_at pt va)) then
          s ← (if bool_decide (Z.land flags MEM_MASK <> MEM_PHYS)
               then vpte_add_head (pa `div` PAGE_SIZE) (vpte_at pt va) s else Some s);
          let s := st (vpte_flags (vpte_at pt va)) flags s in
          let s := st (pte_at pt va) (Z.lor pa (pmap_calc_pa_bits flags)) s in
          s ← upd_pf (pmap_va_to_pf pt) (fun p => p <| reference_cnt := reference_cnt p + 1 |>) s;
          Some (0, s)
        else
          let s := pmap_free_pagetable pt s in
          Some (- EINVAL, st (pde_at (l1_table s as_) va) L1_TYPE_INV s)
    end.

Definition pmap_remove (as_ va : Z) (s : vm) : option (Z * vm) :=
  if bool_decide (va = 0) then Some (- EFAULT, s)
  else
    let l1 := pde_at (l1_table s as_) va in
    if pde_invalid (kmem s l1) then Some (- EINVAL, s)
    else
      let pt := pt_of (kmem s l1) in
      let pte := kmem s (pte_at pt va) in
      let current_paddr := Z.land pte L2_ADDR_MASK in
      let vpte := vpte_at pt va in
      if pte_invalid pte then Some (- EINVAL, s)
      else
        s ← (if bool_decide (Z.land (kmem s (vpte_flags vpte)) MEM_PHYS = 0)
             then vpte_rem_entry (pmap_pa_to_pf current_paddr) vpte s else Some s);
        let s := st (vpte_flags vpte) 0 s in
        let s := st (pte_at pt va) L2_TYPE_INV s in
        s ← upd_pf (pmap_va_to_pf pt) (fun p => p <| reference_cnt := reference_cnt p - 1 |>) s;
        ptpf ← pageframe s (pmap_va_to_pf pt);
        if bool_decide (reference_cnt ptpf = 0) then
          let s := pmap_free_pagetable pt s in
          Some (0, st l1 L1_TYPE_INV s)
        else Some (0, s).

Definition pmap_protect (as_ va flags : Z) (s : vm) : option (Z * vm) :=
  if bool_decide (va = 0) then Some (0, s)
  else
    let l1 := pde_at (l1_table s as_) va in
    if pde_invalid (kmem s l1) then None
    else
      let pt := pt_of (kmem s l1) in
      let pa := Z.land (kmem s (pte_at pt va)) L2_ADDR_MASK in
      if pte_invalid (kmem s (pte_at pt va)) then None
      else
        let s := st (vpte_flags (vpte_at pt va)) flags s in
        Some (0, st (pte_at pt va) (Z.lor pa (pmap_calc_pa_bits flags)) s).

(** The physical address and flags, or [None] for -1. *)
Definition pmap_extract (as_ va : Z) (s : vm) : option (Z * Z) :=
  let e := kmem s (pde_at (l1_table s as_) va) in
  if pde_invalid e then None
  else
    let pte := kmem s (pte_at (pt_of e) va) in
    if pte_invalid pte then None
    else Some (Z.land pte L2_ADDR_MASK, kmem s (vpte_flags (vpte_at (pt_of e) va))).

Definition pmap_is_pagetable_present (as_ addr : Z) (s : vm) : bool :=
  negb (pde_invalid (kmem s (pde_at (l1_table s as_) addr))).

Definition pmap_is_page_present (as_ addr : Z) (s : vm) : bool :=
  let e := kmem s (pde_at (l1_table s as_) addr) in
  if pde_invalid e then false else negb (pte_invalid (kmem s (pte_at (pt_of e) addr))).

Definition pmap_create (as_ : Z) (s : vm) : option (Z * vm) :=
  '(r, s) ← alloc_pageframe PAGEDIR_SZ s;
  match r with
  | None => Some (-1, s)
  | Some i =>
      pf ← pageframe s i;
      let pd := pmap_pf_to_va pf in
      let s := fill_words 2048 pd L1_TYPE_INV s in
      let s := copy_words 2048 (pd + 4 * 2048) (root_pagedir s + 4 * 2048) s in
      Some (0, s <| l1_table := <[as_ := pd]> (l1_table s) |>)
  end.

Definition pmap_destroy (as_ : Z) (s : vm) : vm :=
  free_pageframe (pmap_va_to_pf (l1_table s as_)) s.

Definition pmap_supports_cache_policy (flags : Z) : Z := 0.

(** ** The kernel's file cache area *)

Definition pmap_cache_enter (addr paddr : Z) (s : vm) : option (Z * vm) :=
  let pt := pt_of (kmem s (pde_at (root_pagedir s) addr)) in
  let vpte := vpte_at pt addr in
  let s := st (vpte_flags vpte) (Z.lor PROT_READ PROT_WRITE) s in
  s ← vpte_add_head (paddr `div` PAGE_SIZE) vpte s;
  Some (0, st (pte_at pt addr) (Z.lor paddr (Z.lor L2_TYPE_S L2_AP_RWK)) s).

Definition pmap_cache_remove (va : Z) (s : vm) : option (Z * vm) :=
  let pt := pt_of (kmem s (pde_at (root_pagedir s) va)) in
  let current_paddr := Z.land (kmem s (pte_at pt va)) L2_ADDR_MASK in
  let vpte := vpte_at pt va in
  s ← vpte_rem_entry (pmap_pa_to_pf current_paddr) vpte s;
  let s := st (vpte_flags vpte) 0 s in
  Some (0, st (pte_at pt va) L2_TYPE_INV s).

Definition pmap_cache_extract (va : Z) (s : vm) : Z :=
  Z.land (kmem s (pte_at (pt_of (kmem s (pde_at (root_pagedir s) va))) va)) L2_ADDR_MASK.

(** [pmap_interprocess_copy] is not supported. *)
Definition pmap_interprocess_copy (dst_as dst src_as src sz : Z) : Z := - ENOTSUP.

(** ** Entries *)

Lemma calc_pa_bits_range flags :
  pmap_calc_pa_bits flags = 0x32 \/ pmap_calc_pa_bits flags = 0x232.
Proof. unfold pmap_calc_pa_bits. case_bool_decide; [by left|by right]. Qed.

Lemma pde_idx_page v : 0 <= v < 2 ^ 20 -> pde_idx (v * PAGE_SIZE) = v `div` 256.
Proof.
  intros Hv. unfold pde_idx, L1_IDX_SHIFT, PAGE_SIZE.
  change L1_ADDR_BITS with (2 ^ 32 - 2 ^ 20). rewrite land_high by lia.
  rewrite Z.shiftr_div_pow2 by lia.
  pose proof (Z.div_mod (v * 4096) (2 ^ 20) ltac:(done)) as Hd.
  replace (v * 4096 - (v * 4096) `mod` 2 ^ 20) with ((v * 4096) `div` 2 ^ 20 * 2 ^ 20) by lia.
  rewrite Z.div_mul by done. change (2 ^ 20) with (256 * 4096). by rewrite Z.div_mul_cancel_r.
Qed.

Lemma pte_idx_page v : 0 <= v < 2 ^ 20 -> pte_idx (v * PAGE_SIZE) = v `mod` 256.
Proof.
  intros Hv. unfold pte_idx, L2_ADDR_BITS, L2_IDX_SHIFT, PAGE_SIZE.
  rewrite Z.shiftr_land. change (Z.shiftr 0xFF000 12) with (Z.ones 8).
  rewrite Z.shiftr_div_pow2, Z.land_ones by lia. change (2 ^ 12) with 4096.
  by rewrite Z.div_mul.
Qed.

Lemma page_mod f b n : 0 <= b < n -> n <= 4096 -> (n | 4096) -> (f * 4096 + b) `mod` n = b.
Proof.
  intros Hb Hn [q Hq]. rewrite Hq, (Z.mul_assoc f q n), Z.add_comm, Z.mod_add by lia.
  by apply Z.mod_small.
Qed.

(** A directory entry for the table in frame [f]. *)
Lemma pde_entry f :
  0 <= f -> (f + 1) * PAGE_SIZE <= 2 ^ 31 ->
  Z.lor (f * PAGE_SIZE) L1_TYPE_C = f * PAGE_SIZE + 1 /\
  pde_invalid (f * PAGE_SIZE + 1) = false /\ pt_of (f * PAGE_SIZE + 1) = 0x80000000 + f * PAGE_SIZE.
Proof.
  intros Hf Hm. unfold PAGE_SIZE in *. split_and!.
  - apply (lor_low 12); [done|lia|by apply Z.mod_mul|done].
  - unfold pde_invalid, L1_TYPE_MASK, L1_TYPE_INV. change 3 with (Z.ones 2).
    rewrite Z.land_ones by lia. rewrite (page_mod f 1 (2 ^ 2)); [done|lia|lia|by exists 1024].
  - unfold pt_of. change L1_C_ADDR_MASK with (2 ^ 32 - 2 ^ 10). rewrite land_high by lia.
    rewrite (page_mod f 1 (2 ^ 10)); [|lia|lia|by exists 4]. unfold pmap_pa_to_va.
    rewrite uwrap_small by lia. lia.
Qed.

(** A table entry for the page [p] with flags [flags]. *)
Lemma pte_entry p flags :
  0 <= p < 2 ^ 20 ->
  let e := Z.lor (p * PAGE_SIZE) (pmap_calc_pa_bits flags) in
  e <> 0 /\ pte_invalid e = false /\ Z.land e L2_ADDR_MASK = p * PAGE_SIZE.
Proof.
  intros Hp. unfold PAGE_SIZE. cbn zeta.
  assert (exists b, pmap_calc_pa_bits flags = b /\ (b = 0x32 \/ b = 0x232)) as (b & -> & Hb)
    by (destruct (calc_pa_bits_range flags) as [E|E]; eauto).
  rewrite (lor_low 12) by (done || lia || by apply Z.mod_mul). split_and!; [lia|..].
  - unfold pte_invalid, L2_TYPE_MASK, L2_TYPE_INV. change 3 with (Z.ones 2).
    rewrite Z.land_ones by lia. change (2 ^ 2) with 4.
    replace ((p * 4096 + b) `mod` 4) with 2; [done|].
    destruct Hb as [-> | ->];
      [replace (p * 4096 + 0x32) with (2 + (p * 1024 + 12) * 4) by lia
      |replace (p * 4096 + 0x232) with (2 + (p * 1024 + 140) * 4) by lia]; by rewrite Z.mod_add.
  - change L2_ADDR_MASK with (2 ^ 32 - 2 ^ 12). rewrite land_high by lia.
    rewrite (page_mod p b (2 ^ 12)); [lia|lia|lia|by exists 1].
Qed.

(** ** Ownership of page frames and the invariant of the page tables *)

(** What a page frame is used for. *)
Inductive role : Type :=
| Free
| Dir (as_ : Z)          (** part of the page directory of an address space *)
| Table (as_ i : Z)      (** the page table of a directory entry *)
| User                   (** a page mapped in address spaces *)
| Kernel.

#[export] Instance role_eq_dec : EqDecision role.
Proof. solve_decision. Defined.

(** The frames the virtual memory system may not write. *)
Definition data (r : role) : Prop := r = User \/ r = Kernel.

Definition fva (f : Z) : Z := 0x80000000 + f * PAGE_SIZE.
Definition frame_of (x : Z) : Z := (x - 0x80000000) `div` PAGE_SIZE.
Definition pde (s : vm) (a i : Z) : Z := kmem s (l1_table s a + 4 * i).
Definition pte_addr (f j : Z) : Z := fva f + 4 * j.
Definition vf_addr (f j : Z) : Z := fva f + 1032 + 12 * j.

Definition pte_ok (ow : Z -> role) (s : vm) (f j : Z) : Prop :=
  kmem s (pte_addr f j) = 0 \/
  exists p, 0 <= p < 2 ^ 20 /\
    kmem s (pte_addr f j) = Z.lor (p * PAGE_SIZE) (pmap_calc_pa_bits (kmem s (vf_addr f j))) /\
    (Z.land (kmem s (vf_addr f j)) MEM_MASK <> MEM_PHYS -> p < max_pageframe s /\ ow p = User).

Definition pte_count (s : vm) (f : Z) : Z :=
  Z.of_nat (length (filter (fun j => kmem s (pte_addr f j) <> 0) (seqZ 0 256))).

Record table_ok (ow : Z -> role) (s : vm) (f : Z) : Prop := {
  tb_range : 0 <= f < max_pageframe s;
  tb_pte j : 0 <= j < 256 -> pte_ok ow s f j;
  tb_cnt : reference_cnt (pageframe_table s f) = pte_count s f
}.

Record pmap_inv (A : list Z) (ow : Z -> role) (s : vm) : Prop := {
  iv_alloc : alloc_inv s;
  iv_free f : f ∈ free_frames s -> ow f = Free;
  iv_dir a : a ∈ A -> exists h, 0 <= h /\ h + 4 <= max_pageframe s /\ l1_table s a = fva h /\
    forall k, 0 <= k < 4 -> ow (h + k) = Dir a;
  iv_pde a i : a ∈ A -> 0 <= i < 2048 ->
    pde s a i = 0 \/ exists f, pde s a i = f * PAGE_SIZE + 1 /\ ow f = Table a i /\ table_ok ow s f
}.

(** The mapping of page [v] of an address space: the abstract view of the
    page tables. *)
Definition view (s : vm) (a v : Z) : option (Z * Z) := pmap_extract a (v * PAGE_SIZE) s.

(** The pages of user addresses. *)
Definition user_page (v : Z) : Prop := 0 <= v < 2 ^ 19.

Lemma frame_of_fva f o : 0 <= o < 4096 -> frame_of (fva f + o) = f.
Proof.
  intros Ho. unfold frame_of, fva, PAGE_SIZE.
  replace (0x80000000 + f * 4096 + o - 0x80000000) with (o + f * 4096) by lia.
  rewrite Z.div_add by done. rewrite Z.div_small by lia. lia.
Qed.

Lemma frame_pte f j : 0 <= j < 256 -> frame_of (pte_addr f j) = f.
Proof. intros Hj. apply frame_of_fva. lia. Qed.

Lemma frame_vf f j : 0 <= j < 256 -> frame_of (vf_addr f j) = f.
Proof. intros Hj. unfold vf_addr. rewrite <- Z.add_assoc. apply frame_of_fva. lia. Qed.

Section Inv.
Context {A : list Z} {ow : Z -> role} {s : vm}.
Hypothesis I : pmap_inv A ow s.

Lemma inv_frame_max f : 0 <= f < max_pageframe s -> (f + 1) * PAGE_SIZE <= 2 ^ 31.
Proof using I. intros Hf. pose proof (ai_max _ (iv_alloc _ _ _ I)). unfold PAGE_SIZE in *. lia. Qed.

(** The frame of a directory entry. *)
Lemma dir_frame a i : a ∈ A -> 0 <= i < 4096 -> ow (frame_of (l1_table s a + 4 * i)) = Dir a.
Proof using I.
  intros Ha Hi. destruct (iv_dir _ _ _ I a Ha) as (h & _ & _ & -> & Hk).
  replace (fva h + 4 * i) with (fva (h + (4 * i) `div` 4096) + (4 * i) `mod` 4096).
  - rewrite frame_of_fva by (apply Z.mod_pos_bound; lia). apply Hk.
    split; [apply Z.div_pos; lia|apply Z.div_lt_upper_bound; lia].
  - unfold fva, PAGE_SIZE. pose proof (Z.div_mod (4 * i) 4096 ltac:(done)). lia.
Qed.

Lemma view_None a v :
  user_page v -> pde s a (v `div` 256) = 0 -> view s a v = None.
Proof using Type.
  intros Hv He. unfold view, pmap_extract, pde_at. unfold user_page in Hv.
  rewrite pde_idx_page by lia. unfold pde in He. by rewrite He.
Qed.

Lemma view_Some a v f :
  user_page v -> pde s a (v `div` 256) = f * PAGE_SIZE + 1 -> table_ok ow s f ->
  view s a v = if bool_decide (kmem s (pte_addr f (v `mod` 256)) = 0) then None
               else Some (Z.land (kmem s (pte_addr f (v `mod` 256))) L2_ADDR_MASK,
                          kmem s (vf_addr f (v `mod` 256))).
Proof using I.
  intros Hv He T. unfold view, pmap_extract, pde_at, pte_at, vpte_at, vpte_flags.
  unfold user_page in Hv. rewrite pde_idx_page, pte_idx_page by lia. unfold pde in He. rewrite He.
  destruct (pde_entry f) as (_ & -> & ->); [apply T|apply inv_frame_max, T|].
  fold (fva f). fold (pte_addr f (v `mod` 256)).
  replace (fva f + VPTE_TABLE_OFFS + 12 * (v `mod` 256) + 8) with (vf_addr f (v `mod` 256))
    by (unfold vf_addr, VPTE_TABLE_OFFS; lia).
  destruct (tb_pte _ _ _ T (v `mod` 256)) as [E|(p & Hp & E & _)];
    [apply Z.mod_pos_bound; lia|by rewrite E|].
  destruct (pte_entry p (kmem s (vf_addr f (v `mod` 256))) Hp) as (H1 & H2 & _).
  rewrite <- E in H1, H2. rewrite H2. by rewrite bool_decide_false.
Qed.
End Inv.

(** ** Changes to the tables *)

(** The allocator's data is the same. *)
Record same_alloc (s s' : vm) : Prop := {
  sa_4k : free_4k_pf_list s' = free_4k_pf_list s;
  sa_16k : free_16k_pf_list s' = free_16k_pf_list s;
  sa_64k : free_64k_pf_list s' = free_64k_pf_list s;
  sa_max : max_pageframe s' = max_pageframe s;
  sa_l1 : l1_table s' = l1_table s;
  sa_root : root_pagedir s' = root_pagedir s;
  sa_pf g : pf_size (pageframe_table s' g) = pf_size (pageframe_table s g) /\
    physical_addr (pageframe_table s' g) = physical_addr (pageframe_table s g) /\
    pf_flags (pageframe_table s' g) = pf_flags (pageframe_table s g)
}.

Lemma same_alloc_refl s : same_alloc s s.
Proof. by split. Qed.

Lemma same_alloc_trans s1 s2 s3 : same_alloc s1 s2 -> same_alloc s2 s3 -> same_alloc s1 s3.
Proof.
  intros H1 H2. split; try (etrans; [apply H2|apply H1]).
  intros g. destruct (sa_pf _ _ H1 g) as (? & ? & ?), (sa_pf _ _ H2 g) as (? & ? & ?).
  split_and!; congruence.
Qed.

Lemma same_frames s s' : same_alloc s s' -> free_frames s' = free_frames s.
Proof. intros H. unfold free_frames. by rewrite (sa_4k _ _ H), (sa_16k _ _ H), (sa_64k _ _ H). Qed.

Lemma same_alloc_inv s s' : same_alloc s s' -> alloc_inv s -> alloc_inv s'.
Proof.
  intros H I. pose proof (same_frames _ _ H) as Ef. split; rewrite ?(sa_max _ _ H), ?Ef; try apply I.
  - intros i Hi. destruct (sa_pf _ _ H i) as (_ & -> & _). by apply I.
  - intros i Hi. destruct (sa_pf _ _ H i) as (_ & _ & ->). by apply I.
  - intros h. rewrite (sa_4k _ _ H). intros Hh. destruct (sa_pf _ _ H h) as (-> & _). by apply I.
  - intros h. rewrite (sa_16k _ _ H). intros Hh. destruct (sa_pf _ _ H h) as (-> & _). by apply I.
  - intros h. rewrite (sa_64k _ _ H). intros Hh. destruct (sa_pf _ _ H h) as (-> & _). by apply I.
Qed.

(** What every change to page tables keeps: the user pages, their contents and
    their reference counts. *)
Record keeps (ow : Z -> role) (s : vm) (ow' : Z -> role) (s' : vm) : Prop := {
  kp_role f : ow f <> Free -> ow' f = ow f;
  kp_ref f : ow f = User -> reference_cnt (pageframe_table s' f) = reference_cnt (pageframe_table s f);
  kp_mem x : data (ow (frame_of x)) -> kmem s' x = kmem s x;
  kp_max : max_pageframe s' = max_pageframe s;
  kp_l1 : l1_table s' = l1_table s;
  kp_root : root_pagedir s' = root_pagedir s
}.

Lemma keeps_refl ow s : keeps ow s ow s.
Proof. by split. Qed.

Lemma keeps_trans ow1 s1 ow2 s2 ow3 s3 :
  keeps ow1 s1 ow2 s2 -> keeps ow2 s2 ow3 s3 -> keeps ow1 s1 ow3 s3.
Proof.
  intros K1 K2. split; [| | |etrans; [apply K2|apply K1]..].
  - intros f Hf. rewrite (kp_role _ _ _ _ K2); rewrite (kp_role _ _ _ _ K1); done.
  - intros f Hf. rewrite (kp_ref _ _ _ _ K2); [by apply K1|]. by rewrite (kp_role _ _ _ _ K1), Hf by congruence.
  - intros x Hx. rewrite (kp_mem _ _ _ _ K2); [by apply K1|]. by rewrite (kp_role _ _ _ _ K1) by (destruct Hx; congruence).
Qed.

(** Only the frame [f] is written, and its reference count. *)
Record writes_frame (f : Z) (s s' : vm) : Prop := {
  wf_same : same_alloc s s';
  wf_kmem x : frame_of x <> f -> kmem s' x = kmem s x;
  wf_ref g : g <> f -> reference_cnt (pageframe_table s' g) = reference_cnt (pageframe_table s g)
}.

Lemma writes_keeps ow f s s' a i : ow f = Table a i -> writes_frame f s s' -> keeps ow s ow s'.
Proof.
  intros Hf W. split; try apply W; [done|..].
  - intros g Hg. apply W. intros ->. congruence.
  - intros x Hx. apply W. intros Hx'. destruct Hx; congruence.
Qed.

Lemma pte_ok_ext ow ow' s s' f j :
  kmem s' (pte_addr f j) = kmem s (pte_addr f j) -> kmem s' (vf_addr f j) = kmem s (vf_addr f j) ->
  max_pageframe s' = max_pageframe s -> (forall g, ow g = User -> ow' g = User) ->
  pte_ok ow s f j -> pte_ok ow' s' f j.
Proof.
  intros E1 E2 E3 Hu. unfold pte_ok. rewrite E1, E2, E3.
  intros [H|(p & Hp & H & Hm)]; [by left|]. right. exists p. naive_solver.
Qed.

Lemma pte_count_ext s s' f :
  (forall j, 0 <= j < 256 -> kmem s' (pte_addr f j) = kmem s (pte_addr f j)) ->
  pte_count s' f = pte_count s f.
Proof.
  intros H. unfold pte_count. do 2 f_equal. apply filter_ext_in.
  intros j Hj%elem_of_seqZ. by rewrite H by lia.
Qed.

Lemma pte_count_gain s s' f j :
  0 <= j < 256 -> kmem s (pte_addr f j) = 0 -> kmem s' (pte_addr f j) <> 0 ->
  (forall k, 0 <= k < 256 -> k <> j -> kmem s' (pte_addr f k) = kmem s (pte_addr f k)) ->
  pte_count s' f = pte_count s f + 1.
Proof.
  intros Hj E1 E2 H. unfold pte_count.
  rewrite (filter_gain (fun j => kmem s (pte_addr f j) <> 0) (fun j => kmem s' (pte_addr f j) <> 0)
    (seqZ 0 256) j); [lia|apply NoDup_seqZ|apply elem_of_seqZ; lia|naive_solver|done|].
  intros k Hk%elem_of_seqZ Hne. by rewrite H by lia.
Qed.

(** A valid table stays valid when its words and count do not change. *)
Lemma table_ok_ext ow ow' s s' f :
  (forall x, frame_of x = f -> kmem s' x = kmem s x) ->
  reference_cnt (pageframe_table s' f) = reference_cnt (pageframe_table s f) ->
  max_pageframe s' = max_pageframe s -> (forall g, ow g = User -> ow' g = User) ->
  table_ok ow s f -> table_ok ow' s' f.
Proof.
  intros Hk Hr Hm Hu [T1 T2 T3]. split.
  - by rewrite Hm.
  - intros j Hj. apply (pte_ok_ext ow ow' s s'); try done; [..|by apply T2]; apply Hk;
      [by apply frame_pte|by apply frame_vf].
  - rewrite Hr, T3. symmetry. apply pte_count_ext. intros j Hj. by apply Hk, frame_pte.
Qed.

Section Update.
Context {A : list Z} {ow : Z -> role} {s : vm}.
Hypothesis I : pmap_inv A ow s.

(** Views only depend on the directory and on the table. *)
Lemma view_ext ow' s' a v f :
  user_page v -> l1_table s' = l1_table s -> pmap_inv A ow' s' ->
  pde s' a (v `div` 256) = pde s a (v `div` 256) -> pde s a (v `div` 256) = f * PAGE_SIZE + 1 ->
  table_ok ow s f -> table_ok ow' s' f -> (forall x, frame_of x = f -> kmem s' x = kmem s x) ->
  view s' a v = view s a v.
Proof using I.
  intros Hv El I' E1 E2 T T' Hk. rewrite E2 in E1. rewrite (view_Some I a v f Hv E2 T).
  rewrite (view_Some I' a v f Hv E1 T').
  assert (0 <= v `mod` 256 < 256) by (apply Z.mod_pos_bound; lia).
  by rewrite !Hk by (by apply frame_pte || by apply frame_vf).
Qed.

(** Writing a table. *)
Lemma inv_write a i f s' :
  a ∈ A -> 0 <= i < 2048 -> pde s a i = f * PAGE_SIZE + 1 -> ow f = Table a i ->
  writes_frame f s s' -> table_ok ow s' f ->
  pmap_inv A ow s' /\
  forall a' v, a' ∈ A -> user_page v -> (a', v `div` 256) <> (a, i) -> view s' a' v = view s a' v.
Proof using I.
  intros Ha Hi Ef Of W T'. pose proof (wf_same _ _ _ W) as Sa.
  assert (forall a' i', a' ∈ A -> 0 <= i' < 2048 -> pde s' a' i' = pde s a' i') as Epde.
  { intros a' i' Ha' Hi'. unfold pde. rewrite (sa_l1 _ _ Sa). apply W.
    intros Hx. pose proof (dir_frame I a' i' Ha' ltac:(lia)) as Hd. rewrite Hx in Hd. congruence. }
  assert (forall g a' i', ow g = Table a' i' -> (a', i') <> (a, i) ->
    (forall x, frame_of x = g -> kmem s' x = kmem s x) /\ g <> f) as Hother.
  { intros g a' i' Og Hne. assert (g <> f) as Hgf by congruence. split; [|done].
    intros x <-. by apply W. }
  assert (pmap_inv A ow s') as I'.
  { split.
    - eapply same_alloc_inv; [done|apply I].
    - rewrite (same_frames _ _ Sa). apply I.
    - intros a' Ha'. rewrite (sa_max _ _ Sa), (sa_l1 _ _ Sa). by apply I.
    - intros a' i' Ha' Hi'. rewrite Epde by done.
      destruct (iv_pde _ _ _ I a' i' Ha' Hi') as [?|(g & Eg & Og & Tg)]; [by left|].
      right. exists g. split_and!; [done|done|].
      destruct (decide ((a', i') = (a, i))) as [Heq|Hne].
      + simplify_eq. rewrite Ef in Eg. assert (g = f) as -> by (unfold PAGE_SIZE in *; lia). done.
      + destruct (Hother g a' i' Og Hne) as [Hk Hgf].
        apply (table_ok_ext ow ow s s' g); [done|by apply W|apply Sa|done|done]. }
  split; [done|]. intros a' v Ha' Hv Hne.
  assert (0 <= v `div` 256 < 2048) as Hi'.
  { unfold user_page in Hv. split; [apply Z.div_pos; lia|apply Z.div_lt_upper_bound; lia]. }
  destruct (iv_pde _ _ _ I a' (v `div` 256) Ha' Hi') as [E|(g & Eg & Og & Tg)].
  - rewrite (view_None (s := s)) by done. apply view_None; [done|]. by rewrite Epde.
  - destruct (Hother g _ _ Og Hne) as [Hk Hgf].
    apply (view_ext ow s' a' v g); try done; [apply Sa|by apply Epde|].
    apply (table_ok_ext ow ow s s' g); [done|by apply W|apply Sa|done|done].
Qed.

(** [s'] is [s] up to memory that is not in a directory or table in use. *)
Lemma inv_transfer ow' s' :
  alloc_inv s' -> (forall f, f ∈ free_frames s' -> ow' f = Free) ->
  (forall f, ow f <> Free -> ow' f = ow f) ->
  max_pageframe s' = max_pageframe s -> l1_table s' = l1_table s ->
  (forall a x, a ∈ A -> ow (frame_of x) = Dir a -> kmem s' x = kmem s x) ->
  (forall a i x, a ∈ A -> ow (frame_of x) = Table a i -> kmem s' x = kmem s x) ->
  (forall a i f, a ∈ A -> ow f = Table a i ->
     reference_cnt (pageframe_table s' f) = reference_cnt (pageframe_table s f)) ->
  pmap_inv A ow' s' /\ (forall a i, a ∈ A -> 0 <= i < 2048 -> pde s' a i = pde s a i) /\
  forall a v, a ∈ A -> user_page v -> view s' a v = view s a v.
Proof using I.
  intros Hal Hfr Hro Hmx Hl1 Hd Ht Hr.
  assert (forall a i, a ∈ A -> 0 <= i < 2048 -> pde s' a i = pde s a i) as Epde.
  { intros a i Ha Hi. unfold pde. rewrite Hl1. apply (Hd a _ Ha).
    apply (dir_frame I); done || lia. }
  assert (forall g, ow g = User -> ow' g = User) as Hu.
  { intros g Hg. rewrite Hro; congruence. }
  assert (forall a i f, a ∈ A -> ow f = Table a i -> table_ok ow s f -> table_ok ow' s' f) as Htab.
  { intros a i f Ha Of T. apply (table_ok_ext ow ow' s s' f); [|by eapply Hr|done|done|done].
    intros x Hx. apply (Ht a i _ Ha). by rewrite Hx. }
  assert (pmap_inv A ow' s') as I'.
  { split; [done|done|..].
    - intros a Ha. destruct (iv_dir _ _ _ I a Ha) as (h & H0 & H1 & H2 & H3). exists h.
      rewrite Hmx, Hl1. split_and!; try done.
      intros k Hk. rewrite Hro; rewrite H3 by done; done.
    - intros a i Ha Hi. rewrite Epde by done.
      destruct (iv_pde _ _ _ I a i Ha Hi) as [?|(f & Ef & Of & T)]; [by left|]. right. exists f.
      split_and!; [done|by rewrite Hro, Of by congruence|by eapply Htab]. }
  split_and!; [done|done|]. intros a v Ha Hv.
  assert (0 <= v `div` 256 < 2048) as Hi.
  { unfold user_page in Hv. split; [apply Z.div_pos; lia|apply Z.div_lt_upper_bound; lia]. }
  destruct (iv_pde _ _ _ I a (v `div` 256) Ha Hi) as [E|(f & Ef & Of & T)].
  - rewrite (view_None (s := s)) by done. apply view_None; [done|]. by rewrite Epde.
  - apply (view_ext ow' s' a v f); try done; [by apply Epde|by eapply Htab|].
    intros x Hx. apply (Ht a (v `div` 256) _ Ha). by rewrite Hx.
Qed.

(** The frames [h] to [h + n - 1] get a role. *)
Definition claim (h n : Z) (r : role) : Z -> role :=
  fun f => if bool_decide (h <= f < h + n) then r else ow f.

Lemma frame_of_block h n x : fva h <= x < fva (h + n) <-> h <= frame_of x < h + n.
Proof using Type.
  unfold fva, frame_of. set (y := x - 0x80000000).
  pose proof (Z.div_mod y PAGE_SIZE ltac:(done)). pose proof (Z.mod_pos_bound y PAGE_SIZE ltac:(done)).
  unfold PAGE_SIZE in *. subst y. lia.
Qed.

(** Memory taken from the allocator, zeroed and perhaps written since. *)
Lemma inv_claim size n h r s1 s2 :
  allocated size n h s s1 -> 0 < n -> same_alloc s1 s2 ->
  (forall x, ~ h <= frame_of x < h + n -> kmem s2 x = kmem s1 x) ->
  (forall g, ~ h <= g < h + n ->
     reference_cnt (pageframe_table s2 g) = reference_cnt (pageframe_table s1 g)) ->
  pmap_inv A (claim h n r) s2 /\ keeps ow s (claim h n r) s2 /\
  (forall a i, a ∈ A -> 0 <= i < 2048 -> pde s2 a i = pde s a i) /\
  forall a v, a ∈ A -> user_page v -> view s2 a v = view s a v.
Proof using I.
  intros Al Hn Sa Hk Hr. pose proof (al_frame _ _ _ _ _ Al) as F.
  assert (forall f, h <= f < h + n -> ow f = Free) as Hfree.
  { intros f Hf. apply (iv_free _ _ _ I). rewrite (al_frames _ _ _ _ _ Al). apply elem_of_app. left.
    by apply elem_of_seqZ. }
  assert (forall x, ow (frame_of x) <> Free -> kmem s2 x = kmem s x) as Hmem.
  { intros x Hx. assert (~ h <= frame_of x < h + n) as Hout by naive_solver.
    rewrite Hk by done. rewrite (al_kmem _ _ _ _ _ Al). rewrite bool_decide_false; [done|].
    intros Hb. by apply Hout, frame_of_block. }
  assert (forall g, ow g <> Free ->
    reference_cnt (pageframe_table s2 g) = reference_cnt (pageframe_table s g)) as Href.
  { intros g Hg. rewrite Hr by naive_solver. rewrite (al_table _ _ _ _ _ Al); [done|].
    intros Hf. by apply Hg, I. }
  assert (keeps ow s (claim h n r) s2) as K.
  { split.
    - intros f Hf. unfold claim. rewrite bool_decide_false; [done|]. naive_solver.
    - intros f Hf. apply Href. congruence.
    - intros x Hx. apply Hmem. destruct Hx; congruence.
    - rewrite (sa_max _ _ Sa). apply F.
    - rewrite (sa_l1 _ _ Sa). apply F.
    - rewrite (sa_root _ _ Sa). apply F. }
  destruct (inv_transfer (claim h n r) s2) as (I2 & E2 & V2); try done; try apply K.
  - apply (same_alloc_inv s1 s2 Sa), Al.
  - rewrite (same_frames _ _ Sa). intros f Hf. unfold claim. rewrite bool_decide_false.
    + apply I. rewrite (al_frames _ _ _ _ _ Al). apply elem_of_app. by right.
    + intros Hb. pose proof (ai_nodup _ (iv_alloc _ _ _ I)) as Hnd.
      rewrite (al_frames _ _ _ _ _ Al) in Hnd. apply NoDup_app in Hnd as (_ & Hd & _).
      apply (Hd f); [by apply elem_of_seqZ|done].
  - intros a x Ha Hx. apply Hmem. congruence.
  - intros a i x Ha Hx. apply Hmem. congruence.
  - intros a i f Ha Hf. apply Href. congruence.
Qed.

(** A directory entry changes: to invalid, or from invalid to a new table. *)
Lemma pde_st a i e a' i' :
  a ∈ A -> a' ∈ A -> 0 <= i < 4096 -> 0 <= i' < 4096 ->
  pde (st (l1_table s a + 4 * i) e s) a' i' = if bool_decide ((a', i') = (a, i)) then e else pde s a' i'.
Proof using I.
  intros Ha Ha' Hi Hi'. unfold pde, st. cbn [kmem l1_table update_field].
  case_bool_decide as Heq; [simplify_eq; by rewrite store_eq|]. rewrite store_ne; [done|].
  intros Hx. destruct (decide (a = a')) as [<-|Hne].
  - apply Heq. f_equal. lia.
  - pose proof (dir_frame I a i Ha Hi) as H1. pose proof (dir_frame I a' i' Ha' Hi') as H2.
    rewrite Hx in H1. congruence.
Qed.

Lemma st_same x e : same_alloc s (st x e s).
Proof using Type. by split. Qed.

Lemma inv_pde a i e :
  a ∈ A -> 0 <= i < 2048 ->
  e = 0 \/ (exists f, e = f * PAGE_SIZE + 1 /\ ow f = Table a i /\ table_ok ow s f) ->
  let s' := st (l1_table s a + 4 * i) e s in
  pmap_inv A ow s' /\ keeps ow s ow s' /\
  (forall f b k, ow f = Table b k -> table_ok ow s f -> table_ok ow s' f) /\
  forall a' v, a' ∈ A -> user_page v -> (a', v `div` 256) <> (a, i) -> view s' a' v = view s a' v.
Proof using I.
  intros Ha Hi He s'. pose proof (dir_frame I a i Ha ltac:(lia)) as Hd.
  assert (forall x, ow (frame_of x) <> Dir a -> kmem s' x = kmem s x) as Hk.
  { intros x Hx. unfold s', st. cbn. rewrite store_ne; [done|]. intros <-. by rewrite Hd in Hx. }
  assert (forall f b k, ow f = Table b k -> table_ok ow s f -> table_ok ow s' f) as Htab.
  { intros f b k Of T. apply (table_ok_ext ow ow s s' f); try done. intros x Hx. apply Hk.
    rewrite Hx. congruence. }
  assert (pmap_inv A ow s') as I'.
  { split; [exact (same_alloc_inv _ _ (st_same _ _) (iv_alloc _ _ _ I))|exact (iv_free _ _ _ I)|exact (iv_dir _ _ _ I)|].
    intros b k Hb Hk'. unfold s'. rewrite pde_st by (done || lia). fold s'.
    case_bool_decide as Heq; simplify_eq.
    - destruct He as [-> |(f & -> & Of & T)]; [by left|]. right. exists f. split_and!; [done|done|].
      by eapply Htab.
    - destruct (iv_pde _ _ _ I b k Hb Hk') as [?|(f & Ef & Of & T)]; [by left|]. right. exists f.
      split_and!; [done|done|by eapply Htab]. }
  split_and!; [done| |done|].
  - split; try done. intros x Hx. apply Hk. destruct Hx; congruence.
  - intros a' v Ha' Hv Hne. assert (0 <= v `div` 256 < 2048) as Hi'.
    { unfold user_page in Hv. split; [apply Z.div_pos; lia|apply Z.div_lt_upper_bound; lia]. }
    assert (pde s' a' (v `div` 256) = pde s a' (v `div` 256)) as Ep.
    { unfold s'. rewrite pde_st by (done || lia). by rewrite bool_decide_false. }
    destruct (iv_pde _ _ _ I a' (v `div` 256) Ha' Hi') as [E|(f & Ef & Of & T)].
    + rewrite (view_None (s := s)) by done. apply view_None; [done|congruence].
    + apply (view_ext ow s' a' v f); try done; [by eapply Htab|].
      intros x Hx. apply Hk. rewrite Hx. congruence.
Qed.
End Update.

(** ** The operations *)

Lemma fill_words_ok n v : forall a s,
  exists K, fill_words n a v s = s <| kmem := K |> /\
    forall x, (a <= x < a + 4 * Z.of_nat n /\ K x = v) \/ K x = kmem s x.
Proof.
  induction n as [|n IH]; intros a s.
  - exists (kmem s). split; [by destruct s|]. by right.
  - cbn [fill_words]. destruct (IH (a + 4) (st a v s)) as (K & -> & HK). exists K. split; [done|].
    intros x. destruct (HK x) as [[Hx E]|E]; [left; split; [lia|done]|].
    destruct (decide (x = a)) as [-> |Hne].
    + left. split; [lia|]. rewrite E. unfold st. cbn. by rewrite store_eq.
    + right. rewrite E. unfold st. cbn. by rewrite store_ne.
Qed.

Lemma va_to_pf_fva f : 0 <= f -> (f + 1) * PAGE_SIZE <= 2 ^ 31 -> pmap_va_to_pf (fva f) = f.
Proof.
  intros Hf Hm. unfold pmap_va_to_pf, pmap_va_to_pa, fva, PAGE_SIZE in *.
  rewrite uwrap_small by lia. replace (0x80000000 + f * 4096 - 0x80000000) with (f * 4096) by lia.
  by rewrite Z.div_mul.
Qed.

Lemma va_to_pa_fva f : 0 <= f -> (f + 1) * PAGE_SIZE <= 2 ^ 31 -> pmap_va_to_pa (fva f) = f * PAGE_SIZE.
Proof.
  intros Hf Hm. unfold pmap_va_to_pa, fva, PAGE_SIZE in *. rewrite uwrap_small by lia. lia.
Qed.

Lemma frame_of_iff f x : frame_of x = f <-> fva f <= x < fva f + PAGE_SIZE.
Proof.
  pose proof (frame_of_block f 1 x) as H. unfold fva in *.
  replace ((f + 1) * PAGE_SIZE) with (f * PAGE_SIZE + PAGE_SIZE) in H by lia. lia.
Qed.

(** A page table in the fresh frame [f], not yet entered in a directory. *)
Record fresh_table (A : list Z) (ow : Z -> role) (s : vm) (f : Z) (r : role) (s' : vm) : Prop := {
  ft_range : 0 <= f < max_pageframe s';
  ft_free : ow f = Free;
  ft_inv : pmap_inv A (claim (ow := ow) f 1 r) s';
  ft_keeps : keeps ow s (claim (ow := ow) f 1 r) s';
  ft_pde a i : a ∈ A -> 0 <= i < 2048 -> pde s' a i = pde s a i;
  ft_view a v : a ∈ A -> user_page v -> view s' a v = view s a v;
  ft_zero x : frame_of x = f -> kmem s' x = 0;
  ft_ref : reference_cnt (pageframe_table s' f) = 0
}.

Lemma fresh_frame A ow s f s1 :
  pmap_inv A ow s -> allocated PAGE_SIZE 1 f s s1 ->
  0 <= f < max_pageframe s1 /\ ow f = Free /\
  (forall x, frame_of x = f -> kmem s1 x = 0) /\ reference_cnt (pageframe_table s1 f) = 0.
Proof.
  intros I Al. assert (f ∈ free_frames s) as Hf.
  { rewrite (al_frames _ _ _ _ _ Al). apply elem_of_app. left. apply elem_of_seqZ. lia. }
  split; [|split; [|split]].
  - rewrite (vf_max _ _ (al_frame _ _ _ _ _ Al)). by apply (ai_range _ (iv_alloc _ _ _ I)).
  - by apply (iv_free _ _ _ I).
  - intros x Hx%frame_of_iff. rewrite (al_kmem _ _ _ _ _ Al). rewrite bool_decide_true; [done|].
    unfold fva, PAGE_SIZE in *. lia.
  - by rewrite (al_pf _ _ _ _ _ Al).
Qed.

Lemma alloc_pagetable_ok A ow s r :
  pmap_inv A ow s ->
  (exists f s', pmap_alloc_pagetable s = Some (fva f, s') /\ fresh_table A ow s f r s') \/
  (pmap_alloc_pagetable s = Some (0, s) /\ free_4k_pf_list s = [] /\ free_64k_pf_list s = []).
Proof.
  intros I. unfold pmap_alloc_pagetable. change VPAGETABLE_SZ with (1 * PAGE_SIZE).
  destruct (alloc_pageframe_ok s 1 (iv_alloc _ _ _ I)) as [(f & s1 & -> & Al)|(-> & H4 & H64)];
    [by left|left|right; done].
  cbn [mbind option_bind]. change (1 * PAGE_SIZE) with PAGE_SIZE in *.
  destruct (fresh_frame A ow s f s1 I Al) as (Hr & Hfree & Hz & Href).
  rewrite pageframe_ok by done. cbn [mbind option_bind]. rewrite (al_pf _ _ _ _ _ Al).
  pose proof (al_inv _ _ _ _ _ Al) as I1.
  assert ((f + 1) * PAGE_SIZE <= 2 ^ 31) as Hm by (pose proof (ai_max _ I1); unfold PAGE_SIZE in *; lia).
  assert (pmap_pf_to_va (mkPageframe PAGE_SIZE (f * PAGE_SIZE) 0 PGF_INUSE (Header None None)) = fva f) as ->.
  { unfold pmap_pf_to_va. cbn. rewrite pa_to_va_ok by (unfold PAGE_SIZE in *; lia). unfold fva. lia. }
  destruct (fill_words_ok 256 L2_TYPE_INV (fva f) (memset0 (fva f) PAGE_SIZE s1)) as (K & -> & HK).
  assert (forall x, frame_of x = f -> K x = 0) as Kz.
  { intros x Hx. destruct (HK x) as [[_ ->]| ->]; [done|]. cbn. by rewrite Hz by done; case_bool_decide. }
  assert (forall x, frame_of x <> f -> K x = kmem s1 x) as Ko.
  { intros x Hx. destruct (HK x) as [[Hb _]| ->].
    - exfalso. apply Hx, frame_of_iff. unfold PAGE_SIZE. lia.
    - cbn. rewrite bool_decide_false; [done|]. intros Hb. by apply Hx, frame_of_iff. }
  exists f. eexists. split; [done|].
  match goal with |- fresh_table _ _ _ _ _ ?x => set (s2 := x) end.
  destruct (inv_claim I PAGE_SIZE 1 f r s1 s2 Al) as (I2 & K2 & P2 & V2); [lia|by split|..].
  { intros x Hx. apply Ko. lia. }
  { done. }
  by split.
Qed.

Lemma page_idx v : user_page v -> 0 <= v `div` 256 < 2048 /\ 0 <= v `mod` 256 < 256.
Proof.
  unfold user_page. intros Hv. split; [|apply Z.mod_pos_bound; lia].
  split; [apply Z.div_pos; lia|apply Z.div_lt_upper_bound; lia].
Qed.

(** Pages of one table with the same entry are the same page. *)
Lemma page_eq v v' : v `div` 256 = v' `div` 256 -> v `mod` 256 = v' `mod` 256 -> v = v'.
Proof.
  intros H1 H2. rewrite (Z.div_mod v 256), (Z.div_mod v' 256) by done. congruence.
Qed.

(** All entries of the table in [f] are invalid. *)
Lemma empty_table ow s f :
  0 <= f < max_pageframe s -> reference_cnt (pageframe_table s f) = 0 ->
  (forall j, 0 <= j < 256 -> kmem s (pte_addr f j) = 0) -> table_ok ow s f.
Proof.
  intros Hr Hc Hz. split; [done|intros j Hj; left; by apply Hz|].
  rewrite Hc. unfold pte_count. replace (filter _ _) with (@nil Z); [done|]. symmetry.
  apply elem_of_nil_inv. intros j [Hj Hin%elem_of_seqZ]%list_elem_of_filter. apply Hj, Hz. lia.
Qed.

Section Ops.
Context {A : list Z} {ow : Z -> role} {s : vm}.
Hypothesis I : pmap_inv A ow s.

Lemma max_bound : max_pageframe s * PAGE_SIZE <= 2 ^ 31.
Proof using I. apply (ai_max _ (iv_alloc _ _ _ I)). Qed.

(** The table that [enter_table] answers. *)
Record entered_table (a i f : Z) (ow' : Z -> role) (s' : vm) : Prop := {
  et_inv : pmap_inv A ow' s';
  et_keeps : keeps ow s ow' s';
  et_pde : pde s' a i = f * PAGE_SIZE + 1;
  et_role : ow' f = Table a i;
  et_table : table_ok ow' s' f;
  et_users g : ow' g = User -> ow g = User;
  et_view a' v : a' ∈ A -> user_page v -> view s' a' v = view s a' v
}.

Lemma pde_at_page a v : user_page v -> pde_at (l1_table s a) (v * PAGE_SIZE) = l1_table s a + 4 * (v `div` 256).
Proof using Type. intros Hv. unfold user_page in Hv. unfold pde_at. by rewrite pde_idx_page by lia. Qed.

Lemma enter_table_new a i f s1 :
  a ∈ A -> 0 <= i < 2048 -> pde s a i = 0 -> fresh_table A ow s f (Table a i) s1 ->
  entered_table a i f (claim (ow := ow) f 1 (Table a i)) (st (l1_table s1 a + 4 * i) (f * PAGE_SIZE + 1) s1).
Proof using I.
  intros Ha Hi E0 Ft. pose proof (ft_inv _ _ _ _ _ _ Ft) as I1.
  set (ow' := claim (ow := ow) f 1 (Table a i)) in *.
  assert (ow' f = Table a i) as Of by (unfold ow', claim; by rewrite bool_decide_true by lia).
  assert (table_ok ow' s1 f) as T1.
  { apply empty_table; [apply Ft|apply Ft|]. intros j Hj. apply (ft_zero _ _ _ _ _ _ Ft).
    by apply frame_pte. }
  destruct (inv_pde I1 a i (f * PAGE_SIZE + 1) Ha Hi) as (I2 & K2 & T2 & V2).
  { right. by exists f. }
  set (s2 := st _ _ s1) in *.
  assert (pde s2 a i = f * PAGE_SIZE + 1) as E2.
  { unfold s2. rewrite (pde_st I1) by (done || lia). by rewrite bool_decide_true. }
  assert (table_ok ow' s2 f) as T3 by (by eapply T2).
  split; try done.
  - eapply keeps_trans; [apply Ft|done].
  - intros g. unfold ow', claim. by case_bool_decide.
  - intros a' v Ha' Hv. destruct (decide ((a', v `div` 256) = (a, i))) as [Heq|Hne].
    + simplify_eq. rewrite (view_None (s := s)) by done.
      rewrite (view_Some I2 a v f Hv E2 T3). rewrite bool_decide_true; [done|].
      unfold s2, st. cbn. rewrite store_ne.
      * apply (ft_zero _ _ _ _ _ _ Ft), frame_pte, page_idx, Hv.
      * intros Hx. pose proof (dir_frame I1 a (v `div` 256) Ha ltac:(lia)) as Hd. rewrite Hx in Hd.
        rewrite frame_pte in Hd by (by apply page_idx). congruence.
    + rewrite V2 by done. by apply (ft_view _ _ _ _ _ _ Ft).
Qed.

Lemma enter_table_ok a v :
  a ∈ A -> user_page v ->
  (exists f ow' s', enter_table a (v * PAGE_SIZE) s = Some (Some (fva f), s') /\
     entered_table a (v `div` 256) f ow' s') \/
  (enter_table a (v * PAGE_SIZE) s = Some (None, s) /\
   free_4k_pf_list s = [] /\ free_64k_pf_list s = []).
Proof using I.
  intros Ha Hv. destruct (page_idx v Hv) as [Hi Hj]. unfold enter_table.
  rewrite pde_at_page by done. fold (pde s a (v `div` 256)).
  destruct (iv_pde _ _ _ I a (v `div` 256) Ha Hi) as [E|(f & E & Of & T)]; rewrite E.
  - change (pde_invalid 0) with true. cbv iota.
    destruct (alloc_pagetable_ok A ow s (Table a (v `div` 256)) I) as [(f & s1 & -> & Ft)|(-> & H4 & H64)];
      cbn [mbind option_bind]; [left|right].
    + pose proof (inv_frame_max (ft_inv _ _ _ _ _ _ Ft) f (ft_range _ _ _ _ _ _ Ft)) as Hm.
      pose proof (ft_range _ _ _ _ _ _ Ft) as Hr.
      rewrite bool_decide_false by (unfold fva, PAGE_SIZE; lia).
      rewrite va_to_pa_fva by (done || lia). destruct (pde_entry f) as (-> & _); [lia|done|].
      do 3 eexists. split; [done|]. rewrite <- (kp_l1 _ _ _ _ (ft_keeps _ _ _ _ _ _ Ft)).
      by apply enter_table_new.
    + by rewrite bool_decide_true.
  - left. pose proof (inv_frame_max I f (tb_range _ _ _ T)) as Hm. pose proof (tb_range _ _ _ T).
    destruct (pde_entry f) as (_ & -> & ->); [lia|done|].
    exists f, ow, s. split; [done|]. by split.
Qed.


(** Writing the entry of page [v] in its table. *)
Lemma inv_set_entry a v f s' :
  a ∈ A -> user_page v -> pde s a (v `div` 256) = f * PAGE_SIZE + 1 -> ow f = Table a (v `div` 256) ->
  table_ok ow s f -> writes_frame f s s' ->
  (forall k, 0 <= k < 256 -> k <> v `mod` 256 ->
     kmem s' (pte_addr f k) = kmem s (pte_addr f k) /\ kmem s' (vf_addr f k) = kmem s (vf_addr f k)) ->
  pte_ok ow s' f (v `mod` 256) -> reference_cnt (pageframe_table s' f) = pte_count s' f ->
  pmap_inv A ow s' /\ keeps ow s ow s' /\
  view s' a v = (if bool_decide (kmem s' (pte_addr f (v `mod` 256)) = 0) then None
                 else Some (Z.land (kmem s' (pte_addr f (v `mod` 256))) L2_ADDR_MASK,
                            kmem s' (vf_addr f (v `mod` 256)))) /\
  (forall a' v', a' ∈ A -> user_page v' -> (a', v') <> (a, v) -> view s' a' v' = view s a' v') /\
  table_ok ow s' f /\ pde s' a (v `div` 256) = f * PAGE_SIZE + 1.
Proof using I.
  intros Ha Hv E Of T W Hk Hp Hc. destruct (page_idx v Hv) as [Hi Hj].
  pose proof (wf_same _ _ _ W) as Sa.
  assert (table_ok ow s' f) as T'.
  { split; [rewrite (sa_max _ _ Sa); apply T| |done]. intros k Hk'.
    destruct (decide (k = v `mod` 256)) as [-> |Hne]; [done|]. destruct (Hk k Hk' Hne) as [E1 E2].
    apply (pte_ok_ext ow ow s s' f k E1 E2); [apply Sa|done|by apply T]. }
  destruct (inv_write I a (v `div` 256) f s' Ha Hi E Of W T') as [I' V'].
  assert (pde s' a (v `div` 256) = f * PAGE_SIZE + 1) as E'.
  { unfold pde. rewrite (sa_l1 _ _ Sa). rewrite (wf_kmem _ _ _ W); [exact E|].
    intros Hx. pose proof (dir_frame I a (v `div` 256) Ha ltac:(lia)) as Hd. congruence. }
  split; [done|]. split; [by eapply writes_keeps|]. split; [by apply (view_Some I')|]. split; [|done].
  intros a' v' Ha' Hv' Hne. destruct (decide ((a', v' `div` 256) = (a, v `div` 256))) as [Heq|]; [|by apply V'].
  assert (a' = a /\ v' `div` 256 = v `div` 256) as [-> Ev] by (by simplify_eq).
  assert (v' `mod` 256 <> v `mod` 256) as Hm by (intros ?; by apply Hne; f_equal; apply page_eq).
  rewrite (view_Some I' a v' f), (view_Some I a v' f) by (done || by rewrite Ev).
  by destruct (Hk (v' `mod` 256)) as [-> ->]; [by apply page_idx|..].
Qed.
End Ops.

Lemma vpte_add_head_ok s p x :
  0 <= p < max_pageframe s ->
  exists s', vpte_add_head p x s = Some s' /\ same_alloc s s' /\ kmem s' = kmem s /\
    forall g, reference_cnt (pageframe_table s' g) = reference_cnt (pageframe_table s g).
Proof.
  intros Hp. unfold vpte_add_head. rewrite pageframe_ok by done. cbn [mbind option_bind].
  rewrite upd_pf_ok by done. eexists. split; [done|]. split_and!; [split; try done| |]; try done.
  - intros g. cbn. destruct (decide (g = p)) as [-> |]; [by rewrite store_eq|by rewrite store_ne].
  - intros g. cbn. destruct (decide (g = p)) as [-> |]; [by rewrite store_eq|by rewrite store_ne].
Qed.

Lemma vpte_rem_entry_ok s p x :
  0 <= p < max_pageframe s ->
  exists s', vpte_rem_entry p x s = Some s' /\ same_alloc s s' /\ kmem s' = kmem s /\
    forall g, reference_cnt (pageframe_table s' g) = reference_cnt (pageframe_table s g).
Proof.
  intros Hp. unfold vpte_rem_entry. rewrite pageframe_ok by done. cbn [mbind option_bind].
  rewrite upd_pf_ok by done. eexists. split; [done|]. split_and!; [split; try done| |]; try done.
  - intros g. cbn. destruct (decide (g = p)) as [-> |]; [by rewrite store_eq|by rewrite store_ne].
  - intros g. cbn. destruct (decide (g = p)) as [-> |]; [by rewrite store_eq|by rewrite store_ne].
Qed.

(** Setting the words of an entry. *)
Lemma entry_st s s1 f j w fl :
  0 <= j < 256 -> same_alloc s s1 -> kmem s1 = kmem s ->
  (forall g, reference_cnt (pageframe_table s1 g) = reference_cnt (pageframe_table s g)) ->
  let s' := st (pte_addr f j) w (st (vf_addr f j) fl s1) in
  writes_frame f s s' /\ kmem s' (pte_addr f j) = w /\ kmem s' (vf_addr f j) = fl /\
  (forall k, 0 <= k < 256 -> k <> j ->
     kmem s' (pte_addr f k) = kmem s (pte_addr f k) /\ kmem s' (vf_addr f k) = kmem s (vf_addr f k)) /\
  reference_cnt (pageframe_table s' f) = reference_cnt (pageframe_table s f).
Proof.
  intros Hj Sa Ek Hr s'. assert (pte_addr f j <> vf_addr f j) as Hpv by (unfold pte_addr, vf_addr; lia).
  assert (kmem s' = <[pte_addr f j := w]> (<[vf_addr f j := fl]> (kmem s))) as E'
    by (unfold s', st; cbn; by rewrite Ek).
  split_and!; rewrite ?E'.
  - split.
    + eapply same_alloc_trans; [done|]. by split.
    + intros x Hx. rewrite E'. rewrite !store_ne; [done|..].
      * intros <-. by apply Hx, frame_vf.
      * intros <-. by apply Hx, frame_pte.
    + intros g Hg. apply Hr.
  - by rewrite store_eq.
  - rewrite store_ne by done. by rewrite store_eq.
  - intros k Hk Hne. unfold pte_addr, vf_addr. by rewrite !store_ne by lia.
  - apply Hr.
Qed.

(** The same, with the count of the table adjusted by [d]. *)
Lemma entry_written s s1 s' f j w fl d :
  0 <= j < 256 -> same_alloc s s1 -> kmem s1 = kmem s ->
  (forall g, reference_cnt (pageframe_table s1 g) = reference_cnt (pageframe_table s g)) ->
  upd_pf f (fun p => p <| reference_cnt := reference_cnt p + d |>)
    (st (pte_addr f j) w (st (vf_addr f j) fl s1)) = Some s' ->
  writes_frame f s s' /\ kmem s' (pte_addr f j) = w /\ kmem s' (vf_addr f j) = fl /\
  (forall k, 0 <= k < 256 -> k <> j ->
     kmem s' (pte_addr f k) = kmem s (pte_addr f k) /\ kmem s' (vf_addr f k) = kmem s (vf_addr f k)) /\
  reference_cnt (pageframe_table s' f) = reference_cnt (pageframe_table s f) + d.
Proof.
  intros Hj Sa Ek Hr E. destruct (entry_st s s1 f j w fl Hj Sa Ek Hr) as (W & E1 & E2 & Hk & Hc).
  unfold upd_pf in E. case_bool_decide as Hm; [|done]. injection E as <-. set (s2 := st _ _ _) in *.
  split_and!; [|exact E1|exact E2|exact Hk|].
  - destruct W as [W1 W2 W3]. split; [|exact W2|].
    + eapply same_alloc_trans; [exact W1|]. split; try done. intros g. cbn [pageframe_table update_field].
      destruct (decide (g = f)) as [-> |]; [by rewrite store_eq|by rewrite store_ne].
    + intros g Hg. cbn [pageframe_table update_field]. rewrite store_ne by done. by apply W3.
  - cbn [pageframe_table update_field]. rewrite store_eq.
    change (reference_cnt (pageframe_table s2 f) + d = reference_cnt (pageframe_table s f) + d). by rewrite Hc.
Qed.

Lemma pte_at_page f v : user_page v -> pte_at (fva f) (v * PAGE_SIZE) = pte_addr f (v `mod` 256).
Proof. intros Hv. unfold user_page in Hv. unfold pte_at, pte_addr. by rewrite pte_idx_page by lia. Qed.

Lemma vf_at_page f v :
  user_page v -> vpte_flags (vpte_at (fva f) (v * PAGE_SIZE)) = vf_addr f (v `mod` 256).
Proof.
  intros Hv. unfold user_page in Hv. unfold vpte_flags, vpte_at, vf_addr, VPTE_TABLE_OFFS.
  rewrite pte_idx_page by lia. lia.
Qed.

(** [s'] maps what [s] maps, with page [v] of [a] mapped to [m]. *)
Definition remaps (A : list Z) (s s' : vm) (a v : Z) (m : option (Z * Z)) : Prop :=
  forall a' v', a' ∈ A -> user_page v' ->
    view s' a' v' = if bool_decide ((a', v') = (a, v)) then m else view s a' v'.

Section Enter.
Context {A : list Z} {ow : Z -> role} {s : vm}.
Hypothesis I : pmap_inv A ow s.

(** The end of [pmap_enter] on the table in [f]. *)
Lemma enter_write a v f p flags :
  a ∈ A -> user_page v -> pde s a (v `div` 256) = f * PAGE_SIZE + 1 -> ow f = Table a (v `div` 256) ->
  table_ok ow s f -> view s a v = None -> 0 <= p < 2 ^ 20 ->
  (Z.land flags MEM_MASK <> MEM_PHYS -> p < max_pageframe s /\ ow p = User) ->
  exists s',
    (s ← (if bool_decide (Z.land flags MEM_MASK <> MEM_PHYS)
          then vpte_add_head ((p * PAGE_SIZE) `div` PAGE_SIZE) (vpte_at (fva f) (v * PAGE_SIZE)) s
          else Some s);
     s ← upd_pf f (fun p => p <| reference_cnt := reference_cnt p + 1 |>)
           (st (pte_addr f (v `mod` 256)) (Z.lor (p * PAGE_SIZE) (pmap_calc_pa_bits flags))
             (st (vf_addr f (v `mod` 256)) flags s));
     Some (0, s)) = Some (0, s') /\
    pmap_inv A ow s' /\ keeps ow s ow s' /\ remaps A s s' a v (Some (p * PAGE_SIZE, flags)).
Proof using I.
  intros Ha Hv E Of T Hn Hp Hu. destruct (page_idx v Hv) as [Hi Hj].
  set (j := v `mod` 256) in *. set (w := Z.lor (p * PAGE_SIZE) (pmap_calc_pa_bits flags)).
  destruct (pte_entry p flags Hp) as (Hw0 & _ & Hwa). fold w in Hw0, Hwa.
  assert (exists s1, (if bool_decide (Z.land flags MEM_MASK <> MEM_PHYS)
          then vpte_add_head ((p * PAGE_SIZE) `div` PAGE_SIZE) (vpte_at (fva f) (v * PAGE_SIZE)) s
          else Some s) = Some s1 /\ same_alloc s s1 /\ kmem s1 = kmem s /\
    forall g, reference_cnt (pageframe_table s1 g) = reference_cnt (pageframe_table s g))
    as (s1 & -> & Sa & Ek & Hr).
  { case_bool_decide as Hf; [|by exists s]. rewrite Z.div_mul by done. apply vpte_add_head_ok.
    destruct (Hu Hf). lia. }
  cbn [mbind option_bind].
  assert (exists s2, upd_pf f (fun p => p <| reference_cnt := reference_cnt p + 1 |>)
    (st (pte_addr f j) w (st (vf_addr f j) flags s1)) = Some s2) as (s2 & E2).
  { rewrite upd_pf_ok; [eauto|]. cbn. rewrite (sa_max _ _ Sa). apply T. }
  rewrite E2. cbn [mbind option_bind]. exists s2. split; [done|].
  destruct (entry_written s s1 s2 f j w flags 1 Hj Sa Ek Hr E2) as (W & Ep & Ef & Hk & Hc).
  rewrite (view_Some I a v f Hv E T) in Hn. fold j in Hn. case_bool_decide as Hz; [|done].
  destruct (inv_set_entry I a v f s2 Ha Hv E Of T W Hk) as (I2 & K2 & V1 & V2 & _).
  { right. exists p. fold j. rewrite Ep, Ef. split; [done|]. split; [done|].
    intros Hf. rewrite (kp_max ow s ow s2) by (by eapply writes_keeps). by apply Hu. }
  { rewrite Hc, (tb_cnt _ _ _ T). symmetry. apply (pte_count_gain s s2 f j); [done|done|by rewrite Ep|].
    intros k Hk' Hne. by apply Hk. }
  fold j in V1. rewrite Ep, Ef, bool_decide_false, Hwa in V1 by done.
  split_and!; [done|done|]. intros a' v' Ha' Hv'. case_bool_decide as Heq; [|by apply V2].
  by simplify_eq.
Qed.
End Enter.

Lemma remaps_of A s0 s s' a v m :
  (forall a v, a ∈ A -> user_page v -> view s a v = view s0 a v) ->
  remaps A s s' a v m -> remaps A s0 s' a v m.
Proof. intros H R a' v' Ha' Hv'. rewrite R by done. by rewrite H. Qed.

Section Enter2.
Context {A : list Z} {ow : Z -> role} {s : vm}.
Hypothesis I : pmap_inv A ow s.

Lemma enter_ok a v p flags :
  a ∈ A -> user_page v -> v <> 0 -> 0 <= p < 2 ^ 20 ->
  (Z.land flags MEM_MASK <> MEM_PHYS -> p < max_pageframe s /\ ow p = User) ->
  view s a v = None ->
  (exists ow' s', pmap_enter a (v * PAGE_SIZE) (p * PAGE_SIZE) flags s = Some (0, s') /\
     pmap_inv A ow' s' /\ keeps ow s ow' s' /\ remaps A s s' a v (Some (p * PAGE_SIZE, flags)) /\
     (forall g, ow' g = User -> ow g = User)) \/
  (pmap_enter a (v * PAGE_SIZE) (p * PAGE_SIZE) flags s = Some (- ENOMEM, s) /\
   free_4k_pf_list s = [] /\ free_64k_pf_list s = []).
Proof using I.
  intros Ha Hv H0 Hp Hu Hn. unfold pmap_enter. rewrite bool_decide_false by (unfold PAGE_SIZE; lia).
  destruct (enter_table_ok I a v Ha Hv) as [(f & ow1 & s1 & -> & Et)|(-> & Hm)];
    cbn [mbind option_bind]; [left|right; done].
  pose proof (et_inv _ _ _ _ _ Et) as I1. pose proof (et_keeps _ _ _ _ _ Et) as K1.
  pose proof (et_table _ _ _ _ _ Et) as T1. pose proof (tb_range _ _ _ T1) as Hr.
  pose proof (inv_frame_max I1 f Hr) as Hm.
  assert (view s1 a v = None) as Hn1 by (by rewrite (et_view _ _ _ _ _ Et)).
  rewrite pte_at_page, vf_at_page by done. rewrite va_to_pf_fva by (done || lia).
  assert (pte_invalid (kmem s1 (pte_addr f (v `mod` 256))) = true) as ->.
  { rewrite (view_Some I1 a v f Hv (et_pde _ _ _ _ _ Et) T1) in Hn1. case_bool_decide as Hz; [|done].
    by rewrite Hz. }
  destruct (enter_write I1 a v f p flags) as (s2 & E2 & I2 & K2 & R2); try done; try apply Et.
  { intros Hf. destruct (Hu Hf) as [Hp1 Hp2]. rewrite (kp_max _ _ _ _ K1). split; [done|].
    by rewrite (kp_role _ _ _ _ K1), Hp2 by congruence. }
  exists ow1, s2. split_and!; [exact E2|done|by eapply keeps_trans| |apply Et].
  eapply remaps_of; [apply Et|done].
Qed.

(** A page that is mapped already: the whole table is dropped. *)
Lemma enter_mapped a v p flags :
  a ∈ A -> user_page v -> v <> 0 -> view s a v <> None ->
  exists s', pmap_enter a (v * PAGE_SIZE) (p * PAGE_SIZE) flags s = Some (- EINVAL, s') /\
    pmap_inv A ow s' /\ keeps ow s ow s' /\
    forall a' v', a' ∈ A -> user_page v' ->
      view s' a' v' = if bool_decide ((a', v' `div` 256) = (a, v `div` 256)) then None else view s a' v'.
Proof using I.
  intros Ha Hv H0 Hn. destruct (page_idx v Hv) as [Hi Hj].
  unfold pmap_enter. rewrite bool_decide_false by (unfold PAGE_SIZE; lia).
  destruct (iv_pde _ _ _ I a (v `div` 256) Ha Hi) as [E|(f & E & Of & T)].
  { by destruct Hn; apply view_None. }
  pose proof (tb_range _ _ _ T) as Hr. pose proof (inv_frame_max I f Hr) as Hm.
  destruct (pde_entry f) as (_ & Epi & Ept); [lia|done|].
  unfold enter_table. rewrite pde_at_page by done. fold (pde s a (v `div` 256)). rewrite E, Epi, Ept.
  cbn [mbind option_bind]. fold (fva f). rewrite pte_at_page by done.
  rewrite (view_Some I a v f Hv E T) in Hn. case_bool_decide as Hz; [done|].
  destruct (tb_pte _ _ _ T (v `mod` 256) Hj) as [?|(q & Hq & Eq & _)]; [done|].
  destruct (pte_entry q (kmem s (vf_addr f (v `mod` 256))) Hq) as (_ & Hi2 & _).
  rewrite Eq, Hi2. rewrite pde_at_page by done. eexists. split; [done|].
  destruct (inv_pde I a (v `div` 256) 0 Ha Hi ltac:(by left)) as (I' & K' & _ & V').
  split_and!; [done|done|]. intros a' v' Ha' Hv'. case_bool_decide as Heq; [|by apply V'].
  apply view_None; [done|]. assert (a' = a /\ v' `div` 256 = v `div` 256) as [-> ->] by (by simplify_eq).
  rewrite (pde_st I) by (done || lia). by rewrite bool_decide_true.
Qed.

Lemma remove_unmapped a v :
  a ∈ A -> user_page v -> v <> 0 -> view s a v = None ->
  pmap_remove a (v * PAGE_SIZE) s = Some (- EINVAL, s).
Proof using I.
  intros Ha Hv H0 Hn. destruct (page_idx v Hv) as [Hi Hj].
  unfold pmap_remove. rewrite bool_decide_false by (unfold PAGE_SIZE; lia).
  rewrite pde_at_page by done. fold (pde s a (v `div` 256)).
  destruct (iv_pde _ _ _ I a (v `div` 256) Ha Hi) as [E|(f & E & Of & T)]; rewrite E; [done|].
  pose proof (tb_range _ _ _ T) as Hr. pose proof (inv_frame_max I f Hr) as Hm.
  destruct (pde_entry f) as (_ & -> & ->); [lia|done|].
  fold (fva f). rewrite pte_at_page by done.
  rewrite (view_Some I a v f Hv E T) in Hn. case_bool_decide as Hz; [|done]. by rewrite Hz.
Qed.
End Enter2.

Lemma count_zero s f j : pte_count s f = 0 -> 0 <= j < 256 -> kmem s (pte_addr f j) = 0.
Proof.
  intros Hc Hj. apply dec_stable. intros Hn.
  assert (j ∈ filter (fun j => kmem s (pte_addr f j) <> 0) (seqZ 0 256)) as Hin.
  { apply list_elem_of_filter. split; [done|]. apply elem_of_seqZ. lia. }
  unfold pte_count in Hc. destruct (filter _ _); [by apply elem_of_nil in Hin|simpl in Hc; lia].
Qed.

Section Remove.
Context {A : list Z} {ow : Z -> role} {s : vm}.
Hypothesis I : pmap_inv A ow s.

(** The table and entry of a mapped page. *)
Lemma mapped_entry a v m :
  a ∈ A -> user_page v -> view s a v = Some m ->
  exists f p, pde s a (v `div` 256) = f * PAGE_SIZE + 1 /\ ow f = Table a (v `div` 256) /\
    table_ok ow s f /\ 0 <= p < 2 ^ 20 /\ m = (p * PAGE_SIZE, kmem s (vf_addr f (v `mod` 256))) /\
    kmem s (pte_addr f (v `mod` 256)) = Z.lor (p * PAGE_SIZE) (pmap_calc_pa_bits m.2) /\
    (Z.land m.2 MEM_MASK <> MEM_PHYS -> p < max_pageframe s /\ ow p = User).
Proof using I.
  intros Ha Hv Hm. destruct (page_idx v Hv) as [Hi Hj].
  destruct (iv_pde _ _ _ I a (v `div` 256) Ha Hi) as [E|(f & E & Of & T)].
  { by rewrite view_None in Hm. }
  rewrite (view_Some I a v f Hv E T) in Hm. case_bool_decide as Hz; [done|].
  destruct (tb_pte _ _ _ T (v `mod` 256) Hj) as [?|(p & Hp & Ep & Hu)]; [done|].
  destruct (pte_entry p (kmem s (vf_addr f (v `mod` 256))) Hp) as (_ & _ & Hpa).
  rewrite <- Ep in Hpa. rewrite Hpa in Hm. injection Hm as <-. exists f, p. cbn [snd]. split_and!; done || lia.
Qed.

(** The part of [pmap_remove] that clears the entry. *)
Lemma remove_write a v f p fl :
  a ∈ A -> user_page v -> pde s a (v `div` 256) = f * PAGE_SIZE + 1 -> ow f = Table a (v `div` 256) ->
  table_ok ow s f -> 0 <= p < 2 ^ 20 ->
  kmem s (pte_addr f (v `mod` 256)) = Z.lor (p * PAGE_SIZE) (pmap_calc_pa_bits fl) ->
  (Z.land fl MEM_MASK <> MEM_PHYS -> p < max_pageframe s /\ ow p = User) ->
  exists s2,
    (s ← (if bool_decide (Z.land fl MEM_PHYS = 0)
          then vpte_rem_entry (pmap_pa_to_pf (p * PAGE_SIZE)) (vpte_at (fva f) (v * PAGE_SIZE)) s
          else Some s);
     upd_pf f (fun p => p <| reference_cnt := reference_cnt p - 1 |>)
       (st (pte_addr f (v `mod` 256)) L2_TYPE_INV (st (vf_addr f (v `mod` 256)) 0 s))) = Some s2 /\
    pmap_inv A ow s2 /\ keeps ow s ow s2 /\ remaps A s s2 a v None /\ same_alloc s s2 /\
    table_ok ow s2 f /\ pde s2 a (v `div` 256) = f * PAGE_SIZE + 1.
Proof using I.
  intros Ha Hv E Of T Hp Ep Hu. destruct (page_idx v Hv) as [Hi Hj]. set (j := v `mod` 256) in *.
  assert (exists s1, (if bool_decide (Z.land fl MEM_PHYS = 0)
          then vpte_rem_entry (pmap_pa_to_pf (p * PAGE_SIZE)) (vpte_at (fva f) (v * PAGE_SIZE)) s
          else Some s) = Some s1 /\ same_alloc s s1 /\ kmem s1 = kmem s /\
    forall g, reference_cnt (pageframe_table s1 g) = reference_cnt (pageframe_table s g))
    as (s1 & -> & Sa & Ek & Hrf).
  { case_bool_decide as Hf; [|by exists s]. unfold pmap_pa_to_pf. rewrite Z.div_mul by done.
    apply vpte_rem_entry_ok. split; [lia|]. apply Hu. intros Hph.
    assert (Z.land (Z.land fl MEM_MASK) MEM_PHYS = 0) as Hx.
    { rewrite <- Z.land_assoc. change (Z.land MEM_MASK MEM_PHYS) with MEM_PHYS. done. }
    by rewrite Hph in Hx. }
  cbn [mbind option_bind].
  change (fun p => p <| reference_cnt := reference_cnt p - 1 |>)
    with (fun p => p <| reference_cnt := reference_cnt p + - (1) |>).
  assert (exists s2, upd_pf f (fun p => p <| reference_cnt := reference_cnt p + - (1) |>)
    (st (pte_addr f j) L2_TYPE_INV (st (vf_addr f j) 0 s1)) = Some s2) as (s2 & E2).
  { rewrite upd_pf_ok; [eauto|]. cbn. rewrite (sa_max _ _ Sa). apply T. }
  exists s2. split; [done|].
  destruct (entry_written s s1 s2 f j L2_TYPE_INV 0 (- (1)) Hj Sa Ek Hrf E2) as (W & Ez & Ef & Hk & Hc).
  assert (pte_count s f = pte_count s2 f + 1) as Hcnt.
  { apply (pte_count_gain s2 s f j); [done|done| |intros k Hk' Hne; symmetry; by apply Hk].
    rewrite Ep. by apply (pte_entry p fl Hp). }
  destruct (inv_set_entry I a v f s2 Ha Hv E Of T W Hk) as (I2 & K2 & V1 & V2 & T2 & E3);
    [by left|rewrite Hc, (tb_cnt _ _ _ T); lia|].
  fold j in V1. rewrite Ez in V1. change (view s2 a v = None) in V1.
  split_and!; try done; [|apply W].
  intros a' v' Ha' Hv'. case_bool_decide as Heq; [by simplify_eq|by apply V2].
Qed.

Lemma remove_ok a v m :
  a ∈ A -> user_page v -> v <> 0 -> view s a v = Some m ->
  exists s', pmap_remove a (v * PAGE_SIZE) s = Some (0, s') /\ pmap_inv A ow s' /\ keeps ow s ow s' /\
    remaps A s s' a v None /\ same_alloc s s'.
Proof using I.
  intros Ha Hv H0 Hm. destruct (page_idx v Hv) as [Hi Hj].
  destruct (mapped_entry a v m Ha Hv Hm) as (f & p & E & Of & T & Hp & -> & Ep & Hu). cbn [snd] in *.
  pose proof (tb_range _ _ _ T) as Hr. pose proof (inv_frame_max I f Hr) as Hmx.
  unfold pmap_remove. rewrite bool_decide_false by (unfold PAGE_SIZE; lia).
  rewrite pde_at_page by done. fold (pde s a (v `div` 256)). rewrite E.
  destruct (pde_entry f) as (_ & -> & ->); [lia|done|]. fold (fva f).
  rewrite pte_at_page, vf_at_page by done. rewrite Ep.
  destruct (pte_entry p (kmem s (vf_addr f (v `mod` 256))) Hp) as (Hnz & -> & ->).
  rewrite va_to_pf_fva by (done || lia).
  destruct (remove_write a v f p _ Ha Hv E Of T Hp Ep Hu) as (s2 & E2 & I2 & K2 & R2 & S2 & T2 & P2).
  destruct (if bool_decide (Z.land (kmem s (vf_addr f (v `mod` 256))) MEM_PHYS = 0) then _ else _) as [s1|];
    cbn [mbind option_bind] in E2 |- *; [|done].
  rewrite E2. cbn [mbind option_bind].
  rewrite pageframe_ok by (by rewrite (kp_max _ _ _ _ K2)). cbn [mbind option_bind].
  case_bool_decide as Hzero; [|by exists s2].
  rewrite <- (kp_l1 _ _ _ _ K2). eexists. split; [done|].
  destruct (inv_pde I2 a (v `div` 256) 0 Ha Hi ltac:(by left)) as (I3 & K3 & _ & V3).
  split_and!; [done|by eapply keeps_trans| |by eapply same_alloc_trans].
  intros a' v' Ha' Hv'. rewrite <- R2 by done.
  destruct (decide ((a', v' `div` 256) = (a, v `div` 256))) as [Heq|]; [|by apply V3].
  assert (a' = a /\ v' `div` 256 = v `div` 256) as [-> Ev] by (by simplify_eq).
  rewrite view_None; [|done|].
  - symmetry. rewrite (view_Some I2 a v' f) by (done || by rewrite Ev).
    rewrite bool_decide_true; [done|]. apply count_zero; [|by apply page_idx].
    by rewrite <- (tb_cnt _ _ _ T2).
  - rewrite Ev, (pde_st I2) by (done || lia). by rewrite bool_decide_true.
Qed.

Lemma protect_ok a v m flags :
  a ∈ A -> user_page v -> v <> 0 -> view s a v = Some m ->
  Z.land flags MEM_MASK = Z.land m.2 MEM_MASK ->
  exists s', pmap_protect a (v * PAGE_SIZE) flags s = Some (0, s') /\ pmap_inv A ow s' /\
    keeps ow s ow s' /\ remaps A s s' a v (Some (m.1, flags)).
Proof using I.
  intros Ha Hv H0 Hm Hty. destruct (page_idx v Hv) as [Hi Hj].
  destruct (mapped_entry a v m Ha Hv Hm) as (f & p & E & Of & T & Hp & -> & Ep & Hu). cbn [fst snd] in *.
  pose proof (tb_range _ _ _ T) as Hr. pose proof (inv_frame_max I f Hr) as Hmx.
  unfold pmap_protect. rewrite bool_decide_false by (unfold PAGE_SIZE; lia).
  rewrite pde_at_page by done. fold (pde s a (v `div` 256)). rewrite E.
  destruct (pde_entry f) as (_ & -> & ->); [lia|done|]. fold (fva f).
  rewrite pte_at_page, vf_at_page by done. rewrite Ep.
  destruct (pte_entry p (kmem s (vf_addr f (v `mod` 256))) Hp) as (Hnz & -> & ->).
  eexists. split; [done|]. set (j := v `mod` 256) in *.
  set (w := Z.lor (p * PAGE_SIZE) (pmap_calc_pa_bits flags)).
  destruct (pte_entry p flags Hp) as (Hw0 & _ & Hwa). fold w in Hw0, Hwa.
  destruct (entry_st s s f j w flags Hj (same_alloc_refl s) eq_refl (fun _ => eq_refl))
    as (W & E1 & E2 & Hk & Hc).
  set (s' := st (pte_addr f j) w _) in *.
  assert (keeps ow s ow s') as K by (by eapply writes_keeps).
  destruct (inv_set_entry I a v f s' Ha Hv E Of T W Hk) as (I2 & K2 & V1 & V2 & _).
  { right. exists p. fold j. rewrite E1, E2. split; [done|]. split; [done|].
    rewrite (kp_max _ _ _ _ K), Hty. done. }
  { rewrite Hc, (tb_cnt _ _ _ T). unfold pte_count. do 2 f_equal. apply filter_ext_in.
    intros k Hk'%elem_of_seqZ. destruct (decide (k = j)) as [-> |Hne].
    - rewrite E1, Ep. split; [done|]. by intros _; apply (pte_entry p _ Hp).
    - by destruct (Hk k ltac:(lia) Hne) as [-> _]. }
  fold j in V1. rewrite E1, E2, bool_decide_false, Hwa in V1 by done.
  split_and!; [done|done|]. intros a' v' Ha' Hv'. case_bool_decide as Heq; [by simplify_eq|by apply V2].
Qed.
End Remove.

Lemma copy_words_ok n : forall dst src s,
  exists K, copy_words n dst src s = s <| kmem := K |> /\
    forall x, ~ dst <= x < dst + 4 * Z.of_nat n -> K x = kmem s x.
Proof.
  induction n as [|n IH]; intros dst src s.
  - exists (kmem s). split; [by destruct s|done].
  - cbn [copy_words]. destruct (IH (dst + 4) (src + 4) (st dst (kmem s src) s)) as (K & -> & HK).
    exists K. split; [done|]. intros x Hx. rewrite HK by lia. unfold st. cbn. by rewrite store_ne by lia.
Qed.

(** The words of the user half of a fresh directory. *)
Lemma fill_zero n : forall a s x,
  (exists k, 0 <= k < Z.of_nat n /\ x = a + 4 * k) -> kmem (fill_words n a 0 s) x = 0.
Proof.
  induction n as [|n IH]; intros a s x (k & Hk & ->); [lia|]. cbn [fill_words].
  destruct (decide (k = 0)) as [-> |Hne].
  - destruct (fill_words_ok n 0 (a + 4) (st a 0 s)) as (K & -> & HK). cbn.
    destruct (HK (a + 4 * 0)) as [[_ ->]| ->]; [done|]. unfold st. cbn.
    replace (a + 4 * 0) with a by lia. by rewrite store_eq.
  - apply IH. exists (k - 1). lia.
Qed.

Section Create.
Context {A : list Z} {ow : Z -> role} {s : vm}.
Hypothesis I : pmap_inv A ow s.

(** What [pmap_create] does for a new address space [a]. *)
Record created (a : Z) (ow' : Z -> role) (s' : vm) : Prop := {
  cr_inv : pmap_inv (a :: A) ow' s';
  cr_role f : ow f <> Free -> ow' f = ow f;
  cr_users f : ow' f = User -> ow f = User;
  cr_ref f : ow f = User -> reference_cnt (pageframe_table s' f) = reference_cnt (pageframe_table s f);
  cr_mem x : data (ow (frame_of x)) -> kmem s' x = kmem s x;
  cr_max : max_pageframe s' = max_pageframe s;
  cr_old a' v : a' ∈ A -> user_page v -> view s' a' v = view s a' v;
  cr_new v : user_page v -> view s' a v = None
}.

Lemma install_dir a h ow' s2 :
  a ∉ A -> pmap_inv A ow' s2 -> keeps ow s ow' s2 -> (forall f, ow' f = User -> ow f = User) -> 0 <= h -> h + 4 <= max_pageframe s2 ->
  (forall k, 0 <= k < 4 -> ow' (h + k) = Dir a) ->
  (forall i, 0 <= i < 2048 -> kmem s2 (fva h + 4 * i) = 0) ->
  (forall a' v, a' ∈ A -> user_page v -> view s2 a' v = view s a' v) ->
  created a ow' (s2 <| l1_table := <[a := fva h]> (l1_table s2) |>).
Proof using Type.
  intros Ha I2 K2 Hus Hh Hm Hd Hz V2. set (s3 := s2 <| l1_table := _ |>).
  assert (forall a', a' ∈ A -> l1_table s3 a' = l1_table s2 a') as El.
  { intros a' Ha'. unfold s3. cbn. rewrite store_ne; [done|]. by intros ->. }
  assert (l1_table s3 a = fva h) as Ea by (unfold s3; cbn; by rewrite store_eq).
  assert (pmap_inv (a :: A) ow' s3) as I3.
  { split; [destruct (iv_alloc _ _ _ I2); by split|exact (iv_free _ _ _ I2)|..].
    - intros a' [-> |Ha']%elem_of_cons; [by exists h|]. rewrite El by done. exact (iv_dir _ _ _ I2 a' Ha').
    - intros a' i [-> |Ha']%elem_of_cons Hi.
      + left. unfold pde. rewrite Ea. by apply Hz.
      + unfold pde. rewrite El by done. fold (pde s2 a' i).
        destruct (iv_pde _ _ _ I2 a' i Ha' Hi) as [E|(f & E & Of & T)]; [by left|].
        right. exists f. split; [done|]. split; [done|]. destruct T. by split. }
  split; try apply K2; try done.
  - intros a' v Ha' Hv. rewrite <- V2 by done. unfold view, pmap_extract. by rewrite El.
  - intros v Hv. apply view_None; [done|]. unfold pde. rewrite Ea. apply Hz. by apply page_idx.
Qed.

Lemma create_ok a :
  a ∉ A ->
  (exists ow' s', pmap_create a s = Some (0, s') /\ created a ow' s') \/
  (pmap_create a s = Some (-1, s) /\ free_16k_pf_list s = [] /\ free_64k_pf_list s = []).
Proof using I.
  intros Ha. unfold pmap_create. change PAGEDIR_SZ with (4 * PAGE_SIZE).
  destruct (alloc_pageframe_ok s 4 (iv_alloc _ _ _ I)) as [(h & s1 & -> & Al)|(-> & H16 & H64)];
    [by right; left|left|right; done]. cbn [mbind option_bind].
  pose proof (al_inv _ _ _ _ _ Al) as I1. pose proof (vf_max _ _ (al_frame _ _ _ _ _ Al)) as Em.
  assert (forall f, h <= f < h + 4 -> 0 <= f < max_pageframe s) as Hr.
  { intros f Hf. apply (ai_range _ (iv_alloc _ _ _ I)). rewrite (al_frames _ _ _ _ _ Al).
    apply elem_of_app. left. by apply elem_of_seqZ. }
  pose proof (Hr h ltac:(lia)). pose proof (Hr (h + 3) ltac:(lia)). pose proof (max_bound I) as Hmx.
  rewrite pageframe_ok by lia. cbn [mbind option_bind]. rewrite (al_pf _ _ _ _ _ Al).
  assert (forall sz r fl l, pmap_pf_to_va (mkPageframe sz (h * PAGE_SIZE) r fl l) = fva h) as Eva.
  { intros. unfold pmap_pf_to_va. cbn. rewrite pa_to_va_ok by (unfold PAGE_SIZE in *; lia). unfold fva. lia. }
  rewrite !Eva.
  destruct (fill_words_ok 2048 L1_TYPE_INV (fva h) s1) as (K2 & E2 & HK2).
  pose proof (fill_zero 2048 (fva h) s1) as HZ.
  set (s2 := fill_words 2048 (fva h) L1_TYPE_INV s1) in *. change (fill_words 2048 (fva h) 0 s1) with s2 in HZ.
  clearbody s2.
  destruct (copy_words_ok 2048 (fva h + 4 * 2048) (root_pagedir s2 + 4 * 2048) s2) as (K & -> & HK).
  change (Z.of_nat 2048) with 2048 in *.
  set (s3 := s2 <| kmem := K |>).
  destruct (inv_claim I (4 * PAGE_SIZE) 4 h (Dir a) s1 s3 Al) as (I3 & K3 & _ & V3); [lia|..].
  { unfold s3. rewrite E2. by split. }
  { intros x Hx. unfold s3. cbn.
    assert (~ fva h <= x < fva h + 4 * 4096) as Hout.
    { intros Hb. apply Hx, frame_of_block. unfold fva, PAGE_SIZE in *. lia. }
    rewrite HK by lia. rewrite E2. cbn. destruct (HK2 x) as [[Hb _]| ->]; [lia|done]. }
  { intros g Hg. unfold s3. by rewrite E2. }
  eexists _, _. split; [done|]. eapply (install_dir a h _ s3); try done; [|lia| |..].
  - intros f. unfold claim. by case_bool_decide.
  - rewrite (kp_max _ _ _ _ K3). lia.
  - intros k Hk. unfold claim. by rewrite bool_decide_true by lia.
  - intros i Hi. unfold s3. cbn. rewrite HK by lia. apply HZ. by exists i.
Qed.
End Create.

(** ** The page tables as a map *)

Inductive pmap_op : Type :=
| OpEnter (a v p flags : Z)
| OpRemove (a v : Z)
| OpProtect (a v flags : Z).

Definition run_op (o : pmap_op) (s : vm) : option (Z * vm) :=
  match o with
  | OpEnter a v p flags => pmap_enter a (v * PAGE_SIZE) (p * PAGE_SIZE) flags s
  | OpRemove a v => pmap_remove a (v * PAGE_SIZE) s
  | OpProtect a v flags => pmap_protect a (v * PAGE_SIZE) flags s
  end.

(** The effect of an operation with result [r] on the mappings [m]. *)
Inductive pmap_spec (m : Z -> Z -> option (Z * Z)) : pmap_op -> Z -> (Z -> Z -> option (Z * Z)) -> Prop :=
| SpEnter a v p flags :
    m a v = None ->
    pmap_spec m (OpEnter a v p flags) 0
      (fun a' v' => if bool_decide ((a', v') = (a, v)) then Some (p * PAGE_SIZE, flags) else m a' v')
| SpEnterNoMemory a v p flags :
    m a v = None -> pmap_spec m (OpEnter a v p flags) (- ENOMEM) m
| SpEnterMapped a v p flags :
    m a v <> None ->
    pmap_spec m (OpEnter a v p flags) (- EINVAL)
      (fun a' v' => if bool_decide ((a', v' `div` 256) = (a, v `div` 256)) then None else m a' v')
| SpRemove a v :
    m a v <> None ->
    pmap_spec m (OpRemove a v) 0
      (fun a' v' => if bool_decide ((a', v') = (a, v)) then None else m a' v')
| SpRemoveUnmapped a v :
    m a v = None -> pmap_spec m (OpRemove a v) (- EINVAL) m
| SpProtect a v flags pa old :
    m a v = Some (pa, old) ->
    pmap_spec m (OpProtect a v flags) 0
      (fun a' v' => if bool_decide ((a', v') = (a, v)) then Some (pa, flags) else m a' v').

(** What the callers of the operations ensure. *)
Definition op_ok (A : list Z) (ow : Z -> role) (s : vm) (o : pmap_op) : Prop :=
  match o with
  | OpEnter a v p flags =>
      a ∈ A /\ user_page v /\ v <> 0 /\ 0 <= p < 2 ^ 20 /\
      (Z.land flags MEM_MASK <> MEM_PHYS -> p < max_pageframe s /\ ow p = User)
  | OpRemove a v => a ∈ A /\ user_page v /\ v <> 0
  | OpProtect a v flags =>
      a ∈ A /\ user_page v /\ v <> 0 /\
      exists pa old, view s a v = Some (pa, old) /\ Z.land flags MEM_MASK = Z.land old MEM_MASK
  end.

Lemma run_op_refines A ow s o :
  pmap_inv A ow s -> op_ok A ow s o ->
  exists r s' ow' m', run_op o s = Some (r, s') /\ pmap_inv A ow' s' /\ keeps ow s ow' s' /\
    pmap_spec (view s) o r m' /\ forall a v, a ∈ A -> user_page v -> view s' a v = m' a v.
Proof.
  intros I Hok. destruct o as [a v p flags|a v|a v flags]; cbn [run_op op_ok] in *.
  - destruct Hok as (Ha & Hv & H0 & Hp & Hu). destruct (view s a v) as [m|] eqn:Em.
    + destruct (enter_mapped I a v p flags Ha Hv H0) as (s' & E & I' & K & V); [by rewrite Em|].
      eexists _, s', ow, _. split_and!; [done|done|done|apply SpEnterMapped; by rewrite Em|done].
    + destruct (enter_ok I a v p flags Ha Hv H0 Hp Hu Em) as [(ow' & s' & E & I' & K & V & _)|[E _]].
      * eexists _, s', ow', _. split_and!; [done|done|done|by apply SpEnter|done].
      * eexists _, s, ow, _. split_and!; [done|done|apply keeps_refl|by apply SpEnterNoMemory|done].
  - destruct Hok as (Ha & Hv & H0). destruct (view s a v) as [m|] eqn:Em.
    + destruct (remove_ok I a v m Ha Hv H0 Em) as (s' & E & I' & K & V & _).
      eexists _, s', ow, _. split_and!; [done|done|done|apply SpRemove; by rewrite Em|done].
    + eexists _, s, ow, _. split_and!; [by apply (remove_unmapped I)|done|apply keeps_refl|
        by apply SpRemoveUnmapped|done].
  - destruct Hok as (Ha & Hv & H0 & pa & old & Em & Ht).
    destruct (protect_ok I a v (pa, old) flags Ha Hv H0 Em Ht) as (s' & E & I' & K & V).
    eexists _, s', ow, _. split_and!; [done|done|done|by eapply SpProtect|done].
Qed.

(** C26. The page tables of pmap.c implement a map from pages to physical
    addresses and flags: in any state of the page tables each of [pmap_enter],
    [pmap_remove] and [pmap_protect] returns, keeps the invariant of the
    directories, tables and frame ownership, and changes what [pmap_extract]
    answers in every address space as the specification of the operation says.
    User pages keep their contents and reference counts. *)
Theorem pmap_refines_map A ow s o :
  pmap_inv A ow s -> op_ok A ow s o ->
  exists r s' ow' m', run_op o s = Some (r, s') /\ pmap_inv A ow' s' /\ keeps ow s ow' s' /\
    pmap_spec (view s) o r m' /\ forall a v, a ∈ A -> user_page v -> view s' a v = m' a v.
Proof. apply run_op_refines. Qed.

Lemma upd_pf_inv i f s s' :
  upd_pf i f s = Some s' ->
  s' = s <| pageframe_table := <[i := f (pageframe_table s i)]> (pageframe_table s) |>.
Proof. unfold upd_pf. case_bool_decide; naive_solver. Qed.

Lemma is_page_present_view a v s :
  pmap_is_page_present a (v * PAGE_SIZE) s = bool_decide (is_Some (view s a v)).
Proof.
  unfold pmap_is_page_present, view, pmap_extract.
  destruct (pde_invalid _); [by rewrite bool_decide_false by (by intros [])|].
  destruct (pte_invalid _); [by rewrite bool_decide_false by (by intros [])|].
  by rewrite bool_decide_true.
Qed.

(** C27. [pmap_create] gives a new address space an empty page directory: no user
    page of it is mapped, and the mappings of all other address spaces, the
    user pages and their reference counts stay as they were.  It fails only
    when no directory can be allocated. *)
Theorem pmap_create_correct A ow s a :
  pmap_inv A ow s -> a ∉ A ->
  (exists ow' s', pmap_create a s = Some (0, s') /\ created (A := A) (ow := ow) (s := s) a ow' s') \/
  (pmap_create a s = Some (-1, s) /\ free_16k_pf_list s = [] /\ free_64k_pf_list s = []).
Proof. intros I Ha. by apply (create_ok I). Qed.

(** [pmap_remove] leaves the entry of an allocated page on the list of
    mappings of its page frame: the test of the flags against [MEM_PHYS] is
    never zero for [MEM_ALLOC], so [LIST_REM_ENTRY] is skipped. *)
Theorem pmap_remove_keeps_vpte as_ va pa flags s s' :
  pmap_extract as_ va s = Some (pa, flags) -> Z.land flags MEM_MASK = MEM_ALLOC ->
  pmap_remove as_ va s = Some (0, s') ->
  vpte_links s' = vpte_links s /\
  forall g, vpte_list (pageframe_table s' g) = vpte_list (pageframe_table s g).
Proof.
  unfold pmap_extract, pmap_remove. intros Hx Hf Hr.
  destruct (pde_invalid _); [done|]. destruct (pte_invalid _); [done|]. injection Hx as _ Efl.
  rewrite Efl in Hr. case_bool_decide as H0; [injection Hr as Hr _; discriminate Hr|].
  assert (Z.land flags MEM_PHYS <> 0) as Hph.
  { intros Hz. assert (Z.land (Z.land flags MEM_MASK) MEM_PHYS = 0) as Hz2.
    { rewrite <- Z.land_assoc. change (Z.land MEM_MASK MEM_PHYS) with MEM_PHYS. done. }
    by rewrite Hf in Hz2. }
  rewrite bool_decide_false in Hr by done. cbn [mbind option_bind] in Hr.
  destruct (upd_pf _ _ _) as [s1|] eqn:Eu; cbn [mbind option_bind] in Hr; [|done].
  destruct (pageframe s1 _) as [pf|]; cbn [mbind option_bind] in Hr; [|done].
  assert (vpte_links s1 = vpte_links s /\
    forall g, vpte_list (pageframe_table s1 g) = vpte_list (pageframe_table s g)) as [H1 H2].
  { apply upd_pf_inv in Eu as ->. split; [done|]. intros g.
    cbn [pageframe_table update_field]. destruct (decide (g = pmap_va_to_pf (pt_of (kmem s (pde_at (l1_table s as_) va))))) as [-> |].
    - by rewrite store_eq.
    - by rewrite store_ne. }
  case_bool_decide; injection Hr as <-; done.
Qed.

(** ** A first address space *)

Definition boot_roles (f : Z) : role := if bool_decide (f ∈ free_frames booted) then Free else Kernel.

Lemma booted_ok : alloc_inv booted.
Proof.
  pose proof booted_inv as H. unfold booted. destruct (init_vm small_layout blank_vm); [exact H|destruct H].
Qed.

Lemma booted_pmap : pmap_inv [] boot_roles booted.
Proof.
  split; [exact booted_ok| |by intros a ?%elem_of_nil|by intros a i ?%elem_of_nil].
  intros f Hf. unfold boot_roles. by rewrite bool_decide_true.
Qed.

Definition vm1 : vm := default booted (snd <$> pmap_create 1 booted).

Lemma vm1_created :
  exists ow, pmap_create 1 booted = Some (0, vm1) /\
    created (A := []) (ow := boot_roles) (s := booted) 1 ow vm1.
Proof.
  destruct (create_ok booted_pmap 1) as [(ow & s' & E & C)|(_ & _ & H)].
  - apply not_elem_of_nil.
  - exists ow. assert (vm1 = s') as -> by (unfold vm1; by rewrite E). split; [exact E|exact C].
  - exfalso. revert H. vm_compute. discriminate.
Qed.

Definition dev_flags : Z := Z.lor MEM_PHYS (Z.lor PROT_READ PROT_WRITE).

Lemma pmap_refines_map_witness :
  exists ow r s' ow' m', pmap_inv [1] ow vm1 /\
    run_op (OpEnter 1 0x10 0xFE200 dev_flags) vm1 = Some (r, s') /\ pmap_inv [1] ow' s' /\
    pmap_spec (view vm1) (OpEnter 1 0x10 0xFE200 dev_flags) r m'.
Proof.
  destruct vm1_created as (ow & _ & C).
  destruct (pmap_refines_map [1] ow vm1 (OpEnter 1 0x10 0xFE200 dev_flags)) as (r & s' & ow' & m' & H1 & H2 & _ & H3 & _).
  - exact (cr_inv _ _ _ C).
  - cbn [op_ok]. split; [by left|]. split; [unfold user_page; lia|]. split; [lia|]. split; [lia|].
    intros H. exfalso. apply H. reflexivity.
  - exists ow, r, s', ow', m'. split; [exact (cr_inv _ _ _ C)|]. split; [exact H1|]. split; [exact H2|exact H3].
Defined.

Lemma pmap_create_correct_witness :
  pmap_inv [] boot_roles booted /\ 1 ∉ @nil Z /\
  exists ow' s', pmap_create 1 booted = Some (0, s') /\
    created (A := []) (ow := boot_roles) (s := booted) 1 ow' s'.
Proof.
  split; [exact booted_pmap|]. split; [apply not_elem_of_nil|].
  destruct (pmap_create_correct [] boot_roles booted 1 booted_pmap (not_elem_of_nil 1)) as [H|(_ & _ & H)].
  - exact H.
  - exfalso. revert H. vm_compute. discriminate.
Defined.

(** A page of memory mapped in it, and unmapped again. *)
Definition alloc_flags : Z := Z.lor MEM_ALLOC (Z.lor PROT_READ PROT_WRITE).

Definition vm2 : vm := default vm1 (snd <$> pmap_enter 1 0x10000 0x50000 alloc_flags vm1).
Definition vm3 : vm := default vm2 (snd <$> pmap_remove 1 0x10000 vm2).

Lemma pmap_remove_keeps_vpte_witness :
  head (vpte_list (pageframe_table vm2 0x50)) <> None /\
  vpte_list (pageframe_table vm3 0x50) = vpte_list (pageframe_table vm2 0x50).
Proof.
  split; [vm_compute; discriminate|].
  refine (proj2 (pmap_remove_keeps_vpte 1 0x10000 0x50000 alloc_flags vm2 vm3 _ _ _) 0x50).
  - vm_compute. reflexivity.
  - reflexivity.
  - assert (fst <$> pmap_remove 1 0x10000 vm2 = Some 0) as E by (vm_compute; reflexivity).
    unfold vm3. destruct (pmap_remove 1 0x10000 vm2) as [[r s']|]; [|discriminate E].
    injection E as ->. reflexivity.
Defined.
