(* ===== verification/Vm.v ===== *)
(** * Address spaces, page faults and the virtual memory system calls

    The model of vm/as.c (fork, cleanup), vm/pagefault.c (copy on write) and
    vm/vm.c (VirtualAlloc and its relatives), over the page tables of [Pmap]
    and the segment tables of [Segment].  The current process is the address
    space given as argument.  [KernelPanic] and a write through the NULL
    pointer passed to [pmap_extract] have no result. *)

From stdpp Require Import list_numbers.
From S2P Require Import Prelude Lists Segment Page Pmap.

Definition VM_USER_BASE := Segment.VM_USER_BASE.
Definition VM_USER_CEILING := Segment.VM_USER_CEILING.
Definition VM_SYSTEM_MASK := Z.lor MEM_MASK (Z.lor MAP_COW MAP_USER).

(** The virtual memory state with the segment table of each address space. *)
Record vms := mkVms {
  mmu : vm;
  segments : Z -> Segment.AddressSpace
}.
#[export] Instance rebuild_vms : Rebuild vms := fun r => mkVms (mmu r) (segments r).

(** ** Page faults *)

(** [memcpy(dst, src, size)] *)
Definition memcpy (dst src size : Z) (s : vm) : vm :=
  s <| kmem := fun a => if bool_decide (dst <= a < dst + size) then kmem s (src + (a - dst)) else kmem s a |>.

Definition clear_cow (flags : Z) : Z := Z.ldiff (Z.lor flags PROT_WRITE) MAP_COW.

(** The page is shared: it is copied to a new one. *)
Definition cow_copy (as_ addr paddr page_flags : Z) (s : vm) : option (Z * vm) :=
  s ← upd_pf (pmap_pa_to_pf paddr) (fun p => p <| reference_cnt := reference_cnt p - 1 |>) s;
  '(r, s) ← pmap_remove as_ addr s;
  if bool_decide (r <> 0) then Some (-1, s)
  else
    '(r, s) ← alloc_pageframe PAGE_SIZE s;
    match r with
    | None => Some (-1, s)
    | Some i =>
        pf ← pageframe s i;
        let src_kva := pmap_pa_to_va paddr in
        let dst_kva := pmap_pa_to_va (physical_addr pf) in
        let s := memcpy dst_kva src_kva PAGE_SIZE s in
        '(r, s) ← pmap_enter as_ addr (physical_addr pf) (clear_cow page_flags) s;
        if bool_decide (r <> 0) then Some (-1, free_pageframe i s)
        else
          s ← upd_pf i (fun p => p <| reference_cnt := reference_cnt p + 1 |>) s;
          Some (0, s)
    end.

(** The page has one reference: it becomes writable. *)
Definition cow_own (as_ addr paddr page_flags : Z) (s : vm) : option (Z * vm) :=
  '(r, s) ← pmap_remove as_ addr s;
  if bool_decide (r <> 0) then Some (-1, s)
  else
    '(r, s) ← pmap_enter as_ addr paddr (clear_cow page_flags) s;
    if bool_decide (r <> 0) then
      s ← upd_pf (pmap_pa_to_pf paddr) (fun p => p <| reference_cnt := reference_cnt p - 1 |>) s;
      Some (-1, s)
    else Some (0, s).

Definition page_fault (as_ addr access : Z) (s : vm) : option (Z * vm) :=
  let addr := ALIGN_DOWN addr PAGE_SIZE in
  match pmap_extract as_ addr s with
  | None => Some (-1, s)
  | Some (paddr, page_flags) =>
      if bool_decide (Z.land page_flags MEM_MASK = MEM_PHYS) then Some (-1, s)
      else if bool_decide (Z.land page_flags MEM_MASK <> MEM_ALLOC) then Some (-1, s)
      else if bool_decide (Z.land access PROT_WRITE = 0) then Some (-1, s)
      else if bool_decide (Z.land page_flags (Z.lor PROT_WRITE MAP_COW) = PROT_WRITE) then Some (-1, s)
      else if bool_decide (Z.land page_flags (Z.lor PROT_WRITE MAP_COW) <> Z.lor PROT_WRITE MAP_COW)
      then Some (-1, s)
      else
        pf ← pageframe s (pmap_pa_to_pf paddr);
        if bool_decide (reference_cnt pf > 1) then cow_copy as_ addr paddr page_flags s
        else if bool_decide (reference_cnt pf = 1) then cow_own as_ addr paddr page_flags s
        else None
  end.

(** ** Fork and cleanup of an address space *)

(** One page of the inner loop of [fork_address_space]; [false] for
    [goto cleanup]. *)
Definition fork_page (new_as old_as va : Z) (s : vm) : option (bool * vm) :=
  if negb (pmap_is_page_present old_as va s) then Some (true, s)
  else
    match pmap_extract old_as va s with
    | None => Some (false, s)
    | Some (pa, flags) =>
        if bool_decide (Z.land flags MEM_PHYS <> MEM_PHYS /\ Z.land flags PROT_WRITE <> 0) then
          let flags := Z.lor flags MAP_COW in
          '(r, s) ← pmap_protect old_as va flags s;
          if bool_decide (r <> 0) then Some (false, s)
          else
            '(r, s) ← pmap_enter new_as va pa flags s;
            if bool_decide (r <> 0) then Some (false, s)
            else
              s ← upd_pf (pmap_pa_to_pf pa) (fun p => p <| reference_cnt := reference_cnt p + 1 |>) s;
              Some (true, s)
        else if bool_decide (Z.land flags MEM_PHYS <> MEM_PHYS) then
          '(r, s) ← pmap_enter new_as va pa flags s;
          if bool_decide (r <> 0) then Some (false, s)
          else
            s ← upd_pf (pmap_pa_to_pf pa) (fun p => p <| reference_cnt := reference_cnt p + 1 |>) s;
            Some (true, s)
        else
          let flags := Z.lor MEM_PHYS (Z.lor PROT_READ PROT_WRITE) in
          '(r, s) ← pmap_enter new_as va pa flags s;
          Some (bool_decide (r = 0), s)
    end.

(** The inner loop over [n] pages from [va]. *)
Fixpoint fork_pages (n : nat) (new_as old_as va : Z) (s : vm) : option (bool * vm) :=
  match n with
  | O => Some (true, s)
  | S n =>
      '(ok, s) ← fork_page new_as old_as va s;
      if ok : bool then fork_pages n new_as old_as (va + PAGE_SIZE) s else Some (false, s)
  end.

(** The outer loop over [n] page tables from [vpt]. *)
Fixpoint fork_tables (n : nat) (new_as old_as vpt : Z) (s : vm) : option (bool * vm) :=
  match n with
  | O => Some (true, s)
  | S n =>
      if negb (pmap_is_pagetable_present old_as vpt s) then
        fork_tables n new_as old_as (vpt + PAGE_SIZE * N_PAGETABLE_PTE) s
      else
        '(ok, s) ← fork_pages (Z.to_nat N_PAGETABLE_PTE) new_as old_as vpt s;
        if ok : bool then fork_tables n new_as old_as (vpt + PAGE_SIZE * N_PAGETABLE_PTE) s
        else Some (false, s)
  end.

(** One page of [cleanup_address_space]. *)
Definition cleanup_page (as_ va : Z) (s : vm) : option vm :=
  if negb (pmap_is_page_present as_ va s) then Some s
  else
    match pmap_extract as_ va s with
    | None => Some s
    | Some (pa, flags) =>
        '(r, s) ← pmap_remove as_ va s;
        if bool_decide (r <> 0) then Some s
        else if bool_decide (Z.land flags MEM_PHYS = MEM_PHYS) then Some s
        else
          s ← upd_pf (pmap_pa_to_pf pa) (fun p => p <| reference_cnt := reference_cnt p - 1 |>) s;
          pf ← pageframe s (pmap_pa_to_pf pa);
          if bool_decide (reference_cnt pf = 0) then Some (free_pageframe (pmap_pa_to_pf pa) s) else Some s
    end.

Fixpoint cleanup_pages (n : nat) (as_ va : Z) (s : vm) : option vm :=
  match n with
  | O => Some s
  | S n => s ← cleanup_page as_ va s; cleanup_pages n as_ (va + PAGE_SIZE) s
  end.

Fixpoint cleanup_tables (n : nat) (as_ vpt : Z) (s : vm) : option vm :=
  match n with
  | O => Some s
  | S n =>
      if negb (pmap_is_pagetable_present as_ vpt s) then
        cleanup_tables n as_ (vpt + PAGE_SIZE * N_PAGETABLE_PTE) s
      else
        s ← cleanup_pages (Z.to_nat N_PAGETABLE_PTE) as_ vpt s;
        cleanup_tables n as_ (vpt + PAGE_SIZE * N_PAGETABLE_PTE) s
  end.

(** The segment table of an address space with all of user memory free: the
    entries after the ceiling keep their values. *)
Definition reset_segments (a : Segment.AddressSpace) : option Segment.AddressSpace :=
  let a := Segment.mkAS (Segment.segment_table a) 1 in
  a ← Segment.wr 0 (Z.lor VM_USER_BASE Segment.SEG_TYPE_FREE) a;
  Segment.wr 1 (Z.lor VM_USER_CEILING Segment.SEG_TYPE_CEILING) a.

(** [vpt] runs over the 1MB ranges up to and including the one that starts at
    the ceiling of user memory. *)
Definition cleanup_address_space (as_ : Z) (s : vms) : option vms :=
  m ← cleanup_tables (Z.to_nat (VM_USER_CEILING `div` (PAGE_SIZE * N_PAGETABLE_PTE) + 1)) as_ 0 (mmu s);
  a ← reset_segments (segments s as_);
  Some (mkVms m (<[as_ := a]> (segments s))).

Definition free_address_space (as_ : Z) (s : vms) : vms := s <| mmu := pmap_destroy as_ (mmu s) |>.

(** [for (t = 0; t <= segment_cnt; t++) new->segment_table[t] = old->segment_table[t]] *)
Definition copy_segments (new old : Segment.AddressSpace) : option Segment.AddressSpace :=
  let n := Z.to_nat (Segment.segment_cnt old + 1) in
  if bool_decide (Segment.segment_cnt old < Segment.NSEGMENT) then
    Some (Segment.mkAS (take n (Segment.segment_table old) ++ drop n (Segment.segment_table new))
            (Segment.segment_cnt old))
  else None.

Definition fork_address_space (new_as old_as : Z) (s : vms) : option (Z * vms) :=
  '(r, m) ← pmap_create new_as (mmu s);
  if bool_decide (r <> 0) then Some (-1, s <| mmu := m |>)
  else
    a ← copy_segments (segments s new_as) (segments s old_as);
    let segs := <[new_as := a]> (segments s) in
    '(ok, m) ← fork_tables (Z.to_nat (VM_USER_CEILING `div` (PAGE_SIZE * N_PAGETABLE_PTE))) new_as old_as 0 m;
    if ok : bool then Some (0, mkVms m segs)
    else
      s ← cleanup_address_space new_as (mkVms m segs);
      Some (-1, free_address_space new_as s).

(** ** System calls *)

Definition sys_virtualtophysaddr (as_ addr : Z) (s : vm) : Z :=
  let va := ALIGN_DOWN addr PAGE_SIZE in
  if negb (pmap_is_page_present as_ va s) then 0
  else match pmap_extract as_ va s with None => 0 | Some (pa, _) => pa end.

(** The loop of [sys_virtualalloc] over [n] pages from [va]: the address at
    which it stopped, with [false] for [goto cleanup]. *)
Fixpoint alloc_pages (n : nat) (as_ va flags : Z) (s : vm) : option (bool * Z * vm) :=
  match n with
  | O => Some (true, va, s)
  | S n =>
      '(r, s) ← alloc_pageframe PAGE_SIZE s;
      match r with
      | None => Some (false, va, s)
      | Some i =>
          pf ← pageframe s i;
          '(r, s) ← pmap_enter as_ va (physical_addr pf) flags s;
          if bool_decide (r <> 0) then Some (false, va, s)
          else
            s ← upd_pf i (fun p => p <| reference_cnt := 1 |>) s;
            alloc_pages n as_ (va + PAGE_SIZE) flags s
      end
  end.

(** The cleanup loops: [pmap_extract] is called with NULL for the flags and
    stores through it when the page is mapped. *)
Fixpoint unmap_pages (n : nat) (as_ va : Z) (s : vm) : option vm :=
  match n with
  | O => Some s
  | S n =>
      match pmap_extract as_ va s with
      | Some _ => None
      | None => unmap_pages n as_ (va + PAGE_SIZE) s
      end
  end.

(** The iterations of [for (va = addr; va < addr + len; va += PAGE_SIZE)]: none
    when the sum wraps around. *)
Definition npages (addr len : Z) : nat :=
  if bool_decide (addr < u32 (addr + len)) then Z.to_nat (len `div` PAGE_SIZE) else 0%nat.

(** The address of the region, 0 for NULL. *)
Definition sys_virtualalloc (as_ addr len flags : Z) (s : vms) : option (Z * vms) :=
  let addr := ALIGN_DOWN addr PAGE_SIZE in
  let len := ALIGN_UP len PAGE_SIZE in
  let flags := Z.lor (Z.ldiff flags VM_SYSTEM_MASK) MEM_ALLOC in
  '(addr, a) ← Segment.segment_create addr len Segment.SEG_TYPE_ALLOC flags (segments s as_);
  let s := s <| segments := <[as_ := a]> (segments s) |> in
  if bool_decide (addr = 0) then Some (0, s)
  else
    '(ok, va, m) ← alloc_pages (npages addr len) as_ addr flags (mmu s);
    if ok : bool then Some (addr, s <| mmu := m |>)
    else
      m ← unmap_pages (npages addr (va - addr)) as_ addr m;
      a ← Segment.segment_free addr len (segments s as_);
      Some (0, mkVms m (<[as_ := a]> (segments s))).

Fixpoint map_phys (n : nat) (as_ va pa flags : Z) (s : vm) : option (bool * Z * vm) :=
  match n with
  | O => Some (true, va, s)
  | S n =>
      '(r, s) ← pmap_enter as_ va pa flags s;
      if bool_decide (r <> 0) then Some (false, va, s)
      else map_phys n as_ (va + PAGE_SIZE) (u32 (pa + PAGE_SIZE)) flags s
  end.

Definition sys_virtualallocphys (as_ addr len flags paddr : Z) (s : vms) : option (Z * vms) :=
  let addr := ALIGN_DOWN addr PAGE_SIZE in
  let paddr := ALIGN_DOWN paddr PAGE_SIZE in
  let len := ALIGN_UP len PAGE_SIZE in
  let flags := Z.lor (Z.ldiff flags VM_SYSTEM_MASK) MEM_PHYS in
  '(addr, a) ← Segment.segment_create addr len Segment.SEG_TYPE_PHYS flags (segments s as_);
  let s := s <| segments := <[as_ := a]> (segments s) |> in
  if bool_decide (addr = 0) then Some (0, s)
  else
    '(ok, va, m) ← map_phys (npages addr len) as_ addr paddr flags (mmu s);
    if ok : bool then Some (addr, s <| mmu := m |>)
    else
      m ← unmap_pages (npages addr (va - addr)) as_ addr m;
      a ← Segment.segment_free addr len (segments s as_);
      Some (0, mkVms m (<[as_ := a]> (segments s))).

(** The result of [pmap_remove] is not looked at. *)
Fixpoint remove_pages (n : nat) (as_ va : Z) (s : vm) : option vm :=
  match n with
  | O => Some s
  | S n => '(_, s) ← pmap_remove as_ va s; remove_pages n as_ (va + PAGE_SIZE) s
  end.

Definition sys_virtualfree (as_ addr len : Z) (s : vms) : option (Z * vms) :=
  let addr := ALIGN_DOWN addr PAGE_SIZE in
  let len := ALIGN_UP len PAGE_SIZE in
  m ← remove_pages (npages addr len) as_ addr (mmu s);
  a ← Segment.segment_free addr len (segments s as_);
  Some (0, mkVms m (<[as_ := a]> (segments s))).

(** [sys_virtualprotect] returns 0 at once. *)
Definition sys_virtualprotect (as_ addr len flags : Z) (s : vms) : Z * vms := (0, s).

(** ** Flags *)

(** The page table entry of a mapping with these flags permits writes. *)
Definition writable (fl : Z) : Prop := Z.land fl PROT_WRITE <> 0 /\ Z.land fl MAP_COW = 0.
Definition is_alloc (fl : Z) : Prop := Z.land fl MEM_MASK = MEM_ALLOC.
Definition is_phys (fl : Z) : Prop := Z.land fl MEM_MASK = MEM_PHYS.

#[export] Instance writable_dec fl : Decision (writable fl).
Proof. unfold writable. apply _. Defined.
#[export] Instance is_alloc_dec fl : Decision (is_alloc fl).
Proof. unfold is_alloc. apply _. Defined.

Lemma writable_bits fl : writable fl <-> pmap_calc_pa_bits fl = Z.lor L2_TYPE_S L2_AP_RWKU.
Proof.
  unfold writable, pmap_calc_pa_bits. case_bool_decide as H; [done|]. split; [done|]. intros E. by vm_compute in E.
Qed.

Lemma land_ldiff x c m : Z.land (Z.ldiff x c) m = Z.land x (Z.ldiff m c).
Proof.
  apply Z.bits_inj'. intros i Hi. rewrite !Z.land_spec, !Z.ldiff_spec.
  by destruct (Z.testbit x i), (Z.testbit m i), (Z.testbit c i).
Qed.

(** A test with [m] does not see bits outside [m]. *)
Lemma land_lor_other x c m : Z.land c m = 0 -> Z.land (Z.lor x c) m = Z.land x m.
Proof. intros H. by rewrite Z.land_lor_distr_l, H, Z.lor_0_r. Qed.

Lemma clear_cow_land fl m :
  Z.land PROT_WRITE m = 0 -> Z.ldiff m MAP_COW = m -> Z.land (clear_cow fl) m = Z.land fl m.
Proof. intros H1 H2. unfold clear_cow. by rewrite land_ldiff, H2, land_lor_other. Qed.

Lemma clear_cow_mem fl : Z.land (clear_cow fl) MEM_MASK = Z.land fl MEM_MASK.
Proof. by apply clear_cow_land. Qed.

Lemma clear_cow_writable fl : writable (clear_cow fl).
Proof.
  unfold writable, clear_cow. rewrite !land_ldiff. split.
  - change (Z.ldiff PROT_WRITE MAP_COW) with PROT_WRITE. rewrite Z.land_lor_distr_l.
    change (Z.land PROT_WRITE PROT_WRITE) with PROT_WRITE. intros [_ H]%Z.lor_eq_0_iff. done.
  - change (Z.ldiff MAP_COW MAP_COW) with 0. apply Z.land_0_r.
Qed.

Lemma set_cow_mem fl : Z.land (Z.lor fl MAP_COW) MEM_MASK = Z.land fl MEM_MASK.
Proof. by apply land_lor_other. Qed.

Lemma set_cow_not_writable fl : ~ writable (Z.lor fl MAP_COW).
Proof.
  intros [_ H]. rewrite Z.land_lor_distr_l in H. by apply Z.lor_eq_0_iff in H as [_ H].
Qed.

Lemma alloc_not_phys fl : is_alloc fl -> Z.land fl MEM_PHYS <> MEM_PHYS.
Proof.
  unfold is_alloc. intros H Hp. assert (Z.land (Z.land fl MEM_MASK) MEM_PHYS = MEM_PHYS) as H2.
  { rewrite <- Z.land_assoc. exact Hp. }
  by rewrite H in H2.
Qed.

Lemma phys_is_phys fl : is_phys fl -> Z.land fl MEM_PHYS = MEM_PHYS.
Proof.
  unfold is_phys. intros H. change MEM_PHYS with (Z.land MEM_MASK MEM_PHYS) at 1.
  by rewrite Z.land_assoc, H.
Qed.

(** ** Counting the mappings of a page *)

Definition maps_page (p : Z) (o : option (Z * Z)) : Prop :=
  match o with Some (pa, fl) => pa = p * PAGE_SIZE /\ is_alloc fl | None => False end.
#[export] Instance maps_page_dec p o : Decision (maps_page p o).
Proof. destruct o as [[pa fl]|]; cbn; apply _. Defined.

Definition pages (A : list Z) : list (Z * Z) := A ≫= fun a => pair a <$> seqZ 0 (2 ^ 19).

Lemma elem_of_pages A a v : (a, v) ∈ pages A <-> a ∈ A /\ user_page v.
Proof.
  unfold pages, user_page. rewrite list_elem_of_bind. split.
  - intros (b & H1 & H2). apply list_elem_of_fmap in H1 as (w & E & Hw%elem_of_seqZ). simplify_eq.
    split; [done|lia].
  - intros [Ha Hv]. exists a. split; [|done]. apply list_elem_of_fmap. exists v. split; [done|].
    apply elem_of_seqZ. lia.
Qed.

Lemma NoDup_pages A : NoDup A -> NoDup (pages A).
Proof.
  intros H. unfold pages. apply NoDup_bind; [|intros a _|done].
  - intros a b [x y] _ _ H1 H2. apply list_elem_of_fmap in H1 as (? & ? & _), H2 as (? & ? & _). congruence.
  - apply NoDup_fmap; [intros ??; congruence|apply NoDup_seqZ].
Qed.

Definition refs (A : list Z) (s : vm) (p : Z) : Z :=
  Z.of_nat (length (filter (fun x => maps_page p (view s x.1 x.2)) (pages A))).

Definition counts (p : Z) (o : option (Z * Z)) : Z := if decide (maps_page p o) then 1 else 0.

Lemma refs_remap A s s' a v m p :
  NoDup A -> a ∈ A -> user_page v -> remaps A s s' a v m ->
  refs A s' p + counts p (view s a v) = refs A s p + counts p m.
Proof.
  intros Hn Ha Hv R. unfold refs, counts.
  assert (view s' a v = m) as <-.
  { rewrite R by done. by rewrite bool_decide_true. }
  pose proof (filter_update (fun x => maps_page p (view s x.1 x.2)) (fun x => maps_page p (view s' x.1 x.2))
    (pages A) (a, v) (NoDup_pages A Hn)) as H. cbn [fst snd] in H. apply H; [by apply elem_of_pages|].
  intros [a' v'] [Ha' Hv']%elem_of_pages Hne. cbn. rewrite R by done. by rewrite bool_decide_false.
Qed.

Lemma refs_ext A s s' p :
  (forall a v, a ∈ A -> user_page v -> view s' a v = view s a v) -> refs A s' p = refs A s p.
Proof.
  intros H. unfold refs. do 2 f_equal. apply filter_ext_in. intros [a v] [Ha Hv]%elem_of_pages. cbn.
  by rewrite H.
Qed.

Lemma refs_pos A s a v p : a ∈ A -> user_page v -> maps_page p (view s a v) -> 1 <= refs A s p.
Proof.
  intros Ha Hv Hm. unfold refs.
  assert ((a, v) ∈ filter (fun x => maps_page p (view s x.1 x.2)) (pages A)) as Hin.
  { apply list_elem_of_filter. split; [done|by apply elem_of_pages]. }
  destruct (filter _ _); [by apply elem_of_nil in Hin|]. simpl. lia.
Qed.

(** Two mappings of a page are counted twice. *)
Lemma refs_two A s a v a' v' p :
  NoDup A -> a ∈ A -> user_page v -> a' ∈ A -> user_page v' -> (a, v) <> (a', v') ->
  maps_page p (view s a v) -> maps_page p (view s a' v') -> 2 <= refs A s p.
Proof.
  intros Hn Ha Hv Ha' Hv' Hne H1 H2. unfold refs.
  set (l := filter _ _). assert (NoDup l) as Hnl by (apply NoDup_filter, NoDup_pages; done).
  assert ((a, v) ∈ l /\ (a', v') ∈ l) as [I1 I2].
  { unfold l. split; apply list_elem_of_filter; (split; [done|by apply elem_of_pages]). }
  destruct l as [|x [|y l]]; [by apply elem_of_nil in I1| |simpl; lia].
  apply list_elem_of_singleton in I1, I2. congruence.
Qed.

(** ** The invariant of the virtual memory system *)

Record vm_inv (A : list Z) (ow : Z -> role) (s : vm) : Prop := {
  vi_nodup : NoDup A;
  vi_pmap : pmap_inv A ow s;
  (** every mapping is of allocated or of physical memory, and not of page 0 *)
  vi_type a v pa fl : a ∈ A -> user_page v -> view s a v = Some (pa, fl) ->
    v <> 0 /\ (is_alloc fl \/ is_phys fl);
  (** a page has at least as many references as mappings *)
  vi_refs p : ow p = User -> refs A s p <= reference_cnt (pageframe_table s p);
  (** a page with two mappings is not writable through either *)
  vi_cow a v a' v' p fl : a ∈ A -> user_page v -> a' ∈ A -> user_page v' -> (a, v) <> (a', v') ->
    view s a v = Some (p * PAGE_SIZE, fl) -> is_alloc fl -> maps_page p (view s a' v') -> ~ writable fl
}.

Lemma remaps_trans A s1 s2 s3 a v m m' :
  remaps A s1 s2 a v m -> remaps A s2 s3 a v m' -> remaps A s1 s3 a v m'.
Proof.
  intros R1 R2 a' v' Ha' Hv'. rewrite R2, R1 by done. by case_bool_decide.
Qed.

Lemma remaps_same A s1 s2 s3 a v m :
  remaps A s1 s2 a v m -> (forall a v, a ∈ A -> user_page v -> view s3 a v = view s2 a v) ->
  remaps A s1 s3 a v m.
Proof. intros R1 H a' v' Ha' Hv'. by rewrite H, R1. Qed.

Lemma is_alloc_type fl : is_alloc fl -> Z.land fl MEM_MASK <> MEM_PHYS.
Proof. unfold is_alloc. intros ->. done. Qed.

(** A change of one mapping. *)
Lemma vm_inv_remap A ow s ow' s' a v m :
  vm_inv A ow s -> pmap_inv A ow' s' -> a ∈ A -> user_page v -> v <> 0 -> remaps A s s' a v m ->
  (forall pa fl, m = Some (pa, fl) -> is_alloc fl \/ is_phys fl) ->
  (forall p, ow' p = User ->
     refs A s p + counts p m - counts p (view s a v) <= reference_cnt (pageframe_table s' p)) ->
  (forall p fl a' v', m = Some (p * PAGE_SIZE, fl) -> is_alloc fl -> a' ∈ A -> user_page v' ->
     (a', v') <> (a, v) -> maps_page p (view s a' v') ->
     ~ writable fl /\ forall fl', view s a' v' = Some (p * PAGE_SIZE, fl') -> ~ writable fl') ->
  vm_inv A ow' s'.
Proof.
  intros V I' Ha Hv H0 R Ht Hr Hc. split; [apply V|done|..].
  - intros a' v' pa fl Ha' Hv' E. rewrite R in E by done. case_bool_decide as Heq.
    + simplify_eq. split; [done|]. by eapply Ht.
    + by eapply (vi_type _ _ _ V).
  - intros p Hp. pose proof (refs_remap A s s' a v m p (vi_nodup _ _ _ V) Ha Hv R).
    specialize (Hr p Hp). lia.
  - intros a1 v1 a2 v2 p fl Ha1 Hv1 Ha2 Hv2 Hne E1 Hal E2. rewrite R in E1, E2 by done.
    destruct (decide ((a1, v1) = (a, v))) as [B1|B1], (decide ((a2, v2) = (a, v))) as [B2|B2];
      [congruence|rewrite bool_decide_true in E1 by done; rewrite bool_decide_false in E2 by done
      |rewrite bool_decide_false in E1 by done; rewrite bool_decide_true in E2 by done
      |rewrite !bool_decide_false in E1, E2 by done].
    + by destruct (Hc p fl a2 v2) as [H _].
    + destruct m as [[pa fl2]|]; [|done]. destruct E2 as [-> Hal2].
      destruct (Hc p fl2 a1 v1) as [_ H]; try done; [|by apply H].
      cbn. rewrite E1. by split.
    + by apply (vi_cow _ _ _ V a1 v1 a2 v2 p fl).
Qed.

(** Changing reference counts of user pages. *)
Lemma upd_ref_ok A ow s p f :
  pmap_inv A ow s -> 0 <= p < max_pageframe s -> ow p = User ->
  (forall pf, pf_size (f pf) = pf_size pf /\ physical_addr (f pf) = physical_addr pf /\
     pf_flags (f pf) = pf_flags pf) ->
  exists s', upd_pf p f s = Some s' /\ pmap_inv A ow s' /\
    (forall a v, a ∈ A -> user_page v -> view s' a v = view s a v) /\ same_alloc s s' /\
    kmem s' = kmem s /\
    forall q, reference_cnt (pageframe_table s' q) =
      if bool_decide (q = p) then reference_cnt (f (pageframe_table s p))
      else reference_cnt (pageframe_table s q).
Proof.
  intros I Hp Hu Hf. rewrite upd_pf_ok by done. eexists. split; [done|].
  set (s' := s <| pageframe_table := _ |>).
  assert (same_alloc s s') as Sa.
  { split; try done. intros g. unfold s'. cbn [pageframe_table update_field].
    destruct (decide (g = p)) as [-> |]; [rewrite store_eq; apply Hf|by rewrite store_ne]. }
  assert (forall q, reference_cnt (pageframe_table s' q) =
      if bool_decide (q = p) then reference_cnt (f (pageframe_table s p))
      else reference_cnt (pageframe_table s q)) as Hr.
  { intros q. unfold s'. cbn [pageframe_table update_field]. case_bool_decide as Hq.
    - subst. by rewrite store_eq.
    - by rewrite store_ne. }
  destruct (inv_transfer I ow s') as (I' & _ & V'); try done.
  - by eapply same_alloc_inv; [|apply I].
  - exact (iv_free _ _ _ I).
  - intros a i g Ha Hg. rewrite Hr. rewrite bool_decide_false; [done|]. congruence.
Qed.

Lemma view_page A ow s a v pa fl :
  pmap_inv A ow s -> a ∈ A -> user_page v -> view s a v = Some (pa, fl) ->
  exists p, pa = p * PAGE_SIZE /\ 0 <= p < 2 ^ 20 /\
    (is_alloc fl -> 0 <= p < max_pageframe s /\ ow p = User).
Proof.
  intros I Ha Hv E. destruct (mapped_entry I a v (pa, fl) Ha Hv E) as (f & p & _ & _ & _ & Hp & Hm & _ & Hu).
  simplify_eq. exists p. split; [done|]. split; [done|]. intros Hal%is_alloc_type. destruct (Hu Hal).
  split; [lia|done].
Qed.

Lemma counts_page p q fl : is_alloc fl -> counts q (Some (p * PAGE_SIZE, fl)) = if bool_decide (q = p) then 1 else 0.
Proof.
  intros Hal. unfold counts. cbn. case_bool_decide as Hq.
  - subst. by rewrite decide_True.
  - rewrite decide_False; [done|]. intros [H _]. unfold PAGE_SIZE in H. lia.
Qed.

Lemma counts_None q : counts q None = 0.
Proof. unfold counts. rewrite decide_False; [done|]. intros []. Qed.

(** A frame that is not a user page is not mapped. *)
Lemma refs_other A ow s i : pmap_inv A ow s -> ow i <> User -> refs A s i = 0.
Proof.
  intros I Hi. unfold refs. replace (filter _ _) with (@nil (Z * Z)); [done|]. symmetry.
  apply elem_of_nil_inv. intros [a v] [Hm Hin%elem_of_pages]%list_elem_of_filter. cbn in Hm.
  destruct Hin as [Ha Hv]. destruct (view s a v) as [[pa fl]|] eqn:E; [|done]. destruct Hm as [-> Hal].
  destruct (view_page A ow s a v _ fl I Ha Hv E) as (q & Eq & _ & Hu). apply Hi.
  assert (q = i) as <- by (unfold PAGE_SIZE in *; lia). by apply Hu.
Qed.

Lemma pa_to_va_fva p : 0 <= p -> (p + 1) * PAGE_SIZE <= 2 ^ 31 -> pmap_pa_to_va (p * PAGE_SIZE) = fva p.
Proof. intros. rewrite pa_to_va_ok by (unfold PAGE_SIZE in *; lia). unfold fva. lia. Qed.

(** A user page taken from the allocator and filled from the page [p]. *)
Lemma copied_page A ow s i p s1 :
  pmap_inv A ow s -> allocated PAGE_SIZE 1 i s s1 -> ow p = User ->
  let s2 := memcpy (fva i) (fva p) PAGE_SIZE s1 in
  let ow' := claim (ow := ow) i 1 User in
  pmap_inv A ow' s2 /\ keeps ow s ow' s2 /\
  (forall a v, a ∈ A -> user_page v -> view s2 a v = view s a v) /\
  reference_cnt (pageframe_table s2 i) = 0 /\ 0 <= i < max_pageframe s2 /\ ow i = Free /\ ow' i = User /\
  forall o, 0 <= o < PAGE_SIZE -> kmem s2 (fva i + o) = kmem s (fva p + o).
Proof.
  intros I Al Hu s2 ow'. destruct (fresh_frame A ow s i s1 I Al) as (Hr & Hfree & _ & Href).
  destruct (inv_claim I PAGE_SIZE 1 i User s1 s2 Al) as (I2 & K2 & _ & V2); [lia|by split|..].
  { intros x Hx. unfold s2, memcpy. cbn. rewrite bool_decide_false; [done|].
    intros Hb. apply Hx. apply frame_of_iff in Hb. lia. }
  { done. }
  split_and!; try done; try apply Hr.
  - unfold ow', claim. by rewrite bool_decide_true by lia.
  - intros o Ho. unfold s2, memcpy. cbn. rewrite bool_decide_true by lia.
    replace (fva p + (fva i + o - fva i)) with (fva p + o) by lia.
    rewrite (al_kmem _ _ _ _ _ Al). rewrite bool_decide_false; [done|].
    intros Hb. assert (frame_of (fva p + o) = p) as Hf by (apply frame_of_fva; unfold PAGE_SIZE in *; lia).
    assert (i <= frame_of (fva p + o) < i + 1) by (by apply frame_of_block). assert (p = i) by lia. congruence.
Qed.

Section Fault.
Context {A : list Z} {ow : Z -> role} {s : vm}.
Hypothesis V : vm_inv A ow s.
Context (a v p fl : Z).
Hypothesis Ha : a ∈ A.
Hypothesis Hv : user_page v.
Hypothesis E : view s a v = Some (p * PAGE_SIZE, fl).
Hypothesis Hal : is_alloc fl.

Lemma fault_page : v <> 0 /\ 0 <= p < max_pageframe s /\ 0 <= p < 2 ^ 20 /\ ow p = User.
Proof using All.
  destruct (view_page A ow s a v _ fl (vi_pmap _ _ _ V) Ha Hv E) as (q & Eq & Hq & Hu).
  assert (q = p) as -> by (unfold PAGE_SIZE in *; lia). destruct (Hu Hal).
  by destruct (vi_type _ _ _ V a v _ fl Ha Hv E).
Qed.

(** The mapping is taken away and the reference with it. *)
Lemma unmapped_inv s' :
  pmap_inv A ow s' -> remaps A s s' a v None ->
  (forall q, ow q = User -> reference_cnt (pageframe_table s q) - (if bool_decide (q = p) then 1 else 0)
     <= reference_cnt (pageframe_table s' q)) ->
  vm_inv A ow s'.
Proof using All.
  intros I' R Hr. destruct fault_page as (H0 & _).
  apply (vm_inv_remap A ow s ow s' a v None); try done.
  intros q Hq. rewrite E, counts_None, counts_page by done. specialize (Hr q Hq).
  pose proof (vi_refs _ _ _ V q Hq). lia.
Qed.

(** Out of memory: the page is no longer mapped. *)
Record lost (ow' : Z -> role) (s' : vm) : Prop := {
  ls_inv : vm_inv A ow' s';
  ls_map : remaps A s s' a v None;
  ls_mem x : data (ow (frame_of x)) -> kmem s' x = kmem s x;
  ls_4k : free_4k_pf_list s' = [];
  ls_64k : free_64k_pf_list s' = []
}.

Lemma cow_own_ok :
  reference_cnt (pageframe_table s p) = 1 ->
  (exists ow' s', cow_own a (v * PAGE_SIZE) (p * PAGE_SIZE) fl s = Some (0, s') /\ vm_inv A ow' s' /\
     keeps ow s ow' s' /\ remaps A s s' a v (Some (p * PAGE_SIZE, clear_cow fl))) \/
  (exists s', cow_own a (v * PAGE_SIZE) (p * PAGE_SIZE) fl s = Some (-1, s') /\ lost ow s').
Proof using All.
  intros Hc. destruct fault_page as (H0 & Hr & Hp & Hu). pose proof (vi_pmap _ _ _ V) as I.
  unfold cow_own. destruct (remove_ok I a v _ Ha Hv H0 E) as (s1 & -> & I1 & K1 & R1 & S1).
  cbn [mbind option_bind]. rewrite bool_decide_false by (intros ?; done).
  assert (view s1 a v = None) as N1 by (rewrite R1 by done; by rewrite bool_decide_true).
  assert (is_alloc (clear_cow fl)) as Hal2 by (unfold is_alloc; by rewrite clear_cow_mem).
  destruct (enter_ok I1 a v p (clear_cow fl)) as [(ow2 & s2 & -> & I2 & K2 & R2 & U2)|(-> & H4 & H64)]; try done.
  - intros _. rewrite (kp_max _ _ _ _ K1). split; [lia|done].
  - left. cbn [mbind option_bind]. rewrite bool_decide_false by (intros ?; done).
    pose proof (keeps_trans _ _ _ _ _ _ K1 K2) as K.
    assert (remaps A s s2 a v (Some (p * PAGE_SIZE, clear_cow fl))) as R by (by eapply remaps_trans).
    exists ow2, s2. split; [done|]. split; [|done].
    apply (vm_inv_remap A ow s ow2 s2 a v (Some (p * PAGE_SIZE, clear_cow fl))); try done.
    + intros ?? [= <- <-]. by left.
    + intros q Hq%U2. rewrite E, !counts_page by done. rewrite (kp_ref _ _ _ _ K q Hq).
      pose proof (vi_refs _ _ _ V q Hq). lia.
    + intros p' fl' a' v' [= Ep <-] _ Ha' Hv' Hne Hm. exfalso.
      assert (p' = p) as -> by (unfold PAGE_SIZE in Ep; lia).
      assert (maps_page p (view s a v)) as Hm' by (by rewrite E).
      pose proof (refs_two A s a v a' v' p (vi_nodup _ _ _ V) Ha Hv Ha' Hv' ltac:(congruence) Hm' Hm).
      pose proof (vi_refs _ _ _ V p Hu). lia.
  - right. cbn [mbind option_bind]. rewrite bool_decide_true by done.
    unfold pmap_pa_to_pf. rewrite Z.div_mul by done.
    destruct (upd_ref_ok A ow s1 p (fun p => p <| reference_cnt := reference_cnt p - 1 |>))
      as (s2 & -> & I2 & V2 & S2 & M2 & Hr2); [done|by rewrite (kp_max _ _ _ _ K1)|done|done|].
    cbn [mbind option_bind]. exists s2. split; [done|].
    assert (remaps A s s2 a v None) as R by (by eapply remaps_same).
    split; [|done| |by rewrite (sa_4k _ _ S2)|by rewrite (sa_64k _ _ S2)].
    + apply unmapped_inv; [done|done|]. intros q Hq. rewrite Hr2. cbn [reference_cnt update_field].
      case_bool_decide; subst; rewrite (kp_ref _ _ _ _ K1) by done; lia.
    + intros x Hx. rewrite M2. by apply (kp_mem _ _ _ _ K1).
Qed.

(** The page is replaced by a copy in the fresh frame [i]. *)
Record copied (ow' : Z -> role) (s' : vm) (i : Z) : Prop := {
  cp_inv : vm_inv A ow' s';
  cp_fresh : ow i = Free;
  cp_role f : ow f <> Free -> ow' f = ow f;
  cp_map : remaps A s s' a v (Some (i * PAGE_SIZE, clear_cow fl));
  cp_copy o : 0 <= o < PAGE_SIZE -> kmem s' (fva i + o) = kmem s (fva p + o);
  cp_mem x : data (ow (frame_of x)) -> kmem s' x = kmem s x;
  cp_ref : reference_cnt (pageframe_table s' p) = reference_cnt (pageframe_table s p) - 1
}.

(** The reference and the mapping are gone. *)
Record released (s1 : vm) : Prop := {
  rl_inv : pmap_inv A ow s1;
  rl_map : remaps A s s1 a v None;
  rl_max : max_pageframe s1 = max_pageframe s;
  rl_ref q : ow q = User -> reference_cnt (pageframe_table s1 q) =
    reference_cnt (pageframe_table s q) - (if bool_decide (q = p) then 1 else 0);
  rl_mem x : data (ow (frame_of x)) -> kmem s1 x = kmem s x
}.

Lemma release_ok :
  exists s0 s1,
    upd_pf p (fun p => p <| reference_cnt := reference_cnt p - 1 |>) s = Some s0 /\
    pmap_remove a (v * PAGE_SIZE) s0 = Some (0, s1) /\ released s1.
Proof using All.
  destruct fault_page as (H0 & Hr & Hp & Hu). pose proof (vi_pmap _ _ _ V) as I.
  destruct (upd_ref_ok A ow s p (fun p => p <| reference_cnt := reference_cnt p - 1 |>))
    as (s0 & E0 & I0 & V0 & S0 & M0 & Hr0); [done..|].
  destruct (remove_ok I0 a v (p * PAGE_SIZE, fl) Ha Hv H0) as (s1 & E1 & I1 & K1 & R1 & S1).
  { by rewrite V0. }
  exists s0, s1. split; [done|]. split; [done|]. split; [done|..].
  - intros a' v' Ha' Hv'. rewrite R1 by done. by rewrite V0.
  - by rewrite (sa_max _ _ S1), (sa_max _ _ S0).
  - intros q Hq. rewrite (kp_ref _ _ _ _ K1), Hr0 by done. cbn [reference_cnt update_field].
    case_bool_decide; subst; lia.
  - intros x Hx. rewrite (kp_mem _ _ _ _ K1) by done. by rewrite M0.
Qed.

(** The copy in the frame [i] is mapped and referenced. *)
Lemma copy_mapped s1 i s2 ow4 s4 :
  released s1 -> allocated PAGE_SIZE 1 i s1 s2 ->
  let s3 := memcpy (fva i) (fva p) PAGE_SIZE s2 in
  let ow3 := claim (ow := ow) i 1 User in
  pmap_inv A ow4 s4 -> keeps ow3 s3 ow4 s4 ->
  remaps A s3 s4 a v (Some (i * PAGE_SIZE, clear_cow fl)) -> (forall g, ow4 g = User -> ow3 g = User) ->
  exists s5, upd_pf i (fun p => p <| reference_cnt := reference_cnt p + 1 |>) s4 = Some s5 /\ copied ow4 s5 i.
Proof using All.
  intros Rl Al s3 ow3 I4 K4 R4 U4. destruct fault_page as (H0 & Hr & Hp & Hu).
  destruct (copied_page A ow s1 i p s2 (rl_inv _ Rl) Al Hu) as (I3 & K3 & V3 & Rf3 & Hi & Hf & Hu3 & C3).
  fold s3 in I3, K3, V3, Rf3, Hi, C3. fold ow3 in I3, K3, Hu3.
  assert (ow4 i = User) as Hu4 by (rewrite (kp_role _ _ _ _ K4), Hu3 by congruence; done).
  destruct (upd_ref_ok A ow4 s4 i (fun p => p <| reference_cnt := reference_cnt p + 1 |>))
    as (s5 & E5 & I5 & V5 & S5 & M5 & Hr5); [done|by rewrite (kp_max _ _ _ _ K4)|done|done|].
  exists s5. split; [done|]. assert (p <> i) as Hpi by congruence.
  assert (is_alloc (clear_cow fl)) as Hal2 by (unfold is_alloc; by rewrite clear_cow_mem).
  assert (remaps A s s5 a v (Some (i * PAGE_SIZE, clear_cow fl))) as R5.
  { eapply remaps_same; [|done]. eapply remaps_trans; [|exact R4]. eapply remaps_same; [apply Rl|done]. }
  assert (forall q, ow q = User -> q <> i -> reference_cnt (pageframe_table s5 q) =
    reference_cnt (pageframe_table s q) - (if bool_decide (q = p) then 1 else 0)) as Hr'.
  { intros q Hq Hqi. rewrite Hr5, bool_decide_false by done.
    rewrite (kp_ref _ _ _ _ K4), (kp_ref _ _ _ _ K3) by (done || by rewrite (kp_role _ _ _ _ K3), Hq by congruence).
    by apply Rl. }
  split; try done.
  - apply (vm_inv_remap A ow s ow4 s5 a v (Some (i * PAGE_SIZE, clear_cow fl))); try done.
    + intros ?? [= <- <-]. by left.
    + intros q Hq%U4. rewrite E, !counts_page by done. destruct (decide (q = i)) as [-> |Hqi].
      * rewrite Hr5, !bool_decide_true, bool_decide_false by (done || congruence). cbn [reference_cnt update_field].
        rewrite (kp_ref _ _ _ _ K4), Rf3 by done.
        rewrite (refs_other A ow s i (vi_pmap _ _ _ V)) by congruence. lia.
      * assert (ow q = User) as Hq' by (revert Hq; unfold ow3, claim; by rewrite bool_decide_false by lia).
        rewrite Hr' by done. pose proof (vi_refs _ _ _ V q Hq'). by rewrite (bool_decide_false (q = i)) by done; lia.
    + intros p' fl' a' v' [= Ep <-] _ Ha' Hv' Hne Hm. exfalso.
      assert (p' = i) as -> by (unfold PAGE_SIZE in Ep; lia).
      pose proof (refs_pos A s a' v' i Ha' Hv' Hm).
      rewrite (refs_other A ow s i (vi_pmap _ _ _ V)) in H by congruence. lia.
  - intros f Hfr. rewrite (kp_role _ _ _ _ K4); rewrite (kp_role _ _ _ _ K3); done.
  - intros o Ho. rewrite M5, (kp_mem _ _ _ _ K4), C3 by
      (done || by left; rewrite frame_of_fva by (unfold PAGE_SIZE in *; lia)).
    apply Rl. left. by rewrite frame_of_fva by (unfold PAGE_SIZE in *; lia).
  - intros x Hx. rewrite M5, (kp_mem _ _ _ _ K4), (kp_mem _ _ _ _ K3) by
      (done || by rewrite (kp_role _ _ _ _ K3) by (destruct Hx; congruence)). by apply Rl.
  - rewrite Hr' by done. by rewrite bool_decide_true.
Qed.

Lemma released_lost s1 :
  released s1 -> free_4k_pf_list s1 = [] -> free_64k_pf_list s1 = [] -> lost ow s1.
Proof using All.
  intros Rl H4 H64. split; try apply Rl; try done. apply unmapped_inv; [apply Rl|apply Rl|].
  intros q Hq. rewrite (rl_ref _ Rl) by done. lia.
Qed.

Lemma copy_lost s1 i s2 :
  released s1 -> allocated PAGE_SIZE 1 i s1 s2 ->
  let s3 := memcpy (fva i) (fva p) PAGE_SIZE s2 in
  free_4k_pf_list s3 = [] -> free_64k_pf_list s3 = [] -> lost (claim (ow := ow) i 1 User) s3.
Proof using All.
  intros Rl Al s3 H4 H64. destruct fault_page as (H0 & Hr & Hp & Hu).
  destruct (copied_page A ow s1 i p s2 (rl_inv _ Rl) Al Hu) as (I3 & K3 & V3 & Rf3 & Hi & Hf & Hu3 & C3).
  fold s3 in I3, K3, V3, Rf3, Hi, C3.
  assert (remaps A s s3 a v None) as R3 by (eapply remaps_same; [apply Rl|done]).
  split; try done.
  - apply (vm_inv_remap A ow s _ s3 a v None); try done.
    intros q Hq. rewrite counts_None, E, counts_page by done. destruct (decide (q = i)) as [-> |Hqi].
    + rewrite Rf3, (refs_other A ow s i (vi_pmap _ _ _ V)) by congruence. case_bool_decide; lia.
    + assert (ow q = User) as Hq' by (revert Hq; unfold claim; by rewrite bool_decide_false by lia).
      rewrite (kp_ref _ _ _ _ K3), (rl_ref _ Rl) by done. pose proof (vi_refs _ _ _ V q Hq'). lia.
  - intros x Hx. rewrite (kp_mem _ _ _ _ K3) by done. by apply Rl.
Qed.

Lemma cow_copy_ok :
  reference_cnt (pageframe_table s p) > 1 ->
  (exists ow' s' i, cow_copy a (v * PAGE_SIZE) (p * PAGE_SIZE) fl s = Some (0, s') /\ copied ow' s' i) \/
  (exists ow' s', cow_copy a (v * PAGE_SIZE) (p * PAGE_SIZE) fl s = Some (-1, s') /\ lost ow' s').
Proof using All.
  intros Hc. destruct fault_page as (H0 & Hr & Hp & Hu). pose proof (vi_pmap _ _ _ V) as I.
  unfold cow_copy, pmap_pa_to_pf. rewrite Z.div_mul by done.
  destruct release_ok as (s0 & s1 & -> & E1 & Rl). cbn [mbind option_bind]. rewrite E1.
  cbn [mbind option_bind]. rewrite bool_decide_false by (intros ?; done).
  pose proof (rl_inv _ Rl) as I1.
  destruct (alloc_pageframe_ok s1 1 (iv_alloc _ _ _ I1)) as [(i & s2 & Eal & Al)|(Eal & H4 & H64)];
    [by left| |]; change (1 * PAGE_SIZE) with PAGE_SIZE in *; rewrite Eal; cbn [mbind option_bind].
  2:{ right. exists ow, s1. split; [done|]. by apply released_lost. }
  destruct (copied_page A ow s1 i p s2 I1 Al Hu) as (I3 & K3 & V3 & Rf3 & Hi & Hf & Hu3 & C3).
  rewrite pageframe_ok by (exact Hi). cbn [mbind option_bind].
  rewrite (al_pf _ _ _ _ _ Al). cbn [physical_addr].
  pose proof (max_bound I) as Hmx. pose proof (rl_max _ Rl) as Em1. pose proof (kp_max _ _ _ _ K3) as Em3.
  rewrite !pa_to_va_fva by (unfold PAGE_SIZE in *; lia).
  destruct (enter_ok I3 a v i (clear_cow fl)) as [(ow4 & s4 & -> & I4 & K4 & R4 & U4)|(-> & H4 & H64)]; try done.
  - unfold PAGE_SIZE in *. lia.
  - intros _. split; [apply Hi|done].
  - rewrite V3 by done. rewrite (rl_map _ Rl) by done. by rewrite bool_decide_true.
  - left. cbn [mbind option_bind]. rewrite bool_decide_false by (intros ?; done).
    destruct (copy_mapped s1 i s2 ow4 s4 Rl Al I4 K4 R4 U4) as (s5 & -> & Cp).
    cbn [mbind option_bind]. by exists ow4, s5, i.
  - right. cbn [mbind option_bind]. rewrite bool_decide_true by done.
    eexists _, _. split; [done|]. by apply (copy_lost s1 i s2).
Qed.
End Fault.

(** The fault is a write to a shared page. *)
Definition cow_fault (access : Z) (m : option (Z * Z)) : Prop :=
  match m with
  | Some (_, fl) => is_alloc fl /\ Z.land access PROT_WRITE <> 0 /\
      Z.land fl (Z.lor PROT_WRITE MAP_COW) = Z.lor PROT_WRITE MAP_COW
  | None => False
  end.

Lemma page_fault_ok A ow s a v off access :
  vm_inv A ow s -> a ∈ A -> user_page v -> 0 <= off < PAGE_SIZE ->
  (~ cow_fault access (view s a v) /\ page_fault a (v * PAGE_SIZE + off) access s = Some (-1, s)) \/
  (exists p fl, view s a v = Some (p * PAGE_SIZE, fl) /\ cow_fault access (view s a v) /\
    ((exists ow' s', page_fault a (v * PAGE_SIZE + off) access s = Some (0, s') /\
        reference_cnt (pageframe_table s p) = 1 /\ vm_inv A ow' s' /\ keeps ow s ow' s' /\
        remaps A s s' a v (Some (p * PAGE_SIZE, clear_cow fl))) \/
     (exists ow' s' i, page_fault a (v * PAGE_SIZE + off) access s = Some (0, s') /\
        reference_cnt (pageframe_table s p) > 1 /\
        copied (A := A) (ow := ow) (s := s) a v p fl ow' s' i) \/
     (exists ow' s', page_fault a (v * PAGE_SIZE + off) access s = Some (-1, s') /\
        lost (A := A) (ow := ow) (s := s) a v ow' s'))).
Proof.
  intros V Ha Hv Ho. unfold page_fault, ALIGN_DOWN.
  assert ((v * PAGE_SIZE + off) `mod` PAGE_SIZE = off) as ->.
  { rewrite Z.add_comm, Z.mod_add by done. by apply Z.mod_small. }
  replace (v * PAGE_SIZE + off - off) with (v * PAGE_SIZE) by lia. fold (view s a v).
  destruct (view s a v) as [[pa fl]|] eqn:E; [|left; split; [|done]; tauto].
  destruct (vi_type _ _ _ V a v pa fl Ha Hv E) as [H0 Hty].
  destruct (view_page A ow s a v pa fl (vi_pmap _ _ _ V) Ha Hv E) as (p & -> & Hp & Hu).
  case_bool_decide as Hph.
  { left. split; [|done]. intros [Hal _]. unfold is_alloc in Hal. rewrite Hal in Hph. done. }
  case_bool_decide as Hal; [left; split; [|done]; by intros [? _]|].
  assert (is_alloc fl) as Hal' by (by destruct Hty). clear Hal Hph Hty. rename Hal' into Hal.
  case_bool_decide as Hw; [left; split; [|done]; by intros (_ & ? & _)|].
  case_bool_decide as Hc1; [left; split; [|done]; intros (_ & _ & H); by rewrite H in Hc1|].
  case_bool_decide as Hc2; [left; split; [|done]; by intros (_ & _ & H)|].
  right. exists p, fl. split; [done|]. split; [done|].
  destruct (Hu Hal) as [Hr Hus]. unfold pmap_pa_to_pf. rewrite Z.div_mul by done.
  rewrite pageframe_ok by done. cbn [mbind option_bind].
  pose proof (vi_refs _ _ _ V p Hus) as Hrf.
  pose proof (refs_pos A s a v p Ha Hv ltac:(by rewrite E)) as Hpos.
  case_bool_decide as H2.
  - right. destruct (cow_copy_ok V a v p fl Ha Hv E Hal H2) as [(ow' & s' & i & Ec & Cp)|(ow' & s' & Ec & L)].
    + left. by exists ow', s', i.
    + right. by exists ow', s'.
  - rewrite bool_decide_true by lia.
    destruct (cow_own_ok V a v p fl Ha Hv E Hal) as [(ow' & s' & Ec & V' & K & R)|(s' & Ec & L)]; [lia|..].
    + left. exists ow', s'. split_and!; try done. lia.
    + right. right. by exists ow, s'.
Qed.

(** ** Cleanup *)

(** What keeps user memory: roles of frames in use and the contents of pages. *)
Record memory_kept (ow : Z -> role) (s : vm) (ow' : Z -> role) (s' : vm) : Prop := {
  mk_role f : ow f <> Free -> ow' f = ow f;
  mk_mem x : data (ow (frame_of x)) -> kmem s' x = kmem s x;
  mk_max : max_pageframe s' = max_pageframe s;
  mk_l1 : l1_table s' = l1_table s
}.

Lemma memory_kept_refl ow s : memory_kept ow s ow s.
Proof. by split. Qed.

Lemma memory_kept_trans ow1 s1 ow2 s2 ow3 s3 :
  memory_kept ow1 s1 ow2 s2 -> memory_kept ow2 s2 ow3 s3 -> memory_kept ow1 s1 ow3 s3.
Proof.
  intros H1 H2. split.
  - intros f Hf. rewrite (mk_role _ _ _ _ H2); rewrite (mk_role _ _ _ _ H1); done.
  - intros x Hx. rewrite (mk_mem _ _ _ _ H2); [by apply H1|]. by rewrite (mk_role _ _ _ _ H1) by (destruct Hx; congruence).
  - etrans; [apply H2|apply H1].
  - etrans; [apply H2|apply H1].
Qed.

Lemma keeps_memory ow s ow' s' : keeps ow s ow' s' -> memory_kept ow s ow' s'.
Proof. intros K. split; apply K. Qed.

Lemma same_memory ow s s' : same_alloc s s' -> kmem s' = kmem s -> memory_kept ow s ow s'.
Proof. intros S E. split; [done|by rewrite E|apply S|apply S]. Qed.

Lemma maps_phys A ow s a v pa fl q :
  vm_inv A ow s -> view s a v = Some (pa, fl) -> ~ is_alloc fl -> counts q (view s a v) = 0.
Proof. intros V -> Hf. unfold counts. rewrite decide_False; [done|]. by intros [_ ?]. Qed.

Lemma cleanup_page_ok A ow s a v :
  vm_inv A ow s -> a ∈ A -> user_page v ->
  exists s', cleanup_page a (v * PAGE_SIZE) s = Some s' /\ vm_inv A ow s' /\
    remaps A s s' a v None /\ memory_kept ow s ow s'.
Proof.
  intros V Ha Hv. pose proof (vi_pmap _ _ _ V) as I. unfold cleanup_page.
  rewrite is_page_present_view. fold (view s a v).
  destruct (view s a v) as [[pa fl]|] eqn:E.
  2:{ rewrite bool_decide_false by (by intros []). cbn [negb]. exists s. split_and!; try done.
      intros a' v' Ha' Hv'. case_bool_decide; by simplify_eq. }
  rewrite bool_decide_true by done. cbn [negb].
  destruct (vi_type _ _ _ V a v pa fl Ha Hv E) as [H0 Hty].
  destruct (view_page A ow s a v pa fl I Ha Hv E) as (p & -> & Hp & Hu).
  destruct (remove_ok I a v _ Ha Hv H0 E) as (s1 & -> & I1 & K1 & R1 & S1).
  cbn [mbind option_bind]. rewrite bool_decide_false by (intros ?; done).
  destruct (decide (is_alloc fl)) as [Hal|Hal].
  - destruct (Hu Hal) as [Hr Hus]. rewrite bool_decide_false by (by apply alloc_not_phys).
    unfold pmap_pa_to_pf. rewrite Z.div_mul by done.
    destruct (upd_ref_ok A ow s1 p (fun p => p <| reference_cnt := reference_cnt p - 1 |>))
      as (s2 & -> & I2 & V2 & S2 & M2 & Hr2); [done|by rewrite (kp_max _ _ _ _ K1)|done|done|].
    cbn [mbind option_bind].
    rewrite pageframe_ok by (by rewrite (sa_max _ _ S2), (kp_max _ _ _ _ K1)). cbn [mbind option_bind].
    exists s2. split; [by case_bool_decide|].
    assert (remaps A s s2 a v None) as R by (by eapply remaps_same). split_and!; [|done|].
    + apply (unmapped_inv V a v p fl Ha Hv E Hal); [done|done|]. intros q Hq. rewrite Hr2.
      cbn [reference_cnt update_field]. case_bool_decide; subst; rewrite (kp_ref _ _ _ _ K1) by done; lia.
    + eapply memory_kept_trans; [by apply keeps_memory|by apply same_memory].
  - rewrite bool_decide_true by (by apply phys_is_phys; destruct Hty).
    exists s1. split; [done|]. split_and!; [|done|by apply keeps_memory].
    apply (vm_inv_remap A ow s ow s1 a v None); try done. intros q Hq.
    rewrite (maps_phys A ow s a v _ fl q V E Hal), counts_None, (kp_ref _ _ _ _ K1) by done.
    pose proof (vi_refs _ _ _ V q Hq). lia.
Qed.

(** All pages of [a] in a range are unmapped, and nothing else. *)
Definition unmapped_range (A : list Z) (s s' : vm) (a lo hi : Z) : Prop :=
  forall a' v, a' ∈ A -> user_page v ->
    view s' a' v = if bool_decide (a' = a /\ lo <= v < hi) then None else view s a' v.

Lemma remaps_range A s s' a v : remaps A s s' a v None -> unmapped_range A s s' a v (v + 1).
Proof.
  intros R a' v' Ha' Hv'. rewrite R by done.
  assert (a' = a /\ v <= v' < v + 1 <-> (a', v') = (a, v)) as Hiff.
  { split; [intros [-> ?]; f_equal; lia|intros [= -> ->]; lia]. }
  by rewrite (bool_decide_ext _ _ Hiff).
Qed.

Lemma range_join A s1 s2 s3 a lo mid hi :
  unmapped_range A s1 s2 a lo mid -> unmapped_range A s2 s3 a mid hi -> lo <= mid <= hi ->
  unmapped_range A s1 s3 a lo hi.
Proof.
  intros R1 R2 Hm a' v' Ha' Hv'. rewrite R2, R1 by done. repeat case_bool_decide; done || lia.
Qed.

Lemma range_empty A s a lo : unmapped_range A s s a lo lo.
Proof. intros a' v' Ha' Hv'. by rewrite bool_decide_false by lia. Qed.

Lemma cleanup_pages_ok A ow a n : forall s v,
  vm_inv A ow s -> a ∈ A -> 0 <= v -> v + Z.of_nat n <= 2 ^ 19 ->
  exists s', cleanup_pages n a (v * PAGE_SIZE) s = Some s' /\ vm_inv A ow s' /\
    unmapped_range A s s' a v (v + Z.of_nat n) /\ memory_kept ow s ow s'.
Proof.
  induction n as [|n IH]; intros s v V Ha Hv Hn.
  - exists s. rewrite Z.add_0_r. split_and!; try done. apply range_empty.
  - cbn [cleanup_pages]. destruct (cleanup_page_ok A ow s a v V Ha) as (s1 & -> & V1 & R1 & M1).
    { unfold user_page. lia. }
    cbn [mbind option_bind]. replace (v * PAGE_SIZE + PAGE_SIZE) with ((v + 1) * PAGE_SIZE) by lia.
    destruct (IH s1 (v + 1) V1 Ha) as (s2 & -> & V2 & R2 & M2); [lia|lia|].
    exists s2. split_and!; try done; [|by eapply memory_kept_trans].
    apply remaps_range in R1. replace (v + Z.of_nat (S n)) with (v + 1 + Z.of_nat n) by lia.
    eapply range_join; [done|done|lia].
Qed.

Lemma table_absent A ow s a i v :
  pmap_inv A ow s -> a ∈ A -> 0 <= i < 2048 -> pmap_is_pagetable_present a (i * 256 * PAGE_SIZE) s = false ->
  i * 256 <= v < (i + 1) * 256 -> view s a v = None.
Proof.
  intros I Ha Hi Hp Hv. unfold pmap_is_pagetable_present in Hp. apply negb_false_iff in Hp.
  assert (user_page v) as Hu by (unfold user_page; lia).
  assert (v `div` 256 = i) as Ev.
  { symmetry. apply (Z.div_unique v 256 i (v - i * 256)); lia. }
  unfold view, pmap_extract.
  replace (pde_at (l1_table s a) (v * PAGE_SIZE)) with (pde_at (l1_table s a) (i * 256 * PAGE_SIZE)).
  - by rewrite Hp.
  - unfold pde_at. unfold user_page in Hu. rewrite !pde_idx_page by lia. by rewrite Z.div_mul, Ev.
Qed.

Lemma cleanup_tables_ok A ow a n : forall s i,
  vm_inv A ow s -> a ∈ A -> 0 <= i -> i + Z.of_nat n <= 2048 ->
  exists s', cleanup_tables n a (i * 256 * PAGE_SIZE) s = Some s' /\ vm_inv A ow s' /\
    unmapped_range A s s' a (i * 256) ((i + Z.of_nat n) * 256) /\ memory_kept ow s ow s'.
Proof.
  induction n as [|n IH]; intros s i V Ha Hi Hn.
  - exists s. rewrite Z.add_0_r. split_and!; try done. apply range_empty.
  - cbn [cleanup_tables].
    replace (i * 256 * PAGE_SIZE + PAGE_SIZE * N_PAGETABLE_PTE) with ((i + 1) * 256 * PAGE_SIZE)
      by (unfold N_PAGETABLE_PTE; lia).
    destruct (pmap_is_pagetable_present a (i * 256 * PAGE_SIZE) s) eqn:Ep; cbn [negb].
    + destruct (cleanup_pages_ok A ow a (Z.to_nat N_PAGETABLE_PTE) s (i * 256) V Ha)
        as (s1 & -> & V1 & R1 & M1); [lia|unfold N_PAGETABLE_PTE; lia|]. cbn [mbind option_bind].
      destruct (IH s1 (i + 1) V1 Ha) as (s2 & -> & V2 & R2 & M2); [lia|lia|].
      exists s2. split_and!; try done; [|by eapply memory_kept_trans].
      change (Z.of_nat (Z.to_nat N_PAGETABLE_PTE)) with 256 in R1.
      replace (i + Z.of_nat (S n)) with (i + 1 + Z.of_nat n) by lia.
      eapply range_join; [|done|lia]. by replace ((i + 1) * 256) with (i * 256 + 256) by lia.
    + destruct (IH s (i + 1) V Ha) as (s2 & -> & V2 & R2 & M2); [lia|lia|].
      exists s2. split_and!; try done. replace (i + Z.of_nat (S n)) with (i + 1 + Z.of_nat n) by lia.
      eapply range_join; [|done|lia]. intros a' v' Ha' Hv'. case_bool_decide as Hr; [|done].
      destruct Hr as [-> Hr]. apply (table_absent A ow s a i v' (vi_pmap _ _ _ V)); done || lia.
Qed.

Lemma reset_segments_ok a :
  length (Segment.segment_table a) = 32%nat ->
  exists a', reset_segments a = Some a' /\
    Segment.rep a' [(Segment.VM_USER_BASE, Segment.SEG_TYPE_FREE)] /\
    Segment.wf_segs [(Segment.VM_USER_BASE, Segment.SEG_TYPE_FREE)].
Proof.
  intros Hl. destruct a as [t c]. cbn in Hl. do 2 (destruct t as [|? t]; [done|]).
  unfold reset_segments. cbn [Segment.segment_table].
  rewrite (Segment.wr_lookup _ 0) by (cbn; lia). cbn [mbind option_bind].
  rewrite (Segment.wr_lookup _ 1) by (cbn; lia). eexists. split; [reflexivity|]. split.
  - split; [done|done|]. intros i s Hi. pose proof (lookup_lt_Some _ _ _ Hi) as Hlt. simpl in Hlt.
    do 2 (destruct i as [|i]; [by simplify_eq/=|]). lia.
  - split; [|by intros [|i] [|j]; [lia|..]|done].
    intros s ->%list_elem_of_singleton. by split_and!.
Qed.

Lemma cleanup_ok A ow s a :
  vm_inv A ow (mmu s) -> a ∈ A -> length (Segment.segment_table (segments s a)) = 32%nat ->
  exists s', cleanup_address_space a s = Some s' /\ vm_inv A ow (mmu s') /\
    unmapped_range A (mmu s) (mmu s') a 0 0x7F100 /\ memory_kept ow (mmu s) ow (mmu s') /\
    Segment.rep (segments s' a) [(Segment.VM_USER_BASE, Segment.SEG_TYPE_FREE)] /\
    forall a', a' <> a -> segments s' a' = segments s a'.
Proof.
  intros V Ha Hl. unfold cleanup_address_space.
  destruct (cleanup_tables_ok A ow a 2033 (mmu s) 0 V Ha) as (m & Em & V' & R & M); [lia|lia|].
  change (Z.to_nat _) with 2033%nat. change (0 * 256 * PAGE_SIZE) with 0 in Em. rewrite Em.
  cbn [mbind option_bind]. destruct (reset_segments_ok _ Hl) as (sg & -> & Hrep & _).
  cbn [mbind option_bind]. eexists. split; [done|]. cbn [mmu segments].
  split_and!; [done|exact R|done|by rewrite fn_lookup_insert|].
  intros a' Hne. by rewrite fn_lookup_insert_ne.
Qed.

(** ** Fork *)

(** There is no frame for a page table, and none for a page directory. *)
Definition no_page (s : vm) : Prop := free_4k_pf_list s = [] /\ free_64k_pf_list s = [].
Definition no_pagedir (s : vm) : Prop := free_16k_pf_list s = [] /\ free_64k_pf_list s = [].

Ltac opt_inv :=
  repeat match goal with
  | H : Some _ = Some _ |- _ => injection H as ?; subst
  | H : None = Some _ |- _ => discriminate H
  | H : (if ?b then _ else _) = Some _ |- _ => destruct b
  | H : (let '(_, _) := ?x in _) = Some _ |- _ => destruct x
  | H : match ?x with Some _ => _ | None => _ end = Some _ |- _ => destruct x eqn:?
  | H : mbind _ ?x = Some _ |- _ => destruct x eqn:?; cbn [mbind option_bind] in H
  end.

(** Cleaning up an address space gives no frame back to the free lists. *)
Lemma upd_pf_no_page i f s s' : upd_pf i f s = Some s' -> no_page s -> no_page s'.
Proof. unfold upd_pf. intros E. by opt_inv. Qed.

Lemma remove_no_page a va s r s' : pmap_remove a va s = Some (r, s') -> no_page s -> no_page s'.
Proof.
  unfold pmap_remove, vpte_rem_entry. intros E N. opt_inv; try done;
    repeat match goal with H : upd_pf _ _ _ = Some _ |- _ => apply upd_pf_no_page in H; [|done] end; done.
Qed.

Lemma cleanup_page_no_page a va s s' : cleanup_page a va s = Some s' -> no_page s -> no_page s'.
Proof.
  unfold cleanup_page. intros E N. opt_inv; try done;
    repeat match goal with
    | H : pmap_remove _ _ _ = Some _ |- _ => apply remove_no_page in H; [|done]
    | H : upd_pf _ _ _ = Some _ |- _ => apply upd_pf_no_page in H; [|done]
    end; done.
Qed.

Lemma cleanup_pages_no_page n : forall a va s s', cleanup_pages n a va s = Some s' -> no_page s -> no_page s'.
Proof.
  induction n as [|n IH]; cbn [cleanup_pages]; intros a va s s' E N; [by simplify_eq|]. opt_inv.
  eapply IH; [done|]. by eapply cleanup_page_no_page.
Qed.

Lemma cleanup_tables_no_page n : forall a va s s', cleanup_tables n a va s = Some s' -> no_page s -> no_page s'.
Proof.
  induction n as [|n IH]; cbn [cleanup_tables]; intros a va s s' E N; [by simplify_eq|]. opt_inv.
  - by eapply IH.
  - eapply IH; [done|]. by eapply cleanup_pages_no_page.
Qed.

Lemma cleanup_no_page a s s' : cleanup_address_space a s = Some s' -> no_page (mmu s) -> no_page (mmu s').
Proof. unfold cleanup_address_space. intros E N. opt_inv. cbn [mmu]. by eapply cleanup_tables_no_page. Qed.

(** What a page of the parent becomes, in the parent and in the child. *)
Definition cow_flags (fl : Z) : Z :=
  if decide (is_alloc fl /\ Z.land fl PROT_WRITE <> 0) then Z.lor fl MAP_COW else fl.
Definition parent_map (m : option (Z * Z)) : option (Z * Z) :=
  match m with Some (pa, fl) => Some (pa, cow_flags fl) | None => None end.
Definition child_map (m : option (Z * Z)) : option (Z * Z) :=
  match m with
  | Some (pa, fl) =>
      Some (pa, if decide (is_alloc fl) then cow_flags fl
                else Z.lor MEM_PHYS (Z.lor PROT_READ PROT_WRITE))
  | None => None
  end.

Lemma cow_flags_alloc fl : is_alloc fl -> is_alloc (cow_flags fl) /\ ~ writable (cow_flags fl).
Proof.
  intros Hal. unfold cow_flags. case_decide as Hd.
  - split; [unfold is_alloc; by rewrite set_cow_mem|apply set_cow_not_writable].
  - split; [done|]. intros [Hw _]. naive_solver.
Qed.

Section Share.
Context {B : list Z} {ow : Z -> role} {s : vm}.
Hypothesis V : vm_inv B ow s.
Context (new old v : Z).
Hypothesis Hnew : new ∈ B.
Hypothesis Hold : old ∈ B.
Hypothesis Hno : new <> old.
Hypothesis Hv : user_page v.
Hypothesis Hn : view s new v = None.

(** A page the parent cannot write is entered in the child. *)
Lemma share_page p fl :
  view s old v = Some (p * PAGE_SIZE, fl) -> is_alloc fl -> ~ writable fl ->
  (exists ow' s1 s', pmap_enter new (v * PAGE_SIZE) (p * PAGE_SIZE) fl s = Some (0, s1) /\
     upd_pf p (fun p => p <| reference_cnt := reference_cnt p + 1 |>) s1 = Some s' /\
     vm_inv B ow' s' /\ memory_kept ow s ow' s' /\ remaps B s s' new v (Some (p * PAGE_SIZE, fl))) \/
  pmap_enter new (v * PAGE_SIZE) (p * PAGE_SIZE) fl s = Some (- ENOMEM, s) /\ no_page s.
Proof using All.
  intros E Hal Hw. pose proof (vi_pmap _ _ _ V) as I.
  destruct (vi_type _ _ _ V old v _ fl Hold Hv E) as [H0 _].
  destruct (view_page B ow s old v _ fl I Hold Hv E) as (q & Eq & Hq & Hu).
  assert (q = p) as -> by (unfold PAGE_SIZE in *; lia). destruct (Hu Hal) as [Hr Hus].
  destruct (enter_ok I new v p fl) as [(ow1 & s1 & E1 & I1 & K1 & R1 & U1)|E1]; try done;
    [intros _; split; [lia|done]| |by right].
  left. assert (ow1 p = User) as Hu1 by (rewrite (kp_role _ _ _ _ K1), Hus by congruence; done).
  destruct (upd_ref_ok B ow1 s1 p (fun p => p <| reference_cnt := reference_cnt p + 1 |>))
    as (s2 & E2 & I2 & V2 & S2 & M2 & Hr2); [done|by rewrite (kp_max _ _ _ _ K1)|done|done|].
  exists ow1, s1, s2. split; [done|]. split; [done|].
  assert (remaps B s s2 new v (Some (p * PAGE_SIZE, fl))) as R by (by eapply remaps_same).
  split_and!; [|eapply memory_kept_trans; [by apply keeps_memory|by apply same_memory]|done].
  apply (vm_inv_remap B ow s ow1 s2 new v (Some (p * PAGE_SIZE, fl))); try done.
  - intros ?? [= <- <-]. by left.
  - intros q Hqu%U1. rewrite Hn, counts_None, counts_page by done. rewrite Hr2. cbn [reference_cnt update_field].
    pose proof (vi_refs _ _ _ V q Hqu). case_bool_decide; subst; rewrite (kp_ref _ _ _ _ K1) by done; lia.
  - intros p' fl' a' v' [= Ep <-] _ Ha' Hv' Hne Hm. split; [done|]. intros fl' E'.
    assert (p' = p) as -> by (unfold PAGE_SIZE in Ep; lia).
    rewrite E' in Hm. destruct Hm as [_ Hal'].
    destruct (decide ((a', v') = (old, v))) as [Heq|Hne2].
    + by simplify_eq.
    + apply (vi_cow _ _ _ V a' v' old v p fl'); try done. by rewrite E.
Qed.

End Share.

Section Fork.
Context {B : list Z} {ow : Z -> role} {s : vm}.
Hypothesis V : vm_inv B ow s.
Context (new old v : Z).
Hypothesis Hnew : new ∈ B.
Hypothesis Hold : old ∈ B.
Hypothesis Hno : new <> old.
Hypothesis Hv : user_page v.
Hypothesis Hn : view s new v = None.

(** The mappings after one page: done, or given up after the parent's page was
    marked. *)
Definition forked_page (m : option (Z * Z)) (s' : vm) : Prop :=
  forall a' v', a' ∈ B -> user_page v' ->
    view s' a' v' = if bool_decide ((a', v') = (new, v)) then m
                    else if bool_decide ((a', v') = (old, v)) then parent_map (view s old v)
                    else view s a' v'.

(** What [fork_page] does on each kind of page. *)
Definition fork_page_done : Prop :=
  (exists ow' s', fork_page new old (v * PAGE_SIZE) s = Some (true, s') /\ vm_inv B ow' s' /\
     memory_kept ow s ow' s' /\ forked_page (child_map (view s old v)) s') \/
  (exists s', fork_page new old (v * PAGE_SIZE) s = Some (false, s') /\ vm_inv B ow s' /\
     memory_kept ow s ow s' /\ forked_page None s' /\ no_page s').

Lemma fork_page_absent : view s old v = None -> fork_page_done.
Proof using V Hn.
  intros E. left. exists ow, s. unfold fork_page. rewrite is_page_present_view, E.
  rewrite bool_decide_false by (by intros []). split_and!; try done.
  intros a' v' Ha' Hv'. rewrite E. repeat case_bool_decide; by simplify_eq.
Qed.

Lemma forked_of_remaps s1 s' m :
  remaps B s s1 old v (parent_map (view s old v)) -> remaps B s1 s' new v m -> forked_page m s'.
Proof using Hno.
  intros R1 R2 a' v' Ha' Hv'. rewrite R2 by done. case_bool_decide; [done|]. by rewrite R1.
Qed.

Lemma remaps_id (s1 : vm) a v1 : remaps B s1 s1 a v1 (view s1 a v1).
Proof using Type. intros a' v' Ha' Hv'. case_bool_decide; by simplify_eq. Qed.

(** A writable page: the parent's is marked first. *)
Lemma fork_page_write p fl :
  view s old v = Some (p * PAGE_SIZE, fl) -> is_alloc fl -> Z.land fl PROT_WRITE <> 0 -> fork_page_done.
Proof using All.
  intros E Hal Hw. pose proof (vi_pmap _ _ _ V) as I.
  destruct (vi_type _ _ _ V old v _ fl Hold Hv E) as [H0 _].
  assert (cow_flags fl = Z.lor fl MAP_COW) as Ecf by (unfold cow_flags; by rewrite decide_True).
  destruct (cow_flags_alloc fl Hal) as [Hal' Hw']. rewrite Ecf in Hal', Hw'.
  destruct (protect_ok I old v _ (Z.lor fl MAP_COW) Hold Hv H0 E) as (s1 & E1 & I1 & K1 & R1).
  { apply set_cow_mem. }
  cbn [fst] in R1.
  assert (vm_inv B ow s1) as V1.
  { apply (vm_inv_remap B ow s ow s1 old v (Some (p * PAGE_SIZE, Z.lor fl MAP_COW))); try done.
    - intros ?? [= <- <-]. by left.
    - intros q Hq. rewrite E, !counts_page, (kp_ref _ _ _ _ K1) by done.
      pose proof (vi_refs _ _ _ V q Hq). lia.
    - intros p' fl' a' v' [= Ep <-] _ Ha' Hv' Hne Hm. split; [done|]. intros fl' E'.
      assert (p' = p) as -> by (unfold PAGE_SIZE in Ep; lia).
      rewrite E' in Hm. destruct Hm as [_ Hal2].
      apply (vi_cow _ _ _ V a' v' old v p fl'); try done. by rewrite E. }
  assert (view s1 new v = None) as Hn1.
  { rewrite R1 by done. rewrite bool_decide_false by congruence. done. }
  assert (view s1 old v = Some (p * PAGE_SIZE, Z.lor fl MAP_COW)) as Eo1.
  { rewrite R1 by done. by rewrite bool_decide_true. }
  assert (remaps B s s1 old v (parent_map (view s old v))) as RP by (rewrite E; cbn; by rewrite Ecf).
  assert (child_map (view s old v) = Some (p * PAGE_SIZE, Z.lor fl MAP_COW)) as Ec.
  { rewrite E. cbn. by rewrite decide_True, Ecf. }
  unfold fork_page_done, fork_page. rewrite is_page_present_view. fold (view s old v). rewrite Ec, E.
  rewrite (bool_decide_true (is_Some _)) by done. cbn [negb].
  rewrite (bool_decide_true (_ /\ _)) by (split; [by apply alloc_not_phys|done]). rewrite E1.
  cbn [mbind option_bind]. rewrite (bool_decide_false (0 <> 0)) by (intros ?; done).
  destruct (share_page V1 new old v Hnew Hold Hno Hv Hn1 p _ Eo1 Hal' Hw')
    as [(ow2 & s2 & s3 & -> & E3 & V3 & M3 & R3)|[-> Hnp]]; cbn [mbind option_bind]; [left|right].
  - rewrite (bool_decide_false (0 <> 0)) by (intros ?; done). unfold pmap_pa_to_pf.
    rewrite Z.div_mul by done. rewrite E3. cbn [mbind option_bind]. exists ow2, s3. split_and!; try done.
    + eapply memory_kept_trans; [by apply keeps_memory|done].
    + by eapply forked_of_remaps.
  - rewrite bool_decide_true by done. exists s1. split_and!; try done; [by apply keeps_memory|].
    eapply forked_of_remaps; [done|]. rewrite <- Hn1. apply remaps_id.
Qed.

(** A page that is allocated and read-only. *)
Lemma fork_page_read p fl :
  view s old v = Some (p * PAGE_SIZE, fl) -> is_alloc fl -> Z.land fl PROT_WRITE = 0 -> fork_page_done.
Proof using All.
  intros E Hal Hw. assert (cow_flags fl = fl) as Ecf by (unfold cow_flags; by rewrite decide_False by tauto).
  assert (remaps B s s old v (parent_map (view s old v))) as RP.
  { rewrite E at 1. cbn. rewrite Ecf, <- E. apply remaps_id. }
  assert (child_map (view s old v) = Some (p * PAGE_SIZE, fl)) as Ec.
  { rewrite E. cbn. by rewrite decide_True, Ecf. }
  unfold fork_page_done, fork_page. rewrite is_page_present_view. fold (view s old v). rewrite Ec, E.
  rewrite (bool_decide_true (is_Some _)) by done. cbn [negb].
  rewrite (bool_decide_false (_ /\ _)) by tauto.
  rewrite (bool_decide_true (_ <> MEM_PHYS)) by (by apply alloc_not_phys).
  destruct (share_page V new old v Hnew Hold Hno Hv Hn p fl E Hal) as [(ow2 & s2 & s3 & -> & E3 & V3 & M3 & R3)|[-> Hnp]];
    [by intros [? _]|left|right]; cbn [mbind option_bind].
  - rewrite (bool_decide_false (0 <> 0)) by (intros ?; done). unfold pmap_pa_to_pf.
    rewrite Z.div_mul by done. rewrite E3. cbn [mbind option_bind]. exists ow2, s3. split_and!; try done.
    by eapply forked_of_remaps.
  - rewrite bool_decide_true by done. exists s. split_and!; try done.
    eapply forked_of_remaps; [done|]. rewrite <- Hn. apply remaps_id.
Qed.

(** A physical mapping. *)
Lemma fork_page_phys p fl :
  view s old v = Some (p * PAGE_SIZE, fl) -> 0 <= p < 2 ^ 20 -> is_phys fl -> fork_page_done.
Proof using All.
  intros E Hp Hph. pose proof (vi_pmap _ _ _ V) as I.
  destruct (vi_type _ _ _ V old v _ fl Hold Hv E) as [H0 _].
  assert (~ is_alloc fl) as Hal by (unfold is_alloc, is_phys in *; by rewrite Hph).
  set (df := Z.lor MEM_PHYS (Z.lor PROT_READ PROT_WRITE)).
  assert (cow_flags fl = fl) as Ecf by (unfold cow_flags; by rewrite decide_False by tauto).
  assert (remaps B s s old v (parent_map (view s old v))) as RP.
  { rewrite E at 1. cbn. rewrite Ecf, <- E. apply remaps_id. }
  assert (child_map (view s old v) = Some (p * PAGE_SIZE, df)) as Ec.
  { rewrite E. cbn. by rewrite decide_False. }
  unfold fork_page_done, fork_page. rewrite is_page_present_view. fold (view s old v). rewrite Ec, E.
  rewrite (bool_decide_true (is_Some _)) by done. cbn [negb].
  rewrite (bool_decide_false (_ /\ _)) by (intros [? _]; by apply phys_is_phys in Hph).
  rewrite (bool_decide_false (_ <> MEM_PHYS)) by (intros ?; by apply phys_is_phys in Hph). fold df.
  destruct (enter_ok I new v p df) as [(ow1 & s1 & -> & I1 & K1 & R1 & U1)|(-> & Hnp)]; try done.
  - left. cbn [mbind option_bind]. exists ow1, s1. split; [by rewrite bool_decide_true|].
    split_and!; [|by apply keeps_memory|by eapply forked_of_remaps].
    apply (vm_inv_remap B ow s ow1 s1 new v (Some (p * PAGE_SIZE, df))); try done.
    + intros ?? [= <- <-]. by right.
    + intros q Hq%U1. rewrite Hn, counts_None, (kp_ref _ _ _ _ K1) by done.
      pose proof (vi_refs _ _ _ V q Hq). unfold counts. rewrite decide_False; [lia|]. by intros [_ ?].
    + by intros p' fl' a' v' [= _ <-] ?.
  - right. cbn [mbind option_bind]. exists s. split; [by rewrite bool_decide_false|].
    split_and!; try done. eapply forked_of_remaps; [done|]. rewrite <- Hn. apply remaps_id.
Qed.

Lemma fork_page_ok : fork_page_done.
Proof using All.
  destruct (view s old v) as [[pa fl]|] eqn:E; [|by apply fork_page_absent].
  destruct (view_page B ow s old v pa fl (vi_pmap _ _ _ V) Hold Hv E) as (p & -> & Hp & _).
  destruct (vi_type _ _ _ V old v _ fl Hold Hv E) as [_ [Hal|Hph]]; [|by apply (fork_page_phys p fl)].
  destruct (decide (Z.land fl PROT_WRITE = 0)); [by apply (fork_page_read p fl)|by apply (fork_page_write p fl)].
Qed.
End Fork.

Lemma parent_map_idem m : parent_map (parent_map m) = parent_map m.
Proof.
  destruct m as [[pa fl]|]; [|done]. cbn. do 2 f_equal. unfold cow_flags at 2 3. case_decide as H.
  - unfold cow_flags. case_decide; [|done]. by rewrite <- Z.lor_assoc, Z.lor_diag.
  - unfold cow_flags. by rewrite decide_False.
Qed.

(** Pages the parent does not have are passed over. *)
Lemma fork_page_none new old v s : view s old v = None -> fork_page new old (v * PAGE_SIZE) s = Some (true, s).
Proof.
  intros E. unfold fork_page. rewrite is_page_present_view. fold (view s old v). rewrite E.
  by rewrite bool_decide_false by (by intros []).
Qed.

Lemma fork_pages_none new old n : forall v s,
  (forall w, v <= w < v + Z.of_nat n -> view s old w = None) ->
  fork_pages n new old (v * PAGE_SIZE) s = Some (true, s).
Proof.
  induction n as [|n IH]; intros v s H; [done|]. cbn [fork_pages]. rewrite fork_page_none by (apply H; lia).
  cbn [mbind option_bind]. replace (v * PAGE_SIZE + PAGE_SIZE) with ((v + 1) * PAGE_SIZE) by lia.
  apply IH. intros w Hw. apply H. lia.
Qed.

Lemma fork_pages_app n m new old : forall v s s',
  fork_pages n new old (v * PAGE_SIZE) s = Some (true, s') ->
  fork_pages (n + m) new old (v * PAGE_SIZE) s = fork_pages m new old ((v + Z.of_nat n) * PAGE_SIZE) s'.
Proof.
  induction n as [|n IH]; intros v s s' E; cbn [fork_pages Nat.add] in *; [by simplify_eq; rewrite Z.add_0_r|].
  destruct (fork_page _ _ _ _) as [[[] s1]|]; [|done..]. cbn [mbind option_bind] in *.
  replace (v * PAGE_SIZE + PAGE_SIZE) with ((v + 1) * PAGE_SIZE) in * by lia.
  rewrite (IH _ _ _ E). f_equal. lia.
Qed.

Lemma fork_pages_one new old va s s' :
  fork_page new old va s = Some (true, s') -> fork_pages 1 new old va s = Some (true, s').
Proof. intros E. cbn [fork_pages]. by rewrite E. Qed.

Lemma fork_tables_first n new old s s' :
  pmap_is_pagetable_present old 0 s = true -> fork_pages 256 new old (0 * PAGE_SIZE) s = Some (true, s') ->
  fork_tables (S n) new old 0 s = fork_tables n new old (1 * 256 * PAGE_SIZE) s'.
Proof.
  intros Ht E. cbn [fork_tables]. rewrite Ht. cbn [negb]. change (Z.to_nat N_PAGETABLE_PTE) with 256%nat.
  change (0 * PAGE_SIZE) with 0 in E. by rewrite E.
Qed.

Lemma fork_tables_none new old n : forall i s,
  (forall w, i * 256 <= w < (i + Z.of_nat n) * 256 -> view s old w = None) ->
  fork_tables n new old (i * 256 * PAGE_SIZE) s = Some (true, s).
Proof.
  induction n as [|n IH]; intros i s H; [done|]. cbn [fork_tables].
  replace (i * 256 * PAGE_SIZE + PAGE_SIZE * N_PAGETABLE_PTE) with ((i + 1) * 256 * PAGE_SIZE)
    by (unfold N_PAGETABLE_PTE; lia).
  rewrite (fork_pages_none _ _ (Z.to_nat N_PAGETABLE_PTE)) by (intros w Hw; apply H; unfold N_PAGETABLE_PTE in Hw; lia).
  cbn [mbind option_bind]. rewrite IH by (intros w Hw; apply H; lia). by destruct (negb _).
Qed.

Section Loops.
Context {B : list Z} (new old : Z).
Hypothesis Hnew : new ∈ B.
Hypothesis Hold : old ∈ B.
Hypothesis Hno : new <> old.

(** The pages [lo] to [hi - 1] are shared with the child. *)
Definition forked_range (s s' : vm) (lo hi : Z) : Prop :=
  forall a v, a ∈ B -> user_page v ->
    view s' a v = if bool_decide (a = new /\ lo <= v < hi) then child_map (view s old v)
                  else if bool_decide (a = old /\ lo <= v < hi) then parent_map (view s old v)
                  else view s a v.

(** Nothing but the child and the marks of the parent changed. *)
Definition marked (s s' : vm) : Prop :=
  forall a v, a ∈ B -> a <> new -> user_page v ->
    view s' a v = view s a v \/ a = old /\ view s' a v = parent_map (view s old v).

Lemma forked_range_marked s s' lo hi : forked_range s s' lo hi -> marked s s'.
Proof using Hold.
  intros F a v Ha Hn Hv. rewrite F by done. rewrite bool_decide_false by tauto.
  case_bool_decide as H; [right; by destruct H|by left].
Qed.

Lemma forked_page_marked s s' v m : forked_page (B := B) (s := s) new old v m s' -> marked s s'.
Proof using Hold.
  intros F a v' Ha Hn Hv. rewrite (F a v') by done. rewrite bool_decide_false by congruence.
  case_bool_decide as H; [right; by simplify_eq|by left].
Qed.

Lemma marked_trans s1 s2 s3 : marked s1 s2 -> marked s2 s3 -> marked s1 s3.
Proof using Hold Hno.
  intros M1 M2 a v Ha Hn Hv. destruct (M2 a v Ha Hn Hv) as [E2|[Eo2 E2]], (M1 a v Ha Hn Hv) as [E1|[Eo E1]];
    subst; rewrite E2, E1; auto. right. by rewrite parent_map_idem.
Qed.

Lemma forked_page_range s s' v :
  forked_page (B := B) (s := s) new old v (child_map (view s old v)) s' -> forked_range s s' v (v + 1).
Proof using Type.
  intros F a v' Ha Hv. rewrite (F a v') by done.
  assert (forall x, a = x /\ v <= v' < v + 1 <-> (a, v') = (x, v)) as Hiff.
  { intros x. split; [intros [-> ?]; f_equal; lia|intros [= -> ->]; lia]. }
  rewrite !(bool_decide_ext _ _ (Hiff _)). repeat case_bool_decide; by simplify_eq.
Qed.

Lemma forked_join s1 s2 s3 lo mid hi :
  forked_range s1 s2 lo mid -> forked_range s2 s3 mid hi -> lo <= mid <= hi -> forked_range s1 s3 lo hi.
Proof using Hold Hno.
  intros F1 F2 Hm a v Ha Hv. rewrite F2, !F1 by done.
  destruct (decide (lo <= v < mid)); [|destruct (decide (mid <= v < hi))].
  - rewrite !(bool_decide_false (_ /\ mid <= v < hi)) by lia.
    repeat case_bool_decide; done || lia.
  - rewrite !(bool_decide_false (_ /\ lo <= v < mid)) by lia. repeat case_bool_decide; done || lia.
  - rewrite !bool_decide_false by lia. done.
Qed.

Lemma forked_nothing s lo hi :
  (forall v, lo <= v < hi -> user_page v -> view s new v = None /\ view s old v = None) -> forked_range s s lo hi.
Proof using Type.
  intros H a v Ha Hv. destruct (decide (lo <= v < hi)) as [Hr|Hr]; [|by rewrite !bool_decide_false by tauto].
  destruct (H v Hr Hv) as [E1 E2]. rewrite E2. repeat case_bool_decide; naive_solver.
Qed.

(** What a loop over the pages [lo] to [hi - 1] gives. *)
Definition loop_done (ow : Z -> role) (s : vm) (lo hi : Z) (r : option (bool * vm)) : Prop :=
  (exists ow' s', r = Some (true, s') /\ vm_inv B ow' s' /\ memory_kept ow s ow' s' /\ forked_range s s' lo hi) \/
  (exists ow' s', r = Some (false, s') /\ vm_inv B ow' s' /\ memory_kept ow s ow' s' /\ marked s s' /\ no_page s').

Lemma loop_next ow s ow1 s1 lo mid hi r :
  memory_kept ow s ow1 s1 -> forked_range s s1 lo mid -> lo <= mid <= hi ->
  loop_done ow1 s1 mid hi r -> loop_done ow s lo hi r.
Proof using Hold Hno.
  intros M F Hm [(ow2 & s2 & -> & V2 & M2 & F2)|(ow2 & s2 & -> & V2 & M2 & F2 & N2)]; [left|right]; exists ow2, s2.
  - split_and!; try done; [by eapply memory_kept_trans|by eapply forked_join].
  - split_and!; try done; [by eapply memory_kept_trans|eapply marked_trans; [by eapply forked_range_marked|done]].
Qed.

Lemma fork_pages_ok n : forall ow s v,
  vm_inv B ow s -> 0 <= v -> v + Z.of_nat n <= 2 ^ 19 ->
  (forall w, v <= w < 2 ^ 19 -> view s new w = None) ->
  loop_done ow s v (v + Z.of_nat n) (fork_pages n new old (v * PAGE_SIZE) s).
Proof using All.
  induction n as [|n IH]; intros ow s v V Hv Hn Hne.
  - left. exists ow, s. split_and!; try done. apply forked_nothing. lia.
  - cbn [fork_pages]. assert (user_page v) as Hu by (unfold user_page; lia).
    destruct (fork_page_ok V new old v Hnew Hold Hno Hu) as [(ow1 & s1 & -> & V1 & M1 & F1)|(s1 & -> & V1 & M1 & F1 & N1)];
      [apply Hne; lia| |]; cbn [mbind option_bind].
    + replace (v * PAGE_SIZE + PAGE_SIZE) with ((v + 1) * PAGE_SIZE) by lia.
      apply forked_page_range in F1. replace (v + Z.of_nat (S n)) with (v + 1 + Z.of_nat n) by lia.
      eapply loop_next; [done|done|lia|]. apply IH; [done|lia|lia|].
      intros w Hw. rewrite F1 by (done || unfold user_page; lia).
      rewrite !bool_decide_false by lia. apply Hne. lia.
    + right. exists ow, s1. split_and!; try done. by eapply forked_page_marked.
Qed.

Lemma fork_tables_ok n : forall ow s i,
  vm_inv B ow s -> 0 <= i -> i + Z.of_nat n <= 2048 ->
  (forall w, i * 256 <= w < 2 ^ 19 -> view s new w = None) ->
  loop_done ow s (i * 256) ((i + Z.of_nat n) * 256) (fork_tables n new old (i * 256 * PAGE_SIZE) s).
Proof using All.
  induction n as [|n IH]; intros ow s i V Hi Hn Hne.
  - left. exists ow, s. split_and!; try done. apply forked_nothing. lia.
  - cbn [fork_tables].
    replace (i * 256 * PAGE_SIZE + PAGE_SIZE * N_PAGETABLE_PTE) with ((i + 1) * 256 * PAGE_SIZE)
      by (unfold N_PAGETABLE_PTE; lia).
    replace (i + Z.of_nat (S n)) with (i + 1 + Z.of_nat n) by lia.
    destruct (pmap_is_pagetable_present old (i * 256 * PAGE_SIZE) s) eqn:Ep; cbn [negb].
    + destruct (fork_pages_ok (Z.to_nat N_PAGETABLE_PTE) ow s (i * 256) V)
        as [(ow1 & s1 & -> & V1 & M1 & F1)|(ow1 & s1 & -> & V1 & M1 & F1)];
        [lia|unfold N_PAGETABLE_PTE; lia|done| |]; cbn [mbind option_bind].
      * change (Z.of_nat (Z.to_nat N_PAGETABLE_PTE)) with 256 in F1.
        replace (i * 256 + 256) with ((i + 1) * 256) in F1 by lia.
        eapply loop_next; [done|done|lia|]. apply IH; [done|lia|lia|].
        intros w Hw. rewrite F1 by (done || unfold user_page; lia).
        rewrite !bool_decide_false by lia. apply Hne. lia.
      * right. by exists ow1, s1.
    + eapply (loop_next ow s ow s _ ((i + 1) * 256)); [apply memory_kept_refl| |lia|].
      * apply forked_nothing. intros v Hv Hu. split; [apply Hne; unfold user_page in Hu; lia|].
        by apply (table_absent B ow s old i v (vi_pmap _ _ _ V)); try done; lia.
      * apply IH; [done|lia|lia|]. intros w Hw. apply Hne. lia.
Qed.
End Loops.

Lemma refs_cons a A s p : refs (a :: A) s p = refs [a] s p + refs A s p.
Proof. unfold refs, pages. cbn [mbind list_bind]. rewrite app_nil_r, filter_app, length_app. lia. Qed.

Lemma refs_none a s p : (forall v, user_page v -> view s a v = None) -> refs [a] s p = 0.
Proof.
  intros H. unfold refs. destruct (filter _ _) as [|[b v] l] eqn:E; [done|].
  assert ((b, v) ∈ filter (fun x => maps_page p (view s x.1 x.2)) (pages [a])) as Hin by (rewrite E; left).
  apply list_elem_of_filter in Hin as [Hm [->%list_elem_of_singleton Hv]%elem_of_pages]. cbn in Hm.
  by rewrite H in Hm.
Qed.

Lemma vm_inv_created A ow s a ow' s' : vm_inv A ow s -> a ∉ A -> created (A := A) (ow := ow) (s := s) a ow' s' -> vm_inv (a :: A) ow' s'.
Proof.
  intros V Ha C. split.
  - constructor; [done|apply V].
  - apply C.
  - intros a' v pa fl [->|Ha']%elem_of_cons Hv E; [by rewrite (cr_new _ _ _ C) in E|].
    rewrite (cr_old _ _ _ C) in E by done. by apply (vi_type _ _ _ V a' v pa fl).
  - intros p Hp%(cr_users _ _ _ C). rewrite (cr_ref _ _ _ C) by done.
    rewrite refs_cons, refs_none by apply C. rewrite (refs_ext A s s') by apply C. by apply (vi_refs _ _ _ V).
  - intros a1 v1 a2 v2 p fl [->|H1]%elem_of_cons Hv1 [->|H2]%elem_of_cons Hv2 Hne E Hal Hm;
      rewrite ?(cr_new _ _ _ C) in E by done; try done; rewrite ?(cr_new _ _ _ C) in Hm by done; try done.
    rewrite (cr_old _ _ _ C) in E, Hm by done. by apply (vi_cow _ _ _ V a1 v1 a2 v2 p fl).
Qed.

Lemma vm_inv_drop a A ow s : vm_inv (a :: A) ow s -> vm_inv A ow s.
Proof.
  intros V. pose proof (vi_pmap _ _ _ V) as I. split.
  - pose proof (vi_nodup _ _ _ V) as Hn. by apply NoDup_cons in Hn as [_ ?].
  - split; [apply I|apply I|intros b Hb; apply I; by right|intros b i Hb Hi; apply I; [by right|done]].
  - intros b v pa fl Hb. apply (vi_type _ _ _ V). by right.
  - intros p Hp. pose proof (vi_refs _ _ _ V p Hp) as H. rewrite refs_cons in H.
    assert (0 <= refs [a] s p) by (unfold refs; lia). lia.
  - intros a1 v1 a2 v2 p fl H1 Hv1 H2 Hv2. apply (vi_cow _ _ _ V); done || by right.
Qed.

(** The segments the child is given. *)
Lemma copy_segments_ok new old l :
  length (Segment.segment_table new) = 32%nat -> Segment.rep old l ->
  exists a, copy_segments new old = Some a /\ Segment.rep a l.
Proof.
  intros Hl R. pose proof (Segment.rep_len _ _ R) as Ho. change (Z.to_nat Segment.NSEGMENT) with 32%nat in Ho.
  assert ((length l < 32)%nat) as Hlt.
  { destruct ((l ++ [Segment.ceiling]) !! length l) as [c|] eqn:E.
    - apply (Segment.rep_entries _ _ R), lookup_lt_Some in E. lia.
    - apply lookup_ge_None in E. rewrite length_app in E. simpl in E. lia. }
  unfold copy_segments. pose proof (Segment.rep_cnt _ _ R) as Hc. rewrite Hc.
  rewrite bool_decide_true by (unfold Segment.NSEGMENT; lia). eexists. split; [done|]. split.
  - cbn [Segment.segment_table]. rewrite length_app, length_take, length_drop, Hl, Ho.
    change (Z.to_nat Segment.NSEGMENT) with 32%nat. lia.
  - done.
  - intros i c Hi. cbn [Segment.segment_table]. pose proof (lookup_lt_Some _ _ _ Hi) as Hlt2.
    rewrite length_app in Hlt2. simpl in Hlt2. rewrite lookup_app_l by (rewrite length_take; lia).
    rewrite lookup_take_lt by lia. by apply (Segment.rep_entries _ _ R).
Qed.

(** ** The whole of [fork_address_space] *)

(** What the parent and the child have after a fork. *)
Record forked (A : list Z) (l : list Segment.seg) (new old : Z) (ow : Z -> role) (s : vms) (ow' : Z -> role) (s' : vms) : Prop := {
  fk_inv : vm_inv (new :: A) ow' (mmu s');
  fk_mem x : data (ow (frame_of x)) -> kmem (mmu s') x = kmem (mmu s) x;
  fk_roles f : ow f <> Free -> ow' f = ow f;
  fk_child v : 0 <= v < 0x7F000 -> view (mmu s') new v = child_map (view (mmu s) old v);
  fk_parent v : 0 <= v < 0x7F000 -> view (mmu s') old v = parent_map (view (mmu s) old v);
  fk_others a v : a ∈ A -> a <> old -> user_page v -> view (mmu s') a v = view (mmu s) a v;
  fk_segs : Segment.rep (segments s' new) l;
  fk_segs_others a : a <> new -> segments s' a = segments s a
}.

(** The child after a fork that ran out of memory half way: no page, and one free
    segment. *)
Definition child_cleaned (new : Z) (s : vms) : Prop :=
  (forall v, 0 <= v < 0x7F100 -> view (mmu s) new v = None) /\
  Segment.rep (segments s new) [(Segment.VM_USER_BASE, Segment.SEG_TYPE_FREE)].

(** What is left when there is not enough memory, for the page directory or for
    a page table: the parent's pages may be marked copy-on-write. *)
Record fork_failed (A : list Z) (new old : Z) (ow : Z -> role) (s : vms) (ow' : Z -> role) (s' : vms) : Prop := {
  ff_inv : vm_inv A ow' (mmu s');
  ff_mem x : data (ow (frame_of x)) -> kmem (mmu s') x = kmem (mmu s) x;
  ff_roles f : ow f <> Free -> ow' f = ow f;
  ff_parent v : user_page v -> view (mmu s') old v = view (mmu s) old v \/
    view (mmu s') old v = parent_map (view (mmu s) old v);
  ff_others a v : a ∈ A -> a <> old -> user_page v -> view (mmu s') a v = view (mmu s) a v;
  ff_segs_others a : a <> new -> segments s' a = segments s a;
  ff_why : no_pagedir (mmu s') \/ no_page (mmu s') /\ child_cleaned new s'
}.

Section ForkResult.
Context (A : list Z) (new old : Z) (ow : Z -> role) (s : vms) (ow1 : Z -> role) (s1 : vm).
Hypothesis Ho : old ∈ A.
Hypothesis Hn : new ∉ A.
Hypothesis C : created (A := A) (ow := ow) (s := mmu s) new ow1 s1.
Context (ow2 : Z -> role) (s2 : vm) (sg : Segment.AddressSpace).
Hypothesis V2 : vm_inv (new :: A) ow2 s2.
Hypothesis M2 : memory_kept ow1 s1 ow2 s2.

Lemma created_data f : data (ow f) -> data (ow1 f).
Proof using C. intros Hf. rewrite (cr_role _ _ _ C); [done|]. destruct Hf; congruence. Qed.

Lemma created_role f : ow f <> Free -> ow2 f = ow f.
Proof using C M2. intros Hf. rewrite (mk_role _ _ _ _ M2), (cr_role _ _ _ C) by (done || by rewrite (cr_role _ _ _ C)). done. Qed.

Lemma forked_intro l :
  forked_range (B := new :: A) new old s1 s2 0 0x7F000 -> Segment.rep sg l ->
  forked A l new old ow s ow2 (mkVms s2 (<[new := sg]> (segments s))).
Proof using All.
  intros F Rs. assert (new <> old) as Hno by (by intros ->).
  assert (forall v, 0 <= v < 0x7F000 -> user_page v) as Hu by (unfold user_page; lia).
  split; cbn [mmu segments]; [done|..].
  - intros x Hx. rewrite (mk_mem _ _ _ _ M2); [by apply C|by apply created_data].
  - exact created_role.
  - intros v Hv. rewrite F by (by left || by apply Hu). rewrite bool_decide_true by done.
    by rewrite (cr_old _ _ _ C) by (done || by apply Hu).
  - intros v Hv. rewrite F by (by right || by apply Hu). rewrite bool_decide_false, bool_decide_true by naive_solver.
    by rewrite (cr_old _ _ _ C) by (done || by apply Hu).
  - intros a v Ha Hne Hv. rewrite F by (by right || done).
    rewrite !bool_decide_false by naive_solver. by apply C.
  - by rewrite fn_lookup_insert.
  - intros a Ha. by rewrite fn_lookup_insert_ne.
Qed.

Lemma failed_intro s3 :
  marked (B := new :: A) new old s1 s2 -> vm_inv (new :: A) ow2 (mmu s3) ->
  unmapped_range (new :: A) s2 (mmu s3) new 0 0x7F100 -> memory_kept ow2 s2 ow2 (mmu s3) ->
  (forall a, a <> new -> segments s3 a = <[new := sg]> (segments s) a) ->
  no_page (mmu s3) /\ child_cleaned new s3 -> fork_failed A new old ow s ow2 s3.
Proof using All.
  intros F V3 R3 M3 Hs3 Hc. assert (new <> old) as Hno by (by intros ->).
  pose proof (memory_kept_trans _ _ _ _ _ _ M2 M3) as M.
  assert (forall a v, a ∈ A -> user_page v -> view (mmu s3) a v = view s2 a v) as E3.
  { intros a v Ha Hv. rewrite R3 by (by right || done). rewrite bool_decide_false by naive_solver. done. }
  split.
  - by eapply vm_inv_drop.
  - intros x Hx. rewrite (mk_mem _ _ _ _ M); [by apply C|by apply created_data].
  - exact created_role.
  - intros v Hv. rewrite E3 by done. rewrite <- (cr_old _ _ _ C) by done.
    destruct (F old v) as [?|[_ ?]]; auto. by right.
  - intros a v Ha Hne Hv. rewrite E3 by done. rewrite <- (cr_old _ _ _ C) by done.
    destruct (F a v) as [?|[? _]]; try done; [by right|naive_solver].
  - intros a Ha. rewrite Hs3 by done. by rewrite fn_lookup_insert_ne.
  - by right.
Qed.
End ForkResult.

Lemma fork_range_tables : Z.to_nat (VM_USER_CEILING `div` (PAGE_SIZE * N_PAGETABLE_PTE)) = 2032%nat.
Proof. reflexivity. Qed.
Lemma fork_range_start : 0 * 256 * PAGE_SIZE = 0.
Proof. reflexivity. Qed.
Lemma fork_range_end : (0 + Z.of_nat 2032) * 256 = 0x7F000.
Proof. reflexivity. Qed.

Lemma fork_succeeds new old s m1 sg m :
  pmap_create new (mmu s) = Some (0, m1) -> copy_segments (segments s new) (segments s old) = Some sg ->
  fork_tables 2032 new old 0 m1 = Some (true, m) ->
  fork_address_space new old s = Some (0, mkVms m (<[new := sg]> (segments s))).
Proof.
  intros E1 E2 E3. unfold fork_address_space. rewrite E1. cbn [mbind option_bind].
  rewrite bool_decide_false by (intros H; by apply H). rewrite E2. cbn [mbind option_bind].
  rewrite fork_range_tables, E3. done.
Qed.

(** The three ends of a fork: done, no frame for the child's page directory, and
    no frame for one of its page tables. *)
Definition fork_ends (A : list Z) (l : list Segment.seg) (new old : Z) (ow : Z -> role) (s : vms) : Prop :=
  (exists ow' s', fork_address_space new old s = Some (0, s') /\ forked A l new old ow s ow' s') \/
  (fork_address_space new old s = Some (-1, s) /\ no_pagedir (mmu s)) \/
  (exists ow' s', fork_address_space new old s = Some (-1, s') /\ fork_failed A new old ow s ow' s' /\
     no_page (mmu s') /\ child_cleaned new s').

Lemma fork_cases A ow s new old l :
  vm_inv A ow (mmu s) -> old ∈ A -> new ∉ A ->
  length (Segment.segment_table (segments s new)) = 32%nat -> Segment.rep (segments s old) l ->
  fork_ends A l new old ow s.
Proof.
  intros V Ho Hn Hl R. assert (new <> old) as Hno by (by intros ->).
  assert (old ∈ new :: A) as Ho' by (by right). assert (new ∈ new :: A) as Hn' by (by left).
  unfold fork_ends, fork_address_space.
  destruct (create_ok (vi_pmap _ _ _ V) new Hn) as [(ow1 & s1 & -> & C)|(-> & Hd)]; cbn [mbind option_bind].
  2:{ right; left. rewrite bool_decide_true by done. split; [by destruct s|done]. }
  rewrite bool_decide_false by (intros ?; done).
  destruct (copy_segments_ok _ _ _ Hl R) as (sg & -> & Rs). cbn [mbind option_bind].
  pose proof (vm_inv_created A ow (mmu s) new ow1 s1 V Hn C) as V1.
  assert (forall f, ow f = User -> ow1 f = User) as Hr1 by (intros f Hf; rewrite (cr_role _ _ _ C); congruence).
  rewrite fork_range_tables.
  pose proof (fork_tables_ok (B := new :: A) new old Hn' Ho' Hno 2032 ow1 s1 0 V1 ltac:(lia) ltac:(lia)) as L.
  rewrite fork_range_end, fork_range_start in L.
  revert L. generalize (fork_tables 2032 new old 0 s1). intros r L.
  destruct L as [(ow2 & s2 & -> & V2 & M2 & F2)|(ow2 & s2 & -> & V2 & M2 & F2 & N2)]; cbn [mbind option_bind].
  { intros w Hw. apply (cr_new _ _ _ C). unfold user_page. lia. }
  - left. exists ow2, (mkVms s2 (<[new := sg]> (segments s))). split; [reflexivity|].
    exact (forked_intro A new old ow s ow1 s1 Ho Hn C ow2 s2 sg V2 M2 l F2 Rs).
  - destruct (cleanup_ok (new :: A) ow2 (mkVms s2 (<[new := sg]> (segments s))) new V2 Hn')
      as (s3 & E3 & V3 & R3 & M3 & Rs3 & Hs3).
    { cbn. rewrite fn_lookup_insert. apply (Segment.rep_len _ _ Rs). }
    pose proof (cleanup_no_page _ _ _ E3 N2) as N3. rewrite E3. cbn [mbind option_bind].
    assert (child_cleaned new s3) as Hc.
    { split; [|done]. intros v Hv. rewrite R3 by (done || unfold user_page; lia). by rewrite bool_decide_true. }
    right; right. exists ow2, s3. split; [destruct s3; reflexivity|]. split; [|by split].
    exact (failed_intro A new old ow s ow1 s1 Ho Hn C ow2 s2 sg V2 M2 s3 F2 V3 R3 M3 Hs3 (conj N3 Hc)).
Qed.

Lemma fork_ok A ow s new old l :
  vm_inv A ow (mmu s) -> old ∈ A -> new ∉ A ->
  length (Segment.segment_table (segments s new)) = 32%nat -> Segment.rep (segments s old) l ->
  exists ow' s', fork_address_space new old s = Some (0, s') /\ forked A l new old ow s ow' s' \/
                 fork_address_space new old s = Some (-1, s') /\ fork_failed A new old ow s ow' s'.
Proof.
  intros V Ho Hn Hl R. destruct (fork_cases A ow s new old l V Ho Hn Hl R)
    as [(ow' & s' & H)|[(E & Hd)|(ow' & s' & E & F & _)]]; [by exists ow', s'; left| |by exists ow', s'; right].
  exists ow, s. right. split; [done|]. split; auto.
Qed.

(** ** Allocation *)

(** The page [v] of [a] is a fresh page of zeros. *)
Definition fresh_page (ow : Z -> role) (s' : vm) (flags : Z) (m : option (Z * Z)) : Prop :=
  exists i, m = Some (i * PAGE_SIZE, flags) /\ ow i = Free /\
    forall o, 0 <= o < PAGE_SIZE -> kmem s' (fva i + o) = 0.

Definition mapped_range (A : list Z) (ow : Z -> role) (s s' : vm) (a flags lo hi : Z) : Prop :=
  forall a' v, a' ∈ A -> user_page v ->
    if bool_decide (a' = a /\ lo <= v < hi) then fresh_page ow s' flags (view s' a' v)
    else view s' a' v = view s a' v.

(** A frame is given to a process. *)
Lemma vm_inv_claim A ow s i s1 :
  vm_inv A ow s -> allocated PAGE_SIZE 1 i s s1 ->
  let ow' := claim (ow := ow) i 1 User in
  vm_inv A ow' s1 /\ keeps ow s ow' s1 /\ ow' i = User /\
  forall a v, a ∈ A -> user_page v -> view s1 a v = view s a v.
Proof.
  intros V Al ow'. pose proof (vi_pmap _ _ _ V) as I.
  destruct (fresh_frame A ow s i s1 I Al) as (Hr & Hfree & _ & Href).
  destruct (inv_claim I PAGE_SIZE 1 i User s1 s1 Al) as (I2 & K2 & _ & V2); [lia|by split|done|done|].
  assert (ow' i = User) as Hu by (unfold ow', claim; by rewrite bool_decide_true by lia).
  split_and!; try done. split; [apply V|done|..].
  - intros a v pa fl Ha Hv. rewrite V2 by done. by apply (vi_type _ _ _ V).
  - intros p Hp. rewrite (refs_ext A s s1) by done. destruct (decide (p = i)) as [->|Hpi].
    + rewrite (refs_other A ow s i I) by congruence. lia.
    + assert (ow p = User) as Hp' by (revert Hp; unfold ow', claim; by rewrite bool_decide_false by lia).
      rewrite (kp_ref _ _ _ _ K2) by done. by apply (vi_refs _ _ _ V).
  - intros a1 v1 a2 v2 p fl H1 Hv1 H2 Hv2. rewrite !V2 by done. by apply (vi_cow _ _ _ V).
Qed.

(** The result of one iteration of the loop. *)
Lemma alloc_page_ok A ow s a v flags n :
  vm_inv A ow s -> a ∈ A -> user_page v -> v <> 0 -> view s a v = None -> is_alloc flags ->
  (exists ow' s', alloc_pages (S n) a (v * PAGE_SIZE) flags s = alloc_pages n a ((v + 1) * PAGE_SIZE) flags s' /\
     vm_inv A ow' s' /\ memory_kept ow s ow' s' /\ mapped_range A ow s s' a flags v (v + 1)) \/
  (exists ow' s', alloc_pages (S n) a (v * PAGE_SIZE) flags s = Some (false, v * PAGE_SIZE, s') /\
     vm_inv A ow' s' /\ memory_kept ow s ow' s' /\ free_4k_pf_list s' = [] /\ free_64k_pf_list s' = [] /\
     forall a' v, a' ∈ A -> user_page v -> view s' a' v = view s a' v).
Proof.
  intros V Ha Hv H0 Hn Hal. cbn [alloc_pages].
  destruct (alloc_pageframe_ok s 1 (iv_alloc _ _ _ (vi_pmap _ _ _ V))) as [(i & s1 & Eal & Al)|(Eal & H4 & H64)];
    [by left| |]; change (1 * PAGE_SIZE) with PAGE_SIZE in *; rewrite Eal; cbn [mbind option_bind].
  2:{ right. exists ow, s. split_and!; try done. }
  destruct (fresh_frame A ow s i s1 (vi_pmap _ _ _ V) Al) as (Hr & Hfree & Hz & Href).
  destruct (vm_inv_claim A ow s i s1 V Al) as (V1 & K1 & Hu1 & E1).
  set (ow1 := claim i 1 User) in *. pose proof (vi_pmap _ _ _ V1) as I1. pose proof (max_bound I1) as Hmx.
  rewrite pageframe_ok by done. cbn [mbind option_bind]. rewrite (al_pf _ _ _ _ _ Al). cbn [physical_addr].
  destruct (enter_ok I1 a v i flags) as [(ow2 & s2 & -> & I2 & K2 & R2 & U2)|(-> & H4 & H64)]; try done;
    [unfold PAGE_SIZE in *; lia|intros _; split; [lia|done]|by rewrite E1|left|right]; cbn [mbind option_bind].
  2:{ rewrite bool_decide_true by done. exists ow1, s1. split_and!; try done. by apply keeps_memory. }
  rewrite bool_decide_false by (intros ?; done).
  assert (ow2 i = User) as Hu2 by (rewrite (kp_role _ _ _ _ K2), Hu1 by congruence; done).
  destruct (upd_ref_ok A ow2 s2 i (fun p => p <| reference_cnt := 1 |>))
    as (s3 & -> & I3 & V3 & S3 & M3 & Hr3); [done|by rewrite (kp_max _ _ _ _ K2)|done|done|].
  cbn [mbind option_bind]. exists ow2, s3.
  replace (v * PAGE_SIZE + PAGE_SIZE) with ((v + 1) * PAGE_SIZE) by lia. split; [done|].
  assert (remaps A s1 s3 a v (Some (i * PAGE_SIZE, flags))) as R by (by eapply remaps_same).
  assert (refs A s1 i = 0) as Hno.
  { rewrite (refs_ext A s s1) by done. apply (refs_other A ow s i (vi_pmap _ _ _ V)). congruence. }
  split_and!.
  - apply (vm_inv_remap A ow1 s1 ow2 s3 a v (Some (i * PAGE_SIZE, flags))); try done.
    + intros ?? [= <- <-]. by left.
    + intros q Hq%U2. rewrite E1, Hn, counts_None, counts_page, Hr3 by done. cbn [reference_cnt update_field].
      case_bool_decide as Hqi; [subst; lia|]. rewrite (kp_ref _ _ _ _ K2) by done.
      pose proof (vi_refs _ _ _ V1 q Hq). lia.
    + intros p' fl' a' v' [= Ep <-] _ Ha' Hv' Hne Hm. exfalso.
      assert (p' = i) as -> by (unfold PAGE_SIZE in Ep; lia).
      pose proof (refs_pos A s1 a' v' i Ha' Hv' Hm). lia.
  - eapply memory_kept_trans; [by apply keeps_memory|].
    eapply memory_kept_trans; [by apply keeps_memory|by apply same_memory].
  - intros a' v' Ha' Hv'. rewrite R by done.
    assert (a' = a /\ v <= v' < v + 1 <-> (a', v') = (a, v)) as Hiff.
    { split; [intros [-> ?]; f_equal; lia|intros [= -> ->]; lia]. }
    rewrite (bool_decide_ext _ _ Hiff). case_bool_decide; [|by apply E1].
    exists i. split_and!; try done. intros o Ho. unfold PAGE_SIZE in Ho. rewrite M3, (kp_mem _ _ _ _ K2).
    + apply Hz. by apply frame_of_fva.
    + left. by rewrite frame_of_fva.
Qed.

Lemma mapped_join A ow s1 ow2 s2 ow3 s3 a flags lo mid hi :
  memory_kept ow s1 ow2 s2 -> memory_kept ow2 s2 ow3 s3 -> vm_inv A ow2 s2 -> is_alloc flags ->
  mapped_range A ow s1 s2 a flags lo mid -> mapped_range A ow2 s2 s3 a flags mid hi -> lo <= mid <= hi ->
  mapped_range A ow s1 s3 a flags lo hi.
Proof.
  intros M1 M2 V2 Hal R1 R2 Hm a' v Ha' Hv. specialize (R1 a' v Ha' Hv). specialize (R2 a' v Ha' Hv).
  destruct (decide (a' = a)) as [->|]; [|by rewrite bool_decide_false in * by tauto; congruence].
  destruct (decide (lo <= v < mid)); [|destruct (decide (mid <= v < hi))].
  - rewrite bool_decide_false in R2 by lia. rewrite bool_decide_true in R1 by done. rewrite bool_decide_true by lia.
    rewrite R2. destruct R1 as (i & E & Hf & Hz). exists i. split_and!; try done. intros o Ho.
    destruct (view_page A ow2 s2 a v _ flags (vi_pmap _ _ _ V2) Ha' Hv E) as (p & Ep & _ & Hu).
    assert (p = i) as -> by (unfold PAGE_SIZE in *; lia).
    rewrite (mk_mem _ _ _ _ M2); [by apply Hz|]. left. rewrite frame_of_fva by (unfold PAGE_SIZE in *; lia). by apply Hu.
  - rewrite bool_decide_true in R2 by done. rewrite bool_decide_true by lia.
    destruct R2 as (i & E & Hf & Hz). exists i. split_and!; try done.
    destruct (decide (ow i = Free)); [done|]. by rewrite <- (mk_role _ _ _ _ M1).
  - rewrite bool_decide_false in * by lia. congruence.
Qed.

Lemma mapped_ext A ow s s' a flags lo :
  (forall a' v, a' ∈ A -> user_page v -> view s' a' v = view s a' v) -> mapped_range A ow s s' a flags lo lo.
Proof. intros H a' v Ha' Hv. rewrite bool_decide_false by lia. by apply H. Qed.

Lemma alloc_pages_ok A a flags n : forall ow s v,
  vm_inv A ow s -> a ∈ A -> 1 <= v -> v + Z.of_nat n <= 2 ^ 19 -> is_alloc flags ->
  (forall w, v <= w < v + Z.of_nat n -> view s a w = None) ->
  exists ow' s' k, v <= k <= v + Z.of_nat n /\ vm_inv A ow' s' /\ memory_kept ow s ow' s' /\
    mapped_range A ow s s' a flags v k /\
    (k = v + Z.of_nat n /\ alloc_pages n a (v * PAGE_SIZE) flags s = Some (true, k * PAGE_SIZE, s') \/
     k < v + Z.of_nat n /\ alloc_pages n a (v * PAGE_SIZE) flags s = Some (false, k * PAGE_SIZE, s') /\
     free_4k_pf_list s' = [] /\ free_64k_pf_list s' = []).
Proof.
  induction n as [|n IH]; intros ow s v V Ha Hv Hn Hal Hno.
  - exists ow, s, v. rewrite Z.add_0_r in *. split_and!; try done; try lia; [by apply mapped_ext|by left].
  - destruct (alloc_page_ok A ow s a v flags n V Ha) as [(ow1 & s1 & -> & V1 & M1 & R1)|(ow1 & s1 & -> & V1 & M1 & H4 & H64 & E1)];
      [unfold user_page; lia|lia|apply Hno; lia|done|..].
    + destruct (IH ow1 s1 (v + 1) V1 Ha) as (ow2 & s2 & k & Hk & V2 & M2 & R2 & Hres); [lia|lia|done|..].
      { intros w Hw. specialize (R1 a w Ha ltac:(unfold user_page; lia)).
        rewrite bool_decide_false in R1 by lia. rewrite R1. apply Hno. lia. }
      replace (v + Z.of_nat (S n)) with (v + 1 + Z.of_nat n) by lia.
      exists ow2, s2, k. split_and!; try done; try lia; [by eapply memory_kept_trans|].
      eapply (mapped_join A ow s ow1 s1 ow2 s2); done || lia.
    + exists ow1, s1, v. split_and!; try done; try lia; [by apply mapped_ext|]. right. split_and!; try done; lia.
Qed.

Lemma alloc_flags_alloc f : is_alloc (Z.lor (Z.ldiff f VM_SYSTEM_MASK) MEM_ALLOC).
Proof.
  unfold is_alloc. rewrite Z.land_lor_distr_l.
  replace (Z.land (Z.ldiff f VM_SYSTEM_MASK) MEM_MASK) with 0; [done|].
  symmetry. apply Z.bits_inj'. intros n Hn. rewrite Z.land_spec, Z.ldiff_spec, Z.bits_0.
  unfold VM_SYSTEM_MASK. rewrite Z.lor_spec. 
  by destruct (Z.testbit f n), (Z.testbit MEM_MASK n), (Z.testbit (Z.lor MAP_COW MAP_USER) n).
Qed.

Lemma npages_ok v n : 1 <= v -> v + Z.of_nat n <= 2 ^ 19 -> npages (v * PAGE_SIZE) (Z.of_nat n * PAGE_SIZE) = n.
Proof.
  intros Hv Hn. unfold npages. rewrite Z.div_mul by done. unfold PAGE_SIZE. unfold u32.
  rewrite Z.mod_small by lia. destruct n; [by case_bool_decide|]. rewrite bool_decide_true by lia. lia.
Qed.

(** The cleanup loop stops at a mapped page. *)
Lemma unmap_pages_fault n a v s : view s a v <> None -> unmap_pages (S n) a (v * PAGE_SIZE) s = None.
Proof. unfold view. cbn [unmap_pages]. by destruct (pmap_extract a (v * PAGE_SIZE) s). Qed.

Section VirtualAlloc.
Context {A : list Z} {ow : Z -> role} {s : vms} (a addr len flags v : Z) (n : nat) (sg : Segment.AddressSpace).
Hypothesis V : vm_inv A ow (mmu s).
Hypothesis Ha : a ∈ A.
Let fl := Z.lor (Z.ldiff flags VM_SYSTEM_MASK) MEM_ALLOC.
Hypothesis Hlen : ALIGN_UP len PAGE_SIZE = Z.of_nat n * PAGE_SIZE.
Hypothesis Hseg : Segment.segment_create (ALIGN_DOWN addr PAGE_SIZE) (Z.of_nat n * PAGE_SIZE)
  Segment.SEG_TYPE_ALLOC fl (segments s a) = Some (v * PAGE_SIZE, sg).
Hypothesis Hv : 1 <= v.
Hypothesis Hn : v + Z.of_nat n <= 2 ^ 19.
Hypothesis Hfree : forall w, v <= w < v + Z.of_nat n -> view (mmu s) a w = None.

(** The region is allocated; or memory ran out at the first page, and the
    segment is given back; or it ran out later, and the cleanup faults. *)
Lemma virtualalloc_ok :
  exists ow' m k, v <= k <= v + Z.of_nat n /\ vm_inv A ow' m /\ memory_kept ow (mmu s) ow' m /\
    mapped_range A ow (mmu s) m a fl v k /\
    (k = v + Z.of_nat n /\
       sys_virtualalloc a addr len flags s = Some (v * PAGE_SIZE, mkVms m (<[a := sg]> (segments s))) \/
     k < v + Z.of_nat n /\ free_4k_pf_list m = [] /\ free_64k_pf_list m = [] /\
       (k = v -> sys_virtualalloc a addr len flags s =
          (sg' ← Segment.segment_free (v * PAGE_SIZE) (Z.of_nat n * PAGE_SIZE) sg;
           Some (0, mkVms m (<[a := sg']> (<[a := sg]> (segments s)))))) /\
       (v < k -> sys_virtualalloc a addr len flags s = None)).
Proof using All.
  unfold sys_virtualalloc. rewrite Hlen. fold fl. rewrite Hseg. cbn [mbind option_bind].
  rewrite bool_decide_false by (unfold PAGE_SIZE; lia). cbn [mmu segments update_field].
  rewrite npages_ok by done.
  destruct (alloc_pages_ok A a fl n ow (mmu s) v V Ha Hv Hn (alloc_flags_alloc flags) Hfree)
    as (ow' & m & k & Hk & V' & M & R & [[-> E]|(Hlt & E & H4 & H64)]); rewrite E; cbn [mbind option_bind].
  - exists ow', m, (v + Z.of_nat n). split_and!; try done; try lia. left. done.
  - exists ow', m, k. split_and!; try done; try lia. right. split_and!; try done.
    + intros ->. rewrite Z.sub_diag.
      change (npages (v * PAGE_SIZE) 0) with (npages (v * PAGE_SIZE) (Z.of_nat 0 * PAGE_SIZE)).
      rewrite npages_ok by lia. cbn [unmap_pages mbind option_bind].
      by rewrite fn_lookup_insert.
    + intros Hvk. replace (k * PAGE_SIZE - v * PAGE_SIZE) with (Z.of_nat (Z.to_nat (k - v)) * PAGE_SIZE) by lia.
      rewrite npages_ok by lia. destruct (Z.to_nat (k - v)) as [|j] eqn:Ej; [lia|].
      rewrite unmap_pages_fault; [done|]. specialize (R a v Ha ltac:(unfold user_page; lia)).
      rewrite bool_decide_true in R by lia. destruct R as (i & -> & _). done.
Qed.
End VirtualAlloc.

(** ** User stores *)

(** The word at offset [o] of page [v] of [a]; None when it is not mapped. *)
Definition user_word (s : vm) (a v o : Z) : option Z :=
  '(pa, _) ← view s a v; Some (kmem s (pmap_pa_to_va pa + o)).

(** A store of a process through a writable mapping of allocated memory. *)
Definition user_store (s : vm) (a v o x : Z) : option vm :=
  '(pa, fl) ← view s a v;
  if decide (is_alloc fl /\ writable fl) then Some (s <| kmem := <[pmap_pa_to_va pa + o := x]> (kmem s) |>)
  else None.

Lemma store_ok A ow s a v o x s' :
  vm_inv A ow s -> a ∈ A -> user_page v -> 0 <= o < PAGE_SIZE -> user_store s a v o x = Some s' ->
  vm_inv A ow s' /\ user_word s' a v o = Some x /\
  (forall a' v', a' ∈ A -> user_page v' -> view s' a' v' = view s a' v') /\
  (forall y, frame_of y <> frame_of (match view s a v with Some (pa, _) => pmap_pa_to_va pa | None => 0 end) -> kmem s' y = kmem s y).
Proof.
  intros V Ha Hv Ho. unfold user_store, user_word. destruct (view s a v) as [[pa fl]|] eqn:E; cbn [mbind option_bind]; [|done].
  destruct (decide (is_alloc fl /\ writable fl)) as [[Hal Hw]|]; [|done]. intros [= <-].
  destruct (view_page A ow s a v pa fl (vi_pmap _ _ _ V) Ha Hv E) as (p & -> & Hp & Hu).
  destruct (Hu Hal) as [Hr Hus]. pose proof (inv_frame_max (vi_pmap _ _ _ V) p Hr).
  rewrite pa_to_va_fva by lia. unfold PAGE_SIZE in Ho.
  assert (frame_of (fva p) = p) as Hf0 by (rewrite <- (Z.add_0_r (fva p)); by apply frame_of_fva).
  assert (frame_of (fva p + o) = p) as Hfo by (by apply frame_of_fva).
  set (s' := s <| kmem := <[fva p + o := x]> (kmem s) |>).
  assert (forall y, frame_of y <> p -> kmem s' y = kmem s y) as Hk.
  { intros y Hy. unfold s'. cbn. rewrite fn_lookup_insert_ne; [done|]. intros <-. done. }
  assert (same_alloc s s') as Sa by (by split).
  destruct (inv_transfer (vi_pmap _ _ _ V) ow s') as (I' & _ & V'); try done.
  - by eapply same_alloc_inv; [|apply V].
  - exact (iv_free _ _ _ (vi_pmap _ _ _ V)).
  - intros a' y _ Hy. apply Hk. congruence.
  - intros a' i y _ Hy. apply Hk. congruence.
  - split_and!; [| |done|by rewrite Hf0].
    2:{ rewrite V', E by done. cbn [mbind option_bind]. rewrite pa_to_va_fva by lia. unfold s'.
        cbn [kmem update_field]. by rewrite fn_lookup_insert. }
    split; [apply V|done|..].
    + intros a' v' pa' fl' Ha' Hv'. rewrite V' by done. by apply (vi_type _ _ _ V).
    + intros q Hq. rewrite (refs_ext A s s') by done. by apply (vi_refs _ _ _ V).
    + intros a1 v1 a2 v2 q fl' H1 Hv1 H2 Hv2. rewrite !V' by done. by apply (vi_cow _ _ _ V).
Qed.

(** ** Reachable states *)

(** Runs of the virtual memory system: address spaces are created and forked,
    memory is allocated where nothing is mapped, write faults are taken, and
    processes store through the mappings they may write. *)
Inductive vm_reach : list Z -> vms -> Prop :=
| reach_boot s : alloc_inv (mmu s) -> vm_reach [] s
| reach_create A s a m :
    vm_reach A s -> a ∉ A -> pmap_create a (mmu s) = Some (0, m) -> vm_reach (a :: A) (s <| mmu := m |>)
| reach_alloc A s a addr len flags v n sg r s' :
    vm_reach A s -> a ∈ A -> ALIGN_UP len PAGE_SIZE = Z.of_nat n * PAGE_SIZE ->
    Segment.segment_create (ALIGN_DOWN addr PAGE_SIZE) (Z.of_nat n * PAGE_SIZE) Segment.SEG_TYPE_ALLOC
      (Z.lor (Z.ldiff flags VM_SYSTEM_MASK) MEM_ALLOC) (segments s a) = Some (v * PAGE_SIZE, sg) ->
    1 <= v -> v + Z.of_nat n <= 2 ^ 19 -> (forall w, v <= w < v + Z.of_nat n -> view (mmu s) a w = None) ->
    sys_virtualalloc a addr len flags s = Some (r, s') -> vm_reach A s'
| reach_fork A s new old l r s' :
    vm_reach A s -> old ∈ A -> new ∉ A -> length (Segment.segment_table (segments s new)) = 32%nat ->
    Segment.rep (segments s old) l -> fork_address_space new old s = Some (r, s') ->
    vm_reach (if bool_decide (r = 0) then new :: A else A) s'
| reach_fault A s a v off access r m :
    vm_reach A s -> a ∈ A -> user_page v -> 0 <= off < PAGE_SIZE ->
    page_fault a (v * PAGE_SIZE + off) access (mmu s) = Some (r, m) -> vm_reach A (s <| mmu := m |>)
| reach_cleanup A s a s' :
    vm_reach A s -> a ∈ A -> length (Segment.segment_table (segments s a)) = 32%nat ->
    cleanup_address_space a s = Some s' -> vm_reach A s'
| reach_store A s a v o x m :
    vm_reach A s -> a ∈ A -> user_page v -> 0 <= o < PAGE_SIZE ->
    user_store (mmu s) a v o x = Some m -> vm_reach A (s <| mmu := m |>).

(** The frames in use at boot are the kernel's. *)
Definition roles_at_boot (s : vm) (f : Z) : role := if bool_decide (f ∈ free_frames s) then Free else Kernel.

Lemma vm_inv_boot s : alloc_inv s -> vm_inv [] (roles_at_boot s) s.
Proof.
  intros H. split.
  - constructor.
  - split; [done| |by intros a ?%elem_of_nil|by intros a i ?%elem_of_nil]. intros f Hf.
    unfold roles_at_boot. by rewrite bool_decide_true.
  - by intros a v pa fl ?%elem_of_nil.
  - intros p. unfold roles_at_boot. by case_bool_decide.
  - by intros a v a' v' p fl ?%elem_of_nil.
Qed.

Lemma vm_reach_inv A s : vm_reach A s -> exists ow, vm_inv A ow (mmu s).
Proof.
  induction 1 as [s H|A s a m _ [ow IH] Hn E|A s a addr len flags v n sg r s' _ [ow IH] Ha H1 H2 H3 H4 H5 E
    |A s new old l r s' _ [ow IH] Ho Hn Hl R E|A s a v off access r m _ [ow IH] Ha Hv Ho E
    |A s a s' _ [ow IH] Ha Hl E|A s a v o x m _ [ow IH] Ha Hv Ho E].
  - eexists. by apply vm_inv_boot.
  - destruct (create_ok (vi_pmap _ _ _ IH) a Hn) as [(ow1 & s1 & E1 & C)|(E1 & _)]; [|congruence].
    assert (s1 = m) as -> by congruence. exists ow1. by apply (vm_inv_created A ow (mmu s)).
  - destruct (virtualalloc_ok a addr len flags v n sg IH Ha H1 H2 H3 H4 H5)
      as (ow' & m & k & Hk & V' & _ & _ & [[_ E2]|(Hlt & _ & _ & E2 & E3)]).
    + rewrite E2 in E. injection E as <- <-. by exists ow'.
    + destruct (decide (k = v)) as [Hkv|Hkv]; [|rewrite E3 in E by lia; done].
      rewrite E2 in E by done. destruct (Segment.segment_free _ _ _); [|done]. cbn [mbind option_bind] in E.
      injection E as <- <-. by exists ow'.
  - destruct (fork_ok A ow s new old l IH Ho Hn Hl R) as (ow' & s1 & [[E1 F]|[E1 F]]);
      rewrite E1 in E; injection E as <- <-; exists ow'.
    + rewrite bool_decide_true by done. apply F.
    + rewrite bool_decide_false by done. apply F.
  - cbn [mmu update_field].
    destruct (page_fault_ok A ow (mmu s) a v off access IH Ha Hv Ho)
      as [[_ E1]|(p & fl & _ & _ & [(ow' & s1 & E1 & _ & V' & _)|[(ow' & s1 & i & E1 & _ & C)|(ow' & s1 & E1 & L)]])];
      rewrite E1 in E; injection E as <- <-.
    + by exists ow.
    + by exists ow'.
    + exists ow'. apply C.
    + exists ow'. apply L.
  - destruct (cleanup_ok A ow s a IH Ha Hl) as (s1 & E1 & V1 & _). exists ow. congruence.
  - exists ow. by destruct (store_ok A ow (mmu s) a v o x m IH Ha Hv Ho E).
Qed.

(** A store is seen by the process that made it and through no other mapping. *)
Lemma store_isolated A ow s a v o x s' a' v' pa fl o' :
  vm_inv A ow s -> a ∈ A -> user_page v -> 0 <= o < PAGE_SIZE -> user_store s a v o x = Some s' ->
  a' ∈ A -> user_page v' -> (a', v') <> (a, v) -> view s a' v' = Some (pa, fl) -> is_alloc fl ->
  0 <= o' < PAGE_SIZE -> user_word s' a' v' o' = user_word s a' v' o'.
Proof.
  intros V Ha Hv Ho E Ha' Hv' Hne E' Hal' Ho'.
  destruct (store_ok A ow s a v o x s' V Ha Hv Ho E) as (_ & _ & Hview & Hk).
  unfold user_word. rewrite Hview, E' by done. cbn [mbind option_bind]. f_equal. apply Hk.
  unfold user_store in E. destruct (view s a v) as [[pb fb]|] eqn:Eb; [|done]. cbn [mbind option_bind] in E.
  destruct (decide (is_alloc fb /\ writable fb)) as [[Hal Hw]|]; [|done].
  destruct (view_page A ow s a v pb fb (vi_pmap _ _ _ V) Ha Hv Eb) as (p & -> & _ & Hu).
  destruct (view_page A ow s a' v' pa fl (vi_pmap _ _ _ V) Ha' Hv' E') as (q & -> & _ & Hu').
  pose proof (inv_frame_max (vi_pmap _ _ _ V) p (proj1 (Hu Hal))).
  pose proof (inv_frame_max (vi_pmap _ _ _ V) q (proj1 (Hu' Hal'))).
  destruct (Hu Hal), (Hu' Hal'). rewrite !pa_to_va_fva by lia. unfold PAGE_SIZE in Ho'.
  rewrite frame_of_fva by done. rewrite <- (Z.add_0_r (fva p)), frame_of_fva by done. intros ->.
  apply (vi_cow _ _ _ V a v a' v' p fb Ha Hv Ha' Hv' (fun e => Hne (eq_sym e)) Eb Hal); [|done].
  by rewrite E'.
Qed.

(** ** A parent and a child *)

Definition seg0 : Segment.AddressSpace :=
  Segment.mkAS (Z.lor VM_USER_BASE Segment.SEG_TYPE_FREE :: Z.lor VM_USER_CEILING Segment.SEG_TYPE_CEILING
                :: replicate 30 0) 1.
Definition vms1 : vms := mkVms vm1 (fun _ => seg0).
Definition rw : Z := Z.lor PROT_READ PROT_WRITE.
Definition sg1 : Segment.AddressSpace :=
  default seg0 (snd <$> Segment.segment_create 0x10000 0x2000 Segment.SEG_TYPE_ALLOC
    (Z.lor (Z.ldiff rw VM_SYSTEM_MASK) MEM_ALLOC) seg0).
Definition vms2 : vms := default vms1 (snd <$> sys_virtualalloc 1 0x10000 0x2000 rw vms1).
(** The first page is shared with a child. *)
Definition vm4 : vm := default (mmu vms2) (snd <$> pmap_create 2 (mmu vms2)).
Definition vm5 : vm := default vm4 (snd <$> fork_page 2 1 0x10000 vm4).

Lemma seg0_rep : Segment.rep seg0 [(Segment.VM_USER_BASE, Segment.SEG_TYPE_FREE)].
Proof.
  split; [reflexivity|reflexivity|]. intros i s Hi. pose proof (lookup_lt_Some _ _ _ Hi) as Hlt. simpl in Hlt.
  do 2 (destruct i as [|i]; [by simplify_eq/=|]). lia.
Qed.

Lemma sg1_created :
  Segment.segment_create (ALIGN_DOWN 0x10000 PAGE_SIZE) (Z.of_nat 2 * PAGE_SIZE) Segment.SEG_TYPE_ALLOC
    (Z.lor (Z.ldiff rw VM_SYSTEM_MASK) MEM_ALLOC) seg0 = Some (0x10 * PAGE_SIZE, sg1).
Proof. vm_compute. reflexivity. Qed.

Lemma vm1_unmapped v : user_page v -> view (mmu vms1) 1 v = None.
Proof. destruct vm1_created as (ow & _ & C). apply (cr_new _ _ _ C). Qed.

Lemma vm1_inv : exists ow, vm_inv [1] ow (mmu vms1).
Proof.
  destruct vm1_created as (ow & E & C). exists ow.
  exact (vm_inv_created [] boot_roles booted 1 ow vm1 (vm_inv_boot booted booted_ok) (not_elem_of_nil 1) C).
Qed.

(** The allocation of two pages at 0x10000. *)
Lemma vms2_alloc :
  exists ow ow', vm_inv [1] ow (mmu vms1) /\ vm_inv [1] ow' (mmu vms2) /\
    mapped_range [1] ow (mmu vms1) (mmu vms2) 1 (Z.lor (Z.ldiff rw VM_SYSTEM_MASK) MEM_ALLOC) 0x10 0x12 /\
    sys_virtualalloc 1 0x10000 0x2000 rw vms1 = Some (0x10000, vms2).
Proof.
  destruct vm1_inv as (ow & V).
  destruct (virtualalloc_ok (A := [1]) (ow := ow) (s := vms1) 1 0x10000 0x2000 rw 0x10 2 sg1 V)
    as (ow' & m & k & Hk & V' & _ & R & [[-> E]|(Hlt & _ & _ & E1 & E2)]).
  - by left.
  - reflexivity.
  - exact sg1_created.
  - lia.
  - lia.
  - intros w Hw. apply vm1_unmapped. unfold user_page. lia.
  - exists ow, ow'. assert (vms2 = mkVms m (<[1 := sg1]> (segments vms1))) as Ev by (unfold vms2; rewrite E; reflexivity).
    rewrite Ev. split; [exact V|]. split; [exact V'|]. split; [exact R|exact E].
  - exfalso. assert (fst <$> sys_virtualalloc 1 0x10000 0x2000 rw vms1 = Some 0x10000) as Ec by (lazy; reflexivity).
    destruct (decide (k = 0x10)) as [Hk2|Hk2].
    + rewrite E1 in Ec by exact Hk2. destruct (Segment.segment_free _ _ _); discriminate Ec.
    + rewrite E2 in Ec by lia. discriminate Ec.
Qed.

Lemma vms2_reach : vm_reach [1] vms2.
Proof.
  destruct vm1_created as (ow & E & C). destruct vms2_alloc as (_ & _ & _ & _ & _ & E2).
  apply (reach_alloc [1] vms1 1 0x10000 0x2000 rw 0x10 2 sg1 0x10000).
  - exact (reach_create [] (mkVms booted (fun _ => seg0)) 1 vm1
             (reach_boot (mkVms booted (fun _ => seg0)) booted_ok) (not_elem_of_nil 1) E).
  - by left.
  - reflexivity.
  - exact sg1_created.
  - lia.
  - lia.
  - intros w Hw. apply vm1_unmapped. unfold user_page. lia.
  - exact E2.
Qed.

Lemma vms2_segments : length (Segment.segment_table (segments vms2 1)) = 32%nat.
Proof. lazy. reflexivity. Qed.

Definition segs2 : list Segment.seg :=
  [(Segment.VM_USER_BASE, Segment.SEG_TYPE_FREE); (0x10000, Segment.SEG_TYPE_ALLOC); (0x12000, Segment.SEG_TYPE_FREE)].

Lemma vms2_rep : Segment.rep (segments vms2 1) segs2.
Proof.
  assert (segments vms2 1 = sg1) as -> by (lazy; reflexivity).
  split; [reflexivity|reflexivity|]. intros i s Hi. pose proof (lookup_lt_Some _ _ _ Hi) as Hlt. simpl in Hlt.
  do 4 (destruct i as [|i]; [by simplify_eq/=|]). lia.
Qed.

(** The child's page directory, then the two pages of the parent. *)
Lemma vm4_created :
  exists ow ow', vm_inv [1] ow (mmu vms2) /\ pmap_create 2 (mmu vms2) = Some (0, vm4) /\
    created (A := [1]) (ow := ow) (s := mmu vms2) 2 ow' vm4 /\ vm_inv [2; 1] ow' vm4.
Proof.
  destruct vms2_alloc as (_ & ow & _ & V & _).
  assert (2 ∉ [1]) as H2 by (intros H%list_elem_of_singleton; discriminate H).
  destruct (create_ok (vi_pmap _ _ _ V) 2 H2) as [(ow1 & s1 & E & C)|(_ & _ & H)].
  2:{ exfalso. revert H. lazy. discriminate. }
  assert (vm4 = s1) as E4 by (unfold vm4; rewrite E; reflexivity). rewrite <- E4 in C, E.
  exists ow, ow1. split; [exact V|]. split; [exact E|]. split; [exact C|].
  exact (vm_inv_created [1] ow (mmu vms2) 2 ow1 vm4 V H2 C).
Qed.

Lemma vm4_parent v : user_page v -> ~ 0x10 <= v < 0x12 -> view vm4 1 v = None.
Proof.
  intros Hv Hr. destruct vm4_created as (ow0 & ow1 & _ & _ & C & _).
  rewrite (cr_old _ _ _ C) by (by left || done). destruct vms2_alloc as (ow & _ & _ & _ & R & _).
  specialize (R 1 v ltac:(by left) Hv). rewrite bool_decide_false in R by (intros [_ ?]; done).
  rewrite R. by apply vm1_unmapped.
Qed.

(** The next page of the parent is shared when the two have memory for it. *)
Lemma fork_next ow s v :
  vm_inv [2; 1] ow s -> user_page v -> view s 2 v = None -> fst <$> fork_page 2 1 (v * PAGE_SIZE) s = Some true ->
  exists ow' s', fork_page 2 1 (v * PAGE_SIZE) s = Some (true, s') /\ vm_inv [2; 1] ow' s' /\
    forked_page (B := [2; 1]) (s := s) 2 1 v (child_map (view s 1 v)) s'.
Proof.
  intros V Hv Hn E1. destruct (fork_page_ok V 2 1 v ltac:(by left) ltac:(by right; left) ltac:(lia) Hv Hn)
    as [(ow2 & s2 & E & V5 & _ & F)|(s2 & E & _)]; [by exists ow2, s2|]. rewrite E in E1. discriminate E1.
Qed.

Lemma vm5_forked :
  exists ow, fork_page 2 1 (0x10 * PAGE_SIZE) vm4 = Some (true, vm5) /\ vm_inv [2; 1] ow vm5 /\
    forked_page (B := [2; 1]) (s := vm4) 2 1 0x10 (child_map (view vm4 1 0x10)) vm5.
Proof.
  destruct vm4_created as (ow0 & ow1 & _ & _ & C & V4).
  assert (user_page 0x10) as Hp by (unfold user_page; lia).
  destruct (fork_next ow1 vm4 0x10 V4 Hp) as (ow2 & s2 & E & V5 & F); [by apply (cr_new _ _ _ C)|lazy; reflexivity|].
  exists ow2. assert (vm5 = s2) as -> by (unfold vm5; change 0x10000 with (0x10 * PAGE_SIZE); rewrite E; reflexivity).
  split; [exact E|]. split; [exact V5|exact F].
Qed.

Lemma vm5_inv : exists ow, vm_inv [2; 1] ow vm5.
Proof. destruct vm5_forked as (ow & _ & V & _). by exists ow. Qed.

Lemma vm6_forked :
  exists vm6, fork_page 2 1 (0x11 * PAGE_SIZE) vm5 = Some (true, vm6) /\
    forall v, user_page v -> 0x12 <= v -> view vm6 1 v = None.
Proof.
  destruct vm5_forked as (ow & _ & V5 & F5). destruct vm4_created as (ow0 & ow1 & _ & _ & C & _).
  assert (user_page 0x11) as Hp by (unfold user_page; lia).
  destruct (fork_next ow vm5 0x11 V5 Hp) as (ow2 & s2 & E & _ & F6).
  - rewrite (F5 2 0x11) by (by left || done). rewrite !bool_decide_false by discriminate. by apply (cr_new _ _ _ C).
  - lazy. reflexivity.
  - exists s2. split; [exact E|]. intros v Hv Hr.
    assert (1 ∈ [2; 1]) as H1 by (by right; left). rewrite (F6 1 v H1 Hv), (F5 1 v H1 Hv). rewrite !bool_decide_false by (intros [=]; lia).
    apply vm4_parent; [exact Hv|lia].
Qed.

(** The loops, for a parent with these two pages. *)
Lemma fork_two_pages s4 s5 s6 :
  fork_page 2 1 (0x10 * PAGE_SIZE) s4 = Some (true, s5) -> fork_page 2 1 (0x11 * PAGE_SIZE) s5 = Some (true, s6) ->
  pmap_is_pagetable_present 1 0 s4 = true -> (forall v, 0 <= v < 0x10 -> view s4 1 v = None) ->
  (forall v, 0x12 <= v < 2 ^ 19 -> view s6 1 v = None) -> fork_tables 2032 2 1 0 s4 = Some (true, s6).
Proof.
  intros E5 E6 Ht H4 H6. rewrite (fork_tables_first 2031 2 1 s4 s6 Ht).
  - apply fork_tables_none. intros w Hw. apply H6. lia.
  - change 256%nat with (16 + (1 + (1 + 238)))%nat.
    rewrite (fork_pages_app _ _ 2 1 0 s4 s4) by (apply fork_pages_none; intros w Hw; apply H4; lia).
    change (0 + Z.of_nat 16) with 0x10.
    rewrite (fork_pages_app 1 _ 2 1 0x10 s4 s5) by (by apply fork_pages_one). change (0x10 + Z.of_nat 1) with 0x11.
    rewrite (fork_pages_app 1 _ 2 1 0x11 s5 s6) by (by apply fork_pages_one). change (0x11 + Z.of_nat 1) with 0x12.
    apply fork_pages_none. intros w Hw. apply H6. lia.
Qed.

Lemma vm4_forked : exists s', fork_tables 2032 2 1 0 vm4 = Some (true, s').
Proof.
  destruct vm5_forked as (ow & E5 & _). destruct vm6_forked as (vm6 & E6 & H6). exists vm6.
  assert (pmap_is_pagetable_present 1 0 vm4 = true) as Ht by (lazy; reflexivity).
  apply (fork_two_pages vm4 vm5 vm6 E5 E6 Ht); intros v Hv; [apply vm4_parent|apply H6]; unfold user_page; lia.
Qed.

(** The fork of this process succeeds. *)
Lemma vms2_forked : exists s', fork_address_space 2 1 vms2 = Some (0, s').
Proof.
  destruct vm4_created as (_ & _ & _ & E & _). destruct vm4_forked as (m & Em).
  destruct (copy_segments_ok (segments vms2 2) (segments vms2 1) segs2) as (sg & Eg & _);
    [lazy; reflexivity|exact vms2_rep|].
  eexists. exact (fork_succeeds 2 1 vms2 vm4 sg m E Eg Em).
Qed.

(** C2. [page_fault] answers a fault on a page of user memory: 0 only for a
    write to an allocated copy-on-write page, which the process then has for
    itself (the page it had when nothing else refers to it, else a copy with
    the same contents in a fresh frame, other mappings and memory untouched);
    -1 with nothing changed for any other fault, and -1 with the page no longer
    mapped when memory runs out. *)
Theorem page_fault_correct A ow s a v off access :
  vm_inv A ow s -> a ∈ A -> user_page v -> 0 <= off < PAGE_SIZE ->
  (~ cow_fault access (view s a v) /\ page_fault a (v * PAGE_SIZE + off) access s = Some (-1, s)) \/
  (exists p fl, view s a v = Some (p * PAGE_SIZE, fl) /\ cow_fault access (view s a v) /\
    ((exists ow' s', page_fault a (v * PAGE_SIZE + off) access s = Some (0, s') /\
        reference_cnt (pageframe_table s p) = 1 /\ vm_inv A ow' s' /\ keeps ow s ow' s' /\
        remaps A s s' a v (Some (p * PAGE_SIZE, clear_cow fl))) \/
     (exists ow' s' i, page_fault a (v * PAGE_SIZE + off) access s = Some (0, s') /\
        reference_cnt (pageframe_table s p) > 1 /\
        copied (A := A) (ow := ow) (s := s) a v p fl ow' s' i) \/
     (exists ow' s', page_fault a (v * PAGE_SIZE + off) access s = Some (-1, s') /\
        lost (A := A) (ow := ow) (s := s) a v ow' s'))).
Proof. apply page_fault_ok. Qed.

(** A write by the child to the page it shares. *)
Lemma page_fault_correct_witness :
  exists ow s', vm_inv [2; 1] ow vm5 /\ page_fault 2 0x10004 PROT_WRITE vm5 = Some (0, s') /\
    exists ow' i, copied (A := [2; 1]) (ow := ow) (s := vm5) 2 0x10 0x50 (Z.lor (Z.lor MEM_ALLOC rw) MAP_COW) ow' s' i.
Proof.
  destruct vm5_inv as (ow & V). exists ow.
  assert (view vm5 2 0x10 = Some (0x50 * PAGE_SIZE, Z.lor (Z.lor MEM_ALLOC rw) MAP_COW)) as Ev by (lazy; reflexivity).
  assert (reference_cnt (pageframe_table vm5 0x50) = 2) as Er by (lazy; reflexivity).
  assert (fst <$> page_fault 2 0x10004 PROT_WRITE vm5 = Some 0) as Ef by (lazy; reflexivity).
  destruct (page_fault_correct [2; 1] ow vm5 2 0x10 4 PROT_WRITE V) as
    [[_ E]|(p & fl & Ep & _ & [(ow' & s' & E & E1 & _)|[(ow' & s' & i & E & _ & C)|(ow' & s' & E & _)]])].
  - by left.
  - unfold user_page. lia.
  - unfold PAGE_SIZE. lia.
  - change (0x10 * PAGE_SIZE + 4) with 0x10004 in E. rewrite E in Ef. discriminate Ef.
  - rewrite Ev in Ep. injection Ep as E2 _. assert (p = 0x50) as -> by (unfold PAGE_SIZE in E2; lia).
    rewrite Er in E1. discriminate E1.
  - rewrite Ev in Ep. injection Ep as E2 <-. assert (p = 0x50) as -> by (unfold PAGE_SIZE in E2; lia).
    exists s'. split; [exact V|]. split; [exact E|]. exists ow', i. exact C.
  - change (0x10 * PAGE_SIZE + 4) with 0x10004 in E. rewrite E in Ef. discriminate Ef.
Defined.

(** C3. [fork_address_space] gives the child every page of the parent below the
    ceiling of user memory: allocated pages are shared, writable ones marked
    copy-on-write on both sides, device memory is mapped readable and
    writable; the child has the parent's segments, other address spaces and
    the contents of user memory stay as they are.  It returns -1 only when
    memory runs out: with nothing changed when there is no free frame for the
    child's page directory, and otherwise, when there is none for a page table,
    with every page of the child removed, its segments reset to one free
    segment, and the parent's pages as they were or marked copy-on-write. *)
Theorem fork_address_space_correct A ow s new old l :
  vm_inv A ow (mmu s) -> old ∈ A -> new ∉ A ->
  length (Segment.segment_table (segments s new)) = 32%nat -> Segment.rep (segments s old) l ->
  fork_ends A l new old ow s.
Proof. apply fork_cases. Qed.

(** The fork of a process with two pages succeeds: there is memory for it. *)
Lemma fork_address_space_correct_witness :
  exists ow ow' s', vm_inv [1] ow (mmu vms2) /\ fork_address_space 2 1 vms2 = Some (0, s') /\
    forked [1] segs2 2 1 ow vms2 ow' s' /\
    view (mmu s') 2 0x10 = Some (0x50 * PAGE_SIZE, cow_flags (Z.lor (Z.ldiff rw VM_SYSTEM_MASK) MEM_ALLOC)).
Proof.
  destruct vms2_alloc as (_ & ow & _ & V & _). destruct vms2_forked as (s1 & E0).
  assert (view (mmu vms2) 1 0x10 = Some (0x50 * PAGE_SIZE, Z.lor (Z.ldiff rw VM_SYSTEM_MASK) MEM_ALLOC))
    as Ev by (lazy; reflexivity).
  destruct (fork_address_space_correct [1] ow vms2 2 1 segs2 V)
    as [(ow' & s' & E & F)|[(E & _)|(ow' & s' & E & _)]].
  - by left.
  - intros H%list_elem_of_singleton. discriminate H.
  - reflexivity.
  - exact vms2_rep.
  - exists ow, ow', s'. split; [exact V|]. split; [exact E|]. split; [exact F|].
    rewrite (fk_child _ _ _ _ _ _ _ _ F) by lia. rewrite Ev. cbn [child_map]. rewrite decide_True by done. reflexivity.
  - rewrite E in E0. discriminate E0.
  - rewrite E in E0. discriminate E0.
Defined.

(** C28. [cleanup_address_space] unmaps every page of the address space up to
    1MB past the ceiling, dropping the reference of each allocated page, and
    leaves it with one free segment; other address spaces and the contents of
    user memory stay as they are. *)
Theorem cleanup_address_space_correct A ow s a :
  vm_inv A ow (mmu s) -> a ∈ A -> length (Segment.segment_table (segments s a)) = 32%nat ->
  exists s', cleanup_address_space a s = Some s' /\ vm_inv A ow (mmu s') /\
    unmapped_range A (mmu s) (mmu s') a 0 0x7F100 /\ memory_kept ow (mmu s) ow (mmu s') /\
    Segment.rep (segments s' a) [(Segment.VM_USER_BASE, Segment.SEG_TYPE_FREE)] /\
    forall a', a' <> a -> segments s' a' = segments s a'.
Proof. apply cleanup_ok. Qed.

Lemma cleanup_address_space_correct_witness :
  exists ow s', vm_inv [1] ow (mmu vms2) /\ cleanup_address_space 1 vms2 = Some s' /\ view (mmu s') 1 0x10 = None.
Proof.
  destruct vms2_alloc as (_ & ow & _ & V & _ & E).
  destruct (cleanup_address_space_correct [1] ow vms2 1 V) as (s' & E' & _ & R & _).
  - by left.
  - exact vms2_segments.
  - exists ow, s'. split; [exact V|]. split; [exact E'|].
    rewrite (R 1 0x10) by (by left || unfold user_page; lia). reflexivity.
Defined.

(** C29. [sys_virtualalloc], given a segment with no page mapped in it, maps
    every page of the region to a fresh page of zeros with the protection
    asked for and changes no other mapping and no user memory.  When memory
    runs out at the first page it gives the segment back and returns NULL;
    when it runs out later the cleanup faults, because it passes NULL for the
    flags to [pmap_extract], which stores through it. *)
Theorem sys_virtualalloc_correct A ow s a addr len flags v n sg :
  vm_inv A ow (mmu s) -> a ∈ A -> ALIGN_UP len PAGE_SIZE = Z.of_nat n * PAGE_SIZE ->
  Segment.segment_create (ALIGN_DOWN addr PAGE_SIZE) (Z.of_nat n * PAGE_SIZE) Segment.SEG_TYPE_ALLOC
    (Z.lor (Z.ldiff flags VM_SYSTEM_MASK) MEM_ALLOC) (segments s a) = Some (v * PAGE_SIZE, sg) ->
  1 <= v -> v + Z.of_nat n <= 2 ^ 19 -> (forall w, v <= w < v + Z.of_nat n -> view (mmu s) a w = None) ->
  exists ow' m k, v <= k <= v + Z.of_nat n /\ vm_inv A ow' m /\ memory_kept ow (mmu s) ow' m /\
    mapped_range A ow (mmu s) m a (Z.lor (Z.ldiff flags VM_SYSTEM_MASK) MEM_ALLOC) v k /\
    (k = v + Z.of_nat n /\
       sys_virtualalloc a addr len flags s = Some (v * PAGE_SIZE, mkVms m (<[a := sg]> (segments s))) \/
     k < v + Z.of_nat n /\ free_4k_pf_list m = [] /\ free_64k_pf_list m = [] /\
       (k = v -> sys_virtualalloc a addr len flags s =
          (sg' ← Segment.segment_free (v * PAGE_SIZE) (Z.of_nat n * PAGE_SIZE) sg;
           Some (0, mkVms m (<[a := sg']> (<[a := sg]> (segments s)))))) /\
       (v < k -> sys_virtualalloc a addr len flags s = None)).
Proof. apply virtualalloc_ok. Qed.

Lemma sys_virtualalloc_correct_witness :
  exists ow ow' m k, vm_inv [1] ow (mmu vms1) /\ 0x10 <= k <= 0x12 /\ vm_inv [1] ow' m /\
    mapped_range [1] ow (mmu vms1) m 1 (Z.lor (Z.ldiff rw VM_SYSTEM_MASK) MEM_ALLOC) 0x10 k.
Proof.
  destruct vm1_inv as (ow & V).
  destruct (sys_virtualalloc_correct [1] ow vms1 1 0x10000 0x2000 rw 0x10 2 sg1 V)
    as (ow' & m & k & Hk & V' & _ & R & _).
  - by left.
  - reflexivity.
  - exact sg1_created.
  - lia.
  - lia.
  - intros w Hw. apply vm1_unmapped. unfold user_page. lia.
  - exists ow, ow', m, k. split; [exact V|]. split; [exact Hk|]. split; [exact V'|exact R].
Defined.

(** C1. In every state the virtual memory system reaches from boot by creating
    and forking address spaces, allocating memory, taking write faults,
    cleaning up address spaces and storing to memory, a store of a process to
    a page it may write is read back by it, and is seen through no other
    mapping of allocated memory of any process. *)
Theorem cow_isolation A s a v o x m :
  vm_reach A s -> a ∈ A -> user_page v -> 0 <= o < PAGE_SIZE -> user_store (mmu s) a v o x = Some m ->
  user_word m a v o = Some x /\
  forall a' v' pa fl o', a' ∈ A -> user_page v' -> (a', v') <> (a, v) -> view (mmu s) a' v' = Some (pa, fl) ->
    is_alloc fl -> 0 <= o' < PAGE_SIZE -> user_word m a' v' o' = user_word (mmu s) a' v' o'.
Proof.
  intros [ow V]%vm_reach_inv Ha Hv Ho E. split.
  - by destruct (store_ok A ow (mmu s) a v o x m V Ha Hv Ho E) as (_ & H & _).
  - intros a' v' pa fl o'. by apply (store_isolated A ow (mmu s) a v o x m).
Qed.

Lemma cow_isolation_witness :
  exists m, vm_reach [1] vms2 /\ user_store (mmu vms2) 1 0x10 8 77 = Some m /\
    user_word m 1 0x10 8 = Some 77 /\ user_word m 1 0x11 8 = user_word (mmu vms2) 1 0x11 8.
Proof.
  pose proof vms2_reach as H.
  assert (view (mmu vms2) 1 0x10 = Some (0x50 * PAGE_SIZE, Z.lor MEM_ALLOC rw)) as E1 by (lazy; reflexivity).
  assert (view (mmu vms2) 1 0x11 = Some (0x52 * PAGE_SIZE, Z.lor MEM_ALLOC rw)) as E2 by (lazy; reflexivity).
  assert (exists m, user_store (mmu vms2) 1 0x10 8 77 = Some m) as (m & E).
  { unfold user_store. rewrite E1. cbn [mbind option_bind]. eexists. reflexivity. }
  exists m. destruct (cow_isolation [1] vms2 1 0x10 8 77 m H) as [H1 H2].
  - by left.
  - unfold user_page. lia.
  - unfold PAGE_SIZE. lia.
  - exact E.
  - split; [exact H|]. split; [exact E|]. split; [exact H1|].
    apply (H2 1 0x11 (0x52 * PAGE_SIZE) (Z.lor MEM_ALLOC rw) 8).
    + by left.
    + unfold user_page. lia.
    + intros [=].
    + exact E2.
    + reflexivity.
    + unfold PAGE_SIZE. lia.
Defined.
