(* ===== verification/Bootmem.v ===== *)
(** * Memory set up at boot

    The model of the bootstrap allocator of boards/raspberry_pi_4/main.c, which
    hands out the kernel's tables one after the other, and of the page tables
    of the file cache: [init_buffer_cache_pagetables] of init_vm.c, which
    installs them, and the [pmap_cache_*] functions of pmap.c ([Pmap]), which
    map pages in them. *)

From stdpp Require Import list_numbers.
From S2P Require Import Prelude Lists Page Pmap.
Import Intrusive.

(** ** The bootstrap allocator *)

(** [_heap_base], which is also the first [_heap_current]. *)
Definition init_bootstrap_allocator (pagetable_ceiling : Z) : Z := ALIGN_UP pagetable_ceiling 16384.

(** The address and the new [_heap_current]. *)
Definition bootstrap_alloc (sz heap_current : Z) : Z * Z :=
  let va := heap_current in
  let sz := ALIGN_UP sz PAGE_SIZE in
  (va, u32 (heap_current + ALIGN_UP sz PAGE_SIZE)).

Fixpoint alloc_tables (sizes : list Z) (heap_current : Z) : list Z * Z :=
  match sizes with
  | [] => ([], heap_current)
  | sz :: sizes =>
      let '(va, h) := bootstrap_alloc sz heap_current in
      let '(l, h) := alloc_tables sizes h in (va :: l, h)
  end.

(** The sizes of the tables that [Main] allocates, of which the first four are
    fixed: [io_pagetable], [mailbuffer], [cache_pagetable], [vector_table]. *)
Definition main_tables (tables : list Z) : list Z := [4096; 4096; 256 * 1024; PAGE_SIZE] ++ tables.

(** ** The page tables of the file cache *)

Definition CACHE_PAGETABLES_CNT := 256.
Definition CACHE_PAGETABLES_PDE_BASE := 3072.
Definition CACHE_BASE_VA := 0xC0000000.

(** The loop over the entries of the table at [pt]. *)
Fixpoint init_cache_ptes (n : nat) (pt pte_idx : Z) (s : vm) : vm :=
  match n with
  | O => s
  | S n =>
      let vpte := pt + VPTE_TABLE_OFFS + 12 * pte_idx in
      let s := st (pt + 4 * pte_idx) L2_TYPE_INV s in
      let s := st (vpte_flags vpte) 0 s in
      let s := s <| vpte_links := <[vpte := Link None None]> (vpte_links s) |> in
      init_cache_ptes n pt (pte_idx + 1) s
  end.

(** One table.  [cache_pagetable] is a [uint32_t *]: adding
    [t * VPAGETABLE_SZ] to it moves it by four times as many bytes. *)
Definition init_cache_table (cache_pagetable t : Z) (s : vm) : vm :=
  let pt := u32 (cache_pagetable + 4 * (t * VPAGETABLE_SZ)) in
  let phys_pt := pmap_va_to_pa pt in
  init_cache_ptes (Z.to_nat N_PAGETABLE_PTE) pt 0
    (st (root_pagedir s + 4 * (CACHE_PAGETABLES_PDE_BASE + t)) (Z.lor phys_pt L1_TYPE_C) s).

(** The loop over [n] tables from [t]. *)
Definition init_cache_tables (n : nat) (cache_pagetable t : Z) (s : vm) : vm :=
  iter_from (init_cache_table cache_pagetable) n t s.

(** [root] is [bootinfo->root_pagedir]. *)
Definition init_buffer_cache_pagetables (root cache_pagetable : Z) (s : vm) : vm :=
  init_cache_tables (Z.to_nat CACHE_PAGETABLES_CNT) cache_pagetable 0 (s <| root_pagedir := root |>).

(** ** Lemmas on the allocator *)

Lemma align_up_ok x a : 0 < a -> 0 <= x -> x + a <= 2 ^ 32 -> x <= ALIGN_UP x a < x + a /\ ALIGN_UP x a `mod` a = 0.
Proof.
  intros Ha Hx Hm. unfold ALIGN_UP. rewrite (uwrap_small 32 (x + a - 1)) by lia.
  pose proof (Z.div_mod (x + a - 1) a ltac:(lia)). pose proof (Z.mod_pos_bound (x + a - 1) a Ha).
  rewrite uwrap_small by nia. split; [nia|]. by apply Z.mod_mul; lia.
Qed.

Lemma align_up_mult k a : 0 < a -> 0 <= k -> (k + 1) * a <= 2 ^ 32 -> ALIGN_UP (k * a) a = k * a.
Proof.
  intros Ha Hk Hm. unfold ALIGN_UP. rewrite (uwrap_small 32 (k * a + a - 1)) by nia.
  replace (k * a + a - 1) with (a - 1 + k * a) by lia. rewrite Z.div_add, Z.div_small by lia.
  by rewrite uwrap_small by nia.
Qed.

(** The space a table takes. *)
Definition room (sz : Z) : Z := ALIGN_UP sz PAGE_SIZE.

Lemma room_ok sz : 0 <= sz < 2 ^ 31 -> sz <= room sz < sz + PAGE_SIZE /\ room sz `mod` PAGE_SIZE = 0 /\
  ALIGN_UP (room sz) PAGE_SIZE = room sz.
Proof.
  intros Hs. destruct (align_up_ok sz PAGE_SIZE) as [H1 H2]; [done|lia|unfold PAGE_SIZE; lia|].
  unfold room in *. split_and!; try done; try lia. apply Z.mod_divide in H2 as [k Hk]; [|done].
  rewrite Hk in *. apply align_up_mult; [done|unfold PAGE_SIZE in *; lia..].
Qed.

Definition total (sizes : list Z) : Z := foldr (fun sz acc => room sz + acc) 0 sizes.

Lemma total_nonneg sizes : Forall (fun sz => 0 <= sz < 2 ^ 31) sizes -> 0 <= total sizes.
Proof.
  induction 1 as [|sz l Hs _ IH]; [done|]. cbn. destruct (room_ok sz Hs) as [? _]. fold (total l) in *. lia.
Qed.

(** The tables [l] from [h] with sizes [sizes] are page aligned, in order and
    apart. *)
Record laid_out (h : Z) (sizes l : list Z) : Prop := {
  lo_length : length l = length sizes;
  lo_range i va sz : l !! i = Some va -> sizes !! i = Some sz -> h <= va /\ va + sz <= h + total sizes;
  lo_align i va : l !! i = Some va -> va `mod` PAGE_SIZE = 0;
  lo_apart i j va vb sz : (i < j)%nat -> l !! i = Some va -> sizes !! i = Some sz -> l !! j = Some vb -> va + sz <= vb
}.

Lemma laid_out_lower h sizes l i va : laid_out h sizes l -> l !! i = Some va -> h <= va.
Proof.
  intros L E. pose proof (lookup_lt_Some _ _ _ E) as Hl. rewrite (lo_length _ _ _ L) in Hl.
  destruct (lookup_lt_is_Some_2 sizes i Hl) as [sz Es]. by destruct (lo_range _ _ _ L i va sz E Es).
Qed.

Lemma alloc_tables_ok sizes : forall h,
  0 <= h -> h `mod` PAGE_SIZE = 0 -> Forall (fun sz => 0 <= sz < 2 ^ 31) sizes -> h + total sizes < 2 ^ 32 ->
  exists l, alloc_tables sizes h = (l, h + total sizes) /\ laid_out h sizes l.
Proof.
  induction sizes as [|sz sizes IH]; intros h Hh Ha Hs Ht.
  - exists []. cbn. rewrite Z.add_0_r. split; [done|]. split; try done; by intros [].
  - apply Forall_cons in Hs as [Hsz Hs]. destruct (room_ok sz Hsz) as (Hr & Hra & Hru).
    assert (total (sz :: sizes) = room sz + total sizes) as Et by done. rewrite Et in Ht |- *. pose proof (total_nonneg sizes Hs) as Htn.
    cbn [alloc_tables]. unfold bootstrap_alloc. fold (room sz). rewrite Hru.
    rewrite uwrap_small by lia.
    destruct (IH (h + room sz)) as (l & -> & L); [lia| |done|lia|].
    { rewrite Z.add_mod, Ha, Hra by done. done. }
    exists (h :: l). split; [f_equal; lia|]. split.
    + cbn. f_equal. apply L.
    + intros [|i] va sz' E1 E2; cbn in E1, E2; rewrite Et; [simplify_eq; lia|].
      pose proof (lo_range _ _ _ L i va sz' E1 E2). lia.
    + intros [|i] va E1; cbn in E1; [by simplify_eq|]. by apply (lo_align _ _ _ L i va).
    + intros i [|j] va vb sz' Hij E1 E2 E3; [lia|]. cbn in E3. destruct i as [|i]; cbn in E1, E2.
      * simplify_eq. pose proof (laid_out_lower _ _ _ _ _ L E3). lia.
      * apply (lo_apart _ _ _ L i j va vb sz'); done || lia.
Qed.

(** ** Lemmas on the page tables of the cache *)

(** The words the loops write, apart from the directory: all are set to 0. *)
Definition table_word (c x : Z) : Prop := exists t, 0 <= t < CACHE_PAGETABLES_CNT /\ c + t * 16384 <= x < c + t * 16384 + 4096.

Lemma init_cache_ptes_ok n : forall pt i s,
  0 <= i -> i + Z.of_nat n <= 256 ->
  let s' := init_cache_ptes n pt i s in
  root_pagedir s' = root_pagedir s /\ max_pageframe s' = max_pageframe s /\ pageframe_table s' = pageframe_table s /\
  (forall x, kmem s' x = kmem s x \/ kmem s' x = 0 /\ pt <= x < pt + 4096) /\
  (forall j, i <= j < i + Z.of_nat n -> kmem s' (pt + 4 * j) = 0).
Proof.
  induction n as [|n IH]; intros pt i s Hi Hn; [split_and!; auto; lia|].
  cbn [init_cache_ptes]. match goal with |- context [init_cache_ptes n pt _ ?y] => set (s1 := y) end.
  destruct (IH pt (i + 1) s1) as (E1 & E2 & E3 & Hk & Hz); [lia|lia|].
  assert (forall x, kmem s1 x = kmem s x \/ kmem s1 x = 0 /\ pt <= x < pt + 4096) as Hk1.
  { intros x. unfold s1, st, vpte_flags, VPTE_TABLE_OFFS. cbn [kmem update_field].
    destruct (decide (x = pt + 1024 + 12 * i + 8)) as [->|]; [right; rewrite store_eq; lia|].
    rewrite store_ne by done.
    destruct (decide (x = pt + 4 * i)) as [->|]; [right; rewrite store_eq; unfold L2_TYPE_INV; lia|].
    by left; rewrite store_ne. }
  assert (kmem s1 (pt + 4 * i) = 0) as Hi1.
  { unfold s1, st, vpte_flags, VPTE_TABLE_OFFS. cbn [kmem update_field].
    rewrite store_ne by lia. by rewrite store_eq. }
  split_and!; [done|done|done|..].
  - intros x. destruct (Hk x) as [->|]; [apply Hk1|by right].
  - intros j Hj. destruct (decide (j = i)) as [->|]; [|apply Hz; lia].
    destruct (Hk (pt + 4 * i)) as [->|[-> _]]; done.
Qed.

Section Tables.
Context (root c : Z).
Hypothesis Hc : 0 <= c /\ c + 256 * 16384 <= 2 ^ 32.
(** The directory is below the tables. *)
Hypothesis Hroot : root + 16384 <= c.

Lemma init_cache_table_ok t s :
  0 <= t < 256 -> root_pagedir s = root ->
  let s' := init_cache_table c t s in
  root_pagedir s' = root /\ max_pageframe s' = max_pageframe s /\ pageframe_table s' = pageframe_table s /\
  (forall x, c <= x -> kmem s' x = kmem s x \/ kmem s' x = 0) /\
  (forall x, x < c -> x <> root + 4 * (3072 + t) -> kmem s' x = kmem s x) /\
  kmem s' (root + 4 * (3072 + t)) = Z.lor (pmap_va_to_pa (c + t * 16384)) L1_TYPE_C /\
  forall j, 0 <= j < 256 -> kmem s' (c + t * 16384 + 4 * j) = 0.
Proof using All.
  intros Ht Er. unfold init_cache_table. rewrite Er. unfold VPAGETABLE_SZ, CACHE_PAGETABLES_PDE_BASE.
  replace (c + 4 * (t * 4096)) with (c + t * 16384) by lia. rewrite uwrap_small by lia.
  set (e := Z.lor (pmap_va_to_pa (c + t * 16384)) L1_TYPE_C). set (s0 := st (root + 4 * (3072 + t)) e s).
  pose proof (init_cache_ptes_ok (Z.to_nat N_PAGETABLE_PTE) (c + t * 16384) 0 s0) as H. cbn zeta in H |- *.
  revert H. generalize (init_cache_ptes (Z.to_nat N_PAGETABLE_PTE) (c + t * 16384) 0 s0). intros s1 H.
  change (0 + Z.of_nat (Z.to_nat N_PAGETABLE_PTE)) with 256 in H.
  destruct H as (E1 & E2 & E3 & Hk & Hz); [lia|lia|].
  assert (forall x, x < c -> kmem s1 x = kmem s0 x) as Hlow.
  { intros x Hx. destruct (Hk x) as [?|[_ ?]]; [done|lia]. }
  split_and!; [by rewrite E1|by rewrite E2|by rewrite E3|..].
  - intros x Hx. destruct (Hk x) as [->|[? _]]; [|by right].
    left. unfold s0, st. cbn [kmem update_field]. rewrite store_ne; [done|lia].
  - intros x Hx Hne. rewrite Hlow by done. unfold s0, st. cbn [kmem update_field]. by rewrite store_ne.
  - rewrite Hlow by lia. unfold s0, st. cbn [kmem update_field]. by rewrite store_eq.
  - done.
Qed.

Lemma init_cache_tables_ok n : forall t s,
  0 <= t -> t + Z.of_nat n <= 256 -> root_pagedir s = root ->
  let s' := init_cache_tables n c t s in
  root_pagedir s' = root /\ max_pageframe s' = max_pageframe s /\ pageframe_table s' = pageframe_table s /\
  (forall x, c <= x -> kmem s' x = kmem s x \/ kmem s' x = 0) /\
  (forall x, x < c -> (forall k, t <= k < t + Z.of_nat n -> x <> root + 4 * (3072 + k)) -> kmem s' x = kmem s x) /\
  (forall k, t <= k < t + Z.of_nat n ->
     kmem s' (root + 4 * (3072 + k)) = Z.lor (pmap_va_to_pa (c + k * 16384)) L1_TYPE_C /\
     forall j, 0 <= j < 256 -> kmem s' (c + k * 16384 + 4 * j) = 0).
Proof using All.
  induction n as [|n IH]; intros t s Ht Hn Er; [unfold init_cache_tables; rewrite iter_from_O; split_and!; auto; lia|].
  unfold init_cache_tables in *. rewrite iter_from_S. destruct (init_cache_table_ok t s) as (E1 & E2 & E3 & Hk & Hlow & He & Hz); [lia|done|].
  revert E1 E2 E3 Hk Hlow He Hz. generalize (init_cache_table c t s). intros s1 E1 E2 E3 Hk Hlow He Hz.
  destruct (IH (t + 1) s1) as (F1 & F2 & F3 & G1 & G2 & G3); [lia|lia|done|].
  split_and!; [done|by rewrite F2|by rewrite F3|..].
  - intros x Hx. destruct (G1 x Hx) as [->|]; [by apply Hk|by right].
  - intros x Hx Hne. rewrite (G2 x Hx) by (intros k Hk2; apply Hne; lia). apply Hlow; [done|]. apply Hne. lia.
  - intros k Hk2. destruct (decide (k = t)) as [->|]; [|apply G3; lia]. split.
    + rewrite G2 by lia. done.
    + intros j Hj. destruct (G1 (c + t * 16384 + 4 * j)) as [->| ->]; [lia| |done]. by apply Hz.
Qed.
End Tables.

(** ** The file cache's mappings *)

(** The directory entries of the cache name the tables at the frames
    [fc + 4 * t]. *)
Record cache_ready (fc : Z) (s : vm) : Prop := {
  cm_range : 0 <= fc /\ (fc + 1024) * PAGE_SIZE <= 2 ^ 31;
  cm_root : root_pagedir s + 16384 <= fva fc;
  cm_pde t : 0 <= t < 256 -> kmem s (root_pagedir s + 4 * (3072 + t)) = (fc + 4 * t) * PAGE_SIZE + 1
}.

(** The address of page [w] of the cache area, and the words of its entry. *)
Definition cva (w : Z) : Z := (0xC0000 + w) * PAGE_SIZE.
Definition cpt (fc w : Z) : Z := fva (fc + 4 * (w `div` 256)).
Definition cpte (fc w : Z) : Z := cpt fc w + 4 * (w `mod` 256).
Definition cvf (fc w : Z) : Z := cpt fc w + 1024 + 12 * (w `mod` 256) + 8.

Lemma cache_idx w : 0 <= w < 65536 -> 0 <= w `div` 256 < 256 /\ 0 <= w `mod` 256 < 256.
Proof.
  intros Hw. split; [|apply Z.mod_pos_bound; lia].
  split; [apply Z.div_pos; lia|apply Z.div_lt_upper_bound; lia].
Qed.

Section CacheMap.
Context {fc : Z} {s : vm}.
Hypothesis R : cache_ready fc s.

Lemma cache_entry w :
  0 <= w < 65536 ->
  pt_of (kmem s (pde_at (root_pagedir s) (cva w))) = cpt fc w /\
  pte_at (cpt fc w) (cva w) = cpte fc w /\ vpte_flags (vpte_at (cpt fc w) (cva w)) = cvf fc w.
Proof using R.
  intros Hw. destruct (cache_idx w Hw) as [Hd Hm]. destruct (cm_range _ _ R) as [H0 H1].
  assert ((0xC0000 + w) `div` 256 = 3072 + w `div` 256) as Ed.
  { replace (0xC0000 + w) with (w + 3072 * 256) by lia. rewrite Z.div_add by done. lia. }
  assert ((0xC0000 + w) `mod` 256 = w `mod` 256) as Em.
  { replace (0xC0000 + w) with (w + 3072 * 256) by lia. by rewrite Z.mod_add. }
  unfold cva, pde_at, pte_at, vpte_flags, vpte_at. rewrite pde_idx_page, pte_idx_page by lia.
  rewrite Ed, Em, (cm_pde _ _ R) by done. split_and!.
  - destruct (pde_entry (fc + 4 * (w `div` 256))) as (_ & _ & E); [lia|unfold PAGE_SIZE in *; lia|]. exact E.
  - reflexivity.
  - unfold cvf, VPTE_TABLE_OFFS. lia.
Qed.

Lemma cache_words w w' :
  0 <= w < 65536 -> 0 <= w' < 65536 ->
  cpte fc w <> cvf fc w' /\ (w <> w' -> cpte fc w <> cpte fc w') /\
  fva fc <= cpte fc w /\ fva fc <= cvf fc w.
Proof using R.
  intros Hw Hw'. destruct (cache_idx w Hw), (cache_idx w' Hw'), (cm_range _ _ R).
  pose proof (Z.div_mod w 256 ltac:(done)). pose proof (Z.div_mod w' 256 ltac:(done)).
  unfold cpte, cvf, cpt, fva, PAGE_SIZE. split_and!; lia.
Qed.

(** Changing the words of one entry. *)
Lemma cache_set w e fl s1 :
  0 <= w < 65536 -> kmem s1 = kmem s -> root_pagedir s1 = root_pagedir s ->
  forall s', kmem s' = <[cpte fc w := e]> (<[cvf fc w := fl]> (kmem s1)) -> root_pagedir s' = root_pagedir s1 ->
  cache_ready fc s' /\ kmem s' (cpte fc w) = e /\
  forall w', 0 <= w' < 65536 -> w' <> w -> kmem s' (cpte fc w') = kmem s (cpte fc w').
Proof using R.
  intros Hw Ek Er s' Ek' Er'. destruct (cache_words w w Hw Hw) as (Hne & _ & Hl1 & Hl2).
  split_and!.
  - split; [apply R|by rewrite Er', Er; apply R|]. intros t Ht. rewrite Er', Er, Ek', Ek.
    pose proof (cm_root _ _ R). rewrite !store_ne by lia. by apply (cm_pde _ _ R).
  - rewrite Ek'. by rewrite store_eq.
  - intros w' Hw' Hww. destruct (cache_words w' w Hw' Hw) as (H1 & H2 & _).
    specialize (H2 Hww). rewrite Ek', !store_ne by congruence. by rewrite Ek.
Qed.

Lemma cache_extract_pte w : 0 <= w < 65536 -> pmap_cache_extract (cva w) s = Z.land (kmem s (cpte fc w)) L2_ADDR_MASK.
Proof using R. intros Hw. unfold pmap_cache_extract. by destruct (cache_entry w Hw) as (-> & -> & _). Qed.
End CacheMap.

Lemma cache_pte p : 0 <= p < 2 ^ 20 -> Z.land (Z.lor (p * PAGE_SIZE) (Z.lor L2_TYPE_S L2_AP_RWK)) L2_ADDR_MASK = p * PAGE_SIZE.
Proof.
  intros Hp. unfold PAGE_SIZE. change (Z.lor L2_TYPE_S L2_AP_RWK) with 0x12.
  rewrite (lor_low 12) by (done || lia || by apply Z.mod_mul).
  change L2_ADDR_MASK with (2 ^ 32 - 2 ^ 12). rewrite land_high by lia.
  rewrite (page_mod p 0x12 (2 ^ 12)); [lia|lia|lia|by exists 1].
Qed.

(** What a change of page [w] to [pa] is. *)
Definition cache_remapped (fc : Z) (s s' : vm) (w pa : Z) : Prop :=
  cache_ready fc s' /\ max_pageframe s' = max_pageframe s /\ pmap_cache_extract (cva w) s' = pa /\
  forall w', 0 <= w' < 65536 -> w' <> w -> pmap_cache_extract (cva w') s' = pmap_cache_extract (cva w') s.

Lemma cache_remapped_intro fc s s1 s' w e fl :
  cache_ready fc s -> 0 <= w < 65536 -> kmem s1 = kmem s -> root_pagedir s1 = root_pagedir s ->
  max_pageframe s' = max_pageframe s ->
  kmem s' = <[cpte fc w := e]> (<[cvf fc w := fl]> (kmem s1)) -> root_pagedir s' = root_pagedir s1 ->
  cache_remapped fc s s' w (Z.land e L2_ADDR_MASK).
Proof.
  intros R Hw Ek Er Hmx Ek' Er'. destruct (cache_set R w e fl s1 Hw Ek Er s' Ek' Er') as (R' & Ee & Ho).
  split_and!; [done|done| |].
  - rewrite (cache_extract_pte R') by done. by rewrite Ee.
  - intros w' Hw' Hne. rewrite (cache_extract_pte R'), (cache_extract_pte R) by done. by rewrite Ho.
Qed.

Lemma cache_enter_ok fc s w p :
  cache_ready fc s -> 0 <= w < 65536 -> 0 <= p < max_pageframe s -> p < 2 ^ 20 ->
  exists s', pmap_cache_enter (cva w) (p * PAGE_SIZE) s = Some (0, s') /\ cache_remapped fc s s' w (p * PAGE_SIZE).
Proof.
  intros R Hw Hp Hp2. unfold pmap_cache_enter. destruct (cache_entry R w Hw) as (-> & -> & ->).
  rewrite Z.div_mul by done. set (s0 := st (cvf fc w) _ s).
  destruct (vpte_add_head_ok s0 p (vpte_at (cpt fc w) (cva w))) as (s1 & -> & S1 & K1 & _); [done|].
  cbn [mbind option_bind]. eexists. split; [done|]. rewrite <- (cache_pte p) at 2 by lia.
  apply (cache_remapped_intro fc s s _ w _ (Z.lor PROT_READ PROT_WRITE)); try done.
  - cbn. by rewrite (sa_max _ _ S1).
  - cbn. by rewrite K1.
  - cbn. by rewrite (sa_root _ _ S1).
Qed.

Lemma cache_remove_ok fc s w p :
  cache_ready fc s -> 0 <= w < 65536 -> pmap_cache_extract (cva w) s = p * PAGE_SIZE -> 0 <= p < max_pageframe s ->
  exists s', pmap_cache_remove (cva w) s = Some (0, s') /\ cache_remapped fc s s' w 0.
Proof.
  intros R Hw E Hp. rewrite (cache_extract_pte R w Hw) in E. unfold pmap_cache_remove.
  destruct (cache_entry R w Hw) as (-> & -> & ->). rewrite E. unfold pmap_pa_to_pf. rewrite Z.div_mul by done.
  destruct (vpte_rem_entry_ok s p (vpte_at (cpt fc w) (cva w))) as (s1 & -> & S1 & K1 & _); [done|].
  cbn [mbind option_bind]. eexists. split; [done|].
  apply (cache_remapped_intro fc s s1 _ w L2_TYPE_INV 0); try done; [apply S1|].
  cbn. apply (sa_max _ _ S1).
Qed.

Lemma init_cache_ok s root fc :
  0 <= fc -> (fc + 1024) * PAGE_SIZE <= 2 ^ 31 -> root + 16384 <= fva fc ->
  let s' := init_buffer_cache_pagetables root (fva fc) s in
  cache_ready fc s' /\ max_pageframe s' = max_pageframe s /\ pageframe_table s' = pageframe_table s /\
  (forall t j, 0 <= t < 256 -> 0 <= j < 256 -> kmem s' (fva fc + t * 16384 + 4 * j) = 0).
Proof.
  intros H0 H1 Hr. unfold init_buffer_cache_pagetables.
  assert (0 <= fva fc /\ fva fc + 256 * 16384 <= 2 ^ 32) as Hc by (unfold fva, PAGE_SIZE in *; lia).
  pose proof (init_cache_tables_ok root (fva fc) Hc Hr (Z.to_nat CACHE_PAGETABLES_CNT) 0 (s <| root_pagedir := root |>)) as H.
  change (0 + Z.of_nat (Z.to_nat CACHE_PAGETABLES_CNT)) with 256 in H. revert H. cbn zeta.
  generalize (init_cache_tables (Z.to_nat CACHE_PAGETABLES_CNT) (fva fc) 0 (s <| root_pagedir := root |>)).
  intros s' H. destruct H as (E1 & E2 & E3 & _ & _ & Ht); [lia|lia|done|].
  split_and!; [|done|done|intros t j Ht2; by apply Ht]. split; [done|by rewrite E1|]. intros t Ht2. rewrite E1.
  destruct (Ht t Ht2) as [-> _]. replace (fva fc + t * 16384) with (fva (fc + 4 * t)) by (unfold fva, PAGE_SIZE; lia).
  destruct (pde_entry (fc + 4 * t)) as (<- & _); [lia|unfold PAGE_SIZE in *; lia|]. f_equal.
  unfold pmap_va_to_pa, fva. rewrite uwrap_small; unfold PAGE_SIZE in *; lia.
Qed.

(** The tables [Main] allocates at boot are page aligned, in order and do not
    overlap, as long as they fit below the end of the address space. *)
Theorem bootstrap_tables_apart tables ceiling :
  0 <= ceiling -> ceiling + 16384 <= 2 ^ 32 -> Forall (fun sz => 0 <= sz < 2 ^ 31) (main_tables tables) ->
  init_bootstrap_allocator ceiling + total (main_tables tables) < 2 ^ 32 ->
  exists l, alloc_tables (main_tables tables) (init_bootstrap_allocator ceiling) =
      (l, init_bootstrap_allocator ceiling + total (main_tables tables)) /\
    ceiling <= init_bootstrap_allocator ceiling /\
    laid_out (init_bootstrap_allocator ceiling) (main_tables tables) l.
Proof.
  intros Hc Hm Hs Ht. unfold init_bootstrap_allocator in *. destruct (align_up_ok ceiling 16384) as [H1 H2]; [done..|].
  destruct (alloc_tables_ok (main_tables tables) (ALIGN_UP ceiling 16384)) as (l & E & L); [lia| |done|done|].
  - apply Z.mod_divide in H2 as [k ->]; [|done]. apply Z.mod_divide; [done|]. exists (k * 4). unfold PAGE_SIZE. lia.
  - exists l. split; [done|]. split; [lia|done].
Qed.

Lemma bootstrap_tables_apart_witness :
  exists l, alloc_tables (main_tables [262144 * 72]) (init_bootstrap_allocator 0x80123456) =
      (l, init_bootstrap_allocator 0x80123456 + total (main_tables [262144 * 72])) /\
    laid_out (init_bootstrap_allocator 0x80123456) (main_tables [262144 * 72]) l.
Proof.
  destruct (bootstrap_tables_apart [262144 * 72] 0x80123456) as (l & E & _ & L).
  - lia.
  - lia.
  - repeat constructor; done.
  - vm_compute. reflexivity.
  - exists l. split; [exact E|exact L].
Defined.

(** The page tables of the file cache: after [init_buffer_cache_pagetables]
    no page of the cache area is mapped; [pmap_cache_enter] maps a page of
    memory at an address of the area, [pmap_cache_extract] then answers it,
    [pmap_cache_remove] takes it away again, and neither changes the mapping
    of another page. *)
Theorem cache_map_roundtrip s root fc w p :
  0 <= fc -> (fc + 1024) * PAGE_SIZE <= 2 ^ 31 -> root + 16384 <= fva fc ->
  0 <= w < 65536 -> 0 <= p < max_pageframe s -> p < 2 ^ 20 ->
  let s0 := init_buffer_cache_pagetables root (fva fc) s in
  (forall w, 0 <= w < 65536 -> pmap_cache_extract (cva w) s0 = 0) /\
  exists s1 s2,
    pmap_cache_enter (cva w) (p * PAGE_SIZE) s0 = Some (0, s1) /\ cache_remapped fc s0 s1 w (p * PAGE_SIZE) /\
    pmap_cache_remove (cva w) s1 = Some (0, s2) /\ cache_remapped fc s1 s2 w 0.
Proof.
  intros H0 H1 Hr Hw Hp Hp2 s0. destruct (init_cache_ok s root fc H0 H1 Hr) as (R & Em & _ & Hz).
  fold s0 in R, Em, Hz. clearbody s0. split.
  - intros w' Hw'. rewrite (cache_extract_pte R w' Hw'). destruct (cache_idx w' Hw').
    replace (cpte fc w') with (fva fc + w' `div` 256 * 16384 + 4 * (w' `mod` 256))
      by (unfold cpte, cpt, fva, PAGE_SIZE; lia). by rewrite Hz.
  - destruct (cache_enter_ok fc s0 w p R Hw) as (s1 & E1 & C1); [by rewrite Em|done|].
    destruct (cache_remove_ok fc s1 w p) as (s2 & E2 & C2); [apply C1|done|apply C1|by destruct C1 as (_ & -> & _); rewrite Em|].
    exists s1, s2. done.
Qed.

Lemma cache_map_roundtrip_witness :
  let s0 := init_buffer_cache_pagetables 0x80004000 (fva 0x100) booted in
  exists s1 s2, pmap_cache_enter (cva 300) (0x50 * PAGE_SIZE) s0 = Some (0, s1) /\
    pmap_cache_extract (cva 300) s1 = 0x50 * PAGE_SIZE /\ pmap_cache_remove (cva 300) s1 = Some (0, s2).
Proof.
  assert (max_pageframe booted = 256) as Em by (vm_compute; reflexivity).
  destruct (cache_map_roundtrip booted 0x80004000 0x100 300 0x50) as (_ & s1 & s2 & E1 & C1 & E2 & _).
  - lia.
  - unfold PAGE_SIZE. lia.
  - unfold fva, PAGE_SIZE. lia.
  - lia.
  - rewrite Em. lia.
  - lia.
  - exists s1, s2. split; [exact E1|]. split; [exact (proj1 (proj2 (proj2 C1)))|exact E2].
Defined.

(** [init_buffer_cache_pagetables] clears memory outside the 256KB that
    [Main] allocates for it: its tables are 16KB apart, so the sixteenth starts
    where [vector_table] is allocated and the last one is almost 4MB above
    [cache_pagetable]. *)
Theorem cache_tables_overrun s root fc h tables l e :
  0 <= fc -> (fc + 1024) * PAGE_SIZE <= 2 ^ 31 -> root + 16384 <= fva fc ->
  alloc_tables (main_tables tables) h = (l, e) -> l !! 2%nat = Some (fva fc) -> h + 0x42000 < 2 ^ 32 -> 0 <= h ->
  let s' := init_buffer_cache_pagetables root (fva fc) s in
  l !! 3%nat = Some (fva fc + 16 * 16384) /\
  (forall j, 0 <= j < 256 -> kmem s' (fva fc + 16 * 16384 + 4 * j) = 0) /\
  (forall j, 0 <= j < 256 -> kmem s' (fva fc + 255 * 16384 + 4 * j) = 0).
Proof.
  intros H0 H1 Hr Ea E2 Hh Hh0 s'. destruct (init_cache_ok s root fc H0 H1 Hr) as (_ & _ & _ & Hz).
  fold s' in Hz. split_and!; [|intros j Hj; by apply Hz..].
  unfold main_tables in Ea. cbn [app alloc_tables] in Ea. unfold bootstrap_alloc in Ea.
  change (ALIGN_UP (ALIGN_UP 4096 PAGE_SIZE) PAGE_SIZE) with 4096 in Ea.
  change (ALIGN_UP (ALIGN_UP (256 * 1024) PAGE_SIZE) PAGE_SIZE) with 0x40000 in Ea.
  rewrite (uwrap_small 32 (h + 4096)) in Ea by lia. rewrite (uwrap_small 32 (h + 4096 + 4096)) in Ea by lia.
  rewrite (uwrap_small 32 (h + 4096 + 4096 + 0x40000)) in Ea by lia.
  destruct (alloc_tables tables _) as [l' e']. injection Ea as <- _. cbn in E2 |- *. injection E2 as <-. f_equal.
Qed.

Lemma cache_tables_overrun_witness :
  kmem (init_buffer_cache_pagetables 0x80004000 (fva 0x102) booted) (fva 0x102 + 255 * 16384 + 4 * 7) = 0.
Proof.
  refine (proj2 (proj2 (cache_tables_overrun booted 0x80004000 0x102 (fva 0x100) [] _ _ _ _ _ _ _ _ _)) 7 _).
  - lia.
  - unfold PAGE_SIZE. lia.
  - unfold fva, PAGE_SIZE. lia.
  - vm_compute. reflexivity.
  - reflexivity.
  - unfold fva, PAGE_SIZE. lia.
  - unfold fva, PAGE_SIZE. lia.
  - lia.
Defined.
