(* ===== verification/Fs.v ===== *)
(** * The state of the kernel's file system layer

    The objects of kernel/h/kernel/filesystem.h, kqueue.h, msg.h and interrupt.h
    that the system calls of kernel/fs and kernel/proc/interrupt.c share, and
    the monad their models are written in.

    An object is reached through its address, NULL being 0, in a total map; a
    member of an intrusive list is an element of a Coq list ([Lists.Seq] relates
    the two).  A computation returns, sleeps on a rendez (after which it is
    resumed where it slept), or faults: a NULL dereference, a kernel panic, an
    access outside an array, a list operation on an entry that is not linked.
    The rendez that are woken are logged in order. *)

From S2P Require Import Prelude Bytes Lists Page.

(** ** Rendez and message ports *)

Inductive port : Type :=
| SbPort (sb : Z)        (** [&sb->msgport] *)
| ReplyPort (proc : Z).  (** [&proc->reply_port] *)
#[export] Instance port_eq_dec : EqDecision port.
Proof. solve_decision. Defined.

Inductive rendez : Type :=
| RVNode (vnode : Z)
| RKqBusy (kqueue : Z)
| RKqEvent (kqueue : Z)
| RPort (p : port)
| RPipe (pipe : Z)
| RBuf (buf : Z)
| RBufList             (** [buf_list_rendez] *)
| RInterruptDpc
| RExecargs.           (** [execargs_rendez] *)
#[export] Instance rendez_eq_dec : EqDecision rendez.
Proof. solve_decision. Defined.

(** ** Objects *)

Record Filp := mkFilp {
  f_type : Z;
  f_u : Z;               (* the pointer in the union u *)
  f_offset : Z;
  f_flags : Z;
  f_reference_cnt : Z
}.
#[export] Instance rebuild_Filp : Rebuild Filp := fun r =>
  mkFilp (f_type r) (f_u r) (f_offset r) (f_flags r) (f_reference_cnt r).

Record VNode := mkVNode {
  v_busy : bool;
  v_reader_cnt : Z;
  v_writer_cnt : Z;
  v_superblock : Z;
  v_flags : Z;
  v_reference_cnt : Z;
  vnode_covered : Z;
  vnode_mounted_here : Z;
  v_pipe : Z;
  inode_nr : Z;
  v_mode : Z; v_uid : Z; v_gid : Z; v_size : Z;
  v_atime : Z; v_mtime : Z; v_ctime : Z;
  v_blocks : Z; v_blksize : Z; v_rdev : Z; v_nlink : Z;
  v_buf_list : list Z;
  v_vnode_list : list Z;
  v_directory_list : list Z;
  v_knote_list : list Z
}.
#[export] Instance rebuild_VNode : Rebuild VNode := fun r =>
  mkVNode (v_busy r) (v_reader_cnt r) (v_writer_cnt r) (v_superblock r) (v_flags r) (v_reference_cnt r)
    (vnode_covered r) (vnode_mounted_here r) (v_pipe r) (inode_nr r) (v_mode r) (v_uid r) (v_gid r) (v_size r)
    (v_atime r) (v_mtime r) (v_ctime r) (v_blocks r) (v_blksize r) (v_rdev r) (v_nlink r)
    (v_buf_list r) (v_vnode_list r) (v_directory_list r) (v_knote_list r).

Record IOV := mkIOV { iov_addr : Z; iov_size : Z }.

Record Msg := mkMsg {
  msg_port : option port;
  reply_port : option port;
  reply_status : Z;
  siov_cnt : Z;
  siov : list IOV;
  riov_cnt : Z;
  riov : list IOV
}.
#[export] Instance rebuild_Msg : Rebuild Msg := fun r =>
  mkMsg (msg_port r) (reply_port r) (reply_status r) (siov_cnt r) (siov r) (riov_cnt r) (riov r).

Record MsgPort := mkMsgPort {
  pending_msg_list : list Z;
  mp_knote_list : list Z;
  context : Z
}.
#[export] Instance rebuild_MsgPort : Rebuild MsgPort := fun r =>
  mkMsgPort (pending_msg_list r) (mp_knote_list r) (context r).

Record MsgBacklog := mkMsgBacklog {
  backlog_sz : Z;
  free_bitmap : Z;
  bl_msg : list Z        (* msg[MAX_MSG_BACKLOG] *)
}.
#[export] Instance rebuild_MsgBacklog : Rebuild MsgBacklog := fun r =>
  mkMsgBacklog (backlog_sz r) (free_bitmap r) (bl_msg r).

Record SuperBlock := mkSuperBlock {
  sb_busy : bool;
  sb_dev : Z;
  sb_msgbacklog : MsgBacklog;
  sb_root : Z;
  sb_flags : Z;
  sb_reference_cnt : Z;
  delwri_timing_wheel : option (list (list Z));   (* NULL, or its NR_DELWRI_BUCKETS lists *)
  sb_softclock : Z
}.
#[export] Instance rebuild_SuperBlock : Rebuild SuperBlock := fun r =>
  mkSuperBlock (sb_busy r) (sb_dev r) (sb_msgbacklog r) (sb_root r) (sb_flags r) (sb_reference_cnt r)
    (delwri_timing_wheel r) (sb_softclock r).

Record KQueue := mkKQueue {
  kq_busy : bool;
  kq_reference_cnt : Z;
  kq_knote_list : list Z;
  kq_pending_list : list Z
}.
#[export] Instance rebuild_KQueue : Rebuild KQueue := fun r =>
  mkKQueue (kq_busy r) (kq_reference_cnt r) (kq_knote_list r) (kq_pending_list r).

Record KNote := mkKNote {
  kn_kqueue : Z;
  kn_enabled : bool;
  kn_pending : bool;
  kn_on_pending_list : bool;
  kn_hint : Z;
  kn_ident : Z;
  kn_filter : Z;
  kn_flags : Z;
  kn_fflags : Z;
  kn_data : Z;
  kn_udata : Z;
  kn_object : Z
}.
#[export] Instance rebuild_KNote : Rebuild KNote := fun r =>
  mkKNote (kn_kqueue r) (kn_enabled r) (kn_pending r) (kn_on_pending_list r) (kn_hint r) (kn_ident r)
    (kn_filter r) (kn_flags r) (kn_fflags r) (kn_data r) (kn_udata r) (kn_object r).

Record ISRHandler := mkISRHandler {
  isr_irq : Z;
  isr_reference_cnt : Z;
  isr_process : Z;
  isr_callback : Z;
  pending_dpc : bool;
  isr_knote_list : list Z
}.
#[export] Instance rebuild_ISRHandler : Rebuild ISRHandler := fun r =>
  mkISRHandler (isr_irq r) (isr_reference_cnt r) (isr_process r) (isr_callback r) (pending_dpc r) (isr_knote_list r).

Record Pipe := mkPipe {
  pp_data : Z;
  w_pos : Z;
  r_pos : Z;
  free_sz : Z;
  data_sz : Z;
  pp_reader_cnt : Z;
  pp_writer_cnt : Z
}.
#[export] Instance rebuild_Pipe : Rebuild Pipe := fun r =>
  mkPipe (pp_data r) (w_pos r) (r_pos r) (free_sz r) (data_sz r) (pp_reader_cnt r) (pp_writer_cnt r).

(** [dn_name] is the string the array holds. *)
Record DName := mkDName {
  dn_dir_vnode : Z;
  dn_vnode : Z;
  dn_name : list Z;
  dn_hash_key : Z
}.
#[export] Instance rebuild_DName : Rebuild DName := fun r =>
  mkDName (dn_dir_vnode r) (dn_vnode r) (dn_name r) (dn_hash_key r).

(** The message a [struct Buf] starts with is the message at its address;
    [b_req] is the address of its member [req]. *)
Record Buf := mkBuf {
  b_flags : Z;
  b_vnode : Z;
  b_cluster_offset : Z;
  b_data : Z;
  b_expiration_time : Z;
  b_req : Z
}.
#[export] Instance rebuild_Buf : Rebuild Buf := fun r =>
  mkBuf (b_flags r) (b_vnode r) (b_cluster_offset r) (b_data r) (b_expiration_time r) (b_req r).

(** ** The state *)

Record fs := mkFs {
  fmem : vm;                         (* page frames and kernel memory *)
  fproc : Z -> Z;                    (* proc->fproc *)
  filps : Z -> Filp;
  filp_free_list : list Z;
  vnodes : Z -> VNode;
  vnode_free_list : list Z;
  superblocks : Z -> SuperBlock;
  free_superblock_list : list Z;
  msgports : port -> MsgPort;
  msgs : Z -> Msg;
  kqueues : Z -> KQueue;
  kqueue_free_list : list Z;
  knotes : Z -> KNote;
  knote_free_list : list Z;
  knote_hash : list (list Z);        (* knote_hash[KNOTE_HASH_SZ] *)
  isrhandlers : Z -> ISRHandler;
  isr_handler_free_list : list Z;
  isr_handler_list : list (list Z);  (* isr_handler_list[NIRQ] *)
  irq_mask_cnt : list Z;             (* irq_mask_cnt[NIRQ] *)
  irq_handler_cnt : list Z;          (* irq_handler_cnt[NIRQ] *)
  irq_enabled : Z -> bool;           (* the interrupt controller *)
  pending_isr_dpc_list : list Z;
  pipes : Z -> Pipe;
  free_pipe_list : list Z;
  root_vnode : Z;
  dnames : Z -> DName;
  dname_lru_list : list Z;
  dname_hash : list (list Z);        (* dname_hash[DNAME_HASH] *)
  bufs : Z -> Buf;
  buf_avail_list : list Z;
  buf_hash : list (list Z);          (* buf_hash[BUF_HASH] *)
  execargs_busy : bool;              (* of exec.c *)
  umem : Z -> Z;                     (* the memory of the current process *)
  uvalid : Z -> bool;                (* the byte at [addr] may be accessed *)
  woken : list rendez                (* the rendez woken so far, latest last *)
}.
#[export] Instance rebuild_fs : Rebuild fs := fun r =>
  mkFs (fmem r) (fproc r) (filps r) (filp_free_list r) (vnodes r) (vnode_free_list r) (superblocks r)
    (free_superblock_list r) (msgports r) (msgs r) (kqueues r) (kqueue_free_list r) (knotes r)
    (knote_free_list r) (knote_hash r) (isrhandlers r) (isr_handler_free_list r) (isr_handler_list r)
    (irq_mask_cnt r) (irq_handler_cnt r) (irq_enabled r) (pending_isr_dpc_list r) (pipes r)
    (free_pipe_list r) (root_vnode r) (dnames r) (dname_lru_list r) (dname_hash r) (bufs r)
    (buf_avail_list r) (buf_hash r) (execargs_busy r) (umem r) (uvalid r) (woken r).

(** ** The monad *)

Inductive outcome (A : Type) : Type :=
| Ret (a : A) (s : fs)
| Sleep (r : rendez) (s : fs)
| Fault.
Arguments Ret {A} a s.
Arguments Sleep {A} r s.
Arguments Fault {A}.

Definition M (A : Type) : Type := fs -> outcome A.
#[export] Instance M_ret : MRet M := fun A a s => Ret a s.
#[export] Instance M_bind : MBind M := fun A B k m s =>
  match m s with Ret a s' => k a s' | Sleep r s' => Sleep r s' | Fault => Fault end.

Definition fault {A} : M A := fun _ => Fault.
Definition gets {A} (f : fs -> A) : M A := fun s => Ret (f s) s.
Definition modify (f : fs -> fs) : M unit := fun s => Ret () (f s).
Definition lift {A} (o : option A) : M A := match o with Some a => mret a | None => fault end.

(** [TaskSleep(r)]: the caller is suspended. *)
Definition TaskSleep {A} (r : rendez) : M A := fun s => Sleep r s.
(** [TaskWakeup(r)] and [TaskWakeupAll(r)] *)
Definition wakeup (r : rendez) : M unit := modify (fun s => s <| woken := woken s ++ [r] |>).

(** [while (c) TaskSleep(r)]: the loop is left at once or the caller sleeps. *)
Definition sleep_while (c : bool) (r : rendez) : M unit := if c then TaskSleep r else mret ().

(** Access to an array of [length l] elements. *)
Definition arr_get {A} (l : list A) (i : Z) : M A :=
  if bool_decide (0 <= i) then lift (l !! Z.to_nat i) else fault.
Definition arr_set {A} (i : Z) (x : A) (l : list A) : M (list A) :=
  if bool_decide (0 <= i < Z.of_nat (length l)) then mret (<[Z.to_nat i := x]> l) else fault.

(** Reading and changing the object a pointer points to. *)
Definition deref {A} (f : fs -> Z -> A) (p : Z) : M A :=
  if bool_decide (p = 0) then fault else gets (fun s => f s p).
Definition upd {A} (p : Z) (put : fs -> (Z -> A) -> fs) (get : fs -> Z -> A) (g : A -> A) : M unit :=
  if bool_decide (p = 0) then fault else modify (fun s => put s (<[p := g (get s p)]> (get s))).

Definition upd_filp (p : Z) (g : Filp -> Filp) : M unit := upd p (fun s m => s <| filps := m |>) filps g.
Definition upd_vnode (p : Z) (g : VNode -> VNode) : M unit := upd p (fun s m => s <| vnodes := m |>) vnodes g.
Definition upd_sb (p : Z) (g : SuperBlock -> SuperBlock) : M unit :=
  upd p (fun s m => s <| superblocks := m |>) superblocks g.
Definition upd_kqueue (p : Z) (g : KQueue -> KQueue) : M unit := upd p (fun s m => s <| kqueues := m |>) kqueues g.
Definition upd_knote (p : Z) (g : KNote -> KNote) : M unit := upd p (fun s m => s <| knotes := m |>) knotes g.
Definition upd_isr (p : Z) (g : ISRHandler -> ISRHandler) : M unit :=
  upd p (fun s m => s <| isrhandlers := m |>) isrhandlers g.
Definition upd_pipe (p : Z) (g : Pipe -> Pipe) : M unit := upd p (fun s m => s <| pipes := m |>) pipes g.
Definition upd_msg (p : Z) (g : Msg -> Msg) : M unit := upd p (fun s m => s <| msgs := m |>) msgs g.
Definition upd_dname (p : Z) (g : DName -> DName) : M unit := upd p (fun s m => s <| dnames := m |>) dnames g.
Definition upd_buf (p : Z) (g : Buf -> Buf) : M unit := upd p (fun s m => s <| bufs := m |>) bufs g.
Definition upd_port (p : port) (g : MsgPort -> MsgPort) : M unit :=
  modify (fun s => s <| msgports := <[p := g (msgports s p)]> (msgports s) |>).

(** ** Running computations *)

Section Run.
Context {A B : Type}.

Lemma run_bind (m : M A) (k : A -> M B) s a s' : m s = Ret a s' -> (m ≫= k) s = k a s'.
Proof. intros E. unfold mbind, M_bind. by rewrite E. Qed.

Lemma run_bind_fault (m : M A) (k : A -> M B) s : m s = Fault -> (m ≫= k) s = Fault.
Proof. intros E. unfold mbind, M_bind. by rewrite E. Qed.

Lemma run_bind_sleep (m : M A) (k : A -> M B) s r s' : m s = Sleep r s' -> (m ≫= k) s = Sleep r s'.
Proof. intros E. unfold mbind, M_bind. by rewrite E. Qed.

Lemma run_ret (a : A) s : (mret a : M A) s = Ret a s.
Proof. done. Qed.

Lemma run_lift (a : A) s : lift (Some a) s = Ret a s.
Proof. done. Qed.

Lemma run_gets (f : fs -> A) s : gets f s = Ret (f s) s.
Proof. done. Qed.

Lemma run_deref (f : fs -> Z -> A) p s : p <> 0 -> deref f p s = Ret (f s p) s.
Proof. intros Hp. unfold deref. by rewrite bool_decide_false. Qed.

Lemma run_deref_null (f : fs -> Z -> A) s : deref f 0 s = Fault.
Proof. done. Qed.

Lemma run_upd put (get : fs -> Z -> A) g p s :
  p <> 0 -> upd p put get g s = Ret () (put s (<[p := g (get s p)]> (get s))).
Proof. intros Hp. unfold upd. by rewrite bool_decide_false. Qed.

Lemma run_arr_get (l : list A) i x s : 0 <= i -> l !! Z.to_nat i = Some x -> arr_get l i s = Ret x s.
Proof. intros Hi E. unfold arr_get. rewrite bool_decide_true by done. by rewrite E. Qed.

Lemma run_arr_set (l : list A) i x s :
  0 <= i < Z.of_nat (length l) -> arr_set i x l s = Ret (<[Z.to_nat i := x]> l) s.
Proof. intros Hi. unfold arr_set. by rewrite bool_decide_true. Qed.
End Run.

(** Steps through a computation: the head of a bind is run with the lemmas
    above and the hints of [fsrun]. *)
Create HintDb fsrun.
#[export] Hint Rewrite @run_ret @run_gets : fsrun.

Ltac step :=
  match goal with
  | |- context [(?m ≫= ?k) ?s] => erewrite (run_bind m k s) by (first [reflexivity | solve [eauto with fsrun]])
  end.

(** ** What a computation leaves alone

    [within R m]: from every state, [m] ends or sleeps in a state that [R]
    relates to it, or faults. *)
Definition within {A} (R : fs -> fs -> Prop) (m : M A) : Prop :=
  forall s, match m s with Ret _ s' | Sleep _ s' => R s s' | Fault => True end.

Create HintDb within.

Section Within.
Context (R : fs -> fs -> Prop) `{!PreOrder R}.

Lemma within_ret {A} (a : A) : within R (mret a : M A).
Proof using All. intros s. change (R s s). reflexivity. Qed.

Lemma within_fault {A} : within R (fault : M A).
Proof using Type. done. Qed.

Lemma within_bind {A B} (m : M A) (k : A -> M B) : within R m -> (forall a, within R (k a)) -> within R (m ≫= k).
Proof using All.
  intros Hm Hk s. specialize (Hm s). unfold mbind, M_bind. destruct (m s) as [a s'| |]; try done.
  specialize (Hk a s'). destruct (k a s'); try done; by transitivity s'.
Qed.

Lemma within_gets {A} (f : fs -> A) : within R (gets f).
Proof using All. intros s. change (R s s). reflexivity. Qed.

Lemma within_lift {A} (o : option A) : within R (lift o).
Proof using All. destruct o; [apply within_ret|apply within_fault]. Qed.

Lemma within_deref {A} (f : fs -> Z -> A) p : within R (deref f p).
Proof using All. intros s. unfold deref. case_bool_decide; [done|]. change (R s s). reflexivity. Qed.

Lemma within_arr_get {A} (l : list A) i : within R (arr_get l i).
Proof using All. unfold arr_get. case_bool_decide; [destruct (_ !! _)|]; apply within_lift || apply within_fault || apply within_ret. Qed.

Lemma within_arr_set {A} i (x : A) l : within R (arr_set i x l).
Proof using All. unfold arr_set. case_bool_decide; [apply within_ret|apply within_fault]. Qed.

Lemma within_if {A} (b : bool) (m n : M A) : within R m -> within R n -> within R (if b then m else n).
Proof using Type. by destruct b. Qed.
End Within.

#[export] Hint Resolve within_ret within_fault within_bind within_gets within_lift within_deref
  within_arr_get within_arr_set within_if : within.

(** ** Copying between the kernel and the current process

    CopyIn and CopyOut of boards/raspberry_pi_4/arm.S, a byte at a time: an
    access that faults ends the copy with -1, the bytes before it copied. *)

Fixpoint copyin_loop (n : nat) (dst src : Z) : M Z :=
  match n with
  | O => mret 0
  | S n =>
      ok ← gets (fun s => uvalid s src);
      if ok : bool then
        modify (fun s => s <| fmem := fmem s <| kmem := <[dst := umem s src]> (kmem (fmem s)) |> |>);;
        copyin_loop n (dst + 1) (src + 1)
      else mret (-1)
  end.
Definition CopyIn (dst src sz : Z) : M Z := copyin_loop (Z.to_nat sz) dst src.

Fixpoint copyout_loop (n : nat) (dst src : Z) : M Z :=
  match n with
  | O => mret 0
  | S n =>
      ok ← gets (fun s => uvalid s dst);
      if ok : bool then
        modify (fun s => s <| umem := <[dst := kmem (fmem s) src]> (umem s) |>);;
        copyout_loop n (dst + 1) (src + 1)
      else mret (-1)
  end.
Definition CopyOut (dst src sz : Z) : M Z := copyout_loop (Z.to_nat sz) dst src.

(** [CopyOut] of a kernel variable, its bytes [bs]. *)
Fixpoint copyout_bytes (dst : Z) (bs : list Z) : M Z :=
  match bs with
  | [] => mret 0
  | b :: bs =>
      ok ← gets (fun s => uvalid s dst);
      if ok : bool then
        modify (fun s => s <| umem := <[dst := b]> (umem s) |>);;
        copyout_bytes (dst + 1) bs
      else mret (-1)
  end.

(** ** Copies *)

Lemma copyout_ok n dst src s :
  (forall a, dst <= a < dst + Z.of_nat n -> uvalid s a = true) ->
  exists m, copyout_loop n dst src s = Ret 0 (s <| umem := m |>) /\
    forall a, m a = if bool_decide (dst <= a < dst + Z.of_nat n) then kmem (fmem s) (src + (a - dst)) else umem s a.
Proof.
  revert dst src s. induction n as [|n IH]; intros dst src s Hv.
  { exists (umem s). split; [by destruct s|]. intros a. rewrite bool_decide_false by lia. done. }
  cbn [copyout_loop]. rewrite (run_bind _ _ _ _ _ (run_gets _ _)). rewrite (Hv dst) by lia. unfold modify.
  erewrite run_bind by reflexivity. cbv beta.
  destruct (IH (dst + 1) (src + 1) (s <| umem := <[dst := kmem (fmem s) src]> (umem s) |>)) as (m & E & Hm).
  { intros a Ha. apply Hv. lia. }
  exists m. split; [exact E|]. intros a. rewrite Hm. cbn. destruct (decide (a = dst)) as [->|Ha].
  - rewrite bool_decide_false, bool_decide_true by lia. rewrite fn_lookup_insert. f_equal. lia.
  - rewrite fn_lookup_insert_ne by done. repeat case_bool_decide; try lia; first [done|f_equal; lia].
Qed.

(** What a copy can change, whether it succeeds or not. *)
Lemma copyout_total n dst src s : exists r m, copyout_loop n dst src s = Ret r (s <| umem := m |>).
Proof.
  revert dst src s. induction n as [|n IH]; intros dst src s; [exists 0, (umem s); by destruct s|].
  cbn [copyout_loop]. rewrite (run_bind _ _ _ _ _ (run_gets _ _)). destruct (uvalid s dst).
  - unfold modify. erewrite run_bind by reflexivity. cbv beta.
    destruct (IH (dst + 1) (src + 1) (s <| umem := <[dst := kmem (fmem s) src]> (umem s) |>)) as (r & m & E).
    exists r, m. exact E.
  - exists (-1), (umem s). by destruct s.
Qed.

Lemma copyout_bytes_total bs dst s : exists r m, copyout_bytes dst bs s = Ret r (s <| umem := m |>).
Proof.
  revert dst s. induction bs as [|b bs IH]; intros dst s; [exists 0, (umem s); by destruct s|].
  cbn [copyout_bytes]. rewrite (run_bind _ _ _ _ _ (run_gets _ _)). destruct (uvalid s dst).
  - unfold modify. erewrite run_bind by reflexivity. cbv beta.
    destruct (IH (dst + 1) (s <| umem := <[dst := b]> (umem s) |>)) as (r & m & E). exists r, m. exact E.
  - exists (-1), (umem s). by destruct s.
Qed.

Lemma copyout_bytes_ok bs dst s :
  (forall a, dst <= a < dst + Z.of_nat (length bs) -> uvalid s a = true) ->
  exists u, copyout_bytes dst bs s = Ret 0 (s <| umem := u |>) /\
    (forall j b, bs !! j = Some b -> u (dst + Z.of_nat j) = b) /\
    forall a, ~ (dst <= a < dst + Z.of_nat (length bs)) -> u a = umem s a.
Proof.
  revert dst s. induction bs as [|b bs IH]; intros dst s Hv; [exists (umem s); by split_and!; destruct s|].
  cbn [copyout_bytes]. rewrite (run_bind _ _ _ _ _ (run_gets _ _)). rewrite Hv by (simpl; lia).
  unfold modify. erewrite run_bind by reflexivity. cbv beta.
  destruct (IH (dst + 1) (s <| umem := <[dst := b]> (umem s) |>)) as (u & E & Hu & Hlow).
  { intros a Ha. apply Hv. simpl. lia. }
  exists u. split; [rewrite E; by destruct s|]. split.
  - intros [|j] b' Hj; cbn in Hj.
    + injection Hj as <-. rewrite Z.add_0_r, Hlow by lia. cbn. by rewrite store_eq.
    + rewrite <- (Hu j b' Hj). f_equal. lia.
  - intros a Ha. cbn [length] in Ha. rewrite Hlow by lia. cbn. rewrite store_ne by lia. done.
Qed.

Lemma copyin_total n dst src s : exists r m, copyin_loop n dst src s = Ret r (s <| fmem := m |>).
Proof.
  revert dst src s. induction n as [|n IH]; intros dst src s; [exists 0, (fmem s); by destruct s|].
  cbn [copyin_loop]. rewrite (run_bind _ _ _ _ _ (run_gets _ _)). destruct (uvalid s src).
  - unfold modify. erewrite run_bind by reflexivity. cbv beta.
    destruct (IH (dst + 1) (src + 1) (s <| fmem := fmem s <| kmem := <[dst := umem s src]> (kmem (fmem s)) |> |>))
      as (r & m & E). exists r, m. exact E.
  - exists (-1), (fmem s). by destruct s.
Qed.

Lemma copyin_ok n dst src s :
  (forall a, src <= a < src + Z.of_nat n -> uvalid s a = true) ->
  exists m, copyin_loop n dst src s = Ret 0 (s <| fmem := fmem s <| kmem := m |> |>) /\
    forall a, m a = if bool_decide (dst <= a < dst + Z.of_nat n) then umem s (src + (a - dst)) else kmem (fmem s) a.
Proof.
  revert dst src s. induction n as [|n IH]; intros dst src s Hv.
  { exists (kmem (fmem s)). split; [by destruct s as [[]]|]. intros a. rewrite bool_decide_false by lia. done. }
  cbn [copyin_loop]. rewrite (run_bind _ _ _ _ _ (run_gets _ _)). rewrite (Hv src) by lia. unfold modify.
  erewrite run_bind by reflexivity. cbv beta.
  destruct (IH (dst + 1) (src + 1) (s <| fmem := fmem s <| kmem := <[dst := umem s src]> (kmem (fmem s)) |> |>)) as (m & E & Hm).
  { intros a Ha. apply Hv. lia. }
  exists m. split; [exact E|]. intros a. rewrite Hm. cbn. destruct (decide (a = dst)) as [->|Ha].
  - rewrite bool_decide_false, bool_decide_true by lia. rewrite fn_lookup_insert. f_equal. lia.
  - rewrite fn_lookup_insert_ne by done. repeat case_bool_decide; try lia; first [done|f_equal; lia].
Qed.

(** ** A state for the witnesses

    Nothing is allocated; the file state of every process is at 4096. *)
Definition fs0 : fs :=
  mkFs (mkVm (fun _ => 0) (fun _ => Intrusive.Link None None) (fun _ => mkPageframe 0 0 0 0 (Intrusive.Header None None)) 0 0 [] [] [] 0 (fun _ => 0))
    (fun _ => 4096) (fun _ => mkFilp 0 0 0 0 0) [] (fun _ => mkVNode false 0 0 0 0 0 0 0 0 0 0 0 0 0 0 0 0 0 0 0 0 [] [] [] [])
    [] (fun _ => mkSuperBlock false 0 (mkMsgBacklog 0 0 (replicate 32 0)) 0 0 0 None 0) [] (fun _ => mkMsgPort [] [] 0)
    (fun _ => mkMsg None None 0 0 [] 0 []) (fun _ => mkKQueue false 0 [] []) []
    (fun _ => mkKNote 0 false false false 0 0 0 0 0 0 0 0) [] (replicate 64 []) (fun _ => mkISRHandler 0 0 0 0 false []) []
    (replicate 192 []) (replicate 192 0) (replicate 192 0) (fun _ => false) [] (fun _ => mkPipe 0 0 0 0 0 0 0) []
    0 (fun _ => mkDName 0 0 [] (-1)) [] (replicate 32 []) (fun _ => mkBuf 0 0 0 0 0 0) [] (replicate 32 []) false
    (fun _ => 0) (fun _ => true) [].
