(* ===== verification/Filp.v ===== *)
(** * File descriptors and file pointers

    The model of kernel/fs/filp.c and of the descriptor tables of
    kernel/fs/filedesc.c.  A [struct FProcess] is kernel memory: the 64
    pointers of [fd_table], the two [fd_set]s of two words each, [umask],
    [current_dir] and [root_dir] are the consecutive words of its page, so that
    an index outside [fd_table] reaches the fields after it as it does in C.
    [fd_set] and its macros are newlib's: bit [n mod 32] of word [n / 32]. *)

From stdpp Require Import list_numbers.
From S2P Require Import Prelude Bytes Lists Page Fs.

Definition OPEN_MAX := 64.
Definition FD_FLAG_CLOEXEC := 1.
Definition FILP_TYPE_UNDEF := 0.
Definition FILP_TYPE_VNODE := 1.
Definition FILP_TYPE_SUPERBLOCK := 2.
Definition FILP_TYPE_KQUEUE := 3.
Definition FILP_TYPE_ISRHANDLER := 4.

(** ** struct FProcess *)

(** The first word of each field. *)
Definition fd_table := 0.
Definition fd_close_on_exec_set := 64.
Definition fd_in_use_set := 66.
Definition fp_umask := 68.
Definition fp_current_dir := 69.
Definition fp_root_dir := 70.

Definition fword (proc i : Z) : M Z := fun s =>
  if bool_decide (fproc s proc = 0) then Fault else Ret (kmem (fmem s) (fproc s proc + 4 * i)) s.
Definition set_fword (proc i v : Z) : M unit := fun s =>
  if bool_decide (fproc s proc = 0) then Fault
  else Ret () (s <| fmem := fmem s <| kmem := <[fproc s proc + 4 * i := v]> (kmem (fmem s)) |> |>).

Definition FD_ISSET (proc fd set : Z) : M bool :=
  w ← fword proc (set + fd `div` 32); mret (Z.testbit w (fd `mod` 32)).
Definition FD_SET (proc fd set : Z) : M unit :=
  w ← fword proc (set + fd `div` 32); set_fword proc (set + fd `div` 32) (Z.setbit w (fd `mod` 32)).
Definition FD_CLR (proc fd set : Z) : M unit :=
  w ← fword proc (set + fd `div` 32); set_fword proc (set + fd `div` 32) (Z.clearbit w (fd `mod` 32)).

(** ** filp.c *)

Definition get_filp (proc fd : Z) : M Z :=
  if bool_decide (fd < 0 \/ fd >= OPEN_MAX) then mret 0 else fword proc (fd_table + fd).

Definition alloc_filp : M Z :=
  l ← gets filp_free_list;
  match l with
  | [] => mret 0
  | filp :: l =>
      modify (fun s => s <| filp_free_list := l |>);;
      upd_filp filp (fun f => f <| f_reference_cnt := 1 |> <| f_type := FILP_TYPE_UNDEF |> <| f_u := 0 |>);;
      mret filp
  end.

Definition free_filp (filp : Z) : M unit :=
  if bool_decide (filp = 0) then mret ()
  else
    upd_filp filp (fun f => f <| f_reference_cnt := f_reference_cnt f - 1 |>);;
    f ← deref filps filp;
    if bool_decide (f_reference_cnt f = 0) then
      upd_filp filp (fun f => f <| f_type := FILP_TYPE_UNDEF |> <| f_u := 0 |>);;
      l ← gets filp_free_list;
      l ← lift (Seq.add_head filp l);
      modify (fun s => s <| filp_free_list := l |>)
    else mret ().

(** The loop of [alloc_fd] over [n] descriptors from [fd]. *)
Fixpoint alloc_fd_loop (n : nat) (proc fd : Z) : M Z :=
  match n with
  | O => mret (- EMFILE)
  | S n =>
      b ← FD_ISSET proc fd fd_in_use_set;
      if b : bool then alloc_fd_loop n proc (fd + 1)
      else
        set_fword proc (fd_table + fd) 0;;
        FD_SET proc fd fd_in_use_set;;
        FD_CLR proc fd fd_close_on_exec_set;;
        mret fd
  end.

Definition alloc_fd (proc min_fd max_fd : Z) : M Z :=
  alloc_fd_loop (Z.to_nat (max_fd - min_fd + 1)) proc min_fd.

Definition free_fd (proc fd : Z) : M Z :=
  if bool_decide (fd < 0 \/ fd >= OPEN_MAX) then mret (- EINVAL)
  else
    filp ← fword proc (fd_table + fd);
    if bool_decide (filp = 0) then mret (- EINVAL)
    else
      set_fword proc (fd_table + fd) 0;;
      FD_CLR proc fd fd_in_use_set;;
      FD_CLR proc fd fd_close_on_exec_set;;
      mret 0.

Definition alloc_fd_filp (proc : Z) : M Z :=
  fd ← alloc_fd proc 0 OPEN_MAX;
  if bool_decide (fd < 0) then mret (- EMFILE)
  else
    filp ← alloc_filp;
    if bool_decide (filp = 0) then free_fd proc fd;; mret (- EMFILE)
    else
      upd_filp filp (fun f => f <| f_reference_cnt := 1 |>);;
      set_fword proc (fd_table + fd) filp;;
      upd_filp filp (fun f => f <| f_type := FILP_TYPE_UNDEF |>);;
      mret fd.

Definition free_fd_filp (proc fd : Z) : M Z :=
  filp ← get_filp proc fd;
  if bool_decide (filp = 0) then mret (- EINVAL)
  else free_filp filp;; free_fd proc fd;; mret 0.

(** ** Descriptors of filedesc.c *)

Definition dup_fd (proc fd min_fd max_fd : Z) : M Z :=
  filp ← get_filp proc fd;
  if bool_decide (filp = 0) then mret (- EINVAL)
  else
    new_fd ← alloc_fd proc min_fd max_fd;
    if bool_decide (new_fd < 0) then mret (- EMFILE)
    else
      set_fword proc (fd_table + new_fd) filp;;
      upd_filp filp (fun f => f <| f_reference_cnt := f_reference_cnt f + 1 |>);;
      mret new_fd.

(** [item] is stored in the union for the four types of the switch. *)
Definition set_fd (proc fd type flags item : Z) : M Z :=
  filp ← get_filp proc fd;
  if bool_decide (filp = 0) then mret (- EINVAL)
  else
    upd_filp filp (fun f => f <| f_type := type |>);;
    (if bool_decide (type = FILP_TYPE_VNODE \/ type = FILP_TYPE_SUPERBLOCK \/ type = FILP_TYPE_KQUEUE \/
                     type = FILP_TYPE_ISRHANDLER)
     then upd_filp filp (fun f => f <| f_u := item |>) else mret ());;
    FD_SET proc fd fd_in_use_set;;
    (if bool_decide (Z.land flags FD_FLAG_CLOEXEC <> 0) then FD_SET proc fd fd_close_on_exec_set else mret ());;
    mret 0.

(** ** Running the accesses to a struct FProcess *)

Definition fw (s : fs) (proc i : Z) : Z := kmem (fmem s) (fproc s proc + 4 * i).
Definition put_fw (proc i v : Z) (s : fs) : fs :=
  s <| fmem := fmem s <| kmem := <[fproc s proc + 4 * i := v]> (kmem (fmem s)) |> |>.

(** A descriptor as its three parts. *)
Definition fd_filp (s : fs) (proc fd : Z) : Z := fw s proc (fd_table + fd).
Definition fd_bit (set : Z) (s : fs) (proc fd : Z) : bool := Z.testbit (fw s proc (set + fd `div` 32)) (fd `mod` 32).
Definition fd_used := fd_bit fd_in_use_set.
Definition fd_cloexec := fd_bit fd_close_on_exec_set.
Definition fd_bit_put (b : bool) (proc fd set : Z) (s : fs) : fs :=
  put_fw proc (set + fd `div` 32)
    ((if b then Z.setbit else Z.clearbit) (fw s proc (set + fd `div` 32)) (fd `mod` 32)) s.

Lemma run_fword proc i s : fproc s proc <> 0 -> fword proc i s = Ret (fw s proc i) s.
Proof. intros Hp. unfold fword. by rewrite bool_decide_false. Qed.

Lemma run_set_fword proc i v s : fproc s proc <> 0 -> set_fword proc i v s = Ret () (put_fw proc i v s).
Proof. intros Hp. unfold set_fword. by rewrite bool_decide_false. Qed.

Lemma run_FD_ISSET proc fd set s : fproc s proc <> 0 -> FD_ISSET proc fd set s = Ret (fd_bit set s proc fd) s.
Proof. intros Hp. unfold FD_ISSET. by rewrite (run_bind _ _ _ _ _ (run_fword _ _ _ Hp)). Qed.

Lemma run_FD_SET proc fd set s : fproc s proc <> 0 -> FD_SET proc fd set s = Ret () (fd_bit_put true proc fd set s).
Proof.
  intros Hp. unfold FD_SET. rewrite (run_bind _ _ _ _ _ (run_fword _ _ _ Hp)). by rewrite run_set_fword.
Qed.

Lemma run_FD_CLR proc fd set s : fproc s proc <> 0 -> FD_CLR proc fd set s = Ret () (fd_bit_put false proc fd set s).
Proof.
  intros Hp. unfold FD_CLR. rewrite (run_bind _ _ _ _ _ (run_fword _ _ _ Hp)). by rewrite run_set_fword.
Qed.

Lemma fw_put_eq proc i v s : fw (put_fw proc i v s) proc i = v.
Proof. unfold fw, put_fw. simpl. by rewrite fn_lookup_insert. Qed.

Lemma fw_put_ne proc i j v s : i <> j -> fw (put_fw proc i v s) proc j = fw s proc j.
Proof. intros Hij. unfold fw, put_fw. simpl. rewrite fn_lookup_insert_ne; [done|lia]. Qed.

Lemma fproc_put proc i v s : fproc (put_fw proc i v s) = fproc s.
Proof. done. Qed.

(** A change of a bit of a set, seen from the descriptors. *)
Lemma fd_bit_put_eq b proc fd set s f :
  0 <= fd -> 0 <= f ->
  fd_bit set (fd_bit_put b proc fd set s) proc f = if bool_decide (f = fd) then b else fd_bit set s proc f.
Proof.
  intros Hfd Hf. unfold fd_bit, fd_bit_put.
  pose proof (Z.mod_pos_bound fd 32 ltac:(lia)). pose proof (Z.mod_pos_bound f 32 ltac:(lia)).
  destruct (decide (f `div` 32 = fd `div` 32)) as [E|E].
  - rewrite E, fw_put_eq. case_bool_decide as Hff.
    + subst. destruct b; [apply Z.setbit_eq; lia|]. by rewrite Z.clearbit_eq.
    + assert (fd `mod` 32 <> f `mod` 32).
      { intros Hm. apply Hff. rewrite (Z.div_mod f 32), (Z.div_mod fd 32) by lia. lia. }
      destruct b; [by rewrite Z.setbit_neq by lia|by rewrite Z.clearbit_neq by lia].
  - rewrite fw_put_ne by lia. rewrite bool_decide_false; [done|]. by intros ->.
Qed.

(** Neither set overlaps the table or the other set. *)
Lemma fd_bit_put_filp b proc fd set s f :
  0 <= fd -> 0 <= f < OPEN_MAX -> 64 <= set ->
  fd_filp (fd_bit_put b proc fd set s) proc f = fd_filp s proc f.
Proof.
  unfold OPEN_MAX. intros Hfd Hf Hset. unfold fd_filp, fd_bit_put, fd_table. rewrite fw_put_ne; [done|].
  pose proof (Z.div_pos fd 32 ltac:(lia) ltac:(lia)). lia.
Qed.

Lemma fd_bit_put_other b proc fd set set' s f :
  0 <= fd < OPEN_MAX -> 0 <= f < OPEN_MAX -> (set = 64 /\ set' = 66 \/ set = 66 /\ set' = 64) ->
  fd_bit set' (fd_bit_put b proc fd set s) proc f = fd_bit set' s proc f.
Proof.
  unfold OPEN_MAX. intros Hfd Hf Hset. unfold fd_bit, fd_bit_put. rewrite fw_put_ne; [done|].
  assert (0 <= fd `div` 32 < 2) by (split; [apply Z.div_pos; lia|apply Z.div_lt_upper_bound; lia]).
  assert (0 <= f `div` 32 < 2) by (split; [apply Z.div_pos; lia|apply Z.div_lt_upper_bound; lia]). lia.
Qed.

Lemma fd_filp_put proc fd v s f : fd_filp (put_fw proc (fd_table + fd) v s) proc f =
  if bool_decide (f = fd) then v else fd_filp s proc f.
Proof. unfold fd_filp, fd_table. case_bool_decide; [subst; apply fw_put_eq|apply fw_put_ne; lia]. Qed.

Lemma fd_bit_put_table proc fd v set s f :
  0 <= fd < OPEN_MAX -> 0 <= f -> 64 <= set ->
  fd_bit set (put_fw proc (fd_table + fd) v s) proc f = fd_bit set s proc f.
Proof.
  unfold OPEN_MAX. intros Hfd Hf Hset. unfold fd_bit, fd_table. rewrite fw_put_ne; [done|].
  pose proof (Z.div_pos f 32 ltac:(lia) ltac:(lia)). lia.
Qed.

#[export] Hint Resolve run_fword run_set_fword run_FD_ISSET run_FD_SET run_FD_CLR : fsrun.

(** ** Descriptors *)

(** A descriptor written in the order of the code: file, in use, close-on-exec. *)
Definition fd_written (proc fd v : Z) (used cloexec : bool) (s : fs) : fs :=
  fd_bit_put cloexec proc fd fd_close_on_exec_set
    (fd_bit_put used proc fd fd_in_use_set (put_fw proc (fd_table + fd) v s)).
Notation fd_taken proc fd s := (fd_written proc fd 0 true false s).
Notation fd_freed proc fd s := (fd_written proc fd 0 false false s).

Lemma alloc_fd_loop_ok n proc fd s :
  fproc s proc <> 0 ->
  (alloc_fd_loop n proc fd s = Ret (- EMFILE) s /\
     forall f, fd <= f < fd + Z.of_nat n -> fd_used s proc f = true) \/
  exists r, alloc_fd_loop n proc fd s = Ret r (fd_taken proc r s) /\
     fd <= r < fd + Z.of_nat n /\ fd_used s proc r = false /\
     forall f, fd <= f < r -> fd_used s proc f = true.
Proof.
  intros Hp. revert fd. induction n as [|n IH]; intros fd.
  { left. split; [done|]. lia. }
  simpl alloc_fd_loop. rewrite (run_bind _ _ _ _ _ (run_FD_ISSET _ _ _ _ Hp)).
  destruct (fd_bit fd_in_use_set s proc fd) eqn:E.
  - destruct (IH (fd + 1)) as [[H1 H2]|(r & H1 & H2 & H3 & H4)].
    + left. split; [exact H1|]. intros f Hf. destruct (decide (f = fd)) as [->|]; [exact E|apply H2; lia].
    + right. exists r. split_and!; [exact H1|lia|lia|exact H3|].
      intros f Hf. destruct (decide (f = fd)) as [->|]; [exact E|apply H4; lia].
  - right. exists fd. split; [|split; [lia|split; [exact E|lia]]].
    rewrite (run_bind _ _ _ _ _ (run_set_fword _ _ _ _ Hp)).
    rewrite (run_bind _ _ _ _ _ (run_FD_SET proc fd fd_in_use_set (put_fw proc (fd_table + fd) 0 s) Hp)).
    by rewrite (run_bind _ _ _ _ _ (run_FD_CLR proc fd fd_close_on_exec_set
                  (fd_bit_put true proc fd fd_in_use_set (put_fw proc (fd_table + fd) 0 s)) Hp)).
Qed.

(** What that does to all descriptors of the process. *)
Lemma fd_written_spec proc fd v u c s f :
  0 <= fd < OPEN_MAX -> 0 <= f < OPEN_MAX ->
  fd_filp (fd_written proc fd v u c s) proc f = (if bool_decide (f = fd) then v else fd_filp s proc f) /\
  fd_used (fd_written proc fd v u c s) proc f = (if bool_decide (f = fd) then u else fd_used s proc f) /\
  fd_cloexec (fd_written proc fd v u c s) proc f = (if bool_decide (f = fd) then c else fd_cloexec s proc f).
Proof.
  intros Hfd Hf. unfold fd_written, fd_used, fd_cloexec, fd_in_use_set, fd_close_on_exec_set. split_and!.
  - by rewrite !fd_bit_put_filp, fd_filp_put by (unfold OPEN_MAX in *; lia).
  - rewrite fd_bit_put_other by (auto; lia). rewrite fd_bit_put_eq by (unfold OPEN_MAX in *; lia).
    by rewrite fd_bit_put_table by (unfold OPEN_MAX in *; lia).
  - rewrite fd_bit_put_eq by (unfold OPEN_MAX in *; lia). rewrite fd_bit_put_other by (auto; lia).
    by rewrite fd_bit_put_table by (unfold OPEN_MAX in *; lia).
Qed.

(** Two processes whose file states do not overlap. *)
Definition apart (s : fs) (p q : Z) : Prop :=
  fproc s p + PAGE_SIZE <= fproc s q \/ fproc s q + PAGE_SIZE <= fproc s p.

Lemma fw_put_apart p q i j v s :
  apart s p q -> 0 <= i < 1024 -> 0 <= j < 1024 -> fw (put_fw p i v s) q j = fw s q j.
Proof.
  unfold apart, PAGE_SIZE. intros Ha Hi Hj. unfold fw, put_fw. simpl. rewrite fn_lookup_insert_ne; [done|lia].
Qed.

Lemma fw_written_apart p q fd v u c s j :
  apart s p q -> 0 <= fd < OPEN_MAX -> 0 <= j < 1024 -> fw (fd_written p fd v u c s) q j = fw s q j.
Proof.
  unfold OPEN_MAX. intros Ha Hfd Hj. unfold fd_written, fd_bit_put, fd_table, fd_in_use_set, fd_close_on_exec_set.
  assert (0 <= fd `div` 32 < 2) by (split; [apply Z.div_pos; lia|apply Z.div_lt_upper_bound; lia]).
  rewrite !fw_put_apart; (done || lia).
Qed.

Lemma fw_written_high p fd v u c s j :
  0 <= fd < OPEN_MAX -> 68 <= j -> fw (fd_written p fd v u c s) p j = fw s p j.
Proof.
  unfold OPEN_MAX. intros Hfd Hj. unfold fd_written, fd_bit_put, fd_table, fd_in_use_set, fd_close_on_exec_set.
  assert (0 <= fd `div` 32 < 2) by (split; [apply Z.div_pos; lia|apply Z.div_lt_upper_bound; lia]).
  rewrite !fw_put_ne; (done || lia).
Qed.

Lemma run_get_filp proc fd s :
  fproc s proc <> 0 -> 0 <= fd < OPEN_MAX -> get_filp proc fd s = Ret (fd_filp s proc fd) s.
Proof.
  intros Hp Hfd. unfold get_filp. rewrite bool_decide_false by lia. by apply run_fword.
Qed.

Lemma run_free_fd proc fd s :
  fproc s proc <> 0 -> 0 <= fd < OPEN_MAX -> fd_filp s proc fd <> 0 ->
  free_fd proc fd s = Ret 0 (fd_freed proc fd s).
Proof.
  intros Hp Hfd Hf. unfold free_fd. rewrite bool_decide_false by lia.
  rewrite (run_bind _ _ _ _ _ (run_fword proc (fd_table + fd) s Hp)).
  rewrite bool_decide_false by done.
  rewrite (run_bind _ _ _ _ _ (run_set_fword proc (fd_table + fd) 0 s Hp)).
  rewrite (run_bind _ _ _ _ _ (run_FD_CLR proc fd fd_in_use_set (put_fw proc (fd_table + fd) 0 s) Hp)).
  by rewrite (run_bind _ _ _ _ _ (run_FD_CLR proc fd fd_close_on_exec_set
                (fd_bit_put false proc fd fd_in_use_set (put_fw proc (fd_table + fd) 0 s)) Hp)).
Qed.

(** [free_filp] when this is not the reference it counts down from 1. *)
Lemma run_free_filp filp s :
  filp <> 0 -> f_reference_cnt (filps s filp) <> 1 ->
  free_filp filp s =
    Ret () (s <| filps := <[filp := filps s filp <| f_reference_cnt := f_reference_cnt (filps s filp) - 1 |>]> (filps s) |>).
Proof.
  intros Hf Hr. unfold free_filp. rewrite bool_decide_false by done. unfold upd_filp.
  rewrite (run_bind _ _ _ _ _ (run_upd _ _ _ _ _ Hf)), (run_bind _ _ _ _ _ (run_deref _ _ _ Hf)).
  rewrite bool_decide_false; [done|]. simpl. rewrite fn_lookup_insert. simpl. lia.
Qed.

(** [fs0] with the table [tab] and the descriptors of [used] in use. *)
Definition table_of (tab : Z -> Z) (used : Z) (s : fs) : fs :=
  s <| fmem := fmem s <| kmem := fun a =>
    let i := (a - 4096) `div` 4 in
    if bool_decide (0 <= i < 64) then tab i
    else if bool_decide (i = 66) then Z.land used 0xFFFFFFFF
    else if bool_decide (i = 67) then Z.shiftr used 32 else 0 |> |>.

(** C37. [alloc_fd] returns the lowest descriptor of its range that is free and
    marks that one, and only that one, as in use with no file and without
    close-on-exec; when every descriptor of the range is in use it returns
    -EMFILE and changes nothing.  The range is to lie within the table. *)
Theorem alloc_fd_lowest proc min_fd max_fd s :
  fproc s proc <> 0 -> 0 <= min_fd -> max_fd < OPEN_MAX ->
  (alloc_fd proc min_fd max_fd s = Ret (- EMFILE) s /\
     forall f, min_fd <= f <= max_fd -> fd_used s proc f = true) \/
  exists fd s', alloc_fd proc min_fd max_fd s = Ret fd s' /\
     min_fd <= fd <= max_fd /\ fd_used s proc fd = false /\
     (forall f, min_fd <= f < fd -> fd_used s proc f = true) /\
     forall f, 0 <= f < OPEN_MAX ->
       fd_filp s' proc f = (if bool_decide (f = fd) then 0 else fd_filp s proc f) /\
       fd_used s' proc f = (if bool_decide (f = fd) then true else fd_used s proc f) /\
       fd_cloexec s' proc f = (if bool_decide (f = fd) then false else fd_cloexec s proc f).
Proof.
  intros Hp Hmin Hmax. unfold alloc_fd.
  destruct (alloc_fd_loop_ok (Z.to_nat (max_fd - min_fd + 1)) proc min_fd s Hp)
    as [[H1 H2]|(r & H1 & H2 & H3 & H4)].
  - left. split; [exact H1|]. intros f Hf. apply H2. lia.
  - right. exists r, (fd_taken proc r s). split_and!; [exact H1|lia|lia|exact H3|exact H4|].
    intros f Hf. apply fd_written_spec; lia.
Qed.

(** Descriptors 0, 1 and 3 in use: 2 is returned. *)
Lemma alloc_fd_lowest_witness :
  exists s', alloc_fd 1 0 63 (table_of (fun _ => 7) 11 fs0) = Ret 2 s' /\ fd_filp s' 1 2 = 0 /\ fd_used s' 1 2 = true.
Proof.
  destruct (alloc_fd_lowest 1 0 63 (table_of (fun _ => 7) 11 fs0) ltac:(done) ltac:(lia) ltac:(done))
    as [[_ H]|(fd & s' & H1 & H2 & H3 & H4 & H5)].
  - specialize (H 2 ltac:(lia)). discriminate H.
  - assert (fd = 2) as ->.
    { destruct (decide (fd < 2)) as [Hl|Hl].
      - assert (fd = 0 \/ fd = 1) as [-> | ->] by lia; discriminate H3.
      - destruct (decide (2 < fd)) as [Hg|Hg]; [|lia]. specialize (H4 2 ltac:(lia)). discriminate H4. }
    exists s'. destruct (H5 2 ltac:(done)) as (E1 & E2 & _). split_and!; [exact H1|exact E1|exact E2].
Defined.

(** The bound OPEN_MAX that every caller passes is one too many: when all 64
    descriptors are in use and bit 0 of the umask is clear, the scan reads past
    [fd_in_use_set], returns 64, sets that bit of the umask, clears the
    close-on-exec flags of descriptors 0 to 31 and marks descriptor 0 free, so
    that the next call returns 0 and drops the file open there. *)
Theorem alloc_fd_overrun proc s :
  fproc s proc <> 0 -> (forall f, 0 <= f < OPEN_MAX -> fd_used s proc f = true) ->
  Z.testbit (fw s proc fp_umask) 0 = false ->
  exists s1 s2, alloc_fd proc 0 OPEN_MAX s = Ret 64 s1 /\
    Z.testbit (fw s1 proc fp_umask) 0 = true /\ fw s1 proc fd_close_on_exec_set = 0 /\
    fd_used s1 proc 0 = false /\ fd_filp s1 proc 0 = fd_filp s proc 0 /\
    alloc_fd proc 0 OPEN_MAX s1 = Ret 0 s2 /\ fd_filp s2 proc 0 = 0.
Proof.
  intros Hp Hall Hu.
  destruct (alloc_fd_loop_ok 65 proc 0 s Hp) as [[_ H]|(r & H1 & H2 & H3 & H4)].
  { specialize (H 64 ltac:(lia)). change (Z.testbit (fw s proc fp_umask) 0 = true) in H.
    rewrite Hu in H. discriminate. }
  assert (r = 64) as ->.
  { destruct (decide (r < 64)) as [Hr|Hr]; [|lia]. rewrite (Hall r) in H3 by (unfold OPEN_MAX; lia). discriminate. }
  assert (Hfree : fd_used (fd_taken proc 64 s) proc 0 = false).
  { unfold fd_used, fd_bit, fd_written, fd_bit_put at 1. change (0 `div` 32) with 0. change (64 `div` 32) with 2.
    change (fd_in_use_set + 0) with (fd_close_on_exec_set + 2). rewrite fw_put_eq. by rewrite Z.clearbit_eq. }
  assert (Hp' : fproc (fd_taken proc 64 s) proc <> 0) by done.
  destruct (alloc_fd_loop_ok 65 proc 0 (fd_taken proc 64 s) Hp') as [[_ H]|(r & G1 & G2 & G3 & G4)].
  { rewrite (H 0 ltac:(lia)) in Hfree. discriminate. }
  assert (r = 0) as ->.
  { destruct (decide (r = 0)); [done|]. rewrite (G4 0 ltac:(lia)) in Hfree. discriminate. }
  exists (fd_taken proc 64 s), (fd_taken proc 0 (fd_taken proc 64 s)).
  split; [exact H1|]. split.
  { unfold fd_written, fd_bit_put. change (64 `div` 32) with 2. unfold fp_umask.
    rewrite fw_put_ne by (unfold fd_close_on_exec_set; lia). change 68 with (fd_in_use_set + 2).
    rewrite fw_put_eq. change (64 `mod` 32) with 0. by rewrite Z.setbit_eq. }
  split.
  { unfold fd_written, fd_bit_put. change (64 `div` 32) with 2. unfold fd_close_on_exec_set, fd_in_use_set, fd_table.
    rewrite !fw_put_ne by lia. change 64 with (0 + 64). apply fw_put_eq. }
  split; [exact Hfree|]. split.
  { unfold fd_written. rewrite !fd_bit_put_filp by (unfold OPEN_MAX, fd_close_on_exec_set, fd_in_use_set; lia).
    rewrite fd_filp_put. by rewrite bool_decide_false by lia. }
  split; [exact G1|].
  unfold fd_written at 1. rewrite !fd_bit_put_filp by (unfold OPEN_MAX, fd_close_on_exec_set, fd_in_use_set; lia).
  rewrite fd_filp_put. by rewrite bool_decide_true.
Qed.

(** All 64 descriptors in use. *)
Lemma alloc_fd_overrun_witness :
  exists s1 s2, alloc_fd 1 0 64 (table_of (fun _ => 7) (Z.ones 64) fs0) = Ret 64 s1 /\ fd_filp s1 1 0 = 7 /\
    alloc_fd 1 0 64 s1 = Ret 0 s2 /\ fd_filp s2 1 0 = 0.
Proof.
  assert (Hu : forall f, 0 <= f < OPEN_MAX -> fd_used (table_of (fun _ => 7) (Z.ones 64) fs0) 1 f = true).
  { assert (H : forallb (fun f => fd_used (table_of (fun _ => 7) (Z.ones 64) fs0) 1 f) (seqZ 0 64) = true)
      by (vm_compute; reflexivity).
    rewrite forallb_forall in H. intros f Hf. apply H, list_elem_of_In, elem_of_seqZ. exact Hf. }
  destruct (alloc_fd_overrun 1 (table_of (fun _ => 7) (Z.ones 64) fs0) ltac:(done) Hu ltac:(done))
    as (s1 & s2 & H1 & _ & _ & _ & H2 & H3 & H4).
  exists s1, s2. split_and!; [exact H1|rewrite H2; reflexivity|exact H3|exact H4].
Defined.
