(* ===== verification/Vnode.v ===== *)
(** * Vnodes and superblocks

    The model of kernel/fs/vnode.c and of the superblocks of kernel/fs/mount.c.
    [&vnode_table[t]] is the address [t + 1]. *)

From S2P Require Import Prelude Bytes Lists Page Fs Filp.

Definition NR_VNODE := 1024.
Definition V_FREE := 2.
Definition V_VALID := 4.
Definition V_ROOT := 8.
Definition S_ABORT := 1.

(** ** vnode.c *)

Definition get_fd_vnode (proc fd : Z) : M Z :=
  if bool_decide (fd < 0 \/ fd >= OPEN_MAX) then mret 0
  else
    filp ← fword proc (fd_table + fd);
    if bool_decide (filp = 0) then mret 0
    else
      f ← deref filps filp;
      if bool_decide (f_type f <> FILP_TYPE_VNODE) then mret 0 else mret (f_u f).

Definition vnode_new (sb inode : Z) : M Z :=
  l ← gets vnode_free_list;
  match l with
  | [] => mret 0
  | vnode :: l =>
      modify (fun s => s <| vnode_free_list := l |>);;
      upd_sb sb (fun b => b <| sb_reference_cnt := sb_reference_cnt b + 1 |>);;
      upd_vnode vnode (fun v => v
        <| v_busy := true |> <| v_reader_cnt := 0 |> <| v_writer_cnt := 0 |>
        <| v_superblock := sb |> <| v_flags := 0 |> <| v_reference_cnt := 1 |>
        <| vnode_mounted_here := 0 |> <| vnode_covered := 0 |> <| v_pipe := 0 |>
        <| inode_nr := inode |>
        <| v_mode := 0 |> <| v_uid := 9999 |> <| v_gid := 9999 |> <| v_size := 0 |>
        <| v_atime := 0 |> <| v_mtime := 0 |> <| v_ctime := 0 |>
        <| v_blocks := 0 |> <| v_blksize := 512 |> <| v_rdev := 0 |> <| v_nlink := 0 |>
        <| v_buf_list := [] |> <| v_vnode_list := [] |> <| v_directory_list := [] |> <| v_knote_list := [] |>);;
      mret vnode
  end.

(** The scan of [vnode_table] from index [t] over [n] entries. *)
Fixpoint vnode_find_loop (n : nat) (t sb inode : Z) (s : fs) : Z :=
  match n with
  | O => 0
  | S n =>
      if bool_decide (v_superblock (vnodes s (t + 1)) = sb /\ inode_nr (vnodes s (t + 1)) = inode) then t + 1
      else vnode_find_loop n (t + 1) sb inode s
  end.

Definition vnode_find (sb inode : Z) : M Z := gets (vnode_find_loop (Z.to_nat NR_VNODE) 0 sb inode).

(** The end of [vnode_get], from the loop that waits for the vnode. *)
Definition vnode_get_resume (vnode : Z) : M Z :=
  v ← deref vnodes vnode;
  sleep_while (v_busy v) (RVNode vnode);;
  upd_vnode vnode (fun v => v <| v_busy := true |>);;
  v ← deref vnodes vnode;
  (if bool_decide (Z.land (v_flags v) V_FREE = V_FREE) then
     l ← gets vnode_free_list;
     l ← lift (Seq.rem_entry vnode l);
     modify (fun s => s <| vnode_free_list := l |>)
   else mret ());;
  mret vnode.

Definition vnode_get (sb inode : Z) : M Z :=
  b ← deref superblocks sb;
  if bool_decide (Z.land (sb_flags b) S_ABORT <> 0) then mret 0
  else
    vnode ← vnode_find sb inode;
    if bool_decide (vnode = 0) then mret 0
    else
      upd_vnode vnode (fun v => v <| v_reference_cnt := v_reference_cnt v + 1 |>);;
      upd_sb sb (fun b => b <| sb_reference_cnt := sb_reference_cnt b + 1 |>);;
      vnode_get_resume vnode.

Definition vnode_inc_ref (vnode : Z) : M unit :=
  upd_vnode vnode (fun v => v <| v_reference_cnt := v_reference_cnt v + 1 |>);;
  v ← deref vnodes vnode;
  upd_sb (v_superblock v) (fun b => b <| sb_reference_cnt := sb_reference_cnt b + 1 |>).

Definition vnode_put (vnode : Z) : M unit :=
  upd_vnode vnode (fun v => v <| v_busy := false |> <| v_reference_cnt := v_reference_cnt v - 1 |>);;
  v ← deref vnodes vnode;
  upd_sb (v_superblock v) (fun b => b <| sb_reference_cnt := sb_reference_cnt b - 1 |>);;
  (if bool_decide (v_reference_cnt v = 0 /\ Z.land (v_flags v) V_ROOT = 0) then
     upd_vnode vnode (fun v => v <| v_flags := Z.lor (v_flags v) V_FREE |>);;
     l ← gets vnode_free_list;
     l ← lift (Seq.add_tail vnode l);
     modify (fun s => s <| vnode_free_list := l |>)
   else mret ());;
  wakeup (RVNode vnode).

Definition vnode_free (vnode : Z) : M unit :=
  if bool_decide (vnode = 0) then mret ()
  else
    upd_vnode vnode (fun v => v <| v_flags := V_FREE |>);;
    l ← gets vnode_free_list;
    l ← lift (Seq.add_head vnode l);
    modify (fun s => s <| vnode_free_list := l |>);;
    upd_vnode vnode (fun v => v <| v_busy := false |> <| v_reference_cnt := 0 |>);;
    wakeup (RVNode vnode).

Definition vnode_lock (vnode : Z) : M unit :=
  v ← deref vnodes vnode;
  sleep_while (v_busy v) (RVNode vnode);;
  upd_vnode vnode (fun v => v <| v_busy := true |>).

Definition vnode_unlock (vnode : Z) : M unit :=
  upd_vnode vnode (fun v => v <| v_busy := false |>);;
  wakeup (RVNode vnode).

Definition close_vnode (proc fd : Z) : M Z :=
  get_filp proc fd;;
  vnode ← get_fd_vnode proc fd;
  if bool_decide (vnode = 0) then mret (- EINVAL)
  else
    vnode_lock vnode;;
    vnode_put vnode;;
    free_fd_filp proc fd;;
    mret 0.

(** ** Superblocks *)

Definition get_superblock (proc fd : Z) : M Z :=
  filp ← get_filp proc fd;
  if bool_decide (filp = 0) then mret 0
  else
    f ← deref filps filp;
    if bool_decide (f_type f <> FILP_TYPE_SUPERBLOCK) then mret 0 else mret (f_u f).

(** All fields are cleared; [sb_dev] is the index in the table. *)
Definition alloc_superblock : M Z :=
  l ← gets free_superblock_list;
  match l with
  | [] => mret 0
  | sb :: l =>
      modify (fun s => s <| free_superblock_list := l |>);;
      upd_sb sb (fun _ => mkSuperBlock false (sb - 1) (mkMsgBacklog 0 0 (replicate 32 0)) 0 0 0 None 0);;
      upd_port (SbPort sb) (fun _ => mkMsgPort [] [] 0);;
      mret sb
  end.

Definition free_superblock (sb : Z) : M unit :=
  upd_sb sb (fun b => b <| sb_reference_cnt := sb_reference_cnt b - 1 |>);;
  b ← deref superblocks sb;
  if bool_decide (sb_reference_cnt b = 0) then
    l ← gets free_superblock_list;
    l ← lift (Seq.add_tail sb l);
    modify (fun s => s <| free_superblock_list := l |>)
  else mret ().

Definition alloc_fd_superblock (proc : Z) : M Z :=
  fd ← alloc_fd_filp proc;
  if bool_decide (fd < 0) then mret (- EMFILE)
  else
    sb ← alloc_superblock;
    if bool_decide (sb = 0) then free_fd_filp proc fd;; mret (- EMFILE)
    else set_fd proc fd FILP_TYPE_SUPERBLOCK 0 sb;; mret fd.

Definition free_fd_superblock (proc fd : Z) : M Z :=
  sb ← get_superblock proc fd;
  if bool_decide (sb = 0) then mret (- EINVAL)
  else free_superblock sb;; free_fd_filp proc fd;; mret 0.

Definition close_mount (proc fd : Z) : M Z :=
  sb ← get_superblock proc fd;
  if bool_decide (sb = 0) then mret (- EINVAL)
  else free_fd_superblock proc fd;; mret 0.

(** ** References *)

Definition inc_ref_state (v : Z) (s : fs) : fs :=
  s <| vnodes := <[v := vnodes s v <| v_reference_cnt := v_reference_cnt (vnodes s v) + 1 |>]> (vnodes s) |>
    <| superblocks := let sb := v_superblock (vnodes s v) in
         <[sb := superblocks s sb <| sb_reference_cnt := sb_reference_cnt (superblocks s sb) + 1 |>]> (superblocks s) |>.

Lemma run_vnode_inc_ref v s :
  v <> 0 -> v_superblock (vnodes s v) <> 0 -> vnode_inc_ref v s = Ret () (inc_ref_state v s).
Proof.
  intros Hv Hs. unfold vnode_inc_ref, upd_vnode, upd_sb. rewrite (run_bind _ _ _ _ _ (run_upd _ _ _ _ _ Hv)).
  set (s1 := s <| vnodes := _ |>). rewrite (run_bind _ _ _ _ _ (run_deref _ _ _ Hv)).
  assert (E : v_superblock (vnodes s1 v) = v_superblock (vnodes s v)) by (subst s1; cbn; by rewrite store_eq).
  rewrite E, run_upd by done. reflexivity.
Qed.

Lemma inc_ref_superblock v w s : v_superblock (vnodes (inc_ref_state v s) w) = v_superblock (vnodes s w).
Proof. cbn. destruct (decide (w = v)) as [->|Hw]; [by rewrite store_eq|by rewrite store_ne]. Qed.

(** ** A vnode taken from the free list *)

(** The search looks at two fields. *)
Lemma vnode_find_loop_ext n t sb inode s s' :
  (forall v, v_superblock (vnodes s' v) = v_superblock (vnodes s v) /\ inode_nr (vnodes s' v) = inode_nr (vnodes s v)) ->
  vnode_find_loop n t sb inode s' = vnode_find_loop n t sb inode s.
Proof.
  intros H. revert t. induction n as [|n IH]; intros t; [done|]. cbn [vnode_find_loop].
  destruct (H (t + 1)) as [-> ->]. by rewrite IH.
Qed.

(** The part of [vnode_get] up to the wait. *)
Lemma run_vnode_get sb inode v s :
  sb <> 0 -> v <> 0 -> Z.land (sb_flags (superblocks s sb)) S_ABORT = 0 ->
  vnode_find_loop (Z.to_nat NR_VNODE) 0 sb inode s = v ->
  exists s', vnode_get sb inode s = vnode_get_resume v s' /\
    s' = s <| vnodes := vnodes s' |> <| superblocks := superblocks s' |> /\
    (forall w, vnodes s' w = if bool_decide (w = v) then vnodes s v <| v_reference_cnt := v_reference_cnt (vnodes s v) + 1 |>
               else vnodes s w) /\
    sb_flags (superblocks s' sb) = sb_flags (superblocks s sb).
Proof.
  intros Hs Hv Ha Hf. unfold vnode_get. rewrite (run_bind _ _ _ _ _ (run_deref _ _ _ Hs)).
  rewrite bool_decide_false by (intros H; by apply H). unfold vnode_find. rewrite (run_bind _ _ _ _ _ (run_gets _ _)), Hf.
  rewrite bool_decide_false by done. unfold upd_vnode, upd_sb.
  rewrite (run_bind _ _ _ _ _ (run_upd _ _ _ _ _ Hv)), (run_bind _ _ _ _ _ (run_upd _ _ _ _ _ Hs)).
  eexists. split; [reflexivity|]. split; [by destruct s|]. split.
  - intros w. cbn. case_bool_decide as Hw; [subst w; apply fn_lookup_insert|by apply fn_lookup_insert_ne].
  - cbn. by rewrite fn_lookup_insert.
Qed.

Lemma run_vnode_get_resume v s :
  v <> 0 -> v_busy (vnodes s v) = false -> Z.land (v_flags (vnodes s v)) V_FREE = V_FREE ->
  vnode_get_resume v s =
    match Seq.rem_entry v (vnode_free_list s) with
    | Some l => Ret v (s <| vnodes := <[v := vnodes s v <| v_busy := true |>]> (vnodes s) |> <| vnode_free_list := l |>)
    | None => Fault
    end.
Proof.
  intros Hv Hb Hf. unfold vnode_get_resume, sleep_while. rewrite (run_bind _ _ _ _ _ (run_deref _ _ _ Hv)), Hb.
  rewrite (run_bind _ _ _ _ _ (run_ret _ _)). unfold upd_vnode. rewrite (run_bind _ _ _ _ _ (run_upd _ _ _ _ _ Hv)).
  rewrite (run_bind _ _ _ _ _ (run_deref _ _ _ Hv)). cbv beta.
  rewrite bool_decide_true by (cbn; by rewrite fn_lookup_insert).
  set (s1 := s <| vnodes := _ |>).
  destruct (Seq.rem_entry v (vnode_free_list s)) as [l|] eqn:E.
  - erewrite run_bind; [reflexivity|]. rewrite (run_bind _ _ _ _ _ (run_gets _ _)).
    change (vnode_free_list s1) with (vnode_free_list s). rewrite E. reflexivity.
  - apply run_bind_fault. rewrite (run_bind _ _ _ _ _ (run_gets _ _)).
    change (vnode_free_list s1) with (vnode_free_list s). by rewrite E.
Qed.

(** A vnode as [vnode_new] leaves it. *)
Definition fresh_vnode (sb inode : Z) (v : VNode) : VNode := v
  <| v_busy := true |> <| v_reader_cnt := 0 |> <| v_writer_cnt := 0 |>
  <| v_superblock := sb |> <| v_flags := 0 |> <| v_reference_cnt := 1 |>
  <| vnode_mounted_here := 0 |> <| vnode_covered := 0 |> <| v_pipe := 0 |>
  <| inode_nr := inode |>
  <| v_mode := 0 |> <| v_uid := 9999 |> <| v_gid := 9999 |> <| v_size := 0 |>
  <| v_atime := 0 |> <| v_mtime := 0 |> <| v_ctime := 0 |>
  <| v_blocks := 0 |> <| v_blksize := 512 |> <| v_rdev := 0 |> <| v_nlink := 0 |>
  <| v_buf_list := [] |> <| v_vnode_list := [] |> <| v_directory_list := [] |> <| v_knote_list := [] |>.

Lemma run_vnode_new sb inode v l s :
  sb <> 0 -> v <> 0 -> vnode_free_list s = v :: l ->
  vnode_new sb inode s = Ret v (s <| vnode_free_list := l |>
    <| superblocks := <[sb := superblocks s sb <| sb_reference_cnt := sb_reference_cnt (superblocks s sb) + 1 |>]> (superblocks s) |>
    <| vnodes := <[v := fresh_vnode sb inode (vnodes s v)]> (vnodes s) |>).
Proof.
  intros Hs Hv Hl. unfold vnode_new. rewrite (run_bind _ _ _ _ _ (run_gets _ _)), Hl. unfold modify, upd_sb, upd_vnode.
  erewrite run_bind by reflexivity. cbv beta.
  rewrite (run_bind _ _ _ _ _ (run_upd _ _ _ _ _ Hs)), (run_bind _ _ _ _ _ (run_upd _ _ _ _ _ Hv)). reflexivity.
Qed.

(** A cached vnode that nobody uses can be got once only.  [vnode_get]
    takes it off the free list but leaves V_FREE set, so that a second
    [vnode_get] of the file, while the first one still holds its reference,
    unlinks an entry that is on no list. *)
Theorem vnode_get_twice sb inode v s :
  sb <> 0 -> v <> 0 -> Z.land (sb_flags (superblocks s sb)) S_ABORT = 0 ->
  vnode_find_loop (Z.to_nat NR_VNODE) 0 sb inode s = v ->
  v_busy (vnodes s v) = false -> Z.land (v_flags (vnodes s v)) V_FREE = V_FREE -> v ∈ vnode_free_list s ->
  exists s1 s2, vnode_get sb inode s = Ret v s1 /\ vnode_unlock v s1 = Ret () s2 /\ vnode_get sb inode s2 = Fault.
Proof.
  intros Hs Hv Ha Hf Hb Hfl Hin.
  destruct (run_vnode_get sb inode v s Hs Hv Ha Hf) as (sa & Ea & Ra & Va & Fa).
  assert (Hva := Va v). rewrite bool_decide_true in Hva by done.
  rewrite run_vnode_get_resume in Ea by (try rewrite Hva; done).
  assert (El : vnode_free_list sa = vnode_free_list s) by (rewrite Ra; done).
  rewrite El, Seq.rem_entry_linked in Ea by done.
  match type of Ea with _ = Ret _ ?x => set (s1 := x) in Ea end.
  set (s2 := s1 <| vnodes := <[v := vnodes s1 v <| v_busy := false |>]> (vnodes s1) |> <| woken := woken s1 ++ [RVNode v] |>).
  exists s1, s2. split; [exact Ea|]. split.
  { unfold vnode_unlock, upd_vnode. by rewrite (run_bind _ _ _ _ _ (run_upd _ _ _ _ _ Hv)). }
  assert (V2 : vnodes s2 v = vnodes sa v <| v_busy := false |>).
  { subst s2 s1. cbn. rewrite !fn_lookup_insert. reflexivity. }
  assert (V2' : forall w, w <> v -> vnodes s2 w = vnodes s w).
  { intros w Hw. subst s2 s1. cbn. rewrite !fn_lookup_insert_ne by done. rewrite Va. by rewrite bool_decide_false. }
  destruct (run_vnode_get sb inode v s2 Hs Hv) as (sb' & Eb & Rb & Vb & _).
  { change (superblocks s2) with (superblocks sa). by rewrite Fa. }
  { rewrite <- Hf. apply vnode_find_loop_ext. intros w. destruct (decide (w = v)) as [->|Hw]; [by rewrite V2, Hva|by rewrite V2']. }
  assert (Hvb := Vb v). rewrite bool_decide_true in Hvb by done.
  rewrite Eb, run_vnode_get_resume by (try rewrite Hvb, V2, Hva; done).
  assert (Elb : vnode_free_list sb' = filter (fun y => y <> v) (vnode_free_list s)) by (rewrite Rb; done).
  rewrite Elb. unfold Seq.rem_entry. rewrite bool_decide_false; [done|]. intros [H _]%list_elem_of_filter. by apply H.
Qed.
