(* ===== verification/Interrupt.v ===== *)
(** * Interrupt handlers

    The model of kernel/proc/interrupt.c: the handlers a driver registers for an
    interrupt, the counters that mask interrupts, and the list of handlers
    whose notification is deferred to a kernel task.  The interrupt controller
    is the flag [irq_enabled] of each line. *)

From S2P Require Import Prelude Bytes Lists Page Fs Filp.

Definition NIRQ := 192.

Definition enable_irq (irq : Z) : M unit := modify (fun s => s <| irq_enabled := <[irq := true]> (irq_enabled s) |>).
Definition disable_irq (irq : Z) : M unit := modify (fun s => s <| irq_enabled := <[irq := false]> (irq_enabled s) |>).

(** [irq_mask_cnt[irq] < 0x80000000] compares as unsigned: it is true of every
    [int] that is not negative. *)
Definition interruptapi_mask_interrupt (irq : Z) : M Z :=
  if bool_decide (irq < 0 \/ irq >= NIRQ) then mret (- EINVAL)
  else
    l ← gets irq_mask_cnt;
    c ← arr_get l irq;
    let c := if bool_decide (u32 c < 0x80000000) then i32 (c + 1) else c in
    l ← arr_set irq c l;
    modify (fun s => s <| irq_mask_cnt := l |>);;
    (if bool_decide (c > 0) then disable_irq irq else mret ());;
    mret c.

Definition interruptapi_unmask_interrupt (irq : Z) : M Z :=
  if bool_decide (irq < 0 \/ irq >= NIRQ) then mret (- EINVAL)
  else
    l ← gets irq_mask_cnt;
    c ← arr_get l irq;
    let c := if bool_decide (c > 0) then c - 1 else c in
    l ← arr_set irq c l;
    modify (fun s => s <| irq_mask_cnt := l |>);;
    (if bool_decide (c = 0) then enable_irq irq else mret ());;
    mret c.

(** The system calls do the same with interrupts disabled. *)
Definition sys_maskinterrupt (irq : Z) : M Z := interruptapi_mask_interrupt irq.
Definition sys_unmaskinterrupt (irq : Z) : M Z := interruptapi_unmask_interrupt irq.

Definition get_isrhandler (proc fd : Z) : M Z :=
  filp ← get_filp proc fd;
  if bool_decide (filp = 0) then mret 0
  else
    f ← deref filps filp;
    if bool_decide (f_type f <> FILP_TYPE_ISRHANDLER) then mret 0 else mret (f_u f).

Definition alloc_isrhandler : M Z :=
  l ← gets isr_handler_free_list;
  match l with
  | [] => mret 0
  | isr :: l =>
      modify (fun s => s <| isr_handler_free_list := l |>);;
      upd_isr isr (fun h => h <| isr_reference_cnt := 1 |>);;
      mret isr
  end.

Definition free_isrhandler (isr : Z) : M unit :=
  if bool_decide (isr = 0) then mret ()
  else
    upd_isr isr (fun h => h <| isr_reference_cnt := isr_reference_cnt h - 1 |>);;
    h ← deref isrhandlers isr;
    if bool_decide (isr_reference_cnt h = 0) then
      l ← gets isr_handler_free_list;
      l ← lift (Seq.add_head isr l);
      modify (fun s => s <| isr_handler_free_list := l |>)
    else mret ().

Definition alloc_fd_isrhandler (proc : Z) : M Z :=
  fd ← alloc_fd_filp proc;
  if bool_decide (fd < 0) then mret (- EMFILE)
  else
    isr ← alloc_isrhandler;
    if bool_decide (isr = 0) then free_fd_filp proc fd;; mret (- EMFILE)
    else set_fd proc fd FILP_TYPE_ISRHANDLER FD_FLAG_CLOEXEC isr;; mret fd.

Definition free_fd_isrhandler (proc fd : Z) : M Z :=
  isr ← get_isrhandler proc fd;
  if bool_decide (isr = 0) then mret (- EINVAL)
  else free_isrhandler isr;; free_fd_filp proc fd;; mret 0.

(** An index outside the tables faults. *)
Definition sys_createinterrupt (proc irq callback : Z) : M Z :=
  if bool_decide (irq < 0 \/ irq > NIRQ) then mret (- EINVAL)
  else
    fd ← alloc_fd_isrhandler proc;
    if bool_decide (fd < 0) then mret (- ENOMEM)
    else
      isr ← get_isrhandler proc fd;
      upd_isr isr (fun h => h <| isr_irq := irq |> <| isr_callback := callback |>
                              <| isr_process := proc |> <| pending_dpc := false |>);;
      t ← gets isr_handler_list;
      l ← arr_get t irq;
      l ← lift (Seq.add_tail isr l);
      t ← arr_set irq l t;
      modify (fun s => s <| isr_handler_list := t |>);;
      sys_unmaskinterrupt irq;;
      c ← gets irq_handler_cnt;
      n ← arr_get c irq;
      c ← arr_set irq (n + 1) c;
      modify (fun s => s <| irq_handler_cnt := c |>);;
      mret fd.

Definition close_isrhandler (proc fd : Z) : M Z :=
  isr ← get_isrhandler proc fd;
  if bool_decide (isr = 0) then mret (- EINVAL)
  else
    h ← deref isrhandlers isr;
    let irq := isr_irq h in
    t ← gets isr_handler_list;
    l ← arr_get t irq;
    l ← lift (Seq.rem_entry isr l);
    t ← arr_set irq l t;
    modify (fun s => s <| isr_handler_list := t |>);;
    c ← gets irq_handler_cnt;
    n ← arr_get c irq;
    c ← arr_set irq (n - 1) c;
    modify (fun s => s <| irq_handler_cnt := c |>);;
    (if bool_decide (n - 1 = 0) then sys_maskinterrupt irq;; mret () else mret ());;
    free_fd_isrhandler proc fd;;
    mret 0.

(** [isr] is [api->context]. *)
Definition interruptapi_knotei (isr hint : Z) : M Z :=
  h ← deref isrhandlers isr;
  (if pending_dpc h then mret ()
   else
     l ← gets pending_isr_dpc_list;
     l ← lift (Seq.add_tail isr l);
     modify (fun s => s <| pending_isr_dpc_list := l |>);;
     upd_isr isr (fun h => h <| pending_dpc := true |>));;
  wakeup RInterruptDpc;;
  mret 0.

(** ** Masking *)

(** Calls repeated [n] times. *)
Fixpoint repeat_call (n : nat) (call : M Z) : M unit :=
  match n with
  | O => mret ()
  | S n => call;; repeat_call n call
  end.

(** Interrupt [irq] is masked [c] times, and enabled or not. *)
Definition irq_state (s : fs) (irq c : Z) (e : bool) : Prop :=
  irq_mask_cnt s !! Z.to_nat irq = Some c /\ irq_enabled s irq = e.

(** [s] and [s'] differ at most in the mask of [irq]. *)
Record masks_only (irq : Z) (s s' : fs) : Prop := mkMasksOnly {
  mo_rest : s' = s <| irq_mask_cnt := irq_mask_cnt s' |> <| irq_enabled := irq_enabled s' |>;
  mo_other i : 0 <= i -> i <> irq ->
    irq_mask_cnt s' !! Z.to_nat i = irq_mask_cnt s !! Z.to_nat i /\ irq_enabled s' i = irq_enabled s i
}.

Lemma masks_only_refl irq s : masks_only irq s s.
Proof. split; [by destruct s|done]. Qed.

Lemma masks_only_trans irq s1 s2 s3 : masks_only irq s1 s2 -> masks_only irq s2 s3 -> masks_only irq s1 s3.
Proof.
  intros [R1 O1] [R2 O2]. split; [rewrite R2, R1; by destruct s1|].
  intros i Hi Hne. destruct (O1 i Hi Hne), (O2 i Hi Hne). split; congruence.
Qed.

Section Mask.
Context (irq : Z) (Hirq : 0 <= irq < NIRQ).

(** The state with another mask count for the line, and the line set. *)
Definition irq_set (c : Z) (e : option bool) (s : fs) : fs :=
  let s := s <| irq_mask_cnt := <[Z.to_nat irq := c]> (irq_mask_cnt s) |> in
  match e with Some e => s <| irq_enabled := <[irq := e]> (irq_enabled s) |> | None => s end.

Lemma irq_set_ok c0 c e e0 s :
  irq_state s irq c0 e0 ->
  irq_state (irq_set c e s) irq c (default e0 e) /\ masks_only irq s (irq_set c e s).
Proof.
  intros [Hc He]. apply lookup_lt_Some in Hc as Hlt. split.
  - split; [destruct e; cbn; by apply list_lookup_insert_eq|destruct e; cbn; [apply fn_lookup_insert|done]].
  - split; [destruct e, s; reflexivity|]. intros i Hi Hne. destruct e; cbn;
      rewrite list_lookup_insert_ne by lia; (split; [done|]); [by rewrite fn_lookup_insert_ne|done].
Qed.

Lemma run_mask c e s :
  irq_state s irq c e -> 0 <= c < 2 ^ 31 - 1 ->
  sys_maskinterrupt irq s = Ret (c + 1) (irq_set (c + 1) (Some false) s).
Proof.
  intros [Hc _] Hr. apply lookup_lt_Some in Hc as Hlt. unfold sys_maskinterrupt, interruptapi_mask_interrupt.
  rewrite bool_decide_false by lia. rewrite (run_bind _ _ _ _ _ (run_gets _ _)).
  rewrite (run_bind _ _ _ _ _ (run_arr_get (irq_mask_cnt s) irq c s ltac:(lia) Hc)). cbv zeta.
  rewrite uwrap_small, bool_decide_true, swrap_small by lia.
  rewrite (run_bind _ _ _ _ _ (run_arr_set (irq_mask_cnt s) irq (c + 1) s ltac:(lia))). unfold modify.
  erewrite run_bind by reflexivity. rewrite bool_decide_true by lia. reflexivity.
Qed.

Lemma run_unmask c e s :
  irq_state s irq c e -> 0 < c ->
  sys_unmaskinterrupt irq s = Ret (c - 1) (irq_set (c - 1) (if bool_decide (c = 1) then Some true else None) s).
Proof.
  intros [Hc _] Hr. apply lookup_lt_Some in Hc as Hlt. unfold sys_unmaskinterrupt, interruptapi_unmask_interrupt.
  rewrite bool_decide_false by lia. rewrite (run_bind _ _ _ _ _ (run_gets _ _)).
  rewrite (run_bind _ _ _ _ _ (run_arr_get (irq_mask_cnt s) irq c s ltac:(lia) Hc)). cbv zeta.
  rewrite (bool_decide_true (c > 0)) by lia.
  rewrite (run_bind _ _ _ _ _ (run_arr_set (irq_mask_cnt s) irq (c - 1) s ltac:(lia))). unfold modify.
  erewrite run_bind by reflexivity. destruct (decide (c = 1)) as [->|H1].
  - reflexivity.
  - rewrite (bool_decide_false (c - 1 = 0)), (bool_decide_false (c = 1)) by lia. reflexivity.
Qed.

Lemma run_masks n c e s :
  irq_state s irq c e -> 0 <= c -> c + Z.of_nat n < 2 ^ 31 ->
  exists s', repeat_call n (sys_maskinterrupt irq) s = Ret () s' /\
    irq_state s' irq (c + Z.of_nat n) (if bool_decide (n = 0%nat) then e else false) /\ masks_only irq s s'.
Proof.
  revert c e s. induction n as [|n IH]; intros c e s Hs Hc Hn.
  { exists s. split; [done|]. rewrite Z.add_0_r. split; [done|apply masks_only_refl]. }
  destruct (irq_set_ok c (c + 1) (Some false) e s Hs) as [H1 M1].
  destruct (IH (c + 1) false _ H1 ltac:(lia) ltac:(lia)) as (s' & E & H2 & M2). exists s'. split; [|split].
  - cbn [repeat_call]. by rewrite (run_bind _ _ _ _ _ (run_mask c e s Hs ltac:(lia))).
  - rewrite bool_decide_false by done. replace (c + Z.of_nat (S n)) with (c + 1 + Z.of_nat n) by lia.
    by destruct (bool_decide (n = 0%nat)).
  - by eapply masks_only_trans.
Qed.

Lemma run_unmasks n c s :
  irq_state s irq (c + Z.of_nat n) false -> 0 <= c ->
  exists s', repeat_call n (sys_unmaskinterrupt irq) s = Ret () s' /\
    irq_state s' irq c (bool_decide (c = 0 /\ n <> 0%nat)) /\ masks_only irq s s'.
Proof.
  revert s. induction n as [|n IH]; intros s Hs Hc.
  { exists s. rewrite Z.add_0_r in Hs. split; [done|]. split; [|apply masks_only_refl]. by rewrite bool_decide_false by lia. }
  assert (Hpos : 0 < c + Z.of_nat (S n)) by lia.
  destruct (irq_set_ok _ (c + Z.of_nat (S n) - 1)
    (if bool_decide (c + Z.of_nat (S n) = 1) then Some true else None) false s Hs) as [H1 M1].
  pose proof (run_unmask _ _ _ Hs Hpos) as E1. set (s1 := irq_set _ _ s) in *.
  replace (c + Z.of_nat (S n) - 1) with (c + Z.of_nat n) in H1 by lia.
  destruct n as [|n].
  - exists s1. split; [cbn [repeat_call]; by rewrite (run_bind _ _ _ _ _ E1)|]. split; [|done].
    rewrite Z.add_0_r in H1. destruct (decide (c = 0)) as [->|Hne]; [exact H1|].
    rewrite (bool_decide_false (c + _ = 1)) in H1 by lia. by rewrite bool_decide_false by lia.
  - rewrite (bool_decide_false (c + _ = 1)) in H1 by lia.
    destruct (IH s1 H1 Hc) as (s' & E & H2 & M2). exists s'. split; [|split].
    + change (repeat_call (S (S n)) (sys_unmaskinterrupt irq)) with (sys_unmaskinterrupt irq;; repeat_call (S n) (sys_unmaskinterrupt irq)).
      by rewrite (run_bind _ _ _ _ _ E1).
    + destruct (decide (c = 0)) as [->|Hne]; [exact H2|]. rewrite bool_decide_false in H2 by lia. by rewrite bool_decide_false by lia.
    + by eapply masks_only_trans.
Qed.
End Mask.

(** Masks nest: while an interrupt has been masked [n] times more than it
    was it is disabled, and after as many unmasks its mask count is what it was
    before, the interrupt being enabled just when that is 0.  No other
    interrupt is touched. *)
Theorem mask_unmask_nest irq c e n s :
  0 <= irq < NIRQ -> irq_state s irq c e -> 0 <= c -> (0 < n)%nat -> c + Z.of_nat n < 2 ^ 31 ->
  exists s1 s2, repeat_call n (sys_maskinterrupt irq) s = Ret () s1 /\ irq_state s1 irq (c + Z.of_nat n) false /\
    repeat_call n (sys_unmaskinterrupt irq) s1 = Ret () s2 /\ irq_state s2 irq c (bool_decide (c = 0)) /\
    masks_only irq s s2.
Proof.
  intros Hirq Hs Hc Hn Hb. destruct (run_masks irq Hirq n c e s Hs Hc Hb) as (s1 & E1 & H1 & M1).
  rewrite (bool_decide_false (n = 0%nat)) in H1 by lia.
  destruct (run_unmasks irq Hirq n c s1 H1 Hc) as (s2 & E2 & H2 & M2).
  exists s1, s2. split; [done|]. split; [done|]. split; [done|]. split; [|by eapply masks_only_trans].
  replace (bool_decide (c = 0)) with (bool_decide (c = 0 /\ n <> 0%nat)); [done|]. apply bool_decide_ext. lia.
Qed.

Lemma mask_unmask_nest_witness :
  exists s1 s2, repeat_call 3 (sys_maskinterrupt 97) fs0 = Ret () s1 /\ irq_state s1 97 3 false /\
    repeat_call 3 (sys_unmaskinterrupt 97) s1 = Ret () s2 /\ irq_state s2 97 0 true.
Proof.
  destruct (mask_unmask_nest 97 0 false 3 fs0) as (s1 & s2 & H1 & H2 & H3 & H4 & _);
    [split; [lia|reflexivity]|split; reflexivity|lia|lia|lia|].
  exists s1, s2. split; [exact H1|]. split; [exact H2|]. split; [exact H3|exact H4].
Defined.
