(* ===== verification/Kqueue.v ===== *)
(** * Kernel event queues

    The model of kernel/fs/kqueue.c, with [kpeekmsg] of kernel/fs/msg.c and
    [interrupt_dpc] of kernel/proc/interrupt.c, the task that raises the events
    of interrupts.  [proc] is the current process. *)

From S2P Require Import Prelude Bytes Lists Page Fs Filp Vnode Interrupt.

Definition KNOTE_HASH_SZ := 64.
Definition EVFILT_READ := 0.
Definition EVFILT_WRITE := 1.
Definition EVFILT_VNODE := 3.
Definition EVFILT_IRQ := 9.
Definition EVFILT_MSGPORT := 10.
Definition EVFILT_SYSCOUNT := 11.
Definition EV_ADD := 1.
Definition EV_DELETE := 2.
Definition EV_ENABLE := 4.
Definition EV_DISABLE := 8.
Definition EV_ONESHOT := 16.
Definition NOTE_MSG := 0x10000000.

(** newlib's [struct kevent] *)
Record kevent := mkKevent {
  ev_ident : Z; ev_filter : Z; ev_flags : Z; ev_fflags : Z; ev_udata : Z
}.
#[export] Instance rebuild_kevent : Rebuild kevent := fun r =>
  mkKevent (ev_ident r) (ev_filter r) (ev_flags r) (ev_fflags r) (ev_udata r).

Definition has_flag (flags f : Z) : bool := bool_decide (Z.land flags f <> 0).

(** ** Kqueues *)

Definition get_kqueue (proc fd : Z) : M Z :=
  filp ← get_filp proc fd;
  if bool_decide (filp = 0) then mret 0
  else
    f ← deref filps filp;
    if bool_decide (f_type f <> FILP_TYPE_KQUEUE) then mret 0 else mret (f_u f).

Definition alloc_kqueue : M Z :=
  l ← gets kqueue_free_list;
  match l with
  | [] => mret 0
  | kqueue :: l =>
      modify (fun s => s <| kqueue_free_list := l |>);;
      upd_kqueue kqueue (fun k => k <| kq_busy := false |> <| kq_reference_cnt := 0 |>
                                    <| kq_knote_list := [] |> <| kq_pending_list := [] |>);;
      mret kqueue
  end.

Definition free_kqueue (kqueue : Z) : M unit :=
  upd_kqueue kqueue (fun k => k <| kq_reference_cnt := kq_reference_cnt k - 1 |>);;
  k ← deref kqueues kqueue;
  if bool_decide (kq_reference_cnt k = 0) then
    l ← gets kqueue_free_list;
    l ← lift (Seq.add_head kqueue l);
    modify (fun s => s <| kqueue_free_list := l |>)
  else mret ().

Definition alloc_fd_kqueue (proc : Z) : M Z :=
  fd ← alloc_fd_filp proc;
  if bool_decide (fd < 0) then mret (- EMFILE)
  else
    kqueue ← alloc_kqueue;
    if bool_decide (kqueue = 0) then free_fd_filp proc fd;; mret (- EMFILE)
    else
      upd_kqueue kqueue (fun k => k <| kq_reference_cnt := 1 |>);;
      set_fd proc fd FILP_TYPE_KQUEUE 0 kqueue;;
      mret fd.

Definition free_fd_kqueue (proc fd : Z) : M Z :=
  kqueue ← get_kqueue proc fd;
  if bool_decide (kqueue = 0) then mret (- EINVAL)
  else free_fd_filp proc fd;; free_kqueue kqueue;; mret 0.

Definition sys_kqueue (proc : Z) : M Z := alloc_fd_kqueue proc.
Definition close_kqueue (proc fd : Z) : M Z := free_fd_kqueue proc fd;; mret 0.

(** ** Knotes *)

(** [int] arithmetic; [%] truncates towards zero. *)
Definition knote_calc_hash (ident filter : Z) : Z :=
  Z.rem (Z.lor (i32 (Z.shiftl ident 8)) filter) KNOTE_HASH_SZ.

(** The walk along a chain of the hash table. *)
Fixpoint find_knote (l : list Z) (kq : Z) (ev : kevent) (s : fs) : Z :=
  match l with
  | [] => 0
  | n :: l =>
      if bool_decide (kn_kqueue (knotes s n) = kq /\ u32 (kn_ident (knotes s n)) = ev_ident ev /\
                      kn_filter (knotes s n) = ev_filter ev)
      then n else find_knote l kq ev s
  end.

(** Here [hash] is a [uint16_t]. *)
Definition get_knote (kq : Z) (ev : kevent) : M Z :=
  t ← gets knote_hash;
  l ← arr_get t (uwrap 16 (knote_calc_hash (i32 (ev_ident ev)) (ev_filter ev)));
  gets (find_knote l kq ev).

Definition pending_add (kqueue knote : Z) : M unit :=
  k ← deref kqueues kqueue;
  l ← lift (Seq.add_tail knote (kq_pending_list k));
  upd_kqueue kqueue (fun k => k <| kq_pending_list := l |>);;
  upd_knote knote (fun n => n <| kn_on_pending_list := true |>).

Definition pending_rem (kqueue knote : Z) : M unit :=
  k ← deref kqueues kqueue;
  l ← lift (Seq.rem_entry knote (kq_pending_list k));
  upd_kqueue kqueue (fun k => k <| kq_pending_list := l |>);;
  upd_knote knote (fun n => n <| kn_on_pending_list := false |>).

(** [knote], over the knotes of an object. *)
Fixpoint knote (knote_list : list Z) (hint : Z) : M unit :=
  match knote_list with
  | [] => mret ()
  | n :: l =>
      upd_knote n (fun n => n <| kn_pending := true |> <| kn_hint := hint |>);;
      d ← deref knotes n;
      (if kn_enabled d && negb (kn_on_pending_list d) then
         pending_add (kn_kqueue d) n;;
         wakeup (RKqEvent (kn_kqueue d))
       else mret ());;
      knote l hint
  end.

(** The object a filter watches, and its list of knotes. *)
Inductive object := OVNode (vnode : Z) | OIsr (isr : Z) | OPort (sb : Z).

Definition filter_object (proc filter ident : Z) : M (option object) :=
  if bool_decide (filter = EVFILT_READ \/ filter = EVFILT_WRITE \/ filter = EVFILT_VNODE) then
    vnode ← get_fd_vnode proc ident;
    mret (if bool_decide (vnode = 0) then None else Some (OVNode vnode))
  else if bool_decide (filter = EVFILT_IRQ) then
    isr ← get_isrhandler proc ident;
    mret (if bool_decide (isr = 0) then None else Some (OIsr isr))
  else if bool_decide (filter = EVFILT_MSGPORT) then
    sb ← get_superblock proc ident;
    mret (if bool_decide (sb = 0) then None else Some (OPort sb))
  else mret None.

Definition object_ptr (o : object) : Z := match o with OVNode p | OIsr p | OPort p => p end.

Definition object_list (o : object) (s : fs) : list Z :=
  match o with
  | OVNode p => v_knote_list (vnodes s p)
  | OIsr p => isr_knote_list (isrhandlers s p)
  | OPort p => mp_knote_list (msgports s (SbPort p))
  end.

Definition set_object_list (o : object) (l : list Z) : M unit :=
  match o with
  | OVNode p => upd_vnode p (fun v => v <| v_knote_list := l |>)
  | OIsr p => upd_isr p (fun h => h <| isr_knote_list := l |>)
  | OPort p => upd_port (SbPort p) (fun m => m <| mp_knote_list := l |>)
  end.

Definition free_knote (proc kqueue knote : Z) : M unit :=
  d ← deref knotes knote;
  o ← filter_object proc (kn_filter d) (kn_ident d);
  match o with
  | Some o =>
      upd_knote knote (fun n => n <| kn_object := 0 |>);;
      l ← gets (object_list o);
      l ← lift (Seq.rem_entry knote l);
      set_object_list o l
  | None => mret ()
  end;;
  (if kn_on_pending_list d then pending_rem kqueue knote else mret ());;
  upd_knote knote (fun n => n <| kn_pending := false |>);;
  k ← deref kqueues kqueue;
  l ← lift (Seq.rem_entry knote (kq_knote_list k));
  upd_kqueue kqueue (fun k => k <| kq_knote_list := l |>);;
  let hash := knote_calc_hash (kn_ident d) (kn_filter d) in
  t ← gets knote_hash;
  l ← arr_get t hash;
  l ← lift (Seq.rem_entry knote l);
  t ← arr_set hash l t;
  modify (fun s => s <| knote_hash := t |>);;
  l ← gets knote_free_list;
  l ← lift (Seq.add_head knote l);
  modify (fun s => s <| knote_free_list := l |>).

(** A filter without an object to attach to fails, its knote freed. *)
Definition alloc_knote (proc kqueue : Z) (ev : kevent) : M Z :=
  l ← gets knote_free_list;
  match l with
  | [] => mret 0
  | knote :: l =>
      modify (fun s => s <| knote_free_list := l |>);;
      upd_knote knote (fun n => n
        <| kn_kqueue := kqueue |> <| kn_ident := i32 (ev_ident ev) |> <| kn_filter := ev_filter ev |>
        <| kn_flags := ev_flags ev |> <| kn_fflags := i32 (ev_fflags ev) |> <| kn_data := 0 |>
        <| kn_udata := ev_udata ev |> <| kn_enabled := false |> <| kn_pending := false |>
        <| kn_on_pending_list := false |> <| kn_object := 0 |>);;
      k ← deref kqueues kqueue;
      l ← lift (Seq.add_tail knote (kq_knote_list k));
      upd_kqueue kqueue (fun k => k <| kq_knote_list := l |>);;
      let hash := knote_calc_hash (i32 (ev_ident ev)) (ev_filter ev) in
      t ← gets knote_hash;
      l ← arr_get t hash;
      l ← lift (Seq.add_tail knote l);
      t ← arr_set hash l t;
      modify (fun s => s <| knote_hash := t |>);;
      o ← filter_object proc (ev_filter ev) (i32 (ev_ident ev));
      match o with
      | Some o =>
          upd_knote knote (fun n => n <| kn_object := object_ptr o |>);;
          l ← gets (object_list o);
          l ← lift (Seq.add_tail knote l);
          set_object_list o l;;
          mret knote
      | None => free_knote proc kqueue knote;; mret 0
      end
  end.

Definition kpeekmsg (p : port) : M Z := gets (fun s => default 0 (head (pending_msg_list (msgports s p)))).

(** Of the objects only a message port is looked at for an event that is
    already there. *)
Definition enable_knote (proc kqueue knote : Z) : M unit :=
  d ← deref knotes knote;
  if kn_enabled d then mret ()
  else
    upd_knote knote (fun n => n <| kn_enabled := true |>);;
    if kn_pending d then pending_add kqueue knote
    else
      o ← filter_object proc (kn_filter d) (kn_ident d);
      match o with
      | Some (OPort sb) =>
          msg ← kpeekmsg (SbPort sb);
          if bool_decide (msg = 0) then mret ()
          else
            upd_knote knote (fun n => n <| kn_pending := true |>);;
            pending_add kqueue knote
      | _ => mret ()
      end.

Definition disable_knote (kqueue knote : Z) : M unit :=
  d ← deref knotes knote;
  if kn_enabled d then
    upd_knote knote (fun n => n <| kn_enabled := false |>);;
    (if kn_on_pending_list d then pending_rem kqueue knote else mret ())
  else mret ().

(** ** sys_kevent *)

Definition bad_change (ev : kevent) : bool :=
  bool_decide (ev_filter ev < 0 \/ ev_filter ev >= EVFILT_SYSCOUNT) ||
  has_flag (ev_flags ev) EV_ADD && has_flag (ev_flags ev) EV_DELETE ||
  has_flag (ev_flags ev) EV_ENABLE && has_flag (ev_flags ev) EV_DISABLE.

(** One round of the loop over the changes; the result is the error that ends
    the loop, or 0. *)
Definition kevent_change (proc kqueue : Z) (ev : kevent) : M Z :=
  if bad_change ev then mret (- EINVAL)
  else
    n ← get_knote kqueue ev;
    if has_flag (ev_flags ev) EV_ADD then
      if bool_decide (n = 0) then
        let ev := if has_flag (ev_flags ev) EV_DISABLE then ev
                  else ev <| ev_flags := Z.lor (ev_flags ev) EV_ENABLE |> in
        n ← alloc_knote proc kqueue ev;
        if bool_decide (n = 0) then mret (- ENOMEM)
        else
          (if has_flag (ev_flags ev) EV_ENABLE then enable_knote proc kqueue n else mret ());;
          (if has_flag (ev_flags ev) EV_DISABLE then disable_knote kqueue n else mret ());;
          mret 0
      else mret (- EEXIST)
    else if has_flag (ev_flags ev) EV_DELETE then
      if bool_decide (n = 0) then mret (- ENOENT)
      else disable_knote kqueue n;; free_knote proc kqueue n;; mret 0
    else if bool_decide (n = 0) then mret 0
    else
      (if has_flag (ev_flags ev) EV_ENABLE then enable_knote proc kqueue n else mret ());;
      (if has_flag (ev_flags ev) EV_DISABLE then disable_knote kqueue n else mret ());;
      mret 0.

Fixpoint kevent_changes (proc kqueue : Z) (changes : list kevent) : M Z :=
  match changes with
  | [] => mret 0
  | ev :: changes =>
      sc ← kevent_change proc kqueue ev;
      if bool_decide (sc = 0) then kevent_changes proc kqueue changes else mret sc
  end.

(** The loop that returns at most [n] pending events. *)
Fixpoint kevent_collect (n : nat) (proc kqueue : Z) : M (list kevent) :=
  match n with
  | O => mret []
  | S n =>
      k ← deref kqueues kqueue;
      match kq_pending_list k with
      | [] => mret []
      | knote :: l =>
          d ← deref knotes knote;
          upd_kqueue kqueue (fun k => k <| kq_pending_list := l |>);;
          upd_knote knote (fun n => n <| kn_pending := false |> <| kn_on_pending_list := false |>);;
          (if has_flag (kn_flags d) EV_ONESHOT then free_knote proc kqueue knote else mret ());;
          evs ← kevent_collect n proc kqueue;
          mret (mkKevent (u32 (kn_ident d)) (kn_filter d) (kn_flags d) (u32 (kn_fflags d)) (kn_udata d) :: evs)
      end
  end.

Definition kevent_release (kqueue : Z) : M unit :=
  upd_kqueue kqueue (fun k => k <| kq_busy := false |>);;
  wakeup (RKqBusy kqueue).

(** From the wait for an event; a call that slept in it is resumed here. *)
Definition kevent_wait (proc kqueue nevents : Z) : M (Z * list kevent) :=
  k ← deref kqueues kqueue;
  sleep_while (bool_decide (kq_pending_list k = [])) (RKqEvent kqueue);;
  evs ← kevent_collect (Z.to_nat nevents) proc kqueue;
  kevent_release kqueue;;
  mret (Z.of_nat (length evs), evs).

(** A call whose wait timed out ends here. *)
Definition kevent_timedout (kqueue : Z) : M (Z * list kevent) :=
  kevent_release kqueue;;
  mret (- ETIMEDOUT, []).

(** [changes] are the values of [ev] after each [CopyIn], whose result is not
    checked; the list returned is what is passed to [CopyOut].  [nevents] is 0
    when [eventlist] is NULL. *)
Definition sys_kevent (proc fd : Z) (changes : list kevent) (nevents : Z) : M (Z * list kevent) :=
  kqueue ← get_kqueue proc fd;
  k ← deref kqueues kqueue;
  sleep_while (kq_busy k) (RKqBusy kqueue);;
  upd_kqueue kqueue (fun k => k <| kq_busy := true |>);;
  sc ← kevent_changes proc kqueue changes;
  if bool_decide (sc = 0) then
    if bool_decide (nevents > 0) then kevent_wait proc kqueue nevents
    else kevent_release kqueue;; mret (0, [])
  else mret (sc, []).

(** ** Interrupts *)

(** One round of [interrupt_dpc]. *)
Definition interrupt_dpc : M unit :=
  l ← gets pending_isr_dpc_list;
  match l with
  | [] => TaskSleep RInterruptDpc
  | isr :: l =>
      modify (fun s => s <| pending_isr_dpc_list := l |>);;
      upd_isr isr (fun h => h <| pending_dpc := false |>);;
      h ← deref isrhandlers isr;
      knote (isr_knote_list h) NOTE_MSG
  end.

(** ** Raising events *)

(** The notes that are to be put on the queue [k] when an object with the notes
    [l] raises an event. *)
Definition raised (s : fs) (k : Z) (l : list Z) : list Z :=
  filter (fun n => kn_kqueue (knotes s n) = k /\ kn_enabled (knotes s n) = true /\
                   kn_on_pending_list (knotes s n) = false) l.

(** The pending lists hold the notes that say so, each once. *)
Record pending_inv (s : fs) : Prop := mkPendingInv {
  pi_nodup k : NoDup (kq_pending_list (kqueues s k));
  pi_flag k n : n ∈ kq_pending_list (kqueues s k) <->
    kn_on_pending_list (knotes s n) = true /\ kn_kqueue (knotes s n) = k;
  pi_enabled n : kn_on_pending_list (knotes s n) = true ->
    n <> 0 /\ kn_enabled (knotes s n) = true /\ kn_pending (knotes s n) = true
}.

(** What [knote] does to the notes [l] of an object. *)
Record knoted (hint : Z) (l : list Z) (s s' : fs) : Prop := mkKnoted {
  kd_note n : knotes s' n =
    if bool_decide (n ∈ l) then
      knotes s n <| kn_pending := true |> <| kn_hint := hint |>
        <| kn_on_pending_list := kn_enabled (knotes s n) || kn_on_pending_list (knotes s n) |>
    else knotes s n;
  kd_queue k : kqueues s' k =
    kqueues s k <| kq_pending_list := kq_pending_list (kqueues s k) ++ raised s k l |>;
  kd_woken : woken s' = woken s ++
    map (fun n => RKqEvent (kn_kqueue (knotes s n)))
      (filter (fun n => kn_enabled (knotes s n) = true /\ kn_on_pending_list (knotes s n) = false) l);
  kd_rest : s' = s <| knotes := knotes s' |> <| kqueues := kqueues s' |> <| woken := woken s' |>
}.

Section Raise.
Context (hint : Z).

(** One note of [knote]. *)
Lemma knote_one_ok n l s :
  pending_inv s -> n <> 0 -> kn_kqueue (knotes s n) <> 0 ->
  exists s', knote (n :: l) hint s = knote l hint s' /\ knoted hint [n] s s'.
Proof.
  intros P Hn Hk. cbn [knote]. unfold upd_knote. rewrite (run_bind _ _ _ _ _ (run_upd _ _ _ _ _ Hn)).
  rewrite (run_bind _ _ _ _ _ (run_deref _ _ _ Hn)). cbv beta.
  set (d := knotes s n <| kn_pending := true |> <| kn_hint := hint |>).
  set (s1 := s <| knotes := <[n := d]> (knotes s) |>).
  assert (Ed : knotes s1 n = d) by apply fn_lookup_insert. rewrite Ed.
  assert (Hd : kn_kqueue d <> 0) by exact Hk. unfold raised.
  destruct (kn_enabled d && negb (kn_on_pending_list d)) eqn:E.
  - apply andb_prop in E as [Een Eon%negb_true_iff].
    change (kn_enabled (knotes s n) = true) in Een. change (kn_on_pending_list (knotes s n) = false) in Eon.
    assert (Hfresh : n ∉ kq_pending_list (kqueues s1 (kn_kqueue d))).
    { intros Hin. apply (pi_flag _ P) in Hin as [Ho _]. congruence. }
    eexists. split.
    + erewrite run_bind; [reflexivity|]. unfold pending_add, upd_kqueue.
      erewrite run_bind; [reflexivity|]. rewrite (run_bind _ _ _ _ _ (run_deref _ _ _ Hd)).
      rewrite Seq.add_tail_fresh by done. cbn [lift]. rewrite (run_bind _ _ _ _ _ (run_ret _ _)).
      rewrite (run_bind _ _ _ _ _ (run_upd _ _ _ _ _ Hd)). apply run_upd; exact Hn.
    + split.
      * intros m. simpl. case_bool_decide as Hm.
        -- apply list_elem_of_singleton in Hm as ->. rewrite !fn_lookup_insert. subst d. cbn. by rewrite Een.
        -- rewrite !fn_lookup_insert_ne by set_solver. done.
      * intros k. simpl. destruct (decide (k = kn_kqueue d)) as [->|Hkk].
        -- rewrite fn_lookup_insert. unfold raised. rewrite filter_cons_True by done. done.
        -- rewrite fn_lookup_insert_ne by done. unfold raised. rewrite filter_cons_False by naive_solver.
           cbn. destruct (kqueues s k); cbn. by rewrite app_nil_r.
      * simpl. by rewrite filter_cons_True by done.
      * by destruct s.
  - exists s1. split; [done|].
    assert (Hno : ~ (kn_enabled (knotes s n) = true /\ kn_on_pending_list (knotes s n) = false)).
    { intros [E1 E2]. change (kn_enabled (knotes s n) && negb (kn_on_pending_list (knotes s n)) = false) in E.
      rewrite E1, E2 in E. discriminate. }
    split.
    + intros m. simpl. case_bool_decide as Hm.
      * apply list_elem_of_singleton in Hm as ->. rewrite fn_lookup_insert. subst d.
        destruct (knotes s n) as [q [] p [] ? ? ? ? ? ? ? ?]; done || (exfalso; apply Hno; done).
      * rewrite fn_lookup_insert_ne by set_solver. done.
    + intros k. unfold raised. rewrite filter_cons_False by naive_solver. destruct (kqueues s k) eqn:Ek; cbn; rewrite ?Ek, ?app_nil_r. done.
    + simpl. rewrite filter_cons_False by done. by rewrite app_nil_r.
    + by destruct s.
Qed.

Lemma knoted_cons n l s s1 s2 : n ∉ l -> knoted hint [n] s s1 -> knoted hint l s1 s2 -> knoted hint (n :: l) s s2.
Proof.
  intros Hn K1 K2.
  assert (Hsame : forall m, m ∈ l -> knotes s1 m = knotes s m).
  { intros m Hm. rewrite (kd_note _ _ _ _ K1). rewrite bool_decide_false by set_solver. done. }
  assert (Hr : forall k, raised s1 k l = raised s k l).
  { intros k. apply filter_ext_in. intros m Hm. by rewrite Hsame. }
  split.
  - intros m. rewrite (kd_note _ _ _ _ K2), (kd_note _ _ _ _ K1 m).
    repeat case_bool_decide; try done; set_solver.
  - intros k. rewrite (kd_queue _ _ _ _ K2), (kd_queue _ _ _ _ K1), Hr. cbn.
    rewrite <- app_assoc. do 2 f_equal. unfold raised. by case_decide.
  - rewrite (kd_woken _ _ _ _ K2), (kd_woken _ _ _ _ K1), <- app_assoc. f_equal.
    rewrite (filter_app _ [n] l : filter _ (n :: l) = _), map_app. f_equal.
    rewrite (filter_ext_in _ (fun n => kn_enabled (knotes s n) = true /\ kn_on_pending_list (knotes s n) = false))
      by (intros m Hm; by rewrite Hsame).
    apply map_ext_in. intros m [_ Hm]%list_elem_of_In%list_elem_of_filter. by rewrite Hsame.
  - pose proof (kd_rest _ _ _ _ K1) as E1. pose proof (kd_rest _ _ _ _ K2) as E2. rewrite E2, E1. by destruct s.
Qed.

Lemma knoted_inv l s s' :
  pending_inv s -> NoDup l -> (forall n, n ∈ l -> n <> 0) -> knoted hint l s s' -> pending_inv s'.
Proof.
  intros P Hl Hn K.
  assert (Hq : forall n, kn_kqueue (knotes s' n) = kn_kqueue (knotes s n)).
  { intros n. rewrite (kd_note _ _ _ _ K). by case_bool_decide. }
  split.
  - intros k. rewrite (kd_queue _ _ _ _ K). cbn. apply NoDup_app. split; [apply P|]. split.
    + intros n Hin [Hr _]%list_elem_of_filter. apply (pi_flag _ P) in Hin as [Ho _]. destruct Hr as (_ & _ & Hr). congruence.
    + by apply NoDup_filter.
  - intros k n. rewrite (kd_queue _ _ _ _ K), Hq. cbn. rewrite elem_of_app, (pi_flag _ P).
    unfold raised. rewrite list_elem_of_filter, (kd_note _ _ _ _ K). case_bool_decide as Hin; [|tauto]. cbn.
    destruct (kn_on_pending_list (knotes s n)) eqn:Eo, (kn_enabled (knotes s n)) eqn:Ee; cbn; naive_solver.
  - intros n. rewrite (kd_note _ _ _ _ K). case_bool_decide as Hin; [|apply P]. cbn.
    intros [He|Ho]%orb_prop; split_and!; auto. by apply (pi_enabled _ P).
Qed.

(** [knote] as a whole. *)
Lemma knote_ok l s :
  pending_inv s -> NoDup l -> (forall n, n ∈ l -> n <> 0 /\ kn_kqueue (knotes s n) <> 0) ->
  exists s', knote l hint s = Ret () s' /\ knoted hint l s s' /\ pending_inv s'.
Proof.
  revert s. induction l as [|n l IH]; intros s P Hl Hn.
  { exists s. split; [done|]. split; [|done]. split; try done.
    - intros k. cbn. destruct (kqueues s k). cbn. by rewrite app_nil_r.
    - cbn. by rewrite app_nil_r.
    - by destruct s. }
  apply NoDup_cons in Hl as [Hnl Hl]. destruct (Hn n ltac:(set_solver)) as [Hn0 Hk].
  destruct (knote_one_ok n l s P Hn0 Hk) as (s1 & E1 & K1).
  assert (P1 : pending_inv s1).
  { apply (knoted_inv [n] s); [done|apply NoDup_singleton|set_solver|done]. }
  destruct (IH s1 P1 Hl) as (s' & E & K & P').
  { intros m Hm. destruct (Hn m ltac:(set_solver)) as [H0 H1]. split; [done|].
    rewrite (kd_note _ _ _ _ K1). by case_bool_decide. }
  exists s'. split; [by rewrite E1|]. split; [by apply (knoted_cons n l s s1)|done].
Qed.
End Raise.

(** ** Returning events *)

(** The event a note is returned as. *)
Definition event_of (d : KNote) : kevent :=
  mkKevent (u32 (kn_ident d)) (kn_filter d) (kn_flags d) (u32 (kn_fflags d)) (kn_udata d).

Lemma kevent_collect_ok n proc k s :
  k <> 0 -> pending_inv s ->
  (forall m, m ∈ kq_pending_list (kqueues s k) -> has_flag (kn_flags (knotes s m)) EV_ONESHOT = false) ->
  exists s', kevent_collect n proc k s =
      Ret (map (fun m => event_of (knotes s m)) (take n (kq_pending_list (kqueues s k)))) s' /\
    pending_inv s' /\ kq_pending_list (kqueues s' k) = drop n (kq_pending_list (kqueues s k)) /\
    woken s' = woken s /\
    forall m, kn_enabled (knotes s' m) = kn_enabled (knotes s m) /\ kn_kqueue (knotes s' m) = kn_kqueue (knotes s m).
Proof.
  intros Hk. revert s. induction n as [|n IH]; intros s P Hone.
  { exists s. split; [done|]. split; [done|]. split; [by rewrite drop_0|]. done. }
  cbn [kevent_collect]. rewrite (run_bind _ _ _ _ _ (run_deref _ _ _ Hk)).
  destruct (kq_pending_list (kqueues s k)) as [|m l] eqn:El; [by exists s|].
  assert (Hm : m ∈ kq_pending_list (kqueues s k)) by (rewrite El; set_solver).
  assert (Hm' := Hm). apply (pi_flag _ P) in Hm' as [Ho Hmk]. destruct (pi_enabled _ P _ Ho) as (Hm0 & _).
  pose proof (pi_nodup _ P k) as Hnd. rewrite El in Hnd. apply NoDup_cons in Hnd as [Hml Hl].
  rewrite (run_bind _ _ _ _ _ (run_deref _ _ _ Hm0)). unfold upd_kqueue, upd_knote.
  rewrite (run_bind _ _ _ _ _ (run_upd _ _ _ _ _ Hk)), (run_bind _ _ _ _ _ (run_upd _ _ _ _ _ Hm0)). cbv beta.
  rewrite (Hone m ltac:(set_solver)). rewrite (run_bind _ _ _ _ _ (run_ret _ _)).
  match goal with |- context [kevent_collect n proc k ≫= ?f] => set (cont := f) end.
  match goal with |- context [(kevent_collect n proc k ≫= cont) ?x] => set (s1 := x) end.
  assert (Hq : kqueues s1 k = kqueues s k <| kq_pending_list := l |>) by apply fn_lookup_insert.
  assert (Hq' : forall j, j <> k -> kqueues s1 j = kqueues s j) by (intros; by apply (fn_lookup_insert_ne (kqueues s))).
  assert (Hnm : knotes s1 m = knotes s m <| kn_pending := false |> <| kn_on_pending_list := false |>)
    by apply fn_lookup_insert.
  assert (Hn' : forall j, j <> m -> knotes s1 j = knotes s j) by (intros; by apply (fn_lookup_insert_ne (knotes s))).
  assert (Hw : woken s1 = woken s) by done. clearbody s1.
  assert (P1 : pending_inv s1).
  { split.
    - intros j. destruct (decide (j = k)) as [->|]; [by rewrite Hq|]. rewrite Hq' by done. apply P.
    - intros j x. destruct (decide (x = m)) as [->|Hx].
      + rewrite Hnm. cbn. destruct (decide (j = k)) as [->|Hj]; [rewrite Hq; cbn; naive_solver|].
        rewrite Hq' by done. rewrite (pi_flag _ P). naive_solver.
      + rewrite (Hn' x) by done. rewrite <- (pi_flag _ P). destruct (decide (j = k)) as [->|Hj].
        * rewrite Hq, El. cbn. set_solver.
        * by rewrite Hq'.
    - intros x. destruct (decide (x = m)) as [->|Hx]; [by rewrite Hnm|]. rewrite Hn' by done. apply P. }
  destruct (IH s1 P1) as (s' & E & P' & Ed & Ew & Ee).
  { intros x Hx. rewrite Hq in Hx. cbn in Hx. rewrite Hn' by set_solver. apply Hone. set_solver. }
  rewrite Hq in E, Ed. cbn in E, Ed. exists s'. split; [|split; [done|split; [done|split; [congruence|]]]].
  - rewrite (run_bind _ _ _ _ _ E). subst cont. cbn. do 2 f_equal. apply map_ext_in.
    intros x Hx%list_elem_of_In. apply elem_of_take in Hx as (i & Hx & _). rewrite Hn'; [done|].
    intros ->. apply Hml. by eapply list_elem_of_lookup_2.
  - intros x. destruct (Ee x) as (-> & ->). destruct (decide (x = m)) as [->|Hx]; [by rewrite Hnm|]. by rewrite Hn'.
Qed.

Lemma pending_inv_ext s s' :
  pending_inv s -> knotes s' = knotes s ->
  (forall j, kq_pending_list (kqueues s' j) = kq_pending_list (kqueues s j)) -> pending_inv s'.
Proof. intros [P1 P2 P3] En Eq. split; [intros k|intros k n|]; rewrite ?Eq, ?En; auto. Qed.

Lemma kevent_wait_ok proc k nevents s :
  k <> 0 -> pending_inv s -> kq_pending_list (kqueues s k) <> [] ->
  (forall m, m ∈ kq_pending_list (kqueues s k) -> has_flag (kn_flags (knotes s m)) EV_ONESHOT = false) ->
  let evs := map (fun m => event_of (knotes s m)) (take (Z.to_nat nevents) (kq_pending_list (kqueues s k))) in
  exists s', kevent_wait proc k nevents s = Ret (Z.of_nat (length evs), evs) s' /\ pending_inv s' /\
    kq_busy (kqueues s' k) = false /\ woken s' = woken s ++ [RKqBusy k] /\
    kq_pending_list (kqueues s' k) = drop (Z.to_nat nevents) (kq_pending_list (kqueues s k)).
Proof.
  intros Hk P Hne Hone evs. unfold kevent_wait, sleep_while. rewrite (run_bind _ _ _ _ _ (run_deref _ _ _ Hk)).
  rewrite bool_decide_false by done. rewrite (run_bind _ _ _ _ _ (run_ret _ _)).
  destruct (kevent_collect_ok (Z.to_nat nevents) proc k s Hk P Hone) as (s1 & E & P1 & Ed & Ew & _).
  rewrite (run_bind _ _ _ _ _ E). unfold kevent_release, upd_kqueue.
  erewrite run_bind; [|rewrite (run_bind _ _ _ _ _ (run_upd _ _ _ _ _ Hk)); reflexivity].
  eexists. split; [done|]. cbn. rewrite fn_lookup_insert, Ed, Ew. cbn. split_and!; [|done..].
  apply (pending_inv_ext s1); [done|done|]. intros j. cbn.
  destruct (decide (j = k)) as [->|]; [by rewrite fn_lookup_insert|by rewrite fn_lookup_insert_ne].
Qed.


(** Queue 5 with one enabled note, 9, on some object. *)
Definition fs_note : fs :=
  fs0 <| kqueues := fun _ => mkKQueue true 1 [9] [] |>
      <| knotes := fun n => if bool_decide (n = 9) then mkKNote 5 true false false 0 4 EVFILT_MSGPORT 5 0 0 77 2
                            else mkKNote 0 false false false 0 0 0 0 0 0 0 0 |>.

Lemma fs_note_inv : pending_inv fs_note.
Proof.
  assert (Hoff : forall n, kn_on_pending_list (knotes fs_note n) = false) by (intros n; cbn; by case_bool_decide).
  split.
  - intros k. apply NoDup_nil_2.
  - intros k n. rewrite Hoff. split; [by intros ?%not_elem_of_nil|by intros [? _]].
  - intros n. by rewrite Hoff.
Qed.


(** ** What can go wrong in sys_kevent *)

Lemma run_get_kqueue proc fd s kq :
  fproc s proc <> 0 -> 0 <= fd < OPEN_MAX -> fd_filp s proc fd <> 0 ->
  f_type (filps s (fd_filp s proc fd)) = FILP_TYPE_KQUEUE -> f_u (filps s (fd_filp s proc fd)) = kq ->
  get_kqueue proc fd s = Ret kq s.
Proof.
  intros Hp Hfd Hf Ht <-. unfold get_kqueue. rewrite (run_bind _ _ _ _ _ (run_get_filp _ _ _ Hp Hfd)).
  rewrite bool_decide_false by done. rewrite (run_bind _ _ _ _ _ (run_deref _ _ _ Hf)).
  by rewrite bool_decide_false by (intros H; by apply H).
Qed.


(** A change that sys_kevent refuses leaves the queue locked: the call
    returns -EINVAL without clearing [busy] or waking its rendez, so that every
    later sys_kevent on the queue sleeps, and nothing is left to wake it. *)
Theorem kevent_error_keeps_busy proc fd s k ev changes nevents changes' nevents' :
  let filp := fd_filp s proc fd in
  fproc s proc <> 0 -> 0 <= fd < OPEN_MAX -> filp <> 0 ->
  f_type (filps s filp) = FILP_TYPE_KQUEUE -> f_u (filps s filp) = k -> k <> 0 ->
  kq_busy (kqueues s k) = false -> bad_change ev = true ->
  exists s', sys_kevent proc fd (ev :: changes) nevents s = Ret (- EINVAL, []) s' /\
    kq_busy (kqueues s' k) = true /\ woken s' = woken s /\
    sys_kevent proc fd changes' nevents' s' = Sleep (RKqBusy k) s'.
Proof.
  intros filp Hp Hfd Hf Ht Hu Hk Hb Hbad.
  set (s1 := s <| kqueues := <[k := kqueues s k <| kq_busy := true |>]> (kqueues s) |>).
  assert (Hb1 : kq_busy (kqueues s1 k) = true) by (subst s1; cbn; by rewrite fn_lookup_insert).
  exists s1. split; [|split; [exact Hb1|split; [done|]]]; unfold sys_kevent, sleep_while.
  - rewrite (run_bind _ _ _ _ _ (run_get_kqueue _ _ _ _ Hp Hfd Hf Ht Hu)), (run_bind _ _ _ _ _ (run_deref _ _ _ Hk)), Hb.
    rewrite (run_bind _ _ _ _ _ (run_ret _ _)). unfold upd_kqueue. rewrite (run_bind _ _ _ _ _ (run_upd _ _ _ _ _ Hk)).
    cbn [kevent_changes]. unfold kevent_change. rewrite Hbad. reflexivity.
  - rewrite (run_bind _ _ _ _ _ (run_get_kqueue proc fd s1 k Hp Hfd Hf Ht Hu)), (run_bind _ _ _ _ _ (run_deref _ _ _ Hk)), Hb1.
    reflexivity.
Qed.

(** Descriptor 3 is queue 5, through file pointer 7. *)
Definition fs_queue : fs :=
  table_of (fun i => if bool_decide (i = 3) then 7 else 0) 8 fs0 <| filps := fun _ => mkFilp FILP_TYPE_KQUEUE 5 0 0 1 |>.

Lemma kevent_error_keeps_busy_witness :
  exists s', sys_kevent 1 3 [mkKevent 0 11 EV_ADD 0 0] 1 fs_queue = Ret (- EINVAL, []) s' /\
    sys_kevent 1 3 [] 1 s' = Sleep (RKqBusy 5) s'.
Proof.
  destruct (kevent_error_keeps_busy 1 3 fs_queue 5 (mkKevent 0 11 EV_ADD 0 0) [] 1 [] 1) as (s' & H1 & _ & _ & H2);
    try reflexivity; try (intros H; discriminate H); [split; [lia|reflexivity]|].
  exists s'. split; [exact H1|exact H2].
Defined.

Lemma lor_low_byte q x : 0 <= x < 256 -> Z.lor (q * 256) x = q * 256 + x.
Proof.
  intros Hx. rewrite <- Z.add_lor_land. replace (Z.land (q * 256) x) with 0; [lia|].
  symmetry. apply Z.bits_inj'. intros n Hn. rewrite Z.land_spec, Z.bits_0.
  change 256 with (2 ^ 8). rewrite <- Z.shiftl_mul_pow2 by lia. destruct (decide (n < 8)) as [H|H].
  - by rewrite Z.shiftl_spec_low.
  - destruct (decide (x = 0)) as [->|H0]; [by rewrite Z.bits_0, andb_false_r|].
    rewrite (Z.bits_above_log2 x n); [apply andb_false_r|lia|]. apply Z.log2_lt_pow2; [lia|].
    apply Z.lt_le_trans with (2 ^ 8); [lia|]. apply Z.pow_le_mono_r; lia.
Qed.

(** The hash of a note is an index of the table only for identifiers whose
    bit 23 is clear, and then it is the filter alone; with bit 23 set and a
    filter other than EVFILT_READ the lookup of sys_kevent, whose identifier the
    caller chooses, is outside [knote_hash]. *)
Theorem get_knote_overrun kq ev s :
  length (knote_hash s) = Z.to_nat KNOTE_HASH_SZ -> 0 < ev_filter ev < EVFILT_SYSCOUNT ->
  (0 <= ev_ident ev < 2 ^ 23 -> knote_calc_hash (i32 (ev_ident ev)) (ev_filter ev) = ev_filter ev) /\
  (2 ^ 23 <= ev_ident ev < 2 ^ 24 -> get_knote kq ev s = Fault).
Proof.
  unfold EVFILT_SYSCOUNT. intros Hlen Hf. split; intros Hi.
  - rewrite (swrap_small 32) by lia. unfold knote_calc_hash, KNOTE_HASH_SZ.
    rewrite Z.shiftl_mul_pow2 by lia. rewrite swrap_small by lia. change (2 ^ 8) with 256.
    rewrite lor_low_byte, Z.rem_mod_nonneg by lia.
    replace (ev_ident ev * 256 + ev_filter ev) with (ev_filter ev + (ev_ident ev * 4) * 64) by lia.
    rewrite Z.mod_add by lia. apply Z.mod_small. lia.
  - assert (Hh : knote_calc_hash (i32 (ev_ident ev)) (ev_filter ev) = ev_filter ev - 64).
    { rewrite (swrap_small 32) by lia. unfold knote_calc_hash, KNOTE_HASH_SZ.
      rewrite Z.shiftl_mul_pow2 by lia. change (2 ^ 8) with 256.
      assert (E : i32 (ev_ident ev * 256) = (ev_ident ev - 2 ^ 24) * 256).
      { unfold swrap. rewrite <- (Z.mod_unique (ev_ident ev * 256 + 2 ^ (32 - 1)) (2 ^ 32) 1
          (ev_ident ev * 256 + 2 ^ 31 - 2 ^ 32)); lia. }
      rewrite E, lor_low_byte by lia.
      rewrite <- (Z.opp_involutive (_ + ev_filter ev)), Z.rem_opp_l by lia. rewrite Z.rem_mod_nonneg by lia.
      replace (- ((ev_ident ev - 2 ^ 24) * 256 + ev_filter ev)) with (64 - ev_filter ev + ((2 ^ 24 - ev_ident ev) * 4 - 1) * 64)
        by lia.
      rewrite Z.mod_add by lia. rewrite Z.mod_small by lia. lia. }
    unfold get_knote. rewrite (run_bind _ _ _ _ _ (run_gets _ _)), Hh.
    apply run_bind_fault. unfold arr_get.
    assert (Hu : uwrap 16 (ev_filter ev - 64) = ev_filter ev - 64 + 2 ^ 16).
    { unfold uwrap. symmetry. apply Z.mod_unique with (-1); lia. }
    rewrite Hu, bool_decide_true by lia. rewrite lookup_ge_None_2; [done|].
    rewrite Hlen. unfold KNOTE_HASH_SZ. lia.
Qed.

Lemma get_knote_overrun_witness :
  get_knote 5 (mkKevent 0x800000 EVFILT_MSGPORT EV_ADD 0 0) fs_queue = Fault.
Proof.
  apply (get_knote_overrun 5 (mkKevent 0x800000 EVFILT_MSGPORT EV_ADD 0 0) fs_queue); [reflexivity|split; reflexivity|].
  cbn. lia.
Defined.
