(* ===== verification/Msg.v ===== *)
(** * Messages

    The model of kernel/fs/msg.c: the messages the kernel sends to file system
    and driver servers, the backlog that numbers them, and the system calls by
    which a server receives, reads, writes and answers them.  Sizes and offsets
    are below 2{^31}, where C's mix of [int] and [size_t] is that of Z. *)

From S2P Require Import Prelude Bytes Lists Page Fs Filp Vnode Kqueue.

Definition MAX_MSG_BACKLOG := 32.

(** ** The backlog of a message port

    [backlog] is [&sb->msgbacklog].  [msgid_t] is a [uint32_t]. *)

Definition upd_backlog (sb : Z) (g : MsgBacklog -> MsgBacklog) : M unit :=
  upd_sb sb (fun b => b <| sb_msgbacklog := g (sb_msgbacklog b) |>).
Definition get_backlog (sb : Z) : M MsgBacklog := b ← deref superblocks sb; mret (sb_msgbacklog b).

(** [1 << t], defined for less than 32. *)
Definition bit (t : Z) : M Z := if bool_decide (0 <= t < 32) then mret (Z.shiftl 1 t) else fault.

Fixpoint set_bits (n : nat) (t sb : Z) : M unit :=
  match n with
  | O => mret ()
  | S n =>
      b ← bit t;
      upd_backlog sb (fun bl => bl <| free_bitmap := Z.lor (free_bitmap bl) b |>);;
      set_bits n (t + 1) sb
  end.

Definition init_msgbacklog (sb sz : Z) : M Z :=
  upd_backlog sb (fun bl => bl <| backlog_sz := sz |> <| free_bitmap := 0 |>);;
  set_bits (Z.to_nat sz) 0 sb;;
  upd_backlog sb (fun bl => bl <| bl_msg := replicate (Z.to_nat MAX_MSG_BACKLOG) 0 |>);;
  mret 0.

(** Index -1 is the word before the array, [free_bitmap]. *)
Definition assign_msgid (sb msgid msg : Z) : M unit :=
  if bool_decide (msgid = u32 (-1)) then upd_backlog sb (fun bl => bl <| free_bitmap := msg |>)
  else
    bl ← get_backlog sb;
    l ← arr_set msgid msg (bl_msg bl);
    upd_backlog sb (fun bl => bl <| bl_msg := l |>).

Definition msgid_to_msg (sb msgid : Z) : M Z :=
  bl ← get_backlog sb;
  if bool_decide (msgid < 0 \/ msgid >= u32 (backlog_sz bl)) then mret 0
  else
    b ← bit msgid;
    if bool_decide (Z.land (free_bitmap bl) b <> 0) then mret 0 else arr_get (bl_msg bl) msgid.

Fixpoint alloc_msgid_loop (n : nat) (t sb : Z) : M Z :=
  match n with
  | O => mret (u32 (-1))
  | S n =>
      bl ← get_backlog sb;
      b ← bit t;
      if bool_decide (Z.land (free_bitmap bl) b <> 0) then
        upd_backlog sb (fun bl => bl <| free_bitmap := Z.ldiff (free_bitmap bl) b |>);;
        mret t
      else alloc_msgid_loop n (t + 1) sb
  end.

Definition alloc_msgid (sb : Z) : M Z :=
  bl ← get_backlog sb;
  if bool_decide (free_bitmap bl = 0) then mret (u32 (-1))
  else alloc_msgid_loop (Z.to_nat (backlog_sz bl)) 0 sb.

Definition free_msgid (sb msgid : Z) : M unit :=
  bl ← get_backlog sb;
  if bool_decide (msgid < 0 \/ msgid >= u32 (backlog_sz bl)) then mret ()
  else
    b ← bit msgid;
    l ← arr_set msgid 0 (bl_msg bl);
    upd_backlog sb (fun bl => bl <| free_bitmap := Z.lor (free_bitmap bl) b |> <| bl_msg := l |>).

(** ** Message ports *)

Definition init_msgport (p : port) : M Z := upd_port p (fun _ => mkMsgPort [] [] 0);; mret 0.
Definition fini_msgport (p : port) : M Z := mret 0.

Definition kputmsg (p : port) (msg : Z) : M Z :=
  upd_msg msg (fun m => m <| msg_port := Some p |>);;
  l ← gets (fun s => pending_msg_list (msgports s p));
  l ← lift (Seq.add_tail msg l);
  upd_port p (fun m => m <| pending_msg_list := l |>);;
  l ← gets (fun s => mp_knote_list (msgports s p));
  knote l NOTE_MSG;;
  mret 0.

(** A NULL [reply_port] faults. *)
Definition kreplymsg (msg : Z) : M Z :=
  m ← deref msgs msg;
  p ← lift (reply_port m);
  upd_msg msg (fun m => m <| msg_port := Some p |>);;
  l ← gets (fun s => pending_msg_list (msgports s p));
  l ← lift (Seq.add_tail msg l);
  upd_port p (fun m => m <| pending_msg_list := l |>);;
  wakeup (RPort p);;
  mret 0.

Definition kgetmsg (p : port) : M Z :=
  l ← gets (fun s => pending_msg_list (msgports s p));
  match l with
  | [] => mret 0
  | msg :: l => upd_port p (fun m => m <| pending_msg_list := l |>);; mret msg
  end.

(** Without a timeout, as every caller of [kwaitport] has it. *)
Definition kwaitport (p : port) : M Z :=
  l ← gets (fun s => pending_msg_list (msgports s p));
  sleep_while (bool_decide (l = [])) (RPort p);;
  mret 0.

(** [ksendmsg] up to its wait, and from it; [msg] is the address of its local
    message. *)
Definition ksendmsg_put (proc : Z) (p : port) (msg : Z) (si ri : list IOV) : M unit :=
  upd_msg msg (fun m => m
    <| reply_port := Some (ReplyPort proc) |> <| siov_cnt := Z.of_nat (length si) |> <| siov := si |>
    <| riov_cnt := Z.of_nat (length ri) |> <| riov := ri |> <| reply_status := 0 |>);;
  kputmsg p msg;;
  mret ().

Definition ksendmsg_wait (proc msg : Z) : M Z :=
  kwaitport (ReplyPort proc);;
  kgetmsg (ReplyPort proc);;
  m ← deref msgs msg;
  mret (reply_status m).

Definition ksendmsg (proc : Z) (p : port) (msg : Z) (si ri : list IOV) : M Z :=
  ksendmsg_put proc p msg si ri;;
  ksendmsg_wait proc msg.

(** ** Multi-part messages *)

(** The position [(i, iov_remaining)] of [offset], [None] for -EINVAL. *)
Fixpoint seekiov (iov : list IOV) (base_offset offset : Z) (i : nat) : option (nat * Z) :=
  match iov with
  | [] => None
  | v :: iov =>
      if bool_decide (offset >= base_offset /\ offset < base_offset + iov_size v)
      then Some (i, base_offset + iov_size v - offset)
      else seekiov iov (base_offset + iov_size v) offset (S i)
  end.

(** The size of the next part; past the last one the code reads a size it
    does not use. *)
Definition next_size (iov : list IOV) : Z := match iov with v :: _ => iov_size v | [] => 0 end.

(** The loops of sys_readmsg and sys_writemsg over the parts from the current
    one, of which [iov_remaining] bytes are left, with [n] bytes done. *)
Fixpoint read_parts (iov : list IOV) (iov_remaining addr buf_sz n : Z) : M Z :=
  match iov with
  | [] => mret n
  | v :: iov =>
      if bool_decide (n < buf_sz) then
        let k := if bool_decide (buf_sz - n < iov_remaining) then buf_sz - n else iov_remaining in
        CopyOut (addr + n) (iov_addr v + iov_size v - iov_remaining) k;;
        read_parts iov (next_size iov) addr buf_sz (n + k)
      else mret n
  end.

Fixpoint write_parts (iov : list IOV) (iov_remaining addr buf_sz n : Z) : M Z :=
  match iov with
  | [] => mret n
  | v :: iov =>
      if bool_decide (n < buf_sz) then
        let k := if bool_decide (iov_remaining < buf_sz - n) then iov_remaining else buf_sz - n in
        sc ← CopyIn (iov_addr v + iov_size v - iov_remaining) (addr + n) k;
        if bool_decide (sc <> 0) then mret n
        else write_parts iov (next_size iov) addr buf_sz (n + k)
      else mret n
  end.

(** ** System calls *)

(** The results of the copies are not checked. *)
Definition sys_getmsg (proc fd umsgid addr buf_sz : Z) : M Z :=
  sb ← get_superblock proc fd;
  if bool_decide (sb = 0) then mret (- EINVAL)
  else
    msgid ← alloc_msgid sb;
    if bool_decide (msgid < 0) then mret (- EAGAIN)
    else
      msg ← kgetmsg (SbPort sb);
      if bool_decide (msg = 0) then free_msgid sb msgid;; mret 0
      else
        assign_msgid sb msgid msg;;
        copyout_bytes umsgid (word_bytes msgid);;
        m ← deref msgs msg;
        read_parts (siov m) (next_size (siov m)) addr buf_sz 0.

(** [bdflush_brelse] of cache.c, for the messages of delayed writes, which have
    no reply port, is an argument. *)
Definition sys_replymsg (bdflush_brelse : Z -> M unit) (proc fd msgid status addr buf_sz : Z) : M Z :=
  sb ← get_superblock proc fd;
  if bool_decide (sb = 0) then mret (- EINVAL)
  else
    msg ← msgid_to_msg sb msgid;
    if bool_decide (msg = 0) then mret (- EINVAL)
    else
      upd_msg msg (fun m => m <| reply_status := status |>);;
      m ← deref msgs msg;
      write_parts (riov m) (next_size (riov m)) addr buf_sz 0;;
      (match reply_port m with Some _ => kreplymsg msg;; mret () | None => bdflush_brelse msg end);;
      free_msgid sb msgid;;
      mret 0.

Definition sys_readmsg (proc fd msgid addr buf_sz offset : Z) : M Z :=
  sb ← get_superblock proc fd;
  if bool_decide (sb = 0) then mret (- EINVAL)
  else
    msg ← msgid_to_msg sb msgid;
    if bool_decide (msg = 0) then mret (- EINVAL)
    else
      m ← deref msgs msg;
      if bool_decide (siov m = []) then mret 0
      else
        match seekiov (siov m) 0 offset 0 with
        | None => mret (- EINVAL)
        | Some (i, rem) => read_parts (drop i (siov m)) rem addr buf_sz 0
        end.

Definition sys_writemsg (proc fd msgid addr buf_sz offset : Z) : M Z :=
  sb ← get_superblock proc fd;
  if bool_decide (sb = 0) then mret (- EINVAL)
  else
    msg ← msgid_to_msg sb msgid;
    if bool_decide (msg = 0) then mret (- EINVAL)
    else
      m ← deref msgs msg;
      if bool_decide (riov m = []) then mret 0
      else
        match seekiov (riov m) 0 offset 0 with
        | None => mret (- EINVAL)
        | Some (i, rem) => write_parts (drop i (riov m)) rem addr buf_sz 0
        end.

Definition sys_sendrec (fd : Z) (si ri : list IOV) : M Z := mret (- ENOSYS).

Definition sys_knotei (proc fd ino_nr hint : Z) : M Z :=
  sb ← get_superblock proc fd;
  if bool_decide (sb = 0) then mret (- EINVAL)
  else
    vnode ← vnode_get sb ino_nr;
    if bool_decide (vnode = 0) then mret (- EINVAL)
    else
      v ← deref vnodes vnode;
      knote (v_knote_list v) hint;;
      vnode_put vnode;;
      mret 0.

Lemma read_parts_total l rem addr buf_sz n s : exists r m, read_parts l rem addr buf_sz n s = Ret r (s <| umem := m |>).
Proof.
  revert rem n s. induction l as [|v l IH]; intros rem n s; cbn [read_parts]; [exists n, (umem s); by destruct s|].
  case_bool_decide; [|exists n, (umem s); by destruct s]. cbv zeta.
  match goal with |- context [CopyOut ?d ?a ?k] => destruct (copyout_total (Z.to_nat k) d a s) as (r & m & E) end.
  unfold CopyOut. rewrite (run_bind _ _ _ _ _ E).
  match goal with |- context [read_parts l ?x addr buf_sz ?y] => destruct (IH x y (s <| umem := m |>)) as (r' & m' & E') end.
  exists r', m'. exact E'.
Qed.

Lemma write_parts_total l rem addr buf_sz n s : exists r m, write_parts l rem addr buf_sz n s = Ret r (s <| fmem := m |>).
Proof.
  revert rem n s. induction l as [|v l IH]; intros rem n s; cbn [write_parts]; [exists n, (fmem s); by destruct s|].
  case_bool_decide; [|exists n, (fmem s); by destruct s]. cbv zeta.
  match goal with |- context [CopyIn ?d ?a ?k] => destruct (copyin_total (Z.to_nat k) d a s) as (r & m & E) end.
  unfold CopyIn. rewrite (run_bind _ _ _ _ _ E). cbv beta.
  destruct (bool_decide (r <> 0)); [exists n, m; reflexivity|].
  match goal with |- context [write_parts l ?x addr buf_sz ?y] => destruct (IH x y (s <| fmem := m |>)) as (r' & m' & E') end.
  exists r', m'. exact E'.
Qed.

(** ** The bytes of a message *)

Definition msg_bytes (m : Z -> Z) (l : list IOV) : list Z := concat (map (fun v => mem_bytes m (iov_addr v) (iov_size v)) l).
(** The bytes from the current position on. *)
Definition rest_bytes (m : Z -> Z) (l : list IOV) (rem : Z) : list Z :=
  match l with
  | [] => []
  | v :: l => mem_bytes m (iov_addr v + iov_size v - rem) rem ++ msg_bytes m l
  end.

Lemma rest_bytes_next m l : rest_bytes m l (next_size l) = msg_bytes m l.
Proof. destruct l as [|v l]; [done|]. cbn. do 2 f_equal. lia. Qed.

Lemma read_parts_ok l rem addr buf_sz n s :
  (forall v, v ∈ l -> 0 <= iov_size v) -> 0 <= rem -> n <= buf_sz ->
  (forall a, addr <= a < addr + buf_sz -> uvalid s a = true) -> 0 <= n ->
  let data := rest_bytes (kmem (fmem s)) l rem in
  let k := Z.min (buf_sz - n) (Z.of_nat (length data)) in
  exists m, read_parts l rem addr buf_sz n s = Ret (n + k) (s <| umem := m |>) /\
    (forall i, 0 <= i < k -> data !! Z.to_nat i = Some (m (addr + n + i))) /\
    forall a, ~ (addr + n <= a < addr + n + k) -> m a = umem s a.
Proof.
  revert rem n s. induction l as [|v l IH]; intros rem n s Hsz Hrem Hn Hv H0 data k.
  { exists (umem s). subst k data. cbn. rewrite Z.min_r by lia. split; [rewrite Z.add_0_r; by destruct s|]. split; [lia|done]. }
  cbn [read_parts]. destruct (decide (n < buf_sz)) as [Hlt|Hge].
  2: { exists (umem s). rewrite bool_decide_false by done. subst k. rewrite Z.min_l by lia.
       split; [replace (n + (buf_sz - n)) with n by lia; by destruct s|]. split; [lia|done]. }
  rewrite bool_decide_true by done. cbv zeta.
  set (j := if bool_decide (buf_sz - n < rem) then buf_sz - n else rem).
  assert (Hj : j = Z.min (buf_sz - n) rem) by (subst j; case_bool_decide; lia). clearbody j.
  destruct (copyout_ok (Z.to_nat j) (addr + n) (iov_addr v + iov_size v - rem) s) as (m1 & E1 & H1).
  { intros a Ha. apply Hv. lia. }
  unfold CopyOut. rewrite (run_bind _ _ _ _ _ E1).
  assert (Hns : 0 <= next_size l) by (destruct l as [|w l']; cbn; [lia|apply Hsz; set_solver]).
  destruct (IH (next_size l) (n + j) (s <| umem := m1 |>)) as (m & E & Hd & Ho); try done; try lia.
  { intros w Hw. apply Hsz. set_solver. }
  rewrite rest_bytes_next in E, Hd, Ho. change (fmem (s <| umem := m1 |>)) with (fmem s) in E, Hd, Ho.
  change (umem (s <| umem := m1 |>)) with m1 in Ho.
  assert (Hlen : Z.of_nat (length data) = rem + Z.of_nat (length (msg_bytes (kmem (fmem s)) l))).
  { subst data. cbn. rewrite length_app, Nat2Z.inj_add, mem_bytes_length by done. done. }
  set (k' := Z.min (buf_sz - (n + j)) (Z.of_nat (length (msg_bytes (kmem (fmem s)) l)))) in *.
  assert (Hk : k = j + k') by (subst k k'; rewrite Hlen; lia).
  exists m. split; [rewrite Hk, Z.add_assoc; exact E|]. split.
  - intros i Hi. subst data. cbn [rest_bytes]. destruct (decide (i < j)) as [Hij|Hij].
    + rewrite lookup_app_l by (apply Nat2Z.inj_lt; rewrite mem_bytes_length by done; lia).
      rewrite mem_bytes_lookup by lia. rewrite Ho by lia. rewrite H1, bool_decide_true by lia. do 2 f_equal. lia.
    + assert (Hjr : j = rem) by lia.
      rewrite lookup_app_r by (apply Nat2Z.inj_le; rewrite mem_bytes_length by done; lia).
      replace (Z.to_nat i - length (mem_bytes (kmem (fmem s)) (iov_addr v + iov_size v - rem) rem))%nat
        with (Z.to_nat (i - j)) by (apply Nat2Z.inj; rewrite Nat2Z.inj_sub, mem_bytes_length by
          (try done; apply Nat2Z.inj_le; rewrite mem_bytes_length by done; lia); lia).
      rewrite Hd by lia. do 2 f_equal. lia.
  - intros a Ha. rewrite Ho by lia. rewrite H1, bool_decide_false by lia. done.
Qed.

(** The position [seekiov] finds is that of the byte at [offset]; it finds none
    when the message has no such byte. *)
Lemma seekiov_ok m l base offset i :
  (forall v, v ∈ l -> 0 <= iov_size v) ->
  match seekiov l base offset i with
  | Some (j, rem) => (i <= j)%nat /\ base <= offset /\ 0 < rem /\ (j - i < length l)%nat /\
      drop (Z.to_nat (offset - base)) (msg_bytes m l) = rest_bytes m (drop (j - i) l) rem
  | None => offset < base \/ base + Z.of_nat (length (msg_bytes m l)) <= offset
  end.
Proof.
  revert base i. induction l as [|v l IH]; intros base i Hsz; cbn [seekiov]; [cbn; lia|].
  assert (Hv : 0 <= iov_size v) by (apply Hsz; set_solver).
  assert (Hlen : Z.of_nat (length (mem_bytes m (iov_addr v) (iov_size v))) = iov_size v) by (by apply mem_bytes_length).
  case_bool_decide as Ho.
  - split; [lia|]. split; [lia|]. split; [lia|]. split; [cbn; lia|].
    rewrite Nat.sub_diag, drop_0. cbn [msg_bytes rest_bytes map concat].
    unfold msg_bytes at 1. cbn [map concat]. rewrite drop_app_le by (apply Nat2Z.inj_le; lia). f_equal.
    rewrite mem_bytes_drop by lia. f_equal; lia.
  - specialize (IH (base + iov_size v) (S i) ltac:(intros w Hw; apply Hsz; set_solver)).
    destruct (seekiov l (base + iov_size v) offset (S i)) as [[j rem]|].
    + destruct IH as (H1 & H2 & H3 & H4 & H5). split; [lia|]. split; [lia|]. split; [done|]. split; [cbn; lia|].
      replace (j - i)%nat with (S (j - S i)) by lia. cbn [drop]. rewrite <- H5.
      unfold msg_bytes at 1. cbn [map concat]. rewrite drop_app_ge by (apply Nat2Z.inj_le; lia).
      f_equal. apply Nat2Z.inj. rewrite Nat2Z.inj_sub by (apply Nat2Z.inj_le; lia). lia.
    + unfold msg_bytes in *. cbn [map concat]. rewrite length_app, Nat2Z.inj_add, Hlen. lia.
Qed.

(** ** The numbers of messages *)

Lemma run_get_superblock proc fd s sb :
  fproc s proc <> 0 -> 0 <= fd < OPEN_MAX -> fd_filp s proc fd <> 0 ->
  f_type (filps s (fd_filp s proc fd)) = FILP_TYPE_SUPERBLOCK -> f_u (filps s (fd_filp s proc fd)) = sb ->
  get_superblock proc fd s = Ret sb s.
Proof.
  intros Hp Hfd Hf Ht <-. unfold get_superblock. rewrite (run_bind _ _ _ _ _ (run_get_filp _ _ _ Hp Hfd)).
  rewrite bool_decide_false by done. rewrite (run_bind _ _ _ _ _ (run_deref _ _ _ Hf)).
  by rewrite bool_decide_false by (intros H; by apply H).
Qed.

(** [id] is the number of the message at [msg] in the backlog of [sb]. *)
Definition numbered (s : fs) (sb id msg : Z) : Prop :=
  let bl := sb_msgbacklog (superblocks s sb) in
  0 <= id < backlog_sz bl /\ backlog_sz bl <= MAX_MSG_BACKLOG /\ Z.testbit (free_bitmap bl) id = false /\
  bl_msg bl !! Z.to_nat id = Some msg /\ msg <> 0.

Lemma land_bit_zero x t : 0 <= t -> (Z.land x (Z.shiftl 1 t) = 0 <-> Z.testbit x t = false).
Proof.
  intros Ht. split.
  - intros H. apply (f_equal (fun y => Z.testbit y t)) in H. rewrite Z.land_spec, Z.bits_0 in H.
    rewrite Z.shiftl_spec in H by done. rewrite Z.sub_diag in H. by rewrite andb_true_r in H.
  - intros H. apply Z.bits_inj'. intros n Hn. rewrite Z.land_spec, Z.bits_0, Z.shiftl_1_l.
    destruct (decide (n = t)) as [->|Hne]; [by rewrite H|]. rewrite Z.pow2_bits_false by done. apply andb_false_r.
Qed.

Lemma run_bit t s : 0 <= t < 32 -> bit t s = Ret (Z.shiftl 1 t) s.
Proof. intros Ht. unfold bit. by rewrite bool_decide_true. Qed.

Lemma run_get_backlog sb s : sb <> 0 -> get_backlog sb s = Ret (sb_msgbacklog (superblocks s sb)) s.
Proof. intros Hs. unfold get_backlog. by rewrite (run_bind _ _ _ _ _ (run_deref _ _ _ Hs)). Qed.

Lemma run_msgid_to_msg sb id msg s : sb <> 0 -> numbered s sb id msg -> msgid_to_msg sb id s = Ret msg s.
Proof.
  unfold numbered, MAX_MSG_BACKLOG. cbv zeta. intros Hs (Hid & Hsz & Hb & Hm & Hm0). unfold msgid_to_msg.
  rewrite (run_bind _ _ _ _ _ (run_get_backlog _ _ Hs)). rewrite uwrap_small by lia. rewrite bool_decide_false by lia.
  rewrite (run_bind _ _ _ _ _ (run_bit id s ltac:(lia))). rewrite bool_decide_false.
  - apply run_arr_get; [lia|done].
  - intros H. apply H. by apply land_bit_zero; [lia|].
Qed.

(** C15. [sys_readmsg] returns, from the offset asked for, the bytes of the parts
    of the message put end to end, as many as the buffer holds: it copies
    exactly these to the buffer and nothing elsewhere, whatever the boundaries
    of the parts, and fails with -EINVAL when the message, which has parts, has
    no byte at the offset. *)
Theorem sys_readmsg_correct proc fd sb id msg addr buf_sz offset s :
  let filp := fd_filp s proc fd in
  fproc s proc <> 0 -> 0 <= fd < OPEN_MAX -> filp <> 0 -> f_type (filps s filp) = FILP_TYPE_SUPERBLOCK ->
  f_u (filps s filp) = sb -> sb <> 0 -> numbered s sb id msg ->
  siov (msgs s msg) <> [] -> (forall v, v ∈ siov (msgs s msg) -> 0 <= iov_size v) -> 0 <= buf_sz ->
  (forall a, addr <= a < addr + buf_sz -> uvalid s a = true) ->
  let bytes := msg_bytes (kmem (fmem s)) (siov (msgs s msg)) in
  let data := take (Z.to_nat buf_sz) (drop (Z.to_nat offset) bytes) in
  if bool_decide (0 <= offset < Z.of_nat (length bytes)) then
    exists m, sys_readmsg proc fd id addr buf_sz offset s = Ret (Z.of_nat (length data)) (s <| umem := m |>) /\
      (forall i, 0 <= i < Z.of_nat (length data) -> data !! Z.to_nat i = Some (m (addr + i))) /\
      forall a, ~ (addr <= a < addr + Z.of_nat (length data)) -> m a = umem s a
  else sys_readmsg proc fd id addr buf_sz offset s = Ret (- EINVAL) s.
Proof.
  intros filp Hp Hfd Hf Ht Hu Hs Hid Hne Hsz Hbuf Hv bytes data.
  assert (Hrun : sys_readmsg proc fd id addr buf_sz offset s =
    match seekiov (siov (msgs s msg)) 0 offset 0 with
    | None => mret (- EINVAL)
    | Some (i, rem) => read_parts (drop i (siov (msgs s msg))) rem addr buf_sz 0
    end s).
  { unfold sys_readmsg. rewrite (run_bind _ _ _ _ _ (run_get_superblock _ _ _ _ Hp Hfd Hf Ht Hu)), bool_decide_false by done.
    rewrite (run_bind _ _ _ _ _ (run_msgid_to_msg _ _ _ _ Hs Hid)). destruct Hid as (_ & _ & _ & _ & Hm0).
    rewrite bool_decide_false by done. rewrite (run_bind _ _ _ _ _ (run_deref _ _ _ Hm0)). by rewrite bool_decide_false. }
  rewrite Hrun. pose proof (seekiov_ok (kmem (fmem s)) (siov (msgs s msg)) 0 offset 0 Hsz) as Hseek.
  destruct (seekiov (siov (msgs s msg)) 0 offset 0) as [[i rem]|].
  - destruct Hseek as (_ & H0 & Hr & Hlt & Hd). rewrite Nat.sub_0_r in *. rewrite Z.sub_0_r in Hd. fold bytes in Hd.
    assert (Hlen : (Z.to_nat offset < length bytes)%nat).
    { destruct (decide (Z.to_nat offset < length bytes)%nat) as [|Hge]; [done|exfalso].
      rewrite drop_ge in Hd by lia. destruct (drop i (siov (msgs s msg))) as [|v l] eqn:El.
      - apply (f_equal length) in El. rewrite length_drop in El. cbn in El. lia.
      - cbn in Hd. symmetry in Hd. apply app_eq_nil in Hd as [Hd _].
        apply (f_equal (fun l => Z.of_nat (length l))) in Hd. rewrite mem_bytes_length in Hd by lia. cbn in Hd. lia. }
    rewrite bool_decide_true by lia.
    destruct (read_parts_ok (drop i (siov (msgs s msg))) rem addr buf_sz 0 s) as (m & E & Hm & Ho); try done; try lia.
    { intros v Hvin. apply Hsz. rewrite <- (take_drop i). apply elem_of_app. by right. }
    rewrite <- Hd in E, Hm, Ho. rewrite Z.sub_0_r, ?Z.add_0_l, ?Z.add_0_r in *.
    assert (Hk : Z.of_nat (length data) = Z.min buf_sz (Z.of_nat (length (drop (Z.to_nat offset) bytes)))).
    { subst data. rewrite length_take. lia. }
    rewrite <- Hk in E, Hm, Ho. exists m. split; [exact E|]. split; [|exact Ho].
    intros j Hj. rewrite <- (Hm j Hj). subst data. apply lookup_take_lt. rewrite length_take in Hj. lia.
  - fold bytes in Hseek. rewrite bool_decide_false by lia. reflexivity.
Qed.

(** A server with the port of superblock 2 on descriptor 3; the message at 300,
    of two parts, has number 0. *)
Definition fs_msg : fs :=
  let s := table_of (fun i => if bool_decide (i = 3) then 7 else 0) 8 fs0 in
  s <| fmem := fmem s <| kmem := fun a => if bool_decide (a < 4096) then a else kmem (fmem s) a |> |>
    <| filps := fun _ => mkFilp FILP_TYPE_SUPERBLOCK 2 0 0 1 |>
    <| superblocks := fun _ => mkSuperBlock false 0 (mkMsgBacklog 4 14 (300 :: replicate 31 0)) 0 0 1 None 0 |>
    <| msgs := fun _ => mkMsg None None 0 2 [mkIOV 1000 2; mkIOV 2000 3] 0 [] |>.

Lemma sys_readmsg_correct_witness :
  exists m, sys_readmsg 1 3 0 50 3 1 fs_msg = Ret 3 (fs_msg <| umem := m |>) /\ m 50 = 1001 /\ m 51 = 2000 /\ m 52 = 2001.
Proof.
  assert (Hn : numbered fs_msg 2 0 300).
  { split; [split; [lia|reflexivity]|]. split; [intros H; discriminate H|]. split; [reflexivity|].
    split; [reflexivity|intros H; discriminate H]. }
  assert (Hsz : forall v, v ∈ siov (msgs fs_msg 300) -> 0 <= iov_size v).
  { apply Forall_forall. cbn. apply Forall_cons_2; [cbn; lia|]. apply Forall_cons_2; [cbn; lia|apply Forall_nil_2]. }
  pose proof (sys_readmsg_correct 1 3 2 0 300 50 3 1 fs_msg ltac:(intros H; discriminate H)
    ltac:(split; [lia|reflexivity]) ltac:(intros H; discriminate H) eq_refl eq_refl ltac:(lia) Hn
    ltac:(intros H; discriminate H)
    Hsz
    ltac:(lia) ltac:(intros; reflexivity)) as H.
  destruct H as (m & H1 & H2 & _). exists m. split; [exact H1|].
  pose proof (H2 0 ltac:(split; [lia|reflexivity])) as G0. pose proof (H2 1 ltac:(split; [lia|reflexivity])) as G1. pose proof (H2 2 ltac:(split; [lia|reflexivity])) as G2.
  split; [exact (eq_sym (f_equal (default 0) G0))|]. split; [exact (eq_sym (f_equal (default 0) G1))|].
  exact (eq_sym (f_equal (default 0) G2)).
Defined.

(** ** Allocating numbers *)

Definition set_backlog (sb : Z) (g : MsgBacklog -> MsgBacklog) (s : fs) : fs :=
  s <| superblocks := <[sb := superblocks s sb <| sb_msgbacklog := g (sb_msgbacklog (superblocks s sb)) |>]> (superblocks s) |>.

Lemma run_upd_backlog sb g s : sb <> 0 -> upd_backlog sb g s = Ret () (set_backlog sb g s).
Proof. intros Hs. unfold upd_backlog, upd_sb. by rewrite run_upd. Qed.

Lemma set_backlog_get sb g s : sb_msgbacklog (superblocks (set_backlog sb g s) sb) = g (sb_msgbacklog (superblocks s sb)).
Proof. unfold set_backlog. cbn. by rewrite fn_lookup_insert. Qed.

Lemma alloc_msgid_loop_ok n t0 t sb s :
  sb <> 0 -> 0 <= t0 -> t0 + Z.of_nat n <= 32 -> t0 <= t < t0 + Z.of_nat n ->
  Z.testbit (free_bitmap (sb_msgbacklog (superblocks s sb))) t = true ->
  exists id, t0 <= id <= t /\ Z.testbit (free_bitmap (sb_msgbacklog (superblocks s sb))) id = true /\
    alloc_msgid_loop n t0 sb s =
      Ret id (set_backlog sb (fun bl => bl <| free_bitmap := Z.ldiff (free_bitmap bl) (Z.shiftl 1 id) |>) s).
Proof.
  intros Hs. revert t0. induction n as [|n IH]; intros t0 H0 Hn Ht Hbit; [lia|]. cbn [alloc_msgid_loop].
  rewrite (run_bind _ _ _ _ _ (run_get_backlog _ _ Hs)), (run_bind _ _ _ _ _ (run_bit t0 s ltac:(lia))).
  destruct (Z.testbit (free_bitmap (sb_msgbacklog (superblocks s sb))) t0) eqn:E.
  - exists t0. split; [lia|]. split; [done|].
    rewrite bool_decide_true by (intros H; apply land_bit_zero in H; [congruence|lia]).
    by rewrite (run_bind _ _ _ _ _ (run_upd_backlog _ _ _ Hs)).
  - rewrite bool_decide_false by (intros H; apply H; by apply land_bit_zero; [lia|]).
    assert (t <> t0) by (intros ->; congruence).
    destruct (IH (t0 + 1) ltac:(lia) ltac:(lia) ltac:(lia) Hbit) as (id & Hid & Hb & E'). exists id.
    split; [lia|]. by split.
Qed.

Lemma alloc_msgid_ok t sb s :
  sb <> 0 -> backlog_sz (sb_msgbacklog (superblocks s sb)) <= 32 -> 0 <= t < backlog_sz (sb_msgbacklog (superblocks s sb)) ->
  Z.testbit (free_bitmap (sb_msgbacklog (superblocks s sb))) t = true ->
  exists id, 0 <= id <= t /\ Z.testbit (free_bitmap (sb_msgbacklog (superblocks s sb))) id = true /\
    alloc_msgid sb s =
      Ret id (set_backlog sb (fun bl => bl <| free_bitmap := Z.ldiff (free_bitmap bl) (Z.shiftl 1 id) |>) s).
Proof.
  intros Hs Hsz Ht Hbit. unfold alloc_msgid. rewrite (run_bind _ _ _ _ _ (run_get_backlog _ _ Hs)).
  rewrite bool_decide_false by (intros H; rewrite H, Z.bits_0 in Hbit; discriminate).
  destruct (alloc_msgid_loop_ok (Z.to_nat (backlog_sz (sb_msgbacklog (superblocks s sb)))) 0 t sb s) as (id & Hid & Hb & E);
    [done|lia..|done|]. exists id. split; [lia|]. by split.
Qed.

Lemma restore_bit x t : 0 <= t -> Z.testbit x t = true -> Z.lor (Z.ldiff x (Z.shiftl 1 t)) (Z.shiftl 1 t) = x.
Proof.
  intros Ht Hx. apply Z.bits_inj'. intros n Hn. rewrite Z.lor_spec, Z.ldiff_spec, Z.shiftl_1_l.
  destruct (decide (n = t)) as [->|Hne]; [by rewrite Z.pow2_bits_true, Hx, orb_true_r|].
  rewrite Z.pow2_bits_false by done. by rewrite orb_false_r, andb_true_r.
Qed.

(** ** Requests and replies *)

(** The state of a port with other pending messages. *)
Definition set_pending (p : port) (l : list Z) (s : fs) : fs :=
  s <| msgports := <[p := msgports s p <| pending_msg_list := l |>]> (msgports s) |>.

Lemma set_pending_get p l s : pending_msg_list (msgports (set_pending p l s) p) = l.
Proof. unfold set_pending. cbn. by rewrite fn_lookup_insert. Qed.

Lemma set_pending_ne p q l s : p <> q -> msgports (set_pending p l s) q = msgports s q.
Proof. intros. unfold set_pending. cbn. by rewrite fn_lookup_insert_ne. Qed.

Lemma run_kgetmsg p msg l s :
  pending_msg_list (msgports s p) = msg :: l -> kgetmsg p s = Ret msg (set_pending p l s).
Proof. intros E. unfold kgetmsg. rewrite (run_bind _ _ _ _ _ (run_gets _ _)), E. reflexivity. Qed.

(** The notes of a port can be raised. *)
Definition notes_ok (p : port) (s : fs) : Prop :=
  pending_inv s /\ NoDup (mp_knote_list (msgports s p)) /\
  forall n, n ∈ mp_knote_list (msgports s p) -> n <> 0 /\ kn_kqueue (knotes s n) <> 0.

(** [s] and [s'] differ at most in what raising events changes. *)
Definition same_but_notes (s s' : fs) : Prop :=
  s' = s <| knotes := knotes s' |> <| kqueues := kqueues s' |> <| woken := woken s' |>.

Lemma run_kputmsg p msg s :
  msg <> 0 -> msg ∉ pending_msg_list (msgports s p) -> notes_ok p s ->
  exists s', kputmsg p msg s = Ret 0 s' /\
    same_but_notes (set_pending p (pending_msg_list (msgports s p) ++ [msg])
      (s <| msgs := <[msg := msgs s msg <| msg_port := Some p |>]> (msgs s) |>)) s' /\
    forall q, notes_ok q s -> notes_ok q s'.
Proof.
  intros Hm Hfresh (P & Hnd & Hn). unfold kputmsg, upd_msg. rewrite (run_bind _ _ _ _ _ (run_upd _ _ _ _ _ Hm)).
  cbv beta. set (s1 := s <| msgs := _ |>). rewrite (run_bind _ _ _ _ _ (run_gets _ _)).
  rewrite Seq.add_tail_fresh by exact Hfresh. cbn [lift]. rewrite (run_bind _ _ _ _ _ (run_ret _ _)).
  unfold upd_port, modify. erewrite run_bind by reflexivity. cbv beta. rewrite (run_bind _ _ _ _ _ (run_gets _ _)).
  set (s2 := set_pending p (pending_msg_list (msgports s p) ++ [msg]) s1).
  match goal with |- context [(knote ?l NOTE_MSG ≫= ?k) ?x] => change ((knote l NOTE_MSG ≫= k) x) with
    ((knote (mp_knote_list (msgports s2 p)) NOTE_MSG ≫= k) s2) end.
  assert (El : mp_knote_list (msgports s2 p) = mp_knote_list (msgports s p)) by (subst s2; cbn; by rewrite fn_lookup_insert).
  destruct (knote_ok NOTE_MSG (mp_knote_list (msgports s2 p)) s2) as (s' & E & K & P').
  - by apply (pending_inv_ext s).
  - by rewrite El.
  - rewrite El. exact Hn.
  - exists s'. split; [by rewrite (run_bind _ _ _ _ _ E)|]. split; [exact (kd_rest _ _ _ _ K)|].
    intros q (_ & Hq & Hk). assert (Eq : mp_knote_list (msgports s' q) = mp_knote_list (msgports s q)).
    { rewrite (kd_rest _ _ _ _ K). cbn. destruct (decide (q = p)) as [->|]; [by rewrite fn_lookup_insert|by rewrite fn_lookup_insert_ne]. }
    split; [exact P'|]. rewrite Eq. split; [exact Hq|]. intros n Hin. destruct (Hk n Hin) as [H0 H1]. split; [exact H0|].
    rewrite (kd_note _ _ _ _ K). case_bool_decide; exact H1.
Qed.

Lemma run_kreplymsg p msg s :
  msg <> 0 -> reply_port (msgs s msg) = Some p -> msg ∉ pending_msg_list (msgports s p) ->
  kreplymsg msg s = Ret 0 (set_pending p (pending_msg_list (msgports s p) ++ [msg])
    (s <| msgs := <[msg := msgs s msg <| msg_port := Some p |>]> (msgs s) |>) <| woken := woken s ++ [RPort p] |>).
Proof.
  intros Hm Hr Hfresh. unfold kreplymsg. rewrite (run_bind _ _ _ _ _ (run_deref _ _ _ Hm)), Hr. cbn [lift].
  rewrite (run_bind _ _ _ _ _ (run_ret _ _)). unfold upd_msg. rewrite (run_bind _ _ _ _ _ (run_upd _ _ _ _ _ Hm)).
  rewrite (run_bind _ _ _ _ _ (run_gets _ _)). rewrite Seq.add_tail_fresh by exact Hfresh. reflexivity.
Qed.

(** [ksendmsg] sends its message and sleeps until there is a reply. *)
Lemma run_ksendmsg client p msg si ri s :
  msg <> 0 -> p <> ReplyPort client -> msg ∉ pending_msg_list (msgports s p) -> notes_ok p s ->
  pending_msg_list (msgports s (ReplyPort client)) = [] ->
  exists s1, ksendmsg client p msg si ri s = Sleep (RPort (ReplyPort client)) s1 /\
    pending_msg_list (msgports s1 p) = pending_msg_list (msgports s p) ++ [msg] /\
    pending_msg_list (msgports s1 (ReplyPort client)) = [] /\ reply_port (msgs s1 msg) = Some (ReplyPort client) /\
    fmem s1 = fmem s /\ fproc s1 = fproc s /\ filps s1 = filps s /\ superblocks s1 = superblocks s.
Proof.
  intros Hm Hp Hfresh Hn Hrep. unfold ksendmsg.
  set (m := msgs s msg <| reply_port := Some (ReplyPort client) |> <| siov_cnt := Z.of_nat (length si) |> <| siov := si |>
    <| riov_cnt := Z.of_nat (length ri) |> <| riov := ri |> <| reply_status := 0 |>).
  set (s0 := s <| msgs := <[msg := m]> (msgs s) |>).
  destruct (run_kputmsg p msg s0 Hm Hfresh) as (s1 & E1 & R1 & _).
  { destruct Hn as (P & H1 & H2). split; [by apply (pending_inv_ext s)|]. by split. }
  set (s2 := set_pending p _ _) in R1. unfold same_but_notes in R1.
  assert (Hport : forall q, msgports s1 q = msgports s2 q) by (intros q; by rewrite R1).
  assert (Hempty : pending_msg_list (msgports s1 (ReplyPort client)) = []).
  { rewrite Hport. subst s2. by rewrite set_pending_ne. }
  exists s1. split.
  - assert (Eput : ksendmsg_put client p msg si ri s = Ret () s1).
    { unfold ksendmsg_put, upd_msg. rewrite (run_bind _ _ _ _ _ (run_upd _ _ _ _ _ Hm)). by rewrite (run_bind _ _ s0 _ _ E1). }
    rewrite (run_bind _ _ _ _ _ Eput).
    unfold ksendmsg_wait, kwaitport. apply run_bind_sleep. rewrite (run_bind _ _ _ _ _ (run_gets _ _)), Hempty. reflexivity.
  - split; [rewrite Hport; subst s2; apply set_pending_get|]. split; [exact Hempty|].
    split; [rewrite R1; subst s2; cbn; by rewrite !fn_lookup_insert|].
    by rewrite R1.
Qed.

(** The state in which [sys_getmsg] has taken the message and numbered it. *)
Definition msg_taken (sb id msg : Z) (l : list Z) (s : fs) : fs :=
  set_backlog sb (fun bl => bl <| bl_msg := <[Z.to_nat id := msg]> (bl_msg bl) |>) (set_pending (SbPort sb) l
    (set_backlog sb (fun bl => bl <| free_bitmap := Z.ldiff (free_bitmap bl) (Z.shiftl 1 id) |>) s)).

(** [sys_getmsg] takes the first message of the port and gives it a number,
    before it copies the number and the message. *)
Lemma getmsg_taken server fd sb msg l umsgid addr buf_sz t s :
  get_superblock server fd s = Ret sb s -> sb <> 0 -> msg <> 0 ->
  pending_msg_list (msgports s (SbPort sb)) = msg :: l ->
  backlog_sz (sb_msgbacklog (superblocks s sb)) <= MAX_MSG_BACKLOG ->
  length (bl_msg (sb_msgbacklog (superblocks s sb))) = Z.to_nat MAX_MSG_BACKLOG ->
  0 <= t < backlog_sz (sb_msgbacklog (superblocks s sb)) ->
  Z.testbit (free_bitmap (sb_msgbacklog (superblocks s sb))) t = true ->
  exists id, 0 <= id <= t /\ Z.testbit (free_bitmap (sb_msgbacklog (superblocks s sb))) id = true /\
    sys_getmsg server fd umsgid addr buf_sz s =
      (copyout_bytes umsgid (word_bytes id);; m ← deref msgs msg;
       read_parts (siov m) (next_size (siov m)) addr buf_sz 0) (msg_taken sb id msg l s) /\
    numbered (msg_taken sb id msg l s) sb id msg.
Proof.
  unfold MAX_MSG_BACKLOG. intros Hsb Hs Hm Hl Hsz Hlen Ht Hbit.
  destruct (alloc_msgid_ok t sb s Hs Hsz Ht Hbit) as (id & Hid & Hb & Ea). exists id. split; [done|]. split; [done|].
  unfold msg_taken. set (s1 := set_backlog sb _ s) in *. set (s2 := set_pending (SbPort sb) l s1).
  assert (Hbl : bl_msg (sb_msgbacklog (superblocks s2 sb)) = bl_msg (sb_msgbacklog (superblocks s sb))).
  { change (superblocks s2) with (superblocks s1). subst s1. by rewrite set_backlog_get. }
  set (s3 := set_backlog sb (fun bl => bl <| bl_msg := <[Z.to_nat id := msg]> (bl_msg bl) |>) s2).
  assert (Eassign : assign_msgid sb id msg s2 = Ret () s3).
  { unfold assign_msgid. rewrite bool_decide_false by (change (u32 (-1)) with 4294967295; lia).
    rewrite (run_bind _ _ _ _ _ (run_get_backlog _ _ Hs)).
    rewrite (run_bind _ _ _ _ _ (run_arr_set (bl_msg (sb_msgbacklog (superblocks s2 sb))) id msg s2
      ltac:(rewrite Hbl, Hlen; lia))). by rewrite run_upd_backlog. }
  split.
  - unfold sys_getmsg. rewrite (run_bind _ _ _ _ _ Hsb), bool_decide_false by done.
    rewrite (run_bind _ _ _ _ _ Ea), bool_decide_false by lia.
    rewrite (run_bind _ _ _ _ _ (run_kgetmsg (SbPort sb) msg l s1 Hl)), bool_decide_false by done.
    fold s2. by rewrite (run_bind _ _ _ _ _ Eassign).
  - assert (Hfin : sb_msgbacklog (superblocks s3 sb) = sb_msgbacklog (superblocks s sb)
      <| free_bitmap := Z.ldiff (free_bitmap (sb_msgbacklog (superblocks s sb))) (Z.shiftl 1 id) |>
      <| bl_msg := <[Z.to_nat id := msg]> (bl_msg (sb_msgbacklog (superblocks s sb))) |>).
    { subst s3. rewrite set_backlog_get. change (superblocks s2) with (superblocks s1). subst s1. by rewrite set_backlog_get. }
    unfold numbered. rewrite Hfin. cbn. split; [lia|]. split; [unfold MAX_MSG_BACKLOG; lia|]. split.
    + rewrite Z.ldiff_spec, Z.shiftl_1_l, Z.pow2_bits_true by lia. apply andb_false_r.
    + split; [|done]. apply list_lookup_insert_eq. lia.
Qed.

(** Whatever can be copied. *)
Lemma run_sys_getmsg server fd sb msg l umsgid addr buf_sz t s :
  get_superblock server fd s = Ret sb s -> sb <> 0 -> msg <> 0 ->
  pending_msg_list (msgports s (SbPort sb)) = msg :: l ->
  backlog_sz (sb_msgbacklog (superblocks s sb)) <= MAX_MSG_BACKLOG ->
  length (bl_msg (sb_msgbacklog (superblocks s sb))) = Z.to_nat MAX_MSG_BACKLOG ->
  0 <= t < backlog_sz (sb_msgbacklog (superblocks s sb)) ->
  Z.testbit (free_bitmap (sb_msgbacklog (superblocks s sb))) t = true ->
  exists id n u, 0 <= id <= t /\ Z.testbit (free_bitmap (sb_msgbacklog (superblocks s sb))) id = true /\
    let s2 := msg_taken sb id msg l s <| umem := u |> in
    sys_getmsg server fd umsgid addr buf_sz s = Ret n s2 /\ numbered s2 sb id msg.
Proof.
  intros Hsb Hs Hm Hl Hsz Hlen Ht Hbit.
  destruct (getmsg_taken server fd sb msg l umsgid addr buf_sz t s Hsb Hs Hm Hl Hsz Hlen Ht Hbit) as (id & Hid & Hb & E & Hn).
  set (s3 := msg_taken sb id msg l s) in *.
  destruct (copyout_bytes_total (word_bytes id) umsgid s3) as (r1 & u1 & Ec).
  match type of Ec with _ = Ret _ ?x => set (s4 := x) in Ec end.
  destruct (read_parts_total (siov (msgs s4 msg)) (next_size (siov (msgs s4 msg))) addr buf_sz 0 s4) as (n & u & Er).
  exists id, n, u. split; [done|]. split; [done|]. split; [|exact Hn].
  rewrite E, (run_bind _ _ _ _ _ Ec), (run_bind _ _ _ _ _ (run_deref _ _ _ Hm)). exact Er.
Qed.

(** [sys_replymsg] hands a message back to the port it came from. *)
Lemma run_sys_replymsg bdflush_brelse server fd sb id msg p status addr buf_sz s :
  get_superblock server fd s = Ret sb s -> sb <> 0 -> numbered s sb id msg ->
  length (bl_msg (sb_msgbacklog (superblocks s sb))) = Z.to_nat MAX_MSG_BACKLOG ->
  reply_port (msgs s msg) = Some p -> msg ∉ pending_msg_list (msgports s p) ->
  exists s', sys_replymsg bdflush_brelse server fd id status addr buf_sz s = Ret 0 s' /\
    pending_msg_list (msgports s' p) = pending_msg_list (msgports s p) ++ [msg] /\
    reply_status (msgs s' msg) = status /\ woken s' = woken s ++ [RPort p] /\
    sb_msgbacklog (superblocks s' sb) = sb_msgbacklog (superblocks s sb)
      <| free_bitmap := Z.lor (free_bitmap (sb_msgbacklog (superblocks s sb))) (Z.shiftl 1 id) |>
      <| bl_msg := <[Z.to_nat id := 0]> (bl_msg (sb_msgbacklog (superblocks s sb))) |> /\
    (let s1 := s <| msgs := <[msg := msgs s msg <| reply_status := status |>]> (msgs s) |> in
     exists n f, write_parts (riov (msgs s msg)) (next_size (riov (msgs s msg))) addr buf_sz 0 s1 = Ret n (s1 <| fmem := f |>) /\
       s' = s <| fmem := f |> <| msgs := msgs s' |> <| msgports := msgports s' |> <| superblocks := superblocks s' |>
              <| woken := woken s' |>) /\
    msgports s' = msgports (set_pending p (pending_msg_list (msgports s p) ++ [msg]) s) /\
    superblocks s' = superblocks (set_backlog sb (fun bl => bl
      <| free_bitmap := Z.lor (free_bitmap bl) (Z.shiftl 1 id) |> <| bl_msg := <[Z.to_nat id := 0]> (bl_msg bl) |>) s).
Proof.
  unfold MAX_MSG_BACKLOG. intros Hsb Hs Hid Hlen Hr Hfresh.
  pose proof (run_msgid_to_msg _ _ _ _ Hs Hid) as Em. unfold numbered, MAX_MSG_BACKLOG in Hid. cbv zeta in Hid.
  destruct Hid as (Hi & Hsz & Hb & Hl & Hm).
  unfold sys_replymsg. rewrite (run_bind _ _ _ _ _ Hsb), bool_decide_false by done.
  rewrite (run_bind _ _ _ _ _ Em), bool_decide_false by done.
  unfold upd_msg. rewrite (run_bind _ _ _ _ _ (run_upd _ _ _ _ _ Hm)), (run_bind _ _ _ _ _ (run_deref _ _ _ Hm)). cbv beta.
  set (s1 := s <| msgs := _ |>).
  assert (Hm1 : msgs s1 msg = msgs s msg <| reply_status := status |>) by apply fn_lookup_insert.
  assert (Hr1 : reply_port (msgs s1 msg) = Some p) by (by rewrite Hm1). rewrite Hr1.
  match goal with |- context [write_parts ?l ?x addr buf_sz 0] =>
    destruct (write_parts_total l x addr buf_sz 0 s1) as (n & f & Ew) end.
  assert (Ew' := Ew). rewrite Hm1 in Ew'. change (riov (msgs s msg <| reply_status := status |>)) with (riov (msgs s msg)) in Ew'.
  rewrite (run_bind _ _ _ _ _ Ew). set (s2 := s1 <| fmem := f |>).
  erewrite run_bind by (rewrite (run_bind _ _ _ _ _ (run_kreplymsg p msg s2 Hm Hr1 Hfresh)); reflexivity).
  set (s3 := set_pending p _ _ <| woken := _ |>). unfold free_msgid.
  erewrite run_bind.
  2: { rewrite (run_bind _ _ _ _ _ (run_get_backlog _ s3 Hs)). change (superblocks s3) with (superblocks s).
       rewrite uwrap_small, bool_decide_false by lia. rewrite (run_bind _ _ _ _ _ (run_bit id s3 ltac:(lia))).
       rewrite (run_bind _ _ _ _ _ (run_arr_set (bl_msg (sb_msgbacklog (superblocks s sb))) id 0 s3
         ltac:(rewrite Hlen; lia))). apply run_upd_backlog. exact Hs. }
  eexists. split; [reflexivity|]. split; [exact (set_pending_get p _ _)|]. split.
  { cbn. rewrite !fn_lookup_insert. reflexivity. }
  split; [reflexivity|]. split; [by rewrite set_backlog_get|]. split; [exists n, f; split; [exact Ew'|]|].
  { subst s3 s2 s1. clear. by destruct s. }
  split; reflexivity.
Qed.

(** C13. A request is answered.  A kernel thread that sends a message to the port
    of a server sleeps on its reply port; [sys_getmsg] then gives the server the
    message under a free number; [sys_replymsg] with that number wakes the
    thread, which returns the server's status; and the number is free again, the
    bitmap of the backlog being what it was. *)
Theorem rpc_roundtrip bdflush_brelse client server fd sb msg si ri umsgid addr buf_sz status raddr rbuf_sz t s :
  let filp := fd_filp s server fd in
  let bl := sb_msgbacklog (superblocks s sb) in
  fproc s server <> 0 -> 0 <= fd < OPEN_MAX -> filp <> 0 -> f_type (filps s filp) = FILP_TYPE_SUPERBLOCK ->
  f_u (filps s filp) = sb -> sb <> 0 -> msg <> 0 ->
  pending_msg_list (msgports s (SbPort sb)) = [] -> pending_msg_list (msgports s (ReplyPort client)) = [] ->
  notes_ok (SbPort sb) s -> backlog_sz bl <= MAX_MSG_BACKLOG -> length (bl_msg bl) = Z.to_nat MAX_MSG_BACKLOG ->
  0 <= t < backlog_sz bl -> Z.testbit (free_bitmap bl) t = true ->
  exists id n s1 s2 s3 s4,
    ksendmsg client (SbPort sb) msg si ri s = Sleep (RPort (ReplyPort client)) s1 /\
    sys_getmsg server fd umsgid addr buf_sz s1 = Ret n s2 /\ numbered s2 sb id msg /\
    sys_replymsg bdflush_brelse server fd id status raddr rbuf_sz s2 = Ret 0 s3 /\
    RPort (ReplyPort client) ∈ woken s3 /\
    ksendmsg_wait client msg s3 = Ret status s4 /\
    pending_msg_list (msgports s4 (ReplyPort client)) = [] /\
    free_bitmap (sb_msgbacklog (superblocks s4 sb)) = free_bitmap bl.
Proof.
  intros filp bl Hp Hfd Hf Ht Hu Hs Hm Hq Hrq Hn Hsz Hlen Htt Hbit.
  destruct (run_ksendmsg client (SbPort sb) msg si ri s Hm ltac:(done)) as (s1 & E1 & Q1 & R1 & P1 & F1 & F2 & F3 & F4);
    [rewrite Hq; apply not_elem_of_nil|exact Hn|exact Hrq|]. rewrite Hq in Q1. cbn in Q1.
  assert (Hfd1 : fd_filp s1 server fd = filp) by (unfold fd_filp, fw; by rewrite F1, F2).
  assert (Hsb : get_superblock server fd s1 = Ret sb s1).
  { apply run_get_superblock; [by rewrite F2|done|by rewrite Hfd1|by rewrite Hfd1, F3|by rewrite Hfd1, F3]. }
  destruct (run_sys_getmsg server fd sb msg [] umsgid addr buf_sz t s1 Hsb Hs Hm Q1) as (id & n & u & Hid & Hb & E2 & N2);
    [by rewrite F4..|]. rewrite F4 in Hb.
  match type of E2 with _ = Ret _ ?x => set (s2 := x) in * end.
  assert (Hbl2 : sb_msgbacklog (superblocks s2 sb) = bl
    <| free_bitmap := Z.ldiff (free_bitmap bl) (Z.shiftl 1 id) |> <| bl_msg := <[Z.to_nat id := msg]> (bl_msg bl) |>).
  { subst s2. cbn. rewrite !fn_lookup_insert, F4. reflexivity. }
  assert (Hsb2 : get_superblock server fd s2 = Ret sb s2).
  { apply run_get_superblock; [by rewrite <- F2 in Hp|done|by rewrite <- Hfd1 in Hf|..];
      change (filps s2) with (filps s1); change (fd_filp s2 server fd) with (fd_filp s1 server fd); by rewrite Hfd1, F3. }
  destruct (run_sys_replymsg bdflush_brelse server fd sb id msg (ReplyPort client) status raddr rbuf_sz s2 Hsb2 Hs N2)
    as (s3 & E3 & Q3 & St3 & W3 & B3 & _).
  { rewrite Hbl2. cbn. by rewrite length_insert. }
  { exact P1. }
  { change (msgports s2 (ReplyPort client)) with (msgports (set_pending (SbPort sb) [] s1) (ReplyPort client)).
    rewrite set_pending_ne by done. rewrite R1. apply not_elem_of_nil. }
  assert (Q3' : pending_msg_list (msgports s3 (ReplyPort client)) = [msg]).
  { rewrite Q3. change (msgports s2 (ReplyPort client)) with (msgports (set_pending (SbPort sb) [] s1) (ReplyPort client)).
    rewrite set_pending_ne by done. by rewrite R1. }
  exists id, n, s1, s2, s3, (set_pending (ReplyPort client) [] s3).
  split; [exact E1|]. split; [exact E2|]. split; [exact N2|]. split; [exact E3|]. split.
  { rewrite W3. apply elem_of_app. right. by apply list_elem_of_singleton. }
  split; [|split; [apply set_pending_get|]].
  - unfold ksendmsg_wait, kwaitport.
    erewrite run_bind by (rewrite (run_bind _ _ _ _ _ (run_gets _ _)), Q3'; reflexivity).
    rewrite (run_bind _ _ _ _ _ (run_kgetmsg _ _ _ _ Q3')), (run_bind _ _ _ _ _ (run_deref _ _ _ Hm)).
    change (msgs (set_pending (ReplyPort client) [] s3)) with (msgs s3). by rewrite St3.
  - change (superblocks (set_pending (ReplyPort client) [] s3)) with (superblocks s3). rewrite B3, Hbl2. cbn.
    apply restore_bit; [lia|done].
Qed.

(** The server of [fs_msg] and process 9, whose message is at 500. *)
Lemma rpc_roundtrip_witness :
  exists id n s1 s2 s3 s4,
    ksendmsg 9 (SbPort 2) 500 [mkIOV 1000 2] [] fs_msg = Sleep (RPort (ReplyPort 9)) s1 /\
    sys_getmsg 1 3 40 50 3 s1 = Ret n s2 /\ numbered s2 2 id 500 /\
    sys_replymsg (fun _ => fault) 1 3 id (-5) 0 0 s2 = Ret 0 s3 /\ ksendmsg_wait 9 500 s3 = Ret (-5) s4.
Proof.
  destruct (rpc_roundtrip (fun _ => fault) 9 1 3 2 500 [mkIOV 1000 2] [] 40 50 3 (-5) 0 0 1 fs_msg)
    as (id & n & s1 & s2 & s3 & s4 & H1 & H2 & H3 & H4 & _ & H5 & _);
    try reflexivity; try (intros H; discriminate H); try (split; [lia|reflexivity]).
  - split; [|split; [apply NoDup_nil_2|intros m Hm; by apply not_elem_of_nil in Hm]].
    split; [intros k; apply NoDup_nil_2|intros k m|intros m H; discriminate H].
    split; [intros Hm; by apply not_elem_of_nil in Hm|intros [H _]; discriminate H].
  - exists id, n, s1, s2, s3, s4. split; [exact H1|]. split; [exact H2|]. split; [exact H3|]. split; [exact H4|exact H5].
Defined.

(** When every number of the backlog is in use, [sys_getmsg], which is to
    return -EAGAIN, takes the next message all the same: the -1 that
    [alloc_msgid] returns is not negative as a [uint32_t], and the message
    pointer is stored at index -1, over the bitmap of free numbers.  A message
    being served whose bit is set in the pointer is then no longer found, so
    that it cannot be read or answered. *)
Theorem getmsg_exhausted server fd sb msg l id old umsgid addr buf_sz s :
  let filp := fd_filp s server fd in
  fproc s server <> 0 -> 0 <= fd < OPEN_MAX -> filp <> 0 -> f_type (filps s filp) = FILP_TYPE_SUPERBLOCK ->
  f_u (filps s filp) = sb -> sb <> 0 -> msg <> 0 ->
  pending_msg_list (msgports s (SbPort sb)) = msg :: l ->
  free_bitmap (sb_msgbacklog (superblocks s sb)) = 0 -> numbered s sb id old -> Z.testbit msg id = true ->
  exists n s', sys_getmsg server fd umsgid addr buf_sz s = Ret n s' /\
    free_bitmap (sb_msgbacklog (superblocks s' sb)) = msg /\ pending_msg_list (msgports s' (SbPort sb)) = l /\
    msgid_to_msg sb id s = Ret old s /\ msgid_to_msg sb id s' = Ret 0 s'.
Proof.
  intros filp Hp Hfd Hf Ht Hu Hs Hm Hl Hfb Hid Hbit.
  pose proof (run_get_superblock _ _ _ _ Hp Hfd Hf Ht Hu) as Hsb.
  set (s2 := set_pending (SbPort sb) l s). set (s3 := set_backlog sb (fun bl => bl <| free_bitmap := msg |>) s2).
  destruct (copyout_bytes_total (word_bytes (u32 (-1))) umsgid s3) as (r1 & u1 & Ec).
  match type of Ec with _ = Ret _ ?x => set (s4 := x) in Ec end.
  destruct (read_parts_total (siov (msgs s4 msg)) (next_size (siov (msgs s4 msg))) addr buf_sz 0 s4) as (n & u & Er).
  match type of Er with _ = Ret _ ?x => set (s5 := x) in Er end.
  assert (Hbl : sb_msgbacklog (superblocks s5 sb) = sb_msgbacklog (superblocks s sb) <| free_bitmap := msg |>)
    by exact (set_backlog_get sb _ s2).
  exists n, s5. split; [|split; [by rewrite Hbl|split; [exact (set_pending_get (SbPort sb) l s)|]]].
  - unfold sys_getmsg. rewrite (run_bind _ _ _ _ _ Hsb), bool_decide_false by done.
    assert (Ea : alloc_msgid sb s = Ret (u32 (-1)) s).
    { unfold alloc_msgid. rewrite (run_bind _ _ _ _ _ (run_get_backlog _ _ Hs)). by rewrite bool_decide_true. }
    rewrite (run_bind _ _ _ _ _ Ea), bool_decide_false by (change (u32 (-1)) with 4294967295; lia).
    rewrite (run_bind _ _ _ _ _ (run_kgetmsg (SbPort sb) msg l s Hl)), bool_decide_false by done. fold s2.
    assert (Eassign : assign_msgid sb (u32 (-1)) msg s2 = Ret () s3).
    { unfold assign_msgid. rewrite bool_decide_true by done. by apply run_upd_backlog. }
    rewrite (run_bind _ _ _ _ _ Eassign), (run_bind _ _ _ _ _ Ec), (run_bind _ _ _ _ _ (run_deref _ _ _ Hm)). exact Er.
  - split; [by apply run_msgid_to_msg|]. unfold numbered, MAX_MSG_BACKLOG in Hid. cbv zeta in Hid. destruct Hid as (Hi & Hsz & _).
    unfold msgid_to_msg. rewrite (run_bind _ _ _ _ _ (run_get_backlog _ _ Hs)), Hbl. cbn.
    rewrite uwrap_small, bool_decide_false by lia. rewrite (run_bind _ _ _ _ _ (run_bit id s5 ltac:(lia))).
    rewrite bool_decide_true; [reflexivity|]. intros H. apply land_bit_zero in H; [congruence|lia].
Qed.

(** The backlog of one number is in use by the message at 300, and the message
    at 501 arrives. *)
Definition fs_full : fs :=
  fs_msg <| superblocks := fun _ => mkSuperBlock false 0 (mkMsgBacklog 1 0 (300 :: replicate 31 0)) 0 0 1 None 0 |>
         <| msgports := fun _ => mkMsgPort [501] [] 2 |>.

Lemma getmsg_exhausted_witness :
  exists n s', sys_getmsg 1 3 40 50 3 fs_full = Ret n s' /\ msgid_to_msg 2 0 fs_full = Ret 300 fs_full /\
    msgid_to_msg 2 0 s' = Ret 0 s'.
Proof.
  destruct (getmsg_exhausted 1 3 2 501 [] 0 300 40 50 3 fs_full) as (n & s' & H1 & _ & _ & H2 & H3);
    try reflexivity; try (intros H; discriminate H); try (split; [lia|reflexivity]).
  - split; [split; [lia|reflexivity]|]. split; [intros H; discriminate H|]. split; [reflexivity|].
    split; [reflexivity|intros H; discriminate H].
  - exists n, s'. split; [exact H1|]. split; [exact H2|exact H3].
Defined.
