(* ===== verification/Filedesc.v ===== *)
(** * The system calls on descriptors

    The model of the rest of kernel/fs/filedesc.c: closing and duplicating
    descriptors, and the file state of a process over its life. *)

From S2P Require Import Prelude Bytes Lists Page Fs Filp Vnode Interrupt Kqueue.

Definition O_RDONLY := 0.
Definition O_WRONLY := 1.
Definition F_DUPFD := 0.
Definition F_GETFD := 1.
Definition F_SETFD := 2.
Definition F_GETFL := 3.
Definition F_SETFL := 4.
Definition _IFMT := 0xF000.
Definition _IFIFO := 0x1000.
Definition S_ISFIFO (mode : Z) : bool := bool_decide (Z.land mode _IFMT = _IFIFO).

(** ** close *)

(** The case of [do_close] for the last reference, by the type of the filp. *)
Definition close_last (proc fd type : Z) : M unit :=
  if bool_decide (type = FILP_TYPE_VNODE) then close_vnode proc fd;; mret ()
  else if bool_decide (type = FILP_TYPE_SUPERBLOCK) then close_mount proc fd;; mret ()
  else if bool_decide (type = FILP_TYPE_KQUEUE) then close_kqueue proc fd;; mret ()
  else if bool_decide (type = FILP_TYPE_ISRHANDLER) then close_isrhandler proc fd;; mret ()
  else fault.

Definition close_pipe_end (vnode flags : Z) : M unit :=
  v ← deref vnodes vnode;
  if S_ISFIFO (v_mode v) then
    upd_pipe (v_pipe v) (fun p =>
      if has_flag flags O_RDONLY then p <| pp_reader_cnt := pp_reader_cnt p - 1 |>
      else p <| pp_writer_cnt := pp_writer_cnt p - 1 |>)
  else mret ().

Definition do_close (proc fd : Z) : M Z :=
  filp ← get_filp proc fd;
  if bool_decide (filp = 0) then mret (- EINVAL)
  else
    upd_filp filp (fun f => f <| f_reference_cnt := f_reference_cnt f - 1 |>);;
    f ← deref filps filp;
    if bool_decide (f_reference_cnt f = 0) then
      if bool_decide (f_type f = FILP_TYPE_VNODE) then
        vnode ← get_fd_vnode proc fd;
        if bool_decide (vnode = 0) then mret (- EINVAL)
        else close_pipe_end vnode (f_flags f);; close_last proc fd (f_type f);; mret 0
      else close_last proc fd (f_type f);; mret 0
    else free_fd proc fd;; mret 0.

Definition sys_close (proc fd : Z) : M Z := do_close proc fd.

(** ** fcntl and dup *)

Definition sys_fcntl (proc fd cmd arg : Z) : M Z :=
  filp ← get_filp proc fd;
  if bool_decide (filp = 0) then mret (- EINVAL)
  else
    used ← FD_ISSET proc fd fd_in_use_set;
    if negb used then mret (- EBADF)
    else if bool_decide (cmd = F_DUPFD) then
      if bool_decide (arg < 0 \/ arg >= OPEN_MAX) then mret (- EBADF)
      else dup_fd proc fd arg OPEN_MAX
    else if bool_decide (cmd = F_GETFD) then
      b ← FD_ISSET proc fd fd_close_on_exec_set;
      mret (if b : bool then 1 else 0)
    else if bool_decide (cmd = F_SETFD) then
      (if bool_decide (arg <> 0) then FD_SET proc fd fd_close_on_exec_set
       else FD_CLR proc fd fd_close_on_exec_set);;
      mret arg
    else if bool_decide (cmd = F_GETFL \/ cmd = F_SETFL) then mret (- EINVAL)
    else mret (- ENOSYS).

Definition sys_dup (proc fd : Z) : M Z := dup_fd proc fd 0 OPEN_MAX.

Definition sys_dup2 (proc fd new_fd : Z) : M Z :=
  if bool_decide (fd < 0 \/ fd >= OPEN_MAX \/ new_fd < 0 \/ new_fd >= OPEN_MAX) then mret (- EINVAL)
  else
    filp ← fword proc (fd_table + new_fd);
    (if bool_decide (filp = 0) then mret () else do_close proc new_fd;; mret ());;
    dup_fd proc fd new_fd new_fd.

(** ** The file state of a process *)

(** A page from [kmalloc_page], 0 for NULL. *)
Definition kmalloc_page_fs : M Z := fun s =>
  match kmalloc_page (fmem s) with
  | Some (va, m) => Ret va (s <| fmem := m |>)
  | None => Fault
  end.

Fixpoint clear_fds (n : nat) (proc t : Z) : M unit :=
  match n with
  | O => mret ()
  | S n => set_fword proc (fd_table + t) 0;; clear_fds n proc (t + 1)
  end.

Definition FD_ZERO (proc set : Z) : M unit := set_fword proc set 0;; set_fword proc (set + 1) 0.

(** [fproc] is stored in [proc->fproc] at the end; nothing can see the order. *)
Definition init_fproc (proc : Z) : M Z :=
  page ← kmalloc_page_fs;
  if bool_decide (page = 0) then mret (- ENOMEM)
  else
    modify (fun s => s <| fproc := <[proc := page]> (fproc s) |>);;
    clear_fds (Z.to_nat OPEN_MAX) proc 0;;
    FD_ZERO proc fd_in_use_set;;
    FD_ZERO proc fd_close_on_exec_set;;
    mret 0.

Fixpoint close_all (n : nat) (proc fd : Z) : M unit :=
  match n with
  | O => mret ()
  | S n => do_close proc fd;; close_all n proc (fd + 1)
  end.

Definition fini_fproc (proc : Z) : M Z :=
  close_all (Z.to_nat OPEN_MAX) proc 0;;
  modify (fun s => s <| fmem := kfree_page (fproc s proc) (fmem s) |> <| fproc := <[proc := 0]> (fproc s) |>);;
  mret 0.

(** One round of the loop of [fork_process_fds]. *)
Definition fork_fd (newp oldp fd : Z) : M unit :=
  filp ← fword oldp (fd_table + fd);
  if bool_decide (filp = 0) then
    set_fword newp (fd_table + fd) 0;;
    FD_CLR newp fd fd_in_use_set;;
    FD_CLR newp fd fd_close_on_exec_set
  else
    set_fword newp (fd_table + fd) filp;;
    upd_filp filp (fun f => f <| f_reference_cnt := f_reference_cnt f + 1 |>);;
    FD_SET newp fd fd_in_use_set;;
    b ← FD_ISSET oldp fd fd_close_on_exec_set;
    if b : bool then FD_SET newp fd fd_close_on_exec_set else FD_CLR newp fd fd_close_on_exec_set.

Fixpoint fork_fds (n : nat) (newp oldp fd : Z) : M unit :=
  match n with
  | O => mret ()
  | S n => fork_fd newp oldp fd;; fork_fds n newp oldp (fd + 1)
  end.

Definition inc_ref_dir (vnode : Z) : M unit :=
  if bool_decide (vnode = 0) then mret () else vnode_inc_ref vnode.

Definition fork_process_fds (newp oldp : Z) : M Z :=
  page ← kmalloc_page_fs;
  if bool_decide (page = 0) then mret (- ENOMEM)
  else
    modify (fun s => s <| fproc := <[newp := page]> (fproc s) |>);;
    fork_fds (Z.to_nat OPEN_MAX) newp oldp 0;;
    cur ← fword oldp fp_current_dir;
    set_fword newp fp_current_dir cur;;
    root ← fword oldp fp_root_dir;
    set_fword newp fp_root_dir root;;
    inc_ref_dir cur;;
    inc_ref_dir root;;
    mret 0.

Fixpoint close_on_exec_loop (n : nat) (proc fd : Z) : M unit :=
  match n with
  | O => mret ()
  | S n =>
      b ← FD_ISSET proc fd fd_close_on_exec_set;
      (if b : bool then do_close proc fd;; mret () else mret ());;
      close_on_exec_loop n proc (fd + 1)
  end.

Definition close_on_exec_process_fds (proc : Z) : M Z :=
  close_on_exec_loop (Z.to_nat OPEN_MAX) proc 0;; mret 0.

(** ** Closing *)

(** One reference fewer. *)
Definition unref (filp : Z) (s : fs) : fs :=
  s <| filps := <[filp := filps s filp <| f_reference_cnt := f_reference_cnt (filps s filp) - 1 |>]> (filps s) |>.

Lemma unref_cnt filp s : f_reference_cnt (filps (unref filp s) filp) = f_reference_cnt (filps s filp) - 1.
Proof. unfold unref. simpl. by rewrite fn_lookup_insert. Qed.
Lemma unref_type filp s : f_type (filps (unref filp s) filp) = f_type (filps s filp).
Proof. unfold unref. simpl. by rewrite fn_lookup_insert. Qed.
Lemma unref_u filp s : f_u (filps (unref filp s) filp) = f_u (filps s filp).
Proof. unfold unref. simpl. by rewrite fn_lookup_insert. Qed.

(** Dropping one of several references to a file. *)
Lemma run_do_close_shared proc fd s :
  fproc s proc <> 0 -> 0 <= fd < OPEN_MAX -> fd_filp s proc fd <> 0 ->
  f_reference_cnt (filps s (fd_filp s proc fd)) <> 1 ->
  do_close proc fd s = Ret 0 (fd_freed proc fd (unref (fd_filp s proc fd) s)).
Proof.
  intros Hp Hfd Hf Hr. unfold do_close. rewrite (run_bind _ _ _ _ _ (run_get_filp _ _ _ Hp Hfd)).
  rewrite bool_decide_false by done. unfold upd_filp.
  rewrite (run_bind _ _ _ _ _ (run_upd _ _ _ _ _ Hf)), (run_bind _ _ _ _ _ (run_deref _ _ _ Hf)).
  rewrite bool_decide_false; [|simpl; rewrite fn_lookup_insert; simpl; lia].
  erewrite (run_bind (free_fd proc fd)) by (apply run_free_fd; [exact Hp|exact Hfd|exact Hf]). done.
Qed.

Lemma run_free_fd_filp proc fd s :
  fproc s proc <> 0 -> 0 <= fd < OPEN_MAX -> fd_filp s proc fd <> 0 ->
  f_reference_cnt (filps s (fd_filp s proc fd)) <> 1 ->
  free_fd_filp proc fd s = Ret 0 (fd_freed proc fd (unref (fd_filp s proc fd) s)).
Proof.
  intros Hp Hfd Hf Hr. unfold free_fd_filp. rewrite (run_bind _ _ _ _ _ (run_get_filp _ _ _ Hp Hfd)).
  rewrite bool_decide_false by done. rewrite (run_bind _ _ _ _ _ (run_free_filp _ _ Hf Hr)).
  erewrite (run_bind (free_fd proc fd)) by (apply run_free_fd; [exact Hp|exact Hfd|exact Hf]). reflexivity.
Qed.

Lemma run_free_kqueue kq s :
  kq <> 0 -> kq_reference_cnt (kqueues s kq) = 1 -> kq ∉ kqueue_free_list s ->
  free_kqueue kq s = Ret () (s <| kqueues := <[kq := kqueues s kq <| kq_reference_cnt := 0 |>]> (kqueues s) |>
                               <| kqueue_free_list := kq :: kqueue_free_list s |>).
Proof.
  intros Hk Hr Hf. unfold free_kqueue, upd_kqueue.
  rewrite (run_bind _ _ _ _ _ (run_upd _ _ _ _ _ Hk)), (run_bind _ _ _ _ _ (run_deref _ _ _ Hk)).
  simpl. rewrite fn_lookup_insert, Hr. simpl. unfold mbind, M_bind. simpl.
  unfold Seq.add_head. rewrite bool_decide_false by done. reflexivity.
Qed.

Lemma run_close_kqueue proc fd s kq :
  let filp := fd_filp s proc fd in
  fproc s proc <> 0 -> 0 <= fd < OPEN_MAX -> filp <> 0 -> f_type (filps s filp) = FILP_TYPE_KQUEUE ->
  f_u (filps s filp) = kq -> f_reference_cnt (filps s filp) <> 1 ->
  kq <> 0 -> kq_reference_cnt (kqueues s kq) = 1 -> kq ∉ kqueue_free_list s ->
  close_kqueue proc fd s = Ret 0 (fd_freed proc fd (unref filp s)
    <| kqueues := <[kq := kqueues s kq <| kq_reference_cnt := 0 |>]> (kqueues s) |>
    <| kqueue_free_list := kq :: kqueue_free_list s |>).
Proof.
  intros filp Hp Hfd Hf Ht Hu Hr Hk Hkr Hkf. unfold close_kqueue, free_fd_kqueue.
  erewrite run_bind; [reflexivity|].
  rewrite (run_bind _ _ _ _ _ (run_get_kqueue _ _ _ _ Hp Hfd Hf Ht Hu)), bool_decide_false by done.
  rewrite (run_bind _ _ _ _ _ (run_free_fd_filp _ _ _ Hp Hfd Hf Hr)).
  erewrite (run_bind (free_kqueue kq)) by (apply run_free_kqueue; [exact Hk|exact Hkr|exact Hkf]). reflexivity.
Qed.

(** Closing the last descriptor of a kqueue closes the descriptor and frees
    the kqueue but loses the file pointer: its reference count, already counted
    down to 0 by [do_close], is counted down again by [free_filp] to -1, so it
    is not returned to the free list. *)
Theorem do_close_leaks_filp proc fd s kq :
  let filp := fd_filp s proc fd in
  fproc s proc <> 0 -> 0 <= fd < OPEN_MAX -> filp <> 0 ->
  f_type (filps s filp) = FILP_TYPE_KQUEUE -> f_u (filps s filp) = kq -> f_reference_cnt (filps s filp) = 1 ->
  kq <> 0 -> kq_reference_cnt (kqueues s kq) = 1 -> kq ∉ kqueue_free_list s ->
  exists s', do_close proc fd s = Ret 0 s' /\
    fd_filp s' proc fd = 0 /\ fd_used s' proc fd = false /\ kqueue_free_list s' = kq :: kqueue_free_list s /\
    f_reference_cnt (filps s' filp) = -1 /\ filp_free_list s' = filp_free_list s.
Proof.
  intros filp Hp Hfd Hf Ht Hu Hr Hk Hkr Hkf. eexists. split.
  - unfold do_close. rewrite (run_bind _ _ _ _ _ (run_get_filp _ _ _ Hp Hfd)), bool_decide_false by done.
    unfold upd_filp. rewrite (run_bind _ _ _ _ _ (run_upd _ _ _ _ _ Hf)).
    change (s <| filps := _ |>) with (unref filp s). rewrite (run_bind _ _ _ _ _ (run_deref _ _ _ Hf)).
    fold filp. rewrite unref_cnt, Hr, unref_type, Ht, bool_decide_true, bool_decide_false by done.
    unfold close_last. change (bool_decide (FILP_TYPE_KQUEUE = _)) with false at 1 2. rewrite bool_decide_true by done.
    erewrite run_bind; [reflexivity|]. erewrite run_bind; [reflexivity|].
    apply (run_close_kqueue proc fd (unref filp s) kq); try done; change (fd_filp (unref filp s) proc fd) with filp;
      [by rewrite unref_type|by rewrite unref_u|rewrite unref_cnt; lia].
  - destruct (fd_written_spec proc fd 0 false false (unref filp (unref filp s)) fd Hfd Hfd) as (E1 & E2 & _).
    rewrite bool_decide_true in E1, E2 by done.
    split_and!; [exact E1|exact E2|reflexivity| |reflexivity].
    change (f_reference_cnt (filps (unref filp (unref filp s)) filp) = -1). rewrite !unref_cnt. lia.
Qed.

(** Descriptor 3 is the only one, of kqueue 5 through file pointer 7. *)
Definition fs_kq : fs :=
  table_of (fun i => if bool_decide (i = 3) then 7 else 0) 8 fs0
    <| filps := fun _ => mkFilp FILP_TYPE_KQUEUE 5 0 0 1 |> <| kqueues := fun _ => mkKQueue false 1 [] [] |>.

Lemma do_close_leaks_filp_witness :
  exists s', do_close 1 3 fs_kq = Ret 0 s' /\ f_reference_cnt (filps s' 7) = -1 /\ filp_free_list s' = [].
Proof.
  destruct (do_close_leaks_filp 1 3 fs_kq 5) as (s' & H1 & _ & _ & _ & H2 & H3);
    try reflexivity; try (intros H; discriminate H); [split; [lia|reflexivity]|apply not_elem_of_nil|].
  exists s'. split; [exact H1|]. split; [exact H2|exact H3].
Defined.

(** ** Duplicating *)

(** One reference more. *)
Definition addref (filp : Z) (s : fs) : fs :=
  s <| filps := <[filp := filps s filp <| f_reference_cnt := f_reference_cnt (filps s filp) + 1 |>]> (filps s) |>.

Lemma addref_cnt filp s : f_reference_cnt (filps (addref filp s) filp) = f_reference_cnt (filps s filp) + 1.
Proof. unfold addref. simpl. by rewrite fn_lookup_insert. Qed.

Lemma run_dup_fd proc fd min_fd max_fd r s :
  fproc s proc <> 0 -> 0 <= fd < OPEN_MAX -> fd_filp s proc fd <> 0 -> 0 <= r ->
  alloc_fd proc min_fd max_fd s = Ret r (fd_taken proc r s) ->
  dup_fd proc fd min_fd max_fd s =
    Ret r (addref (fd_filp s proc fd) (put_fw proc (fd_table + r) (fd_filp s proc fd) (fd_taken proc r s))).
Proof.
  intros Hp Hfd Hf Hr Ha. unfold dup_fd. rewrite (run_bind _ _ _ _ _ (run_get_filp _ _ _ Hp Hfd)).
  rewrite bool_decide_false by done. rewrite (run_bind _ _ _ _ _ Ha), bool_decide_false by lia.
  erewrite (run_bind (set_fword _ _ _)) by (apply run_set_fword; exact Hp).
  unfold upd_filp. erewrite run_bind by (apply run_upd; exact Hf). reflexivity.
Qed.

(** The descriptors once [r] has been taken for a duplicate of [v]. *)
Lemma dup_spec proc r v s f :
  0 <= r < OPEN_MAX -> 0 <= f < OPEN_MAX ->
  let s' := addref v (put_fw proc (fd_table + r) v (fd_taken proc r s)) in
  fd_filp s' proc f = (if bool_decide (f = r) then v else fd_filp s proc f) /\
  fd_used s' proc f = (if bool_decide (f = r) then true else fd_used s proc f) /\
  fd_cloexec s' proc f = (if bool_decide (f = r) then false else fd_cloexec s proc f).
Proof.
  intros Hr Hf s'. destruct (fd_written_spec proc r 0 true false s f Hr Hf) as (E1 & E2 & E3).
  change (fd_filp s' proc f) with (fd_filp (put_fw proc (fd_table + r) v (fd_taken proc r s)) proc f).
  change (fd_used s' proc f) with (fd_bit fd_in_use_set (put_fw proc (fd_table + r) v (fd_taken proc r s)) proc f).
  change (fd_cloexec s' proc f) with (fd_bit fd_close_on_exec_set (put_fw proc (fd_table + r) v (fd_taken proc r s)) proc f).
  rewrite fd_filp_put, E1, !fd_bit_put_table by (unfold fd_in_use_set, fd_close_on_exec_set; lia).
  split_and!; [by case_bool_decide|exact E2|exact E3].
Qed.

(** [dup] gives the lowest free descriptor on the same file, counted once
    more, without close-on-exec, and leaves the others as they were; closing
    the duplicate brings the reference count and all other descriptors back to
    what they were before. *)
Theorem dup_close_roundtrip proc fd free_fd s :
  let filp := fd_filp s proc fd in
  fproc s proc <> 0 -> 0 <= fd < OPEN_MAX -> filp <> 0 -> 1 <= f_reference_cnt (filps s filp) ->
  0 <= free_fd < OPEN_MAX -> fd_used s proc free_fd = false ->
  exists new_fd s1 s2, sys_dup proc fd s = Ret new_fd s1 /\
    0 <= new_fd <= free_fd /\ fd_used s proc new_fd = false /\ fd_filp s1 proc new_fd = filp /\
    fd_used s1 proc new_fd = true /\ fd_cloexec s1 proc new_fd = false /\
    f_reference_cnt (filps s1 filp) = f_reference_cnt (filps s filp) + 1 /\
    do_close proc new_fd s1 = Ret 0 s2 /\
    f_reference_cnt (filps s2 filp) = f_reference_cnt (filps s filp) /\
    forall f, 0 <= f < OPEN_MAX -> f <> new_fd ->
      fd_filp s2 proc f = fd_filp s proc f /\ fd_used s2 proc f = fd_used s proc f /\
      fd_cloexec s2 proc f = fd_cloexec s proc f.
Proof.
  intros filp Hp Hfd Hf Hr Hff Hfree.
  destruct (alloc_fd_loop_ok 65 proc 0 s Hp) as [[_ H]|(r & H1 & H2 & H3 & H4)].
  { rewrite H in Hfree by (unfold OPEN_MAX in *; lia). discriminate. }
  assert (Hle : r <= free_fd).
  { destruct (decide (r <= free_fd)) as [|Hgt]; [done|]. rewrite (H4 free_fd ltac:(lia)) in Hfree. discriminate. }
  assert (Hr64 : 0 <= r < OPEN_MAX) by lia.
  set (s1 := addref filp (put_fw proc (fd_table + r) filp (fd_taken proc r s))).
  assert (Hs1 : forall f, 0 <= f < OPEN_MAX ->
    fd_filp s1 proc f = (if bool_decide (f = r) then filp else fd_filp s proc f) /\
    fd_used s1 proc f = (if bool_decide (f = r) then true else fd_used s proc f) /\
    fd_cloexec s1 proc f = (if bool_decide (f = r) then false else fd_cloexec s proc f))
    by (intros f Hf'; apply (dup_spec proc r filp s f Hr64 Hf')).
  destruct (Hs1 r Hr64) as (E1 & E2 & E3). rewrite bool_decide_true in E1, E2, E3 by done.
  assert (Hc : f_reference_cnt (filps s1 filp) = f_reference_cnt (filps s filp) + 1) 
    by exact (addref_cnt filp (put_fw proc (fd_table + r) filp (fd_taken proc r s))).
  exists r, s1, (fd_freed proc r (unref filp s1)).
  split; [apply run_dup_fd; [exact Hp|exact Hfd|exact Hf|lia|exact H1]|].
  split; [lia|]. split; [exact H3|]. split; [exact E1|]. split; [exact E2|]. split; [exact E3|]. split; [exact Hc|].
  split; [|split].
  - rewrite run_do_close_shared; [by rewrite E1|exact Hp|exact Hr64|by rewrite E1|rewrite E1, Hc; lia].
  - change (f_reference_cnt (filps (unref filp s1) filp) = f_reference_cnt (filps s filp)). rewrite unref_cnt, Hc. lia.
  - intros f Hf' Hne. destruct (fd_written_spec proc r 0 false false (unref filp s1) f Hr64 Hf') as (G1 & G2 & G3).
    destruct (Hs1 f Hf') as (F1 & F2 & F3). rewrite bool_decide_false in F1, F2, F3, G1, G2, G3 by done.
    rewrite G1, G2, G3. split_and!; [exact F1|exact F2|exact F3].
Qed.

Lemma dup_close_roundtrip_witness :
  exists s1 s2, sys_dup 1 3 fs_kq = Ret 0 s1 /\ fd_filp s1 1 0 = 7 /\ do_close 1 0 s1 = Ret 0 s2 /\
    f_reference_cnt (filps s2 7) = 1.
Proof.
  destruct (dup_close_roundtrip 1 3 0 fs_kq) as (r & s1 & s2 & H1 & H2 & H3 & H4 & _ & _ & _ & H5 & H6 & _);
    try reflexivity; try (intros H; discriminate H); try (split; [lia|reflexivity]).
  assert (r = 0) as -> by lia. exists s1, s2. split; [exact H1|]. split; [exact H4|]. split; [exact H5|exact H6].
Defined.

(** [dup2] of a descriptor to itself, which is to return it unchanged,
    closes it: the duplicate is made after the close, finds no file and fails
    with -EINVAL. *)
Theorem dup2_same_closes proc fd s :
  let filp := fd_filp s proc fd in
  fproc s proc <> 0 -> 0 <= fd < OPEN_MAX -> filp <> 0 -> f_reference_cnt (filps s filp) <> 1 ->
  exists s', sys_dup2 proc fd fd s = Ret (- EINVAL) s' /\ fd_filp s' proc fd = 0 /\ fd_used s' proc fd = false /\
    f_reference_cnt (filps s' filp) = f_reference_cnt (filps s filp) - 1.
Proof.
  intros filp Hp Hfd Hf Hr. exists (fd_freed proc fd (unref filp s)).
  destruct (fd_written_spec proc fd 0 false false (unref filp s) fd Hfd Hfd) as (E1 & E2 & _).
  rewrite bool_decide_true in E1, E2 by done.
  split; [|split; [exact E1|split; [exact E2|apply unref_cnt]]].
  unfold sys_dup2. rewrite bool_decide_false by lia.
  rewrite (run_bind _ _ _ _ _ (run_fword _ _ _ Hp)), bool_decide_false by done.
  erewrite run_bind by (rewrite (run_bind _ _ _ _ _ (run_do_close_shared _ _ _ Hp Hfd Hf Hr)); reflexivity).
  assert (Hg : get_filp proc fd (fd_freed proc fd (unref filp s)) = Ret 0 (fd_freed proc fd (unref filp s)))
    by (rewrite run_get_filp; [by rewrite E1|exact Hp|exact Hfd]).
  unfold dup_fd. rewrite (run_bind _ _ _ _ _ Hg). reflexivity.
Qed.

Lemma dup2_same_closes_witness :
  exists s', sys_dup2 1 3 3 (addref 7 fs_kq) = Ret (- EINVAL) s' /\ fd_filp s' 1 3 = 0.
Proof.
  destruct (dup2_same_closes 1 3 (addref 7 fs_kq)) as (s' & H1 & H2 & _);
    try (intros H; discriminate H); [split; [lia|reflexivity]|]. exists s'. split; [exact H1|exact H2].
Defined.

(** ** Forking *)

(** The state after one round of the loop of [fork_process_fds]. *)
Definition fd_forked (newp oldp fd : Z) (s : fs) : fs :=
  let filp := fd_filp s oldp fd in
  if bool_decide (filp = 0) then fd_freed newp fd s
  else fd_written newp fd filp true (fd_cloexec s oldp fd) (addref filp s).

Section Fork.
Context (newp oldp : Z).

Lemma fd_cloexec_apart fd s s' :
  0 <= fd < OPEN_MAX -> (forall j, 0 <= j < 1024 -> fw s' oldp j = fw s oldp j) ->
  fd_cloexec s' oldp fd = fd_cloexec s oldp fd.
Proof.
  unfold OPEN_MAX. intros Hfd H. unfold fd_cloexec, fd_bit, fd_close_on_exec_set.
  assert (0 <= fd `div` 32 < 2) by (split; [apply Z.div_pos; lia|apply Z.div_lt_upper_bound; lia]).
  by rewrite H by lia.
Qed.

Lemma run_fork_fd fd s :
  fproc s newp <> 0 -> fproc s oldp <> 0 -> apart s newp oldp -> 0 <= fd < OPEN_MAX ->
  fork_fd newp oldp fd s = Ret () (fd_forked newp oldp fd s).
Proof.
  intros Hn Ho Ha Hfd. unfold fork_fd, fd_forked. rewrite (run_bind _ _ _ _ _ (run_fword _ _ _ Ho)).
  change (fw s oldp (fd_table + fd)) with (fd_filp s oldp fd). case_bool_decide as Hf.
  - rewrite (run_bind _ _ _ _ _ (run_set_fword newp (fd_table + fd) 0 s Hn)).
    erewrite (run_bind (FD_CLR _ _ _)) by (apply run_FD_CLR; exact Hn). by rewrite run_FD_CLR.
  - rewrite (run_bind _ _ _ _ _ (run_set_fword newp (fd_table + fd) (fd_filp s oldp fd) s Hn)).
    unfold upd_filp. erewrite run_bind by (apply run_upd; exact Hf).
    erewrite (run_bind (FD_SET _ _ _)) by (apply run_FD_SET; exact Hn).
    erewrite (run_bind (FD_ISSET _ _ _)) by (apply run_FD_ISSET; exact Ho).
    assert (Hcx : forall s', s' = fd_bit_put true newp fd fd_in_use_set
        (put_fw newp (fd_table + fd) (fd_filp s oldp fd) (addref (fd_filp s oldp fd) s)) ->
      fd_bit fd_close_on_exec_set s' oldp fd = fd_cloexec s oldp fd).
    { intros s' ->. apply fd_cloexec_apart; [done|]. intros j Hj. unfold fd_bit_put, fd_table, fd_in_use_set.
      unfold OPEN_MAX in Hfd.
      assert (0 <= fd `div` 32 < 2) by (split; [apply Z.div_pos; lia|apply Z.div_lt_upper_bound; lia]).
      rewrite !fw_put_apart; (done || lia). }
    match goal with |- context [fd_bit fd_close_on_exec_set ?x oldp fd] => rewrite (Hcx x eq_refl) end.
    destruct (fd_cloexec s oldp fd); [by rewrite run_FD_SET|by rewrite run_FD_CLR].
Qed.

(** What a loop over descriptors has done from [s] to [s']. *)
Record forked_fds (lo hi : Z) (s s' : fs) : Prop := mkForkedFds {
  fk_rest : s' = s <| fmem := fmem s' |> <| filps := filps s' |>;
  fk_old : forall j, 0 <= j < 1024 -> fw s' oldp j = fw s oldp j;
  fk_high : forall j, 68 <= j < 1024 -> fw s' newp j = fw s newp j;
  fk_new : forall f, lo <= f < hi -> fd_filp s' newp f = fd_filp s oldp f /\
    fd_used s' newp f = bool_decide (fd_filp s oldp f <> 0) /\
    fd_cloexec s' newp f = bool_decide (fd_filp s oldp f <> 0) && fd_cloexec s oldp f;
  fk_other : forall f, 0 <= f < lo -> fd_filp s' newp f = fd_filp s newp f /\
    fd_used s' newp f = fd_used s newp f /\ fd_cloexec s' newp f = fd_cloexec s newp f;
  fk_cnt : forall filp, filp <> 0 -> f_reference_cnt (filps s' filp) =
    f_reference_cnt (filps s filp) + Z.of_nat (length (filter (fun f => fd_filp s oldp f = filp) (seqZ lo (hi - lo))))
}.

Lemma fd_forked_spec fd s f :
  0 <= fd < OPEN_MAX -> 0 <= f < OPEN_MAX ->
  fd_filp (fd_forked newp oldp fd s) newp f = (if bool_decide (f = fd) then fd_filp s oldp fd else fd_filp s newp f) /\
  fd_used (fd_forked newp oldp fd s) newp f =
    (if bool_decide (f = fd) then bool_decide (fd_filp s oldp fd <> 0) else fd_used s newp f) /\
  fd_cloexec (fd_forked newp oldp fd s) newp f =
    (if bool_decide (f = fd) then bool_decide (fd_filp s oldp fd <> 0) && fd_cloexec s oldp fd else fd_cloexec s newp f).
Proof.
  intros Hfd Hf. unfold fd_forked. destruct (decide (fd_filp s oldp fd = 0)) as [E|E].
  - rewrite E, bool_decide_true by done. rewrite (bool_decide_false (0 <> 0)) by (intros H; by apply H).
    apply fd_written_spec; done.
  - rewrite bool_decide_false by done. rewrite (bool_decide_true (fd_filp s oldp fd <> 0)) by done.
    apply (fd_written_spec newp fd (fd_filp s oldp fd) true (fd_cloexec s oldp fd) (addref (fd_filp s oldp fd) s)); done.
Qed.

Lemma fd_forked_old fd s j :
  apart s newp oldp -> 0 <= fd < OPEN_MAX -> 0 <= j < 1024 -> fw (fd_forked newp oldp fd s) oldp j = fw s oldp j.
Proof. intros Ha Hfd Hj. unfold fd_forked. case_bool_decide; by rewrite fw_written_apart. Qed.

Lemma fd_forked_high fd s j :
  0 <= fd < OPEN_MAX -> 68 <= j -> fw (fd_forked newp oldp fd s) newp j = fw s newp j.
Proof. intros Hfd Hj. unfold fd_forked. case_bool_decide; by rewrite fw_written_high. Qed.

Lemma fd_forked_cnt fd s filp :
  filp <> 0 -> f_reference_cnt (filps (fd_forked newp oldp fd s) filp) =
    f_reference_cnt (filps s filp) + (if bool_decide (fd_filp s oldp fd = filp) then 1 else 0).
Proof.
  intros Hf. unfold fd_forked. case_bool_decide as H0.
  - rewrite bool_decide_false by congruence. change (filps (fd_freed newp fd s)) with (filps s). lia.
  - change (filps (fd_written _ _ _ _ _ _)) with (filps (addref (fd_filp s oldp fd) s)).
    case_bool_decide as E; [subst; apply addref_cnt|]. unfold addref. simpl. rewrite fn_lookup_insert_ne by done. lia.
Qed.

Lemma fd_forked_rest fd s :
  fd_forked newp oldp fd s = s <| fmem := fmem (fd_forked newp oldp fd s) |> <| filps := filps (fd_forked newp oldp fd s) |>.
Proof. unfold fd_forked. destruct s. by case_bool_decide. Qed.

Lemma fork_fds_ok n fd s :
  fproc s newp <> 0 -> fproc s oldp <> 0 -> apart s newp oldp -> 0 <= fd -> fd + Z.of_nat n <= OPEN_MAX ->
  exists s', fork_fds n newp oldp fd s = Ret () s' /\ forked_fds fd (fd + Z.of_nat n) s s'.
Proof.
  revert fd s. induction n as [|n IH]; intros fd s Hn Ho Ha H0 Hhi.
  { exists s. split; [done|]. split; try (intros; lia); try done; [by destruct s|].
    intros filp _. replace (fd + Z.of_nat 0 - fd) with 0 by lia. simpl. lia. }
  assert (Hfd : 0 <= fd < OPEN_MAX) by lia.
  assert (HP : fproc (fd_forked newp oldp fd s) = fproc s) by (rewrite fd_forked_rest; done).
  destruct (IH (fd + 1) (fd_forked newp oldp fd s)) as (s' & Hs & Hk);
    [by rewrite HP..|unfold apart; by rewrite HP|lia|lia|].
  destruct Hk as [Krest Kold Khigh Knew Kother Kcnt]. exists s'. split.
  { simpl. by rewrite (run_bind _ _ _ _ _ (run_fork_fd fd s Hn Ho Ha Hfd)). }
  assert (Hof : forall f, 0 <= f < OPEN_MAX ->
    fd_filp (fd_forked newp oldp fd s) oldp f = fd_filp s oldp f /\
    fd_cloexec (fd_forked newp oldp fd s) oldp f = fd_cloexec s oldp f).
  { intros f Hf. split; [|apply fd_cloexec_apart; [done|intros j Hj; by apply fd_forked_old]].
    apply fd_forked_old; [done..|unfold fd_table, OPEN_MAX in *; lia]. }
  split.
  - rewrite Krest, fd_forked_rest. by destruct s.
  - intros j Hj. rewrite Kold by done. by apply fd_forked_old.
  - intros j Hj. rewrite Khigh by done. apply fd_forked_high; lia.
  - intros f Hf. destruct (decide (f = fd)) as [->|Hne].
    + destruct (Kother fd ltac:(lia)) as (-> & -> & ->).
      destruct (fd_forked_spec fd s fd Hfd Hfd) as (-> & -> & ->). by rewrite bool_decide_true.
    + destruct (Knew f ltac:(lia)) as (-> & -> & ->). by destruct (Hof f ltac:(lia)) as (-> & ->).
  - intros f Hf. destruct (Kother f ltac:(lia)) as (-> & -> & ->).
    destruct (fd_forked_spec fd s f Hfd ltac:(lia)) as (-> & -> & ->).
    by rewrite bool_decide_false by lia.
  - intros filp Hf. rewrite Kcnt, fd_forked_cnt by done.
    replace (fd + Z.of_nat (S n) - fd) with (Z.succ (Z.of_nat n)) by lia. rewrite (seqZ_cons fd) by lia.
    replace (fd + 1 + Z.of_nat n - (fd + 1)) with (Z.of_nat n) by lia.
    replace (Z.pred (Z.succ (Z.of_nat n))) with (Z.of_nat n) by lia. replace (Z.succ fd) with (fd + 1) by lia.
    rewrite (filter_ext_in _ (fun f => fd_filp s oldp f = filp)).
    2: { intros f [? ?]%elem_of_seqZ. destruct (Hof f ltac:(lia)) as (-> & _). done. }
    rewrite filter_cons. case_bool_decide; case_decide; try done; simpl; lia.
Qed.
End Fork.

Lemma run_kmalloc_page s :
  alloc_inv (fmem s) ->
  (exists h m, kmalloc_page_fs s = Ret (0x80000000 + h * PAGE_SIZE) (s <| fmem := m |>) /\
     0 <= h < max_pageframe (fmem s) /\ allocated PAGE_SIZE 1 h (fmem s) m) \/
  (kmalloc_page_fs s = Ret 0 s /\ free_4k_pf_list (fmem s) = [] /\ free_64k_pf_list (fmem s) = []).
Proof.
  intros I. unfold kmalloc_page_fs, kmalloc_page.
  destruct (alloc_pageframe_ok (fmem s) 1 I ltac:(by left)) as [(h & m & E & A)|(E & H4 & H64)];
    change (1 * PAGE_SIZE) with PAGE_SIZE in *; rewrite E; cbn [mbind option_bind].
  - left. exists h, m. assert (Hh : 0 <= h < max_pageframe (fmem s)).
    { apply (ai_range _ I). rewrite (al_frames _ _ _ _ _ A). apply elem_of_app. left. apply elem_of_seqZ. lia. }
    assert (Hm : max_pageframe m = max_pageframe (fmem s)) by apply (al_frame _ _ _ _ _ A).
    rewrite pageframe_ok by (by rewrite Hm). cbn [mbind option_bind].
    unfold pmap_pf_to_va. rewrite (al_pf _ _ _ _ _ A). cbn [physical_addr].
    pose proof (ai_max _ I). rewrite pa_to_va_ok by (unfold PAGE_SIZE in *; lia).
    rewrite (Z.add_comm (h * PAGE_SIZE)). done.
  - right. split; [by destruct s|done].
Qed.

(** Counting a directory once more. *)
Lemma inc_ref_dir_ok d s :
  d = 0 \/ v_superblock (vnodes s d) <> 0 ->
  exists s', inc_ref_dir d s = Ret () s' /\ s' = s <| vnodes := vnodes s' |> <| superblocks := superblocks s' |> /\
    forall v, v <> 0 -> v_superblock (vnodes s' v) = v_superblock (vnodes s v) /\
      v_reference_cnt (vnodes s' v) = v_reference_cnt (vnodes s v) + (if bool_decide (v = d) then 1 else 0).
Proof.
  intros Hd. unfold inc_ref_dir. case_bool_decide as H0.
  { exists s. split; [done|]. split; [by destruct s|]. intros v Hv. rewrite bool_decide_false by congruence. lia. }
  destruct Hd as [Hd|Hsb]; [done|]. unfold vnode_inc_ref, upd_vnode, upd_sb.
  rewrite (run_bind _ _ _ _ _ (run_upd _ _ _ _ _ H0)), (run_bind _ _ _ _ _ (run_deref _ _ _ H0)).
  rewrite run_upd by (simpl; by rewrite fn_lookup_insert). eexists. split; [done|]. split; [by destruct s|].
  intros v Hv. simpl. case_bool_decide as Ev.
  - subst. by rewrite fn_lookup_insert.
  - rewrite fn_lookup_insert_ne by done. lia.
Qed.

(** What the child of a fork has. *)
Record fds_inherited (newp oldp : Z) (s s' : fs) : Prop := mkFdsInherited {
  fi_new : forall f, 0 <= f < OPEN_MAX -> fd_filp s' newp f = fd_filp s oldp f /\
    fd_used s' newp f = bool_decide (fd_filp s oldp f <> 0) /\
    fd_cloexec s' newp f = bool_decide (fd_filp s oldp f <> 0) && fd_cloexec s oldp f;
  fi_old : forall j, 0 <= j < 1024 -> fw s' oldp j = fw s oldp j;
  fi_cnt : forall filp, filp <> 0 -> f_reference_cnt (filps s' filp) = f_reference_cnt (filps s filp) +
    Z.of_nat (length (filter (fun f => fd_filp s oldp f = filp) (seqZ 0 OPEN_MAX)));
  fi_cwd : fw s' newp fp_current_dir = fw s oldp fp_current_dir;
  fi_root : fw s' newp fp_root_dir = fw s oldp fp_root_dir;
  fi_vnode : forall v, v <> 0 -> v_reference_cnt (vnodes s' v) = v_reference_cnt (vnodes s v) +
    (if bool_decide (v = fw s oldp fp_current_dir) then 1 else 0) +
    (if bool_decide (v = fw s oldp fp_root_dir) then 1 else 0);
  fi_umask : fw s' newp fp_umask = 0
}.

(** The part of [fork_process_fds] after the page is there. *)
Lemma fork_copied newp oldp s :
  fproc s newp <> 0 -> fproc s oldp <> 0 -> apart s newp oldp -> fw s newp fp_umask = 0 ->
  (forall d, d = fp_current_dir \/ d = fp_root_dir -> fw s oldp d = 0 \/ v_superblock (vnodes s (fw s oldp d)) <> 0) ->
  exists s', (fork_fds (Z.to_nat OPEN_MAX) newp oldp 0;;
    cur ← fword oldp fp_current_dir; set_fword newp fp_current_dir cur;;
    root ← fword oldp fp_root_dir; set_fword newp fp_root_dir root;;
    inc_ref_dir cur;; inc_ref_dir root;; mret 0) s = Ret 0 s' /\ fds_inherited newp oldp s s'.
Proof.
  intros Hn Ho Ha Hu Hd.
  destruct (fork_fds_ok newp oldp (Z.to_nat OPEN_MAX) 0 s Hn Ho Ha ltac:(lia) ltac:(done)) as (s1 & R1 & K).
  change (0 + Z.of_nat (Z.to_nat OPEN_MAX)) with OPEN_MAX in K. destruct K as [Krest Kold Khigh Knew _ Kcnt].
  assert (HP : fproc s1 = fproc s) by (rewrite Krest; done).
  assert (HV : vnodes s1 = vnodes s) by (rewrite Krest; done).
  set (cur := fw s oldp fp_current_dir). set (root := fw s oldp fp_root_dir).
  set (s2 := put_fw newp fp_current_dir cur s1). set (s3 := put_fw newp fp_root_dir root s2).
  assert (Ha1 : apart s1 newp oldp) by (unfold apart; by rewrite HP).
  assert (Hold : forall j, 0 <= j < 1024 -> fw s3 oldp j = fw s oldp j).
  { intros j Hj. subst s3 s2. rewrite !fw_put_apart; try done; try (unfold fp_root_dir, fp_current_dir; lia). by apply Kold. }
  assert (Hslot : forall j, 0 <= j < 68 -> fw s3 newp j = fw s1 newp j).
  { intros j Hj. subst s3 s2. rewrite !fw_put_ne by (unfold fp_root_dir, fp_current_dir; lia). done. }
  destruct (inc_ref_dir_ok cur s3) as (s4 & R4 & E4 & H4); [change (vnodes s3) with (vnodes s1); rewrite HV; apply Hd; by left|].
  destruct (inc_ref_dir_ok root s4) as (s5 & R5 & E5 & H5).
  { destruct (decide (root = 0)) as [|Hr]; [by left|]. destruct (H4 root Hr) as (-> & _).
    change (vnodes s3) with (vnodes s1). rewrite HV. apply Hd. by right. }
  assert (HW : forall p j, fw s5 p j = fw s3 p j) by (intros; rewrite E5, E4; done).
  assert (Hcur : fword oldp fp_current_dir s1 = Ret cur s1) by (rewrite run_fword; [by rewrite Kold|by rewrite HP]).
  assert (Hroot : fword oldp fp_root_dir s2 = Ret root s2).
  { rewrite run_fword; [|change (fproc s2) with (fproc s1); by rewrite HP]. f_equal. subst s2.
    rewrite fw_put_apart by (done || (unfold fp_current_dir, fp_root_dir; lia)). by apply Kold. }
  exists s5. split.
  - rewrite (run_bind _ _ _ _ _ R1), (run_bind _ _ _ _ _ Hcur).
    rewrite (run_bind _ _ _ _ _ (run_set_fword newp fp_current_dir cur s1 ltac:(by rewrite HP))). fold s2.
    rewrite (run_bind _ _ _ _ _ Hroot).
    rewrite (run_bind _ _ _ _ _ (run_set_fword newp fp_root_dir root s2 ltac:(change (fproc s2) with (fproc s1); by rewrite HP))). fold s3.
    by rewrite (run_bind _ _ _ _ _ R4), (run_bind _ _ _ _ _ R5).
  - split.
    + intros f Hf. destruct (Knew f Hf) as (<- & <- & <-). unfold OPEN_MAX in Hf.
      assert (0 <= f `div` 32 < 2) by (split; [apply Z.div_pos; lia|apply Z.div_lt_upper_bound; lia]).
      unfold fd_filp, fd_used, fd_cloexec, fd_bit, fd_table, fd_in_use_set, fd_close_on_exec_set.
      by rewrite !HW, !Hslot by lia.
    + intros j Hj. rewrite HW. by apply Hold.
    + intros filp Hf. rewrite E5, E4. by apply Kcnt.
    + rewrite HW. subst s3. rewrite fw_put_ne by done. apply fw_put_eq.
    + rewrite HW. apply fw_put_eq.
    + intros v Hv. destruct (H5 v Hv) as (_ & ->), (H4 v Hv) as (_ & ->). change (vnodes s3) with (vnodes s1). by rewrite HV.
    + rewrite HW. subst s3 s2. rewrite !fw_put_ne by done. rewrite Khigh by (unfold fp_umask; lia). exact Hu.
Qed.

(** ** What the file state of a process leaves alone *)

(** From [s] to [s'] only the page of process [p] is written, and counts of
    file pointers, vnodes and superblocks. *)
Record fds_frame (p : Z) (s s' : fs) : Prop := mkFdsFrame {
  fdf_rest : s' = s <| fmem := fmem s' |> <| filps := filps s' |> <| vnodes := vnodes s' |>
                    <| superblocks := superblocks s' |>;
  fdf_vm : fmem s' = fmem s <| kmem := kmem (fmem s') |>;
  fdf_page x : ~ (fproc s p <= x < fproc s p + PAGE_SIZE) -> kmem (fmem s') x = kmem (fmem s) x
}.

#[export] Instance fds_frame_preorder p : PreOrder (fds_frame p).
Proof.
  split.
  - intros s. split; [by destruct s|by destruct (fmem s)|done].
  - intros s1 s2 s3 [E1 V1 P1] [E2 V2 P2]. split.
    + rewrite E2, E1. by destruct s1.
    + rewrite V2, V1. by destruct (fmem s1).
    + intros x Hx. rewrite P2, P1; [done|done|]. rewrite E1. exact Hx.
Qed.

Section Frame.
Context (p : Z).
Let R := fds_frame p.

Lemma within_fword q i : within R (fword q i).
Proof. intros s. unfold fword. case_bool_decide; [done|]. change (R s s). reflexivity. Qed.

Lemma within_set_fword i v : 0 <= i < 1024 -> within R (set_fword p i v).
Proof.
  intros Hi s. unfold set_fword. case_bool_decide; [done|]. split; [by destruct s|by destruct (fmem s)|].
  intros x Hx. cbn. rewrite fn_lookup_insert_ne; [done|]. unfold PAGE_SIZE in Hx. lia.
Qed.

Lemma within_bit b fd set : 0 <= fd < OPEN_MAX -> 0 <= set < 1022 ->
  within R (if b : bool then FD_SET p fd set else FD_CLR p fd set).
Proof.
  intros Hfd Hs. unfold OPEN_MAX in Hfd.
  assert (0 <= fd `div` 32 < 2) by (split; [apply Z.div_pos; lia|apply Z.div_lt_upper_bound; lia]).
  destruct b; unfold FD_SET, FD_CLR; (apply within_bind; [apply _|apply within_fword|]); intros w; apply within_set_fword; lia.
Qed.

Lemma within_fork_fd q fd : 0 <= fd < OPEN_MAX -> within R (fork_fd p q fd).
Proof.
  intros Hfd. pose proof (within_bit true fd fd_in_use_set Hfd ltac:(done)) as H1.
  pose proof (within_bit false fd fd_in_use_set Hfd ltac:(done)) as H2.
  pose proof (fun b => within_bit b fd fd_close_on_exec_set Hfd ltac:(done)) as H3. pose proof (H3 false) as H4.
  assert (forall v, within R (set_fword p (fd_table + fd) v)) as H5
    by (intros v; apply within_set_fword; unfold fd_table, OPEN_MAX in *; lia).
  assert (forall v g, within R (upd_filp v g)) as H6.
  { intros v g s. unfold upd_filp, upd. case_bool_decide; [done|]. split; [by destruct s|by destruct s as [[]]|done]. }
  unfold fork_fd. apply within_bind; [apply _|apply within_fword|]. intros filp. apply within_if.
  - eauto 10 with within typeclass_instances.
  - do 3 (apply within_bind; [apply _|done|intros _]). apply within_bind; [apply _| |intros b; apply (H3 b)].
    unfold FD_ISSET. apply within_bind; [apply _|apply within_fword|]. intros w. apply within_ret, _.
Qed.

Lemma within_fork_fds q n fd : 0 <= fd -> fd + Z.of_nat n <= OPEN_MAX -> within R (fork_fds n p q fd).
Proof.
  revert fd. induction n as [|n IH]; intros fd H0 Hn; [apply within_ret, _|]. cbn [fork_fds].
  apply within_bind; [apply _|apply within_fork_fd; lia|]. intros _. apply IH; lia.
Qed.

Lemma within_inc_ref_dir v : within R (inc_ref_dir v).
Proof.
  intros s. unfold inc_ref_dir. case_bool_decide; [change (R s s); reflexivity|].
  unfold vnode_inc_ref, upd_vnode, upd_sb, upd. unfold mbind, M_bind. rewrite bool_decide_false by done. cbn -[R].
  unfold deref. rewrite bool_decide_false by done. cbn -[R]. case_bool_decide; [done|].
  split; [by destruct s|by destruct s as [[]]|done].
Qed.

Lemma within_clear_fds n t : 0 <= t -> t + Z.of_nat n <= OPEN_MAX -> within R (clear_fds n p t).
Proof.
  revert t. induction n as [|n IH]; intros t H0 Hn; [apply within_ret, _|]. cbn [clear_fds].
  apply within_bind; [apply _|apply within_set_fword; unfold fd_table, OPEN_MAX in *; lia|]. intros _. apply IH; lia.
Qed.

Lemma within_fork_rest q :
  within R (fork_fds (Z.to_nat OPEN_MAX) p q 0;;
    cur ← fword q fp_current_dir; set_fword p fp_current_dir cur;;
    root ← fword q fp_root_dir; set_fword p fp_root_dir root;;
    inc_ref_dir cur;; inc_ref_dir root;; mret 0).
Proof.
  apply within_bind; [apply _|by apply within_fork_fds|intros _]. apply within_bind; [apply _|apply within_fword|intros cur].
  apply within_bind; [apply _|by apply within_set_fword|intros _]. apply within_bind; [apply _|apply within_fword|intros root].
  apply within_bind; [apply _|by apply within_set_fword|intros _].
  do 2 (apply within_bind; [apply _|apply within_inc_ref_dir|intros _]). apply within_ret, _.
Qed.

Lemma within_init_rest :
  within R (clear_fds (Z.to_nat OPEN_MAX) p 0;; FD_ZERO p fd_in_use_set;; FD_ZERO p fd_close_on_exec_set;; mret 0).
Proof.
  apply within_bind; [apply _|by apply within_clear_fds|intros _]. unfold FD_ZERO.
  do 2 (apply within_bind; [apply _| |intros _]; [apply within_bind; [apply _|by apply within_set_fword|intros _; by apply within_set_fword]|]).
  apply within_ret, _.
Qed.
End Frame.

Lemma within_ret_frame {A} (R : fs -> fs -> Prop) (m : M A) s a s' : within R m -> m s = Ret a s' -> R s s'.
Proof. intros W E. specialize (W s). by rewrite E in W. Qed.

Lemma fork_process_fds_ok newp oldp o s :
  alloc_inv (fmem s) -> newp <> oldp -> fproc s oldp = 0x80000000 + o * PAGE_SIZE -> 0 <= o ->
  o ∉ free_frames (fmem s) ->
  (forall d, d = fp_current_dir \/ d = fp_root_dir -> fw s oldp d = 0 \/ v_superblock (vnodes s (fw s oldp d)) <> 0) ->
  (fork_process_fds newp oldp s = Ret (- ENOMEM) s /\ free_4k_pf_list (fmem s) = [] /\ free_64k_pf_list (fmem s) = []) \/
  exists h m s', fork_process_fds newp oldp s = Ret 0 s' /\ fds_inherited newp oldp s s' /\
    0 <= h < max_pageframe (fmem s) /\ allocated PAGE_SIZE 1 h (fmem s) m /\
    fds_frame newp (s <| fmem := m |> <| fproc := <[newp := 0x80000000 + h * PAGE_SIZE]> (fproc s) |>) s'.
Proof.
  intros I Hne Ho Ho0 Hfree Hd. unfold fork_process_fds.
  destruct (run_kmalloc_page s I) as [(h & m & E & Hh & A)|[E H4]]; rewrite (run_bind _ _ _ _ _ E); [|by left].
  right. rewrite bool_decide_false by (unfold PAGE_SIZE; lia). unfold modify.
  erewrite run_bind by reflexivity. cbv beta.
  set (s1 := (s <| fmem := m |>) <| fproc := <[newp := 0x80000000 + h * PAGE_SIZE]> (fproc (s <| fmem := m |>)) |>).
  assert (Hn1 : fproc s1 newp = 0x80000000 + h * PAGE_SIZE) by apply fn_lookup_insert.
  assert (Ho1 : fproc s1 oldp = fproc s oldp) by (apply (fn_lookup_insert_ne (fproc s)); done).
  assert (Hho : h <> o).
  { intros ->. apply Hfree. rewrite (al_frames _ _ _ _ _ A). apply elem_of_app. left. apply elem_of_seqZ. lia. }
  assert (Hap : apart s1 newp oldp) by (unfold apart; rewrite Hn1, Ho1, Ho; unfold PAGE_SIZE; lia).
  assert (Hw : forall j, 0 <= j < 1024 -> fw s1 oldp j = fw s oldp j).
  { intros j Hj. unfold fw. rewrite Ho1. change (fmem s1) with m. rewrite (al_kmem _ _ _ _ _ A).
    rewrite bool_decide_false; [done|]. rewrite Ho. unfold PAGE_SIZE. lia. }
  destruct (fork_copied newp oldp s1) as (s' & R & F).
  - rewrite Hn1. unfold PAGE_SIZE. lia.
  - rewrite Ho1, Ho. unfold PAGE_SIZE. lia.
  - exact Hap.
  - unfold fw. rewrite Hn1. change (fmem s1) with m. rewrite (al_kmem _ _ _ _ _ A). rewrite bool_decide_true; [done|].
    unfold fp_umask, PAGE_SIZE. lia.
  - intros d Hdd. rewrite Hw by (destruct Hdd as [-> | ->]; unfold fp_current_dir, fp_root_dir; lia). by apply Hd.
  - exists h, m, s'. split; [exact R|]. split; [|split; [done|split; [done|exact (within_ret_frame _ _ _ _ _ (within_fork_rest newp oldp) R)]]].
    assert (HF : forall f, 0 <= f < OPEN_MAX -> fd_filp s1 oldp f = fd_filp s oldp f)
      by (intros f Hf; apply Hw; unfold fd_table, OPEN_MAX in *; lia).
    destruct F as [F1 F2 F3 F4 F5 F6 F7]. split; try done.
    + intros f Hf. destruct (F1 f Hf) as (-> & -> & ->). rewrite (fd_cloexec_apart oldp f s s1) by done. by rewrite HF.
    + intros j Hj. rewrite F2 by done. by apply Hw.
    + intros filp Hf. rewrite F3 by done. do 3 f_equal. apply filter_ext_in. intros f [? ?]%elem_of_seqZ. by rewrite HF by lia.
    + rewrite F4. by apply Hw.
    + rewrite F5. by apply Hw.
    + intros v Hv. rewrite F6 by done. by rewrite !Hw by (unfold fp_current_dir, fp_root_dir; lia).
Qed.

(** C36. [fork_process_fds] gives the child, in a fresh page, the files of all
    descriptors of the parent, in use where there is a file and with the same
    close-on-exec flags, and its directories; each file pointer is counted once
    more for every descriptor on it and each directory once more; the parent's
    table is unchanged.  Without memory it returns -ENOMEM and changes nothing.
    The umask of the child is 0, whatever the parent's. *)
Theorem fork_process_fds_correct newp oldp o s :
  alloc_inv (fmem s) -> newp <> oldp -> fproc s oldp = 0x80000000 + o * PAGE_SIZE -> 0 <= o ->
  o ∉ free_frames (fmem s) ->
  (forall d, d = fp_current_dir \/ d = fp_root_dir -> fw s oldp d = 0 \/ v_superblock (vnodes s (fw s oldp d)) <> 0) ->
  fork_process_fds newp oldp s = Ret (- ENOMEM) s \/
  exists s', fork_process_fds newp oldp s = Ret 0 s' /\ fds_inherited newp oldp s s'.
Proof.
  intros I Hne Ho Ho0 Hfree Hd. destruct (fork_process_fds_ok newp oldp o s) as [[H _]|(h & m & s' & R & F & _)]; eauto.
Qed.

(** Process 1 has descriptor 3 on file pointer 7, its table in page frame 1;
    page frame 2 is free. *)
Definition fs_fork : fs :=
  fs0 <| fproc := fun _ => 0x80001000 |>
      <| filps := fun _ => mkFilp FILP_TYPE_KQUEUE 5 0 0 1 |>
      <| fmem := mkVm (fun a => if bool_decide (a = 0x8000100c) then 7 else 0) (fun _ => Intrusive.Link None None)
           (fun i => mkPageframe 4096 (i * PAGE_SIZE) 0 0 (Intrusive.Header None None)) 4 16384 [2] [] [] 0 (fun _ => 0) |>.

Lemma fs_fork_inv : alloc_inv (fmem fs_fork).
Proof.
  split; try done.
  - vm_compute. repeat constructor. set_solver.
  - intros i Hi. apply list_elem_of_singleton in Hi. subst. vm_compute. split; congruence.
  - intros h Hh. by apply not_elem_of_nil in Hh.
  - intros h Hh. by apply not_elem_of_nil in Hh.
Qed.

Lemma fork_process_fds_correct_witness :
  exists s', fork_process_fds 2 1 fs_fork = Ret 0 s' /\ fd_filp s' 2 3 = 7 /\ fd_filp s' 1 3 = 7 /\
    f_reference_cnt (filps s' 7) = 2.
Proof.
  destruct (fork_process_fds_correct 2 1 1 fs_fork) as [H|(s' & H & F)].
  - exact fs_fork_inv.
  - lia.
  - reflexivity.
  - lia.
  - intros H. apply list_elem_of_singleton in H. discriminate H.
  - intros d [-> | ->]; left; reflexivity.
  - assert (Hc : match fork_process_fds 2 1 fs_fork with Ret r _ => r | _ => 1 end = 0) by (vm_compute; reflexivity).
    rewrite H in Hc. discriminate Hc.
  - exists s'. split; [exact H|]. destruct F as [F1 F2 F3 _ _ _ _]. split; [|split].
    + destruct (F1 3 ltac:(split; [lia|reflexivity])) as (-> & _). reflexivity.
    + change (fw s' 1 3 = 7). rewrite F2 by lia. reflexivity.
    + rewrite F3 by lia. vm_compute. reflexivity.
Defined.
