(* ===== verification/Pipe.v ===== *)
(** * Pipes

    The model of kernel/fs/pipe.c.  The buffer of a pipe is a page of kernel
    memory, a byte at each address. *)

From S2P Require Import Prelude Bytes Lists Page Fs Filp Vnode Kqueue Filedesc.

Definition PIPE_BUF := 512.
Definition PIPE_BUF_SZ := 4096.

Definition alloc_pipe : M Z :=
  l ← gets free_pipe_list;
  match l with
  | [] => mret 0
  | pipe :: l =>
      modify (fun s => s <| free_pipe_list := l |>);;
      data ← kmalloc_page_fs;
      upd_pipe pipe (fun _ => mkPipe data 0 0 PIPE_BUF_SZ 0 0 0);;
      if bool_decide (data = 0) then
        l ← gets free_pipe_list;
        l ← lift (Seq.add_head pipe l);
        modify (fun s => s <| free_pipe_list := l |>);;
        mret 0
      else mret pipe
  end.

(** Only NULL reaches the list, whose links are then written through it. *)
Definition free_pipe (pipe : Z) : M unit := if bool_decide (pipe <> 0) then mret () else fault.

Definition pipe_end (proc fd flags vnode : Z) : M unit :=
  filp ← get_filp proc fd;
  upd_filp filp (fun f => f <| f_type := FILP_TYPE_VNODE |> <| f_offset := 0 |>
                            <| f_flags := flags |> <| f_u := vnode |>).

(** [pipe_sb] is the address of [pipe_sb], [inode] the value of the static
    [pipe_inode_nr] after it is incremented, [ufd] the user's array.  The error
    paths free nothing. *)
Definition sys_pipe (proc pipe_sb inode ufd : Z) : M Z :=
  pipe ← alloc_pipe;
  if bool_decide (pipe = 0) then mret (- ENOMEM)
  else
    vnode ← vnode_new pipe_sb inode;
    if bool_decide (vnode = 0) then mret (- ENOMEM)
    else
      fd0 ← alloc_fd_filp proc;
      if bool_decide (fd0 < 0) then mret (- ENOMEM)
      else
        fd1 ← alloc_fd_filp proc;
        if bool_decide (fd1 < 0) then mret (- ENOMEM)
        else
          pipe_end proc fd0 O_RDONLY vnode;;
          pipe_end proc fd1 O_WRONLY vnode;;
          upd_pipe pipe (fun p => p <| pp_reader_cnt := 1 |> <| pp_writer_cnt := 1 |>);;
          upd_vnode vnode (fun v => v <| v_pipe := pipe |> <| v_mode := Z.lor _IFIFO 0x1ff |>);;
          vnode_unlock vnode;;
          sc ← copyout_bytes ufd (word_bytes fd0 ++ word_bytes fd1);
          mret (if bool_decide (sc <> 0) then - EFAULT else 0).

(** The copies of one round of [read_from_pipe]: [CopyOut(dst, data + r_pos, sz1)]
    when the data wraps, then [CopyOut(dst, data, sz2)].  The result is 0 or
    the status. *)
Definition pipe_copyout (dst data pos n : Z) : M Z :=
  let wraps := bool_decide (pos + n > PIPE_BUF_SZ) in
  let sz1 := PIPE_BUF_SZ - pos in
  sc ← (if wraps then CopyOut dst (data + pos) sz1 else mret 0);
  if bool_decide (sc <> 0) then mret (- EIO)
  else
    let sz2 := if wraps then n - sz1 else n in
    if bool_decide (sz2 = 0) then mret 0
    else
      sc ← CopyOut dst data sz2;
      mret (if bool_decide (sc <> 0) then - EIO else 0).

Definition pipe_copyin (src data pos n : Z) : M Z :=
  let wraps := bool_decide (pos + n > PIPE_BUF_SZ) in
  let sz1 := PIPE_BUF_SZ - pos in
  sc ← (if wraps then CopyIn (data + pos) src sz1 else mret 0);
  if bool_decide (sc <> 0) then mret (- EIO)
  else
    let sz2 := if wraps then n - sz1 else n in
    if bool_decide (sz2 = 0) then mret 0
    else
      sc ← CopyIn data (if wraps then src + sz1 else src) sz2;
      mret (if bool_decide (sc <> 0) then - EIO else 0).

(** How a round of the transfer loops ends. *)
Inductive round :=
| Done (n : Z)            (** [n] bytes were moved *)
| Break                   (** the end of the pipe *)
| Failed (status : Z).

(** One round of the loop of [read_from_pipe]; [nbytes_read] is 0 in it. *)
Definition read_round (vnode dst sz : Z) : M round :=
  v ← deref vnodes vnode;
  let pipe := v_pipe v in
  p ← deref pipes pipe;
  sleep_while (bool_decide (data_sz p = 0 /\ pp_writer_cnt p > 0)) (RPipe pipe);;
  if bool_decide (pp_writer_cnt p = 0 /\ data_sz p = 0) then mret Break
  else
    let n := if bool_decide (sz < u32 (data_sz p)) then sz else data_sz p in
    sc ← pipe_copyout dst (pp_data p) (r_pos p) n;
    if bool_decide (sc <> 0) then mret (Failed sc)
    else
      upd_pipe pipe (fun p => p <| r_pos := Z.rem (r_pos p + n) PIPE_BUF_SZ |>
                                <| data_sz := data_sz p - n |> <| free_sz := free_sz p + n |>);;
      wakeup (RPipe pipe);;
      mret (Done n).

Definition write_round (vnode src sz : Z) : M round :=
  v ← deref vnodes vnode;
  let pipe := v_pipe v in
  p ← deref pipes pipe;
  sleep_while (bool_decide (free_sz p < PIPE_BUF /\ pp_reader_cnt p > 0)) (RPipe pipe);;
  if bool_decide (pp_reader_cnt p = 0) then mret Break
  else
    let n := if bool_decide (sz < u32 (free_sz p)) then sz else free_sz p in
    sc ← pipe_copyin src (pp_data p) (w_pos p) n;
    if bool_decide (sc <> 0) then mret (Failed sc)
    else
      upd_pipe pipe (fun p => p <| w_pos := Z.rem (w_pos p + n) PIPE_BUF_SZ |>
                                <| data_sz := data_sz p + n |> <| free_sz := free_sz p - n |>);;
      wakeup (RPipe pipe);;
      mret (Done n).

(** The loops: [None] when [fuel] rounds did not end them. *)
Fixpoint transfer (fuel : nat) (body : M round) : M (option Z) :=
  match fuel with
  | O => mret None
  | S fuel =>
      r ← body;
      match r with
      | Done n => if bool_decide (n = 0) then transfer fuel body else mret (Some n)
      | Break => mret (Some 0)
      | Failed status => mret (Some status)
      end
  end.

Definition read_from_pipe (fuel : nat) (vnode dst sz : Z) : M (option Z) := transfer fuel (read_round vnode dst sz).
Definition write_to_pipe (fuel : nat) (vnode src sz : Z) : M (option Z) := transfer fuel (write_round vnode src sz).

(** ** Termination of the transfers *)

(** The counters of a pipe. *)
Definition pipe_ok (p : Pipe) : Prop :=
  0 <= data_sz p /\ 0 <= free_sz p /\ data_sz p + free_sz p = PIPE_BUF_SZ /\
  0 <= r_pos p < PIPE_BUF_SZ /\ 0 <= w_pos p < PIPE_BUF_SZ.

(** A round of a read of [sz] bytes moves some, ends the loop or sleeps. *)
Lemma pipe_copyout_total dst data pos n s :
  exists sc m, pipe_copyout dst data pos n s = Ret sc (s <| umem := m |>) /\ (sc = 0 \/ sc = - EIO).
Proof.
  unfold pipe_copyout, CopyOut. cbv zeta. destruct (bool_decide (pos + n > PIPE_BUF_SZ)).
  - destruct (copyout_total (Z.to_nat (PIPE_BUF_SZ - pos)) dst (data + pos) s) as (r & m & E).
    rewrite (run_bind _ _ _ _ _ E). case_bool_decide; [exists (- EIO), m; by auto|].
    case_bool_decide; [exists 0, m; by auto|].
    destruct (copyout_total (Z.to_nat (n - (PIPE_BUF_SZ - pos))) dst data (s <| umem := m |>)) as (r' & m' & E').
    rewrite (run_bind _ _ _ _ _ E'). exists (if bool_decide (r' <> 0) then - EIO else 0), m'. split; [done|].
    case_bool_decide; auto.
  - rewrite (run_bind _ _ _ _ _ (run_ret _ _)). rewrite bool_decide_false by (intros H; by apply H).
    case_bool_decide; [exists 0, (umem s); split; [by destruct s|by auto]|].
    destruct (copyout_total (Z.to_nat n) dst data s) as (r & m & E). rewrite (run_bind _ _ _ _ _ E).
    exists (if bool_decide (r <> 0) then - EIO else 0), m. split; [done|]. case_bool_decide; auto.
Qed.

Lemma read_round_ok vnode dst sz s :
  let pipe := v_pipe (vnodes s vnode) in
  let p := pipes s pipe in
  vnode <> 0 -> pipe <> 0 -> pipe_ok p -> 0 <= sz ->
  (data_sz p = 0 /\ pp_writer_cnt p > 0 /\ read_round vnode dst sz s = Sleep (RPipe pipe) s) \/
  (data_sz p = 0 /\ pp_writer_cnt p = 0 /\ read_round vnode dst sz s = Ret Break s) \/
  (exists s', (data_sz p <> 0 \/ pp_writer_cnt p < 0) /\ read_round vnode dst sz s = Ret (Failed (- EIO)) s' /\
     pipe_copyout dst (pp_data p) (r_pos p) (Z.min sz (data_sz p)) s = Ret (- EIO) s') \/
  (exists m, (data_sz p <> 0 \/ pp_writer_cnt p < 0) /\
     let n := Z.min sz (data_sz p) in
     read_round vnode dst sz s = Ret (Done n) (s <| umem := m |>
       <| pipes := <[pipe := p <| r_pos := Z.rem (r_pos p + n) PIPE_BUF_SZ |>
            <| data_sz := data_sz p - n |> <| free_sz := free_sz p + n |>]> (pipes s) |>
       <| woken := woken s ++ [RPipe pipe] |>) /\
     exists sc, pipe_copyout dst (pp_data p) (r_pos p) n s = Ret sc (s <| umem := m |>) /\ sc = 0).
Proof.
  intros pipe p Hv Hp (Hd & Hf & Hsum & _) Hsz. unfold read_round.
  rewrite (run_bind _ _ _ _ _ (run_deref _ _ _ Hv)). cbv zeta. fold pipe.
  rewrite (run_bind _ _ _ _ _ (run_deref _ _ _ Hp)). fold p. unfold sleep_while.
  destruct (decide (data_sz p = 0 /\ pp_writer_cnt p > 0)) as [[Hs1 Hs2]|Hs].
  { left. split; [exact Hs1|]. split; [exact Hs2|]. apply run_bind_sleep. by rewrite bool_decide_true. }
  rewrite (bool_decide_false (data_sz p = 0 /\ pp_writer_cnt p > 0)) by done. rewrite (run_bind _ _ _ _ _ (run_ret _ _)).
  destruct (decide (pp_writer_cnt p = 0 /\ data_sz p = 0)) as [[Hb1 Hb2]|Hb].
  { right; left. split; [exact Hb2|]. split; [exact Hb1|]. by rewrite bool_decide_true. }
  rewrite (bool_decide_false (pp_writer_cnt p = 0 /\ data_sz p = 0)) by done.
  assert (Hor : data_sz p <> 0 \/ pp_writer_cnt p < 0) by lia.
  unfold PIPE_BUF_SZ in Hsum. rewrite uwrap_small by lia.
  set (n := if bool_decide (sz < data_sz p) then sz else data_sz p).
  assert (Hn : n = Z.min sz (data_sz p)) by (subst n; case_bool_decide; lia). rewrite Hn.
  destruct (pipe_copyout_total dst (pp_data p) (r_pos p) (Z.min sz (data_sz p)) s) as (sc & m & E & Hsc).
  rewrite (run_bind _ _ _ _ _ E). destruct Hsc as [-> | ->].
  - right; right; right. exists m. split; [done|]. cbv zeta. split; [|by exists 0].
    rewrite bool_decide_false by (intros H; by apply H). unfold upd_pipe.
    rewrite (run_bind _ _ _ _ _ (run_upd _ _ _ _ _ Hp)). reflexivity.
  - right; right; left. eexists. split; [done|]. split; [|exact E]. rewrite bool_decide_true by done. reflexivity.
Qed.

Lemma rem_pos a n : 0 <= a < PIPE_BUF_SZ -> 0 <= n -> 0 <= Z.rem (a + n) PIPE_BUF_SZ < PIPE_BUF_SZ.
Proof. unfold PIPE_BUF_SZ. intros Ha Hn. apply Z.rem_bound_pos; lia. Qed.

(** A round that has nothing to copy, though it neither sleeps nor sees the end of
    the file, is followed by another like it: no number of rounds ends the loop. *)
Lemma read_spins fuel vnode dst sz s :
  let pipe := v_pipe (vnodes s vnode) in
  let p := pipes s pipe in
  vnode <> 0 -> pipe <> 0 -> pipe_ok p -> 0 <= sz -> Z.min sz (data_sz p) = 0 -> data_sz p <> 0 \/ pp_writer_cnt p < 0 ->
  exists s', read_from_pipe fuel vnode dst sz s = Ret None s'.
Proof.
  revert s. induction fuel as [|fuel IH]; intros s pipe p Hv Hp Hok Hsz Hmin Hor; [by exists s|].
  unfold read_from_pipe. cbn [transfer].
  assert (Ec : pipe_copyout dst (pp_data p) (r_pos p) 0 s = Ret 0 s).
  { destruct Hok as (_ & _ & _ & Hr & _). unfold pipe_copyout, PIPE_BUF_SZ in *. cbv zeta.
    rewrite (bool_decide_false (r_pos p + 0 > 4096)) by lia. reflexivity. }
  destruct (read_round_ok vnode dst sz s Hv Hp Hok Hsz)
    as [(H1 & H2 & _)|[(H1 & H2 & _)|[(s' & _ & E & Ef)|(m & _ & E & _)]]].
  - fold pipe p in H1, H2. lia.
  - fold pipe p in H1, H2. lia.
  - fold pipe p in Ef. rewrite Hmin, Ec in Ef. discriminate Ef.
  - fold pipe p in E. cbv zeta in E. rewrite Hmin in E. rewrite (run_bind _ _ _ _ _ E), bool_decide_true by done.
    destruct Hok as (H2 & H3 & H4 & H5 & H6).
    apply IH; [done|done| |done|..]; cbn; fold pipe; rewrite fn_lookup_insert; cbn.
    + split; [cbn; lia|]. split; [cbn; lia|]. split; [cbn; lia|]. split; [|done]. apply rem_pos; [done|lia].
    + rewrite Z.sub_0_r. exact Hmin.
    + rewrite Z.sub_0_r. exact Hor.
Qed.


(** A pipe, 8, of the vnode 6, with [n] bytes in it. *)
Definition fs_pipe (n : Z) : fs :=
  fs0 <| vnodes := fun _ => mkVNode false 0 0 3 0 1 0 0 8 0 0x11ff 0 0 0 0 0 0 0 0 0 0 [] [] [] [] |>
      <| pipes := fun _ => mkPipe 100000 n 0 (PIPE_BUF_SZ - n) n 1 1 |>.

Lemma fs_pipe_ok : pipe_ok (pipes (fs_pipe 7) 8).
Proof.
  split; [cbn; lia|]. split; [cbn; unfold PIPE_BUF_SZ; lia|]. split; [reflexivity|]. cbn. unfold PIPE_BUF_SZ. lia.
Qed.


(** A read of zero bytes from a pipe that has data never returns: each round
    of the loop copies nothing and leaves [nbytes_read] at 0, so that no number
    of rounds ends it. *)
Theorem read_zero_diverges fuel vnode dst s :
  let pipe := v_pipe (vnodes s vnode) in
  vnode <> 0 -> pipe <> 0 -> pipe_ok (pipes s pipe) -> data_sz (pipes s pipe) <> 0 ->
  exists s', read_from_pipe fuel vnode dst 0 s = Ret None s'.
Proof.
  intros pipe Hv Hp Hok Hd. apply read_spins; try done; [|by left]. apply Z.min_l, Hok.
Qed.

Lemma read_zero_diverges_witness : exists s', read_from_pipe 100 6 500 0 (fs_pipe 7) = Ret None s'.
Proof.
  exact (read_zero_diverges 100 6 500 (fs_pipe 7) ltac:(lia) ltac:(intros H; discriminate H) fs_pipe_ok
    ltac:(intros H; discriminate H)).
Defined.

(** ** What is read is what was written *)

(** A write that fits without wrapping puts its bytes at the start of the
    buffer, wherever [w_pos] is. *)
Lemma run_write vnode src n s :
  let pipe := v_pipe (vnodes s vnode) in
  let p := pipes s pipe in
  vnode <> 0 -> pipe <> 0 -> pipe_ok p -> PIPE_BUF <= free_sz p -> pp_reader_cnt p <> 0 ->
  0 < n <= free_sz p -> w_pos p + n <= PIPE_BUF_SZ -> (forall a, src <= a < src + n -> uvalid s a = true) ->
  exists m, write_to_pipe 1 vnode src n s = Ret (Some n) (s <| fmem := fmem s <| kmem := m |> |>
      <| pipes := <[pipe := p <| w_pos := Z.rem (w_pos p + n) PIPE_BUF_SZ |>
           <| data_sz := data_sz p + n |> <| free_sz := free_sz p - n |>]> (pipes s) |>
      <| woken := woken s ++ [RPipe pipe] |>) /\
    forall a, m a = if bool_decide (pp_data p <= a < pp_data p + n) then umem s (src + (a - pp_data p)) else kmem (fmem s) a.
Proof.
  intros pipe p Hv Hp (Hd & Hf & Hsum & _) Hfree Hr Hn Hw Hu.
  destruct (copyin_ok (Z.to_nat n) (pp_data p) src s) as (m & E & Hm); [intros a Ha; apply Hu; lia|].
  exists m. split; [|intros a; rewrite Hm; by rewrite Z2Nat.id by lia].
  assert (Ec : pipe_copyin src (pp_data p) (w_pos p) n s = Ret 0 (s <| fmem := fmem s <| kmem := m |> |>)).
  { unfold pipe_copyin. cbv zeta. rewrite !(bool_decide_false (w_pos p + n > PIPE_BUF_SZ)) by lia.
    rewrite (run_bind _ _ _ _ _ (run_ret _ _)), (bool_decide_false (0 <> 0)), (bool_decide_false (n = 0)) by lia.
    unfold CopyIn. by rewrite (run_bind _ _ _ _ _ E). }
  unfold write_to_pipe. cbn [transfer].
  assert (Er : write_round vnode src n s = Ret (Done n) (s <| fmem := fmem s <| kmem := m |> |>
      <| pipes := <[pipe := p <| w_pos := Z.rem (w_pos p + n) PIPE_BUF_SZ |>
           <| data_sz := data_sz p + n |> <| free_sz := free_sz p - n |>]> (pipes s) |>
      <| woken := woken s ++ [RPipe pipe] |>)).
  { unfold write_round. rewrite (run_bind _ _ _ _ _ (run_deref _ _ _ Hv)). cbv zeta. fold pipe.
    rewrite (run_bind _ _ _ _ _ (run_deref _ _ _ Hp)). fold p. unfold sleep_while.
    rewrite (bool_decide_false (free_sz p < PIPE_BUF /\ _)) by lia. rewrite (run_bind _ _ _ _ _ (run_ret _ _)).
    rewrite (bool_decide_false (pp_reader_cnt p = 0)) by done. unfold PIPE_BUF_SZ in Hsum. rewrite uwrap_small by lia.
    replace (if bool_decide (n < free_sz p) then n else free_sz p) with n by (case_bool_decide; lia).
    rewrite (run_bind _ _ _ _ _ Ec), (bool_decide_false (0 <> 0)) by lia. unfold upd_pipe.
    rewrite (run_bind _ _ _ _ _ (run_upd _ _ _ _ _ Hp)). reflexivity. }
  rewrite (run_bind _ _ _ _ _ Er). by rewrite bool_decide_false by lia.
Qed.

(** A read that does not wrap takes the bytes at the start of the buffer,
    wherever [r_pos] is. *)
Lemma run_read vnode dst sz n s :
  let pipe := v_pipe (vnodes s vnode) in
  let p := pipes s pipe in
  vnode <> 0 -> pipe <> 0 -> pipe_ok p -> 0 < n -> n = Z.min sz (data_sz p) ->
  r_pos p + n <= PIPE_BUF_SZ -> (forall a, dst <= a < dst + n -> uvalid s a = true) ->
  exists s', read_from_pipe 1 vnode dst sz s = Ret (Some n) s' /\
    forall a, dst <= a < dst + n -> umem s' a = kmem (fmem s) (pp_data p + (a - dst)).
Proof.
  intros pipe p Hv Hp Hok Hn -> Hr Hu.
  destruct (copyout_ok (Z.to_nat (Z.min sz (data_sz p))) dst (pp_data p) s) as (m & E & Hm); [intros a Ha; apply Hu; lia|].
  assert (Ec : pipe_copyout dst (pp_data p) (r_pos p) (Z.min sz (data_sz p)) s = Ret 0 (s <| umem := m |>)).
  { unfold pipe_copyout. cbv zeta. rewrite !(bool_decide_false (r_pos p + _ > PIPE_BUF_SZ)) by lia.
    rewrite (run_bind _ _ _ _ _ (run_ret _ _)), (bool_decide_false (0 <> 0)), (bool_decide_false (_ = 0)) by lia.
    unfold CopyOut. by rewrite (run_bind _ _ _ _ _ E). }
  eexists. split.
  - unfold read_from_pipe. cbn [transfer]. erewrite run_bind.
    2: { unfold read_round. rewrite (run_bind _ _ _ _ _ (run_deref _ _ _ Hv)). cbv zeta. fold pipe.
         rewrite (run_bind _ _ _ _ _ (run_deref _ _ _ Hp)). fold p. unfold sleep_while.
         rewrite (bool_decide_false (data_sz p = 0 /\ _)) by lia. rewrite (run_bind _ _ _ _ _ (run_ret _ _)).
         rewrite (bool_decide_false (pp_writer_cnt p = 0 /\ _)) by lia.
         destruct Hok as (_ & Hf & Hsum & _). unfold PIPE_BUF_SZ in Hsum. rewrite uwrap_small by lia.
         replace (if bool_decide (sz < data_sz p) then sz else data_sz p) with (Z.min sz (data_sz p)) by (case_bool_decide; lia).
         rewrite (run_bind _ _ _ _ _ Ec), (bool_decide_false (0 <> 0)) by lia. unfold upd_pipe.
         rewrite (run_bind _ _ _ _ _ (run_upd _ _ _ _ _ Hp)). reflexivity. }
    cbv beta iota. rewrite bool_decide_false by lia. reflexivity.
  - intros a Ha. cbn. rewrite Hm. rewrite bool_decide_true; [done|]. lia.
Qed.

(** C39. On a fresh pipe, a write followed by a read of at least as many bytes
    returns what was written. *)
Theorem pipe_roundtrip vnode src dst n sz s :
  let pipe := v_pipe (vnodes s vnode) in
  let p := pipes s pipe in
  vnode <> 0 -> pipe <> 0 -> w_pos p = 0 -> r_pos p = 0 -> data_sz p = 0 -> free_sz p = PIPE_BUF_SZ -> pp_reader_cnt p <> 0 ->
  0 < n <= PIPE_BUF_SZ -> n <= sz -> (forall a, src <= a < src + n \/ dst <= a < dst + n -> uvalid s a = true) ->
  exists s1 s2, write_to_pipe 1 vnode src n s = Ret (Some n) s1 /\ read_from_pipe 1 vnode dst sz s1 = Ret (Some n) s2 /\
    forall i, 0 <= i < n -> umem s2 (dst + i) = umem s (src + i).
Proof.
  intros pipe p Hv Hp Hw Hr Hd Hf Hrd Hn Hsz Hu.
  destruct (run_write vnode src n s Hv Hp) as (m & E & Hm); fold pipe p; rewrite ?Hf, ?Hw; try done; try (unfold PIPE_BUF, PIPE_BUF_SZ in *; lia).
  { unfold pipe_ok. rewrite Hd, Hf, Hw, Hr. unfold PIPE_BUF_SZ. lia. }
  { intros a Ha. apply Hu. by left. }
  fold pipe p in E, Hm. match type of E with _ = Ret _ ?x => set (s1 := x) in E end.
  assert (Hp1 : pipes s1 pipe = p <| w_pos := Z.rem (w_pos p + n) PIPE_BUF_SZ |> <| data_sz := data_sz p + n |>
    <| free_sz := free_sz p - n |>) by (subst s1; cbn; by rewrite fn_lookup_insert).
  assert (Hok : pipe_ok (pipes s1 pipe)).
  { rewrite Hp1. pose proof (rem_pos (w_pos p) n ltac:(rewrite Hw; unfold PIPE_BUF_SZ; lia) ltac:(lia)) as Hrem.
    unfold pipe_ok. cbn [data_sz free_sz r_pos w_pos update_field]. cbn. rewrite Hd, Hf, Hr. unfold PIPE_BUF_SZ in *.
    split; [lia|]. split; [lia|]. split; [lia|]. split; [lia|exact Hrem]. }
  assert (Hn1 : n = Z.min sz (data_sz (pipes s1 pipe))) by (rewrite Hp1; cbn; rewrite Hd; lia).
  assert (Hr1 : r_pos (pipes s1 pipe) + n <= PIPE_BUF_SZ) by (rewrite Hp1; cbn; rewrite Hr; lia).
  destruct (run_read vnode dst sz n s1 Hv Hp Hok ltac:(lia) Hn1 Hr1) as (s2 & E2 & H2).
  { intros a Ha. apply Hu. by right. }
  exists s1, s2. split; [exact E|]. split; [exact E2|]. intros i Hi. rewrite H2 by lia.
  change (v_pipe (vnodes s1 vnode)) with pipe. rewrite Hp1. change (kmem (fmem s1)) with m. cbn.
  rewrite Hm, bool_decide_true by lia. f_equal. lia.
Qed.

Lemma pipe_roundtrip_witness :
  exists s1 s2, write_to_pipe 1 6 500 3 (fs_pipe 0 <| umem := fun a => a |>) = Ret (Some 3) s1 /\
    read_from_pipe 1 6 900 10 s1 = Ret (Some 3) s2 /\ umem s2 901 = 501.
Proof.
  destruct (pipe_roundtrip 6 500 900 3 10 (fs_pipe 0 <| umem := fun a => a |>)) as (s1 & s2 & H1 & H2 & H3);
    try reflexivity; try lia; try (intros H; discriminate H).
  - unfold PIPE_BUF_SZ. lia.
  - exists s1, s2. split; [exact H1|]. split; [exact H2|]. exact (H3 1 ltac:(lia)).
Defined.

(** A second write overwrites the first: of two writes to a fresh pipe, the
    second is copied to the start of the buffer instead of to [w_pos], so that
    a reader that then takes as many bytes as the first write gave it gets the
    bytes of the second one in their place. *)
Theorem pipe_second_write_overwrites vnode src1 src2 dst n1 n2 s :
  let pipe := v_pipe (vnodes s vnode) in
  let p := pipes s pipe in
  vnode <> 0 -> pipe <> 0 -> w_pos p = 0 -> r_pos p = 0 -> data_sz p = 0 -> free_sz p = PIPE_BUF_SZ -> pp_reader_cnt p <> 0 ->
  0 < n2 <= n1 -> n1 <= 2048 -> (forall a, uvalid s a = true) ->
  exists s1 s2 s3, write_to_pipe 1 vnode src1 n1 s = Ret (Some n1) s1 /\ write_to_pipe 1 vnode src2 n2 s1 = Ret (Some n2) s2 /\
    read_from_pipe 1 vnode dst n1 s2 = Ret (Some n1) s3 /\
    forall i, 0 <= i < n2 -> umem s3 (dst + i) = umem s (src2 + i).
Proof.
  intros pipe p Hv Hp Hw Hr Hd Hf Hrd Hn Hn1 Hu.
  assert (Hok : pipe_ok p) by (unfold pipe_ok; rewrite Hd, Hf, Hw, Hr; unfold PIPE_BUF_SZ; lia).
  destruct (run_write vnode src1 n1 s Hv Hp Hok) as (m1 & E1 & Hm1); fold pipe p; rewrite ?Hf, ?Hw; try done;
    try (unfold PIPE_BUF, PIPE_BUF_SZ in *; lia). fold pipe p in E1, Hm1.
  match type of E1 with _ = Ret _ ?x => set (s1 := x) in E1 end.
  assert (Hrem : Z.rem (0 + n1) PIPE_BUF_SZ = n1) by (apply Z.rem_small; unfold PIPE_BUF_SZ; lia).
  assert (Hp1 : pipes s1 pipe = p <| w_pos := n1 |> <| data_sz := n1 |> <| free_sz := PIPE_BUF_SZ - n1 |>).
  { subst s1. cbn. rewrite fn_lookup_insert, Hw, Hd, Hf, Hrem. reflexivity. }
  assert (Hok1 : pipe_ok (pipes s1 pipe)) by (rewrite Hp1; unfold pipe_ok; cbn; rewrite Hr; unfold PIPE_BUF_SZ; lia).
  destruct (run_write vnode src2 n2 s1 Hv Hp Hok1) as (m2 & E2 & Hm2).
  { change (v_pipe (vnodes s1 vnode)) with pipe. rewrite Hp1. cbn. unfold PIPE_BUF, PIPE_BUF_SZ. lia. }
  { change (v_pipe (vnodes s1 vnode)) with pipe. rewrite Hp1. exact Hrd. }
  { change (v_pipe (vnodes s1 vnode)) with pipe. rewrite Hp1. cbn. unfold PIPE_BUF_SZ. lia. }
  { change (v_pipe (vnodes s1 vnode)) with pipe. rewrite Hp1. cbn. unfold PIPE_BUF_SZ. lia. }
  { intros a _. apply Hu. }
  change (v_pipe (vnodes s1 vnode)) with pipe in E2, Hm2. match type of E2 with _ = Ret _ ?x => set (s2 := x) in E2 end.
  assert (Hp2 : pipes s2 pipe = p <| w_pos := Z.rem (n1 + n2) PIPE_BUF_SZ |> <| data_sz := n1 + n2 |>
    <| free_sz := PIPE_BUF_SZ - n1 - n2 |>).
  { transitivity (pipes s1 pipe <| w_pos := Z.rem (w_pos (pipes s1 pipe) + n2) PIPE_BUF_SZ |>
      <| data_sz := data_sz (pipes s1 pipe) + n2 |> <| free_sz := free_sz (pipes s1 pipe) - n2 |>).
    - exact (fn_lookup_insert (pipes s1) pipe _).
    - rewrite Hp1. reflexivity. }
  assert (Hok2 : pipe_ok (pipes s2 pipe)).
  { rewrite Hp2. pose proof (rem_pos n1 n2 ltac:(unfold PIPE_BUF_SZ; lia) ltac:(lia)) as Hb. unfold pipe_ok. cbn. rewrite Hr.
    unfold PIPE_BUF_SZ in *. split; [lia|]. split; [lia|]. split; [lia|]. split; [lia|exact Hb]. }
  destruct (run_read vnode dst n1 n1 s2 Hv Hp Hok2) as (s3 & E3 & H3).
  { lia. }
  { change (v_pipe (vnodes s2 vnode)) with pipe. rewrite Hp2. cbn. lia. }
  { change (v_pipe (vnodes s2 vnode)) with pipe. rewrite Hp2. cbn. rewrite Hr. unfold PIPE_BUF_SZ. lia. }
  { intros a _. apply Hu. }
  exists s1, s2, s3. split; [exact E1|]. split; [exact E2|]. split; [exact E3|]. intros i Hi. rewrite H3 by lia.
  change (v_pipe (vnodes s2 vnode)) with pipe. rewrite Hp2. change (kmem (fmem s2)) with m2. rewrite Hp1 in Hm2.
  rewrite Hm2. cbn. rewrite bool_decide_true by lia. f_equal. lia.
Qed.

Lemma pipe_second_write_overwrites_witness :
  exists s1 s2 s3, write_to_pipe 1 6 500 3 (fs_pipe 0 <| umem := fun a => a |>) = Ret (Some 3) s1 /\
    write_to_pipe 1 6 700 2 s1 = Ret (Some 2) s2 /\ read_from_pipe 1 6 900 3 s2 = Ret (Some 3) s3 /\ umem s3 900 = 700.
Proof.
  destruct (pipe_second_write_overwrites 6 500 700 900 3 2 (fs_pipe 0 <| umem := fun a => a |>)) as (s1 & s2 & s3 & H1 & H2 & H3 & H4);
    try reflexivity; try lia; try (intros H; discriminate H).
  exists s1, s2, s3. split; [exact H1|]. split; [exact H2|]. split; [exact H3|]. exact (H4 0 ltac:(lia)).
Defined.
