(* ===== verification/Str.v ===== *)
(** * Strings

    The model of kernel/utility/string.c, on the bytes of memory, and of
    CopyInString of boards/raspberry_pi_4/arm.S.  [char] is unsigned, as on ARM.
    A loop over a string that is not terminated does not end: the loops take a
    number of rounds and have no result when it does not suffice.  [cstr] says
    which string is at an address, and each function is shown to be the function
    on strings that it is meant to be. *)

From S2P Require Import Prelude Bytes Lists Page Fs.

(** ** string.c *)

Fixpoint strlen_loop (fuel : nat) (m : Z -> Z) (s len : Z) : option Z :=
  match fuel with
  | O => None
  | S fuel => if bool_decide (m s <> 0) then strlen_loop fuel m (s + 1) (len + 1) else Some len
  end.
Definition StrLen (fuel : nat) (m : Z -> Z) (s : Z) : option Z := strlen_loop fuel m s 0.

Fixpoint StrCmp (fuel : nat) (m : Z -> Z) (s t : Z) : option Z :=
  match fuel with
  | O => None
  | S fuel =>
      if bool_decide (m s = m t) then
        if bool_decide (m s = 0) then Some (m s - m t) else StrCmp fuel m (s + 1) (t + 1)
      else Some (m s - m t)
  end.

(** NULL is 0. *)
Fixpoint StrChr (fuel : nat) (m : Z -> Z) (c ch : Z) : option Z :=
  match fuel with
  | O => None
  | S fuel =>
      if bool_decide (m c <> 0) then
        if bool_decide (m c = ch) then Some c else StrChr fuel m (c + 1) ch
      else Some 0
  end.

(** The loops of StrLCat: to the end of [dst], and over [src]. *)
Fixpoint strlcat_end (n : nat) (m : Z -> Z) (d : Z) : Z :=
  match n with
  | O => d
  | S n => if bool_decide (m d <> 0) then strlcat_end n m (d + 1) else d
  end.
Fixpoint strlcat_copy (fuel : nat) (d s n : Z) (m : Z -> Z) : option (Z * Z * (Z -> Z)) :=
  match fuel with
  | O => None
  | S fuel =>
      if bool_decide (m s <> 0) then
        if bool_decide (n <> 1) then strlcat_copy fuel (d + 1) (s + 1) (n - 1) (<[d := m s]> m)
        else strlcat_copy fuel d (s + 1) n m
      else Some (d, s, m)
  end.
Definition StrLCat (fuel : nat) (dst src siz : Z) (m : Z -> Z) : option (Z * (Z -> Z)) :=
  let d := strlcat_end (Z.to_nat siz) m dst in
  let dlen := d - dst in
  let n := siz - dlen in
  if bool_decide (n = 0) then len ← StrLen fuel m src; Some (dlen + len, m)
  else
    '(d, s, m) ← strlcat_copy fuel d src n m;
    Some (dlen + (s - src), <[d := 0]> m).

(** The [do] loop of StrLCpy with [n] bytes left: the end addresses, what is
    left of [n], and the memory. *)
Fixpoint strlcpy_copy (n : nat) (d s : Z) (m : Z -> Z) : Z * Z * nat * (Z -> Z) :=
  match n with
  | O => (d, s, O, m)
  | S n' =>
      let m' := <[d := m s]> m in
      if bool_decide (m s = 0) then (d + 1, s + 1, n, m') else strlcpy_copy n' (d + 1) (s + 1) m'
  end.
(** [while ( *s++) ;] *)
Fixpoint strlcpy_skip (fuel : nat) (m : Z -> Z) (s : Z) : option Z :=
  match fuel with
  | O => None
  | S fuel => if bool_decide (m s <> 0) then strlcpy_skip fuel m (s + 1) else Some (s + 1)
  end.
Definition StrLCpy (fuel : nat) (dst src siz : Z) (m : Z -> Z) : option (Z * (Z -> Z)) :=
  let '(d, s, n, m) := strlcpy_copy (Z.to_nat (siz - 1)) dst src m in
  if bool_decide (n = O) then
    let m := if bool_decide (siz <> 0) then <[d := 0]> m else m in
    s ← strlcpy_skip fuel m s;
    Some (s - src - 1, m)
  else Some (s - src - 1, m).

(** ** CopyInString *)

Fixpoint copyinstring_loop (n : nat) (dst src : Z) : M Z :=
  match n with
  | O => mret (-1)
  | S n =>
      ok ← gets (fun s => uvalid s src);
      if ok : bool then
        c ← gets (fun s => umem s src);
        modify (fun s => s <| fmem := fmem s <| kmem := <[dst := c]> (kmem (fmem s)) |> |>);;
        if bool_decide (c = 0) then mret 0 else copyinstring_loop n (dst + 1) (src + 1)
      else mret (-1)
  end.
Definition CopyInString (dst src sz : Z) : M Z := copyinstring_loop (Z.to_nat sz) dst src.

(** ** Strings as lists of characters *)

Fixpoint cstr (m : Z -> Z) (a : Z) (l : list Z) : Prop :=
  match l with
  | [] => m a = 0
  | c :: l => c <> 0 /\ m a = c /\ cstr m (a + 1) l
  end.

Fixpoint str_cmp (s t : list Z) : Z :=
  match s, t with
  | [], [] => 0
  | [], y :: _ => 0 - y
  | x :: _, [] => x - 0
  | x :: s, y :: t => if bool_decide (x = y) then str_cmp s t else x - y
  end.

Fixpoint str_chr (a : Z) (l : list Z) (ch : Z) : Z :=
  match l with
  | [] => 0
  | c :: l => if bool_decide (c = ch) then a else str_chr (a + 1) l ch
  end.

Lemma cstr_ext m m' a l :
  (forall i, a <= i <= a + Z.of_nat (length l) -> m' i = m i) -> cstr m a l -> cstr m' a l.
Proof.
  revert a. induction l as [|c l IH]; intros a H; cbn in *; [rewrite H by lia; done|].
  intros (Hc & E & Hl). split_and!; [done|by rewrite H by lia|]. apply IH; [|done]. intros i Hi. apply H. lia.
Qed.

Lemma cstr_unique m a l l' : cstr m a l -> cstr m a l' -> l = l'.
Proof.
  revert a l'. induction l as [|c l IH]; intros a [|c' l']; cbn; [done|naive_solver..|].
  intros (Hc & E & Hl) (Hc' & E' & Hl'). f_equal; [congruence|]. eauto.
Qed.

(** The bytes of a string. *)
Lemma cstr_lookup m a l i c : cstr m a l -> l !! i = Some c -> m (a + Z.of_nat i) = c /\ c <> 0.
Proof.
  revert a i. induction l as [|x l IH]; intros a i Hs Hi; [done|]. destruct Hs as (Hx & E & Hl).
  destruct i as [|i]; cbn in Hi; [simplify_eq; by rewrite Z.add_0_r|].
  destruct (IH _ _ Hl Hi) as [<- ?]. split; [f_equal; lia|done].
Qed.

Lemma cstr_end m a l : cstr m a l -> m (a + Z.of_nat (length l)) = 0.
Proof.
  revert a. induction l as [|x l IH]; intros a Hs; cbn in *; [by rewrite Z.add_0_r|].
  destruct Hs as (_ & _ & Hl). rewrite <- (IH _ Hl). f_equal. lia.
Qed.

Lemma str_cmp_eq s t : Forall (fun c => c <> 0) s -> Forall (fun c => c <> 0) t -> str_cmp s t = 0 <-> s = t.
Proof.
  intros Hs. revert t. induction Hs as [|x s Hx Hs IH]; intros t Ht; destruct Ht as [|y t Hy Ht]; cbn.
  - done.
  - split; [lia|done].
  - split; [lia|done].
  - case_bool_decide as E; [subst; rewrite IH by done; naive_solver|]. split; [lia|naive_solver].
Qed.

Lemma cstr_nonzero m a l : cstr m a l -> Forall (fun c => c <> 0) l.
Proof. revert a. induction l as [|c l IH]; intros a; cbn; [constructor|]. intros (? & ? & ?). constructor; eauto. Qed.

(** ** The functions on strings *)

Lemma strlen_loop_ok fuel m s len l :
  cstr m s l -> (length l < fuel)%nat -> strlen_loop fuel m s len = Some (len + Z.of_nat (length l)).
Proof.
  revert fuel s len. induction l as [|c l IH]; intros [|fuel] s len Hs Hf; cbn in Hf; try lia; cbn [strlen_loop].
  - rewrite bool_decide_false by (intros H; by apply H). f_equal. cbn. lia.
  - destruct Hs as (Hc & E & Hl). rewrite bool_decide_true by congruence. rewrite IH by (done || lia). f_equal. cbn. lia.
Qed.

Lemma StrLen_ok fuel m s l : cstr m s l -> (length l < fuel)%nat -> StrLen fuel m s = Some (Z.of_nat (length l)).
Proof. intros. unfold StrLen. by rewrite (strlen_loop_ok _ _ _ _ l). Qed.

Lemma StrCmp_ok fuel m s t l1 l2 :
  cstr m s l1 -> cstr m t l2 -> (length l1 < fuel)%nat -> StrCmp fuel m s t = Some (str_cmp l1 l2).
Proof.
  revert fuel s t l2. induction l1 as [|x l1 IH]; intros [|fuel] s t l2 H1 H2 Hf; cbn in Hf; try lia; cbn [StrCmp].
  - destruct l2 as [|y l2]; cbn in H1, H2.
    + rewrite H1, H2. done.
    + destruct H2 as (Hy & E & _). rewrite bool_decide_false by congruence. cbn. by rewrite H1, E.
  - destruct H1 as (Hx & E1 & H1). destruct l2 as [|y l2]; cbn in H2.
    + rewrite bool_decide_false by congruence. cbn. by rewrite E1, H2.
    + destruct H2 as (Hy & E2 & H2). cbn. rewrite E1, E2. destruct (decide (x = y)) as [->|Hne].
      * rewrite !bool_decide_true, bool_decide_false by done. apply IH; (done || lia).
      * by rewrite !bool_decide_false.
Qed.

Lemma StrChr_ok fuel m c ch l : cstr m c l -> (length l < fuel)%nat -> StrChr fuel m c ch = Some (str_chr c l ch).
Proof.
  revert fuel c. induction l as [|x l IH]; intros [|fuel] c Hs Hf; cbn in Hf; try lia; cbn [StrChr str_chr].
  - by rewrite bool_decide_false by (intros H; by apply H).
  - destruct Hs as (Hx & E & Hl). rewrite bool_decide_true by congruence. rewrite E.
    case_bool_decide; [done|]. apply IH; (done || lia).
Qed.

(** Memory after the copy of [n] bytes from [s] to [d]. *)
Definition copied (m : Z -> Z) (d s n : Z) (m' : Z -> Z) : Prop :=
  forall a, m' a = if bool_decide (d <= a < d + n) then m (s + (a - d)) else m a.

(** One more byte in front. *)
Lemma copied_cons m d s n m' :
  0 <= n -> ~ (s + 1 <= d < s + 1 + n) -> copied (<[d := m s]> m) (d + 1) (s + 1) n m' -> copied m d s (n + 1) m'.
Proof.
  intros Hn Hd H a. rewrite H. destruct (decide (a = d)) as [->|Ha].
  - rewrite bool_decide_false, bool_decide_true by lia. rewrite store_eq. f_equal. lia.
  - destruct (decide (d + 1 <= a < d + 1 + n)).
    + rewrite !bool_decide_true by lia. rewrite store_ne by lia. f_equal. lia.
    + rewrite !bool_decide_false by lia. by rewrite store_ne.
Qed.

(** A prefix of a string, copied and terminated, is a string. *)
Lemma copied_cstr m d s n m' l :
  cstr m s l -> 0 <= n <= Z.of_nat (length l) -> (forall i, 0 <= i < n -> m' (d + i) = m (s + i)) -> m' (d + n) = 0 ->
  cstr m' d (take (Z.to_nat n) l).
Proof.
  intros Hs Hn Hb H0. revert s d n Hs Hn H0 Hb. induction l as [|c l IH]; intros s d n Hs Hn H0 Hb.
  { cbn in Hn. assert (n = 0) as -> by lia. cbn. by rewrite Z.add_0_r in H0. }
  destruct (decide (n = 0)) as [->|Hn0]; [cbn; by rewrite Z.add_0_r in H0|].
  replace (Z.to_nat n) with (S (Z.to_nat (n - 1))) by lia. destruct Hs as (Hc & E & Hl). cbn. split_and!; [done|..].
  - rewrite <- E. replace d with (d + 0) by lia. rewrite Hb by lia. f_equal. lia.
  - apply (IH (s + 1)); [done|cbn in Hn; lia|rewrite <- H0; f_equal; lia|].
    intros i Hi. replace (d + 1 + i) with (d + (i + 1)) by lia. rewrite Hb by lia. f_equal. lia.
Qed.

Definition apart (d n s k : Z) : Prop := d + n <= s \/ s + k <= d.

Lemma strlcpy_copy_ok n d s m l :
  cstr m s l -> apart d (Z.of_nat n) s (Z.of_nat (length l) + 1) ->
  let k := Z.min (Z.of_nat n) (Z.of_nat (length l) + 1) in
  exists m', strlcpy_copy n d s m = (d + k, s + k, if bool_decide (length l < n)%nat then (n - length l)%nat else O, m') /\
    copied m d s k m'.
Proof.
  revert d s m l. induction n as [|n IH]; intros d s m l Hs Ha k.
  { exists m. subst k. rewrite Z.min_l by lia. change (Z.of_nat 0) with 0. rewrite !Z.add_0_r. cbn [strlcpy_copy].
    rewrite (bool_decide_false (length l < 0)%nat) by lia. split; [done|].
    intros a. by rewrite bool_decide_false by lia. }
  cbn [strlcpy_copy]. cbv zeta. destruct l as [|c l].
  - cbn in Hs. rewrite (bool_decide_true (m s = 0)) by done. exists (<[d := m s]> m). subst k.
    cbn [length]. rewrite Z.min_r by lia. rewrite bool_decide_true by lia. split; [do 2 f_equal; lia|].
    intros a. destruct (decide (a = d)) as [->|Ha'].
    + rewrite store_eq, bool_decide_true by lia. f_equal. lia.
    + rewrite store_ne, bool_decide_false by lia. done.
  - destruct Hs as (Hc & E & Hl). rewrite (bool_decide_false (m s = 0)) by congruence. cbn [length] in *.
    unfold apart in Ha. destruct (IH (d + 1) (s + 1) (<[d := m s]> m) l) as (m' & Er & Hm).
    { apply (cstr_ext m); [|done]. intros i Hi. rewrite store_ne; [done|lia]. }
    { unfold apart. lia. }
    exists m'. rewrite Er. split.
    + f_equal. f_equal; [f_equal; subst k; lia|]. repeat case_bool_decide; lia.
    + replace k with (Z.min (Z.of_nat n) (Z.of_nat (length l) + 1) + 1) by (subst k; lia).
      apply copied_cons; [lia|lia|done].
Qed.

Lemma strlcpy_skip_ok fuel m s l :
  cstr m s l -> (length l < fuel)%nat -> strlcpy_skip fuel m s = Some (s + Z.of_nat (length l) + 1).
Proof.
  revert fuel s. induction l as [|c l IH]; intros [|fuel] s Hs Hf; cbn in Hf; try lia; cbn [strlcpy_skip].
  - rewrite bool_decide_false by (intros H; by apply H). f_equal. cbn. lia.
  - destruct Hs as (Hc & E & Hl). rewrite bool_decide_true by congruence. rewrite IH by (done || lia). f_equal. cbn. lia.
Qed.

Lemma cstr_drop m a l n : cstr m a l -> (n <= length l)%nat -> cstr m (a + Z.of_nat n) (drop n l).
Proof.
  revert a l. induction n as [|n IH]; intros a l Hs Hn; [by rewrite Z.add_0_r|]. destruct l as [|c l]; cbn in Hn; [lia|].
  destruct Hs as (_ & _ & Hl). cbn [drop]. replace (a + Z.of_nat (S n)) with (a + 1 + Z.of_nat n) by lia. apply IH; [done|lia].
Qed.

Lemma StrLCpy_ok fuel dst src siz m l :
  cstr m src l -> 0 <= siz -> apart dst siz src (Z.of_nat (length l) + 1) -> (length l < fuel)%nat ->
  exists m', StrLCpy fuel dst src siz m = Some (Z.of_nat (length l), m') /\
    (0 < siz -> cstr m' dst (take (Z.to_nat (siz - 1)) l)) /\
    forall a, ~ (dst <= a < dst + siz) -> m' a = m a.
Proof.
  intros Hs H0 Ha Hf. unfold StrLCpy. unfold apart in Ha.
  destruct (strlcpy_copy_ok (Z.to_nat (siz - 1)) dst src m l Hs) as (m1 & E & H1).
  { unfold apart. lia. }
  set (k := Z.min _ _) in *. rewrite E. destruct (decide (Z.of_nat (length l) < siz - 1)) as [Hlt|Hge].
  - assert (Hk : k = Z.of_nat (length l) + 1) by lia. rewrite (bool_decide_true (length l < _)%nat), bool_decide_false by lia.
    exists m1. split; [do 2 f_equal; lia|]. split; [|intros a Ha'; rewrite H1, bool_decide_false by lia; done].
    intros _. rewrite take_ge by lia. rewrite <- (take_ge l (Z.to_nat (Z.of_nat (length l)))) by lia.
    apply (copied_cstr m _ src); [done|lia|..].
    + intros i Hi. rewrite H1, bool_decide_true by lia. f_equal. lia.
    + rewrite H1, bool_decide_true by lia. rewrite <- (cstr_end _ _ _ Hs). f_equal. lia.
  - rewrite (bool_decide_false (length l < _)%nat), bool_decide_true by lia.
    set (m2 := if bool_decide (siz <> 0) then _ else _).
    assert (H2 : forall a, a <> dst + k \/ siz = 0 -> m2 a = m1 a).
    { intros a Hne. subst m2. destruct (decide (siz = 0)) as [Hz|Hz].
      - by rewrite bool_decide_false by lia.
      - rewrite bool_decide_true by done. apply store_ne. lia. }
    rewrite (strlcpy_skip_ok _ _ _ (drop (Z.to_nat k) l)); [|apply (cstr_ext m)|rewrite length_drop; lia].
    + exists m2. cbn. split; [do 2 f_equal; rewrite length_drop; lia|]. split.
      * intros Hpos. replace (Z.to_nat (siz - 1)) with (Z.to_nat k) by lia. apply (copied_cstr m _ src); [done|lia|..].
        -- intros i Hi. rewrite H2, H1, bool_decide_true by lia. f_equal. lia.
        -- subst m2. rewrite bool_decide_true by lia. apply store_eq.
      * intros a Hout. rewrite H2 by lia. rewrite H1, bool_decide_false by lia. done.
    + intros i Hi. rewrite length_drop in Hi. rewrite H2 by lia. rewrite H1, bool_decide_false by lia. done.
    + rewrite <- (Z2Nat.id k) at 1 by lia. apply cstr_drop; [done|lia].
Qed.

Lemma cstr_app m a l1 l2 :
  (forall i c, l1 !! i = Some c -> m (a + Z.of_nat i) = c /\ c <> 0) -> cstr m (a + Z.of_nat (length l1)) l2 ->
  cstr m a (l1 ++ l2).
Proof.
  revert a. induction l1 as [|x l1 IH]; intros a H1 H2; cbn in *; [by rewrite Z.add_0_r in H2|].
  destruct (H1 0%nat x eq_refl) as [E Hx]. rewrite Z.add_0_r in E. split_and!; [done..|]. apply IH.
  - intros i c Hi. destruct (H1 (S i) c Hi) as [<- ?]. split; [f_equal; lia|done].
  - replace (a + 1 + Z.of_nat (length l1)) with (a + Z.of_nat (S (length l1))) by lia. done.
Qed.

Lemma strlcat_end_ok n m d l : cstr m d l -> strlcat_end n m d = d + Z.min (Z.of_nat n) (Z.of_nat (length l)).
Proof.
  revert d l. induction n as [|n IH]; intros d l Hs; cbn [strlcat_end]; [rewrite Z.min_l; lia|].
  destruct l as [|c l]; cbn [length].
  - rewrite bool_decide_false by (intros H; by apply H). lia.
  - destruct Hs as (Hc & E & Hl). rewrite bool_decide_true by congruence. rewrite (IH _ l) by done. lia.
Qed.

Lemma strlcat_copy_ok fuel d s n m l :
  cstr m s l -> 1 <= n -> apart d n s (Z.of_nat (length l) + 1) -> (length l < fuel)%nat ->
  let k := Z.min (n - 1) (Z.of_nat (length l)) in
  exists m', strlcat_copy fuel d s n m = Some (d + k, s + Z.of_nat (length l), m') /\ copied m d s k m'.
Proof.
  revert fuel d s n m. induction l as [|c l IH]; intros [|fuel] d s n m Hs Hn Ha Hf k; cbn [length] in Hf; try lia;
    cbn [strlcat_copy].
  - cbn in Hs. rewrite bool_decide_false by (intros H; by apply H). exists m. subst k. cbn [length].
    rewrite Z.min_r by lia. split; [do 3 f_equal; cbn; lia|]. intros a. by rewrite bool_decide_false by lia.
  - destruct Hs as (Hc & E & Hl). rewrite bool_decide_true by congruence. cbn [length] in Ha. unfold apart in Ha.
    destruct (decide (n = 1)) as [->|Hn1].
    + rewrite bool_decide_false by lia. destruct (IH fuel d (s + 1) 1 m Hl) as (m' & Er & Hm); [lia|unfold apart; lia|lia|].
      exists m'. rewrite Er. subst k. cbn [length]. split; [do 3 f_equal; lia|].
      replace (Z.min (1 - 1) _) with 0 in Hm by lia. replace (Z.min (1 - 1) _) with 0 by lia.
      intros a. rewrite Hm. by rewrite !bool_decide_false by lia.
    + rewrite bool_decide_true by done.
      destruct (IH fuel (d + 1) (s + 1) (n - 1) (<[d := m s]> m)) as (m' & Er & Hm); [|lia|unfold apart; lia|lia|].
      { apply (cstr_ext m); [|done]. intros i Hi. apply store_ne. lia. }
      exists m'. rewrite Er. subst k. cbn [length]. split; [do 3 f_equal; lia|].
      replace (Z.min (n - 1) (Z.of_nat (S (length l)))) with (Z.min (n - 1 - 1) (Z.of_nat (length l)) + 1) by lia.
      apply copied_cons; [lia|lia|done].
Qed.

Lemma StrLCat_ok fuel dst src siz m ld l :
  cstr m dst ld -> cstr m src l -> Z.of_nat (length ld) < siz -> apart dst siz src (Z.of_nat (length l) + 1) ->
  (length l < fuel)%nat ->
  exists m', StrLCat fuel dst src siz m = Some (Z.of_nat (length ld) + Z.of_nat (length l), m') /\
    cstr m' dst (take (Z.to_nat (siz - 1)) (ld ++ l)) /\
    forall a, ~ (dst <= a < dst + siz) -> m' a = m a.
Proof.
  intros Hd Hs Hsz Ha Hf. unfold StrLCat. unfold apart in Ha. rewrite (strlcat_end_ok _ _ _ ld) by done.
  rewrite Z.min_r by lia. cbv zeta. rewrite bool_decide_false by lia.
  destruct (strlcat_copy_ok fuel (dst + Z.of_nat (length ld)) src (siz - (dst + Z.of_nat (length ld) - dst)) m l Hs)
    as (m1 & E & H1); [lia|unfold apart; lia|lia|].
  set (k := Z.min _ _) in *. rewrite E. cbn. exists (<[dst + Z.of_nat (length ld) + k := 0]> m1).
  split; [do 2 f_equal; lia|]. split.
  - rewrite take_app, (take_ge ld) by lia. apply cstr_app.
    + intros i c Hi. pose proof (lookup_lt_Some _ _ _ Hi). rewrite store_ne by lia. rewrite H1, bool_decide_false by lia.
      by apply cstr_lookup with ld.
    + replace (take _ l) with (take (Z.to_nat k) l).
      2:{ subst k. destruct (decide (Z.of_nat (length l) <= siz - 1 - Z.of_nat (length ld))).
          - rewrite !take_ge by lia. done.
          - f_equal. lia. }
      apply (copied_cstr m _ src); [done|lia|..|apply store_eq].
      intros i Hi. rewrite store_ne by lia. rewrite H1, bool_decide_true by lia. f_equal. lia.
  - intros a Hout. rewrite store_ne by lia. rewrite H1, bool_decide_false by lia. done.
Qed.

(** When [dst] has no terminator in its [siz] bytes, nothing is appended. *)
Lemma StrLCat_full fuel dst src siz m ld l :
  cstr m dst ld -> cstr m src l -> 0 <= siz <= Z.of_nat (length ld) -> (length l < fuel)%nat ->
  StrLCat fuel dst src siz m = Some (siz + Z.of_nat (length l), m).
Proof.
  intros Hd Hs Hsz Hf. unfold StrLCat. rewrite (strlcat_end_ok _ _ _ ld) by done. rewrite Z.min_l by lia.
  cbv zeta. rewrite bool_decide_true by lia. rewrite (StrLen_ok _ _ _ l) by done. cbn. do 2 f_equal. lia.
Qed.

(** ** CopyInString *)

Lemma copyinstring_ok n dst src s l :
  cstr (umem s) src l -> (length l < n)%nat ->
  (forall a, src <= a <= src + Z.of_nat (length l) -> uvalid s a = true) ->
  exists m, copyinstring_loop n dst src s = Ret 0 (s <| fmem := fmem s <| kmem := m |> |>) /\
    cstr m dst l /\ forall a, ~ (dst <= a <= dst + Z.of_nat (length l)) -> m a = kmem (fmem s) a.
Proof.
  revert n dst src s. induction l as [|c l IH]; intros [|n] dst src s Hs Hn Hv; cbn [length] in Hn; try lia;
    cbn [copyinstring_loop]; rewrite (run_bind _ _ _ _ _ (run_gets _ _)), (Hv src) by (cbn; lia);
    rewrite (run_bind _ _ _ _ _ (run_gets _ _)); unfold modify; erewrite run_bind by reflexivity; cbv beta.
  - cbn in Hs. rewrite Hs, bool_decide_true by done. eexists. split; [reflexivity|]. split; [cbn; apply store_eq|].
    intros a Ha. apply store_ne. cbn in Ha. lia.
  - destruct Hs as (Hc & E & Hl). rewrite E, bool_decide_false by done. cbn [length] in Hv.
    set (s1 := s <| fmem := _ |>). destruct (IH n (dst + 1) (src + 1) s1) as (m & Em & Hm & Ho); [done|lia|..].
    { intros a Ha. apply Hv. lia. }
    exists m. rewrite Em. split; [done|]. cbn [cstr length]. split.
    + split_and!; [done| |done]. rewrite Ho by lia. subst s1. cbn. by rewrite store_eq.
    + intros a Ha. rewrite Ho by lia. subst s1. cbn. apply store_ne. lia.
Qed.

(** Whatever the process passes, only the buffer is written. *)
Lemma copyinstring_total n dst src s :
  exists r m, copyinstring_loop n dst src s = Ret r (s <| fmem := fmem s <| kmem := m |> |>) /\ (r = 0 \/ r = -1) /\
    (forall a, ~ (dst <= a < dst + Z.of_nat n) -> m a = kmem (fmem s) a) /\
    (r = 0 -> exists k, 0 <= k < Z.of_nat n /\ m (dst + k) = 0).
Proof.
  revert dst src s. induction n as [|n IH]; intros dst src s; cbn [copyinstring_loop].
  { exists (-1), (kmem (fmem s)). split; [by destruct s as [[]]|]. split_and!; [by right|done|done]. }
  rewrite (run_bind _ _ _ _ _ (run_gets _ _)). destruct (uvalid s src).
  2:{ exists (-1), (kmem (fmem s)). split; [by destruct s as [[]]|]. split_and!; [by right|done|done]. }
  rewrite (run_bind _ _ _ _ _ (run_gets _ _)). unfold modify. erewrite run_bind by reflexivity. cbv beta.
  case_bool_decide as Hz.
  - eexists 0, _. split; [reflexivity|]. split_and!; [by left|intros a Ha; cbn; apply store_ne; lia|].
    intros _. exists 0. split; [lia|]. cbn. by rewrite Z.add_0_r, store_eq.
  - set (s1 := s <| fmem := _ |>). destruct (IH (dst + 1) (src + 1) s1) as (r & m & E & Hr & Ho & H0).
    exists r, m. rewrite E. split; [done|]. split; [done|]. split.
    + intros a Ha. rewrite Ho by lia. subst s1. cbn. apply store_ne. lia.
    + intros Hr0. destruct (H0 Hr0) as (k & Hk & Ek). exists (k + 1). split; [lia|]. rewrite <- Ek. f_equal. lia.
Qed.

(** C35. The bounded copies of strings stay in their buffer.  StrLCpy and then
    StrLCat, of strings apart from the buffer of [siz] bytes, leave in it the
    two strings put end to end, cut to [siz - 1] characters and terminated;
    nothing outside the buffer changes; and they return the lengths that tell
    whether something was cut off. *)
Theorem string_copy_safe fuel dst src src2 siz m l l2 :
  cstr m src l -> cstr m src2 l2 -> 0 < siz ->
  apart dst siz src (Z.of_nat (length l) + 1) -> apart dst siz src2 (Z.of_nat (length l2) + 1) ->
  (length l < fuel)%nat -> (length l2 < fuel)%nat ->
  exists m1 m2, StrLCpy fuel dst src siz m = Some (Z.of_nat (length l), m1) /\
    StrLCat fuel dst src2 siz m1 = Some (Z.min (Z.of_nat (length l)) (siz - 1) + Z.of_nat (length l2), m2) /\
    cstr m2 dst (take (Z.to_nat (siz - 1)) (l ++ l2)) /\
    forall a, ~ (dst <= a < dst + siz) -> m2 a = m a.
Proof.
  intros H1 H2 Hs A1 A2 F1 F2. destruct (StrLCpy_ok fuel dst src siz m l H1 ltac:(lia) A1 F1) as (m1 & E1 & C1 & O1).
  specialize (C1 Hs).
  assert (H2' : cstr m1 src2 l2).
  { apply (cstr_ext m); [|done]. intros i Hi. apply O1. unfold apart in A2. lia. }
  set (ld := take (Z.to_nat (siz - 1)) l) in *.
  assert (Hld : Z.of_nat (length ld) = Z.min (Z.of_nat (length l)) (siz - 1)) by (subst ld; rewrite length_take; lia).
  destruct (StrLCat_ok fuel dst src2 siz m1 ld l2 C1 H2' ltac:(lia) A2 F2) as (m2 & E2 & C2 & O2).
  exists m1, m2. split; [done|]. split; [by rewrite <- Hld|]. split; [|intros a Ha; rewrite O2, O1 by done; done].
  assert (Et : take (Z.to_nat (siz - 1)) (ld ++ l2) = take (Z.to_nat (siz - 1)) (l ++ l2)); [|by rewrite <- Et].
  subst ld. rewrite !take_app, take_take, length_take, Nat.min_id. do 2 f_equal. lia.
Qed.

(** Into eight bytes at 100, the strings AB and CDEFGHI. *)
Lemma string_copy_safe_witness :
  exists m1 m2, StrLCpy 20 100 200 8 (fun a => nth (Z.to_nat (a - 200)) [65; 66; 0; 67; 68; 69; 70; 71; 72; 73; 0] 7) = Some (2, m1) /\
    StrLCat 20 100 203 8 m1 = Some (9, m2) /\ cstr m2 100 [65; 66; 67; 68; 69; 70; 71] /\ m2 108 = 65.
Proof.
  destruct (string_copy_safe 20 100 200 203 8 (fun a => nth (Z.to_nat (a - 200)) [65; 66; 0; 67; 68; 69; 70; 71; 72; 73; 0] 7)
    [65; 66] [67; 68; 69; 70; 71; 72; 73]) as (m1 & m2 & E1 & E2 & C & O); try (cbn; lia).
  - split_and!; done.
  - split_and!; done.
  - unfold apart. cbn. lia.
  - unfold apart. cbn. lia.
  - exists m1, m2. split; [exact E1|]. split; [exact E2|]. split; [exact C|]. rewrite O by lia. reflexivity.
Defined.
