(* ===== verification/Dnlc.v ===== *)
(** * The directory name lookup cache

    The model of kernel/fs/dnlc.c.  [&dname_table[t]] is the address [t + 1]; a
    name is the string at the pointer, without its terminator (the functions of
    [Str] on memory are those on strings).  [MNT_NODNLC] is a flag of newlib's
    sys/mount.h.

    The entries that are hashed are a partial map from a directory and a name
    to a vnode.  The theorems state each operation on that map, and the two
    operations that do not keep it. *)

From S2P Require Import Prelude Bytes Lists Page Fs Filp Vnode Str.

Definition NR_DNAME := 64.
Definition DNAME_SZ := 64.
Definition DNAME_HASH := 32.

(** The loop that sums the characters. *)
Definition dname_key (name : list Z) : Z := foldl Z.add 0 name `mod` DNAME_HASH.

(** The walk of a hash list for the entry of [name] in [dir]. *)
Fixpoint dname_find (dir : Z) (name : list Z) (l : list Z) : M Z :=
  match l with
  | [] => mret 0
  | dname :: l =>
      d ← deref dnames dname;
      if bool_decide (dn_dir_vnode d = dir) && bool_decide (str_cmp (dn_name d) name = 0) then mret dname
      else dname_find dir name l
  end.

(** The walk of dname_remove, which looks at the name only. *)
Fixpoint dname_find_name (name : list Z) (l : list Z) : M Z :=
  match l with
  | [] => mret 0
  | dname :: l =>
      d ← deref dnames dname;
      if bool_decide (str_cmp (dn_name d) name = 0) then mret dname else dname_find_name name l
  end.

Definition get_hash (key : Z) : M (list Z) := h ← gets dname_hash; arr_get h key.
Definition set_hash (key : Z) (l : list Z) : M unit :=
  h ← gets dname_hash;
  h ← arr_set key l h;
  modify (fun s => s <| dname_hash := h |>).

(** Unhash an entry, then move it to the front of the list of entries. *)
Definition dname_unhash (key dname : Z) : M unit :=
  l ← get_hash key;
  l ← lift (Seq.rem_entry dname l);
  set_hash key l;;
  upd_dname dname (fun d => d <| dn_hash_key := -1 |>);;
  lru ← gets dname_lru_list;
  lru ← lift (Seq.rem_entry dname lru);
  lru ← lift (Seq.add_head dname lru);
  modify (fun s => s <| dname_lru_list := lru |>).

(** The end of dname_enter: the first entry of the list is used for the name. *)
Definition dname_recycle (dir vn : Z) (name : list Z) (key : Z) : M Z :=
  lru ← gets dname_lru_list;
  match lru with
  | [] => fault
  | dname :: lru =>
      modify (fun s => s <| dname_lru_list := lru |>);;
      d ← deref dnames dname;
      (if bool_decide (dn_hash_key d <> -1) then
         l ← get_hash (dn_hash_key d);
         l ← lift (Seq.rem_entry dname l);
         set_hash (dn_hash_key d) l
       else mret ());;
      upd_dname dname (fun d => d <| dn_hash_key := key |> <| dn_dir_vnode := dir |> <| dn_vnode := vn |>
        <| dn_name := take (Z.to_nat (DNAME_SZ - 1)) name |>);;
      lru ← gets dname_lru_list;
      lru ← lift (Seq.add_tail dname lru);
      modify (fun s => s <| dname_lru_list := lru |>);;
      l ← get_hash key;
      l ← lift (Seq.add_head dname l);
      set_hash key l;;
      mret 0
  end.

Section Dnlc.
Context (MNT_NODNLC : Z).

Definition nodnlc (dir : Z) : M bool :=
  v ← deref vnodes dir;
  b ← deref superblocks (v_superblock v);
  mret (bool_decide (Z.land (sb_flags b) MNT_NODNLC <> 0)).

(** The result and the vnode stored through [vnp]. *)
Definition dname_lookup (dir : Z) (name : list Z) : M (Z * Z) :=
  no ← nodnlc dir;
  if no : bool then mret (-1, 0)
  else if bool_decide (Z.of_nat (length name) + 1 > DNAME_SZ) then mret (-1, 0)
  else
    l ← get_hash (dname_key name);
    dname ← dname_find dir name l;
    if bool_decide (dname = 0) then mret (-1, 0)
    else
      d ← deref dnames dname;
      vnode_inc_ref (dn_vnode d);;
      mret (0, dn_vnode d).

Definition dname_enter (dir vn : Z) (name : list Z) : M Z :=
  no ← nodnlc dir;
  if no : bool then mret (-1)
  else if bool_decide (Z.of_nat (length name) + 1 > DNAME_SZ) then mret (-1)
  else
    let key := dname_key name in
    l ← get_hash key;
    dname ← dname_find dir name l;
    if bool_decide (dname <> 0) then
      upd_dname dname (fun d => d <| dn_hash_key := key |> <| dn_dir_vnode := dir |> <| dn_vnode := vn |>);;
      mret 0
    else dname_recycle dir vn name key.

Definition dname_remove (dir : Z) (name : list Z) : M Z :=
  no ← nodnlc dir;
  if no : bool then mret (-1)
  else if bool_decide (Z.of_nat (length name) + 1 > DNAME_SZ) then mret (-1)
  else
    let key := dname_key name in
    l ← get_hash key;
    dname ← dname_find_name name l;
    if bool_decide (dname = 0) then mret (-1) else dname_unhash key dname;; mret 0.
End Dnlc.

(** The loop over the table, unhashing the entries for which [c] holds. *)
Fixpoint dname_purge_loop (c : DName -> M bool) (n : nat) (t : Z) : M unit :=
  match n with
  | O => mret ()
  | S n =>
      d ← deref dnames (t + 1);
      (if bool_decide (dn_hash_key d <> -1) then
         b ← c d;
         if b : bool then dname_unhash (dn_hash_key d) (t + 1) else mret ()
       else mret ());;
      dname_purge_loop c n (t + 1)
  end.

Definition dname_purge_vnode (vnode : Z) : M unit :=
  dname_purge_loop (fun d => mret (bool_decide (dn_vnode d = vnode) || bool_decide (dn_dir_vnode d = vnode)))
    (Z.to_nat NR_DNAME) 0.

Definition dname_purge_superblock (sb : Z) : M unit :=
  dname_purge_loop (fun d => v ← deref vnodes (dn_vnode d); mret (bool_decide (v_superblock v = sb)))
    (Z.to_nat NR_DNAME) 0.

Fixpoint dname_reset_loop (n : nat) (t : Z) : M unit :=
  match n with
  | O => mret ()
  | S n => upd_dname (t + 1) (fun d => d <| dn_hash_key := -1 |> <| dn_vnode := 0 |>);; dname_reset_loop n (t + 1)
  end.

Definition dname_purge_all : M unit :=
  dname_reset_loop (Z.to_nat NR_DNAME) 0;;
  modify (fun s => s <| dname_lru_list := [] |>).

(** The name cache at boot, from InitFSLists of kernel/fs/init.c. *)
Fixpoint init_dnames_loop (n : nat) (t : Z) : M unit :=
  match n with
  | O => mret ()
  | S n =>
      lru ← gets dname_lru_list;
      lru ← lift (Seq.add_tail (t + 1) lru);
      modify (fun s => s <| dname_lru_list := lru |>);;
      upd_dname (t + 1) (fun d => d <| dn_hash_key := -1 |>);;
      init_dnames_loop n (t + 1)
  end.
Definition init_dnames : M unit :=
  modify (fun s => s <| dname_lru_list := [] |>);;
  init_dnames_loop (Z.to_nat NR_DNAME) 0;;
  modify (fun s => s <| dname_hash := replicate (Z.to_nat DNAME_HASH) [] |>).

(** ** The map the cache represents *)

Definition in_table (d : Z) : Prop := 1 <= d <= NR_DNAME.
Definition hashed (D : Z -> DName) (d : Z) : Prop := in_table d /\ dn_hash_key (D d) <> -1.
#[export] Instance hashed_dec D d : Decision (hashed D d).
Proof. unfold hashed, in_table. apply _. Defined.

Definition dkey (D : Z -> DName) (d : Z) : Z * list Z := (dn_dir_vnode (D d), dn_name (D d)).
Definition dmap (D : Z -> DName) : gmap (Z * list Z) Z :=
  list_to_map ((fun d => (dkey D d, dn_vnode (D d))) <$> filter (hashed D) (seqZ 1 NR_DNAME)).

Definition good_name (name : list Z) : Prop := Forall (fun c => c <> 0) name /\ Z.of_nat (length name) < DNAME_SZ.

(** The well-formedness of the entries, the list of all of them and the hash
    table. *)
Record dnlc_inv (D : Z -> DName) (L : list Z) (H : list (list Z)) : Prop := {
  di_len : length H = Z.to_nat DNAME_HASH;
  di_nodup : NoDup L;
  di_lru : forall d, d ∈ L <-> in_table d;
  di_key : forall d, hashed D d -> dn_hash_key (D d) = dname_key (dn_name (D d)) /\ good_name (dn_name (D d));
  di_hash : forall k l, H !! k = Some l ->
    NoDup l /\ forall d, d ∈ l <-> in_table d /\ dn_hash_key (D d) = Z.of_nat k;
  di_uniq : forall d d', hashed D d -> hashed D d' -> dkey D d = dkey D d' -> d = d'
}.

Lemma dname_key_range name : 0 <= dname_key name < DNAME_HASH.
Proof. apply Z.mod_pos_bound. done. Qed.

Lemma NoDup_fmap_on {A B} (f : A -> B) (l : list A) :
  (forall x y, x ∈ l -> y ∈ l -> f x = f y -> x = y) -> NoDup l -> NoDup (f <$> l).
Proof.
  intros Hf Hl. induction Hl as [|x l Hx Hl IH]; [constructor|]. rewrite fmap_cons. constructor.
  - intros (y & E & Hy)%list_elem_of_fmap. apply Hx. rewrite (Hf x y); [done|set_solver..|done].
  - apply IH. intros y z Hy Hz. apply Hf; set_solver.
Qed.

Lemma elem_of_table D d : d ∈ filter (hashed D) (seqZ 1 NR_DNAME) <-> hashed D d.
Proof. rewrite list_elem_of_filter, elem_of_seqZ. unfold hashed, in_table. lia. Qed.

Lemma dmap_Some D L H k v :
  dnlc_inv D L H -> dmap D !! k = Some v <-> exists d, hashed D d /\ dkey D d = k /\ dn_vnode (D d) = v.
Proof.
  intros I. unfold dmap. rewrite <- elem_of_list_to_map.
  - rewrite list_elem_of_fmap. setoid_rewrite elem_of_table. naive_solver.
  - rewrite <- list_fmap_compose. apply NoDup_fmap_on; [|apply NoDup_filter, NoDup_seqZ].
    intros x y Hx%elem_of_table Hy%elem_of_table. cbn. by apply (di_uniq _ _ _ I).
Qed.

Lemma dmap_None D L H k :
  dnlc_inv D L H -> dmap D !! k = None <-> forall d, hashed D d -> dkey D d <> k.
Proof.
  intros I. rewrite eq_None_not_Some. split.
  - intros Hn d Hd E. apply Hn. exists (dn_vnode (D d)). apply (dmap_Some _ _ _ _ _ I). by exists d.
  - intros Hn [v (d & Hd & E & _)%(dmap_Some _ _ _ _ _ I)]. by apply (Hn d).
Qed.

(** Changes of one entry. *)
Section Change.
Context (D : Z -> DName) (L : list Z) (H : list (list Z)) (I : dnlc_inv D L H).

Lemma hashed_ne d x e : d <> e -> hashed (<[e := x]> D) d <-> hashed D d.
Proof. intros Hd. unfold hashed. by rewrite store_ne. Qed.
Lemma dkey_ne d x e : d <> e -> dkey (<[e := x]> D) d = dkey D d.
Proof. intros Hd. unfold dkey. by rewrite store_ne. Qed.

(** Maps that agree on the entries other than [e]. *)
Lemma dmap_change e x D' L' H' :
  D' = <[e := x]> D -> dnlc_inv D' L' H' -> in_table e ->
  dmap D' = (let m := if decide (hashed D e) then delete (dkey D e) (dmap D) else dmap D in
             if decide (dn_hash_key x = -1) then m else <[(dn_dir_vnode x, dn_name x) := dn_vnode x]> m).
Proof.
  intros -> I' He. assert (Hm : forall k v,
    (if decide (hashed D e) then delete (dkey D e) (dmap D) else dmap D) !! k = Some v <->
    exists d, d <> e /\ hashed D d /\ dkey D d = k /\ dn_vnode (D d) = v).
  { intros k v. destruct (decide (hashed D e)) as [Hh|Hh].
    - rewrite lookup_delete_Some, (dmap_Some _ _ _ _ _ I). split.
      + intros [Hk (d & Hd & E & Ev)]. exists d. split_and!; [|done..]. intros ->. done.
      + intros (d & Hne & Hd & E & Ev). split; [|by exists d]. intros <-. apply Hne. symmetry. by apply (di_uniq _ _ _ I).
    - rewrite (dmap_Some _ _ _ _ _ I). split.
      + intros (d & Hd & E & Ev). exists d. split_and!; [|done..]. intros ->. done.
      + intros (d & _ & Hd). by exists d. }
  apply map_eq. intros k. apply option_eq. intros v. cbv zeta. set (m := if decide (hashed D e) then _ else _) in *.
  rewrite (dmap_Some _ _ _ _ _ I').
  assert (Hx : hashed (<[e:=x]> D) e <-> dn_hash_key x <> -1).
  { unfold hashed. rewrite store_eq. naive_solver. }
  assert (Ex : dkey (<[e:=x]> D) e = (dn_dir_vnode x, dn_name x)) by (unfold dkey; by rewrite store_eq).
  destruct (decide (dn_hash_key x = -1)) as [Hx1|Hx1].
  - rewrite Hm. split; intros (d & Hd).
    + exists d. assert (d <> e) by (intros ->; destruct Hd as [Hd _]; by apply Hx in Hd). rewrite <- (hashed_ne d x e), <- (dkey_ne d x e) by done.
      rewrite store_ne in Hd by done. naive_solver.
    + destruct Hd as (Hne & Hd). exists d. rewrite hashed_ne, dkey_ne, store_ne by done. done.
  - rewrite lookup_insert_Some, Hm. split.
    + intros (d & Hd & E & Ev). destruct (decide (d = e)) as [->|Hne].
      * left. rewrite Ex in E. by rewrite store_eq in Ev.
      * right. split; [|exists d; rewrite <- (hashed_ne d x e), <- (dkey_ne d x e) by done; by rewrite store_ne in Ev].
        intros E'. apply Hne. apply (di_uniq _ _ _ I'); [done|by apply Hx|]. by rewrite Ex, E'.
    + intros [[<- <-]|[Hk (d & Hne & Hd & E & Ev)]].
      * exists e. rewrite Ex, store_eq. split_and!; [by apply Hx|done..].
      * exists d. by rewrite hashed_ne, dkey_ne, store_ne.
Qed.
End Change.

Lemma inv_ext D D' L H : (forall d, D' d = D d) -> dnlc_inv D L H -> dnlc_inv D' L H.
Proof.
  intros E I. destruct I as [I1 I2 I3 I4 I5 I6].
  split; unfold hashed, dkey in *; try done; intros *; try rewrite !E; eauto.
  intros Hk. split; [by eapply I5|]. intros d. rewrite E. by apply I5.
Qed.

Lemma inv_lru D L L' H : dnlc_inv D L H -> NoDup L' -> (forall d, d ∈ L' <-> d ∈ L) -> dnlc_inv D L' H.
Proof. intros [] Hn HL. split; try done. intros d. by rewrite HL. Qed.

Lemma hash_lookup D L H k : dnlc_inv D L H -> 0 <= k < DNAME_HASH -> exists l, H !! Z.to_nat k = Some l.
Proof. intros I Hk. apply lookup_lt_is_Some. rewrite (di_len _ _ _ I). lia. Qed.

Lemma hashed_key D L H d : dnlc_inv D L H -> hashed D d -> 0 <= dn_hash_key (D d) < DNAME_HASH.
Proof. intros I Hd. rewrite (proj1 (di_key _ _ _ I d Hd)). apply dname_key_range. Qed.

Lemma inv_unhash D L H d l :
  dnlc_inv D L H -> hashed D d -> H !! Z.to_nat (dn_hash_key (D d)) = Some l ->
  dnlc_inv (<[d := D d <| dn_hash_key := -1 |>]> D) L
    (<[Z.to_nat (dn_hash_key (D d)) := filter (fun y => y <> d) l]> H).
Proof.
  intros I Hd Hl. pose proof (hashed_key _ _ _ _ I Hd) as Hk. set (D' := <[d := _]> D).
  assert (Hh : forall x, hashed D' x <-> x <> d /\ hashed D x).
  { intros x. subst D'. unfold hashed. destruct (decide (x = d)) as [->|Hx].
    - rewrite store_eq. cbn. naive_solver.
    - rewrite store_ne by done. naive_solver. }
  assert (Ek : forall x, x <> d -> D' x = D x) by (intros x Hx; subst D'; by apply store_ne).
  split.
  - rewrite length_insert. by destruct I.
  - by destruct I.
  - by destruct I.
  - intros x [Hx Hx']%Hh. rewrite Ek by done. by apply (di_key _ _ _ I).
  - intros k l' Hl'. assert (Hd' : forall x, dn_hash_key (D' x) = Z.of_nat k <-> x <> d /\ dn_hash_key (D x) = Z.of_nat k).
    { intros x. destruct (decide (x = d)) as [->|Hx]; [subst D'; rewrite store_eq; cbn; lia|rewrite Ek by done; naive_solver]. }
    setoid_rewrite Hd'. destruct (decide (k = Z.to_nat (dn_hash_key (D d)))) as [->|Hne].
    + rewrite list_lookup_insert_eq in Hl' by (by eapply lookup_lt_Some). simplify_eq.
      destruct (di_hash _ _ _ I _ _ Hl) as [Hn He]. split; [by apply NoDup_filter|].
      intros x. rewrite list_elem_of_filter, He. naive_solver.
    + rewrite list_lookup_insert_ne in Hl' by done. destruct (di_hash _ _ _ I _ _ Hl') as [Hn He]. split; [done|].
      intros x. rewrite He. split; [|naive_solver]. intros [Hx E]. split_and!; try done. intros ->. apply Hne. lia.
  - intros x y [Hx Hx']%Hh [Hy Hy']%Hh. unfold dkey. rewrite !Ek by done. by apply (di_uniq _ _ _ I).
Qed.

Lemma inv_hash D L H d x l :
  dnlc_inv D L H -> in_table d -> ~ hashed D d -> good_name (dn_name x) -> dn_hash_key x = dname_key (dn_name x) ->
  dmap D !! (dn_dir_vnode x, dn_name x) = None -> H !! Z.to_nat (dn_hash_key x) = Some l ->
  d ∉ l /\ dnlc_inv (<[d := x]> D) L (<[Z.to_nat (dn_hash_key x) := d :: l]> H).
Proof.
  intros I Hd Hnh Hg Hk Hnone Hl. pose proof (dname_key_range (dn_name x)) as Hr. rewrite <- Hk in Hr.
  rewrite (dmap_None _ _ _ _ I) in Hnone.
  assert (Hkd : dn_hash_key (D d) = -1).
  { destruct (decide (dn_hash_key (D d) = -1)); [done|]. exfalso. by apply Hnh. }
  assert (Hout : forall k l', H !! k = Some l' -> d ∉ l').
  { intros k l' Hl' [_ E]%(di_hash _ _ _ I _ _ Hl'). lia. }
  split; [by eapply Hout|]. set (D' := <[d := x]> D).
  assert (Ed : D' d = x) by (subst D'; apply store_eq).
  assert (Ek : forall y, y <> d -> D' y = D y) by (intros y Hy; subst D'; by apply store_ne).
  assert (Hh : forall y, hashed D' y -> y = d \/ hashed D y).
  { intros y Hy. destruct (decide (y = d)) as [->|Hne]; [by left|right]. unfold hashed in *. by rewrite Ek in Hy. }
  split.
  - rewrite length_insert. by destruct I.
  - by destruct I.
  - by destruct I.
  - intros y [->|Hy]%Hh; [by rewrite Ed|]. rewrite Ek; [by apply (di_key _ _ _ I)|]. intros ->. done.
  - intros k l' Hl'. destruct (decide (k = Z.to_nat (dn_hash_key x))) as [->|Hne].
    + rewrite list_lookup_insert_eq in Hl' by (by eapply lookup_lt_Some). simplify_eq.
      destruct (di_hash _ _ _ I _ _ Hl) as [Hn He]. split; [constructor; [by eapply Hout|done]|].
      intros y. rewrite elem_of_cons, He. destruct (decide (y = d)) as [->|Hy].
      * rewrite Ed. split; [intros _; split; [done|lia]|by left].
      * rewrite Ek by done. naive_solver.
    + rewrite list_lookup_insert_ne in Hl' by done. destruct (di_hash _ _ _ I _ _ Hl') as [Hn He]. split; [done|].
      intros y. rewrite He. destruct (decide (y = d)) as [->|Hy]; [rewrite Ed; lia|by rewrite Ek].
  - intros y z Hy Hz. unfold dkey. destruct (Hh y Hy) as [->|Hy'], (Hh z Hz) as [->|Hz'].
    + done.
    + destruct (decide (z = d)) as [->|Hne]; [done|]. rewrite Ed, Ek by done. intros E. by destruct (Hnone z Hz').
    + destruct (decide (y = d)) as [->|Hne]; [done|]. rewrite Ed, Ek by done. intros E. by destruct (Hnone y Hy').
    + destruct (decide (y = d)) as [->|Hny]; [by destruct Hnh|]. destruct (decide (z = d)) as [->|Hnz]; [by destruct Hnh|].
      rewrite !Ek by done. by apply (di_uniq _ _ _ I).
Qed.

(** An entry given another vnode. *)
Lemma inv_revnode D L H d v :
  dnlc_inv D L H -> hashed D d -> dnlc_inv (<[d := D d <| dn_vnode := v |>]> D) L H.
Proof.
  intros I Hd. set (D' := <[d := _]> D).
  assert (E : forall y, dn_hash_key (D' y) = dn_hash_key (D y) /\ dkey D' y = dkey D y).
  { intros y. subst D'. unfold dkey. destruct (decide (y = d)) as [->|Hy]; [by rewrite store_eq|by rewrite store_ne]. }
  assert (En : forall y, dn_name (D' y) = dn_name (D y)) by (intros y; destruct (E y) as [_ Ey]; unfold dkey in Ey; congruence).
  assert (Hh : forall y, hashed D' y <-> hashed D y) by (intros y; unfold hashed; by rewrite (proj1 (E y))).
  destruct I as [I1 I2 I3 I4 I5 I6]. split; try done.
  - intros y Hy%Hh. rewrite (proj1 (E y)), En. auto.
  - intros k l Hl. split; [by eapply I5|]. intros y. rewrite (proj1 (E y)). by apply I5.
  - intros y z Hy%Hh Hz%Hh. rewrite (proj2 (E y)), (proj2 (E z)). auto.
Qed.

(** ** Running the operations *)

Definition inv_s (s : fs) : Prop := dnlc_inv (dnames s) (dname_lru_list s) (dname_hash s).

Lemma run_get_hash k l s : 0 <= k -> dname_hash s !! Z.to_nat k = Some l -> get_hash k s = Ret l s.
Proof. intros Hk Hl. unfold get_hash. rewrite (run_bind _ _ _ _ _ (run_gets _ _)). by apply run_arr_get. Qed.

Lemma run_set_hash k l s :
  0 <= k < Z.of_nat (length (dname_hash s)) ->
  set_hash k l s = Ret () (s <| dname_hash := <[Z.to_nat k := l]> (dname_hash s) |>).
Proof.
  intros Hk. unfold set_hash. rewrite (run_bind _ _ _ _ _ (run_gets _ _)).
  by rewrite (run_bind _ _ _ _ _ (run_arr_set _ _ _ _ Hk)).
Qed.

Lemma run_nodnlc MNT_NODNLC dir s :
  dir <> 0 -> v_superblock (vnodes s dir) <> 0 ->
  nodnlc MNT_NODNLC dir s = Ret (bool_decide (Z.land (sb_flags (superblocks s (v_superblock (vnodes s dir)))) MNT_NODNLC <> 0)) s.
Proof.
  intros Hd Hs. unfold nodnlc. rewrite (run_bind _ _ _ _ _ (run_deref _ _ _ Hd)).
  by rewrite (run_bind _ _ _ _ _ (run_deref _ _ _ Hs)).
Qed.

(** The entry found in the list of its key is the one of the map. *)
Lemma dname_find_ok dir name l s :
  (forall d, d ∈ l -> d <> 0) -> (forall d, d ∈ l -> good_name (dn_name (dnames s d))) -> good_name name ->
  exists d, dname_find dir name l s = Ret d s /\
    ((d ∈ l /\ dkey (dnames s) d = (dir, name)) \/ (d = 0 /\ forall e, e ∈ l -> dkey (dnames s) e <> (dir, name))).
Proof.
  intros H0 Hg Hn. induction l as [|x l IH]; cbn [dname_find].
  { exists 0. split; [done|]. right. split; [done|]. set_solver. }
  rewrite (run_bind _ _ _ _ _ (run_deref _ _ _ (H0 x ltac:(set_solver)))).
  assert (E : bool_decide (str_cmp (dn_name (dnames s x)) name = 0) = bool_decide (dn_name (dnames s x) = name)).
  { apply bool_decide_ext. apply str_cmp_eq; [by apply Hg; set_solver|by apply Hn]. }
  rewrite E, <- bool_decide_and. clear E.
  destruct (decide (dn_dir_vnode (dnames s x) = dir /\ dn_name (dnames s x) = name)) as [Hx|Hx];
    [rewrite bool_decide_true by done|rewrite bool_decide_false by done].
  - exists x. split; [done|]. left. split; [set_solver|]. unfold dkey. by destruct Hx as [-> ->].
  - destruct IH as (d & Ed & Hd); [intros; apply H0; set_solver|intros; apply Hg; set_solver|]. exists d. split; [done|].
    destruct Hd as [[Hd Hk]|[-> Hd]]; [left; split; [set_solver|done]|right]. split; [done|]. intros e [->|He]%elem_of_cons; [|by apply Hd].
    unfold dkey. intros [= <- <-]. by apply Hx.
Qed.

Lemma dname_find_name_ok name l s :
  (forall d, d ∈ l -> d <> 0) -> (forall d, d ∈ l -> good_name (dn_name (dnames s d))) -> good_name name ->
  exists d, dname_find_name name l s = Ret d s /\
    ((d ∈ l /\ dn_name (dnames s d) = name) \/ (d = 0 /\ forall e, e ∈ l -> dn_name (dnames s e) <> name)).
Proof.
  intros H0 Hg Hn. induction l as [|x l IH]; cbn [dname_find_name].
  { exists 0. split; [done|]. right. split; [done|]. set_solver. }
  rewrite (run_bind _ _ _ _ _ (run_deref _ _ _ (H0 x ltac:(set_solver)))).
  rewrite (bool_decide_ext _ (dn_name (dnames s x) = name)).
  2:{ apply str_cmp_eq; [by apply Hg; set_solver|by apply Hn]. }
  destruct (decide (dn_name (dnames s x) = name)) as [Hx|Hx];
    [rewrite bool_decide_true by done|rewrite bool_decide_false by done].
  - exists x. split; [done|]. left. split; [set_solver|done].
  - destruct IH as (d & Ed & Hd); [intros; apply H0; set_solver|intros; apply Hg; set_solver|]. exists d. split; [done|].
    destruct Hd as [[Hd Hk]|[-> Hd]]; [left; split; [set_solver|done]|right]. split; [done|]. set_solver.
Qed.

(** The list of a key: its entries are hashed, and those of the key are in it. *)
Lemma bucket_ok s name l :
  inv_s s -> dname_hash s !! Z.to_nat (dname_key name) = Some l ->
  (forall d, d ∈ l -> hashed (dnames s) d /\ d <> 0 /\ good_name (dn_name (dnames s d))) /\
  (forall d, hashed (dnames s) d -> dn_name (dnames s d) = name -> d ∈ l).
Proof.
  intros I Hl. pose proof (dname_key_range name) as Hr. destruct (di_hash _ _ _ I _ _ Hl) as [_ He]. split.
  - intros d [Hd E]%He. assert (Hh : hashed (dnames s) d) by (split; [done|lia]).
    split; [done|]. split; [unfold in_table in Hd; lia|]. by apply (di_key _ _ _ I).
  - intros d Hd E. apply He. split; [apply Hd|]. rewrite (proj1 (di_key _ _ _ I d Hd)), E. lia.
Qed.

Lemma run_find dir name s :
  inv_s s -> good_name name ->
  exists l d, get_hash (dname_key name) s = Ret l s /\ dname_hash s !! Z.to_nat (dname_key name) = Some l /\
    dname_find dir name l s = Ret d s /\
    ((d <> 0 /\ hashed (dnames s) d /\ dkey (dnames s) d = (dir, name) /\ dmap (dnames s) !! (dir, name) = Some (dn_vnode (dnames s d))) \/
     (d = 0 /\ dmap (dnames s) !! (dir, name) = None)).
Proof.
  intros I Hn. pose proof (dname_key_range name) as Hr. destruct (hash_lookup _ _ _ _ I Hr) as [l Hl].
  destruct (bucket_ok s name l I Hl) as [Hb Hb']. exists l.
  destruct (dname_find_ok dir name l s) as (d & Ed & Hd); [intros e He; apply (Hb e He)..|done|].
  exists d. split; [apply run_get_hash; [lia|done]|]. split; [done|]. split; [done|]. destruct Hd as [[Hd Hk]|[-> Hd]].
  - left. destruct (Hb d Hd) as (Hh & H0 & _). split_and!; try done. apply (dmap_Some _ _ _ _ _ I). by exists d.
  - right. split; [done|]. apply (dmap_None _ _ _ _ I). intros e He Hk. apply (Hd e); [|done].
    apply Hb'; [done|]. unfold dkey in Hk. congruence.
Qed.

(** The state after an entry is unhashed. *)
Definition unhash_state (d : Z) (l : list Z) (s : fs) : fs :=
  s <| dname_hash := <[Z.to_nat (dn_hash_key (dnames s d)) := filter (fun y => y <> d) l]> (dname_hash s) |>
    <| dnames := <[d := dnames s d <| dn_hash_key := -1 |>]> (dnames s) |>
    <| dname_lru_list := d :: filter (fun y => y <> d) (dname_lru_list s) |>.

Lemma run_unhash d s :
  inv_s s -> hashed (dnames s) d ->
  exists s', dname_unhash (dn_hash_key (dnames s d)) d s = Ret () s' /\ inv_s s' /\
    dmap (dnames s') = delete (dkey (dnames s) d) (dmap (dnames s)) /\
    (forall e, dnames s' e = if bool_decide (e = d) then dnames s d <| dn_hash_key := -1 |> else dnames s e) /\
    dname_lru_list s' = d :: filter (fun y => y <> d) (dname_lru_list s) /\
    s' = s <| dname_hash := dname_hash s' |> <| dnames := dnames s' |> <| dname_lru_list := dname_lru_list s' |>.
Proof.
  intros I Hd. pose proof (hashed_key _ _ _ _ I Hd) as Hr. destruct (hash_lookup _ _ _ _ I Hr) as [l Hl].
  assert (Hin : d ∈ l) by (apply (di_hash _ _ _ I _ _ Hl); split; [apply Hd|lia]).
  assert (HL : d ∈ dname_lru_list s) by (apply (di_lru _ _ _ I), Hd).
  assert (I' : inv_s (unhash_state d l s)).
  { unfold inv_s. cbn. eapply inv_lru; [by apply inv_unhash|..].
    - constructor; [|apply NoDup_filter, (di_nodup _ _ _ I)]. intros [H _]%list_elem_of_filter. by apply H.
    - intros e. rewrite elem_of_cons, list_elem_of_filter. destruct (decide (e = d)) as [->|]; naive_solver. }
  exists (unhash_state d l s). split; [|split; [done|split; [|split; [|split; [done|]]]]].
  - unfold dname_unhash. rewrite (run_bind _ _ _ _ _ (run_get_hash _ _ _ (proj1 Hr) Hl)).
    rewrite Seq.rem_entry_linked by done. rewrite (run_bind _ _ _ _ _ (run_lift _ _)).
    rewrite (run_bind _ _ _ _ _ (run_set_hash (dn_hash_key (dnames s d)) _ s ltac:(rewrite (di_len _ _ _ I); lia))).
    unfold upd_dname. rewrite (run_bind _ _ _ _ _ (run_upd _ _ _ d _ ltac:(destruct Hd as [Hd _]; unfold in_table in Hd; lia))).
    rewrite (run_bind _ _ _ _ _ (run_gets _ _)). cbn [dname_lru_list].
    rewrite Seq.rem_entry_linked by done. rewrite (run_bind _ _ _ _ _ (run_lift _ _)).
    unfold Seq.add_head. rewrite bool_decide_false by (intros [H _]%list_elem_of_filter; by apply H).
    rewrite (run_bind _ _ _ _ _ (run_lift _ _)). reflexivity.
  - rewrite (dmap_change _ _ _ I d (dnames s d <| dn_hash_key := -1 |>) (dnames (unhash_state d l s)) _ _ eq_refl I') by apply Hd.
    cbv zeta. rewrite decide_True by done. by rewrite decide_True.
  - intros e. cbn. case_bool_decide as He; [subst; apply store_eq|by apply store_ne].
  - by destruct s.
Qed.

(** The entries that are not hashed come first, so that one is evicted only
    when all are hashed. *)
Definition lru_ok (D : Z -> DName) (L : list Z) : Prop :=
  exists L1 L2, L = L1 ++ L2 /\ (forall d, d ∈ L1 -> ~ hashed D d) /\ (forall d, d ∈ L2 -> hashed D d).

Lemma lru_ok_unhash D D' d L :
  (forall e, D' e = if bool_decide (e = d) then D d <| dn_hash_key := -1 |> else D e) ->
  lru_ok D L -> lru_ok D' (d :: filter (fun y => y <> d) L).
Proof.
  intros E (L1 & L2 & -> & H1 & H2).
  assert (Hh : forall e, hashed D' e <-> e <> d /\ hashed D e).
  { intros e. unfold hashed. rewrite E. case_bool_decide; cbn; naive_solver. }
  exists (d :: filter (fun y => y <> d) L1), (filter (fun y => y <> d) L2). rewrite filter_app. split; [done|].
  setoid_rewrite Hh. setoid_rewrite elem_of_cons. setoid_rewrite list_elem_of_filter. naive_solver.
Qed.

Lemma lru_ok_enter D d x L :
  lru_ok D (d :: L) -> in_table d -> dn_hash_key x <> -1 -> NoDup (d :: L) -> lru_ok (<[d := x]> D) (L ++ [d]).
Proof.
  intros (L1 & L2 & E & H1 & H2) Hd Hx [Hn _]%NoDup_cons.
  assert (Hh : forall e, e ∈ L -> hashed (<[d := x]> D) e <-> hashed D e).
  { intros e He. unfold hashed. rewrite store_ne; [done|]. intros ->. done. }
  assert (Hhd : hashed (<[d := x]> D) d) by (split; [done|by rewrite store_eq]).
  destruct L1 as [|a L1]; [cbn in E; subst L2|injection E as <- ->].
  - exists [], (L ++ [d]). split; [done|]. split; [set_solver|].
    intros e [He| ->%list_elem_of_singleton]%elem_of_app; [|done]. apply Hh; [done|]. apply H2. set_solver.
  - exists L1, (L2 ++ [d]). split; [by rewrite app_assoc|]. split.
    + intros e He. rewrite Hh by set_solver. apply H1. set_solver.
    + intros e [He| ->%list_elem_of_singleton]%elem_of_app; [|done]. rewrite Hh by set_solver. by apply H2.
Qed.

(** With a hashed entry first, all are. *)
Lemma lru_ok_full D L H d l :
  dnlc_inv D L H -> lru_ok D L -> L = d :: l -> hashed D d -> size (dmap D) = Z.to_nat NR_DNAME.
Proof.
  intros I (L1 & L2 & E & H1 & H2) -> Hd. destruct L1 as [|a L1]; [cbn in E|injection E as <- ->].
  2:{ destruct (H1 d); [set_solver|done]. }
  assert (Hall : forall e, in_table e -> hashed D e).
  { intros e He. apply H2. apply (di_lru _ _ _ I) in He. by rewrite <- E. }
  unfold dmap. rewrite filter_all.
  - rewrite map_size_list_to_map; [by rewrite length_fmap, length_seqZ|].
    rewrite <- list_fmap_compose. apply NoDup_fmap_on; [|apply NoDup_seqZ].
    intros x y Hx%elem_of_seqZ Hy%elem_of_seqZ. cbn. apply (di_uniq _ _ _ I); apply Hall; unfold in_table; lia.
  - intros e He%elem_of_seqZ. apply Hall. unfold in_table. lia.
Qed.

(** ** The operations on the map *)

Section Ops.
Context (MNT_NODNLC : Z).

(** The directory may be cached, and the name fits. *)
Record query_ok (s : fs) (dir : Z) (name : list Z) : Prop := {
  qk_dir : dir <> 0;
  qk_sb : v_superblock (vnodes s dir) <> 0;
  qk_flags : Z.land (sb_flags (superblocks s (v_superblock (vnodes s dir)))) MNT_NODNLC = 0;
  qk_name : good_name name
}.

Lemma run_query {A} dir name (k : M A) (e : A) s :
  query_ok s dir name ->
  (no ← nodnlc MNT_NODNLC dir;
   if no : bool then mret e
   else if bool_decide (Z.of_nat (length name) + 1 > DNAME_SZ) then mret e else k) s = k s.
Proof.
  intros [Hd Hs Hf [_ Hn]]. rewrite (run_bind _ _ _ _ _ (run_nodnlc _ _ _ Hd Hs)), Hf.
  rewrite bool_decide_false by (intros H; by apply H). by rewrite bool_decide_false by lia.
Qed.

Lemma dname_lookup_ok dir name s :
  inv_s s -> query_ok s dir name ->
  match dmap (dnames s) !! (dir, name) with
  | Some v => v <> 0 -> v_superblock (vnodes s v) <> 0 ->
      dname_lookup MNT_NODNLC dir name s = Ret (0, v) (inc_ref_state v s)
  | None => dname_lookup MNT_NODNLC dir name s = Ret (-1, 0) s
  end.
Proof.
  intros I Hq. destruct (run_find dir name s I (qk_name _ _ _ Hq)) as (l & d & El & Hl & Ed & Hd).
  assert (E : dname_lookup MNT_NODNLC dir name s =
    (if bool_decide (d = 0) then mret (-1, 0)
     else d ← deref dnames d; vnode_inc_ref (dn_vnode d);; mret (0, dn_vnode d)) s).
  { unfold dname_lookup. rewrite (run_query dir name _ _ s Hq). rewrite (run_bind _ _ _ _ _ El).
    by rewrite (run_bind _ _ _ _ _ Ed). }
  rewrite E. destruct Hd as [(H0 & Hh & Hk & ->)|[-> ->]]; [|done].
  intros Hv Hs. rewrite bool_decide_false by done. rewrite (run_bind _ _ _ _ _ (run_deref _ _ _ H0)).
  rewrite (run_bind _ _ _ _ _ (run_vnode_inc_ref _ _ Hv Hs)). done.
Qed.

Lemma dname_remove_ok dir name s :
  inv_s s -> lru_ok (dnames s) (dname_lru_list s) -> query_ok s dir name ->
  (exists dir' s', dname_remove MNT_NODNLC dir name s = Ret 0 s' /\ inv_s s' /\ lru_ok (dnames s') (dname_lru_list s') /\
     is_Some (dmap (dnames s) !! (dir', name)) /\ dmap (dnames s') = delete (dir', name) (dmap (dnames s)) /\
     vnodes s' = vnodes s /\ superblocks s' = superblocks s) \/
  (dname_remove MNT_NODNLC dir name s = Ret (-1) s /\ forall dir', dmap (dnames s) !! (dir', name) = None).
Proof.
  intros I HL Hq. pose proof (dname_key_range name) as Hr. destruct (hash_lookup _ _ _ _ I Hr) as [l Hl].
  destruct (bucket_ok s name l I Hl) as [Hb Hb'].
  destruct (dname_find_name_ok name l s) as (d & Ed & Hd); [intros e He; apply (Hb e He)..|apply Hq|].
  assert (E : dname_remove MNT_NODNLC dir name s =
    (if bool_decide (d = 0) then mret (-1) else dname_unhash (dname_key name) d;; mret 0) s).
  { unfold dname_remove. rewrite (run_query dir name _ _ s Hq). cbv zeta.
    rewrite (run_bind _ _ _ _ _ (run_get_hash _ _ _ (proj1 Hr) Hl)). by rewrite (run_bind _ _ _ _ _ Ed). }
  destruct Hd as [[Hd Hk]|[-> Hd]].
  - left. destruct (Hb d Hd) as (Hh & H0 & _). destruct (run_unhash d s I Hh) as (s' & Eu & I' & Em & ED & EL & Hs').
    rewrite (proj1 (di_key _ _ _ I d Hh)), Hk in Eu.
    exists (dn_dir_vnode (dnames s d)), s'. rewrite E, bool_decide_false by done. rewrite (run_bind _ _ _ _ _ Eu).
    assert (Ek : dkey (dnames s) d = (dn_dir_vnode (dnames s d), name)) by (unfold dkey; by rewrite Hk).
    rewrite Em, Ek. split_and!; try done; try (by rewrite Hs').
    { rewrite EL. by apply (lru_ok_unhash (dnames s)). }
    exists (dn_vnode (dnames s d)). apply (dmap_Some _ _ _ _ _ I). by exists d.
  - right. split; [by rewrite E|]. intros dir'. apply (dmap_None _ _ _ _ I). intros e He Hk.
    assert (dn_name (dnames s e) = name) by (unfold dkey in Hk; congruence). apply (Hd e); [|done]. by apply Hb'.
Qed.


(** The hash table without the entry that is to be used again. *)
Lemma run_evict d L s :
  inv_s s -> in_table d ->
  exists D1 H1, dnlc_inv D1 (dname_lru_list s) H1 /\ ~ hashed D1 d /\ (forall e, e <> d -> D1 e = dnames s e) /\
    dmap D1 = (if decide (hashed (dnames s) d) then delete (dkey (dnames s) d) (dmap (dnames s)) else dmap (dnames s)) /\
    (if bool_decide (dn_hash_key (dnames s d) <> -1) then
       l ← get_hash (dn_hash_key (dnames s d));
       l ← lift (Seq.rem_entry d l);
       set_hash (dn_hash_key (dnames s d)) l
     else mret ()) (s <| dname_lru_list := L |>) = Ret () (s <| dname_lru_list := L |> <| dname_hash := H1 |>).
Proof.
  intros I Hd. destruct (decide (hashed (dnames s) d)) as [Hh|Hh].
  - pose proof (hashed_key _ _ _ _ I Hh) as Hr. destruct (hash_lookup _ _ _ _ I Hr) as [l Hl].
    assert (Hin : d ∈ l) by (apply (di_hash _ _ _ I _ _ Hl); split; [done|lia]).
    pose proof (inv_unhash _ _ _ _ _ I Hh Hl) as I'. do 2 eexists. split; [exact I'|]. split_and!.
    + intros [_ H]. by rewrite store_eq in H.
    + intros e He. by apply store_ne.
    + rewrite (dmap_change _ _ _ I d _ _ _ _ eq_refl I') by done. cbv zeta.
      rewrite decide_True by done. by rewrite decide_True.
    + rewrite bool_decide_true by apply Hh.
            erewrite run_bind by (apply (run_get_hash _ l); [lia|exact Hl]).
      rewrite Seq.rem_entry_linked by done. rewrite (run_bind _ _ _ _ _ (run_lift _ _)).
      rewrite run_set_hash; [done|]. cbn. rewrite (di_len _ _ _ I). lia.
  - exists (dnames s), (dname_hash s). split; [done|]. split; [done|]. split; [done|]. split; [done|].
    rewrite bool_decide_false; [by destruct s|]. intros H. by apply Hh.
Qed.

Lemma dname_recycle_ok dir vn name s :
  inv_s s -> lru_ok (dnames s) (dname_lru_list s) -> good_name name -> dmap (dnames s) !! (dir, name) = None ->
  exists m s', dname_recycle dir vn name (dname_key name) s = Ret 0 s' /\ inv_s s' /\
    lru_ok (dnames s') (dname_lru_list s') /\ dmap (dnames s') = <[(dir, name) := vn]> m /\
    (m = dmap (dnames s) \/ (size (dmap (dnames s)) = Z.to_nat NR_DNAME /\ exists k, m = delete k (dmap (dnames s)))) /\
    vnodes s' = vnodes s /\ superblocks s' = superblocks s.
Proof.
  intros I HL Hg Hnone. destruct (dname_lru_list s) as [|d L] eqn:EL.
  { pose proof (proj2 (di_lru _ _ _ I 1)) as H. rewrite EL in H. specialize (H ltac:(unfold in_table, NR_DNAME; lia)). set_solver. }
  assert (Hd : in_table d) by (apply (di_lru _ _ _ I); rewrite EL; set_solver).
  assert (Hnd : NoDup (d :: L)) by (rewrite <- EL; apply (di_nodup _ _ _ I)).
  destruct (run_evict d L s I Hd) as (D1 & H1 & I1 & Hn1 & E1 & Em1 & Er1).
  set (x := dnames s d <| dn_hash_key := dname_key name |> <| dn_dir_vnode := dir |> <| dn_vnode := vn |>
      <| dn_name := take (Z.to_nat (DNAME_SZ - 1)) name |>).
  assert (Ex : dn_name x = name) by (subst x; cbn; apply take_ge; destruct Hg as [_ Hg]; unfold DNAME_SZ in *; lia).
  pose proof (dname_key_range name) as Hr. destruct (hash_lookup _ _ _ _ I1 Hr) as [l Hl].
  destruct (inv_hash D1 (dname_lru_list s) H1 d x l) as [Hdl I2]; try done; try (by rewrite Ex).
  { change (dn_dir_vnode x) with dir. rewrite Ex, Em1. destruct (decide _); [|done]. rewrite lookup_delete_None. by right. }
  set (s' := s <| dname_lru_list := L ++ [d] |> <| dname_hash := <[Z.to_nat (dname_key name) := d :: l]> H1 |>
      <| dnames := <[d := x]> (dnames s) |>).
  assert (I' : inv_s s').
  { apply (inv_ext (<[d := x]> D1)).
    - intros e. cbn. destruct (decide (e = d)) as [->|He]; [by rewrite !store_eq|by rewrite !store_ne, E1].
    - eapply inv_lru; [exact I2|..].
      + apply NoDup_app. apply NoDup_cons in Hnd as [Hx Hnd]. split_and!; [done|set_solver|apply NoDup_singleton].
      + intros e. rewrite EL. set_solver. }
  exists (dmap D1), s'. split; [|split; [done|split; [|split; [|split; [|done]]]]].
  - unfold dname_recycle. rewrite (run_bind _ _ _ _ _ (run_gets _ _)), EL. unfold modify. erewrite run_bind by reflexivity.
    assert (H0 : d <> 0) by (unfold in_table in Hd; lia).
    rewrite (run_bind _ _ _ _ _ (run_deref _ _ _ H0)). cbn [dnames].
    change (dnames (s <| dname_lru_list := L |>) d) with (dnames s d). rewrite (run_bind _ _ _ _ _ Er1).
    unfold upd_dname. rewrite (run_bind _ _ _ _ _ (run_upd _ _ _ _ _ H0)). rewrite (run_bind _ _ _ _ _ (run_gets _ _)).
    cbn [dname_lru_list]. rewrite Seq.add_tail_fresh by (by apply NoDup_cons in Hnd as [? _]).
    rewrite (run_bind _ _ _ _ _ (run_lift _ _)). erewrite run_bind by reflexivity.
    erewrite run_bind by (apply (run_get_hash _ l); [lia|exact Hl]).
    unfold Seq.add_head. rewrite bool_decide_false by done. rewrite (run_bind _ _ _ _ _ (run_lift _ _)).
    erewrite run_bind by (apply run_set_hash; cbn; rewrite (di_len _ _ _ I1); lia). reflexivity.
  - cbn. apply lru_ok_enter; [done|done| |done]. change (dn_hash_key x) with (dname_key name). lia.
  - rewrite (dmap_change _ _ _ I d x (dnames s') _ _ eq_refl I' Hd). cbv zeta. rewrite <- Em1.
    rewrite decide_False by (change (dn_hash_key x) with (dname_key name); lia). by rewrite Ex.
  - rewrite Em1. destruct (decide _) as [Hh|Hh]; [right|by left]. split; [|by eexists].
    apply (lru_ok_full (dnames s) (dname_lru_list s) (dname_hash s) d L); [done|by rewrite EL|done|done].
Qed.

Lemma dname_enter_ok dir vn name s :
  inv_s s -> lru_ok (dnames s) (dname_lru_list s) -> query_ok s dir name ->
  exists m s', dname_enter MNT_NODNLC dir vn name s = Ret 0 s' /\ inv_s s' /\
    lru_ok (dnames s') (dname_lru_list s') /\ dmap (dnames s') = <[(dir, name) := vn]> m /\
    (m = dmap (dnames s) \/
     (dmap (dnames s) !! (dir, name) = None /\ size (dmap (dnames s)) = Z.to_nat NR_DNAME /\
      exists k, m = delete k (dmap (dnames s)))) /\
    vnodes s' = vnodes s /\ superblocks s' = superblocks s.
Proof.
  intros I HL Hq. destruct (run_find dir name s I (qk_name _ _ _ Hq)) as (l & d & El & Hl & Ed & Hd).
  assert (E : dname_enter MNT_NODNLC dir vn name s =
    (if bool_decide (d <> 0) then
       upd_dname d (fun d => d <| dn_hash_key := dname_key name |> <| dn_dir_vnode := dir |> <| dn_vnode := vn |>);; mret 0
     else dname_recycle dir vn name (dname_key name)) s).
  { unfold dname_enter. rewrite (run_query dir name _ _ s Hq). cbv zeta. rewrite (run_bind _ _ _ _ _ El).
    by rewrite (run_bind _ _ _ _ _ Ed). }
  rewrite E. destruct Hd as [(H0 & Hh & Hk & Hm)|[-> Hm]].
  - rewrite bool_decide_true by done. unfold upd_dname. rewrite (run_bind _ _ _ _ _ (run_upd _ _ _ _ _ H0)).
    assert (Ex : dnames s d <| dn_hash_key := dname_key name |> <| dn_dir_vnode := dir |> <| dn_vnode := vn |> =
      dnames s d <| dn_vnode := vn |>).
    { pose proof (proj1 (di_key _ _ _ I d Hh)) as Hkd. unfold dkey in Hk. injection Hk as Hdir Hname. rewrite Hname in Hkd.
      destruct (dnames s d). cbn in *. congruence. }
    rewrite Ex. eexists (dmap (dnames s)), _. split; [reflexivity|].
    pose proof (inv_revnode _ _ _ _ vn I Hh) as I'. split; [exact I'|]. split; [|split; [|split; [by left|done]]].
    + destruct HL as (L1 & L2 & EL & H1 & H2). exists L1, L2. cbn.
      assert (Hhe : forall e, hashed (<[d := dnames s d <| dn_vnode := vn |>]> (dnames s)) e <-> hashed (dnames s) e).
      { intros e. unfold hashed. destruct (decide (e = d)) as [->|He]; [by rewrite store_eq|by rewrite store_ne]. }
      setoid_rewrite Hhe. done.
    + etransitivity; [apply (dmap_change _ _ _ I d _ _ _ _ eq_refl I'); apply Hh|]. cbv zeta.
      destruct (decide (hashed _ _)); [|done]. destruct (decide (_ = -1)) as [Hm1|_]; [by destruct Hh|]. cbn. rewrite Hk. unfold dkey in Hk. injection Hk as -> ->. apply insert_delete_eq.
  - rewrite bool_decide_false by (intros H; by apply H).
    destruct (dname_recycle_ok dir vn name s I HL (qk_name _ _ _ Hq) Hm) as (m & s' & Er & I' & HL' & Em & Hv & Hs).
    destruct Hs as [Hs1 Hs2]. exists m, s'. split_and!; try done. destruct Hv as [?|[? ?]]; [by left|by right].
Qed.
End Ops.

(** The loops over the table: the entries of which [q] holds are unhashed. *)
Lemma purge_loop_ok (q : Z -> Z -> bool) c n t s :
  inv_s s -> lru_ok (dnames s) (dname_lru_list s) -> 0 <= t -> t + Z.of_nat n <= NR_DNAME ->
  (forall s' e, vnodes s' = vnodes s -> (exists e', hashed (dnames s) e' /\ dn_vnode (dnames s' e) = dn_vnode (dnames s e')) ->
     c (dnames s' e) s' = Ret (q (dn_dir_vnode (dnames s' e)) (dn_vnode (dnames s' e))) s') ->
  exists s', dname_purge_loop c n t s = Ret () s' /\ inv_s s' /\ lru_ok (dnames s') (dname_lru_list s') /\
    vnodes s' = vnodes s /\ superblocks s' = superblocks s /\
    (forall e, dnames s' e = if bool_decide (t < e <= t + Z.of_nat n) && q (dn_dir_vnode (dnames s e)) (dn_vnode (dnames s e))
                                && bool_decide (hashed (dnames s) e)
                             then dnames s e <| dn_hash_key := -1 |> else dnames s e).
Proof.
  revert t s. induction n as [|n IH]; intros t s I HL Ht Hn Hc.
  { exists s. split; [done|]. split_and!; try done. intros e. by rewrite bool_decide_false by lia. }
  cbn [dname_purge_loop]. assert (Ht0 : t + 1 <> 0) by lia. rewrite (run_bind _ _ _ _ _ (run_deref _ _ _ Ht0)).
  assert (Htab : in_table (t + 1)) by (unfold in_table; lia).
  set (b := q (dn_dir_vnode (dnames s (t + 1))) (dn_vnode (dnames s (t + 1))) && bool_decide (hashed (dnames s) (t + 1))).
  assert (Hstep : exists s1, (if bool_decide (dn_hash_key (dnames s (t + 1)) <> -1) then
      b ← c (dnames s (t + 1)); if b : bool then dname_unhash (dn_hash_key (dnames s (t + 1))) (t + 1) else mret ()
      else mret ()) s = Ret () s1 /\ inv_s s1 /\ lru_ok (dnames s1) (dname_lru_list s1) /\ vnodes s1 = vnodes s /\
      superblocks s1 = superblocks s /\
      forall e, dnames s1 e = if bool_decide (e = t + 1) && b then dnames s e <| dn_hash_key := -1 |> else dnames s e).
  { destruct (decide (hashed (dnames s) (t + 1))) as [Hh|Hh].
    - rewrite bool_decide_true by apply Hh. erewrite run_bind by (apply Hc; [done|by eexists]).
      subst b. rewrite (bool_decide_true (hashed _ _)) by done. rewrite andb_true_r.
      destruct (q _ _).
      + destruct (run_unhash _ _ I Hh) as (s1 & E1 & I1 & _ & D1 & L1 & F1). exists s1. split; [done|]. split; [done|].
        split; [rewrite L1; by apply (lru_ok_unhash (dnames s))|]. split; [by rewrite F1|]. split; [by rewrite F1|].
        intros e. rewrite D1, andb_true_r. case_bool_decide; [by subst|done].
      + exists s. split_and!; try done. intros e. by rewrite andb_false_r.
    - rewrite bool_decide_false by (intros H; by apply Hh). exists s. split_and!; try done. intros e. subst b.
      by rewrite (bool_decide_false (hashed _ _)), !andb_false_r. }
  destruct Hstep as (s1 & E1 & I1 & HL1 & V1 & S1 & D1). rewrite (run_bind _ _ _ _ _ E1).
  destruct (IH (t + 1) s1 I1 HL1 ltac:(lia) ltac:(lia)) as (s' & E & I' & HL' & V' & S' & D').
  { intros s' e V' (e' & Hh & Ev). apply Hc; [by rewrite V', V1|]. exists e'. split.
    - unfold hashed in *. rewrite D1 in Hh. destruct (bool_decide _ && b); cbn in *; naive_solver.
    - rewrite Ev, D1. by destruct (bool_decide _ && b). }
  exists s'. split; [done|]. split; [done|]. split; [done|]. split; [by rewrite V', V1|]. split; [by rewrite S', S1|].
  intros e. rewrite D', D1. destruct (decide (e = t + 1)) as [->|He].
  - rewrite (bool_decide_true (t + 1 = _)) by done. rewrite (bool_decide_false (t + 1 < t + 1 <= t + 1 + Z.of_nat n)) by lia.
    rewrite (bool_decide_true (t < t + 1 <= t + Z.of_nat (S n))) by lia. done.
  - assert (Ee : dnames s1 e = dnames s e) by (rewrite D1; by rewrite (bool_decide_false (e = t + 1))).
    assert (Hh : hashed (dnames s1) e <-> hashed (dnames s) e) by (unfold hashed; by rewrite Ee).
    rewrite (bool_decide_false (e = t + 1)) by done. cbn [andb]. rewrite (bool_decide_ext _ _ Hh).
    rewrite (bool_decide_ext (t + 1 < e <= t + 1 + Z.of_nat n) (t < e <= t + Z.of_nat (S n))) by lia. done.
Qed.

Lemma purge_dmap (q : Z -> Z -> bool) D L H D' L' H' :
  dnlc_inv D L H -> dnlc_inv D' L' H' ->
  (forall e, in_table e -> D' e = if q (dn_dir_vnode (D e)) (dn_vnode (D e)) && bool_decide (hashed D e)
                                   then D e <| dn_hash_key := -1 |> else D e) ->
  dmap D' = filter (fun kv => q kv.1.1 kv.2 = false) (dmap D).
Proof.
  intros I I' HD. apply map_eq. intros k. apply option_eq. intros v.
  rewrite map_lookup_filter_Some, (dmap_Some _ _ _ _ _ I), (dmap_Some _ _ _ _ _ I').
  assert (Hh : forall d, hashed D' d <-> hashed D d /\ q (dn_dir_vnode (D d)) (dn_vnode (D d)) = false).
  { intros d. destruct (decide (in_table d)) as [Ht|Ht]; [|unfold hashed; naive_solver].
    assert (Hx := HD d Ht). destruct (decide (hashed D d)) as [Hd|Hd].
    - rewrite (bool_decide_true (hashed D d)), andb_true_r in Hx by done. unfold hashed in *. rewrite Hx.
      destruct (q _ _); cbn; naive_solver.
    - rewrite (bool_decide_false (hashed D d)), andb_false_r in Hx by done. unfold hashed in *. rewrite Hx. naive_solver. }
  assert (Hk : forall d, hashed D' d -> dkey D' d = dkey D d /\ dn_vnode (D' d) = dn_vnode (D d)).
  { intros d Hd. assert (Hx := HD d (proj1 Hd)). unfold dkey. rewrite Hx. by destruct (_ && _). }
  split.
  - intros (d & Hd & E & Ev). destruct (Hk d Hd) as [E1 E2]. apply Hh in Hd as [Hd Hq]. rewrite E1 in E. rewrite E2 in Ev.
    split; [by exists d|]. cbn. rewrite <- E, <- Ev. done.
  - intros [(d & Hd & E & Ev) Hq]. cbn in Hq. assert (Hd' : hashed D' d).
    { apply Hh. split; [done|]. rewrite Ev. rewrite <- E in Hq. done. }
    exists d. destruct (Hk d Hd') as [-> ->]. done.
Qed.

(** ** The contract of the cache *)

(** The entries the purges are to remove. *)
Definition of_vnode (v dir vn : Z) : bool := bool_decide (vn = v) || bool_decide (dir = v).
Definition of_superblock (V : Z -> VNode) (sb dir vn : Z) : bool := bool_decide (v_superblock (V vn) = sb).

Inductive dnlc_op :=
| DLookup (dir : Z) (name : list Z)
| DEnter (dir vn : Z) (name : list Z)
| DRemove (dir : Z) (name : list Z)
| DPurgeVnode (vnode : Z)
| DPurgeSuperblock (sb : Z).

Section Contract.
Context (MNT_NODNLC : Z).

Definition run_dnlc (o : dnlc_op) : M (Z * Z) :=
  match o with
  | DLookup dir name => dname_lookup MNT_NODNLC dir name
  | DEnter dir vn name => r ← dname_enter MNT_NODNLC dir vn name; mret (r, 0)
  | DRemove dir name => r ← dname_remove MNT_NODNLC dir name; mret (r, 0)
  | DPurgeVnode v => dname_purge_vnode v;; mret (0, 0)
  | DPurgeSuperblock sb => dname_purge_superblock sb;; mret (0, 0)
  end.

(** An entry gives way to a new one only when all entries are in use; what is
    removed is the name in some directory. *)
Inductive dnlc_spec (V : Z -> VNode) (m : gmap (Z * list Z) Z) : dnlc_op -> Z * Z -> gmap (Z * list Z) Z -> Prop :=
| SHit dir name v : m !! (dir, name) = Some v -> dnlc_spec V m (DLookup dir name) (0, v) m
| SMiss dir name : m !! (dir, name) = None -> dnlc_spec V m (DLookup dir name) (-1, 0) m
| SEnter dir vn name : dnlc_spec V m (DEnter dir vn name) (0, 0) (<[(dir, name) := vn]> m)
| SEvict dir vn name k :
    m !! (dir, name) = None -> size m = Z.to_nat NR_DNAME ->
    dnlc_spec V m (DEnter dir vn name) (0, 0) (<[(dir, name) := vn]> (delete k m))
| SRemove dir dir' name :
    is_Some (m !! (dir', name)) -> dnlc_spec V m (DRemove dir name) (0, 0) (delete (dir', name) m)
| SRemoveNone dir name :
    (forall dir', m !! (dir', name) = None) -> dnlc_spec V m (DRemove dir name) (-1, 0) m
| SPurgeVnode v :
    dnlc_spec V m (DPurgeVnode v) (0, 0) (filter (fun kv => of_vnode v kv.1.1 kv.2 = false) m)
| SPurgeSuperblock sb :
    dnlc_spec V m (DPurgeSuperblock sb) (0, 0) (filter (fun kv => of_superblock V sb kv.1.1 kv.2 = false) m).

Definition live_vnode (s : fs) (v : Z) : Prop := v <> 0 /\ v_superblock (vnodes s v) <> 0.

Record dnlc_ok (s : fs) : Prop := {
  dk_inv : inv_s s;
  dk_lru : lru_ok (dnames s) (dname_lru_list s);
  dk_live : map_Forall (fun _ v => live_vnode s v) (dmap (dnames s))
}.

Definition dnlc_pre (s : fs) (o : dnlc_op) : Prop :=
  match o with
  | DLookup dir name => query_ok MNT_NODNLC s dir name
  | DEnter dir vn name => query_ok MNT_NODNLC s dir name /\ live_vnode s vn
  | DRemove dir name => query_ok MNT_NODNLC s dir name
  | _ => True
  end.

Lemma purge_vnode_ok v s :
  dnlc_ok s -> exists s', dname_purge_vnode v s = Ret () s' /\ dnlc_ok s' /\
    dmap (dnames s') = filter (fun kv => of_vnode v kv.1.1 kv.2 = false) (dmap (dnames s)).
Proof.
  intros [I HL Hl].
  destruct (purge_loop_ok (of_vnode v)
    (fun d => mret (bool_decide (dn_vnode d = v) || bool_decide (dn_dir_vnode d = v)) : M bool) (Z.to_nat NR_DNAME) 0 s I HL)
    as (s' & E & I' & HL' & V' & _ & D'); [done|done|done|].
  assert (Em : dmap (dnames s') = filter (fun kv => of_vnode v kv.1.1 kv.2 = false) (dmap (dnames s))).
  { apply (purge_dmap (of_vnode v) _ _ _ _ _ _ I I').
    intros e He. rewrite D'. by rewrite (bool_decide_true (0 < e <= _)) by (unfold in_table in He; lia). }
  exists s'. split; [exact E|]. split; [|done]. split; [done|done|]. rewrite Em.
  intros k x [Hx _]%map_lookup_filter_Some. unfold live_vnode. rewrite V'. by apply (Hl k).
Qed.

Lemma purge_superblock_ok sb s :
  dnlc_ok s -> exists s', dname_purge_superblock sb s = Ret () s' /\ dnlc_ok s' /\
    dmap (dnames s') = filter (fun kv => of_superblock (vnodes s) sb kv.1.1 kv.2 = false) (dmap (dnames s)).
Proof.
  intros [I HL Hl].
  destruct (purge_loop_ok (of_superblock (vnodes s) sb)
    (fun d => v ← deref vnodes (dn_vnode d); mret (bool_decide (v_superblock v = sb))) (Z.to_nat NR_DNAME) 0 s I HL)
    as (s' & E & I' & HL' & V' & _ & D'); [done|done|..].
  { intros s' e V' (e' & He & Ev). assert (H0 : dn_vnode (dnames s' e) <> 0).
    { rewrite Ev. apply (Hl (dkey (dnames s) e')). apply (dmap_Some _ _ _ _ _ I). by exists e'. }
    rewrite (run_bind _ _ _ _ _ (run_deref _ _ _ H0)). by rewrite V'. }
  assert (Em : dmap (dnames s') = filter (fun kv => of_superblock (vnodes s) sb kv.1.1 kv.2 = false) (dmap (dnames s))).
  { apply (purge_dmap (of_superblock (vnodes s) sb) _ _ _ _ _ _ I I').
    intros e He. rewrite D'. by rewrite (bool_decide_true (0 < e <= _)) by (unfold in_table in He; lia). }
  exists s'. split; [exact E|]. split; [|done]. split; [done|done|]. rewrite Em.
  intros k x [Hx _]%map_lookup_filter_Some. unfold live_vnode. rewrite V'. by apply (Hl k).
Qed.

Lemma dnlc_refines_ok o s :
  dnlc_ok s -> dnlc_pre s o ->
  exists r s', run_dnlc o s = Ret r s' /\ dnlc_ok s' /\ dnlc_spec (vnodes s) (dmap (dnames s)) o r (dmap (dnames s')).
Proof.
  intros Hok Hpre. pose proof Hok as [I HL Hl]. destruct o as [dir name|dir vn name|dir name|v|sb]; cbn [run_dnlc dnlc_pre] in *.
  - pose proof (dname_lookup_ok MNT_NODNLC dir name s I Hpre) as H. destruct (dmap (dnames s) !! (dir, name)) as [v|] eqn:Em.
    + destruct (Hl _ _ Em) as [Hv Hs]. eexists _, _. split; [by apply H|]. split; [|by constructor]. split; [done|done|].
      intros k x Hx. destruct (Hl k x Hx) as [? ?]. split; [done|]. by rewrite inc_ref_superblock.
    + eexists _, _. split; [by apply H|]. split; [done|by constructor].
  - destruct Hpre as [Hq Hv]. destruct (dname_enter_ok MNT_NODNLC dir vn name s I HL Hq) as (m & s' & E & I' & HL' & Em & Hm & V' & S').
    exists (0, 0), s'. rewrite (run_bind _ _ _ _ _ E). split; [done|].
    assert (Hl' : map_Forall (fun _ x => live_vnode s' x) (dmap (dnames s'))).
    { rewrite Em. unfold live_vnode. rewrite V'. apply map_Forall_insert_2; [done|].
      destruct Hm as [->|(_ & _ & k & ->)]; [done|]. by apply map_Forall_delete. }
    split; [done|]. rewrite Em. destruct Hm as [->|(? & ? & k & ->)]; by constructor.
  - destruct (dname_remove_ok MNT_NODNLC dir name s I HL Hpre) as [(dir' & s' & E & I' & HL' & Hs & Em & V' & S')|[E Hn]].
    + exists (0, 0), s'. rewrite (run_bind _ _ _ _ _ E). split; [done|]. rewrite Em. split; [|by constructor].
      split; [done|done|]. rewrite Em. unfold live_vnode. rewrite V'. by apply map_Forall_delete.
    + exists (-1, 0), s. rewrite (run_bind _ _ _ _ _ E). split; [done|]. split; [done|by constructor].
  - destruct (purge_vnode_ok v s Hok) as (s' & E & Hok' & Em). exists (0, 0), s'. rewrite (run_bind _ _ _ _ _ E).
    split; [done|]. split; [done|]. rewrite Em. constructor.
  - destruct (purge_superblock_ok sb s Hok) as (s' & E & Hok' & Em). exists (0, 0), s'. rewrite (run_bind _ _ _ _ _ E).
    split; [done|]. split; [done|]. rewrite Em. constructor.
Qed.
End Contract.

(** ** The cache at boot *)

Lemma init_dnames_loop_ok n t s :
  0 <= t -> dname_lru_list s = seqZ 1 t -> (forall d, 1 <= d <= t -> dn_hash_key (dnames s d) = -1) ->
  exists s', init_dnames_loop n t s = Ret () s' /\ dname_lru_list s' = seqZ 1 (t + Z.of_nat n) /\
    (forall d, 1 <= d <= t + Z.of_nat n -> dn_hash_key (dnames s' d) = -1).
Proof.
  revert t s. induction n as [|n IH]; intros t s Ht HL HD.
  { exists s. rewrite Z.add_0_r. done. }
  cbn [init_dnames_loop]. rewrite (run_bind _ _ _ _ _ (run_gets _ _)), HL.
  rewrite Seq.add_tail_fresh by (rewrite elem_of_seqZ; lia). rewrite (run_bind _ _ _ _ _ (run_lift _ _)).
  unfold modify. erewrite run_bind by reflexivity. assert (Ht0 : t + 1 <> 0) by lia.
  unfold upd_dname. rewrite (run_bind _ _ _ _ _ (run_upd _ _ _ _ _ Ht0)).
  match goal with |- context [init_dnames_loop n (t + 1) ?x] => destruct (IH (t + 1) x) as (s' & E & HL' & HD') end; [lia|..].
  - cbn. rewrite (seqZ_app 1 t 1), (Z.add_comm 1 t) by lia. done.
  - intros d Hd. cbn. destruct (decide (d = t + 1)) as [->|Hne]; [by rewrite store_eq|].
    rewrite store_ne by done. apply HD. lia.
  - exists s'. split; [done|]. replace (t + Z.of_nat (S n)) with (t + 1 + Z.of_nat n) by lia. done.
Qed.

Lemma init_dnames_ok s : exists s', init_dnames s = Ret () s' /\ dnlc_ok s' /\ dmap (dnames s') = ∅.
Proof.
  unfold init_dnames, modify. erewrite run_bind by reflexivity.
  destruct (init_dnames_loop_ok (Z.to_nat NR_DNAME) 0 (s <| dname_lru_list := [] |>)) as (s1 & E & HL & HD); [done|done|lia|].
  erewrite run_bind by exact E. eexists. split; [reflexivity|]. clear E.
  assert (Hnh : forall d, ~ hashed (dnames s1) d).
  { intros d [Hd H]. apply H, HD. unfold in_table in Hd. lia. }
  assert (Em : dmap (dnames s1) = ∅).
  { unfold dmap. replace (filter _ _) with (@nil Z); [done|]. symmetry.
    destruct (filter _ _) as [|d l] eqn:Ef; [done|]. destruct (Hnh d). apply elem_of_table. rewrite Ef. apply elem_of_cons. by left. }
  split; [|exact Em]. split; cbn.
  - split; cbn.
    + apply length_replicate.
    + rewrite HL. apply NoDup_seqZ.
    + intros d. rewrite HL, elem_of_seqZ. unfold in_table. change (0 + Z.of_nat (Z.to_nat NR_DNAME)) with NR_DNAME. lia.
    + intros d Hd. by destruct (Hnh d).
    + intros k l [-> _]%lookup_replicate. split; [constructor|]. intros d. split; [set_solver|].
      intros [Hd Hk]. exfalso. rewrite HD in Hk by (unfold in_table in Hd; lia). lia.
    + intros d d' Hd. by destruct (Hnh d).
  - rewrite HL. exists (seqZ 1 NR_DNAME), []. rewrite app_nil_r. split; [done|]. split; [done|set_solver].
  - rewrite Em. apply map_Forall_empty.
Qed.

(** ** Purging everything *)

Lemma dname_reset_loop_ok n t s :
  0 <= t ->
  exists D, dname_reset_loop n t s = Ret () (s <| dnames := D |>) /\
    forall d, D d = if bool_decide (t < d <= t + Z.of_nat n) then dnames s d <| dn_hash_key := -1 |> <| dn_vnode := 0 |> else dnames s d.
Proof.
  revert t s. induction n as [|n IH]; intros t s Ht.
  { exists (dnames s). split; [by destruct s|]. intros d. by rewrite bool_decide_false by lia. }
  cbn [dname_reset_loop]. assert (Ht0 : t + 1 <> 0) by lia. unfold upd_dname.
  rewrite (run_bind _ _ _ _ _ (run_upd _ _ _ _ _ Ht0)).
  match goal with |- context [dname_reset_loop n (t + 1) ?x] => destruct (IH (t + 1) x ltac:(lia)) as (D & E & HD) end.
  exists D. split; [exact E|]. intros d. rewrite HD. cbn. destruct (decide (d = t + 1)) as [->|Hd].
  - rewrite bool_decide_false, bool_decide_true by lia. by rewrite store_eq.
  - rewrite store_ne by done. by rewrite (bool_decide_ext (t + 1 < d <= t + 1 + Z.of_nat n) (t < d <= t + Z.of_nat (S n))) by lia.
Qed.

Section Claims.
Context (MNT_NODNLC : Z).

Lemma purge_all_lookup dir name v s :
  inv_s s -> query_ok MNT_NODNLC s dir name -> dmap (dnames s) !! (dir, name) = Some v ->
  exists s', dname_purge_all s = Ret () s' /\ dname_lookup MNT_NODNLC dir name s' = Fault.
Proof.
  intros I Hq Hv. destruct (dname_reset_loop_ok (Z.to_nat NR_DNAME) 0 s) as (D & E & HD); [lia|].
  set (s' := s <| dnames := D |> <| dname_lru_list := [] |>). exists s'.
  split. { unfold dname_purge_all. by rewrite (run_bind _ _ _ _ _ E). }
  pose proof (dname_key_range name) as Hr. destruct (hash_lookup _ _ _ _ I Hr) as [l Hl].
  destruct (bucket_ok s name l I Hl) as [Hb Hb'].
  assert (HDl : forall d, d ∈ l -> D d = dnames s d <| dn_hash_key := -1 |> <| dn_vnode := 0 |>).
  { intros d Hd. rewrite HD, bool_decide_true; [done|]. destruct (Hb d Hd) as [[Ht _] _]. unfold in_table in Ht. lia. }
  destruct (dname_find_ok dir name l s') as (d & Ed & Hd); [intros d Hd; apply (Hb d Hd)| |apply Hq|].
  { intros d Hd. cbn. rewrite HDl by done. apply (Hb d Hd). }
  assert (Hd' : d ∈ l).
  { destruct Hd as [[Hd _]|[_ Hn]]; [done|]. apply (dmap_Some _ _ _ _ _ I) in Hv as (e & He & Hk & _).
    assert (Hel : e ∈ l) by (apply Hb'; [done|]; unfold dkey in Hk; congruence).
    destruct (Hn e Hel). unfold dkey. cbn. rewrite HDl by done. exact Hk. }
  assert (H0 : d <> 0) by apply (Hb d Hd').
  unfold dname_lookup. rewrite (run_query MNT_NODNLC dir name _ _ s').
  2:{ destruct Hq as [q1 q2 q3 q4]. split; [exact q1|exact q2|exact q3|exact q4]. }
  erewrite run_bind by (apply (run_get_hash _ l); [lia|exact Hl]). rewrite (run_bind _ _ _ _ _ Ed).
  rewrite bool_decide_false by done. rewrite (run_bind _ _ _ _ _ (run_deref _ _ _ H0)).
  change (dnames s' d) with (D d). rewrite (HDl d Hd'). reflexivity.
Qed.


(** dname_purge_all marks every entry as unused without emptying the hash
    lists, so that the lookup of a name that was cached finds its entry, with a
    NULL vnode, and faults. *)
Theorem purge_all_then_lookup_faults dir name v s :
  dnlc_ok s -> query_ok MNT_NODNLC s dir name -> dmap (dnames s) !! (dir, name) = Some v ->
  exists s', dname_purge_all s = Ret () s' /\ dname_lookup MNT_NODNLC dir name s' = Fault.
Proof. intros [I _ _]. by apply purge_all_lookup. Qed.
End Claims.

(** ** Witnesses *)

(** Vnodes of a file system at superblock 1, with the cache as booted, and
    after the name "ab" of the directory 1 has been entered. *)
Definition fs_dn : fs :=
  fs0 <| vnodes := fun _ => mkVNode false 0 0 1 0 1 0 0 0 0 0 0 0 0 0 0 0 0 0 0 0 [] [] [] [] |>.
Definition result_state {A} (o : outcome A) : fs := match o with Ret _ s => s | _ => fs0 end.
Definition boot_dn : fs := result_state (init_dnames fs_dn).
Definition enter_dn : fs := result_state (dname_enter 4 1 2 [97; 98] boot_dn).

Lemma boot_dn_ok : dnlc_ok boot_dn.
Proof. unfold boot_dn. destruct (init_dnames_ok fs_dn) as (s' & -> & Hok & _). exact Hok. Qed.

Lemma query_dn s : v_superblock (vnodes s 1) = 1 -> sb_flags (superblocks s 1) = 0 -> query_ok 4 s 1 [97; 98].
Proof.
  intros E1 E2. split; [done|by rewrite E1|by rewrite E1, E2|].
  split; [repeat constructor; discriminate|unfold DNAME_SZ; cbn; lia].
Qed.

Lemma enter_state_ok s :
  dnlc_ok s -> query_ok 4 s 1 [97; 98] -> live_vnode s 2 -> dnlc_ok (result_state (dname_enter 4 1 2 [97; 98] s)).
Proof.
  intros Hok Hq Hv. destruct Hok as [I HL Hl].
  destruct (dnlc_refines_ok 4 (DEnter 1 2 [97; 98]) s) as (r & s' & E & Hok & _); [by split|by split|].
  cbn [run_dnlc] in E. unfold mbind, M_bind in E. destruct (dname_enter _ _ _ _ _) as [a s''| |]; [|done..].
  injection E as _ ->. exact Hok.
Qed.

Lemma enter_dn_ok : dnlc_ok enter_dn.
Proof.
  apply (enter_state_ok boot_dn boot_dn_ok); [apply query_dn; vm_compute; reflexivity|].
  split; [discriminate|]. assert (E : v_superblock (vnodes boot_dn 2) = 1) by (vm_compute; reflexivity).
  rewrite E. discriminate.
Qed.


Lemma purge_all_then_lookup_faults_witness :
  exists s', dname_purge_all enter_dn = Ret () s' /\ dname_lookup 4 1 [97; 98] s' = Fault.
Proof.
  apply (purge_all_then_lookup_faults 4 1 [97; 98] 2 enter_dn); [exact enter_dn_ok|apply query_dn; vm_compute; reflexivity|].
  vm_compute. reflexivity.
Defined.

(** dname_remove looks at the name only: with "ab" cached for directory 1
    and then for directory 3, removing it from directory 1 removes it from 3. *)
Lemma dname_remove_other_directory :
  exists s1 s2, dname_enter 4 3 5 [97; 98] enter_dn = Ret 0 s1 /\ dname_remove 4 1 [97; 98] s1 = Ret 0 s2 /\
    dmap (dnames s2) !! (1, [97; 98]) = Some 2 /\ dmap (dnames s2) !! (3, [97; 98]) = None.
Proof. eexists _, _. split; [vm_compute; reflexivity|]. split; [vm_compute; reflexivity|]. split; vm_compute; reflexivity. Qed.
