(* ===== verification/Signal.v ===== *)
(** * Signals

    The model of kernel/proc/signal.c and of PickSignal and CheckSignals of
    boards/raspberry_pi_4/signals.c, on the process table of [Sched].  A user
    pointer is NULL ([None]), one that faults when it is copied from or to, or
    one that reads or accepts a value.  The variables the C code reads before it
    sets them are arguments named [garbage].  The numbers of the signals are
    those of the comments in [sigprop]; the flags of sigaction are newlib's and
    arguments. *)

From S2P Require Import Prelude Lists Sched.
Import Lists.Seq.

Definition NSIG := 32.
Definition SIGKILL := 9.
Definition SIGSTOP := 17.
Definition SIG_DFL := 0.
Definition SIG_IGN := 1.
Definition SIG_SETMASK := 0.
Definition SIG_BLOCK := 1.
Definition SIG_UNBLOCK := 2.
Definition SI_USER := 1.

Definition SP_KILL := 1.
Definition SP_CORE := 2.
Definition SP_NORESET := 4.
Definition SP_CANTMASK := 8.
Definition SP_CONT := 16.
Definition SP_STOP := 32.
Definition SP_TTYSTOP := 64.

Definition SIGBIT (sig : Z) : Z := Z.shiftl 1 (sig - 1).
Definition SIGCANTMASK : Z := Z.lor (SIGBIT SIGKILL) (SIGBIT SIGSTOP).

Definition sigprop : list Z :=
  [0;
   SP_KILL; SP_KILL; Z.lor SP_KILL SP_CORE;
   Z.lor SP_KILL (Z.lor SP_CORE SP_NORESET); Z.lor SP_KILL (Z.lor SP_CORE SP_NORESET);
   Z.lor SP_KILL SP_CORE; Z.lor SP_KILL SP_CORE; Z.lor SP_KILL SP_CORE;
   Z.lor SP_KILL SP_CANTMASK; Z.lor SP_KILL SP_CORE; Z.lor SP_KILL SP_CORE; Z.lor SP_KILL SP_CORE;
   SP_KILL; SP_KILL; SP_KILL; 0;
   Z.lor SP_STOP SP_CANTMASK; Z.lor SP_STOP SP_TTYSTOP; SP_CONT; 0;
   Z.lor SP_STOP SP_TTYSTOP; Z.lor SP_STOP SP_TTYSTOP; 0;
   SP_KILL; SP_KILL; SP_KILL; SP_KILL; 0; 0; SP_KILL; SP_KILL].

(** [for (t = 1; t < NSIG; t++) dst[t-1] = ...] *)
Definition fill_sigs (dst src : Z -> Z) (i : Z) : Z := if bool_decide (0 <= i < NSIG - 1) then src i else dst i.

Definition upd_signal (p : Z) (f : Signal -> Signal) : kernel -> kernel :=
  upd_proc p (fun pr => pr <| p_signal := f (p_signal pr) |>).

Definition SigFork (src dst : Z) (k : kernel) : kernel :=
  let sg := p_signal (procs k src) in
  upd_signal dst (fun d => d
    <| s_handler := fill_sigs (s_handler d) (s_handler sg) |>
    <| s_handler_mask := fill_sigs (s_handler_mask d) (s_handler_mask sg) |>
    <| s_si_code := fill_sigs (s_si_code d) (fun _ => 0) |>
    <| s_sig_info := s_sig_info sg |> <| s_sig_mask := s_sig_mask sg |> <| s_sig_pending := 0 |>
    <| s_sig_resethand := s_sig_resethand sg |> <| s_sig_nodefer := s_sig_nodefer sg |>
    <| s_restorer := s_restorer sg |> <| s_sigsuspend_oldmask := 0 |> <| s_use_sigsuspend_mask := false |>) k.

Definition SigInit (dst : Z) : kernel -> kernel :=
  upd_signal dst (fun d => d
    <| s_handler := fill_sigs (s_handler d) (fun _ => SIG_DFL) |>
    <| s_handler_mask := fill_sigs (s_handler_mask d) (fun _ => 0) |>
    <| s_si_code := fill_sigs (s_si_code d) (fun _ => 0) |>
    <| s_sig_info := 0 |> <| s_sig_mask := 0 |> <| s_sig_pending := 0 |>
    <| s_sig_resethand := 0 |> <| s_sig_nodefer := 0 |>
    <| s_restorer := 0 |> <| s_sigsuspend_oldmask := 0 |> <| s_use_sigsuspend_mask := false |>).

Definition SigExec (dst : Z) : kernel -> kernel :=
  upd_signal dst (fun d => d
    <| s_handler := fill_sigs (s_handler d) (fun i => if bool_decide (s_handler d i <> SIG_IGN) then SIG_DFL else s_handler d i) |>
    <| s_handler_mask := fill_sigs (s_handler_mask d) (fun _ => 0) |>
    <| s_si_code := fill_sigs (s_si_code d) (fun _ => 0) |>
    <| s_sig_info := 0 |> <| s_sig_resethand := 0 |> <| s_sig_nodefer := 0 |>
    <| s_restorer := 0 |> <| s_sigsuspend_oldmask := 0 |> <| s_use_sigsuspend_mask := false |>).

Record sigaction := mkSigaction { sa_handler : Z; sa_mask : Z; sa_flags : Z; sa_restorer : Z }.
#[export] Instance rebuild_sigaction : Rebuild sigaction := fun r =>
  mkSigaction (sa_handler r) (sa_mask r) (sa_flags r) (sa_restorer r).

(** The index [signal - 1] of an array of [struct Signal]. *)
Definition set_sig (signal v : Z) (f : Z -> Z) : Z -> Z := <[signal - 1 := v]> f.
#[global] Arguments set_sig : simpl never.

Section Sigaction.
Context (SA_SIGINFO SA_NODEFER SA_RESETHAND SA_RESTORER : Z).

(** The bits the flags of [act] set. *)
Definition set_flags (signal : Z) (act : sigaction) (d : Signal) : Signal :=
  let on f x := if bool_decide (Z.land (sa_flags act) f <> 0) then Z.lor x (SIGBIT signal) else x in
  d <| s_sig_info := on SA_SIGINFO (s_sig_info d) |>
    <| s_sig_nodefer := on SA_NODEFER (s_sig_nodefer d) |>
    <| s_sig_resethand := on SA_RESETHAND (s_sig_resethand d) |>
    <| s_restorer := if bool_decide (Z.land (sa_flags act) SA_RESTORER <> 0) then sa_restorer act else s_restorer d |>.

(** The old action, in [oact]; [sig_info &= SIGBIT(signal)] is an assignment. *)
Definition old_action (signal : Z) (garbage : sigaction) (d : Signal) : sigaction * Signal :=
  let d := d <| s_sig_info := Z.land (s_sig_info d) (SIGBIT signal) |> in
  let oact := if bool_decide (s_sig_info d <> 0) then garbage <| sa_flags := Z.lor (sa_flags garbage) SA_SIGINFO |> else garbage in
  (oact <| sa_handler := s_handler d (signal - 1) |> <| sa_mask := s_handler_mask d (signal - 1) |>, d).

(** The result and what is copied to [oact_out]. *)
Definition sys_sigaction (signal : Z) (act_in : option (option sigaction)) (oact_out : option bool) (garbage : sigaction)
    (k : kernel) : option (Z * option sigaction * kernel) :=
  c ← get_current_process k;
  if bool_decide (signal <= 0 \/ signal >= NSIG) then Some (- EINVAL, None, k)
  else
    let '(out, k) :=
      match oact_out with
      | None => (None, k)
      | Some ok =>
          let '(oact, d) := old_action signal garbage (p_signal (procs k c)) in
          (Some (ok, oact), upd_signal c (fun _ => d) k)
      end in
    match out with
    | Some (false, _) => Some (- EFAULT, None, k)
    | _ =>
        let old := snd <$> out in
        match act_in with
        | None => Some (0, old, k)
        | Some None => Some (- EFAULT, old, k)
        | Some (Some act) =>
            if bool_decide (signal = SIGKILL \/ signal = SIGSTOP) then Some (- EINVAL, old, k)
            else
              Some (0, old, upd_signal c (fun d =>
                let d := set_flags signal act d in
                d <| s_handler := set_sig signal (sa_handler act) (s_handler d) |>
                  <| s_handler_mask := set_sig signal (Z.ldiff (sa_mask act) SIGCANTMASK) (s_handler_mask d) |>) k)
        end
    end.
End Sigaction.

Definition GetProcess (pid : Z) (k : kernel) : option Z :=
  if bool_decide (pid < 0 \/ pid >= max_process k) then None else Some pid.

(** The part of sys_kill between DisableInterrupts and EnableInterrupts. *)
Definition kill_one (proc signal : Z) (k : kernel) : option kernel :=
  if bool_decide (s_handler (p_signal (procs k proc)) (signal - 1) <> SIG_IGN) then
    let k := upd_signal proc (fun d => d <| s_sig_pending := Z.lor (s_sig_pending d) (SIGBIT signal) |>
                                         <| s_si_code := set_sig signal SI_USER (s_si_code d) |>) k in
    let pr := procs k proc in
    if bool_decide (p_state pr = PROC_STATE_RENDEZ_BLOCKED /\
                    Z.land (s_sig_pending (p_signal pr)) (s_sig_mask (p_signal pr)) <> 0) then
      k ← SchedReady proc (set_state proc PROC_STATE_READY k);
      Reschedule k
    else Some k
  else Some k.

(** sys_kill returns, or another process is chosen to run and the loop over the
    group is to be resumed at [t]. *)
Inductive kill_outcome :=
| Killed (r : Z) (k : kernel)
| Switched (t : Z) (k : kernel).

Fixpoint kill_group (n : nat) (t pgrp signal : Z) (k : kernel) : option kill_outcome :=
  match n with
  | O => Some (Killed 0 k)
  | S n =>
      match GetProcess t k with
      | None => kill_group n (t + 1) pgrp signal k
      | Some proc =>
          if bool_decide (p_state (procs k proc) <> PROC_STATE_UNALLOC /\ p_pgrp (procs k proc) = pgrp) then
            k' ← kill_one proc signal k;
            if bool_decide (current_process k' = current_process k) then kill_group n (t + 1) pgrp signal k'
            else Some (Switched (t + 1) k')
          else kill_group n (t + 1) pgrp signal k
      end
  end.

Definition sys_kill (pid signal : Z) (k : kernel) : option kill_outcome :=
  if bool_decide (signal <= 0 \/ signal >= NSIG \/ pid = 0) then Some (Killed (- EINVAL) k)
  else if bool_decide (pid > 0) then
    match GetProcess pid k with
    | None => Some (Killed (- EINVAL) k)
    | Some proc =>
        if bool_decide (p_state (procs k proc) = PROC_STATE_UNALLOC) then Some (Killed (- EINVAL) k)
        else k ← kill_one proc signal k; Some (Killed 0 k)
    end
  else kill_group (Z.to_nat (max_process k)) 0 (- pid) signal k.

(** Up to the sleep, if there is one. *)
Definition sys_sigsuspend (mask_in : option Z) (k : kernel) : option (Z * kernel) :=
  c ← get_current_process k;
  match mask_in with
  | None => Some (- EFAULT, k)
  | Some mask =>
      let k := upd_signal c (fun d => d <| s_sigsuspend_oldmask := s_sig_mask d |> <| s_use_sigsuspend_mask := true |>
                                        <| s_sig_mask := mask |>) k in
      let d := p_signal (procs k c) in
      if bool_decide (Z.ldiff (s_sig_pending d) (s_sig_mask d) = 0) then k ← TaskSleep (RProcess c) k; Some (0, k)
      else Some (0, k)
  end.

(** The result, the mask copied to [oset_out] if there is one, and the state.
    [set_in] is NULL, a pointer that faults, or the set it points to. *)
Definition sys_sigprocmask (how : Z) (set_in : option (option Z)) (oset_out : option bool) (garbage : Z)
    (k : kernel) : option (Z * option Z * kernel) :=
  c ← get_current_process k;
  let mask := s_sig_mask (p_signal (procs k c)) in
  if bool_decide (oset_out = Some false) then Some (- EFAULT, None, k)
  else
    let old := match oset_out with None => None | Some _ => Some mask end in
    match set_in with
    | None => Some (0, old, k)
    | Some (Some _) => Some (- EFAULT, old, k)
    | Some None =>
        let set := garbage in
        let put m := Some (0, old, upd_signal c (fun d => d <| s_sig_mask := m |>) k) in
        if bool_decide (how = SIG_SETMASK) then put set
        else if bool_decide (how = SIG_BLOCK) then put (Z.lor mask set)
        else if bool_decide (how = SIG_UNBLOCK) then put (Z.ldiff mask set)
        else Some (-1, old, k)
    end.

Definition sys_sigpending (ok : bool) (k : kernel) : option (Z * option Z) :=
  c ← get_current_process k;
  let d := p_signal (procs k c) in
  if ok then Some (0, Some (Z.ldiff (s_sig_pending d) (s_sig_mask d))) else Some (- EFAULT, None).

(** ** The Raspberry Pi 4 part *)

Fixpoint pick_loop (n : nat) (sig sigbits : Z) : Z :=
  match n with
  | O => sig
  | S n => if bool_decide (Z.land (Z.shiftl 1 sig) sigbits <> 0) then sig else pick_loop n (sig + 1) sigbits
  end.
Definition PickSignal (sigbits : Z) : Z := pick_loop 32 0 sigbits + 1.

(** CheckSignals returns at once. *)
Definition CheckSignals (k : kernel) : kernel := k.

(** ** What the scheduler leaves alone *)

Definition same_signals (k k' : kernel) : Prop := forall p, p_signal (procs k' p) = p_signal (procs k p).
#[export] Instance same_signals_trans : Transitive same_signals.
Proof. intros k1 k2 k3 H1 H2 p. by rewrite H2, H1. Qed.

Lemma upd_proc_signals p f k : (forall pr, p_signal (f pr) = p_signal pr) -> same_signals k (upd_proc p f k).
Proof. intros Hf x. unfold upd_proc. cbn. upd_cases; [apply Hf|done]. Qed.

Lemma upd_queue_signals q f k k' : upd_queue q f k = Some k' -> same_signals k k'.
Proof. intros (l & _ & _ & ->)%upd_queue_Some p. done. Qed.

Lemma SchedReady_signals p k k' : SchedReady p k = Some k' -> same_signals k k'.
Proof.
  unfold SchedReady. case_bool_decide; [|done]. destruct (upd_queue _ _ k) as [k1|] eqn:E; [|done]. cbn. intros [= <-].
  apply upd_queue_signals in E. intros x. rewrite <- (E x). cbn. by upd_cases.
Qed.

Lemma SchedUnready_signals p k k' : SchedUnready p k = Some k' -> same_signals k k'.
Proof.
  unfold SchedUnready. intros H x. destruct (upd_queue _ (rem_entry p) k) as [k1|] eqn:E;
    [|by repeat case_bool_decide; simplify_option_eq].
  apply upd_queue_signals in E. rewrite <- (E x).
  repeat case_bool_decide; simplify_option_eq; cbn; upd_cases;
    by destruct (bool_decide (sched_queue k1 (p_priority (procs k p)) = [])).
Qed.

(** Goes back through a sequence of updates. *)
Ltac signals_back :=
  repeat first
    [ done
    | match goal with
      | |- same_signals ?a ?a => intros ?; reflexivity
      | |- same_signals _ (upd_proc _ _ ?k) => transitivity k; [|by apply upd_proc_signals]
      | E : same_signals ?a ?k |- same_signals _ ?k => transitivity a; [clear E|exact E]
      end ].

Lemma Reschedule_account_signals c k k' : Reschedule_account c k = Some k' -> same_signals k k'.
Proof.
  unfold Reschedule_account. set (k0 := upd_proc c (fun p => p <| p_quanta_used := i32 (p_quanta_used p + 1) |>) k).
  assert (S0 : same_signals k k0) by by apply upd_proc_signals. intros H. transitivity k0; [done|]. clearbody k0. clear S0.
  repeat case_bool_decide; simplify_option_eq;
    repeat match goal with E : upd_queue _ _ _ = Some _ |- _ => apply upd_queue_signals in E end; signals_back.
Qed.

Lemma Reschedule_signals k k' : Reschedule k = Some k' -> same_signals k k'.
Proof.
  unfold Reschedule. intros H. destruct (match get_current_process k with Some c => _ | None => _ end) as [k1|] eqn:E; [|done].
  assert (S1 : same_signals k k1).
  { destruct (get_current_process k); [by eapply Reschedule_account_signals|by simplify_eq]. }
  transitivity k1; [done|]. cbn in H. destruct (Reschedule_next k1) as [n|]; case_bool_decide; simplify_option_eq; try done;
    intros x; cbn; by upd_cases.
Qed.

Lemma release_bkl_signals z k k' : release_bkl z k = Some k' -> same_signals k k'.
Proof.
  unfold release_bkl, upd_bkl_list. intros H. destruct (list.head _) as [p|]; [|by simplify_eq].
  destruct (rem_head _); [|done]. cbn in H. apply SchedReady_signals in H. intros x. rewrite H. cbn. by upd_cases.
Qed.

Lemma TaskSleep_signals r k k' : TaskSleep r k = Some k' -> same_signals k k'.
Proof.
  unfold TaskSleep, upd_rendez. intros H. destruct (get_current_process k) as [c|]; [|done]. cbn in H.
  destruct (release_bkl _ k) as [k1|] eqn:E1; [|done]. cbn in H. destruct (add_tail c _); [|done]. cbn in H.
  destruct (SchedUnready c _) as [k2|] eqn:E2; [|done]. cbn in H.
  apply release_bkl_signals in E1. apply SchedUnready_signals in E2. apply Reschedule_signals in H.
  intros x. rewrite H, E2. cbn. rewrite <- (E1 x). by upd_cases.
Qed.

(** ** The type of the signal state *)

Definition word32 (x : Z) : Prop := 0 <= x < 2 ^ 32.

(** Sets of signals are 32-bit words, no handler mask has SIGKILL or SIGSTOP,
    and the actions of these two are the default ones. *)
Record sig_ok (d : Signal) : Prop := {
  so_mask : word32 (s_sig_mask d);
  so_pending : word32 (s_sig_pending d);
  so_info : word32 (s_sig_info d);
  so_resethand : word32 (s_sig_resethand d);
  so_nodefer : word32 (s_sig_nodefer d);
  so_oldmask : word32 (s_sigsuspend_oldmask d);
  so_handler_mask i : 0 <= i < NSIG - 1 ->
    word32 (s_handler_mask d i) /\ Z.land (s_handler_mask d i) SIGCANTMASK = 0;
  so_code i : 0 <= i < NSIG - 1 -> s_si_code d i = 0 \/ s_si_code d i = SI_USER;
  so_kill : s_handler d (SIGKILL - 1) = SIG_DFL;
  so_stop : s_handler d (SIGSTOP - 1) = SIG_DFL
}.

Lemma word32_bits x : word32 x <-> 0 <= x /\ forall i, 32 <= i -> Z.testbit x i = false.
Proof.
  unfold word32. split.
  - intros Hx. split; [lia|]. intros i Hi. by apply (bits_above x 32).
  - intros [_ Hx]. by apply bits_bound.
Qed.

Lemma word32_0 : word32 0.
Proof. done. Qed.
Lemma word32_lor x y : word32 x -> word32 y -> word32 (Z.lor x y).
Proof.
  rewrite !word32_bits. intros [Hx0 Hx] [Hy0 Hy]. split; [by apply Z.lor_nonneg|].
  intros i Hi. by rewrite Z.lor_spec, Hx, Hy.
Qed.
Lemma word32_land x y : word32 x -> word32 (Z.land x y).
Proof.
  rewrite !word32_bits. intros [Hx0 Hx]. split; [apply Z.land_nonneg; by left|].
  intros i Hi. by rewrite Z.land_spec, Hx.
Qed.
Lemma word32_ldiff x y : word32 x -> word32 (Z.ldiff x y).
Proof.
  rewrite !word32_bits. intros [Hx0 Hx]. split; [apply Z.ldiff_nonneg; by left|].
  intros i Hi. by rewrite Z.ldiff_spec, Hx.
Qed.
Lemma word32_SIGBIT sig : 0 < sig < NSIG -> word32 (SIGBIT sig).
Proof.
  intros Hs. unfold SIGBIT, word32, NSIG in *. rewrite Z.shiftl_mul_pow2, Z.mul_1_l by lia.
  split; [apply Z.pow_nonneg; lia|apply Z.pow_lt_mono_r; lia].
Qed.
Create HintDb sigs.
#[export] Hint Resolve word32_0 word32_lor word32_land word32_ldiff word32_SIGBIT : sigs.

Lemma fill_sigs_in dst src i : 0 <= i < NSIG - 1 -> fill_sigs dst src i = src i.
Proof. intros Hi. unfold fill_sigs. by rewrite bool_decide_true. Qed.

Lemma set_sig_cases signal v f i : set_sig signal v f i = if bool_decide (i = signal - 1) then v else f i.
Proof. unfold set_sig. case_bool_decide; [subst; apply store_eq|by apply store_ne]. Qed.

(** ** The operations keep it *)

Section Ops.
Context (SA_SIGINFO SA_NODEFER SA_RESETHAND SA_RESTORER : Z).

Inductive sig_op :=
| OpInit (p : Z)
| OpFork (src dst : Z)
| OpExec (p : Z)
| OpAction (signal : Z) (act_in : option (option sigaction)) (oact_out : option bool) (garbage : sigaction)
| OpKill (pid signal : Z)
| OpSuspend (mask_in : option Z)
| OpProcmask (how : Z) (set_in : option (option Z)) (oset_out : option bool) (garbage : Z).

Definition exec_sig (o : sig_op) (k : kernel) : option kernel :=
  match o with
  | OpInit p => Some (SigInit p k)
  | OpFork src dst => Some (SigFork src dst k)
  | OpExec p => Some (SigExec p k)
  | OpAction signal act_in oact_out garbage =>
      '(_, _, k) ← sys_sigaction SA_SIGINFO SA_NODEFER SA_RESETHAND SA_RESTORER signal act_in oact_out garbage k; Some k
  | OpKill pid signal => o ← sys_kill pid signal k; Some (match o with Killed _ k | Switched _ k => k end)
  | OpSuspend mask_in => '(_, k) ← sys_sigsuspend mask_in k; Some k
  | OpProcmask how set_in oset_out garbage => '(_, _, k) ← sys_sigprocmask how set_in oset_out garbage k; Some k
  end.

(** The arguments are values of their C types. *)
Definition op_typed (o : sig_op) : Prop :=
  match o with
  | OpAction _ (Some (Some act)) _ _ => word32 (sa_mask act)
  | OpSuspend (Some mask) => word32 mask
  | OpProcmask _ _ _ garbage => word32 garbage
  | _ => True
  end.

Definition all_ok (k : kernel) : Prop := forall p, sig_ok (p_signal (procs k p)).

Lemma all_ok_same k k' : all_ok k -> same_signals k k' -> all_ok k'.
Proof. intros H S p. rewrite (S p). apply H. Qed.

Lemma all_ok_upd p f k : all_ok k -> (sig_ok (p_signal (procs k p)) -> sig_ok (f (p_signal (procs k p)))) -> all_ok (upd_signal p f k).
Proof. intros H Hf x. unfold upd_signal, upd_proc. cbn. upd_cases; [cbn; by apply Hf, H|apply H]. Qed.

Lemma SigInit_ok p k : all_ok k -> all_ok (SigInit p k).
Proof.
  intros H. apply all_ok_upd; [done|]. intros _.
  split; cbn; auto with sigs; intros i Hi; rewrite fill_sigs_in by done; by auto with sigs.
Qed.

Lemma SigFork_ok src dst k : all_ok k -> all_ok (SigFork src dst k).
Proof.
  intros H. apply all_ok_upd; [done|]. intros _. destruct (H src). unfold SIGKILL, SIGSTOP in *.
  split; cbn; auto with sigs; try (intros i Hi; rewrite fill_sigs_in by done; by auto).
Qed.

Lemma SigExec_ok p k : all_ok k -> all_ok (SigExec p k).
Proof.
  intros H. apply all_ok_upd; [done|]. intros [? ? ? ? ? ? ? ? Hk Hs].
  split; cbn; auto with sigs; try (intros i Hi; rewrite fill_sigs_in by done; by auto with sigs);
    rewrite fill_sigs_in by done; case_bool_decide; done.
Qed.

Lemma set_flags_ok signal act d :
  0 < signal < NSIG -> sig_ok d -> sig_ok (set_flags SA_SIGINFO SA_NODEFER SA_RESETHAND SA_RESTORER signal act d).
Proof. intros Hs []. split; cbn; auto; by case_bool_decide; auto with sigs. Qed.

Lemma old_action_ok signal garbage d : sig_ok d -> sig_ok (old_action SA_SIGINFO signal garbage d).2.
Proof. intros []. split; cbn; auto with sigs. Qed.

Lemma install_ok signal act d :
  0 < signal < NSIG -> ~ (signal = SIGKILL \/ signal = SIGSTOP) -> word32 (sa_mask act) -> sig_ok d ->
  sig_ok (d <| s_handler := set_sig signal (sa_handler act) (s_handler d) |>
            <| s_handler_mask := set_sig signal (Z.ldiff (sa_mask act) SIGCANTMASK) (s_handler_mask d) |>).
Proof.
  intros Hs Hks Ht []. split; cbn; auto.
  - intros i Hi. rewrite set_sig_cases. case_bool_decide; [|by auto]. split; [by apply word32_ldiff|].
    apply Z.bits_inj_0. intros j. rewrite Z.land_spec, Z.ldiff_spec.
    by destruct (Z.testbit SIGCANTMASK j), (Z.testbit (sa_mask act) j).
  - rewrite set_sig_cases, bool_decide_false; [done|unfold SIGKILL, SIGSTOP in *; lia].
  - rewrite set_sig_cases, bool_decide_false; [done|unfold SIGKILL, SIGSTOP in *; lia].
Qed.

Lemma sigaction_ok signal act_in oact_out garbage k r out k' :
  all_ok k -> op_typed (OpAction signal act_in oact_out garbage) ->
  sys_sigaction SA_SIGINFO SA_NODEFER SA_RESETHAND SA_RESTORER signal act_in oact_out garbage k = Some (r, out, k') ->
  all_ok k'.
Proof.
  intros H Ht. unfold sys_sigaction. destruct (get_current_process k) as [c|]; [|done]. cbn.
  case_bool_decide as Hs; [by intros [= _ _ <-]|]. assert (Hs' : 0 < signal < NSIG) by lia.
  set (kk := match oact_out with None => _ | Some _ => _ end).
  assert (Hk : all_ok kk.2).
  { subst kk. destruct oact_out; [|done]. cbn. apply all_ok_upd; [done|]. apply (old_action_ok signal garbage). }
  destruct kk as [[[[] oact]|] k1]; cbn in Hk; intros E; simplify_eq; try done; revert E;
    (destruct act_in as [[act|]|]; [|by intros [= _ _ <-]|by intros [= _ _ <-]]);
    (case_bool_decide as Hks; [by intros [= _ _ <-]|]); intros [= _ _ <-]; (apply all_ok_upd; [done|]); intros Hok;
    exact (install_ok signal act _ Hs' Hks Ht (set_flags_ok signal act _ Hs' Hok)).
Qed.

Lemma kill_one_ok proc signal k k' :
  0 < signal < NSIG -> all_ok k -> kill_one proc signal k = Some k' -> all_ok k'.
Proof.
  intros Hs H. unfold kill_one. case_bool_decide; [|by intros [= <-]]. set (k1 := upd_signal proc _ k).
  assert (H1 : all_ok k1).
  { apply all_ok_upd; [done|]. intros []. split; cbn; auto with sigs.
    intros i Hi. rewrite set_sig_cases. case_bool_decide; auto. }
  clearbody k1. case_bool_decide; [|by intros [= <-]].
  destruct (SchedReady _ _) as [k2|] eqn:E; [|done]. cbn. intros E'. apply (all_ok_same k1); [done|].
  apply SchedReady_signals in E. apply Reschedule_signals in E'. transitivity k2; [|done].
  etransitivity; [|exact E]. by apply upd_proc_signals.
Qed.

Lemma kill_group_ok n t pgrp signal k o :
  0 < signal < NSIG -> all_ok k -> kill_group n t pgrp signal k = Some o ->
  all_ok (match o with Killed _ k | Switched _ k => k end).
Proof.
  intros Hs. revert t k. induction n as [|n IH]; intros t k H; cbn [kill_group]; [by intros [= <-]|].
  destruct (GetProcess t k) as [p|]; [|by apply IH]. case_bool_decide; [|by apply IH].
  destruct (kill_one p signal k) as [k1|] eqn:E; [|done]. cbn. apply (kill_one_ok p signal) in E; [|done..].
  case_bool_decide; [by apply IH|by intros [= <-]].
Qed.

Lemma sys_kill_ok pid signal k o :
  all_ok k -> sys_kill pid signal k = Some o -> all_ok (match o with Killed _ k | Switched _ k => k end).
Proof.
  intros H. unfold sys_kill. case_bool_decide as Hs; [by intros [= <-]|]. case_bool_decide.
  - destruct (GetProcess pid k) as [p|]; [|by intros [= <-]]. case_bool_decide; [by intros [= <-]|].
    destruct (kill_one p signal k) as [k1|] eqn:E; [|done]. intros [= <-]. eapply kill_one_ok; [|done|exact E]. lia.
  - apply kill_group_ok; [lia|done].
Qed.

Lemma sigsuspend_ok mask_in k r k' :
  all_ok k -> op_typed (OpSuspend mask_in) -> sys_sigsuspend mask_in k = Some (r, k') -> all_ok k'.
Proof.
  intros H Ht. unfold sys_sigsuspend. destruct (get_current_process k) as [c|]; [|done]. cbn [mbind option_bind].
  destruct mask_in as [mask|]; [|by intros [= _ <-]]. set (k1 := upd_signal c _ k).
  assert (H1 : all_ok k1). { apply all_ok_upd; [done|]. intros []. split; cbn; auto with sigs. }
  clearbody k1. cbv zeta. case_bool_decide; [|by intros [= _ <-]].
  destruct (TaskSleep (RProcess c) k1) as [k2|] eqn:E; [|done]. intros [= _ <-].
  apply TaskSleep_signals in E. by apply (all_ok_same k1).
Qed.

Lemma exec_sig_ok o k k' : all_ok k -> op_typed o -> exec_sig o k = Some k' -> all_ok k'.
Proof.
  intros H Ht. destruct o as [p|src dst|p|signal act_in oact_out garbage|pid signal|mask_in|how set_in oset_out garbage]; cbn.
  - intros [= <-]. by apply SigInit_ok.
  - intros [= <-]. by apply SigFork_ok.
  - intros [= <-]. by apply SigExec_ok.
  - destruct (sys_sigaction _ _ _ _ _ _ _ _ k) as [[[r out] k1]|] eqn:E; [|done]. intros [= <-]. by eapply sigaction_ok.
  - destruct (sys_kill pid signal k) as [o|] eqn:E; [|done]. intros [= <-]. by eapply sys_kill_ok.
  - destruct (sys_sigsuspend mask_in k) as [[r k1]|] eqn:E; [|done]. intros [= <-]. by eapply sigsuspend_ok.
  - unfold sys_sigprocmask. destruct (get_current_process k) as [c|]; [|done]. cbn. case_bool_decide; [by intros [= <-]|].
    destruct set_in as [[set|]|]; [by intros [= <-]| |by intros [= <-]].
    repeat case_bool_decide; intros [= <-]; try done; (apply all_ok_upd; [done|]); intros []; split; cbn; auto with sigs.
Qed.
End Ops.

(** ** Delivery *)

(** The effect on the state of a process. *)
Definition pended (signal : Z) (d : Signal) : Signal :=
  d <| s_sig_pending := Z.lor (s_sig_pending d) (SIGBIT signal) |> <| s_si_code := set_sig signal SI_USER (s_si_code d) |>.

Lemma testbit_pended signal d : 0 < signal -> Z.testbit (s_sig_pending (pended signal d)) (signal - 1) = true.
Proof.
  intros Hs. cbn. rewrite Z.lor_spec. unfold SIGBIT. rewrite Z.shiftl_spec by lia.
  rewrite Z.sub_diag. by rewrite orb_true_r.
Qed.

Lemma kill_one_awake proc signal k :
  s_handler (p_signal (procs k proc)) (signal - 1) <> SIG_IGN -> p_state (procs k proc) <> PROC_STATE_RENDEZ_BLOCKED ->
  kill_one proc signal k = Some (upd_signal proc (pended signal) k).
Proof.
  intros Hh Hs. unfold kill_one. rewrite bool_decide_true by done. cbv zeta. rewrite bool_decide_false; [done|].
  unfold upd_signal. rewrite procs_upd_eq. cbn. naive_solver.
Qed.

Lemma sys_kill_awake pid signal k :
  0 < signal < NSIG -> 0 < pid < max_process k -> p_state (procs k pid) <> PROC_STATE_UNALLOC ->
  p_state (procs k pid) <> PROC_STATE_RENDEZ_BLOCKED -> s_handler (p_signal (procs k pid)) (signal - 1) <> SIG_IGN ->
  sys_kill pid signal k = Some (Killed 0 (upd_signal pid (pended signal) k)).
Proof.
  intros Hs Hp Hu Hb Hh. unfold sys_kill, GetProcess. rewrite bool_decide_false by lia. rewrite bool_decide_true by lia.
  rewrite bool_decide_false by lia. rewrite bool_decide_false by done. by rewrite kill_one_awake.
Qed.

Section Runs.
Context (SA_SIGINFO SA_NODEFER SA_RESETHAND SA_RESTORER : Z).

Fixpoint run_sigs (ops : list sig_op) (k : kernel) : option kernel :=
  match ops with
  | [] => Some k
  | o :: ops => k ← exec_sig SA_SIGINFO SA_NODEFER SA_RESETHAND SA_RESTORER o k; run_sigs ops k
  end.

Lemma run_sigs_ok ops k k' : all_ok k -> Forall op_typed ops -> run_sigs ops k = Some k' -> all_ok k'.
Proof.
  intros H Ht. revert k H. induction Ht as [|o ops Ho Ht IH]; intros k H; cbn [run_sigs]; [by intros [= <-]|].
  destruct (exec_sig _ _ _ _ o k) as [k1|] eqn:E; [|done]. apply exec_sig_ok in E; [|done..]. by apply IH.
Qed.

(** C25. The signal state of every process keeps its type under every signal
    operation: the sets are 32-bit words, the masks of handlers never hold
    SIGKILL or SIGSTOP, the codes are those the kernel stores, and SIGKILL and
    SIGSTOP keep their default actions. *)
Theorem signal_state_typed o k k' :
  all_ok k -> op_typed o -> exec_sig SA_SIGINFO SA_NODEFER SA_RESETHAND SA_RESTORER o k = Some k' -> all_ok k'.
Proof. apply exec_sig_ok. Qed.

(** SIGKILL and SIGSTOP cannot be ignored: after any sequence of signal
    operations, sending one of them to a process that is not asleep marks it as
    pending there and changes nothing else. *)
Theorem sigkill_pends ops k k1 pid signal :
  all_ok k -> Forall op_typed ops -> run_sigs ops k = Some k1 -> signal = SIGKILL \/ signal = SIGSTOP ->
  0 < pid < max_process k1 -> p_state (procs k1 pid) <> PROC_STATE_UNALLOC ->
  p_state (procs k1 pid) <> PROC_STATE_RENDEZ_BLOCKED ->
  exists k2, sys_kill pid signal k1 = Some (Killed 0 k2) /\
    Z.testbit (s_sig_pending (p_signal (procs k2 pid))) (signal - 1) = true /\
    k2 = upd_signal pid (pended signal) k1.
Proof.
  intros H Ht E Hs Hp Hu Hb. pose proof (run_sigs_ok ops k k1 H Ht E pid) as Hok.
  assert (0 < signal < NSIG) by (unfold SIGKILL, SIGSTOP, NSIG in *; lia).
  eexists. split; [apply sys_kill_awake; try done|split; [|done]].
  - destruct Hok as [_ _ _ _ _ _ _ _ Hk Hst]. destruct Hs as [-> | ->]; [rewrite Hk|rewrite Hst]; done.
  - unfold upd_signal. rewrite procs_upd_eq. apply testbit_pended. lia.
Qed.

(** sys_sigprocmask has the test of its copy inverted: a set that can be
    read is refused with -EFAULT and the mask stays as it is, and with a pointer
    that cannot be read the mask becomes whatever the stack held. *)
Theorem sigprocmask_inverted c set garbage k :
  get_current_process k = Some c ->
  (forall how, sys_sigprocmask how (Some (Some set)) None garbage k = Some (- EFAULT, None, k)) /\
  exists k', sys_sigprocmask SIG_SETMASK (Some None) None garbage k = Some (0, None, k') /\
    s_sig_mask (p_signal (procs k' c)) = garbage.
Proof.
  intros Hc. unfold sys_sigprocmask. rewrite Hc. cbn [mbind option_bind]. split; [done|].
  eexists. split; [reflexivity|]. unfold upd_signal. by rewrite procs_upd_eq.
Qed.
End Runs.

(** A process that sleeps and is sent a signal that it blocks is put on a run
    queue without being taken off the rendez: when the scheduler is entered, it
    is on both lists. *)
Theorem kill_leaves_on_rendez proc r signal k :
  params_ok (procs k proc) -> proc ∈ blocked_list k r -> p_state (procs k proc) = PROC_STATE_RENDEZ_BLOCKED ->
  proc ∉ sched_queue k (p_priority (procs k proc)) -> s_handler (p_signal (procs k proc)) (signal - 1) <> SIG_IGN ->
  Z.land (Z.lor (s_sig_pending (p_signal (procs k proc))) (SIGBIT signal)) (s_sig_mask (p_signal (procs k proc))) <> 0 ->
  exists k1, kill_one proc signal k = Reschedule k1 /\ proc ∈ blocked_list k1 r /\
    proc ∈ sched_queue k1 (p_priority (procs k1 proc)).
Proof.
  intros Hp Hr Hs Hq Hh Hm. unfold kill_one. rewrite bool_decide_true by done. cbv zeta.
  set (k0 := upd_signal proc _ k).
  assert (E0 : procs k0 proc = procs k proc <| p_signal := pended signal (p_signal (procs k proc)) |>)
    by (subst k0; unfold upd_signal; by rewrite procs_upd_eq).
  rewrite E0. rewrite bool_decide_true by (cbn; done). set (k1 := set_state proc PROC_STATE_READY k0).
  assert (E1 : procs k1 proc = procs k0 proc <| p_state := PROC_STATE_READY |>)
    by (subst k1; unfold set_state; by rewrite procs_upd_eq).
  rewrite SchedReady_eq.
  - exists (readied proc k1). split; [done|]. rewrite procs_readied. split; [done|]. unfold readied. cbn.
    rewrite store_eq. apply elem_of_app. right. by left.
  - rewrite E1, E0. exact Hp.
  - rewrite E1, E0. exact Hq.
Qed.

(** PickSignal of a set that is not empty is the lowest signal of it. *)
Lemma pick_loop_ok n sig sigbits :
  0 <= sig -> (exists i, sig <= i < sig + Z.of_nat n /\ Z.testbit sigbits i = true) ->
  Z.testbit sigbits (pick_loop n sig sigbits) = true /\
  forall i, sig <= i < pick_loop n sig sigbits -> Z.testbit sigbits i = false.
Proof.
  revert sig. induction n as [|n IH]; intros sig H0 (i & Hi & Hb); [lia|]. cbn [pick_loop].
  assert (Hbit : Z.land (Z.shiftl 1 sig) sigbits <> 0 <-> Z.testbit sigbits sig = true).
  { rewrite Z.shiftl_1_l. rewrite Z.land_comm. split.
    - intros H. destruct (Z.testbit sigbits sig) eqn:E; [done|]. exfalso. apply H. apply Z.bits_inj_0. intros j.
      rewrite Z.land_spec, Z.pow2_bits_eqb by lia. destruct (Z.eqb_spec sig j) as [->|]; [by rewrite E|by rewrite andb_false_r].
    - intros E H. assert (Hz : Z.testbit (Z.land sigbits (2 ^ sig)) sig = false) by (rewrite H; apply Z.bits_0).
      rewrite Z.land_spec, E, Z.pow2_bits_true in Hz by lia. done. }
  destruct (Z.testbit sigbits sig) eqn:Hs; [rewrite bool_decide_true by by apply Hbit|rewrite bool_decide_false by naive_solver].
  - split; [done|lia].
  - destruct (IH (sig + 1)) as [Hp Hl]; [lia|exists i; split; [|done]; destruct (decide (i = sig)); [congruence|lia]|].
    split; [done|]. intros j Hj. destruct (decide (j = sig)) as [->|]; [done|]. apply Hl. lia.
Qed.

Lemma PickSignal_lowest sigbits :
  word32 sigbits -> sigbits <> 0 ->
  Z.testbit sigbits (PickSignal sigbits - 1) = true /\ forall sig, 1 <= sig < PickSignal sigbits -> Z.testbit sigbits (sig - 1) = false.
Proof.
  intros Hw Hn. unfold PickSignal. destruct (pick_loop_ok 32 0 sigbits) as [H1 H2]; [lia|..].
  - exists (Z.log2 sigbits). destruct Hw as [Hw1 Hw2]. split; [|apply Z.bit_log2; lia].
    split; [apply Z.log2_nonneg|]. apply Z.log2_lt_pow2; lia.
  - rewrite Z.add_simpl_r. split; [done|]. intros sig Hs. apply H2. lia.
Qed.

(** ** Witnesses *)

Definition sig_demo : kernel := demo SCHED_RR 5 0 true.

Lemma zero_signal_ok : sig_ok zero_signal.
Proof. split; cbn; auto with sigs. Qed.

Lemma sig_demo_ok : all_ok sig_demo.
Proof. intros p. unfold sig_demo, demo. cbn. upd_cases; exact zero_signal_ok. Qed.

(** Process 0 installs a handler for SIGTERM and then tries to ignore SIGKILL. *)
Definition demo_ops : list sig_op :=
  [OpAction 15 (Some (Some (mkSigaction 0x8000 0xffffffff 2 0))) None (mkSigaction 0 0 0 0);
   OpAction SIGKILL (Some (Some (mkSigaction SIG_IGN 0 0 0))) None (mkSigaction 0 0 0 0)].

Lemma demo_ops_typed : Forall op_typed demo_ops.
Proof. repeat constructor; cbn; lia. Qed.

Definition sig_demo1 : kernel := default sig_demo (run_sigs 2 4 8 16 demo_ops sig_demo).

Lemma run_demo_ops : run_sigs 2 4 8 16 demo_ops sig_demo = Some sig_demo1.
Proof. reflexivity. Qed.

Lemma signal_state_typed_witness :
  exists k', exec_sig 2 4 8 16 (OpKill 2 15) sig_demo = Some k' /\ s_sig_pending (p_signal (procs k' 2)) = 0x4000 /\
    sig_ok (p_signal (procs k' 2)).
Proof.
  assert (E : exec_sig 2 4 8 16 (OpKill 2 15) sig_demo = Some (upd_signal 2 (pended 15) sig_demo)) by reflexivity.
  eexists. split; [exact E|]. split; [reflexivity|].
  exact (signal_state_typed 2 4 8 16 (OpKill 2 15) sig_demo _ sig_demo_ok I E 2).
Defined.

Lemma sigkill_pends_witness :
  exists k2, sys_kill 2 SIGKILL sig_demo1 = Some (Killed 0 k2) /\
    Z.testbit (s_sig_pending (p_signal (procs k2 2))) (SIGKILL - 1) = true.
Proof.
  destruct (sigkill_pends 2 4 8 16 demo_ops sig_demo sig_demo1 2 SIGKILL sig_demo_ok demo_ops_typed run_demo_ops)
    as (k2 & E & Hb & _); [by left|split; reflexivity|discriminate|discriminate|].
  exists k2. split; [exact E|exact Hb].
Defined.

Lemma sigprocmask_inverted_witness :
  sys_sigprocmask SIG_BLOCK (Some (Some 4)) None 99 sig_demo = Some (- EFAULT, None, sig_demo) /\
  exists k', sys_sigprocmask SIG_SETMASK (Some None) None 99 sig_demo = Some (0, None, k') /\
    s_sig_mask (p_signal (procs k' 0)) = 99.
Proof.
  destruct (sigprocmask_inverted 0 4 99 sig_demo eq_refl) as [H1 H2]. split; [apply H1|exact H2].
Defined.

(** A process that sleeps on its own rendez with SIGTERM blocked. *)
Definition sig_sleeper : kernel :=
  sig_demo <| procs := <[2 := zero_process <| p_state := PROC_STATE_RENDEZ_BLOCKED |> <| p_sched_policy := SCHED_RR |>
      <| p_priority := 3 |> <| p_desired_priority := 3 |>
      <| p_signal := zero_signal <| s_sig_mask := 0x4000 |> |>]> (procs sig_demo) |>
    <| bkl_blocked_list := [] |> <| blocked_list := <[RProcess 2 := [2]]> (fun _ => []) |>.

Lemma kill_leaves_on_rendez_witness :
  exists k1, kill_one 2 15 sig_sleeper = Reschedule k1 /\ 2 ∈ blocked_list k1 (RProcess 2) /\
    2 ∈ sched_queue k1 (p_priority (procs k1 2)).
Proof.
  apply (kill_leaves_on_rendez 2 (RProcess 2) 15 sig_sleeper).
  - split; [by left|]. cbn. split; split; (discriminate || reflexivity).
  - assert (E : blocked_list sig_sleeper (RProcess 2) = [2]) by reflexivity. rewrite E. by left.
  - reflexivity.
  - assert (E : sched_queue sig_sleeper (p_priority (procs sig_sleeper 2)) = []) by reflexivity. rewrite E. by intros H%not_elem_of_nil.
  - discriminate.
  - discriminate.
Defined.
