(* ===== verification/Proc.v ===== *)
(** * Processes: fork, exit and wait

    The model of kernel/proc/proc.c, of the identities of fs/id.c, of SigExit
    and DoSignalDefault of proc/signal.c and of arch_fork_process of
    boards/raspberry_pi_4/proc.c.  These compose the components: a process is a
    slot of the process table of [Sched], the file state of [Fs], the address
    space of [Vm], each under the number of the slot, and its saved registers.
    The name of the program, the saved kernel context and the processor of a
    process are not part of the state.

    A computation returns, sleeps, or faults.  sys_waitpid sleeps in its loop
    and is resumed there, which is [waitpid_loop]. *)

From S2P Require Import Prelude Bytes Lists Sched Signal Segment Page Pmap Vm Fs Filp Vnode Msg Filedesc.

Definition WNOHANG := 1.

(** [uctx] is the [struct UserContext] at the top of the kernel stack: r0 to
    r12, sp, lr, pc, cpsr. *)
Record machine := mkMachine {
  kern : kernel;
  files : fs;
  segs : Z -> Segment.AddressSpace;
  uctx : Z -> list Z
}.
#[export] Instance rebuild_machine : Rebuild machine := fun r =>
  mkMachine (kern r) (files r) (segs r) (uctx r).

(** ** The monad *)

Inductive result (A : Type) : Type :=
| Returns (a : A) (m : machine)
| Sleeps (m : machine)
| Faults.
Arguments Returns {A} a m.
Arguments Sleeps {A} m.
Arguments Faults {A}.

Definition W (A : Type) : Type := machine -> result A.
#[export] Instance W_ret : MRet W := fun A a m => Returns a m.
#[export] Instance W_bind : MBind W := fun A B f w m =>
  match w m with Returns a m' => f a m' | Sleeps m' => Sleeps m' | Faults => Faults end.

Definition get {A} (f : machine -> A) : W A := fun m => Returns (f m) m.
Definition put (f : machine -> machine) : W unit := fun m => Returns () (f m).
Definition given {A} (o : option A) : W A := fun m => match o with Some a => Returns a m | None => Faults end.

Definition sleeps {A} : W A := fun m => Sleeps m.

(** Operations of the components. *)
Definition on_kernel (f : kernel -> option kernel) : W unit :=
  fun m => match f (kern m) with Some k => Returns () (m <| kern := k |>) | None => Faults end.
Definition on_files {A} (f : M A) : W A :=
  fun m => match f (files m) with
           | Ret a s => Returns a (m <| files := s |>)
           | Sleep _ s => Sleeps (m <| files := s |>)
           | Fault => Faults
           end.
Definition vms_of (m : machine) : vms := mkVms (fmem (files m)) (segs m).
Definition put_vms (v : vms) (m : machine) : machine :=
  m <| files := files m <| fmem := mmu v |> |> <| segs := segments v |>.
Definition on_vm {A} (f : vms -> option (A * vms)) : W A :=
  fun m => match f (vms_of m) with Some (a, v) => Returns a (put_vms v m) | None => Faults end.

Definition current : W Z := c ← get (fun m => current_process (kern m)); given c.
Definition proc_of (p : Z) : W Process := get (fun m => procs (kern m) p).
Definition upd_p (p : Z) (f : Process -> Process) : W unit := put (fun m => m <| kern := upd_proc p f (kern m) |>).

(** ** Process slots *)

(** [for (pid = 0; pid < max_process; pid++) if (!in_use) break;] *)
Fixpoint find_unused (n : nat) (pid : Z) (k : kernel) : Z :=
  match n with
  | O => pid
  | S n => if p_in_use (procs k pid) then find_unused n (pid + 1) k else pid
  end.

(** [memset(proc, 0, PROCESS_SZ)] *)
Definition clear_slot (p : Z) : W unit := put (fun m => m
  <| kern := upd_proc p (fun _ => zero_process) (kern m) |>
  <| files := files m <| fmem := fmem (files m) <| l1_table := <[p := 0]> (l1_table (fmem (files m))) |> |>
                      <| fproc := <[p := 0]> (fproc (files m)) |> |>
  <| segs := <[p := Segment.mkAS (replicate (Z.to_nat Segment.NSEGMENT) 0) 0]> (segs m) |>
  <| uctx := <[p := replicate 17 0]> (uctx m) |>).

(** The slot, or -1 for NULL.  The result of init_fproc is not used. *)
Definition AllocProcess : W Z :=
  c ← current;
  pid ← get (fun m => find_unused (Z.to_nat (max_process (kern m))) 0 (kern m));
  max ← get (fun m => max_process (kern m));
  if bool_decide (pid = max) then mret (-1)
  else
    cur ← proc_of c;
    clear_slot pid;;
    upd_p pid (fun p => p
      <| p_in_use := true |> <| p_pid := pid |> <| p_parent := Some c |> <| p_state := PROC_STATE_INIT |>
      <| p_exit_status := 0 |> <| p_flags := 0 |> <| p_log_level := p_log_level cur |> <| p_quanta_used := 0 |>
      <| p_sched_policy := p_sched_policy cur |> <| p_priority := p_priority cur |>
      <| p_desired_priority := p_desired_priority cur |>);;
    on_files (init_msgport (ReplyPort pid));;
    on_files (init_fproc pid);;
    put (fun m => m <| kern := InitRendez (RProcess pid) (kern m) |>);;
    upd_p pid (fun p => p <| p_child_list := [] |>);;
    mret pid.

Definition FreeProcess (p : Z) : W unit := upd_p p (fun pr => pr <| p_in_use := false |>).
Definition GetProcessPid (p : Z) : W Z := pr ← proc_of p; mret (p_pid pr).
Definition GetPid : W Z := c ← current; pr ← proc_of c; mret (p_pid pr).

(** The registers of the parent, with 0 in r0; the saved kernel context is not
    part of the state. *)
Definition arch_fork_process (p c : Z) : W Z :=
  put (fun m => m <| uctx := <[p := 0 :: tail (uctx m c)]> (uctx m) |>);;
  mret 0.

Definition free_as (p : Z) : W unit := put (fun m => put_vms (free_address_space p (vms_of m)) m).

(** ** fork *)

(** sys_fork from the copy of the address space on. *)
Definition fork_memory (p c : Z) : W Z :=
  r ← on_vm (fork_address_space p c);
  if bool_decide (r <> 0) then on_files (fini_fproc p);; FreeProcess p;; mret (- ENOMEM)
  else
    cur ← proc_of c;
    l ← given (Seq.add_tail p (p_child_list cur));
    upd_p c (fun pr => pr <| p_child_list := l |>);;
    upd_p p (fun pr => pr <| p_state := PROC_STATE_READY |>);;
    on_kernel (SchedReady p);;
    GetProcessPid p.

(** The result of fork_process_fds is not used. *)
Definition sys_fork : W Z :=
  c ← current;
  p ← AllocProcess;
  if bool_decide (p = -1) then mret (- ENOMEM)
  else
    on_files (fork_process_fds p c);;
    r ← arch_fork_process p c;
    if bool_decide (r <> 0) then on_files (fini_fproc p);; FreeProcess p;; mret (- ENOMEM)
    else fork_memory p c.

(** ** exit *)

(** One round of the loop over the children, for the child [x] taken
    off the list. *)
Definition drop_child (x : Z) : W unit :=
  ch ← proc_of x;
  if bool_decide (p_state ch = PROC_STATE_ZOMBIE) then free_as x;; FreeProcess x
  else
    root ← get (fun m => root_process (kern m));
    rp ← proc_of root;
    l ← given (Seq.add_tail x (p_child_list rp));
    upd_p root (fun pr => pr <| p_child_list := l |>);;
    upd_p x (fun pr => pr <| p_parent := Some root |>).

(** The loop over the children, one round for each unit of [n].  With as many
    rounds as children it ends, unless the process is its own heir: the root
    process finds a child that lives again and again. *)
Fixpoint exit_children (n : nat) (c : Z) : W unit :=
  pr ← proc_of c;
  match p_child_list pr with
  | [] => mret ()
  | child :: l =>
      match n with
      | O => given None
      | S n =>
          upd_p c (fun pr => pr <| p_child_list := l |>);;
          drop_child child;;
          exit_children n c
      end
  end.

(** Up to the switch to another process; [bkl_owner] is NULL when nobody waits
    for the lock. *)
Definition sys_exit (status : Z) : W unit :=
  c ← current;
  cur ← proc_of c;
  upd_p c (fun pr => pr <| p_exit_status := status |>);;
  on_files (fini_fproc c);;
  on_vm (fun v => v ← cleanup_address_space c v; Some ((), v));;
  n ← get (fun m => length (p_child_list (procs (kern m) c)));
  exit_children n c;;
  parent ← given (p_parent cur);
  on_kernel (Sched.TaskWakeup (RProcess parent));;
  on_kernel (release_bkl 0);;
  upd_p c (fun pr => pr <| p_state := PROC_STATE_ZOMBIE |>);;
  on_kernel (SchedUnready c);;
  on_kernel Reschedule.

Definition SigExit (signal : Z) : W unit := sys_exit (Z.shiftl signal 8).
Definition DoSignalDefault (sig : Z) : W unit :=
  prop ← given (if bool_decide (0 <= sig) then sigprop !! Z.to_nat sig else None);
  if bool_decide (Z.land prop SP_KILL <> 0) then SigExit sig else mret ().

(** ** wait *)

Inductive scan := Refused (e : Z) | Found (child : Z) | NotYet.

(** The walk of the children of which [sel] holds: the first that is a zombie,
    and whether there was one at all. *)
Fixpoint scan_children (k : kernel) (sel : Process -> bool) (l : list Z) (any : bool) : option Z * bool :=
  match l with
  | [] => (None, any)
  | child :: l =>
      if sel (procs k child) then
        if bool_decide (p_state (procs k child) = PROC_STATE_ZOMBIE) then (Some child, true)
        else scan_children k sel l true
      else scan_children k sel l any
  end.

Definition wait_group (k : kernel) (c pgrp : Z) : scan :=
  match p_child_list (procs k c) with
  | [] => Refused (- EINVAL)
  | l =>
      match scan_children k (fun p => bool_decide (p_pgrp p = pgrp)) l false with
      | (Some child, _) => Found child
      | (None, false) => Refused (- EINVAL)
      | (None, true) => NotYet
      end
  end.

(** One round of the loop of sys_waitpid. *)
Definition wait_scan (c pid : Z) (k : kernel) : scan :=
  if bool_decide (pid > 0) then
    match GetProcess pid k with
    | Some child =>
        let ch := procs k child in
        if p_in_use ch && bool_decide (p_parent ch = Some c) then
          if bool_decide (p_state ch = PROC_STATE_ZOMBIE) then Found child else NotYet
        else Refused (- EINVAL)
    | None => Refused (- EINVAL)
    end
  else if bool_decide (pid = 0) then wait_group k c (p_pgrp (procs k c))
  else if bool_decide (pid = -1) then
    match p_child_list (procs k c) with
    | [] => if bool_decide (c = root_process k) then NotYet else Refused (- EINVAL)
    | l => match scan_children k (fun _ => true) l false with
           | (Some child, _) => Found child
           | (None, _) => NotYet
           end
    end
  else wait_group k c (- pid).

(** The end of sys_waitpid, for the child that was found. *)
Definition reap (c child status : Z) : W Z :=
  pid ← GetProcessPid child;
  ch ← proc_of child;
  sc ← (if bool_decide (status <> 0) then on_files (copyout_bytes status (word_bytes (u32 (p_exit_status ch)))) else mret 0);
  if bool_decide (sc <> 0) then mret (- EFAULT)
  else
    cur ← proc_of c;
    l ← given (Seq.rem_entry child (p_child_list cur));
    upd_p c (fun pr => pr <| p_child_list := l |>);;
    free_as child;;
    FreeProcess child;;
    mret pid.

(** From the head of the loop, as process [c]. *)
Definition waitpid_loop (c pid status options : Z) : W Z :=
  r ← get (fun m => wait_scan c pid (kern m));
  match r with
  | Refused e => mret e
  | Found child => reap c child status
  | NotYet =>
      if bool_decide (Z.land options WNOHANG <> 0) then mret (- EAGAIN)
      else on_kernel (Sched.TaskSleep (RProcess c));; sleeps
  end.

Definition sys_waitpid (pid status options : Z) : W Z :=
  c ← current;
  max ← get (fun m => max_process (kern m));
  if bool_decide (- pid >= max \/ pid >= max) then mret (- EINVAL) else waitpid_loop c pid status options.

(** ** Identities: fs/id.c *)

Section Ids.
Context (k : kernel) (c : Z).

Definition sys_getpid : Z := p_pid (procs k c).
Definition sys_getppid : option Z := parent ← p_parent (procs k c); Some (p_pid (procs k parent)).
Definition sys_getuid : Z := p_uid (procs k c).
Definition sys_getgid : Z := p_gid (procs k c).
Definition sys_geteuid : Z := p_euid (procs k c).
Definition sys_getegid : Z := p_egid (procs k c).
Definition sys_getpgrp : Z := p_pgrp (procs k c).

Definition privileged : bool := bool_decide (p_uid (procs k c) = 0 \/ p_gid (procs k c) = 0).
Definition sys_setuid (uid : Z) : Z * kernel :=
  if privileged then (0, upd_proc c (fun p => p <| p_uid := uid |>) k) else (- EPERM, k).
Definition sys_setgid (gid : Z) : Z * kernel :=
  if privileged then (0, upd_proc c (fun p => p <| p_gid := gid |>) k) else (- EPERM, k).
Definition sys_setpgrp : Z * kernel := (0, upd_proc c (fun p => p <| p_pgrp := p_pid p |>) k).
Definition sys_setegid (gid : Z) : Z * kernel := (0, k).
Definition sys_seteuid (uid : Z) : Z * kernel := (0, k).
Definition sys_issetugid : Z * kernel := (0, k).
Definition sys_setgroups : Z * kernel := (- ENOSYS, k).
Definition sys_getgroups : Z * kernel := (- ENOSYS, k).
End Ids.

(** ** Running the monad *)

Section WRun.
Context {A B : Type}.

Lemma wbind (w : W A) (k : A -> W B) m a m' : w m = Returns a m' -> (w ≫= k) m = k a m'.
Proof. intros E. unfold mbind, W_bind. by rewrite E. Qed.

Lemma wbind_fault (w : W A) (k : A -> W B) m : w m = Faults -> (w ≫= k) m = Faults.
Proof. intros E. unfold mbind, W_bind. by rewrite E. Qed.

Lemma run_on_files (f : M A) m a s : f (files m) = Ret a s -> on_files f m = Returns a (m <| files := s |>).
Proof. intros E. unfold on_files. by rewrite E. Qed.

Lemma run_on_vm (f : vms -> option (A * vms)) m a v : f (vms_of m) = Some (a, v) -> on_vm f m = Returns a (put_vms v m).
Proof. intros E. unfold on_vm. by rewrite E. Qed.

Lemma run_on_kernel f m k : f (kern m) = Some k -> on_kernel f m = Returns () (m <| kern := k |>).
Proof. intros E. unfold on_kernel. by rewrite E. Qed.
End WRun.

Lemma run_current m c : current_process (kern m) = Some c -> current m = Returns c m.
Proof. intros E. unfold current. unfold get, given, mbind, W_bind. by rewrite E. Qed.

Lemma run_proc_of p m : proc_of p m = Returns (procs (kern m) p) m.
Proof. done. Qed.
Lemma run_get {A} (f : machine -> A) m : get f m = Returns (f m) m.
Proof. done. Qed.
Lemma run_upd_p p f m : upd_p p f m = Returns () (m <| kern := upd_proc p f (kern m) |>).
Proof. done. Qed.
Lemma run_given {A} (a : A) m : given (Some a) m = Returns a m.
Proof. done. Qed.
Lemma run_free_as p m : free_as p m = Returns () (put_vms (free_address_space p (vms_of m)) m).
Proof. done. Qed.

(** ** The slot of a new process *)

Lemma find_unused_spec n pid k :
  let p := find_unused n pid k in
  pid <= p <= pid + Z.of_nat n /\ (forall x, pid <= x < p -> p_in_use (procs k x) = true) /\
  (p < pid + Z.of_nat n -> p_in_use (procs k p) = false).
Proof.
  revert pid. induction n as [|n IH]; intros pid; cbn [find_unused]; [split_and!; intros; lia|].
  destruct (p_in_use (procs k pid)) eqn:E.
  - destruct (IH (pid + 1)) as (H1 & H2 & H3). split_and!; [lia|lia| |].
    + intros x Hx. destruct (decide (x = pid)) as [->|]; [done|]. apply H2. lia.
    + intros Hx. apply H3. lia.
  - split_and!; [lia|lia|intros; lia|done].
Qed.

(** The process AllocProcess makes in slot [p] for the process [c]. *)
Definition new_process (p c : Z) (cur : Process) : Process := zero_process
  <| p_in_use := true |> <| p_pid := p |> <| p_parent := Some c |> <| p_state := PROC_STATE_INIT |>
  <| p_log_level := p_log_level cur |> <| p_sched_policy := p_sched_policy cur |>
  <| p_priority := p_priority cur |> <| p_desired_priority := p_desired_priority cur |>.

(** Only processes change. *)
Record lists_same (k k' : kernel) : Prop := {
  ls_queue : sched_queue k' = sched_queue k;
  ls_bitmap : sched_queue_bitmap k' = sched_queue_bitmap k;
  ls_bkl : bkl_blocked_list k' = bkl_blocked_list k;
  ls_blocked r : blocked_list k' r = blocked_list k r;
  ls_current : current_process k' = current_process k;
  ls_idle : idle_process k' = idle_process k;
  ls_root : root_process k' = root_process k;
  ls_max_process : max_process k' = max_process k
}.

#[export] Instance lists_same_preorder : PreOrder lists_same.
Proof. split; [by split|]. intros k1 k2 k3 [] []. split; intros; etrans; eauto. Qed.

Lemma upd_proc_lists p f k : lists_same k (upd_proc p f k).
Proof. by split. Qed.

(** ** Memory taken for the kernel *)

(** From [m] to [m'] the address spaces [A] keep their mappings, and the frames
    in use their roles and, for pages and kernel data, their contents. *)
Record vm_kept (A : list Z) (ow : Z -> role) (m : vm) (ow' : Z -> role) (m' : vm) : Prop := {
  vk_inv : vm_inv A ow' m';
  vk_role f : ow f <> Free -> ow' f = ow f;
  vk_mem x : data (ow (frame_of x)) -> kmem m' x = kmem m x;
  vk_max : max_pageframe m' = max_pageframe m;
  vk_view a v : a ∈ A -> user_page v -> view m' a v = view m a v
}.

Lemma data_used r : data r -> r <> Free.
Proof. by intros [-> | ->]. Qed.

Lemma vm_kept_refl A ow m : vm_inv A ow m -> vm_kept A ow m ow m.
Proof. by split. Qed.

Lemma vm_kept_trans A ow1 m1 ow2 m2 ow3 m3 :
  vm_kept A ow1 m1 ow2 m2 -> vm_kept A ow2 m2 ow3 m3 -> vm_kept A ow1 m1 ow3 m3.
Proof.
  intros K1 K2. split.
  - apply K2.
  - intros f Hf. rewrite (vk_role _ _ _ _ _ K2); rewrite (vk_role _ _ _ _ _ K1); done.
  - intros x Hx. rewrite (vk_mem _ _ _ _ _ K2); [by apply K1|]. by rewrite (vk_role _ _ _ _ _ K1) by (by apply data_used).
  - etrans; [apply K2|apply K1].
  - intros a v Ha Hv. rewrite (vk_view _ _ _ _ _ K2) by done. by apply K1.
Qed.

(** The invariant, from that of the page tables, when no mapping changes. *)
Lemma vm_inv_same A ow m ow' m' :
  vm_inv A ow m -> pmap_inv A ow' m' -> (forall a v, a ∈ A -> user_page v -> view m' a v = view m a v) ->
  (forall f, ow' f = User -> ow f = User) ->
  (forall f, ow f = User -> reference_cnt (pageframe_table m' f) = reference_cnt (pageframe_table m f)) -> vm_inv A ow' m'.
Proof.
  intros V I Hv Hu Hr. split; [apply V|done|..].
  - intros a v pa fl Ha Hp E. rewrite Hv in E by done. by apply (vi_type _ _ _ V a v pa fl).
  - intros p Hp%Hu. rewrite (refs_ext A m m') by done. rewrite Hr by done. by apply (vi_refs _ _ _ V).
  - intros a v a' v' p fl Ha H1 Ha' H2 Hne E Hal Hm. rewrite Hv in E, Hm by done.
    by apply (vi_cow _ _ _ V a v a' v' p fl).
Qed.

(** The page directory pointer of a process without an address space. *)
Lemma vm_kept_l1 A ow m p x : vm_inv A ow m -> p ∉ A -> vm_kept A ow m ow (m <| l1_table := <[p := x]> (l1_table m) |>).
Proof.
  intros V Hp. set (m' := m <| l1_table := _ |>). pose proof (vi_pmap _ _ _ V) as I.
  assert (El : forall a, a ∈ A -> l1_table m' a = l1_table m a) by (intros a Ha; cbn; rewrite store_ne; [done|by intros ->]).
  assert (Hv : forall a v, a ∈ A -> user_page v -> view m' a v = view m a v)
    by (intros a v Ha _; unfold view, pmap_extract; by rewrite El).
  split; try done. apply (vm_inv_same A ow m ow m' V); try done.
  split; [destruct (iv_alloc _ _ _ I); by split|apply I|..].
  - intros a Ha. rewrite El by done. exact (iv_dir _ _ _ I a Ha).
  - intros a i Ha Hi. unfold pde. rewrite El by done.
    destruct (iv_pde _ _ _ I a i Ha Hi) as [E|(f & E & Of & T)]; [by left|]. right. exists f. split_and!; try done.
    destruct T. by split.
Qed.

(** A page for the kernel, and what is written to it. *)
Lemma vm_kept_page A ow m h m1 m2 :
  vm_inv A ow m -> allocated PAGE_SIZE 1 h m m1 -> m2 = m1 <| kmem := kmem m2 |> ->
  (forall x, ~ (fva h <= x < fva h + PAGE_SIZE) -> kmem m2 x = kmem m1 x) ->
  vm_kept A ow m (claim (ow := ow) h 1 Kernel) m2 /\ ow h = Free.
Proof.
  intros V Al E2 Hk. pose proof (vi_pmap _ _ _ V) as I.
  destruct (fresh_frame A ow m h m1 I Al) as (Hr & Hf & _).
  destruct (inv_claim I PAGE_SIZE 1 h Kernel m1 m2 Al) as (I2 & K2 & _ & V2); [lia|rewrite E2; by split| |by rewrite E2|].
  { intros x Hx. apply Hk. intros Hb. apply Hx. assert (frame_of x = h) as -> by (by apply frame_of_iff). lia. }
  split; [|done]. split; try apply K2; [|done].
  apply (vm_inv_same A ow m _ m2 V I2 V2); [|apply K2].
  intros f. unfold claim. by case_bool_decide.
Qed.

(** ** The file state of a new process *)

(** Process [p] has no file: its table is missing or empty. *)
Definition no_files (p : Z) (s : fs) : Prop :=
  fproc s p = 0 \/ forall fd, 0 <= fd < OPEN_MAX -> fd_filp s p fd = 0.

(** Words that are 0 stay 0. *)
Definition zeros_kept (s s' : fs) : Prop :=
  s' = s <| fmem := fmem s' |> /\ forall x, kmem (fmem s) x = 0 -> kmem (fmem s') x = 0.
#[export] Instance zeros_kept_preorder : PreOrder zeros_kept.
Proof.
  split; [intros s; by split; [destruct s|]|]. intros s1 s2 s3 [E1 H1] [E2 H2].
  split; [rewrite E2, E1; by destruct s1|auto].
Qed.

Lemma within_zero_fword p i : within zeros_kept (set_fword p i 0).
Proof.
  intros s. unfold set_fword. case_bool_decide; [done|]. split; [by destruct s|]. intros x Hx. cbn.
  destruct (decide (fproc s p + 4 * i = x)) as [->|]; [by rewrite store_eq|by rewrite store_ne].
Qed.

Lemma within_zero_init p :
  within zeros_kept (clear_fds (Z.to_nat OPEN_MAX) p 0;; FD_ZERO p fd_in_use_set;; FD_ZERO p fd_close_on_exec_set;; mret 0).
Proof.
  assert (forall n t, within zeros_kept (clear_fds n p t)) as Hc.
  { induction n as [|n IH]; intros t; [apply within_ret, _|]. cbn [clear_fds].
    apply within_bind; [apply _|apply within_zero_fword|intros _; apply IH]. }
  apply within_bind; [apply _|apply Hc|intros _]. unfold FD_ZERO.
  do 2 (apply within_bind; [apply _| |intros _]; [apply within_bind; [apply _|apply within_zero_fword|intros _; apply within_zero_fword]|]).
  apply within_ret, _.
Qed.

Lemma run_clear_fds n p t s : fproc s p <> 0 -> exists s', clear_fds n p t s = Ret () s' /\ fproc s' = fproc s.
Proof.
  revert t s. induction n as [|n IH]; intros t s Hp; [by exists s|]. cbn [clear_fds].
  rewrite (run_bind _ _ _ _ _ (run_set_fword p (fd_table + t) 0 s Hp)). exact (IH _ (put_fw p (fd_table + t) 0 s) Hp).
Qed.

Lemma run_init_rest p s :
  fproc s p <> 0 ->
  exists s', (clear_fds (Z.to_nat OPEN_MAX) p 0;; FD_ZERO p fd_in_use_set;; FD_ZERO p fd_close_on_exec_set;; mret 0) s = Ret 0 s'.
Proof.
  intros Hp. destruct (run_clear_fds (Z.to_nat OPEN_MAX) p 0 s Hp) as (s1 & E & Ep).
  rewrite (run_bind _ _ _ _ _ E). rewrite <- Ep in Hp. unfold FD_ZERO.
  erewrite run_bind; [|erewrite run_bind; [|by apply run_set_fword]; by apply run_set_fword].
  erewrite run_bind; [|erewrite run_bind; [|by apply run_set_fword]; by apply run_set_fword]. by eexists.
Qed.

(** What a process table operation on slot [p] does to the files: the memory
    of others is kept, and [p] has the page [fproc s' p] of its own. *)
Record files_kept (A : list Z) (p : Z) (ow : Z -> role) (s : fs) (ow' : Z -> role) (s' : fs) : Prop := {
  fl_vm : vm_kept A ow (fmem s) ow' (fmem s');
  fl_fproc x : x <> p -> fproc s' x = fproc s x;
  fl_page : fproc s' p = 0 \/ exists h, fproc s' p = fva h /\ 0 <= h /\ ow' h = Kernel
}.

Lemma init_fproc_ok A ow p s :
  vm_inv A ow (fmem s) -> fproc s p = 0 ->
  exists r s' ow', init_fproc p s = Ret r s' /\ files_kept A p ow s ow' s' /\ no_files p s' /\
    s' = s <| fmem := fmem s' |> <| fproc := fproc s' |>.
Proof.
  intros V H0. unfold init_fproc.
  destruct (run_kmalloc_page s (iv_alloc _ _ _ (vi_pmap _ _ _ V))) as [(h & m & E & Hh & Al)|[E _]];
    rewrite (run_bind _ _ _ _ _ E).
  2:{ rewrite bool_decide_true by done. exists (- ENOMEM), s, ow. split_and!; [done| |by left|by destruct s].
      split; [by apply vm_kept_refl|done|by left]. }
  rewrite bool_decide_false by (unfold PAGE_SIZE; lia). unfold modify. erewrite run_bind by reflexivity. cbv beta.
  set (s1 := (s <| fmem := m |>) <| fproc := <[p := _]> _ |>).
  assert (Hp : fproc s1 p = fva h) by apply fn_lookup_insert.
  destruct (run_init_rest p s1) as (s' & R); [rewrite Hp; unfold fva, PAGE_SIZE; lia|].
  pose proof (within_ret_frame _ _ _ _ _ (within_init_rest p) R) as [_ Fv Fp].
  pose proof (within_ret_frame _ _ _ _ _ (within_zero_init p) R) as [Zr Zz].
  destruct (vm_kept_page A ow (fmem s) h m (fmem s') V Al Fv) as (K & Hf).
  { intros x Hx. rewrite Fp; [done|]. by rewrite Hp. }
  assert (Ep : fproc s' = fproc s1) by (rewrite Zr; done).
  exists 0, s', (claim (ow := ow) h 1 Kernel). split_and!; [exact R| |right|rewrite Zr; by destruct s].
  - split; [done| |].
    + intros x Hx. rewrite Ep. by apply (fn_lookup_insert_ne (fproc s)).
    + right. exists h. rewrite Ep, Hp. split; [done|]. split; [lia|]. unfold claim. by rewrite bool_decide_true by lia.
  - intros fd Hfd. unfold fd_filp, fw. rewrite Ep, Hp. apply Zz. change (fmem s1) with m.
    rewrite (al_kmem _ _ _ _ _ Al). rewrite bool_decide_true; [done|]. unfold fva, fd_table, OPEN_MAX, PAGE_SIZE in *. lia.
Qed.

(** What AllocProcess does to the process table for slot [p]. *)
Record slot_made (p c : Z) (k k' : kernel) : Prop := {
  sm_new : procs k' p = new_process p c (procs k c);
  sm_others x : x <> p -> procs k' x = procs k x;
  sm_lists : lists_same k k'
}.

Definition empty_as : Segment.AddressSpace := Segment.mkAS (replicate (Z.to_nat Segment.NSEGMENT) 0) 0.

Lemma alloc_slot p c k f g :
  blocked_list k (RProcess p) = [] -> g (f zero_process) = new_process p c (procs k c) ->
  slot_made p c k (upd_proc p g (InitRendez (RProcess p) (upd_proc p f (upd_proc p (fun _ => zero_process) k)))).
Proof.
  intros Hr E. split.
  - rewrite procs_upd_eq. change (procs (InitRendez _ ?x)) with (procs x). by rewrite !procs_upd_eq.
  - intros x Hx. rewrite procs_upd_ne by done. change (procs (InitRendez _ ?x)) with (procs x). by rewrite !procs_upd_ne.
  - split; try done. intros r. cbn. destruct (decide (r = RProcess p)) as [->|]; [by rewrite fn_lookup_insert|].
    by rewrite fn_lookup_insert_ne.
Qed.

Lemma AllocProcess_ok A ow m c p :
  current_process (kern m) = Some c -> find_unused (Z.to_nat (max_process (kern m))) 0 (kern m) = p ->
  p <> max_process (kern m) -> p ∉ A -> blocked_list (kern m) (RProcess p) = [] -> vm_inv A ow (fmem (files m)) ->
  exists m' ow', AllocProcess m = Returns p m' /\ slot_made p c (kern m) (kern m') /\
    files_kept A p ow (files m) ow' (files m') /\ no_files p (files m') /\
    filps (files m') = filps (files m) /\ vnodes (files m') = vnodes (files m) /\
    segs m' = <[p := empty_as]> (segs m) /\ uctx m' = <[p := replicate 17 0]> (uctx m).
Proof.
  intros Hc Hp Hmax HA Hr V. unfold AllocProcess. rewrite (wbind _ _ _ _ _ (run_current m c Hc)).
  unfold get. erewrite wbind by reflexivity. cbv beta. rewrite Hp. erewrite wbind by reflexivity.
  rewrite bool_decide_false by done. unfold proc_of, get. erewrite wbind by reflexivity. cbv beta.
  unfold clear_slot, put. erewrite wbind by reflexivity. unfold upd_p at 1, put. erewrite wbind by reflexivity. cbv beta.
  erewrite wbind by (apply run_on_files; reflexivity).
  match goal with |- context [(on_files (init_fproc p) ≫= _) ?x] => set (m2 := x) end.
  assert (K1 : vm_kept A ow (fmem (files m)) ow (fmem (files m2))) by (by apply vm_kept_l1).
  destruct (init_fproc_ok A ow p (files m2)) as (r & s' & ow' & R & F & N & Es); [apply K1|apply fn_lookup_insert|].
  erewrite wbind by (apply run_on_files; exact R). unfold put. erewrite wbind by reflexivity. cbv beta.
  unfold upd_p, put. erewrite wbind by reflexivity. cbv beta.
  eexists _, ow'. split; [reflexivity|]. split_and!.
  - by apply alloc_slot.
  - destruct F as [Fv Ff Fp]. split; [by eapply vm_kept_trans| |done].
    intros x Hx. etrans; [exact (Ff x Hx)|]. by apply (fn_lookup_insert_ne (fproc (files m))).
  - exact N.
  - cbn [files update_field]. rewrite Es. reflexivity.
  - cbn [files update_field]. rewrite Es. reflexivity.
  - reflexivity.
  - reflexivity.
Qed.

Lemma AllocProcess_full m c :
  current_process (kern m) = Some c ->
  find_unused (Z.to_nat (max_process (kern m))) 0 (kern m) = max_process (kern m) -> AllocProcess m = Returns (-1) m.
Proof.
  intros Hc Hp. unfold AllocProcess. rewrite (wbind _ _ _ _ _ (run_current m c Hc)).
  unfold get. erewrite wbind by reflexivity. cbv beta. rewrite Hp. erewrite wbind by reflexivity.
  by rewrite bool_decide_true.
Qed.

(** ** fork *)

Definition page_ok (p : Z) (ow : Z -> role) (s : fs) : Prop :=
  exists o, fproc s p = fva o /\ 0 <= o /\ ow o = Kernel.

Definition dirs_ok (c : Z) (s : fs) : Prop :=
  forall d, d = fp_current_dir \/ d = fp_root_dir -> fw s c d = 0 \/ v_superblock (vnodes s (fw s c d)) <> 0.

(** The words of a process's page. *)
Lemma fw_kept A ow s ow' s' x i :
  vm_kept A ow (fmem s) ow' (fmem s') -> page_ok x ow s -> fproc s' x = fproc s x -> 0 <= i < 1024 ->
  fw s' x i = fw s x i.
Proof.
  intros K (o & Ep & _ & Ho) E Hi. unfold fw. rewrite E, Ep. apply K. rewrite frame_of_fva by lia. by right.
Qed.

Lemma fork_files_ok A ow s p c :
  vm_inv A ow (fmem s) -> p <> c -> page_ok c ow s -> dirs_ok c s ->
  fproc s p = 0 \/ (exists h, fproc s p = fva h /\ 0 <= h /\ ow h = Kernel) ->
  exists r s' ow', fork_process_fds p c s = Ret r s' /\ files_kept A p ow s ow' s' /\
    (fds_inherited p c s s' /\ page_ok p ow' s' \/ s' = s).
Proof.
  intros V Hne (o & Ep & H0 & Ho) Hd Hp. pose proof (iv_alloc _ _ _ (vi_pmap _ _ _ V)) as I.
  destruct (fork_process_fds_ok p c o s I Hne Ep H0) as [[R _]|(h & m & s' & R & F & Hh & Al & Fr)].
  { intros Hf%(iv_free _ _ _ (vi_pmap _ _ _ V)). congruence. }
  { exact Hd. }
  - exists (- ENOMEM), s, ow. split; [exact R|]. split; [|by right]. split; [by apply vm_kept_refl|done|done].
  - destruct Fr as [Fr Fv Fp]. destruct (vm_kept_page A ow (fmem s) h m (fmem s') V Al Fv) as (K & Hf).
    { intros x Hx. rewrite Fp; [done|]. cbn [fproc update_field]. by rewrite fn_lookup_insert. }
    assert (page_ok p (claim (ow := ow) h 1 Kernel) s') as Hpg.
    { exists h. rewrite Fr. split; [by apply (fn_lookup_insert (fproc s))|]. split; [lia|].
      unfold claim. by rewrite bool_decide_true by lia. }
    exists 0, s', (claim (ow := ow) h 1 Kernel). split; [exact R|]. split; [|by left]. split; [done| |by right].
    intros x Hx. rewrite Fr. by apply (fn_lookup_insert_ne (fproc s)).
Qed.

(** The state a system call of process [c] starts in: every process is on the
    list its state says, the free slots on none and without an address space,
    and the memory of [c] is as [l], with its file state in a page of its own. *)
Record call_ok (A : list Z) (l : list Segment.seg) (c : Z) (ow : Z -> role) (m : machine) : Prop := {
  co_current : current_process (kern m) = Some c;
  co_lists : wf_lists (kern m);
  co_queued : c ∈ sched_queue (kern m) (p_priority (procs (kern m) c));
  co_in_use : p_in_use (procs (kern m) c) = true;
  co_max : 0 <= max_process (kern m);
  co_free p : p_in_use (procs (kern m) p) = false ->
    at_place (kern m) p Nowhere /\ idle_process (kern m) <> Some p /\
    blocked_list (kern m) (RProcess p) = [] /\ p ∉ A;
  co_children x : x ∈ p_child_list (procs (kern m) c) -> p_in_use (procs (kern m) x) = true;
  co_vm : vm_inv A ow (fmem (files m));
  co_as : c ∈ A;
  co_segs : Segment.rep (segs m c) l;
  co_page : page_ok c ow (files m);
  co_dirs : dirs_ok c (files m)
}.

(** What the parent [c] and the child [p] of a fork have. *)
Record child_made (A : list Z) (l : list Segment.seg) (p c : Z) (ow : Z -> role) (m : machine) (ow' : Z -> role) (m' : machine) : Prop := {
  cm_child : procs (kern m') p = new_process p c (procs (kern m) c) <| p_state := PROC_STATE_READY |>;
  cm_parent : procs (kern m') c = procs (kern m) c <| p_child_list := p_child_list (procs (kern m) c) ++ [p] |>;
  cm_others x : x <> p -> x <> c -> procs (kern m') x = procs (kern m) x;
  cm_queue q : sched_queue (kern m') q =
    sched_queue (kern m) q ++ if bool_decide (q = p_priority (procs (kern m) c)) then [p] else [];
  cm_lists : wf_lists (kern m');
  cm_current : current_process (kern m') = Some c;
  cm_regs : uctx m' p = 0 :: tail (uctx m c);
  cm_regs_others x : x <> p -> uctx m' x = uctx m x;
  cm_files : fds_inherited p c (files m) (files m') \/ no_files p (files m');
  cm_vm : forked A l p c ow (vms_of m) ow' (vms_of m')
}.

Section ForkKernel.
Context (p c : Z) (k k1 : kernel).
Hypothesis W : wf_lists k.
Hypothesis Hq : c ∈ sched_queue k (p_priority (procs k c)).
Hypothesis Hp : at_place k p Nowhere.
Hypothesis Hi : idle_process k <> Some p.
Hypothesis Hpc : p <> c.
Hypothesis S : slot_made p c k k1.

Let q := p_priority (procs k c).
Let k2 := upd_proc p (fun pr => pr <| p_state := PROC_STATE_READY |>)
            (upd_proc c (fun pr => pr <| p_child_list := p_child_list (procs k c) ++ [p] |>) k1).

Lemma fork_procs :
  procs (readied p k2) p = new_process p c (procs k c) <| p_state := PROC_STATE_READY |> /\
  procs (readied p k2) c = procs k c <| p_child_list := p_child_list (procs k c) ++ [p] |> /\
  forall x, x <> p -> x <> c -> procs (readied p k2) x = procs k x.
Proof using All.
  split_and!.
  - rewrite procs_readied. unfold k2. rewrite procs_upd_eq, procs_upd_ne by done. by rewrite (sm_new _ _ _ _ S).
  - rewrite procs_readied_ne by done. unfold k2. rewrite procs_upd_ne by done. rewrite procs_upd_eq.
    by rewrite (sm_others _ _ _ _ S) by done.
  - intros x Hxp Hxc. rewrite procs_readied_ne by done. unfold k2. rewrite !procs_upd_ne by done.
    by apply (sm_others _ _ _ _ S).
Qed.

Lemma fork_queue x : sched_queue (readied p k2) x = sched_queue k x ++ if bool_decide (x = q) then [p] else [].
Proof using All.
  assert (Eq : p_priority (procs k2 p) = q).
  { unfold k2. rewrite procs_upd_eq, procs_upd_ne by done. by rewrite (sm_new _ _ _ _ S). }
  assert (E2 : sched_queue k2 = sched_queue k) by exact (ls_queue _ _ (sm_lists _ _ _ _ S)).
  change (sched_queue (readied p k2)) with
    (<[p_priority (procs k2 p) := sched_queue k2 (p_priority (procs k2 p)) ++ [p]]> (sched_queue k2)).
  rewrite Eq, E2. case_bool_decide as Hx.
  - subst x. by rewrite fn_lookup_insert.
  - rewrite fn_lookup_insert_ne by done. by rewrite app_nil_r.
Qed.

Lemma fork_params : params_ok (procs k c).
Proof using W Hq. by destruct (queue_place k c _ W Hq) as (_ & _ & ? & _). Qed.

Lemma fork_ready : SchedReady p k2 = Some (readied p k2).
Proof using All.
  assert (E : procs k2 p = new_process p c (procs k c) <| p_state := PROC_STATE_READY |>).
  { unfold k2. rewrite procs_upd_eq, procs_upd_ne by done. by rewrite (sm_new _ _ _ _ S). }
  apply SchedReady_eq; rewrite E; [exact fork_params|].
  change (sched_queue k2) with (sched_queue k1). rewrite (ls_queue _ _ (sm_lists _ _ _ _ S)).
  intros H%Hp. discriminate H.
Qed.

Lemma fork_wf : wf_lists (readied p k2).
Proof using All.
  destruct fork_procs as (Ep & Ec & Ex). destruct (sm_lists _ _ _ _ S) as [_ _ Lb Lr _ Li _ _].
  assert (Hnp : forall x, p ∉ sched_queue k x) by (intros x H%Hp; discriminate H).
  pose proof fork_params as Hok.
  apply (wf_move k _ p (OnQueue q) W).
  - exact Li.
  - intros x Hx. split.
    + destruct (decide (x = c)) as [->|]; [by rewrite Ec|by rewrite Ex].
    + split_and!; [intros y; rewrite fork_queue; case_bool_decide; rewrite ?app_nil_r, ?elem_of_snoc_ne by done; done|
        by change (bkl_blocked_list (readied p k2)) with (bkl_blocked_list k1); rewrite Lb|
        by intros r; change (blocked_list (readied p k2)) with (blocked_list k1); rewrite Lr].
  - destruct (wf_nodup k W) as (N1 & N2 & N3). split_and!.
    + intros x. rewrite fork_queue. case_bool_decide; [by apply NoDup_snoc|by rewrite app_nil_r].
    + change (NoDup (bkl_blocked_list k1)). by rewrite Lb.
    + intros r. change (NoDup (blocked_list k1 r)). by rewrite Lr.
  - destruct Hp as (P1 & P2 & P3). split_and!.
    + intros x. rewrite fork_queue. case_bool_decide as Hx.
      * rewrite elem_of_app, list_elem_of_singleton, Hx. split; [done|by right].
      * rewrite app_nil_r. split; [intros H; by apply Hnp in H|congruence].
    + change (bkl_blocked_list (readied p k2)) with (bkl_blocked_list k1). rewrite Lb, P2. split; discriminate.
    + intros r. change (blocked_list (readied p k2)) with (blocked_list k1). rewrite Lr, P3. split; discriminate.
  - rewrite Ep. split; [done|]. split; [exact Hok|]. by right; left.
  - change (idle_process (readied p k2)) with (idle_process k1). rewrite Li. by intros ?.
Qed.
End ForkKernel.

(** The same words of the pages give the same descriptors. *)
Lemma fds_ext x s s' :
  (forall j, 0 <= j < 1024 -> fw s' x j = fw s x j) ->
  forall fd, 0 <= fd < OPEN_MAX -> fd_filp s' x fd = fd_filp s x fd /\ fd_used s' x fd = fd_used s x fd /\
    fd_cloexec s' x fd = fd_cloexec s x fd.
Proof.
  intros H fd Hfd. unfold OPEN_MAX in Hfd.
  assert (0 <= fd `div` 32 < 2) by (split; [apply Z.div_pos; lia|apply Z.div_lt_upper_bound; lia]).
  unfold fd_filp, fd_used, fd_cloexec, fd_bit, fd_table, fd_in_use_set, fd_close_on_exec_set.
  by rewrite !H by lia.
Qed.

Lemma fds_inherited_kept p c s0 s1 s2 s3 :
  fds_inherited p c s1 s2 ->
  (forall j, 0 <= j < 1024 -> fw s1 c j = fw s0 c j) -> filps s1 = filps s0 -> vnodes s1 = vnodes s0 ->
  (forall j, 0 <= j < 1024 -> fw s3 c j = fw s2 c j) -> (forall j, 0 <= j < 1024 -> fw s3 p j = fw s2 p j) ->
  filps s3 = filps s2 -> vnodes s3 = vnodes s2 -> fds_inherited p c s0 s3.
Proof.
  intros [F1 F2 F3 F4 F5 F6 F7] H1 Ef Ev H3 Hp Ef3 Ev3. pose proof (fds_ext c s0 s1 H1) as D1. split.
  - intros f Hf. destruct (fds_ext p s2 s3 Hp f Hf) as (-> & -> & ->). destruct (F1 f Hf) as (-> & -> & ->).
    by destruct (D1 f Hf) as (-> & _ & ->).
  - intros j Hj. by rewrite H3, F2, H1.
  - intros filp Hf. rewrite Ef3, F3, Ef by done. do 3 f_equal. apply filter_ext_in.
    intros f [? ?]%elem_of_seqZ. destruct (D1 f ltac:(lia)) as (-> & _). done.
  - rewrite Hp by done. rewrite F4. by apply H1.
  - rewrite Hp by done. rewrite F5. by apply H1.
  - intros v Hv. rewrite Ev3, F6, Ev by done. by rewrite !H1 by done.
  - rewrite Hp by done. exact F7.
Qed.

(** A fork from a state with the same memory. *)
Lemma forked_kept A l new old ow s0 ow1 s1 ow2 s2 :
  vm_kept A ow (mmu s0) ow1 (mmu s1) -> (forall a, a <> new -> segments s1 a = segments s0 a) -> old ∈ A ->
  forked A l new old ow1 s1 ow2 s2 -> forked A l new old ow s0 ow2 s2.
Proof.
  intros K Hs Ho [F1 F2 F3 F4 F5 F6 F7 F8]. assert (forall v, 0 <= v < 0x7F000 -> user_page v) as Hu by (unfold user_page; lia).
  split; try done.
  - intros x Hx. rewrite F2; [by apply K|]. by rewrite (vk_role _ _ _ _ _ K) by (by apply data_used).
  - intros f Hf. rewrite F3; rewrite (vk_role _ _ _ _ _ K); done.
  - intros v Hv. rewrite F4 by done. by rewrite (vk_view _ _ _ _ _ K) by auto.
  - intros v Hv. rewrite F5 by done. by rewrite (vk_view _ _ _ _ _ K) by auto.
  - intros a v Ha Hne Hv. rewrite F6 by done. by apply K.
  - intros a Ha. rewrite F8 by done. by apply Hs.
Qed.

Lemma fork_failed_kept A new old ow s0 ow1 s1 ow2 s2 :
  vm_kept A ow (mmu s0) ow1 (mmu s1) -> (forall a, a <> new -> segments s1 a = segments s0 a) -> old ∈ A ->
  fork_failed A new old ow1 s1 ow2 s2 -> fork_failed A new old ow s0 ow2 s2.
Proof.
  intros K Hs Ho [F1 F2 F3 F4 F5 F6]. split; try done.
  - intros x Hx. rewrite F2; [by apply K|]. by rewrite (vk_role _ _ _ _ _ K) by (by apply data_used).
  - intros f Hf. rewrite F3; rewrite (vk_role _ _ _ _ _ K); done.
  - intros v Hv. rewrite <- (vk_view _ _ _ _ _ K) by done. by apply F4.
  - intros a v Ha Hne Hv. rewrite F5 by done. by apply K.
  - intros a Ha. rewrite F6 by done. by apply Hs.
Qed.

(** The machine before the address space is copied. *)
Record fork_prepared (A : list Z) (p c : Z) (ow : Z -> role) (m : machine) (ow' : Z -> role) (m' : machine) : Prop := {
  fp_slot : slot_made p c (kern m) (kern m');
  fp_kept : files_kept A p ow (files m) ow' (files m');
  fp_fds : fds_inherited p c (files m) (files m') /\ page_ok p ow' (files m') \/ no_files p (files m');
  fp_segs : segs m' = <[p := empty_as]> (segs m);
  fp_regs : uctx m' p = 0 :: tail (uctx m c);
  fp_regs_others x : x <> p -> uctx m' x = uctx m x
}.

Section ForkOk.
Context (A : list Z) (l : list Segment.seg) (c : Z) (ow : Z -> role) (m : machine).
Hypothesis C : call_ok A l c ow m.
Let p := find_unused (Z.to_nat (max_process (kern m))) 0 (kern m).
Hypothesis Hp : p <> max_process (kern m).

Lemma slot_found :
  0 <= p < max_process (kern m) /\ p_in_use (procs (kern m) p) = false /\
  forall x, 0 <= x < p -> p_in_use (procs (kern m) x) = true.
Proof using All.
  pose proof (co_max _ _ _ _ _ C). destruct (find_unused_spec (Z.to_nat (max_process (kern m))) 0 (kern m)) as (H1 & H2 & H3).
  fold p in H1, H2, H3. split; [lia|]. split; [apply H3; lia|done].
Qed.

Lemma slot_not_parent : p <> c.
Proof using All. intros E. destruct slot_found as (_ & H & _). rewrite E, (co_in_use _ _ _ _ _ C) in H. discriminate H. Qed.

Lemma fork_prepare : exists m' ow', fork_prepared A p c ow m ow' m' /\ sys_fork m = fork_memory p c m'.
Proof using All.
  destruct slot_found as (Hr & Hf & _). pose proof slot_not_parent as Hpc.
  destruct (co_free _ _ _ _ _ C p Hf) as (_ & _ & Hb & HA).
  destruct (AllocProcess_ok A ow m c p (co_current _ _ _ _ _ C) eq_refl Hp HA Hb (co_vm _ _ _ _ _ C))
    as (m1 & ow1 & R1 & S1 & [K1 P1 O1] & N1 & Ef & Ev & Eg & Eu).
  unfold sys_fork. rewrite (wbind _ _ _ _ _ (run_current m c (co_current _ _ _ _ _ C))).
  rewrite (wbind _ _ _ _ _ R1), bool_decide_false by lia.
  pose proof (P1 c (not_eq_sym Hpc)) as Ec.
  assert (Hw : forall j, 0 <= j < 1024 -> fw (files m1) c j = fw (files m) c j)
    by (intros j Hj; by apply (fw_kept _ _ _ _ _ _ _ K1 (co_page _ _ _ _ _ C) Ec)).
  destruct (fork_files_ok A ow1 (files m1) p c (vk_inv _ _ _ _ _ K1) Hpc) as (r & s2 & ow2 & R2 & [K2 P2 O2] & D2).
  { destruct (co_page _ _ _ _ _ C) as (o & E & H0 & Ho). exists o. rewrite Ec. split; [done|]. split; [done|].
    rewrite (vk_role _ _ _ _ _ K1); congruence. }
  { intros d Hd. rewrite Hw by (destruct Hd as [-> | ->]; done). rewrite Ev. by apply (co_dirs _ _ _ _ _ C). }
  { exact O1. }
  erewrite (wbind (on_files _)) by (apply run_on_files; exact R2). unfold arch_fork_process, put.
  erewrite wbind by (erewrite wbind by reflexivity; reflexivity). cbv beta. rewrite bool_decide_false by (intros H; by apply H).
  eexists _, ow2. split; [|reflexivity]. split; cbn [kern files segs uctx update_field].
  - exact S1.
  - split; [by eapply vm_kept_trans| |done]. intros x Hx. rewrite P2 by done. by apply P1.
  - destruct D2 as [[D2 Hpg]| ->]; [|by right]. left. split; [|exact Hpg]. by apply (fds_inherited_kept p c _ (files m1) s2).
  - exact Eg.
  - rewrite fn_lookup_insert. by rewrite Eu, fn_lookup_insert_ne.
  - intros x Hx. rewrite fn_lookup_insert_ne by done. by rewrite Eu, fn_lookup_insert_ne.
Qed.

(** Enough memory for the address space: the child runs. *)
Lemma fork_made m1 ow1 ow2 v :
  fork_prepared A p c ow m ow1 m1 -> fork_address_space p c (vms_of m1) = Some (0, v) ->
  forked A l p c ow1 (vms_of m1) ow2 v ->
  exists m', fork_memory p c m1 = Returns p m' /\ child_made A l p c ow m ow2 m'.
Proof using All.
  intros [S [K P O] D Eg Er Ero] E F. destruct slot_found as (Hr & Hf & _). pose proof slot_not_parent as Hpc.
  destruct (co_free _ _ _ _ _ C p Hf) as (Hpl & Hi & _ & HA).
  pose proof (co_lists _ _ _ _ _ C) as W. pose proof (co_queued _ _ _ _ _ C) as Hq.
  assert (Hnew : p ∉ p_child_list (procs (kern m) c)).
  { intros H%(co_children _ _ _ _ _ C). congruence. }
  destruct (fork_procs p c (kern m) (kern m1) W Hq Hpl Hi Hpc S) as (Ep & Ec & Ex).
  pose proof (fork_ready p c (kern m) (kern m1) W Hq Hpl Hi Hpc S) as Hrdy.
  unfold fork_memory. rewrite (wbind _ _ _ _ _ (run_on_vm _ _ _ _ E)). rewrite bool_decide_false by (intros H; by apply H).
  unfold proc_of, get. erewrite wbind by reflexivity. cbv beta. cbn [kern put_vms update_field].
  rewrite (sm_others _ _ _ _ S) by done. rewrite Seq.add_tail_fresh by done.
  unfold given. erewrite wbind by reflexivity. unfold upd_p, put. erewrite wbind by reflexivity. cbv beta.
  erewrite wbind by reflexivity. cbv beta. cbn [kern put_vms update_field].
  erewrite (wbind (on_kernel _)) by (apply run_on_kernel; exact Hrdy). cbn [kern update_field].
  unfold GetProcessPid, proc_of, get. erewrite wbind by reflexivity. cbv beta. cbn [kern update_field].
  match goal with |- exists m', mret ?a ?b = _ /\ _ => exists b; assert (a = p) as -> by exact (f_equal p_pid Ep) end.
  split; [reflexivity|].
  assert (Hfw : forall x, page_ok x ow1 (files m1) -> forall j, 0 <= j < 1024 ->
    fw (files m1 <| fmem := mmu v |>) x j = fw (files m1) x j).
  { intros x (o & E1 & H1 & H2) j Hj. unfold fw. cbn [fmem fproc update_field]. rewrite E1.
    apply (fk_mem _ _ _ _ _ _ _ _ F). rewrite frame_of_fva by lia. by right. }
  assert (Hpgc : page_ok c ow1 (files m1)).
  { destruct (co_page _ _ _ _ _ C) as (o & E1 & H1 & H2). exists o. rewrite P by done. split; [done|]. split; [done|].
    rewrite (vk_role _ _ _ _ _ K); congruence. }
  split; cbn [kern files segs uctx update_field put_vms].
  - exact Ep.
  - exact Ec.
  - exact Ex.
  - intros q. apply (fork_queue p c (kern m) (kern m1) W Hq Hpl Hi Hpc S).
  - exact (fork_wf p c (kern m) (kern m1) W Hq Hpl Hi Hpc S).
  - etrans; [exact (ls_current _ _ (sm_lists _ _ _ _ S))|apply C].
  - exact Er.
  - exact Ero.
  - destruct D as [[D Hpg]|[D|D]]; [|by right; left|].
    + left. apply (fds_inherited_kept p c _ (files m) (files m1)); try done; by apply Hfw.
    + right. destruct O as [O|O]; [by left|]. right. intros fd Hfd. rewrite <- (D fd Hfd).
      apply (fds_ext p (files m1)); [|done]. by apply Hfw.
  - apply (forked_kept A l p c ow (vms_of m) ow1 (vms_of m1)); [exact K| |apply C|by destruct v].
    intros a Ha. cbn. rewrite Eg. by apply (fn_lookup_insert_ne (segs m)).
Qed.

(** Not enough memory for the address space. *)
Lemma fork_unmade m1 ow1 ow2 v :
  fork_prepared A p c ow m ow1 m1 -> fork_address_space p c (vms_of m1) = Some (-1, v) ->
  fork_failed A p c ow1 (vms_of m1) ow2 v ->
  fork_memory p c m1 = (on_files (fini_fproc p);; FreeProcess p;; mret (- ENOMEM)) (put_vms v m1) /\
  fork_failed A p c ow (vms_of m) ow2 v.
Proof using All.
  intros [S [K P O] D Eg Er Ero] E F. split.
  - unfold fork_memory. rewrite (wbind _ _ _ _ _ (run_on_vm _ _ _ _ E)). by rewrite bool_decide_true.
  - apply (fork_failed_kept A p c ow (vms_of m) ow1 (vms_of m1)); [exact K| |apply C|exact F].
    intros a Ha. cbn. rewrite Eg. by apply (fn_lookup_insert_ne (segs m)).
Qed.
End ForkOk.

(** C4. sys_fork composes the process table, the files and the memory.  With no
    free slot it returns -ENOMEM and changes nothing.  Otherwise it takes the
    lowest free slot [p]; if the address space can be copied it returns [p], and
    the child is ready at the end of the run queue of its parent's priority, last
    in the parent's list of children, with the parent's registers but r0 = 0, its
    descriptors (or, when there was no page for them, none at all) and its memory
    shared copy-on-write; the parent and all others are as they were.  If it can
    not, the parent's memory is unchanged but for copy-on-write marks and the
    call goes on to close the child's descriptors. *)
Theorem sys_fork_correct A l c ow m :
  call_ok A l c ow m ->
  let p := find_unused (Z.to_nat (max_process (kern m))) 0 (kern m) in
  (p = max_process (kern m) /\ (forall x, 0 <= x < max_process (kern m) -> p_in_use (procs (kern m) x) = true) /\
   sys_fork m = Returns (- ENOMEM) m) \/
  (0 <= p < max_process (kern m) /\ p_in_use (procs (kern m) p) = false /\
   (forall x, 0 <= x < p -> p_in_use (procs (kern m) x) = true) /\
   exists ow', (exists m', sys_fork m = Returns p m' /\ child_made A l p c ow m ow' m') \/
     (exists m1 v, sys_fork m = (on_files (fini_fproc p);; FreeProcess p;; mret (- ENOMEM)) (put_vms v m1) /\
        fork_failed A p c ow (vms_of m) ow' v)).
Proof.
  intros C p. destruct (decide (p = max_process (kern m))) as [Ep|Hp].
  - left. split; [done|]. destruct (find_unused_spec (Z.to_nat (max_process (kern m))) 0 (kern m)) as (_ & H2 & _).
    split; [intros x Hx; apply H2; fold p; lia|]. unfold sys_fork.
    rewrite (wbind _ _ _ _ _ (run_current m c (co_current _ _ _ _ _ C))).
    by rewrite (wbind _ _ _ _ _ (AllocProcess_full m c (co_current _ _ _ _ _ C) Ep)).
  - right. destruct (slot_found A l c ow m C Hp) as (Hr & Hf & Hx). split; [exact Hr|]. split; [exact Hf|]. split; [exact Hx|].
    destruct (fork_prepare A l c ow m C Hp) as (m1 & ow1 & F & ->). fold p in F |- *.
    destruct (co_free _ _ _ _ _ C p Hf) as (_ & _ & _ & HA).
    pose proof (fp_segs _ _ _ _ _ _ _ F) as Eg.
    destruct (fork_ok A ow1 (vms_of m1) p c l) as (ow2 & v & [[E G]|[E G]]).
    + apply (fl_vm _ _ _ _ _ _ (fp_kept _ _ _ _ _ _ _ F)).
    + apply C.
    + exact HA.
    + cbn. rewrite Eg. by rewrite fn_lookup_insert.
    + cbn. rewrite Eg. rewrite fn_lookup_insert_ne by (exact (slot_not_parent A l c ow m C Hp)). apply C.
    + exists ow2. left. exact (fork_made A l c ow m C Hp m1 ow1 ow2 v F E G).
    + exists ow2. right. exists m1, v. exact (fork_unmade A l c ow m C Hp m1 ow1 ow2 v F E G).
Qed.

(** Process 1 runs alone beside the idle process 0; slots 2 and 3 are free.  Its
    file state is in page frame 0. *)
Definition two_procs : kernel :=
  mkKernel
    (<[1 := zero_process <| p_state := PROC_STATE_RUNNING |> <| p_in_use := true |> <| p_pid := 1 |>
              <| p_sched_policy := SCHED_RR |> <| p_priority := 20 |> <| p_desired_priority := 20 |> <| p_uid := 100 |>]>
     (<[0 := zero_process <| p_in_use := true |> <| p_sched_policy := SCHED_IDLE |>]> (fun _ => zero_process)))
    (<[20 := [1]]> (fun _ => [])) (2 ^ 20) true (Owner 1) [] (fun _ => []) (fun _ => []) 0 0 (Some 1) (Some 0) 1 4 false None.

Lemma two_procs_place x : x <> 1 -> at_place two_procs x Nowhere.
Proof.
  intros Hx. split_and!; simpl.
  - intros q. destruct (decide (q = 20)) as [->|]; [rewrite fn_lookup_insert, list_elem_of_singleton|rewrite fn_lookup_insert_ne by done];
      [split; [done|discriminate]|]. split; [intros H; by apply not_elem_of_nil in H|discriminate].
  - split; [intros H; by apply not_elem_of_nil in H|discriminate].
  - intros r. split; [intros H; by apply not_elem_of_nil in H|discriminate].
Qed.

Lemma two_procs_wf : wf_lists two_procs.
Proof.
  constructor.
  - intros x. destruct (decide (x = 1)) as [->|H1].
    + exists (OnQueue 20). split; [|simpl; split; [done|split; [|by right; right]]; split; [by left|done]].
      split_and!; simpl.
      * intros q. destruct (decide (q = 20)) as [->|]; [rewrite fn_lookup_insert, list_elem_of_singleton; done|].
        rewrite fn_lookup_insert_ne by done. split; [intros H; by apply not_elem_of_nil in H|congruence].
      * split; [intros H; by apply not_elem_of_nil in H|discriminate].
      * intros r. split; [intros H; by apply not_elem_of_nil in H|discriminate].
    + exists Nowhere. split; [by apply two_procs_place|]. simpl. rewrite fn_lookup_insert_ne by done.
      destruct (decide (x = 0)) as [->|H0]; [by rewrite fn_lookup_insert; split_and!|].
      rewrite fn_lookup_insert_ne by done. split_and!; try done. by intros [|].
  - split_and!; simpl; intros; try constructor. destruct (decide (q = 20)) as [->|].
    + rewrite fn_lookup_insert. apply NoDup_singleton.
    + rewrite fn_lookup_insert_ne by done. constructor.
  - by intros ? [= <-].
Qed.

Definition fork_machine (v : vm) : machine :=
  mkMachine two_procs
    (fs0 <| fmem := v |> <| fproc := fun _ => fva 0 |> <| vnodes := fun x => vnodes fs0 x <| v_superblock := 1 |> |>)
    (fun _ => seg0) (fun _ => replicate 17 5).

Lemma fork_machine_ok v ow :
  vm_inv [1] ow v -> ow 0 = Kernel -> call_ok [1] [(Segment.VM_USER_BASE, Segment.SEG_TYPE_FREE)] 1 ow (fork_machine v).
Proof.
  intros V Hk. split; try done.
  - exact two_procs_wf.
  - by left.
  - intros x Hx. assert (x <> 1 /\ x <> 0) as [H1 H0] by (split; intros ->; discriminate Hx).
    split; [by apply two_procs_place|]. split; [intros H; injection H as <-; done|]. split; [done|].
    intros H%list_elem_of_singleton. done.
  - intros x Hx. by apply not_elem_of_nil in Hx.
  - by left.
  - exact seg0_rep.
  - by exists 0.
  - intros d _. by right.
Qed.

Lemma vm1_frame0 : exists ow, vm_inv [1] ow vm1 /\ ow 0 = Kernel.
Proof.
  destruct vm1_created as (ow & _ & Cr). exists ow. split.
  - exact (vm_inv_created [] boot_roles booted 1 ow vm1 (vm_inv_boot booted booted_ok) (not_elem_of_nil 1) Cr).
  - assert (boot_roles 0 = Kernel) as Hb by (vm_compute; reflexivity). rewrite (cr_role _ _ _ Cr); congruence.
Qed.

Lemma sys_fork_correct_witness :
  exists ow ow' m1 v m', call_ok [1] [(Segment.VM_USER_BASE, Segment.SEG_TYPE_FREE)] 1 ow (fork_machine vm1) /\
    (sys_fork (fork_machine vm1) = Returns 2 m' /\ child_made [1] [(Segment.VM_USER_BASE, Segment.SEG_TYPE_FREE)] 2 1 ow (fork_machine vm1) ow' m' \/
     sys_fork (fork_machine vm1) = (on_files (fini_fproc 2);; FreeProcess 2;; mret (- ENOMEM)) (put_vms v m1)).
Proof.
  destruct vm1_frame0 as (ow & V & Hk). revert V Hk. generalize vm1 as v0. intros v0 V Hk.
  pose proof (fork_machine_ok v0 ow V Hk) as C.
  destruct (sys_fork_correct [1] [(Segment.VM_USER_BASE, Segment.SEG_TYPE_FREE)] 1 ow (fork_machine v0) C)
    as [(H & _)|(_ & _ & _ & ow' & [(m' & E & F)|(m1 & v & E & F)])].
  - discriminate H.
  - exists ow, ow', (fork_machine v0), (vms_of (fork_machine v0)), m'. split; [exact C|]. left. split; [exact E|exact F].
  - exists ow, ow', m1, v, (fork_machine v0). split; [exact C|]. right. exact E.
Defined.

(** ** The tree of processes *)

(** The links of the tree agree: the children of a process are in use and have
    it as parent, a process with a parent is in its parent's list, once, and a
    zombie has no children; the root process has no parent and does not exit;
    and the links lead nowhere but up, to the root. *)
Record tree_ok (k : kernel) : Prop := {
  tr_child p x : p_in_use (procs k p) = true -> x ∈ p_child_list (procs k p) ->
    p_in_use (procs k x) = true /\ p_parent (procs k x) = Some p;
  tr_parent x p : p_in_use (procs k x) = true -> p_parent (procs k x) = Some p ->
    p_in_use (procs k p) = true /\ x ∈ p_child_list (procs k p);
  tr_nodup p : p_in_use (procs k p) = true -> NoDup (p_child_list (procs k p));
  tr_zombie p : p_in_use (procs k p) = true -> p_state (procs k p) = PROC_STATE_ZOMBIE -> p_child_list (procs k p) = [];
  tr_root : p_in_use (procs k (root_process k)) = true /\ p_parent (procs k (root_process k)) = None /\
    p_state (procs k (root_process k)) <> PROC_STATE_ZOMBIE;
  tr_depth : exists depth : Z -> nat, depth (root_process k) = 0%nat /\
    forall x p, p_in_use (procs k x) = true -> p_parent (procs k x) = Some p -> (depth p < depth x)%nat
}.

(** Nothing changes but the scheduling of processes, and nothing becomes a
    zombie. *)
Definition links (p : Process) : bool * option Z * list Z := (p_in_use p, p_parent p, p_child_list p).
Definition proc_same (p p' : Process) : Prop :=
  proc_core p' = proc_core p /\ (p_state p' = PROC_STATE_ZOMBIE -> p_state p = PROC_STATE_ZOMBIE).
Definition tree_same (k k' : kernel) : Prop :=
  (root_process k' = root_process k /\ max_process k' = max_process k) /\ forall p, proc_same (procs k p) (procs k' p).

Lemma core_links p p' : proc_core p' = proc_core p -> links p' = links p.
Proof. intros E. unfold links. by rewrite (f_equal p_in_use E : p_in_use p' = _), (f_equal p_parent E : p_parent p' = _), (f_equal p_child_list E : p_child_list p' = _). Qed.

#[export] Instance tree_same_preorder : PreOrder tree_same.
Proof.
  split; [by intros k; split; [|split]|]. intros k1 k2 k3 [[R1 M1] H1] [[R2 M2] H2]. split; [split; congruence|].
  intros p. destruct (H1 p), (H2 p). split; [congruence|auto].
Qed.

Lemma tree_ok_links k k' :
  root_process k' = root_process k ->
  (forall p, links (procs k' p) = links (procs k p) /\ (p_state (procs k' p) = PROC_STATE_ZOMBIE -> p_state (procs k p) = PROC_STATE_ZOMBIE)) ->
  tree_ok k -> tree_ok k'.
Proof.
  intros R H [T1 T2 T3 T4 T5 (d & D0 & D1)].
  assert (forall p, p_in_use (procs k' p) = p_in_use (procs k p) /\ p_parent (procs k' p) = p_parent (procs k p) /\
    p_child_list (procs k' p) = p_child_list (procs k p)) as L.
  { intros p. destruct (H p) as [E _]. unfold links in E. injection E as -> -> ->. done. }
  split.
  - intros p x. destruct (L p) as (-> & _ & ->), (L x) as (-> & -> & _). apply T1.
  - intros x p. destruct (L p) as (-> & _ & ->), (L x) as (-> & -> & _). apply T2.
  - intros p. destruct (L p) as (-> & _ & ->). apply T3.
  - intros p. destruct (L p) as (-> & _ & ->). intros Hu Hz%H. by apply T4.
  - rewrite R. destruct (L (root_process k)) as (-> & -> & _), T5 as (? & ? & Hz). split_and!; try done. intros Hz'%H. done.
  - exists d. rewrite R. split; [done|]. intros x p. destruct (L x) as (-> & -> & _). apply D1.
Qed.

Lemma tree_ok_same k k' : tree_same k k' -> tree_ok k -> tree_ok k'.
Proof. intros [[R _] H]. apply tree_ok_links; [done|]. intros p. destruct (H p) as [E%core_links Z]. done. Qed.

(** The scheduler keeps the tree. *)
Definition keeps_tree (f : kernel -> option kernel) : Prop := forall k k', f k = Some k' -> tree_same k k'.

Lemma tree_same_upd p f k : proc_same (procs k p) (f (procs k p)) -> tree_same k (upd_proc p f k).
Proof.
  intros H. split; [done|]. intros x. destruct (decide (x = p)) as [->|].
  - by rewrite procs_upd_eq.
  - rewrite procs_upd_ne by done. by split.
Qed.

Lemma tree_same_lists k k' :
  procs k' = procs k -> root_process k' = root_process k -> max_process k' = max_process k -> tree_same k k'.
Proof. intros E R M. split; [done|]. intros p. rewrite E. by split. Qed.

Lemma upd_queue_tree q f : keeps_tree (upd_queue q f).
Proof. intros k k' (l & _ & _ & ->)%upd_queue_Some. by apply tree_same_lists. Qed.

Lemma upd_rendez_tree r f : keeps_tree (upd_rendez r f).
Proof. intros k k' E. unfold upd_rendez in E. destruct (f _); [|done]. injection E as <-. by apply tree_same_lists. Qed.

Lemma upd_bkl_tree f : keeps_tree (upd_bkl_list f).
Proof. intros k k' E. unfold upd_bkl_list in E. destruct (f _); [|done]. injection E as <-. by apply tree_same_lists. Qed.

Lemma set_state_tree p st k : st <> PROC_STATE_ZOMBIE -> tree_same k (set_state p st k).
Proof. intros Hst. apply tree_same_upd. split; [done|]. intros E. by apply Hst in E. Qed.

Lemma tree_same_put k k' p pr :
  procs k' = <[p := pr]> (procs k) -> root_process k' = root_process k -> max_process k' = max_process k ->
  proc_same (procs k p) pr -> tree_same k k'.
Proof.
  intros E R M H. split; [done|]. intros x. rewrite E. destruct (decide (p = x)) as [->|].
  - by rewrite fn_lookup_insert.
  - rewrite fn_lookup_insert_ne by done. by split.
Qed.

(** Opens the binds and tests of hypotheses [f k = Some k']. *)
Ltac open_option :=
  repeat match goal with
  | H : (?a ≫= _) = Some _ |- _ => let E := fresh "E" in destruct a eqn:E; cbn [mbind option_bind] in H; [|discriminate H]
  | H : (if ?b then _ else _) = Some _ |- _ => destruct b
  | H : Some _ = Some _ |- _ => injection H as <-
  | H : None = Some _ |- _ => discriminate H
  end.

Lemma SchedReady_tree p : keeps_tree (SchedReady p).
Proof.
  intros k k' H. unfold SchedReady in H. open_option.
  etrans; [by eapply upd_queue_tree|]. by eapply tree_same_put.
Qed.

Lemma SchedUnready_tree p : keeps_tree (SchedUnready p).
Proof.
  intros k k' H. unfold SchedUnready in H. open_option.
  all: match goal with E : upd_queue _ _ ?k = Some ?k1 |- _ => transitivity k1; [by eapply upd_queue_tree|] end.
  all: match goal with |- context [if ?b then _ else _] => destruct b end; by eapply tree_same_put.
Qed.

Lemma Reschedule_account_tree c : keeps_tree (Reschedule_account c).
Proof.
  intros k k' H. unfold Reschedule_account in H.
  set (k1 := upd_proc c _ k) in H. assert (tree_same k k1) as T1 by (by apply tree_same_upd).
  clearbody k1. transitivity k1; [done|]. clear T1. open_option; try reflexivity.
  - etrans; [by eapply upd_queue_tree|by apply tree_same_upd].
  - etrans; [by eapply upd_queue_tree|]. etrans; [|by apply tree_same_upd].
    etrans; [|by eapply upd_queue_tree]. by apply tree_same_upd.
  - etrans; [by eapply upd_queue_tree|by apply tree_same_upd].
Qed.

Lemma Reschedule_tree : keeps_tree Reschedule.
Proof.
  intros k k' H. unfold Reschedule in H.
  destruct (match get_current_process k with Some c => _ | None => _ end) as [k1|] eqn:E1; [|discriminate H].
  cbn [mbind option_bind] in H.
  assert (tree_same k k1) as T1.
  { destruct (get_current_process k); [by eapply Reschedule_account_tree|]. injection E1 as <-. reflexivity. }
  transitivity k1; [done|].
  set (k2 := match Reschedule_next k1 with Some n => _ | None => _ end) in H.
  assert (tree_same k1 k2) as T2.
  { subst k2. destruct (Reschedule_next k1); [|reflexivity]. etrans; [by apply (set_state_tree z PROC_STATE_RUNNING)|by apply tree_same_lists]. }
  transitivity k2; [done|]. clearbody k2. open_option; [reflexivity|by apply tree_same_lists].
Qed.

Lemma release_bkl_tree poison : keeps_tree (release_bkl poison).
Proof.
  intros k k' H. unfold release_bkl in H. destruct (list.head _).
  - open_option. etrans; [by eapply upd_bkl_tree|]. etrans; [|by eapply SchedReady_tree].
    etrans; [by apply (set_state_tree z PROC_STATE_READY)|by apply tree_same_lists].
  - injection H as <-. by apply tree_same_lists.
Qed.

Lemma TaskWakeup_tree r : keeps_tree (Sched.TaskWakeup r).
Proof.
  intros k k' H. unfold Sched.TaskWakeup in H. destruct (list.head _); [|by injection H as <-].
  open_option. etrans; [by eapply upd_rendez_tree|]. etrans; [by eapply upd_bkl_tree|]. by apply set_state_tree.
Qed.

Lemma TaskSleep_tree r : keeps_tree (Sched.TaskSleep r).
Proof.
  intros k k' H. unfold Sched.TaskSleep in H. destruct (get_current_process k) as [c|]; [|discriminate H].
  cbn [mbind option_bind] in H. open_option.
  etrans; [by eapply release_bkl_tree|]. etrans; [by eapply upd_rendez_tree|].
  etrans; [|by eapply Reschedule_tree]. etrans; [|by eapply SchedUnready_tree]. by apply set_state_tree.
Qed.

(** A process that is not in use changes, and stays out of use. *)
Lemma tree_unused p k k' :
  tree_ok k -> p_in_use (procs k p) = false -> p_in_use (procs k' p) = false ->
  (forall x, x <> p -> procs k' x = procs k x) -> root_process k' = root_process k -> tree_ok k'.
Proof.
  intros [T1 T2 T3 T4 T5 (d & D0 & D1)] Hp Hp' Hx R.
  assert (forall x, p_in_use (procs k' x) = true -> x <> p) as Hu' by (intros x Hu ->; congruence).
  assert (forall x, p_in_use (procs k x) = true -> procs k' x = procs k x) as Hu by (intros x Hu; apply Hx; intros ->; congruence).
  split.
  - intros q x Hq. rewrite Hx in Hq |- * by (by apply Hu'). intros Hin. destruct (T1 q x Hq Hin). by rewrite Hu.
  - intros x q Hq. rewrite Hx in Hq |- * by (by apply Hu'). intros Hpa. destruct (T2 x q Hq Hpa). by rewrite Hu.
  - intros q Hq. rewrite Hx in Hq |- * by (by apply Hu'). by apply T3.
  - intros q Hq. rewrite Hx in Hq |- * by (by apply Hu'). by apply T4.
  - rewrite R. rewrite Hu by apply T5. exact T5.
  - exists d. rewrite R. split; [done|]. intros x q Hq. rewrite Hx in Hq |- * by (by apply Hu'). by apply D1.
Qed.

(** The process [p] becomes the last child of [c]. *)
Lemma tree_fork p c k k' :
  tree_ok k -> p_in_use (procs k c) = true -> p_state (procs k c) <> PROC_STATE_ZOMBIE -> p_in_use (procs k p) = false ->
  links (procs k' p) = (true, Some c, []) -> p_state (procs k' p) <> PROC_STATE_ZOMBIE ->
  procs k' c = procs k c <| p_child_list := p_child_list (procs k c) ++ [p] |> ->
  (forall x, x <> p -> x <> c -> procs k' x = procs k x) -> root_process k' = root_process k -> tree_ok k'.
Proof.
  intros [T1 T2 T3 T4 T5 (d & D0 & D1)] Hc Hz Hp Lp Zp Ec Hx R. unfold links in Lp. injection Lp as P1 P2 P3.
  assert (forall x, x <> p -> p_in_use (procs k' x) = p_in_use (procs k x) /\ p_parent (procs k' x) = p_parent (procs k x) /\
    p_state (procs k' x) = p_state (procs k x)) as L.
  { intros x Hne. destruct (decide (x = c)) as [->|]; [by rewrite Ec|by rewrite Hx]. }
  assert (forall x, p_in_use (procs k x) = true -> x <> p) as Hu by (intros x Hu ->; congruence).
  assert (forall q, q <> p -> p_child_list (procs k' q) = p_child_list (procs k q) ++ if bool_decide (q = c) then [p] else []) as Lc.
  { intros q Hne. case_bool_decide as E; [subst; by rewrite Ec|]. rewrite Hx by done. by rewrite app_nil_r. }
  split.
  - intros q x. destruct (decide (q = p)) as [->|Hq]; [rewrite P3; by intros _ ?%not_elem_of_nil|].
    destruct (L q Hq) as (-> & _). rewrite Lc, elem_of_app by done. intros Hqu [Hin|Hin].
    + destruct (T1 q x Hqu Hin) as [Hxu Hpa]. destruct (L x (Hu x Hxu)) as (-> & -> & _). done.
    + case_bool_decide; [|by apply not_elem_of_nil in Hin]. apply list_elem_of_singleton in Hin as ->. by subst q.
  - intros x q. destruct (decide (x = p)) as [->|Hne].
    + rewrite P2. intros _ [= <-]. rewrite Ec. split; [done|]. apply elem_of_app. right. by left.
    + destruct (L x Hne) as (-> & -> & _). intros Hxu Hpa. destruct (T2 x q Hxu Hpa) as [Hqu Hin].
      pose proof (Hu q Hqu) as Hq. destruct (L q Hq) as (-> & _). rewrite Lc by done. split; [done|]. apply elem_of_app. by left.
  - intros q. destruct (decide (q = p)) as [->|Hq]; [rewrite P3; constructor|].
    destruct (L q Hq) as (-> & _). rewrite Lc by done. intros Hqu. pose proof (T3 q Hqu). case_bool_decide; [|by rewrite app_nil_r].
    apply NoDup_snoc; [done|]. intros Hin. destruct (T1 q p Hqu Hin). congruence.
  - intros q. destruct (decide (q = p)) as [->|Hq]; [done|]. destruct (L q Hq) as (-> & _ & ->). rewrite Lc by done.
    intros Hqu Hqz. rewrite bool_decide_false by (intros ->; done). rewrite app_nil_r. by apply T4.
  - rewrite R. destruct (L (root_process k)) as (-> & -> & ->); [apply Hu, T5|exact T5].
  - exists (fun x => if bool_decide (x = p) then S (d c) else d x). rewrite R. split.
    + rewrite bool_decide_false; [done|]. apply Hu, T5.
    + intros x q. destruct (decide (x = p)) as [->|Hne].
      * rewrite P2. intros _ [= <-]. rewrite bool_decide_false, bool_decide_true by (done || by apply Hu). lia.
      * destruct (L x Hne) as (-> & -> & _). intros Hxu Hpa. destruct (T2 x q Hxu Hpa) as [Hqu _].
        rewrite !bool_decide_false by (done || by apply Hu). by apply D1.
Qed.

(** Nobody is its own parent. *)
Lemma tree_irrefl k x : tree_ok k -> p_in_use (procs k x) = true -> p_parent (procs k x) <> Some x.
Proof. intros T Hu Hp. destruct (tr_depth k T) as (d & _ & D). specialize (D x x Hu Hp). lia. Qed.

Lemma tree_child_ne k c x :
  tree_ok k -> p_in_use (procs k c) = true -> x ∈ p_child_list (procs k c) -> x <> c /\ x <> root_process k.
Proof.
  intros T Hc Hx. destruct (tr_child k T c x Hc Hx) as [Hu Hp]. split.
  - intros ->. by eapply tree_irrefl.
  - intros ->. destruct (tr_root k T) as (_ & E & _). congruence.
Qed.

Section Leave.
Context (k : kernel) (c x : Z) (l : list Z).
Hypothesis T : tree_ok k.
Hypothesis Hc : p_in_use (procs k c) = true.
Hypothesis Hx : x ∈ p_child_list (procs k c).
Hypothesis Hl : NoDup l.
Hypothesis Hin : forall y, y ∈ l <-> y ∈ p_child_list (procs k c) /\ y <> x.

(** The zombie [x] is freed. *)
Lemma tree_reap k' :
  p_state (procs k x) = PROC_STATE_ZOMBIE -> p_in_use (procs k' x) = false ->
  procs k' c = procs k c <| p_child_list := l |> ->
  (forall y, y <> x -> y <> c -> procs k' y = procs k y) -> root_process k' = root_process k -> tree_ok k'.
Proof using All.
  intros Hz Hf Ec Hy R. destruct (tree_child_ne k c x T Hc Hx) as [Hxc Hxr]. destruct T as [T1 T2 T3 T4 T5 (d & D0 & D1)].
  destruct (T1 c x Hc Hx) as [Hxu Hxp].
  assert (forall y, p_in_use (procs k' y) = true -> y <> x) as Hu by (intros y Hu ->; congruence).
  assert (forall y, y <> x -> p_in_use (procs k' y) = p_in_use (procs k y) /\ p_parent (procs k' y) = p_parent (procs k y) /\
    p_state (procs k' y) = p_state (procs k y)) as L.
  { intros y Hne. destruct (decide (y = c)) as [->|]; [by rewrite Ec|by rewrite Hy]. }
  assert (forall q y, q <> x -> y ∈ p_child_list (procs k' q) <-> y ∈ p_child_list (procs k q) /\ (q = c -> y <> x)) as Lc.
  { intros q y Hq. destruct (decide (q = c)) as [->|]; [rewrite Ec; cbn; rewrite Hin|rewrite Hy by done]; naive_solver. }
  assert (forall y, p_in_use (procs k y) = true -> p_parent (procs k y) <> Some x) as Hnx.
  { intros y Hyu Hp. destruct (T2 y x Hyu Hp) as [_ H]. rewrite (T4 x Hxu Hz) in H. by apply not_elem_of_nil in H. }
  split.
  - intros q y Hq. pose proof (Hu q Hq) as Hqx. destruct (L q Hqx) as (E & _). rewrite E in Hq. rewrite Lc by done.
    intros [Hm Hne]. destruct (T1 q y Hq Hm) as [Hyu Hyp].
    assert (y <> x) as Hyx by (intros ->; apply Hne; [congruence|done]). by destruct (L y Hyx) as (-> & -> & _).
  - intros y q Hyu. pose proof (Hu y Hyu) as Hyx. destruct (L y Hyx) as (E & -> & _). rewrite E in Hyu. intros Hp.
    destruct (T2 y q Hyu Hp) as [Hqu Hm]. assert (q <> x) as Hqx by (intros ->; exact (Hnx y Hyu Hp)).
    destruct (L q Hqx) as (-> & _). split; [done|]. apply Lc; [done|]. by split.
  - intros q Hq. pose proof (Hu q Hq) as Hqx. destruct (L q Hqx) as (E & _). rewrite E in Hq.
    destruct (decide (q = c)) as [->|]; [by rewrite Ec|]. rewrite Hy by done. by apply T3.
  - intros q Hq. pose proof (Hu q Hq) as Hqx. destruct (L q Hqx) as (E & _ & ->). rewrite E in Hq. intros Hqz.
    specialize (T4 q Hq Hqz). destruct (decide (q = c)) as [->|]; [by rewrite T4 in Hx; apply not_elem_of_nil in Hx|by rewrite Hy].
  - rewrite R. destruct (L (root_process k)) as (-> & -> & ->); [done|exact T5].
  - exists d. rewrite R. split; [done|]. intros y q Hyu. destruct (L y (Hu y Hyu)) as (E & -> & _). rewrite E in Hyu. by apply D1.
Qed.

(** The root process becomes the parent of [x]. *)
Lemma tree_adopt k' :
  c <> root_process k -> procs k' c = procs k c <| p_child_list := l |> ->
  procs k' (root_process k) = procs k (root_process k) <| p_child_list := p_child_list (procs k (root_process k)) ++ [x] |> ->
  procs k' x = procs k x <| p_parent := Some (root_process k) |> ->
  (forall y, y <> x -> y <> c -> y <> root_process k -> procs k' y = procs k y) ->
  root_process k' = root_process k -> tree_ok k'.
Proof using All.
  intros Hcr Ec Er Ex Hy R. destruct (tree_child_ne k c x T Hc Hx) as [Hxc Hxr]. destruct T as [T1 T2 T3 T4 T5 (d & D0 & D1)].
  set (r := root_process k) in *. destruct (T1 c x Hc Hx) as [Hxu Hxp]. destruct T5 as (Hru & Hrp & Hrz).
  assert (forall y, p_in_use (procs k' y) = p_in_use (procs k y) /\ p_state (procs k' y) = p_state (procs k y) /\
    p_parent (procs k' y) = if bool_decide (y = x) then Some r else p_parent (procs k y)) as L.
  { intros y. destruct (decide (y = x)) as [->|]; [rewrite bool_decide_true by done; by rewrite Ex|rewrite bool_decide_false by done].
    destruct (decide (y = c)) as [->|]; [by rewrite Ec|]. destruct (decide (y = r)) as [->|]; [by rewrite Er|by rewrite Hy]. }
  assert (forall q y, y ∈ p_child_list (procs k' q) <->
    if bool_decide (q = c) then y ∈ p_child_list (procs k q) /\ y <> x
    else if bool_decide (q = r) then y ∈ p_child_list (procs k q) \/ y = x else y ∈ p_child_list (procs k q)) as Lc.
  { intros q y. case_bool_decide as E1; [subst q; rewrite Ec; cbn; by rewrite Hin|].
    case_bool_decide as E2; [subst q; rewrite Er; cbn; by rewrite elem_of_app, list_elem_of_singleton|].
    destruct (decide (q = x)) as [->|]; [by rewrite Ex|by rewrite Hy]. }
  assert (Hxn : forall q, p_in_use (procs k q) = true -> q <> c -> x ∉ p_child_list (procs k q)).
  { intros q Hq Hqc Hm. destruct (T1 q x Hq Hm). congruence. }
  split.
  - intros q y. destruct (L q) as (-> & _), (L y) as (-> & _ & ->). rewrite Lc. intros Hq Hm.
    case_bool_decide as E1; [destruct Hm as [Hm Hne]; rewrite bool_decide_false by done; subst; by apply T1|].
    assert (y = x /\ q = r \/ y ∈ p_child_list (procs k q)) as [[-> ->]|Hm'] by (case_bool_decide; naive_solver).
    + by rewrite bool_decide_true.
    + rewrite bool_decide_false; [by apply T1|]. intros ->. by eapply Hxn.
  - intros y q. destruct (L q) as (-> & _), (L y) as (-> & _ & ->). intros Hyu Hp. rewrite Lc. case_bool_decide as Eyx.
    + injection Hp as <-. subst y. rewrite bool_decide_false, bool_decide_true by done. split; [done|by right].
    + destruct (T2 y q Hyu Hp) as [Hq Hm]. split; [done|]. repeat case_bool_decide; auto.
  - intros q. destruct (L q) as (-> & _). intros Hq. destruct (decide (q = c)) as [->|]; [by rewrite Ec|].
    destruct (decide (q = r)) as [->|]; [rewrite Er; cbn; apply NoDup_snoc; [by apply T3|by apply Hxn]|].
    destruct (decide (q = x)) as [->|]; [rewrite Ex|rewrite Hy by done]; by apply T3.
  - intros q. destruct (L q) as (-> & -> & _). intros Hq Hz. specialize (T4 q Hq Hz).
    destruct (decide (q = c)) as [->|]; [by rewrite T4 in Hx; apply not_elem_of_nil in Hx|].
    destruct (decide (q = r)) as [->|]; [done|]. destruct (decide (q = x)) as [->|]; [by rewrite Ex|by rewrite Hy].
  - rewrite R. destruct (L r) as (-> & -> & ->). by rewrite bool_decide_false by congruence.
  - exists d. rewrite R. split; [done|]. intros y q. destruct (L y) as (-> & _ & ->). intros Hyu. case_bool_decide as E.
    + intros [= <-]. subst y. specialize (D1 x c Hxu Hxp). fold r in D0. lia.
    + by apply D1.
Qed.
End Leave.

(** ** What the calls do to the tree *)

Section WInv.
Context {A B : Type}.

Lemma wbind_inv (w : W A) (k : A -> W B) m b m' :
  (w ≫= k) m = Returns b m' -> exists a m1, w m = Returns a m1 /\ k a m1 = Returns b m'.
Proof. unfold mbind, W_bind. destruct (w m) as [a m1| |] eqn:E; [eauto|discriminate|discriminate]. Qed.

Lemma on_files_kern (f : M A) m a m' : on_files f m = Returns a m' -> kern m' = kern m.
Proof. unfold on_files. destruct (f (files m)); [|discriminate|discriminate]. by intros [= _ <-]. Qed.

Lemma on_vm_kern (f : vms -> option (A * vms)) m a m' : on_vm f m = Returns a m' -> kern m' = kern m.
Proof. unfold on_vm. destruct (f (vms_of m)) as [[x v]|]; [|discriminate]. by intros [= _ <-]. Qed.

Lemma on_kernel_inv f m m' : on_kernel f m = Returns () m' -> f (kern m) = Some (kern m').
Proof. unfold on_kernel. destruct (f (kern m)); [|discriminate]. by intros [= <-]. Qed.

Lemma given_inv (o : option A) m a m' : given o m = Returns a m' -> o = Some a /\ m' = m.
Proof. unfold given. destruct o; [|discriminate]. intros [= -> ->]. done. Qed.

Lemma current_inv m c m' : current m = Returns c m' -> current_process (kern m) = Some c /\ m' = m.
Proof.
  unfold current, get, mbind, W_bind. unfold given. destruct (current_process (kern m)); [|discriminate].
  intros [= -> ->]. done.
Qed.
End WInv.

Lemma upd_p_inv p f m u m' : upd_p p f m = Returns u m' -> m' = m <| kern := upd_proc p f (kern m) |>.
Proof. unfold upd_p, put. generalize (m <| kern := upd_proc p f (kern m) |>). by intros x [= _ ->]. Qed.

Lemma proc_of_inv p m pr m' : proc_of p m = Returns pr m' -> pr = procs (kern m) p /\ m' = m.
Proof. unfold proc_of, get. generalize (procs (kern m) p). by intros x [= -> ->]. Qed.

Lemma get_inv {A} (f : machine -> A) m a m' : get f m = Returns a m' -> a = f m /\ m' = m.
Proof. unfold get. generalize (f m). by intros x [= -> ->]. Qed.

Lemma free_as_kern p m u m' : free_as p m = Returns u m' -> kern m' = kern m.
Proof. by intros [= _ <-]. Qed.

Lemma AllocProcess_inv m c p m' :
  0 <= max_process (kern m) -> current_process (kern m) = Some c -> AllocProcess m = Returns p m' ->
  (p = -1 /\ m' = m) \/
  (0 <= p /\ p_in_use (procs (kern m) p) = false /\ procs (kern m') p = new_process p c (procs (kern m) c) /\
   (forall x, x <> p -> procs (kern m') x = procs (kern m) x) /\ root_process (kern m') = root_process (kern m)).
Proof.
  intros Hmax Hc H. unfold AllocProcess in H. rewrite (wbind _ _ _ _ _ (run_current m c Hc)) in H.
  unfold get in H. erewrite wbind in H by reflexivity. cbv beta in H. erewrite wbind in H by reflexivity.
  set (q := find_unused _ 0 (kern m)) in H. case_bool_decide as Hq; [injection H as <- <-; by left|]. right.
  destruct (find_unused_spec (Z.to_nat (max_process (kern m))) 0 (kern m)) as (H1 & _ & H3). fold q in H1, H3.
  unfold proc_of, get in H. erewrite wbind in H by reflexivity. cbv beta in H.
  apply wbind_inv in H as (? & m1 & R1 & H). apply wbind_inv in H as (? & m2 & R2 & H). apply wbind_inv in H as (? & m3 & R3 & H).
  apply wbind_inv in H as (? & m4 & R4 & H). apply wbind_inv in H as (? & m5 & R5 & H). apply wbind_inv in H as (? & m6 & R6 & H).
  injection H as <- <-. injection R1 as _ <-. injection R2 as _ <-. apply on_files_kern in R3, R4. injection R5 as _ <-. injection R6 as _ <-.
  cbn [kern update_field] in *. rewrite R4, R3. cbn [kern update_field]. split; [lia|]. split; [apply H3; lia|]. split_and!.
  - rewrite procs_upd_eq. change (procs (InitRendez _ ?x)) with (procs x). by rewrite !procs_upd_eq.
  - intros y Hy. rewrite procs_upd_ne by done. change (procs (InitRendez _ ?z)) with (procs z). by rewrite !procs_upd_ne.
  - done.
Qed.

Lemma fork_tree m c r m' :
  tree_ok (kern m) -> 0 <= max_process (kern m) -> current_process (kern m) = Some c ->
  p_in_use (procs (kern m) c) = true -> p_state (procs (kern m) c) <> PROC_STATE_ZOMBIE ->
  sys_fork m = Returns r m' -> tree_ok (kern m').
Proof.
  intros T Hmax Hc Hu Hz H. unfold sys_fork in H. rewrite (wbind _ _ _ _ _ (run_current m c Hc)) in H.
  apply wbind_inv in H as (p & m1 & R1 & H).
  destruct (AllocProcess_inv m c p m1 Hmax Hc R1) as [[-> ->]|(Hp & Hf & Ep & Ex & Er)].
  { injection H as _ <-. done. }
  assert (Hpc : p <> c) by congruence. rewrite bool_decide_false in H by lia.
  apply wbind_inv in H as (? & m2 & R2%on_files_kern & H). unfold arch_fork_process, put in H.
  erewrite wbind in H by (erewrite wbind by reflexivity; reflexivity). cbv beta in H.
  rewrite bool_decide_false in H by (intros Hn; by apply Hn). unfold fork_memory in H.
  apply wbind_inv in H as (r1 & m3 & R3%on_vm_kern & H). cbn [kern update_field] in R3.
  assert (K3 : kern m3 = kern m1) by congruence. clear R2 R3 R1. case_bool_decide.
  - apply wbind_inv in H as (? & m4 & R4%on_files_kern & H). apply wbind_inv in H as (? & m5 & R5 & H).
    injection H as _ <-. injection R5 as _ <-. cbn [kern update_field]. rewrite R4, K3.
    apply (tree_unused p (kern m)); [done|done|by rewrite procs_upd_eq| |done].
    intros y Hy. rewrite procs_upd_ne by done. by apply Ex.
  - apply wbind_inv in H as (cur & m4 & R4 & H). injection R4 as <- <-.
    apply wbind_inv in H as (l & m5 & R5 & H). apply given_inv in R5 as [(Hn & ->)%Seq.add_tail_Some ->].
    apply wbind_inv in H as (? & m6 & R6 & H). injection R6 as _ <-.
    apply wbind_inv in H as (? & m7 & R7 & H). injection R7 as _ <-.
    apply wbind_inv in H as ([] & m8 & R8%on_kernel_inv & H).
    apply wbind_inv in H as (? & m9 & R9 & H). injection R9 as _ <-. injection H as _ <-.
    cbn [kern update_field] in R8. apply (tree_ok_same _ _ (SchedReady_tree _ _ _ R8)). rewrite K3.
    apply (tree_fork p c (kern m)); try done.
    + by rewrite procs_upd_eq, procs_upd_ne, Ep.
    + rewrite procs_upd_eq. done.
    + rewrite procs_upd_ne by done. by rewrite procs_upd_eq, Ex.
    + intros y H1 H2. rewrite !procs_upd_ne by done. by apply Ex.
Qed.

(** The state of [c] between the rounds of the loop over its children. *)
Record exiting (c : Z) (k : kernel) : Prop := {
  ex_tree : tree_ok k;
  ex_in_use : p_in_use (procs k c) = true;
  ex_alive : p_state (procs k c) <> PROC_STATE_ZOMBIE;
  ex_not_root : c <> root_process k
}.

Lemma exit_free c x l k :
  exiting c k -> p_child_list (procs k c) = x :: l -> p_state (procs k x) = PROC_STATE_ZOMBIE ->
  exiting c (upd_proc x (fun pr => pr <| p_in_use := false |>) (upd_proc c (fun pr => pr <| p_child_list := l |>) k)).
Proof.
  intros [T Hu Hz Hr] El Hx. assert (Hin : x ∈ p_child_list (procs k c)) by (rewrite El; by left).
  destruct (tree_child_ne k c x T Hu Hin) as [Hxc _]. pose proof (tr_nodup k T c Hu) as N. rewrite El in N.
  apply NoDup_cons in N as [N1 N2].
  split; [|rewrite procs_upd_ne, procs_upd_eq by done; done..|done].
  apply (tree_reap k c x l); try done.
  - intros y. rewrite El, elem_of_cons. split; [|tauto]. intros Hy. split; [by right|by intros ->].
  - by rewrite procs_upd_eq.
  - rewrite procs_upd_ne by done. by rewrite procs_upd_eq.
  - intros y H1 H2. by rewrite !procs_upd_ne.
Qed.

Lemma exit_adopt c x l k :
  exiting c k -> p_child_list (procs k c) = x :: l ->
  exiting c (upd_proc x (fun pr => pr <| p_parent := Some (root_process k) |>)
    (upd_proc (root_process k) (fun pr => pr <| p_child_list := p_child_list (procs k (root_process k)) ++ [x] |>)
      (upd_proc c (fun pr => pr <| p_child_list := l |>) k))).
Proof.
  intros [T Hu Hz Hr] El. assert (Hin : x ∈ p_child_list (procs k c)) by (rewrite El; by left).
  destruct (tree_child_ne k c x T Hu Hin) as [Hxc Hxr]. pose proof (tr_nodup k T c Hu) as N. rewrite El in N.
  apply NoDup_cons in N as [N1 N2].
  split; [|rewrite !procs_upd_ne, procs_upd_eq by done; done..|done].
  apply (tree_adopt k c x l); try done.
  - intros y. rewrite El, elem_of_cons. split; [|tauto]. intros Hy. split; [by right|by intros ->].
  - rewrite !procs_upd_ne by done. by rewrite procs_upd_eq.
  - rewrite procs_upd_ne, procs_upd_eq by done. by rewrite procs_upd_ne by done.
  - by rewrite procs_upd_eq, !procs_upd_ne by done.
  - intros y H1 H2 H3. by rewrite !procs_upd_ne.
Qed.

Lemma exit_children_tree n c m m' :
  exit_children n c m = Returns () m' -> exiting c (kern m) ->
  exiting c (kern m') /\ p_child_list (procs (kern m') c) = [].
Proof.
  revert m. induction n as [|n IH]; intros m H X; cbn [exit_children] in H;
    apply wbind_inv in H as (pr & m1 & R1 & H); injection R1 as <- <-;
    destruct (p_child_list (procs (kern m) c)) as [|x l] eqn:El.
  - injection H as <-. done.
  - discriminate H.
  - injection H as <-. done.
  - apply wbind_inv in H as (? & m2 & ->%upd_p_inv & H).
    apply wbind_inv in H as (? & m4 & R4 & H). unfold drop_child in R4.
    apply wbind_inv in R4 as (ch & m3 & [-> ->]%proc_of_inv & R4). cbn [kern update_field] in R4.
    assert (Hin : x ∈ p_child_list (procs (kern m) c)) by (rewrite El; by left).
    destruct (tree_child_ne _ c x (ex_tree _ _ X) (ex_in_use _ _ X) Hin) as [Hxc Hxr].
    rewrite procs_upd_ne in R4 by done. apply (IH m4 H). case_bool_decide as Hz.
    + apply wbind_inv in R4 as (? & m5 & R5%free_as_kern & ->%upd_p_inv). cbn [kern update_field]. rewrite R5. by apply exit_free.
    + apply wbind_inv in R4 as (root & m5 & [-> ->]%get_inv & R4). apply wbind_inv in R4 as (rp & m6 & [-> ->]%proc_of_inv & R4).
      apply wbind_inv in R4 as (l' & m7 & [(_ & ->)%Seq.add_tail_Some ->]%given_inv & R4).
      apply wbind_inv in R4 as (? & m8 & ->%upd_p_inv & ->%upd_p_inv). cbn [kern update_field].
      change (root_process (upd_proc c ?f (kern m))) with (root_process (kern m)).
      rewrite (procs_upd_ne c (root_process (kern m))) by (apply not_eq_sym, X). by apply exit_adopt.
Qed.

(** [c] becomes a zombie. *)
Lemma zombie_tree c k : exiting c k -> p_child_list (procs k c) = [] -> tree_ok (upd_proc c (fun pr => pr <| p_state := PROC_STATE_ZOMBIE |>) k).
Proof.
  intros [[T1 T2 T3 T4 T5 T6] Hu Hz Hr] El. set (k' := upd_proc c _ k).
  assert (L : forall x, p_in_use (procs k' x) = p_in_use (procs k x) /\ p_parent (procs k' x) = p_parent (procs k x) /\
    p_child_list (procs k' x) = p_child_list (procs k x)).
  { intros x. unfold k'. destruct (decide (x = c)) as [->|]; [by rewrite procs_upd_eq|by rewrite procs_upd_ne]. }
  split.
  - intros p x. destruct (L p) as (-> & _ & ->), (L x) as (-> & -> & _). apply T1.
  - intros x p. destruct (L p) as (-> & _ & ->), (L x) as (-> & -> & _). apply T2.
  - intros p. destruct (L p) as (-> & _ & ->). apply T3.
  - intros p. destruct (L p) as (-> & _ & ->). destruct (decide (p = c)) as [->|Hp]; [done|].
    unfold k'. rewrite procs_upd_ne by done. apply T4.
  - change (root_process k') with (root_process k). unfold k'. by rewrite procs_upd_ne by (by apply not_eq_sym).
  - destruct T6 as (d & D0 & D1). exists d. split; [done|]. intros x p. destruct (L x) as (-> & -> & _). apply D1.
Qed.

Lemma exit_tree m c status u m' :
  tree_ok (kern m) -> current_process (kern m) = Some c ->
  p_in_use (procs (kern m) c) = true -> p_state (procs (kern m) c) <> PROC_STATE_ZOMBIE ->
  sys_exit status m = Returns u m' -> tree_ok (kern m').
Proof.
  intros T Hc Hu Hz H. unfold sys_exit in H. rewrite (wbind _ _ _ _ _ (run_current m c Hc)) in H.
  apply wbind_inv in H as (cur & m1 & [-> ->]%proc_of_inv & H).
  apply wbind_inv in H as (? & m2 & ->%upd_p_inv & H). apply wbind_inv in H as (? & m3 & K3%on_files_kern & H).
  apply wbind_inv in H as (? & m4 & K4%on_vm_kern & H). apply wbind_inv in H as (n & m5 & [-> ->]%get_inv & H).
  apply wbind_inv in H as ([] & m6 & R6 & H). apply wbind_inv in H as (pa & m7 & [Hpa ->]%given_inv & H).
  apply wbind_inv in H as ([] & m8 & R8%on_kernel_inv & H). apply wbind_inv in H as ([] & m9 & R9%on_kernel_inv & H).
  apply wbind_inv in H as (? & m10 & ->%upd_p_inv & H). apply wbind_inv in H as ([] & m11 & R11%on_kernel_inv & H).
  destruct u. apply on_kernel_inv in H. cbn [kern update_field] in *.
  assert (X4 : exiting c (kern m4)).
  { rewrite K4, K3. split.
    - apply (tree_ok_links (kern m)); [done| |done]. intros p.
      destruct (decide (p = c)) as [->|]; [by rewrite procs_upd_eq|by rewrite procs_upd_ne].
    - by rewrite procs_upd_eq.
    - by rewrite procs_upd_eq.
    - intros E. change (c = root_process (kern m)) in E. destruct (tr_root _ T) as (_ & E2 & _). congruence. }
  destruct (exit_children_tree _ _ _ _ R6 X4) as (X6 & El).
  assert (S : tree_same (kern m6) (kern m9)).
  { etrans; [by eapply TaskWakeup_tree|by eapply release_bkl_tree]. }
  apply (tree_ok_same _ _ (Reschedule_tree _ _ H)). apply (tree_ok_same _ _ (SchedUnready_tree _ _ _ R11)).
  pose proof S as [[SR _] SP]. pose proof (SP c) as [SL%core_links SZ]. unfold links in SL. injection SL as L1 L2 L3.
  apply zombie_tree; [|by rewrite L3]. destruct X6 as [X1 X2 X3 X5]. split.
  - by apply (tree_ok_same (kern m6)).
  - by rewrite L1.
  - intros Hz'%SZ. done.
  - by rewrite SR.
Qed.

(** ** wait *)

Lemma scan_children_spec k sel l any x b :
  scan_children k sel l any = (Some x, b) -> x ∈ l /\ p_state (procs k x) = PROC_STATE_ZOMBIE.
Proof.
  revert any. induction l as [|y l IH]; intros any; [done|]. cbn [scan_children].
  destruct (sel _); [case_bool_decide as Hz|].
  - intros [= <- _]. split; [by left|done].
  - intros H. destruct (IH _ H). split; [by right|done].
  - intros H. destruct (IH _ H). split; [by right|done].
Qed.

Lemma wait_group_found k c g x :
  wait_group k c g = Found x -> x ∈ p_child_list (procs k c) /\ p_state (procs k x) = PROC_STATE_ZOMBIE.
Proof.
  unfold wait_group. destruct (p_child_list (procs k c)) as [|y l]; [done|]. rename y into y0.
  destruct (scan_children _ _ _ _) as [[z|] []] eqn:E; intros H; try done; injection H as <-; by eapply scan_children_spec.
Qed.

(** The child that is found is a zombie and a child of the caller. *)
Lemma wait_scan_found k c pid x :
  tree_ok k -> p_in_use (procs k c) = true -> wait_scan c pid k = Found x ->
  x ∈ p_child_list (procs k c) /\ p_state (procs k x) = PROC_STATE_ZOMBIE.
Proof.
  intros T Hu. unfold wait_scan. case_bool_decide; [|case_bool_decide; [by apply wait_group_found|]].
  - destruct (GetProcess pid k) as [ch|]; [|done]. destruct (p_in_use (procs k ch)) eqn:E; [|done].
    case_bool_decide as Hp; [|done]. cbn [andb]. case_bool_decide as Hz; [|done]. intros [= <-].
    split; [|done]. by apply (tr_parent k T ch c E Hp).
  - case_bool_decide; [|by apply wait_group_found]. destruct (p_child_list (procs k c)) as [|y l]; [by case_bool_decide|].
    destruct (scan_children _ _ _ _) as [[z|] []] eqn:E; intros H'; try done; injection H' as <-; by eapply scan_children_spec.
Qed.

Lemma reap_tree m c x status r m' :
  tree_ok (kern m) -> p_in_use (procs (kern m) c) = true -> x ∈ p_child_list (procs (kern m) c) ->
  p_state (procs (kern m) x) = PROC_STATE_ZOMBIE -> reap c x status m = Returns r m' -> tree_ok (kern m').
Proof.
  intros T Hu Hx Hz H. destruct (tree_child_ne _ c x T Hu Hx) as [Hxc _]. unfold reap, GetProcessPid in H.
  apply wbind_inv in H as (pid & m1 & R1 & H). apply wbind_inv in R1 as (? & m2 & [-> ->]%proc_of_inv & R1). injection R1 as _ <-.
  apply wbind_inv in H as (ch & m3 & [-> ->]%proc_of_inv & H). apply wbind_inv in H as (sc & m4 & R4 & H).
  assert (K4 : kern m4 = kern m). { destruct (bool_decide (status <> 0)); [by eapply on_files_kern|]. by injection R4 as _ <-. }
  case_bool_decide. { injection H as _ <-. by rewrite K4. }
  apply wbind_inv in H as (cur & m5 & [-> ->]%proc_of_inv & H). apply wbind_inv in H as (l & m6 & [El ->]%given_inv & H).
  apply wbind_inv in H as (? & m7 & ->%upd_p_inv & H). apply wbind_inv in H as (? & m8 & K8%free_as_kern & H).
  apply wbind_inv in H as (? & m9 & ->%upd_p_inv & H). injection H as _ <-. cbn [kern update_field] in *. rewrite K8, K4.
  rewrite K4 in El. unfold Seq.rem_entry in El. rewrite bool_decide_true in El by done. injection El as <-.
  apply (tree_reap (kern m) c x (filter (fun y => y <> x) (p_child_list (procs (kern m) c)))); try done.
  - apply NoDup_filter. by apply (tr_nodup _ T).
  - intros y. rewrite elem_of_filter_ne. tauto.
  - by rewrite procs_upd_eq.
  - rewrite procs_upd_ne by done. by rewrite procs_upd_eq.
  - intros y H1 H2. by rewrite !procs_upd_ne.
Qed.

(** A computation that does not sleep. *)
Definition awake {A} (w : W A) : Prop := forall m m', w m <> Sleeps m'.

Lemma awake_bind {A B} (w : W A) (k : A -> W B) : awake w -> (forall a, awake (k a)) -> awake (w ≫= k).
Proof.
  intros Hw Hk m m'. unfold mbind, W_bind. destruct (w m) as [a m1|m1|] eqn:E; [apply Hk| |done].
  by apply Hw in E.
Qed.

Lemma awake_ret {A} (a : A) : awake (mret a : W A).
Proof. done. Qed.
Lemma awake_put f : awake (put f).
Proof. done. Qed.
Lemma awake_get {A} (f : machine -> A) : awake (get f).
Proof. done. Qed.
Lemma awake_given {A} (o : option A) : awake (given o).
Proof. by destruct o. Qed.
Lemma awake_copyout dst bs : awake (on_files (copyout_bytes dst bs)).
Proof. intros m m'. unfold on_files. by destruct (copyout_bytes_total bs dst (files m)) as (r & s' & ->). Qed.
Lemma awake_if {A} (b : bool) (v w : W A) : awake v -> awake w -> awake (if b then v else w).
Proof. by destruct b. Qed.

Create HintDb awake.
#[export] Hint Resolve awake_bind awake_ret awake_put awake_get awake_given awake_copyout awake_if : awake.

Lemma reap_awake c x status : awake (reap c x status).
Proof. unfold reap, GetProcessPid, proc_of, free_as, FreeProcess, upd_p. eauto 30 with awake. Qed.

Definition ends {A} (r : result A) (m : machine) : Prop := r = Sleeps m \/ exists a, r = Returns a m.

Lemma waitpid_tree m c pid status options m' :
  tree_ok (kern m) -> p_in_use (procs (kern m) c) = true -> ends (waitpid_loop c pid status options m) m' -> tree_ok (kern m').
Proof.
  intros T Hu H. unfold waitpid_loop, get in H. erewrite wbind in H by reflexivity. cbv beta in H.
  destruct (wait_scan c pid (kern m)) as [e|x|] eqn:E.
  - destruct H as [H|[a H]]; [discriminate H|]. injection H as _ <-. done.
  - destruct (wait_scan_found _ _ _ _ T Hu E) as [Hx Hz]. destruct H as [H|[a H]]; [by apply reap_awake in H|by eapply reap_tree].
  - case_bool_decide.
    + destruct H as [H|[a H]]; [discriminate H|]. injection H as _ <-. done.
    + unfold on_kernel, mbind, W_bind in H. destruct (Sched.TaskSleep _ _) as [k|] eqn:Ek; [|by destruct H as [|[]]].
      destruct H as [H|[a H]]; [|discriminate H]. unfold sleeps in H. injection H as <-.
      apply (tree_ok_same (kern m)); [|done]. by eapply TaskSleep_tree.
Qed.

(** C21. fork, exit and wait keep the tree of processes: whatever they return,
    the children of every process in use are in use with it as parent, every
    process with a parent is in that parent's list once, zombies have no
    children, the links lead up to the root process, and it is still there. *)
Theorem process_tree_kept m c :
  tree_ok (kern m) -> 0 <= max_process (kern m) -> current_process (kern m) = Some c ->
  p_in_use (procs (kern m) c) = true -> p_state (procs (kern m) c) <> PROC_STATE_ZOMBIE ->
  (forall r m', sys_fork m = Returns r m' -> tree_ok (kern m')) /\
  (forall status m', sys_exit status m = Returns () m' -> tree_ok (kern m')) /\
  (forall pid status options m', ends (sys_waitpid pid status options m) m' -> tree_ok (kern m')).
Proof.
  intros T Hmax Hc Hu Hz. split_and!.
  - intros r m'. by apply (fork_tree m c).
  - intros status m'. by apply (exit_tree m c).
  - intros pid status options m' H. unfold sys_waitpid in H. rewrite (wbind _ _ _ _ _ (run_current m c Hc)) in H.
    unfold get in H. erewrite wbind in H by reflexivity. destruct (bool_decide (_ \/ _)).
    + destruct H as [H|[a H]]; [discriminate H|]. by injection H as _ <-.
    + by eapply waitpid_tree.
Qed.

(** The root process 1 runs, with a zombie 2 and a living child 3 behind it; 4
    is a child of 3. *)
Definition family : kernel :=
  two_procs <| procs :=
    <[1 := procs two_procs 1 <| p_child_list := [2; 3] |>]>
    (<[2 := zero_process <| p_in_use := true |> <| p_pid := 2 |> <| p_parent := Some 1 |> <| p_state := PROC_STATE_ZOMBIE |> <| p_exit_status := 7 |>]>
    (<[3 := zero_process <| p_in_use := true |> <| p_pid := 3 |> <| p_parent := Some 1 |> <| p_child_list := [4] |>]>
    (<[4 := zero_process <| p_in_use := true |> <| p_pid := 4 |> <| p_parent := Some 3 |>]> (procs two_procs)))) |>
    <| max_process := 5 |>.

Lemma family_slot x :
  x = 0 \/ x = 1 \/ x = 2 \/ x = 3 \/ x = 4 \/ procs family x = zero_process.
Proof.
  destruct (decide (x = 0)); [tauto|]. destruct (decide (x = 1)); [tauto|]. destruct (decide (x = 2)); [tauto|].
  destruct (decide (x = 3)); [tauto|]. destruct (decide (x = 4)); [tauto|]. do 5 right. cbn. by rewrite !fn_lookup_insert_ne.
Qed.

Lemma family_tree : tree_ok family.
Proof.
  assert (Hl : forall p, links (procs family p) = (bool_decide (0 <= p <= 4),
    if bool_decide (p = 2 \/ p = 3) then Some 1 else if bool_decide (p = 4) then Some 3 else None,
    if bool_decide (p = 1) then [2; 3] else if bool_decide (p = 3) then [4] else [])).
  { intros p. destruct (family_slot p) as [->|[->|[->|[->|[->|E]]]]]; [reflexivity..|].
    destruct (decide (0 <= p <= 4)) as [Hp|Hp].
    - assert (p = 0 \/ p = 1 \/ p = 2 \/ p = 3 \/ p = 4) as [->|[->|[->|[->| ->]]]] by lia; reflexivity.
    - rewrite E, !bool_decide_false by lia. reflexivity. }
  assert (Hch : forall p, p_child_list (procs family p) = if bool_decide (p = 1) then [2; 3] else if bool_decide (p = 3) then [4] else [])
    by (intros p; exact (f_equal snd (Hl p))).
  assert (Hpa : forall p, p_parent (procs family p) =
    if bool_decide (p = 2 \/ p = 3) then Some 1 else if bool_decide (p = 4) then Some 3 else None)
    by (intros p; exact (f_equal (fun t => snd (fst t)) (Hl p))). clear Hl.
  assert (Hc : forall p x, x ∈ p_child_list (procs family p) -> p = 1 /\ (x = 2 \/ x = 3) \/ p = 3 /\ x = 4).
  { intros p x. rewrite Hch. repeat case_bool_decide; rewrite ?elem_of_cons, ?elem_of_nil; lia. }
  assert (Hp : forall x p, p_parent (procs family x) = Some p -> p = 1 /\ (x = 2 \/ x = 3) \/ p = 3 /\ x = 4).
  { intros x p. rewrite Hpa. repeat case_bool_decide; intros [=]; lia. }
  split.
  - intros p x _ [[-> [-> | ->]]|[-> ->]]%Hc; done.
  - intros x p _ [[-> [-> | ->]]|[-> ->]]%Hp; (split; [reflexivity|]); rewrite Hch; repeat case_bool_decide; rewrite ?elem_of_cons; lia.
  - intros p _. rewrite Hch. repeat case_bool_decide; repeat constructor;
      rewrite ?elem_of_cons, ?elem_of_nil; lia.
  - intros p _. destruct (family_slot p) as [->|[->|[->|[->|[->| ->]]]]]; done.
  - done.
  - exists (fun x => if bool_decide (x = 1) then 0%nat else if bool_decide (x = 4) then 2%nat else 1%nat).
    split; [done|]. intros x p _ [[-> [-> | ->]]|[-> ->]]%Hp; repeat case_bool_decide; lia.
Qed.

Lemma process_tree_kept_witness :
  exists m', sys_waitpid (-1) 0 0 (fork_machine (fmem fs0) <| kern := family |>) = Returns 2 m' /\ tree_ok (kern m').
Proof.
  destruct (process_tree_kept (fork_machine (fmem fs0) <| kern := family |>) 1) as (_ & _ & H).
  - exact family_tree.
  - discriminate.
  - reflexivity.
  - reflexivity.
  - discriminate.
  - specialize (H (-1) 0 0).
    assert (match sys_waitpid (-1) 0 0 (fork_machine (fmem fs0) <| kern := family |>) with Returns a _ => a | _ => -1 end = 2) as E
      by (vm_compute; reflexivity).
    destruct (sys_waitpid (-1) 0 0 _) as [a m'| |]; [|discriminate E..]. subst a.
    exists m'. split; [reflexivity|]. apply H. right. exists 2. reflexivity.
Defined.

(** ** From exit to wait *)

(** What the scheduler reads of a process, and its number and status. *)
Record sched_same (p p' : Process) : Prop := {
  ss_params : same_params p p';
  ss_quanta : p_quanta_used p' = p_quanta_used p;
  ss_pid : p_pid p' = p_pid p;
  ss_status : p_exit_status p' = p_exit_status p
}.

(** The tree changes, and nothing else. *)
Record moved (k k' : kernel) : Prop := {
  mv_lists : lists_same k k';
  mv_locked : bkl_locked k' = bkl_locked k;
  mv_owner : bkl_owner k' = bkl_owner k;
  mv_proc x : sched_same (procs k x) (procs k' x)
}.

#[export] Instance moved_preorder : PreOrder moved.
Proof.
  split; [by intros k; split; [reflexivity|..|intros x; split; [split_and!|..]]|].
  intros k1 k2 k3 [L1 E1 O1 P1] [L2 E2 O2 P2]. split; [by etrans|congruence|congruence|].
  intros x. destruct (P1 x) as [(A1 & A2 & A3 & A4) B1 C1 D1], (P2 x) as [(A1' & A2' & A3' & A4') B2 C2 D2].
  split; [split_and!|..]; congruence.
Qed.

Lemma moved_upd p f k : sched_same (procs k p) (f (procs k p)) -> moved k (upd_proc p f k).
Proof.
  intros H. split; [apply upd_proc_lists|done|done|]. intros x. destruct (decide (x = p)) as [->|].
  - by rewrite procs_upd_eq.
  - rewrite procs_upd_ne by done. by split; [split_and!|..].
Qed.

(** Well-formedness depends on what the scheduler reads. *)
Lemma wf_same k k' :
  lists_same k k' -> bkl_locked k' = bkl_locked k -> bkl_owner k' = bkl_owner k ->
  (forall x, same_params (procs k x) (procs k' x)) -> wf k -> wf k'.
Proof.
  intros L El Eo Hp [W Wl Wc]. destruct L as [L1 L2 L3 L4 L5 L6 L7 L8].
  assert (Hpr : forall x, p_priority (procs k' x) = p_priority (procs k x)) by (intros x; destruct (Hp x) as (_ & _ & E & _); done).
  split.
  - apply (wf_lists_ext k); [done|done| |].
    + intros x. split; [done|]. split_and!; intros; by rewrite ?L1, ?L3, ?L4.
    + destruct (wf_nodup k W) as (N1 & N2 & N3). split_and!; intros; rewrite ?L1, ?L3, ?L4; done.
  - unfold wf_lock in *. rewrite El. destruct (bkl_locked k); [|by rewrite L3].
    destruct Wl as (p & E & H). exists p. by rewrite Eo, L1, L6, Hpr.
  - destruct Wc as (c & E & H). exists c. by rewrite L5, L6, L1, Hpr.
Qed.

Definition user_same (m m' : machine) : Prop :=
  umem (files m') = umem (files m) /\ uvalid (files m') = uvalid (files m).

Lemma drop_child_ok c x l m :
  exiting c (kern m) -> p_child_list (procs (kern m) c) = x :: l ->
  exists m', drop_child x (m <| kern := upd_proc c (fun pr => pr <| p_child_list := l |>) (kern m) |>) = Returns () m' /\
    exiting c (kern m') /\ moved (kern m) (kern m') /\ p_child_list (procs (kern m') c) = l /\
    p_parent (procs (kern m') c) = p_parent (procs (kern m) c) /\ user_same m m'.
Proof.
  intros X El. assert (Hin : x ∈ p_child_list (procs (kern m) c)) by (rewrite El; by left).
  pose proof X as [T Hu Hz Hr]. destruct (tree_child_ne _ c x T Hu Hin) as [Hxc Hxr].
  destruct (tr_child _ T c x Hu Hin) as [Hxu Hxp]. unfold drop_child. rewrite (wbind _ _ _ _ _ (run_proc_of _ _)).
  set (m1 := m <| kern := _ |>).
  assert (M1 : moved (kern m) (kern m1)) by (apply moved_upd; by split; [split_and!|..]).
  assert (Ex : procs (kern m1) x = procs (kern m) x) by (apply procs_upd_ne; done). rewrite Ex. case_bool_decide as Hxz.
  - rewrite (wbind _ _ _ _ _ (run_free_as _ _)). unfold FreeProcess. rewrite run_upd_p. eexists. split; [reflexivity|].
    cbn [kern update_field put_vms]. split_and!.
    + by apply exit_free.
    + etrans; [exact M1|]. apply moved_upd. by split; [split_and!|..].
    + rewrite procs_upd_ne by done. cbn [kern update_field m1]. by rewrite procs_upd_eq.
    + rewrite procs_upd_ne by done. cbn [kern update_field m1]. by rewrite procs_upd_eq.
    + by split.
  - rewrite (wbind _ _ _ _ _ (run_get _ _)), (wbind _ _ _ _ _ (run_proc_of _ _)).
    change (root_process (kern m1)) with (root_process (kern m)).
    assert (Er : procs (kern m1) (root_process (kern m)) = procs (kern m) (root_process (kern m))) by (apply procs_upd_ne; by apply not_eq_sym).
    rewrite Er, Seq.add_tail_fresh.
    2:{ intros H. destruct (tr_child _ T _ _ (proj1 (tr_root _ T)) H). congruence. }
    rewrite (wbind _ _ _ _ _ (run_given _ _)), (wbind _ _ _ _ _ (run_upd_p _ _ _)), run_upd_p.
    eexists. split; [reflexivity|]. cbn [kern update_field]. split_and!.
    + by apply exit_adopt.
    + etrans; [exact M1|]. etrans; apply moved_upd; by split; [split_and!|..].
    + rewrite !procs_upd_ne by done. cbn [kern update_field m1]. by rewrite procs_upd_eq.
    + rewrite !procs_upd_ne by done. cbn [kern update_field m1]. by rewrite procs_upd_eq.
    + by split.
Qed.

(** The loop over the children ends. *)
Lemma exit_children_ends n c m :
  exiting c (kern m) -> length (p_child_list (procs (kern m) c)) = n ->
  exists m', exit_children n c m = Returns () m' /\ moved (kern m) (kern m') /\
    p_parent (procs (kern m') c) = p_parent (procs (kern m) c) /\ user_same m m'.
Proof.
  revert m. induction n as [|n IH]; intros m X Hn; cbn [exit_children]; rewrite (wbind _ _ _ _ _ (run_proc_of _ _));
    destruct (p_child_list (procs (kern m) c)) as [|x l] eqn:El; try discriminate Hn.
  { exists m. by split. }
  rewrite (wbind _ _ _ _ _ (run_upd_p _ _ _)). destruct (drop_child_ok c x l m X El) as (m1 & R & X1 & M1 & L1 & P1 & U1).
  rewrite (wbind _ _ _ _ _ R).
  destruct (IH m1 X1) as (m' & R' & M' & P' & U'); [rewrite L1; by injection Hn|].
  exists m'. split; [exact R'|]. split; [by etrans|]. split; [congruence|].
  destruct U1, U'. split; congruence.
Qed.

(** The rest of sys_exit: the process that was running does not run again. *)
Lemma account_state c k k1 x : Reschedule_account c k = Some k1 -> p_state (procs k1 x) = p_state (procs k x).
Proof.
  assert (U : forall f k0, (forall p, p_state (f p) = p_state p) -> p_state (procs (upd_proc c f k0) x) = p_state (procs k0 x)).
  { intros f k0 Hf. destruct (decide (x = c)) as [->|]; [by rewrite procs_upd_eq, Hf|by rewrite procs_upd_ne]. }
  assert (Q : forall q f k0 k2, upd_queue q f k0 = Some k2 -> procs k2 = procs k0).
  { by intros q f k0 k2 (l & _ & _ & ->)%upd_queue_Some. }
  unfold Reschedule_account. set (k0 := upd_proc c _ k). assert (E0 : p_state (procs k0 x) = p_state (procs k x)) by (by apply U).
  rewrite <- E0. clearbody k0. clear E0. intros H. open_option; rewrite ?U by done; try done.
  - by erewrite Q.
  - erewrite Q by done. rewrite U by done. by erewrite Q.
  - by erewrite Q.
Qed.

Lemma Reschedule_state k k' x :
  Reschedule k = Some k' -> current_process k' <> Some x -> p_state (procs k' x) = p_state (procs k x).
Proof.
  intros H. unfold Reschedule, get_current_process in H. set (o := match current_process k with Some c => _ | None => _ end) in H.
  assert (Ho : forall k1, o = Some k1 -> p_state (procs k1 x) = p_state (procs k x) /\ current_process k1 = current_process k).
  { subst o. intros k1 E. destruct (current_process k) as [c|] eqn:Ec; [|by injection E as <-]. split; [by eapply account_state|].
    rewrite <- Ec. unfold Reschedule_account in E. clear -E. open_option; try done.
    all: repeat match goal with E : upd_queue _ _ _ = Some _ |- _ => apply upd_queue_Some in E as (? & _ & _ & ->) end; done. }
  destruct o as [k1|]; [|discriminate H]. cbn [mbind option_bind] in H. destruct (Ho k1 eq_refl) as [<- Ec]. rewrite <- Ec in H.
  clear Ho Ec. assert (St : forall n, n <> x -> p_state (procs (pmap_switch n (set_state n PROC_STATE_RUNNING k1)) x) = p_state (procs k1 x)).
  { intros n Hn. change (p_state (procs (set_state n PROC_STATE_RUNNING k1) x) = p_state (procs k1 x)).
    unfold set_state. by rewrite procs_upd_ne by (by apply not_eq_sym). }
  case_bool_decide as Hn.
  - injection H as <-. rewrite Hn. destruct (current_process k1) as [n|] eqn:E; [|done]. intros Hx. apply St.
    intros ->. apply Hx. exact E.
  - destruct (current_process k1); [|discriminate H]. destruct (Reschedule_next k1) as [n|]; [|discriminate H].
    injection H as <-. intros Hx. change (p_state (procs (pmap_switch n (set_state n PROC_STATE_RUNNING k1)) x) = p_state (procs k1 x)).
    apply St. intros ->. by apply Hx.
Qed.

Lemma Reschedule_queues k k' c x q :
  Reschedule k = Some k' -> current_process k = Some c -> p_quanta_used (procs k c) = 0 ->
  x ∈ sched_queue k' q -> x ∈ sched_queue k q.
Proof.
  intros H Hc H0. unfold Reschedule, get_current_process in H. rewrite Hc in H.
  destruct (Reschedule_account c k) as [k1|] eqn:E; [|discriminate H]. cbn [mbind option_bind] in H.
  assert (Hq : sched_queue k' = sched_queue k1).
  { destruct (Reschedule_next k1); [|case_bool_decide as Hb; [discriminate Hb|discriminate H]]. case_bool_decide; by injection H as <-. }
  rewrite Hq. destruct (Reschedule_account_queues k c k1 E) as [Q _].
  { intros [[_ Hx] _]. rewrite H0 in Hx. discriminate Hx. }
  destruct (Q q) as [->|[_ ->]]; [done|]. by rewrite rotate_perm.
Qed.

Lemma tree_same_zombie c k k' :
  tree_same k k' -> tree_same (set_state c PROC_STATE_ZOMBIE k) (set_state c PROC_STATE_ZOMBIE k').
Proof.
  intros [R H]. split; [done|]. intros x. unfold set_state. destruct (decide (x = c)) as [->|].
  - rewrite !procs_upd_eq. split; [|done]. exact (proj1 (H c)).
  - rewrite !procs_upd_ne by done. apply H.
Qed.

(** What sys_exit does to the scheduler, for a process [c] whose parent is
    [P]: [c] is a zombie and on no list, the first process waiting at the rendez
    of [P] waits for the lock, or has it, and no other process is touched. *)
Record left_cpu (c P : Z) (k k' : kernel) : Prop := {
  lc_wf : wf k';
  lc_same : tree_same (set_state c PROC_STATE_ZOMBIE k) k';
  lc_state : p_state (procs k' c) = PROC_STATE_ZOMBIE;
  lc_rendez r : blocked_list k' r = if decide (r = RProcess P) then tail (blocked_list k r) else blocked_list k r;
  lc_woken w : list.head (blocked_list k (RProcess P)) = Some w -> bkl_owner k' = Owner w \/ w ∈ bkl_blocked_list k'
}.

Lemma exit_cpu k c P i :
  wf k -> current_process k = Some c -> idle_process k = Some i -> i <> c -> bkl_locked k = true ->
  exists k1 k2 k3 k4, Sched.TaskWakeup (RProcess P) k = Some k1 /\ release_bkl 0 k1 = Some k2 /\
    SchedUnready c (upd_proc c (fun pr => pr <| p_state := PROC_STATE_ZOMBIE |>) k2) = Some k3 /\
    Reschedule k3 = Some k4 /\ left_cpu c P k k4.
Proof.
  intros W Hc Hi Hne Hl. destruct (TaskWakeup_ok k (RProcess P) W Hl) as (k1 & E1 & W1 & L1 & O1 & C1 & I1 & B1 & R1).
  assert (Hq1 : c ∈ sched_queue k1 (p_priority (procs k1 c))) by (apply current_queued; congruence).
  destruct (release_bkl_ok 0 k1 c (wf_wf_lists _ W1) L1 Hq1)
    as (k2 & E2 & W2 & L2 & O2 & B2 & Hown & Hq2 & P2 & R2 & I2 & C2 & _ & _ & _ & Core2).
  set (kz := set_state c PROC_STATE_ZOMBIE k2). pose proof (zombie_wf k2 c W2 Hq2) as Wz. fold kz in Wz.
  destruct (queue_place k2 c _ W2 Hq2) as (_ & _ & Hok & _).
  assert (Ez : procs kz c = procs k2 c <| p_state := PROC_STATE_ZOMBIE |>) by apply procs_upd_eq.
  assert (E3 : SchedUnready c kz = Some (unreadied c kz)) by (apply SchedUnready_eq; rewrite Ez; done).
  assert (Hlock : wf_lock (unreadied c kz)).
  { pose proof (release_bkl_passed k1 k2 c 0 L2 O2 B2 Hown) as Hp. unfold lock_passed in Hp. unfold wf_lock.
    change (bkl_locked (unreadied c kz)) with (bkl_locked k2). destruct (bkl_locked k2); [|done].
    destruct Hp as (p & Hpc & Ho & Hp). exists p. split; [done|]. left. apply unreadied_queue_ne; [done|].
    unfold kz, set_state. rewrite procs_upd_ne by done. exact Hp. }
  assert (Hpar : params_ok (procs (unreadied c kz) c)).
  { unfold unreadied, upd_proc. cbn [procs update_field]. rewrite fn_lookup_insert, Ez.
    destruct Hok as (H1 & H2 & H3). split; [exact H1|]. split; [|exact H3].
    cbn [p_priority update_field rebuild_Process]. match goal with |- context [if ?b then _ else _] => destruct b end; [exact H3|exact H2]. }
  assert (H0 : p_quanta_used (procs (unreadied c kz) c) = 0) by (by rewrite procs_unreadied).
  assert (Hcz : current_process (unreadied c kz) = Some c) by (change (current_process k2 = Some c); congruence).
  destruct (give_up_cpu (unreadied c kz) c i Wz Hcz) as (k4 & E4 & W4 & F4); [change (idle_process k2 = Some i); congruence|done..|].
  exists k1, k2, (unreadied c kz), k4. split_and!; try done.
  assert (Hcur : current_process k4 <> Some c).
  { intros Ec. destruct (wf_wf_current _ W4) as (c' & Ec' & Hp). assert (c' = c) as -> by congruence.
    destruct Hp as [Hp|Hp]; [rewrite (fr_idle _ _ F4) in Hp; change (idle_process k2 = Some c) in Hp; congruence|].
    apply head_Some_elem_of in Hp. apply (Reschedule_queues _ _ c _ _ E4 Hcz H0) in Hp.
    destruct (queue_place _ _ _ Wz Hp) as (_ & _ & _ & Hst). rewrite procs_unreadied, Ez in Hst.
    destruct Hst as [|[|]]; discriminate. }
  split; [done|..].
  - etrans; [apply tree_same_zombie; etrans; [by eapply TaskWakeup_tree|by eapply release_bkl_tree]|].
    etrans; [by eapply SchedUnready_tree|by eapply Reschedule_tree].
  - rewrite (Reschedule_state _ _ c E4 Hcur), procs_unreadied, Ez. done.
  - intros r. rewrite (fr_blocked _ _ F4). change (blocked_list (unreadied c kz)) with (blocked_list k2).
    rewrite R2, R1. by case_decide; subst.
  - intros w Hw. rewrite (fr_owner _ _ F4), (fr_bkl _ _ F4).
    change (bkl_owner (unreadied c kz)) with (bkl_owner k2). change (bkl_blocked_list (unreadied c kz)) with (bkl_blocked_list k2).
    rewrite O2, B2, B1, Hw. destruct (bkl_blocked_list k) as [|y l]; [by left|]. right. cbn. apply elem_of_app. right. by left.
Qed.

(** The zombie [c] is reaped by its parent [P]. *)
Lemma reap_ok P c addr m :
  tree_ok (kern m) -> p_in_use (procs (kern m) c) = true -> p_parent (procs (kern m) c) = Some P ->
  p_pid (procs (kern m) c) = c -> addr <> 0 -> (forall a, addr <= a < addr + 4 -> uvalid (files m) a = true) ->
  exists m', reap P c addr m = Returns c m' /\ p_in_use (procs (kern m') c) = false /\
    c ∉ p_child_list (procs (kern m') P) /\
    forall j b, word_bytes (u32 (p_exit_status (procs (kern m) c))) !! j = Some b -> umem (files m') (addr + Z.of_nat j) = b.
Proof.
  intros T Hu Hp Hpid Ha Hv. destruct (tr_parent _ T c P Hu Hp) as [HPu Hin].
  destruct (tree_child_ne _ P c T HPu Hin) as [HcP _]. unfold reap, GetProcessPid.
  erewrite wbind by (rewrite (wbind _ _ _ _ _ (run_proc_of _ _)); reflexivity). rewrite (wbind _ _ _ _ _ (run_proc_of _ _)).
  rewrite bool_decide_true by done.
  destruct (copyout_bytes_ok (word_bytes (u32 (p_exit_status (procs (kern m) c)))) addr (files m)) as (u & E & Hw & _); [exact Hv|].
  rewrite (wbind _ _ _ _ _ (run_on_files _ _ _ _ E)), bool_decide_false by (intros H; by apply H).
  set (m1 := m <| files := _ |>). rewrite (wbind _ _ _ _ _ (run_proc_of _ _)). change (kern m1) with (kern m).
  unfold Seq.rem_entry. rewrite bool_decide_true by done. rewrite (wbind _ _ _ _ _ (run_given _ _)), (wbind _ _ _ _ _ (run_upd_p _ _ _)).
  rewrite (wbind _ _ _ _ _ (run_free_as _ _)). unfold FreeProcess. rewrite (wbind _ _ _ _ _ (run_upd_p _ _ _)).
  rewrite Hpid. eexists. split; [reflexivity|]. cbn [kern update_field put_vms]. change (kern m1) with (kern m). split_and!.
  - by rewrite procs_upd_eq.
  - rewrite procs_upd_ne by (by apply not_eq_sym). rewrite procs_upd_eq. cbn. rewrite elem_of_filter_ne. tauto.
  - intros j b Hj. cbn. by apply Hw.
Qed.

(** The state between the loop over the children and the wakeup of the parent. *)
Record all_dropped (c P status : Z) (m0 : machine) (m : machine) : Prop := {
  ad_wf : wf (kern m);
  ad_exiting : exiting c (kern m);
  ad_children : p_child_list (procs (kern m) c) = [];
  ad_parent : p_parent (procs (kern m) c) = Some P;
  ad_pid : p_pid (procs (kern m) c) = p_pid (procs (kern m0) c);
  ad_status : p_exit_status (procs (kern m) c) = status;
  ad_lists : lists_same (kern m0) (kern m);
  ad_locked : bkl_locked (kern m) = bkl_locked (kern m0)
}.

Lemma exit_drops m c P status r s1 v :
  wf (kern m) -> tree_ok (kern m) -> current_process (kern m) = Some c -> p_in_use (procs (kern m) c) = true ->
  p_state (procs (kern m) c) <> PROC_STATE_ZOMBIE -> p_parent (procs (kern m) c) = Some P ->
  fini_fproc c (files m) = Ret r s1 -> cleanup_address_space c (mkVms (fmem s1) (segs m)) = Some v ->
  exists m1, all_dropped c P status m m1 /\ uvalid (files m1) = uvalid s1 /\
    sys_exit status m = (on_kernel (Sched.TaskWakeup (RProcess P));; on_kernel (release_bkl 0);;
      upd_p c (fun pr => pr <| p_state := PROC_STATE_ZOMBIE |>);; on_kernel (SchedUnready c);; on_kernel Reschedule) m1.
Proof.
  intros W T Hc Hu Hz Hp Ef Ev. unfold sys_exit. rewrite (wbind _ _ _ _ _ (run_current m c Hc)).
  rewrite (wbind _ _ _ _ _ (run_proc_of _ _)), (wbind _ _ _ _ _ (run_upd_p _ _ _)).
  set (m0 := m <| kern := _ |>). rewrite (wbind _ _ _ _ _ (run_on_files (fini_fproc c) m0 r s1 Ef)).
  set (m2 := m0 <| files := s1 |>).
  assert (Ev' : (fun w => w ← cleanup_address_space c w; Some ((), w)) (vms_of m2) = Some ((), v)).
  { change (vms_of m2) with (mkVms (fmem s1) (segs m)). by rewrite Ev. }
  rewrite (wbind _ _ _ _ _ (run_on_vm _ _ _ _ Ev')). rewrite (wbind _ _ _ _ _ (run_get _ _)).
  set (m3 := put_vms v m2). set (k0 := upd_proc c (fun pr => pr <| p_exit_status := status |>) (kern m)).
  change (kern m3) with k0. assert (E0 : procs k0 c = procs (kern m) c <| p_exit_status := status |>) by apply procs_upd_eq.
  assert (W0 : wf k0).
  { apply (wf_same (kern m)); [apply upd_proc_lists|done|done| |done]. intros x. unfold k0.
    destruct (decide (x = c)) as [->|]; [by rewrite procs_upd_eq|by rewrite procs_upd_ne]. }
  assert (X0 : exiting c (kern m3)).
  { change (kern m3) with k0. split; [| |by rewrite E0|].
    - apply (tree_ok_links (kern m)); [done| |done]. intros p. unfold k0.
      destruct (decide (p = c)) as [->|]; [by rewrite procs_upd_eq|by rewrite procs_upd_ne].
    - by rewrite E0.
    - intros E. change (c = root_process (kern m)) in E. destruct (tr_root _ T) as (_ & E2 & _). congruence. }
  destruct (exit_children_ends _ c m3 X0 eq_refl) as (m4 & R4 & M4 & P4 & [_ U4]).
  destruct (exit_children_tree _ _ _ _ R4 X0) as (X4 & L4). change (kern m3) with k0 in R4, M4, P4. rewrite E0 in P4.
  rewrite (wbind _ _ _ _ _ R4). rewrite Hp, (wbind _ _ _ _ _ (run_given _ _)).
  exists m4. split; [|split; [by rewrite U4|reflexivity]]. destruct (mv_proc _ _ M4 c) as [_ _ Epid Est]. rewrite E0 in Epid, Est.
  split; try done.
  - apply (wf_same k0); [apply M4|apply M4|apply M4|intros x; apply (mv_proc _ _ M4)|done].
  - by rewrite P4.
  - etrans; [|exact (mv_lists _ _ M4)]. apply upd_proc_lists.
  - exact (mv_locked _ _ M4).
Qed.

(** A zombie child that is asked for by number is found. *)
Lemma wait_scan_zombie k c P :
  0 < c < max_process k -> p_in_use (procs k c) = true -> p_parent (procs k c) = Some P ->
  p_state (procs k c) = PROC_STATE_ZOMBIE -> wait_scan P c k = Found c.
Proof.
  intros Hr Hu Hp Hz. unfold wait_scan, GetProcess. rewrite bool_decide_true by lia. rewrite bool_decide_false by lia.
  rewrite Hu, Hp, Hz. by rewrite !bool_decide_true.
Qed.

(** What is true once [c] has exited: its parent [P] is awake, and finds it. *)
Record exited (c P status addr : Z) (m' : machine) : Prop := {
  xd_wf : wf (kern m');
  xd_tree : tree_ok (kern m');
  xd_zombie : p_state (procs (kern m') c) = PROC_STATE_ZOMBIE;
  xd_awake : P ∉ blocked_list (kern m') (RProcess P);
  xd_lock : bkl_owner (kern m') = Owner P \/ P ∈ bkl_blocked_list (kern m');
  xd_wait : exists m'', waitpid_loop P c addr 0 m' = Returns c m'' /\ tree_ok (kern m'') /\
    p_in_use (procs (kern m'') c) = false /\ c ∉ p_child_list (procs (kern m'') P) /\
    forall j b, word_bytes (u32 status) !! j = Some b -> umem (files m'') (addr + Z.of_nat j) = b
}.

(** C18. The exit of a process ends the wait of its parent.  When [c] exits
    while its parent [P] sleeps in sys_waitpid, [c] becomes a zombie that is
    never run again, and [P] has the kernel lock or waits for it; the loop of
    sys_waitpid, resumed there, returns the number of [c], with the exit status
    in the memory of the caller, the slot free and [c] off the list of children.
    The closing of the files of [c] and the cleanup of its address space must
    return. *)
Theorem exit_then_wait m c P i status addr r s1 v :
  wf (kern m) -> tree_ok (kern m) -> bkl_locked (kern m) = true -> current_process (kern m) = Some c ->
  idle_process (kern m) = Some i -> i <> c -> p_in_use (procs (kern m) c) = true -> p_parent (procs (kern m) c) = Some P ->
  p_pid (procs (kern m) c) = c -> 0 < c < max_process (kern m) -> blocked_list (kern m) (RProcess P) = [P] ->
  fini_fproc c (files m) = Ret r s1 -> cleanup_address_space c (mkVms (fmem s1) (segs m)) = Some v ->
  addr <> 0 -> (forall a, addr <= a < addr + 4 -> uvalid s1 a = true) ->
  exists m', sys_exit status m = Returns () m' /\ exited c P status addr m'.
Proof.
  intros W T Hl Hc Hi Hne Hu Hp Hpid Hr Hb Ef Ev Ha Hv.
  assert (Hq : c ∈ sched_queue (kern m) (p_priority (procs (kern m) c))) by (apply current_queued; congruence).
  assert (Hz : p_state (procs (kern m) c) <> PROC_STATE_ZOMBIE).
  { destruct (queue_place _ _ _ (wf_wf_lists _ W) Hq) as (_ & _ & _ & [E|[E|E]]); rewrite E; discriminate. }
  destruct (exit_drops m c P status r s1 v W T Hc Hu Hz Hp Ef Ev) as (m1 & [W1 X1 C1 P1 I1 S1 L1 B1] & U1 & E).
  destruct (exit_cpu (kern m1) c P i W1) as (k1 & k2 & k3 & k4 & E1 & E2 & E3 & E4 & [F1 F2 F3 F4 F5]).
  { by rewrite (ls_current _ _ L1). }
  { by rewrite (ls_idle _ _ L1). }
  { done. }
  { by rewrite B1. }
  assert (Rx : sys_exit status m = Returns () (m1 <| kern := k4 |>)).
  { rewrite E. rewrite (wbind _ _ _ _ _ (run_on_kernel _ m1 k1 E1)). set (m2 := m1 <| kern := k1 |>).
    rewrite (wbind _ _ _ _ _ (run_on_kernel (release_bkl 0) m2 k2 E2)).
    rewrite (wbind _ _ _ _ _ (run_upd_p _ _ _)). set (m3 := _ <| kern := upd_proc c _ _ |>).
    rewrite (wbind _ _ _ _ _ (run_on_kernel (SchedUnready c) m3 k3 E3)). set (m4 := m3 <| kern := k3 |>).
    exact (run_on_kernel Reschedule m4 k4 E4). }
  exists (m1 <| kern := k4 |>). split; [exact Rx|].
  assert (T4 : tree_ok k4) by exact (exit_tree m c status () _ T Hc Hu Hz Rx).
  destruct F2 as [[_ FM] FP]. destruct (FP c) as [FC _].
  unfold set_state in FC. rewrite procs_upd_eq in FC.
  assert (G1 : p_in_use (procs k4 c) = true) by (rewrite (f_equal p_in_use FC : p_in_use (procs k4 c) = _); apply X1).
  assert (G2 : p_parent (procs k4 c) = Some P) by (rewrite (f_equal p_parent FC : p_parent (procs k4 c) = _); exact P1).
  assert (G3 : p_pid (procs k4 c) = c) by (rewrite (f_equal p_pid FC : p_pid (procs k4 c) = _); change (p_pid (procs (kern m1) c) = c); congruence).
  assert (G4 : p_exit_status (procs k4 c) = status) by (rewrite (f_equal p_exit_status FC : p_exit_status (procs k4 c) = _); exact S1).
  assert (G5 : max_process k4 = max_process (kern m)) by (rewrite FM; exact (ls_max_process _ _ L1)).
  split; cbn [kern update_field]; try done.
  - rewrite F4, decide_True by done. rewrite (ls_blocked _ _ L1), Hb. apply not_elem_of_nil.
  - apply F5. by rewrite (ls_blocked _ _ L1), Hb.
  - unfold waitpid_loop. rewrite (wbind _ _ _ _ _ (run_get _ _)). cbn [kern update_field].
    rewrite (wait_scan_zombie k4 c P) by (done || lia).
    destruct (reap_ok P c addr (m1 <| kern := k4 |>)) as (m'' & R'' & H1 & H2 & H3); try done.
    { intros a Haa. cbn [files update_field]. rewrite U1. by apply Hv. }
    exists m''. split; [exact R''|]. split; [|split; [done|split; [done|]]].
    + destruct (tr_parent _ T4 c P G1 G2) as [HPu Hin]. exact (reap_tree (m1 <| kern := k4 |>) P c addr c m'' T4 HPu Hin F3 R'').
    + cbn [kern update_field] in H3. rewrite G4 in H3. exact H3.
Qed.

(** The root process 1 waits for its child 2, which runs. *)
Definition waiting : kernel :=
  mkKernel
    (<[2 := zero_process <| p_state := PROC_STATE_RUNNING |> <| p_in_use := true |> <| p_pid := 2 |> <| p_parent := Some 1 |>
              <| p_sched_policy := SCHED_RR |> <| p_priority := 20 |> <| p_desired_priority := 20 |>]>
     (<[1 := zero_process <| p_state := PROC_STATE_RENDEZ_BLOCKED |> <| p_in_use := true |> <| p_pid := 1 |>
              <| p_sched_policy := SCHED_RR |> <| p_priority := 20 |> <| p_desired_priority := 20 |> <| p_child_list := [2] |>]>
      (<[0 := zero_process <| p_in_use := true |> <| p_sched_policy := SCHED_IDLE |>]> (fun _ => zero_process))))
    (<[20 := [2]]> (fun _ => [])) (2 ^ 20) true (Owner 2) [] (<[RProcess 1 := [1]]> (fun _ => [])) (fun _ => []) 0 0
    (Some 2) (Some 0) 1 4 false None.

Lemma waiting_slot x : x = 0 \/ x = 1 \/ x = 2 \/ procs waiting x = zero_process.
Proof.
  destruct (decide (x = 0)); [tauto|]. destruct (decide (x = 1)); [tauto|]. destruct (decide (x = 2)); [tauto|].
  do 3 right. cbn. by rewrite !fn_lookup_insert_ne.
Qed.

Lemma waiting_queue q x : x ∈ sched_queue waiting q <-> q = 20 /\ x = 2.
Proof.
  cbn. destruct (decide (q = 20)) as [->|].
  - rewrite fn_lookup_insert, list_elem_of_singleton. tauto.
  - rewrite fn_lookup_insert_ne by done. rewrite elem_of_nil. tauto.
Qed.

Lemma waiting_rendez r x : x ∈ blocked_list waiting r <-> r = RProcess 1 /\ x = 1.
Proof.
  cbn. destruct (decide (r = RProcess 1)) as [->|].
  - rewrite fn_lookup_insert, list_elem_of_singleton. tauto.
  - rewrite fn_lookup_insert_ne by done. rewrite elem_of_nil. tauto.
Qed.

Lemma waiting_wf : wf waiting.
Proof.
  split; [split| |].
  - intros x. destruct (decide (x = 2)) as [->|H2]; [|destruct (decide (x = 1)) as [->|H1]].
    + exists (OnQueue 20). split; [|split; [done|split; [split; [by left|done]|by right; right]]].
      split_and!; [intros q; rewrite waiting_queue; split; [by intros [-> _]|by intros [= ->]]|by rewrite elem_of_nil|].
      intros r. rewrite waiting_rendez. split; [by intros [_ ?]|discriminate].
    + exists (OnRendez (RProcess 1)). split; [|split; [split; [by left|done]|done]].
      split_and!; [intros q; rewrite waiting_queue; split; [by intros [_ ?]|discriminate]|by rewrite elem_of_nil|].
      intros r. rewrite waiting_rendez. split; [by intros [-> _]|by intros [= ->]].
    + exists Nowhere. split.
      * split_and!; [intros q; rewrite waiting_queue; split; [tauto|discriminate]|by rewrite elem_of_nil|].
        intros r. rewrite waiting_rendez. split; [tauto|discriminate].
      * destruct (waiting_slot x) as [->|[->|[->|E]]]; [by split_and!|done|done|]. rewrite E. split_and!; try done. by intros [|].
  - split_and!; [|constructor|].
    + intros q. cbn. destruct (decide (q = 20)) as [->|]; [rewrite fn_lookup_insert; apply NoDup_singleton|].
      rewrite fn_lookup_insert_ne by done. constructor.
    + intros r. cbn. destruct (decide (r = RProcess 1)) as [->|]; [rewrite fn_lookup_insert; apply NoDup_singleton|].
      rewrite fn_lookup_insert_ne by done. constructor.
  - by intros ? [= <-].
  - exists 2. split; [done|]. left. by apply waiting_queue.
  - exists 2. split; [done|]. by right.
Qed.

Lemma waiting_tree : tree_ok waiting.
Proof.
  assert (Hc : forall p x, x ∈ p_child_list (procs waiting p) -> p = 1 /\ x = 2).
  { intros p x. destruct (waiting_slot p) as [->|[->|[->| ->]]]; intros H; try (by apply not_elem_of_nil in H).
    by apply list_elem_of_singleton in H. }
  assert (Hp : forall x p, p_parent (procs waiting x) = Some p -> p = 1 /\ x = 2).
  { intros x p. destruct (waiting_slot x) as [->|[->|[->| ->]]]; intros H; try discriminate H. by injection H as <-. }
  split.
  - by intros p x _ [-> ->]%Hc.
  - intros x p _ [-> ->]%Hp. split; [done|]. by left.
  - intros p _. destruct (waiting_slot p) as [->|[->|[->| ->]]]; [constructor|apply NoDup_singleton|constructor|constructor].
  - intros p _. destruct (waiting_slot p) as [->|[->|[->| ->]]]; done.
  - done.
  - exists (fun x => if bool_decide (x = 1) then 0%nat else 1%nat). split; [done|]. intros x p _ [-> ->]%Hp. repeat case_bool_decide; lia.
Qed.

Definition exit_machine : machine := mkMachine waiting fs0 (fun _ => seg0) (fun _ => replicate 17 0).

Lemma exit_then_wait_witness :
  exists m', sys_exit 7 exit_machine = Returns () m' /\ exited 2 1 7 0x1000 m'.
Proof.
  assert (match fini_fproc 2 (files exit_machine) with
          | Ret _ s1 => (forall a, uvalid s1 a = true) /\
              match cleanup_address_space 2 (mkVms (fmem s1) (segs exit_machine)) with Some _ => True | None => False end
          | _ => False end) as H by (vm_compute; split; [intros a; reflexivity|exact I]).
  destruct (fini_fproc 2 (files exit_machine)) as [r s1| |] eqn:Ef; [|destruct H..]. destruct H as [Hv H].
  destruct (cleanup_address_space 2 (mkVms (fmem s1) (segs exit_machine))) as [v|] eqn:Ev; [|destruct H].
  apply (exit_then_wait exit_machine 2 1 0 7 0x1000 r s1 v).
  - exact waiting_wf.
  - exact waiting_tree.
  - reflexivity.
  - reflexivity.
  - reflexivity.
  - discriminate.
  - reflexivity.
  - reflexivity.
  - reflexivity.
  - split; reflexivity.
  - reflexivity.
  - exact Ef.
  - exact Ev.
  - discriminate.
  - intros a _. apply Hv.
Defined.
