(* ===== verification/Blocking.v ===== *)
(** * Computations that sleep and go on

    A system call of the file system that sleeps halfway, for a vnode or for the
    reply of a server, goes on where it slept when it is woken.  [P] runs such a
    call to its end: it is given what the other processes do while it sleeps,
    one function for each time, and either ends, with what is left of that list,
    or is asleep when the list is used up.

    A computation of [M] that sleeps is written to be started again from its
    sleep, which is the [while] loop around TaskSleep in the code; [await] does
    so. *)

From S2P Require Import Prelude Bytes Lists Page Fs.

Definition others : Type := list (fs -> fs).

Inductive run (A : Type) : Type :=
| Done (a : A) (env : others) (s : fs)
| Asleep (r : rendez) (s : fs)
| Crash.
Arguments Done {A} a env s.
Arguments Asleep {A} r s.
Arguments Crash {A}.

Definition P (A : Type) : Type := others -> fs -> run A.
#[export] Instance P_ret : MRet P := fun A a env s => Done a env s.
#[export] Instance P_bind : MBind P := fun A B k p env s =>
  match p env s with Done a env s => k a env s | Asleep r s => Asleep r s | Crash => Crash end.

(** A computation that does not sleep. *)
Definition call {A} (m : M A) : P A := fun env s =>
  match m s with Ret a s => Done a env s | Sleep r s => Asleep r s | Fault => Crash end.

(** [again r] is the rest of a computation that slept on [r]. *)
Fixpoint resume {A} (again : rendez -> M A) (env : others) (r : rendez) (s : fs) : run A :=
  match env with
  | [] => Asleep r s
  | e :: env =>
      match again r (e s) with
      | Ret a s => Done a env s
      | Sleep r s => resume again env r s
      | Fault => Crash
      end
  end.

Definition await {A} (m : M A) (again : rendez -> M A) : P A := fun env s =>
  match m s with Ret a s => Done a env s | Sleep r s => resume again env r s | Fault => Crash end.

(** A loop that sleeps from its start. *)
Definition blocking {A} (m : M A) : P A := await m (fun _ => m).

(** ** Running *)

Section Run.
Context {A B : Type}.

Lemma prun_bind (p : P A) (k : A -> P B) env s a env' s' :
  p env s = Done a env' s' -> (p ≫= k) env s = k a env' s'.
Proof. intros E. unfold mbind, P_bind. by rewrite E. Qed.

Lemma prun_bind_crash (p : P A) (k : A -> P B) env s : p env s = Crash -> (p ≫= k) env s = Crash.
Proof. intros E. unfold mbind, P_bind. by rewrite E. Qed.

Lemma prun_bind_asleep (p : P A) (k : A -> P B) env s r s' : p env s = Asleep r s' -> (p ≫= k) env s = Asleep r s'.
Proof. intros E. unfold mbind, P_bind. by rewrite E. Qed.

Lemma prun_ret (a : A) env s : (mret a : P A) env s = Done a env s.
Proof. done. Qed.

Lemma run_call (m : M A) env s a s' : m s = Ret a s' -> call m env s = Done a env s'.
Proof. intros E. unfold call. by rewrite E. Qed.

Lemma run_call_fault (m : M A) env s : m s = Fault -> call m env s = Crash.
Proof. intros E. unfold call. by rewrite E. Qed.

Lemma run_await (m : M A) again env s a s' : m s = Ret a s' -> await m again env s = Done a env s'.
Proof. intros E. unfold await. by rewrite E. Qed.

Lemma run_blocking (m : M A) env s a s' : m s = Ret a s' -> blocking m env s = Done a env s'.
Proof. apply run_await. Qed.

(** Asleep once. *)
Lemma run_await_once (m : M A) again e env s r s1 a s' :
  m s = Sleep r s1 -> again r (e s1) = Ret a s' -> await m again (e :: env) s = Done a env s'.
Proof. intros E1 E2. unfold await. rewrite E1. cbn [resume]. by rewrite E2. Qed.

Lemma run_await_asleep (m : M A) again s r s1 : m s = Sleep r s1 -> await m again [] s = Asleep r s1.
Proof. intros E1. unfold await. by rewrite E1. Qed.

Lemma pbind_inv (p : P A) (k : A -> P B) env s b env' s' :
  (p ≫= k) env s = Done b env' s' -> exists a env1 s1, p env s = Done a env1 s1 /\ k a env1 s1 = Done b env' s'.
Proof. unfold mbind, P_bind. destruct (p env s) as [a env1 s1| |] eqn:E; [eauto|discriminate|discriminate]. Qed.
End Run.

(** ** What a computation leaves alone

    [R] holds of what the computation does, and of what the others do. *)
Definition pwithin {A} (R : fs -> fs -> Prop) (p : P A) : Prop :=
  forall env s, Forall (fun e => forall s, R s (e s)) env ->
  match p env s with
  | Done _ env' s' => R s s' /\ Forall (fun e => forall s, R s (e s)) env'
  | Asleep _ s' => R s s'
  | Crash => True
  end.

Section PWithin.
Context (R : fs -> fs -> Prop) `{!PreOrder R}.

Lemma pwithin_ret {A} (a : A) : pwithin R (mret a : P A).
Proof using All. intros env s He. split; [reflexivity|done]. Qed.

Lemma pwithin_bind {A B} (p : P A) (k : A -> P B) : pwithin R p -> (forall a, pwithin R (k a)) -> pwithin R (p ≫= k).
Proof using All.
  intros Hp Hk env s He. specialize (Hp env s He). unfold mbind, P_bind. destruct (p env s) as [a env1 s1| |]; [|done..].
  destruct Hp as [H1 He1]. specialize (Hk a env1 s1 He1). destruct (k a env1 s1) as [b env2 s2| |]; [|by transitivity s1|done].
  destruct Hk. split; [by transitivity s1|done].
Qed.

Lemma pwithin_call {A} (m : M A) : within R m -> pwithin R (call m).
Proof using Type. intros Hm env s He. specialize (Hm s). unfold call. by destruct (m s). Qed.

Lemma pwithin_await {A} (m : M A) again : within R m -> (forall r, within R (again r)) -> pwithin R (await m again).
Proof using All.
  intros Hm Ha env s He. specialize (Hm s). unfold await. destruct (m s) as [a s1|r s1|]; [done| |done].
  clear m. revert r s1 Hm. induction He as [|e env He0 He IH]; intros r s1 Hm; cbn [resume]; [done|].
  specialize (Ha r (e s1)) as Hr. pose proof (He0 s1) as H1. destruct (again r (e s1)) as [a s2|r' s2|]; [split; [|done]|apply IH|done].
  all: transitivity s1; [done|]; by transitivity (e s1).
Qed.

Lemma pwithin_if {A} (b : bool) (p q : P A) : pwithin R p -> pwithin R q -> pwithin R (if b then p else q).
Proof using Type. by destruct b. Qed.
End PWithin.

#[export] Hint Resolve pwithin_ret pwithin_bind pwithin_call pwithin_await pwithin_if : within.
