(* ===== verification/Vfs.v ===== *)
(** * Requests to the file system servers

    The model of kernel/fs/vfs.c: each operation on a file is a message to the
    server of its superblock, a request followed by the bytes it needs, and the
    thread sleeps until the server has replied.

    The layout of the messages (sys/fsreq.h) is that of the C library as it is
    patched and compiled: [protocol] gives the sizes and encodings of the request and
    the reply.  The addresses of the local variables of a call are [req], [reply]
    and, in ksendmsg, [msg]. *)

From S2P Require Import Prelude Bytes Lists Page Fs Filp Vnode Kqueue Msg Str Blocking.

Definition CLUSTER_SZ := 4096.

(** ** Messages *)

(** The commands, with the arguments that are set. *)
Inductive fsreq : Type :=
| CMD_LOOKUP (dir_inode_nr name_sz : Z)
| CMD_CREATE (dir_inode_nr name_sz oflags mode uid gid : Z)
| CMD_READ (inode_nr offset sz : Z)
| CMD_WRITE (inode_nr offset sz : Z)
| CMD_READDIR (inode_nr offset sz : Z)
| CMD_MKNOD (dir_inode_nr name_sz uid gid mode : Z)
| CMD_MKDIR (dir_inode_nr name_sz uid gid mode : Z)
| CMD_RMDIR (dir_inode_nr name_sz : Z)
| CMD_TRUNCATE (inode_nr size : Z)
| CMD_CHMOD (inode_nr mode : Z)
| CMD_CHOWN (inode_nr uid gid : Z)
| CMD_UNLINK (dir_inode_nr name_sz : Z)
| CMD_ISATTY (inode_nr : Z).

(** The attributes of a file in a reply. *)
Record attributes := mkAttributes { a_inode_nr : Z; a_size : Z; a_uid : Z; a_gid : Z; a_mode : Z }.

(** [struct fsreq] and [struct fsreply] *)
Record protocol := mkProtocol {
  fsreq_sz : Z;                                  (* sizeof (struct fsreq) *)
  fsreply_sz : Z;
  fsreq_bytes : fsreq -> list Z;
  reply_lookup : list Z -> attributes;           (* args.lookup of a reply *)
  reply_create : list Z -> attributes;
  reply_mknod : list Z -> attributes;
  reply_mkdir_inode_nr : list Z -> Z;
  reply_readdir_offset : list Z -> Z
}.

(** The fields of a [struct stat] that are used. *)
Record stat := mkStat { st_mode : Z; st_uid : Z; st_gid : Z }.

(** An assignment to a variable in memory. *)
Definition kstore (a : Z) (bs : list Z) : M unit :=
  modify (fun s => s <| fmem := fmem s <| kmem := put_bytes a bs (kmem (fmem s)) |> |>).
Definition kload (a sz : Z) : M (list Z) := gets (fun s => mem_bytes (kmem (fmem s)) a sz).

Section Vfs.
Context (L : protocol) (path_max : nat) (proc req reply msg : Z).

(** [req] is filled in and sent with the parts [si], [ri] are for the reply. *)
Definition request (sb : Z) (r : fsreq) (si ri : list IOV) : P Z :=
  call (kstore req (fsreq_bytes L r));;
  call (deref superblocks sb);;
  call (ksendmsg_put proc (SbPort sb) msg (mkIOV req (fsreq_sz L) :: si) ri);;
  blocking (ksendmsg_wait proc msg).

(** [struct fsreply reply = {0}] *)
Definition clear_reply : P unit := call (kstore reply (replicate (Z.to_nat (fsreply_sz L)) 0)).
Definition reply_iov : IOV := mkIOV reply (fsreply_sz L).
Definition get_reply {A} (f : list Z -> A) : P A := call (b ← kload reply (fsreply_sz L); mret (f b)).

(** [StrLen(name) + 1], for names of less than [path_max] bytes. *)
Definition name_size (name : Z) : P Z :=
  call (o ← gets (fun s => StrLen path_max (kmem (fmem s)) name); len ← lift o; mret (len + 1)).

(** The assignments to a vnode that [vnode_new] returned. *)
Definition set_attributes (vnode : Z) (a : attributes) : P unit :=
  call (upd_vnode vnode (fun v => v
    <| v_nlink := 1 |> <| v_reference_cnt := 1 |> <| v_size := a_size a |> <| v_uid := a_uid a |>
    <| v_gid := a_gid a |> <| v_mode := a_mode a |> <| v_flags := V_VALID |>)).

Definition get_vnode (sb inode : Z) : P Z :=
  await (vnode_get sb inode) (fun r => match r with RVNode v => vnode_get_resume v | _ => fault end).

(** ** Operations

    The second result is what is stored in [*result], if anything. *)

Definition vfs_lookup (dvnode name : Z) : P (Z * option Z) :=
  clear_reply;;
  d ← call (deref vnodes dvnode);
  let sb := v_superblock d in
  name_sz ← name_size name;
  sc ← request sb (CMD_LOOKUP (inode_nr d) name_sz) [mkIOV name name_sz] [reply_iov];
  if bool_decide (sc <> 0) then mret (sc, Some 0)
  else
    a ← get_reply (reply_lookup L);
    d ← call (deref vnodes dvnode);
    vnode ←
      (if bool_decide (a_inode_nr a = inode_nr d) then call (vnode_inc_ref dvnode);; mret dvnode
       else get_vnode (v_superblock d) (a_inode_nr a));
    if bool_decide (vnode = 0) then
      a ← get_reply (reply_lookup L);
      vnode ← call (vnode_new sb (a_inode_nr a));
      if bool_decide (vnode = 0) then mret (- ENOMEM, None)
      else set_attributes vnode a;; mret (0, Some vnode)
    else mret (0, Some vnode).

Definition vfs_create (dvnode name oflags : Z) (st : stat) : P (Z * option Z) :=
  clear_reply;;
  d ← call (deref vnodes dvnode);
  let sb := v_superblock d in
  name_sz ← name_size name;
  sc ← request sb (CMD_CREATE (inode_nr d) name_sz oflags (st_mode st) (st_uid st) (st_gid st))
         [mkIOV name name_sz] [reply_iov];
  if bool_decide (sc <> 0) then mret (sc, Some 0)
  else
    a ← get_reply (reply_create L);
    vnode ← call (vnode_new sb (a_inode_nr a));
    if bool_decide (vnode = 0) then mret (- ENOMEM, None)
    else set_attributes vnode a;; mret (0, Some vnode).

(** [offset] is the value pointed to, [None] for NULL; it is returned. *)
Definition vfs_read (vnode dst nbytes : Z) (offset : option Z) : P (Z * option Z) :=
  v ← call (deref vnodes vnode);
  nbytes_read ← request (v_superblock v) (CMD_READ (inode_nr v) (default 0 offset) nbytes) [] [mkIOV dst nbytes];
  if bool_decide (nbytes_read < 0) then mret (nbytes_read, offset)
  else mret (nbytes_read, (fun o => o + nbytes_read) <$> offset).

Definition vfs_write (vnode src nbytes : Z) (offset : option Z) : P (Z * option Z) :=
  v ← call (deref vnodes vnode);
  nbytes_written ← request (v_superblock v) (CMD_WRITE (inode_nr v) (default 0 offset) nbytes) [mkIOV src nbytes] [];
  if bool_decide (nbytes_written < 0) then mret (nbytes_written, offset)
  else mret (nbytes_written, (fun o => o + nbytes_written) <$> offset).

(** [nbytes] is a [size_t]. *)
Definition cluster_bytes (v : VNode) (b : Buf) : Z :=
  if bool_decide (v_size v - b_cluster_offset b < CLUSTER_SZ) then u32 (v_size v - b_cluster_offset b) else CLUSTER_SZ.

Definition vfs_write_async (sb buf : Z) : M Z :=
  b ← deref bufs buf;
  v ← deref vnodes (b_vnode b);
  let nbytes := cluster_bytes v b in
  kstore (b_req b) (fsreq_bytes L (CMD_WRITE (inode_nr v) (b_cluster_offset b) nbytes));;
  upd_msg buf (fun m => m
    <| reply_port := None |> <| siov_cnt := 2 |>
    <| siov := [mkIOV (b_req b) (fsreq_sz L); mkIOV (b_data b) nbytes] |>
    <| riov_cnt := 0 |> <| riov := [] |> <| reply_status := 0 |>);;
  deref superblocks sb;;
  kputmsg (SbPort sb) buf.

Definition vfs_readdir (vnode dst nbytes cookie : Z) : P (Z * Z) :=
  clear_reply;;
  v ← call (deref vnodes vnode);
  nbytes_read ← request (v_superblock v) (CMD_READDIR (inode_nr v) cookie nbytes) [] [reply_iov; mkIOV dst nbytes];
  if bool_decide (nbytes_read < 0) then mret (nbytes_read, cookie)
  else cookie ← get_reply (reply_readdir_offset L); mret (nbytes_read, cookie).

Definition vfs_mknod (dir name : Z) (st : stat) : P (Z * option Z) :=
  clear_reply;;
  d ← call (deref vnodes dir);
  let sb := v_superblock d in
  name_sz ← name_size name;
  sc ← request sb (CMD_MKNOD (inode_nr d) name_sz (st_uid st) (st_gid st) (st_mode st)) [mkIOV name name_sz] [reply_iov];
  if bool_decide (sc < 0) then mret (sc, None)
  else
    a ← get_reply (reply_mknod L);
    vnode ← call (vnode_new sb (a_inode_nr a));
    if bool_decide (vnode = 0) then mret (- ENOMEM, None)
    else set_attributes vnode a;; mret (sc, Some vnode).

(** The attributes are read from [args.mknod] of the reply. *)
Definition vfs_mkdir (dir name : Z) (st : stat) : P (Z * option Z) :=
  clear_reply;;
  d ← call (deref vnodes dir);
  let sb := v_superblock d in
  name_sz ← name_size name;
  sc ← request sb (CMD_MKDIR (inode_nr d) name_sz (st_uid st) (st_gid st) (st_mode st)) [mkIOV name name_sz] [reply_iov];
  if bool_decide (sc < 0) then mret (sc, None)
  else
    inode ← get_reply (reply_mkdir_inode_nr L);
    vnode ← call (vnode_new sb inode);
    if bool_decide (vnode = 0) then mret (- ENOMEM, None)
    else a ← get_reply (reply_mknod L); set_attributes vnode a;; mret (sc, Some vnode).

(** [siov] has two elements and [siov[2]] is assigned; [garbage] is what the
    uninitialised array holds. *)
Definition vfs_rmdir (garbage : IOV) (dvnode name : Z) : P Z :=
  clear_reply;;
  d ← call (deref vnodes dvnode);
  name_sz ← name_size name;
  siov ← call (arr_set 2 (mkIOV name name_sz) [mkIOV req (fsreq_sz L); garbage]);
  request (v_superblock d) (CMD_RMDIR (inode_nr d) name_sz) (tail siov) [reply_iov].

Definition vfs_truncate (vnode size : Z) : P Z :=
  clear_reply;;
  v ← call (deref vnodes vnode);
  request (v_superblock v) (CMD_TRUNCATE (inode_nr v) size) [] [reply_iov].

Definition vfs_rename (src_dvnode src_name dst_dvnode dst_name : Z) : P Z := mret (- ENOTSUP).

Definition vfs_chmod (vnode mode : Z) : P Z :=
  clear_reply;;
  v ← call (deref vnodes vnode);
  request (v_superblock v) (CMD_CHMOD (inode_nr v) mode) [] [reply_iov].

Definition vfs_chown (vnode uid gid : Z) : P Z :=
  clear_reply;;
  v ← call (deref vnodes vnode);
  request (v_superblock v) (CMD_CHOWN (inode_nr v) uid gid) [] [reply_iov].

Definition vfs_unlink (garbage : IOV) (dvnode name : Z) : P Z :=
  clear_reply;;
  d ← call (deref vnodes dvnode);
  name_sz ← name_size name;
  siov ← call (arr_set 2 (mkIOV name name_sz) [mkIOV req (fsreq_sz L); garbage]);
  request (v_superblock d) (CMD_UNLINK (inode_nr d) name_sz) (tail siov) [reply_iov].

Definition vfs_mklink (dvnode name link : Z) (st : stat) : P Z := mret (- ENOTSUP).
Definition vfs_rdlink (vnode buf sz : Z) : P Z := mret (- ENOTSUP).
Definition vfs_fsync (vnode : Z) : P Z := mret (- ENOTSUP).

Definition vfs_isatty (vnode : Z) : P Z :=
  v ← call (deref vnodes vnode);
  request (v_superblock v) (CMD_ISATTY (inode_nr v)) [] [].

End Vfs.

(** ** Scattering a reply over the parts of a message *)

(** The bytes [bs] one part after the other. *)
Fixpoint scatter (l : list IOV) (bs : list Z) (m : Z -> Z) : Z -> Z :=
  match l with
  | [] => m
  | v :: l => scatter l (drop (Z.to_nat (iov_size v)) bs) (put_bytes (iov_addr v) (take (Z.to_nat (iov_size v)) bs) m)
  end.

Lemma scatter_ext l bs m m' x : (forall y, m y = m' y) -> scatter l bs m x = scatter l bs m' x.
Proof.
  revert bs m m'. induction l as [|v l IH]; intros bs m m' H; cbn [scatter]; [done|].
  apply IH. intros y. by apply put_bytes_ext.
Qed.

Lemma scatter_nil l m x : scatter l [] m x = m x.
Proof.
  revert m. induction l as [|v l IH]; intros m; cbn [scatter]; [done|]. rewrite drop_nil, take_nil, IH. apply put_bytes_nil.
Qed.

Lemma scatter_out l bs m x :
  (forall v, v ∈ l -> 0 <= iov_size v -> ~ (iov_addr v <= x < iov_addr v + iov_size v)) -> scatter l bs m x = m x.
Proof.
  revert bs m. induction l as [|v l IH]; intros bs m H; cbn [scatter]; [done|].
  rewrite IH by (intros w Hw; apply H; by apply list_elem_of_further). apply put_bytes_out.
  rewrite length_take. intros Hx. apply (H v (list_elem_of_here _ _)); lia.
Qed.

Lemma mem_bytes_take m a sz k : 0 <= k -> take (Z.to_nat k) (mem_bytes m a sz) = mem_bytes m a (Z.min k sz).
Proof.
  intros Hk. destruct (decide (k < sz)) as [H|H].
  - rewrite Z.min_l by lia. apply list_eq. intros i. destruct (decide (Z.of_nat i < k)) as [Hi|Hi].
    + rewrite lookup_take_lt by lia. rewrite <- (Nat2Z.id i), !mem_bytes_lookup by lia. done.
    + rewrite lookup_take_ge by lia. symmetry. apply lookup_ge_None_2. apply Nat2Z.inj_le. rewrite mem_bytes_length by lia. lia.
  - rewrite Z.min_r by lia. apply take_ge. destruct (decide (0 <= sz)).
    + apply Nat2Z.inj_le. rewrite mem_bytes_length; lia.
    + unfold mem_bytes. rewrite length_map, length_seqZ. lia.
Qed.

(** [sys_replymsg] copies its buffer from the process to the parts. *)
Lemma write_parts_ok l addr buf_sz n s :
  (forall v, v ∈ l -> 0 <= iov_size v) -> 0 <= n <= buf_sz ->
  (forall a, addr <= a < addr + buf_sz -> uvalid s a = true) ->
  exists m k, write_parts l (next_size l) addr buf_sz n s = Ret k (s <| fmem := fmem s <| kmem := m |> |>) /\
    forall x, m x = scatter l (mem_bytes (umem s) (addr + n) (buf_sz - n)) (kmem (fmem s)) x.
Proof.
  revert n s. induction l as [|v l IH]; intros n s Hsz Hn Hv; cbn [write_parts scatter].
  { exists (kmem (fmem s)), n. split; [by destruct s as [[]]|done]. }
  assert (Hs0 : 0 <= iov_size v) by (apply Hsz, list_elem_of_here). cbn [next_size].
  destruct (decide (n < buf_sz)) as [Hlt|Hge].
  2: { rewrite bool_decide_false by done. exists (kmem (fmem s)), n. split; [by destruct s as [[]]|]. intros x.
       replace (buf_sz - n) with 0 by lia. change (mem_bytes _ _ 0) with (@nil Z). rewrite drop_nil, take_nil, scatter_nil, put_bytes_nil. done. }
  rewrite bool_decide_true by done. cbv zeta.
  set (k := if bool_decide (iov_size v < buf_sz - n) then iov_size v else buf_sz - n).
  assert (Hk : k = Z.min (iov_size v) (buf_sz - n)) by (subst k; case_bool_decide; lia). clearbody k.
  destruct (copyin_ok (Z.to_nat k) (iov_addr v + iov_size v - iov_size v) (addr + n) s) as (m1 & E1 & H1).
  { intros a Ha. apply Hv. lia. }
  unfold CopyIn. rewrite (run_bind _ _ _ _ _ E1). rewrite bool_decide_false by (intros H; by apply H).
  destruct (IH (n + k) (s <| fmem := fmem s <| kmem := m1 |> |>)) as (m & k' & E & Hm).
  { intros w Hw. apply Hsz. by apply list_elem_of_further. }
  { lia. }
  { exact Hv. }
  exists m, k'. split; [exact E|]. intros x. rewrite Hm. change (umem (s <| fmem := _ |>)) with (umem s).
  change (kmem (fmem (s <| fmem := fmem s <| kmem := m1 |> |>))) with m1.
  rewrite mem_bytes_take by done. destruct (decide (iov_size v <= buf_sz - n)) as [Hle|Hgt].
  - rewrite mem_bytes_drop by lia. rewrite Z.min_l in Hk by lia. subst k.
    rewrite Z.add_assoc, Z.sub_add_distr. apply scatter_ext. intros y. rewrite Z.min_l by lia.
    rewrite put_bytes_mem, H1 by done. replace (iov_addr v + iov_size v - iov_size v) with (iov_addr v) by lia.
    by rewrite Z2Nat.id by lia.
  - rewrite Z.min_r in Hk by lia. subst k. replace (buf_sz - (n + (buf_sz - n))) with 0 by lia.
    change (mem_bytes _ _ 0) with (@nil Z). rewrite scatter_nil.
    rewrite drop_ge by (apply Nat2Z.inj_le; rewrite mem_bytes_length; lia). rewrite scatter_nil, Z.min_r by lia.
    rewrite put_bytes_mem, H1 by lia. replace (iov_addr v + iov_size v - iov_size v) with (iov_addr v) by lia.
    by rewrite Z2Nat.id by lia.
Qed.

Lemma CopyIn_ok dst src sz s :
  0 <= sz -> (forall a, src <= a < src + sz -> uvalid s a = true) ->
  exists m, CopyIn dst src sz s = Ret 0 (s <| fmem := fmem s <| kmem := m |> |>) /\
    mem_bytes m dst sz = mem_bytes (umem s) src sz /\
    forall a, m a = if bool_decide (dst <= a < dst + sz) then umem s (src + (a - dst)) else kmem (fmem s) a.
Proof.
  intros Hsz Hv. destruct (copyin_ok (Z.to_nat sz) dst src s) as (m & E & Hm); [intros a Ha; apply Hv; lia|].
  rewrite Z2Nat.id in Hm by done. exists m. split; [exact E|]. split; [|done].
  rewrite <- (mem_bytes_length (umem s) src sz Hsz) at 1. apply mem_bytes_eq. rewrite (mem_bytes_length (umem s) src sz Hsz).
  intros i Hi. rewrite mem_bytes_lookup, Hm, bool_decide_true by lia. do 2 f_equal. lia.
Qed.

Lemma cstr_bytes m a l : cstr m a l -> mem_bytes m a (Z.of_nat (length l) + 1) = l ++ [0].
Proof.
  intros Hc. replace (Z.of_nat (length l) + 1) with (Z.of_nat (length (l ++ [0]))) by (rewrite length_app; cbn; lia).
  apply mem_bytes_eq. intros i Hi. rewrite length_app in Hi. cbn [length] in Hi.
  destruct (decide (i < Z.of_nat (length l))) as [H|H].
  - destruct (lookup_lt_is_Some_2 l (Z.to_nat i)) as [c Hl]; [lia|]. rewrite lookup_app_l by lia. rewrite Hl. f_equal.
    destruct (cstr_lookup m a l _ c Hc Hl) as [E _]. rewrite <- E. f_equal. lia.
  - replace i with (Z.of_nat (length l)) by lia. rewrite Nat2Z.id, lookup_app_r, Nat.sub_diag by lia. cbn. f_equal.
    symmetry. by apply cstr_end.
Qed.

(** ** A server

    A process that takes a message, computes its answer from the bytes of the
    request, and replies with a status and the bytes of the answer. *)

Definition serve (bdflush_brelse : Z -> M unit) (server fd umsgid addr buf_sz raddr : Z)
    (answer : list Z -> Z * list Z) : M Z :=
  n ← sys_getmsg server fd umsgid addr buf_sz;
  id ← gets (fun s => word_at (umem s) umsgid);
  bytes ← gets (fun s => mem_bytes (umem s) addr n);
  modify (fun s => s <| umem := put_bytes raddr (snd (answer bytes)) (umem s) |>);;
  sys_replymsg bdflush_brelse server fd id (fst (answer bytes)) raddr (Z.of_nat (length (snd (answer bytes)))).

(** Another process, with its own memory, runs a system call to its end. *)
Definition as_process {A} (um : Z -> Z) (uv : Z -> bool) (m : M A) (s : fs) : fs :=
  match m (s <| umem := um |> <| uvalid := uv |>) with
  | Ret _ s' | Sleep _ s' => s' <| umem := umem s |> <| uvalid := uvalid s |>
  | Fault => s
  end.

(** The server has the descriptor [fd] of the superblock. *)
Record serving (server fd sb : Z) (s : fs) : Prop := {
  sv_fproc : fproc s server <> 0;
  sv_fd : 0 <= fd < OPEN_MAX;
  sv_filp : fd_filp s server fd <> 0;
  sv_type : f_type (filps s (fd_filp s server fd)) = FILP_TYPE_SUPERBLOCK;
  sv_sb : f_u (filps s (fd_filp s server fd)) = sb
}.

Lemma serving_get server fd sb s : serving server fd sb s -> get_superblock server fd s = Ret sb s.
Proof. intros []. by apply run_get_superblock. Qed.

Lemma serving_ext server fd sb s s' :
  serving server fd sb s -> fproc s' = fproc s -> filps s' = filps s ->
  kmem (fmem s') (fproc s server + 4 * (fd_table + fd)) = kmem (fmem s) (fproc s server + 4 * (fd_table + fd)) ->
  serving server fd sb s'.
Proof.
  intros [] E1 E2 E3. assert (E : fd_filp s' server fd = fd_filp s server fd) by (unfold fd_filp, fw; by rewrite E1, E3).
  split; rewrite ?E, ?E1, ?E2; done.
Qed.

Lemma notes_ok_ext p s s' :
  notes_ok p s -> knotes s' = knotes s -> kqueues s' = kqueues s ->
  mp_knote_list (msgports s' p) = mp_knote_list (msgports s p) -> notes_ok p s'.
Proof.
  intros (H & H1 & H2) E1 E2 E3. split; [apply (pending_inv_ext s); [done..|by rewrite E2]|]. by rewrite E3, E1.
Qed.

(** No message waits and a number is free. *)
Record ready (proc server fd sb : Z) (s : fs) : Prop := {
  rd_serving : serving server fd sb s;
  rd_queue : pending_msg_list (msgports s (SbPort sb)) = [];
  rd_reply : pending_msg_list (msgports s (ReplyPort proc)) = [];
  rd_notes : notes_ok (SbPort sb) s;
  rd_backlog : backlog_sz (sb_msgbacklog (superblocks s sb)) <= MAX_MSG_BACKLOG;
  rd_length : length (bl_msg (sb_msgbacklog (superblocks s sb))) = Z.to_nat MAX_MSG_BACKLOG;
  rd_free : exists t, 0 <= t < backlog_sz (sb_msgbacklog (superblocks s sb)) /\
    Z.testbit (free_bitmap (sb_msgbacklog (superblocks s sb))) t = true
}.

Lemma set_pending_notes p l s q : mp_knote_list (msgports (set_pending p l s) q) = mp_knote_list (msgports s q).
Proof. unfold set_pending. cbn. destruct (decide (q = p)) as [->|]; [by rewrite fn_lookup_insert|by rewrite fn_lookup_insert_ne]. Qed.

Lemma ready_ext proc server fd sb s s' :
  ready proc server fd sb s -> fproc s' = fproc s -> filps s' = filps s -> fmem s' = fmem s ->
  msgports s' = msgports s -> knotes s' = knotes s -> kqueues s' = kqueues s ->
  sb_msgbacklog (superblocks s' sb) = sb_msgbacklog (superblocks s sb) -> ready proc server fd sb s'.
Proof.
  intros [] E1 E2 E3 E4 E5 E6 E7. split; rewrite ?E4, ?E7; try done.
  - by apply (serving_ext _ _ _ s); [..|rewrite E3].
  - apply (notes_ok_ext _ s); rewrite ?E4; done.
Qed.

(** The superblocks are as before but for the table of messages. *)
Definition same_superblocks (s s' : fs) : Prop :=
  forall b, superblocks s' b = superblocks s b <| sb_msgbacklog := sb_msgbacklog (superblocks s b)
      <| bl_msg := bl_msg (sb_msgbacklog (superblocks s' b)) |> |> /\
    length (bl_msg (sb_msgbacklog (superblocks s' b))) = length (bl_msg (sb_msgbacklog (superblocks s b))).

(** A number is taken and given back. *)
Lemma backlog_restored sb id msg l s s' :
  0 <= id -> Z.testbit (free_bitmap (sb_msgbacklog (superblocks s sb))) id = true ->
  superblocks s' = superblocks (set_backlog sb (fun bl => bl
    <| free_bitmap := Z.lor (free_bitmap bl) (Z.shiftl 1 id) |> <| bl_msg := <[Z.to_nat id := 0]> (bl_msg bl) |>)
    (msg_taken sb id msg l s)) ->
  same_superblocks s s'.
Proof.
  intros Hid Hb E b. rewrite E. unfold msg_taken, set_backlog, set_pending. cbn. destruct (decide (b = sb)) as [->|Hne].
  - rewrite !fn_lookup_insert. cbn. rewrite restore_bit by done. split; [done|]. by rewrite !length_insert.
  - rewrite !fn_lookup_insert_ne by done. split; [|done]. by destruct (superblocks s b) as [? ? [] ? ? ? ? ?].
Qed.

Section Call.
Context (L : protocol) (proc req reply msg : Z).
Context (bdflush_brelse : Z -> M unit) (server fd sb umsgid addr buf_sz raddr : Z) (answer : list Z -> Z * list Z).
Context (um : Z -> Z) (uv : Z -> bool).
Notation server_runs := (as_process um uv (serve bdflush_brelse server fd umsgid addr buf_sz raddr answer)).

Context (Hmsg : msg <> 0) (Hsb : sb <> 0).
Context (Hlen : forall r, Z.of_nat (length (fsreq_bytes L r)) = fsreq_sz L).
Context (Hv1 : forall a, umsgid <= a < umsgid + 4 -> uv a = true).
Context (Hv2 : forall a, addr <= a < addr + buf_sz -> uv a = true).
Context (Hapart : umsgid + 4 <= addr \/ addr + buf_sz <= umsgid).

(** The message as it is sent. *)
Definition sent_msg (si ri : list IOV) (s : fs) : Msg :=
  msgs s msg <| reply_port := Some (ReplyPort proc) |> <| siov_cnt := Z.of_nat (length si) |> <| siov := si |>
    <| riov_cnt := Z.of_nat (length ri) |> <| riov := ri |> <| reply_status := 0 |> <| msg_port := Some (SbPort sb) |>.

(** The request is sent and the thread sleeps. *)
Lemma run_ksendmsg_put si ri s :
  pending_msg_list (msgports s (SbPort sb)) = [] -> notes_ok (SbPort sb) s ->
  exists s1, ksendmsg_put proc (SbPort sb) msg si ri s = Ret () s1 /\
    s1 = set_pending (SbPort sb) [msg] s <| msgs := msgs s1 |> <| knotes := knotes s1 |> <| kqueues := kqueues s1 |>
           <| woken := woken s1 |> /\
    msgs s1 msg = sent_msg si ri s /\
    notes_ok (SbPort sb) s1.
Proof using Hmsg.
  intros Hq Hn. unfold ksendmsg_put, upd_msg. rewrite (run_bind _ _ _ _ _ (run_upd _ _ _ _ _ Hmsg)). cbv beta.
  match goal with |- context [(kputmsg _ _ ≫= _) ?x] => set (s0 := x) end.
  assert (Hn0 : notes_ok (SbPort sb) s0).
  { destruct Hn as (H & H1 & H2). split; [by apply (pending_inv_ext s)|]. by split. }
  destruct (run_kputmsg (SbPort sb) msg s0 Hmsg) as (s1 & E1 & R1 & N1); [|exact Hn0|].
  { change (msgports s0) with (msgports s). rewrite Hq. apply not_elem_of_nil. }
  exists s1. split; [by rewrite (run_bind _ _ _ _ _ E1)|].
  change (msgports s0) with (msgports s) in R1. rewrite Hq in R1. unfold same_but_notes in R1. split; [|split; [|by apply N1]].
  - rewrite R1. subst s0. clear. by destruct s.
  - rewrite R1. subst s0. clear. unfold sent_msg. cbn. by rewrite !fn_lookup_insert.
Qed.

(** The server runs while the thread sleeps. *)
Lemma run_serve si ri s :
  serving server fd sb s ->
  pending_msg_list (msgports s (SbPort sb)) = [msg] -> pending_msg_list (msgports s (ReplyPort proc)) = [] ->
  siov (msgs s msg) = si -> riov (msgs s msg) = ri -> reply_port (msgs s msg) = Some (ReplyPort proc) ->
  backlog_sz (sb_msgbacklog (superblocks s sb)) <= MAX_MSG_BACKLOG ->
  length (bl_msg (sb_msgbacklog (superblocks s sb))) = Z.to_nat MAX_MSG_BACKLOG ->
  (exists t, 0 <= t < backlog_sz (sb_msgbacklog (superblocks s sb)) /\
    Z.testbit (free_bitmap (sb_msgbacklog (superblocks s sb))) t = true) ->
  (forall v, v ∈ si -> 0 <= iov_size v) -> (forall v, v ∈ ri -> 0 <= iov_size v) ->
  Z.of_nat (length (msg_bytes (kmem (fmem s)) si)) <= buf_sz ->
  uvalid s = uv ->
  let r := answer (msg_bytes (kmem (fmem s)) si) in
  (forall a, raddr <= a < raddr + Z.of_nat (length (snd r)) -> uv a = true) ->
  exists s', serve bdflush_brelse server fd umsgid addr buf_sz raddr answer s = Ret 0 s' /\
    (forall x, kmem (fmem s') x = scatter ri (snd r) (kmem (fmem s)) x) /\
    s' = s <| fmem := fmem s <| kmem := kmem (fmem s') |> |> <| msgs := msgs s' |> <| msgports := msgports s' |>
      <| superblocks := superblocks s' |> <| umem := umem s' |> <| woken := woken s' |> /\
    pending_msg_list (msgports s' (SbPort sb)) = [] /\ pending_msg_list (msgports s' (ReplyPort proc)) = [msg] /\
    (forall q, mp_knote_list (msgports s' q) = mp_knote_list (msgports s q)) /\
    reply_status (msgs s' msg) = fst r /\ same_superblocks s s'.
Proof using All.
  intros Hg Hq Hr Hsi Hri Hp Hb Hl (t & Ht & Hbit) Hs1 Hs2 Hsz Hu r Hv3.
  destruct (getmsg_taken server fd sb msg [] umsgid addr buf_sz t s (serving_get _ _ _ _ Hg) Hsb Hmsg Hq Hb Hl Ht Hbit) as (id & Hid & Hbid & E & N).
  set (s1 := msg_taken sb id msg [] s) in *.
  destruct (copyout_bytes_ok (word_bytes id) umsgid s1) as (u1 & E1 & W1 & _).
  { intros a Ha. change (uvalid s1) with (uvalid s). rewrite Hu. by apply Hv1. }
  set (s2 := s1 <| umem := u1 |>) in E1.
  assert (Hm2 : msgs s2 msg = msgs s msg) by done.
  pose proof (read_parts_ok si (next_size si) addr buf_sz 0 s2 Hs1) as Hrp.
  rewrite rest_bytes_next in Hrp. change (fmem s2) with (fmem s) in Hrp. cbv zeta in Hrp.
  destruct Hrp as (u2 & E2 & D2 & O2); [| | |lia|].
  { destruct si as [|v si']; cbn; [lia|]. apply Hs1, list_elem_of_here. }
  { pose proof (Zle_0_nat (length (msg_bytes (kmem (fmem s)) si))). lia. }
  { intros a Ha. change (uvalid s2) with (uvalid s). rewrite Hu. by apply Hv2. }
  set (data := msg_bytes (kmem (fmem s)) si) in *. rewrite Z.sub_0_r, Z.min_r, Z.add_0_l in E2 by done.
  rewrite Z.sub_0_r, Z.min_r in D2, O2 by done. rewrite Z.add_0_r in D2, O2.
  set (s3 := s2 <| umem := u2 |>) in E2.
  assert (Eget : sys_getmsg server fd umsgid addr buf_sz s = Ret (Z.of_nat (length data)) s3).
  { rewrite E, (run_bind _ _ _ _ _ E1), (run_bind _ _ _ _ _ (run_deref _ _ _ Hmsg)). change (msgs s2 msg) with (msgs s msg).
    rewrite Hsi. exact E2. }
  unfold serve. rewrite (run_bind _ _ _ _ _ Eget), !(run_bind _ _ _ _ _ (run_gets _ _)).
  change (umem s3) with u2. rewrite (mem_bytes_eq u2 addr data D2). fold r.
  assert (Hword : word_at u2 umsgid = id).
  { apply word_at_bytes; [unfold MAX_MSG_BACKLOG in Hb; lia|]. intros j b Hj.
    assert (Hj4 : (j < 4)%nat) by (apply (lookup_lt_Some (word_bytes id)) in Hj; exact Hj).
    rewrite O2 by lia. change (umem s2) with u1. by apply W1. }
  rewrite Hword. unfold modify. erewrite run_bind by reflexivity. cbv beta.
  set (s4 := s3 <| umem := _ |>).
  assert (Hp4 : forall q, q <> SbPort sb -> msgports s4 q = msgports s q) by (intros q Hne; subst s4 s3 s2 s1; cbn; by rewrite fn_lookup_insert_ne).
  destruct (run_sys_replymsg bdflush_brelse server fd sb id msg (ReplyPort proc) (fst r) raddr (Z.of_nat (length (snd r))) s4)
    as (s5 & E5 & Q5 & St5 & W5 & _ & (n & f & Ew & R5) & Mp5 & Sb5); [|exact Hsb|exact N| |exact Hp| |].
  { apply serving_get. by apply (serving_ext _ _ _ s). }
  { change (superblocks s4) with (superblocks s1). subst s1. unfold msg_taken, set_backlog. cbn. rewrite !fn_lookup_insert.
    cbn. by rewrite length_insert. }
  { rewrite Hp4, Hr by done. apply not_elem_of_nil. }
  destruct (write_parts_ok (riov (msgs s4 msg)) raddr (Z.of_nat (length (snd r))) 0
    (s4 <| msgs := <[msg := msgs s4 msg <| reply_status := fst r |>]> (msgs s4) |>)) as (m & k & Ew' & Hm).
  { change (msgs s4 msg) with (msgs s msg). by rewrite Hri. }
  { lia. }
  { intros a Ha. change (uvalid s a = true). rewrite Hu. by apply Hv3. }
  rewrite Ew in Ew'. apply (f_equal (fun o => match o with Ret _ x => fmem x | _ => f end)) in Ew'.
  change (f = fmem s <| kmem := m |>) in Ew'.
  exists s5. split; [exact E5|]. split; [|split; [|split; [|split; [|split; [|split]]]]].
  - intros x. rewrite R5. cbn. rewrite Ew'. cbn. rewrite Hm. change (msgs s4 msg) with (msgs s msg).
    rewrite Hri, Z.add_0_r, Z.sub_0_r. match goal with |- context [mem_bytes ?u raddr _] => change u with (put_bytes raddr (snd r) u2) end.
    by rewrite mem_bytes_put.
  - rewrite R5. cbn. rewrite Ew'. subst s4 s3 s2 s1. clear. by destruct s as [[]].
  - rewrite Mp5. cbn. rewrite fn_lookup_insert_ne by done. change (msgports s4) with (msgports (set_pending (SbPort sb) [] s)).
    apply set_pending_get.
  - rewrite Mp5, set_pending_get, Hp4, Hr by done. done.
  - intros q. rewrite Mp5, set_pending_notes. change (msgports s4 q) with (msgports (set_pending (SbPort sb) [] s) q).
    apply set_pending_notes.
  - exact St5.
  - apply (backlog_restored sb id msg []); [lia|done|exact Sb5].
Qed.

(** All but what a message changes: two states with the same [rest] differ at
    most in the bytes of kernel memory, the messages, ports and superblocks, and
    the notes that are raised. *)
Definition rest (s : fs) : fs :=
  s <| fmem := fmem s <| kmem := kmem (fmem fs0) |> |> <| msgs := msgs fs0 |> <| msgports := msgports fs0 |>
    <| superblocks := superblocks fs0 |> <| knotes := knotes fs0 |> <| kqueues := kqueues fs0 |> <| woken := [] |>.

(** Where the descriptor of the server is. *)
Definition fd_word (s : fs) : Z := fproc s server + 4 * (fd_table + fd).

(** The parts of the message are apart from the request and from the
    descriptor of the server. *)
Record parts_ok (si ri : list IOV) (s : fs) : Prop := {
  po_si v : v ∈ si -> 0 <= iov_size v /\ (iov_addr v + iov_size v <= req \/ req + fsreq_sz L <= iov_addr v);
  po_ri v : v ∈ ri -> 0 <= iov_size v /\ ~ (iov_addr v <= fd_word s < iov_addr v + iov_size v);
  po_req : ~ (req <= fd_word s < req + fsreq_sz L)
}.

Lemma sent_bytes r si s :
  (forall v, v ∈ si -> 0 <= iov_size v /\ (iov_addr v + iov_size v <= req \/ req + fsreq_sz L <= iov_addr v)) ->
  msg_bytes (put_bytes req (fsreq_bytes L r) (kmem (fmem s))) (mkIOV req (fsreq_sz L) :: si) =
  fsreq_bytes L r ++ msg_bytes (kmem (fmem s)) si.
Proof using Hlen.
  intros Hsi. unfold msg_bytes. cbn [map concat iov_addr iov_size]. f_equal; [by rewrite <- (Hlen r), mem_bytes_put|].
  f_equal. apply map_ext_in. intros v Hv%list_elem_of_In. destruct (Hsi v Hv) as [H0 Ha]. unfold mem_bytes.
  apply map_ext_in. intros i Hi%list_elem_of_In%elem_of_seqZ. apply put_bytes_out. rewrite Hlen. lia.
Qed.

(** [request] is a call of the server's function: it returns the status of the
    answer to the bytes of the request and of the parts [si], the bytes of the
    answer are in the parts [ri], and the server is ready for the next one. *)
Lemma request_ok r si ri s :
  ready proc server fd sb s -> parts_ok si ri s ->
  let bytes := fsreq_bytes L r ++ msg_bytes (kmem (fmem s)) si in
  Z.of_nat (length bytes) <= buf_sz ->
  (forall a, raddr <= a < raddr + Z.of_nat (length (snd (answer bytes))) -> uv a = true) ->
  exists s', (forall env, request L proc req msg sb r si ri (server_runs :: env) s = Done (fst (answer bytes)) env s') /\
    (forall x, kmem (fmem s') x = scatter ri (snd (answer bytes)) (put_bytes req (fsreq_bytes L r) (kmem (fmem s))) x) /\
    rest s' = rest s /\ same_superblocks s s' /\ ready proc server fd sb s'.
Proof using All.
  intros R Po bytes Hsz Hv3. set (s0 := s <| fmem := fmem s <| kmem := put_bytes req (fsreq_bytes L r) (kmem (fmem s)) |> |>).
  assert (Sv0 : serving server fd sb s0).
  { apply (serving_ext _ _ _ s); [apply R|done|done|]. apply put_bytes_out. rewrite Hlen. apply Po. }
  destruct (run_ksendmsg_put (mkIOV req (fsreq_sz L) :: si) ri s0) as (s1 & E1 & R1 & M1 & N1);
    [apply R|by apply (notes_ok_ext _ s); [apply R|..]|].
  assert (Hp1 : msgports s1 = msgports (set_pending (SbPort sb) [msg] s)) by (by rewrite R1).
  assert (Hs1 : superblocks s1 = superblocks s) by (by rewrite R1).
  assert (Hk1 : kmem (fmem s1) = put_bytes req (fsreq_bytes L r) (kmem (fmem s))) by (by rewrite R1).
  set (sv := s1 <| umem := um |> <| uvalid := uv |>).
  pose proof (sent_bytes r si s (po_si _ _ _ Po)) as Hbytes. fold bytes in Hbytes.
  destruct (run_serve (mkIOV req (fsreq_sz L) :: si) ri sv) as (s2 & E2 & K2 & R2 & Q2 & P2 & N2 & St2 & Sb2).
  - apply (serving_ext _ _ _ s0); [done|subst sv; cbn; by rewrite R1..].
  - change (msgports sv) with (msgports s1). rewrite Hp1. apply set_pending_get.
  - change (msgports sv) with (msgports s1). rewrite Hp1, set_pending_ne by done. apply R.
  - change (msgs sv) with (msgs s1). by rewrite M1.
  - change (msgs sv) with (msgs s1). by rewrite M1.
  - change (msgs sv) with (msgs s1). by rewrite M1.
  - change (superblocks sv) with (superblocks s1). rewrite Hs1. apply R.
  - change (superblocks sv) with (superblocks s1). rewrite Hs1. apply R.
  - change (superblocks sv) with (superblocks s1). rewrite Hs1. apply R.
  - intros v [->|Hv]%elem_of_cons; [cbn; rewrite <- (Hlen r); lia|by apply Po].
  - intros v Hv. apply (po_ri _ _ _ Po v Hv).
  - change (fmem sv) with (fmem s1). by rewrite Hk1, Hbytes.
  - done.
  - change (fmem sv) with (fmem s1). by rewrite Hk1, Hbytes.
  - change (fmem sv) with (fmem s1) in K2, St2. rewrite Hk1, Hbytes in K2, St2.
    set (s3 := s2 <| umem := umem s1 |> <| uvalid := uvalid s1 |>).
    assert (Hserver : server_runs s1 = s3) by (unfold as_process; fold sv; by rewrite E2).
    exists (set_pending (ReplyPort proc) [] s3). split; [|split; [exact K2|split; [|split]]].
    + intros env. unfold request. rewrite (prun_bind _ _ _ _ _ _ _ (run_call (kstore req (fsreq_bytes L r)) _ s () s0 eq_refl)).
      rewrite (prun_bind _ _ _ _ _ _ _ (run_call _ _ _ _ _ (run_deref superblocks sb s0 Hsb))).
      rewrite (prun_bind _ _ _ _ _ _ _ (run_call _ _ _ _ _ E1)).
      assert (Hempty : pending_msg_list (msgports s1 (ReplyPort proc)) = []) by (rewrite Hp1, set_pending_ne by done; apply R).
      apply (run_await_once _ _ server_runs _ _ (RPort (ReplyPort proc)) s1).
      { unfold ksendmsg_wait, kwaitport. apply run_bind_sleep. rewrite (run_bind _ _ _ _ _ (run_gets _ _)), Hempty. done. }
      rewrite Hserver. unfold ksendmsg_wait, kwaitport.
      erewrite run_bind by (rewrite (run_bind _ _ _ _ _ (run_gets _ _)); change (msgports s3) with (msgports s2); rewrite P2; reflexivity).
      rewrite (run_bind _ _ _ _ _ (run_kgetmsg _ msg [] s3 P2)), (run_bind _ _ _ _ _ (run_deref _ _ _ Hmsg)).
      change (msgs (set_pending _ _ s3)) with (msgs s2). by rewrite St2.
    + transitivity (rest s1); [subst s3; rewrite R2; reflexivity|rewrite R1; reflexivity].
    + intros b. destruct (Sb2 b) as [Hb1 Hb2]. change (superblocks sv) with (superblocks s1) in Hb1, Hb2. rewrite Hs1 in Hb1, Hb2. by split.
    + assert (Hf : fproc s2 = fproc s /\ filps s2 = filps s /\ knotes s2 = knotes s1 /\ kqueues s2 = kqueues s1).
      { rewrite R2. subst sv. cbn. rewrite R1. done. }
      destruct Hf as (F1 & F2 & F3 & F4). destruct (Sb2 sb) as [Hb1 Hb2].
      change (superblocks sv) with (superblocks s1) in Hb1, Hb2. rewrite Hs1 in Hb1, Hb2.
      split; change (superblocks (set_pending (ReplyPort proc) [] s3)) with (superblocks s2).
      * apply (serving_ext _ _ _ s); [apply R|done|done|]. change (kmem (fmem (set_pending (ReplyPort proc) [] s3))) with (kmem (fmem s2)).
        rewrite K2, scatter_out; [apply put_bytes_out; rewrite Hlen; apply Po|]. intros v Hv _. apply (po_ri _ _ _ Po v Hv).
      * rewrite set_pending_ne by done. exact Q2.
      * apply set_pending_get.
      * apply (notes_ok_ext _ s1); [exact N1|done|done|]. rewrite set_pending_notes. apply N2.
      * rewrite Hb1. apply R.
      * rewrite Hb2. apply R.
      * rewrite Hb1. apply R.
Qed.

(** The end of [vfs_read] and [vfs_write]: the offset moves by what was done. *)
Definition moved (n off : Z) : Z := if bool_decide (n < 0) then off else off + n.

Lemma move_offset (n off : Z) env s :
  (if bool_decide (n < 0) then mret (n, Some off) : P (Z * option Z) else mret (n, (fun o => o + n) <$> Some off)) env s =
  Done (n, Some (moved n off)) env s.
Proof using Type. unfold moved. by case_bool_decide. Qed.

Lemma vfs_read_ok vnode dst nbytes off env s :
  vnode <> 0 -> v_superblock (vnodes s vnode) = sb -> ready proc server fd sb s -> 0 <= nbytes ->
  ~ (dst <= fd_word s < dst + nbytes) -> ~ (req <= fd_word s < req + fsreq_sz L) -> fsreq_sz L <= buf_sz ->
  let r := answer (fsreq_bytes L (CMD_READ (inode_nr (vnodes s vnode)) off nbytes)) in
  Z.of_nat (length (snd r)) <= nbytes ->
  (forall a, raddr <= a < raddr + Z.of_nat (length (snd r)) -> uv a = true) ->
  exists s', vfs_read L proc req msg vnode dst nbytes (Some off) (server_runs :: env) s =
      Done (fst r, Some (moved (fst r) off)) env s' /\
    (forall i, 0 <= i < Z.of_nat (length (snd r)) -> snd r !! Z.to_nat i = Some (kmem (fmem s') (dst + i))) /\
    (forall a, ~ (dst <= a < dst + Z.of_nat (length (snd r))) -> ~ (req <= a < req + fsreq_sz L) ->
       kmem (fmem s') a = kmem (fmem s) a) /\
    rest s' = rest s /\ same_superblocks s s' /\ ready proc server fd sb s'.
Proof using All.
  intros Hv Hs R Hn H1 H2 Hsz r Hl Hv3.
  destruct (request_ok (CMD_READ (inode_nr (vnodes s vnode)) off nbytes) [] [mkIOV dst nbytes] s R) as (s' & E & K & Hr & Hsame & R').
  - split; [intros v Hin; by apply not_elem_of_nil in Hin| |done]. by intros v ->%list_elem_of_singleton.
  - cbn. rewrite app_nil_r, Hlen. done.
  - cbn. rewrite app_nil_r. exact Hv3.
  - cbn [msg_bytes map concat] in E, K. rewrite app_nil_r in E, K. fold r in E, K. exists s'.
    cbn [scatter iov_addr iov_size] in K. rewrite take_ge in K by lia. split.
    + unfold vfs_read. rewrite (prun_bind _ _ _ _ _ _ _ (run_call _ _ _ _ _ (run_deref _ _ _ Hv))).
      cbn [default]. rewrite Hs, (prun_bind _ _ _ _ _ _ _ (E env)). apply move_offset.
    + split; [intros i Hi|split; [intros a Ha Ha'|done]].
      * destruct (lookup_lt_is_Some_2 (snd r) (Z.to_nat i)) as [b Hb]; [lia|]. rewrite Hb, K. f_equal. symmetry.
        by apply put_bytes_in; [|lia].
      * rewrite K, put_bytes_out by done. apply put_bytes_out. by rewrite Hlen.
Qed.

Lemma vfs_write_ok vnode src nbytes off env s :
  vnode <> 0 -> v_superblock (vnodes s vnode) = sb -> ready proc server fd sb s -> 0 <= nbytes ->
  (src + nbytes <= req \/ req + fsreq_sz L <= src) -> ~ (req <= fd_word s < req + fsreq_sz L) ->
  fsreq_sz L + nbytes <= buf_sz ->
  let r := answer (fsreq_bytes L (CMD_WRITE (inode_nr (vnodes s vnode)) off nbytes) ++ mem_bytes (kmem (fmem s)) src nbytes) in
  (forall a, raddr <= a < raddr + Z.of_nat (length (snd r)) -> uv a = true) ->
  exists s', vfs_write L proc req msg vnode src nbytes (Some off) (server_runs :: env) s =
      Done (fst r, Some (moved (fst r) off)) env s' /\
    (forall a, ~ (req <= a < req + fsreq_sz L) -> kmem (fmem s') a = kmem (fmem s) a) /\
    rest s' = rest s /\ same_superblocks s s' /\ ready proc server fd sb s'.
Proof using All.
  intros Hv Hs R Hn H1 H2 Hsz r Hv3. set (q := CMD_WRITE (inode_nr (vnodes s vnode)) off nbytes) in *.
  assert (Eb : msg_bytes (kmem (fmem s)) [mkIOV src nbytes] = mem_bytes (kmem (fmem s)) src nbytes) by apply app_nil_r.
  destruct (request_ok q [mkIOV src nbytes] [] s R) as (s' & E & K & Hr & Hsame & R').
  - split; [by intros v ->%list_elem_of_singleton|intros v Hin; by apply not_elem_of_nil in Hin|done].
  - rewrite Eb, length_app, Nat2Z.inj_add, Hlen, mem_bytes_length; done.
  - rewrite Eb. exact Hv3.
  - rewrite Eb in E, K. fold r in E, K. exists s'. split; [|split; [intros a Ha|done]].
    + unfold vfs_write. rewrite (prun_bind _ _ _ _ _ _ _ (run_call _ _ _ _ _ (run_deref _ _ _ Hv))).
      cbn [default]. rewrite Hs, (prun_bind _ _ _ _ _ _ _ (E env)). apply move_offset.
    + rewrite K. apply put_bytes_out. by rewrite Hlen.
Qed.

(** A request that carries a name, with room for a reply. *)
Lemma name_request_ok path_max r name l s :
  ready proc server fd sb s -> cstr (kmem (fmem s)) name l -> (length l < path_max)%nat ->
  let name_sz := Z.of_nat (length l) + 1 in
  (name + name_sz <= req \/ req + fsreq_sz L <= name) -> (name + name_sz <= reply \/ reply + fsreply_sz L <= name) ->
  ~ (req <= fd_word s < req + fsreq_sz L) -> ~ (reply <= fd_word s < reply + fsreply_sz L) ->
  (req + fsreq_sz L <= reply \/ reply + fsreply_sz L <= req) -> 0 <= fsreply_sz L -> fsreq_sz L + name_sz <= buf_sz ->
  let a := answer (fsreq_bytes L r ++ (l ++ [0])) in
  Z.of_nat (length (snd a)) = fsreply_sz L ->
  (forall x, raddr <= x < raddr + fsreply_sz L -> uv x = true) ->
  exists s0 s', (forall env, clear_reply L reply env s = Done () env s0) /\
    rest s0 = rest s /\ superblocks s0 = superblocks s /\
    (forall env, name_size path_max name env s0 = Done name_sz env s0) /\
    (forall env, request L proc req msg sb r [mkIOV name name_sz] [reply_iov L reply] (server_runs :: env) s0 =
       Done (fst a) env s') /\
    (forall env A (f : list Z -> A), get_reply L reply f env s' = Done (f (snd a)) env s') /\
    (forall x, ~ (req <= x < req + fsreq_sz L) -> ~ (reply <= x < reply + fsreply_sz L) ->
       kmem (fmem s') x = kmem (fmem s) x) /\
    rest s' = rest s /\ same_superblocks s s' /\ ready proc server fd sb s'.
Proof using All.
  intros R Hc Hp name_sz H1 H2 H3 H4 H5 H6 Hsz a Hla Hv3.
  set (zeros := replicate (Z.to_nat (fsreply_sz L)) 0).
  assert (Hz : Z.of_nat (length zeros) = fsreply_sz L) by (subst zeros; rewrite length_replicate; lia).
  set (s0 := s <| fmem := fmem s <| kmem := put_bytes reply zeros (kmem (fmem s)) |> |>).
  assert (R0 : ready proc server fd sb s0).
  { destruct R. split; try done; [|by apply (notes_ok_ext _ s)]. apply (serving_ext _ _ _ s); [done..|].
    apply put_bytes_out. by rewrite Hz. }
  assert (Hc0 : cstr (kmem (fmem s0)) name l).
  { apply (cstr_ext (kmem (fmem s))); [|done]. intros x Hx. apply put_bytes_out. rewrite Hz. lia. }
  assert (Eb : msg_bytes (kmem (fmem s0)) [mkIOV name name_sz] = l ++ [0]).
  { transitivity (mem_bytes (kmem (fmem s0)) name name_sz); [apply app_nil_r|by apply cstr_bytes]. }
  destruct (request_ok r [mkIOV name name_sz] [reply_iov L reply] s0 R0) as (s' & E & K & Hr & Hsame & R').
  { split; [intros v ->%list_elem_of_singleton; cbn; lia|by intros v ->%list_elem_of_singleton|done]. }
  { rewrite Eb, !length_app, !Nat2Z.inj_add, Hlen. cbn [length]. lia. }
  { rewrite Eb. fold a. rewrite Hla. exact Hv3. }
  rewrite Eb in E, K. fold a in E, K. cbn [scatter reply_iov iov_addr iov_size] in K. rewrite take_ge in K by lia.
  exists s0, s'. split; [done|]. split; [done|]. split; [done|]. split; [|split; [exact E|split; [|split; [|done]]]].
  - intros env. unfold name_size. apply run_call. rewrite (run_bind _ _ _ _ _ (run_gets _ _)).
    rewrite (StrLen_ok _ _ _ l Hc0 Hp). done.
  - intros env A f. unfold get_reply. apply run_call. unfold kload. rewrite (run_bind _ _ _ _ _ (run_gets _ _)).
    rewrite <- Hla. rewrite (mem_bytes_eq _ _ (snd a)); [done|]. intros i Hi.
    destruct (lookup_lt_is_Some_2 (snd a) (Z.to_nat i)) as [b Hb]; [lia|]. rewrite Hb, K. f_equal. symmetry.
    by apply put_bytes_in; [|lia].
  - intros x Hx Hx'. rewrite K, put_bytes_out by (by rewrite Hla). rewrite put_bytes_out by (by rewrite Hlen).
    apply put_bytes_out. by rewrite Hz.
Qed.

(** What [vfs_lookup] makes of the reply. *)
Section Lookup.
Context (path_max : nat) (dvnode name : Z) (l : list Z) (s : fs).
Notation name_sz := (Z.of_nat (length l) + 1).
Notation d := (vnodes s dvnode).
Notation ans := (answer (fsreq_bytes L (CMD_LOOKUP (inode_nr d) name_sz) ++ (l ++ [0]))).
Context (Hd : dvnode <> 0) (Hds : v_superblock d = sb) (R : ready proc server fd sb s).
Context (Hc : cstr (kmem (fmem s)) name l) (Hp : (length l < path_max)%nat).
Context (H1 : name + name_sz <= req \/ req + fsreq_sz L <= name).
Context (H2 : name + name_sz <= reply \/ reply + fsreply_sz L <= name).
Context (H3 : ~ (req <= fd_word s < req + fsreq_sz L)) (H4 : ~ (reply <= fd_word s < reply + fsreply_sz L)).
Context (H5 : req + fsreq_sz L <= reply \/ reply + fsreply_sz L <= req) (H6 : 0 <= fsreply_sz L).
Context (Hsz : fsreq_sz L + name_sz <= buf_sz) (Hla : Z.of_nat (length (snd ans)) = fsreply_sz L).
Context (Hv3 : forall x, raddr <= x < raddr + fsreply_sz L -> uv x = true).

Definition lookup_frame (s' : fs) : Prop :=
  (forall x, ~ (req <= x < req + fsreq_sz L) -> ~ (reply <= x < reply + fsreply_sz L) -> kmem (fmem s') x = kmem (fmem s) x) /\
  ready proc server fd sb s'.

(** Up to the reply. *)
Lemma vfs_lookup_reply env :
  exists s', vfs_lookup L path_max proc req reply msg dvnode name (server_runs :: env) s =
      (if bool_decide (fst ans <> 0) then mret (fst ans, Some 0)
       else
         let a := reply_lookup L (snd ans) in
         vnode ← (if bool_decide (a_inode_nr a = inode_nr d) then call (vnode_inc_ref dvnode);; mret dvnode
                  else get_vnode sb (a_inode_nr a));
         if bool_decide (vnode = 0) then
           a ← get_reply L reply (reply_lookup L);
           vnode ← call (vnode_new sb (a_inode_nr a));
           if bool_decide (vnode = 0) then mret (- ENOMEM, None)
           else set_attributes vnode a;; mret (0, Some vnode)
         else mret (0, Some vnode)) env s' /\
    (forall env A (f : list Z -> A), get_reply L reply f env s' = Done (f (snd ans)) env s') /\
    rest s' = rest s /\ same_superblocks s s' /\ lookup_frame s'.
Proof using All.
  destruct (name_request_ok path_max (CMD_LOOKUP (inode_nr d) name_sz) name l s R Hc Hp H1 H2 H3 H4 H5 H6 Hsz Hla Hv3)
    as (s0 & s' & E0 & Hr0 & Hs0 & E1 & E2 & Eg & K & Hr & Hsame & R').
  assert (V0 : vnodes s0 = vnodes s) by exact (f_equal vnodes Hr0).
  assert (V' : vnodes s' = vnodes s) by exact (f_equal vnodes Hr).
  exists s'. split; [|by split_and!]. unfold vfs_lookup. rewrite (prun_bind _ _ _ _ _ _ _ (E0 _)).
  rewrite (prun_bind _ _ _ _ _ _ _ (run_call _ _ _ _ _ (run_deref vnodes dvnode s0 Hd))), V0, Hds. cbv zeta.
  rewrite (prun_bind _ _ _ _ _ _ _ (E1 _)), (prun_bind _ _ _ _ _ _ _ (E2 env)).
  destruct (bool_decide (fst ans <> 0)); [done|]. rewrite (prun_bind _ _ _ _ _ _ _ (Eg _ _ _)).
  by rewrite (prun_bind _ _ _ _ _ _ _ (run_call _ _ _ _ _ (run_deref vnodes dvnode s' Hd))), V', Hds.
Qed.

(** The server reports an error. *)
Lemma vfs_lookup_error env :
  fst ans <> 0 ->
  exists s', vfs_lookup L path_max proc req reply msg dvnode name (server_runs :: env) s = Done (fst ans, Some 0) env s' /\
    rest s' = rest s /\ same_superblocks s s' /\ lookup_frame s'.
Proof using All.
  intros He. destruct (vfs_lookup_reply env) as (s' & E & _ & Hr). exists s'. rewrite E, bool_decide_true by done. done.
Qed.

(** A file that has no vnode yet. *)
Lemma vfs_lookup_new v fl env :
  fst ans = 0 -> let a := reply_lookup L (snd ans) in
  a_inode_nr a <> inode_nr d -> vnode_find_loop (Z.to_nat NR_VNODE) 0 sb (a_inode_nr a) s = 0 ->
  vnode_free_list s = v :: fl -> v <> 0 ->
  exists s', vfs_lookup L path_max proc req reply msg dvnode name (server_runs :: env) s = Done (0, Some v) env s' /\
    vnode_free_list s' = fl /\ (forall w, w <> v -> vnodes s' w = vnodes s w) /\
    v_busy (vnodes s' v) = true /\ v_reference_cnt (vnodes s' v) = 1 /\ v_superblock (vnodes s' v) = sb /\
    inode_nr (vnodes s' v) = a_inode_nr a /\ v_mode (vnodes s' v) = a_mode a /\ v_size (vnodes s' v) = a_size a /\
    v_uid (vnodes s' v) = a_uid a /\ v_gid (vnodes s' v) = a_gid a /\
    vnode_mounted_here (vnodes s' v) = 0 /\ vnode_covered (vnodes s' v) = 0 /\ v_flags (vnodes s' v) = V_VALID /\
    root_vnode s' = root_vnode s /\ fproc s' = fproc s /\ uvalid s' = uvalid s /\ lookup_frame s'.
Proof using All.
  intros He a Hi Hf Hfl Hv. destruct (vfs_lookup_reply env) as (s1 & E & Eg & Hr & Hsame & K & R1).
  rewrite E, bool_decide_false by (intros H; by apply H). cbv zeta. fold a. rewrite bool_decide_false by done.
  assert (V1 : vnodes s1 = vnodes s) by exact (f_equal vnodes Hr).
  assert (F1 : vnode_free_list s1 = v :: fl) by (rewrite <- Hfl; exact (f_equal vnode_free_list Hr)).
  assert (Eget : get_vnode sb (a_inode_nr a) env s1 = Done 0 env s1).
  { apply run_await. unfold vnode_get. rewrite (run_bind _ _ _ _ _ (run_deref _ _ _ Hsb)). 
    match goal with |- (if ?b then _ else _) _ = _ => destruct b; [done|] end. unfold vnode_find. rewrite (run_bind _ _ _ _ _ (run_gets _ _)).
    rewrite (vnode_find_loop_ext _ _ _ _ s) by (intros w; by rewrite V1). by rewrite Hf. }
  rewrite (prun_bind _ _ _ _ _ _ _ Eget), bool_decide_true, (prun_bind _ _ _ _ _ _ _ (Eg _ _ _)) by done. fold a.
  rewrite (prun_bind _ _ _ _ _ _ _ (run_call _ _ _ _ _ (run_vnode_new sb (a_inode_nr a) v fl s1 Hsb Hv F1))).
  rewrite bool_decide_false by done. unfold set_attributes, upd_vnode.
  rewrite (prun_bind _ _ _ _ _ _ _ (run_call _ _ _ _ _ (run_upd _ _ _ _ _ Hv))). eexists. split; [reflexivity|].
  cbn. rewrite !fn_lookup_insert. cbn. split; [done|]. split.
  { intros w Hw. rewrite !fn_lookup_insert_ne by done. by rewrite V1. }
  do 11 (split; [done|]). split; [exact (f_equal root_vnode Hr)|]. split; [exact (f_equal fproc Hr)|].
  split; [exact (f_equal uvalid Hr)|]. split; [exact K|].
  apply (ready_ext _ _ _ _ s1); try done. cbn. by rewrite fn_lookup_insert.
Qed.
End Lookup.
End Call.

(** ** The operations *)

(** The buffers of a server for the messages of the protocol [L]: all requests
    have the size of [struct fsreq], and the buffers can be accessed and do not
    overlap. *)
Record endpoint (L : protocol) (umsgid addr buf_sz : Z) (uv : Z -> bool) : Prop := {
  ep_size r : Z.of_nat (length (fsreq_bytes L r)) = fsreq_sz L;
  ep_msgid a : umsgid <= a < umsgid + 4 -> uv a = true;
  ep_buf a : addr <= a < addr + buf_sz -> uv a = true;
  ep_apart : umsgid + 4 <= addr \/ addr + buf_sz <= umsgid
}.

(** C16. Reading from a file server is a call of the server.  [vfs_read] sends
    the request for the inode of the vnode, the offset and the size to the
    server of its superblock and sleeps; the server receives these bytes with
    sys_getmsg, and whatever status and data it answers them with, by
    sys_replymsg, [vfs_read] returns the status, has the data at [dst], and
    moves the offset by the status unless it is an error.  Nothing else in
    kernel memory changes but the request, the rest of the file system's state
    is as it was, and the server is ready for the next request. *)
Theorem vfs_read_correct L proc req msg bdflush_brelse server fd sb umsgid addr buf_sz raddr answer um uv
    vnode dst nbytes off s :
  endpoint L umsgid addr buf_sz uv -> msg <> 0 -> sb <> 0 -> vnode <> 0 ->
  v_superblock (vnodes s vnode) = sb -> ready proc server fd sb s -> 0 <= nbytes ->
  ~ (dst <= fd_word server fd s < dst + nbytes) -> ~ (req <= fd_word server fd s < req + fsreq_sz L) ->
  fsreq_sz L <= buf_sz ->
  let r := answer (fsreq_bytes L (CMD_READ (inode_nr (vnodes s vnode)) off nbytes)) in
  Z.of_nat (length (snd r)) <= nbytes ->
  (forall a, raddr <= a < raddr + Z.of_nat (length (snd r)) -> uv a = true) ->
  exists s',
    vfs_read L proc req msg vnode dst nbytes (Some off)
      [as_process um uv (serve bdflush_brelse server fd umsgid addr buf_sz raddr answer)] s =
      Done (fst r, Some (if bool_decide (fst r < 0) then off else off + fst r)) [] s' /\
    (forall i, 0 <= i < Z.of_nat (length (snd r)) -> snd r !! Z.to_nat i = Some (kmem (fmem s') (dst + i))) /\
    (forall a, ~ (dst <= a < dst + Z.of_nat (length (snd r))) -> ~ (req <= a < req + fsreq_sz L) ->
       kmem (fmem s') a = kmem (fmem s) a) /\
    rest s' = rest s /\ ready proc server fd sb s'.
Proof.
  intros [E1 E2 E3 E4] Hm Hs Hv Hvs R Hn Hd Hr Hb r Hl Ha.
  destruct (vfs_read_ok L proc req 0 msg bdflush_brelse server fd sb umsgid addr buf_sz raddr answer um uv
    Hm Hs E1 E2 E3 E4 vnode dst nbytes off [] s Hv Hvs R Hn Hd Hr Hb Hl Ha) as (s' & E & H1 & H2 & H3 & _ & H4).
  by exists s'.
Qed.

(** A protocol of four-byte requests, and a server that answers every read with
    two bytes. *)
Definition small_protocol : protocol :=
  mkProtocol 4 3
    (fun r => match r with
      | CMD_LOOKUP d n => [0; d; n; 0] | CMD_READ i o z => [1; i; o; z] | CMD_WRITE i o z => [2; i; o; z]
      | CMD_ISATTY i => [3; i; 0; 0] | CMD_TRUNCATE i z => [4; i; z; 0] | _ => [5; 0; 0; 0] end)
    (fun b => mkAttributes (nth 0 b 0) (nth 1 b 0) 0 0 (nth 2 b 0)) (fun b => mkAttributes (nth 0 b 0) (nth 1 b 0) 0 0 (nth 2 b 0))
    (fun b => mkAttributes (nth 0 b 0) (nth 1 b 0) 0 0 (nth 2 b 0)) (fun b => nth 0 b 0) (fun b => nth 0 b 0).

Lemma small_endpoint : endpoint small_protocol 40 50 20 (fun _ => true).
Proof. split; [intros []; reflexivity|done|done|lia]. Qed.

(** File 7 of the superblock 2 of [fs_msg], whose server is process 1. *)
Definition fs_vfs : fs := fs_msg <| vnodes := <[5 := vnodes fs_msg 5 <| v_superblock := 2 |> <| inode_nr := 7 |>]> (vnodes fs_msg) |>.

Lemma fs_vfs_ready : ready 9 1 3 2 fs_vfs.
Proof.
  split; try reflexivity.
  - split; try reflexivity; try (intros H; discriminate H). split; [lia|reflexivity].
  - split; [|split; [apply NoDup_nil_2|intros m Hm; by apply not_elem_of_nil in Hm]].
    split; [intros k; apply NoDup_nil_2|intros k m|intros m H; discriminate H].
    split; [intros Hm; by apply not_elem_of_nil in Hm|intros [H _]; discriminate H].
  - intros H; discriminate H.
  - exists 1. split; [split; [lia|reflexivity]|reflexivity].
Qed.

Lemma vfs_read_correct_witness :
  exists s',
    vfs_read small_protocol 9 3000 500 5 6000 8 (Some 16)
      [as_process (fun _ => 0) (fun _ => true)
         (serve (fun _ => fault) 1 3 40 50 20 100 (fun b => (2, [nth 1 b 0 + nth 2 b 0; nth 3 b 0])))] fs_vfs =
      Done (2, Some 18) [] s' /\
    kmem (fmem s') 6000 = 23 /\ kmem (fmem s') 6001 = 8.
Proof.
  destruct (vfs_read_correct small_protocol 9 3000 500 (fun _ => fault) 1 3 2 40 50 20 100
    (fun b => (2, [nth 1 b 0 + nth 2 b 0; nth 3 b 0])) (fun _ => 0) (fun _ => true) 5 6000 8 16 fs_vfs small_endpoint)
    as (s' & E & H & _); try (intros H; discriminate H); try reflexivity.
  - exact fs_vfs_ready.
  - change (fd_word 1 3 fs_vfs) with 4108. lia.
  - change (fd_word 1 3 fs_vfs) with 4108. cbn. lia.
  - exists s'. split; [exact E|]. split; [pose proof (H 0 ltac:(cbn; lia)) as H0|pose proof (H 1 ltac:(cbn; lia)) as H0].
    all: cbn in H0; injection H0 as H0; symmetry; exact H0.
Defined.

(** rmdir and unlink never reach the server: they store the name in the third
    element of an array of two. *)
Lemma vfs_rmdir_faults L path_max proc req reply msg g dvnode name env s :
  vfs_rmdir L path_max proc req reply msg g dvnode name env s = Crash.
Proof.
  unfold vfs_rmdir. unfold clear_reply at 1. erewrite prun_bind by (apply run_call; reflexivity).
  unfold call at 1. unfold deref at 1. destruct (bool_decide (dvnode = 0)); [by apply prun_bind_crash|].
  erewrite prun_bind by reflexivity. unfold name_size. set (s1 := s <| fmem := _ |>).
  destruct (StrLen path_max (kmem (fmem s1)) name) as [len|] eqn:E.
  - erewrite prun_bind.
    2: { apply run_call. rewrite (run_bind _ _ _ _ _ (run_gets _ _)), E. reflexivity. }
    by apply prun_bind_crash.
  - apply prun_bind_crash, run_call_fault. by rewrite (run_bind _ _ _ _ _ (run_gets _ _)), E.
Qed.
