(* ===== verification/Lookup.v ===== *)
(** * Pathname lookup

    The model of kernel/fs/lookup.c.  A [struct lookupdata] is passed along;
    its array [path] is kernel memory at [path], where [path_token] puts the
    ends of the components.  [dot] and [dotdot] are the addresses of the string
    constants of walk_component.

    The theorem at the end puts the layers together: the lookup of a path, with
    the server of a file system answering each request for a component, returns
    the vnode of the file the path leads to. *)

From S2P Require Import Prelude Bytes Lists Page Fs Filp Vnode Kqueue Msg Filedesc Str Blocking Vfs.

Definition LOOKUP_PARENT := 1.
Definition LOOKUP_REMOVE := 2.
Definition LOOKUP_NOFOLLOW := 32.
Definition LOOKUP_KERNEL := 64.
Definition _IFDIR := 0x4000.
Definition S_ISDIR (mode : Z) : bool := bool_decide (Z.land mode _IFMT = _IFDIR).
(** ['/'] *)
Definition slash := 47.

Record lookupdata := mkLookupdata {
  start_vnode : Z;
  ld_vnode : Z;
  ld_parent : Z;
  last_component : Z;
  position : Z;
  separator : Z;
  ld_flags : Z
}.
#[export] Instance rebuild_lookupdata : Rebuild lookupdata := fun r =>
  mkLookupdata (start_vnode r) (ld_vnode r) (ld_parent r) (last_component r) (position r) (separator r) (ld_flags r).

Section Lookup.
Context (L : protocol) (path_max : nat) (proc req reply msg : Z) (path dot dotdot : Z).

Definition char_at (a : Z) : M Z := gets (fun s => kmem (fmem s) a).
Definition set_char (a c : Z) : M unit := kstore a [c].

(** The loop that clears slashes, down from index [i]. *)
Fixpoint clear_slashes (i : nat) : M unit :=
  match i with
  | O => mret ()
  | S i' =>
      c ← char_at (path + Z.of_nat i);
      if bool_decide (c = slash) then set_char (path + Z.of_nat i) 0;; clear_slashes i' else mret ()
  end.

(** The string functions, given [path_max] rounds. *)
Definition copy_path (_path flags : Z) : M Z :=
  if bool_decide (Z.land flags LOOKUP_KERNEL <> 0) then
    o ← gets (fun s => StrLCpy path_max path _path (Z.of_nat path_max) (kmem (fmem s)));
    '(_, m) ← lift o;
    modify (fun s => s <| fmem := fmem s <| kmem := m |> |>);;
    mret 0
  else
    sc ← CopyInString path _path (Z.of_nat path_max);
    mret (if bool_decide (sc = -1) then - EFAULT else 0).

(** [ld] is what the structure holds before. *)
Definition init_lookup (_path flags : Z) (ld : lookupdata) : M (Z * lookupdata) :=
  let ld := ld <| ld_vnode := 0 |> <| ld_parent := 0 |> <| position := path |> <| last_component := 0 |> <| ld_flags := flags |> in
  set_char path 0;;
  rc ← copy_path _path flags;
  if bool_decide (rc <> 0) then mret (rc, ld)
  else
    o ← gets (fun s => StrLen path_max (kmem (fmem s)) path);
    path_len ← lift o;
    clear_slashes (Z.to_nat path_len);;
    c ← char_at path;
    start ← (if bool_decide (c = slash) then gets root_vnode else fword proc fp_current_dir);
    let ld := ld <| start_vnode := start |> in
    v ← deref vnodes start;
    if S_ISDIR (v_mode v) then mret (0, ld) else mret (- ENOTDIR, ld).

(** The loops of path_token: over slashes, and to the end of the name. *)
Fixpoint skip_slashes (fuel : nat) (m : Z -> Z) (ch : Z) : option Z :=
  match fuel with
  | O => None
  | S fuel => if bool_decide (m ch = slash) then skip_slashes fuel m (ch + 1) else Some ch
  end.
Fixpoint skip_name (fuel : nat) (m : Z -> Z) (ch : Z) : option Z :=
  match fuel with
  | O => None
  | S fuel => if bool_decide (m ch <> slash /\ m ch <> 0) then skip_name fuel m (ch + 1) else Some ch
  end.

Definition path_token (ld : lookupdata) : M (Z * lookupdata) :=
  o ← gets (fun s => skip_slashes (S path_max) (kmem (fmem s)) (position ld));
  name ← lift o;
  c ← char_at name;
  if bool_decide (c = 0) then mret (0, ld <| position := name |> <| separator := 0 |>)
  else
    o ← gets (fun s => skip_name (S path_max) (kmem (fmem s)) name);
    ch ← lift o;
    c ← char_at ch;
    let ld := if bool_decide (c = slash) then ld <| position := ch + 1 |> <| separator := slash |>
              else ld <| position := ch |> <| separator := 0 |> in
    set_char ch 0;;
    mret (name, ld).

Definition is_last_component (ld : lookupdata) : M bool :=
  if bool_decide (separator ld = 0) then mret true
  else c ← char_at (position ld); mret (bool_decide (c = 0)).

(** [StrCmp(name, s) == 0] *)
Definition same_string (name s : Z) : M bool :=
  o ← gets (fun st => StrCmp (S path_max) (kmem (fmem st)) name s);
  c ← lift o;
  mret (bool_decide (c = 0)).

(** The end of walk_component, from the call of vfs_lookup. *)
Definition walk_lookup (ld : lookupdata) : P (Z * lookupdata) :=
  '(rc, result) ← vfs_lookup L path_max proc req reply msg (ld_parent ld) (last_component ld);
  let ld := ld <| ld_vnode := default (ld_vnode ld) result |> in
  if bool_decide (rc <> 0) then mret (rc, ld)
  else
    v ← call (deref vnodes (ld_vnode ld));
    if bool_decide (vnode_mounted_here v <> 0) then
      call (vnode_put (ld_vnode ld));;
      let ld := ld <| ld_vnode := vnode_mounted_here v |> in
      call (vnode_inc_ref (ld_vnode ld));;
      blocking (vnode_lock (ld_vnode ld));;
      mret (0, ld)
    else mret (0, ld).

Definition walk_component (ld : lookupdata) : P (Z * lookupdata) :=
  p ← call (deref vnodes (ld_parent ld));
  if negb (S_ISDIR (v_mode p)) then mret (- ENOTDIR, ld)
  else
    is_dot ← call (same_string (last_component ld) dot);
    if is_dot : bool then
      call (vnode_inc_ref (ld_parent ld));;
      mret (0, ld <| ld_vnode := ld_parent ld |>)
    else
      is_dotdot ← call (same_string (last_component ld) dotdot);
      if is_dotdot : bool then
        root ← call (gets root_vnode);
        if bool_decide (ld_parent ld = root) then
          call (vnode_inc_ref root);;
          mret (0, ld <| ld_vnode := root |>)
        else if bool_decide (vnode_covered p <> 0) then
          call (vnode_inc_ref (vnode_covered p));;
          call (vnode_put (ld_parent ld));;
          p ← call (deref vnodes (ld_parent ld));
          walk_lookup (ld <| ld_parent := vnode_covered p |>)
        else walk_lookup ld
      else walk_lookup ld.

(** A round of the loop of lookup_path takes a component of the path. *)
Fixpoint lookup_path_loop (fuel : nat) (ld : lookupdata) : P (Z * lookupdata) :=
  match fuel with
  | O => call fault
  | S fuel =>
      '(name, ld) ← call (path_token ld);
      let ld := ld <| last_component := name |> in
      if bool_decide (name = 0) then mret (- EINVAL, ld)
      else
        ld ← (if bool_decide (ld_parent ld <> 0) then call (vnode_put (ld_parent ld));; mret (ld <| ld_parent := 0 |>)
              else mret ld : P lookupdata);
        last ← call (is_last_component ld);
        if last : bool then mret (0, ld)
        else
          let ld := ld <| ld_parent := ld_vnode ld |> <| ld_vnode := 0 |> in
          '(rc, ld) ← walk_component ld;
          if bool_decide (rc <> 0) then call (vnode_put (ld_parent ld));; mret (rc, ld <| ld_parent := 0 |>)
          else lookup_path_loop fuel ld
  end.

Definition lookup_path (ld : lookupdata) : P (Z * lookupdata) :=
  let ld := ld <| ld_parent := 0 |> <| ld_vnode := start_vnode ld |> in
  call (vnode_inc_ref (ld_vnode ld));;
  blocking (vnode_lock (ld_vnode ld));;
  lookup_path_loop (S path_max) ld.

Definition lookup_last_component (ld : lookupdata) : P (Z * lookupdata) :=
  if bool_decide (last_component ld = 0) then mret (- ENOENT, ld) else walk_component ld.

(** [ld->path[0] == '/' && ld->path[1] == '\0'] *)
Definition is_path_root : M bool :=
  c ← char_at path;
  if bool_decide (c = slash) then c ← char_at (path + 1); mret (bool_decide (c = 0)) else mret false.

Definition lookup (_path flags : Z) (ld : lookupdata) : P (Z * lookupdata) :=
  '(rc, ld) ← call (init_lookup _path flags ld);
  if bool_decide (rc <> 0) then mret (rc, ld)
  else if bool_decide (Z.land flags LOOKUP_PARENT <> 0) then
    root ← call is_path_root;
    if root : bool then mret (- EINVAL, ld)
    else
      '(rc, ld) ← lookup_path ld;
      if bool_decide (rc <> 0) then mret (rc, ld)
      else
        '(_, ld) ← lookup_last_component (ld <| ld_parent := ld_vnode ld |> <| ld_vnode := 0 |>);
        mret (0, ld)
  else if bool_decide (Z.land flags LOOKUP_REMOVE <> 0) then mret (- ENOTSUP, ld)
  else
    root ← call is_path_root;
    if root : bool then
      root ← call (gets root_vnode);
      let ld := ld <| ld_parent := 0 |> <| ld_vnode := root |> in
      call (vnode_inc_ref root);;
      blocking (vnode_lock root);;
      mret (0, ld)
    else
      '(rc, ld) ← lookup_path ld;
      if bool_decide (rc <> 0) then mret (rc, ld)
      else
        '(rc, ld) ← lookup_last_component (ld <| ld_parent := ld_vnode ld |> <| ld_vnode := 0 |>);
        (if bool_decide (ld_parent ld <> ld_vnode ld) then call (vnode_put (ld_parent ld)) else mret ());;
        mret (rc, ld).

End Lookup.

(** ** Components of a path *)

(** A name: not empty, without slashes and NULs. *)
Definition is_name (c : list Z) : Prop := c <> [] /\ Forall (fun x => x <> slash /\ x <> 0) c.

(** What follows a component: each further name after a slash and [k] more
    slashes; [trail], nothing or one slash, ends the path. *)
Fixpoint render (l : list (nat * list Z)) (trail : list Z) : list Z :=
  match l with
  | [] => trail
  | (k, c) :: l => slash :: replicate k slash ++ c ++ render l trail
  end.

Lemma skip_slashes_ok fuel m a k l :
  cstr m a (replicate k slash ++ l) -> l <> [] -> head l <> Some slash -> (k < fuel)%nat ->
  skip_slashes fuel m a = Some (a + Z.of_nat k).
Proof.
  intros Hc Hl Hh. revert fuel a Hc. induction k as [|k IH]; intros [|fuel] a Hc Hf; try lia; cbn [skip_slashes].
  - destruct l as [|x l]; [done|]. destruct Hc as (_ & E & _). rewrite bool_decide_false by (intros H; apply Hh; cbn; congruence).
    f_equal. lia.
  - destruct Hc as (_ & E & Hc). rewrite E, bool_decide_true by done. rewrite (IH fuel (a + 1) Hc) by lia. f_equal. lia.
Qed.

Lemma skip_name_ok fuel m a c t :
  cstr m a (c ++ t) -> Forall (fun x => x <> slash /\ x <> 0) c -> (t = [] \/ head t = Some slash) -> (length c < fuel)%nat ->
  skip_name fuel m a = Some (a + Z.of_nat (length c)).
Proof.
  intros Hc Hn Ht. revert fuel a Hc. induction Hn as [|x c [Hx Hx0] Hn IH]; intros [|fuel] a Hc Hf; cbn [length] in *; try lia;
    cbn [skip_name].
  - rewrite bool_decide_false; [f_equal; lia|]. destruct Ht as [->|Ht]; [cbn in Hc; by intros [_ H]|].
    destruct t as [|y t]; [done|]. cbn in Ht. destruct Hc as (_ & E & _). intros [H _]. apply H. congruence.
  - destruct Hc as (_ & E & Hc). rewrite E, bool_decide_true by done. rewrite (IH fuel (a + 1) Hc) by lia. f_equal. lia.
Qed.

(** A string that is cut. *)
Lemma cstr_cut m m' a c t :
  cstr m a (c ++ t) -> (forall x, x <> a + Z.of_nat (length c) -> m' x = m x) -> m' (a + Z.of_nat (length c)) = 0 -> cstr m' a c.
Proof.
  revert a. induction c as [|x c IH]; intros a Hc Ho He; cbn [length] in *.
  - cbn. by rewrite <- (Z.add_0_r a).
  - destruct Hc as (H0 & E & Hc). split; [done|]. split; [rewrite Ho; [done|lia]|].
    apply IH; [done|intros y Hy; apply Ho; lia|]. rewrite <- He. f_equal. lia.
Qed.

Section Token.
Context (path_max : nat).

(** [path_token] on slashes, a name, and the rest of the path. *)
Lemma path_token_ok ld k c t s :
  cstr (kmem (fmem s)) (position ld) (replicate k slash ++ c ++ t) -> is_name c -> (t = [] \/ head t = Some slash) ->
  (k + length c <= path_max)%nat ->
  let name := position ld + Z.of_nat k in
  let e := name + Z.of_nat (length c) in
  exists m, path_token path_max ld s = Ret (name, ld <| position := if bool_decide (t = []) then e else e + 1 |>
      <| separator := if bool_decide (t = []) then 0 else slash |>) (s <| fmem := fmem s <| kmem := m |> |>) /\
    cstr m name c /\ cstr m (if bool_decide (t = []) then e else e + 1) (tail t) /\
    forall x, x <> e -> m x = kmem (fmem s) x.
Proof.
  intros Hc [Hne Hn] Ht Hf name e.
  assert (Hh : head (c ++ t) <> Some slash).
  { destruct c as [|x c]; [done|]. cbn. apply Forall_cons in Hn as [[Hx _] _]. congruence. }
  assert (Hct : c ++ t <> []) by (by destruct c).
  pose proof (skip_slashes_ok (S path_max) (kmem (fmem s)) (position ld) k (c ++ t) Hc Hct Hh ltac:(lia)) as E1. fold name in E1.
  assert (Hc2 : cstr (kmem (fmem s)) name (c ++ t)).
  { pose proof (cstr_drop _ _ _ k Hc) as H. rewrite length_app, length_replicate, drop_app_length' in H by (by rewrite length_replicate).
    apply H. lia. }
  pose proof (skip_name_ok (S path_max) (kmem (fmem s)) name c t Hc2 Hn Ht ltac:(lia)) as E2. fold e in E2.
  assert (Hc3 : cstr (kmem (fmem s)) e t).
  { pose proof (cstr_drop _ _ _ (length c) Hc2) as H. rewrite length_app, drop_app_length in H. apply H. lia. }
  assert (Hx : (kmem (fmem s)) name <> 0).
  { destruct c as [|x c]; [done|]. destruct Hc2 as (H0 & E & _). congruence. }
  exists (put_bytes e [0] (kmem (fmem s))). unfold path_token.
  rewrite (run_bind _ _ _ _ _ (run_gets _ _)), E1. cbn [lift]. rewrite (run_bind _ _ _ _ _ (run_ret _ _)).
  unfold char_at. rewrite (run_bind _ _ _ _ _ (run_gets _ _)), bool_decide_false by done.
  rewrite (run_bind _ _ _ _ _ (run_gets _ _)), E2. cbn [lift]. rewrite (run_bind _ _ _ _ _ (run_ret _ _)).
  rewrite (run_bind _ _ _ _ _ (run_gets _ _)).
  assert (Et : bool_decide (kmem (fmem s) e = slash) = negb (bool_decide (t = []))).
  { destruct t as [|y t]; [cbn in Hc3; by rewrite bool_decide_false by (rewrite Hc3; done)|].
    destruct Hc3 as (_ & E & _). destruct Ht as [Ht|Ht]; [done|]. cbn in Ht. rewrite bool_decide_true by congruence. done. }
  rewrite Et. split; [|split; [|split]].
  - unfold set_char, kstore, modify. erewrite run_bind by reflexivity. by destruct (bool_decide (t = [])).
  - assert (Ho : forall x, x <> e -> put_bytes e [0] (kmem (fmem s)) x = (kmem (fmem s)) x) by (intros x Hx'; apply put_bytes_out; cbn; lia).
    assert (He : put_bytes e [0] (kmem (fmem s)) e = 0) by (rewrite <- (Z.add_0_r e) at 2; by apply put_bytes_in).
    by apply (cstr_cut (kmem (fmem s)) _ name c t).
  - assert (Ho : forall x, x <> e -> put_bytes e [0] (kmem (fmem s)) x = kmem (fmem s) x) by (intros x Hx'; apply put_bytes_out; cbn; lia).
    destruct t as [|y t].
    { rewrite bool_decide_true by done. cbn. rewrite <- (Z.add_0_r e) at 2. by apply put_bytes_in. }
    rewrite bool_decide_false by done. destruct Hc3 as (_ & _ & H). cbn [tail]. apply (cstr_ext (kmem (fmem s))); [|done].
    intros i Hi. apply Ho. lia.
  - intros x Hx'. apply put_bytes_out. cbn. lia.
Qed.
End Token.

(** ** Vnodes that are let go *)

(** [vnode_put]: the vnode is unlocked and has a reference less; without
    references it goes to the end of the free list. *)
Lemma run_vnode_put v s :
  v <> 0 -> v_superblock (vnodes s v) <> 0 -> v ∉ vnode_free_list s ->
  exists s', vnode_put v s = Ret () s' /\
    s' = s <| vnodes := vnodes s' |> <| superblocks := superblocks s' |> <| vnode_free_list := vnode_free_list s' |>
           <| woken := woken s' |> /\
    (forall w, w <> v -> vnodes s' w = vnodes s w) /\
    v_busy (vnodes s' v) = false /\ v_reference_cnt (vnodes s' v) = v_reference_cnt (vnodes s v) - 1 /\
    v_superblock (vnodes s' v) = v_superblock (vnodes s v) /\ inode_nr (vnodes s' v) = inode_nr (vnodes s v) /\
    v_mode (vnodes s' v) = v_mode (vnodes s v) /\
    vnode_free_list s' = vnode_free_list s ++
      (if bool_decide (v_reference_cnt (vnodes s v) = 1 /\ Z.land (v_flags (vnodes s v)) V_ROOT = 0) then [v] else []) /\
    (forall b, sb_msgbacklog (superblocks s' b) = sb_msgbacklog (superblocks s b)).
Proof.
  intros Hv Hs Hf. unfold vnode_put, upd_vnode, upd_sb. rewrite (run_bind _ _ _ _ _ (run_upd _ _ _ _ _ Hv)). cbv beta.
  set (s1 := s <| vnodes := _ |>). rewrite (run_bind _ _ _ _ _ (run_deref _ _ _ Hv)).
  assert (V1 : vnodes s1 v = vnodes s v <| v_busy := false |> <| v_reference_cnt := v_reference_cnt (vnodes s v) - 1 |>)
    by (subst s1; cbn; by rewrite fn_lookup_insert).
  assert (O1 : forall w, w <> v -> vnodes s1 w = vnodes s w) by (intros w Hw; subst s1; cbn; by rewrite fn_lookup_insert_ne).
  assert (A1 : v_superblock (vnodes s1 v) = v_superblock (vnodes s v)) by (by rewrite V1).
  assert (A2 : v_reference_cnt (vnodes s1 v) = v_reference_cnt (vnodes s v) - 1) by (by rewrite V1).
  assert (A3 : v_flags (vnodes s1 v) = v_flags (vnodes s v)) by (by rewrite V1).
  rewrite A1, A2, A3, (run_bind _ _ _ _ _ (run_upd _ _ _ _ _ Hs)). cbv beta. set (s2 := s1 <| superblocks := _ |>).
  assert (B2 : forall b, sb_msgbacklog (superblocks s2 b) = sb_msgbacklog (superblocks s b)).
  { intros b. subst s2. cbn. destruct (decide (b = v_superblock (vnodes s v))) as [->|];
      [by rewrite fn_lookup_insert|by rewrite fn_lookup_insert_ne]. }
  destruct (decide (v_reference_cnt (vnodes s v) = 1 /\ Z.land (v_flags (vnodes s v)) V_ROOT = 0)) as [[Hr Hfl]|Hno].
  - rewrite (bool_decide_true (v_reference_cnt (vnodes s v) = 1 /\ _)) by done.
    match goal with |- context [(if bool_decide ?P then _ else _)] => rewrite (bool_decide_true P) by (cbn; lia) end.
    erewrite run_bind.
    2: { rewrite (run_bind _ _ _ _ _ (run_upd _ _ _ _ _ Hv)), (run_bind _ _ _ _ _ (run_gets _ _)).
         match goal with |- context [Seq.add_tail v ?l] => change l with (vnode_free_list s) end.
         rewrite Seq.add_tail_fresh by done. reflexivity. }
    eexists. split; [reflexivity|]. split; [subst s2 s1; by destruct s|]. cbn. rewrite !fn_lookup_insert.
    split; [intros w Hw; rewrite !fn_lookup_insert_ne by done; done|]. cbn. split_and!; try done.
  - rewrite (bool_decide_false (v_reference_cnt (vnodes s v) = 1 /\ _)) by done.
    match goal with |- context [(if bool_decide ?P then _ else _)] => rewrite (bool_decide_false P) by (cbn; lia) end.
    rewrite (run_bind _ _ _ _ _ (run_ret _ _)). eexists. split; [reflexivity|]. split; [subst s2 s1; by destruct s|].
    change (vnodes (_ <| woken := _ |>)) with (vnodes s1). split; [exact O1|]. rewrite V1. cbn. rewrite app_nil_r.
    split_and!; try done.
Qed.

(** ** A walk down the directories of a server *)

Lemma elem_of_swap (x a b : Z) l : x ∈ b :: a :: l <-> x ∈ a :: b :: l.
Proof. rewrite !elem_of_cons. tauto. Qed.

Lemma elem_of_skip (x v : Z) l : x <> v -> x ∈ v :: l <-> x ∈ l.
Proof. intros H. rewrite elem_of_cons. tauto. Qed.

Section Walk.
Context (L : protocol) (path_max : nat) (proc req reply msg : Z) (path dot dotdot : Z).
Context (bdflush_brelse : Z -> M unit) (server fd sb umsgid addr buf_sz raddr : Z) (answer : list Z -> Z * list Z).
Context (um : Z -> Z) (uv : Z -> bool).
Notation server_runs := (as_process um uv (serve bdflush_brelse server fd umsgid addr buf_sz raddr answer)).
Context (Hend : endpoint L umsgid addr buf_sz uv) (Hmsg : msg <> 0) (Hsb : sb <> 0).
Context (Hraddr : forall x, raddr <= x < raddr + fsreply_sz L -> uv x = true).

(** The kernel's variables are apart from each other and from the word [fdw]
    that holds the server's descriptor. *)
Record apart_ok (fdw : Z) : Prop := {
  ap_req : ~ (req <= fdw < req + fsreq_sz L);
  ap_reply : ~ (reply <= fdw < reply + fsreply_sz L);
  ap_path : ~ (path <= fdw <= path + Z.of_nat path_max);
  ap_req_reply : req + fsreq_sz L <= reply \/ reply + fsreply_sz L <= req;
  ap_req_path : req + fsreq_sz L <= path \/ path + Z.of_nat path_max < req;
  ap_reply_path : reply + fsreply_sz L <= path \/ path + Z.of_nat path_max < reply;
  ap_reply_sz : 0 <= fsreply_sz L;
  ap_dot a : dot <= a < dot + 2 \/ dotdot <= a < dotdot + 3 ->
    ~ (req <= a < req + fsreq_sz L) /\ ~ (reply <= a < reply + fsreply_sz L) /\ ~ (path <= a <= path + Z.of_nat path_max)
}.

(** The server has the file [a] under the name [c] of its directory [d]. *)
Definition entry (d : Z) (c : list Z) (a : attributes) : Prop :=
  let r := answer (fsreq_bytes L (CMD_LOOKUP d (Z.of_nat (length c) + 1)) ++ (c ++ [0])) in
  fst r = 0 /\ Z.of_nat (length (snd r)) = fsreply_sz L /\ reply_lookup L (snd r) = a.

(** Names that are looked up at the server. *)
Definition plain (c : list Z) : Prop :=
  is_name c /\ c <> [46] /\ c <> [46; 46] /\ (length c < path_max)%nat /\ fsreq_sz L + (Z.of_nat (length c) + 1) <= buf_sz.

(** From the directory [d] the names lead to the files [l]. *)
Fixpoint chain (d : Z) (names : list (list Z)) (l : list attributes) : Prop :=
  match names, l with
  | [], [] => True
  | c :: names, a :: l =>
      entry d c a /\ plain c /\ (names <> [] -> S_ISDIR (a_mode a) = true) /\ chain (a_inode_nr a) names l
  | _, _ => False
  end.

(** No vnode of the table is that of the inode. *)
Definition uncached (i : Z) (s : fs) : Prop :=
  forall w, 0 < w <= NR_VNODE -> ~ (v_superblock (vnodes s w) = sb /\ inode_nr (vnodes s w) = i).

Lemma uncached_find i n t s :
  uncached i s -> 0 <= t -> t + Z.of_nat n <= NR_VNODE -> vnode_find_loop n t sb i s = 0.
Proof using All.
  intros Hu. revert t. induction n as [|n IH]; intros t Ht Hn; cbn [vnode_find_loop]; [done|].
  rewrite bool_decide_false by (apply Hu; lia). apply IH; lia.
Qed.

(** The state of a lookup that started in [s0] at the directory [start]:
    [locked] are the directories it holds; [fl ++ ex] is the free list, of
    which [fl] are vnodes it has not used. *)
Section Inv.
Context (s0 : fs) (start : Z) (fdw : Z).

Record walking (locked fl ex : list Z) (pend : list Z) (s : fs) : Prop := {
  wk_ready : ready proc server fd sb s;
  wk_fproc : fproc s = fproc s0;
  wk_root : root_vnode s = root_vnode s0;
  wk_nodup : NoDup (locked ++ fl ++ ex);
  wk_free : vnode_free_list s = fl ++ ex;
  wk_from v : v ∈ fl ++ ex -> v ∈ vnode_free_list s0;
  wk_locked v : v ∈ locked -> v <> 0 /\ v_superblock (vnodes s v) = sb /\ v_busy (vnodes s v) = true /\
    (v <> start -> v ∈ vnode_free_list s0 /\ v_reference_cnt (vnodes s v) = 1 /\ Z.land (v_flags (vnodes s v)) V_ROOT = 0);
  wk_start : v_reference_cnt (vnodes s start) =
      v_reference_cnt (vnodes s0 start) + (if bool_decide (start ∈ locked) then 1 else 0) /\
    (start ∉ locked -> v_busy (vnodes s start) = false);
  wk_others w : w <> start -> w ∉ vnode_free_list s0 -> vnodes s w = vnodes s0 w;
  wk_uncached i : i ∈ pend -> uncached i s;
  wk_dot : cstr (kmem (fmem s)) dot [46];
  wk_dotdot : cstr (kmem (fmem s)) dotdot [46; 46];
  wk_uvalid : uvalid s = uvalid s0
}.

Context (Hfdw : fproc s0 server + 4 * (fd_table + fd) = fdw) (Hap : apart_ok fdw).
Context (Hfree : forall v, v ∈ vnode_free_list s0 -> 0 < v <= NR_VNODE) (Hstart : start ∉ vnode_free_list s0).
Context (Hheld : 1 <= v_reference_cnt (vnodes s0 start)).

Lemma walking_swap a b l fl ex pend s : walking (a :: b :: l) fl ex pend s -> walking (b :: a :: l) fl ex pend s.
Proof using All.
  intros []. split; try done.
  - eapply NoDup_Permutation_proper; [|exact wk_nodup0]. simpl. constructor.
  - intros v Hv. by apply wk_locked0, elem_of_swap.
  - destruct wk_start0 as [E Hb]. split; [rewrite E|intros H; apply Hb; by rewrite elem_of_swap].
    f_equal. by rewrite (bool_decide_ext (start ∈ b :: a :: l) (start ∈ a :: b :: l)) by apply elem_of_swap.
Qed.

(** A change of kernel memory that leaves the server and the constants. *)
Lemma walking_kmem m locked fl ex pend s :
  walking locked fl ex pend s -> m fdw = kmem (fmem s) fdw ->
  (forall a, dot <= a < dot + 2 \/ dotdot <= a < dotdot + 3 -> m a = kmem (fmem s) a) ->
  walking locked fl ex pend (s <| fmem := fmem s <| kmem := m |> |>).
Proof using All.
  intros [] Hm Hd. split; try done.
  - destruct wk_ready0. split; try done; [|by apply (notes_ok_ext _ s)]. apply (serving_ext _ _ _ s); [done..|].
    rewrite wk_fproc0, Hfdw. exact Hm.
  - apply (cstr_ext (kmem (fmem s))); [|done]. intros i Hi. apply Hd. cbn in Hi. lia.
  - apply (cstr_ext (kmem (fmem s))); [|done]. intros i Hi. apply Hd. cbn in Hi. lia.
Qed.

(** A directory is let go. *)
Lemma walking_put u locked fl ex pend s :
  walking (u :: locked) fl ex pend s ->
  exists s' ex', vnode_put u s = Ret () s' /\ walking locked fl ex' pend s' /\
    fmem s' = fmem s /\ (forall w, w <> u -> vnodes s' w = vnodes s w).
Proof using All.
  intros W. pose proof (wk_nodup _ _ _ _ _ W) as Hnd. cbn in Hnd. apply NoDup_cons in Hnd as [Hu Hnd].
  destruct (wk_locked _ _ _ _ _ W u (list_elem_of_here _ _)) as (Hu0 & Hus & Hub & Hur).
  assert (Hfl : vnode_free_list s = fl ++ ex) by apply W.
  apply not_elem_of_app in Hu as [Hul Huf].
  destruct (run_vnode_put u s Hu0) as (s' & E & R & O & B & Rc & Sb & In & Mo & Fl & Ms); [by rewrite Hus|by rewrite Hfl|].
  exists s', (ex ++ (if bool_decide (v_reference_cnt (vnodes s u) = 1 /\ Z.land (v_flags (vnodes s u)) V_ROOT = 0) then [u] else [])).
  split; [exact E|]. split; [|split; [by rewrite R|exact O]].
  assert (Hadd : forall v, v ∈ (if bool_decide (v_reference_cnt (vnodes s u) = 1 /\ Z.land (v_flags (vnodes s u)) V_ROOT = 0)
    then [u] else []) -> v = u /\ u <> start).
  { intros v Hv. case_bool_decide as Hc; [apply list_elem_of_singleton in Hv as ->|by apply not_elem_of_nil in Hv].
    split; [done|]. intros ->. destruct (wk_start _ _ _ _ _ W) as [Hst _].
    rewrite bool_decide_true in Hst by apply list_elem_of_here. lia. }
  set (add := if bool_decide _ then [u] else []) in *.
  assert (Hnd' : NoDup (locked ++ fl ++ ex ++ add)).
  { rewrite app_assoc in Hnd. rewrite !app_assoc. apply NoDup_app. rewrite <- app_assoc in Hnd |- *. split; [done|]. split.
    - intros v Hv Hv'. apply Hadd in Hv' as [-> _]. rewrite elem_of_app in Hv. tauto.
    - subst add. case_bool_decide; [apply NoDup_singleton|apply NoDup_nil_2]. }
  destruct W. split.
  - apply (ready_ext _ _ _ _ s); [done|by rewrite R..|apply Ms].
  - by rewrite R.
  - by rewrite R.
  - exact Hnd'.
  - rewrite Fl, Hfl. by rewrite app_assoc.
  - intros v Hv. rewrite app_assoc, elem_of_app in Hv. destruct Hv as [Hv|[-> Hne]%Hadd]; [by apply wk_from0|by apply Hur].
  - intros v Hv. assert (Hvu : v <> u) by congruence. rewrite O by done. apply wk_locked0. by apply list_elem_of_further.
  - destruct wk_start0 as [Est Hbu]. destruct (decide (start = u)) as [->|Hne].
    + rewrite Rc, Est. rewrite (bool_decide_true (u ∈ u :: locked)) by apply list_elem_of_here.
      rewrite (bool_decide_false (u ∈ locked)) by done. split; [lia|done].
    + rewrite O by done. rewrite (bool_decide_ext (start ∈ locked) (start ∈ u :: locked)) by (symmetry; by apply elem_of_skip).
      split; [done|]. intros Hns. apply Hbu. rewrite elem_of_cons. tauto.
  - intros w Hw Hwf. destruct (decide (w = u)) as [->|Hwu]; [by destruct (Hur Hw)|]. rewrite O by done. by apply wk_others0.
  - intros i Hi w Hw. specialize (wk_uncached0 i Hi w Hw). destruct (decide (w = u)) as [->|Hwu]; [by rewrite Sb, In|by rewrite O].
  - by rewrite R.
  - by rewrite R.
  - by rewrite R.
Qed.

(** The server finds the entry [c] of the directory [cur], and a vnode is made
    for it. *)
Lemma walking_lookup cur name c a v locked fl ex pend s env :
  walking (cur :: locked) (v :: fl) ex (a_inode_nr a :: pend) s -> a_inode_nr a ∉ pend ->
  (0 < cur <= NR_VNODE) -> entry (inode_nr (vnodes s cur)) c a -> plain c -> cstr (kmem (fmem s)) name c ->
  path <= name -> name + Z.of_nat (length c) <= path + Z.of_nat path_max ->
  exists s', vfs_lookup L path_max proc req reply msg cur name (server_runs :: env) s = Done (0, Some v) env s' /\
    walking (v :: cur :: locked) fl ex pend s' /\
    inode_nr (vnodes s' v) = a_inode_nr a /\ v_mode (vnodes s' v) = a_mode a /\ v_size (vnodes s' v) = a_size a /\
    v_uid (vnodes s' v) = a_uid a /\ v_gid (vnodes s' v) = a_gid a /\ vnode_mounted_here (vnodes s' v) = 0 /\
    (forall w, w <> v -> vnodes s' w = vnodes s w) /\
    (forall x, path <= x <= path + Z.of_nat path_max -> kmem (fmem s') x = kmem (fmem s) x).
Proof using All.
  intros W Hnp Hcur (He & Hla & Ha) (_ & _ & _ & Hlen & Hbuf) Hc Hn1 Hn2. destruct Hend as [E1 E2 E3 E4].
  destruct (wk_locked _ _ _ _ _ W cur (list_elem_of_here _ _)) as (Hc0 & Hcs & _ & _).
  pose proof (wk_nodup _ _ _ _ _ W) as Hnd.
  assert (Hfw : fd_word server fd s = fdw) by (unfold fd_word; by rewrite (wk_fproc _ _ _ _ _ W)).
  assert (Hu : uncached (a_inode_nr a) s) by (apply (wk_uncached _ _ _ _ _ W), list_elem_of_here).
  destruct Hap.
  destruct (vfs_lookup_new L proc req reply msg bdflush_brelse server fd sb umsgid addr buf_sz raddr answer um uv
    Hmsg Hsb E1 E2 E3 E4 path_max cur name c s Hc0 Hcs (wk_ready _ _ _ _ _ W) Hc Hlen) with (v := v) (fl := fl ++ ex) (env := env)
    as (s' & E & F & O & B & Rc & Sb & In & Mo & Sz & Ui & Gi & Mh & Co & Vf & Ro & Fp & Uv & K & R'); try (rewrite Hfw); try done.
  - clear - ap_req_path0 Hn1 Hn2. lia.
  - clear - ap_reply_path0 Hn1 Hn2. lia.
  - rewrite Ha. intros H. apply (Hu cur Hcur). by split.
  - rewrite Ha. apply uncached_find; [done|lia|done].
  - apply W.
  - assert (0 < v); [|lia]. apply Hfree, (wk_from _ _ _ _ _ W), list_elem_of_here.
  - rewrite Ha in In, Mo, Sz, Ui, Gi. exists s'. split; [exact E|]. split; [|split_and!; try done; intros x Hx; apply K; clear - Hx ap_req_path0 ap_reply_path0; lia].
    assert (Hvc : cur <> v) by (intros ->; apply NoDup_cons in Hnd as [H _]; apply H, elem_of_app; right; apply list_elem_of_here).
    assert (Hvn : v ∉ cur :: locked).
    { intros Hin. apply NoDup_app in Hnd as (_ & H & _). apply (H v Hin), list_elem_of_here. }
    destruct W. split; try done.
    + by rewrite Fp.
    + by rewrite Ro.
    + eapply NoDup_Permutation_proper; [|exact Hnd]. simpl. by rewrite <- Permutation_middle, Permutation_swap.
    + intros w Hw. apply wk_from0. by apply list_elem_of_further.
    + intros w Hw. apply elem_of_cons in Hw as [->|Hw].
      * split_and!; [|done..|]; [assert (0 < v); [|lia]; apply Hfree, wk_from0, list_elem_of_here|].
        intros _. rewrite Vf. split_and!; [apply wk_from0, list_elem_of_here|done|done].
      * assert (w <> v) by congruence. rewrite O by done. by apply wk_locked0.
    + assert (Hsv : start <> v) by (intros ->; apply Hstart, wk_from0, list_elem_of_here).
      rewrite O by done. rewrite (bool_decide_ext (start ∈ v :: cur :: locked) (start ∈ cur :: locked)) by (by apply elem_of_skip).
      destruct wk_start0 as [H H']. split; [done|]. intros Hn. apply H'. intros Hin. apply Hn. by apply list_elem_of_further.
    + intros w Hw Hwf. assert (w <> v) by (intros ->; apply Hwf, wk_from0, list_elem_of_here). rewrite O by done. by apply wk_others0.
    + intros i Hi w Hw. destruct (decide (w = v)) as [->|Hwv]; [rewrite In; intros [_ <-]; done|]. rewrite O by done.
      apply wk_uncached0; [by apply list_elem_of_further|done].
    + apply (cstr_ext (kmem (fmem s))); [|done]. intros i Hi. cbn in Hi.
      destruct (ap_dot0 i ltac:(clear - Hi; lia)) as (D1 & D2 & _). by apply K.
    + apply (cstr_ext (kmem (fmem s))); [|done]. intros i Hi. cbn in Hi.
      destruct (ap_dot0 i ltac:(clear - Hi; lia)) as (D1 & D2 & _). by apply K.
    + by rewrite Uv.
Qed.

Lemma not_same_string name c a l s :
  cstr (kmem (fmem s)) name c -> cstr (kmem (fmem s)) a l -> c <> l -> (length c < path_max)%nat ->
  same_string path_max name a s = Ret false s.
Proof using All.
  intros Hc Hl Hne Hlen. unfold same_string. rewrite (run_bind _ _ _ _ _ (run_gets _ _)).
  rewrite (StrCmp_ok _ _ _ _ _ _ Hc Hl) by lia. cbn [lift]. rewrite (run_bind _ _ _ _ _ (run_ret _ _)).
  rewrite bool_decide_false; [done|]. intros H. apply Hne.
  by apply str_cmp_eq in H; [|by eapply cstr_nonzero..].
Qed.

Lemma walking_component cur c a v locked fl ex pend ld s env :
  walking (cur :: locked) (v :: fl) ex (a_inode_nr a :: pend) s -> a_inode_nr a ∉ pend ->
  (0 < cur <= NR_VNODE) -> S_ISDIR (v_mode (vnodes s cur)) = true ->
  entry (inode_nr (vnodes s cur)) c a -> plain c -> cstr (kmem (fmem s)) (last_component ld) c ->
  path <= last_component ld -> last_component ld + Z.of_nat (length c) <= path + Z.of_nat path_max -> ld_parent ld = cur ->
  exists s', walk_component L path_max proc req reply msg dot dotdot ld (server_runs :: env) s =
      Done (0, ld <| ld_vnode := v |>) env s' /\
    walking (v :: cur :: locked) fl ex pend s' /\
    inode_nr (vnodes s' v) = a_inode_nr a /\ v_mode (vnodes s' v) = a_mode a /\ v_size (vnodes s' v) = a_size a /\
    v_uid (vnodes s' v) = a_uid a /\ v_gid (vnodes s' v) = a_gid a /\
    (forall w, w <> v -> vnodes s' w = vnodes s w) /\
    (forall x, path <= x <= path + Z.of_nat path_max -> kmem (fmem s') x = kmem (fmem s) x).
Proof using All.
  intros W Hnp Hcur Hdir He Hpl Hc Hn1 Hn2 Hpar.
  assert (Hc0 : cur <> 0) by (clear - Hcur; lia).
  assert (Hv0 : v <> 0).
  { assert (0 < v); [|lia]. apply Hfree, (wk_from _ _ _ _ _ W), list_elem_of_here. }
  destruct (walking_lookup cur (last_component ld) c a v locked fl ex pend s env W Hnp Hcur He Hpl Hc Hn1 Hn2)
    as (s' & E & W' & In & Mo & Sz & Ui & Gi & Mh & O & K).
  exists s'. split; [|by split_and!]. destruct Hpl as (_ & Hd1 & Hd2 & Hlen & _).
  unfold walk_component. rewrite Hpar, (prun_bind _ _ _ _ _ _ _ (run_call _ _ _ _ _ (run_deref _ _ _ Hc0))), Hdir. cbn [negb].
  rewrite (prun_bind _ _ _ _ _ _ _ (run_call _ _ _ _ _ (not_same_string _ _ _ _ _ Hc (wk_dot _ _ _ _ _ W) Hd1 Hlen))).
  rewrite (prun_bind _ _ _ _ _ _ _ (run_call _ _ _ _ _ (not_same_string _ _ _ _ _ Hc (wk_dotdot _ _ _ _ _ W) Hd2 Hlen))).
  unfold walk_lookup. rewrite Hpar, (prun_bind _ _ _ _ _ _ _ E). cbn [default].
  rewrite bool_decide_false by (intros H; by apply H).
  change (ld_vnode (ld <| ld_vnode := v |>)) with v.
  rewrite (prun_bind _ _ _ _ _ _ _ (run_call _ _ _ _ _ (run_deref _ _ _ Hv0))), Mh. done.
Qed.

(** The directories held at the start of a round. *)
Definition held (cur par : Z) : list Z := if bool_decide (par = 0) then [cur] else [par; cur].

(** A round of lookup_path up to the walk. *)
Lemma walking_round fuel k c t cur ld fl ex pend env s :
  walking (held cur (ld_parent ld)) fl ex pend s -> ld_vnode ld = cur ->
  cstr (kmem (fmem s)) (position ld) (replicate k slash ++ c ++ t) -> plain c -> (t = [] \/ head t = Some slash) ->
  0 < path <= position ld -> position ld + Z.of_nat (k + length c + length t) <= path + Z.of_nat path_max ->
  exists s1 ex1 ld1, lookup_path_loop L path_max proc req reply msg dot dotdot (S fuel) ld env s =
      (if bool_decide (tail t = []) then mret (0, ld1)
       else
         '(rc, ld) ← walk_component L path_max proc req reply msg dot dotdot (ld1 <| ld_parent := cur |> <| ld_vnode := 0 |>);
         if bool_decide (rc <> 0) then call (vnode_put (ld_parent ld));; mret (rc, ld <| ld_parent := 0 |>)
         else lookup_path_loop L path_max proc req reply msg dot dotdot fuel ld) env s1 /\
    walking [cur] fl ex1 pend s1 /\ vnodes s1 cur = vnodes s cur /\
    ld_vnode ld1 = cur /\ ld_parent ld1 = 0 /\ last_component ld1 = position ld + Z.of_nat k /\
    cstr (kmem (fmem s1)) (last_component ld1) c /\ cstr (kmem (fmem s1)) (position ld1) (tail t) /\
    position ld1 = position ld + Z.of_nat (k + length c) + (if bool_decide (t = []) then 0 else 1).
Proof using All.
  intros W Hv Hc Hpl Ht Hp1 Hp2. destruct Hpl as (Hn & _).
  destruct (path_token_ok path_max ld k c t s Hc Hn Ht) as (m & Et & Hc1 & Hc2 & Ho); [lia|].
  set (name := position ld + Z.of_nat k) in *. set (e := name + Z.of_nat (length c)) in *.
  set (ld0 := ld <| position := _ |> <| separator := _ |>) in Et.
  assert (He : path <= e <= path + Z.of_nat path_max) by (subst e name; lia).
  assert (Wm : walking (held cur (ld_parent ld)) fl ex pend (s <| fmem := fmem s <| kmem := m |> |>)).
  { apply walking_kmem; [done|..].
    - apply Ho. intros ->. by apply (ap_path _ Hap).
    - intros a Ha. apply Ho. intros ->. destruct (ap_dot _ Hap e Ha) as (_ & _ & H). by apply H. }
  set (sm := s <| fmem := fmem s <| kmem := m |> |>) in *.
  assert (Hput : exists s1 ex1 ld1,
    (if bool_decide (ld_parent ld <> 0) then call (vnode_put (ld_parent ld));; mret (ld0 <| last_component := name |> <| ld_parent := 0 |>)
     else mret (ld0 <| last_component := name |>) : P lookupdata) env sm = Done ld1 env s1 /\
    walking [cur] fl ex1 pend s1 /\ vnodes s1 cur = vnodes s cur /\ fmem s1 = fmem sm /\
    ld_vnode ld1 = cur /\ ld_parent ld1 = 0 /\ last_component ld1 = name /\ position ld1 = position ld0 /\ separator ld1 = separator ld0).
  { unfold held in Wm. destruct (decide (ld_parent ld = 0)) as [Hp0|Hp0].
    - rewrite bool_decide_true in Wm by done. rewrite bool_decide_false by (intros H; by apply H).
      exists sm, ex, (ld0 <| last_component := name |>). done.
    - rewrite bool_decide_false in Wm by done. rewrite bool_decide_true by done.
      destruct (walking_put _ _ _ _ _ _ Wm) as (s1 & ex1 & E1 & W1 & F1 & O1).
      exists s1, ex1, (ld0 <| last_component := name |> <| ld_parent := 0 |>).
      rewrite (prun_bind _ _ _ _ _ _ _ (run_call _ _ _ _ _ E1)). split; [done|]. split; [done|]. split; [|done].
      rewrite O1; [done|]. intros Heq. pose proof (wk_nodup _ _ _ _ _ Wm) as Hnd. cbn in Hnd.
      apply NoDup_cons in Hnd as [Hnd _]. apply Hnd. rewrite <- Heq. apply list_elem_of_here. }
  destruct Hput as (s1 & ex1 & ld1 & Ep & W1 & V1 & F1 & L1 & L2 & L3 & L4 & L5).
  exists s1, ex1, ld1. split; [|split_and!; try done].
  - cbn [lookup_path_loop]. rewrite (prun_bind _ _ _ _ _ _ _ (run_call _ _ _ _ _ Et)).
    rewrite bool_decide_false by (subst name; lia). change (ld_parent (ld0 <| last_component := name |>)) with (ld_parent ld).
    rewrite (prun_bind _ _ _ _ _ _ _ Ep).
    assert (El : is_last_component ld1 s1 = Ret (bool_decide (tail t = [])) s1).
    { unfold is_last_component. rewrite L5. subst ld0. cbn [separator update_field].
      destruct t as [|y t]; [done|]. rewrite (bool_decide_false (y :: t = [])) in Hc2 by done. cbn [tail] in Hc2 |- *.
      change (separator _) with (if bool_decide (y :: t = []) then 0 else slash). rewrite (bool_decide_false (y :: t = [])) by done.
      rewrite bool_decide_false by done. unfold char_at. rewrite (run_bind _ _ _ _ _ (run_gets _ _)), F1, L4.
      change (position _) with (if bool_decide (y :: t = []) then e else e + 1). rewrite (bool_decide_false (y :: t = [])) by done.
      change (kmem (fmem sm)) with m. destruct t as [|z t]; cbn in Hc2.
      - by rewrite bool_decide_true.
      - destruct Hc2 as (Hz & Ez & _). rewrite Ez, !bool_decide_false by done. done. }
    rewrite (prun_bind _ _ _ _ _ _ _ (run_call _ _ _ _ _ El)). rewrite L1. done.
  - rewrite L3, F1. exact Hc1.
  - rewrite L4, F1. exact Hc2.
  - rewrite L4. subst ld0 e name. cbn. case_bool_decide; lia.
Qed.

(** lookup_path walks all components but the last. *)
Lemma walking_path l trail : trail = [] \/ trail = [slash] ->
  forall fuel k c as_ cur ld fl ex env s,
  walking (held cur (ld_parent ld)) fl ex (map a_inode_nr as_) s -> ld_vnode ld = cur -> 0 < cur <= NR_VNODE ->
  S_ISDIR (v_mode (vnodes s cur)) = true -> chain (inode_nr (vnodes s cur)) (c :: map snd l) as_ ->
  NoDup (map a_inode_nr as_) -> (length as_ <= length fl)%nat -> (length l < fuel)%nat ->
  cstr (kmem (fmem s)) (position ld) (replicate k slash ++ c ++ render l trail) ->
  0 < path <= position ld -> position ld + Z.of_nat (k + length c + length (render l trail)) <= path + Z.of_nat path_max ->
  exists cur' a fl' ex' ld' s' cl,
    lookup_path_loop L path_max proc req reply msg dot dotdot fuel ld (replicate (length l) server_runs ++ env) s =
      Done (0, ld') env s' /\
    walking [cur'] fl' ex' [a_inode_nr a] s' /\ ld_vnode ld' = cur' /\ 0 < cur' <= NR_VNODE /\
    last as_ = Some a /\ last (c :: map snd l) = Some cl /\ (1 <= length fl')%nat /\
    entry (inode_nr (vnodes s' cur')) cl a /\ plain cl /\ S_ISDIR (v_mode (vnodes s' cur')) = true /\
    cstr (kmem (fmem s')) (last_component ld') cl /\ path <= last_component ld' /\
    last_component ld' + Z.of_nat (length cl) <= path + Z.of_nat path_max.
Proof using All.
  intros Htr. induction l as [|[k' c'] l IH]; intros [|fuel] k c as_ cur ld fl ex env s W Hv Hcur Hdir Hch Hnd Hlen Hf Hc Hp1 Hp2;
    cbn [length] in Hf; try (exfalso; clear - Hf; lia); cbn [map] in Hch;
    destruct as_ as [|a as_]; try done; destruct Hch as (Hent & Hpl & Hadir & Hch).
  - destruct as_ as [|a2 as_]; [|done].
    destruct (walking_round fuel k c (render [] trail) cur ld fl ex [a_inode_nr a] env s W Hv Hc Hpl)
      as (s1 & ex1 & ld1 & E & W1 & V1 & L1 & L2 & L3 & Hc1 & _ & _); [cbn; destruct Htr as [->| ->]; auto|done|done|].
    rewrite bool_decide_true in E by (cbn; by destruct Htr as [->| ->]).
    exists cur, a, fl, ex1, ld1, s1, c. rewrite V1. cbn [length replicate app]. split; [exact E|]. split; [exact W1|].
    cbn [length] in Hlen. split_and!; try done; try (rewrite L3; lia); try apply Hcur; try apply Hpl; try (clear - Hlen; lia).
  - destruct fl as [|v fl]; [cbn in Hlen; exfalso; clear - Hlen; lia|]. cbn [map] in W, Hnd. apply NoDup_cons in Hnd as [Hna Hnd].
    destruct (walking_round fuel k c (render ((k', c') :: l) trail) cur ld (v :: fl) ex (a_inode_nr a :: map a_inode_nr as_)
      (replicate (length ((k', c') :: l)) server_runs ++ env) s W Hv Hc Hpl)
      as (s1 & ex1 & ld1 & E & W1 & V1 & L1 & L2 & L3 & Hc1 & Hc2 & L4); [by right|done|done|].
    rewrite (bool_decide_false (render ((k', c') :: l) trail = [])) in L4 by done. cbn [render tail] in E, Hc2.
    assert (Hne : replicate k' slash ++ c' ++ render l trail <> []).
    { destruct as_ as [|a2 as_]; [done|]. destruct Hch as (_ & ((Hne & _) & _) & _). intros [_ [? _]%app_eq_nil]%app_eq_nil. done. }
    rewrite bool_decide_false in E by done. cbn [render length] in Hp2. rewrite !length_app, length_replicate in Hp2.
    set (ld2 := ld1 <| ld_parent := cur |> <| ld_vnode := 0 |>) in E.
    destruct (walking_component cur c a v [] fl ex1 (map a_inode_nr as_) ld2 s1 (replicate (length l) server_runs ++ env) W1 Hna Hcur)
      as (s2 & Ew & W2 & In & Mo & _ & _ & _ & O2 & K2); try (by rewrite V1); try done.
    { change (last_component ld2) with (last_component ld1). rewrite L3. lia. }
    { change (last_component ld2) with (last_component ld1). rewrite L3. lia. }
    rewrite E. cbn [length replicate app]. rewrite (prun_bind _ _ _ _ _ _ _ Ew). rewrite bool_decide_false by (intros H; by apply H).
    set (ld3 := ld2 <| ld_vnode := v |>).
    assert (Hcur0 : cur <> 0) by (clear - Hcur; lia).
    assert (Hvf : 0 < v <= NR_VNODE) by (apply Hfree, (wk_from _ _ _ _ _ W1), list_elem_of_here).
    destruct (IH fuel k' c' as_ v ld3 fl ex1 env s2) as (cur' & a' & fl' & ex' & ld' & s' & cl & El & Hrest); try done.
    + change (ld_parent ld3) with cur. unfold held. rewrite bool_decide_false by done. by apply walking_swap.
    + rewrite Mo. apply Hadir. done.
    + by rewrite In.
    + cbn in Hlen. lia.
    + lia.
    + change (position ld3) with (position ld1). apply (cstr_ext (kmem (fmem s1))); [|done]. intros i Hi. apply K2.
      rewrite !length_app, length_replicate in Hi. rewrite L4 in Hi. lia.
    + change (position ld3) with (position ld1). lia.
    + change (position ld3) with (position ld1). lia.
    + exists cur', a', fl', ex', ld', s', cl. split; [exact El|].
      destruct Hrest as (R1 & R2 & R3 & R4 & R5 & Rr). split; [done|]. split; [done|]. split; [done|].
      destruct as_ as [|a2 as_]; [done|]. split; [exact R4|]. split; [exact R5|done].
Qed.

(** The lookup takes its first directory. *)
Lemma walking_start fl pend s :
  ready proc server fd sb s -> fproc s = fproc s0 -> root_vnode s = root_vnode s0 -> vnodes s = vnodes s0 ->
  vnode_free_list s = fl -> vnode_free_list s0 = fl -> NoDup fl -> start <> 0 ->
  v_superblock (vnodes s0 start) = sb -> v_busy (vnodes s0 start) = false -> (forall i, i ∈ pend -> uncached i s) ->
  cstr (kmem (fmem s)) dot [46] -> cstr (kmem (fmem s)) dotdot [46; 46] -> uvalid s = uvalid s0 ->
  exists s1 s2, vnode_inc_ref start s = Ret () s1 /\ vnode_lock start s1 = Ret () s2 /\ fmem s2 = fmem s /\
    walking [start] fl [] pend s2 /\ inode_nr (vnodes s2 start) = inode_nr (vnodes s start) /\
    v_mode (vnodes s2 start) = v_mode (vnodes s start).
Proof using All.
  intros R Ef Er Ev El El0 Hnd H0 Hs Hb Hu Hd1 Hd2 Huv. rewrite <- Ev in Hs, Hb.
  set (s1 := inc_ref_state start s).
  assert (V1 : forall w, vnodes s1 w = if bool_decide (w = start) then
    vnodes s start <| v_reference_cnt := v_reference_cnt (vnodes s start) + 1 |> else vnodes s w).
  { intros w. subst s1. cbn. case_bool_decide as Hw; [subst; by rewrite fn_lookup_insert|by rewrite fn_lookup_insert_ne]. }
  assert (V1s := V1 start). rewrite bool_decide_true in V1s by done.
  set (s2 := s1 <| vnodes := <[start := vnodes s1 start <| v_busy := true |>]> (vnodes s1) |>).
  assert (V2 : vnodes s2 start = vnodes s1 start <| v_busy := true |>) by (subst s2; cbn; by rewrite fn_lookup_insert).
  assert (O2 : forall w, w <> start -> vnodes s2 w = vnodes s w).
  { intros w Hw. transitivity (vnodes s1 w); [exact (fn_lookup_insert_ne _ _ _ _ (not_eq_sym Hw))|by rewrite V1, bool_decide_false]. }
  exists s1, s2. split; [apply run_vnode_inc_ref; [done|by rewrite Hs]|]. split.
  { unfold vnode_lock. rewrite (run_bind _ _ _ _ _ (run_deref _ _ _ H0)), V1s. cbn [v_busy update_field].
    change (v_busy (vnodes s start <| v_reference_cnt := _ |>)) with (v_busy (vnodes s start)). rewrite Hb. unfold sleep_while.
    rewrite (run_bind _ _ _ _ _ (run_ret _ _)). unfold upd_vnode. by rewrite run_upd. }
  split; [done|]. split; [|rewrite V2, V1s; done]. split; try done.
  - apply (ready_ext _ _ _ _ s); try done. subst s2 s1. cbn. rewrite Hs, fn_lookup_insert. done.
  - cbn. rewrite app_nil_r. apply NoDup_cons. split; [by rewrite <- El0|done].
  - by rewrite app_nil_r.
  - intros v. by rewrite app_nil_r, El0.
  - intros v ->%list_elem_of_singleton. rewrite V2, V1s. cbn. split_and!; done.
  - rewrite V2, V1s, <- Ev. rewrite bool_decide_true by apply list_elem_of_here. cbn. split; [done|]. intros H. destruct H. apply list_elem_of_here.
  - intros w Hw Hwf. by rewrite O2, Ev.
  - intros i Hi w Hw. specialize (Hu i Hi w Hw). destruct (decide (w = start)) as [->|Hne]; [by rewrite V2, V1s|by rewrite O2].
Qed.

(** The start of a lookup for a path [p] of the process. *)
Definition start_of (p : list Z) : Z :=
  if bool_decide (head p = Some slash) then root_vnode s0 else kmem (fmem s0) (fproc s0 proc + 4 * fp_current_dir).

Lemma clear_slashes_none p m : cstr (kmem (fmem m)) path p -> clear_slashes path (length p) m = Ret () m.
Proof using All.
  intros Hc. destruct (length p) as [|n] eqn:E; [done|]. cbn [clear_slashes]. unfold char_at.
  rewrite (run_bind _ _ _ _ _ (run_gets _ _)), <- E, (cstr_end _ _ _ Hc). done.
Qed.

Lemma init_lookup_ok _path p ld :
  cstr (umem s0) _path p -> p <> [] -> (length p < path_max)%nat ->
  (forall a, _path <= a <= _path + Z.of_nat (length p) -> uvalid s0 a = true) ->
  fproc s0 proc <> 0 -> ~ (path <= fproc s0 proc + 4 * fp_current_dir <= path + Z.of_nat path_max) ->
  start_of p = start -> start <> 0 -> S_ISDIR (v_mode (vnodes s0 start)) = true ->
  exists m ld', init_lookup path_max proc path _path 0 ld s0 = Ret (0, ld') (s0 <| fmem := fmem s0 <| kmem := m |> |>) /\
    cstr m path p /\ (forall a, ~ (path <= a <= path + Z.of_nat path_max) -> m a = kmem (fmem s0) a) /\
    start_vnode ld' = start /\ position ld' = path.
Proof using All.
  intros Hc Hne Hlen Hv Hp Hw Hst H0 Hdir. unfold init_lookup, set_char, kstore, modify.
  erewrite run_bind by reflexivity. cbv beta. set (s1 := s0 <| fmem := _ |>).
  destruct (copyinstring_ok path_max path _path s1 p Hc Hlen Hv) as (m & E & Hcm & Ho).
  assert (Hout : forall a, ~ (path <= a <= path + Z.of_nat path_max) -> m a = kmem (fmem s0) a).
  { intros a Ha. rewrite Ho by lia. subst s1. cbn. apply put_bytes_out. cbn. lia. }
  set (s2 := s1 <| fmem := fmem s1 <| kmem := m |> |>) in E.
  assert (Es2 : s2 = s0 <| fmem := fmem s0 <| kmem := m |> |>) by (subst s2 s1; clear; by destruct s0 as [[]]).
  assert (Ecp : copy_path path_max path _path 0 s1 = Ret 0 s2).
  { unfold copy_path. rewrite bool_decide_false by (intros H; by apply H). unfold CopyInString. rewrite Nat2Z.id.
    by rewrite (run_bind _ _ _ _ _ E). }
  rewrite (run_bind _ _ _ _ _ Ecp), bool_decide_false by (intros H; by apply H).
  rewrite (run_bind _ _ _ _ _ (run_gets _ _)). change (kmem (fmem s2)) with m.
  rewrite (StrLen_ok _ _ _ _ Hcm Hlen). cbn [lift]. rewrite (run_bind _ _ _ _ _ (run_ret _ _)), Nat2Z.id.
  rewrite (run_bind _ _ _ _ _ (clear_slashes_none p s2 Hcm)). unfold char_at. rewrite (run_bind _ _ _ _ _ (run_gets _ _)).
  change (kmem (fmem s2)) with m.
  assert (Est : (if bool_decide (m path = slash) then gets root_vnode else fword proc fp_current_dir) s2 = Ret start s2).
  { unfold start_of in Hst. destruct p as [|x p]; [done|]. destruct Hcm as (_ & Hx & _). rewrite Hx. cbn [head] in Hst.
    destruct (decide (x = slash)) as [->|Hxs].
    - rewrite bool_decide_true by done. rewrite bool_decide_true in Hst by done. rewrite <- Hst. by rewrite Es2.
    - rewrite bool_decide_false by done. rewrite bool_decide_false in Hst by congruence. unfold fword.
      change (fproc s2) with (fproc s0). rewrite bool_decide_false by done. change (kmem (fmem s2)) with m.
      rewrite Hout by done. by rewrite Hst. }
  rewrite (run_bind _ _ _ _ _ Est), (run_bind _ _ _ _ _ (run_deref _ _ _ H0)). change (vnodes s2) with (vnodes s0). rewrite Hdir.
  exists m. eexists. split; [by rewrite Es2|]. done.
Qed.

Lemma not_path_root k c t m :
  cstr (kmem (fmem m)) path (replicate k slash ++ c ++ t) -> is_name c -> is_path_root path m = Ret false m.
Proof using All.
  intros Hc [Hne Hn]. unfold is_path_root, char_at. rewrite (run_bind _ _ _ _ _ (run_gets _ _)).
  destruct c as [|x c]; [done|]. apply Forall_cons in Hn as [[Hx Hx0] _]. destruct k as [|[|k]]; cbn in Hc.
  - destruct Hc as (_ & E & _). by rewrite E, bool_decide_false.
  - destruct Hc as (_ & E & _ & E' & _). rewrite E, bool_decide_true by done. rewrite (run_bind _ _ _ _ _ (run_gets _ _)).
    rewrite E', bool_decide_false by done. done.
  - destruct Hc as (_ & E & _ & E' & _). rewrite E, bool_decide_true by done. rewrite (run_bind _ _ _ _ _ (run_gets _ _)).
    rewrite E', bool_decide_false by done. done.
Qed.

(** The lookup of a path. *)
Lemma lookup_ok _path k c l trail as_ ld env :
  let p := replicate k slash ++ c ++ render l trail in
  trail = [] \/ trail = [slash] ->
  ready proc server fd sb s0 -> NoDup (vnode_free_list s0) -> (length as_ <= length (vnode_free_list s0))%nat ->
  cstr (kmem (fmem s0)) dot [46] -> cstr (kmem (fmem s0)) dotdot [46; 46] ->
  cstr (umem s0) _path p -> (length p < path_max)%nat ->
  (forall a, _path <= a <= _path + Z.of_nat (length p) -> uvalid s0 a = true) ->
  fproc s0 proc <> 0 -> ~ (path <= fproc s0 proc + 4 * fp_current_dir <= path + Z.of_nat path_max) -> 0 < path ->
  start_of p = start -> 0 < start <= NR_VNODE -> S_ISDIR (v_mode (vnodes s0 start)) = true ->
  v_superblock (vnodes s0 start) = sb -> v_busy (vnodes s0 start) = false ->
  chain (inode_nr (vnodes s0 start)) (c :: map snd l) as_ -> NoDup (map a_inode_nr as_) ->
  (forall a, a ∈ as_ -> uncached (a_inode_nr a) s0) ->
  exists v a fl ex ld' s', last as_ = Some a /\
    lookup L path_max proc req reply msg path dot dotdot _path 0 ld (replicate (S (length l)) server_runs ++ env) s0 =
      Done (0, ld') env s' /\ ld_vnode ld' = v /\ v <> start /\
    walking [v] fl ex [] s' /\
    inode_nr (vnodes s' v) = a_inode_nr a /\ v_mode (vnodes s' v) = a_mode a /\ v_size (vnodes s' v) = a_size a /\
    v_uid (vnodes s' v) = a_uid a /\ v_gid (vnodes s' v) = a_gid a.
Proof using All.
  intros p Htr R Hnd Hlen Hd1 Hd2 Hc Hpl Hv Hfp Hcwd Hp0 Hst Hs1 Hdir Hss Hsb' Hch Hni Hun.
  assert (Hs0 : start <> 0) by (clear - Hs1; lia).
  assert (Hname : is_name c) by (destruct as_ as [|a as_]; [done|]; by destruct Hch as (_ & (H & _) & _)).
  assert (Hpne : p <> []).
  { intros [_ [H _]%app_eq_nil]%app_eq_nil. by destruct Hname. }
  destruct (init_lookup_ok _path p ld Hc Hpne Hpl Hv Hfp Hcwd Hst Hs0 Hdir) as (m & ld1 & E1 & Hcm & Ho & L1 & L2).
  set (s1 := s0 <| fmem := fmem s0 <| kmem := m |> |>) in E1.
  assert (R1 : ready proc server fd sb s1).
  { destruct R. split; try done; [|by apply (notes_ok_ext _ s0)]. apply (serving_ext _ _ _ s0); [done..|].
    rewrite Hfdw. apply Ho, Hap. }
  destruct (walking_start (vnode_free_list s0) (map a_inode_nr as_) s1 R1) as (s2 & s3 & E2 & E3 & F3 & W3 & In3 & Mo3); try done.
  { intros i (a & -> & Ha)%list_elem_of_fmap. by apply Hun. }
  { apply (cstr_ext (kmem (fmem s0))); [|done]. intros i Hi. apply Ho. cbn in Hi. apply (ap_dot _ Hap). clear - Hi. lia. }
  { apply (cstr_ext (kmem (fmem s0))); [|done]. intros i Hi. apply Ho. cbn in Hi. apply (ap_dot _ Hap). clear - Hi. lia. }
  set (ld2 := ld1 <| ld_parent := 0 |> <| ld_vnode := start_vnode ld1 |>).
  destruct (walking_path l trail Htr (S path_max) k c as_ start ld2 (vnode_free_list s0) [] (server_runs :: env) s3)
    as (cur & a & fl & ex & ld3 & s4 & cl & E4 & W4 & V4 & C4 & La & Lc & Lf & En & Pl & Di & Cs & B1 & B2); try done.
  { by rewrite Mo3. }
  { by rewrite In3. }
  { assert (length l <= length (render l trail))%nat; [|subst p; rewrite !length_app in Hpl; lia].
    clear. induction l as [|[k0 c0] l IH]; cbn; [lia|]. rewrite !length_app. lia. }
  { change (position ld2) with (position ld1). rewrite L2, F3. exact Hcm. }
  { change (position ld2) with (position ld1). rewrite L2. lia. }
  { change (position ld2) with (position ld1). rewrite L2. subst p. rewrite !length_app, length_replicate in Hpl. lia. }
  destruct fl as [|v fl]; [cbn in Lf; exfalso; clear - Lf; lia|].
  set (ld4 := ld3 <| ld_parent := ld_vnode ld3 |> <| ld_vnode := 0 |>).
  destruct (walking_component cur cl a v [] fl ex [] ld4 s4 env W4) as (s5 & E5 & W5 & In5 & Mo5 & Sz5 & Ui5 & Gi5 & O5 & K5); try done.
  { apply not_elem_of_nil. }
  destruct (walking_put cur [v] fl ex [] s5 (walking_swap _ _ _ _ _ _ _ W5)) as (s6 & ex6 & E6 & W6 & F6 & O6).
  assert (Hvc : v <> cur).
  { pose proof (wk_nodup _ _ _ _ _ W5) as Hn. cbn in Hn. apply NoDup_cons in Hn as [Hn _]. intros ->. apply Hn, list_elem_of_here. }
  assert (Hvf : v ∈ vnode_free_list s0) by (apply (wk_from _ _ _ _ _ W4), list_elem_of_here).
  exists v, a, fl, ex6, (ld4 <| ld_vnode := v |>), s6. split; [exact La|]. split; [|rewrite O6 by done; split_and!; try done; by intros ->].
  unfold lookup. rewrite (prun_bind _ _ _ _ _ _ _ (run_call _ _ _ _ _ E1)).
  rewrite bool_decide_false by (intros H; by apply H). rewrite !bool_decide_false by (intros H; by apply H).
  rewrite (prun_bind _ _ _ _ _ _ _ (run_call _ _ _ _ _ (not_path_root _ _ _ s1 Hcm Hname))).
  assert (Elp : lookup_path L path_max proc req reply msg dot dotdot ld1 (replicate (S (length l)) server_runs ++ env) s1 =
    Done (0, ld3) (server_runs :: env) s4).
  { unfold lookup_path. cbv zeta. fold ld2. change (ld_vnode ld2) with (start_vnode ld1). rewrite L1.
    rewrite (prun_bind _ _ _ _ _ _ _ (run_call _ _ _ _ _ E2)), (prun_bind _ _ _ _ _ _ _ (run_blocking _ _ _ _ _ E3)).
    rewrite replicate_S_end, <- app_assoc. exact E4. }
  rewrite (prun_bind _ _ _ _ _ _ _ Elp), bool_decide_false by (intros H; by apply H). cbv zeta. fold ld4.
  unfold lookup_last_component. rewrite bool_decide_false by (change (last_component ld4) with (last_component ld3); lia).
  rewrite (prun_bind _ _ _ _ _ _ _ E5). change (ld_parent (ld4 <| ld_vnode := v |>)) with (ld_vnode ld3).
  change (ld_vnode (ld4 <| ld_vnode := v |>)) with v. rewrite V4, bool_decide_true by (by apply not_eq_sym).
  by rewrite (prun_bind _ _ _ _ _ _ _ (run_call _ _ _ _ _ E6)).
Qed.
End Inv.
End Walk.

(** C6. A path leads to its file.  Let the path, of at least one component,
    possibly with repeated slashes between the components and one at the end,
    start at the root or the current directory, whose file system is served by
    [server]; let the server have the entries [as_] along the path, the files
    before the last one being directories, and let the kernel hold no vnode for
    them.  Then [lookup], with the server answering one request for each
    component, returns a vnode with the inode and attributes of the last entry,
    locked and with one reference.  The directory it started from has the
    references it had and is not locked, no vnode that was in use has changed,
    and the server is ready for the next request. *)
Theorem lookup_resolves L path_max proc req reply msg path dot dotdot bdflush_brelse server fd sb umsgid addr buf_sz raddr
    answer um uv _path k c l trail as_ ld s :
  let p := replicate k slash ++ c ++ render l trail in
  let start := start_of proc s p in
  endpoint L umsgid addr buf_sz uv -> msg <> 0 -> sb <> 0 ->
  (forall x, raddr <= x < raddr + fsreply_sz L -> uv x = true) ->
  apart_ok L path_max req reply path dot dotdot (fproc s server + 4 * (fd_table + fd)) ->
  (forall v, v ∈ vnode_free_list s -> 0 < v <= NR_VNODE) -> start ∉ vnode_free_list s -> NoDup (vnode_free_list s) ->
  1 <= v_reference_cnt (vnodes s start) -> trail = [] \/ trail = [slash] ->
  ready proc server fd sb s -> (length as_ <= length (vnode_free_list s))%nat ->
  cstr (kmem (fmem s)) dot [46] -> cstr (kmem (fmem s)) dotdot [46; 46] ->
  cstr (umem s) _path p -> (length p < path_max)%nat ->
  (forall a, _path <= a <= _path + Z.of_nat (length p) -> uvalid s a = true) ->
  fproc s proc <> 0 -> ~ (path <= fproc s proc + 4 * fp_current_dir <= path + Z.of_nat path_max) -> 0 < path ->
  0 < start <= NR_VNODE -> S_ISDIR (v_mode (vnodes s start)) = true ->
  v_superblock (vnodes s start) = sb -> v_busy (vnodes s start) = false ->
  chain L path_max buf_sz answer (inode_nr (vnodes s start)) (c :: map snd l) as_ -> NoDup (map a_inode_nr as_) ->
  (forall a, a ∈ as_ -> uncached sb (a_inode_nr a) s) ->
  exists v a ld' s', last as_ = Some a /\
    lookup L path_max proc req reply msg path dot dotdot _path 0 ld
      (replicate (S (length l)) (as_process um uv (serve bdflush_brelse server fd umsgid addr buf_sz raddr answer))) s =
      Done (0, ld') [] s' /\ ld_vnode ld' = v /\ v ∈ vnode_free_list s /\
    inode_nr (vnodes s' v) = a_inode_nr a /\ v_mode (vnodes s' v) = a_mode a /\ v_size (vnodes s' v) = a_size a /\
    v_uid (vnodes s' v) = a_uid a /\ v_gid (vnodes s' v) = a_gid a /\
    v_busy (vnodes s' v) = true /\ v_reference_cnt (vnodes s' v) = 1 /\
    v_reference_cnt (vnodes s' start) = v_reference_cnt (vnodes s start) /\ v_busy (vnodes s' start) = false /\
    (forall w, w <> start -> w ∉ vnode_free_list s -> vnodes s' w = vnodes s w) /\ ready proc server fd sb s'.
Proof.
  intros p start He Hm Hs Hr Ha Hf Hsf Hnd Href Htr R Hlen Hd1 Hd2 Hc Hpl Hv Hfp Hcwd Hp0 Hs1 Hdir Hss Hsb Hch Hni Hun.
  destruct (lookup_ok L path_max proc req reply msg path dot dotdot bdflush_brelse server fd sb umsgid addr buf_sz raddr answer um uv
    He Hm Hs Hr s start _ eq_refl Ha Hf Hsf Href _path k c l trail as_ ld [] Htr R Hnd Hlen Hd1 Hd2 Hc Hpl Hv Hfp Hcwd Hp0 eq_refl
    Hs1 Hdir Hss Hsb Hch Hni Hun) as (v & a & fl & ex & ld' & s' & La & E & Hv' & Hne & W & H1 & H2 & H3 & H4 & H5).
  rewrite app_nil_r in E. destruct W as [W1 _ _ _ _ _ W6 W7 W8 _ _ _ _].
  destruct (W6 v (list_elem_of_here _ _)) as (_ & _ & Hb & Hrest). destruct (Hrest Hne) as (Hvf & Hrc & _).
  destruct W7 as [Hst Hstb]. assert (Hnl : start ∉ [v]) by (intros H%list_elem_of_singleton; congruence).
  rewrite bool_decide_false, Z.add_0_r in Hst by done.
  exists v, a, ld', s'. split_and!; try done. by apply Hstb.
Qed.

(** A file system of two entries: ab, the directory 10, in the root 2, and in it
    c, the file 11 of size 77. *)
Definition small_answer (b : list Z) : Z * list Z :=
  if bool_decide (b = [0; 2; 3; 0; 97; 98; 0]) then (0, [10; 0; 0x4000])
  else if bool_decide (b = [0; 10; 2; 0; 99; 0]) then (0, [11; 77; 0x8000])
  else (- ENOENT, []).

(** Process 9 has the path /ab/c at 100; the root is vnode 5. *)
Definition fs_lookup : fs :=
  fs_msg <| vnodes := fun w => if bool_decide (w = 5) then
             mkVNode false 0 0 2 V_VALID 1 0 0 0 2 0x4000 0 0 0 0 0 0 0 0 0 0 [] [] [] []
             else mkVNode false 0 0 0 V_FREE 0 0 0 0 0 0 0 0 0 0 0 0 0 0 0 0 [] [] [] [] |>
    <| vnode_free_list := [20; 21] |> <| root_vnode := 5 |>
    <| fmem := fmem fs_msg <| kmem := put_bytes 3200 [46; 0; 46; 46; 0] (kmem (fmem fs_msg)) |> |>
    <| umem := put_bytes 100 [47; 97; 98; 47; 99; 0] (fun _ => 0) |>.

Lemma fs_lookup_ready : ready 9 1 3 2 fs_lookup.
Proof.
  split; try reflexivity.
  - split; try reflexivity; try (intros H; discriminate H). split; [lia|reflexivity].
  - split; [|split; [apply NoDup_nil_2|intros m Hm; by apply not_elem_of_nil in Hm]].
    split; [intros k; apply NoDup_nil_2|intros k m|intros m H; discriminate H].
    split; [intros Hm; by apply not_elem_of_nil in Hm|intros [H _]; discriminate H].
  - intros H; discriminate H.
  - exists 1. split; [split; [lia|reflexivity]|reflexivity].
Qed.

Lemma small_chain :
  chain small_protocol 16 20 small_answer 2 [[97; 98]; [99]] [mkAttributes 10 0 0 0 0x4000; mkAttributes 11 77 0 0 0x8000].
Proof.
  assert (P1 : plain small_protocol 16 20 [97; 98]).
  { split; [split; [done|repeat constructor; unfold slash; lia]|]. split_and!; try done; cbn; lia. }
  assert (P2 : plain small_protocol 16 20 [99]).
  { split; [split; [done|repeat constructor; unfold slash; lia]|]. split_and!; try done; cbn; lia. }
  split; [by split_and!|]. split; [exact P1|]. split; [done|]. split; [by split_and!|]. split; [exact P2|done].
Qed.

Lemma lookup_resolves_witness :
  exists v ld' s',
    lookup small_protocol 16 9 3000 3100 500 7000 3200 3202 100 0 (mkLookupdata 0 0 0 0 0 0 0)
      (replicate 2 (as_process (fun _ => 0) (fun _ => true) (serve (fun _ => fault) 1 3 40 50 20 100 small_answer))) fs_lookup =
      Done (0, ld') [] s' /\ ld_vnode ld' = v /\ inode_nr (vnodes s' v) = 11 /\ v_size (vnodes s' v) = 77 /\
    v_reference_cnt (vnodes s' v) = 1 /\ v_reference_cnt (vnodes s' 5) = 1.
Proof.
  destruct (lookup_resolves small_protocol 16 9 3000 3100 500 7000 3200 3202 (fun _ => fault) 1 3 2 40 50 20 100 small_answer
    (fun _ => 0) (fun _ => true) 100 1 [97; 98] [(0%nat, [99])] [] [mkAttributes 10 0 0 0 0x4000; mkAttributes 11 77 0 0 0x8000]
    (mkLookupdata 0 0 0 0 0 0 0) fs_lookup small_endpoint) as (v & a & ld' & s' & Ha & E & Hv & _ & H1 & _ & H3 & _ & _ & _ & H7 & H8 & _);
    change (start_of 9 fs_lookup (replicate 1 slash ++ [97; 98] ++ render [(0%nat, [99])] [])) with 5 in *.
  all: try (intros H; discriminate H); try reflexivity.
  { change (fproc fs_lookup 1 + 4 * (fd_table + 3)) with 4108. split; cbn; lia. }
  { intros w Hw. cbn in Hw. rewrite !elem_of_cons, elem_of_nil in Hw. unfold NR_VNODE. lia. }
  { intros Hw. cbn in Hw. rewrite !elem_of_cons, elem_of_nil in Hw. lia. }
  { change (NoDup [20; 21]). apply (bool_decide_unpack _). reflexivity. }
  { by left. }
  { exact fs_lookup_ready. }
  { split_and!; done. }
  { split_and!; done. }
  { split_and!; done. }
  { cbn. lia. }
  { change (fproc fs_lookup 9 + 4 * fp_current_dir) with 4372. lia. }
  { unfold NR_VNODE. lia. }
  { exact small_chain. }
  { change (NoDup [10; 11]). apply (bool_decide_unpack _). reflexivity. }
  { intros b Hb w Hw [H1 H2]. cbn in H1. destruct (bool_decide (w = 5)) eqn:Ew; [|discriminate H1]. cbn in H2. rewrite Ew in H2.
    rewrite !elem_of_cons, elem_of_nil in Hb. destruct Hb as [->|[->|[]]]; discriminate H2. }
  exists v, ld', s'. injection Ha as <-. split_and!; [exact E|exact Hv|exact H1|exact H3|exact H7|exact H8].
Defined.

(** ** The empty path *)

Section Empty.
Context (L : protocol) (path_max : nat) (proc req reply msg path dot dotdot _path : Z).
Notation cwd s := (kmem (fmem s) (fproc s proc + 4 * fp_current_dir)).

Record at_empty (s : fs) : Prop := {
  ae_string : umem s _path = 0;
  ae_valid : uvalid s _path = true;
  ae_fproc : fproc s proc <> 0;
  ae_apart : fproc s proc + 4 * fp_current_dir <> path;
  ae_cwd : cwd s <> 0;
  ae_sb : v_superblock (vnodes s (cwd s)) <> 0;
  ae_dir : S_ISDIR (v_mode (vnodes s (cwd s))) = true
}.

(** The empty string is copied, and the start is the current directory. *)
Lemma init_lookup_empty ld s :
  (0 < path_max)%nat -> at_empty s ->
  exists m ld', init_lookup path_max proc path _path 0 ld s = Ret (0, ld') (s <| fmem := fmem s <| kmem := m |> |>) /\
    m path = 0 /\ (forall a, a <> path -> m a = kmem (fmem s) a) /\ start_vnode ld' = cwd s /\ position ld' = path.
Proof using Type.
  intros Hp []. unfold init_lookup, set_char, kstore, modify. erewrite run_bind by reflexivity. cbv beta.
  set (s1 := s <| fmem := _ |>).
  destruct (copyinstring_ok path_max path _path s1 []) as (m & E & Hm & Ho); [done|cbn; lia|..].
  { intros a Ha. cbn in Ha. replace a with _path by lia. done. }
  assert (Hout : forall a, a <> path -> m a = kmem (fmem s) a).
  { intros a Ha. rewrite Ho by (cbn; lia). subst s1. cbn. apply put_bytes_out. cbn. lia. }
  set (s2 := s1 <| fmem := fmem s1 <| kmem := m |> |>) in E.
  assert (Es2 : s2 = s <| fmem := fmem s <| kmem := m |> |>) by (subst s2 s1; clear; by destruct s as [[]]).
  assert (Ecp : copy_path path_max path _path 0 s1 = Ret 0 s2).
  { unfold copy_path. rewrite bool_decide_false by (intros H; by apply H). unfold CopyInString. rewrite Nat2Z.id.
    by rewrite (run_bind _ _ _ _ _ E). }
  rewrite (run_bind _ _ _ _ _ Ecp), bool_decide_false by (intros H; by apply H).
  rewrite (run_bind _ _ _ _ _ (run_gets _ _)). change (kmem (fmem s2)) with m.
  rewrite (StrLen_ok _ _ _ [] Hm) by (cbn; lia). cbn [lift]. rewrite (run_bind _ _ _ _ _ (run_ret _ _)).
  change (Z.to_nat (Z.of_nat (length []))) with 0%nat. cbn [clear_slashes]. rewrite (run_bind _ _ _ _ _ (run_ret _ _)).
  unfold char_at. rewrite (run_bind _ _ _ _ _ (run_gets _ _)). change (kmem (fmem s2)) with m. cbn in Hm. rewrite Hm.
  assert (Est : fword proc fp_current_dir s2 = Ret (cwd s) s2).
  { unfold fword. change (fproc s2) with (fproc s). rewrite bool_decide_false by done. change (kmem (fmem s2)) with m. by rewrite Hout. }
  rewrite (bool_decide_false (0 = slash)) by done. rewrite (run_bind _ _ _ _ _ Est).
  rewrite (run_bind _ _ _ _ _ (run_deref _ _ _ ae_cwd0)). change (vnodes s2) with (vnodes s). rewrite ae_dir0.
  exists m. eexists. split; [by rewrite Es2|]. done.
Qed.

(** The lookup up to the lock of the current directory. *)
Lemma lookup_empty ld s env :
  (0 < path_max)%nat -> at_empty s ->
  exists ld' s1, at_empty s1 /\ cwd s1 = cwd s /\ kmem (fmem s1) path = 0 /\ position ld' = path /\
    v_busy (vnodes s1 (cwd s)) = v_busy (vnodes s (cwd s)) /\
    v_reference_cnt (vnodes s1 (cwd s)) = v_reference_cnt (vnodes s (cwd s)) + 1 /\
    lookup L path_max proc req reply msg path dot dotdot _path 0 ld env s =
      (r ← (blocking (vnode_lock (cwd s));; lookup_path_loop L path_max proc req reply msg dot dotdot (S path_max) ld');
       let '(rc, ld) := r in
       if bool_decide (rc <> 0) then mret (rc, ld)
       else
         '(rc, ld) ← lookup_last_component L path_max proc req reply msg dot dotdot (ld <| ld_parent := ld_vnode ld |> <| ld_vnode := 0 |>);
         (if bool_decide (ld_parent ld <> ld_vnode ld) then call (vnode_put (ld_parent ld)) else mret ());;
         mret (rc, ld)) env s1.
Proof using Type.
  intros Hp A. destruct (init_lookup_empty ld s Hp A) as (m & ld1 & E1 & Hm & Ho & L1 & L2). destruct A.
  set (s1 := s <| fmem := fmem s <| kmem := m |> |>) in E1.
  set (ld2 := ld1 <| ld_parent := 0 |> <| ld_vnode := start_vnode ld1 |>).
  exists ld2, (inc_ref_state (cwd s) s1).
  assert (Ew : cwd (inc_ref_state (cwd s) s1) = cwd s) by (change (m (fproc s proc + 4 * fp_current_dir) = cwd s); by apply Ho).
  assert (V1 : vnodes (inc_ref_state (cwd s) s1) (cwd s) =
    vnodes s (cwd s) <| v_reference_cnt := v_reference_cnt (vnodes s (cwd s)) + 1 |>) by (cbn; by rewrite fn_lookup_insert).
  split; [split; rewrite ?Ew, ?V1; done|]. split; [exact Ew|]. split; [exact Hm|]. split; [exact L2|].
  split; [by rewrite V1|]. split; [by rewrite V1|].
  unfold lookup. rewrite (prun_bind _ _ _ _ _ _ _ (run_call _ _ _ _ _ E1)). rewrite !bool_decide_false by (intros H; by apply H).
  assert (Er : is_path_root path s1 = Ret false s1).
  { unfold is_path_root, char_at. rewrite (run_bind _ _ _ _ _ (run_gets _ _)). change (kmem (fmem s1) path) with (m path). by rewrite Hm. }
  rewrite (prun_bind _ _ _ _ _ _ _ (run_call _ _ _ _ _ Er)).
  assert (Elp : lookup_path L path_max proc req reply msg dot dotdot ld1 env s1 =
    (blocking (vnode_lock (cwd s));; lookup_path_loop L path_max proc req reply msg dot dotdot (S path_max) ld2) env
      (inc_ref_state (cwd s) s1)).
  { unfold lookup_path. cbv zeta. fold ld2. change (ld_vnode ld2) with (start_vnode ld1). rewrite L1.
    by rewrite (prun_bind _ _ _ _ _ _ _ (run_call _ _ _ _ _ (run_vnode_inc_ref (cwd s) s1 ae_cwd0 ae_sb0))). }
  unfold mbind at 1, P_bind at 1. rewrite Elp. unfold mbind at 2, P_bind at 2. reflexivity.
Qed.
End Empty.

(** The lookup of the empty path locks the current directory for good.  It
    fails with -EINVAL, as there is no component, but the directory it started
    from stays locked with one more reference, and no caller lets it go after an
    error; the next lookup from that directory sleeps on it. *)
Theorem empty_path_locks L path_max proc req reply msg path dot dotdot _path ld s :
  let cwd := kmem (fmem s) (fproc s proc + 4 * fp_current_dir) in
  (0 < path_max)%nat -> at_empty proc path _path s -> v_busy (vnodes s cwd) = false ->
  exists ld' s' s'',
    lookup L path_max proc req reply msg path dot dotdot _path 0 ld [] s = Done (- EINVAL, ld') [] s' /\
    v_busy (vnodes s' cwd) = true /\ v_reference_cnt (vnodes s' cwd) = v_reference_cnt (vnodes s cwd) + 1 /\
    lookup L path_max proc req reply msg path dot dotdot _path 0 ld' [] s' = Asleep (RVNode cwd) s''.
Proof.
  intros cwd Hp A Hb.
  destruct (lookup_empty L path_max proc req reply msg path dot dotdot _path ld s [] Hp A)
    as (ld1 & s1 & A1 & C1 & Z1 & L1 & B1 & R1 & E1). fold cwd in C1, B1, R1, E1. rewrite Hb in B1.
  assert (Hc0 : cwd <> 0) by apply A.
  set (s2 := s1 <| vnodes := <[cwd := vnodes s1 cwd <| v_busy := true |>]> (vnodes s1) |>).
  assert (V2 : vnodes s2 cwd = vnodes s1 cwd <| v_busy := true |>) by (subst s2; cbn; by rewrite fn_lookup_insert).
  assert (Elock : vnode_lock cwd s1 = Ret () s2).
  { unfold vnode_lock. rewrite (run_bind _ _ _ _ _ (run_deref _ _ _ Hc0)), B1. unfold sleep_while.
    rewrite (run_bind _ _ _ _ _ (run_ret _ _)). unfold upd_vnode. by rewrite run_upd. }
  set (ld2 := ld1 <| position := path |> <| separator := 0 |>).
  assert (Etok : path_token path_max ld1 s2 = Ret (0, ld2) s2).
  { unfold path_token. rewrite (run_bind _ _ _ _ _ (run_gets _ _)), L1. cbn [skip_slashes].
    change (kmem (fmem s2)) with (kmem (fmem s1)). rewrite Z1. rewrite (bool_decide_false (0 = slash)) by done.
    cbn [lift]. rewrite (run_bind _ _ _ _ _ (run_ret _ _)). unfold char_at. rewrite (run_bind _ _ _ _ _ (run_gets _ _)).
    change (kmem (fmem s2)) with (kmem (fmem s1)). by rewrite Z1. }
  assert (A2 : at_empty proc path _path s2).
  { destruct A1. split; try done; change (kmem (fmem s2)) with (kmem (fmem s1)); change (fproc s2) with (fproc s1);
      rewrite C1, V2; rewrite C1 in *; done. }
  destruct (lookup_empty L path_max proc req reply msg path dot dotdot _path (ld2 <| last_component := 0 |>) s2 [] Hp A2)
    as (ld3 & s3 & A3 & C3 & Z3 & L3 & B3 & R3 & E3).
  change (kmem (fmem s2) (fproc s2 proc + 4 * fp_current_dir)) with (kmem (fmem s1) (fproc s1 proc + 4 * fp_current_dir)) in *.
  rewrite C1 in C3, B3, R3, E3. rewrite V2 in B3.
  exists (ld2 <| last_component := 0 |>), s2, s3. split; [|split; [by rewrite V2|split; [by rewrite V2|]]].
  - assert (Ein : (blocking (vnode_lock cwd);; lookup_path_loop L path_max proc req reply msg dot dotdot (S path_max) ld1) [] s1 =
      Done (- EINVAL, ld2 <| last_component := 0 |>) [] s2).
    { rewrite (prun_bind _ _ _ _ _ _ _ (run_blocking _ _ _ _ _ Elock)). cbn [lookup_path_loop].
      by rewrite (prun_bind _ _ _ _ _ _ _ (run_call _ _ _ _ _ Etok)). }
    by rewrite E1, (prun_bind _ _ _ _ _ _ _ Ein).
  - rewrite E3. apply prun_bind_asleep, prun_bind_asleep, run_await_asleep.
    unfold vnode_lock. rewrite (run_bind _ _ _ _ _ (run_deref _ _ _ Hc0)), B3. done.
Qed.

(** The root of [fs_lookup] as the current directory. *)
Lemma empty_path_locks_witness :
  exists ld' s' s'',
    lookup small_protocol 16 9 3000 3100 500 7000 3200 3202 300 0 (mkLookupdata 0 0 0 0 0 0 0) []
      (fs_lookup <| fmem := fmem fs_lookup <| kmem := <[4372 := 5]> (kmem (fmem fs_lookup)) |> |>) = Done (- EINVAL, ld') [] s' /\
    lookup small_protocol 16 9 3000 3100 500 7000 3200 3202 300 0 ld' [] s' = Asleep (RVNode 5) s''.
Proof.
  destruct (empty_path_locks small_protocol 16 9 3000 3100 500 7000 3200 3202 300 (mkLookupdata 0 0 0 0 0 0 0)
    (fs_lookup <| fmem := fmem fs_lookup <| kmem := <[4372 := 5]> (kmem (fmem fs_lookup)) |> |>))
    as (ld' & s' & s'' & E & _ & _ & E'); [lia|split; try reflexivity; intros H; discriminate H|reflexivity|].
  exists ld', s', s''. split; [exact E|exact E'].
Defined.
