(* ===== verification/Cache.v ===== *)
(** * The file cache

    The model of kernel/fs/cache.c and of the initialisation of the buffers in
    kernel/fs/init.c: the cached clusters of files, the list of available
    buffers, the hash table, and the timing wheel of delayed writes of a
    superblock.

    The data of a buffer is at [b_data], an address of the cache area of kernel
    memory, where pmap_cache_enter maps a page; the bytes seen there are then
    those of the page.  [&buf_table[t]] is the address [t + 1].  Loops take a
    number of rounds; a loop of the code that may not end has no result when
    they do not suffice.  Offsets are at least 0 and below 2^31, so that the
    [off_t] of write_to_cache holds them. *)

From stdpp Require Import sorting.
From S2P Require Import Prelude Bytes Lists Page Pmap Fs Filp Vnode Kqueue Msg Filedesc Str Blocking Vfs.

Definition BUF_HASH := 32.
Definition NR_BUF := 1024.
Definition NR_DELWRI_BUCKETS := 512.     (* PAGE_SIZE / sizeof(buf_list_t) *)
Definition DELWRI_DELAY_TICKS := 500.
Definition CACHE_BASE_VA := 0xC0000000.
Definition B_VALID := 4.
Definition B_BUSY := 8.
Definition B_ERROR := 16.
Definition B_DISCARD := 32.
Definition B_READ := 64.
Definition B_WRITE := 128.
Definition B_ASYNC := 256.
Definition B_DELWRI := 512.

(** [flags & b] *)
Definition has (flags b : Z) : bool := bool_decide (Z.land flags b <> 0).

Definition set_flags (buf : Z) (f : Z -> Z) : M unit := upd_buf buf (fun b => b <| b_flags := f (b_flags b) |>).

(** An operation on memory. *)
Definition on_mem {A} (f : vm -> option (A * vm)) : M A := fun s =>
  match f (fmem s) with Some (a, m) => Ret a (s <| fmem := m |>) | None => Fault end.

(** ** The hash table *)

(** The list of [cluster_offset], a [uint64_t], and of the member of a buffer,
    which is signed. *)
Definition hash_index (cluster_offset : Z) : Z := uwrap 64 cluster_offset `mod` BUF_HASH.
Definition buf_hash_index (b : Buf) : Z := Z.rem (b_cluster_offset b) BUF_HASH.
Definition hash_list (i : Z) : M (list Z) := h ← gets buf_hash; arr_get h i.
Definition set_hash_list (i : Z) (l : list Z) : M unit :=
  h ← gets buf_hash; h ← arr_set i l h; modify (fun s => s <| buf_hash := h |>).

Fixpoint find_in (l : list Z) (vnode cluster_offset : Z) : M Z :=
  match l with
  | [] => mret 0
  | buf :: l =>
      b ← deref bufs buf;
      if bool_decide (b_vnode b = vnode /\ uwrap 64 (b_cluster_offset b) = uwrap 64 cluster_offset) then mret buf
      else find_in l vnode cluster_offset
  end.

Definition findblk (vnode cluster_offset : Z) : M Z :=
  l ← hash_list (hash_index cluster_offset);
  find_in l vnode cluster_offset.

(** The buffer leaves the hash list of its cluster. *)
Definition unhash (buf : Z) : M unit :=
  b ← deref bufs buf;
  l ← hash_list (buf_hash_index b);
  l ← lift (Seq.rem_entry buf l);
  set_hash_list (buf_hash_index b) l.

(** ** The timing wheel *)

Definition get_wheel (sb : Z) : M (list (list Z)) := b ← deref superblocks sb; lift (delwri_timing_wheel b).
Definition set_wheel (sb hash : Z) (l : list Z) : M unit :=
  w ← get_wheel sb; w ← arr_set hash l w; upd_sb sb (fun b => b <| delwri_timing_wheel := Some w |>).

Definition wheel_rem (sb hash buf : Z) : M unit :=
  w ← get_wheel sb; l ← arr_get w hash; l ← lift (Seq.rem_entry buf l); set_wheel sb hash l.
Definition wheel_add (sb hash buf : Z) : M unit :=
  w ← get_wheel sb; l ← arr_get w hash; l ← lift (Seq.add_tail buf l); set_wheel sb hash l.

(** ** getblk *)

(** A fresh page for [va]: the bytes at [va] are those of the page.  Without a
    page, the NULL page frame is dereferenced. *)
Definition cache_page (va : Z) : M unit :=
  r ← on_mem (alloc_pageframe PAGE_SIZE);
  i ← lift r;
  o ← gets (fun s => pageframe (fmem s) i);
  pf ← lift o;
  on_mem (pmap_cache_enter va (physical_addr pf));;
  modify (fun s => s <| fmem := fmem s <| kmem := fun a =>
    if bool_decide (va <= a < va + PAGE_SIZE) then kmem (fmem s) (pmap_pf_to_va pf + (a - va)) else kmem (fmem s) a |> |>).

(** The page of [va] is unmapped and freed; it keeps the bytes written at [va]. *)
Definition uncache_page (va : Z) : M unit :=
  pa ← gets (fun s => pmap_cache_extract va (fmem s));
  modify (fun s => s <| fmem := fmem s <| kmem := fun a =>
    if bool_decide (pmap_pa_to_va pa <= a < pmap_pa_to_va pa + PAGE_SIZE) then kmem (fmem s) (va + (a - pmap_pa_to_va pa))
    else kmem (fmem s) a |> |>);;
  on_mem (pmap_cache_remove va);;
  modify (fun s => s <| fmem := free_pageframe (pmap_pa_to_pf pa) (fmem s) |>).

(** The block is in the cache. *)
Definition getblk_hit (buf : Z) : M Z :=
  b ← deref bufs buf;
  if has (b_flags b) B_BUSY then TaskSleep (RBuf buf)
  else
    set_flags buf (fun f => Z.lor f B_BUSY);;
    b ← deref bufs buf;
    (if has (b_flags b) (Z.lor B_DELWRI B_ASYNC) then
       set_flags buf (fun f => Z.ldiff f (Z.lor B_DELWRI B_ASYNC));;
       v ← deref vnodes (b_vnode b);
       wheel_rem (v_superblock v) (b_expiration_time b `mod` NR_DELWRI_BUCKETS) buf
     else mret ());;
    mret buf.

(** The first available buffer is used for the block. *)
Definition getblk_miss (vnode cluster_offset : Z) : M Z :=
  l ← gets buf_avail_list;
  match l with
  | [] => TaskSleep RBufList
  | buf :: l =>
      modify (fun s => s <| buf_avail_list := l |>);;
      set_flags buf (fun f => Z.lor f B_BUSY);;
      b ← deref bufs buf;
      (if has (b_flags b) B_VALID then unhash buf;; uncache_page (b_data b) else mret ());;
      cache_page (b_data b);;
      upd_buf buf (fun b => b <| b_flags := Z.ldiff (b_flags b) B_VALID |> <| b_vnode := vnode |>
                              <| b_cluster_offset := swrap 64 cluster_offset |>);;
      b ← deref bufs buf;
      l ← hash_list (buf_hash_index b);
      l ← lift (Seq.add_head buf l);
      set_hash_list (buf_hash_index b) l;;
      mret buf
  end.

(** A round of the loop of getblk, which starts again after it has slept. *)
Definition getblk_round (vnode cluster_offset : Z) : M Z :=
  buf ← findblk vnode cluster_offset;
  if bool_decide (buf <> 0) then getblk_hit buf else getblk_miss vnode cluster_offset.
Definition getblk (vnode cluster_offset : Z) : P Z := blocking (getblk_round vnode cluster_offset).

(** ** brelse *)

Definition avail_add (add : Z -> list Z -> option (list Z)) (buf : Z) : M unit :=
  b ← deref bufs buf;
  if bool_decide (b_data b <> 0) then
    l ← gets buf_avail_list;
    l ← lift (add buf l);
    modify (fun s => s <| buf_avail_list := l |>)
  else mret ().

Definition brelse (buf : Z) : M unit :=
  b ← deref bufs buf;
  (if has (b_flags b) (Z.lor B_ERROR B_DISCARD) then
     unhash buf;;
     upd_buf buf (fun b => b <| b_flags := Z.ldiff (b_flags b) (Z.lor B_VALID B_ERROR) |> <| b_cluster_offset := -1 |>
                             <| b_vnode := 0 |>);;
     avail_add Seq.add_head buf
   else avail_add Seq.add_tail buf);;
  set_flags buf (fun f => Z.ldiff f B_BUSY);;
  wakeup RBufList;;
  wakeup (RBuf buf).

Definition bdflush_brelse (msg : Z) : M unit := brelse msg.

Section Cache.
Context (L : protocol) (proc req msg : Z).

(** ** Reading and writing blocks *)

(** What bread makes of the result of vfs_read.  For more than a cluster the
    size of the memset is negative, and it runs out of mapped memory. *)
Definition bread_done (buf xfered : Z) : M Z :=
  b ← deref bufs buf;
  (if bool_decide (xfered <= 0) then set_flags buf (fun f => Z.lor f B_ERROR)
   else if bool_decide (xfered > CLUSTER_SZ) then fault
   else if bool_decide (xfered <> CLUSTER_SZ) then
     kstore (b_data b + xfered) (replicate (Z.to_nat (CLUSTER_SZ - xfered)) 0)
   else mret ());;
  b ← deref bufs buf;
  if has (b_flags b) B_ERROR then brelse buf;; mret 0
  else set_flags buf (fun f => Z.ldiff (Z.lor f B_VALID) B_READ);; mret buf.

Definition bread (vnode cluster_base : Z) : P Z :=
  buf ← getblk vnode cluster_base;
  b ← call (deref bufs buf);
  if has (b_flags b) B_VALID then mret buf
  else
    call (set_flags buf (fun f => Z.ldiff (Z.lor f B_READ) (Z.lor B_WRITE B_ASYNC)));;
    '(xfered, _) ← vfs_read L proc req msg vnode (b_data b) CLUSTER_SZ (Some cluster_base);
    call (bread_done buf xfered).

Definition bread_zero (vnode cluster_base : Z) : P Z :=
  buf ← getblk vnode cluster_base;
  b ← call (deref bufs buf);
  if has (b_flags b) B_VALID then mret buf
  else
    call (kstore (b_data b) (replicate (Z.to_nat CLUSTER_SZ) 0));;
    call (set_flags buf (fun f => Z.ldiff (Z.lor f B_VALID) B_READ));;
    mret buf.

Definition bwrite (buf : Z) : P Z :=
  call (set_flags buf (fun f => Z.ldiff (Z.lor f B_WRITE) (Z.lor B_READ B_ASYNC)));;
  b ← call (deref bufs buf);
  '(xfered, _) ← vfs_write L proc req msg (b_vnode b) (b_data b) CLUSTER_SZ (Some (b_cluster_offset b));
  (if bool_decide (xfered <> CLUSTER_SZ) then call (set_flags buf (fun f => Z.lor f B_ERROR)) else mret ());;
  b ← call (deref bufs buf);
  if has (b_flags b) B_ERROR then call (brelse buf);; mret (-1)
  else call (set_flags buf (fun f => Z.ldiff f B_WRITE));; call (brelse buf);; mret 0.

(** A write that is queued at the time [sb->softclock + delay]. *)
Definition queue_write (buf delay : Z) (f : Z -> Z) : M Z :=
  b ← deref bufs buf;
  v ← deref vnodes (b_vnode b);
  set_flags buf f;;
  sb ← deref superblocks (v_superblock v);
  let expiration_time := uwrap 64 (sb_softclock sb + delay) in
  upd_buf buf (fun b => b <| b_expiration_time := expiration_time |>);;
  wheel_add (v_superblock v) (expiration_time `mod` NR_DELWRI_BUCKETS) buf;;
  brelse buf;;
  mret 0.

Definition bawrite (buf : Z) : M Z :=
  queue_write buf 0 (fun f => Z.ldiff (Z.lor f (Z.lor B_WRITE B_ASYNC)) (Z.lor B_READ B_DELWRI)).
Definition bdwrite (buf : Z) : M Z :=
  queue_write buf DELWRI_DELAY_TICKS (fun f => Z.ldiff (Z.lor f (Z.lor B_WRITE B_DELWRI)) (Z.lor B_READ B_ASYNC)).

Definition bsync (vnode : Z) : M Z := mret (- ENOSYS).
Definition bsyncfs (sb : Z) : M Z := mret (- ENOSYS).
Definition btruncate (vnode : Z) : M Z := mret (- ENOSYS).
Definition resize_cache (free : Z) : M Z := mret (u32 (- ENOSYS)).

(** ** Reading and writing files *)

(** The bytes of the next round, [n] of them done. *)
Definition cluster_part (offset n total : Z) : Z :=
  let left := total - n in
  let in_cluster := CLUSTER_SZ - offset `mod` CLUSTER_SZ in
  if bool_decide (left < in_cluster) then left else in_cluster.
Definition cluster_base (offset : Z) : Z := offset - offset `mod` CLUSTER_SZ.

(** The loop of read_from_cache; the offset is returned. *)
Fixpoint read_clusters (fuel : nat) (vnode dst offset n total : Z) (inkernel : bool) : P (Z * Z) :=
  match fuel with
  | O => call fault
  | S fuel =>
      if bool_decide (n < total) then
        buf ← bread vnode (cluster_base offset);
        if bool_decide (buf = 0) then mret (n, offset)
        else
          let xfer := cluster_part offset n total in
          b ← call (deref bufs buf);
          let src := b_data b + offset `mod` CLUSTER_SZ in
          sc ← (if inkernel then call (d ← kload src xfer; kstore dst d);; mret 0 else call (CopyOut dst src xfer));
          if bool_decide (sc <> 0) then mret (n, offset)
          else call (brelse buf);; read_clusters fuel vnode (dst + xfer) (offset + xfer) (n + xfer) total inkernel
      else mret (n, offset)
  end.

Definition read_from_cache (vnode dst sz offset : Z) (inkernel : bool) : P (Z * Z) :=
  v ← call (deref vnodes vnode);
  if bool_decide (offset >= v_size v) then mret (0, offset)
  else
    let remaining_in_file := u32 (v_size v - offset) in
    let nbytes_to_read := if bool_decide (remaining_in_file < sz) then remaining_in_file else sz in
    read_clusters (S (Z.to_nat nbytes_to_read)) vnode dst offset 0 nbytes_to_read inkernel.

(** The loop of write_to_cache. *)
Fixpoint write_clusters (fuel : nat) (vnode src offset n total : Z) : P (Z * Z) :=
  match fuel with
  | O => call fault
  | S fuel =>
      if bool_decide (n < total) then
        v ← call (deref vnodes vnode);
        buf ← (if bool_decide (cluster_base offset < v_size v) then bread vnode (cluster_base offset)
               else bread_zero vnode (cluster_base offset));
        if bool_decide (buf = 0) then mret (n, offset)
        else
          let xfer := cluster_part offset n total in
          b ← call (deref bufs buf);
          call (CopyIn (b_data b + offset `mod` CLUSTER_SZ) src xfer);;
          let offset := offset + xfer in
          v ← call (deref vnodes vnode);
          (if bool_decide (offset > v_size v) then call (upd_vnode vnode (fun v => v <| v_size := offset |>)) else mret ());;
          call (if bool_decide (offset `mod` CLUSTER_SZ = 0) then bawrite buf else bdwrite buf);;
          write_clusters fuel vnode (src + xfer) offset (n + xfer) total
      else mret (n, offset)
  end.

Definition write_to_cache (vnode src sz offset : Z) : P (Z * Z) :=
  write_clusters (S (Z.to_nat sz)) vnode src offset 0 sz.

(** ** Delayed writes *)

(** The result is undefined, [None], when there is a page. *)
Definition init_superblock_bdflush (hardclock sb : Z) : M (option Z) :=
  page ← kmalloc_page_fs;
  if bool_decide (page = 0) then upd_sb sb (fun b => b <| delwri_timing_wheel := None |>);; mret (Some (- ENOMEM))
  else
    upd_sb sb (fun b => b <| delwri_timing_wheel := Some (replicate (Z.to_nat NR_DELWRI_BUCKETS) []) |>
                          <| sb_softclock := hardclock |>);;
    mret None.

(** [page] is the address of the wheel, of which the superblock holds the
    contents. *)
Definition deinit_superblock_bdflush (sb page : Z) : M unit :=
  modify (fun s => s <| fmem := kfree_page page (fmem s) |>);;
  upd_sb sb (fun b => b <| delwri_timing_wheel := None |>).

(** The search of a bucket stays at its first buffer until that has expired. *)
Fixpoint find_delayed_loop (fuel : nat) (sb hash buf softclock : Z) : M (option Z) :=
  match fuel with
  | O => mret None
  | S fuel =>
      if bool_decide (buf <> 0) then
        b ← deref bufs buf;
        if bool_decide (b_expiration_time b <= softclock) then
          wheel_rem sb hash buf;;
          set_flags buf (fun f => Z.lor f B_BUSY);;
          mret (Some buf)
        else find_delayed_loop fuel sb hash buf softclock
      else mret (Some 0)
  end.

Definition find_delayed_write_buf (fuel : nat) (sb softclock : Z) : M (option Z) :=
  w ← get_wheel sb;
  l ← arr_get w (softclock `mod` NR_DELWRI_BUCKETS);
  find_delayed_loop fuel sb (softclock `mod` NR_DELWRI_BUCKETS) (hd 0 l) softclock.

(** The buffers of a tick, [count] written so far. *)
Fixpoint bdflush_tick (fuel : nat) (sb softclock count : Z) : M (option Z) :=
  match fuel with
  | O => mret None
  | S fuel' =>
      o ← find_delayed_write_buf fuel sb softclock;
      match o with
      | None => mret None
      | Some buf =>
          if bool_decide (buf <> 0) then vfs_write_async L sb buf;; bdflush_tick fuel' sb softclock (count + 1)
          else mret (Some count)
      end
  end.

Fixpoint bdflush_loop (fuel n : nat) (sb now count : Z) : M (option Z) :=
  match n with
  | O => mret None
  | S n =>
      b ← deref superblocks sb;
      if bool_decide (sb_softclock b < now) then
        o ← bdflush_tick fuel sb (sb_softclock b) count;
        match o with
        | None => mret None
        | Some count =>
            upd_sb sb (fun b => b <| sb_softclock := uwrap 64 (sb_softclock b + 1) |>);;
            bdflush_loop fuel n sb now count
        end
      else mret (Some count)
  end.

(** [fuel] rounds for the loops over buffers, [n] for the one over ticks; [now]
    is the hardclock. *)
Definition sys_bdflush (fuel n : nat) (fd now : Z) : M (option Z) :=
  sb ← get_superblock proc fd;
  if bool_decide (sb = 0) then mret (Some (- EBADF))
  else
    b ← deref superblocks sb;
    match delwri_timing_wheel b with
    | None => mret (Some (- EBADF))
    | Some _ => bdflush_loop fuel n sb now 0
    end.

End Cache.

(** ** Initialisation *)

Fixpoint init_bufs (n : nat) (t va : Z) : M unit :=
  match n with
  | O => mret ()
  | S n =>
      upd_buf (t + 1) (fun b => b <| b_flags := 0 |> <| b_vnode := 0 |> <| b_cluster_offset := 0 |> <| b_data := va |>);;
      l ← gets buf_avail_list;
      l ← lift (Seq.add_tail (t + 1) l);
      modify (fun s => s <| buf_avail_list := l |>);;
      init_bufs n (t + 1) (va + CLUSTER_SZ)
  end.

Definition InitCache (max_buf : Z) : M unit :=
  modify (fun s => s <| buf_avail_list := [] |>);;
  init_bufs (Z.to_nat max_buf) 0 CACHE_BASE_VA;;
  modify (fun s => s <| buf_hash := replicate (Z.to_nat BUF_HASH) [] |>).

(** ** The timing wheel keeps its time

    [wheel_ok]: the buffers of a bucket are those whose time is its index modulo
    the number of buckets, and none is due before the clock of the superblock or
    more than a turn of the wheel after it.  A bucket whose turn has come then
    holds only buffers that are due: the search of find_delayed_write_buf never
    stays at one that is not. *)

Definition expires (s : fs) (b : Z) : Z := b_expiration_time (bufs s b).

Record wheel_ok (sb : Z) (w : list (list Z)) (s : fs) : Prop := {
  wo_wheel : delwri_timing_wheel (superblocks s sb) = Some w;
  wo_length : length w = Z.to_nat NR_DELWRI_BUCKETS;
  wo_clock : 0 <= sb_softclock (superblocks s sb);
  wo_time h l b : w !! h = Some l -> b ∈ l ->
    expires s b `mod` NR_DELWRI_BUCKETS = Z.of_nat h /\
    sb_softclock (superblocks s sb) <= expires s b < sb_softclock (superblocks s sb) + NR_DELWRI_BUCKETS;
  wo_nodup h l : w !! h = Some l -> NoDup l
}.

Definition put_wheel (sb : Z) (w : list (list Z)) (s : fs) : fs :=
  s <| superblocks := <[sb := superblocks s sb <| delwri_timing_wheel := Some w |>]> (superblocks s) |>.

Lemma run_get_wheel sb w s : sb <> 0 -> delwri_timing_wheel (superblocks s sb) = Some w -> get_wheel sb s = Ret w s.
Proof. intros Hs E. unfold get_wheel. rewrite (run_bind _ _ _ _ _ (run_deref _ _ _ Hs)). by rewrite E. Qed.

Lemma run_set_wheel sb h l w s :
  sb <> 0 -> delwri_timing_wheel (superblocks s sb) = Some w -> 0 <= h < Z.of_nat (length w) ->
  set_wheel sb h l s = Ret () (put_wheel sb (<[Z.to_nat h := l]> w) s).
Proof.
  intros Hs E Hh. unfold set_wheel. rewrite (run_bind _ _ _ _ _ (run_get_wheel _ _ _ Hs E)).
  rewrite (run_bind _ _ _ _ _ (run_arr_set _ _ _ _ Hh)). unfold upd_sb. by rewrite run_upd.
Qed.

Lemma run_wheel_rem sb h b l w s :
  sb <> 0 -> delwri_timing_wheel (superblocks s sb) = Some w -> 0 <= h -> w !! Z.to_nat h = Some (b :: l) -> NoDup (b :: l) ->
  wheel_rem sb h b s = Ret () (put_wheel sb (<[Z.to_nat h := l]> w) s).
Proof.
  intros Hs E Hh El Hn. unfold wheel_rem. rewrite (run_bind _ _ _ _ _ (run_get_wheel _ _ _ Hs E)).
  rewrite (run_bind _ _ _ _ _ (run_arr_get _ _ _ _ Hh El)). rewrite Seq.rem_entry_head by done. cbn [lift].
  rewrite (run_bind _ _ _ _ _ (run_ret _ _)). apply run_set_wheel; [done|done|]. apply lookup_lt_Some in El. lia.
Qed.

Lemma run_wheel_add sb h b l w s :
  sb <> 0 -> delwri_timing_wheel (superblocks s sb) = Some w -> 0 <= h -> w !! Z.to_nat h = Some l -> b ∉ l ->
  wheel_add sb h b s = Ret () (put_wheel sb (<[Z.to_nat h := l ++ [b]]> w) s).
Proof.
  intros Hs E Hh El Hn. unfold wheel_add. rewrite (run_bind _ _ _ _ _ (run_get_wheel _ _ _ Hs E)).
  rewrite (run_bind _ _ _ _ _ (run_arr_get _ _ _ _ Hh El)). rewrite Seq.add_tail_fresh by done. cbn [lift].
  rewrite (run_bind _ _ _ _ _ (run_ret _ _)). apply run_set_wheel; [done|done|]. apply lookup_lt_Some in El. lia.
Qed.

Lemma run_set_flags buf f s :
  buf <> 0 -> set_flags buf f s = Ret () (s <| bufs := <[buf := bufs s buf <| b_flags := f (b_flags (bufs s buf)) |>]> (bufs s) |>).
Proof. intros Hb. unfold set_flags, upd_buf. by rewrite run_upd. Qed.

(** ** Flushing

    [flushed l s s']: the buffers [l] have been sent to the server, in this
    order: each is marked busy and its message, with the request to write its
    part of the file and the cached bytes, is on the port. *)

Section Flush.
Context (L : protocol) (sb : Z).

Definition write_sz (s : fs) (b : Z) : Z := cluster_bytes (vnodes s (b_vnode (bufs s b))) (bufs s b).
Definition write_req (s : fs) (b : Z) : list Z :=
  fsreq_bytes L (CMD_WRITE (inode_nr (vnodes s (b_vnode (bufs s b)))) (b_cluster_offset (bufs s b)) (write_sz s b)).
Definition write_msg (s : fs) (b : Z) : Msg := msgs s b
  <| reply_port := None |> <| siov_cnt := 2 |>
  <| siov := [mkIOV (b_req (bufs s b)) (fsreq_sz L); mkIOV (b_data (bufs s b)) (write_sz s b)] |>
  <| riov_cnt := 0 |> <| riov := [] |> <| reply_status := 0 |> <| msg_port := Some (SbPort sb) |>.
Definition in_req (s : fs) (b a : Z) : Prop := b_req (bufs s b) <= a < b_req (bufs s b) + fsreq_sz L.

Record flushed (l : list Z) (s s' : fs) : Prop := {
  fl_pending : pending_msg_list (msgports s' (SbPort sb)) = pending_msg_list (msgports s (SbPort sb)) ++ l;
  fl_bufs b : bufs s' b = if decide (b ∈ l) then bufs s b <| b_flags := Z.lor (b_flags (bufs s b)) B_BUSY |> else bufs s b;
  fl_msgs b : msgs s' b = if decide (b ∈ l) then write_msg s b else msgs s b;
  fl_req b : b ∈ l -> mem_bytes (kmem (fmem s')) (b_req (bufs s b)) (fsreq_sz L) = write_req s b;
  fl_mem a : (forall b, b ∈ l -> ~ in_req s b a) -> kmem (fmem s') a = kmem (fmem s) a;
  fl_vnodes : vnodes s' = vnodes s;
  fl_avail : buf_avail_list s' = buf_avail_list s;
  fl_hash : buf_hash s' = buf_hash s;
  fl_notes q : notes_ok q s -> notes_ok q s';
  fl_sbs x : x <> sb -> superblocks s' x = superblocks s x
}.

Lemma flushed_nil s : flushed [] s s.
Proof. split; try done; try (intros; by rewrite decide_False by apply not_elem_of_nil); [by rewrite app_nil_r|set_solver]. Qed.

Lemma flushed_app l1 l2 s s1 s2 :
  flushed l1 s s1 -> flushed l2 s1 s2 -> NoDup (l1 ++ l2) ->
  (forall b1 b2 a, b1 ∈ l1 -> b2 ∈ l2 -> in_req s b1 a -> ~ in_req s b2 a) -> flushed (l1 ++ l2) s s2.
Proof.
  intros F1 F2 (_ & Hn & _)%NoDup_app Ha.
  assert (Er : forall b, b_req (bufs s1 b) = b_req (bufs s b)) by (intros b; rewrite (fl_bufs _ _ _ F1); by case_decide).
  assert (Eb : forall b, b ∈ l2 -> bufs s1 b = bufs s b)
    by (intros b Hb; rewrite (fl_bufs _ _ _ F1), decide_False by (intros H; by apply (Hn b)); done).
  assert (Em : forall b, b ∈ l2 -> msgs s1 b = msgs s b)
    by (intros b Hb; rewrite (fl_msgs _ _ _ F1), decide_False by (intros H; by apply (Hn b)); done).
  assert (Ez : forall b, b ∈ l2 -> write_sz s1 b = write_sz s b) by (intros b Hb; unfold write_sz; by rewrite (fl_vnodes _ _ _ F1), Eb).
  split.
  - by rewrite (fl_pending _ _ _ F2), (fl_pending _ _ _ F1), app_assoc.
  - intros b. rewrite (fl_bufs _ _ _ F2). destruct (decide (b ∈ l2)) as [H2|H2].
    + rewrite decide_True by set_solver. by rewrite Eb.
    + rewrite (fl_bufs _ _ _ F1). do 2 case_decide; set_solver.
  - intros b. rewrite (fl_msgs _ _ _ F2). destruct (decide (b ∈ l2)) as [H2|H2].
    + rewrite decide_True by set_solver. unfold write_msg. by rewrite Ez, Eb, Em.
    + rewrite (fl_msgs _ _ _ F1). do 2 case_decide; set_solver.
  - intros b [H1|H2]%elem_of_app.
    + rewrite <- (fl_req _ _ _ F1 b H1). apply mem_bytes_same. intros i Hi. apply (fl_mem _ _ _ F2).
      intros b2 H2. unfold in_req. rewrite Er. exact (Ha b b2 i H1 H2 Hi).
    + rewrite <- Er, (fl_req _ _ _ F2 b H2). unfold write_req. by rewrite (fl_vnodes _ _ _ F1), Ez, Eb.
  - intros a H. rewrite (fl_mem _ _ _ F2), (fl_mem _ _ _ F1); [done|set_solver|].
    intros b Hb. unfold in_req. rewrite Er. apply H. set_solver.
  - by rewrite (fl_vnodes _ _ _ F2), (fl_vnodes _ _ _ F1).
  - by rewrite (fl_avail _ _ _ F2), (fl_avail _ _ _ F1).
  - by rewrite (fl_hash _ _ _ F2), (fl_hash _ _ _ F1).
  - intros q H. by apply (fl_notes _ _ _ F2), (fl_notes _ _ _ F1).
  - intros x Hx. by rewrite (fl_sbs _ _ _ F2), (fl_sbs _ _ _ F1).
Qed.
End Flush.

Section Bdflush.
Context (L : protocol) (sb : Z) (Hsb : sb <> 0) (Hreq : forall r, Z.of_nat (length (fsreq_bytes L r)) = fsreq_sz L).

(** [s] with [b] taken off the wheel, which is now [w], and marked busy, and
    then with its message sent. *)
Definition taken_off (b : Z) (w : list (list Z)) (s : fs) : fs :=
  put_wheel sb w s <| bufs := <[b := bufs s b <| b_flags := Z.lor (b_flags (bufs s b)) B_BUSY |>]> (bufs s) |>.
Definition sent (b : Z) (w : list (list Z)) (s : fs) : fs :=
  set_pending (SbPort sb) (pending_msg_list (msgports s (SbPort sb)) ++ [b])
    (taken_off b w s <| fmem := fmem s <| kmem := put_bytes (b_req (bufs s b)) (write_req L s b) (kmem (fmem s)) |> |>
       <| msgs := <[b := write_msg L sb s b]> (msgs s) |>).

Lemma run_write_async b w s :
  b <> 0 -> b_vnode (bufs s b) <> 0 -> b ∉ pending_msg_list (msgports s (SbPort sb)) -> notes_ok (SbPort sb) s ->
  exists s' m, vfs_write_async L sb b (taken_off b w s) = Ret 0 s' /\ (forall x, m x = msgs (sent b w s) x) /\
    same_but_notes (sent b w s <| msgs := m |>) s' /\ forall q, notes_ok q s -> notes_ok q s'.
Proof using Hsb.
  intros Hb Hv Hp Hn. set (s1 := taken_off b w s).
  assert (Eb : bufs s1 b = bufs s b <| b_flags := Z.lor (b_flags (bufs s b)) B_BUSY |>)
    by (subst s1; unfold taken_off; cbn; by rewrite fn_lookup_insert).
  assert (Ez : cluster_bytes (vnodes s1 (b_vnode (bufs s b))) (bufs s1 b) = write_sz s b) by (by rewrite Eb).
  unfold vfs_write_async. rewrite (run_bind _ _ _ _ _ (run_deref _ _ _ Hb)).
  assert (Hv1 : b_vnode (bufs s1 b) <> 0) by (by rewrite Eb). rewrite (run_bind _ _ _ _ _ (run_deref _ _ _ Hv1)). cbv zeta.
  replace (b_vnode (bufs s1 b)) with (b_vnode (bufs s b)) by (by rewrite Eb). rewrite Ez.
  replace (b_req (bufs s1 b)) with (b_req (bufs s b)) by (by rewrite Eb).
  replace (b_data (bufs s1 b)) with (b_data (bufs s b)) by (by rewrite Eb).
  replace (b_cluster_offset (bufs s1 b)) with (b_cluster_offset (bufs s b)) by (by rewrite Eb).
  change (vnodes s1) with (vnodes s). unfold kstore, modify. erewrite run_bind by reflexivity. cbv beta.
  fold (write_req L s b). change (kmem (fmem s1)) with (kmem (fmem s)). change (fmem s1) with (fmem s).
  set (s2 := s1 <| fmem := _ |>). unfold upd_msg. rewrite (run_bind _ _ _ _ _ (run_upd _ _ _ _ _ Hb)). cbv beta.
  change (msgs s2) with (msgs s). match goal with |- context [<[b := ?m]> (msgs s)] => set (msg := m) end.
  set (s3 := s2 <| msgs := _ |>). rewrite (run_bind _ _ _ _ _ (run_deref _ _ _ Hsb)).
  destruct (run_kputmsg (SbPort sb) b s3 Hb) as (s' & E & R & N); [exact Hp|by apply (notes_ok_ext _ s)|].
  assert (Em3 : msgs s3 b = msg) by (subst s3; cbn; by rewrite fn_lookup_insert). rewrite Em3 in R.
  exists s', (<[b := msg <| msg_port := Some (SbPort sb) |>]> (msgs s3)). split; [exact E|]. split; [|split; [exact R|]].
  - intros x. change (msgs (sent b w s)) with (<[b := write_msg L sb s b]> (msgs s)).
    change (msgs s3) with (<[b := msg]> (msgs s)). destruct (decide (x = b)) as [->|]; [by rewrite !fn_lookup_insert|].
    by rewrite !fn_lookup_insert_ne.
  - intros q Hq. apply N. by apply (notes_ok_ext _ s).
Qed.

Lemma write_async_ok b w s :
  b <> 0 -> b_vnode (bufs s b) <> 0 -> b ∉ pending_msg_list (msgports s (SbPort sb)) -> notes_ok (SbPort sb) s ->
  exists s', vfs_write_async L sb b (taken_off b w s) = Ret 0 s' /\ flushed L sb [b] s s' /\
    superblocks s' = superblocks (put_wheel sb w s).
Proof using Hsb Hreq.
  intros Hb Hv Hp Hn. destruct (run_write_async b w s Hb Hv Hp Hn) as (s' & m & E & Hm & R & N).
  exists s'. split; [exact E|]. split; [|by rewrite R].
  assert (Hin : forall x, x ∈ [b] <-> x = b) by (intros x; apply list_elem_of_singleton).
  assert (Ek : kmem (fmem s') = put_bytes (b_req (bufs s b)) (write_req L s b) (kmem (fmem s))) by (by rewrite R).
  split; try by rewrite R.
  - rewrite R. cbn. by rewrite fn_lookup_insert.
  - intros x. replace (bufs s') with (bufs (taken_off b w s)) by (by rewrite R). unfold taken_off. cbn.
    case_decide as Hx; rewrite Hin in Hx; [subst x; by rewrite fn_lookup_insert|by rewrite fn_lookup_insert_ne].
  - intros x. replace (msgs s') with m by (by rewrite R). rewrite Hm.
    change (msgs (sent b w s)) with (<[b := write_msg L sb s b]> (msgs s)).
    case_decide as Hx; rewrite Hin in Hx; [subst x; by rewrite fn_lookup_insert|by rewrite fn_lookup_insert_ne].
  - intros x ->%Hin. rewrite Ek. unfold write_req at 1. rewrite <- (Hreq (CMD_WRITE (inode_nr (vnodes s (b_vnode (bufs s b))))
      (b_cluster_offset (bufs s b)) (write_sz s b))). apply mem_bytes_put.
  - intros a Ha. rewrite Ek. apply put_bytes_out. unfold write_req. rewrite Hreq. apply (Ha b). by apply Hin.
  - exact N.
  - intros x Hx. rewrite R. cbn. by rewrite fn_lookup_insert_ne.
Qed.
(** What sending the buffers [l] needs: they are those of a file, not on the
    port, and their requests are apart. *)
Record sendable (l : list Z) (s : fs) : Prop := {
  sd_nodup : NoDup l;
  sd_buf b : b ∈ l -> b <> 0 /\ b_vnode (bufs s b) <> 0 /\ b ∉ pending_msg_list (msgports s (SbPort sb));
  sd_apart b b' a : b ∈ l -> b' ∈ l -> b <> b' -> in_req L s b a -> ~ in_req L s b' a;
  sd_notes : notes_ok (SbPort sb) s
}.

Lemma flushed_same l s s' b : flushed L sb l s s' ->
  expires s' b = expires s b /\ b_vnode (bufs s' b) = b_vnode (bufs s b) /\ b_req (bufs s' b) = b_req (bufs s b).
Proof using Type. intros F. unfold expires. rewrite (fl_bufs _ _ _ _ _ F). by case_decide. Qed.

Lemma sendable_rest l1 l2 s s' : sendable (l1 ++ l2) s -> flushed L sb l1 s s' -> sendable l2 s'.
Proof using Type.
  clear Hsb Hreq. intros [Sn Sb Sa Sk] F. pose proof Sn as (_ & Sd & S2)%NoDup_app. split; [done| |intros b b' a H1 H2 Hne|by apply (fl_notes _ _ _ _ _ F)].
  - intros b Hb. destruct (Sb b) as (H0 & Hv & Hp); [set_solver|]. destruct (flushed_same _ _ _ b F) as (_ & -> & _).
    split_and!; [done|done|]. rewrite (fl_pending _ _ _ _ _ F). apply not_elem_of_app. split; [done|]. intros H. by apply (Sd b).
  - unfold in_req. destruct (flushed_same _ _ _ b F) as (_ & _ & ->), (flushed_same _ _ _ b' F) as (_ & _ & ->).
    apply Sa; [set_solver..|done].
Qed.

Lemma sendable_app l1 l2 s s1 s2 :
  sendable (l1 ++ l2) s -> flushed L sb l1 s s1 -> flushed L sb l2 s1 s2 -> flushed L sb (l1 ++ l2) s s2.
Proof using Type.
  clear Hsb Hreq. intros S F1 F2. apply (flushed_app _ _ _ _ _ s1); [done|done|apply S|]. intros b1 b2 a H1 H2. apply (sd_apart _ _ S); [set_solver..|].
  intros ->. destruct (proj1 (NoDup_app _ _) (sd_nodup _ _ S)) as (_ & H & _). by apply (H b2).
Qed.

(** The buffers of a bucket, all due at the time [t]. *)
Lemma bdflush_tick_ok l : forall fuel w t count s,
  0 <= t -> delwri_timing_wheel (superblocks s sb) = Some w -> w !! Z.to_nat (t `mod` NR_DELWRI_BUCKETS) = Some l ->
  (forall b, b ∈ l -> expires s b <= t) -> sendable l s -> (length l < fuel)%nat ->
  exists s', bdflush_tick L fuel sb t count s = Ret (Some (count + Z.of_nat (length l))) s' /\ flushed L sb l s s' /\
    superblocks s' sb = superblocks s sb <| delwri_timing_wheel := Some (<[Z.to_nat (t `mod` NR_DELWRI_BUCKETS) := []]> w) |>.
Proof using Hsb Hreq.
  set (h := fun t => t `mod` NR_DELWRI_BUCKETS). assert (Hh : forall t, 0 <= h t) by (intros t; apply Z.mod_pos_bound; done).
  induction l as [|b l IH]; intros [|fuel] w t count s Ht Ew El He S Hf; [cbn in Hf; lia| |cbn in Hf; lia|]; cbn [bdflush_tick].
  - exists s. rewrite list_insert_id by done. split_and!; [|apply flushed_nil|by rewrite <- Ew; destruct (superblocks s sb)].
    unfold find_delayed_write_buf. rewrite (run_bind _ _ s (Some 0) s).
    2: { rewrite (run_bind _ _ _ _ _ (run_get_wheel _ _ _ Hsb Ew)), (run_bind _ _ _ _ _ (run_arr_get _ _ _ _ (Hh t) El)). done. }
    cbn. by rewrite Z.add_0_r.
  - destruct (sd_buf _ _ S b) as (Hb & Hv & Hp); [by left|]. pose proof (sd_nodup _ _ S) as Hn.
    destruct (write_async_ok b (<[Z.to_nat (h t) := l]> w) s Hb Hv Hp (sd_notes _ _ S)) as (s1 & E1 & F1 & Es1).
    rewrite (run_bind _ _ s (Some b) (taken_off b (<[Z.to_nat (h t) := l]> w) s)).
    2: { unfold find_delayed_write_buf.
         rewrite (run_bind _ _ _ _ _ (run_get_wheel _ _ _ Hsb Ew)), (run_bind _ _ _ _ _ (run_arr_get _ _ _ _ (Hh t) El)).
         cbn [find_delayed_loop hd]. rewrite bool_decide_true by done. rewrite (run_bind _ _ _ _ _ (run_deref _ _ _ Hb)).
         rewrite bool_decide_true by (apply He; by left).
         rewrite (run_bind _ _ _ _ _ (run_wheel_rem _ _ _ _ _ _ Hsb Ew (Hh t) El Hn)), (run_bind _ _ _ _ _ (run_set_flags _ _ _ Hb)). done. }
    rewrite bool_decide_true by done. rewrite (run_bind _ _ _ _ _ E1). change (b :: l) with ([b] ++ l) in S.
    assert (Esb : superblocks s1 sb = superblocks s sb <| delwri_timing_wheel := Some (<[Z.to_nat (h t) := l]> w) |>)
      by (rewrite Es1; cbn; by rewrite fn_lookup_insert).
    destruct (IH fuel (<[Z.to_nat (h t) := l]> w) t (count + 1) s1) as (s' & E & F & Es).
    + done.
    + by rewrite Esb.
    + rewrite list_lookup_insert_eq; [done|]. by apply lookup_lt_Some in El.
    + intros x Hx. destruct (flushed_same _ _ _ x F1) as (-> & _). apply He. by right.
    + by apply (sendable_rest [b] l s).
    + cbn in Hf. lia.
    + exists s'. split_and!; [|by apply (sendable_app [b] l s s1)|].
      * rewrite E. do 2 f_equal. cbn. lia.
      * rewrite Es, Esb, list_insert_insert_eq. done.
Qed.
Lemma elem_of_concat {A} (ll : list (list A)) x : x ∈ concat ll <-> exists l, x ∈ l /\ l ∈ ll.
Proof using Type. rewrite list_elem_of_In, in_concat. setoid_rewrite <- list_elem_of_In. naive_solver. Qed.

(** The wheel without the buffers due before [t]. *)
Definition from_time (t : Z) (s : fs) (w : list (list Z)) : list (list Z) := map (filter (fun b => t <= expires s b)) w.

Lemma from_time_elem t s w b : b ∈ concat (from_time t s w) <-> b ∈ concat w /\ t <= expires s b.
Proof using Type.
  clear Hsb Hreq. unfold from_time. rewrite !elem_of_concat. setoid_rewrite list_elem_of_fmap. split.
  - intros (l & Hb & l0 & -> & Hl). apply list_elem_of_filter in Hb as [Ht Hb]. eauto.
  - intros ((l & Hb & Hl) & Ht). exists (filter (fun b => t <= expires s b) l). split; [by apply list_elem_of_filter|eauto].
Qed.

Lemma from_time_ext t s s' w : (forall b, expires s' b = expires s b) -> from_time t s' w = from_time t s w.
Proof using Type. intros H. apply map_ext. intros l. apply list_filter_iff. intros b. by rewrite H. Qed.

Lemma from_time_from t t' s w : t <= t' -> from_time t' s (from_time t s w) = from_time t' s w.
Proof using Type.
  intros Ht. unfold from_time. rewrite map_map. apply map_ext. intros l. apply list_filter_filter_l. intros b. lia.
Qed.

Section Tick.
Context (w : list (list Z)) (s : fs) (W : wheel_ok sb w s).
Let t := sb_softclock (superblocks s sb).
Let h := Z.to_nat (t `mod` NR_DELWRI_BUCKETS).

Lemma bucket_exists : exists l, w !! h = Some l.
Proof using W.
  apply lookup_lt_is_Some_2. rewrite (wo_length _ _ _ W). subst h. pose proof (Z.mod_pos_bound t NR_DELWRI_BUCKETS). unfold NR_DELWRI_BUCKETS in *. lia.
Qed.

Lemma bucket_due l b : w !! h = Some l -> b ∈ l -> expires s b = t.
Proof using W.
  intros El Hb. destruct (wo_time _ _ _ W _ _ _ El Hb) as [Em Hr]. fold t in Hr. subst h.
  pose proof (Z.mod_pos_bound t NR_DELWRI_BUCKETS eq_refl). rewrite Z2Nat.id in Em by lia. unfold NR_DELWRI_BUCKETS in *.
  Z.to_euclidean_division_equations. lia.
Qed.

Lemma bucket_other i l b : w !! i = Some l -> b ∈ l -> i <> h -> t + 1 <= expires s b.
Proof using W.
  intros El Hb Hi. destruct (wo_time _ _ _ W _ _ _ El Hb) as [Em Hr]. fold t in Hr.
  destruct (decide (expires s b = t)) as [E|]; [|lia]. rewrite E in Em. exfalso. apply Hi. subst h. rewrite Em. lia.
Qed.

(** Emptying the bucket removes what is due at [t]. *)
Lemma bucket_emptied : <[h := []]> w = from_time (t + 1) s w.
Proof using W.
  destruct bucket_exists as [l0 E0]. apply list_eq. intros i. unfold from_time. rewrite list_lookup_fmap.
  destruct (decide (i = h)) as [->|Hi].
  - rewrite list_lookup_insert_eq by (by apply lookup_lt_Some in E0). rewrite E0. cbn. f_equal. symmetry.
    destruct (filter _ l0) as [|b l] eqn:E; [done|].
    assert (Hb : b ∈ filter (fun b => t + 1 <= expires s b) l0) by (rewrite E; by left).
    apply list_elem_of_filter in Hb as [H1 H2]. rewrite (bucket_due l0) in H1 by done. lia.
  - rewrite list_lookup_insert_ne by done. destruct (w !! i) as [l|] eqn:El; [|done]. cbn. f_equal. symmetry.
    apply filter_all. intros b Hb. by apply (bucket_other i l).
Qed.

Lemma bucket_split l : w !! h = Some l -> concat w ≡ₚ l ++ concat (from_time (t + 1) s w).
Proof using W.
  intros El. rewrite <- bucket_emptied. rewrite insert_take_drop by (by apply lookup_lt_Some in El).
  rewrite <- (take_drop_middle w h l El) at 1. rewrite !concat_app. cbn. rewrite !app_assoc. apply Permutation_app_tail, Permutation_app_comm.
Qed.
End Tick.
(** What a flush at the time [now] does: the buffers [l] it sends are those of
    the wheel [w] that are due before [now], once each and by their time; the
    others stay on the wheel, and the clock of the superblock is moved on. *)
Record bdflushed (now : Z) (w : list (list Z)) (l : list Z) (s s' : fs) : Prop := {
  bf_sent : flushed L sb l s s';
  bf_which b : b ∈ l <-> b ∈ concat w /\ expires s b < now;
  bf_once : NoDup l;
  bf_order : StronglySorted (fun b b' => expires s b <= expires s b') l;
  bf_wheel : wheel_ok sb (from_time now s w) s';
  bf_clock : sb_softclock (superblocks s' sb) = Z.max (sb_softclock (superblocks s sb)) now
}.

Lemma wheel_ok_from t w s s' :
  wheel_ok sb w s -> sb_softclock (superblocks s sb) <= t -> (forall b, expires s' b = expires s b) ->
  delwri_timing_wheel (superblocks s' sb) = Some (from_time t s w) -> sb_softclock (superblocks s' sb) = t ->
  wheel_ok sb (from_time t s w) s'.
Proof using Type.
  intros W Ht He Ew Et. pose proof (wo_clock _ _ _ W). split; [done| |lia| |].
  - unfold from_time. rewrite length_map. apply W.
  - intros h l b El Hb. unfold from_time in El. rewrite list_lookup_fmap in El. destruct (w !! h) as [l0|] eqn:E0; [|done].
    injection El as <-. apply list_elem_of_filter in Hb as [Hb1 Hb2]. destruct (wo_time _ _ _ W _ _ _ E0 Hb2). rewrite He, Et. lia.
  - intros h l El. unfold from_time in El. rewrite list_lookup_fmap in El. destruct (w !! h) as [l0|] eqn:E0; [|done].
    injection El as <-. apply NoDup_filter. by apply (wo_nodup _ _ _ W h).
Qed.

Lemma wheel_clock w s b : wheel_ok sb w s -> b ∈ concat w -> sb_softclock (superblocks s sb) <= expires s b.
Proof using Type.
  intros W (l & Hb & Hl)%elem_of_concat. apply list_elem_of_lookup in Hl as [h Hh]. destruct (wo_time _ _ _ W _ _ _ Hh Hb). lia.
Qed.

Lemma sendable_sub l l' s : NoDup l' -> (forall b, b ∈ l' -> b ∈ l) -> sendable l s -> sendable l' s.
Proof using Type. intros Hn Hs [S1 S2 S3 S4]. split; [done|auto|intros b b' a H1 H2; apply S3; auto|done]. Qed.

(** The next tick. *)
Lemma flushed_clock l s s' c :
  flushed L sb l s s' -> flushed L sb l s (s' <| superblocks := <[sb := superblocks s' sb <| sb_softclock := c |>]> (superblocks s') |>).
Proof using Type.
  intros [F1 F2 F3 F4 F5 F6 F7 F8 F9 F10]. split; try done.
  - intros q H. apply (notes_ok_ext _ s'); [by apply F9|done..].
  - intros x Hx. cbn. rewrite fn_lookup_insert_ne by done. by apply F10.
Qed.

Lemma bdflush_one_tick fuel w count s :
  let t := sb_softclock (superblocks s sb) in
  wheel_ok sb w s -> sendable (concat w) s -> (length (concat w) < fuel)%nat -> t + 1 < 2 ^ 64 ->
  exists l s0 s', w !! Z.to_nat (t `mod` NR_DELWRI_BUCKETS) = Some l /\
    bdflush_tick L fuel sb t count s = Ret (Some (count + Z.of_nat (length l))) s0 /\
    upd_sb sb (fun b => b <| sb_softclock := uwrap 64 (sb_softclock b + 1) |>) s0 = Ret () s' /\
    flushed L sb l s s' /\ wheel_ok sb (from_time (t + 1) s w) s' /\ sb_softclock (superblocks s' sb) = t + 1.
Proof using Hsb Hreq.
  intros t W S Hf Ht. destruct (bucket_exists w s W) as [l El]. fold t in El. exists l.
  pose proof (bucket_split w s W l El) as Hp. pose proof (wo_clock _ _ _ W) as H0. fold t in H0.
  assert (Hl : (length l < fuel)%nat) by (rewrite (Permutation_length Hp), length_app in Hf; lia).
  assert (Sl : sendable l s).
  { apply (sendable_sub (concat w)); [by apply (wo_nodup _ _ _ W _ _ El)| |done]. intros b Hb. rewrite Hp. apply elem_of_app. by left. }
  destruct (bdflush_tick_ok l fuel w t count s H0 (wo_wheel _ _ _ W) El) as (s1 & E1 & F1 & Es1); [|done|done|].
  { intros b Hb. rewrite (bucket_due w s W l b El Hb). fold t. lia. }
  exists s1. eexists. split; [done|]. split; [exact E1|]. unfold upd_sb. split; [by apply run_upd|]. cbv beta.
  assert (Ec : sb_softclock (superblocks s1 sb) = t) by (by rewrite Es1).
  assert (Eu : uwrap 64 (sb_softclock (superblocks s1 sb) + 1) = t + 1) by (rewrite Ec; unfold uwrap; apply Z.mod_small; lia).
  rewrite Eu. split; [by apply flushed_clock|]. split.
  - apply wheel_ok_from; [done|fold t; lia| | |].
    + intros b. apply (flushed_same _ _ _ b F1).
    + cbn. rewrite fn_lookup_insert, Es1. cbn. f_equal. exact (bucket_emptied w s W).
    + cbn. by rewrite fn_lookup_insert.
  - cbn. by rewrite fn_lookup_insert.
Qed.

Lemma StronglySorted_all {A} (R : relation A) l : (forall x y, x ∈ l -> y ∈ l -> R x y) -> StronglySorted R l.
Proof using Type.
  induction l as [|x l IH]; intros H; [constructor|]. constructor.
  - apply IH. intros y z Hy Hz. apply H; by right.
  - apply Forall_forall. intros y Hy. apply H; [by left|by right].
Qed.

Lemma StronglySorted_mono {A} (R R' : relation A) l : (forall x y, R x y -> R' x y) -> StronglySorted R l -> StronglySorted R' l.
Proof using Type. intros H S. induction S as [|x l S IH F]; constructor; [done|]. eapply Forall_impl; [exact F|]. intros y. apply H. Qed.

(** The flush of a tick and that of the rest. *)
Lemma bdflushed_step now w l l' s s1 s' :
  let t := sb_softclock (superblocks s sb) in
  let w1 := from_time (t + 1) s w in
  wheel_ok sb w s -> sendable (concat w) s -> t < now -> w !! Z.to_nat (t `mod` NR_DELWRI_BUCKETS) = Some l ->
  flushed L sb l s s1 -> sb_softclock (superblocks s1 sb) = t + 1 -> bdflushed now w1 l' s1 s' -> bdflushed now w (l ++ l') s s'.
Proof using Type.
  clear Hsb Hreq. intros t w1 W S Hlt El F1 C1 [G1 G2 G3 G4 G5 G6].
  pose proof (bucket_split w s W l El) as Hp. fold t w1 in Hp.
  assert (He : forall b, expires s1 b = expires s b) by (intros b; apply (flushed_same _ _ _ b F1)).
  assert (Hl' : forall b, b ∈ l' <-> b ∈ concat w /\ t + 1 <= expires s b < now).
  { intros b. rewrite G2, He. subst w1. rewrite from_time_elem. naive_solver lia. }
  assert (Hl : forall b, b ∈ l -> expires s b = t) by (intros b Hb; by apply (bucket_due w s W l)).
  assert (Hlw : forall b, b ∈ l -> b ∈ concat w) by (intros b Hb; rewrite Hp; apply elem_of_app; by left).
  assert (Hnd : NoDup (l ++ l')).
  { apply NoDup_app. split_and!; [by apply (wo_nodup _ _ _ W _ _ El)| |done]. intros b Hb [_ ?]%Hl'. rewrite Hl in H by done. lia. }
  split; [| |done| | |].
  - apply (sendable_app l l' s s1); [|done|done]. apply (sendable_sub (concat w)); [done| |done].
    intros b [Hb|[Hb _]%Hl']%elem_of_app; [by apply Hlw|done].
  - intros b. rewrite elem_of_app, Hl'. split.
    + intros [Hb|Hb]; [|naive_solver lia]. split; [by apply Hlw|]. rewrite Hl by done. lia.
    + intros [Hb Hb']. destruct (decide (expires s b = t)) as [Eb|Hne].
      * left. rewrite Hp in Hb. apply elem_of_app in Hb as [Hb|Hb]; [done|]. apply from_time_elem in Hb. lia.
      * right. split; [done|]. pose proof (wheel_clock w s b W Hb). fold t in H. lia.
  - apply StronglySorted_app_2.
    + intros b b' Hb [_ ?]%Hl'. rewrite Hl by done. lia.
    + apply StronglySorted_all. intros b b' Hb Hb'. rewrite !Hl by done. done.
    + eapply StronglySorted_mono; [|exact G4]. cbn. intros b b'. by rewrite !He.
  - rewrite (from_time_ext now s s1 w1 He) in G5. subst w1. rewrite from_time_from in G5 by lia. exact G5.
  - rewrite G6, C1. fold t. lia.
Qed.

Lemma bdflushed_done now w s :
  wheel_ok sb w s -> now <= sb_softclock (superblocks s sb) -> bdflushed now w [] s s.
Proof using Type.
  intros W Ht. set (t := sb_softclock (superblocks s sb)) in *.
  assert (Ew : from_time now s w = w).
  { unfold from_time. rewrite <- (map_id w) at 2. apply map_ext_in. intros l Hl%list_elem_of_In. apply filter_all.
    intros b Hb. pose proof (wheel_clock w s b W) as H. fold t in H. enough (t <= expires s b) by lia. apply H.
    apply elem_of_concat. eauto. }
  split; [apply flushed_nil| |apply NoDup_nil_2|constructor|by rewrite Ew|fold t; lia].
  intros b. split; [by intros ?%not_elem_of_nil|]. intros [Hb He]. pose proof (wheel_clock w s b W Hb). fold t in H. lia.
Qed.

Lemma bdflush_loop_ok fuel now n : forall w count s,
  wheel_ok sb w s -> sendable (concat w) s -> (length (concat w) < fuel)%nat -> now < 2 ^ 64 ->
  (Z.to_nat (now - sb_softclock (superblocks s sb)) < n)%nat ->
  exists l s', bdflush_loop L fuel n sb now count s = Ret (Some (count + Z.of_nat (length l))) s' /\ bdflushed now w l s s'.
Proof using Hsb Hreq.
  induction n as [|n IH]; intros w count s W S Hf Hnow Hn; [lia|]. cbn [bdflush_loop].
  rewrite (run_bind _ _ _ _ _ (run_deref _ _ _ Hsb)). set (t := sb_softclock (superblocks s sb)) in *.
  destruct (decide (t < now)) as [Hlt|Hge].
  2: { rewrite bool_decide_false by done. exists [], s. rewrite Z.add_0_r. split; [done|]. apply bdflushed_done; [done|fold t; lia]. }
  rewrite bool_decide_true by done.
  destruct (bdflush_one_tick fuel w count s W S Hf) as (l & s0 & s1 & El & E0 & E1 & F1 & W1 & C1); [fold t; lia|].
  fold t in El, E0, W1, C1. pose proof (bucket_split w s W l El) as Hp. fold t in Hp.
  destruct (IH (from_time (t + 1) s w) (count + Z.of_nat (length l)) s1) as (l' & s' & E & G); [done| | |done| |].
  { apply (sendable_rest l _ s); [|done]. apply (sendable_sub (concat w)); [rewrite <- Hp; apply S| |done]. intros b. by rewrite Hp. }
  { rewrite (Permutation_length Hp), length_app in Hf. lia. }
  { rewrite C1. lia. }
  exists (l ++ l'), s'. split; [|by apply (bdflushed_step now w l l' s s1)].
  rewrite (run_bind _ _ _ _ _ E0), (run_bind _ _ _ _ _ E1), E. do 2 f_equal. rewrite length_app. lia.
Qed.
End Bdflush.

(** ** Queuing a write *)

(** A buffer with a cluster of a file of [sb], without an error and not queued. *)
Record writable (sb buf : Z) (w : list (list Z)) (s : fs) : Prop := {
  wr_sb : sb <> 0;
  wr_buf : buf <> 0;
  wr_vnode : b_vnode (bufs s buf) <> 0;
  wr_file : v_superblock (vnodes s (b_vnode (bufs s buf))) = sb;
  wr_flags : Z.land (b_flags (bufs s buf)) (Z.lor B_ERROR B_DISCARD) = 0;
  wr_data : b_data (bufs s buf) <> 0;
  wr_wheel : buf ∉ concat w
}.

Lemma run_brelse buf s :
  buf <> 0 -> Z.land (b_flags (bufs s buf)) (Z.lor B_ERROR B_DISCARD) = 0 -> b_data (bufs s buf) <> 0 -> buf ∉ buf_avail_list s ->
  exists wk, brelse buf s = Ret () (s <| buf_avail_list := buf_avail_list s ++ [buf] |>
    <| bufs := <[buf := bufs s buf <| b_flags := Z.ldiff (b_flags (bufs s buf)) B_BUSY |>]> (bufs s) |> <| woken := wk |>).
Proof.
  intros Hb Hf Hd Ha. eexists. unfold brelse. rewrite (run_bind _ _ _ _ _ (run_deref _ _ _ Hb)). unfold has.
  rewrite bool_decide_false by (intros H; by apply H). unfold avail_add.
  erewrite run_bind.
  2: { rewrite (run_bind _ _ _ _ _ (run_deref _ _ _ Hb)), bool_decide_true by done. rewrite (run_bind _ _ _ _ _ (run_gets _ _)).
       rewrite Seq.add_tail_fresh by done. cbn [lift]. rewrite (run_bind _ _ _ _ _ (run_ret _ _)). reflexivity. }
  rewrite (run_bind _ _ _ _ _ (run_set_flags _ _ _ Hb)). unfold wakeup, modify. erewrite run_bind by reflexivity. reflexivity.
Qed.

(** A buffer that is still available is linked a second time. *)
Lemma run_brelse_available buf s :
  buf <> 0 -> Z.land (b_flags (bufs s buf)) (Z.lor B_ERROR B_DISCARD) = 0 -> b_data (bufs s buf) <> 0 -> buf ∈ buf_avail_list s ->
  brelse buf s = Fault.
Proof.
  intros Hb Hf Hd Ha. unfold brelse. rewrite (run_bind _ _ _ _ _ (run_deref _ _ _ Hb)). unfold has.
  rewrite bool_decide_false by (intros H; by apply H). apply run_bind_fault. unfold avail_add.
  rewrite (run_bind _ _ _ _ _ (run_deref _ _ _ Hb)), bool_decide_true by done. rewrite (run_bind _ _ _ _ _ (run_gets _ _)).
  unfold Seq.add_tail. rewrite bool_decide_true by done. by apply run_bind_fault.
Qed.

(** The buffer is on the wheel for the time [t], available, and not busy; the
    file and the cached bytes are untouched. *)
Record queued (sb buf t : Z) (w w' : list (list Z)) (s s' : fs) : Prop := {
  qd_wheel : wheel_ok sb w' s';
  qd_perm : concat w' ≡ₚ buf :: concat w;
  qd_time : expires s' buf = t;
  qd_others b : b <> buf -> bufs s' b = bufs s b;
  qd_same : b_vnode (bufs s' buf) = b_vnode (bufs s buf) /\ b_cluster_offset (bufs s' buf) = b_cluster_offset (bufs s buf) /\
    b_data (bufs s' buf) = b_data (bufs s buf) /\ b_req (bufs s' buf) = b_req (bufs s buf);
  qd_busy : Z.land (b_flags (bufs s' buf)) B_BUSY = 0;
  qd_avail : buf_avail_list s' = buf_avail_list s ++ [buf];
  qd_rest : vnodes s' = vnodes s /\ fmem s' = fmem s /\ msgports s' = msgports s /\ knotes s' = knotes s /\ kqueues s' = kqueues s /\
    fproc s' = fproc s /\ filps s' = filps s;
  qd_clock : sb_softclock (superblocks s' sb) = sb_softclock (superblocks s sb)
}.

Lemma ldiff_land_0 a b : Z.land (Z.ldiff a b) b = 0.
Proof. apply Z.bits_inj_0. intros n. rewrite Z.land_spec, Z.ldiff_spec. by destruct (Z.testbit a n), (Z.testbit b n). Qed.

Lemma wheel_ok_add sb buf delay w l s s' :
  let t := sb_softclock (superblocks s sb) + delay in
  let h := Z.to_nat (t `mod` NR_DELWRI_BUCKETS) in
  wheel_ok sb w s -> 0 <= delay < NR_DELWRI_BUCKETS -> buf ∉ concat w -> w !! h = Some l ->
  delwri_timing_wheel (superblocks s' sb) = Some (<[h := l ++ [buf]]> w) ->
  sb_softclock (superblocks s' sb) = sb_softclock (superblocks s sb) -> expires s' buf = t ->
  (forall b, b <> buf -> expires s' b = expires s b) -> wheel_ok sb (<[h := l ++ [buf]]> w) s'.
Proof.
  intros t h W Hd Hn El Ew Ec Et Eo.
  assert (Hin : forall i l0, w !! i = Some l0 -> buf ∉ l0).
  { intros i l0 E0 Hb. apply Hn, elem_of_concat. exists l0. split; [done|]. by eapply list_elem_of_lookup_2. }
  assert (Hh : Z.of_nat h = t `mod` NR_DELWRI_BUCKETS)
    by (subst h; rewrite Z2Nat.id; [done|]; by apply Z.mod_pos_bound).
  split; [done|by rewrite length_insert; apply W|rewrite Ec; apply W| |].
  - intros i l0 b E0 Hb. rewrite Ec. assert (H : b = buf /\ i = h \/ b <> buf /\ exists l1, w !! i = Some l1 /\ b ∈ l1).
    { destruct (decide (i = h)) as [->|Hi].
      - rewrite list_lookup_insert_eq in E0 by (by apply lookup_lt_Some in El). injection E0 as <-.
        apply elem_of_app in Hb as [Hb|Hb%list_elem_of_singleton]; [|by left]. right. split; [|eauto]. intros ->. by apply (Hin h l).
      - rewrite list_lookup_insert_ne in E0 by done. right. split; [|eauto]. intros ->. by apply (Hin i l0). }
    destruct H as [[-> ->]|(Hne & l1 & E1 & H1)].
    + rewrite Et, Hh. split; [done|]. subst t. lia.
    + rewrite Eo by done. by apply (wo_time _ _ _ W i l1).
  - intros i l0 E0. destruct (decide (i = h)) as [->|Hi].
    + rewrite list_lookup_insert_eq in E0 by (by apply lookup_lt_Some in El). injection E0 as <-.
      apply NoDup_app. split_and!; [by apply (wo_nodup _ _ _ W h)| |apply NoDup_singleton].
      intros x Hx ->%list_elem_of_singleton. by apply (Hin h l).
    + rewrite list_lookup_insert_ne in E0 by done. by apply (wo_nodup _ _ _ W i).
Qed.

Lemma concat_insert_app {A} (w : list (list A)) h l (x : A) :
  w !! h = Some l -> concat (<[h := l ++ [x]]> w) ≡ₚ x :: concat w.
Proof.
  intros El. rewrite insert_take_drop by (by apply lookup_lt_Some in El). rewrite <- (take_drop_middle w h l El) at 3.
  rewrite !concat_app. cbn. rewrite <- !app_assoc. cbn. rewrite !app_assoc. symmetry. apply Permutation_middle.
Qed.

(** The buffer with the flags [f] and the time [t], before it is released. *)
Definition stamped (buf t : Z) (f : Z -> Z) (s : fs) : fs :=
  let s1 := s <| bufs := <[buf := bufs s buf <| b_flags := f (b_flags (bufs s buf)) |>]> (bufs s) |> in
  s1 <| bufs := <[buf := bufs s1 buf <| b_expiration_time := t |>]> (bufs s1) |>.

Lemma stamped_eq buf t f s : bufs (stamped buf t f s) buf = bufs s buf <| b_flags := f (b_flags (bufs s buf)) |> <| b_expiration_time := t |>.
Proof. unfold stamped. cbn. by rewrite !fn_lookup_insert. Qed.
Lemma stamped_ne buf t f s b : b <> buf -> bufs (stamped buf t f s) b = bufs s b.
Proof. intros Hb. unfold stamped. cbn. by rewrite !fn_lookup_insert_ne. Qed.

(** What queue_write has done when it releases the buffer. *)
Lemma run_queue_write sb buf delay f w s :
  let t := sb_softclock (superblocks s sb) + delay in
  wheel_ok sb w s -> writable sb buf w s -> 0 <= delay -> t < 2 ^ 64 ->
  exists l, w !! Z.to_nat (t `mod` NR_DELWRI_BUCKETS) = Some l /\
    queue_write buf delay f s =
      (brelse buf ≫= fun _ => mret 0) (put_wheel sb (<[Z.to_nat (t `mod` NR_DELWRI_BUCKETS) := l ++ [buf]]> w) (stamped buf t f s)).
Proof.
  intros t W [Hs Hb Hv Hf Hfl Hd Hw] Hdl Hov.
  pose proof (wo_clock _ _ _ W) as Hc. assert (Hh0 : 0 <= t `mod` NR_DELWRI_BUCKETS < NR_DELWRI_BUCKETS) by (by apply Z.mod_pos_bound).
  destruct (lookup_lt_is_Some_2 w (Z.to_nat (t `mod` NR_DELWRI_BUCKETS))) as [l El].
  { rewrite (wo_length _ _ _ W). unfold NR_DELWRI_BUCKETS in *. lia. }
  assert (Hl : buf ∉ l) by (intros H; apply Hw, elem_of_concat; exists l; split; [done|by eapply list_elem_of_lookup_2]).
  exists l. split; [done|].
  unfold queue_write. rewrite (run_bind _ _ _ _ _ (run_deref _ _ _ Hb)), (run_bind _ _ _ _ _ (run_deref _ _ _ Hv)).
  rewrite (run_bind _ _ _ _ _ (run_set_flags _ _ _ Hb)). set (s1 := s <| bufs := _ |>). rewrite Hf.
  rewrite (run_bind _ _ _ _ _ (run_deref _ _ _ Hs)). cbv zeta. change (superblocks s1) with (superblocks s).
  assert (Et : uwrap 64 (sb_softclock (superblocks s sb) + delay) = t) by (unfold uwrap; apply Z.mod_small; lia). rewrite Et.
  unfold upd_buf. rewrite (run_bind _ _ _ _ _ (run_upd _ _ _ _ _ Hb)). cbv beta.
  by rewrite (run_bind _ _ _ _ _ (run_wheel_add sb _ buf l w (stamped buf t f s) Hs (wo_wheel _ _ _ W) (proj1 Hh0) El Hl)).
Qed.

Lemma queue_write_ok sb buf delay f w s :
  wheel_ok sb w s -> writable sb buf w s -> buf ∉ buf_avail_list s -> 0 <= delay < NR_DELWRI_BUCKETS ->
  sb_softclock (superblocks s sb) + delay < 2 ^ 64 ->
  Z.land (f (b_flags (bufs s buf))) (Z.lor B_ERROR B_DISCARD) = 0 ->
  exists w' s', queue_write buf delay f s = Ret 0 s' /\ queued sb buf (sb_softclock (superblocks s sb) + delay) w w' s s'.
Proof.
  intros W Wr Ha Hdl Hov Hff. destruct (run_queue_write sb buf delay f w s W Wr (proj1 Hdl) Hov) as (l & El & ->).
  set (t := sb_softclock (superblocks s sb) + delay) in *. destruct Wr as [Hs Hb Hv Hf Hfl Hd Hw].
  set (w' := <[Z.to_nat (t `mod` NR_DELWRI_BUCKETS) := l ++ [buf]]> w).
  pose proof (stamped_eq buf t f s) as E2. set (s2 := stamped buf t f s) in *.
  destruct (run_brelse buf (put_wheel sb w' s2)) as [wk Er]; [done|..|exact Ha|].
  { change (bufs (put_wheel sb w' s2)) with (bufs s2). by rewrite E2. }
  { change (bufs (put_wheel sb w' s2)) with (bufs s2). by rewrite E2. }
  change (bufs (put_wheel sb w' s2)) with (bufs s2) in Er. rewrite E2 in Er.
  match type of Er with context [<[buf := ?x]> (bufs s2)] => set (b3 := x) in Er end.
  eexists w', _. split; [by rewrite (run_bind _ _ _ _ _ Er)|].
  assert (Eo : forall b, b <> buf -> <[buf := b3]> (bufs s2) b = bufs s b)
    by (intros b Hne; rewrite fn_lookup_insert_ne by done; by apply stamped_ne).
  split; try done.
  - apply (wheel_ok_add sb buf delay w l s); [done|done|done|done| | | |].
    + cbn. by rewrite fn_lookup_insert.
    + cbn. by rewrite fn_lookup_insert.
    + unfold expires. cbn. by rewrite fn_lookup_insert.
    + intros b Hne. unfold expires. cbn. by rewrite Eo.
  - by apply concat_insert_app.
  - unfold expires. cbn. by rewrite fn_lookup_insert.
  - cbn. by rewrite fn_lookup_insert.
  - cbn. rewrite fn_lookup_insert. apply ldiff_land_0.
  - cbn. by rewrite fn_lookup_insert.
Qed.

Lemma queue_write_available sb buf delay f w s :
  wheel_ok sb w s -> writable sb buf w s -> buf ∈ buf_avail_list s -> 0 <= delay ->
  sb_softclock (superblocks s sb) + delay < 2 ^ 64 ->
  Z.land (f (b_flags (bufs s buf))) (Z.lor B_ERROR B_DISCARD) = 0 -> queue_write buf delay f s = Fault.
Proof.
  intros W Wr Ha Hdl Hov Hff. destruct (run_queue_write sb buf delay f w s W Wr Hdl Hov) as (l & _ & ->).
  destruct Wr as [Hs Hb Hv Hf Hfl Hd Hw]. set (t := sb_softclock (superblocks s sb) + delay).
  pose proof (stamped_eq buf t f s) as E2. set (s2 := stamped buf t f s) in *.
  apply run_bind_fault, run_brelse_available; [done|..|exact Ha].
  - change (bufs (put_wheel sb _ s2)) with (bufs s2). by rewrite E2.
  - change (bufs (put_wheel sb _ s2)) with (bufs s2). by rewrite E2.
Qed.

Lemma flags_kept x a b m : Z.land x m = 0 -> Z.land a m = 0 -> Z.land (Z.ldiff (Z.lor x a) b) m = 0.
Proof.
  intros Hx Ha. apply Z.bits_inj_0. intros n. apply (f_equal (fun z => Z.testbit z n)) in Hx, Ha.
  rewrite Z.land_spec, Z.bits_0 in Hx, Ha. rewrite Z.land_spec, Z.ldiff_spec, Z.lor_spec.
  by destruct (Z.testbit x n), (Z.testbit a n), (Z.testbit b n), (Z.testbit m n).
Qed.

Lemma sendable_queued L sb buf t w w' s s' :
  sendable L sb (buf :: concat w) s -> queued sb buf t w w' s s' -> sendable L sb (concat w') s'.
Proof.
  intros [S1 S2 S3 S4] Q. destruct (qd_same _ _ _ _ _ _ _ Q) as (Q1 & _ & _ & Q2).
  destruct (qd_rest _ _ _ _ _ _ _ Q) as (_ & _ & R3 & R4 & R5 & _).
  assert (Ev : forall b, b_vnode (bufs s' b) = b_vnode (bufs s b) /\ b_req (bufs s' b) = b_req (bufs s b)).
  { intros b. destruct (decide (b = buf)) as [->|]; [done|]. by rewrite (qd_others _ _ _ _ _ _ _ Q b). }
  assert (Hp : forall b, b ∈ concat w' <-> b ∈ buf :: concat w) by (intros b; by rewrite (qd_perm _ _ _ _ _ _ _ Q)).
  split.
  - by rewrite (qd_perm _ _ _ _ _ _ _ Q).
  - intros b Hb%Hp. destruct (Ev b) as [-> _]. rewrite R3. by apply S2.
  - intros b b' a H1%Hp H2%Hp. unfold in_req. destruct (Ev b) as [_ ->], (Ev b') as [_ ->]. by apply S3.
  - apply (notes_ok_ext _ s); [done|done|done|by rewrite R3].
Qed.

Lemma sys_bdflush_ok L proc fuel n fd sb now w s :
  sb <> 0 -> (forall r, Z.of_nat (length (fsreq_bytes L r)) = fsreq_sz L) -> serving proc fd sb s ->
  wheel_ok sb w s -> sendable L sb (concat w) s -> now < 2 ^ 64 ->
  (length (concat w) < fuel)%nat -> (Z.to_nat (now - sb_softclock (superblocks s sb)) < n)%nat ->
  exists l s', sys_bdflush L proc fuel n fd now s = Ret (Some (Z.of_nat (length l))) s' /\ bdflushed L sb now w l s s'.
Proof.
  intros Hs Hr Sv W S Hnow Hf Hn. unfold sys_bdflush. rewrite (run_bind _ _ _ _ _ (serving_get _ _ _ _ Sv)).
  rewrite bool_decide_false by done. rewrite (run_bind _ _ _ _ _ (run_deref _ _ _ Hs)), (wo_wheel _ _ _ W).
  by apply bdflush_loop_ok.
Qed.

(** The message of a buffer that was sent holds the request and the part of the
    cluster that is in the file. *)
Lemma flushed_message L sb l s s' b :
  flushed L sb l s s' -> b ∈ l ->
  (forall b' a, b' ∈ l -> b_data (bufs s b) <= a < b_data (bufs s b) + write_sz s b -> ~ in_req L s b' a) ->
  msg_bytes (kmem (fmem s')) (siov (msgs s' b)) =
    write_req L s b ++ mem_bytes (kmem (fmem s)) (b_data (bufs s b)) (write_sz s b).
Proof.
  intros F Hb Ha. rewrite (fl_msgs _ _ _ _ _ F), decide_True by done. unfold msg_bytes, write_msg. cbn. rewrite app_nil_r.
  rewrite (fl_req _ _ _ _ _ F b Hb). f_equal. apply mem_bytes_same. intros i Hi. apply (fl_mem _ _ _ _ _ F).
  intros b' Hb'. by apply Ha.
Qed.

(** C31. The flush of delayed writes ends and writes what is due.  On a timing
    wheel whose buckets hold the buffers of their time, none due before the clock
    of the superblock or more than a turn after it, sys_bdflush returns the number
    of buffers that are due before [now].  It has put exactly these on the port of
    the server, once each and in the order of their times, marked busy, with a
    request to write their part of the file; the others stay where they are, and
    the wheel is again as required, with its clock at [now]. *)
Theorem sys_bdflush_correct L proc fuel n fd sb now w s :
  sb <> 0 -> (forall r, Z.of_nat (length (fsreq_bytes L r)) = fsreq_sz L) -> serving proc fd sb s ->
  wheel_ok sb w s -> sendable L sb (concat w) s -> now < 2 ^ 64 ->
  (length (concat w) < fuel)%nat -> (Z.to_nat (now - sb_softclock (superblocks s sb)) < n)%nat ->
  exists l s', sys_bdflush L proc fuel n fd now s = Ret (Some (Z.of_nat (length l))) s' /\ bdflushed L sb now w l s s'.
Proof. apply sys_bdflush_ok. Qed.


(** File 7 of [fs_vfs], with buffer 1 in use and buffer 2 queued for time 12. *)
Definition wheel_c : list (list Z) := <[12%nat := [2]]> (replicate (Z.to_nat NR_DELWRI_BUCKETS) []).
Definition fs_cache : fs := fs_vfs
  <| superblocks := <[2 := superblocks fs_vfs 2 <| delwri_timing_wheel := Some wheel_c |> <| sb_softclock := 10 |>]> (superblocks fs_vfs) |>
  <| vnodes := <[5 := vnodes fs_vfs 5 <| v_size := 5000 |>]> (vnodes fs_vfs) |>
  <| bufs := fun b => mkBuf (Z.lor B_VALID B_BUSY) 5 (4096 * (b - 1)) (0xC0000000 + 4096 * b) (if bool_decide (b = 2) then 12 else 0) (16 * b) |>
  <| buf_avail_list := [] |>.

Lemma wheel_c_concat : concat wheel_c = [2].
Proof. vm_compute. reflexivity. Qed.

Lemma fs_cache_wheel : wheel_ok 2 wheel_c fs_cache.
Proof.
  split; [reflexivity|reflexivity|vm_compute; discriminate| |].
  - intros h l b El Hb. apply list_lookup_insert_Some in El as [(<- & <- & _)|[_ El]].
    + apply list_elem_of_singleton in Hb as ->. change (expires fs_cache 2) with 12. change (sb_softclock (superblocks fs_cache 2)) with 10.
      unfold NR_DELWRI_BUCKETS. split; [reflexivity|lia].
    + apply lookup_replicate in El as [-> _]. by apply not_elem_of_nil in Hb.
  - intros h l El. apply list_lookup_insert_Some in El as [(<- & <- & _)|[_ El]]; [apply NoDup_singleton|].
    apply lookup_replicate in El as [-> _]. apply NoDup_nil_2.
Qed.

Lemma fs_cache_sendable l : NoDup l -> (forall b, b ∈ l -> b <> 0) -> sendable small_protocol 2 l fs_cache.
Proof.
  intros Hn H0. split; [done| | |].
  - intros b Hb. split_and!; [by apply H0|discriminate|apply not_elem_of_nil].
  - intros b b' a _ _ Hne. unfold in_req. cbn. lia.
  - apply (notes_ok_ext _ fs_vfs); [apply fs_vfs_ready|done..].
Qed.

Lemma fs_cache_serving : serving 1 3 2 fs_cache.
Proof. apply (serving_ext _ _ _ fs_vfs); [apply fs_vfs_ready|done..]. Qed.

Lemma sys_bdflush_correct_witness :
  exists l s', sys_bdflush small_protocol 1 4 4 3 13 fs_cache = Ret (Some (Z.of_nat (length l))) s' /\
    pending_msg_list (msgports s' (SbPort 2)) = l /\ 2 ∈ l.
Proof.
  destruct (sys_bdflush_correct small_protocol 1 4 4 3 2 13 wheel_c fs_cache) as (l & s' & E & B);
    [discriminate|intros []; reflexivity|exact fs_cache_serving|exact fs_cache_wheel|..].
  - rewrite wheel_c_concat. apply fs_cache_sendable; [apply NoDup_singleton|]. by intros b ->%list_elem_of_singleton.
  - reflexivity.
  - rewrite wheel_c_concat. cbn. lia.
  - vm_compute. lia.
  - exists l, s'. split; [exact E|]. split; [exact (fl_pending _ _ _ _ _ (bf_sent _ _ _ _ _ _ _ B))|].
    apply (bf_which _ _ _ _ _ _ _ B). rewrite wheel_c_concat. split; [by left|reflexivity].
Defined.


(** ** Reading files *)

Lemma cluster_part_bounds offset n total : n < total -> 0 < cluster_part offset n total <= total - n.
Proof.
  intros H. unfold cluster_part, CLUSTER_SZ. pose proof (Z.mod_pos_bound offset 4096 eq_refl). case_bool_decide; lia.
Qed.

(** A read returns at most what was asked for, and moves the offset by what it
    returns, whatever the server does. *)
Lemma read_clusters_bounds L proc req msg ink fuel : forall vnode dst off n total env s r env' s',
  0 <= n <= total -> read_clusters L proc req msg fuel vnode dst off n total ink env s = Done r env' s' ->
  n <= fst r <= total /\ snd r = off + (fst r - n).
Proof.
  induction fuel as [|fuel IH]; intros vnode dst off n total env s r env' s' Hn; cbn [read_clusters]; [done|].
  case_bool_decide as Hlt; [|intros H; injection H as <- _ _; cbn; lia].
  intros H. apply pbind_inv in H as (buf & env1 & s1 & _ & H).
  case_bool_decide; [injection H as <- _ _; cbn; lia|].
  apply pbind_inv in H as (b & env2 & s2 & _ & H). apply pbind_inv in H as (sc & env3 & s3 & _ & H).
  case_bool_decide; [injection H as <- _ _; cbn; lia|].
  apply pbind_inv in H as ([] & env4 & s4 & _ & H).
  pose proof (cluster_part_bounds off n total Hlt). apply IH in H; lia.
Qed.

Lemma read_from_cache_bounds L proc req msg vnode dst sz off ink env s r env' s' :
  0 <= sz -> read_from_cache L proc req msg vnode dst sz off ink env s = Done r env' s' ->
  0 <= fst r <= sz /\ snd r = off + fst r.
Proof.
  intros Hs H. unfold read_from_cache in H. apply pbind_inv in H as (v & env1 & s1 & _ & H).
  case_bool_decide; [injection H as <- _ _; cbn; lia|]. cbv zeta in H.
  assert (0 <= u32 (v_size v - off)) by (apply Z.mod_pos_bound; done).
  apply read_clusters_bounds in H; case_bool_decide; lia.
Qed.

(** A cluster that is found in the cache is handed out busy, but its buffer
    stays on the list of those that can be reused: the next getblk that finds
    nothing takes it from its user when it is the first of that list, and the
    brelse of its user adds it to the list once more. *)
Lemma getblk_hit_available buf s :
  buf <> 0 -> Z.land (b_flags (bufs s buf)) B_BUSY = 0 -> Z.land (b_flags (bufs s buf)) (Z.lor B_DELWRI B_ASYNC) = 0 ->
  exists s', getblk_hit buf s = Ret buf s' /\ has (b_flags (bufs s' buf)) B_BUSY = true /\ buf_avail_list s' = buf_avail_list s.
Proof.
  intros Hb Hf Hd. unfold getblk_hit. rewrite (run_bind _ _ _ _ _ (run_deref _ _ _ Hb)). unfold has at 1.
  rewrite bool_decide_false by (intros H; by apply H). rewrite (run_bind _ _ _ _ _ (run_set_flags _ _ _ Hb)).
  set (s1 := s <| bufs := _ |>). rewrite (run_bind _ _ _ _ _ (run_deref _ _ _ Hb)).
  assert (Ef : b_flags (bufs s1 buf) = Z.lor (b_flags (bufs s buf)) B_BUSY) by (subst s1; cbn; by rewrite fn_lookup_insert).
  rewrite Ef. unfold has at 1. rewrite bool_decide_false.
  2: { intros H. apply H. rewrite Z.land_lor_distr_l, Hd. reflexivity. }
  exists s1. split; [done|]. split; [|done]. rewrite Ef. unfold has. apply bool_decide_eq_true. rewrite Z.land_lor_distr_l, Hf. discriminate.
Qed.
