(* ===== verification/Files.v ===== *)
(** * The system calls on files

    The model of the calls that open, read, write and change files: open.c,
    read.c, write.c, seek.c, char.c, block.c, access.c, stat.c, truncate.c,
    dir.c, link.c, symlink.c, rename.c, sync.c and ioctl.c of kernel/fs.

    [proc], with the identifiers [uid] and [gid], is the current process; the
    addresses of the local variables of a call are [req], [reply] and [msg] for
    the requests, [path] for the path of a lookup, and [buf] for the buffers of
    512 bytes.  A call that hands [&filp->offset] to a transfer stores the new
    offset when the transfer ends; the code moves it along as it goes. *)

From S2P Require Import Prelude Bytes Lists Page Fs Filp Vnode Kqueue Msg Filedesc Pipe Str Blocking Vfs Lookup Cache.

(** newlib's sys/stat.h, sys/fcntl.h, unistd.h and sys/event.h *)
Definition _IFCHR := 0x2000.
Definition _IFBLK := 0x6000.
Definition _IFREG := 0x8000.
Definition _IFLNK := 0xA000.
Definition of_type (t mode : Z) : bool := bool_decide (Z.land mode _IFMT = t).
Definition S_ISCHR := of_type _IFCHR.
Definition S_ISBLK := of_type _IFBLK.
Definition S_ISREG := of_type _IFREG.
Definition S_ISLNK := of_type _IFLNK.
Definition O_APPEND := 0x0008.
Definition O_CREAT := 0x0200.
Definition O_TRUNC := 0x0400.
Definition SEEK_SET := 0.
Definition SEEK_CUR := 1.
Definition SEEK_END := 2.
Definition R_OK := 4.
Definition W_OK := 2.
Definition F_OK := 0.
Definition NOTE_WRITE := 2.
Definition NOTE_EXTEND := 4.
Definition NOTE_ATTRIB := 8.
Definition NOTE_LINK := 16.
Definition ENOLINK := 67.

(** is_allowed returns at once. *)
Definition is_allowed (vnode desired_access : Z) : Z := 0.

(** [knote(&vnode->knote_list, hint)] *)
Definition vnode_note (vnode hint : Z) : M unit := v ← deref vnodes vnode; knote (v_knote_list v) hint.

(** newlib's [struct stat], as stat.c fills it in. *)
Record statbuf := mkStatbuf {
  s_dev : Z; s_ino : Z; s_mode : Z; s_nlink : Z; s_uid : Z; s_gid : Z; s_rdev : Z; s_size : Z;
  s_atime : Z; s_mtime : Z; s_ctime : Z; s_blocks : Z; s_blksize : Z
}.

(** The bytes of a 64-bit integer, least significant first. *)
Definition dword_bytes (x : Z) : list Z := word_bytes (x `mod` 2 ^ 32) ++ word_bytes ((x `div` 2 ^ 32) `mod` 2 ^ 32).
Definition dword_of (bs : list Z) : Z := swrap 64 (foldr (fun b acc => b + 256 * acc) 0 bs).

Section Files.
Context (L : protocol) (path_max : nat) (proc uid gid req reply msg path dot dotdot buf : Z).

Abbreviation lookup := (lookup L path_max proc req reply msg path dot dotdot).
Abbreviation vfs_read := (vfs_read L proc req msg).
Abbreviation vfs_write := (vfs_write L proc req msg).

(** ** char.c *)

(** [while (vnode->reader_cnt != 0) TaskSleep(&vnode->rendez)] *)
Definition wait_for (cnt : VNode -> Z) (vnode : Z) : P unit :=
  blocking (v ← deref vnodes vnode; sleep_while (bool_decide (cnt v <> 0)) (RVNode vnode)).

Definition char_xfer (sz : Z) : Z := if bool_decide (sz < 512) then sz else 512.

Definition read_from_char (vnode dst sz : Z) : P Z :=
  wait_for v_reader_cnt vnode;;
  call (upd_vnode vnode (fun v => v <| v_reader_cnt := 1 |>));;
  xfered ←
    (if bool_decide (char_xfer sz > 0) then
       '(xfered, _) ← vfs_read vnode buf (char_xfer sz) None;
       (if bool_decide (xfered > 0) then call (CopyOut dst buf xfered);; mret xfered else mret xfered)
     else mret 0);
  call (upd_vnode vnode (fun v => v <| v_reader_cnt := 0 |>));;
  call (wakeup (RVNode vnode));;
  mret xfered.

Definition write_to_char (vnode src sz : Z) : P Z :=
  wait_for v_writer_cnt vnode;;
  call (upd_vnode vnode (fun v => v <| v_writer_cnt := 1 |>));;
  xfered ←
    (if bool_decide (char_xfer sz > 0) then
       call (CopyIn buf src (char_xfer sz));;
       '(xfered, _) ← vfs_write vnode buf (char_xfer sz) None;
       mret xfered
     else mret 0);
  call (upd_vnode vnode (fun v => v <| v_writer_cnt := 0 |>));;
  call (wakeup (RVNode vnode));;
  mret xfered.

Definition sys_tcsetattr (fd termios : Z) : P Z := mret (- ENOSYS).
Definition sys_tcgetattr (fd termios : Z) : P Z := mret (- ENOSYS).

Definition sys_isatty (fd : Z) : P Z :=
  vnode ← call (get_filp proc fd;; get_fd_vnode proc fd);
  if bool_decide (vnode = 0) then mret (- EINVAL)
  else if bool_decide (is_allowed vnode R_OK <> 0) then mret (- EACCES)
  else
    blocking (vnode_lock vnode);;
    v ← call (deref vnodes vnode);
    sc ← (if S_ISCHR (v_mode v) then vfs_isatty L proc req msg vnode else mret 0);
    call (vnode_unlock vnode);;
    mret sc.

(** ** block.c

    The loops stop at [sz] bytes or at an error; they test [xfer], which is not
    0 in the loop, where the number of bytes that were transferred is meant.  The
    second result is the offset; there is none when [fuel] rounds do not
    suffice. *)

Fixpoint read_block_loop (fuel : nat) (vnode dst sz offset total : Z) : P (option (Z * Z)) :=
  match fuel with
  | O => mret None
  | S fuel =>
      if bool_decide (total < sz) then
        let xfer := char_xfer (sz - total) in
        '(xfered, o) ← vfs_read vnode buf xfer (Some offset);
        let offset := default offset o in
        if bool_decide (xfer = 0) then mret (Some (total, offset))
        else if bool_decide (xfered < 0) then mret (Some (xfered, offset))
        else
          call (CopyOut dst buf xfered);;
          read_block_loop fuel vnode (dst + xfered) sz offset (total + xfered)
      else mret (Some (total, offset))
  end.
Definition read_from_block (fuel : nat) (vnode dst sz offset : Z) : P (option (Z * Z)) :=
  read_block_loop fuel vnode dst sz offset 0.

Fixpoint write_block_loop (fuel : nat) (vnode src sz offset total : Z) : P (option (Z * Z)) :=
  match fuel with
  | O => mret None
  | S fuel =>
      if bool_decide (total < sz) then
        let xfer := char_xfer (sz - total) in
        call (CopyIn buf src xfer);;
        '(xfered, o) ← vfs_write vnode buf xfer (Some offset);
        let offset := default offset o in
        if bool_decide (xfer = 0) then mret (Some (total, offset))
        else if bool_decide (xfered < 0) then mret (Some (xfered, offset))
        else write_block_loop fuel vnode (src + xfered) sz offset (total + xfered)
      else mret (Some (total, offset))
  end.
Definition write_to_block (fuel : nat) (vnode src sz offset : Z) : P (option (Z * Z)) :=
  write_block_loop fuel vnode src sz offset 0.

(** ** open.c *)

(** The vnode to open, [inr], or what do_open returns, [inl]. *)
Definition open_vnode (ld : lookupdata) (oflags mode : Z) : P (Z + Z) :=
  let dvnode := ld_parent ld in
  if bool_decide (ld_vnode ld <> 0) then mret (inr (ld_vnode ld))
  else if bool_decide (Z.land oflags O_CREAT <> 0 /\ is_allowed dvnode W_OK <> 0) then
    call (vnode_put dvnode);; mret (inl (- ENOENT))
  else
    is_dot ← call (same_string path_max dot (last_component ld));
    is_dotdot ← call (same_string path_max dotdot (last_component ld));
    if is_dot || is_dotdot then call (vnode_put dvnode);; mret (inl 0)
    else
      '(err, result) ← vfs_create L path_max proc req reply msg dvnode (last_component ld) oflags (mkStat mode uid gid);
      if bool_decide (err <> 0) then call (vnode_put dvnode);; mret (inl err)
      else mret (inr (default 0 result)).

(** do_open from the allocation of the descriptor on. *)
Definition open_fd (vnode oflags : Z) : M Z :=
  fd ← alloc_fd_filp proc;
  if bool_decide (fd < 0) then
    free_fd_filp proc fd;;
    vnode_put vnode;;
    mret (- ENOMEM)
  else
    filp ← get_filp proc fd;
    v ← deref vnodes vnode;
    upd_filp filp (fun f => f <| f_type := FILP_TYPE_VNODE |> <| f_u := vnode |>
      <| f_offset := if bool_decide (Z.land oflags O_APPEND <> 0) then v_size v else 0 |>);;
    vnode_unlock vnode;;
    mret fd.

Definition do_open (ld : lookupdata) (oflags mode : Z) : P Z :=
  r ← open_vnode ld oflags mode;
  match r with
  | inl err => mret err
  | inr vnode =>
      call (vnode_put (ld_parent ld));;
      err ← (if bool_decide (Z.land oflags O_TRUNC <> 0) then vfs_truncate L proc req reply msg vnode 0 else mret 0);
      if bool_decide (err <> 0) then call (vnode_put vnode);; mret err
      else call (open_fd vnode oflags)
  end.

(** [ld] is what the local structure holds before. *)
Definition sys_open (_path oflags mode : Z) (ld : lookupdata) : P Z :=
  '(sc, ld) ← lookup _path LOOKUP_PARENT ld;
  if bool_decide (sc <> 0) then mret sc else do_open ld oflags mode.
Definition kopen (_path oflags mode : Z) (ld : lookupdata) : P Z :=
  '(sc, ld) ← lookup _path (Z.lor LOOKUP_PARENT LOOKUP_KERNEL) ld;
  if bool_decide (sc <> 0) then mret sc else do_open ld oflags mode.

(** ** read.c and write.c *)

Definition set_offset (filp offset : Z) : P unit := call (upd_filp filp (fun f => f <| f_offset := offset |>)).
(** The offset of a filp, handed to a transfer that returns the new one. *)
Definition with_offset (filp : Z) (xfer : Z -> P (Z * Z)) : P Z :=
  f ← call (deref filps filp);
  '(xfered, offset) ← xfer (f_offset f);
  set_offset filp offset;;
  mret xfered.
(** The result of a loop that has ended. *)
Definition ended {A} (p : P (option A)) : P A := o ← p; call (lift o).

(** The transfer for the type of the vnode. *)
Definition read_by_type (fuel : nat) (filp vnode dst sz : Z) : P Z :=
  v ← call (deref vnodes vnode);
  let mode := v_mode v in
  if S_ISCHR mode then read_from_char vnode dst sz
  else if S_ISREG mode then with_offset filp (fun offset => read_from_cache L proc req msg vnode dst sz offset false)
  else if S_ISFIFO mode then ended (blocking (read_from_pipe fuel vnode dst sz))
  else if S_ISBLK mode then with_offset filp (fun offset => ended (read_from_block fuel vnode dst sz offset))
  else mret (- EBADF).

Definition sys_read (fuel : nat) (fd dst sz : Z) : P Z :=
  filp ← call (get_filp proc fd);
  vnode ← call (get_fd_vnode proc fd);
  if bool_decide (vnode = 0) then mret (- EBADF)
  else if bool_decide (is_allowed vnode R_OK <> 0) then mret (- EACCES)
  else
    blocking (vnode_lock vnode);;
    xfered ← read_by_type fuel filp vnode dst sz;
    call (vnode_unlock vnode);;
    mret xfered.

Definition kread (fd dst sz : Z) : P Z :=
  filp ← call (get_filp proc fd);
  vnode ← call (get_fd_vnode proc fd);
  if bool_decide (vnode = 0) then mret (- EBADF)
  else if bool_decide (is_allowed vnode R_OK <> 0) then mret (- EACCES)
  else
    blocking (vnode_lock vnode);;
    v ← call (deref vnodes vnode);
    xfered ← (if S_ISREG (v_mode v) then with_offset filp (fun offset => read_from_cache L proc req msg vnode dst sz offset true)
              else mret (- EBADF));
    call (vnode_unlock vnode);;
    mret xfered.

Definition write_by_type (fuel : nat) (filp vnode src sz : Z) : P Z :=
  v ← call (deref vnodes vnode);
  let mode := v_mode v in
  if S_ISCHR mode then write_to_char vnode src sz
  else if S_ISREG mode then with_offset filp (fun offset => write_to_cache L proc req msg vnode src sz offset)
  else if S_ISBLK mode then with_offset filp (fun offset => ended (write_to_block fuel vnode src sz offset))
  else if S_ISFIFO mode then ended (blocking (write_to_pipe fuel vnode src sz))
  else mret (- EINVAL).

Definition sys_write (fuel : nat) (fd src sz : Z) : P Z :=
  filp ← call (get_filp proc fd);
  vnode ← call (get_fd_vnode proc fd);
  if bool_decide (vnode = 0) then mret (- EINVAL)
  else if bool_decide (is_allowed vnode W_OK <> 0) then mret (- EACCES)
  else
    blocking (vnode_lock vnode);;
    xfered ← write_by_type fuel filp vnode src sz;
    call (vnode_unlock vnode);;
    mret xfered.

(** ** seek.c *)

(** The new offset, an [off64_t]. *)
Definition seek_to (filp vnode pos whence : Z) : M (option Z) :=
  v ← deref vnodes vnode;
  if negb (S_ISREG (v_mode v)) && negb (S_ISBLK (v_mode v)) then mret None
  else
    f ← deref filps filp;
    let to offset := upd_filp filp (fun f => f <| f_offset := offset |>);; mret (Some offset) in
    if bool_decide (whence = SEEK_SET) then to pos
    else if bool_decide (whence = SEEK_CUR) then to (swrap 64 (f_offset f + pos))
    else if bool_decide (whence = SEEK_END) then to (swrap 64 (v_size v + pos))
    else mret None.

Definition sys_lseek (fd pos whence : Z) : M Z :=
  filp ← get_filp proc fd;
  vnode ← get_fd_vnode proc fd;
  if bool_decide (vnode = 0) then mret (- EINVAL)
  else
    o ← seek_to filp vnode pos whence;
    match o with
    | None => mret (- EINVAL)
    | Some offset => mret (i32 offset)
    end.

(** [pos] is the address of the local variable. *)
Definition sys_lseek64 (pos fd upos whence : Z) : M Z :=
  kstore pos (replicate 8 0);;
  CopyIn pos upos 8;;
  filp ← get_filp proc fd;
  vnode ← get_fd_vnode proc fd;
  if bool_decide (vnode = 0) then mret (- EINVAL)
  else
    b ← kload pos 8;
    o ← seek_to filp vnode (dword_of b) whence;
    match o with
    | None => mret (- EINVAL)
    | Some offset => copyout_bytes upos (dword_bytes offset);; mret 0
    end.

(** ** truncate.c *)

(** The size is not used. *)
Definition sys_truncate (fd sz : Z) : P Z :=
  vnode ← call (get_filp proc fd;; get_fd_vnode proc fd);
  if bool_decide (vnode = 0) then mret (- EINVAL)
  else
    blocking (vnode_lock vnode);;
    v ← call (deref vnodes vnode);
    if negb (S_ISREG (v_mode v)) then call (vnode_unlock vnode);; mret (- EINVAL)
    else
      err ← vfs_truncate L proc req reply msg vnode 0;
      if bool_decide (err <> 0) then call (vnode_unlock vnode);; mret err
      else
        call (vnode_note vnode (Z.lor NOTE_EXTEND NOTE_ATTRIB));;
        call (vnode_unlock vnode);;
        mret 0.

(** ** stat.c *)

(** [block_size] gives the field of a superblock, [stat_bytes] the layout of a
    [struct stat]. *)
Definition fill_stat (block_size : Z -> Z) (vnode : Z) : M statbuf :=
  v ← deref vnodes vnode;
  b ← deref superblocks (v_superblock v);
  let bs := block_size (v_superblock v) in
  mret (mkStatbuf (sb_dev b) (inode_nr v) (v_mode v) (v_nlink v) (v_uid v) (v_gid v) (v_rdev v) (v_size v)
    (v_atime v) (v_mtime v) (v_ctime v)
    (if bool_decide (bs <> 0) then Z.quot (v_size v) bs else 0) (if bool_decide (bs <> 0) then bs else 0)).

Definition copy_stat (stat_bytes : statbuf -> list Z) (_stat : Z) (st : statbuf) : M Z :=
  if bool_decide (_stat = 0) then mret (- EFAULT)
  else sc ← copyout_bytes _stat (stat_bytes st); mret (if bool_decide (sc <> 0) then - EFAULT else 0).

Definition sys_stat (block_size : Z -> Z) (stat_bytes : statbuf -> list Z) (_path _stat : Z) (ld : lookupdata) : P Z :=
  '(sc, ld) ← lookup _path 0 ld;
  if bool_decide (sc <> 0) then mret sc
  else
    st ← call (fill_stat block_size (ld_vnode ld));
    call (vnode_put (ld_vnode ld));;
    call (copy_stat stat_bytes _stat st).

Definition sys_fstat (block_size : Z -> Z) (stat_bytes : statbuf -> list Z) (fd _stat : Z) : P Z :=
  vnode ← call (get_filp proc fd;; get_fd_vnode proc fd);
  if bool_decide (vnode = 0) then mret (- EINVAL)
  else
    blocking (vnode_lock vnode);;
    st ← call (fill_stat block_size vnode);
    call (vnode_unlock vnode);;
    call (copy_stat stat_bytes _stat st).

(** ** access.c *)

Definition sys_access (pathname permissions : Z) : P Z := mret F_OK.

Definition sys_umask (mode : Z) : M Z :=
  old_mode ← fword proc fp_umask;
  set_fword proc fp_umask mode;;
  mret old_mode.

(** [if (vnode->uid == current->uid) ...], with the change of the attributes. *)
Definition change_mode (vnode mode : Z) : P Z :=
  v ← call (deref vnodes vnode);
  if bool_decide (v_uid v = uid) then
    err ← vfs_chmod L proc req reply msg vnode mode;
    (if bool_decide (err = 0) then call (upd_vnode vnode (fun v => v <| v_mode := mode |>)) else mret ());;
    mret err
  else mret EPERM.
Definition change_owner (vnode u g : Z) : P Z :=
  v ← call (deref vnodes vnode);
  if bool_decide (v_uid v = uid) then
    err ← vfs_chown L proc req reply msg vnode u g;
    (if bool_decide (err = 0) then call (upd_vnode vnode (fun v => v <| v_uid := u |> <| v_gid := g |>)) else mret ());;
    mret err
  else mret EPERM.

Definition sys_chmod (_path mode : Z) (ld : lookupdata) : P Z :=
  '(err, ld) ← lookup _path 0 ld;
  if bool_decide (err <> 0) then mret err
  else
    err ← change_mode (ld_vnode ld) mode;
    call (vnode_note (ld_vnode ld) NOTE_ATTRIB);;
    call (vnode_put (ld_vnode ld));;
    mret err.

Definition sys_chown (_path u g : Z) (ld : lookupdata) : P Z :=
  '(err, ld) ← lookup _path 0 ld;
  if bool_decide (err <> 0) then mret err
  else
    change_owner (ld_vnode ld) u g;;
    call (vnode_note (ld_vnode ld) NOTE_ATTRIB);;
    call (vnode_put (ld_vnode ld));;
    mret 0.

Definition sys_fchmod (fd mode : Z) : P Z :=
  vnode ← call (get_fd_vnode proc fd);
  if bool_decide (vnode = 0) then mret (- EINVAL)
  else
    err ← change_mode vnode mode;
    call (vnode_note vnode NOTE_ATTRIB);;
    call (vnode_put vnode);;
    mret err.

Definition sys_fchown (fd u g : Z) : P Z :=
  vnode ← call (get_fd_vnode proc fd);
  if bool_decide (vnode = 0) then mret (- EINVAL)
  else
    change_owner vnode u g;;
    call (vnode_note vnode NOTE_ATTRIB);;
    call (vnode_put vnode);;
    mret 0.

(** ** dir.c *)

Definition sys_chdir (_path : Z) (ld : lookupdata) : P Z :=
  '(err, ld) ← lookup _path 0 ld;
  if bool_decide (err <> 0) then mret err
  else
    v ← call (deref vnodes (ld_vnode ld));
    if negb (S_ISDIR (v_mode v)) then call (vnode_put (ld_vnode ld));; mret (- ENOTDIR)
    else
      cwd ← call (fword proc fp_current_dir);
      (if bool_decide (cwd <> 0) then call (vnode_put cwd) else mret ());;
      call (set_fword proc fp_current_dir (ld_vnode ld));;
      call (vnode_unlock (ld_vnode ld));;
      mret 0.

Definition sys_fchdir (fd : Z) : M Z :=
  vnode ← get_fd_vnode proc fd;
  if bool_decide (vnode = 0) then mret (- EINVAL)
  else
    v ← deref vnodes vnode;
    if negb (S_ISDIR (v_mode v)) then mret (- ENOTDIR)
    else
      cwd ← fword proc fp_current_dir;
      vnode_put cwd;;
      set_fword proc fp_current_dir vnode;;
      vnode_inc_ref vnode;;
      mret 0.

Definition sys_chroot (_new_root : Z) : P Z := mret (- ENOSYS).

(** [garbage] is the uninitialised [fd] of the exit for what is no directory. *)
Definition sys_opendir (garbage _path : Z) (ld : lookupdata) : P Z :=
  '(err, ld) ← lookup _path 0 ld;
  if bool_decide (err <> 0) then mret err
  else
    let vnode := ld_vnode ld in
    let failed fd := call (free_fd_filp proc fd);; call (vnode_put vnode);; mret (- ENOMEM) in
    v ← call (deref vnodes vnode);
    if negb (S_ISDIR (v_mode v)) then failed garbage
    else
      fd ← call (alloc_fd_filp proc);
      if bool_decide (fd < 0) then failed fd
      else
        filp ← call (get_filp proc fd);
        call (upd_filp filp (fun f => f <| f_type := FILP_TYPE_VNODE |> <| f_u := vnode |> <| f_offset := 0 |>));;
        call (vnode_unlock vnode);;
        mret fd.

Definition invalidate_dir (dvnode : Z) : M unit := mret ().

Definition sys_readdir (fd dst sz : Z) : P Z :=
  filp ← call (get_filp proc fd);
  vnode ← call (get_fd_vnode proc fd);
  if bool_decide (vnode = 0) then mret (- EINVAL)
  else
    v ← call (deref vnodes vnode);
    if negb (S_ISDIR (v_mode v)) then mret (- ENOTDIR)
    else
      f ← call (deref filps filp);
      blocking (vnode_lock vnode);;
      '(dirents_sz, cookie) ← vfs_readdir L proc req reply msg vnode buf 512 (f_offset f);
      (if bool_decide (dirents_sz > 0) then call (CopyOut dst buf dirents_sz);; mret () else mret ());;
      call (upd_filp filp (fun f => f <| f_offset := cookie |>));;
      call (vnode_unlock vnode);;
      mret dirents_sz.

Definition sys_rewinddir (fd : Z) : M Z :=
  filp ← get_filp proc fd;
  vnode ← get_fd_vnode proc fd;
  if bool_decide (vnode = 0) then mret (- EINVAL)
  else
    v ← deref vnodes vnode;
    if negb (S_ISDIR (v_mode v)) then mret (- EINVAL)
    else upd_filp filp (fun f => f <| f_offset := 0 |>);; mret 0.

(** [garbage] is the uninitialised [struct stat].  The exits put the vnodes
    whether they are NULL or not. *)
Definition sys_createdir (garbage : stat) (_path mode : Z) (ld : lookupdata) : P Z :=
  '(err, ld) ← lookup _path LOOKUP_PARENT ld;
  let leave vnode dvnode err := call (vnode_put vnode);; call (vnode_put dvnode);; mret err in
  if bool_decide (err <> 0) then leave 0 0 err
  else
    let dvnode := ld_parent ld in
    '(err, vnode) ←
      (if bool_decide (ld_vnode ld = 0) then
         '(err, result) ← vfs_mkdir L path_max proc req reply msg dvnode (last_component ld) garbage;
         mret (err, default 0 result)
       else
         v ← call (deref vnodes (ld_vnode ld));
         mret (if S_ISDIR (v_mode v) then 0 else - ENOTDIR, ld_vnode ld));
    if bool_decide (err <> 0) then leave vnode dvnode err
    else call (vnode_note dvnode (Z.lor NOTE_WRITE NOTE_ATTRIB));; leave vnode dvnode 0.

(** [garbage] is the uninitialised element of the array in vfs_rmdir. *)
Definition sys_rmdir (garbage : IOV) (_path : Z) (ld : lookupdata) : P Z :=
  '(err, ld) ← lookup _path LOOKUP_REMOVE ld;
  if bool_decide (err <> 0) then mret err
  else
    let vnode := ld_vnode ld in
    let dvnode := ld_parent ld in
    let leave err := call (vnode_put vnode);; call (vnode_put dvnode);; mret err in
    v ← call (deref vnodes vnode);
    if negb (S_ISDIR (v_mode v)) then leave (- ENOTDIR)
    else
      call (upd_vnode vnode (fun v => v <| v_reference_cnt := v_reference_cnt v - 1 |>));;
      v ← call (deref vnodes vnode);
      (if bool_decide (v_reference_cnt v = 0) then
         vfs_rmdir L path_max proc req reply msg garbage dvnode (last_component ld);; mret ()
       else mret ());;
      call (vnode_note dvnode (Z.lor NOTE_WRITE NOTE_ATTRIB));;
      leave 0.

(** ** link.c, symlink.c, rename.c, sync.c and ioctl.c *)

Definition sys_unlink (garbage : IOV) (_path : Z) (ld : lookupdata) : P Z :=
  '(err, ld) ← lookup _path LOOKUP_REMOVE ld;
  if bool_decide (err <> 0) then mret err
  else
    let vnode := ld_vnode ld in
    let dvnode := ld_parent ld in
    let leave err := call (vnode_put vnode);; call (vnode_put dvnode);; mret err in
    v ← call (deref vnodes vnode);
    if negb (S_ISREG (v_mode v)) then leave (- EINVAL)
    else
      call (upd_vnode vnode (fun v => v <| v_nlink := v_nlink v - 1 |>));;
      vfs_unlink L path_max proc req reply msg garbage dvnode (last_component ld);;
      call (vnode_note vnode NOTE_LINK);;
      leave 0.

Definition sys_symlink (_path _link : Z) (ld : lookupdata) : P Z :=
  '(status, ld) ← lookup _path LOOKUP_PARENT ld;
  if bool_decide (status <> 0) then mret status
  else if bool_decide (ld_vnode ld <> 0) then
    call (vnode_put (ld_parent ld));; call (vnode_put (ld_vnode ld));; mret (- EEXIST)
  else call (vnode_put (ld_parent ld));; mret status.

Definition sys_readlink (_path _link link_size : Z) (ld : lookupdata) : P Z :=
  '(status, ld) ← lookup _path 0 ld;
  if bool_decide (status <> 0) then mret status
  else if bool_decide (ld_vnode ld = 0) then mret (- EEXIST)
  else
    v ← call (deref vnodes (ld_vnode ld));
    if negb (S_ISLNK (v_mode v)) then call (vnode_put (ld_vnode ld));; mret (- ENOLINK)
    else call (vnode_put (ld_vnode ld));; mret status.

Definition sys_rename (oldpath newpath : Z) : P Z := mret 0.
Definition sys_sync : P Z := mret (- ENOSYS).

Definition sys_fsync (fd : Z) : P Z :=
  vnode ← call (get_filp proc fd;; get_fd_vnode proc fd);
  if bool_decide (vnode = 0) then mret (- EINVAL)
  else if bool_decide (is_allowed vnode W_OK <> 0) then mret (- EACCES)
  else
    blocking (vnode_lock vnode);;
    sc ← vfs_fsync vnode;
    call (vnode_unlock vnode);;
    mret sc.

Definition sys_ioctl (fd cmd arg : Z) : P Z := mret (- ENOSYS).
End Files.

(** ** Calls on paths, end to end *)

(** A path of the process that leads through the entries [as_] of the file
    system of [sb], whose server [server] answers with [answer]: the conditions
    of [lookup_ok]. *)
Section OnPath.
Context (L : protocol) (path_max : nat) (proc req reply msg path dot dotdot : Z) (bdflush_brelse : Z -> M unit)
  (server fd sb umsgid addr buf_sz raddr : Z) (answer : list Z -> Z * list Z) (um : Z -> Z) (uv : Z -> bool)
  (_path : Z) (k : nat) (c : list Z) (l : list (nat * list Z)) (trail : list Z) (as_ : list attributes).

Definition the_path : list Z := replicate k slash ++ c ++ render l trail.
(** The server runs once for each component. *)
Definition runs : others :=
  replicate (S (length l)) (as_process um uv (serve bdflush_brelse server fd umsgid addr buf_sz raddr answer)).

Record resolvable (start : Z) (s : fs) : Prop := {
  rv_start : start = start_of proc s the_path;
  rv_end : endpoint L umsgid addr buf_sz uv;
  rv_msg : msg <> 0;
  rv_sb : sb <> 0;
  rv_reply x : raddr <= x < raddr + fsreply_sz L -> uv x = true;
  rv_apart : apart_ok L path_max req reply path dot dotdot (fproc s server + 4 * (fd_table + fd));
  rv_free v : v ∈ vnode_free_list s -> 0 < v <= NR_VNODE;
  rv_used : start ∉ vnode_free_list s;
  rv_nodup : NoDup (vnode_free_list s);
  rv_held : 1 <= v_reference_cnt (vnodes s start);
  rv_trail : trail = [] \/ trail = [slash];
  rv_ready : ready proc server fd sb s;
  rv_enough : (length as_ <= length (vnode_free_list s))%nat;
  rv_dot : cstr (kmem (fmem s)) dot [46];
  rv_dotdot : cstr (kmem (fmem s)) dotdot [46; 46];
  rv_path : cstr (umem s) _path the_path;
  rv_length : (length the_path < path_max)%nat;
  rv_valid a : _path <= a <= _path + Z.of_nat (length the_path) -> uvalid s a = true;
  rv_fproc : fproc s proc <> 0;
  rv_cwd : ~ (path <= fproc s proc + 4 * fp_current_dir <= path + Z.of_nat path_max);
  rv_pos : 0 < path;
  rv_range : 0 < start <= NR_VNODE;
  rv_dir : S_ISDIR (v_mode (vnodes s start)) = true;
  rv_super : v_superblock (vnodes s start) = sb;
  rv_unlocked : v_busy (vnodes s start) = false;
  rv_chain : chain L path_max buf_sz answer (inode_nr (vnodes s start)) (c :: map snd l) as_;
  rv_inodes : NoDup (map a_inode_nr as_);
  rv_uncached a : a ∈ as_ -> uncached sb (a_inode_nr a) s
}.

Lemma resolvable_lookup start ld s :
  resolvable start s ->
  exists v a fl ex ld' s', last as_ = Some a /\
    lookup L path_max proc req reply msg path dot dotdot _path 0 ld runs s = Done (0, ld') [] s' /\ ld_vnode ld' = v /\ v <> start /\
    walking proc dot dotdot server fd sb s start [v] fl ex [] s' /\
    inode_nr (vnodes s' v) = a_inode_nr a /\ v_mode (vnodes s' v) = a_mode a /\ v_size (vnodes s' v) = a_size a /\
    v_uid (vnodes s' v) = a_uid a /\ v_gid (vnodes s' v) = a_gid a.
Proof.
  intros []. destruct (lookup_ok L path_max proc req reply msg path dot dotdot bdflush_brelse server fd sb umsgid addr buf_sz raddr
    answer um uv rv_end0 rv_msg0 rv_sb0 rv_reply0 s start _ eq_refl rv_apart0 rv_free0 rv_used0 rv_held0 _path k c l trail as_ ld []
    rv_trail0 rv_ready0 rv_nodup0 rv_enough0 rv_dot0 rv_dotdot0 rv_path0 rv_length0 rv_valid0 rv_fproc0 rv_cwd0 rv_pos0
    (eq_sym rv_start0) rv_range0 rv_dir0 rv_super0 rv_unlocked0 rv_chain0 rv_inodes0 rv_uncached0)
    as (v & a & fl & ex & ld' & s' & H). rewrite app_nil_r in H. by exists v, a, fl, ex, ld', s'.
Qed.

(** The vnode of a path is let go after the call. *)
Lemma resolvable_put start v fl ex s s1 :
  resolvable start s -> walking proc dot dotdot server fd sb s start [v] fl ex [] s1 ->
  exists s2, vnode_put v s1 = Ret () s2 /\ uvalid s2 = uvalid s /\
    v_reference_cnt (vnodes s2 start) = v_reference_cnt (vnodes s start) /\ v_busy (vnodes s2 start) = false /\
    (forall w, w <> start -> w ∉ vnode_free_list s -> vnodes s2 w = vnodes s w) /\
    (forall w, w ∈ vnode_free_list s2 -> w ∈ vnode_free_list s) /\ ready proc server fd sb s2.
Proof.
  intros [] W. destruct (walking_put L path_max proc req reply msg path dot dotdot bdflush_brelse server fd sb umsgid addr buf_sz raddr
    answer um uv rv_end0 rv_msg0 rv_sb0 rv_reply0 s start _ eq_refl rv_apart0 rv_free0 rv_used0 rv_held0 v [] fl ex [] s1 W)
    as (s2 & ex' & E & W2 & _ & _).
  exists s2. split; [done|]. destruct W2 as [W1 _ _ _ W4 W5 _ [W7 W7'] W8 _ _ _ W11]. split_and!; try done.
  - rewrite bool_decide_false, Z.add_0_r in W7 by apply not_elem_of_nil. done.
  - apply W7', not_elem_of_nil.
  - intros w Hw. apply W5. by rewrite <- W4.
Qed.

(** What stat and the server agree on. *)
Definition stat_of (a : attributes) (st : statbuf) : Prop :=
  s_ino st = a_inode_nr a /\ s_mode st = a_mode a /\ s_size st = a_size a /\ s_uid st = a_uid a /\ s_gid st = a_gid a.

Lemma sys_stat_ok block_size stat_bytes _stat start ld s :
  resolvable start s -> _stat <> 0 ->
  (forall st x, _stat <= x < _stat + Z.of_nat (length (stat_bytes st)) -> uvalid s x = true) ->
  exists a st s', last as_ = Some a /\ stat_of a st /\
    sys_stat L path_max proc req reply msg path dot dotdot block_size stat_bytes _path _stat ld runs s = Done 0 [] s' /\
    (forall j b, stat_bytes st !! j = Some b -> umem s' (_stat + Z.of_nat j) = b) /\
    v_reference_cnt (vnodes s' start) = v_reference_cnt (vnodes s start) /\ v_busy (vnodes s' start) = false /\
    (forall w, w <> start -> w ∉ vnode_free_list s -> vnodes s' w = vnodes s w).
Proof.
  intros R Hst Hval. destruct (resolvable_lookup start ld s R) as (v & a & fl & ex & ld' & s1 & La & E1 & Lv & Hvs & W & I1 & I2 & I3 & I4 & I5).
  destruct (resolvable_put start v fl ex s s1 R W) as (s2 & E2 & U2 & V1 & V2 & V3 & _ & _).
  destruct (wk_locked _ _ _ _ _ _ _ _ _ _ _ _ _ W v (list_elem_of_here _ _)) as (Hv0 & Hvsb & _).
  pose proof (rv_sb _ _ R) as Hsb.
  set (bs := block_size sb).
  set (st := mkStatbuf (sb_dev (superblocks s1 sb)) (inode_nr (vnodes s1 v)) (v_mode (vnodes s1 v)) (v_nlink (vnodes s1 v))
    (v_uid (vnodes s1 v)) (v_gid (vnodes s1 v)) (v_rdev (vnodes s1 v)) (v_size (vnodes s1 v)) (v_atime (vnodes s1 v))
    (v_mtime (vnodes s1 v)) (v_ctime (vnodes s1 v)) (if bool_decide (bs <> 0) then Z.quot (v_size (vnodes s1 v)) bs else 0)
    (if bool_decide (bs <> 0) then bs else 0)).
  assert (Ef : fill_stat block_size v s1 = Ret st s1).
  { unfold fill_stat. rewrite (run_bind _ _ _ _ _ (run_deref _ _ _ Hv0)). rewrite Hvsb.
    rewrite (run_bind _ _ _ _ _ (run_deref _ _ _ Hsb)). reflexivity. }
  destruct (copyout_bytes_ok (stat_bytes st) _stat s2) as (u & Ec & Hw & _).
  { rewrite U2. apply Hval. }
  exists a, st, (s2 <| umem := u |>). split; [done|]. split; [by split_and!|]. split; [|by split_and!].
  unfold sys_stat. rewrite (prun_bind _ _ _ _ _ _ _ E1), bool_decide_false by (intros H; by apply H). rewrite Lv.
  rewrite (prun_bind _ _ _ _ _ _ _ (run_call _ _ _ _ _ Ef)), (prun_bind _ _ _ _ _ _ _ (run_call _ _ _ _ _ E2)).
  apply run_call. unfold copy_stat. rewrite bool_decide_false by done. by rewrite (run_bind _ _ _ _ _ Ec).
Qed.
End OnPath.

(** ** Devices *)

Lemma run_get_fd_vnode proc fd v s :
  fproc s proc <> 0 -> 0 <= fd < OPEN_MAX -> fd_filp s proc fd <> 0 -> f_type (filps s (fd_filp s proc fd)) = FILP_TYPE_VNODE ->
  f_u (filps s (fd_filp s proc fd)) = v -> get_fd_vnode proc fd s = Ret v s.
Proof.
  intros Hp Hfd Hf Ht Hu. unfold get_fd_vnode. rewrite bool_decide_false by lia.
  rewrite (run_bind _ _ _ _ _ (run_fword _ _ _ Hp)). fold (fd_filp s proc fd). rewrite bool_decide_false by done.
  rewrite (run_bind _ _ _ _ _ (run_deref _ _ _ Hf)), bool_decide_false by (intros H; by apply H). by rewrite Hu.
Qed.

Lemma run_vnode_lock v s :
  v <> 0 -> v_busy (vnodes s v) = false -> vnode_lock v s = Ret () (s <| vnodes := <[v := vnodes s v <| v_busy := true |>]> (vnodes s) |>).
Proof.
  intros Hv Hb. unfold vnode_lock. rewrite (run_bind _ _ _ _ _ (run_deref _ _ _ Hv)), Hb. cbn [sleep_while].
  rewrite (run_bind _ _ _ _ _ (run_ret _ _)). unfold upd_vnode. by rewrite run_upd.
Qed.

(** Without an offset, vfs_read reads at 0. *)
Lemma vfs_read_none L proc req msg vnode dst n x o env s env' s' :
  vfs_read L proc req msg vnode dst n (Some 0) env s = Done (x, o) env' s' ->
  vfs_read L proc req msg vnode dst n None env s = Done (x, None) env' s'.
Proof.
  unfold vfs_read. intros H. apply pbind_inv in H as (v & e1 & s1 & E1 & H). apply pbind_inv in H as (r & e2 & s2 & E2 & H).
  rewrite (prun_bind _ _ _ _ _ _ _ E1). cbn [default] in *. rewrite (prun_bind _ _ _ _ _ _ _ E2).
  case_bool_decide; injection H as <- _ <- <-; done.
Qed.

Section Device.
Context (L : protocol) (proc req msg buf : Z) (bdflush_brelse : Z -> M unit)
  (server sfd sb umsgid addr buf_sz raddr : Z) (answer : list Z -> Z * list Z) (um : Z -> Z) (uv : Z -> bool).
Abbreviation server_runs := (as_process um uv (serve bdflush_brelse server sfd umsgid addr buf_sz raddr answer)).

(** Descriptor [fd] of the process is the device [v] of the server. *)
Record opened (type : Z -> bool) (fd v : Z) (s : fs) : Prop := {
  op_end : endpoint L umsgid addr buf_sz uv;
  op_msg : msg <> 0;
  op_sb : sb <> 0;
  op_room : fsreq_sz L <= buf_sz;
  op_fproc : fproc s proc <> 0;
  op_fd : 0 <= fd < OPEN_MAX;
  op_filp : fd_filp s proc fd <> 0;
  op_type : f_type (filps s (fd_filp s proc fd)) = FILP_TYPE_VNODE;
  op_vnode : f_u (filps s (fd_filp s proc fd)) = v;
  op_v : v <> 0;
  op_mode : type (v_mode (vnodes s v)) = true;
  op_super : v_superblock (vnodes s v) = sb;
  op_busy : v_busy (vnodes s v) = false;
  op_ready : ready proc server sfd sb s;
  op_buf : ~ (buf <= fd_word server sfd s < buf + 512);
  op_req : ~ (req <= fd_word server sfd s < req + fsreq_sz L)
}.

(** A reply to a read of [n] bytes: a status and, unless it is an error, as many
    bytes. *)
Definition good_reply (n : Z) (r : Z * list Z) : Prop :=
  Z.of_nat (length (snd r)) <= n /\ (0 <= fst r -> Z.of_nat (length (snd r)) = fst r).

(** One request to the server for the contents at [off], into the buffer. *)
Lemma device_read n v off env s :
  endpoint L umsgid addr buf_sz uv -> msg <> 0 -> sb <> 0 -> fsreq_sz L <= buf_sz -> v <> 0 -> v_superblock (vnodes s v) = sb ->
  ready proc server sfd sb s -> ~ (buf <= fd_word server sfd s < buf + 512) -> ~ (req <= fd_word server sfd s < req + fsreq_sz L) ->
  0 <= n <= 512 ->
  let r := answer (fsreq_bytes L (CMD_READ (inode_nr (vnodes s v)) off n)) in
  good_reply n r -> (forall a, raddr <= a < raddr + Z.of_nat (length (snd r)) -> uv a = true) ->
  exists s', vfs_read L proc req msg v buf n (Some off) (server_runs :: env) s = Done (fst r, Some (moved (fst r) off)) env s' /\
    (forall i, 0 <= i < Z.of_nat (length (snd r)) -> snd r !! Z.to_nat i = Some (kmem (fmem s') (buf + i))) /\
    rest s' = rest s /\ ready proc server sfd sb s'.
Proof.
  intros [E1 E2 E3 E4] Hm Hs Hro Hv Hvs R Hb Hr Hn r [Hl _] Hu.
  destruct (vfs_read_ok L proc req 0 msg bdflush_brelse server sfd sb umsgid addr buf_sz raddr answer um uv
    Hm Hs E1 E2 E3 E4 v buf n off env s Hv Hvs R (proj1 Hn)) as (s' & E & H1 & _ & H3 & _ & H5); [lia|done|done|done|done|].
  by exists s'.
Qed.

Lemma ready_vnodes V s : ready proc server sfd sb s -> ready proc server sfd sb (s <| vnodes := V |>).
Proof. intros R. by apply (ready_ext _ _ _ _ s). Qed.

(** The data for the process, [dst] being valid. *)
Lemma copy_reply (r : Z * list Z) dst n s :
  good_reply n r -> (forall a, dst <= a < dst + n -> uvalid s a = true) ->
  (forall i, 0 <= i < Z.of_nat (length (snd r)) -> snd r !! Z.to_nat i = Some (kmem (fmem s) (buf + i))) ->
  exists u, (if bool_decide (fst r > 0) then CopyOut dst buf (fst r);; mret (fst r) else mret (fst r)) s = Ret (fst r) (s <| umem := u |>) /\
    forall a, u a = put_bytes dst (if bool_decide (fst r < 0) then [] else snd r) (umem s) a.
Proof.
  intros [Hl Hg] Hv Hk. case_bool_decide as Hp.
  - destruct (copyout_ok (Z.to_nat (fst r)) dst buf s) as (u & E & Hu); [intros a Ha; apply Hv; lia|].
    exists u. unfold CopyOut. rewrite (run_bind _ _ _ _ _ E). split; [done|]. intros a. rewrite Hu.
    rewrite (bool_decide_false (fst r < 0)) by lia. case_bool_decide as Ha.
    + symmetry. replace a with (dst + (a - dst)) at 1 by lia. apply put_bytes_in; [|lia]. apply Hk. lia.
    + rewrite put_bytes_out; [done|]. lia.
  - exists (umem s). split; [by destruct s|]. intros a. symmetry. case_bool_decide as Hn; [apply put_bytes_nil|].
    apply put_bytes_out. assert (Z.of_nat (length (snd r)) = 0) by lia. lia.
Qed.

Lemma read_from_char_ok v dst sz env s :
  endpoint L umsgid addr buf_sz uv -> msg <> 0 -> sb <> 0 -> fsreq_sz L <= buf_sz -> v <> 0 -> v_superblock (vnodes s v) = sb ->
  ready proc server sfd sb s -> ~ (buf <= fd_word server sfd s < buf + 512) -> ~ (req <= fd_word server sfd s < req + fsreq_sz L) ->
  v_reader_cnt (vnodes s v) = 0 -> 0 < sz ->
  let n := Z.min sz 512 in
  let r := answer (fsreq_bytes L (CMD_READ (inode_nr (vnodes s v)) 0 n)) in
  good_reply n r -> (forall a, raddr <= a < raddr + Z.of_nat (length (snd r)) -> uv a = true) ->
  (forall a, dst <= a < dst + n -> uvalid s a = true) ->
  exists s', read_from_char L proc req msg buf v dst sz (server_runs :: env) s = Done (fst r) env s' /\
    (forall w, vnodes s' w = vnodes s w) /\ ready proc server sfd sb s' /\
    (forall a, umem s' a = put_bytes dst (if bool_decide (fst r < 0) then [] else snd r) (umem s) a).
Proof.
  intros He Hm Hs Hro Hv Hvs R Hb Hr Hc Hsz n r Hg Hu Hd.
  set (s1 := s <| vnodes := <[v := vnodes s v <| v_reader_cnt := 1 |>]> (vnodes s) |>).
  assert (V1 : vnodes s1 v = vnodes s v <| v_reader_cnt := 1 |>) by (subst s1; cbn; by rewrite fn_lookup_insert).
  assert (En : char_xfer sz = n) by (unfold char_xfer; case_bool_decide; lia).
  assert (Hr1 : answer (fsreq_bytes L (CMD_READ (inode_nr (vnodes s1 v)) 0 n)) = r) by (by rewrite V1).
  destruct (device_read n v 0 env s1) as (s2 & E2 & K2 & R2 & Rd2); try done.
  { by rewrite V1. } { by apply ready_vnodes. } { lia. } { by rewrite Hr1. } { by rewrite Hr1. }
  rewrite Hr1 in E2, K2. apply vfs_read_none in E2.
  assert (V2 : vnodes s2 = vnodes s1) by exact (f_equal vnodes R2).
  destruct (copy_reply r dst n s2 Hg) as (u & Ec & Hcu); [|done|].
  { intros a Ha. assert (U2 : uvalid s2 = uvalid s1) by exact (f_equal uvalid R2). rewrite U2. by apply Hd. }
  set (s3 := s2 <| umem := u |>) in Ec.
  set (s4 := s3 <| vnodes := <[v := vnodes s3 v <| v_reader_cnt := 0 |>]> (vnodes s3) |>).
  exists (s4 <| woken := woken s4 ++ [RVNode v] |>). split; [|split; [|split]].
  - unfold read_from_char. erewrite prun_bind.
    2: { apply run_blocking. rewrite (run_bind _ _ _ _ _ (run_deref _ _ _ Hv)). rewrite bool_decide_false by (rewrite Hc; intros H; by apply H). reflexivity. }
    unfold upd_vnode. rewrite (prun_bind _ _ _ _ _ _ _ (run_call _ _ _ _ _ (run_upd _ _ _ _ _ Hv))). cbv beta. fold s1. rewrite En.
    rewrite bool_decide_true by lia. erewrite prun_bind.
    2: { rewrite (prun_bind _ _ _ _ _ _ _ E2). instantiate (1 := s3). instantiate (1 := env). instantiate (1 := fst r).
         destruct (bool_decide (fst r > 0)).
         - destruct (CopyOut dst buf (fst r) s2) as [c s2'| |] eqn:Ecc; unfold mbind, M_bind in Ec; rewrite Ecc in Ec; try done.
           injection Ec as ->. by rewrite (prun_bind _ _ _ _ _ _ _ (run_call _ _ _ _ _ Ecc)).
         - injection Ec as Ec. rewrite <- Ec. done. }
    rewrite (prun_bind _ _ _ _ _ _ _ (run_call _ _ _ _ _ (run_upd _ _ _ _ _ Hv))). cbv beta. fold s4.
    unfold wakeup, modify. by erewrite prun_bind by (apply run_call; reflexivity).
  - intros w. cbn. change (vnodes s3) with (vnodes s2). rewrite V2. destruct (decide (w = v)) as [->|Hw].
    + rewrite fn_lookup_insert, V1. destruct (vnodes s v). cbn in *. by subst.
    + rewrite fn_lookup_insert_ne by done. subst s1. cbn. by rewrite fn_lookup_insert_ne.
  - by apply (ready_ext _ _ _ _ s2).
  - intros a. cbn. rewrite Hcu. assert (U2 : umem s2 = umem s1) by exact (f_equal umem R2). by rewrite U2.
Qed.

Lemma sys_read_char_ok fuel fd v dst sz env s :
  opened S_ISCHR fd v s -> v_reader_cnt (vnodes s v) = 0 -> 0 < sz ->
  let n := Z.min sz 512 in
  let r := answer (fsreq_bytes L (CMD_READ (inode_nr (vnodes s v)) 0 n)) in
  good_reply n r -> (forall a, raddr <= a < raddr + Z.of_nat (length (snd r)) -> uv a = true) ->
  (forall a, dst <= a < dst + n -> uvalid s a = true) ->
  exists s', sys_read L proc req msg buf fuel fd dst sz (server_runs :: env) s = Done (fst r) env s' /\
    (forall w, vnodes s' w = vnodes s w) /\ ready proc server sfd sb s' /\
    (forall a, umem s' a = put_bytes dst (if bool_decide (fst r < 0) then [] else snd r) (umem s) a).
Proof.
  intros [] Hc Hsz n r Hg Hu Hd. set (s1 := s <| vnodes := <[v := vnodes s v <| v_busy := true |>]> (vnodes s) |>).
  assert (V1 : vnodes s1 v = vnodes s v <| v_busy := true |>) by (subst s1; cbn; by rewrite fn_lookup_insert).
  destruct (read_from_char_ok v dst sz env s1) as (s2 & E2 & V2 & R2 & U2); try done;
    try (by rewrite V1); try (by apply ready_vnodes).
  rewrite V1 in E2, U2. change (inode_nr (vnodes s v <| v_busy := true |>)) with (inode_nr (vnodes s v)) in E2, U2. fold n r in E2, U2.
  set (s3 := s2 <| vnodes := <[v := vnodes s2 v <| v_busy := false |>]> (vnodes s2) |>).
  exists (s3 <| woken := woken s3 ++ [RVNode v] |>). split; [|split; [|split]].
  - unfold sys_read. rewrite (prun_bind _ _ _ _ _ _ _ (run_call _ _ _ _ _ (run_get_filp _ _ _ op_fproc0 op_fd0))).
    rewrite (prun_bind _ _ _ _ _ _ _ (run_call _ _ _ _ _ (run_get_fd_vnode _ _ _ _ op_fproc0 op_fd0 op_filp0 op_type0 op_vnode0))).
    rewrite bool_decide_false by done. rewrite bool_decide_false by (intros H; by apply H).
    rewrite (prun_bind _ _ _ _ _ _ _ (run_blocking _ _ _ _ _ (run_vnode_lock _ _ op_v0 op_busy0))). fold s1.
    unfold read_by_type. erewrite prun_bind.
    2: { rewrite (prun_bind _ _ _ _ _ _ _ (run_call _ _ _ _ _ (run_deref _ _ _ op_v0))). cbv zeta.
         replace (S_ISCHR (v_mode (vnodes s1 v))) with true by (by rewrite V1). exact E2. }
    unfold vnode_unlock, upd_vnode. erewrite prun_bind.
    2: { apply run_call. rewrite (run_bind _ _ _ _ _ (run_upd _ _ _ _ _ op_v0)). cbv beta. fold s3. unfold wakeup, modify. reflexivity. }
    done.
  - intros w. cbn. destruct (decide (w = v)) as [->|Hw].
    + rewrite fn_lookup_insert, V2, V1. destruct (vnodes s v). cbn in *. by subst.
    + rewrite fn_lookup_insert_ne, V2 by done. subst s1. cbn. by rewrite fn_lookup_insert_ne.
  - by apply (ready_ext _ _ _ _ s2).
  - exact U2.
Qed.

(** At the end of a device, where the server answers that it read nothing, the
    loop goes on asking. *)
Lemma read_block_asks k : forall fuel v dst sz off total s,
  endpoint L umsgid addr buf_sz uv -> msg <> 0 -> sb <> 0 -> fsreq_sz L <= buf_sz -> v <> 0 -> v_superblock (vnodes s v) = sb ->
  ready proc server sfd sb s -> ~ (buf <= fd_word server sfd s < buf + 512) -> ~ (req <= fd_word server sfd s < req + fsreq_sz L) ->
  total < sz -> (k < fuel)%nat ->
  (forall n, answer (fsreq_bytes L (CMD_READ (inode_nr (vnodes s v)) off n)) = (0, [])) ->
  exists fuel' s', (0 < fuel')%nat /\
    read_block_loop L proc req msg buf fuel v dst sz off total (replicate k server_runs) s =
    read_block_loop L proc req msg buf fuel' v dst sz off total [] s' /\ ready proc server sfd sb s' /\ vnodes s' = vnodes s.
Proof.
  induction k as [|k IH]; intros fuel v dst sz off total s He Hm Hs Hro Hv Hvs R Hb Hr Ht Hf Ha; [by exists fuel, s|].
  destruct fuel as [|fuel]; [lia|]. set (n := char_xfer (sz - total)).
  assert (Hn : 0 < n <= 512) by (subst n; unfold char_xfer; case_bool_decide; lia).
  destruct (device_read n v off (replicate k server_runs) s) as (s1 & E1 & _ & R1 & Rd1); try done; try (by rewrite Ha).
  { lia. } { rewrite Ha. split; cbn; lia. } { rewrite Ha. cbn. intros a. lia. }
  rewrite Ha in E1. cbn in E1. change (moved 0 off) with (off + 0) in E1. rewrite Z.add_0_r in E1.
  assert (V1 : vnodes s1 = vnodes s) by exact (f_equal vnodes R1). assert (F1 : fproc s1 = fproc s) by exact (f_equal fproc R1).
  destruct (IH fuel v dst sz off total s1) as (f' & s' & Hf' & E & R' & V'); try done; try (by rewrite V1); try (unfold fd_word in *; by rewrite F1).
  { lia. }
  exists f', s'. split; [done|]. split; [|split; [done|by rewrite V', V1]]. rewrite <- E. cbn [read_block_loop replicate].
  rewrite bool_decide_true by done. cbv zeta. fold n. rewrite (prun_bind _ _ _ _ _ _ _ E1). cbn [default].
  rewrite (bool_decide_false (n = 0)) by lia. rewrite (bool_decide_false (0 < 0)) by lia.
  rewrite (prun_bind (call (CopyOut dst buf 0)) _ _ s1 0 (replicate k server_runs) s1) by done.
  by rewrite !Z.add_0_r.
Qed.

(** A request waits for its answer. *)
Lemma vfs_read_asleep v n off s :
  msg <> 0 -> sb <> 0 -> v <> 0 -> v_superblock (vnodes s v) = sb -> ready proc server sfd sb s ->
  exists s', vfs_read L proc req msg v buf n (Some off) [] s = Asleep (RPort (ReplyPort proc)) s'.
Proof.
  intros Hm Hs Hv Hvs R. set (q := CMD_READ (inode_nr (vnodes s v)) off n).
  set (s0 := s <| fmem := fmem s <| kmem := put_bytes req (fsreq_bytes L q) (kmem (fmem s)) |> |>).
  destruct (run_ksendmsg_put proc msg sb Hm [mkIOV req (fsreq_sz L)] [mkIOV buf n] s0) as (s1 & E1 & R1 & _);
    [apply R|apply (notes_ok_ext _ s); [apply R|done..]|].
  exists s1. unfold vfs_read. rewrite (prun_bind _ _ _ _ _ _ _ (run_call _ _ _ _ _ (run_deref _ _ _ Hv))). cbn [default]. fold q. rewrite Hvs.
  apply prun_bind_asleep. unfold request.
  rewrite (prun_bind _ _ _ _ _ _ _ (run_call (kstore req (fsreq_bytes L q)) _ s () s0 eq_refl)).
  rewrite (prun_bind _ _ _ _ _ _ _ (run_call _ _ _ _ _ (run_deref superblocks sb s0 Hs))).
  rewrite (prun_bind _ _ _ _ _ _ _ (run_call _ _ _ _ _ E1)). apply run_await_asleep. unfold ksendmsg_wait, kwaitport.
  apply run_bind_sleep. rewrite (run_bind _ _ _ _ _ (run_gets _ _)).
  replace (pending_msg_list (msgports s1 (ReplyPort proc))) with (@nil Z); [done|]. rewrite R1. cbn. rewrite fn_lookup_insert_ne by done.
  symmetry. apply R.
Qed.

Lemma sys_read_block_asleep k fuel fd v dst sz s :
  opened S_ISBLK fd v s -> 0 < sz -> (k < fuel)%nat ->
  let off := f_offset (filps s (fd_filp s proc fd)) in
  (forall n, answer (fsreq_bytes L (CMD_READ (inode_nr (vnodes s v)) off n)) = (0, [])) ->
  exists s', sys_read L proc req msg buf fuel fd dst sz (replicate k server_runs) s = Asleep (RPort (ReplyPort proc)) s'.
Proof.
  intros [] Hsz Hf off Ha. set (s1 := s <| vnodes := <[v := vnodes s v <| v_busy := true |>]> (vnodes s) |>).
  assert (V1 : vnodes s1 v = vnodes s v <| v_busy := true |>) by (subst s1; cbn; by rewrite fn_lookup_insert).
  destruct (read_block_asks k fuel v dst sz off 0 s1) as (fuel' & s2 & Hf' & E2 & R2 & V2); try done;
    try (by rewrite V1); try (by apply ready_vnodes).
  destruct fuel' as [|fuel']; [lia|].
  destruct (vfs_read_asleep v (char_xfer (sz - 0)) off s2) as (s' & E'); try done; [by rewrite V2, V1|].
  exists s'. unfold sys_read. rewrite (prun_bind _ _ _ _ _ _ _ (run_call _ _ _ _ _ (run_get_filp _ _ _ op_fproc0 op_fd0))).
  rewrite (prun_bind _ _ _ _ _ _ _ (run_call _ _ _ _ _ (run_get_fd_vnode _ _ _ _ op_fproc0 op_fd0 op_filp0 op_type0 op_vnode0))).
  rewrite bool_decide_false by done. rewrite bool_decide_false by (intros H; by apply H).
  rewrite (prun_bind _ _ _ _ _ _ _ (run_blocking _ _ _ _ _ (run_vnode_lock _ _ op_v0 op_busy0))). fold s1.
  apply prun_bind_asleep. unfold read_by_type. rewrite (prun_bind _ _ _ _ _ _ _ (run_call _ _ _ _ _ (run_deref _ _ _ op_v0))). cbv zeta.
  replace (v_mode (vnodes s1 v)) with (v_mode (vnodes s v)) by (by rewrite V1).
  unfold S_ISBLK, of_type in op_mode0. apply bool_decide_eq_true in op_mode0. unfold S_ISCHR, S_ISREG, S_ISFIFO, S_ISBLK, of_type.
  rewrite op_mode0. rewrite !bool_decide_false by done. rewrite bool_decide_true by done.
  unfold with_offset. rewrite (prun_bind _ _ _ _ _ _ _ (run_call _ _ _ _ _ (run_deref filps _ s1 op_filp0))).
  apply prun_bind_asleep. unfold ended. apply prun_bind_asleep. unfold read_from_block. change (filps s1) with (filps s). fold off.
  rewrite E2. cbn [read_block_loop]. rewrite bool_decide_true by lia. cbv zeta. by apply prun_bind_asleep.
Qed.
End Device.

(** ** The calls *)

(** C7. The attributes of a file, end to end.  For a path that leads through
    entries of a file system that are not cached, with its server answering one
    request for each component, stat returns 0 and the process finds at the
    address it gave the inode, mode, size and owner that the server has for the
    file.  The directory the lookup started from has the references it had and is
    not locked, and no other vnode in use has changed. *)
Theorem sys_stat_correct L path_max proc req reply msg path dot dotdot bdflush_brelse server fd sb umsgid addr buf_sz raddr answer um uv
    _path k c l trail as_ block_size stat_bytes _stat start ld s :
  resolvable L path_max proc req reply msg path dot dotdot server fd sb umsgid addr buf_sz raddr answer uv _path k c l trail as_ start s ->
  _stat <> 0 -> (forall st x, _stat <= x < _stat + Z.of_nat (length (stat_bytes st)) -> uvalid s x = true) ->
  exists a st s', last as_ = Some a /\ stat_of a st /\
    sys_stat L path_max proc req reply msg path dot dotdot block_size stat_bytes _path _stat ld
      (replicate (S (length l)) (as_process um uv (serve bdflush_brelse server fd umsgid addr buf_sz raddr answer))) s = Done 0 [] s' /\
    (forall j b, stat_bytes st !! j = Some b -> umem s' (_stat + Z.of_nat j) = b) /\
    v_reference_cnt (vnodes s' start) = v_reference_cnt (vnodes s start) /\ v_busy (vnodes s' start) = false /\
    (forall w, w <> start -> w ∉ vnode_free_list s -> vnodes s' w = vnodes s w).
Proof. apply sys_stat_ok. Qed.

(** C17. Reading a character device, from the descriptor to the server and back.
    A read of [sz] bytes sends the server one request for at most 512 bytes of
    the device; when it answers with a status and, unless that is an error, as
    many bytes, the read returns the status and exactly these bytes are at the
    address the process gave; the device is not locked and not in use by a
    reader, as before, and the server is ready for the next request. *)
Theorem sys_read_char_correct L proc req msg buf bdflush_brelse server sfd sb umsgid addr buf_sz raddr answer um uv fuel fd v dst sz s :
  opened L proc req msg buf server sfd sb umsgid addr buf_sz uv S_ISCHR fd v s -> v_reader_cnt (vnodes s v) = 0 -> 0 < sz ->
  let n := Z.min sz 512 in
  let r := answer (fsreq_bytes L (CMD_READ (inode_nr (vnodes s v)) 0 n)) in
  good_reply n r -> (forall a, raddr <= a < raddr + Z.of_nat (length (snd r)) -> uv a = true) ->
  (forall a, dst <= a < dst + n -> uvalid s a = true) ->
  exists s', sys_read L proc req msg buf fuel fd dst sz
      [as_process um uv (serve bdflush_brelse server sfd umsgid addr buf_sz raddr answer)] s = Done (fst r) [] s' /\
    (forall w, vnodes s' w = vnodes s w) /\ ready proc server sfd sb s' /\
    (forall a, umem s' a = put_bytes dst (if bool_decide (fst r < 0) then [] else snd r) (umem s) a).
Proof. apply sys_read_char_ok. Qed.

(** C40. A read at the end of a block device never returns.  When the server
    answers that there is nothing at the offset, which is status 0, the loop of
    read_from_block asks it again: however often the server has answered, the
    reader sleeps in the next request, with the device locked. *)
Theorem block_read_hangs L proc req msg buf bdflush_brelse server sfd sb umsgid addr buf_sz raddr answer um uv k fuel fd v dst sz s :
  opened L proc req msg buf server sfd sb umsgid addr buf_sz uv S_ISBLK fd v s -> 0 < sz -> (k < fuel)%nat ->
  (forall n, answer (fsreq_bytes L (CMD_READ (inode_nr (vnodes s v)) (f_offset (filps s (fd_filp s proc fd))) n)) = (0, [])) ->
  exists s', sys_read L proc req msg buf fuel fd dst sz
    (replicate k (as_process um uv (serve bdflush_brelse server sfd umsgid addr buf_sz raddr answer))) s =
    Asleep (RPort (ReplyPort proc)) s'.
Proof. apply sys_read_block_asleep. Qed.

(** ** Witnesses *)

Lemma fs_lookup_resolvable :
  resolvable small_protocol 16 9 3000 3100 500 7000 3200 3202 1 3 2 40 50 20 100 small_answer (fun _ => true) 100 1 [97; 98] [(0%nat, [99])] []
    [mkAttributes 10 0 0 0 0x4000; mkAttributes 11 77 0 0 0x8000] 5 fs_lookup.
Proof.
  split; try (intros H; discriminate H); try reflexivity; try exact small_endpoint; try exact fs_lookup_ready; try exact small_chain.
  - change (fproc fs_lookup 1 + 4 * (fd_table + 3)) with 4108. split; cbn; lia.
  - intros w Hw. cbn in Hw. rewrite !elem_of_cons, elem_of_nil in Hw. unfold NR_VNODE. lia.
  - intros Hw. cbn in Hw. rewrite !elem_of_cons, elem_of_nil in Hw. lia.
  - change (NoDup [20; 21]). apply (bool_decide_unpack _). reflexivity.
  - by left.
  - split_and!; done.
  - split_and!; done.
  - split_and!; done.
  - cbn. lia.
  - change (fproc fs_lookup 9 + 4 * fp_current_dir) with 4372. lia.
  - unfold NR_VNODE. lia.
  - change (NoDup [10; 11]). apply (bool_decide_unpack _). reflexivity.
  - intros b Hb w Hw [H1 H2]. cbn in H1. destruct (bool_decide (w = 5)) eqn:Ew; [|discriminate H1]. cbn in H2. rewrite Ew in H2.
    rewrite !elem_of_cons, elem_of_nil in Hb. destruct Hb as [->|[->|[]]]; discriminate H2.
Qed.

Lemma sys_stat_correct_witness :
  exists s', sys_stat small_protocol 16 9 3000 3100 500 7000 3200 3202 (fun _ => 0) (fun st => [s_ino st; s_size st]) 100 200
      (mkLookupdata 0 0 0 0 0 0 0)
      (replicate 2 (as_process (fun _ => 0) (fun _ => true) (serve (fun _ => fault) 1 3 40 50 20 100 small_answer))) fs_lookup =
      Done 0 [] s' /\ umem s' 200 = 11 /\ umem s' 201 = 77.
Proof.
  destruct (sys_stat_correct small_protocol 16 9 3000 3100 500 7000 3200 3202 (fun _ => fault) 1 3 2 40 50 20 100 small_answer
    (fun _ => 0) (fun _ => true) 100 1 [97; 98] [(0%nat, [99])] [] [mkAttributes 10 0 0 0 0x4000; mkAttributes 11 77 0 0 0x8000]
    (fun _ => 0) (fun st => [s_ino st; s_size st]) 200 5 (mkLookupdata 0 0 0 0 0 0 0) fs_lookup fs_lookup_resolvable)
    as (a & st & s' & Ha & (H1 & _ & H2 & _) & E & Hu & _); [intros H; discriminate H|reflexivity|].
  injection Ha as <-. exists s'. split; [exact E|]. split; [rewrite <- (Hu 0%nat _ eq_refl) in H1; exact H1|].
  rewrite <- (Hu 1%nat _ eq_refl) in H2. exact H2.
Defined.

(** Process 9 has the device 7 of [fs_vfs], of type [t], on descriptor 4. *)
Definition fs_dev (t : Z) : fs := fs_vfs
  <| fmem := fmem fs_vfs <| kmem := <[4112 := 8]> (kmem (fmem fs_vfs)) |> |>
  <| filps := <[8 := mkFilp FILP_TYPE_VNODE 5 16 0 1]> (filps fs_vfs) |>
  <| vnodes := <[5 := vnodes fs_vfs 5 <| v_mode := t |>]> (vnodes fs_vfs) |>.

Lemma fs_dev_opened t : opened small_protocol 9 3000 500 6000 1 3 2 40 50 20 (fun _ => true) (of_type (Z.land t _IFMT)) 4 5 (fs_dev t).
Proof.
  split; try (intros H; discriminate H); try reflexivity; try exact small_endpoint.
  - split; [lia|reflexivity].
  - unfold of_type. cbn. by rewrite bool_decide_true.
  - destruct fs_vfs_ready. split; try done. by apply (notes_ok_ext _ fs_vfs).
  - change (fd_word 1 3 (fs_dev t)) with 4108. lia.
  - change (fd_word 1 3 (fs_dev t)) with 4108. cbn. lia.
Qed.

Lemma sys_read_char_correct_witness :
  exists s', sys_read small_protocol 9 3000 500 6000 1 4 200 8
      [as_process (fun _ => 0) (fun _ => true)
         (serve (fun _ => fault) 1 3 40 50 20 100 (fun b => (2, [nth 1 b 0; nth 3 b 0])))] (fs_dev _IFCHR) =
      Done 2 [] s' /\ umem s' 200 = 7 /\ umem s' 201 = 8.
Proof.
  destruct (sys_read_char_correct small_protocol 9 3000 500 6000 (fun _ => fault) 1 3 2 40 50 20 100
    (fun b => (2, [nth 1 b 0; nth 3 b 0])) (fun _ => 0) (fun _ => true) 1 4 5 200 8 (fs_dev _IFCHR) (fs_dev_opened _IFCHR))
    as (s' & E & _ & _ & H); try reflexivity.
  - split; cbn; lia.
  - exists s'. split; [exact E|]. split; rewrite H; reflexivity.
Defined.

Lemma block_read_hangs_witness :
  exists s', sys_read small_protocol 9 3000 500 6000 4 4 200 8
      (replicate 3 (as_process (fun _ => 0) (fun _ => true) (serve (fun _ => fault) 1 3 40 50 20 100 (fun b => (0, [])))))
      (fs_dev _IFBLK) = Asleep (RPort (ReplyPort 9)) s'.
Proof.
  apply (block_read_hangs small_protocol 9 3000 500 6000 (fun _ => fault) 1 3 2 40 50 20 100
    (fun b => (0, [])) (fun _ => 0) (fun _ => true) 3 4 4 5 200 8 (fs_dev _IFBLK) (fs_dev_opened _IFBLK)); [lia|lia|reflexivity].
Defined.
