(* ===== verification/Mount.v ===== *)
(** * Mounting file systems, and the set-up of the tables

    The model of the system calls of kernel/fs/mount.c, which give a server a
    message port in the namespace, and of kernel/fs/init.c, which links the
    tables of the file system into their free lists.

    The arguments are those of Files.v, and: [stat] is the address of the local
    [struct stat], which has [stat_sz] bytes laid out as [parse_stat] reads them;
    [hardclock] is the time.  The assignment to [errno], which nothing reads, is
    left out. *)

From S2P Require Import Prelude Bytes Lists Page Fs Filp Vnode Kqueue Msg Filedesc Pipe Str Dnlc Blocking Vfs Lookup Cache Files.

Section Mount.
Context (L : protocol) (path_max : nat) (proc hardclock req reply msg path dot dotdot : Z).
Context (stat stat_sz : Z) (parse_stat : list Z -> statbuf).

Abbreviation lookup := (lookup L path_max proc req reply msg path dot dotdot).

Definition read_stat : M statbuf := b ← kload stat stat_sz; mret (parse_stat b).

Definition sys_mknod (_path flags _stat : Z) (ld : lookupdata) : P Z :=
  e ← call (CopyIn stat _stat stat_sz);
  if bool_decide (e <> 0) then mret (- EFAULT)
  else
    '(sc, ld) ← lookup _path LOOKUP_PARENT ld;
    if bool_decide (sc <> 0) then mret sc
    else if bool_decide (ld_vnode ld <> 0) then
      call (vnode_put (ld_vnode ld));; call (vnode_put (ld_parent ld));; mret (- EEXIST)
    else
      st ← call read_stat;
      '(sc, vnode) ← vfs_mknod L path_max proc req reply msg (ld_parent ld) (last_component ld)
                       (mkStat (s_mode st) (s_uid st) (s_gid st));
      call (vnode_put (default 0 vnode));;
      call (vnode_put (ld_parent ld));;
      mret sc.

(** ** sys_createmsgport *)

(** The error exit; it puts the covered vnode, which is [ld.vnode], twice. *)
Definition mount_exit (ld : lookupdata) (mount_root_vnode fd covered error : Z) : M Z :=
  vnode_put (ld_vnode ld);;
  vnode_free mount_root_vnode;;
  free_fd_superblock proc fd;;
  vnode_put covered;;
  mret error.

(** The superblock and the root vnode of the new mount. *)
Definition mount_init (sb mount_root_vnode flags backlog_sz : Z) (st : statbuf) : M unit :=
  init_msgport (SbPort sb);;
  init_msgbacklog sb backlog_sz;;
  upd_port (SbPort sb) (fun p => p <| context := sb |>);;
  upd_sb sb (fun b => b <| sb_root := mount_root_vnode |> <| sb_flags := flags |> <| sb_reference_cnt := 1 |> <| sb_busy := false |>);;
  upd_vnode mount_root_vnode (fun v => v <| v_flags := Z.lor V_VALID V_ROOT |> <| v_reference_cnt := 1 |>
    <| v_uid := s_uid st |> <| v_gid := s_gid st |> <| v_mode := s_mode st |>);;
  (if S_ISDIR (s_mode st) then init_superblock_bdflush hardclock sb;; mret () else mret ());;
  upd_vnode mount_root_vnode (fun v => v <| v_size :=
    if S_ISBLK (s_mode st) then swrap 64 (s_blocks st * s_blksize st) else s_size st |>).

(** The new mount is put into the namespace. *)
Definition mount_attach (mount_root_vnode covered : Z) : M unit :=
  upd_vnode mount_root_vnode (fun v => v <| vnode_covered := covered |>);;
  vnode_note mount_root_vnode NOTE_ATTRIB;;
  root ← gets root_vnode;
  (if bool_decide (root = 0) then modify (fun s => s <| root_vnode := mount_root_vnode |>) else mret ());;
  (if bool_decide (covered <> 0) then
     upd_vnode covered (fun v => v <| vnode_mounted_here := mount_root_vnode |>);;
     vnode_note covered NOTE_ATTRIB;;
     vnode_inc_ref covered;;
     vnode_unlock covered
   else mret ());;
  vnode_inc_ref mount_root_vnode;;
  vnode_unlock mount_root_vnode.

Definition mount_on (ld : lookupdata) (covered flags backlog_sz : Z) (st : statbuf) : M Z :=
  fd ← alloc_fd_superblock proc;
  if bool_decide (fd < 0) then mount_exit ld 0 fd covered (- ENOMEM)
  else
    sb ← get_superblock proc fd;
    mount_root_vnode ← vnode_new sb (s_ino st);
    if bool_decide (mount_root_vnode = 0) then mount_exit ld 0 fd covered (- ENOMEM)
    else
      mount_init sb mount_root_vnode flags backlog_sz st;;
      mount_attach mount_root_vnode covered;;
      mret fd.

(** The checks of the vnode to be covered.  On a mismatch of the types [error] is
    the 0 of the lookup. *)
Definition mount_over (ld : lookupdata) (flags backlog_sz : Z) (st : statbuf) : M Z :=
  let covered := ld_vnode ld in
  if bool_decide (covered = 0) then mount_exit ld 0 (-1) covered (- ENOENT)
  else
    v ← deref vnodes covered;
    let m := s_mode st in
    if negb ((S_ISDIR m && S_ISDIR (v_mode v)) || (S_ISCHR m && S_ISCHR (v_mode v)) || (S_ISBLK m && S_ISBLK (v_mode v)))
    then mount_exit ld 0 (-1) covered 0
    else
      dname_purge_vnode covered;;
      v ← deref vnodes covered;
      if bool_decide (vnode_covered v <> 0) then mount_exit ld 0 (-1) covered (- EEXIST)
      else mount_on ld covered flags backlog_sz st.

Definition sys_createmsgport (_path flags _stat backlog_sz : Z) (ld : lookupdata) : P Z :=
  e ← call (CopyIn stat _stat stat_sz);
  if bool_decide (e <> 0) then mret (- EFAULT)
  else
    root ← call (gets root_vnode);
    if bool_decide (root <> 0) then
      '(error, ld) ← lookup _path 0 ld;
      if bool_decide (error <> 0) then mret error
      else st ← call read_stat; call (mount_over ld flags backlog_sz st)
    else st ← call read_stat; call (mount_on ld 0 flags backlog_sz st).

(** ** sys_renamemsgport *)

(** The mount on [old] is moved to [new]. *)
Definition move_mount (new_vnode old_vnode : Z) : M unit :=
  o ← deref vnodes old_vnode;
  upd_vnode new_vnode (fun v => v <| vnode_mounted_here := vnode_mounted_here o |>);;
  n ← deref vnodes new_vnode;
  upd_vnode (vnode_mounted_here n) (fun v => v <| vnode_covered := new_vnode |>);;
  upd_vnode old_vnode (fun v => v <| vnode_mounted_here := 0 |>);;
  vnode_put old_vnode;;
  vnode_put new_vnode.

(** The vnode that is covered, when the old path leads to the root of a mount. *)
Definition mounted_vnode (old_vnode : Z) : M (option Z) :=
  o ← deref vnodes old_vnode;
  if bool_decide (vnode_mounted_here o = 0) then
    if bool_decide (vnode_covered o = 0) then mret None
    else
      vnode_inc_ref (vnode_covered o);;
      vnode_put old_vnode;;
      mret (Some (vnode_covered o))
  else mret (Some old_vnode).

(** The errors found after a lookup return its 0, with the vnodes locked. *)
Definition sys_renamemsgport (_new_path _old_path : Z) (ld : lookupdata) : P Z :=
  '(error, ld) ← lookup _new_path 0 ld;
  if bool_decide (error <> 0) then mret error
  else
    let new_vnode := ld_vnode ld in
    n ← call (deref vnodes new_vnode);
    if bool_decide (vnode_mounted_here n <> 0) then mret error
    else
      '(error, ld) ← lookup _old_path 0 ld;
      if bool_decide (error <> 0) then mret error
      else
        o ← call (mounted_vnode (ld_vnode ld));
        match o with
        | None => mret error
        | Some old_vnode => call (move_mount new_vnode old_vnode);; mret 0
        end.

(** ** sys_pivotroot *)

(** [root_vnode] is assigned before it is used for the covered vnode of the new
    root, which is then the new root. *)
Definition pivot (old_root_vnode new_root_vnode : Z) : M unit :=
  current_root_vnode ← gets root_vnode;
  upd_vnode old_root_vnode (fun v => v <| vnode_mounted_here := current_root_vnode |>);;
  upd_vnode current_root_vnode (fun v => v <| vnode_covered := old_root_vnode |>);;
  modify (fun s => s <| root_vnode := new_root_vnode |>);;
  root ← gets root_vnode;
  upd_vnode new_root_vnode (fun v => v <| vnode_covered := root |>);;
  vnode_put old_root_vnode;;
  vnode_put new_root_vnode.

Definition sys_pivotroot (_new_root _old_root : Z) (ld : lookupdata) : P Z :=
  '(sc, ld) ← lookup _old_root 0 ld;
  if bool_decide (sc <> 0) then mret sc
  else
    let old_root_vnode := ld_vnode ld in
    '(sc, ld) ← lookup _new_root 0 ld;
    if bool_decide (sc <> 0) then mret sc
    else
      let new_root_vnode := ld_vnode ld in
      if bool_decide (new_root_vnode = 0) then mret (- ENOENT)
      else if bool_decide (old_root_vnode = 0) then call (vnode_put new_root_vnode);; mret (- ENOENT)
      else call (pivot old_root_vnode new_root_vnode);; mret 0.
End Mount.

(** ** init.c *)

(** [for (t = 0; t < n; t++) LIST_ADD_TAIL(&list, &table[t], link)] for the list
    of the state that [get] and [put] access; entry [t] of a table is at
    [t + 1]. *)
Fixpoint link_table (get : fs -> list Z) (put : list Z -> fs -> fs) (n : nat) (t : Z) : M unit :=
  match n with
  | O => mret ()
  | S n =>
      l ← gets get;
      l ← lift (Seq.add_tail (t + 1) l);
      modify (put l);;
      link_table get put n (t + 1)
  end.

(** The entries of the name cache and its hash table. *)
Definition init_names : M unit :=
  init_dnames_loop (Z.to_nat NR_DNAME) 0;; modify (fun s => s <| dname_hash := replicate (Z.to_nat DNAME_HASH) [] |>).

Definition NR_FILP := 1024.
Definition NR_SUPERBLOCK := 128.
Definition NR_PIPE := 64.
Definition NR_KQUEUE := 128.
Definition NR_KNOTE := 2048.
Definition NR_ISR_HANDLER := 64.

Section Init.
Context (max_superblock max_kqueue max_knote max_isr_handler max_buf max_pipe : Z).

Definition InitFSLists : M unit :=
  modify (fun s => s <| vnode_free_list := [] |> <| filp_free_list := [] |> <| dname_lru_list := [] |>
    <| free_superblock_list := [] |> <| kqueue_free_list := [] |> <| knote_free_list := [] |> <| isr_handler_free_list := [] |>);;
  link_table vnode_free_list (fun l s => s <| vnode_free_list := l |>) (Z.to_nat NR_VNODE) 0;;
  link_table filp_free_list (fun l s => s <| filp_free_list := l |>) (Z.to_nat NR_FILP) 0;;
  init_names;;
  link_table free_superblock_list (fun l s => s <| free_superblock_list := l |>) (Z.to_nat max_superblock) 0;;
  link_table kqueue_free_list (fun l s => s <| kqueue_free_list := l |>) (Z.to_nat max_kqueue) 0;;
  link_table knote_free_list (fun l s => s <| knote_free_list := l |>) (Z.to_nat max_knote) 0;;
  link_table isr_handler_free_list (fun l s => s <| isr_handler_free_list := l |>) (Z.to_nat max_isr_handler) 0;;
  modify (fun s => s <| knote_hash := replicate (Z.to_nat KNOTE_HASH_SZ) [] |>).

Definition InitPipes : M unit :=
  modify (fun s => s <| free_pipe_list := [] |>);;
  link_table free_pipe_list (fun l s => s <| free_pipe_list := l |>) (Z.to_nat max_pipe) 0.

Definition init_vfs : M Z :=
  InitFSLists;;
  InitCache max_buf;;
  InitPipes;;
  modify (fun s => s <| root_vnode := 0 |>);;
  mret 0.
End Init.

Lemma run_assoc {A B C} (m : M A) (k : A -> M B) (h : B -> M C) s : ((m ≫= k) ≫= h) s = (m ≫= (fun a => k a ≫= h)) s.
Proof. cbv [mbind M_bind]. by destruct (m s). Qed.

(** ** The backlog of a new port *)

Lemma run_set_bits n t sb s :
  sb <> 0 -> 0 <= t -> t + Z.of_nat n <= 32 ->
  exists s' b, set_bits n t sb s = Ret () s' /\ s' = s <| superblocks := superblocks s' |> /\
    (forall x, x <> sb -> superblocks s' x = superblocks s x) /\
    superblocks s' sb = superblocks s sb <| sb_msgbacklog := sb_msgbacklog (superblocks s sb) <| free_bitmap := b |> |> /\
    forall i, 0 <= i -> Z.testbit b i = Z.testbit (free_bitmap (sb_msgbacklog (superblocks s sb))) i || bool_decide (t <= i < t + Z.of_nat n).
Proof.
  intros Hs. revert t s. induction n as [|n IH]; intros t s Ht Hn.
  { exists s, (free_bitmap (sb_msgbacklog (superblocks s sb))). split; [done|]. split; [by destruct s|]. split; [done|].
    split; [by destruct (superblocks s sb) as [? ? [? ? ?] ? ? ? ? ?]|].
    intros i Hi. rewrite (bool_decide_false (t <= i < t + Z.of_nat 0)), orb_false_r by lia. done. }
  cbn [set_bits]. unfold bit. rewrite bool_decide_true by lia. rewrite (run_bind _ _ _ _ _ (run_ret _ _)).
  unfold upd_backlog, upd_sb. rewrite (run_bind _ _ _ _ _ (run_upd _ _ _ _ _ Hs)).
  set (s1 := s <| superblocks := _ |>).
  destruct (IH (t + 1) s1) as (s' & b & E & R & O & B & T); [lia..|]. exists s', b. split; [exact E|].
  assert (S1 : superblocks s1 sb = superblocks s sb <| sb_msgbacklog := sb_msgbacklog (superblocks s sb)
    <| free_bitmap := Z.lor (free_bitmap (sb_msgbacklog (superblocks s sb))) (Z.shiftl 1 t) |> |>) by (apply fn_lookup_insert).
  split; [rewrite R; by destruct s|]. split; [|split].
  - intros x Hx. rewrite O by done. by apply fn_lookup_insert_ne.
  - rewrite B, S1. done.
  - intros i Hi. rewrite T, S1 by done. cbn [free_bitmap sb_msgbacklog update_field rebuild_SuperBlock rebuild_MsgBacklog].
    cbn. rewrite Z.lor_spec, Z.shiftl_1_l, Z.pow2_bits_eqb by lia.
    destruct (Z.eqb_spec t i); repeat case_bool_decide; rewrite ?orb_true_r, ?orb_false_r; try done; lia.
Qed.

Lemma run_init_msgbacklog sb n s :
  sb <> 0 -> 0 <= n <= MAX_MSG_BACKLOG ->
  exists s' b, init_msgbacklog sb n s = Ret 0 s' /\ s' = s <| superblocks := superblocks s' |> /\
    (forall x, x <> sb -> superblocks s' x = superblocks s x) /\
    superblocks s' sb = superblocks s sb <| sb_msgbacklog := mkMsgBacklog n b (replicate (Z.to_nat MAX_MSG_BACKLOG) 0) |> /\
    forall i, 0 <= i -> Z.testbit b i = bool_decide (i < n).
Proof.
  intros Hs Hn. unfold MAX_MSG_BACKLOG in Hn. unfold init_msgbacklog, upd_backlog, upd_sb. rewrite (run_bind _ _ _ _ _ (run_upd _ _ _ _ _ Hs)).
  set (s1 := s <| superblocks := _ |>).
  destruct (run_set_bits (Z.to_nat n) 0 sb s1 Hs) as (s2 & b & E & R & O & B & T); [lia..|].
  rewrite (run_bind _ _ _ _ _ E), (run_bind _ _ _ _ _ (run_upd _ _ _ _ _ Hs)).
  eexists _, b. split; [done|]. split; [rewrite R; by destruct s|].
  assert (S1 : superblocks s1 sb = superblocks s sb <| sb_msgbacklog := sb_msgbacklog (superblocks s sb)
    <| backlog_sz := n |> <| free_bitmap := 0 |> |>) by (apply fn_lookup_insert).
  split; [|split].
  - intros x Hx. cbn. rewrite fn_lookup_insert_ne, O by done. by apply fn_lookup_insert_ne.
  - cbn. rewrite fn_lookup_insert, B, S1. done.
  - intros i Hi. rewrite T, S1 by done. cbn. rewrite Z.bits_0. cbn. apply bool_decide_ext. lia.
Qed.

(** ** A descriptor for a superblock *)

(** What [alloc_fd_superblock] finds: the lowest descriptor that is not in use,
    and a file pointer and a superblock that are free. *)
Record fd_available (proc fd f sb : Z) (fl sl : list Z) (s : fs) : Prop := {
  av_fproc : fproc s proc <> 0;
  av_fd : 0 <= fd < OPEN_MAX;
  av_unused : fd_used s proc fd = false;
  av_lower : forall g, 0 <= g < fd -> fd_used s proc g = true;
  av_filp : filp_free_list s = f :: fl;
  av_f : f <> 0;
  av_superblock : free_superblock_list s = sb :: sl;
  av_sb : sb <> 0
}.

(** What it leaves. *)
Record fd_made (proc fd f sb : Z) (fl sl : list Z) (s s' : fs) : Prop := {
  fm_rest : s' = s <| fmem := fmem s <| kmem := kmem (fmem s') |> |> <| filps := filps s' |> <| filp_free_list := fl |>
    <| superblocks := superblocks s' |> <| free_superblock_list := sl |> <| msgports := msgports s' |>;
  fm_kmem : forall a, ~ (fproc s proc <= a < fproc s proc + PAGE_SIZE) -> kmem (fmem s') a = kmem (fmem s) a;
  fm_fd : forall g, 0 <= g < OPEN_MAX -> fd_filp s' proc g = (if bool_decide (g = fd) then f else fd_filp s proc g) /\
    fd_used s' proc g = bool_decide (g = fd) || fd_used s proc g;
  fm_type : f_type (filps s' f) = FILP_TYPE_SUPERBLOCK;
  fm_u : f_u (filps s' f) = sb;
  fm_cnt : f_reference_cnt (filps s' f) = 1;
  fm_filps : forall x, x <> f -> filps s' x = filps s x;
  fm_sb : superblocks s' sb = mkSuperBlock false (sb - 1) (mkMsgBacklog 0 0 (replicate 32 0)) 0 0 0 None 0;
  fm_sbs : forall x, x <> sb -> superblocks s' x = superblocks s x;
  fm_port : msgports s' (SbPort sb) = mkMsgPort [] [] 0;
  fm_ports : forall p, p <> SbPort sb -> msgports s' p = msgports s p
}.

Lemma alloc_fd_free proc fd s :
  fproc s proc <> 0 -> 0 <= fd < OPEN_MAX -> fd_used s proc fd = false -> (forall g, 0 <= g < fd -> fd_used s proc g = true) ->
  alloc_fd proc 0 OPEN_MAX s = Ret fd (fd_written proc fd 0 true false s).
Proof.
  intros Hp Hfd Hu Hl. unfold alloc_fd.
  destruct (alloc_fd_loop_ok (Z.to_nat (OPEN_MAX - 0 + 1)) proc 0 s Hp) as [[_ H]|(r & E & Hr & Hru & Hrl)].
  - rewrite (H fd) in Hu; [done|]. unfold OPEN_MAX in *. lia.
  - assert (r = fd) as ->; [|exact E]. destruct (Z.lt_trichotomy r fd) as [H|[H|H]]; [|done|].
    + rewrite (Hl r) in Hru by lia. done.
    + rewrite (Hrl fd) in Hu by lia. done.
Qed.

Lemma fd_bit_put_kmem b proc fd set s a :
  0 <= fd < OPEN_MAX -> 0 <= set <= 66 -> ~ (fproc s proc <= a < fproc s proc + PAGE_SIZE) ->
  kmem (fmem (fd_bit_put b proc fd set s)) a = kmem (fmem s) a.
Proof.
  intros Hfd Hset Ha. cbn. apply fn_lookup_insert_ne. unfold OPEN_MAX, PAGE_SIZE in *.
  assert (0 <= fd `div` 32 < 2) by (split; [apply Z.div_pos; lia|apply Z.div_lt_upper_bound; lia]). lia.
Qed.

Lemma put_fw_kmem proc fd v s a :
  0 <= fd < OPEN_MAX -> ~ (fproc s proc <= a < fproc s proc + PAGE_SIZE) ->
  kmem (fmem (put_fw proc (fd_table + fd) v s)) a = kmem (fmem s) a.
Proof. intros Hfd Ha. cbn. apply fn_lookup_insert_ne. unfold OPEN_MAX, PAGE_SIZE, fd_table in *. lia. Qed.

Lemma run_alloc_fd_filp proc fd f sb fl sl s :
  fd_available proc fd f sb fl sl s ->
  exists s', alloc_fd_filp proc s = Ret fd s' /\
    s' = s <| fmem := fmem s <| kmem := kmem (fmem s') |> |> <| filps := filps s' |> <| filp_free_list := fl |> /\
    (forall a, ~ (fproc s proc <= a < fproc s proc + PAGE_SIZE) -> kmem (fmem s') a = kmem (fmem s) a) /\
    (forall g, 0 <= g < OPEN_MAX -> fd_filp s' proc g = (if bool_decide (g = fd) then f else fd_filp s proc g) /\
       fd_used s' proc g = bool_decide (g = fd) || fd_used s proc g) /\
    f_reference_cnt (filps s' f) = 1 /\ (forall x, x <> f -> filps s' x = filps s x).
Proof.
  intros []. unfold alloc_fd_filp. rewrite (run_bind _ _ _ _ _ (alloc_fd_free _ _ _ av_fproc0 av_fd0 av_unused0 av_lower0)).
  rewrite bool_decide_false by lia. set (s0 := fd_written proc fd 0 true false s).
  unfold alloc_filp, upd_filp, modify. rewrite run_assoc, (run_bind _ _ _ _ _ (run_gets _ _)).
  change (filp_free_list s0) with (filp_free_list s). rewrite av_filp0.
  rewrite run_assoc. erewrite run_bind by reflexivity. cbv beta.
  rewrite run_assoc, (run_bind _ _ _ _ _ (run_upd _ _ _ _ _ av_f0)), (run_bind _ _ _ _ _ (run_ret _ _)).
  rewrite bool_decide_false by done. rewrite (run_bind _ _ _ _ _ (run_upd _ _ _ _ _ av_f0)).
  set (s1 := s0 <| filp_free_list := fl |> <| filps := _ |> <| filps := _ |>).
  rewrite (run_bind _ _ _ _ _ (run_set_fword proc (fd_table + fd) f s1 av_fproc0)).
  rewrite (run_bind _ _ _ _ _ (run_upd _ _ _ _ _ av_f0)). eexists. split; [reflexivity|]. split; [by destruct s|]. split_and!.
  - intros a Ha. cbn [fmem update_field]. change (kmem (fmem (put_fw proc (fd_table + fd) f s1)) a = kmem (fmem s) a).
    rewrite put_fw_kmem by done. change (kmem (fmem s0) a = kmem (fmem s) a). unfold s0, fd_written.
    rewrite !fd_bit_put_kmem; try done. by apply put_fw_kmem.
  - intros g Hg. destruct (fd_written_spec proc fd 0 true false s g av_fd0 Hg) as (W1 & W2 & _).
    change (fd_filp (put_fw proc (fd_table + fd) f s1) proc g = (if bool_decide (g = fd) then f else fd_filp s proc g) /\
      fd_used (put_fw proc (fd_table + fd) f s1) proc g = bool_decide (g = fd) || fd_used s proc g).
    rewrite fd_filp_put. unfold fd_used. rewrite fd_bit_put_table by (done || lia).
    change (fd_bit fd_in_use_set s1 proc g) with (fd_used s0 proc g). change (fd_filp s1 proc g) with (fd_filp s0 proc g).
    unfold s0. rewrite W1, W2. by case_bool_decide.
  - cbn. by rewrite !fn_lookup_insert.
  - intros x Hx. cbn. by rewrite !fn_lookup_insert_ne.
Qed.

Lemma run_alloc_fd_superblock proc fd f sb fl sl s :
  fd_available proc fd f sb fl sl s ->
  exists s', alloc_fd_superblock proc s = Ret fd s' /\ fd_made proc fd f sb fl sl s s'.
Proof.
  intros A. destruct (run_alloc_fd_filp _ _ _ _ _ _ _ A) as (s1 & E1 & R1 & K1 & D1 & C1 & F1). destruct A.
  unfold alloc_fd_superblock. rewrite (run_bind _ _ _ _ _ E1), bool_decide_false by lia.
  unfold alloc_superblock, modify, upd_sb, upd_port. rewrite run_assoc, (run_bind _ _ _ _ _ (run_gets _ _)).
  replace (free_superblock_list s1) with (sb :: sl) by (by rewrite R1).
  rewrite run_assoc. erewrite run_bind by reflexivity. cbv beta.
  rewrite run_assoc, (run_bind _ _ _ _ _ (run_upd _ _ _ _ _ av_sb0)).
  rewrite run_assoc. unfold modify. erewrite run_bind by reflexivity. rewrite (run_bind _ _ _ _ _ (run_ret _ _)).
  rewrite bool_decide_false by done.
  match goal with |- exists _, ?m ?x = _ /\ _ => set (s2 := x) end.
  assert (P2 : fproc s2 = fproc s) by (subst s2; cbn; by rewrite R1).
  assert (D2 : fd_filp s2 proc fd = f).
  { change (fd_filp s2 proc fd) with (fd_filp s1 proc fd). destruct (D1 fd av_fd0) as [-> _]. by rewrite bool_decide_true. }
  unfold set_fd. rewrite run_assoc, (run_bind _ _ _ _ _ (run_get_filp proc fd s2 ltac:(by rewrite P2) av_fd0)), D2.
  rewrite bool_decide_false by done. unfold upd_filp. rewrite run_assoc, (run_bind _ _ _ _ _ (run_upd _ _ _ _ _ av_f0)).
  rewrite (bool_decide_true (FILP_TYPE_SUPERBLOCK = FILP_TYPE_VNODE \/ _)) by (by right; left).
  rewrite run_assoc, (run_bind _ _ _ _ _ (run_upd _ _ _ _ _ av_f0)).
  set (s3 := s2 <| filps := _ |> <| filps := _ |>).
  rewrite run_assoc, (run_bind _ _ _ _ _ (run_FD_SET proc fd fd_in_use_set s3 ltac:(change (fproc s2 proc <> 0); by rewrite P2))).
  rewrite bool_decide_false by (intros H; by apply H). rewrite run_assoc, (run_bind _ _ _ _ _ (run_ret _ _)).
  rewrite (run_bind _ _ _ _ _ (run_ret _ _)). eexists. split; [reflexivity|].
  assert (P3 : fproc s3 proc = fproc s proc) by (change (fproc s2 proc = fproc s proc); by rewrite P2). split.
  - subst s3 s2. rewrite R1. by destruct s.
  - intros a Ha. rewrite fd_bit_put_kmem by (try rewrite P3; done). change (kmem (fmem s1) a = kmem (fmem s) a). by apply K1.
  - intros g Hg. rewrite fd_bit_put_filp by (done || lia). unfold fd_used. rewrite fd_bit_put_eq by lia.
    change (fd_filp s3 proc g) with (fd_filp s1 proc g). change (fd_bit fd_in_use_set s3 proc g) with (fd_used s1 proc g).
    destruct (D1 g Hg) as [-> ->]. split; [done|]. by case_bool_decide.
  - change (f_type (filps s3 f) = FILP_TYPE_SUPERBLOCK). subst s3. cbn. by rewrite !fn_lookup_insert.
  - change (f_u (filps s3 f) = sb). subst s3. cbn. by rewrite !fn_lookup_insert.
  - change (f_reference_cnt (filps s3 f) = 1). subst s3. cbn. by rewrite !fn_lookup_insert.
  - intros x Hx. change (filps s3 x = filps s x). subst s3. cbn. rewrite !fn_lookup_insert_ne by done. by apply F1.
  - change (superblocks s2 sb = mkSuperBlock false (sb - 1) (mkMsgBacklog 0 0 (replicate 32 0)) 0 0 0 None 0). apply fn_lookup_insert.
  - intros x Hx. change (superblocks s2 x = superblocks s x). subst s2. cbn. rewrite fn_lookup_insert_ne by done. by rewrite R1.
  - change (msgports s2 (SbPort sb) = mkMsgPort [] [] 0). subst s2. cbn. apply fn_lookup_insert.
  - intros p Hp. change (msgports s2 p = msgports s p). subst s2. cbn. rewrite fn_lookup_insert_ne by done. by rewrite R1.
Qed.

(** ** A mount in the namespace *)

(** The notes on a vnode are those of queues. *)
Definition vnode_notes_ok (v : Z) (s : fs) : Prop :=
  pending_inv s /\ NoDup (v_knote_list (vnodes s v)) /\
  forall n, n ∈ v_knote_list (vnodes s v) -> n <> 0 /\ kn_kqueue (knotes s n) <> 0.

Lemma run_vnode_note v hint s :
  v <> 0 -> vnode_notes_ok v s ->
  exists s', vnode_note v hint s = Ret () s' /\ same_but_notes s s' /\ forall p, notes_ok p s -> notes_ok p s'.
Proof.
  intros Hv (P & Hnd & Hn). unfold vnode_note. rewrite (run_bind _ _ _ _ _ (run_deref _ _ _ Hv)).
  destruct (knote_ok hint _ s P Hnd Hn) as (s' & E & K & P'). exists s'. split; [exact E|]. split; [exact (kd_rest _ _ _ _ K)|].
  intros p (_ & Hp & Hk). assert (Ep : mp_knote_list (msgports s' p) = mp_knote_list (msgports s p)) by (by rewrite (kd_rest _ _ _ _ K)).
  split; [exact P'|]. rewrite Ep. split; [done|]. intros n Hin. destruct (Hk n Hin). split; [done|].
  rewrite (kd_note _ _ _ _ K). by case_bool_decide.
Qed.

(** One more reference, and unlocked. *)
Definition released (v : VNode) : VNode := v <| v_reference_cnt := v_reference_cnt v + 1 |> <| v_busy := false |>.
Definition counted (b : SuperBlock) : SuperBlock := b <| sb_reference_cnt := sb_reference_cnt b + 1 |>.

Lemma counts b b' r :
  b' = b <| sb_reference_cnt := sb_reference_cnt b' |> -> sb_reference_cnt b' = r -> b' = b <| sb_reference_cnt := r |>.
Proof. by intros H <-. Qed.

Lemma run_inc_unlock v s :
  v <> 0 -> v_superblock (vnodes s v) <> 0 ->
  exists s', (vnode_inc_ref v;; vnode_unlock v) s = Ret () s' /\
    s' = s <| vnodes := vnodes s' |> <| superblocks := superblocks s' |> <| woken := woken s' |> /\
    (forall w, vnodes s' w = if bool_decide (w = v) then released (vnodes s v) else vnodes s w) /\
    (forall x, superblocks s' x = if bool_decide (x = v_superblock (vnodes s v)) then counted (superblocks s x) else superblocks s x).
Proof.
  intros Hv Hs. rewrite (run_bind _ _ _ _ _ (run_vnode_inc_ref v s Hv Hs)). unfold vnode_unlock, upd_vnode.
  rewrite (run_bind _ _ _ _ _ (run_upd _ _ _ _ _ Hv)). eexists. split; [reflexivity|]. split; [by destruct s|]. split.
  - intros w. cbn. case_bool_decide as E; [subst w; by rewrite !fn_lookup_insert|by rewrite !fn_lookup_insert_ne].
  - intros x. cbn. case_bool_decide as E; [subst x; by rewrite fn_lookup_insert|by rewrite fn_lookup_insert_ne].
Qed.

Definition covering (v : Z) (c : VNode) : VNode := released (c <| vnode_mounted_here := v |>).
Definition rooted (c : Z) (v : VNode) : VNode := released (v <| vnode_covered := c |>).

Lemma run_cover c v s :
  c <> 0 -> v_superblock (vnodes s c) <> 0 -> vnode_notes_ok c s ->
  exists s', (upd_vnode c (fun x => x <| vnode_mounted_here := v |>);; vnode_note c NOTE_ATTRIB;;
              vnode_inc_ref c;; vnode_unlock c) s = Ret () s' /\
    s' = s <| vnodes := vnodes s' |> <| superblocks := superblocks s' |> <| knotes := knotes s' |> <| kqueues := kqueues s' |>
      <| woken := woken s' |> /\
    (forall w, vnodes s' w = if bool_decide (w = c) then covering v (vnodes s c) else vnodes s w) /\
    (forall x, superblocks s' x = if bool_decide (x = v_superblock (vnodes s c)) then counted (superblocks s x) else superblocks s x) /\
    forall p, notes_ok p s -> notes_ok p s'.
Proof.
  intros Hc Hs Hn. unfold upd_vnode. rewrite (run_bind _ _ _ _ _ (run_upd _ _ _ _ _ Hc)). set (s1 := s <| vnodes := _ |>).
  assert (V1 : vnodes s1 c = vnodes s c <| vnode_mounted_here := v |>) by (apply fn_lookup_insert).
  destruct (run_vnode_note c NOTE_ATTRIB s1 Hc) as (s2 & E2 & R2 & N2).
  { destruct Hn as (P & H1 & H2). split; [by apply (pending_inv_ext s)|]. by rewrite V1. }
  assert (V2 : vnodes s2 = vnodes s1) by (by rewrite R2). assert (S2 : superblocks s2 = superblocks s) by (by rewrite R2).
  destruct (run_inc_unlock c s2 Hc) as (s3 & E3 & R3 & V3 & S3); [by rewrite V2, V1|].
  exists s3. split; [by rewrite (run_bind _ _ _ _ _ E2)|]. split; [rewrite R3, R2; by destruct s|].
  rewrite V2, V1, S2 in *. split_and!.
  - intros w. rewrite V3. case_bool_decide as E; [done|]. by apply fn_lookup_insert_ne.
  - intros x. rewrite S3. done.
  - intros p Hp. apply (notes_ok_ext _ s2); [|by rewrite R3..]. apply N2. by apply (notes_ok_ext _ s).
Qed.

(** What [mount_attach] leaves. *)
Record attached (v c : Z) (s s' : fs) : Prop := {
  at_rest : s' = s <| vnodes := vnodes s' |> <| superblocks := superblocks s' |> <| root_vnode := root_vnode s' |>
    <| knotes := knotes s' |> <| kqueues := kqueues s' |> <| woken := woken s' |>;
  at_root : root_vnode s' = if bool_decide (root_vnode s = 0) then v else root_vnode s;
  at_vnode : vnodes s' v = rooted c (vnodes s v);
  at_covered : c <> 0 -> vnodes s' c = covering v (vnodes s c);
  at_vnodes : forall w, w <> v -> w <> c -> vnodes s' w = vnodes s w;
  at_sb : forall x, superblocks s' x = superblocks s x <| sb_reference_cnt := sb_reference_cnt (superblocks s x) +
    (if bool_decide (x = v_superblock (vnodes s v)) then 1 else 0) +
    (if bool_decide (c <> 0 /\ x = v_superblock (vnodes s c)) then 1 else 0) |>;
  at_notes : forall p, notes_ok p s -> notes_ok p s'
}.

Lemma run_mount_attach v c s :
  v <> 0 -> c <> v -> v_superblock (vnodes s v) <> 0 -> v_knote_list (vnodes s v) = [] ->
  (c <> 0 -> v_superblock (vnodes s c) <> 0 /\ vnode_notes_ok c s) ->
  exists s', mount_attach v c s = Ret () s' /\ attached v c s s'.
Proof.
  intros Hv Hcv Hs Hk Hc. unfold mount_attach, upd_vnode. rewrite (run_bind _ _ _ _ _ (run_upd _ _ _ _ _ Hv)).
  set (s1 := s <| vnodes := _ |>). assert (V1 : vnodes s1 v = vnodes s v <| vnode_covered := c |>) by (apply fn_lookup_insert).
  assert (V1' : forall w, w <> v -> vnodes s1 w = vnodes s w) by (intros w Hw; by apply fn_lookup_insert_ne).
  assert (E1 : vnode_note v NOTE_ATTRIB s1 = Ret () s1).
  { unfold vnode_note. rewrite (run_bind _ _ _ _ _ (run_deref _ _ _ Hv)), V1.
    replace (v_knote_list (vnodes s v <| vnode_covered := c |>)) with (@nil Z) by done. done. }
  rewrite (run_bind _ _ _ _ _ E1), (run_bind _ _ _ _ _ (run_gets _ _)).
  change (root_vnode s1) with (root_vnode s).
  set (s2 := if bool_decide (root_vnode s = 0) then s1 <| root_vnode := v |> else s1).
  assert (E2 : (if bool_decide (root_vnode s = 0) then modify (fun s => s <| root_vnode := v |>) else mret ()) s1 = Ret () s2)
    by (subst s2; by case_bool_decide).
  rewrite (run_bind _ _ _ _ _ E2).
  assert (R2 : s2 = s1 <| root_vnode := if bool_decide (root_vnode s = 0) then v else root_vnode s |>)
    by (subst s2 s1; case_bool_decide; by destruct s).
  clearbody s2. subst s2. set (s2 := s1 <| root_vnode := _ |>).
  destruct (decide (c = 0)) as [->|Hc0].
  - rewrite (bool_decide_false (0 <> 0)) by (intros H; by apply H). rewrite (run_bind _ _ _ _ _ (run_ret _ _)).
    destruct (run_inc_unlock v s2 Hv) as (s3 & E3 & R3 & V3 & S3); [change (vnodes s2) with (vnodes s1); by rewrite V1|].
    exists s3. split; [exact E3|]. change (vnodes s2) with (vnodes s1) in *. rewrite V1 in *. split.
    + rewrite R3. by destruct s.
    + by rewrite R3.
    + by rewrite V3, bool_decide_true.
    + done.
    + intros w Hw _. rewrite V3, bool_decide_false by done. by apply V1'.
    + intros x. rewrite S3. change (superblocks s2 x) with (superblocks s x). rewrite (bool_decide_false (0 <> 0 /\ _)) by (intros [H _]; by apply H).
      change (v_superblock (vnodes s v <| vnode_covered := 0 |>)) with (v_superblock (vnodes s v)).
      destruct (bool_decide (x = v_superblock (vnodes s v))); (apply counts; [by destruct (superblocks s x)|unfold counted; cbn; lia]).
    + intros p Hp. apply (notes_ok_ext _ s); [done|by rewrite R3..].
  - rewrite (bool_decide_true (c <> 0)) by done. destruct (Hc Hc0) as (Hcs & Hcn).
    destruct (run_cover c v s2 Hc0) as (s3 & E3 & R3 & V3 & S3 & N3).
    { change (vnodes s2) with (vnodes s1). by rewrite V1'. }
    { destruct Hcn as (P & H). split; [by apply (pending_inv_ext s)|]. change (vnodes s2) with (vnodes s1). by rewrite V1'. }
    rewrite (run_bind _ _ _ _ _ E3). change (vnodes s2) with (vnodes s1) in *. change (superblocks s2) with (superblocks s) in *.
    rewrite (V1' c) in * by done. assert (V3v : vnodes s3 v = vnodes s v <| vnode_covered := c |>).
    { rewrite V3, bool_decide_false by done. exact V1. }
    destruct (run_inc_unlock v s3 Hv) as (s4 & E4 & R4 & V4 & S4); [by rewrite V3v|].
    exists s4. split; [exact E4|]. rewrite V3v in *. split.
    + rewrite R4, R3. by destruct s.
    + by rewrite R4, R3.
    + by rewrite V4, bool_decide_true.
    + intros _. by rewrite V4, bool_decide_false, V3, bool_decide_true.
    + intros w Hw Hwc. rewrite V4, bool_decide_false, V3, bool_decide_false by done. by apply V1'.
    + intros x. rewrite S4, S3. change (v_superblock (vnodes s v <| vnode_covered := c |>)) with (v_superblock (vnodes s v)).
      rewrite (bool_decide_ext (c <> 0 /\ x = v_superblock (vnodes s c)) (x = v_superblock (vnodes s c))) by tauto.
      destruct (bool_decide (x = v_superblock (vnodes s v))), (bool_decide (x = v_superblock (vnodes s c))); (apply counts; [by destruct (superblocks s x)|unfold counted; cbn; lia]).
    + intros p Hp. apply (notes_ok_ext _ s3); [|by rewrite R4..]. apply N3. by apply (notes_ok_ext _ s).
Qed.

(** ** The superblock and the root of a mount *)

(** [a] is in no page frame that is free. *)
Definition in_use (s : fs) (a : Z) : Prop :=
  forall i, i ∈ free_frames (fmem s) -> ~ (0x80000000 + i * PAGE_SIZE <= a < 0x80000000 + (i + 1) * PAGE_SIZE).

(** The timing wheel of a mount, empty, when it is a directory and there is
    memory for it. *)
Definition mount_wheel (hardclock : Z) (st : statbuf) (w : option (list (list Z))) (clock : Z) : Prop :=
  w = None \/ S_ISDIR (s_mode st) = true /\ w = Some (replicate (Z.to_nat NR_DELWRI_BUCKETS) []) /\ clock = hardclock.

Definition mount_root_of (st : statbuf) (v : VNode) : VNode := v
  <| v_flags := Z.lor V_VALID V_ROOT |> <| v_reference_cnt := 1 |>
  <| v_uid := s_uid st |> <| v_gid := s_gid st |> <| v_mode := s_mode st |>
  <| v_size := if S_ISBLK (s_mode st) then swrap 64 (s_blocks st * s_blksize st) else s_size st |>.

Record initialised (hardclock sb v flags n : Z) (st : statbuf) (s s' : fs) : Prop := {
  mi_rest : s' = s <| superblocks := superblocks s' |> <| msgports := msgports s' |> <| vnodes := vnodes s' |> <| fmem := fmem s' |>;
  mi_sb : exists b w clock, superblocks s' sb = mkSuperBlock false (sb_dev (superblocks s sb))
      (mkMsgBacklog n b (replicate (Z.to_nat MAX_MSG_BACKLOG) 0)) v flags 1 w clock /\
    (forall i, 0 <= i -> Z.testbit b i = bool_decide (i < n)) /\ mount_wheel hardclock st w clock;
  mi_sbs : forall x, x <> sb -> superblocks s' x = superblocks s x;
  mi_port : msgports s' (SbPort sb) = mkMsgPort [] [] sb;
  mi_ports : forall p, p <> SbPort sb -> msgports s' p = msgports s p;
  mi_vnode : vnodes s' v = mount_root_of st (vnodes s v);
  mi_vnodes : forall w, w <> v -> vnodes s' w = vnodes s w;
  mi_kmem : forall a, in_use s a -> kmem (fmem s') a = kmem (fmem s) a;
  mi_alloc : alloc_inv (fmem s')
}.

Lemma run_init_bdflush hardclock sb s :
  sb <> 0 -> alloc_inv (fmem s) ->
  exists r s', init_superblock_bdflush hardclock sb s = Ret r s' /\
    s' = s <| superblocks := superblocks s' |> <| fmem := fmem s' |> /\
    (exists w clock, superblocks s' sb = superblocks s sb <| delwri_timing_wheel := w |> <| sb_softclock := clock |> /\
       (w = None \/ w = Some (replicate (Z.to_nat NR_DELWRI_BUCKETS) []) /\ clock = hardclock)) /\
    (forall x, x <> sb -> superblocks s' x = superblocks s x) /\
    (forall a, in_use s a -> kmem (fmem s') a = kmem (fmem s) a) /\ alloc_inv (fmem s').
Proof.
  intros Hs I. unfold init_superblock_bdflush, upd_sb. destruct (run_kmalloc_page s I) as [(h & m & E & Hh & A)|(E & _)];
    rewrite (run_bind _ _ _ _ _ E).
  - unfold PAGE_SIZE. rewrite bool_decide_false by lia. rewrite (run_bind _ _ _ _ _ (run_upd _ _ _ _ _ Hs)).
    eexists None, _. split; [reflexivity|]. split; [by destruct s|]. split_and!.
    + eexists _, _. split; [cbn; by rewrite fn_lookup_insert|]. by right.
    + intros x Hx. cbn. by rewrite fn_lookup_insert_ne.
    + intros a Ha. cbn. rewrite (al_kmem _ _ _ _ _ A), bool_decide_false; [done|]. apply Ha.
      rewrite (al_frames _ _ _ _ _ A). apply elem_of_app. left. apply elem_of_seqZ. lia.
    + apply A.
  - rewrite bool_decide_true by done. rewrite (run_bind _ _ _ _ _ (run_upd _ _ _ _ _ Hs)).
    eexists _, _. split; [reflexivity|]. split; [by destruct s|]. split_and!; [|by intros x Hx; cbn; rewrite fn_lookup_insert_ne|done..|done].
    exists None, (sb_softclock (superblocks s sb)). split; [cbn; rewrite fn_lookup_insert; by destruct (superblocks s sb)|by left].
Qed.

Lemma run_mount_init hardclock sb v flags n st s :
  sb <> 0 -> v <> 0 -> 0 <= n <= MAX_MSG_BACKLOG -> alloc_inv (fmem s) -> delwri_timing_wheel (superblocks s sb) = None ->
  exists s', mount_init hardclock sb v flags n st s = Ret () s' /\ initialised hardclock sb v flags n st s s'.
Proof.
  intros Hs Hv Hn I Hw. unfold mount_init, init_msgport, upd_port. rewrite run_assoc. unfold modify. erewrite run_bind by reflexivity.
  rewrite (run_bind _ _ _ _ _ (run_ret _ _)). set (s1 := s <| msgports := _ |>).
  destruct (run_init_msgbacklog sb n s1 Hs Hn) as (s2 & b & E2 & R2 & O2 & B2 & T2). rewrite (run_bind _ _ _ _ _ E2).
  erewrite run_bind by reflexivity. cbv beta. unfold upd_sb, upd_vnode.
  rewrite (run_bind _ _ _ _ _ (run_upd _ _ _ _ _ Hs)), (run_bind _ _ _ _ _ (run_upd _ _ _ _ _ Hv)).
  match goal with |- exists _, ?m ?x = _ /\ _ => set (s3 := x) end.
  assert (S3 : superblocks s3 sb = mkSuperBlock false (sb_dev (superblocks s sb)) (mkMsgBacklog n b (replicate (Z.to_nat MAX_MSG_BACKLOG) 0))
    v flags 1 None (sb_softclock (superblocks s sb))).
  { subst s3. cbn. rewrite fn_lookup_insert, B2. cbn. by rewrite Hw. }
  assert (O3 : forall x, x <> sb -> superblocks s3 x = superblocks s x).
  { intros x Hx. subst s3. cbn. rewrite fn_lookup_insert_ne by done. by rewrite O2. }
  assert (P3 : forall p, msgports s3 p = if bool_decide (p = SbPort sb) then mkMsgPort [] [] sb else msgports s p).
  { intros p. subst s3. cbn. rewrite R2. cbn. case_bool_decide as H; [subst p; by rewrite !fn_lookup_insert|by rewrite !fn_lookup_insert_ne]. }
  assert (V3 : forall w, vnodes s3 w = if bool_decide (w = v) then vnodes s v <| v_flags := Z.lor V_VALID V_ROOT |> <| v_reference_cnt := 1 |>
    <| v_uid := s_uid st |> <| v_gid := s_gid st |> <| v_mode := s_mode st |> else vnodes s w).
  { intros w. subst s3. cbn. rewrite R2. cbn. case_bool_decide as H; [subst w; by rewrite fn_lookup_insert|by rewrite fn_lookup_insert_ne]. }
  assert (R3 : s3 = s <| superblocks := superblocks s3 |> <| msgports := msgports s3 |> <| vnodes := vnodes s3 |>).
  { subst s3. rewrite R2. by destruct s. }
  clearbody s3. clear s1 s2 E2 R2 O2 B2.
  assert (D : exists s4, (if S_ISDIR (s_mode st) then init_superblock_bdflush hardclock sb;; mret () else mret ()) s3 = Ret () s4 /\
    s4 = s3 <| superblocks := superblocks s4 |> <| fmem := fmem s4 |> /\
    (exists w clock, superblocks s4 sb = superblocks s3 sb <| delwri_timing_wheel := w |> <| sb_softclock := clock |> /\
       mount_wheel hardclock st w clock) /\
    (forall x, x <> sb -> superblocks s4 x = superblocks s3 x) /\
    (forall a, in_use s3 a -> kmem (fmem s4) a = kmem (fmem s3) a) /\ alloc_inv (fmem s4)).
  { assert (F3 : fmem s3 = fmem s) by (by rewrite R3). unfold mount_wheel. destruct (S_ISDIR (s_mode st)).
    - destruct (run_init_bdflush hardclock sb s3 Hs) as (r & s4 & E4 & R4 & (w & ck & B4 & W4) & H4); [by rewrite F3|].
      exists s4. split; [by rewrite (run_bind _ _ _ _ _ E4)|]. split; [done|]. split; [|done].
      exists w, ck. split; [done|]. destruct W4 as [?|[? ?]]; [by left|by right].
    - exists s3. split; [done|]. split; [by destruct s3|]. split; [|split_and!; [done..|by rewrite F3]].
      exists None, (sb_softclock (superblocks s sb)). split; [by rewrite S3|by left]. }
  destruct D as (s4 & E4 & R4 & (w & ck & B4 & W4) & O4 & K4 & A4). rewrite (run_bind _ _ _ _ _ E4), run_upd by done.
  eexists. split; [reflexivity|]. split.
  - rewrite R4, R3. by destruct s.
  - exists b, w, ck. cbn. rewrite B4, S3. done.
  - intros x Hx. cbn. by rewrite O4, O3.
  - cbn. rewrite R4. cbn. by rewrite P3, bool_decide_true.
  - intros p Hp. cbn. rewrite R4. cbn. by rewrite P3, bool_decide_false.
  - cbn. rewrite fn_lookup_insert, R4. cbn. by rewrite V3, bool_decide_true.
  - intros x Hx. cbn. rewrite fn_lookup_insert_ne, R4 by done. cbn. by rewrite V3, bool_decide_false.
  - intros a Ha. cbn. rewrite K4; [by rewrite R3|]. unfold in_use. by rewrite R3.
  - done.
Qed.

(** ** A new mount *)

Lemma alloc_inv_kmem m k : alloc_inv m -> alloc_inv (m <| kmem := k |>).
Proof. intros []. by split. Qed.

(** The process has a descriptor, a file pointer, a superblock and a vnode left;
    its table of descriptors is in page frame [o]. *)
Record mountable (proc o fd f sb v : Z) (fl sl vl : list Z) (s : fs) : Prop := {
  mb_available : fd_available proc fd f sb fl sl s;
  mb_vnode : vnode_free_list s = v :: vl;
  mb_v : v <> 0;
  mb_page : fproc s proc = 0x80000000 + o * PAGE_SIZE;
  mb_used : o ∉ free_frames (fmem s);
  mb_alloc : alloc_inv (fmem s);
  mb_notes : pending_inv s
}.

(** What a mount on [c], or on nothing if that is NULL, leaves. *)
Record mounted (proc hardclock fd f sb v c flags n : Z) (fl sl vl : list Z) (st : statbuf) (s s' : fs) : Prop := {
  md_ready : forall client, pending_msg_list (msgports s (ReplyPort client)) = [] -> ready client proc fd sb s';
  md_fds : forall g, 0 <= g < OPEN_MAX -> fd_filp s' proc g = if bool_decide (g = fd) then f else fd_filp s proc g;
  md_sb : sb_root (superblocks s' sb) = v /\ sb_flags (superblocks s' sb) = flags /\
    mount_wheel hardclock st (delwri_timing_wheel (superblocks s' sb)) (sb_softclock (superblocks s' sb));
  md_vnode : vnodes s' v = rooted c (mount_root_of st (fresh_vnode sb (s_ino st) (vnodes s v)));
  md_covered : c <> 0 -> vnodes s' c = covering v (vnodes s c);
  md_vnodes : forall w, w <> v -> w <> c -> vnodes s' w = vnodes s w;
  md_root : root_vnode s' = if bool_decide (root_vnode s = 0) then v else root_vnode s;
  md_lists : vnode_free_list s' = vl /\ filp_free_list s' = fl /\ free_superblock_list s' = sl
}.

Lemma word_in_use proc o fd s :
  fproc s proc = 0x80000000 + o * PAGE_SIZE -> o ∉ free_frames (fmem s) -> 0 <= fd < OPEN_MAX ->
  in_use s (fproc s proc + 4 * (fd_table + fd)).
Proof.
  intros -> Hu Hfd i Hi Ha. apply Hu. replace o with i; [done|]. unfold OPEN_MAX, fd_table, PAGE_SIZE in *. nia.
Qed.

(** The clients of a superblock can rely on the new one. *)
Lemma new_ready client proc hardclock fd f sb v flags n st s1 s2 s3 :
  fproc s1 proc <> 0 -> 0 <= fd < OPEN_MAX -> fd_filp s1 proc fd = f -> f <> 0 ->
  f_type (filps s1 f) = FILP_TYPE_SUPERBLOCK -> f_u (filps s1 f) = sb -> 1 <= n <= MAX_MSG_BACKLOG ->
  in_use s1 (fproc s1 proc + 4 * (fd_table + fd)) -> pending_inv s1 ->
  pending_msg_list (msgports s1 (ReplyPort client)) = [] ->
  initialised hardclock sb v flags n st s1 s2 -> (exists c, attached v c s2 s3) -> ready client proc fd sb s3.
Proof.
  intros Hp Hfd Hf Hf0 Ht Hu Hn Hin P Hc [] [c []]. destruct mi_sb0 as (b & w & ck & Eb & Tb & _).
  assert (F2 : fproc s3 = fproc s1 /\ filps s3 = filps s1 /\ fmem s3 = fmem s2 /\ msgports s3 = msgports s2)
    by (rewrite at_rest0, mi_rest0; done). destruct F2 as (F1 & F2 & F3 & F4).
  assert (Fd : fd_filp s3 proc fd = f) by (unfold fd_filp, fw in *; by rewrite F3, F1, mi_kmem0).
  assert (B3 : sb_msgbacklog (superblocks s3 sb) = mkMsgBacklog n b (replicate (Z.to_nat MAX_MSG_BACKLOG) 0)).
  { rewrite at_sb0, Eb. done. }
  assert (Q : forall q, q <> SbPort sb -> msgports s3 q = msgports s1 q) by (intros q Hq; rewrite F4; by apply mi_ports0).
  assert (Q' : msgports s3 (SbPort sb) = mkMsgPort [] [] sb) by (by rewrite F4).
  split.
  - split; rewrite ?Fd, ?F1, ?F2; done.
  - by rewrite Q'.
  - by rewrite Q.
  - apply at_notes0. split; [apply (pending_inv_ext s1); [done|by rewrite mi_rest0..]|]. rewrite mi_port0. split; [constructor|].
    intros x Hx. by apply not_elem_of_nil in Hx.
  - rewrite B3. cbn. lia.
  - by rewrite B3.
  - rewrite B3. exists 0. split; [cbn; lia|]. cbn [free_bitmap]. by rewrite Tb, bool_decide_true by lia.
Qed.

Lemma run_mount_on proc hardclock o fd f sb v c flags n fl sl vl st ld s :
  mountable proc o fd f sb v fl sl vl s -> 1 <= n <= MAX_MSG_BACKLOG -> c <> v ->
  (c <> 0 -> v_superblock (vnodes s c) <> 0 /\ vnode_notes_ok c s) ->
  exists s', mount_on proc hardclock ld c flags n st s = Ret fd s' /\ mounted proc hardclock fd f sb v c flags n fl sl vl st s s' /\
    dnames s' = dnames s.
Proof.
  intros [A Hvl Hv Hpg Hu I P] Hn Hcv Hc. unfold mount_on.
  destruct (run_alloc_fd_superblock _ _ _ _ _ _ _ A) as (s1 & E1 & []). rewrite (run_bind _ _ _ _ _ E1).
  destruct A. rewrite bool_decide_false by lia.
  assert (K1 : fproc s1 = fproc s /\ vnode_free_list s1 = v :: vl /\ vnodes s1 = vnodes s /\ root_vnode s1 = root_vnode s /\
    knotes s1 = knotes s /\ kqueues s1 = kqueues s /\ free_frames (fmem s1) = free_frames (fmem s) /\
    filp_free_list s1 = fl /\ free_superblock_list s1 = sl /\ dnames s1 = dnames s) by (rewrite fm_rest0, <- Hvl; done).
  destruct K1 as (Q1 & Q2 & Q3 & Q4 & Q5 & Q6 & Q7 & Q8 & Q9 & Q10).
  destruct (fm_fd0 fd av_fd0) as [Ef _]. rewrite bool_decide_true in Ef by done.
  rewrite (run_bind _ _ _ _ _ (run_get_superblock proc fd s1 sb ltac:(by rewrite Q1) av_fd0 ltac:(by rewrite Ef) ltac:(by rewrite Ef)
    ltac:(by rewrite Ef))).
  rewrite (run_bind _ _ _ _ _ (run_vnode_new sb (s_ino st) v vl s1 av_sb0 Hv Q2)), bool_decide_false by done.
  set (s2 := s1 <| vnode_free_list := vl |> <| superblocks := _ |> <| vnodes := _ |>).
  assert (V2 : vnodes s2 v = fresh_vnode sb (s_ino st) (vnodes s v)) by (subst s2; cbn [vnodes update_field]; rewrite <- Q3; apply fn_lookup_insert).
  assert (V2' : forall w, w <> v -> vnodes s2 w = vnodes s w) by (intros w Hw; rewrite <- Q3; by apply fn_lookup_insert_ne).
  assert (W2 : delwri_timing_wheel (superblocks s2 sb) = None) by (subst s2; cbn; by rewrite fn_lookup_insert, fm_sb0).
  assert (K2 : fproc s2 = fproc s /\ filps s2 = filps s1 /\ fmem s2 = fmem s1 /\ msgports s2 = msgports s1 /\ knotes s2 = knotes s /\
    kqueues s2 = kqueues s /\ root_vnode s2 = root_vnode s /\ vnode_free_list s2 = vl /\ filp_free_list s2 = fl /\
    free_superblock_list s2 = sl /\ dnames s2 = dnames s) by (by split_and!).
  destruct K2 as (G1 & G2 & G3 & G4 & G5 & G6 & G7 & G8 & G9 & G10 & G11). clearbody s2.
  destruct (run_mount_init hardclock sb v flags n st s2) as (s3 & E3 & J); [done|done|lia| |exact W2|].
  { rewrite G3, fm_rest0. cbn. by apply alloc_inv_kmem. }
  rewrite (run_bind _ _ _ _ _ E3). pose proof J as [].
  assert (P3 : knotes s3 = knotes s /\ kqueues s3 = kqueues s) by (rewrite mi_rest0; done). destruct P3 as (N3 & N3').
  destruct (run_mount_attach v c s3 Hv Hcv) as (s4 & E4 & T).
  { by rewrite mi_vnode0, V2. } { by rewrite mi_vnode0, V2. }
  { intros Hc0. rewrite mi_vnodes0, V2' by done. destruct (Hc Hc0) as (H1 & H2 & H3). split; [done|].
    unfold vnode_notes_ok. rewrite mi_vnodes0, V2', N3 by done. split; [|done]. apply (pending_inv_ext s); [done..|by rewrite N3']. }
  rewrite (run_bind _ _ _ _ _ E4). exists s4. split; [done|]. pose proof T as [].
  split; [|by rewrite at_rest0, mi_rest0].
  assert (L4 : fproc s4 = fproc s /\ fmem s4 = fmem s3 /\ vnode_free_list s4 = vl /\ filp_free_list s4 = fl /\ free_superblock_list s4 = sl)
    by (rewrite at_rest0, mi_rest0; by split_and!). destruct L4 as (L1 & L2 & L3).
  assert (U2 : forall g, 0 <= g < OPEN_MAX -> in_use s2 (fproc s2 proc + 4 * (fd_table + g))).
  { intros g Hg. apply (word_in_use proc o); [by rewrite G1|by rewrite G3, Q7|done]. }
  assert (D2 : forall g, fd_filp s2 proc g = fd_filp s1 proc g) by (intros g; unfold fd_filp, fw; by rewrite G1, G3, Q1).
  split.
  - intros client Hcl. apply (new_ready client proc hardclock fd f sb v flags n st s2 s3);
      [by rewrite G1|done|by rewrite D2|done|by rewrite G2|by rewrite G2|done|by apply U2|..].
    + apply (pending_inv_ext s); [done|exact G5|]. intros j. by rewrite G6.
    + by rewrite G4, fm_ports0.
    + exact J.
    + by exists c.
  - intros g Hg. destruct (fm_fd0 g Hg) as [<- _]. rewrite <- D2. unfold fd_filp, fw. rewrite L1, L2, <- G1, mi_kmem0; [done|by apply U2].
  - destruct mi_sb0 as (b & w & ck & Eb & _ & W). rewrite at_sb0, Eb. done.
  - rewrite at_vnode0, mi_vnode0, V2. reflexivity.
  - intros Hc0. rewrite at_covered0, mi_vnodes0, V2' by done. reflexivity.
  - intros w Hw Hwc. by rewrite at_vnodes0, mi_vnodes0, V2'.
  - rewrite at_root0. replace (root_vnode s3) with (root_vnode s); [done|]. by rewrite mi_rest0.
  - exact L3.
Qed.

(** ** A mount on a vnode *)

(** [s] and [s'] differ at most in the name cache. *)
Definition same_but_dnames (s s' : fs) : Prop :=
  s' = s <| dnames := dnames s' |> <| dname_lru_list := dname_lru_list s' |> <| dname_hash := dname_hash s' |>.

#[export] Instance same_but_dnames_preorder : PreOrder same_but_dnames.
Proof. split; [intros s; by destruct s|]. intros s1 s2 s3 H1 H2. unfold same_but_dnames in *. rewrite H2, H1. by destruct s1. Qed.

Lemma within_dnames (f : fs -> fs) : (forall s, same_but_dnames s (f s)) -> within same_but_dnames (modify f).
Proof. intros H s. apply H. Qed.

Lemma within_upd_dname d g : within same_but_dnames (upd_dname d g).
Proof. intros s. unfold upd_dname, upd. case_bool_decide; [done|]. by destruct s. Qed.

Lemma purge_within c n t : (forall d, within same_but_dnames (c d)) -> within same_but_dnames (dname_purge_loop c n t).
Proof.
  intros Hc. revert t. induction n as [|n IH]; intros t; cbn [dname_purge_loop]; [apply within_ret, _|].
  apply (within_bind _); [apply within_deref, _|]. intros d. apply (within_bind _); [|intros _; apply IH].
  apply within_if; [|apply within_ret, _]. apply (within_bind _); [apply Hc|]. intros b. apply within_if; [|apply within_ret, _].
  unfold dname_unhash, get_hash, set_hash.
  repeat (apply (within_bind _); [|intros ?]);
    eauto using within_ret, within_gets, within_lift, within_arr_get, within_arr_set, within_upd_dname with typeclass_instances;
    apply within_dnames; intros s; by destruct s.
Qed.

Lemma run_purge_vnode v s :
  dnlc_ok s -> exists s', dname_purge_vnode v s = Ret () s' /\ dnlc_ok s' /\ same_but_dnames s s' /\
    dmap (dnames s') = filter (fun kv => of_vnode v kv.1.1 kv.2 = false) (dmap (dnames s)).
Proof.
  intros D. destruct (purge_vnode_ok v s D) as (s' & E & D' & M). exists s'. split; [done|]. split; [done|]. split; [|done].
  assert (W := purge_within (fun d => mret (bool_decide (dn_vnode d = v) || bool_decide (dn_dir_vnode d = v))) (Z.to_nat NR_DNAME) 0
    (fun d => within_ret _ _) s). fold (dname_purge_vnode v) in W. by rewrite E in W.
Qed.

(** The file mounted and the file it covers are of the same kind. *)
Definition same_kind (m m' : Z) : bool := (S_ISDIR m && S_ISDIR m') || (S_ISCHR m && S_ISCHR m') || (S_ISBLK m && S_ISBLK m').

(** The state of a mount does not depend on the name cache. *)
Lemma mountable_dnames proc o fd f sb v fl sl vl s s' :
  same_but_dnames s s' -> mountable proc o fd f sb v fl sl vl s -> mountable proc o fd f sb v fl sl vl s'.
Proof.
  unfold same_but_dnames. intros -> [[] ? ? ? ? ? ?]. split; [by split|done..|]. by apply (pending_inv_ext s).
Qed.

Lemma mounted_dnames proc hardclock fd f sb v c flags n fl sl vl st s s1 s' :
  same_but_dnames s s1 -> mounted proc hardclock fd f sb v c flags n fl sl vl st s1 s' ->
  mounted proc hardclock fd f sb v c flags n fl sl vl st s s'.
Proof.
  unfold same_but_dnames. intros E []. assert (Q : msgports s1 = msgports s /\ fproc s1 = fproc s /\ fmem s1 = fmem s /\ vnodes s1 = vnodes s /\
    root_vnode s1 = root_vnode s) by (by rewrite E). destruct Q as (Q1 & Q2 & Q3 & Q4 & Q5).
  assert (Q6 : forall g, fd_filp s1 proc g = fd_filp s proc g) by (intros g; unfold fd_filp, fw; by rewrite Q2, Q3).
  split; [by rewrite <- Q1|intros g Hg; rewrite <- Q6; by apply md_fds0|done|by rewrite <- Q4|by rewrite <- Q4|by rewrite <- Q4|by rewrite <- Q5|done].
Qed.

Lemma mount_over_ok proc hardclock o fd f sb v flags n fl sl vl st ld s :
  let c := ld_vnode ld in
  mountable proc o fd f sb v fl sl vl s -> 1 <= n <= MAX_MSG_BACKLOG -> dnlc_ok s ->
  c <> 0 -> c <> v -> v_superblock (vnodes s c) <> 0 -> vnode_notes_ok c s ->
  same_kind (s_mode st) (v_mode (vnodes s c)) = true -> vnode_covered (vnodes s c) = 0 ->
  exists s', mount_over proc hardclock ld flags n st s = Ret fd s' /\ mounted proc hardclock fd f sb v c flags n fl sl vl st s s' /\
    dmap (dnames s') = filter (fun kv => of_vnode c kv.1.1 kv.2 = false) (dmap (dnames s)).
Proof.
  intros c Mb Hn D Hc Hcv Hsb Hk Hkind Hcov. unfold mount_over. fold c. rewrite bool_decide_false by done.
  rewrite (run_bind _ _ _ _ _ (run_deref _ _ _ Hc)). cbv zeta. unfold same_kind in Hkind. rewrite Hkind. cbn [negb].
  destruct (run_purge_vnode c s D) as (s1 & E1 & D1 & R1 & M1). rewrite (run_bind _ _ _ _ _ E1), (run_bind _ _ _ _ _ (run_deref _ _ _ Hc)).
  assert (V1 : vnodes s1 = vnodes s /\ knotes s1 = knotes s /\ kqueues s1 = kqueues s) by (by rewrite R1). destruct V1 as (V1 & V2 & V3).
  rewrite V1, bool_decide_false by (intros H; by apply H).
  destruct (run_mount_on proc hardclock o fd f sb v c flags n fl sl vl st ld s1 (mountable_dnames _ _ _ _ _ _ _ _ _ _ _ R1 Mb) Hn Hcv)
    as (s' & E' & Md & Dn).
  { intros _. rewrite V1. split; [done|]. destruct Hk as (P & H). split; [apply (pending_inv_ext s); [done..|by rewrite V3]|]. by rewrite V1, V2. }
  exists s'. split_and!; [done|by apply (mounted_dnames _ _ _ _ _ _ _ _ _ _ _ _ _ s s1)|by rewrite Dn].
Qed.

(** ** The tables at boot *)

Lemma seqZ_snoc t : 0 <= t -> seqZ 1 t ++ [t + 1] = seqZ 1 (t + 1).
Proof. intros Ht. rewrite (seqZ_app 1 t 1) by lia. f_equal. rewrite seqZ_cons by lia. f_equal. lia. Qed.

Lemma run_link_table get put n t s :
  (forall l x, get (put l x) = l) -> (forall l l' x, put l (put l' x) = put l x) -> (forall x, put (get x) x = x) ->
  0 <= t -> get s = seqZ 1 t ->
  link_table get put n t s = Ret () (put (seqZ 1 (t + Z.of_nat n)) s).
Proof.
  intros H1 H2 H3. revert t s. induction n as [|n IH]; intros t s Ht Hs; cbn [link_table].
  { rewrite Z.add_0_r, <- Hs, H3. done. }
  rewrite (run_bind _ _ _ _ _ (run_gets _ _)), Hs, Seq.add_tail_fresh by (rewrite elem_of_seqZ; lia). cbn [lift].
  rewrite (run_bind _ _ _ _ _ (run_ret _ _)). unfold modify. erewrite run_bind by reflexivity. cbv beta.
  rewrite seqZ_snoc by done. rewrite (IH (t + 1)) by (lia || by rewrite H1). rewrite H2. do 3 f_equal. lia.
Qed.

Lemma run_link_all get put n s :
  (forall l x, get (put l x) = l) -> (forall l l' x, put l (put l' x) = put l x) -> (forall x, put (get x) x = x) ->
  0 <= n -> get s = [] -> link_table get put (Z.to_nat n) 0 s = Ret () (put (seqZ 1 n) s).
Proof. intros H1 H2 H3 Hn Hs. rewrite (run_link_table _ _ _ _ _ H1 H2 H3) by done. do 3 f_equal. lia. Qed.

Lemma within_run {A} R (m : M A) s a s' : within R m -> m s = Ret a s' -> R s s'.
Proof. intros W E. specialize (W s). by rewrite E in W. Qed.

Lemma init_dnames_within n t : within same_but_dnames (init_dnames_loop n t).
Proof.
  revert t. induction n as [|n IH]; intros t; cbn [init_dnames_loop]; [apply within_ret, _|].
  repeat (apply (within_bind _); [|intros ?]);
    eauto using within_ret, within_gets, within_lift, within_upd_dname with typeclass_instances.
  apply within_dnames. intros x. by destruct x.
Qed.

Lemma init_names_within : within same_but_dnames init_names.
Proof. apply (within_bind _); [apply init_dnames_within|]. intros _. apply within_dnames. intros x. by destruct x. Qed.

Lemma init_names_eq s : dname_lru_list s = [] -> init_dnames s = init_names s.
Proof.
  intros Hl. assert (E0 : modify (fun s => s <| dname_lru_list := [] |>) s = Ret () s) by (unfold modify; f_equal; rewrite <- Hl; by destruct s).
  exact (run_bind _ (fun _ => init_names) _ _ _ E0).
Qed.

Lemma run_init_names s :
  dname_lru_list s = [] ->
  exists s', init_names s = Ret () s' /\ dnlc_ok s' /\ dmap (dnames s') = ∅ /\ same_but_dnames s s'.
Proof.
  intros Hl. destruct (init_dnames_ok s) as (s' & E & D & M). rewrite (init_names_eq s Hl) in E. exists s'.
  split_and!; [exact E|exact D|exact M|exact (within_run _ _ _ _ _ init_names_within E)].
Qed.

(** The buffers have their part of the kernel's address space each. *)
Lemma run_init_bufs n t s :
  0 <= t -> buf_avail_list s = seqZ 1 t ->
  exists s', init_bufs n t (CACHE_BASE_VA + t * CLUSTER_SZ) s = Ret () s' /\
    s' = s <| bufs := bufs s' |> <| buf_avail_list := seqZ 1 (t + Z.of_nat n) |> /\
    (forall b, t < b <= t + Z.of_nat n -> b_flags (bufs s' b) = 0 /\ b_vnode (bufs s' b) = 0 /\
       b_data (bufs s' b) = CACHE_BASE_VA + (b - 1) * CLUSTER_SZ) /\
    (forall b, ~ (t < b <= t + Z.of_nat n) -> bufs s' b = bufs s b).
Proof.
  revert t s. induction n as [|n IH]; intros t s Ht Hs; cbn [init_bufs].
  { exists s. split; [done|]. split; [rewrite Z.add_0_r, <- Hs; by destruct s|]. split; [lia|done]. }
  assert (H0 : t + 1 <> 0) by lia. unfold upd_buf. rewrite (run_bind _ _ _ _ _ (run_upd _ _ _ _ _ H0)), (run_bind _ _ _ _ _ (run_gets _ _)).
  cbn [buf_avail_list update_field]. change (buf_avail_list (s <| bufs := _ |>)) with (buf_avail_list s).
  rewrite Hs, Seq.add_tail_fresh by (rewrite elem_of_seqZ; lia). cbn [lift]. rewrite (run_bind _ _ _ _ _ (run_ret _ _)).
  unfold modify. erewrite run_bind by reflexivity. cbv beta. rewrite seqZ_snoc by done.
  replace (CACHE_BASE_VA + t * CLUSTER_SZ + CLUSTER_SZ) with (CACHE_BASE_VA + (t + 1) * CLUSTER_SZ) by lia.
  match goal with |- context [init_bufs n (t + 1) _ ?x] => set (s1 := x) end.
  destruct (IH (t + 1) s1) as (s' & E & R & B & O); [lia|done|]. exists s'. split; [exact E|]. split.
  { replace (t + 1 + Z.of_nat n) with (t + Z.of_nat (S n)) in R by lia. etransitivity; [exact R|]. clear. subst s1. generalize (bufs s'). by destruct s. }
  split.
  - intros b Hb. destruct (decide (b = t + 1)) as [->|Hne]; [|apply B; lia]. rewrite O by lia. subst s1. cbn.
    rewrite fn_lookup_insert. cbn. split_and!; [done|done|lia].
  - intros b Hb. rewrite O by lia. subst s1. cbn. apply fn_lookup_insert_ne. lia.
Qed.

(** What boot leaves: every entry of a table is on its free list, in order, the
    hash tables are empty, and no file system is mounted. *)
Record fs_booted (max_superblock max_kqueue max_knote max_isr_handler max_buf max_pipe : Z) (s : fs) : Prop := {
  bt_vnode : vnode_free_list s = seqZ 1 NR_VNODE;
  bt_filp : filp_free_list s = seqZ 1 NR_FILP;
  bt_superblock : free_superblock_list s = seqZ 1 max_superblock;
  bt_kqueue : kqueue_free_list s = seqZ 1 max_kqueue;
  bt_knote : knote_free_list s = seqZ 1 max_knote;
  bt_isr : isr_handler_free_list s = seqZ 1 max_isr_handler;
  bt_pipe : free_pipe_list s = seqZ 1 max_pipe;
  bt_buf : buf_avail_list s = seqZ 1 max_buf;
  bt_data : forall b, 1 <= b <= max_buf -> b_flags (bufs s b) = 0 /\ b_vnode (bufs s b) = 0 /\
    b_data (bufs s b) = CACHE_BASE_VA + (b - 1) * CLUSTER_SZ;
  bt_buf_hash : buf_hash s = replicate (Z.to_nat BUF_HASH) [];
  bt_knote_hash : knote_hash s = replicate (Z.to_nat KNOTE_HASH_SZ) [];
  bt_names : dnlc_ok s /\ dmap (dnames s) = ∅;
  bt_root : root_vnode s = 0
}.

Lemma dnlc_ok_ext s s' :
  dnlc_ok s -> dnames s' = dnames s -> dname_lru_list s' = dname_lru_list s -> dname_hash s' = dname_hash s -> vnodes s' = vnodes s ->
  dnlc_ok s'.
Proof.
  intros [D1 D2 D3] E1 E2 E3 E4. split; [unfold inv_s; by rewrite E1, E2, E3|by rewrite E1, E2|]. rewrite E1.
  eapply map_Forall_impl; [exact D3|]. intros k v. unfold live_vnode. by rewrite E4.
Qed.

Section Boot.
Context (max_superblock max_kqueue max_knote max_isr_handler max_buf max_pipe : Z).
Context (H1 : 0 <= max_superblock) (H2 : 0 <= max_kqueue) (H3 : 0 <= max_knote) (H4 : 0 <= max_isr_handler) (H5 : 0 <= max_buf) (H6 : 0 <= max_pipe).

Ltac link := [> intros; reflexivity | intros ? ? []; reflexivity | intros []; reflexivity | first [assumption | done] | first [assumption | reflexivity]].

Lemma run_InitFSLists s :
  exists s', InitFSLists max_superblock max_kqueue max_knote max_isr_handler s = Ret () s' /\
    vnode_free_list s' = seqZ 1 NR_VNODE /\ filp_free_list s' = seqZ 1 NR_FILP /\ free_superblock_list s' = seqZ 1 max_superblock /\
    kqueue_free_list s' = seqZ 1 max_kqueue /\ knote_free_list s' = seqZ 1 max_knote /\ isr_handler_free_list s' = seqZ 1 max_isr_handler /\
    knote_hash s' = replicate (Z.to_nat KNOTE_HASH_SZ) [] /\ dnlc_ok s' /\ dmap (dnames s') = ∅.
Proof using H1 H2 H3 H4.
  unfold InitFSLists. set (s1 := s <| vnode_free_list := [] |> <| filp_free_list := [] |> <| dname_lru_list := [] |>
    <| free_superblock_list := [] |> <| kqueue_free_list := [] |> <| knote_free_list := [] |> <| isr_handler_free_list := [] |>).
  assert (E1 : modify (fun s => s <| vnode_free_list := [] |> <| filp_free_list := [] |> <| dname_lru_list := [] |>
    <| free_superblock_list := [] |> <| kqueue_free_list := [] |> <| knote_free_list := [] |> <| isr_handler_free_list := [] |>) s = Ret () s1) by done.
  rewrite (run_bind _ _ _ _ _ E1). clear E1.
  erewrite run_bind; [|apply (run_link_all vnode_free_list (fun l s => s <| vnode_free_list := l |>) NR_VNODE); link].
  erewrite run_bind; [|apply (run_link_all filp_free_list (fun l s => s <| filp_free_list := l |>) NR_FILP); link]. cbv beta.
  match goal with |- context [(init_names ≫= _) ?x] => set (s2 := x) end.
  destruct (run_init_names s2 eq_refl) as (s3 & E3 & D3 & M3 & R3). rewrite (run_bind _ _ _ _ _ E3). clear E3.
  assert (L3 : vnode_free_list s3 = seqZ 1 NR_VNODE /\ filp_free_list s3 = seqZ 1 NR_FILP /\ free_superblock_list s3 = [] /\
    kqueue_free_list s3 = [] /\ knote_free_list s3 = [] /\ isr_handler_free_list s3 = []) by (rewrite R3; done).
  clearbody s2. destruct L3 as (L1 & L2 & L3 & L4 & L5 & L6).
  erewrite run_bind; [|apply (run_link_all free_superblock_list (fun l s => s <| free_superblock_list := l |>) max_superblock); link].
  erewrite run_bind; [|apply (run_link_all kqueue_free_list (fun l s => s <| kqueue_free_list := l |>) max_kqueue); link].
  erewrite run_bind; [|apply (run_link_all knote_free_list (fun l s => s <| knote_free_list := l |>) max_knote); link].
  erewrite run_bind; [|apply (run_link_all isr_handler_free_list (fun l s => s <| isr_handler_free_list := l |>) max_isr_handler); link]. cbv beta.
  eexists. split; [reflexivity|]. split_and!; [done..| |done]. by apply (dnlc_ok_ext s3).
Qed.

Lemma init_vfs_ok s :
  exists s', init_vfs max_superblock max_kqueue max_knote max_isr_handler max_buf max_pipe s = Ret 0 s' /\
    fs_booted max_superblock max_kqueue max_knote max_isr_handler max_buf max_pipe s'.
Proof using H1 H2 H3 H4 H5 H6.
  destruct (run_InitFSLists s) as (s1 & E1 & L1 & L2 & L3 & L4 & L5 & L6 & L7 & L8 & L9).
  unfold init_vfs. rewrite (run_bind _ _ _ _ _ E1). unfold InitCache.
  set (s2 := s1 <| buf_avail_list := [] |>).
  destruct (run_init_bufs (Z.to_nat max_buf) 0 s2) as (s3 & E3 & R3 & B3 & O3); [done|done|].
  change (CACHE_BASE_VA + 0 * CLUSTER_SZ) with CACHE_BASE_VA in E3.
  assert (E2 : modify (fun s => s <| buf_avail_list := [] |>) s1 = Ret () s2) by done.
  rewrite run_assoc, (run_bind _ _ _ _ _ E2), run_assoc, (run_bind _ _ _ _ _ E3). unfold modify. erewrite run_bind by reflexivity. cbv beta.
  unfold InitPipes, modify. rewrite run_assoc. erewrite run_bind by reflexivity. cbv beta.
  erewrite run_bind; [|apply (run_link_all free_pipe_list (fun l s => s <| free_pipe_list := l |>) max_pipe); link]. erewrite run_bind by reflexivity. cbv beta.
  assert (L : s3 = s1 <| bufs := bufs s3 |> <| buf_avail_list := seqZ 1 max_buf |>).
  { etransitivity; [exact R3|]. subst s2. generalize (bufs s3). replace (0 + Z.of_nat (Z.to_nat max_buf)) with max_buf by lia. by destruct s1. }
  eexists. split; [reflexivity|]. split.
  - exact (eq_trans (f_equal vnode_free_list L) L1).
  - exact (eq_trans (f_equal filp_free_list L) L2).
  - exact (eq_trans (f_equal free_superblock_list L) L3).
  - exact (eq_trans (f_equal kqueue_free_list L) L4).
  - exact (eq_trans (f_equal knote_free_list L) L5).
  - exact (eq_trans (f_equal isr_handler_free_list L) L6).
  - reflexivity.
  - exact (f_equal buf_avail_list L).
  - intros b Hb. apply B3. lia.
  - reflexivity.
  - exact (eq_trans (f_equal knote_hash L) L7).
  - split; [|exact (eq_trans (f_equal (fun s => dmap (dnames s)) L) L9)]. apply (dnlc_ok_ext s1); [exact L8|..].
    + exact (f_equal dnames L).
    + exact (f_equal dname_lru_list L).
    + exact (f_equal dname_hash L).
    + exact (f_equal vnodes L).
  - reflexivity.
Qed.
End Boot.

(** ** sys_createmsgport *)

Lemma mountable_kmem proc o fd f sb v fl sl vl s m :
  (forall a, fproc s proc <= a < fproc s proc + PAGE_SIZE -> m a = kmem (fmem s) a) ->
  mountable proc o fd f sb v fl sl vl s -> mountable proc o fd f sb v fl sl vl (s <| fmem := fmem s <| kmem := m |> |>).
Proof.
  intros Hm [[] ? ? ? ? ? ?]. set (s1 := s <| fmem := _ |>).
  assert (Hu : forall g, 0 <= g < OPEN_MAX -> fd_used s1 proc g = fd_used s proc g).
  { intros g Hg. unfold fd_used, fd_bit, fw. change (fproc s1) with (fproc s). cbn. rewrite Hm; [done|].
    unfold OPEN_MAX, PAGE_SIZE, fd_in_use_set in *.
    assert (0 <= g `div` 32 < 2) by (split; [apply Z.div_pos; lia|apply Z.div_lt_upper_bound; lia]). lia. }
  split; try done; [split; try done|by apply alloc_inv_kmem|by apply (pending_inv_ext s)].
  - by rewrite Hu.
  - intros g Hg. rewrite Hu by lia. by apply av_lower0.
Qed.

Lemma mounted_kmem proc hardclock fd f sb v c flags n fl sl vl st s m s' :
  (forall a, fproc s proc <= a < fproc s proc + PAGE_SIZE -> m a = kmem (fmem s) a) ->
  mounted proc hardclock fd f sb v c flags n fl sl vl st (s <| fmem := fmem s <| kmem := m |> |>) s' ->
  mounted proc hardclock fd f sb v c flags n fl sl vl st s s'.
Proof.
  intros Hm []. split; [done| |done..]. intros g Hg. rewrite md_fds0 by done. destruct (bool_decide (g = fd)); [done|].
  unfold fd_filp, fw. cbn. apply Hm. unfold OPEN_MAX, fd_table, PAGE_SIZE in *. lia.
Qed.

Lemma first_mount_ok L path_max proc hardclock req reply msg path dot dotdot stat stat_sz parse_stat o fd f sb v fl sl vl _path flags _stat n ld s :
  root_vnode s = 0 -> mountable proc o fd f sb v fl sl vl s -> 1 <= n <= MAX_MSG_BACKLOG -> 0 <= stat_sz ->
  (forall a, _stat <= a < _stat + stat_sz -> uvalid s a = true) ->
  stat + stat_sz <= fproc s proc \/ fproc s proc + PAGE_SIZE <= stat ->
  exists s', sys_createmsgport L path_max proc hardclock req reply msg path dot dotdot stat stat_sz parse_stat _path flags _stat n ld [] s =
      Done fd [] s' /\
    mounted proc hardclock fd f sb v 0 flags n fl sl vl (parse_stat (mem_bytes (umem s) _stat stat_sz)) s s'.
Proof.
  intros Hr Mb Hn Hsz Hval Hap. unfold sys_createmsgport.
  destruct (CopyIn_ok stat _stat stat_sz s Hsz Hval) as (m & E & Hb & Hm).
  rewrite (prun_bind _ _ _ _ _ _ _ (run_call _ _ _ _ _ E)), bool_decide_false by (intros H; by apply H).
  set (s1 := s <| fmem := _ |>). rewrite (prun_bind _ _ _ _ _ _ _ (run_call _ _ _ _ _ (run_gets _ _))).
  change (root_vnode s1) with (root_vnode s). rewrite Hr, bool_decide_false by (intros H; by apply H).
  assert (Hk : forall a, fproc s proc <= a < fproc s proc + PAGE_SIZE -> m a = kmem (fmem s) a).
  { intros a Ha. rewrite Hm, bool_decide_false; [done|]. lia. }
  assert (Es : read_stat stat stat_sz parse_stat s1 = Ret (parse_stat (mem_bytes (umem s) _stat stat_sz)) s1).
  { unfold read_stat, kload. rewrite (run_bind _ _ _ _ _ (run_gets _ _)). by rewrite <- Hb. }
  rewrite (prun_bind _ _ _ _ _ _ _ (run_call _ _ _ _ _ Es)).
  destruct (run_mount_on proc hardclock o fd f sb v 0 flags n fl sl vl (parse_stat (mem_bytes (umem s) _stat stat_sz)) ld s1
    (mountable_kmem _ _ _ _ _ _ _ _ _ _ _ Hk Mb) Hn) as (s' & E' & Md & _); [|intros H; by destruct H|].
  { intros H. by apply (mb_v _ _ _ _ _ _ _ _ _ _ Mb). }
  exists s'. split; [by apply run_call|]. by apply (mounted_kmem _ _ _ _ _ _ _ _ _ _ _ _ _ _ m).
Qed.

(** ** Errors *)

Lemma run_put_held v s :
  v <> 0 -> v_superblock (vnodes s v) <> 0 -> 1 < v_reference_cnt (vnodes s v) ->
  exists s', vnode_put v s = Ret () s' /\
    s' = s <| vnodes := vnodes s' |> <| superblocks := superblocks s' |> <| woken := woken s' |> /\
    forall w, vnodes s' w = if bool_decide (w = v) then vnodes s v <| v_busy := false |> <| v_reference_cnt := v_reference_cnt (vnodes s v) - 1 |>
              else vnodes s w.
Proof.
  intros Hv Hs Hr. unfold vnode_put, upd_vnode, upd_sb. rewrite (run_bind _ _ _ _ _ (run_upd _ _ _ _ _ Hv)).
  set (s1 := s <| vnodes := _ |>). rewrite (run_bind _ _ _ _ _ (run_deref _ _ _ Hv)).
  assert (V1 : vnodes s1 v = vnodes s v <| v_busy := false |> <| v_reference_cnt := v_reference_cnt (vnodes s v) - 1 |>) by apply fn_lookup_insert.
  rewrite V1. erewrite run_bind; [|apply run_upd; exact Hs]. cbv beta.
  rewrite bool_decide_false by (cbn; lia). rewrite (run_bind _ _ _ _ _ (run_ret _ _)).
  eexists. split; [reflexivity|]. split; [by destruct s|]. intros w. cbn.
  case_bool_decide as H; [subst w; by rewrite fn_lookup_insert|by rewrite fn_lookup_insert_ne].
Qed.

(** A mount of another kind of file than the one it would cover is refused with
    0, which is a descriptor, and the file is released twice. *)
Theorem mount_mismatch proc hardclock flags n st ld s :
  let c := ld_vnode ld in
  c <> 0 -> v_superblock (vnodes s c) <> 0 -> 2 < v_reference_cnt (vnodes s c) ->
  same_kind (s_mode st) (v_mode (vnodes s c)) = false ->
  exists s', mount_over proc hardclock ld flags n st s = Ret 0 s' /\ v_reference_cnt (vnodes s' c) = v_reference_cnt (vnodes s c) - 2.
Proof.
  intros c Hc Hs Hr Hk. unfold mount_over. fold c. rewrite bool_decide_false by done. rewrite (run_bind _ _ _ _ _ (run_deref _ _ _ Hc)).
  cbv zeta. unfold same_kind in Hk. rewrite Hk. cbn [negb]. unfold mount_exit. fold c.
  destruct (run_put_held c s Hc Hs) as (s1 & E1 & R1 & V1); [lia|]. rewrite (run_bind _ _ _ _ _ E1).
  assert (Vc := V1 c). rewrite bool_decide_true in Vc by done.
  change (vnode_free 0) with (mret () : M unit). rewrite (run_bind _ _ _ _ _ (run_ret _ _)).
  change (free_fd_superblock proc (-1)) with (mret (- EINVAL) : M Z). rewrite (run_bind _ _ _ _ _ (run_ret _ _)).
  destruct (run_put_held c s1 Hc) as (s2 & E2 & R2 & V2); [by rewrite Vc|rewrite Vc; cbn; lia|].
  rewrite (run_bind _ _ _ _ _ E2). exists s2. split; [done|]. rewrite V2, bool_decide_true, Vc by done. cbn. lia.
Qed.

(** After sys_pivotroot the new root covers itself. *)
Theorem pivot_covers_itself old new s :
  old <> 0 -> new <> 0 -> root_vnode s <> 0 -> old <> new ->
  v_superblock (vnodes s old) <> 0 -> v_superblock (vnodes s new) <> 0 ->
  1 < v_reference_cnt (vnodes s old) -> 1 < v_reference_cnt (vnodes s new) ->
  exists s', pivot old new s = Ret () s' /\ root_vnode s' = new /\ vnode_covered (vnodes s' new) = new /\
    vnode_mounted_here (vnodes s' old) = root_vnode s.
Proof.
  intros Ho Hn Hr Hne So Sn Ro Rn. unfold pivot, upd_vnode. rewrite (run_bind _ _ _ _ _ (run_gets _ _)).
  rewrite (run_bind _ _ _ _ _ (run_upd _ _ _ _ _ Ho)), (run_bind _ _ _ _ _ (run_upd _ _ _ _ _ Hr)).
  unfold modify. erewrite run_bind by reflexivity. rewrite (run_bind _ _ _ _ _ (run_gets _ _)). cbv beta.
  rewrite (run_bind _ _ _ _ _ (run_upd _ _ _ _ _ Hn)). match goal with |- exists _, ?m ?x = _ /\ _ => set (s1 := x) end.
  assert (R1 : root_vnode s1 = new) by done. set (r := root_vnode s) in *.
  assert (Vn : vnode_covered (vnodes s1 new) = new /\ v_superblock (vnodes s1 new) <> 0 /\ 1 < v_reference_cnt (vnodes s1 new)).
  { subst s1. cbn. rewrite fn_lookup_insert. destruct (decide (r = new)) as [E|E].
    - rewrite E, fn_lookup_insert, fn_lookup_insert_ne by done. done.
    - rewrite !fn_lookup_insert_ne by done. done. }
  assert (Vo : vnode_mounted_here (vnodes s1 old) = r /\ v_superblock (vnodes s1 old) <> 0 /\ 1 < v_reference_cnt (vnodes s1 old)).
  { subst s1. cbn. rewrite fn_lookup_insert_ne by done. destruct (decide (r = old)) as [E|E].
    - rewrite E, !fn_lookup_insert. done.
    - rewrite fn_lookup_insert_ne, fn_lookup_insert by done. done. }
  clearbody s1. destruct Vn as (N1 & N2 & N3), Vo as (O1 & O2 & O3).
  destruct (run_put_held old s1 Ho O2 O3) as (s2 & E2 & R2 & V2). rewrite (run_bind _ _ _ _ _ E2).
  assert (Vn : vnodes s2 new = vnodes s1 new) by (rewrite V2; by rewrite bool_decide_false).
  destruct (run_put_held new s2 Hn) as (s3 & E3 & R3 & V3); [by rewrite Vn..|]. exists s3. split; [exact E3|].
  split; [rewrite R3; cbn; rewrite R2; exact R1|]. split.
  - rewrite V3, bool_decide_true, Vn by done. exact N1.
  - rewrite V3, bool_decide_false, V2, bool_decide_true by done. exact O1.
Qed.

(** ** The properties *)

(** C5. The first mount, which is made before there is a root.  A process with
    a free descriptor, file pointer, superblock and vnode gets the lowest free
    descriptor, for a superblock with an empty message port and every slot of
    its backlog free: any process that waits for no reply can send its requests
    to the superblock, to be served through the descriptor.  The root of the
    mount has the inode and attributes the process gave and becomes the root of
    the namespace; no other vnode and no other descriptor has changed. *)
Theorem first_mount_correct L path_max proc hardclock req reply msg path dot dotdot stat stat_sz parse_stat o fd f sb v fl sl vl
    _path flags _stat n ld s :
  root_vnode s = 0 -> mountable proc o fd f sb v fl sl vl s -> 1 <= n <= MAX_MSG_BACKLOG -> 0 <= stat_sz ->
  (forall a, _stat <= a < _stat + stat_sz -> uvalid s a = true) ->
  stat + stat_sz <= fproc s proc \/ fproc s proc + PAGE_SIZE <= stat ->
  exists s', sys_createmsgport L path_max proc hardclock req reply msg path dot dotdot stat stat_sz parse_stat _path flags _stat n ld [] s =
      Done fd [] s' /\
    mounted proc hardclock fd f sb v 0 flags n fl sl vl (parse_stat (mem_bytes (umem s) _stat stat_sz)) s s'.
Proof. apply first_mount_ok. Qed.

(** A mount on a file of the same kind that is not itself the root of a
    mount: the file and the root of the mount refer to each other, each with one
    more reference and unlocked, the name cache has lost exactly the entries
    that lead to the file or start at it, and the new superblock can serve its
    clients. *)
Theorem mount_over_correct proc hardclock o fd f sb v flags n fl sl vl st ld s :
  let c := ld_vnode ld in
  mountable proc o fd f sb v fl sl vl s -> 1 <= n <= MAX_MSG_BACKLOG -> dnlc_ok s ->
  c <> 0 -> c <> v -> v_superblock (vnodes s c) <> 0 -> vnode_notes_ok c s ->
  same_kind (s_mode st) (v_mode (vnodes s c)) = true -> vnode_covered (vnodes s c) = 0 ->
  exists s', mount_over proc hardclock ld flags n st s = Ret fd s' /\ mounted proc hardclock fd f sb v c flags n fl sl vl st s s' /\
    dmap (dnames s') = filter (fun kv => of_vnode c kv.1.1 kv.2 = false) (dmap (dnames s)).
Proof. apply mount_over_ok. Qed.

(** C34. The file system at boot: from any state init_vfs ends with every entry
    of each table on its free list once and in order, every buffer with its own
    part of the cache's address space and no file, the name cache empty and
    well-formed, the hash tables empty, and no root. *)
Theorem init_vfs_correct s :
  exists s', init_vfs NR_SUPERBLOCK NR_KQUEUE NR_KNOTE NR_ISR_HANDLER 4096 NR_PIPE s = Ret 0 s' /\
    fs_booted NR_SUPERBLOCK NR_KQUEUE NR_KNOTE NR_ISR_HANDLER 4096 NR_PIPE s'.
Proof. by apply init_vfs_ok. Qed.

(** ** Witnesses *)

(** Process 1 of [fs_fork], with two of each object left, and a file, the
    character device 4, on another superblock. *)
Definition fs_mount : fs := fs_fork
  <| filp_free_list := [5; 6] |> <| free_superblock_list := [2; 3] |> <| vnode_free_list := [8; 9] |>
  <| vnodes := <[4 := vnodes fs_fork 4 <| v_superblock := 7 |> <| v_mode := _IFCHR |> <| v_reference_cnt := 1 |>]> (vnodes fs_fork) |>
  <| umem := fun a => if bool_decide (a = 100) then 33 else 0x20 |>.

Lemma no_notes s : (forall k, kq_pending_list (kqueues s k) = []) -> (forall n, kn_on_pending_list (knotes s n) = false) -> pending_inv s.
Proof.
  intros H1 H2. split.
  - intros k. rewrite H1. apply NoDup_nil_2.
  - intros k n. rewrite H1, H2. split; [by intros ?%not_elem_of_nil|by intros [? _]].
  - intros n. by rewrite H2.
Qed.

Lemma fs_mount_mountable : mountable 1 1 0 5 2 8 [6] [3] [9] fs_mount.
Proof.
  split; try reflexivity; try (intros H; discriminate H).
  - split; try reflexivity; try (intros H; discriminate H); [split; [lia|reflexivity]|lia].
  - intros H. apply list_elem_of_singleton in H. discriminate H.
  - exact fs_fork_inv.
  - by apply no_notes.
Qed.

(** The layout of a [struct stat] for the witnesses. *)
Definition small_stat (b : list Z) : statbuf := mkStatbuf 0 (nth 0 b 0) (256 * nth 1 b 0) 0 0 0 0 0 0 0 0 0 0.

Lemma first_mount_correct_witness :
  exists s', sys_createmsgport small_protocol 16 1 50 3000 3100 500 7000 3200 3202 600 2 small_stat 90 0 100 4 (mkLookupdata 0 0 0 0 0 0 0) [] fs_mount =
      Done 0 [] s' /\ ready 9 1 0 2 s' /\ root_vnode s' = 8 /\ inode_nr (vnodes s' 8) = 33 /\ v_mode (vnodes s' 8) = _IFCHR.
Proof.
  destruct (first_mount_correct small_protocol 16 1 50 3000 3100 500 7000 3200 3202 600 2 small_stat 1 0 5 2 8 [6] [3] [9] 90 0 100 4
    (mkLookupdata 0 0 0 0 0 0 0) fs_mount) as (s' & E & []).
  - reflexivity.
  - exact fs_mount_mountable.
  - unfold MAX_MSG_BACKLOG. lia.
  - lia.
  - reflexivity.
  - left. change (fproc fs_mount 1) with 0x80001000. lia.
  - exists s'. split; [exact E|]. split; [apply md_ready0; reflexivity|]. rewrite md_vnode0, md_root0. split_and!; reflexivity.
Defined.

Definition fs_mount_names : fs := result_state (init_dnames fs_mount).

Lemma fs_mount_names_ok : dnlc_ok fs_mount_names /\ same_but_dnames fs_mount fs_mount_names.
Proof.
  unfold fs_mount_names. rewrite (init_names_eq fs_mount eq_refl). destruct (run_init_names fs_mount eq_refl) as (s' & -> & D & _ & R). done.
Qed.

Lemma mount_over_correct_witness :
  exists s', mount_over 1 50 (mkLookupdata 0 0 0 0 0 0 0 <| ld_vnode := 4 |>) 0 4 (small_stat [33; 0x20]) fs_mount_names = Ret 0 s' /\
    vnode_mounted_here (vnodes s' 4) = 8 /\ vnode_covered (vnodes s' 8) = 4 /\ ready 9 1 0 2 s'.
Proof.
  generalize fs_mount_names_ok. generalize fs_mount_names. intros s0 [D R]. assert (V : vnodes s0 = vnodes fs_mount) by (by rewrite R).
  destruct (mount_over_correct 1 50 1 0 5 2 8 0 4 [6] [3] [9] (small_stat [33; 0x20]) (mkLookupdata 0 0 0 0 0 0 0 <| ld_vnode := 4 |>)
    s0) as (s' & E & [] & _); rewrite ?V.
  - exact (mountable_dnames _ _ _ _ _ _ _ _ _ _ _ R fs_mount_mountable).
  - unfold MAX_MSG_BACKLOG. lia.
  - exact D.
  - intros H; discriminate H.
  - intros H; discriminate H.
  - intros H; discriminate H.
  - split; [apply no_notes; rewrite R; reflexivity|]. rewrite V. split; [apply NoDup_nil_2|]. intros n Hn. by apply not_elem_of_nil in Hn.
  - reflexivity.
  - reflexivity.
  - exists s'. split; [exact E|]. rewrite md_vnode0. rewrite V in md_covered0. cbn [ld_vnode] in md_covered0.
    pose proof (md_covered0 ltac:(intros H; discriminate H)) as C. split; [exact (f_equal vnode_mounted_here C)|]. split; [reflexivity|]. apply md_ready0. rewrite R. reflexivity.
Defined.
