(* ===== verification/Exec.v ===== *)
(** * Program loading

    The model of kernel/fs/exec.c and of arch_init_exec of
    boards/raspberry_pi_4/proc.c.

    The arguments are those of Files.v, and the addresses of the local variables:
    [ehdr] and [phdr] for the headers, [uargs] for the [struct execargs], whose
    layout is that of the C library (patches/newlib-4.1.0.patch, sys/execargs.h);
    [execargs_buf] is the pool.  An [exec] is a machine with the names of the
    programs its processes run.  After a change of its address space a process may
    access the pages that are mapped, and a page that it could not access before
    is zero; this is [remap].  The saved kernel context is not part of the state,
    as in Proc.v. *)

From S2P Require Import Prelude Bytes Lists Sched Segment Page Pmap Vm Bootmem Fs Filp Vnode Msg Filedesc Str Proc Blocking Vfs Lookup Cache Files.

Definition MAX_ARGS_SZ := 0x10000.
Definition PROC_BASENAME_SZ := 16.
Definition USER_STACK_SZ := 0x20000.
Definition CPSR_DEFAULT_BITS := 0x40.
Definition USR_MODE := 0x10.
Definition ENOEXEC := 8.
Definition EBUSY := 16.
Definition O_RDONLY := 0.

(** ** Words in memory *)

Definition load_word (a : Z) : M Z := gets (fun s => word_at (kmem (fmem s)) a).
Definition store_word (a x : Z) : M unit := kstore a (word_bytes (u32 x)).

(** ** Arguments *)

Record execargs := mkExecargs { ea_argv : Z; argc : Z; ea_envv : Z; envc : Z; total_size : Z }.
Definition execargs_sz := 20.
Definition parse_execargs (b : list Z) : execargs :=
  let m := fun i => nth (Z.to_nat i) b 0 in
  mkExecargs (word_at m 0) (i32 (word_at m 4)) (word_at m 8) (i32 (word_at m 12)) (word_at m 16).

(** The pool is for one process at a time. *)
Definition alloc_arg_pool (execargs_buf : Z) : P Z :=
  blocking (b ← gets execargs_busy; sleep_while b RExecargs;; modify (fun s => s <| execargs_busy := true |>));;
  mret execargs_buf.
Definition free_arg_pool (pool : Z) : M unit :=
  modify (fun s => s <| execargs_busy := false |>);;
  wakeup RExecargs.

(** A round copies the string that entry [t] of the vector [vec] points to and
    makes the entry point to the copy.  The first result is where the next string
    goes and what is left, or [None] when a copy failed; the second is the name
    of the program, of the first string if [named]. *)
Fixpoint copy_strings (named : bool) (n : nat) (vec t dst remaining : Z) (name : option (list Z)) :
    M (option (Z * Z) * option (list Z)) :=
  match n with
  | O => mret (Some (dst, remaining), name)
  | S n =>
      src ← load_word (vec + 4 * t);
      sc ← CopyInString dst src (u32 remaining);
      if bool_decide (sc <> 0) then mret (None, name)
      else
        store_word (vec + 4 * t) dst;;
        len ← gets (fun s => StrLen (Z.to_nat (u32 remaining)) (kmem (fmem s)) dst);
        len ← lift len;
        let sz := len + 1 in
        b ← kload dst (Z.min sz PROC_BASENAME_SZ);
        let name := if named && bool_decide (t = 0) then Some b else name in
        copy_strings named n vec (t + 1) (dst + sz) (remaining - sz) name
  end.

Definition no_args : execargs := mkExecargs 0 0 0 0 0.

(** The strings, after the vectors; the status, the arguments, and the name of
    the program if it was set. *)
Definition copy_in_strings (pool argv envv string_table : Z) (a : execargs) : M (Z * execargs * option (list Z)) :=
  let remaining := i32 (pool + MAX_ARGS_SZ - string_table) in
  '(r, name) ← copy_strings true (Z.to_nat (argc a)) argv 0 string_table remaining None;
  match r with
  | None => mret (- EFAULT, no_args, name)
  | Some (dst, remaining) =>
      store_word (argv + 4 * argc a) 0;;
      '(r, name) ← copy_strings false (Z.to_nat (envc a)) envv 0 dst remaining name;
      match r with
      | None => mret (- EFAULT, no_args, name)
      | Some (dst, _) =>
          store_word (envv + 4 * envc a) 0;;
          mret (0, mkExecargs argv (argc a) envv (envc a) (u32 (dst - pool)), name)
      end
  end.

(** Without arguments the pool is given back. *)
Definition copy_in_argv (uargs pool _args : Z) : M (Z * execargs * option (list Z)) :=
  if bool_decide (_args = 0) then
    modify (fun s => s <| execargs_busy := false |>);;
    wakeup RExecargs;;
    mret (0, no_args, None)
  else
    sc ← CopyIn uargs _args execargs_sz;
    if bool_decide (sc <> 0) then mret (- EFAULT, no_args, None)
    else
      b ← kload uargs execargs_sz;
      let a := parse_execargs b in
      let argv := pool in
      let envv := u32 (argv + u32 ((argc a + 1) * 4)) in
      let string_table := u32 (envv + u32 ((envc a + 1) * 4)) in
      sc ← CopyIn argv (ea_argv a) (u32 (argc a * 4));
      if bool_decide (sc <> 0) then mret (- EFAULT, no_args, None)
      else
        sc ← CopyIn envv (ea_envv a) (u32 (envc a * 4));
        if bool_decide (sc <> 0) then mret (- EFAULT, no_args, None)
        else copy_in_strings pool argv envv string_table a.

(** The pointers of a vector, moved down by [difference]. *)
Fixpoint relocate (n : nat) (vec t difference : Z) : M unit :=
  match n with
  | O => mret ()
  | S n =>
      p ← load_word (vec + 4 * t);
      store_word (vec + 4 * t) (p - difference);;
      relocate n vec (t + 1) difference
  end.

Definition copy_out_argv (execargs_buf stack_base stack_size : Z) (a : execargs) : M execargs :=
  let args_base := u32 (stack_base + stack_size - ALIGN_UP (total_size a) 16) in
  let difference := u32 (execargs_buf - args_base) in
  relocate (Z.to_nat (argc a)) (ea_argv a) 0 difference;;
  relocate (Z.to_nat (envc a)) (ea_envv a) 0 difference;;
  CopyOut args_base execargs_buf (total_size a);;
  mret (mkExecargs (u32 (ea_argv a - difference)) (argc a) (u32 (ea_envv a - difference)) (envc a) (total_size a)).

(** ** ELF headers, of boards/raspberry_pi_4/h/kernel/board/elf.h *)

Record Elf32_EHdr := mkEHdr { e_ident : list Z; e_type : Z; e_entry : Z; e_phoff : Z; e_phnum : Z }.
Definition sizeof_EHdr := 52.
Definition EHdr_at (m : Z -> Z) (a : Z) : Elf32_EHdr :=
  mkEHdr (mem_bytes m a 16) (half_at m (a + 16)) (word_at m (a + 24)) (word_at m (a + 28)) (half_at m (a + 44)).

Record Elf32_PHdr := mkPHdr { ph_type : Z; ph_offset : Z; ph_vaddr : Z; ph_filesz : Z; ph_memsz : Z; ph_flags : Z }.
Definition sizeof_PHdr := 32.
Definition PHdr_at (m : Z -> Z) (a : Z) : Elf32_PHdr :=
  mkPHdr (word_at m a) (word_at m (a + 4)) (word_at m (a + 8)) (word_at m (a + 16)) (word_at m (a + 20)) (word_at m (a + 24)).

Definition ELFMAG0 := 0x7f.
Definition ELFCLASS32 := 1.
Definition ELFDATA2LSB := 1.
Definition ET_EXEC := 2.
Definition PT_LOAD := 1.
Definition PF_X := 1.
Definition PF_W := 2.
Definition PF_R := 4.

(** A 32-bit little-endian executable with program headers. *)
Definition is_executable (h : Elf32_EHdr) : bool :=
  bool_decide (take 6 (e_ident h) = [ELFMAG0; 69; 76; 70; ELFCLASS32; ELFDATA2LSB] /\ e_type h = ET_EXEC /\ e_phnum h > 0).

(** ** The monad of exec *)

Record exec := mkExec { mach : machine; basename : Z -> list Z }.
#[export] Instance rebuild_exec : Rebuild exec := fun r => mkExec (mach r) (basename r).

Inductive xrun (A : Type) : Type :=
| XDone (a : A) (env : others) (x : exec)
| XStarts (x : exec)   (* the process runs its new program *)
| XAsleep (x : exec)
| XCrash.
Arguments XDone {A} a env x.
Arguments XStarts {A} x.
Arguments XAsleep {A} x.
Arguments XCrash {A}.

Definition X (A : Type) : Type := others -> exec -> xrun A.
#[export] Instance X_ret : MRet X := fun A a env x => XDone a env x.
#[export] Instance X_bind : MBind X := fun A B f w env x =>
  match w env x with
  | XDone a env' x' => f a env' x'
  | XStarts x' => XStarts x'
  | XAsleep x' => XAsleep x'
  | XCrash => XCrash
  end.

Definition on_p {A} (p : P A) : X A := fun env x =>
  match p env (files (mach x)) with
  | Done a env' s => XDone a env' (x <| mach := mach x <| files := s |> |>)
  | Asleep _ s => XAsleep (x <| mach := mach x <| files := s |> |>)
  | Crash => XCrash
  end.
Definition on_w {A} (w : W A) : X A := fun env x =>
  match w (mach x) with
  | Returns a m => XDone a env (x <| mach := m |>)
  | Sleeps m => XAsleep (x <| mach := m |>)
  | Faults => XCrash
  end.
Definition on_m {A} (m : M A) : X A := on_p (call m).

(** A process that has ended does not come back. *)
Definition ended_x {A} : X A := fun _ x => XAsleep x.

Definition remap (c : Z) (s : fs) : fs := s
  <| uvalid := fun a => bool_decide (is_Some (view (fmem s) c (a `div` PAGE_SIZE))) |>
  <| umem := fun a => if uvalid s a then umem s a else 0 |>.

(** A change of the address space of the current process. *)
Definition on_as {A} (c : Z) (f : vms -> option (A * vms)) : X A :=
  r ← on_w (on_vm f);
  on_m (modify (remap c));;
  mret r.

(** The name of a program, in an array of 16 characters. *)
Definition set_name (old new : list Z) : list Z := <[15%nat := 0]> (new ++ drop (length new) old).

Section Exec.
Context (L : protocol) (path_max : nat) (proc uid gid req reply msg path dot dotdot buf : Z).
Context (ehdr phdr uargs execargs_buf : Z) (fuel : nat).

(** ** Loading *)

Definition read_file (fd offset vaddr sz : Z) : P Z :=
  o ← call (sys_lseek proc fd offset SEEK_SET);
  if bool_decide (o = -1) then mret (-1) else sys_read L proc req msg buf fuel fd vaddr sz.
Definition kread_file (fd offset vaddr sz : Z) : P Z :=
  o ← call (sys_lseek proc fd offset SEEK_SET);
  if bool_decide (o = -1) then mret (-1) else kread L proc req msg fd vaddr sz.

Definition check_elf_headers (fd : Z) : P Z :=
  rc ← kread_file fd 0 ehdr sizeof_EHdr;
  if bool_decide (rc = sizeof_EHdr) then
    h ← call (gets (fun s => EHdr_at (kmem (fmem s)) ehdr));
    mret (if is_executable h then 0 else - ENOEXEC)
  else mret (- ENOEXEC).

(** What is loaded for a program header: the pages, and what the file holds. *)
Definition load_segment (fd : Z) (h : Elf32_PHdr) : X Z :=
  let sec_addr := ALIGN_DOWN (ph_vaddr h) PAGE_SIZE in
  let sec_file_sz := i32 (ph_filesz h) in
  let sec_mem_sz := u32 (ALIGN_UP (u32 (ph_vaddr h + ph_memsz h)) PAGE_SIZE - sec_addr) in
  if bool_decide (sec_mem_sz < u32 sec_file_sz) then mret (- EIO)
  else
    ret_addr ← (if bool_decide (sec_mem_sz <> 0) then
                  on_as proc (sys_virtualalloc proc sec_addr sec_mem_sz
                    (Z.lor (Z.lor (Z.lor PROT_READ PROT_WRITE) PROT_EXEC) Segment.MAP_FIXED))
                else mret 1 : X Z);
    if bool_decide (ret_addr = 0) then mret (- ENOMEM)
    else
      rc ← (if bool_decide (sec_file_sz <> 0) then on_p (read_file fd (i32 (ph_offset h)) (ph_vaddr h) (u32 sec_file_sz))
            else mret sec_file_sz : X Z);
      if bool_decide (rc <> sec_file_sz) then mret (- ENOMEM)
      else
        let sec_prot := Z.lor (Z.lor (if bool_decide (Z.land (ph_flags h) PF_X <> 0) then PROT_EXEC else 0)
                                     (if bool_decide (Z.land (ph_flags h) PF_R <> 0) then PROT_READ else 0))
                              (if bool_decide (Z.land (ph_flags h) PF_W <> 0) then PROT_WRITE else 0) in
        on_as proc (fun s => Some (sys_virtualprotect proc sec_addr sec_mem_sz sec_prot s));;
        mret 0.

Fixpoint load_headers (n : nat) (fd phdr_offs t : Z) : X Z :=
  match n with
  | O => mret 0
  | S n =>
      rc ← on_p (kread_file fd (i32 (phdr_offs + t * sizeof_PHdr)) phdr sizeof_PHdr);
      if bool_decide (rc <> sizeof_PHdr) then mret (- EIO)
      else
        h ← on_m (gets (fun s => PHdr_at (kmem (fmem s)) phdr));
        if bool_decide (ph_type h <> PT_LOAD) then load_headers n fd phdr_offs (t + 1)
        else
          rc ← load_segment fd h;
          if bool_decide (rc <> 0) then mret rc else load_headers n fd phdr_offs (t + 1)
  end.

(** The status and the entry point. *)
Definition load_process (fd : Z) : X (Z * Z) :=
  rc ← on_p (kread_file fd 0 ehdr sizeof_EHdr);
  if bool_decide (rc <> sizeof_EHdr) then mret (- EIO, 0)
  else
    h ← on_m (gets (fun s => EHdr_at (kmem (fmem s)) ehdr));
    rc ← load_headers (Z.to_nat (e_phnum h)) fd (i32 (e_phoff h)) 0;
    mret (rc, e_entry h).

(** The registers with which the program starts.  GetContext goes to
    StartExecProcess and not back to its caller. *)
Definition arch_init_exec {A} (p entry_point stack_pointer : Z) (a : execargs) : X A := fun _ x =>
  let m := mach x in
  XStarts (x <| mach := m <| uctx := <[p := [u32 (argc a); ea_argv a; u32 (envc a); ea_envv a; 0; 0; 0; 0; 0; 0; 0; 0; 0;
    u32 stack_pointer; 0; entry_point; Z.lor USR_MODE CPSR_DEFAULT_BITS]]> (uctx m) |> |>).

(** ** The system call *)

Definition do_exec (fd _args : Z) : X Z :=
  rc ← on_p (check_elf_headers fd);
  if bool_decide (rc <> 0) then mret (- ENOEXEC)
  else
    pool ← on_p (alloc_arg_pool execargs_buf);
    if bool_decide (pool = 0) then mret (- EBUSY)
    else
      '(rc, args, name) ← on_m (copy_in_argv uargs pool _args);
      (fun env x => XDone () env (x <| basename :=
         <[proc := default (basename x proc) (set_name (basename x proc) <$> name)]> (basename x) |>));;
      if bool_decide (rc <> 0) then on_m (free_arg_pool pool);; mret (- EFAULT)
      else
        on_as proc (fun s => s ← cleanup_address_space proc s; Some ((), s));;
        '(rc, entry_point) ← load_process fd;
        if bool_decide (rc <> 0) then on_m (free_arg_pool pool);; mret (- ENOMEM)
        else
          stack_base ← on_as proc (sys_virtualalloc proc 0x30000000 USER_STACK_SZ (Z.lor PROT_READ PROT_WRITE));
          if bool_decide (stack_base = 0) then on_m (free_arg_pool pool);; mret (- ENOMEM)
          else
            args ← on_m (copy_out_argv execargs_buf stack_base USER_STACK_SZ args);
            on_m (free_arg_pool pool);;
            arch_init_exec proc entry_point (stack_base + USER_STACK_SZ - ALIGN_UP (total_size args) 16 - 16) args.

Definition sys_exec (filename _args : Z) (ld : lookupdata) : X Z :=
  fd ← on_p (sys_open L path_max proc uid gid req reply msg path dot dotdot filename O_RDONLY 0 ld);
  if bool_decide (fd < 0) then mret (- ENOENT)
  else
    sc ← do_exec fd _args;
    on_m (sys_close proc fd);;
    if bool_decide (sc = - ENOMEM) then on_w (sys_exit (-1));; ended_x else mret sc.
End Exec.

(** ** Words *)

Lemma run_store_word a x s : store_word a x s = Ret () (s <| fmem := fmem s <| kmem := put_word a x (kmem (fmem s)) |> |>).
Proof. done. Qed.

Lemma run_load_word a s : load_word a s = Ret (word_at (kmem (fmem s)) a) s.
Proof. done. Qed.

(** ** Vectors of strings *)

Definition size (l : list Z) : Z := Z.of_nat (length l) + 1.
Definition sizes (ls : list (list Z)) : Z := foldr (fun l n => size l + n) 0 ls.

(** The strings [ls] one after the other from [d], and from entry [t] of [vec] on
    the pointers to them, each moved by [f]. *)
Fixpoint placed (f : Z -> Z) (m : Z -> Z) (vec t d : Z) (ls : list (list Z)) : Prop :=
  match ls with
  | [] => True
  | l :: ls => word_at m (vec + 4 * t) = f d /\ cstr m d l /\ placed f m vec (t + 1) (d + size l) ls
  end.

Lemma sizes_nonneg ls : 0 <= sizes ls.
Proof. induction ls as [|l ls IH]; [done|]. change (0 <= size l + sizes ls). assert (0 <= size l) by (unfold size; lia). lia. Qed.

Lemma placed_ext f m m' vec t d ls :
  (forall i, vec + 4 * t <= i < vec + 4 * (t + Z.of_nat (length ls)) -> m' i = m i) ->
  (forall i, d <= i < d + sizes ls -> m' i = m i) -> placed f m vec t d ls -> placed f m' vec t d ls.
Proof.
  revert t d. induction ls as [|l ls IH]; intros t d Hv Hd; [done|]. cbn [placed length] in *.
  change (sizes (l :: ls)) with (size l + sizes ls) in Hd. intros (E & C & P). pose proof (sizes_nonneg ls).
  assert (Hl : size l = Z.of_nat (length l) + 1) by done. split_and!.
  - rewrite <- E. apply word_at_ext. intros i Hi. apply Hv. lia.
  - apply (cstr_ext m); [|done]. intros i Hi. apply Hd. lia.
  - apply IH; [intros i Hi; apply Hv; lia|intros i Hi; apply Hd; lia|done].
Qed.

(** What the entries of a vector of a process point to. *)
Definition points_to (s : fs) (p : Z) (l : list Z) : Prop :=
  cstr (umem s) p l /\ forall a, p <= a <= p + Z.of_nat (length l) -> uvalid s a = true.

Definition first_name (named : bool) (t : Z) (ls : list (list Z)) (name : option (list Z)) : option (list Z) :=
  match ls with
  | l :: _ => if named && bool_decide (t = 0) then Some (take (Z.to_nat PROC_BASENAME_SZ) (l ++ [0])) else name
  | [] => name
  end.

Lemma copy_strings_ok named ls vec t d remaining name s :
  0 <= t -> vec + 4 * (t + Z.of_nat (length ls)) <= d -> 0 <= d -> sizes ls <= remaining -> d + remaining < 2 ^ 32 ->
  (forall i l, ls !! i = Some l -> points_to s (word_at (kmem (fmem s)) (vec + 4 * (t + Z.of_nat i))) l) ->
  exists m, copy_strings named (length ls) vec t d remaining name s =
      Ret (Some (d + sizes ls, remaining - sizes ls), first_name named t ls name) (s <| fmem := fmem s <| kmem := m |> |>) /\
    placed id m vec t d ls /\
    forall a, ~ (vec + 4 * t <= a < vec + 4 * (t + Z.of_nat (length ls))) -> ~ (d <= a < d + sizes ls) -> m a = kmem (fmem s) a.
Proof.
  revert t d remaining name s. induction ls as [|l ls IH]; intros t d remaining name s Ht Hvd Hd Hsz Hlim Hp.
  { exists (kmem (fmem s)). split; [|done]. cbn. rewrite Z.add_0_r, Z.sub_0_r. by destruct s as [[]]. }
  cbn [copy_strings length] in *. change (sizes (l :: ls)) with (size l + sizes ls) in *. pose proof (sizes_nonneg ls).
  assert (Hl : size l = Z.of_nat (length l) + 1) by done.
  rewrite (run_bind _ _ _ _ _ (run_load_word _ _)).
  destruct (Hp 0%nat l eq_refl) as [Hc Hu]. rewrite Z.add_0_r in Hc, Hu. unfold CopyInString.
  rewrite (uwrap_small 32 remaining) by lia.
  destruct (copyinstring_ok (Z.to_nat remaining) d (word_at (kmem (fmem s)) (vec + 4 * t)) s l Hc) as (m1 & E1 & C1 & O1); [lia|done|].
  rewrite (run_bind _ _ _ _ _ E1), bool_decide_false by (intros H'; by apply H'). set (s1 := s <| fmem := _ |>).
  rewrite (run_bind _ _ _ _ _ (run_store_word _ _ _)). change (kmem (fmem s1)) with m1. set (m2 := put_word (vec + 4 * t) d m1).
  set (s2 := s1 <| fmem := _ |>). rewrite (run_bind _ _ _ _ _ (run_gets _ _)). change (kmem (fmem s2)) with m2.
  assert (C2 : cstr m2 d l) by (apply (cstr_ext m1); [|done]; intros i Hi; apply put_word_ne; lia).
  rewrite (StrLen_ok _ _ _ l) by (done || lia). cbn [lift]. rewrite (run_bind _ _ _ _ _ (run_ret _ _)).
  unfold kload. rewrite (run_bind _ _ _ _ _ (run_gets _ _)). change (kmem (fmem s2)) with m2.
  assert (K2 : mem_bytes m2 d (Z.min (Z.of_nat (length l) + 1) PROC_BASENAME_SZ) = take (Z.to_nat PROC_BASENAME_SZ) (l ++ [0])).
  { rewrite <- (cstr_bytes m2 d l C2), mem_bytes_take by done. f_equal. lia. }
  rewrite K2.
  assert (O2 : forall a, ~ (vec + 4 * t <= a < vec + 4 * t + 4) -> ~ (d <= a < d + size l) -> m2 a = kmem (fmem s) a).
  { intros a Ha Hb. unfold m2. rewrite put_word_ne by done. apply O1. lia. }
  destruct (IH (t + 1) (d + (Z.of_nat (length l) + 1)) (remaining - (Z.of_nat (length l) + 1))
    (if named && bool_decide (t = 0) then Some (take (Z.to_nat PROC_BASENAME_SZ) (l ++ [0])) else name) s2) as (m3 & E3 & P3 & O3); [lia..| |].
  { intros i l' Hi. change (kmem (fmem s2)) with m2. rewrite (word_at_ext (kmem (fmem s))).
    - replace (t + 1 + Z.of_nat i) with (t + Z.of_nat (S i)) by lia. apply (Hp (S i) l' Hi).
    - intros j Hj. apply lookup_lt_Some in Hi. apply O2; lia. }
  exists m3. split; [|split].
  - etransitivity; [exact E3|]. f_equal. f_equal; [do 2 f_equal; lia|]. unfold first_name. rewrite (bool_decide_false (t + 1 = 0)) by lia.
    rewrite andb_false_r. by destruct ls.
  - split_and!.
    + rewrite (word_at_ext m2); [unfold m2; rewrite put_word_eq; by rewrite uwrap_small by lia|]. intros i Hi. apply O3; lia.
    + apply (cstr_ext m2); [|done]. intros i Hi. apply O3; lia.
    + exact P3.
  - intros a Ha Hb. rewrite O3 by lia. apply O2; lia.
Qed.

(** ** The arguments of a program *)

(** The vector at [vec] of a process has the strings [ls]. *)
Record has_vector (s : fs) (vec : Z) (ls : list (list Z)) : Prop := {
  hv_valid : forall a, vec <= a < vec + 4 * Z.of_nat (length ls) -> uvalid s a = true;
  hv_string : forall i l, ls !! i = Some l -> points_to s (word_at (umem s) (vec + 4 * Z.of_nat i)) l
}.

(** What a process passes to exec: [args] and [envs], which fit into the pool. *)
Record passes (s : fs) (pool _args : Z) (args envs : list (list Z)) : Prop := {
  ps_null : _args <> 0;
  ps_valid : forall a, _args <= a < _args + execargs_sz -> uvalid s a = true;
  ps_argc : argc (parse_execargs (mem_bytes (umem s) _args execargs_sz)) = Z.of_nat (length args);
  ps_argv : has_vector s (ea_argv (parse_execargs (mem_bytes (umem s) _args execargs_sz))) args;
  ps_envc : envc (parse_execargs (mem_bytes (umem s) _args execargs_sz)) = Z.of_nat (length envs);
  ps_envv : has_vector s (ea_envv (parse_execargs (mem_bytes (umem s) _args execargs_sz))) envs;
  ps_fit : 4 * (Z.of_nat (length args) + 1) + 4 * (Z.of_nat (length envs) + 1) + sizes args + sizes envs <= MAX_ARGS_SZ;
  ps_pool : 0 < pool /\ pool + MAX_ARGS_SZ < 2 ^ 31
}.

Definition env_vec (pool : Z) (args : list (list Z)) : Z := pool + 4 * (Z.of_nat (length args) + 1).
Definition table (pool : Z) (args envs : list (list Z)) : Z := env_vec pool args + 4 * (Z.of_nat (length envs) + 1).
Definition args_sz (args envs : list (list Z)) : Z :=
  4 * (Z.of_nat (length args) + 1) + 4 * (Z.of_nat (length envs) + 1) + sizes args + sizes envs.

(** The pool as copy_in_argv leaves it, the pointers moved by [f]. *)
Record in_pool (f : Z -> Z) (m : Z -> Z) (pool : Z) (args envs : list (list Z)) : Prop := {
  ip_argv : placed f m pool 0 (table pool args envs) args;
  ip_argv_end : word_at m (pool + 4 * Z.of_nat (length args)) = 0;
  ip_envv : placed f m (env_vec pool args) 0 (table pool args envs + sizes args) envs;
  ip_envv_end : word_at m (env_vec pool args + 4 * Z.of_nat (length envs)) = 0
}.

(** Entries copied from a process. *)
Lemma copied_points s m dst src n ls (i : nat) l :
  (forall a, dst <= a < dst + n -> m a = umem s (src + (a - dst))) ->
  n = 4 * Z.of_nat (length ls) -> has_vector s src ls -> ls !! i = Some l ->
  points_to s (word_at m (dst + 4 * Z.of_nat i)) l.
Proof.
  intros Hm -> [_ Hs] Hi. pose proof (Hs i l Hi) as H. apply lookup_lt_Some in Hi.
  replace (word_at m (dst + 4 * Z.of_nat i)) with (word_at (umem s) (src + 4 * Z.of_nat i)); [done|].
  unfold word_at. rewrite !Hm by lia. repeat (f_equal; try lia).
Qed.

(** The pool once the vectors are there. *)
Lemma copy_in_strings_ok pool a args envs s :
  let ev := env_vec pool args in let tb := table pool args envs in
  argc a = Z.of_nat (length args) -> envc a = Z.of_nat (length envs) ->
  args_sz args envs <= MAX_ARGS_SZ -> 0 < pool -> pool + MAX_ARGS_SZ < 2 ^ 31 ->
  (forall i l, args !! i = Some l -> points_to s (word_at (kmem (fmem s)) (pool + 4 * Z.of_nat i)) l) ->
  (forall i l, envs !! i = Some l -> points_to s (word_at (kmem (fmem s)) (ev + 4 * Z.of_nat i)) l) ->
  exists m, copy_in_strings pool pool ev tb a s =
      Ret (0, mkExecargs pool (Z.of_nat (length args)) ev (Z.of_nat (length envs)) (args_sz args envs), first_name true 0 args None)
        (s <| fmem := fmem s <| kmem := m |> |>) /\
    in_pool id m pool args envs /\ forall x, ~ (pool <= x < pool + args_sz args envs) -> m x = kmem (fmem s) x.
Proof.
  intros ev tb Ha He Hfit Hp0 Hp Hargs Henvs. unfold MAX_ARGS_SZ in *. pose proof (sizes_nonneg args). pose proof (sizes_nonneg envs).
  assert (Ev : ev = pool + 4 * (Z.of_nat (length args) + 1)) by done. assert (Et : tb = ev + 4 * (Z.of_nat (length envs) + 1)) by done.
  assert (Es : args_sz args envs = tb - pool + sizes args + sizes envs) by (unfold args_sz; lia).
  unfold copy_in_strings. unfold MAX_ARGS_SZ. cbv zeta. rewrite (swrap_small 32 (pool + 0x10000 - tb)) by lia. rewrite Ha, He, !Nat2Z.id.
  destruct (copy_strings_ok true args pool 0 tb (pool + 0x10000 - tb) None s) as (m1 & E1 & P1 & O1); [lia..|intros; rewrite Z.add_0_l; by apply Hargs|].
  rewrite (run_bind _ _ _ _ _ E1). set (s1 := s <| fmem := _ |>). cbv beta iota.
  rewrite (run_bind _ _ _ _ _ (run_store_word _ _ _)). change (kmem (fmem s1)) with m1. set (m2 := put_word _ 0 m1). set (s2 := s1 <| fmem := _ |>).
  destruct (copy_strings_ok false envs ev 0 (tb + sizes args) (pool + 0x10000 - tb - sizes args) (first_name true 0 args None) s2)
    as (m3 & E3 & P3 & O3); [lia..| |].
  { intros i l Hi. change (kmem (fmem s2)) with m2. rewrite Z.add_0_l, (word_at_ext (kmem (fmem s))); [by apply Henvs|].
    intros j Hj. apply lookup_lt_Some in Hi. unfold m2. rewrite put_word_ne by lia. apply O1; lia. }
  rewrite (run_bind _ _ _ _ _ E3). set (s3 := s2 <| fmem := _ |>). cbv beta iota.
  rewrite (run_bind _ _ _ _ _ (run_store_word _ _ _)). change (kmem (fmem s3)) with m3. set (m4 := put_word _ 0 m3).
  assert (F4 : forall j, ~ (ev <= j < tb) -> ~ (tb + sizes args <= j < tb + sizes args + sizes envs) -> m4 j = m2 j).
  { intros j Hj Hj'. unfold m4. rewrite put_word_ne by lia. apply O3; lia. }
  assert (F2 : forall j, ~ (ev - 4 <= j < ev) -> m2 j = m1 j) by (intros j Hj; apply put_word_ne; lia).
  exists m4. split; [|split; [split|]].
  - f_equal. f_equal; [|by destruct envs]. do 2 f_equal. rewrite uwrap_small; lia.
  - apply (placed_ext _ m1); [intros j Hj; rewrite F4, F2 by lia; done..|exact P1].
  - rewrite (word_at_ext m2) by (intros j Hj; apply F4; lia). apply put_word_eq.
  - apply (placed_ext _ m3); [intros j Hj; apply put_word_ne; lia..|exact P3].
  - apply put_word_eq.
  - intros x Hx. rewrite F4, F2 by lia. apply O1; lia.
Qed.

Lemma copy_in_argv_ok uargs pool _args args envs s :
  passes s pool _args args envs ->
  exists m, copy_in_argv uargs pool _args s =
      Ret (0, mkExecargs pool (Z.of_nat (length args)) (env_vec pool args) (Z.of_nat (length envs)) (args_sz args envs),
           first_name true 0 args None) (s <| fmem := fmem s <| kmem := m |> |>) /\
    in_pool id m pool args envs /\
    forall a, ~ (uargs <= a < uargs + execargs_sz) -> ~ (pool <= a < pool + args_sz args envs) -> m a = kmem (fmem s) a.
Proof.
  intros []. unfold MAX_ARGS_SZ in *. pose proof (sizes_nonneg args). pose proof (sizes_nonneg envs).
  unfold copy_in_argv. rewrite bool_decide_false by done.
  destruct (CopyIn_ok uargs _args execargs_sz s ltac:(done) ps_valid0) as (m0 & E0 & B0 & M0).
  rewrite (run_bind _ _ _ _ _ E0), bool_decide_false by (intros H'; by apply H'). set (s0 := s <| fmem := _ |>).
  unfold kload. rewrite (run_bind _ _ _ _ _ (run_gets _ _)). change (kmem (fmem s0)) with m0. rewrite B0.
  set (a := parse_execargs (mem_bytes (umem s) _args execargs_sz)) in *. cbv zeta. rewrite ps_argc0, ps_envc0.
  rewrite (uwrap_small 32 ((Z.of_nat (length args) + 1) * 4)), (uwrap_small 32 ((Z.of_nat (length envs) + 1) * 4)),
    (uwrap_small 32 (Z.of_nat (length args) * 4)), (uwrap_small 32 (Z.of_nat (length envs) * 4)) by lia.
  replace (u32 (pool + (Z.of_nat (length args) + 1) * 4)) with (env_vec pool args) by (unfold env_vec; rewrite uwrap_small; lia).
  replace (u32 (env_vec pool args + (Z.of_nat (length envs) + 1) * 4)) with (table pool args envs)
    by (unfold table, env_vec; rewrite uwrap_small; lia).
  destruct (CopyIn_ok pool (ea_argv a) (Z.of_nat (length args) * 4) s0 ltac:(lia)) as (m1 & E1 & _ & M1);
    [intros x Hx; apply (hv_valid _ _ _ ps_argv0); lia|].
  rewrite (run_bind _ _ _ _ _ E1), bool_decide_false by (intros H'; by apply H'). set (s1 := s0 <| fmem := _ |>).
  destruct (CopyIn_ok (env_vec pool args) (ea_envv a) (Z.of_nat (length envs) * 4) s1 ltac:(lia)) as (m2 & E2 & _ & M2);
    [intros x Hx; apply (hv_valid _ _ _ ps_envv0); lia|].
  rewrite (run_bind _ _ _ _ _ E2), bool_decide_false by (intros H'; by apply H'). set (s2 := s1 <| fmem := _ |>).
  assert (Hev : env_vec pool args = pool + 4 * (Z.of_nat (length args) + 1)) by done.
  destruct (copy_in_strings_ok pool a args envs s2 ps_argc0 ps_envc0) as (m3 & E3 & I3 & O3); [done|lia|unfold MAX_ARGS_SZ; lia|..].
  - intros i l Hi. change (kmem (fmem s2)) with m2. rewrite (word_at_ext m1).
    + apply (copied_points s m1 pool (ea_argv a) (Z.of_nat (length args) * 4) args i l); [|lia|done|done].
      intros x Hx. by rewrite M1, bool_decide_true.
    + intros j Hj. apply lookup_lt_Some in Hi. rewrite M2, bool_decide_false by lia. done.
  - intros i l Hi. apply (copied_points s m2 _ (ea_envv a) (Z.of_nat (length envs) * 4) envs i l); [|lia|done|done].
    intros x Hx. by rewrite M2, bool_decide_true.
  - exists m3. split; [exact E3|]. split; [exact I3|]. intros x Hu Hx. rewrite O3 by done. change (kmem (fmem s2) x) with (m2 x).
    unfold args_sz in Hx. rewrite M2, bool_decide_false by lia. change (kmem (fmem s1) x) with (m1 x).
    rewrite M1, bool_decide_false by lia. change (kmem (fmem s0) x) with (m0 x). by rewrite M0, bool_decide_false.
Qed.

Lemma relocate_ok ls vec t d diff s :
  vec + 4 * (t + Z.of_nat (length ls)) <= d -> placed id (kmem (fmem s)) vec t d ls ->
  exists m, relocate (length ls) vec t diff s = Ret () (s <| fmem := fmem s <| kmem := m |> |>) /\
    placed (fun p => u32 (p - diff)) m vec t d ls /\
    forall a, ~ (vec + 4 * t <= a < vec + 4 * (t + Z.of_nat (length ls))) -> m a = kmem (fmem s) a.
Proof.
  revert t d s. induction ls as [|l ls IH]; intros t d s Hvd; cbn [relocate placed length] in *.
  { intros _. exists (kmem (fmem s)). split; [by destruct s as [[]]|done]. }
  intros (E & C & P). assert (Hl : size l = Z.of_nat (length l) + 1) by done. pose proof (sizes_nonneg ls).
  rewrite (run_bind _ _ _ _ _ (run_load_word _ _)), (run_bind _ _ _ _ _ (run_store_word _ _ _)), E.
  set (m1 := put_word _ _ _). set (s1 := s <| fmem := _ |>).
  destruct (IH (t + 1) (d + size l) s1) as (m2 & E2 & P2 & O2); [lia| |].
  { apply (placed_ext _ (kmem (fmem s))); [intros i Hi; apply put_word_ne; lia..|exact P]. }
  exists m2. split; [exact E2|]. split; [split_and!|].
  - rewrite (word_at_ext m1) by (intros i Hi; apply O2; lia). apply put_word_eq.
  - apply (cstr_ext (kmem (fmem s))); [|done]. intros i Hi. rewrite O2 by lia. apply put_word_ne. lia.
  - exact P2.
  - intros a Ha. rewrite O2 by lia. apply put_word_ne. lia.
Qed.

(** The same strings at other addresses. *)
Lemma cstr_shift m m' a l delta :
  (forall i, a <= i <= a + Z.of_nat (length l) -> m' (i + delta) = m i) -> cstr m a l -> cstr m' (a + delta) l.
Proof.
  revert a. induction l as [|c l IH]; intros a H; cbn [cstr length] in *; [by rewrite H by lia|].
  intros (Hc & E & C). split_and!; [done|by rewrite H by lia|]. replace (a + delta + 1) with (a + 1 + delta) by lia.
  apply IH; [|done]. intros i Hi. apply H. lia.
Qed.

Lemma placed_shift f m m' vec t d ls delta :
  (forall i, vec + 4 * t <= i < vec + 4 * (t + Z.of_nat (length ls)) -> m' (i + delta) = m i) ->
  (forall i, d <= i < d + sizes ls -> m' (i + delta) = m i /\ f i = i + delta) -> placed f m vec t d ls ->
  placed id m' (vec + delta) t (d + delta) ls.
Proof.
  revert t d. induction ls as [|l ls IH]; intros t d Hv Hd; [done|]. cbn [placed length] in *.
  change (sizes (l :: ls)) with (size l + sizes ls) in Hd. intros (E & C & P). pose proof (sizes_nonneg ls).
  assert (Hl : size l = Z.of_nat (length l) + 1) by done. split_and!.
  - replace (vec + delta + 4 * t) with (vec + 4 * t + delta) by lia. rewrite (word_at_shift m) by (intros i Hi; apply Hv; lia).
    rewrite E. destruct (Hd d) as [_ ->]; [lia|done].
  - apply (cstr_shift m); [|done]. intros i Hi. apply Hd. lia.
  - replace (d + delta + size l) with (d + size l + delta) by lia.
    apply IH; [intros i Hi; apply Hv; lia|intros i Hi; apply Hd; lia|done].
Qed.

(** The vector at [vec] has the strings [ls], between [lo] and [hi], and ends with
    NULL. *)
Definition vector_at (m : Z -> Z) (vec lo hi : Z) (ls : list (list Z)) : Prop :=
  (forall i l, ls !! i = Some l ->
     let p := word_at m (vec + 4 * Z.of_nat i) in lo <= p /\ p + Z.of_nat (length l) < hi /\ cstr m p l) /\
  word_at m (vec + 4 * Z.of_nat (length ls)) = 0.

Lemma placed_vector m vec t d lo hi ls (i : nat) l :
  placed id m vec t d ls -> lo <= d -> d + sizes ls <= hi -> ls !! i = Some l ->
  let p := word_at m (vec + 4 * (t + Z.of_nat i)) in lo <= p /\ p + Z.of_nat (length l) < hi /\ cstr m p l.
Proof.
  revert t d i. induction ls as [|l' ls IH]; intros t d i; [done|]. cbn [placed].
  change (sizes (l' :: ls)) with (size l' + sizes ls). intros (E & C & P) Hlo Hhi. pose proof (sizes_nonneg ls).
  assert (Hl : size l' = Z.of_nat (length l') + 1) by done. destruct i as [|i]; cbn.
  - intros [= ->]. rewrite Z.add_0_r, E. split_and!; [done|unfold id; lia|done].
  - intros Hi. replace (t + Z.of_nat (S i)) with (t + 1 + Z.of_nat i) by lia.
    apply (IH (t + 1) (d + size l') i P); [lia|lia|exact Hi].
Qed.

(** copy_out_argv moves the pool to the end of the stack. *)
Lemma copy_out_argv_ok pool stack_base stack_size args envs s :
  let n := args_sz args envs in let base := stack_base + stack_size - ALIGN_UP n 16 in
  in_pool id (kmem (fmem s)) pool args envs -> n <= MAX_ARGS_SZ -> 0 < pool -> pool + MAX_ARGS_SZ < 2 ^ 31 ->
  0 < base -> stack_base + stack_size < 2 ^ 31 -> (forall a, base <= a < base + n -> uvalid s a = true) ->
  exists s', copy_out_argv pool stack_base stack_size
      (mkExecargs pool (Z.of_nat (length args)) (env_vec pool args) (Z.of_nat (length envs)) n) s =
      Ret (mkExecargs base (Z.of_nat (length args)) (env_vec base args) (Z.of_nat (length envs)) n) s' /\
    vector_at (umem s') base base (base + n) args /\ vector_at (umem s') (env_vec base args) base (base + n) envs /\
    forall a, ~ (base <= a < base + n) -> umem s' a = umem s a.
Proof.
  intros n base [] Hn Hp0 Hp Hb Ht Hv. unfold MAX_ARGS_SZ in *. pose proof (sizes_nonneg args). pose proof (sizes_nonneg envs).
  assert (En : n = 4 * (Z.of_nat (length args) + 1) + 4 * (Z.of_nat (length envs) + 1) + sizes args + sizes envs) by done.
  assert (Ev : env_vec pool args = pool + 4 * (Z.of_nat (length args) + 1)) by done.
  assert (Et : table pool args envs = env_vec pool args + 4 * (Z.of_nat (length envs) + 1)) by done.
  destruct (align_up_ok n 16) as [Hal _]; [lia..|]. fold n in Hal.
  unfold copy_out_argv. cbn [total_size argc envc ea_argv ea_envv]. fold n. fold base. rewrite (uwrap_small 32 base) by lia.
  set (diff := u32 (pool - base)). rewrite !Nat2Z.id.
  assert (Hd : forall x, pool <= x < pool + n -> u32 (x - diff) = x + (base - pool)).
  { intros x Hx. unfold diff, u32, uwrap. rewrite Zminus_mod_idemp_r. rewrite Z.mod_small; lia. }
  destruct (relocate_ok args pool 0 (table pool args envs) diff s) as (m1 & E1 & P1 & O1); [lia|done|].
  rewrite (run_bind _ _ _ _ _ E1). set (s1 := s <| fmem := _ |>).
  destruct (relocate_ok envs (env_vec pool args) 0 (table pool args envs + sizes args) diff s1) as (m2 & E2 & P2 & O2); [lia| |].
  { apply (placed_ext _ (kmem (fmem s))); [intros i Hi; apply O1; lia..|done]. }
  rewrite (run_bind _ _ _ _ _ E2). set (s2 := s1 <| fmem := _ |>).
  destruct (copyout_ok (Z.to_nat n) base pool s2) as (u & E3 & Hu); [intros a Ha; apply Hv; lia|].
  unfold CopyOut. rewrite (run_bind _ _ _ _ _ E3). change (kmem (fmem s2)) with m2 in Hu. change (kmem (fmem s1)) with m1 in O2.
  assert (Sh : forall i, pool <= i < pool + n -> u (i + (base - pool)) = m2 i).
  { intros i Hi. rewrite Hu, bool_decide_true by lia. f_equal. lia. }
  eexists. split; [|split; [split|split; [split|]]].
  - unfold mret, M_ret. do 2 f_equal; [rewrite (Hd pool) by lia; lia|]. rewrite (Hd (env_vec pool args)) by lia. unfold env_vec. lia.
  - intros i l Hi. cbn [umem update_field]. pose proof (placed_shift (fun p => u32 (p - diff)) m2 u pool 0 (table pool args envs) args (base - pool)) as Pa.
    apply (placed_vector u base 0 (table pool args envs + (base - pool)) _ _ args i l); [|lia|lia|done].
    replace base with (pool + (base - pool)) at 1 by lia. apply Pa.
    + intros j Hj. apply Sh. lia.
    + intros j Hj. split; [apply Sh; lia|]. apply Hd. lia.
    + apply (placed_ext _ m1); [intros j Hj; apply O2; lia..|exact P1].
  - cbn [umem update_field]. replace (base + 4 * Z.of_nat (length args)) with (pool + 4 * Z.of_nat (length args) + (base - pool)) by lia.
    rewrite (word_at_shift m2) by (intros j Hj; apply Sh; lia). rewrite (word_at_ext (kmem (fmem s))); [done|].
    intros j Hj. rewrite O2, O1 by lia. done.
  - intros i l Hi. cbn [umem update_field].
    pose proof (placed_shift (fun p => u32 (p - diff)) m2 u (env_vec pool args) 0 (table pool args envs + sizes args) envs (base - pool)) as Pe.
    apply (placed_vector u (env_vec base args) 0 (table pool args envs + sizes args + (base - pool)) _ _ envs i l); [|lia|lia|done].
    replace (env_vec base args) with (env_vec pool args + (base - pool)) by (unfold env_vec; lia). apply Pe; [|intros j Hj; split|exact P2].
    + intros j Hj. apply Sh. lia.
    + apply Sh. lia.
    + apply Hd. lia.
  - cbn [umem update_field]. replace (env_vec base args + 4 * Z.of_nat (length envs)) with (env_vec pool args + 4 * Z.of_nat (length envs) + (base - pool))
      by (unfold env_vec; lia). rewrite (word_at_shift m2) by (intros j Hj; apply Sh; lia).
    rewrite (word_at_ext (kmem (fmem s))); [done|]. intros j Hj. rewrite O2, O1 by lia. done.
  - intros a Ha. cbn. rewrite Hu, bool_decide_false by lia. done.
Qed.

(** ** The properties *)

(** C19. The arguments of a program survive exec.  When a process passes
    arguments and an environment that fit into the pool, copy_in_argv takes them
    over, with the name of the program; whatever happens to the address space
    and the rest of memory in between, copy_out_argv then puts them at the end of
    the new stack: the vectors it hands to the program have pointers into that
    part of the stack, in order, to the same strings, and end with NULL, and no
    other byte of the process changes. *)
Theorem exec_args_roundtrip uargs pool _args args envs s :
  passes s pool _args args envs ->
  exists a m, copy_in_argv uargs pool _args s = Ret (0, a, first_name true 0 args None) (s <| fmem := fmem s <| kmem := m |> |>) /\
    forall s2 stack_base stack_size,
      let n := args_sz args envs in let base := stack_base + stack_size - ALIGN_UP n 16 in
      (forall x, pool <= x < pool + n -> kmem (fmem s2) x = m x) -> 0 < base -> stack_base + stack_size < 2 ^ 31 ->
      (forall x, base <= x < base + n -> uvalid s2 x = true) ->
      exists a' s', copy_out_argv pool stack_base stack_size a s2 = Ret a' s' /\
        argc a' = Z.of_nat (length args) /\ envc a' = Z.of_nat (length envs) /\
        vector_at (umem s') (ea_argv a') base (base + n) args /\ vector_at (umem s') (ea_envv a') base (base + n) envs /\
        forall x, ~ (base <= x < base + n) -> umem s' x = umem s2 x.
Proof.
  intros P. destruct (copy_in_argv_ok uargs pool _args args envs s P) as (m & E & [I1 I2 I3 I4] & _). destruct P.
  pose proof (sizes_nonneg args). pose proof (sizes_nonneg envs).
  eexists _, m. split; [exact E|]. intros s2 stack_base stack_size n base Hk Hb Ht Hv.
  assert (En : n = 4 * (Z.of_nat (length args) + 1) + 4 * (Z.of_nat (length envs) + 1) + sizes args + sizes envs) by done.
  assert (Ev : env_vec pool args = pool + 4 * (Z.of_nat (length args) + 1)) by done.
  assert (Et : table pool args envs = env_vec pool args + 4 * (Z.of_nat (length envs) + 1)) by done.
  destruct (copy_out_argv_ok pool stack_base stack_size args envs s2) as (s' & E' & V1 & V2 & O); try done; [|lia..|].
  - split; [apply (placed_ext _ m); [intros i Hi; apply Hk; lia..|done]| |apply (placed_ext _ m); [intros i Hi; apply Hk; lia..|done]|].
    + rewrite (word_at_ext m) by (intros i Hi; apply Hk; lia). done.
    + rewrite (word_at_ext m) by (intros i Hi; apply Hk; lia). done.
  - eexists _, s'. split; [exact E'|]. done.
Qed.

(** The number of arguments is not checked: a vector of more than MAX_ARGS_SZ
    bytes is copied over the memory of the kernel after the pool. *)
Theorem argv_overruns_pool uargs pool _args s :
  let a := parse_execargs (mem_bytes (umem s) _args execargs_sz) in
  _args <> 0 -> (forall x, _args <= x < _args + execargs_sz -> uvalid s x = true) ->
  MAX_ARGS_SZ < 4 * argc a < 2 ^ 31 -> (forall x, ea_argv a <= x < ea_argv a + 4 * argc a -> uvalid s x = true) ->
  0 < envc a < 2 ^ 29 -> uvalid s (ea_envv a) = false ->
  exists s', copy_in_argv uargs pool _args s = Ret (- EFAULT, no_args, None) s' /\
    kmem (fmem s') (pool + MAX_ARGS_SZ) = umem s (ea_argv a + MAX_ARGS_SZ).
Proof.
  intros a H0 Hv Hc Ha He Hf. unfold copy_in_argv. rewrite bool_decide_false by done.
  destruct (CopyIn_ok uargs _args execargs_sz s ltac:(done) Hv) as (m0 & E0 & B0 & M0).
  rewrite (run_bind _ _ _ _ _ E0), bool_decide_false by (intros H'; by apply H'). set (s0 := s <| fmem := _ |>).
  unfold kload. rewrite (run_bind _ _ _ _ _ (run_gets _ _)). change (kmem (fmem s0)) with m0. rewrite B0. fold a. cbv zeta.
  rewrite (uwrap_small 32 (argc a * 4)), (uwrap_small 32 (envc a * 4)) by (unfold MAX_ARGS_SZ in *; lia).
  destruct (CopyIn_ok pool (ea_argv a) (argc a * 4) s0) as (m1 & E1 & _ & M1);
    [unfold MAX_ARGS_SZ in *; lia|intros x Hx; apply Ha; lia|].
  rewrite (run_bind _ _ _ _ _ E1), bool_decide_false by (intros H'; by apply H'). set (s1 := s0 <| fmem := _ |>).
  set (ev := u32 (pool + _)).
  assert (E2 : CopyIn ev (ea_envv a) (envc a * 4) s1 = Ret (-1) s1).
  { unfold CopyIn. replace (Z.to_nat (envc a * 4)) with (S (Z.to_nat (envc a * 4 - 1))) by lia. cbn [copyin_loop].
    rewrite (run_bind _ _ _ _ _ (run_gets _ _)). change (uvalid s1) with (uvalid s). by rewrite Hf. }
  rewrite (run_bind _ _ _ _ _ E2). rewrite bool_decide_true by done. exists s1. split; [done|].
  change (kmem (fmem s1)) with m1. unfold MAX_ARGS_SZ in *. rewrite M1, bool_decide_true by lia. change (umem s0) with (umem s). f_equal. lia.
Qed.

(** ** Witnesses *)

(** A process that passes the argument ls and an environment of X=1. *)
Definition fs_exec : fs := fs0 <| umem := put_bytes 100
  ([132; 0; 0; 0; 1; 0; 0; 0; 136; 0; 0; 0; 1; 0; 0; 0; 0; 0; 0; 0; 0; 0; 0; 0; 0; 0; 0; 0; 0; 0; 0; 0] ++
   [144; 0; 0; 0; 152; 0; 0; 0; 0; 0; 0; 0; 108; 115; 0; 0; 0; 0; 0; 0; 88; 61; 49; 0]) (fun _ => 0) |>.

Lemma fs_exec_passes : passes fs_exec 0x5000 100 [[108; 115]] [[88; 61; 49]].
Proof.
  split; try reflexivity; try (intros H; discriminate H).
  - split; [reflexivity|]. intros [|i] l Hi; [|by rewrite lookup_cons_ne_0, lookup_nil in Hi by done]. injection Hi as <-.
    split; [|reflexivity]. vm_compute. split_and!; (reflexivity || discriminate).
  - split; [reflexivity|]. intros [|i] l Hi; [|by rewrite lookup_cons_ne_0, lookup_nil in Hi by done]. injection Hi as <-.
    split; [|reflexivity]. vm_compute. split_and!; (reflexivity || discriminate).
  - split; reflexivity.
Qed.

Lemma exec_args_roundtrip_witness :
  exists a s1 a' s', copy_in_argv 0x4000 0x5000 100 fs_exec = Ret (0, a, Some [108; 115; 0]) s1 /\
    copy_out_argv 0x5000 0x30000000 USER_STACK_SZ a s1 = Ret a' s' /\
    argc a' = 1 /\ umem s' (word_at (umem s') (ea_argv a')) = 108 /\ umem s' (word_at (umem s') (ea_envv a')) = 88.
Proof.
  destruct (exec_args_roundtrip 0x4000 0x5000 100 [[108; 115]] [[88; 61; 49]] fs_exec fs_exec_passes) as (a & m & E & H).
  destruct (H (fs_exec <| fmem := fmem fs_exec <| kmem := m |> |>) 0x30000000 USER_STACK_SZ) as (a' & s' & E' & Hc & _ & V1 & V2 & _).
  - reflexivity.
  - reflexivity.
  - reflexivity.
  - reflexivity.
  - exists a, (fs_exec <| fmem := fmem fs_exec <| kmem := m |> |>), a', s'. split; [exact E|]. split; [exact E'|]. split; [exact Hc|].
    destruct V1 as [V1 _]. destruct V2 as [V2 _]. destruct (V1 0%nat _ eq_refl) as (_ & _ & C1). destruct (V2 0%nat _ eq_refl) as (_ & _ & C2).
    rewrite Z.add_0_r in C1, C2. split; [apply C1|apply C2].
Defined.
