(* ===== verification/Blockcache.v ===== *)
(** * The block cache of the file systems: lib/libblockdev

    The file system servers read and write their device through a cache of
    blocks.  A buffer is on the free list, or it is hashed by its block number;
    released buffers are put on a least recently used list, from which they are
    taken when the free list is empty.

    [Libblockdev] is block_cache.c over the pointers of that list, since
    [get_block] leaves a buffer it finds on the list and [put_block] appends it
    once more: from then on the list is no list any more (see the last section).
    [BlockCache] is what a server calls and [BlockCacheOk] what it may rely on: a
    block read shows what was last stored into it, and what was marked dirty is
    on the device once the block is put.  The cache keeps that promise for a
    device of at most as many blocks as it has buffers ([libblockdev_ok]). *)

From stdpp Require Import list_numbers.
From S2P Require Import Prelude Bytes Lists.
Import Intrusive.

(** ** The interface *)

Definition BLK_READ := 0.
Definition BLK_NO_READ := 1.
Definition BLK_CLEAR := 2.

(** The operations, on a cache of type [C]: buffers are pointers, and [None] is
    the end of the program by a panic or a failed assertion.  [bdata] and
    [bstore] read and write the data of a buffer. *)
Class BlockCache (C : Type) := {
  bget : Z -> Z -> C -> option (Z * C);
  bput : Z -> C -> option C;
  binvalidate : Z -> C -> option C;
  bmarkdirty : Z -> C -> C;
  bdata : C -> Z -> Z -> Z;
  bstore : Z -> Z -> list Z -> C -> C
}.

(** What a server may rely on, for the blocks [0 .. n - 1] of [bs] bytes.
    [bview] is what a block shows, [bdisk] what the device has, [bholds c p b]
    says that the buffer [p] is the one of block [b]. *)
Class BlockCacheOk (C : Type) `{BlockCache C} := {
  bok : Z -> Z -> C -> Prop;
  bview : C -> Z -> Z -> Z;
  bdisk : C -> Z -> Z -> Z;
  bcached : C -> Z -> bool;
  bholds : C -> Z -> Z -> Prop;
  bdirty : C -> Z -> bool;
  bvalid : C -> Z -> bool;
  bget_ok bs n c b opt : bok bs n c -> 0 <= b < n -> opt = BLK_READ \/ opt = BLK_CLEAR ->
    exists p c', bget b opt c = Some (p, c') /\ bok bs n c' /\ bholds c' p b /\
      (forall q x, bholds c q x -> bholds c' q x /\ bdirty c' q = bdirty c q) /\
      (forall x i, 0 <= x < n -> 0 <= i < bs ->
        bview c' x i = if bool_decide (x = b) && bool_decide (opt = BLK_CLEAR) && negb (bcached c b) then 0 else bview c x i) /\
      (forall x i, bdisk c' x i = bdisk c x i) /\
      (forall x, bcached c' x = bool_decide (x = b) || bcached c x) /\
      (forall x, bvalid c' x = if bool_decide (x = b) && negb (bcached c b) then bool_decide (opt = BLK_READ) else bvalid c x);
  bdata_ok bs n c p b i : bok bs n c -> bholds c p b -> 0 <= i < bs -> bdata c p i = bview c b i;
  bholds_ok bs n c p b : bok bs n c -> bholds c p b -> 0 <= b < n /\ bcached c b = true;
  bstore_ok bs n c p b off l : bok bs n c -> bholds c p b ->
    let c' := bstore p off l c in
    bok bs n c' /\
    (forall q x, bholds c q x -> bholds c' q x /\ bdirty c' q = bdirty c q) /\
    (forall x i, bview c' x i = if bool_decide (x = b) then put_bytes off l (bview c b) i else bview c x i) /\
    (forall x i, bdisk c' x i = bdisk c x i) /\
    (forall x, bcached c' x = bcached c x /\ bvalid c' x = bvalid c x);
  bmarkdirty_ok bs n c p b : bok bs n c -> bholds c p b ->
    let c' := bmarkdirty p c in
    bok bs n c' /\ bdirty c' p = true /\
    (forall q x, bholds c q x -> bholds c' q x /\ (q <> p -> bdirty c' q = bdirty c q)) /\
    (forall x i, bview c' x i = bview c x i /\ bdisk c' x i = bdisk c x i) /\
    (forall x, bcached c' x = bcached c x /\ bvalid c' x = bvalid c x);
  bput_ok bs n c p b : bok bs n c -> bholds c p b ->
    exists c', bput p c = Some c' /\ bok bs n c' /\
      (forall q x, bholds c q x -> bholds c' q x /\ (q <> p -> bdirty c' q = bdirty c q)) /\
      (forall x i, 0 <= i < bs -> bview c' x i = bview c x i) /\
      (forall x i, 0 <= i < bs -> bdisk c' x i = if bool_decide (x = b) && bdirty c p then bview c b i else bdisk c x i) /\
      (forall x, bcached c' x = bcached c x /\ bvalid c' x = bvalid c x);
  binvalidate_ok bs n c b : bok bs n c -> 0 <= b < n -> bcached c b = false \/ bvalid c b = true ->
    exists c', binvalidate b c = Some c' /\ bok bs n c' /\
      (forall q x, x <> b -> bholds c q x -> bholds c' q x /\ bdirty c' q = bdirty c q) /\
      (forall x i, bview c' x i = if bool_decide (x = b) then bdisk c b i else bview c x i) /\
      (forall x i, bdisk c' x i = bdisk c x i) /\
      (forall x, bcached c' x = bcached c x && negb (bool_decide (x = b)) /\ (x <> b -> bvalid c' x = bvalid c x))
}.

(** ** block_cache.c *)

Module Libblockdev.

Definition BUF_HASH_CNT := 128.

Record buf := mkBuf { block : Z; in_use : bool; valid : bool; dirty : bool }.
#[export] Instance rebuild_buf : Rebuild buf := fun r => mkBuf (block r) (in_use r) (valid r) (dirty r).

(** The cache, with the device it reads and writes: [dev_sz] bytes [dev]. *)
Record block_cache := mkCache {
  block_size : Z;
  buf_cnt : Z;
  buf_table : Z -> buf;
  pool : Z -> Z -> Z;          (* the data of each buffer *)
  free_list : list Z;
  lru_list : lists Z;
  hash_list : Z -> list Z;
  dev : Z -> Z;
  dev_sz : Z
}.
#[export] Instance rebuild_cache : Rebuild block_cache := fun r => mkCache (block_size r) (buf_cnt r) (buf_table r)
  (pool r) (free_list r) (lru_list r) (hash_list r) (dev r) (dev_sz r).

Definition upd_buf (p : Z) (f : buf -> buf) (c : block_cache) : block_cache :=
  c <| buf_table := <[p := f (buf_table c p)]> (buf_table c) |>.

(** The memory from [malloc] and [virtualalloc] is given by the pointers they
    answer.  The outer [None] is the panic, the inner one the answer NULL. *)
Definition init_block_cache (mem table data : Z) (d : Z -> Z) (sz buf_cnt block_size : Z) :
    option (option block_cache) :=
  if bool_decide (buf_cnt = 0) || bool_decide (block_size < 512) then None
  else if bool_decide (mem = 0) || bool_decide (table = 0) || bool_decide (data = 0) then Some None
  else Some (Some (mkCache block_size buf_cnt (fun _ => mkBuf 0 true false false) (fun _ _ => 0)
    (seqZ 0 buf_cnt) (LIST_INIT (Lists (Header None None) no_links)) (fun _ => []) d sz)).

(** [lseek64] and [read], [lseek64] and [write] of a block: transfers end at the
    end of the device. *)
Definition dev_read (c : block_cache) (b p : Z) : block_cache :=
  c <| pool := <[p := fun i => if bool_decide (0 <= i < block_size c) && bool_decide (b * block_size c + i < dev_sz c)
                               then dev c (b * block_size c + i) else pool c p i]> (pool c) |>.
Definition dev_write (c : block_cache) (b p : Z) : block_cache :=
  c <| dev := fun a => if bool_decide (b * block_size c <= a < b * block_size c + block_size c) && bool_decide (a < dev_sz c)
                       then pool c p (a - b * block_size c) else dev c a |>.

(** The words 0xdeadbeef. *)
Definition beef (c : block_cache) (p : Z) : block_cache :=
  c <| pool := <[p := fun i => if bool_decide (0 <= i < block_size c `div` 4 * 4)
                               then default 0 ([0xef; 0xbe; 0xad; 0xde] !! Z.to_nat (i `mod` 4)) else pool c p i]> (pool c) |>.

Definition find_buf (c : block_cache) (b : Z) : option Z :=
  List.find (fun p => bool_decide (block (buf_table c p) = b)) (hash_list c (b `mod` BUF_HASH_CNT)).

(** A buffer for a block that is not in the cache. *)
Definition take_buf (c : block_cache) : option (Z * block_cache) :=
  match free_list c with
  | p :: l => if valid (buf_table c p) then None else Some (p, c <| free_list := l |>)
  | [] =>
      p ← head (hdr (lru_list c));
      if negb (valid (buf_table c p)) || dirty (buf_table c p) then None
      else
        let h := block (buf_table c p) `mod` BUF_HASH_CNT in
        lru ← LIST_REM_HEAD (lru_list c);
        l ← Seq.rem_entry p (hash_list c h);
        Some (p, c <| lru_list := lru |> <| hash_list := <[h := l]> (hash_list c) |>)
  end.

Definition get_block (b opt : Z) (c : block_cache) : option (Z * block_cache) :=
  match find_buf c b with
  | Some p => Some (p, upd_buf p (fun x => x <| in_use := true |>) c)
  | None =>
      '(p, c) ← take_buf c;
      let c := upd_buf p (fun x => x <| block := b |> <| dirty := false |> <| in_use := true |>) c in
      let c := beef c p in
      let h := b `mod` BUF_HASH_CNT in
      let c := c <| hash_list := <[h := p :: hash_list c h]> (hash_list c) |> in
      if bool_decide (opt = BLK_READ) then
        Some (p, upd_buf p (fun x => x <| valid := true |>) (dev_read c b p))
      else if bool_decide (opt = BLK_NO_READ) then Some (p, c)
      else if bool_decide (opt = BLK_CLEAR) then
        Some (p, c <| pool := <[p := fun i => if bool_decide (0 <= i < block_size c) then 0 else pool c p i]> (pool c) |>)
      else None
  end.

Definition block_markdirty (p : Z) (c : block_cache) : block_cache := upd_buf p (fun x => x <| dirty := true |>) c.
Definition block_markclean (p : Z) (c : block_cache) : block_cache := upd_buf p (fun x => x <| dirty := false |>) c.
Definition block_isclean (p : Z) (c : block_cache) : bool := negb (dirty (buf_table c p)).

Definition put_block (p : Z) (c : block_cache) : block_cache :=
  let c := if block_isclean p c then c else dev_write c (block (buf_table c p)) p in
  let c := block_markclean p c in
  let c := c <| lru_list := LIST_ADD_TAIL p (lru_list c) |> in
  upd_buf p (fun x => x <| in_use := false |>) c.

Definition invalidate_block (b : Z) (c : block_cache) : option block_cache :=
  match find_buf c b with
  | Some p =>
      if valid (buf_table c p) then
        let h := b `mod` BUF_HASH_CNT in
        let c := c <| lru_list := LIST_REM_ENTRY p (lru_list c) |> in
        l ← Seq.rem_entry p (hash_list c h);
        let c := c <| hash_list := <[h := l]> (hash_list c) |> in
        fl ← Seq.add_tail p (free_list c);
        Some (upd_buf p (fun x => x <| dirty := false |> <| in_use := false |> <| valid := false |>) (c <| free_list := fl |>))
      else None
  | None => Some c
  end.

#[global] Instance libblockdev : BlockCache block_cache := {
  bget := get_block;
  bput p c := Some (put_block p c);
  binvalidate := invalidate_block;
  bmarkdirty := block_markdirty;
  bdata := pool;
  bstore p off l c := c <| pool := <[p := put_bytes off l (pool c p)]> (pool c) |>
}.

(** ** The cache of a device that fits into it *)

Definition hashed (c : block_cache) (p : Z) : Prop := p ∈ hash_list c (block (buf_table c p) `mod` BUF_HASH_CNT).

(** Buffers are free or hashed by their block, no block twice. *)
Record inv (bs n : Z) (c : block_cache) : Prop := {
  i_bs : block_size c = bs;
  i_pos : 0 < bs;
  i_n : n <= buf_cnt c;
  i_dev : n * bs <= dev_sz c;
  i_hash h p : p ∈ hash_list c h ->
    0 <= p < buf_cnt c /\ h = block (buf_table c p) `mod` BUF_HASH_CNT /\ 0 <= block (buf_table c p) < n;
  i_nodup h : NoDup (hash_list c h);
  i_inj p q : hashed c p -> hashed c q -> block (buf_table c p) = block (buf_table c q) -> p = q;
  i_free_nodup : NoDup (free_list c);
  i_free p : p ∈ free_list c -> 0 <= p < buf_cnt c /\ valid (buf_table c p) = false /\ ~ hashed c p;
  i_all p : 0 <= p < buf_cnt c -> p ∈ free_list c \/ hashed c p
}.

Lemma find_buf_Some bs n c b p : inv bs n c -> find_buf c b = Some p <-> hashed c p /\ block (buf_table c p) = b.
Proof.
  intros I. unfold find_buf. split.
  - intros [Hp Hb]%find_some. apply bool_decide_eq_true in Hb. split; [|done]. unfold hashed. rewrite Hb. by apply list_elem_of_In.
  - intros [Hp Hb]. destruct (List.find _ _) as [q|] eqn:F.
    + apply find_some in F as [Hq Eq]. apply bool_decide_eq_true in Eq. f_equal. apply (i_inj _ _ _ I); [|done|congruence].
      unfold hashed. rewrite Eq. by apply list_elem_of_In.
    + unfold hashed in Hp. rewrite Hb in Hp. apply list_elem_of_In in Hp. pose proof (find_none _ _ F p Hp) as E.
      cbv beta in E. by rewrite bool_decide_true in E.
Qed.

Lemma find_buf_None bs n c b : inv bs n c -> find_buf c b = None <-> (forall p, hashed c p -> block (buf_table c p) <> b).
Proof.
  intros I. split.
  - intros F p Hp Hb. assert (find_buf c b = Some p) by (by apply (find_buf_Some bs n)). congruence.
  - intros H. destruct (find_buf c b) as [p|] eqn:F; [|done]. apply (find_buf_Some bs n) in F as [Hp Hb]; [|done]. by destruct (H p).
Qed.

(** There is a free buffer for a block that is not cached. *)
Lemma free_buf bs n c b : inv bs n c -> 0 <= b < n -> find_buf c b = None -> exists p l, free_list c = p :: l.
Proof.
  intros I Hb F. destruct (free_list c) as [|p l] eqn:E; [exfalso|eauto].
  assert (A : forall p, 0 <= p < buf_cnt c -> hashed c p).
  { intros p Hp. destruct (i_all _ _ _ I p Hp) as [H|H]; [|done]. rewrite E in H. set_solver. }
  set (l := b :: map (fun p => block (buf_table c p)) (seqZ 0 (buf_cnt c))).
  assert (N : NoDup l).
  { apply NoDup_cons. split.
    - intros (p & Ep & Hp%elem_of_seqZ)%list_elem_of_fmap. by apply (proj1 (find_buf_None _ _ _ _ I) F p (A p ltac:(lia))).
    - apply NoDup_fmap_2_strong; [|apply NoDup_seqZ]. intros x y Hx%elem_of_seqZ Hy%elem_of_seqZ Exy.
      apply (i_inj _ _ _ I); [apply A; lia|apply A; lia|done]. }
  assert (S : l ⊆ seqZ 0 n).
  { intros x [->|(p & -> & Hp%elem_of_seqZ)%list_elem_of_fmap]%elem_of_cons; apply elem_of_seqZ; [lia|].
    destruct (i_hash _ _ _ I _ _ (A p ltac:(lia))) as (_ & _ & H). lia. }
  pose proof (submseteq_length _ _ (NoDup_submseteq _ _ N S)) as L. unfold l in L. cbn [length] in L.
  rewrite length_map, !length_seqZ in L. pose proof (i_n _ _ _ I). lia.
Qed.

(** Changes that move no buffer. *)
Record still (c c' : block_cache) : Prop := {
  st_bs : block_size c' = block_size c;
  st_cnt : buf_cnt c' = buf_cnt c;
  st_sz : dev_sz c' = dev_sz c;
  st_free : free_list c' = free_list c;
  st_hash : hash_list c' = hash_list c;
  st_block p : block (buf_table c' p) = block (buf_table c p);
  st_valid p : valid (buf_table c' p) = valid (buf_table c p)
}.

Lemma still_find c c' b : still c c' -> find_buf c' b = find_buf c b.
Proof.
  intros S. unfold find_buf. rewrite (st_hash _ _ S). induction (hash_list c _) as [|p l IH]; cbn; [done|].
  rewrite (st_block _ _ S), IH. done.
Qed.

Lemma still_hashed c c' p : still c c' -> hashed c' p <-> hashed c p.
Proof. intros S. unfold hashed. by rewrite (st_hash _ _ S), (st_block _ _ S). Qed.

Lemma still_inv bs n c c' : still c c' -> inv bs n c -> inv bs n c'.
Proof.
  intros S I. destruct S as [Sb Sc Sd Sf Sh Sk Sv] eqn:ES. clear ES. constructor.
  - rewrite Sb. apply I.
  - apply I.
  - rewrite Sc. apply I.
  - rewrite Sd. apply I.
  - intros h p. rewrite Sh, Sc, Sk. apply I.
  - intros h. rewrite Sh. apply I.
  - intros p q. rewrite !(still_hashed c c') by done. rewrite !Sk. apply I.
  - rewrite Sf. apply I.
  - intros p. rewrite Sf, Sc, Sv, (still_hashed c c') by done. apply I.
  - intros p. rewrite Sf, Sc, (still_hashed c c') by done. apply I.
Qed.

Lemma still_upd p f c : block (f (buf_table c p)) = block (buf_table c p) -> valid (f (buf_table c p)) = valid (buf_table c p) ->
  still c (upd_buf p f c).
Proof.
  intros Hb Hv. constructor; try reflexivity; intros q; unfold upd_buf; cbn; destruct (decide (q = p)) as [->|N];
    (rewrite store_eq || rewrite store_ne by done); done.
Qed.

Lemma upd_buf_flags p f c q : buf_table (upd_buf p f c) q = if bool_decide (q = p) then f (buf_table c p) else buf_table c q.
Proof. unfold upd_buf. cbn. case_bool_decide as E; [subst; apply store_eq|by apply store_ne]. Qed.

(** A block that is not cached is taken into the first free buffer. *)
Record loaded (b opt : Z) (c : block_cache) (p : Z) (c' : block_cache) : Prop := {
  ld_bs : block_size c' = block_size c;
  ld_cnt : buf_cnt c' = buf_cnt c;
  ld_sz : dev_sz c' = dev_sz c;
  ld_dev : dev c' = dev c;
  ld_free : free_list c = p :: free_list c';
  ld_hash h : hash_list c' h = if bool_decide (h = b `mod` BUF_HASH_CNT) then p :: hash_list c h else hash_list c h;
  ld_new : buf_table c' p = mkBuf b true (bool_decide (opt = BLK_READ)) false;
  ld_buf q : q <> p -> buf_table c' q = buf_table c q;
  ld_pool q : q <> p -> pool c' q = pool c q;
  ld_data i : 0 <= i < block_size c -> b * block_size c + i < dev_sz c ->
    pool c' p i = if bool_decide (opt = BLK_READ) then dev c (b * block_size c + i) else 0
}.

Lemma get_block_miss bs n c b opt : inv bs n c -> 0 <= b < n -> opt = BLK_READ \/ opt = BLK_CLEAR -> find_buf c b = None ->
  exists p c', get_block b opt c = Some (p, c') /\ loaded b opt c p c'.
Proof.
  intros I Hb Ho F. destruct (free_buf bs n c b I Hb F) as (p & l & E).
  assert (Hv : valid (buf_table c p) = false) by (apply (i_free _ _ _ I); rewrite E; by left).
  unfold get_block, take_buf. rewrite F, E, Hv. cbn [mbind option_bind].
  destruct Ho as [->| ->].
  - rewrite bool_decide_true by done. eexists _, _. split; [done|]. constructor; try reflexivity; cbn.
    + exact E.
    + intros h. case_bool_decide as H; [subst; apply store_eq|by apply store_ne].
    + rewrite !store_eq. cbn. done.
    + intros q Hq. by rewrite !store_ne.
    + intros q Hq. by rewrite !store_ne.
    + intros i Hi Hd. rewrite store_eq, !bool_decide_true by done. done.
  - rewrite (bool_decide_false (BLK_CLEAR = BLK_READ)), (bool_decide_false (BLK_CLEAR = BLK_NO_READ)), bool_decide_true by done.
    eexists _, _. split; [done|]. constructor; try reflexivity; cbn.
    + exact E.
    + intros h. case_bool_decide as H; [subst; apply store_eq|by apply store_ne].
    + rewrite !store_eq. cbn. by rewrite Hv.
    + intros q Hq. by rewrite !store_ne.
    + intros q Hq. by rewrite !store_ne.
    + intros i Hi Hd. rewrite store_eq, !bool_decide_true by done. done.
Qed.

Section loaded.
Context (bs n : Z) (c : block_cache) (b opt p : Z) (c' : block_cache).
Context (I : inv bs n c) (Hb : 0 <= b < n) (F : find_buf c b = None) (L : loaded b opt c p c').

Lemma loaded_free : 0 <= p < buf_cnt c /\ ~ hashed c p.
Proof. destruct (i_free _ _ _ I p) as (H & _ & N); [rewrite (ld_free _ _ _ _ _ L); by left|done]. Qed.

Lemma loaded_hashed q : hashed c' q <-> q = p \/ hashed c q.
Proof.
  unfold hashed. destruct (decide (q = p)) as [->|N].
  - split; [by left|intros _]. rewrite (ld_new _ _ _ _ _ L). cbn [block]. rewrite (ld_hash _ _ _ _ _ L), bool_decide_true by done. by left.
  - rewrite (ld_buf _ _ _ _ _ L q N), (ld_hash _ _ _ _ _ L). case_bool_decide as E; [|tauto].
    rewrite elem_of_cons. tauto.
Qed.

Lemma loaded_block q : block (buf_table c' q) = if bool_decide (q = p) then b else block (buf_table c q).
Proof. case_bool_decide as E; [subst; by rewrite (ld_new _ _ _ _ _ L)|by rewrite (ld_buf _ _ _ _ _ L)]. Qed.

Lemma loaded_inv : inv bs n c'.
Proof.
  destruct loaded_free as [Hp Np]. pose proof (proj1 (find_buf_None _ _ _ _ I) F) as Fn.
  pose proof (i_free_nodup _ _ _ I) as Nd. rewrite (ld_free _ _ _ _ _ L) in Nd. apply NoDup_cons in Nd as [Nf Nd].
  constructor.
  - rewrite (ld_bs _ _ _ _ _ L). apply I.
  - apply I.
  - rewrite (ld_cnt _ _ _ _ _ L). apply I.
  - rewrite (ld_sz _ _ _ _ _ L). apply I.
  - intros h q Hq. rewrite (ld_cnt _ _ _ _ _ L), loaded_block. rewrite (ld_hash _ _ _ _ _ L) in Hq.
    destruct (decide (q = p)) as [->|E].
    + rewrite (bool_decide_true (p = p)) by done. split_and!; try lia. case_bool_decide as Eh; [done|].
      destruct (i_hash _ _ _ I _ _ Hq) as (_ & Eq & _). destruct Np. unfold hashed. by rewrite <- Eq.
    + rewrite (bool_decide_false (q = p)) by done. apply (i_hash _ _ _ I). case_bool_decide; [|done].
      by apply elem_of_cons in Hq as [?|?].
  - intros h. rewrite (ld_hash _ _ _ _ _ L). case_bool_decide as Eh; [|apply I]. apply NoDup_cons. split; [|apply I].
    intros Hq. destruct (i_hash _ _ _ I _ _ Hq) as (_ & Eq & _). destruct Np. unfold hashed. by rewrite <- Eq.
  - intros x y [->|Hx]%loaded_hashed [->|Hy]%loaded_hashed; rewrite !loaded_block; [done|..].
    + rewrite bool_decide_true by done. case_bool_decide; [done|]. intros E. by destruct (Fn y).
    + rewrite (bool_decide_true (p = p)) by done. case_bool_decide; [done|]. intros E. by destruct (Fn x).
    + rewrite !bool_decide_false by (intros ->; done). by apply (i_inj _ _ _ I).
  - done.
  - intros q Hq. assert (q <> p) by (intros ->; done). rewrite (ld_cnt _ _ _ _ _ L), (ld_buf _ _ _ _ _ L q) by done.
    destruct (i_free _ _ _ I q) as (H1 & H2 & H3); [rewrite (ld_free _ _ _ _ _ L); by right|]. split_and!; [lia..|done|].
    intros [?|?]%loaded_hashed; done.
  - intros q. rewrite (ld_cnt _ _ _ _ _ L). intros Hq. rewrite loaded_hashed. destruct (i_all _ _ _ I q Hq) as [H|H]; [|tauto].
    rewrite (ld_free _ _ _ _ _ L) in H. apply elem_of_cons in H as [->|H]; tauto.
Qed.

Lemma loaded_find x : find_buf c' x = if bool_decide (x = b) then Some p else find_buf c x.
Proof.
  destruct loaded_free as [Hp Np]. case_bool_decide as E.
  - subst x. apply (find_buf_Some bs n); [apply loaded_inv|]. rewrite loaded_hashed, loaded_block, bool_decide_true by done. by split; [left|].
  - destruct (find_buf c x) as [q|] eqn:G.
    + apply (find_buf_Some bs n) in G as [Hq Eq]; [|done]. apply (find_buf_Some bs n); [apply loaded_inv|].
      rewrite loaded_hashed, loaded_block, bool_decide_false by (intros ->; done). by split; [right|].
    + apply (find_buf_None bs n); [apply loaded_inv|]. intros q [->|Hq]%loaded_hashed; rewrite loaded_block.
      * rewrite bool_decide_true by done. congruence.
      * rewrite bool_decide_false by (intros ->; done). by apply (proj1 (find_buf_None _ _ _ _ I) G).
Qed.

End loaded.

(** ** The promise of the interface *)

Definition view (c : block_cache) (b i : Z) : Z :=
  match find_buf c b with Some p => pool c p i | None => dev c (b * block_size c + i) end.
Definition cached (c : block_cache) (b : Z) : bool := if find_buf c b then true else false.
Definition valid_block (c : block_cache) (b : Z) : bool :=
  match find_buf c b with Some p => valid (buf_table c p) | None => false end.

Lemma get_block_ok bs n c b opt : inv bs n c -> 0 <= b < n -> opt = BLK_READ \/ opt = BLK_CLEAR ->
  exists p c', get_block b opt c = Some (p, c') /\ inv bs n c' /\ find_buf c' b = Some p /\
    (forall q x, find_buf c x = Some q -> find_buf c' x = Some q /\ dirty (buf_table c' q) = dirty (buf_table c q)) /\
    (forall x i, 0 <= x < n -> 0 <= i < bs ->
      view c' x i = if bool_decide (x = b) && bool_decide (opt = BLK_CLEAR) && negb (cached c b) then 0 else view c x i) /\
    (forall x i, dev c' (x * block_size c' + i) = dev c (x * block_size c + i)) /\
    (forall x, cached c' x = bool_decide (x = b) || cached c x) /\
    (forall x, valid_block c' x = if bool_decide (x = b) && negb (cached c b) then bool_decide (opt = BLK_READ) else valid_block c x).
Proof.
  intros I Hb Ho. destruct (find_buf c b) as [p|] eqn:F.
  - exists p, (upd_buf p (fun x => x <| in_use := true |>) c).
    assert (S : still c (upd_buf p (fun x => x <| in_use := true |>) c)) by (by apply still_upd).
    unfold get_block. rewrite F. split; [done|]. split; [by apply (still_inv _ _ _ _ S)|].
    rewrite (still_find _ _ _ S). split; [done|]. unfold view, cached, valid_block. split_and!; intros x; try intros i.
    + rewrite (still_find _ _ _ S). intros E. split; [done|]. rewrite upd_buf_flags. case_bool_decide; [by subst|done].
    + rewrite (still_find _ _ _ S), F, andb_false_r. done.
    + done.
    + rewrite (still_find _ _ _ S). case_bool_decide as E; [|done]. subst x. by rewrite F.
    + rewrite (still_find _ _ _ S), F, andb_false_r. destruct (find_buf c x) as [q|]; [|done]. apply (st_valid _ _ S).
  - destruct (get_block_miss bs n c b opt I Hb Ho F) as (p & c' & E & L). exists p, c'. split; [done|].
    pose proof (loaded_inv bs n c b opt p c' I Hb F L) as I'. pose proof (loaded_find bs n c b opt p c' I Hb F L) as Lf.
    destruct (loaded_free bs n c b opt p c' I L) as [Hp Np].
    assert (Ne : forall q x, find_buf c x = Some q -> q <> p /\ x <> b).
    { intros q x G. split; [|congruence]. apply (find_buf_Some bs n) in G as [Hq _]; [|done]. by intros ->. }
    split; [done|]. split; [by rewrite Lf, bool_decide_true|]. unfold view, cached, valid_block. split_and!; intros x; try intros i; rewrite ?Lf.
    + intros G. destruct (Ne _ _ G) as [N1 N2]. rewrite bool_decide_false by done. split; [done|]. by rewrite (ld_buf _ _ _ _ _ L).
    + intros Hx Hi. rewrite F. cbn [negb]. rewrite andb_true_r. case_bool_decide as Ex; cbn [andb].
      * subst x. rewrite (ld_data _ _ _ _ _ L).
        -- rewrite F. by destruct Ho as [->| ->].
        -- by rewrite (i_bs _ _ _ I).
        -- rewrite (i_bs _ _ _ I). pose proof (i_dev _ _ _ I). nia.
      * destruct (find_buf c x) as [q|] eqn:G.
        -- destruct (Ne _ _ G). by rewrite (ld_pool _ _ _ _ _ L).
        -- by rewrite (ld_dev _ _ _ _ _ L), (ld_bs _ _ _ _ _ L).
    + by rewrite (ld_dev _ _ _ _ _ L), (ld_bs _ _ _ _ _ L).
    + by case_bool_decide.
    + rewrite F. cbn [negb]. rewrite andb_true_r. case_bool_decide as Ex; [by rewrite (ld_new _ _ _ _ _ L)|].
      destruct (find_buf c x) as [q|] eqn:G; [|done]. destruct (Ne _ _ G). by rewrite (ld_buf _ _ _ _ _ L).
Qed.

Lemma find_buf_inj bs n c p x y : inv bs n c -> find_buf c x = Some p -> find_buf c y = Some p -> x = y.
Proof. intros I [_ <-]%(find_buf_Some bs n) [_ <-]%(find_buf_Some bs n); done. Qed.

Lemma still_frame c c' : still c c' -> forall x, cached c' x = cached c x /\ valid_block c' x = valid_block c x.
Proof.
  intros S x. unfold cached, valid_block. rewrite (still_find _ _ _ S). split; [done|].
  destruct (find_buf c x); [apply (st_valid _ _ S)|done].
Qed.

Lemma pool_store_ok bs n c p b off l : inv bs n c -> find_buf c b = Some p ->
  let c' := c <| pool := <[p := put_bytes off l (pool c p)]> (pool c) |> in
  still c c' /\ (forall x i, view c' x i = if bool_decide (x = b) then put_bytes off l (view c b) i else view c x i).
Proof.
  intros I F c'. assert (S : still c c') by (by constructor). split; [done|]. intros x i. unfold view.
  rewrite (still_find _ _ _ S), F. case_bool_decide as E; [subst x; rewrite F; cbn; by rewrite store_eq|].
  destruct (find_buf c x) as [q|] eqn:G; [|done]. cbn. rewrite store_ne; [done|].
  intros ->. by rewrite (find_buf_inj _ _ _ _ _ _ I F G) in E.
Qed.

Lemma put_block_ok bs n c p b : inv bs n c -> find_buf c b = Some p ->
  let c' := put_block p c in
  still c c' /\ (forall q, q <> p -> buf_table c' q = buf_table c q) /\
  (forall x i, 0 <= i < bs -> view c' x i = view c x i) /\
  (forall x i, 0 <= i < bs -> dev c' (x * block_size c' + i) =
    if bool_decide (x = b) && dirty (buf_table c p) then view c b i else dev c (x * block_size c + i)).
Proof.
  intros I F c'. destruct (proj1 (find_buf_Some bs n _ _ _ I) F) as [Hp Eb].
  destruct (i_hash _ _ _ I _ _ Hp) as (_ & _ & Hr). rewrite Eb in Hr. pose proof (i_bs _ _ _ I) as Hs. pose proof (i_pos _ _ _ I).
  pose proof (i_dev _ _ _ I) as Hd.
  assert (S : still c c').
  { unfold c', put_block, block_isclean. constructor; destruct (dirty (buf_table c p)); try reflexivity; intros q; cbn;
      destruct (decide (q = p)) as [->|N]; rewrite ?store_eq, ?store_ne by done; reflexivity. }
  assert (P : pool c' = pool c) by (unfold c', put_block; by destruct (block_isclean p c)).
  assert (D : forall x i, 0 <= i < bs -> dev c' (x * block_size c' + i) =
    if bool_decide (x = b) && dirty (buf_table c p) then view c b i else dev c (x * block_size c + i)).
  { intros x i Hi. unfold c', put_block, block_isclean, view. rewrite F.
    destruct (dirty (buf_table c p)); cbn; rewrite ?andb_true_r, ?andb_false_r; [|done].
    rewrite Eb, Hs. destruct (decide (x = b)) as [->|E].
    - rewrite !bool_decide_true by nia. cbn. f_equal. lia.
    - rewrite (bool_decide_false (b * bs <= _ < _)), (bool_decide_false (x = b)) by nia. done. }
  split; [done|]. split; [|split; [|done]].
  - intros q Hq. unfold c', put_block. destruct (block_isclean p c); cbn; by rewrite !store_ne.
  - intros x i Hi. unfold view. rewrite (still_find _ _ _ S), P. destruct (find_buf c x) as [q|] eqn:G; [done|].
    rewrite D by done. rewrite bool_decide_false by congruence. done.
Qed.

(** A cached block given up: its buffer is free again. *)
Record dropped (b p : Z) (c c' : block_cache) : Prop := {
  dr_bs : block_size c' = block_size c;
  dr_cnt : buf_cnt c' = buf_cnt c;
  dr_sz : dev_sz c' = dev_sz c;
  dr_dev : dev c' = dev c;
  dr_pool : pool c' = pool c;
  dr_free : free_list c' = free_list c ++ [p];
  dr_hash h : hash_list c' h = if bool_decide (h = b `mod` BUF_HASH_CNT) then filter (fun q => q <> p) (hash_list c h) else hash_list c h;
  dr_old : block (buf_table c' p) = b /\ valid (buf_table c' p) = false;
  dr_buf q : q <> p -> buf_table c' q = buf_table c q
}.

Lemma invalidate_hit bs n c b p : inv bs n c -> find_buf c b = Some p -> valid (buf_table c p) = true ->
  exists c', invalidate_block b c = Some c' /\ dropped b p c c'.
Proof.
  intros I F V. destruct (proj1 (find_buf_Some bs n _ _ _ I) F) as [Hp Eb].
  assert (N : p ∉ free_list c) by (intros H; destruct (i_free _ _ _ I p H) as (_ & E & _); congruence).
  unfold hashed in Hp. rewrite Eb in Hp. unfold invalidate_block. rewrite F, V. cbn. rewrite Seq.rem_entry_linked by done. cbn.
  rewrite Seq.add_tail_fresh by done. cbn. eexists. split; [done|]. constructor; try reflexivity; cbn.
  - intros h. case_bool_decide as E; [subst; apply store_eq|by apply store_ne].
  - rewrite store_eq. cbn. done.
  - intros q Hq. by rewrite store_ne.
Qed.

Section dropped.
Context (bs n : Z) (c : block_cache) (b p : Z) (c' : block_cache).
Context (I : inv bs n c) (F : find_buf c b = Some p) (D : dropped b p c c').

Lemma dropped_block q : block (buf_table c' q) = block (buf_table c q).
Proof.
  destruct (decide (q = p)) as [->|N]; [|by rewrite (dr_buf _ _ _ _ D)]. rewrite (proj1 (dr_old _ _ _ _ D)).
  by pose proof (proj1 (find_buf_Some bs n _ _ _ I) F) as [_ E].
Qed.

Lemma dropped_hashed q : hashed c' q <-> q <> p /\ hashed c q.
Proof.
  pose proof (proj1 (find_buf_Some bs n _ _ _ I) F) as [Hp Eb]. unfold hashed. rewrite dropped_block, (dr_hash _ _ _ _ D).
  case_bool_decide as E; [rewrite list_elem_of_filter; tauto|]. split; [|tauto]. intros H. split; [|done]. intros ->. congruence.
Qed.

Lemma dropped_inv : inv bs n c'.
Proof.
  pose proof (proj1 (find_buf_Some bs n _ _ _ I) F) as [Hp Eb].
  assert (Fr : p ∉ free_list c) by (intros H; destruct (i_free _ _ _ I p H) as (_ & _ & E); done).
  constructor.
  - rewrite (dr_bs _ _ _ _ D). apply I.
  - apply I.
  - rewrite (dr_cnt _ _ _ _ D). apply I.
  - rewrite (dr_sz _ _ _ _ D). apply I.
  - intros h q. rewrite (dr_cnt _ _ _ _ D), dropped_block, (dr_hash _ _ _ _ D). case_bool_decide; [|apply I].
    intros [_ Hq]%list_elem_of_filter. by apply (i_hash _ _ _ I).
  - intros h. rewrite (dr_hash _ _ _ _ D). case_bool_decide; [apply NoDup_filter|]; apply I.
  - intros x y [_ Hx]%dropped_hashed [_ Hy]%dropped_hashed. rewrite !dropped_block. by apply (i_inj _ _ _ I).
  - rewrite (dr_free _ _ _ _ D). apply NoDup_app. split_and!; [apply I|set_solver|apply NoDup_singleton].
  - intros q. rewrite (dr_free _ _ _ _ D), (dr_cnt _ _ _ _ D), dropped_hashed. intros [Hq|Hq]%elem_of_app.
    + destruct (i_free _ _ _ I q Hq) as (H1 & H2 & H3). assert (q <> p) by (intros ->; done).
      rewrite (dr_buf _ _ _ _ D) by done. split_and!; [lia..|done|tauto].
    + apply list_elem_of_singleton in Hq as ->. destruct (i_hash _ _ _ I _ _ Hp) as (Hq & _ & _).
      split_and!; [lia..|apply (dr_old _ _ _ _ D)|tauto].
  - intros q. rewrite (dr_free _ _ _ _ D), (dr_cnt _ _ _ _ D), dropped_hashed. intros Hq. rewrite elem_of_app, list_elem_of_singleton.
    destruct (decide (q = p)); [tauto|]. destruct (i_all _ _ _ I q Hq); tauto.
Qed.

Lemma dropped_find x : find_buf c' x = if bool_decide (x = b) then None else find_buf c x.
Proof.
  pose proof (proj1 (find_buf_Some bs n _ _ _ I) F) as [Hp Eb]. case_bool_decide as E.
  - subst x. apply (find_buf_None bs n); [apply dropped_inv|]. intros q [N Hq]%dropped_hashed. rewrite dropped_block. intros Eq.
    destruct N. by apply (i_inj _ _ _ I); [..|congruence].
  - destruct (find_buf c x) as [q|] eqn:G.
    + apply (find_buf_Some bs n) in G as [Hq Eq]; [|done]. apply (find_buf_Some bs n); [apply dropped_inv|].
      rewrite dropped_hashed, dropped_block. split_and!; [|done..]. intros ->. congruence.
    + apply (find_buf_None bs n); [apply dropped_inv|]. intros q [_ Hq]%dropped_hashed. rewrite dropped_block.
      by apply (proj1 (find_buf_None _ _ _ _ I) G).
Qed.

End dropped.

Lemma invalidate_block_ok bs n c b : inv bs n c -> 0 <= b < n -> cached c b = false \/ valid_block c b = true ->
  exists c', invalidate_block b c = Some c' /\ inv bs n c' /\
    (forall q x, x <> b -> find_buf c x = Some q -> find_buf c' x = Some q /\ dirty (buf_table c' q) = dirty (buf_table c q)) /\
    (forall x i, view c' x i = if bool_decide (x = b) then dev c (b * block_size c + i) else view c x i) /\
    (forall x i, dev c' (x * block_size c' + i) = dev c (x * block_size c + i)) /\
    (forall x, cached c' x = cached c x && negb (bool_decide (x = b)) /\ (x <> b -> valid_block c' x = valid_block c x)).
Proof.
  intros I Hb Hc. unfold cached, valid_block, view in *. destruct (find_buf c b) as [p|] eqn:F.
  - destruct Hc as [Hc|V]; [done|]. destruct (invalidate_hit bs n c b p I F V) as (c' & E & D). exists c'. split; [done|].
    pose proof (dropped_find bs n c b p c' I F D) as Df. split; [by apply (dropped_inv bs n c b p)|].
    assert (N : forall q x, x <> b -> find_buf c x = Some q -> buf_table c' q = buf_table c q).
    { intros q x Hx G. apply (dr_buf _ _ _ _ D). intros ->. by destruct Hx, (find_buf_inj _ _ _ _ _ _ I F G). }
    split_and!; [intros q x Hx G|intros x i|intros x i|intros x].
    + rewrite Df, bool_decide_false by done. split; [done|]. by rewrite (N q x).
    + rewrite Df, (dr_dev _ _ _ _ D), (dr_bs _ _ _ _ D), (dr_pool _ _ _ _ D). case_bool_decide; [by subst|done].
    + by rewrite (dr_dev _ _ _ _ D), (dr_bs _ _ _ _ D).
    + rewrite Df. case_bool_decide as Ex; [by rewrite andb_false_r|]. rewrite andb_true_r. split; [done|]. intros _.
      destruct (find_buf c x) as [q|] eqn:G; [|done]. by rewrite (N q x).
  - exists c. unfold invalidate_block. rewrite F. split_and!; try done; intros x; [intros i|].
    + case_bool_decide; [subst; by rewrite F|done].
    + case_bool_decide; [subst; by rewrite F|by rewrite andb_true_r].
Qed.

#[global, refine] Instance libblockdev_ok : BlockCacheOk block_cache := {
  bok := inv;
  bview := view;
  bdisk c b i := dev c (b * block_size c + i);
  bcached := cached;
  bholds c p b := find_buf c b = Some p;
  bdirty c p := dirty (buf_table c p);
  bvalid := valid_block;
  bget_ok := get_block_ok;
  binvalidate_ok := invalidate_block_ok
}.
Proof.
  - intros bs n c p b i I F Hi. cbn. unfold view. by rewrite F.
  - intros bs n c p b I F. destruct (proj1 (find_buf_Some bs n _ _ _ I) F) as [Hp Eb].
    destruct (i_hash _ _ _ I _ _ Hp) as (_ & _ & Hr). rewrite Eb in Hr. unfold cached. by rewrite F.
  - intros bs n c p b off l I F. destruct (pool_store_ok bs n c p b off l I F) as [S V]. cbn.
    split_and!; [by apply (still_inv _ _ _ _ S)| |done|done|by apply still_frame].
    intros q x G. exact (conj (eq_trans (still_find _ _ x S) G) eq_refl).
  - intros bs n c p b I F c'. assert (S : still c c') by (by apply still_upd).
    assert (T : forall q, buf_table c' q = if bool_decide (q = p) then buf_table c p <| dirty := true |> else buf_table c q)
      by apply upd_buf_flags.
    split_and!; [by apply (still_inv _ _ _ _ S)|by rewrite T, bool_decide_true| |intros x i|by apply still_frame].
    + intros q x G. rewrite (still_find _ _ _ S). split; [done|]. intros Hq. by rewrite T, bool_decide_false.
    + unfold view. by rewrite (still_find _ _ _ S).
  - intros bs n c p b I F. destruct (put_block_ok bs n c p b I F) as (S & T & V & D). cbn. exists (put_block p c). split; [done|].
    split_and!; [by apply (still_inv _ _ _ _ S)| |done|done|by apply still_frame].
    intros q x G. rewrite (still_find _ _ _ S). split; [done|]. intros Hq. by rewrite T.
Defined.

End Libblockdev.

(** ** Reading and rewriting a block

    How the servers use the interface, for any cache that keeps the promise. *)

Section client.
Context {C : Type} `{BlockCacheOk C}.

(** What a block shows is on the device. *)
Definition bclean (bs : Z) (c : C) (x : Z) : Prop := forall i, 0 <= i < bs -> bdisk c x i = bview c x i.

Lemma bget_read bs n c b : bok bs n c -> 0 <= b < n ->
  exists p c', bget b BLK_READ c = Some (p, c') /\ bok bs n c' /\ bholds c' p b /\
    (forall q x, bholds c q x -> bholds c' q x /\ bdirty c' q = bdirty c q) /\
    (forall x i, 0 <= x < n -> 0 <= i < bs -> bview c' x i = bview c x i) /\
    (forall x i, bdisk c' x i = bdisk c x i) /\
    (forall x, bcached c' x = bool_decide (x = b) || bcached c x).
Proof.
  intros Hok Hb. destruct (bget_ok bs n c b BLK_READ Hok Hb (or_introl eq_refl)) as (p & c1 & E1 & O1 & H1 & P1 & V1 & D1 & C1 & _).
  exists p, c1. split_and!; try done. intros x i Hx Hi. rewrite V1 by done. rewrite (bool_decide_false (BLK_READ = BLK_CLEAR)) by done.
  by rewrite andb_false_r.
Qed.

(** [get_block], changes to the data, [block_markdirty], [put_block]. *)
Definition rewrite_block (b off : Z) (l : list Z) (c : C) : option C :=
  '(p, c) ← bget b BLK_READ c;
  bput p (bmarkdirty p (bstore p off l c)).

Definition read_block (bs b : Z) (c : C) : option (list Z * C) :=
  '(p, c) ← bget b BLK_READ c;
  let l := mem_bytes (bdata c p) 0 bs in
  c ← bput p c;
  Some (l, c).

(** A held buffer changed, marked and put. *)
Lemma commit_ok bs n c p b off l : bok bs n c -> bholds c p b ->
  exists c', bput p (bmarkdirty p (bstore p off l c)) = Some c' /\ bok bs n c' /\
    (forall q x, bholds c q x -> bholds c' q x) /\
    (forall x i, 0 <= i < bs -> bview c' x i = if bool_decide (x = b) then put_bytes off l (bview c b) i else bview c x i) /\
    (forall x, x = b \/ bclean bs c x -> bclean bs c' x) /\
    (forall x, bcached c' x = bcached c x).
Proof.
  intros O1 H1.
  destruct (bstore_ok bs n c p b off l O1 H1) as (O2 & P2 & V2 & D2 & C2). set (c2 := bstore p off l c) in *. destruct (P2 p b H1) as [H2 _].
  destruct (bmarkdirty_ok bs n c2 p b O2 H2) as (O3 & F3 & P3 & V3 & C3). set (c3 := bmarkdirty p c2) in *. destruct (P3 p b H2) as [H3 _].
  destruct (bput_ok bs n c3 p b O3 H3) as (c4 & E4 & O4 & P4 & V4 & D4 & C4). exists c4.
  assert (V : forall x i, 0 <= i < bs -> bview c4 x i = if bool_decide (x = b) then put_bytes off l (bview c b) i else bview c x i).
  { intros x i Hi. by rewrite V4, (proj1 (V3 x i)), V2. }
  split_and!; [done|done| |done| |].
  - intros q x Hq. by apply P4, P3, P2.
  - intros x Hc i Hi. rewrite D4, V, (proj2 (V3 x i)), F3, andb_true_r by done. case_bool_decide as Ex.
    + subst x. by rewrite (proj1 (V3 b i)), V2, bool_decide_true.
    + destruct Hc as [Hc|Hc]; [done|]. rewrite D2. by apply Hc.
  - intros x. by rewrite (proj1 (C4 x)), (proj1 (C3 x)), (proj1 (C2 x)).
Qed.

(** A block that was not cached, cleared, marked and put. *)
Lemma clear_ok bs n c b : bok bs n c -> 0 <= b < n -> bcached c b = false ->
  exists p c1 c', bget b BLK_CLEAR c = Some (p, c1) /\ bput p (bmarkdirty p c1) = Some c' /\ bok bs n c' /\
    (forall q x, bholds c q x -> bholds c' q x) /\
    (forall x i, 0 <= x < n -> 0 <= i < bs -> bview c' x i = if bool_decide (x = b) then 0 else bview c x i) /\
    (forall x, 0 <= x < n -> x = b \/ bclean bs c x -> bclean bs c' x) /\
    (forall x, bcached c' x = bool_decide (x = b) || bcached c x).
Proof.
  intros O0 Hb Hc. destruct (bget_ok bs n c b BLK_CLEAR O0 Hb (or_intror eq_refl)) as (p & c1 & E1 & O1 & H1 & P1 & V1 & D1 & C1 & _).
  rewrite (bool_decide_true (BLK_CLEAR = BLK_CLEAR)) in V1 by done. rewrite Hc in V1.
  destruct (bmarkdirty_ok bs n c1 p b O1 H1) as (O3 & F3 & P3 & V3 & C3). set (c3 := bmarkdirty p c1) in *. destruct (P3 p b H1) as [H3 _].
  destruct (bput_ok bs n c3 p b O3 H3) as (c4 & E4 & O4 & P4 & V4 & D4 & C4). exists p, c1, c4.
  assert (V : forall x i, 0 <= x < n -> 0 <= i < bs -> bview c4 x i = if bool_decide (x = b) then 0 else bview c x i).
  { intros x i Hx Hi. rewrite V4, (proj1 (V3 x i)), V1 by done. by rewrite !andb_true_r. }
  split_and!; [done|done|done| |done| |].
  - intros q x Hq. by apply P4, P3, P1.
  - intros x Hx Hd i Hi. rewrite D4, V, (proj2 (V3 x i)), F3, andb_true_r by done. case_bool_decide as Ex.
    + subst x. by rewrite (proj1 (V3 b i)), V1, bool_decide_true by done.
    + destruct Hd as [Hd|Hd]; [done|]. rewrite D1. by apply Hd.
  - intros x. by rewrite (proj1 (C4 x)), (proj1 (C3 x)), C1.
Qed.

Lemma rewrite_block_ok bs n c b off l : bok bs n c -> 0 <= b < n ->
  exists c', rewrite_block b off l c = Some c' /\ bok bs n c' /\
    (forall x i, 0 <= x < n -> 0 <= i < bs -> bview c' x i = if bool_decide (x = b) then put_bytes off l (bview c b) i else bview c x i) /\
    (forall x, 0 <= x < n -> x = b \/ bclean bs c x -> bclean bs c' x).
Proof.
  intros Hok Hb. unfold rewrite_block.
  destruct (bget_read bs n c b Hok Hb) as (p & c1 & E1 & O1 & H1 & _ & Vs & D1 & _). rewrite E1. cbn.
  destruct (commit_ok bs n c1 p b off l O1 H1) as (c2 & E2 & O2 & _ & V2 & D2 & _). exists c2. split_and!; [done|done|..].
  - intros x i Hx Hi. rewrite V2 by done. case_bool_decide; [|by apply Vs]. apply put_bytes_ext. by apply Vs.
  - intros x Hx [->|Hc]; apply D2; [by left|right]. intros i Hi. rewrite D1, Vs by done. by apply Hc.
Qed.

Lemma read_block_ok bs n c b : bok bs n c -> 0 <= b < n ->
  exists c', read_block bs b c = Some (mem_bytes (bview c b) 0 bs, c') /\ bok bs n c' /\
    (forall x i, 0 <= x < n -> 0 <= i < bs -> bview c' x i = bview c x i) /\
    (forall x, 0 <= x < n -> bclean bs c x -> bclean bs c' x).
Proof.
  intros Hok Hb. unfold read_block.
  destruct (bget_read bs n c b Hok Hb) as (p & c1 & E1 & O1 & H1 & _ & Vs & D1 & _). rewrite E1. cbn.
  destruct (bput_ok bs n c1 p b O1 H1) as (c2 & E2 & O2 & _ & V2 & D2 & _). rewrite E2. cbn. exists c2. split_and!.
  - do 2 f_equal. apply mem_bytes_same. intros i Hi. rewrite (bdata_ok bs n _ _ b) by done. by apply Vs.
  - done.
  - intros x i Hx Hi. rewrite V2 by done. by apply Vs.
  - intros x Hx Hc i Hi. rewrite D2, V2 by done. case_bool_decide as Ex; cbn [andb].
    + subst x. destruct (bdirty c1 p); [done|]. rewrite D1, Vs by done. by apply Hc.
    + rewrite D1, Vs by done. by apply Hc.
Qed.

End client.

(** ** The cache is a device

    Requests served through the cache, and on an array of blocks. *)

Inductive block_request := ReadBlock (b : Z) | WriteBlock (b off : Z) (l : list Z).

Definition through_cache (bs : Z) (r : block_request) (c : Libblockdev.block_cache) : option (list Z * Libblockdev.block_cache) :=
  match r with
  | ReadBlock b => read_block bs b c
  | WriteBlock b off l => c ← rewrite_block b off l c; Some ([], c)
  end.

Fixpoint run_requests (bs : Z) (rs : list block_request) (c : Libblockdev.block_cache) :
    option (list (list Z) * Libblockdev.block_cache) :=
  match rs with
  | [] => Some ([], c)
  | r :: rs =>
      '(l, c) ← through_cache bs r c;
      '(ls, c) ← run_requests bs rs c;
      Some (l :: ls, c)
  end.

Definition on_array (bs : Z) (r : block_request) (a : Z -> Z -> Z) : list Z * (Z -> Z -> Z) :=
  match r with
  | ReadBlock b => (mem_bytes (a b) 0 bs, a)
  | WriteBlock b off l => ([], <[b := put_bytes off l (a b)]> a)
  end.

Fixpoint run_array (bs : Z) (rs : list block_request) (a : Z -> Z -> Z) : list (list Z) * (Z -> Z -> Z) :=
  match rs with
  | [] => ([], a)
  | r :: rs => let '(l, a) := on_array bs r a in let '(ls, a) := run_array bs rs a in (l :: ls, a)
  end.

Definition within_device (bs n : Z) (r : block_request) : Prop :=
  match r with
  | ReadBlock b => 0 <= b < n
  | WriteBlock b off l => 0 <= b < n /\ 0 <= off /\ off + Z.of_nat (length l) <= bs
  end.

(** The cache shows the array and has it on the device. *)
Definition holds_array (bs n : Z) (c : Libblockdev.block_cache) (a : Z -> Z -> Z) : Prop :=
  bok bs n c /\ forall b, 0 <= b < n -> bclean bs c b /\ forall i, 0 <= i < bs -> bview c b i = a b i.

Lemma through_cache_ok bs n r c a : holds_array bs n c a -> within_device bs n r ->
  exists c', through_cache bs r c = Some (fst (on_array bs r a), c') /\ holds_array bs n c' (snd (on_array bs r a)).
Proof.
  intros [Hok Ha] Hr. destruct r as [b|b off l]; cbn [within_device through_cache on_array fst snd] in *.
  - destruct (read_block_ok bs n c b Hok Hr) as (c' & E & O & V & D). exists c'. rewrite E. split.
    + do 2 f_equal. apply mem_bytes_same. intros i Hi. by apply Ha.
    + split; [done|]. intros x Hx. split; [by apply D, Ha|]. intros i Hi. rewrite V by done. by apply Ha.
  - destruct Hr as (Hb & Ho & Hl). destruct (rewrite_block_ok bs n c b off l Hok Hb) as (c' & E & O & V & D). exists c'. rewrite E. split; [done|].
    split; [done|]. intros x Hx. split; [apply D; [done|]; right; by apply Ha|]. intros i Hi. rewrite V by done. case_bool_decide as Ex.
    + subst x. rewrite store_eq. apply put_bytes_ext. by apply Ha.
    + rewrite store_ne by done. by apply Ha.
Qed.

Lemma run_requests_ok bs n rs c a : holds_array bs n c a -> Forall (within_device bs n) rs ->
  exists c', run_requests bs rs c = Some (fst (run_array bs rs a), c') /\ holds_array bs n c' (snd (run_array bs rs a)).
Proof.
  intros Ha Hr. revert c a Ha. induction Hr as [|r rs Hr Hrs IH]; intros c a Ha; cbn [run_requests run_array]; [by exists c|].
  destruct (through_cache_ok bs n r c a Ha Hr) as (c1 & E1 & H1). rewrite E1. cbn [mbind option_bind].
  destruct (on_array bs r a) as [l a1]. cbn [fst snd] in *. destruct (IH c1 a1 H1) as (c2 & E2 & H2). rewrite E2. cbn [mbind option_bind].
  destruct (run_array bs rs a1) as [ls a2]. by exists c2.
Qed.

Lemma init_block_cache_ok mem table data d sz cnt bs n :
  mem <> 0 -> table <> 0 -> data <> 0 -> 512 <= bs -> 0 < cnt -> n <= cnt -> n * bs <= sz ->
  exists c, Libblockdev.init_block_cache mem table data d sz cnt bs = Some (Some c) /\
    holds_array bs n c (fun b i => d (b * bs + i)).
Proof.
  intros H1 H2 H3 Hb Hc Hn Hs. unfold Libblockdev.init_block_cache. rewrite !bool_decide_false by lia. cbn [orb]. eexists. split; [done|].
  split.
  - cbn. constructor; cbn; try done; try lia.
    + intros h p Hp. set_solver.
    + intros h. constructor.
    + intros p q Hp. unfold Libblockdev.hashed in Hp. cbn in Hp. set_solver.
    + apply NoDup_seqZ.
    + intros p Hp%elem_of_seqZ. split_and!; [lia..|done|]. unfold Libblockdev.hashed. cbn. set_solver.
    + intros p Hp. left. apply elem_of_seqZ. lia.
  - intros b Hr. by split; [intros i Hi|].
Qed.

(** C10. A new block cache behaves as the device itself, if the device has at
    most as many blocks as the cache has buffers: whatever blocks are read and
    rewritten through get_block, block_markdirty and put_block, in whatever
    order, no call fails, every read shows the bytes last written, and after the
    last request the device has them all. *)
Theorem cache_refines_device mem table data d sz cnt bs n rs :
  mem <> 0 -> table <> 0 -> data <> 0 -> 512 <= bs -> 0 < cnt -> n <= cnt -> n * bs <= sz ->
  Forall (within_device bs n) rs ->
  exists c c', Libblockdev.init_block_cache mem table data d sz cnt bs = Some (Some c) /\
    run_requests bs rs c = Some (fst (run_array bs rs (fun b i => d (b * bs + i))), c') /\
    forall b i, 0 <= b < n -> 0 <= i < bs ->
      Libblockdev.dev c' (b * bs + i) = snd (run_array bs rs (fun b i => d (b * bs + i))) b i.
Proof.
  intros H1 H2 H3 Hb Hc Hn Hs Hr. destruct (init_block_cache_ok mem table data d sz cnt bs n H1 H2 H3 Hb Hc Hn Hs) as (c & E & Ha).
  destruct (run_requests_ok bs n rs c _ Ha Hr) as (c' & E' & [Hok Ha']). exists c, c'. split_and!; [done..|]. intros b i Hx Hi.
  destruct (Ha' b Hx) as [Hcl Hv]. rewrite <- Hv, <- Hcl by done. cbn. by rewrite (Libblockdev.i_bs _ _ _ Hok).
Qed.

Lemma cache_refines_device_witness :
  exists c c', Libblockdev.init_block_cache 8 16 24 (fun a => a) 2048 2 512 = Some (Some c) /\
    run_requests 512 [WriteBlock 1 0 [7]; ReadBlock 1; WriteBlock 0 511 [9]] c =
      Some ([[]; 7 :: mem_bytes (fun a => a) 513 511; []], c') /\
    Libblockdev.dev c' 512 = 7 /\ Libblockdev.dev c' 511 = 9 /\ Libblockdev.dev c' 513 = 513.
Proof.
  destruct (cache_refines_device 8 16 24 (fun a => a) 2048 2 512 2 [WriteBlock 1 0 [7]; ReadBlock 1; WriteBlock 0 511 [9]])
    as (c & c' & E & R & D); [lia..| |].
  - repeat constructor; cbn; lia.
  - exists c, c'. split; [done|]. split; [exact R|].
    split_and!; [exact (D 1 0 ltac:(lia) ltac:(lia))|exact (D 0 511 ltac:(lia) ltac:(lia))|exact (D 1 1 ltac:(lia) ltac:(lia))].
Defined.

(** ** Where the cache is smaller than the device

    A small cache of a device whose bytes are zero. *)

Definition two_buffers : option Libblockdev.block_cache :=
  match Libblockdev.init_block_cache 8 16 24 (fun _ => 0) 0x100000 2 512 with Some o => o | None => None end.

(** Blocks read and put one after the other. *)
Fixpoint touch (bs : list Z) (c : Libblockdev.block_cache) : option Libblockdev.block_cache :=
  match bs with
  | [] => Some c
  | b :: bs => '(p, c) ← Libblockdev.get_block b BLK_READ c; touch bs (Libblockdev.put_block p c)
  end.

(** A buffer that is found stays on the list of the least recently used: it is
    given to block 3 while block 1 is in use. *)
Theorem held_buffer_reused :
  (c ← two_buffers;
   c ← touch [1] c;
   '(p, c) ← Libblockdev.get_block 1 BLK_READ c;
   '(_, c) ← Libblockdev.get_block 2 BLK_READ c;
   '(q, _) ← Libblockdev.get_block 3 BLK_READ c;
   Some (p, q)) = Some (0, 0).
Proof. by vm_compute. Qed.

(** A buffer put twice is linked to itself: with the other one in use, the next
    blocks all get this buffer and overwrite each other. *)
Theorem put_twice_aliases :
  (c ← two_buffers;
   c ← touch [1; 1] c;
   '(o, c) ← Libblockdev.get_block 2 BLK_READ c;
   '(p, c) ← Libblockdev.get_block 3 BLK_READ c;
   '(q, c) ← Libblockdev.get_block 4 BLK_READ c;
   '(r, _) ← Libblockdev.get_block 5 BLK_READ c;
   Some (o, p, q, r)) = Some (1, 0, 0, 0).
Proof. by vm_compute. Qed.

(** A cleared block is never valid: reusing its buffer fails an assertion, and so
    does freeing the block. *)
Definition one_cleared : option Libblockdev.block_cache :=
  c ← two_buffers;
  '(p, c) ← Libblockdev.get_block 1 BLK_CLEAR c;
  Some (Libblockdev.put_block p (Libblockdev.block_markdirty p c)).

Theorem cleared_block_asserts :
  (if one_cleared then true else false) = true /\ one_cleared ≫= touch [2; 3] = None /\ one_cleared ≫= Libblockdev.invalidate_block 1 = None.
Proof. split_and!; by vm_compute. Qed.
