(* ===== verification/Extfs.v ===== *)
(** * The ext2 file system server: blocks

    system/filesystems/extfs keeps files on a device through the block cache.
    This file has its state, the bitmaps (bitmap.c), the group descriptors, the
    allocation of blocks and the map from positions of a file to blocks
    (block.c): twelve direct blocks, and trees of indirect blocks of depth one,
    two and three.  The server runs over any block cache ([BlockCache]); its
    theorems need only what [BlockCacheOk] promises.

    The map refines a function from block positions to block numbers
    ([file_map_correct]), and the allocator hands out free blocks only
    ([block_allocator_correct]). *)

From stdpp Require Import list_numbers.
From S2P Require Import Prelude Bytes Lists Blockcache.

Definition NO_BLOCK := 0.
Definition EXT2_NDIR_BLOCKS := 12.
Definition EXT2_IND_BLOCK := 12.
Definition EXT2_DIND_BLOCK := 13.
Definition EXT2_TIND_BLOCK := 14.
Definition EXT2_N_BLOCKS := 15.
Definition ENOSPC := 28.

(** ** State *)

Record group_desc := mkGroup {
  g_block_bitmap : Z;
  g_inode_bitmap : Z;
  g_inode_table : Z;
  g_free_blocks_count : Z;
  g_free_inodes_count : Z;
  g_used_dirs_count : Z
}.
#[export] Instance rebuild_group : Rebuild group_desc := fun r => mkGroup (g_block_bitmap r) (g_inode_bitmap r) (g_inode_table r)
  (g_free_blocks_count r) (g_free_inodes_count r) (g_used_dirs_count r).

(** The fields of the superblock that are used. *)
Record superblock := mkSuper {
  s_inodes_count : Z;
  s_blocks_count : Z;
  s_free_blocks_count : Z;
  s_free_inodes_count : Z;
  s_first_data_block : Z;
  s_log_block_size : Z;
  s_blocks_per_group : Z;
  s_inodes_per_group : Z;
  s_magic : Z;
  s_rev_level : Z;
  s_first_ino : Z;
  s_inode_size : Z;
  s_feature_incompat : Z
}.
#[export] Instance rebuild_super : Rebuild superblock := fun r => mkSuper (s_inodes_count r) (s_blocks_count r)
  (s_free_blocks_count r) (s_free_inodes_count r) (s_first_data_block r) (s_log_block_size r) (s_blocks_per_group r)
  (s_inodes_per_group r) (s_magic r) (s_rev_level r) (s_first_ino r) (s_inode_size r) (s_feature_incompat r).

Record ondisk_inode := mkOdi {
  i_mode : Z; i_uid : Z; i_size : Z; i_atime : Z; i_ctime : Z; i_mtime : Z; i_dtime : Z; i_gid : Z;
  i_links_count : Z; i_blocks : Z; i_flags : Z;
  i_block : list Z;
  i_generation : Z; i_file_acl : Z; i_dir_acl : Z; i_faddr : Z
}.
#[export] Instance rebuild_odi : Rebuild ondisk_inode := fun r => mkOdi (i_mode r) (i_uid r) (i_size r) (i_atime r) (i_ctime r)
  (i_mtime r) (i_dtime r) (i_gid r) (i_links_count r) (i_blocks r) (i_flags r) (i_block r) (i_generation r) (i_file_acl r)
  (i_dir_acl r) (i_faddr r).

Record inode := mkInode { odi : ondisk_inode; i_ino : Z; i_count : Z; i_update : Z; i_dirty : bool }.
#[export] Instance rebuild_inode : Rebuild inode := fun r => mkInode (odi r) (i_ino r) (i_count r) (i_update r) (i_dirty r).

(** The values [read_superblock] computes once. *)
Record sb_info := mkInfo {
  sb_block_size : Z;
  sb_blocksize_bits : Z;
  sb_sectors_in_block : Z;
  sb_inode_size : Z;
  sb_first_ino : Z;
  sb_max_size : Z;
  sb_inode_table_blocks_per_group : Z;
  sb_groups_count : Z;
  sb_addr_in_block : Z;
  sb_addr_in_block2 : Z;
  sb_doub_ind_s : Z;
  sb_triple_ind_s : Z;
  sb_out_range_s : Z
}.

(** The global variables; inodes are in the cache [inode_cache].  [rands] is the
    sequence of the random numbers still to come, [now] the time. *)
Record ext := mkExt {
  super : superblock;
  sb : sb_info;
  group_descs : list group_desc;
  sb_group_descriptors_dirty : bool;
  sb_dirs_counter : Z;
  be_cpu : bool;
  read_only : bool;
  inode_cache : Z -> inode;
  unused_inode_list : list Z;
  hash_inodes : Z -> list Z;
  rands : nat -> Z;
  now : Z
}.
#[export] Instance rebuild_ext : Rebuild ext := fun r => mkExt (super r) (sb r) (group_descs r) (sb_group_descriptors_dirty r)
  (sb_dirs_counter r) (be_cpu r) (read_only r) (inode_cache r) (unused_inode_list r) (hash_inodes r) (rands r) (now r).

(** Byte swapping (utility.c). *)
Definition bswap4 (swap : bool) (x : Z) : Z :=
  if swap then
    Z.lor (Z.lor (Z.lor (Z.shiftl (Z.land x 0xff) 24) (Z.shiftl (Z.land x 0xff00) 8)) (Z.shiftr (Z.land x 0xff0000) 8))
      (Z.shiftr (Z.land x 0xff000000) 24)
  else x.

(** ** Computations of the server: over its variables and the block cache.  They
    end the program ([None]) or return. *)

Definition E (C A : Type) : Type := ext * C -> option (A * (ext * C)).
#[export] Instance E_ret C : MRet (E C) := fun A a s => Some (a, s).
#[export] Instance E_bind C : MBind (E C) := fun A B f m s => '(a, s) ← m s; f a s.

Section Extfs.
Context {C : Type} `{BlockCache C}.

Definition panic {A} : E C A := fun _ => None.
Definition get {A} (f : ext -> A) : E C A := fun s => Some (f s.1, s).
Definition upd (f : ext -> ext) : E C unit := fun s => Some ((), (f s.1, s.2)).

Definition get_block (block opt : Z) : E C Z := fun s => '(p, c) ← bget block opt s.2; Some (p, (s.1, c)).
Definition put_block (bp : Z) : E C unit := fun s => c ← bput bp s.2; Some ((), (s.1, c)).
Definition invalidate_block (block : Z) : E C unit := fun s => c ← binvalidate block s.2; Some ((), (s.1, c)).
Definition block_markdirty (bp : Z) : E C unit := fun s => Some ((), (s.1, bmarkdirty bp s.2)).
(** [((uint32_t * )bp->data)[i]] *)
Definition load32 (bp i : Z) : E C Z := fun s => Some (word_at (bdata s.2 bp) (4 * i), s).
Definition store32 (bp i x : Z) : E C unit := fun s => Some ((), (s.1, bstore bp (4 * i) (word_bytes (u32 x)) s.2)).

(** ** bitmap.c *)

(** The first clear bit of the word [x] from [b] on. *)
Fixpoint find_clear (n : nat) (x w b max_bits : Z) : option Z :=
  match n with
  | O => None
  | S n =>
      if bool_decide (b < 32) && bool_decide (w * 32 + b < max_bits) then
        if bool_decide (Z.land x (Z.shiftl 1 b) = 0) then Some b else find_clear n x w (b + 1) max_bits
      else None
  end.

Fixpoint alloc_bit_loop (n : nat) (bitmap max_bits w : Z) : E C Z :=
  match n with
  | O => mret (-1)
  | S n =>
      if bool_decide (w * 32 < max_bits) then
        x ← load32 bitmap w;
        if bool_decide (x = 0xffffffff) then alloc_bit_loop n bitmap max_bits (w + 1)
        else
          match find_clear 32 x w 0 max_bits with
          | Some b => store32 bitmap w (Z.lor x (Z.shiftl 1 b));; mret (w * 32 + b)
          | None => alloc_bit_loop n bitmap max_bits (w + 1)
          end
      else mret (-1)
  end.

Definition alloc_bit (bitmap max_bits start_word : Z) : E C Z :=
  alloc_bit_loop (Z.to_nat (max_bits `div` 32 + 1)) bitmap max_bits start_word.

Definition clear_bit (bitmap index : Z) : E C Z :=
  let word := index `div` 32 in
  let mask := Z.shiftl 1 (index `mod` 32) in
  x ← load32 bitmap word;
  if bool_decide (Z.land x mask = 0) then mret (-1)
  else store32 bitmap word (Z.land x (Z.lxor 0xffffffff mask));; mret 0.

(** ** group_descriptors.c *)

Definition get_group_desc (bnum : Z) : E C (option group_desc) :=
  get (fun s => if bool_decide (sb_groups_count (sb s) <= bnum) then None else group_descs s !! Z.to_nat bnum).
Definition group_descriptors_markdirty : E C unit := upd (fun s => s <| sb_group_descriptors_dirty := true |>).
Definition group_descriptors_markclean : E C unit := upd (fun s => s <| sb_group_descriptors_dirty := false |>).
(** An assignment through the pointer to a descriptor. *)
Definition upd_group (group : Z) (f : group_desc -> group_desc) : E C unit :=
  upd (fun s => s <| group_descs := alter f (Z.to_nat group) (group_descs s) |>).

(** ** block.c *)

Definition upd_inode (ip : Z) (f : inode -> inode) : E C unit :=
  upd (fun s => s <| inode_cache := <[ip := f (inode_cache s ip)]> (inode_cache s) |>).
Definition upd_odi (ip : Z) (f : ondisk_inode -> ondisk_inode) : E C unit :=
  upd_inode ip (fun i => i <| odi := f (odi i) |>).
Definition inode_markdirty (ip : Z) : E C unit := upd_inode ip (fun i => i <| i_dirty := true |>).
Definition inode_markclean (ip : Z) : E C unit := upd_inode ip (fun i => i <| i_dirty := false |>).
Definition add_sectors (ip sign : Z) : E C unit :=
  n ← get (fun s => sb_sectors_in_block (sb s));
  upd_odi ip (fun i => i <| i_blocks := u32 (i_blocks i + sign * n) |>).

(** The depth and the offsets [offs[0] .. offs[depth]]; an error for a position out
    of range. *)
Definition calc_block_indirection_offsets (s : sb_info) (position : Z) : Z * list Z :=
  let block_pos := u32 position `div` sb_block_size s in
  if bool_decide (sb_out_range_s s <= block_pos) then (- EINVAL, [])
  else if bool_decide (block_pos < EXT2_NDIR_BLOCKS) then (0, [block_pos])
  else if bool_decide (block_pos < sb_doub_ind_s s) then (1, [EXT2_IND_BLOCK; block_pos - EXT2_NDIR_BLOCKS])
  else if bool_decide (block_pos < sb_triple_ind_s s) then
    let p := block_pos - sb_doub_ind_s s in
    (2, [EXT2_DIND_BLOCK; p `div` sb_addr_in_block s; p `mod` sb_addr_in_block s])
  else
    let p := block_pos - sb_triple_ind_s s in
    (3, [EXT2_TIND_BLOCK; p `div` sb_addr_in_block2 s; p `mod` sb_addr_in_block2 s `div` sb_addr_in_block s;
         p `mod` sb_addr_in_block2 s `mod` sb_addr_in_block s]).

Definition toplevel_index (depth : Z) : option Z :=
  if bool_decide (depth = 1) then Some EXT2_IND_BLOCK
  else if bool_decide (depth = 2) then Some EXT2_DIND_BLOCK
  else if bool_decide (depth = 3) then Some EXT2_TIND_BLOCK
  else None.

(** [i_block[i]] *)
Definition i_block_at (i : Z) (o : ondisk_inode) : Z := default 0 (i_block o !! Z.to_nat i).
Definition get_i_block (ip i : Z) : E C Z := get (fun s => i_block_at i (odi (inode_cache s ip))).
Definition set_i_block (ip i block : Z) : E C unit :=
  upd_odi ip (fun o => o <| i_block := <[Z.to_nat i := block]> (i_block o) |>).

Definition get_toplevel_indirect_block_entry (ip depth : Z) : E C Z :=
  match toplevel_index depth with Some i => get_i_block ip i | None => panic end.
Definition set_toplevel_indirect_block_entry (ip depth block : Z) : E C unit :=
  match toplevel_index depth with Some i => set_i_block ip i block | None => panic end.

Definition read_indirect_block_entry (bp index : Z) : E C Z :=
  be ← get be_cpu; x ← load32 bp index; mret (bswap4 be x).
Definition write_indirect_block_entry (bp index block : Z) : E C unit :=
  be ← get be_cpu; store32 bp index (bswap4 be block).

(** The loop of [read_map_entry], down the offsets that remain. *)
Fixpoint read_indirect (offs : list Z) (block : Z) : E C Z :=
  match offs with
  | [] => mret block
  | o :: offs =>
      if bool_decide (block = NO_BLOCK) then mret block
      else
        bp ← get_block block BLK_READ;
        block ← read_indirect_block_entry bp o;
        put_block bp;;
        read_indirect offs block
  end.

Definition read_map_entry (ip position : Z) : E C Z :=
  s ← get sb;
  let '(depth, offs) := calc_block_indirection_offsets s position in
  if bool_decide (depth < 0) then mret NO_BLOCK
  else if bool_decide (depth = 0) then get_i_block ip (default 0 (offs !! 0%nat))
  else
    block ← get_toplevel_indirect_block_entry ip depth;
    read_indirect (tail offs) block.

Definition rand : E C Z :=
  x ← get (fun s => rands s 0%nat);
  upd (fun s => s <| rands := fun n => rands s (S n) |>);;
  mret x.

Definition check_block_number (gd : group_desc) (block : Z) : E C unit :=
  k ← get (fun s => sb_inode_table_blocks_per_group (sb s));
  n ← get (fun s => s_blocks_count (super s));
  if bool_decide (block = g_inode_bitmap gd) || bool_decide (block = g_block_bitmap gd) ||
     bool_decide (g_inode_table gd <= block < g_inode_table gd + k) then panic
  else if bool_decide (n <= block) then panic
  else mret ().

(** [group] and [word] of the goal are not used by the search: it starts with the
    first group and the first word. *)
Fixpoint alloc_block_loop (n : nat) (i : Z) : E C Z :=
  match n with
  | O => mret NO_BLOCK
  | S n =>
      groups ← get (fun s => sb_groups_count (sb s));
      let group := i `mod` groups in
      ogd ← get_group_desc group;
      match ogd with
      | None => panic
      | Some gd =>
          if bool_decide (g_free_blocks_count gd = 0) then alloc_block_loop n (i + 1)
          else
            bp ← get_block (g_block_bitmap gd) BLK_READ;
            sp ← get super;
            bit ← alloc_bit bp (s_blocks_per_group sp) 0;
            if bool_decide (bit <> -1) then
              let block := u32 (s_first_data_block sp + group * s_blocks_per_group sp + bit) in
              check_block_number gd block;;
              block_markdirty bp;;
              put_block bp;;
              upd_group group (fun g => g <| g_free_blocks_count := uwrap 16 (g_free_blocks_count g - 1) |>);;
              upd (fun s => s <| super := super s <| s_free_blocks_count := u32 (s_free_blocks_count (super s) - 1) |> |>);;
              group_descriptors_markdirty;;
              mret block
            else if bool_decide (i <> 0) then panic
            else alloc_block_loop n (i + 1)
      end
  end.

Definition alloc_block (ip goal : Z) : E C Z :=
  sp ← get super;
  if bool_decide (s_free_blocks_count sp = 0) then mret NO_BLOCK
  else
    ino ← get (fun s => i_ino (inode_cache s ip));
    let goal := if bool_decide (goal = NO_BLOCK)
                then u32 (s_blocks_per_group sp * (u32 (ino - 1) `div` s_inodes_per_group sp) + s_first_data_block sp) else goal in
    (if bool_decide (s_blocks_count sp <= goal) || (bool_decide (goal < s_first_data_block sp) && bool_decide (goal <> NO_BLOCK))
     then rand else mret goal);;
    groups ← get (fun s => sb_groups_count (sb s));
    alloc_block_loop (Z.to_nat (groups + 1)) 0.

Definition free_block (block : Z) : E C unit :=
  sp ← get super;
  if bool_decide (s_blocks_count sp <= block) || bool_decide (block < s_first_data_block sp) then panic
  else
    let group := (block - s_first_data_block sp) `div` s_blocks_per_group sp in
    let bit := (block - s_first_data_block sp) `mod` s_blocks_per_group sp in
    ogd ← get_group_desc group;
    match ogd with
    | None => panic
    | Some gd =>
        check_block_number gd block;;
        bp ← get_block (g_block_bitmap gd) BLK_READ;
        r ← clear_bit bp bit;
        if bool_decide (r <> 0) then panic
        else
          block_markdirty bp;;
          put_block bp;;
          upd_group group (fun g => g <| g_free_blocks_count := uwrap 16 (g_free_blocks_count g + 1) |>);;
          upd (fun s => s <| super := super s <| s_free_blocks_count := u32 (s_free_blocks_count (super s) + 1) |> |>);;
          group_descriptors_markdirty;;
          invalidate_block block
    end.

(** A new indirect block, all entries NO_BLOCK; [None] when there is no space. *)
Definition new_indirect (ip : Z) : E C (option Z) :=
  block ← alloc_block ip NO_BLOCK;
  if bool_decide (block = NO_BLOCK) then mret None
  else
    bp ← get_block block BLK_CLEAR;
    block_markdirty bp;;
    put_block bp;;
    mret (Some block).

(** The top indirect block of the path, found or new. *)
Definition top_block (ip depth : Z) : E C (option Z) :=
  block ← get_toplevel_indirect_block_entry ip depth;
  if bool_decide (block = NO_BLOCK) then
    ob ← new_indirect ip;
    match ob with
    | None => mret None
    | Some block => set_toplevel_indirect_block_entry ip depth block;; add_sectors ip 1;; mret (Some block)
    end
  else mret (Some block).

(** One level of [enter_map_entry]: the block of entry [o] of an indirect block,
    found or new. *)
Definition enter_level (ip o block : Z) : E C (option Z) :=
  bp ← get_block block BLK_READ;
  block ← read_indirect_block_entry bp o;
  if bool_decide (block = NO_BLOCK) then
    ob ← new_indirect ip;
    match ob with
    | None => mret None
    | Some block =>
        write_indirect_block_entry bp o block;;
        block_markdirty bp;;
        add_sectors ip 1;;
        put_block bp;;
        mret (Some block)
    end
  else put_block bp;; mret (Some block).

(** Its loop, with the offsets above the last: the indirect block that is to have
    the entry. *)
Fixpoint enter_indirect (ip : Z) (offs : list Z) (block : Z) : E C (option Z) :=
  match offs with
  | [] => mret (Some block)
  | o :: offs =>
      ob ← enter_level ip o block;
      match ob with
      | None => mret None
      | Some block => enter_indirect ip offs block
      end
  end.

Definition enter_map_entry (ip position new_block : Z) : E C Z :=
  s ← get sb;
  let '(depth, offs) := calc_block_indirection_offsets s position in
  if bool_decide (depth < 0) then mret (- EINVAL)
  else
    inode_markdirty ip;;
    if bool_decide (depth = 0) then
      set_i_block ip (default 0 (offs !! 0%nat)) new_block;;
      add_sectors ip 1;;
      mret 0
    else
      ob ← top_block ip depth;
      match ob with
      | None => mret (- ENOSPC)
      | Some block =>
          ob ← enter_indirect ip (removelast (tail offs)) block;
          match ob with
          | None => mret (- ENOSPC)
          | Some block =>
              bp ← get_block block BLK_READ;
              write_indirect_block_entry bp (List.last (tail offs) 0) new_block;;
              block_markdirty bp;;
              put_block bp;;
              add_sectors ip 1;;
              mret 0
          end
      end.

(** [None] is the answer NULL. *)
Definition new_block (ip position : Z) : E C (option Z) :=
  block ← read_map_entry ip position;
  ob ← (if bool_decide (block = NO_BLOCK) then
          block ← alloc_block ip NO_BLOCK;
          if bool_decide (block = NO_BLOCK) then mret None
          else
            sc ← enter_map_entry ip position block;
            if bool_decide (sc <> 0) then free_block block;; mret None
            else mret (Some block)
        else mret (Some block));
  match ob with
  | None => mret None
  | Some block => bp ← get_block block BLK_CLEAR; mret (Some bp)
  end.

End Extfs.

(** ** The tree of a file

    The pointers of an inode and of the indirect blocks: [ptr b o] is entry [o]
    of block [b], where [ROOT] stands for the inode.  A path is a list of
    entries to follow from the inode; NO_BLOCK ends it. *)

Definition ROOT := -1.

Definition step (ptr : Z -> Z -> Z) (b o : Z) : Z := if bool_decide (b = NO_BLOCK) then NO_BLOCK else ptr b o.
Definition walk (ptr : Z -> Z -> Z) (p : list Z) : Z := foldl (step ptr) ROOT p.

(** The levels below an entry of the inode, and the paths in blocks of [a]
    entries: those of full length lead to the blocks of the file. *)
Definition height (i : Z) : nat := if bool_decide (i < EXT2_NDIR_BLOCKS) then 0%nat else Z.to_nat (i - 11).
Definition is_path (a : Z) (p : list Z) : Prop :=
  match p with
  | [] => True
  | i :: r => 0 <= i < EXT2_N_BLOCKS /\ (length r <= height i)%nat /\ Forall (fun o => 0 <= o < a) r
  end.
Definition is_leaf (a : Z) (p : list Z) : Prop :=
  match p with [] => False | i :: r => is_path a p /\ length r = height i end.

Lemma walk_snoc ptr p o : walk ptr (p ++ [o]) = step ptr (walk ptr p) o.
Proof. unfold walk. by rewrite foldl_app. Qed.

Lemma walk_app_0 ptr p q : walk ptr p = NO_BLOCK -> walk ptr (p ++ q) = NO_BLOCK.
Proof.
  intros E. unfold walk in *. rewrite foldl_app, E. induction q as [|o q IH]; [done|].
  cbn. unfold step at 2. by rewrite bool_decide_true.
Qed.

Lemma is_path_app a p q : is_path a (p ++ q) -> is_path a p.
Proof.
  destruct p as [|i r]; [done|]. cbn. intros (Hi & Hl & Hf). rewrite length_app in Hl. apply Forall_app in Hf as [Hf _].
  split_and!; [lia..|done].
Qed.

Lemma is_leaf_path a p : is_leaf a p -> is_path a p.
Proof. destruct p; [done|]. by intros [H _]. Qed.

(** No path goes on behind a leaf. *)
Lemma leaf_end a p q : is_leaf a p -> is_path a (p ++ q) -> q = [].
Proof.
  destruct p as [|i r]; [done|]. intros [_ E] (_ & Hl & _). rewrite length_app in Hl. destruct q; [done|]. cbn in Hl. lia.
Qed.

(** An entry that was empty now points to a block [f] that was not in the tree and
    has no entries: this path leads to [f], and no other path changes. *)
Section grow.
Context (a : Z) (ptr ptr' : Z -> Z -> Z) (p : list Z) (o f : Z).
Context (Hpath : is_path a (p ++ [o])) (Hf : f <> NO_BLOCK) (Hroot : f <> ROOT).
Context (Hp : walk ptr p <> NO_BLOCK) (H0 : ptr (walk ptr p) o = NO_BLOCK).
Context (Hnew : ptr' (walk ptr p) o = f).
Context (Hzero : is_leaf a (p ++ [o]) \/ forall x, 0 <= x < a -> ptr' f x = NO_BLOCK).
Context (Hsame : forall q x, is_path a (q ++ [x]) -> walk ptr q <> NO_BLOCK -> q ++ [x] <> p ++ [o] ->
  ptr' (walk ptr q) x = ptr (walk ptr q) x).

Lemma grow_walk q : is_path a q ->
  walk ptr' q = if bool_decide (q = p ++ [o]) then f else walk ptr q.
Proof.
  induction q as [|x q IH] using rev_ind; intros Hq.
  - rewrite bool_decide_false by (by destruct p). done.
  - pose proof (is_path_app _ _ _ Hq) as Hq'. specialize (IH Hq'). rewrite !walk_snoc.
    destruct (decide (q ++ [x] = p ++ [o])) as [E|E]; [rewrite (bool_decide_true (_ = _)) by done|rewrite (bool_decide_false (q ++ [x] = _)) by done].
    + apply app_inj_tail in E as [-> ->]. rewrite IH, bool_decide_false.
      * unfold step. rewrite bool_decide_false by done. done.
      * intros E. apply (f_equal length) in E. rewrite length_app in E. cbn in E. lia.
    + rewrite IH. destruct (decide (q = p ++ [o])) as [Eq|Eq]; [rewrite bool_decide_true by done|rewrite bool_decide_false by done].
      * subst q. rewrite (walk_snoc ptr p o). unfold step at 3. rewrite bool_decide_false by done. rewrite H0.
        unfold step. rewrite bool_decide_false, (bool_decide_true (NO_BLOCK = _)) by done. destruct Hzero as [Hz|Hz].
        -- by pose proof (leaf_end _ _ _ Hz Hq).
        -- apply Hz. clear -Hq. rewrite <- app_assoc in Hq. destruct p as [|i r]; cbn in Hq.
           ++ destruct Hq as (_ & _ & Hq). by apply Forall_cons in Hq as [Hx _].
           ++ destruct Hq as (_ & _ & Hq). apply Forall_app in Hq as [_ Hq]. apply Forall_cons in Hq as [_ Hq].
              by apply Forall_cons in Hq as [Hx _].
      * unfold step. destruct (bool_decide_reflect (walk ptr q = NO_BLOCK)) as [E0|E0]; [done|]. by apply Hsame.
Qed.

End grow.

(** ** Positions and paths *)

Record info_ok (s : sb_info) : Prop := {
  io_bits : 10 <= sb_blocksize_bits s <= 15;
  io_bs : sb_block_size s = 2 ^ sb_blocksize_bits s;
  io_addr : sb_addr_in_block s = sb_block_size s `div` 4;
  io_addr2 : sb_addr_in_block2 s = sb_addr_in_block s * sb_addr_in_block s;
  io_doub : sb_doub_ind_s s = EXT2_NDIR_BLOCKS + sb_addr_in_block s;
  io_triple : sb_triple_ind_s s = sb_doub_ind_s s + sb_addr_in_block2 s;
  io_out : sb_out_range_s s = 0xffff0000
}.

Lemma info_bounds s : info_ok s -> 1024 <= sb_block_size s <= 32768 /\ sb_block_size s = 4 * sb_addr_in_block s /\ 256 <= sb_addr_in_block s.
Proof.
  intros I. destruct I as [B E A _ _ _ _]. 
  assert (P : sb_block_size s = 4 * 2 ^ (sb_blocksize_bits s - 2)).
  { rewrite E. change 4 with (2 ^ 2). rewrite <- Z.pow_add_r by lia. f_equal. lia. }
  assert (2 ^ 8 <= 2 ^ (sb_blocksize_bits s - 2) <= 2 ^ 13) by (split; apply Z.pow_le_mono_r; lia).
  rewrite A, P. rewrite (Z.mul_comm 4), Z.div_mul by lia. lia.
Qed.

(** The block of a position; all that [calc_block_indirection_offsets] looks at. *)
Definition block_pos (s : sb_info) (position : Z) : Z := u32 position `div` sb_block_size s.

Lemma block_pos_range s position : info_ok s -> 0 <= block_pos s position < 2 ^ 22.
Proof.
  intros I. destruct (info_bounds s I) as (B & _). unfold block_pos. pose proof (uwrap_range 32 position ltac:(lia)). split; [apply Z.div_pos; lia|].
  apply Z.div_lt_upper_bound; [lia|]. change (2 ^ 32) with (1024 * 2 ^ 22) in *. nia.
Qed.

Lemma calc_leaf s position : info_ok s ->
  let '(depth, offs) := calc_block_indirection_offsets s position in
  is_leaf (sb_addr_in_block s) offs /\ 0 <= depth /\ depth = Z.of_nat (length offs) - 1 /\
  (0 < depth -> exists i r, offs = i :: r /\ toplevel_index depth = Some i).
Proof.
  intros I. pose proof (block_pos_range s position I) as R. destruct (info_bounds s I) as (B & E4 & A).
  unfold calc_block_indirection_offsets. fold (block_pos s position). set (k := block_pos s position) in *.
  rewrite (io_out s I), (io_doub s I), (io_triple s I), (io_doub s I), (io_addr2 s I). set (a := sb_addr_in_block s) in *.
  unfold EXT2_NDIR_BLOCKS. change (2 ^ 22) with 4194304 in R. rewrite bool_decide_false by lia.
  destruct (bool_decide_reflect (k < 12)) as [H1|H1]; [|destruct (bool_decide_reflect (k < 12 + a)) as [H2|H2];
    [|destruct (bool_decide_reflect (k < 12 + a + a * a)) as [H3|H3]]].
  - cbn. unfold EXT2_N_BLOCKS, height, EXT2_NDIR_BLOCKS. rewrite bool_decide_true by lia. split_and!; try lia; done.
  - cbn. split_and!; try done; try lia; [constructor; [lia|done]|]. intros _. by eexists _, _.
  - pose proof (Z.mod_pos_bound (k - (12 + a)) a ltac:(lia)).
    assert (0 <= (k - (12 + a)) `div` a < a) by (split; [apply Z.div_pos; lia|apply Z.div_lt_upper_bound; lia]).
    cbn. split_and!; try done; try lia; [by repeat constructor; lia|]. intros _. by eexists _, _.
  - set (q := k - (12 + a + a * a)) in *. pose proof (Z.mod_pos_bound q (a * a) ltac:(nia)) as Hm.
    pose proof (Z.mod_pos_bound (q `mod` (a * a)) a ltac:(lia)).
    assert (0 <= q `mod` (a * a) `div` a < a) by (split; [apply Z.div_pos; lia|apply Z.div_lt_upper_bound; lia]).
    assert (0 <= q `div` (a * a) < a) by (split; [apply Z.div_pos; nia|apply Z.div_lt_upper_bound; nia]).
    cbn. split_and!; try done; try lia; [by repeat constructor; lia|]. intros _. by eexists _, _.
Qed.

Lemma calc_inj s x y : info_ok s ->
  snd (calc_block_indirection_offsets s x) = snd (calc_block_indirection_offsets s y) -> block_pos s x = block_pos s y.
Proof.
  intros I. pose proof (block_pos_range s x I) as Rx. pose proof (block_pos_range s y I) as Ry. destruct (info_bounds s I) as (B & E4 & A).
  unfold calc_block_indirection_offsets. fold (block_pos s x) (block_pos s y). set (k := block_pos s x) in *. set (l := block_pos s y) in *.
  rewrite (io_out s I), (io_doub s I), (io_triple s I), (io_doub s I), (io_addr2 s I). set (a := sb_addr_in_block s) in *.
  unfold EXT2_NDIR_BLOCKS, EXT2_IND_BLOCK, EXT2_DIND_BLOCK, EXT2_TIND_BLOCK. change (2 ^ 22) with 4194304 in *. rewrite !bool_decide_false by lia.
  repeat case_bool_decide; cbn; intros E; simplify_eq; try lia.
  - pose proof (Z.div_mod (k - (12 + a)) a ltac:(lia)). pose proof (Z.div_mod (l - (12 + a)) a ltac:(lia)). congruence || nia.
  - set (p := k - (12 + a + a * a)) in *. set (q := l - (12 + a + a * a)) in *.
    pose proof (Z.div_mod p (a * a) ltac:(nia)). pose proof (Z.div_mod q (a * a) ltac:(nia)).
    pose proof (Z.div_mod (p `mod` (a * a)) a ltac:(lia)). pose proof (Z.div_mod (q `mod` (a * a)) a ltac:(lia)). 
    assert (p = q) by congruence. lia.
Qed.

(** ** Blocks read and written *)

Lemma ebind {C A B} (m : E C A) (k : A -> E C B) s a s' : m s = Some (a, s') -> (m ≫= k) s = k a s'.
Proof. intros E. unfold mbind, E_bind. by rewrite E. Qed.

Section blocks.
Context {C : Type} `{BlockCacheOk C}.
Implicit Types (s : ext) (c : C).

(** A change of the cache that shows the same blocks; it may take blocks of [U] in. *)
Record quiet (bs n : Z) (U : Z -> Prop) (c c' : C) : Prop := {
  q_ok : bok bs n c';
  q_holds q x : bholds c q x -> bholds c' q x;
  q_view x i : 0 <= x < n -> 0 <= i < bs -> bview c' x i = bview c x i;
  q_clean x : 0 <= x < n -> bclean bs c x -> bclean bs c' x;
  q_cached x : bcached c' x = true -> bcached c x = true \/ U x
}.

Lemma quiet_refl bs n U c : bok bs n c -> quiet bs n U c c.
Proof. constructor; naive_solver. Qed.

Lemma quiet_trans bs n U c1 c2 c3 : quiet bs n U c1 c2 -> quiet bs n U c2 c3 -> quiet bs n U c1 c3.
Proof.
  intros [O1 P1 V1 D1 C1] [O2 P2 V2 D2 C2]. constructor; [done|by eauto| |by eauto|].
  - intros x i Hx Hi. by rewrite V2, V1.
  - intros x Hx. destruct (C2 x Hx) as [Hc|Hc]; [by apply C1|by right].
Qed.

Lemma quiet_weaken bs n (U V : Z -> Prop) c c' : (forall x, U x -> V x) -> quiet bs n U c c' -> quiet bs n V c c'.
Proof. intros HU [O P W D K]. constructor; try done. intros x Hx. destruct (K x Hx); eauto. Qed.

Lemma run_get_read bs n s c b : bok bs n c -> 0 <= b < n ->
  exists p c', get_block b BLK_READ (s, c) = Some (p, (s, c')) /\ bholds c' p b /\ quiet bs n (fun x => x = b) c c'.
Proof.
  intros O Hb. destruct (bget_read bs n c b O Hb) as (p & c' & E & O' & Hh & P & V & D & K). exists p, c'.
  split; [unfold get_block; cbn; by rewrite E|]. split; [done|]. constructor; [done|by apply P|done| |].
  - intros x Hx Hc i Hi. rewrite D, V by done. by apply Hc.
  - intros x. rewrite K. intros [?%bool_decide_eq_true|?]%orb_true_iff; auto.
Qed.

Lemma run_put bs n s c p b : bok bs n c -> bholds c p b ->
  exists c', put_block p (s, c) = Some ((), (s, c')) /\ quiet bs n (fun _ => False) c c'.
Proof.
  intros O Hh. destruct (bput_ok bs n c p b O Hh) as (c' & E & O' & P & V & D & K). exists c'.
  split; [unfold put_block; cbn; by rewrite E|]. constructor; [done|by apply P|by intros; apply V| |].
  - intros x Hx Hc i Hi. rewrite D, V by done. destruct (bool_decide_reflect (x = b)) as [->|N]; cbn [andb]; [|by apply Hc].
    destruct (bdirty c p); [done|by apply Hc].
  - intros x. rewrite (proj1 (K x)). auto.
Qed.

(** The words of a block. *)
Definition entry (c : C) (b o : Z) : Z := word_at (bview c b) (4 * o).

Lemma quiet_entry bs n U c c' b o : quiet bs n U c c' -> 0 <= b < n -> 0 <= o -> 4 * o + 4 <= bs -> entry c' b o = entry c b o.
Proof. intros Q Hb Ho Hs. apply word_at_ext. intros i Hi. apply (q_view _ _ _ _ _ Q); lia. Qed.

Lemma run_load32 bs n s c p b i : bok bs n c -> bholds c p b -> 0 <= i -> 4 * i + 4 <= bs ->
  load32 p i (s, c) = Some (entry c b i, (s, c)).
Proof.
  intros O Hh Hi Hs. unfold load32. cbn. do 2 f_equal. apply word_at_ext. intros k Hk. by apply (bdata_ok bs n); [..|lia].
Qed.

(** A word of a held block replaced, and the block put. *)
Record wrote (bs n b o x : Z) (c c' : C) : Prop := {
  w_ok : bok bs n c';
  w_holds q y : bholds c q y -> bholds c' q y;
  w_view y i : 0 <= i < bs -> bview c' y i = if bool_decide (y = b) then put_word (4 * o) x (bview c b) i else bview c y i;
  w_clean y : y = b \/ bclean bs c y -> bclean bs c' y;
  w_cached y : bcached c' y = bcached c y
}.

Lemma run_commit bs n s c p b o x : bok bs n c -> bholds c p b ->
  exists c', put_block p (s, bmarkdirty p (bstore p (4 * o) (word_bytes (u32 x)) c)) = Some ((), (s, c')) /\ wrote bs n b o x c c'.
Proof.
  intros O Hh. destruct (commit_ok bs n c p b (4 * o) (word_bytes (u32 x)) O Hh) as (c' & E & O' & P & V & D & K). exists c'.
  split; [unfold put_block; cbn; by rewrite E|]. by constructor.
Qed.

Lemma wrote_eq bs n b o x c c' : wrote bs n b o x c c' -> 0 <= o -> 4 * o + 4 <= bs -> entry c' b o = u32 x.
Proof.
  intros W Ho Hs. unfold entry. rewrite <- (put_word_eq (4 * o) x (bview c b)). apply word_at_ext. intros i Hi.
  by rewrite (w_view _ _ _ _ _ _ _ W), bool_decide_true by lia.
Qed.

Lemma wrote_ne bs n b o x c c' y k : wrote bs n b o x c c' -> 0 <= k -> 4 * k + 4 <= bs -> y <> b \/ k <> o -> entry c' y k = entry c y k.
Proof.
  intros W Hk Hs N. unfold entry. apply word_at_ext. intros i Hi. rewrite (w_view _ _ _ _ _ _ _ W) by lia.
  destruct (bool_decide_reflect (y = b)) as [->|Ny]; [|done]. apply put_word_ne. lia.
Qed.

End blocks.

(** ** Bitmaps *)

Lemma land_shiftl_1 x b : 0 <= b -> Z.land x (Z.shiftl 1 b) = 0 <-> Z.testbit x b = false.
Proof.
  intros Hb. rewrite Z.shiftl_1_l. split.
  - intros E. assert (T : Z.testbit (Z.land x (2 ^ b)) b = false) by (rewrite E; apply Z.bits_0).
    rewrite Z.land_spec, Z.pow2_bits_true, andb_true_r in T by done. done.
  - intros E. apply Z.bits_inj'. intros i Hi. rewrite Z.land_spec, Z.bits_0, Z.pow2_bits_eqb by done.
    destruct (Z.eqb_spec b i) as [->|N]; [by rewrite E|by rewrite andb_false_r].
Qed.

Lemma find_clear_ok n x w b m : 0 <= b -> b + Z.of_nat n = 32 ->
  match find_clear n x w b m with
  | Some k => b <= k < 32 /\ w * 32 + k < m /\ Z.testbit x k = false
  | None => forall k, b <= k < 32 -> w * 32 + k < m -> Z.testbit x k = true
  end.
Proof.
  revert b. induction n as [|n IH]; intros b Hb Hn; cbn [find_clear]; [intros; lia|].
  destruct (bool_decide_reflect (b < 32)) as [H1|H1]; [|lia]. destruct (bool_decide_reflect (w * 32 + b < m)) as [H2|H2]; cbn [andb]; [|intros; lia].
  destruct (bool_decide_reflect (Z.land x (Z.shiftl 1 b) = 0)) as [H3|H3].
  - apply land_shiftl_1 in H3; [|done]. done.
  - specialize (IH (b + 1) ltac:(lia) ltac:(lia)). destruct (find_clear n x w (b + 1) m) as [k|]; [naive_solver lia|].
    intros k Hk Hm. destruct (decide (k = b)) as [->|N]; [|apply IH; lia]. rewrite land_shiftl_1 in H3 by done. by destruct (Z.testbit x b).
Qed.

Section bits.
Context {C : Type} `{BlockCacheOk C}.
Implicit Types (s : ext) (c : C).

(** Bit [j] of the bitmap in block [b], and how many of the first [m] are clear. *)
Definition bit_at (c : C) (b j : Z) : bool := Z.testbit (entry c b (j `div` 32)) (j `mod` 32).
Definition clear_count (c : C) (b m : Z) : Z := Z.of_nat (length (filter (fun j => bit_at c b j = false) (seqZ 0 m))).

Lemma alloc_bit_loop_ok bs a n s c p b m fuel w : bok bs n c -> bholds c p b -> bs = 4 * a -> m <= 8 * bs -> 0 <= w -> m <= 32 * (w + Z.of_nat fuel) ->
  (forall j, 0 <= j < 32 * w -> j < m -> bit_at c b j = true) -> (exists j, 0 <= j < m /\ bit_at c b j = false) ->
  exists j, 0 <= j < m /\ bit_at c b j = false /\
    alloc_bit_loop fuel p m w (s, c) =
    Some (j, (s, bstore p (4 * (j `div` 32)) (word_bytes (u32 (Z.lor (entry c b (j `div` 32)) (Z.shiftl 1 (j `mod` 32))))) c)).
Proof.
  intros O Hh Ha Hm. revert w. induction fuel as [|fuel IH]; intros w Hw Hf Hset (j0 & Hj0 & E0).
  { exfalso. rewrite Hset in E0 by lia. done. }
  cbn [alloc_bit_loop]. destruct (bool_decide_reflect (w * 32 < m)) as [Hlt|Hge].
  2: { exfalso. rewrite Hset in E0 by lia. done. }
  rewrite (ebind _ _ _ _ _ (run_load32 bs n s c p b w O Hh Hw ltac:(lia))).
  assert (Next : (forall k, 0 <= k < 32 -> w * 32 + k < m -> Z.testbit (entry c b w) k = true) ->
    forall j, 0 <= j < 32 * (w + 1) -> j < m -> bit_at c b j = true).
  { intros Hk j Hj Hjm. destruct (decide (j < 32 * w)) as [?|?]; [by apply Hset; lia|]. unfold bit_at.
    replace (j `div` 32) with w by (apply Z.div_unique with (j - 32 * w); lia).
    replace (j `mod` 32) with (j - 32 * w) by (apply Z.mod_unique with w; lia). apply Hk; lia. }
  destruct (bool_decide_reflect (entry c b w = 0xffffffff)) as [Hx|Hx].
  - apply IH; [lia..| |eauto]. apply Next. intros k Hk _. rewrite Hx. change 0xffffffff with (Z.ones 32). by apply Z.ones_spec_low.
  - pose proof (find_clear_ok 32 (entry c b w) w 0 m ltac:(lia) ltac:(lia)) as Fc. destruct (find_clear 32 (entry c b w) w 0 m) as [k|].
    + destruct Fc as (Hk & Hkm & Ek). exists (w * 32 + k).
      assert (Ed : (w * 32 + k) `div` 32 = w) by (symmetry; apply Z.div_unique with k; lia).
      assert (Em : (w * 32 + k) `mod` 32 = k) by (symmetry; apply Z.mod_unique with w; lia).
      unfold bit_at. rewrite Ed, Em. split_and!; [lia..|done|done].
    + apply IH; [lia..| |eauto]. by apply Next.
Qed.

Lemma alloc_bit_ok bs a n s c p b m : bok bs n c -> bholds c p b -> bs = 4 * a -> m <= 8 * bs -> 0 < clear_count c b m ->
  exists j, 0 <= j < m /\ bit_at c b j = false /\
    alloc_bit p m 0 (s, c) =
    Some (j, (s, bstore p (4 * (j `div` 32)) (word_bytes (u32 (Z.lor (entry c b (j `div` 32)) (Z.shiftl 1 (j `mod` 32))))) c)).
Proof.
  intros O Hh Ha Hm Hc. unfold clear_count in Hc. destruct (filter _ _) as [|j l] eqn:F; [cbn in Hc; lia|].
  assert (Hj : j ∈ filter (fun j => bit_at c b j = false) (seqZ 0 m)) by (rewrite F; by left).
  apply list_elem_of_filter in Hj as [Ej Hj%elem_of_seqZ]. unfold alloc_bit. apply (alloc_bit_loop_ok bs a n s c p b m); try done; try lia.
  - pose proof (Z.div_mod m 32 ltac:(lia)). pose proof (Z.mod_pos_bound m 32 ltac:(lia)). lia.
  - exists j. split; [lia|done].
Qed.

Lemma bit_wrote bs n a b o x c c' k : wrote bs n b o x c c' -> bs = 4 * a -> 0 <= k < 8 * bs ->
  bit_at c' b k = if bool_decide (k `div` 32 = o) then Z.testbit (u32 x) (k `mod` 32) else bit_at c b k.
Proof.
  intros W Ha Hk. unfold bit_at. pose proof (Z.div_mod k 32 ltac:(lia)). pose proof (Z.mod_pos_bound k 32 ltac:(lia)).
  destruct (bool_decide_reflect (k `div` 32 = o)) as [<-|N].
  - by rewrite (wrote_eq _ _ _ _ _ _ _ W) by lia.
  - by rewrite (wrote_ne _ _ _ _ _ _ _ _ _ W) by (try lia; by right).
Qed.

Lemma testbit_u32 x i : 0 <= i < 32 -> Z.testbit (u32 x) i = Z.testbit x i.
Proof. intros Hi. unfold uwrap. apply Z.mod_pow2_bits_low. lia. Qed.

(** Setting and clearing bit [j]. *)
Lemma set_bit_wrote bs n a b j c c' k :
  wrote bs n b (j `div` 32) (Z.lor (entry c b (j `div` 32)) (Z.shiftl 1 (j `mod` 32))) c c' -> bs = 4 * a -> 0 <= j -> 0 <= k < 8 * bs ->
  bit_at c' b k = bool_decide (k = j) || bit_at c b k.
Proof.
  intros W Ha Hj Hk. rewrite (bit_wrote _ _ _ _ _ _ _ _ _ W Ha Hk). pose proof (Z.mod_pos_bound k 32 ltac:(lia)). pose proof (Z.mod_pos_bound j 32 ltac:(lia)).
  pose proof (Z.div_mod k 32 ltac:(lia)). pose proof (Z.div_mod j 32 ltac:(lia)).
  destruct (bool_decide_reflect (k `div` 32 = j `div` 32)) as [E|N].
  - rewrite testbit_u32, Z.lor_spec, Z.shiftl_1_l, Z.pow2_bits_eqb by lia. unfold bit_at. rewrite E, orb_comm. f_equal.
    destruct (Z.eqb_spec (j `mod` 32) (k `mod` 32)), (bool_decide_reflect (k = j)); try done; [exfalso; lia|congruence].
  - rewrite bool_decide_false by congruence. done.
Qed.

Lemma clear_bit_wrote bs n a b j c c' k :
  wrote bs n b (j `div` 32) (Z.land (entry c b (j `div` 32)) (Z.lxor 0xffffffff (Z.shiftl 1 (j `mod` 32)))) c c' ->
  bs = 4 * a -> 0 <= j -> 0 <= k < 8 * bs -> bit_at c' b k = bit_at c b k && negb (bool_decide (k = j)).
Proof.
  intros W Ha Hj Hk. rewrite (bit_wrote _ _ _ _ _ _ _ _ _ W Ha Hk). pose proof (Z.mod_pos_bound k 32 ltac:(lia)). pose proof (Z.mod_pos_bound j 32 ltac:(lia)).
  pose proof (Z.div_mod k 32 ltac:(lia)). pose proof (Z.div_mod j 32 ltac:(lia)).
  destruct (bool_decide_reflect (k `div` 32 = j `div` 32)) as [E|N].
  - rewrite testbit_u32, Z.land_spec, Z.lxor_spec by lia. change 0xffffffff with (Z.ones 32). rewrite Z.ones_spec_low, Z.shiftl_1_l, Z.pow2_bits_eqb by lia.
    unfold bit_at. rewrite E. f_equal. rewrite xorb_true_l. f_equal.
    destruct (Z.eqb_spec (j `mod` 32) (k `mod` 32)), (bool_decide_reflect (k = j)); try done; [exfalso; lia|congruence].
  - rewrite bool_decide_false by congruence. by rewrite andb_true_r.
Qed.

Lemma clear_count_set bs n a b j m c c' :
  wrote bs n b (j `div` 32) (Z.lor (entry c b (j `div` 32)) (Z.shiftl 1 (j `mod` 32))) c c' -> bs = 4 * a -> 0 <= j < m -> m <= 8 * bs ->
  bit_at c b j = false -> clear_count c' b m = clear_count c b m - 1.
Proof.
  intros W Ha Hj Hm E. unfold clear_count.
  rewrite (filter_gain (fun k => bit_at c' b k = false) (fun k => bit_at c b k = false) (seqZ 0 m) j); [lia|apply NoDup_seqZ|apply elem_of_seqZ; lia| |done|].
  - rewrite (set_bit_wrote _ _ _ _ _ _ _ _ W Ha) by lia. by rewrite bool_decide_true.
  - intros k Hk%elem_of_seqZ N. rewrite (set_bit_wrote _ _ _ _ _ _ _ _ W Ha) by lia. by rewrite bool_decide_false.
Qed.

Lemma clear_count_clear bs n a b j m c c' :
  wrote bs n b (j `div` 32) (Z.land (entry c b (j `div` 32)) (Z.lxor 0xffffffff (Z.shiftl 1 (j `mod` 32)))) c c' ->
  bs = 4 * a -> 0 <= j < m -> m <= 8 * bs -> bit_at c b j = true -> clear_count c' b m = clear_count c b m + 1.
Proof.
  intros W Ha Hj Hm E. unfold clear_count.
  rewrite (filter_gain (fun k => bit_at c b k = false) (fun k => bit_at c' b k = false) (seqZ 0 m) j); [lia|apply NoDup_seqZ|apply elem_of_seqZ; lia| | |].
  - by rewrite E.
  - rewrite (clear_bit_wrote _ _ _ _ _ _ _ _ W Ha) by lia. rewrite bool_decide_true by done. by rewrite andb_false_r.
  - intros k Hk%elem_of_seqZ N. rewrite (clear_bit_wrote _ _ _ _ _ _ _ _ W Ha) by lia. by rewrite bool_decide_false, andb_true_r.
Qed.

Lemma clear_count_pos c b m j : 0 <= j < m -> bit_at c b j = false -> 0 < clear_count c b m.
Proof.
  intros Hj E. unfold clear_count. assert (Hin : j ∈ filter (fun j => bit_at c b j = false) (seqZ 0 m)).
  { apply list_elem_of_filter. split; [done|]. apply elem_of_seqZ. lia. }
  destruct (filter _ _); [set_solver|cbn; lia].
Qed.

Lemma clear_count_bound c b m : 0 <= m -> 0 <= clear_count c b m <= m.
Proof.
  intros Hm. unfold clear_count. split; [lia|]. pose proof (length_filter (fun j => bit_at c b j = false) (seqZ 0 m)) as L.
  rewrite length_seqZ in L. lia.
Qed.

End bits.

(** ** Allocation *)

Section alloc.
Context {C : Type} `{BlockCacheOk C}.
Implicit Types (s : ext) (c : C).

Abbreviation bsz s := (sb_block_size (sb s)).
Abbreviation bpg s := (s_blocks_per_group (super s)).

Definition free_total (l : list group_desc) : Z := foldr (fun g n => g_free_blocks_count g + n) 0 l.
(** Block [j] of group [g]. *)
Definition block_of (s : ext) (g : nat) (j : Z) : Z := s_first_data_block (super s) + Z.of_nat g * bpg s + j.

Definition bitmap_block (s : ext) (x : Z) : Prop := exists g gd, group_descs s !! g = Some gd /\ x = g_block_bitmap gd.
Definition system_block (s : ext) (x : Z) : Prop := exists g gd, group_descs s !! g = Some gd /\
  (x = g_block_bitmap gd \/ x = g_inode_bitmap gd \/ g_inode_table gd <= x < g_inode_table gd + sb_inode_table_blocks_per_group (sb s)).
Definition is_free (s : ext) (c : C) (x : Z) : Prop := exists g gd j,
  group_descs s !! g = Some gd /\ 0 <= j < bpg s /\ x = block_of s g j /\ bit_at c (g_block_bitmap gd) j = false.

(** The bitmaps and the counts agree, and no free block is one of the server's own
    or in the cache. *)
Record alloc_ok (n : Z) (s : ext) (c : C) : Prop := {
  ao_info : info_ok (sb s);
  ao_le : be_cpu s = false;
  ao_ok : bok (bsz s) n c;
  ao_n : s_blocks_count (super s) <= n < 2 ^ 32;
  ao_first : 0 <= s_first_data_block (super s);
  ao_bpg : 0 < bpg s < 2 ^ 16 /\ bpg s <= 8 * bsz s;
  ao_groups : Z.of_nat (length (group_descs s)) = sb_groups_count (sb s);
  ao_cover : s_blocks_count (super s) <= s_first_data_block (super s) + sb_groups_count (sb s) * bpg s < 2 ^ 32;
  ao_bitmap g gd : group_descs s !! g = Some gd ->
    0 <= g_block_bitmap gd < n /\ g_free_blocks_count gd = clear_count c (g_block_bitmap gd) (bpg s);
  ao_inj g h gd hd : group_descs s !! g = Some gd -> group_descs s !! h = Some hd -> g_block_bitmap gd = g_block_bitmap hd -> g = h;
  ao_total : s_free_blocks_count (super s) = free_total (group_descs s);
  ao_free x : is_free s c x -> 0 < x < s_blocks_count (super s) /\ ~ system_block s x /\ bcached c x = false
}.

Lemma bitmap_system s x : bitmap_block s x -> system_block s x.
Proof. intros (g & gd & E & ->). exists g, gd. auto. Qed.

Lemma block_of_inj n s c g h i j : alloc_ok n s c -> 0 <= i < bpg s -> 0 <= j < bpg s -> block_of s g i = block_of s h j -> g = h /\ i = j.
Proof. intros A Hi Hj. unfold block_of. intros E. assert (Z.of_nat g = Z.of_nat h) by nia. split; [lia|nia]. Qed.

(** Blocks shown as before keep the bitmaps as they are. *)
Lemma quiet_bit n s c c' (U : Z -> Prop) b j : info_ok (sb s) -> quiet (bsz s) n U c c' -> 0 <= b < n -> 0 <= j < 8 * bsz s -> bit_at c' b j = bit_at c b j.
Proof.
  intros I Q Hb Hj. destruct (info_bounds _ I) as (_ & E4 & _). unfold bit_at. rewrite (quiet_entry _ _ _ _ _ _ _ Q); [done|done|..];
    pose proof (Z.div_mod j 32 ltac:(lia)); pose proof (Z.mod_pos_bound j 32 ltac:(lia)); lia.
Qed.

Lemma clear_count_ext c c' b m : (forall j, 0 <= j < m -> bit_at c' b j = bit_at c b j) -> clear_count c' b m = clear_count c b m.
Proof. intros Hb. unfold clear_count. do 2 f_equal. apply filter_ext_in. intros j Hj%elem_of_seqZ. by rewrite Hb by lia. Qed.

Lemma quiet_free n s c c' (U : Z -> Prop) x : alloc_ok n s c -> quiet (bsz s) n U c c' -> is_free s c' x <-> is_free s c x.
Proof.
  intros A Q. pose proof (ao_bpg _ _ _ A). split; intros (g & gd & j & E & Hj & Ex & Eb); exists g, gd, j; split_and!; try done; try lia.
  - rewrite <- Eb. symmetry. apply (quiet_bit n s c c' U); [apply A|done|by apply (ao_bitmap _ _ _ A g)|lia].
  - rewrite <- Eb. apply (quiet_bit n s c c' U); [apply A|done|by apply (ao_bitmap _ _ _ A g)|lia].
Qed.

Lemma quiet_alloc n s c c' (U : Z -> Prop) : alloc_ok n s c -> quiet (bsz s) n U c c' -> (forall x, U x -> ~ is_free s c x) -> alloc_ok n s c'.
Proof.
  intros A Q HU. pose proof (ao_bpg _ _ _ A) as Hb. constructor; try apply A.
  - by apply (q_ok _ _ _ _ _ Q).
  - intros g gd E. destruct (ao_bitmap _ _ _ A g gd E) as [H1 H2]. split; [done|]. rewrite H2. symmetry. apply clear_count_ext.
    intros j Hj. apply (quiet_bit n s c c' U); [apply A|done|done|lia].
  - intros x Hx. apply (quiet_free n s c c' U x A Q) in Hx. destruct (ao_free _ _ _ A x Hx) as (H1 & H2 & H3). split_and!; [lia..|done|].
    destruct (bcached c' x) eqn:E; [|done]. destruct (q_cached _ _ _ _ _ Q x E) as [E'|Hu]; [congruence|]. by destruct (HU x Hu).
Qed.

(** The server's variables after a block of group [g] was taken ([d = -1]) or given
    back ([d = 1]). *)
Definition counted (g : nat) (d : Z) (s : ext) : ext :=
  s <| group_descs := alter (fun gd => gd <| g_free_blocks_count := uwrap 16 (g_free_blocks_count gd + d) |>) g (group_descs s) |>
    <| super := super s <| s_free_blocks_count := u32 (s_free_blocks_count (super s) + d) |> |>
    <| sb_group_descriptors_dirty := true |>.

Lemma counted_lookup g d s h hd : group_descs (counted g d s) !! h = Some hd ->
  exists hd0, group_descs s !! h = Some hd0 /\
    hd = if bool_decide (h = g) then hd0 <| g_free_blocks_count := uwrap 16 (g_free_blocks_count hd0 + d) |> else hd0.
Proof.
  unfold counted. cbn. intros E. case_bool_decide as Eh.
  - subst h. rewrite list_lookup_alter_eq in E. apply fmap_Some in E as (hd0 & E & ->). by exists hd0.
  - rewrite list_lookup_alter_ne in E by done. by exists hd.
Qed.

Lemma counted_system g d s x : system_block (counted g d s) x <-> system_block s x.
Proof.
  unfold system_block. split.
  - intros (h & hd & E & Hx). apply counted_lookup in E as (hd0 & E & ->). exists h, hd0. split; [done|]. by case_bool_decide.
  - intros (h & hd & E & Hx). exists h. unfold counted. cbn. destruct (decide (h = g)) as [->|N].
    + rewrite list_lookup_alter_eq, E. eexists. split; [done|]. exact Hx.
    + rewrite list_lookup_alter_ne by done. by exists hd.
Qed.

Lemma free_total_alter (l : list group_desc) g gd d : l !! g = Some gd -> 0 <= g_free_blocks_count gd + d < 2 ^ 16 ->
  free_total (alter (fun gd => gd <| g_free_blocks_count := uwrap 16 (g_free_blocks_count gd + d) |>) g l) = free_total l + d.
Proof.
  set (f := fun gd : group_desc => _). revert g. induction l as [|x l IH]; intros [|g] E Hr; try done.
  - injection E as ->. change (g_free_blocks_count (f gd) + free_total l = g_free_blocks_count gd + free_total l + d).
    unfold f. cbn. rewrite uwrap_small by done. lia.
  - specialize (IH g E Hr). change (g_free_blocks_count x + free_total (alter f g l) = g_free_blocks_count x + free_total l + d). lia.
Qed.

Lemma free_total_nonneg n s c : alloc_ok n s c -> forall g gd, group_descs s !! g = Some gd -> 0 <= g_free_blocks_count gd < 2 ^ 16.
Proof.
  intros A g gd E. rewrite (proj2 (ao_bitmap _ _ _ A g gd E)). pose proof (ao_bpg _ _ _ A).
  pose proof (clear_count_bound c (g_block_bitmap gd) (bpg s)). lia.
Qed.

Lemma free_total_cons x (l : list group_desc) : free_total (x :: l) = g_free_blocks_count x + free_total l.
Proof. done. Qed.

Lemma free_total_pos (l : list group_desc) : (forall x, x ∈ l -> 0 <= g_free_blocks_count x) -> 0 <= free_total l.
Proof.
  induction l as [|y l IH]; intros Hl; [done|]. rewrite free_total_cons. pose proof (Hl y ltac:(set_solver)).
  specialize (IH ltac:(set_solver)). lia.
Qed.

Lemma free_total_ge (l : list group_desc) g gd : (forall x, x ∈ l -> 0 <= g_free_blocks_count x) -> l !! g = Some gd ->
  g_free_blocks_count gd <= free_total l.
Proof.
  revert g. induction l as [|x l IH]; intros [|g] Hl E; try done; rewrite free_total_cons.
  - injection E as ->. pose proof (free_total_pos l ltac:(set_solver)). lia.
  - specialize (IH g ltac:(set_solver) E). pose proof (Hl x ltac:(set_solver)). lia.
Qed.

Lemma free_total_le (l : list group_desc) m : (forall x, x ∈ l -> g_free_blocks_count x <= m) -> free_total l <= Z.of_nat (length l) * m.
Proof.
  induction l as [|y l IH]; intros Hl; [done|]. rewrite free_total_cons. cbn [length]. pose proof (Hl y ltac:(set_solver)).
  specialize (IH ltac:(set_solver)). lia.
Qed.

Lemma free_blocks_bound n s c : alloc_ok n s c -> 0 <= s_free_blocks_count (super s) < 2 ^ 32.
Proof.
  intros A. rewrite (ao_total _ _ _ A). split.
  - apply free_total_pos. intros x [g E]%list_elem_of_lookup. apply (free_total_nonneg n s c A g x E).
  - pose proof (free_total_le (group_descs s) (bpg s)) as L. rewrite (ao_groups _ _ _ A) in L. pose proof (ao_cover _ _ _ A). pose proof (ao_first _ _ _ A).
    assert (free_total (group_descs s) <= sb_groups_count (sb s) * bpg s); [apply L|lia].
    intros x [g E]%list_elem_of_lookup. rewrite (proj2 (ao_bitmap _ _ _ A g x E)). apply clear_count_bound. pose proof (ao_bpg _ _ _ A). lia.
Qed.

(** What taking block [b] does. *)
Record allocated (n : Z) (s : ext) (c : C) (b : Z) (s' : ext) (c' : C) : Prop := {
  al_free : is_free s c b;
  al_ok : alloc_ok n s' c';
  al_after x : is_free s' c' x <-> is_free s c x /\ x <> b;
  al_count : s_free_blocks_count (super s') = s_free_blocks_count (super s) - 1;
  al_holds q x : bholds c q x -> bholds c' q x;
  al_view x i : 0 <= x < n -> 0 <= i < bsz s -> ~ bitmap_block s x -> bview c' x i = bview c x i;
  al_clean x : 0 <= x < n -> bclean (bsz s) c x -> bclean (bsz s) c' x;
  al_cached x : bcached c' x = true -> bcached c x = true \/ bitmap_block s x;
  al_sys x : (system_block s' x <-> system_block s x) /\ (bitmap_block s' x <-> bitmap_block s x);
  al_frame : exists sp gs, s' = s <| super := sp |> <| group_descs := gs |> <| sb_group_descriptors_dirty := true |> <| rands := rands s' |> /\
    sp = super s <| s_free_blocks_count := s_free_blocks_count sp |>
}.

Lemma counted_bitmap g d s x : bitmap_block (counted g d s) x <-> bitmap_block s x.
Proof.
  unfold bitmap_block. split.
  - intros (h & hd & E & ->). apply counted_lookup in E as (hd0 & E & ->). exists h, hd0. split; [done|]. by case_bool_decide.
  - intros (h & hd & E & ->). exists h. unfold counted. cbn. destruct (decide (h = g)) as [->|N].
    + rewrite list_lookup_alter_eq, E. by eexists.
    + rewrite list_lookup_alter_ne by done. by exists hd.
Qed.

Section take_block.
Context (n : Z) (s : ext) (c c1 c2 : C) (g : nat) (gd : group_desc) (j : Z).
Context (A : alloc_ok n s c) (Eg : group_descs s !! g = Some gd) (Hj : 0 <= j < bpg s) (Ej : bit_at c (g_block_bitmap gd) j = false).
Context (Q : quiet (bsz s) n (fun x => x = g_block_bitmap gd) c c1).
Context (W : wrote (bsz s) n (g_block_bitmap gd) (j `div` 32)
  (Z.lor (entry c1 (g_block_bitmap gd) (j `div` 32)) (Z.shiftl 1 (j `mod` 32))) c1 c2).

Lemma take_bits h hd k : group_descs s !! h = Some hd -> 0 <= k < bpg s ->
  bit_at c2 (g_block_bitmap hd) k = (bool_decide (h = g) && bool_decide (k = j)) || bit_at c (g_block_bitmap hd) k.
Proof.
  intros E Hk. destruct (info_bounds _ (ao_info _ _ _ A)) as (_ & E4 & _). pose proof (ao_bpg _ _ _ A).
  destruct (ao_bitmap _ _ _ A h hd E) as [Hb _]. rewrite <- (quiet_bit n s c c1 _ (g_block_bitmap hd) k (ao_info _ _ _ A) Q Hb) by lia.
  destruct (decide (h = g)) as [->|N].
  - rewrite E in Eg. injection Eg as ->. rewrite (bool_decide_true (g = g)) by done. apply (set_bit_wrote _ _ _ _ _ _ _ _ W E4); lia.
  - rewrite (bool_decide_false (h = g)) by done. cbn [andb orb]. unfold bit_at. rewrite (wrote_ne _ _ _ _ _ _ _ _ _ W); [done|..].
    + apply Z.div_pos; lia.
    + pose proof (Z.div_mod k 32 ltac:(lia)). pose proof (Z.mod_pos_bound k 32 ltac:(lia)). lia.
    + left. intros Eb. by destruct N, (ao_inj _ _ _ A h g hd gd E Eg Eb).
Qed.

Lemma take_free x : is_free (counted g (-1) s) c2 x <-> is_free s c x /\ x <> block_of s g j.
Proof.
  split.
  - intros (h & hd & k & E & Hk & -> & Eb). apply counted_lookup in E as (hd0 & E & ->).
    assert (Eb' : bit_at c2 (g_block_bitmap hd0) k = false) by (by case_bool_decide).
    rewrite (take_bits h hd0 k E Hk) in Eb'. apply orb_false_iff in Eb' as [N Eb']. split; [by exists h, hd0, k|].
    intros Ex. apply (block_of_inj n s c h g k j A) in Ex as [-> ->]; [|done..]. by rewrite !bool_decide_true in N.
  - intros [(h & hd & k & E & Hk & -> & Eb) N]. unfold is_free, counted. cbn.
    exists h. destruct (decide (h = g)) as [->|Nh].
    + rewrite list_lookup_alter_eq, E. cbn. eexists _, k. split_and!; [done|lia|lia|done|]. cbn. rewrite (take_bits g hd k E Hk), Eb, orb_false_r.
      rewrite (bool_decide_false (k = j)); [apply andb_false_r|]. by intros ->.
    + rewrite list_lookup_alter_ne by done. exists hd, k. split_and!; [done|lia|lia|done|].
      by rewrite (take_bits h hd k E Hk), Eb, orb_false_r, bool_decide_false.
Qed.

Lemma take_total : 0 < g_free_blocks_count gd /\ s_free_blocks_count (super (counted g (-1) s)) = s_free_blocks_count (super s) - 1 /\
  s_free_blocks_count (super (counted g (-1) s)) = free_total (group_descs (counted g (-1) s)).
Proof.
  pose proof (free_total_nonneg n s c A) as Hn. pose proof (Hn g gd Eg) as Hg. pose proof (ao_total _ _ _ A) as Et. pose proof (free_blocks_bound n s c A) as Hl.
  assert (0 < g_free_blocks_count gd).
  { rewrite (proj2 (ao_bitmap _ _ _ A g gd Eg)). by apply (clear_count_pos _ _ _ j). }
  assert (Hge : g_free_blocks_count gd <= free_total (group_descs s)).
  { apply (free_total_ge _ g); [|done]. intros x [k Ek]%list_elem_of_lookup. apply (Hn k x Ek). }
  pose proof (free_total_alter (group_descs s) g gd (-1) Eg ltac:(lia)) as T.
  assert (U : s_free_blocks_count (super (counted g (-1) s)) = s_free_blocks_count (super s) - 1) by (apply uwrap_small; lia).
  split_and!; [done|done|]. rewrite U. etransitivity; [|symmetry; exact T]. lia.
Qed.

Lemma take_alloc_ok : alloc_ok n (counted g (-1) s) c2.
Proof.
  pose proof take_total as (Hpos & Ecnt & Etot). pose proof (ao_bpg _ _ _ A) as Hb.
  constructor; try apply A.
  - by apply (w_ok _ _ _ _ _ _ _ W).
  - cbn. rewrite length_alter. apply A.
  - intros h hd E. apply counted_lookup in E as (hd0 & E & ->). destruct (ao_bitmap _ _ _ A h hd0 E) as [H1 H2].
    destruct (info_bounds _ (ao_info _ _ _ A)) as (_ & E4 & _).
    assert (Hc : clear_count c1 (g_block_bitmap hd0) (bpg s) = clear_count c (g_block_bitmap hd0) (bpg s)).
    { apply clear_count_ext. intros k Hk. apply (quiet_bit n s c c1 _ _ _ (ao_info _ _ _ A) Q); [done|lia]. }
    case_bool_decide as Eh.
    + subst h. rewrite E in Eg. injection Eg as ->. split; [done|]. cbn. rewrite uwrap_small by (pose proof (free_total_nonneg n s c A g gd E); lia).
      rewrite H2, <- Hc. assert (E1 : bit_at c1 (g_block_bitmap gd) j = false)
        by (rewrite (quiet_bit n s c c1 _ _ _ (ao_info _ _ _ A) Q); [done|done|lia]).
      pose proof (clear_count_set _ _ _ _ _ (bpg s) _ _ W E4 Hj ltac:(lia) E1). lia.
    + split; [done|]. rewrite H2. symmetry. apply clear_count_ext. intros k Hk. cbn in Hk. by rewrite (take_bits h hd0 k E Hk), bool_decide_false.
  - intros h k hd kd Eh Ek Eb. apply counted_lookup in Eh as (hd0 & Eh & ->). apply counted_lookup in Ek as (kd0 & Ek & ->).
    apply (ao_inj _ _ _ A h k hd0 kd0 Eh Ek). by repeat case_bool_decide.
  - done.
  - intros x [Hx Hne]%take_free. destruct (ao_free _ _ _ A x Hx) as (H1 & H2 & H3). split_and!; [apply H1|apply H1| |].
    + by rewrite counted_system.
    + rewrite (w_cached _ _ _ _ _ _ _ W). destruct (bcached c1 x) eqn:Ec; [|done].
      destruct (q_cached _ _ _ _ _ Q x Ec) as [?| ->]; [congruence|]. destruct H2. apply bitmap_system. by exists g, gd.
Qed.

Lemma take_allocated : allocated n s c (block_of s g j) (counted g (-1) s) c2.
Proof.
  constructor.
  - by exists g, gd, j.
  - exact take_alloc_ok.
  - exact take_free.
  - apply take_total.
  - intros q x Hq. by apply (w_holds _ _ _ _ _ _ _ W), (q_holds _ _ _ _ _ Q).
  - intros x i Hx Hi N. rewrite (w_view _ _ _ _ _ _ _ W) by done. rewrite bool_decide_false; [by apply (q_view _ _ _ _ _ Q)|].
    intros ->. apply N. by exists g, gd.
  - intros x Hx Hc. apply (w_clean _ _ _ _ _ _ _ W). right. by apply (q_clean _ _ _ _ _ Q).
  - intros x. rewrite (w_cached _ _ _ _ _ _ _ W). intros Ec. destruct (q_cached _ _ _ _ _ Q x Ec) as [?| ->]; [by left|right; by exists g, gd].
  - intros x. split; [apply counted_system|apply counted_bitmap].
  - by eexists _, _.
Qed.

End take_block.

Lemma run_check_block n s c c' gd x g : alloc_ok n s c -> group_descs s !! g = Some gd -> is_free s c x ->
  check_block_number gd x (s, c') = Some ((), (s, c')).
Proof.
  intros A E Hx. destruct (ao_free _ _ _ A x Hx) as (H1 & H2 & _). unfold check_block_number.
  do 2 (erewrite ebind by reflexivity). assert (N : ~ (x = g_block_bitmap gd \/ x = g_inode_bitmap gd \/
    g_inode_table gd <= x < g_inode_table gd + sb_inode_table_blocks_per_group (sb s))) by (intros N; apply H2; by exists g, gd).
  cbn [fst]. rewrite !bool_decide_false by (try tauto; lia). done.
Qed.

Lemma run_alloc_loop n s c fuel i : alloc_ok n s c ->
  (forall h hd, group_descs s !! h = Some hd -> (h < i)%nat -> g_free_blocks_count hd = 0) ->
  (exists h hd, group_descs s !! h = Some hd /\ g_free_blocks_count hd <> 0) -> (length (group_descs s) < i + fuel)%nat ->
  exists b s' c', alloc_block_loop fuel (Z.of_nat i) (s, c) = Some (b, (s', c')) /\ rands s' = rands s /\ allocated n s c b s' c'.
Proof.
  intros A. revert i. induction fuel as [|fuel IH]; intros i Hz (h & hd & Eh & Hh) Hf.
  { exfalso. apply Hh, (Hz h hd Eh). apply lookup_lt_Some in Eh. lia. }
  assert (Hi : (i < length (group_descs s))%nat).
  { apply lookup_lt_Some in Eh as Hlt. destruct (decide (h < i)%nat) as [L|L]; [by destruct Hh; apply (Hz h hd Eh)|lia]. }
  destruct (lookup_lt_is_Some_2 _ _ Hi) as [gd Eg]. pose proof (ao_groups _ _ _ A) as Hg. pose proof (ao_bpg _ _ _ A) as Hb.
  cbn [alloc_block_loop]. erewrite ebind by reflexivity. cbn [fst]. rewrite Z.mod_small by lia.
  assert (Gd : get_group_desc (Z.of_nat i) (s, c) = Some (Some gd, (s, c))).
  { unfold get_group_desc, get. cbn [fst]. rewrite bool_decide_false, Nat2Z.id, Eg by lia. done. }
  rewrite (ebind _ _ _ _ _ Gd). destruct (bool_decide_reflect (g_free_blocks_count gd = 0)) as [E0|N0].
  { replace (Z.of_nat i + 1) with (Z.of_nat (S i)) by lia. apply IH; [|eauto|lia]. intros k kd Ek Hk.
    destruct (decide (k = i)) as [->|]; [|apply (Hz k kd Ek); lia]. congruence. }
  destruct (ao_bitmap _ _ _ A i gd Eg) as [Hbm Hcnt]. destruct (info_bounds _ (ao_info _ _ _ A)) as (_ & E4 & _).
  destruct (run_get_read (bsz s) n s c (g_block_bitmap gd) (ao_ok _ _ _ A) Hbm) as (p & c1 & Ep & Hp & Q). rewrite (ebind _ _ _ _ _ Ep).
  erewrite ebind by reflexivity. cbn [fst].
  assert (Hc1 : clear_count c1 (g_block_bitmap gd) (bpg s) = clear_count c (g_block_bitmap gd) (bpg s)).
  { apply clear_count_ext. intros k Hk. apply (quiet_bit n s c c1 _ _ _ (ao_info _ _ _ A) Q); [done|lia]. }
  pose proof (clear_count_bound c (g_block_bitmap gd) (bpg s) ltac:(lia)) as Hcb.
  destruct (alloc_bit_ok (bsz s) _ n s c1 p (g_block_bitmap gd) (bpg s) (q_ok _ _ _ _ _ Q) Hp E4 ltac:(lia) ltac:(lia)) as (j & Hj & Ej & Ea).
  rewrite (ebind _ _ _ _ _ Ea). rewrite (bool_decide_true (j <> -1)) by lia.
  assert (Ej0 : bit_at c (g_block_bitmap gd) j = false)
    by (rewrite <- Ej; symmetry; apply (quiet_bit n s c c1 _ _ _ (ao_info _ _ _ A) Q); [done|lia]).
  assert (Hfree : is_free s c (block_of s i j)) by (by exists i, gd, j). destruct (ao_free _ _ _ A _ Hfree) as (Hr & _ & _).
  pose proof (ao_n _ _ _ A) as Hn.
  assert (Eb : u32 (s_first_data_block (super s) + Z.of_nat i * bpg s + j) = block_of s i j) by (apply uwrap_small; unfold block_of in Hr |- *; lia).
  rewrite Eb. cbv zeta. rewrite (ebind _ _ _ _ _ (run_check_block n s c _ gd _ i A Eg Hfree)). erewrite ebind by reflexivity.
  destruct (run_commit (bsz s) n s c1 p (g_block_bitmap gd) (j `div` 32) (Z.lor (entry c1 (g_block_bitmap gd) (j `div` 32)) (Z.shiftl 1 (j `mod` 32)))
    (q_ok _ _ _ _ _ Q) Hp) as (c2 & Ec & W). cbn [fst snd]. rewrite (ebind _ _ _ _ _ Ec). do 3 (erewrite ebind by reflexivity).
  exists (block_of s i j), (counted i (-1) s), c2. split; [|split; [done|by apply (take_allocated n s c c1 c2 i gd j)]].
  unfold counted. cbn [fst snd]. rewrite Nat2Z.id. reflexivity.
Qed.

Lemma alloc_ok_rands n s c r : alloc_ok n s c -> alloc_ok n (s <| rands := r |>) c.
Proof. intros []. by constructor. Qed.

Lemma allocated_rands n s c r b s' c' : rands s' = r -> allocated n (s <| rands := r |>) c b s' c' -> allocated n s c b s' c'.
Proof.
  intros Er [F O Af Cn Hd V Cl Ca Sy (sp & gs & Es & Esp)]. constructor; try done. exists sp, gs. split; [|done].
  rewrite Es. by rewrite Er.
Qed.

Lemma alloc_block_ok n s c ip goal : alloc_ok n s c -> s_free_blocks_count (super s) <> 0 ->
  exists b s' c', alloc_block ip goal (s, c) = Some (b, (s', c')) /\ allocated n s c b s' c'.
Proof.
  intros A N. unfold alloc_block. erewrite ebind by reflexivity. cbn [fst]. rewrite bool_decide_false by done. erewrite ebind by reflexivity. cbn [fst].
  set (g := if bool_decide (goal = NO_BLOCK) then _ else _). set (cond := bool_decide _ || _).
  assert (R : exists r x, (if cond then rand else mret g) (s, c) = Some (x, (s <| rands := r |>, c))).
  { destruct cond; [by eexists _, _|]. exists (rands s), g. unfold mret, E_ret. by destruct s. }
  destruct R as (r & x & Er). rewrite (ebind _ _ _ _ _ Er). erewrite ebind by reflexivity. cbn [fst].
  assert (A' : alloc_ok n (s <| rands := r |>) c) by (by apply alloc_ok_rands).
  destruct (run_alloc_loop n _ c (Z.to_nat (sb_groups_count (sb s) + 1)) 0 A') as (b & s' & c' & E & Er' & Al).
  - intros h hd _ Hlt. lia.
  - destruct (decide (Exists (fun gd => g_free_blocks_count gd <> 0) (group_descs s))) as [Ex|Nx].
    + apply Exists_exists in Ex as (gd & [h Eh]%list_elem_of_lookup & Hn). by exists h, gd.
    + exfalso. apply N. rewrite (ao_total _ _ _ A). apply not_Exists_Forall in Nx; [|apply _]. clear -Nx.
      induction Nx as [|gd l Hg Hl IH]; [done|]. rewrite free_total_cons, IH. destruct (decide (g_free_blocks_count gd = 0)); [lia|by destruct Hg].
  - cbn. pose proof (ao_groups _ _ _ A). lia.
  - exists b, s', c'. split; [exact E|]. by apply (allocated_rands n s c r).
Qed.

Lemma alloc_block_full s c ip goal : s_free_blocks_count (super s) = 0 -> alloc_block ip goal (s, c) = Some (NO_BLOCK, (s, c)).
Proof. intros E. unfold alloc_block. erewrite ebind by reflexivity. cbn [fst]. by rewrite bool_decide_true. Qed.

(** Giving block [b] back. *)
Record released (n : Z) (s : ext) (c : C) (b : Z) (s' : ext) (c' : C) : Prop := {
  re_ok : alloc_ok n s' c';
  re_after x : is_free s' c' x <-> is_free s c x \/ x = b;
  re_count : s_free_blocks_count (super s') = s_free_blocks_count (super s) + 1;
  re_view x i : 0 <= x < n -> 0 <= i < bsz s -> ~ bitmap_block s x -> x <> b -> bview c' x i = bview c x i;
  re_clean x : 0 <= x < n -> bclean (bsz s) c x -> bclean (bsz s) c' x;
  re_frame : exists sp gs, s' = s <| super := sp |> <| group_descs := gs |> <| sb_group_descriptors_dirty := true |> /\
    sp = super s <| s_free_blocks_count := s_free_blocks_count sp |>
}.

(** A block of the device that is neither free nor the server's own. *)
Definition taken (s : ext) (c : C) (b : Z) : Prop :=
  s_first_data_block (super s) <= b < s_blocks_count (super s) /\ 0 < b /\ ~ system_block s b /\ ~ is_free s c b.

Lemma taken_bit n s c b : alloc_ok n s c -> taken s c b -> exists g gd j, group_descs s !! g = Some gd /\ 0 <= j < bpg s /\
  b = block_of s g j /\ bit_at c (g_block_bitmap gd) j = true /\
  Z.of_nat g = (b - s_first_data_block (super s)) `div` bpg s /\ j = (b - s_first_data_block (super s)) `mod` bpg s.
Proof.
  intros A (Hr & _ & _ & Nf). pose proof (ao_bpg _ _ _ A) as [Hb _]. pose proof (ao_cover _ _ _ A). pose proof (ao_groups _ _ _ A).
  set (k := b - s_first_data_block (super s)) in *. pose proof (Z.div_mod k (bpg s) ltac:(lia)) as Dm. pose proof (Z.mod_pos_bound k (bpg s) ltac:(lia)).
  assert (0 <= k `div` bpg s < sb_groups_count (sb s)) by (split; [apply Z.div_pos; lia|apply Z.div_lt_upper_bound; nia]).
  destruct (lookup_lt_is_Some_2 (group_descs s) (Z.to_nat (k `div` bpg s))) as [gd E]; [lia|].
  assert (Eb : b = block_of s (Z.to_nat (k `div` bpg s)) (k `mod` bpg s)) by (unfold block_of; rewrite Z2Nat.id by lia; unfold k in *; lia).
  exists (Z.to_nat (k `div` bpg s)), gd, (k `mod` bpg s). split_and!; try done; try lia.
  destruct (bit_at c (g_block_bitmap gd) (k `mod` bpg s)) eqn:Et; [done|]. destruct Nf. by exists (Z.to_nat (k `div` bpg s)), gd, (k `mod` bpg s).
Qed.

Section give_block.
Context (n : Z) (s : ext) (c c1 c2 c3 : C) (g : nat) (gd : group_desc) (j : Z).
Context (A : alloc_ok n s c) (Eg : group_descs s !! g = Some gd) (Hj : 0 <= j < bpg s) (Ej : bit_at c (g_block_bitmap gd) j = true).
Context (T : taken s c (block_of s g j)).
Context (Q : quiet (bsz s) n (fun x => x = g_block_bitmap gd) c c1).
Context (W : wrote (bsz s) n (g_block_bitmap gd) (j `div` 32)
  (Z.land (entry c1 (g_block_bitmap gd) (j `div` 32)) (Z.lxor 0xffffffff (Z.shiftl 1 (j `mod` 32)))) c1 c2).
Context (O3 : bok (bsz s) n c3) (V3 : forall x i, bview c3 x i = if bool_decide (x = block_of s g j) then bdisk c2 (block_of s g j) i else bview c2 x i).
Context (D3 : forall x i, bdisk c3 x i = bdisk c2 x i) (K3 : forall x, bcached c3 x = bcached c2 x && negb (bool_decide (x = block_of s g j))).

Lemma give_bits h hd k : group_descs s !! h = Some hd -> 0 <= k < bpg s ->
  bit_at c3 (g_block_bitmap hd) k = bit_at c (g_block_bitmap hd) k && negb (bool_decide (h = g) && bool_decide (k = j)).
Proof.
  intros E Hk. destruct (info_bounds _ (ao_info _ _ _ A)) as (_ & E4 & _). pose proof (ao_bpg _ _ _ A).
  destruct (ao_bitmap _ _ _ A h hd E) as [Hb _]. pose proof (Z.div_mod k 32 ltac:(lia)). pose proof (Z.mod_pos_bound k 32 ltac:(lia)).
  assert (E3 : bit_at c3 (g_block_bitmap hd) k = bit_at c2 (g_block_bitmap hd) k).
  { unfold bit_at, entry. f_equal. apply word_at_ext. intros i Hi. rewrite V3, bool_decide_false; [done|]. intros Ex.
    destruct T as (_ & _ & Ns & _). apply Ns. exists h, hd. by rewrite <- Ex; auto. }
  rewrite E3. rewrite <- (quiet_bit n s c c1 _ (g_block_bitmap hd) k (ao_info _ _ _ A) Q Hb) by lia.
  destruct (decide (h = g)) as [->|N].
  - rewrite E in Eg. injection Eg as ->. rewrite (bool_decide_true (g = g)) by done. apply (clear_bit_wrote _ _ _ _ _ _ _ _ W E4); lia.
  - rewrite (bool_decide_false (h = g)), andb_true_r by done. unfold bit_at. rewrite (wrote_ne _ _ _ _ _ _ _ _ _ W); [done|lia..|].
    left. intros Eb. by destruct N, (ao_inj _ _ _ A h g hd gd E Eg Eb).
Qed.

Lemma give_free x : is_free (counted g 1 s) c3 x <-> is_free s c x \/ x = block_of s g j.
Proof.
  split.
  - intros (h & hd & k & E & Hk & -> & Eb). apply counted_lookup in E as (hd0 & E & ->).
    assert (Eb' : bit_at c3 (g_block_bitmap hd0) k = false) by (by case_bool_decide).
    rewrite (give_bits h hd0 k E Hk) in Eb'. apply andb_false_iff in Eb' as [Eb'|Eb']; [left; by exists h, hd0, k|right].
    apply negb_false_iff, andb_true_iff in Eb' as [->%bool_decide_eq_true ->%bool_decide_eq_true]. done.
  - intros Hx. assert (P : exists h hd k, group_descs s !! h = Some hd /\ 0 <= k < bpg s /\ x = block_of s h k /\ bit_at c3 (g_block_bitmap hd) k = false).
    { destruct Hx as [(h & hd & k & E & Hk & -> & Eb)| ->].
      - exists h, hd, k. split_and!; try done; try lia. by rewrite (give_bits h hd k E Hk), Eb.
      - exists g, gd, j. split_and!; try done; try lia. rewrite (give_bits g gd j Eg Hj), !bool_decide_true by done. apply andb_false_r. }
    destruct P as (h & hd & k & E & Hk & -> & Eb). unfold is_free, counted. cbn. exists h. destruct (decide (h = g)) as [->|Nh].
    + rewrite list_lookup_alter_eq, E. cbn. eexists _, k. by split_and!; [done|lia|lia|done|].
    + rewrite list_lookup_alter_ne by done. exists hd, k. by split_and!; [done|lia|lia|done|].
Qed.

Lemma give_count h hd : group_descs s !! h = Some hd ->
  clear_count c3 (g_block_bitmap hd) (bpg s) = g_free_blocks_count hd + (if bool_decide (h = g) then 1 else 0).
Proof.
  intros E. destruct (ao_bitmap _ _ _ A h hd E) as [H1 H2]. rewrite H2. case_bool_decide as Eh.
  - subst h. assert (hd = gd) as -> by congruence. unfold clear_count.
    rewrite (filter_gain (fun k => bit_at c (g_block_bitmap gd) k = false) (fun k => bit_at c3 (g_block_bitmap gd) k = false) (seqZ 0 (bpg s)) j);
      [lia|apply NoDup_seqZ|apply elem_of_seqZ; lia|by rewrite Ej|..].
    + rewrite (give_bits g gd j E Hj), !bool_decide_true by done. apply andb_false_r.
    + intros k Hk%elem_of_seqZ N. rewrite (give_bits g gd k E) by lia. by rewrite (bool_decide_false (k = j)), andb_false_r, andb_true_r.
  - rewrite Z.add_0_r. apply clear_count_ext. intros k Hk. by rewrite (give_bits h hd k E Hk), bool_decide_false, andb_true_r.
Qed.

Lemma give_total : 0 <= g_free_blocks_count gd + 1 < 2 ^ 16 /\ s_free_blocks_count (super (counted g 1 s)) = s_free_blocks_count (super s) + 1 /\
  s_free_blocks_count (super (counted g 1 s)) = free_total (group_descs (counted g 1 s)).
Proof.
  pose proof (free_total_nonneg n s c A) as Hn. pose proof (Hn g gd Eg) as Hg. pose proof (ao_bpg _ _ _ A) as Hb.
  assert (Hle : g_free_blocks_count gd + 1 <= bpg s).
  { pose proof (give_count g gd Eg) as Gc. rewrite bool_decide_true in Gc by done. rewrite <- Gc. apply clear_count_bound. lia. }
  pose proof (free_total_alter (group_descs s) g gd 1 Eg ltac:(lia)) as Ta. set (l' := alter _ g (group_descs s)) in Ta.
  assert (Hl' : free_total l' <= Z.of_nat (length l') * bpg s).
  { apply free_total_le. intros x [h E]%list_elem_of_lookup. destruct (counted_lookup g 1 s h x E) as (x0 & E0 & ->). case_bool_decide as Eh.
    - subst h. assert (x0 = gd) as -> by congruence. cbn. rewrite uwrap_small by lia. done.
    - rewrite (proj2 (ao_bitmap _ _ _ A h x0 E0)). apply clear_count_bound. lia. }
  unfold l' in Hl' at 2. rewrite length_alter, (ao_groups _ _ _ A) in Hl'. pose proof (ao_cover _ _ _ A). pose proof (ao_first _ _ _ A).
  pose proof (ao_total _ _ _ A) as Et. pose proof (free_blocks_bound n s c A).
  assert (U : s_free_blocks_count (super (counted g 1 s)) = s_free_blocks_count (super s) + 1) by (apply uwrap_small; lia).
  split_and!; [lia..|done|]. rewrite U, Et. symmetry. exact Ta.
Qed.

Lemma give_alloc_ok : alloc_ok n (counted g 1 s) c3.
Proof.
  pose proof give_total as (Hpos & Ecnt & Etot). constructor; try apply A.
  - done.
  - cbn. rewrite length_alter. apply A.
  - intros h hd E. apply counted_lookup in E as (hd0 & E & ->). destruct (ao_bitmap _ _ _ A h hd0 E) as [H1 H2].
    pose proof (give_count h hd0 E) as Gc. destruct (decide (h = g)) as [->|Nh].
    + assert (hd0 = gd) as -> by congruence. rewrite !bool_decide_true in * by done. split; [done|]. cbn. rewrite uwrap_small by lia. symmetry. exact Gc.
    + rewrite !bool_decide_false in * by done. rewrite Z.add_0_r in Gc. split; [done|]. symmetry. exact Gc.
  - intros h k hd kd Eh Ek Eb. apply counted_lookup in Eh as (hd0 & Eh & ->). apply counted_lookup in Ek as (kd0 & Ek & ->).
    apply (ao_inj _ _ _ A h k hd0 kd0 Eh Ek). by repeat case_bool_decide.
  - done.
  - intros x Hx%give_free. rewrite counted_system, K3, (w_cached _ _ _ _ _ _ _ W). destruct Hx as [Hx| ->].
    + destruct (ao_free _ _ _ A x Hx) as (H1 & H2 & H3). split_and!; [apply H1|apply H1|done|].
      destruct (bcached c1 x) eqn:Ec; [|done]. destruct (q_cached _ _ _ _ _ Q x Ec) as [?| ->]; [congruence|].
      destruct H2. apply bitmap_system. by exists g, gd.
    + destruct T as (Hr & Hp & Ns & _). split_and!; [done|apply Hr|done|]. rewrite bool_decide_true by done. apply andb_false_r.
Qed.

End give_block.

Lemma run_clear_bit bs a n s c p b j : bok bs n c -> bholds c p b -> bs = 4 * a -> 0 <= j < 8 * bs -> bit_at c b j = true ->
  clear_bit p j (s, c) = Some (0, (s, bstore p (4 * (j `div` 32))
    (word_bytes (u32 (Z.land (entry c b (j `div` 32)) (Z.lxor 0xffffffff (Z.shiftl 1 (j `mod` 32)))))) c)).
Proof.
  intros O Hh Ha Hj E. pose proof (Z.div_mod j 32 ltac:(lia)). pose proof (Z.mod_pos_bound j 32 ltac:(lia)).
  unfold clear_bit. rewrite (ebind _ _ _ _ _ (run_load32 bs n s c p b (j `div` 32) O Hh ltac:(lia) ltac:(lia))).
  rewrite bool_decide_false; [done|]. rewrite land_shiftl_1 by lia. unfold bit_at in E. by rewrite E.
Qed.

Lemma free_block_ok n s c b : alloc_ok n s c -> taken s c b -> bcached c b = false ->
  exists s' c', free_block b (s, c) = Some ((), (s', c')) /\ released n s c b s' c'.
Proof.
  intros A T Hv. destruct (taken_bit n s c b A T) as (g & gd & j & Eg & Hj & Eb & Ej & Dg & Dj).
  pose proof T as (Hr & Hp & Ns & _). pose proof (ao_bpg _ _ _ A) as Hb. destruct (info_bounds _ (ao_info _ _ _ A)) as (_ & E4 & _).
  unfold free_block. erewrite ebind by reflexivity. cbn [fst]. rewrite !bool_decide_false by lia. cbn [orb]. rewrite <- Dg, <- Dj. 
  assert (Gd : get_group_desc (Z.of_nat g) (s, c) = Some (Some gd, (s, c))).
  { unfold get_group_desc, get. cbn [fst]. apply lookup_lt_Some in Eg as Hlt. pose proof (ao_groups _ _ _ A).
    rewrite bool_decide_false, Nat2Z.id, Eg by lia. done. }
  rewrite (ebind _ _ _ _ _ Gd).
  assert (Ck : check_block_number gd b (s, c) = Some ((), (s, c))).
  { unfold check_block_number. do 2 (erewrite ebind by reflexivity). assert (N : ~ (b = g_block_bitmap gd \/ b = g_inode_bitmap gd \/
      g_inode_table gd <= b < g_inode_table gd + sb_inode_table_blocks_per_group (sb s))) by (intros N; apply Ns; by exists g, gd).
    cbn [fst]. rewrite !bool_decide_false by (try tauto; lia). done. }
  rewrite (ebind _ _ _ _ _ Ck). destruct (ao_bitmap _ _ _ A g gd Eg) as [Hbm _].
  destruct (run_get_read (bsz s) n s c (g_block_bitmap gd) (ao_ok _ _ _ A) Hbm) as (p & c1 & Ep & Hh & Q). rewrite (ebind _ _ _ _ _ Ep).
  assert (Ej1 : bit_at c1 (g_block_bitmap gd) j = true)
    by (rewrite <- Ej; apply (quiet_bit n s c c1 _ _ _ (ao_info _ _ _ A) Q); [done|lia]).
  rewrite (ebind _ _ _ _ _ (run_clear_bit (bsz s) _ n s c1 p _ j (q_ok _ _ _ _ _ Q) Hh E4 ltac:(lia) Ej1)).
  rewrite (bool_decide_false (0 <> 0)) by lia. erewrite ebind by reflexivity.
  destruct (run_commit (bsz s) n s c1 p (g_block_bitmap gd) (j `div` 32)
    (Z.land (entry c1 (g_block_bitmap gd) (j `div` 32)) (Z.lxor 0xffffffff (Z.shiftl 1 (j `mod` 32)))) (q_ok _ _ _ _ _ Q) Hh) as (c2 & Ec & W).
  cbn [fst snd]. rewrite (ebind _ _ _ _ _ Ec). do 3 (erewrite ebind by reflexivity). unfold invalidate_block. cbn [fst snd].
  assert (Hn : 0 <= b < n) by (pose proof (ao_n _ _ _ A); lia).
  assert (Hc2 : bcached c2 b = false).
  { rewrite (w_cached _ _ _ _ _ _ _ W). destruct (bcached c1 b) eqn:Ek; [|done].
    destruct (q_cached _ _ _ _ _ Q b Ek) as [?| ->]; [congruence|]. destruct Ns. apply bitmap_system. by exists g, gd. }
  destruct (binvalidate_ok (bsz s) n c2 b (w_ok _ _ _ _ _ _ _ W) Hn (or_introl Hc2)) as (c3 & E3 & O3 & _ & V3 & D3 & K3).
  rewrite E3. cbn [mbind option_bind]. rewrite Nat2Z.id.
  exists (counted g 1 s), c3. split; [reflexivity|].
  assert (K3' : forall x, bcached c3 x = bcached c2 x && negb (bool_decide (x = block_of s g j))) by (intros x; rewrite (proj1 (K3 x)); by subst b).
  rewrite Eb in *. constructor.
  - by apply (give_alloc_ok n s c c1 c2 c3 g gd j).
  - by apply (give_free n s c c1 c2 c3 g gd j).
  - by apply (give_total n s c c1 c2 c3 g gd j).
  - intros x i Hx Hi N Nx. rewrite V3, bool_decide_false by done. rewrite (w_view _ _ _ _ _ _ _ W), bool_decide_false by (try done; intros ->; apply N; by exists g, gd).
    by apply (q_view _ _ _ _ _ Q).
  - intros x Hx Hc i Hi. rewrite D3, V3. case_bool_decide as Ex; [by subst|]. apply (w_clean _ _ _ _ _ _ _ W); [|done]. right. by apply (q_clean _ _ _ _ _ Q).
  - by eexists _, _.
Qed.

Lemma allocated_same n s c b s' c' : allocated n s c b s' c' ->
  sb s' = sb s /\ inode_cache s' = inode_cache s /\ be_cpu s' = be_cpu s /\
  s_first_data_block (super s') = s_first_data_block (super s) /\ s_blocks_count (super s') = s_blocks_count (super s).
Proof. intros Al. destruct (al_frame _ _ _ _ _ _ Al) as (sp & gs & -> & ->). done. Qed.

Lemma allocated_taken n s c b s' c' : alloc_ok n s c -> allocated n s c b s' c' -> taken s' c' b /\ bcached c' b = false /\ b <> NO_BLOCK.
Proof.
  intros A Al. pose proof (al_free _ _ _ _ _ _ Al) as Fb. destruct (ao_free _ _ _ A b Fb) as (Hr & Ns & Nc).
  destruct (allocated_same _ _ _ _ _ _ Al) as (_ & _ & _ & Ef & Ec). split_and!.
  - unfold taken. rewrite Ef, Ec. destruct Fb as (g & gd & j & _ & Hj & Eb & _). split_and!; try lia.
    + rewrite Eb. unfold block_of. pose proof (ao_bpg _ _ _ A). nia.
    + by rewrite (proj1 (al_sys _ _ _ _ _ _ Al b)).
    + rewrite (al_after _ _ _ _ _ _ Al b). tauto.
  - destruct (bcached c' b) eqn:E; [|done]. destruct (al_cached _ _ _ _ _ _ Al b E) as [?|Bm]; [congruence|]. by destruct Ns; apply bitmap_system.
  - unfold NO_BLOCK. lia.
Qed.


End alloc.

(** ** The map of a file *)

Section map.
Context {C : Type} `{BlockCacheOk C}.
Implicit Types (s : ext) (c : C).

Abbreviation bsz s := (sb_block_size (sb s)).
Abbreviation addrs s := (sb_addr_in_block (sb s)).

(** The pointers of the inode at [ip] and of the blocks. *)
Definition fptr (s : ext) (c : C) (ip b o : Z) : Z :=
  if bool_decide (b = ROOT) then i_block_at o (odi (inode_cache s ip)) else entry c b o.

(** The block of a position of the file: the function the map implements. *)
Definition file_block (s : ext) (c : C) (ip position : Z) : Z :=
  walk (fptr s c ip) (snd (calc_block_indirection_offsets (sb s) position)).

(** The blocks of a file and of its map are taken, and no two of them are the same. *)
Record file_ok (s : ext) (c : C) (ip : Z) : Prop := {
  fo_len : length (i_block (odi (inode_cache s ip))) = 15%nat;
  fo_taken p : is_path (addrs s) p -> p <> [] -> walk (fptr s c ip) p <> NO_BLOCK -> taken s c (walk (fptr s c ip) p);
  fo_inj p q : is_path (addrs s) p -> is_path (addrs s) q -> walk (fptr s c ip) p <> NO_BLOCK ->
    walk (fptr s c ip) p = walk (fptr s c ip) q -> p = q
}.

Lemma walk_cons ptr i r : walk ptr (i :: r) = foldl (step ptr) (ptr ROOT i) r.
Proof. done. Qed.

Lemma foldl_0 ptr r : foldl (step ptr) NO_BLOCK r = NO_BLOCK.
Proof. induction r as [|o r IH]; [done|]. cbn. unfold step at 2. by rewrite bool_decide_true. Qed.

(** Down the indirect blocks, whose entries are [ptr]. *)
Lemma run_read_indirect bs n (U : Z -> Prop) (ptr : Z -> Z -> Z) s c offs block :
  be_cpu s = false -> bok bs n c -> (forall x, U x -> 0 <= x < n) ->
  (forall x o, U x -> 0 <= o -> 4 * o + 4 <= bs -> entry c x o = ptr x o) -> Forall (fun o => 0 <= o /\ 4 * o + 4 <= bs) offs ->
  (forall k, (k < length offs)%nat -> foldl (step ptr) block (take k offs) <> NO_BLOCK -> U (foldl (step ptr) block (take k offs))) ->
  exists c', read_indirect offs block (s, c) = Some (foldl (step ptr) block offs, (s, c')) /\ quiet bs n U c c'.
Proof.
  intros Hle. revert c block. induction offs as [|o offs IH]; intros c block O HU He Ho Hk; cbn [read_indirect].
  { exists c. split; [done|by apply quiet_refl]. }
  apply Forall_cons in Ho as [[Ho Hs] Hos]. destruct (bool_decide_reflect (block = NO_BLOCK)) as [->|N].
  { exists c. cbn [foldl]. unfold step at 2. rewrite bool_decide_true, foldl_0 by done. split; [done|by apply quiet_refl]. }
  pose proof (Hk 0%nat ltac:(cbn; lia) N) as Ub. cbn in Ub. pose proof (HU _ Ub) as Rb.
  destruct (run_get_read bs n s c block O Rb) as (p & c1 & Ep & Hh & Q1). rewrite (ebind _ _ _ _ _ Ep).
  assert (Er : read_indirect_block_entry p o (s, c1) = Some (ptr block o, (s, c1))).
  { unfold read_indirect_block_entry. erewrite ebind by reflexivity. cbn [fst]. rewrite Hle.
    rewrite (ebind _ _ _ _ _ (run_load32 bs n s c1 p block o (q_ok _ _ _ _ _ Q1) Hh Ho Hs)). cbn [bswap4].
    rewrite (quiet_entry _ _ _ _ _ _ _ Q1 Rb Ho Hs), (He block o Ub Ho Hs). done. }
  rewrite (ebind _ _ _ _ _ Er). destruct (run_put bs n s c1 p block (q_ok _ _ _ _ _ Q1) Hh) as (c2 & E2 & Q2). rewrite (ebind _ _ _ _ _ E2).
  assert (Q : quiet bs n U c c2).
  { apply (quiet_trans _ _ _ _ c1); [apply (quiet_weaken _ _ (fun x => x = block)); [by intros x ->|done]|].
    by apply (quiet_weaken _ _ (fun _ => False)). }
  assert (Es : step ptr block o = ptr block o) by (unfold step; by rewrite bool_decide_false).
  destruct (IH c2 (ptr block o) (q_ok _ _ _ _ _ Q) HU) as (c3 & E3 & Q3).
  - intros x k Ux H1 H2. rewrite (quiet_entry _ _ _ _ _ _ _ Q (HU _ Ux) H1 H2). by apply He.
  - done.
  - intros k Hl. specialize (Hk (S k) ltac:(cbn; lia)). cbn [take foldl] in Hk. by rewrite Es in Hk.
  - exists c3. cbn [foldl]. rewrite Es. split; [done|]. by apply (quiet_trans _ _ _ _ c2).
Qed.

Lemma is_path_offs a i r : is_path a (i :: r) -> Forall (fun o => 0 <= o < a) r.
Proof. by intros (_ & _ & Hr). Qed.

Lemma run_read_map n s c ip position : alloc_ok n s c -> file_ok s c ip ->
  exists c', read_map_entry ip position (s, c) = Some (file_block s c ip position, (s, c')) /\ quiet (bsz s) n (taken s c) c c'.
Proof.
  intros A F. pose proof (calc_leaf (sb s) position (ao_info _ _ _ A)) as Cl. unfold read_map_entry, file_block. erewrite ebind by reflexivity. cbn [fst].
  destruct (calc_block_indirection_offsets (sb s) position) as [depth offs]. destruct Cl as (Lf & Hd & Ed & Top). cbn [snd].
  rewrite bool_decide_false by lia. destruct offs as [|i r]; [done|]. pose proof (is_leaf_path _ _ Lf) as Pt. cbn [length] in Ed.
  destruct (bool_decide_reflect (depth = 0)) as [E0|N0].
  - destruct r; [|cbn in Ed; lia]. exists c. split; [reflexivity|apply quiet_refl, A].
  - destruct (Top ltac:(lia)) as (i' & r' & [= <- <-] & Et). unfold get_toplevel_indirect_block_entry. rewrite Et. erewrite ebind by reflexivity.
    cbn [tail fst]. destruct (info_bounds _ (ao_info _ _ _ A)) as (_ & E4 & _).
    apply (run_read_indirect (bsz s) n (taken s c) (fptr s c ip)); [apply A|apply A|..].
    + intros x (Hx & Hp & _). pose proof (ao_n _ _ _ A). lia.
    + intros x o (_ & Hp & _) _ _. unfold fptr. rewrite bool_decide_false; [done|]. unfold ROOT. lia.
    + apply Forall_impl with (fun o => 0 <= o < addrs s); [by apply (is_path_offs _ i)|]. intros o Ho. lia.
    + intros k Hk. assert (Pk : is_path (addrs s) (i :: take k r)).
      { apply (is_path_app _ _ (drop k r)). cbn [app]. by rewrite take_drop. }
      apply (fo_taken s c ip F (i :: take k r) Pk). done.
Qed.

(** The allocator looks at the bitmaps only. *)
Lemma alloc_frame n s c c' : alloc_ok n s c -> bok (bsz s) n c' ->
  (forall x i, bitmap_block s x -> 0 <= i < bsz s -> bview c' x i = bview c x i) ->
  (forall x, bcached c' x = true -> bcached c x = true \/ ~ is_free s c x) ->
  alloc_ok n s c' /\ forall x, is_free s c' x <-> is_free s c x.
Proof.
  intros A O V K. pose proof (ao_bpg _ _ _ A) as Hb. destruct (info_bounds _ (ao_info _ _ _ A)) as (_ & E4 & _).
  assert (B : forall g gd j, group_descs s !! g = Some gd -> 0 <= j < s_blocks_per_group (super s) ->
    bit_at c' (g_block_bitmap gd) j = bit_at c (g_block_bitmap gd) j).
  { intros g gd j E Hj. unfold bit_at, entry. f_equal. apply word_at_ext. intros k Hk. apply V; [by exists g, gd|].
    pose proof (Z.div_mod j 32 ltac:(lia)). pose proof (Z.mod_pos_bound j 32 ltac:(lia)). lia. }
  assert (Fr : forall x, is_free s c' x <-> is_free s c x).
  { intros x. split; intros (g & gd & j & E & Hj & Ex & Eb); exists g, gd, j; split_and!; try done; try lia; rewrite <- Eb; [symmetry|]; by apply (B g). }
  split; [|done]. constructor; try apply A; try done.
  - intros g gd E. destruct (ao_bitmap _ _ _ A g gd E) as [H1 H2]. split; [done|]. rewrite H2. symmetry. apply clear_count_ext. by intros; apply (B g).
  - intros x Hx. apply Fr in Hx. destruct (ao_free _ _ _ A x Hx) as (H1 & H2 & H3). split_and!; [apply H1|apply H1|done|].
    destruct (bcached c' x) eqn:Ec; [|done]. destruct (K x Ec); [congruence|done].
Qed.

Lemma alloc_ok_inodes n s c m : alloc_ok n s c -> alloc_ok n (s <| inode_cache := m |>) c.
Proof. intros []. by constructor. Qed.

(** A new block: taken and cleared. *)
Record cleared (n : Z) (s : ext) (c : C) (f : Z) (s' : ext) (c' : C) : Prop := {
  cl_free : is_free s c f;
  cl_alloc : alloc_ok n s' c';
  cl_after x : is_free s' c' x <-> is_free s c x /\ x <> f;
  cl_new : taken s' c' f;
  cl_count : s_free_blocks_count (super s') = s_free_blocks_count (super s) - 1;
  cl_holds q x : bholds c q x -> bholds c' q x;
  cl_zero o : 0 <= o < addrs s -> entry c' f o = NO_BLOCK;
  cl_view x i : 0 <= x < n -> 0 <= i < bsz s -> ~ bitmap_block s x -> x <> f -> bview c' x i = bview c x i;
  cl_clean x : 0 <= x < n -> bclean (bsz s) c x -> bclean (bsz s) c' x;
  cl_sys x : (system_block s' x <-> system_block s x) /\ (bitmap_block s' x <-> bitmap_block s x);
  cl_same : sb s' = sb s /\ inode_cache s' = inode_cache s /\
    s_first_data_block (super s') = s_first_data_block (super s) /\ s_blocks_count (super s') = s_blocks_count (super s)
}.

Lemma run_new_indirect n s c ip : alloc_ok n s c -> s_free_blocks_count (super s) <> 0 ->
  exists f s' c', new_indirect ip (s, c) = Some (Some f, (s', c')) /\ cleared n s c f s' c'.
Proof.
  intros A N. destruct (alloc_block_ok n s c ip NO_BLOCK A N) as (f & s1 & c1 & Ea & Al). unfold new_indirect. rewrite (ebind _ _ _ _ _ Ea).
  destruct (allocated_taken _ _ _ _ _ _ A Al) as (T & Nc & N0). destruct (allocated_same _ _ _ _ _ _ Al) as (Esb & Ein & Ebe & Ef & Ec).
  rewrite bool_decide_false by done. pose proof (al_ok _ _ _ _ _ _ Al) as A1. assert (Hf : 0 <= f < n).
  { destruct T as (Hr & Hp & _). pose proof (ao_n _ _ _ A1). lia. }
  destruct (clear_ok (bsz s1) n c1 f (ao_ok _ _ _ A1) Hf Nc) as (p & c2 & c3 & E2 & E3 & O3 & P3 & V3 & D3 & K3).
  assert (G : get_block f BLK_CLEAR (s1, c1) = Some (p, (s1, c2))) by (unfold get_block; cbn; by rewrite E2). rewrite (ebind _ _ _ _ _ G).
  erewrite ebind by reflexivity. assert (P : put_block p (s1, bmarkdirty p c2) = Some ((), (s1, c3))) by (unfold put_block; cbn; by rewrite E3).
  cbn [fst snd]. rewrite (ebind _ _ _ _ _ P). exists f, s1, c3. split; [reflexivity|].
  assert (Nb : forall x, bitmap_block s1 x -> x <> f).
  { intros x Bx ->. destruct T as (_ & _ & Ns & _). by apply Ns, bitmap_system. }
  destruct (alloc_frame n s1 c1 c3 A1 O3) as [A3 F3].
  { intros x i Bx Hi. rewrite V3, bool_decide_false; [done|by apply Nb| |done]. destruct Bx as (g & gd & Eg & ->). by apply (ao_bitmap _ _ _ A1 g). }
  { intros x. rewrite K3. intros [->%bool_decide_eq_true|?]%orb_true_iff; [right|by left]. by destruct T as (_ & _ & _ & Nf). }
  rewrite Esb in *. constructor; try done.
  - apply Al.
  - intros x. rewrite F3. apply Al.
  - unfold taken. rewrite F3. exact T.
  - apply Al.
  - intros q x Hq. by apply P3, (al_holds _ _ _ _ _ _ Al).
  - intros o Ho. unfold entry, word_at. destruct (info_bounds _ (ao_info _ _ _ A)) as (_ & E4 & _). rewrite !V3 by lia. by rewrite !bool_decide_true.
  - intros x i Hx Hi Bx Nx. rewrite V3, bool_decide_false by done. by apply (al_view _ _ _ _ _ _ Al).
  - intros x Hx Hc. apply D3; [done|]. right. by apply (al_clean _ _ _ _ _ _ Al).
  - apply Al.
Qed.

Lemma cleared_taken n s c f s' c' x : cleared n s c f s' c' -> taken s c x -> taken s' c' x.
Proof.
  intros Cl (Hr & Hp & Ns & Nf). destruct (cl_same _ _ _ _ _ _ Cl) as (_ & _ & E1 & E2). unfold taken. rewrite E1, E2.
  split_and!; [lia..| |]; [by rewrite (proj1 (cl_sys _ _ _ _ _ _ Cl x))|rewrite (cl_after _ _ _ _ _ _ Cl x); tauto].
Qed.

(** The tree of the file may have got more indirect blocks, taken from the free
    ones; the blocks of the file itself are the same. *)
Record grown (n : Z) (s : ext) (c : C) (ip : Z) (s' : ext) (c' : C) : Prop := {
  gr_alloc : alloc_ok n s' c';
  gr_file : file_ok s' c' ip;
  gr_leaf q : is_leaf (addrs s) q -> walk (fptr s' c' ip) q = walk (fptr s c ip) q;
  gr_nodes q : is_path (addrs s) q -> walk (fptr s' c' ip) q = walk (fptr s c ip) q \/
    (walk (fptr s c ip) q = NO_BLOCK /\ is_free s c (walk (fptr s' c' ip) q));
  gr_taken x : taken s c x -> taken s' c' x;
  gr_free x : is_free s' c' x -> is_free s c x;
  gr_sys x : (system_block s' x <-> system_block s x) /\ (bitmap_block s' x <-> bitmap_block s x);
  gr_sb : sb s' = sb s;
  gr_inode : exists l k d, inode_cache s' ip = inode_cache s ip <| odi := odi (inode_cache s ip) <| i_block := l |> <| i_blocks := k |> |> <| i_dirty := d |>;
  gr_others q : q <> ip -> inode_cache s' q = inode_cache s q;
  gr_holds q x : bholds c q x -> bholds c' q x;
  gr_clean x : 0 <= x < n -> bclean (bsz s) c x -> bclean (bsz s) c' x;
  gr_view x i : 0 <= x < n -> 0 <= i < bsz s -> ~ bitmap_block s x -> ~ is_free s c x ->
    (forall q, is_path (addrs s) q -> ~ is_leaf (addrs s) q -> walk (fptr s c ip) q <> x) -> bview c' x i = bview c x i;
  gr_count : exists k, 0 <= k /\ s_free_blocks_count (super s') = s_free_blocks_count (super s) - k /\
    u32 (i_blocks (odi (inode_cache s' ip))) = u32 (i_blocks (odi (inode_cache s ip)) + k * sb_sectors_in_block (sb s))
}.

Lemma u32_add x y : u32 (u32 x + y) = u32 (x + y).
Proof. unfold uwrap. by rewrite Zplus_mod_idemp_l. Qed.

Lemma u32_idem x : u32 (u32 x) = u32 x.
Proof. unfold uwrap. apply Zmod_mod. Qed.

Lemma grown_refl n s c ip : alloc_ok n s c -> file_ok s c ip -> grown n s c ip s c.
Proof.
  intros A F. constructor; try done; [auto| |exists 0; split_and!; [lia..|f_equal; lia]].
  exists (i_block (odi (inode_cache s ip))), (i_blocks (odi (inode_cache s ip))), (i_dirty (inode_cache s ip)).
  destruct (inode_cache s ip) as [o ino cnt u d]. cbn. by destruct o.
Qed.

Lemma grown_trans n s1 c1 ip s2 c2 s3 c3 : grown n s1 c1 ip s2 c2 -> grown n s2 c2 ip s3 c3 -> grown n s1 c1 ip s3 c3.
Proof.
  intros G1 G2. pose proof (gr_sb _ _ _ _ _ _ G1) as Es. destruct G2. rewrite Es in *. constructor; try done.
  - intros q Hq. by rewrite gr_leaf0, (gr_leaf _ _ _ _ _ _ G1).
  - intros q Hq. destruct (gr_nodes0 q Hq) as [->|[E1 E2]]; [by apply (gr_nodes _ _ _ _ _ _ G1)|right].
    split; [|by apply (gr_free _ _ _ _ _ _ G1)]. destruct (gr_nodes _ _ _ _ _ _ G1 q Hq) as [<-|[? _]]; done.
  - intros x Hx. by apply gr_taken0, (gr_taken _ _ _ _ _ _ G1).
  - intros x Hx. by apply (gr_free _ _ _ _ _ _ G1), gr_free0.
  - intros x. destruct (gr_sys0 x) as [-> ->]. apply (gr_sys _ _ _ _ _ _ G1).
  - destruct gr_inode0 as (l & k & d & ->). destruct (gr_inode _ _ _ _ _ _ G1) as (l' & k' & d' & ->). by exists l, k, d.
  - intros q Hq. by rewrite gr_others0, (gr_others _ _ _ _ _ _ G1).
  - intros q x Hq. by apply gr_holds0, (gr_holds _ _ _ _ _ _ G1).
  - intros x Hx Hc. by apply gr_clean0, (gr_clean _ _ _ _ _ _ G1).
  - intros x i Hx Hi Nb Nf Nn. rewrite gr_view0; [by apply (gr_view _ _ _ _ _ _ G1)|done|done|..].
    + by rewrite (proj2 (gr_sys _ _ _ _ _ _ G1 x)).
    + intros Hf. by apply Nf, (gr_free _ _ _ _ _ _ G1).
    + intros q Hq Hl E. destruct (gr_nodes _ _ _ _ _ _ G1 q Hq) as [E'|[_ E']]; [by apply (Nn q Hq Hl); congruence|by rewrite E in E'].
  - destruct gr_count0 as (k & Hk & Ek & Eb). destruct (gr_count _ _ _ _ _ _ G1) as (k' & Hk' & Ek' & Eb').
    exists (k' + k). split_and!; [lia|lia|]. rewrite Eb. rewrite <- u32_add, Eb', u32_add. f_equal. lia.
Qed.

Lemma is_path_last a p o : is_path a (p ++ [o]) -> p <> [] -> 0 <= o < a.
Proof.
  destruct p as [|i r]; [done|]. intros (_ & _ & Hr) _. apply Forall_app in Hr as [_ Hr]. by apply Forall_cons in Hr as [Ho _].
Qed.

(** An inode pointer or an entry of an indirect block is set to the new block [f]. *)
Section link.
Context (n : Z) (s : ext) (c : C) (ip : Z) (p : list Z) (o f : Z) (s1 s2 : ext) (c1 c2 : C).
Context (A : alloc_ok n s c) (F : file_ok s c ip) (Cl : cleared n s c f s1 c1).
Context (Pp : is_path (addrs s) (p ++ [o])) (Nl : ~ is_leaf (addrs s) (p ++ [o])).
Context (Wp : walk (fptr s c ip) p <> NO_BLOCK) (W0 : fptr s c ip (walk (fptr s c ip) p) o = NO_BLOCK).
Context (A2 : alloc_ok n s2 c2) (Fr2 : forall x, is_free s2 c2 x <-> is_free s1 c1 x).
Context (Sy2 : forall x, (system_block s2 x <-> system_block s1 x) /\ (bitmap_block s2 x <-> bitmap_block s1 x)).
Context (Su2 : super s2 = super s1) (Sb2 : sb s2 = sb s1).
Context (I2 : exists l d, length l = 15%nat /\ inode_cache s2 ip = inode_cache s ip <| odi := odi (inode_cache s ip) <| i_block := l |>
  <| i_blocks := u32 (i_blocks (odi (inode_cache s ip)) + 1 * sb_sectors_in_block (sb s)) |> |> <| i_dirty := d |>).
Context (J2 : forall q, q <> ip -> inode_cache s2 q = inode_cache s q).
Context (H2 : forall q x, bholds c1 q x -> bholds c2 q x) (D2 : forall x, 0 <= x < n -> bclean (bsz s) c1 x -> bclean (bsz s) c2 x).
Context (V2 : forall x i, 0 <= x < n -> 0 <= i < bsz s -> x <> walk (fptr s c ip) p -> bview c2 x i = bview c1 x i).
Context (N2 : fptr s2 c2 ip (walk (fptr s c ip) p) o = f).
Context (E2 : forall x, is_path (addrs s) (p ++ [x]) -> x <> o -> fptr s2 c2 ip (walk (fptr s c ip) p) x = fptr s c ip (walk (fptr s c ip) p) x).
Context (R2 : p <> [] -> forall x, i_block_at x (odi (inode_cache s2 ip)) = i_block_at x (odi (inode_cache s ip))).

Lemma link_taken x : taken s c x -> taken s2 c2 x.
Proof.
  intros Hx. apply (cleared_taken _ _ _ _ _ _ _ Cl) in Hx as (Hr & Hp & Ns & Nf). unfold taken. rewrite Su2.
  split_and!; [lia..| |]; [by rewrite (proj1 (Sy2 x))|by rewrite Fr2].
Qed.

Lemma link_fresh q : is_path (addrs s) q -> walk (fptr s c ip) q <> f.
Proof.
  intros Hq E. pose proof (cl_free _ _ _ _ _ _ Cl) as Ff. pose proof (ao_free _ _ _ A f Ff) as ((Hr & _) & _).
  destruct (decide (q = [])) as [->|Nq]; [cbn in E; unfold ROOT in E; lia|]. assert (Nz : walk (fptr s c ip) q <> NO_BLOCK) by (rewrite E; unfold NO_BLOCK; lia).
  pose proof (fo_taken s c ip F q Hq Nq Nz) as (_ & _ & _ & Nf). by rewrite E in Nf.
Qed.

Lemma link_same q x : is_path (addrs s) (q ++ [x]) -> walk (fptr s c ip) q <> NO_BLOCK -> q ++ [x] <> p ++ [o] ->
  fptr s2 c2 ip (walk (fptr s c ip) q) x = fptr s c ip (walk (fptr s c ip) q) x.
Proof.
  intros Hq Nz Ne. pose proof (is_path_app _ _ _ Hq) as Hq'. pose proof (is_path_app _ _ _ Pp) as Pp'.
  destruct (decide (q = p)) as [->|Nq]; [apply E2; [done|congruence]|].
  assert (Nw : walk (fptr s c ip) q <> walk (fptr s c ip) p) by (intros E; by destruct Nq, (fo_inj s c ip F q p)).
  unfold fptr at 1 3. case_bool_decide as Er.
  - apply R2. intros ->. by destruct Nw.
  - assert (q <> []) by (intros ->; done). pose proof (fo_taken s c ip F q Hq' H1 Nz) as T. pose proof (is_path_last _ _ _ Hq H1) as Hx.
    destruct (info_bounds _ (ao_info _ _ _ A)) as (_ & E4 & _). pose proof T as (Hr & Hp & Ns & Nf). pose proof (ao_n _ _ _ A).
    apply word_at_ext. intros i Hi. rewrite V2 by (try done; lia). apply (cl_view _ _ _ _ _ _ Cl); try lia.
    + intros Bm. by apply Ns, bitmap_system.
    + intros E. by apply (link_fresh q Hq').
Qed.

Lemma link_walk q : is_path (addrs s) q -> walk (fptr s2 c2 ip) q = if bool_decide (q = p ++ [o]) then f else walk (fptr s c ip) q.
Proof.
  pose proof (ao_free _ _ _ A f (cl_free _ _ _ _ _ _ Cl)) as ((Hr & _) & _).
  apply (grow_walk (addrs s) (fptr s c ip) (fptr s2 c2 ip) p o f); try done; [unfold NO_BLOCK; lia| |exact link_same].
  right. intros x Hx. unfold fptr. rewrite bool_decide_false by (unfold ROOT; lia).
  rewrite <- (cl_zero _ _ _ _ _ _ Cl x Hx). apply word_at_ext. intros i Hi. destruct (info_bounds _ (ao_info _ _ _ A)) as (_ & E4 & _).
  pose proof (ao_n _ _ _ A). pose proof (ao_free _ _ _ A f (cl_free _ _ _ _ _ _ Cl)) as ((_ & Hf) & _). apply V2; try lia.
  intros E. by apply (link_fresh p (is_path_app _ _ _ Pp)).
Qed.

Lemma link_inj q r : is_path (addrs s) q -> is_path (addrs s) r -> walk (fptr s2 c2 ip) q <> NO_BLOCK ->
  walk (fptr s2 c2 ip) q = walk (fptr s2 c2 ip) r -> q = r.
Proof.
  intros Hq Hr. rewrite !link_walk by done.
  destruct (bool_decide_reflect (q = p ++ [o])) as [Eq|Eq], (bool_decide_reflect (r = p ++ [o])) as [Er|Er].
  - congruence.
  - intros _ E. by destruct (link_fresh r Hr).
  - intros _ E. by destruct (link_fresh q Hq).
  - by apply (fo_inj s c ip F).
Qed.

Lemma link_grown : grown n s c ip s2 c2 /\ walk (fptr s2 c2 ip) (p ++ [o]) = f.
Proof.
  pose proof (ao_free _ _ _ A f (cl_free _ _ _ _ _ _ Cl)) as ((Hr & _) & _). destruct (cl_same _ _ _ _ _ _ Cl) as (Es1 & Ei1 & _).
  assert (Wz : walk (fptr s c ip) (p ++ [o]) = NO_BLOCK) by (rewrite walk_snoc; unfold step; by rewrite bool_decide_false).
  split; [|by rewrite link_walk, bool_decide_true].
  assert (Sb : sb s2 = sb s) by congruence. destruct I2 as (l & d & Hl & Ei). constructor.
  - done.
  - constructor; rewrite ?Sb.
    + by rewrite Ei.
    + intros q Hq Nq Nz. rewrite link_walk in Nz |- * by done. case_bool_decide as E; [|by apply link_taken, (fo_taken s c ip F)].
      pose proof (cl_new _ _ _ _ _ _ Cl) as (T1 & T2 & T3 & T4). unfold taken. rewrite Su2, (proj1 (Sy2 f)), Fr2. done.
    + exact link_inj.
  - intros q Hq. rewrite link_walk by (by apply is_leaf_path). rewrite bool_decide_false; [done|]. by intros ->.
  - intros q Hq. rewrite link_walk by done. case_bool_decide as E; [right|by left]. subst q. split; [done|apply Cl].
  - apply link_taken.
  - intros x Hx. apply Fr2, (cl_after _ _ _ _ _ _ Cl) in Hx. tauto.
  - intros x. destruct (Sy2 x) as [-> ->]. apply (cl_sys _ _ _ _ _ _ Cl).
  - done.
  - by exists l, (u32 (i_blocks (odi (inode_cache s ip)) + 1 * sb_sectors_in_block (sb s))), d.
  - done.
  - intros q x Hq. by apply H2, (cl_holds _ _ _ _ _ _ Cl).
  - intros x Hx Hc. by apply D2, (cl_clean _ _ _ _ _ _ Cl).
  - intros x i Hx Hi Nb Nf Nn. rewrite V2; [|done|done|].
    + apply (cl_view _ _ _ _ _ _ Cl); try done. intros ->. by apply Nf, (cl_free _ _ _ _ _ _ Cl).
    + intros E. apply (Nn p); [by apply (is_path_app _ _ [o])| |done]. intros Lp. by pose proof (leaf_end _ _ _ Lp Pp).
  - exists 1. split_and!; [lia|rewrite Su2; apply (cl_count _ _ _ _ _ _ Cl)|]. rewrite Ei. cbn [odi i_blocks].
    exact (u32_idem _).
Qed.

End link.

Lemma same_walk s c s' c' ip q : file_ok s c ip ->
  (forall x, i_block_at x (odi (inode_cache s' ip)) = i_block_at x (odi (inode_cache s ip))) ->
  (forall b o, taken s c b -> 0 <= o < addrs s -> entry c' b o = entry c b o) ->
  is_path (addrs s) q -> walk (fptr s' c' ip) q = walk (fptr s c ip) q.
Proof.
  intros F Hi He. induction q as [|x q IH] using rev_ind; intros Hq; [done|]. pose proof (is_path_app _ _ _ Hq) as Hq'.
  rewrite !walk_snoc, (IH Hq'). unfold step. case_bool_decide as E0; [done|]. unfold fptr at 1 3.
  destruct (decide (q = [])) as [->|Nq]; [apply Hi|]. pose proof (fo_taken s c ip F q Hq' Nq E0) as T. pose proof T as (_ & Hp & _).
  rewrite !bool_decide_false by (unfold ROOT; lia). apply He; [done|]. by apply (is_path_last _ q).
Qed.

Lemma same_file s c s' c' ip : file_ok s c ip -> sb s' = sb s ->
  length (i_block (odi (inode_cache s' ip))) = 15%nat ->
  (forall x, i_block_at x (odi (inode_cache s' ip)) = i_block_at x (odi (inode_cache s ip))) ->
  (forall b o, taken s c b -> 0 <= o < addrs s -> entry c' b o = entry c b o) ->
  (forall x, taken s c x -> taken s' c' x) -> file_ok s' c' ip.
Proof.
  intros F Es Hl Hi He Ht. constructor; rewrite ?Es; [done|..].
  - intros q Hq Nq. rewrite (same_walk s c s' c') by done. intros Nz. by apply Ht, (fo_taken s c ip F).
  - intros q r Hq Hr. rewrite !(same_walk s c s' c') by done. by apply (fo_inj s c ip F).
Qed.

Lemma quiet_taken n s c c' (U : Z -> Prop) x : alloc_ok n s c -> quiet (bsz s) n U c c' -> taken s c' x <-> taken s c x.
Proof. intros A Q. unfold taken. by rewrite (quiet_free n s c c' U). Qed.

Lemma taken_entry n s c c' (U : Z -> Prop) b o : alloc_ok n s c -> quiet (bsz s) n U c c' -> taken s c b -> 0 <= o < addrs s ->
  entry c' b o = entry c b o.
Proof.
  intros A Q (Hr & Hp & _) Ho. destruct (info_bounds _ (ao_info _ _ _ A)) as (_ & E4 & _). pose proof (ao_n _ _ _ A).
  apply (quiet_entry _ _ _ _ _ _ _ Q); lia.
Qed.

Lemma quiet_grown n s c ip c' (U : Z -> Prop) : alloc_ok n s c -> file_ok s c ip -> quiet (bsz s) n U c c' -> (forall x, U x -> ~ is_free s c x) ->
  grown n s c ip s c'.
Proof.
  intros A F Q HU. pose proof (quiet_alloc n s c c' U A Q HU) as A'.
  assert (He : forall b o, taken s c b -> 0 <= o < addrs s -> entry c' b o = entry c b o) by (intros; by apply (taken_entry n s c c' U)).
  assert (Ht : forall x, taken s c x -> taken s c' x) by (intros x; by apply (quiet_taken n s c c' U)).
  constructor; try done.
  - by apply (same_file s c s c'); [..|apply (fo_len s c ip F)| | |].
  - intros q Hq. apply same_walk; try done. by apply is_leaf_path.
  - intros q Hq. left. by apply same_walk.
  - intros x. by apply (quiet_free n s c c' U).
  - exists (i_block (odi (inode_cache s ip))), (i_blocks (odi (inode_cache s ip))), (i_dirty (inode_cache s ip)).
    destruct (inode_cache s ip) as [x ino cnt u d]. cbn. by destruct x.
  - apply Q.
  - apply Q.
  - intros. by apply (q_view _ _ _ _ _ Q).
  - exists 0. split_and!; [lia..|]. f_equal. lia.
Qed.

(** The sectors counted in an inode. *)
Definition with_sectors (ip : Z) (s : ext) : ext :=
  s <| inode_cache := <[ip := inode_cache s ip <| odi := odi (inode_cache s ip) <| i_blocks :=
    u32 (i_blocks (odi (inode_cache s ip)) + 1 * sb_sectors_in_block (sb s)) |> |>]> (inode_cache s) |>.

Lemma run_add_sectors ip s c : add_sectors ip 1 (s, c) = Some ((), (with_sectors ip s, c)).
Proof. reflexivity. Qed.

(** Entry [o] of the indirect block of path [p] set to a new block. *)
Lemma entry_linked n s c ip p o f s1 c1 c2 : alloc_ok n s c -> file_ok s c ip -> cleared n s c f s1 c1 ->
  is_path (addrs s) (p ++ [o]) -> ~ is_leaf (addrs s) (p ++ [o]) -> p <> [] -> walk (fptr s c ip) p <> NO_BLOCK ->
  fptr s c ip (walk (fptr s c ip) p) o = NO_BLOCK -> wrote (bsz s) n (walk (fptr s c ip) p) o f c1 c2 ->
  grown n s c ip (with_sectors ip s1) c2 /\ walk (fptr (with_sectors ip s1) c2 ip) (p ++ [o]) = f.
Proof.
  intros A F Cl Pp Nl Np Wp W0 W. destruct (cl_same _ _ _ _ _ _ Cl) as (Es & Ei & E1 & E2). pose proof (cl_alloc _ _ _ _ _ _ Cl) as A1.
  pose proof (fo_taken s c ip F p (is_path_app _ _ _ Pp) Np Wp) as T. set (b := walk (fptr s c ip) p) in *.
  pose proof (cleared_taken _ _ _ _ _ _ _ Cl T) as T1. pose proof (is_path_last _ _ _ Pp Np) as Ho.
  destruct (info_bounds _ (ao_info _ _ _ A)) as (_ & E4 & _). pose proof (ao_free _ _ _ A f (cl_free _ _ _ _ _ _ Cl)) as (Hf & _). pose proof (ao_n _ _ _ A).
  assert (Nf : b <> f) by (destruct T as (_ & _ & _ & Nf); intros E; apply Nf; rewrite E; apply Cl).
  assert (Nr : b <> ROOT) by (destruct T as (_ & Hp & _); unfold ROOT; lia). 
  assert (Nb : forall x, bitmap_block s1 x -> x <> b).
  { intros x Bx ->. destruct T1 as (_ & _ & Ns & _). by apply Ns, bitmap_system. }
  destruct (alloc_frame n s1 c1 c2 A1) as [A2 F2].
  { rewrite Es. apply W. }
  { intros x k Bx Hk. rewrite Es in Hk. rewrite (w_view _ _ _ _ _ _ _ W), bool_decide_false by (try done; by apply Nb). done. }
  { intros x. rewrite (w_cached _ _ _ _ _ _ _ W). by left. }
  apply (link_grown n s c ip p o f s1 (with_sectors ip s1) c1 c2); try done.
  - by apply alloc_ok_inodes.
  - exists (i_block (odi (inode_cache s ip))), (i_dirty (inode_cache s ip)). split; [apply F|]. cbn. rewrite store_eq, Ei, Es.
    destruct (inode_cache s ip) as [x ino cnt u d]. cbn. by destruct x.
  - intros q Nq. cbn. by rewrite store_ne, Ei.
  - apply W.
  - intros x Hx Hc. apply (w_clean _ _ _ _ _ _ _ W). by right.
  - intros x k Hx Hk Nx. by rewrite (w_view _ _ _ _ _ _ _ W), bool_decide_false.
  - fold b. unfold fptr. rewrite bool_decide_false by done. rewrite (wrote_eq _ _ _ _ _ _ _ W) by lia. apply uwrap_small. lia.
  - intros x Hx Nx. pose proof (is_path_last _ _ _ Hx Np). fold b. unfold fptr. rewrite bool_decide_false by done.
    rewrite (wrote_ne _ _ _ _ _ _ _ b x W) by (try lia; by right). apply word_at_ext. intros k Hk. destruct T as (Hr & Hp & Ns & _).
    apply (cl_view _ _ _ _ _ _ Cl); try lia. intros Bm. by apply Ns, bitmap_system.
  - intros _ x. cbn. rewrite store_eq, Ei. cbn. done.
Qed.

Lemma run_read_entry bs n s c p b o : be_cpu s = false -> bok bs n c -> bholds c p b -> 0 <= o -> 4 * o + 4 <= bs ->
  read_indirect_block_entry p o (s, c) = Some (entry c b o, (s, c)).
Proof.
  intros Hle O Hh Ho Hs. unfold read_indirect_block_entry. erewrite ebind by reflexivity. cbn [fst]. rewrite Hle.
  by rewrite (ebind _ _ _ _ _ (run_load32 bs n s c p b o O Hh Ho Hs)).
Qed.

Lemma run_write_entry s c p o x : be_cpu s = false ->
  write_indirect_block_entry p o x (s, c) = Some ((), (s, bstore p (4 * o) (word_bytes (u32 x)) c)).
Proof. intros Hle. unfold write_indirect_block_entry. erewrite ebind by reflexivity. cbn [fst]. by rewrite Hle. Qed.

Lemma run_enter_level n s c ip p o block : alloc_ok n s c -> file_ok s c ip -> p <> [] ->
  is_path (addrs s) (p ++ [o]) -> ~ is_leaf (addrs s) (p ++ [o]) -> walk (fptr s c ip) p = block -> block <> NO_BLOCK ->
  1 <= s_free_blocks_count (super s) ->
  exists b s' c', enter_level ip o block (s, c) = Some (Some b, (s', c')) /\ grown n s c ip s' c' /\
    walk (fptr s' c' ip) (p ++ [o]) = b /\ b <> NO_BLOCK /\ s_free_blocks_count (super s) - 1 <= s_free_blocks_count (super s').
Proof.
  intros A F Np Po Nl Wp Nb Hfree. pose proof (is_path_last _ _ _ Po Np) as Ho. pose proof (is_path_app _ _ _ Po) as Pp.
  destruct (info_bounds _ (ao_info _ _ _ A)) as (_ & E4 & _).
  assert (T : taken s c block) by (rewrite <- Wp; apply (fo_taken s c ip F); [done|done|congruence]).
  assert (Rb : 0 <= block < n) by (destruct T as (Hr & Hpos & _); pose proof (ao_n _ _ _ A); lia). unfold enter_level.
  destruct (run_get_read (bsz s) n s c block (ao_ok _ _ _ A) Rb) as (bp & c1 & Ep & Hh & Q). rewrite (ebind _ _ _ _ _ Ep).
  pose proof (quiet_grown n s c ip c1 _ A F Q ltac:(intros x ->; apply T)) as G1.
  pose proof (gr_alloc _ _ _ _ _ _ G1) as A1. pose proof (gr_file _ _ _ _ _ _ G1) as F1.
  assert (Wp1 : walk (fptr s c1 ip) p = block) by (rewrite <- Wp; apply same_walk; try done; intros; by apply (taken_entry n s c c1 _ _ _ A Q)).
  rewrite (ebind _ _ _ _ _ (run_read_entry (bsz s) n s c1 bp block o (ao_le _ _ _ A) (ao_ok _ _ _ A1) Hh ltac:(lia) ltac:(lia))).
  assert (Fe : fptr s c1 ip block o = entry c1 block o) by (unfold fptr; rewrite bool_decide_false; [done|unfold ROOT; lia]).
  destruct (bool_decide_reflect (entry c1 block o = NO_BLOCK)) as [E0|N0].
  - destruct (run_new_indirect n s c1 ip A1 ltac:(lia)) as (f & s2 & c2 & Ef & Cl). rewrite (ebind _ _ _ _ _ Ef).
    destruct (cl_same _ _ _ _ _ _ Cl) as (Es & _). pose proof (cl_alloc _ _ _ _ _ _ Cl) as A2.
    rewrite (ebind _ _ _ _ _ (run_write_entry s2 c2 bp o f (ao_le _ _ _ A2))). erewrite ebind by reflexivity. cbn [fst snd].
    rewrite (ebind _ _ _ _ _ (run_add_sectors ip s2 _)).
    assert (Hh2 : bholds c2 bp block) by (by apply (cl_holds _ _ _ _ _ _ Cl)). pose proof (ao_ok _ _ _ A2) as O2. rewrite Es in O2.
    destruct (run_commit (bsz s) n (with_sectors ip s2) c2 bp block o f O2 Hh2) as (c3 & E3 & W). rewrite (ebind _ _ _ _ _ E3).
    destruct (entry_linked n s c1 ip p o f s2 c2 c3 A1 F1 Cl Po Nl Np) as [G2 Wf]; [by rewrite Wp1|by rewrite Wp1, Fe|by rewrite Wp1|].
    exists f, (with_sectors ip s2), c3. split_and!; [done|by apply (grown_trans _ _ _ _ _ _ _ _ G1)|done| |].
    + pose proof (cl_new _ _ _ _ _ _ Cl) as (_ & Hpos & _). unfold NO_BLOCK. lia.
    + cbn. pose proof (cl_count _ _ _ _ _ _ Cl). lia.
  - destruct (run_put (bsz s) n s c1 bp block (ao_ok _ _ _ A1) Hh) as (c2 & E2 & Q2). rewrite (ebind _ _ _ _ _ E2).
    pose proof (quiet_grown n s c1 ip c2 _ A1 F1 Q2 ltac:(done)) as G2.
    exists (entry c1 block o), s, c2. split_and!; [done|by apply (grown_trans _ _ _ _ _ _ _ _ G1)| |done|lia].
    assert (W2 : walk (fptr s c2 ip) (p ++ [o]) = walk (fptr s c1 ip) (p ++ [o]))
      by (apply same_walk; try done; intros; by apply (taken_entry n s c1 c2 _ _ _ A1 Q2)).
    rewrite W2, walk_snoc, Wp1. unfold step. rewrite bool_decide_false by done. exact Fe.
Qed.

Lemma run_enter_indirect n ip offs : forall s c p block olast, alloc_ok n s c -> file_ok s c ip -> p <> [] ->
  is_path (addrs s) (p ++ offs ++ [olast]) -> walk (fptr s c ip) p = block -> block <> NO_BLOCK ->
  Z.of_nat (length offs) <= s_free_blocks_count (super s) ->
  exists b s' c', enter_indirect ip offs block (s, c) = Some (Some b, (s', c')) /\ grown n s c ip s' c' /\
    walk (fptr s' c' ip) (p ++ offs) = b /\ b <> NO_BLOCK.
Proof.
  induction offs as [|o offs IH]; intros s c p block olast A F Np Hp Wp Nb Hfree; cbn [enter_indirect].
  { exists block, s, c. rewrite app_nil_r. split_and!; [done|by apply grown_refl|done|done]. }
  replace (p ++ (o :: offs) ++ [olast]) with ((p ++ [o]) ++ offs ++ [olast]) in Hp by (by rewrite <- app_assoc).
  assert (Nl : ~ is_leaf (addrs s) (p ++ [o])) by (intros Lf; pose proof (leaf_end _ _ _ Lf Hp); by destruct offs).
  cbn [length] in Hfree. destruct (run_enter_level n s c ip p o block A F Np (is_path_app _ _ _ Hp) Nl Wp Nb ltac:(lia)) as (f & s1 & c1 & E1 & G1 & W1 & N1 & C1).
  rewrite (ebind _ _ _ _ _ E1). destruct (IH s1 c1 (p ++ [o]) f olast) as (b & s2 & c2 & E2 & G2 & W2 & N2);
    [apply G1|apply G1|by destruct p|by rewrite (gr_sb _ _ _ _ _ _ G1)|done|done|lia|].
  exists b, s2, c2. split_and!; [done|by apply (grown_trans _ _ _ _ _ _ _ _ G1)| |done]. by rewrite <- W2, <- app_assoc.
Qed.

(** A pointer of the inode set. *)
Definition with_block (ip i b : Z) (s : ext) : ext :=
  s <| inode_cache := <[ip := inode_cache s ip <| odi := odi (inode_cache s ip) <| i_block :=
    <[Z.to_nat i := b]> (i_block (odi (inode_cache s ip))) |> |>]> (inode_cache s) |>.

Lemma run_set_i_block ip i b s c : set_i_block ip i b (s, c) = Some ((), (with_block ip i b s, c)).
Proof. reflexivity. Qed.

Lemma with_block_at ip i b s x : length (i_block (odi (inode_cache s ip))) = 15%nat -> 0 <= i < 15 -> 0 <= x ->
  i_block_at x (odi (inode_cache (with_block ip i b s) ip)) = if bool_decide (x = i) then b else i_block_at x (odi (inode_cache s ip)).
Proof.
  intros Hl Hi Hx. unfold i_block_at, with_block. cbn. rewrite store_eq. cbn. case_bool_decide as E.
  - subst x. by rewrite list_lookup_insert_eq by lia.
  - by rewrite list_lookup_insert_ne by lia.
Qed.

Lemma with_block_len ip i b s : length (i_block (odi (inode_cache (with_block ip i b s) ip))) = length (i_block (odi (inode_cache s ip))).
Proof. unfold with_block. cbn. rewrite store_eq. cbn. apply length_insert. Qed.

(** A pointer of the inode set to a new indirect block. *)
Lemma top_linked n s c ip i f s1 c1 : alloc_ok n s c -> file_ok s c ip -> cleared n s c f s1 c1 ->
  is_path (addrs s) [i] -> ~ is_leaf (addrs s) [i] -> i_block_at i (odi (inode_cache s ip)) = NO_BLOCK ->
  grown n s c ip (with_sectors ip (with_block ip i f s1)) c1 /\ walk (fptr (with_sectors ip (with_block ip i f s1)) c1 ip) [i] = f.
Proof.
  intros A F Cl Pp Nl E0. destruct (cl_same _ _ _ _ _ _ Cl) as (Es & Ei & E1 & E2). pose proof (cl_alloc _ _ _ _ _ _ Cl) as A1.
  pose proof Pp as ((Hi & Hi') & _). unfold EXT2_N_BLOCKS in Hi'. pose proof (fo_len s c ip F) as Hl.
  assert (At : forall x, 0 <= x -> i_block_at x (odi (inode_cache (with_sectors ip (with_block ip i f s1)) ip)) =
    if bool_decide (x = i) then f else i_block_at x (odi (inode_cache s ip))).
  { intros x Hx. rewrite <- Ei, <- with_block_at by (rewrite ?Ei; done || lia). cbn. by rewrite !store_eq. }
  apply (link_grown n s c ip [] i f s1 (with_sectors ip (with_block ip i f s1)) c1 c1); try done.
  - apply alloc_ok_inodes. by apply alloc_ok_inodes.
  - exists (<[Z.to_nat i := f]> (i_block (odi (inode_cache s ip)))), (i_dirty (inode_cache s ip)). split; [by rewrite length_insert|].
    cbn. rewrite !store_eq, Ei, Es. destruct (inode_cache s ip) as [x ino cnt u d]. cbn. by destruct x.
  - intros q Nq. cbn. by rewrite !store_ne, Ei.
  - unfold fptr. rewrite bool_decide_true by done. rewrite At by lia. by rewrite bool_decide_true.
  - intros x ((Hx & _) & _) Nx. unfold fptr. rewrite bool_decide_true by done. rewrite At by lia. by rewrite bool_decide_false.
Qed.

(** The entry of a leaf set to the block [nb]. *)
Section leaf.
Context (s : ext) (c : C) (ip : Z) (p : list Z) (o nb : Z) (s2 : ext) (c2 : C).
Context (F : file_ok s c ip) (Lf : is_leaf (addrs s) (p ++ [o])).
Context (Wp : walk (fptr s c ip) p <> NO_BLOCK) (W0 : fptr s c ip (walk (fptr s c ip) p) o = NO_BLOCK).
Context (T : taken s c nb) (Fresh : forall q, is_path (addrs s) q -> walk (fptr s c ip) q <> nb).
Context (Sb2 : sb s2 = sb s) (Hl : length (i_block (odi (inode_cache s2 ip))) = 15%nat) (Tk : forall x, taken s c x -> taken s2 c2 x).
Context (N2 : fptr s2 c2 ip (walk (fptr s c ip) p) o = nb).
Context (Same : forall q x, is_path (addrs s) (q ++ [x]) -> walk (fptr s c ip) q <> NO_BLOCK -> q ++ [x] <> p ++ [o] ->
  fptr s2 c2 ip (walk (fptr s c ip) q) x = fptr s c ip (walk (fptr s c ip) q) x).

Lemma leaf_walk q : is_path (addrs s) q -> walk (fptr s2 c2 ip) q = if bool_decide (q = p ++ [o]) then nb else walk (fptr s c ip) q.
Proof.
  destruct T as (_ & Hp & _). apply (grow_walk (addrs s)); try done; [by apply is_leaf_path|unfold NO_BLOCK; lia|by left].
Qed.

Lemma leaf_file : file_ok s2 c2 ip.
Proof.
  constructor; rewrite ?Sb2; [done|..].
  - intros q Hq Nq Nz. rewrite leaf_walk in Nz |- * by done. case_bool_decide; apply Tk; [done|]. by apply (fo_taken s c ip F).
  - intros q r Hq Hr. rewrite !leaf_walk by done.
    destruct (bool_decide_reflect (q = p ++ [o])) as [Eq|Eq], (bool_decide_reflect (r = p ++ [o])) as [Er|Er]; [congruence|..].
    + intros _ E. by destruct (Fresh r Hr).
    + intros _ E. by destruct (Fresh q Hq).
    + by apply (fo_inj s c ip F).
Qed.

End leaf.

(** The block [nb] is the file's block of the leaf [P] now. *)
Record entered (n : Z) (s : ext) (c : C) (ip : Z) (P : list Z) (nb : Z) (s' : ext) (c' : C) : Prop := {
  et_alloc : alloc_ok n s' c';
  et_file : file_ok s' c' ip;
  et_leaf q : is_leaf (addrs s) q -> walk (fptr s' c' ip) q = if bool_decide (q = P) then nb else walk (fptr s c ip) q;
  et_nodes q : is_path (addrs s) q -> walk (fptr s' c' ip) q = walk (fptr s c ip) q \/
    (walk (fptr s c ip) q = NO_BLOCK /\ (is_free s c (walk (fptr s' c' ip) q) \/ walk (fptr s' c' ip) q = nb));
  et_taken x : taken s c x -> taken s' c' x;
  et_free x : is_free s' c' x -> is_free s c x;
  et_sys x : (system_block s' x <-> system_block s x) /\ (bitmap_block s' x <-> bitmap_block s x);
  et_sb : sb s' = sb s;
  et_inode : exists l k d, inode_cache s' ip = inode_cache s ip <| odi := odi (inode_cache s ip) <| i_block := l |> <| i_blocks := k |> |> <| i_dirty := d |>;
  et_others q : q <> ip -> inode_cache s' q = inode_cache s q;
  et_clean x : 0 <= x < n -> bclean (bsz s) c x -> bclean (bsz s) c' x;
  et_view x i : 0 <= x < n -> 0 <= i < bsz s -> ~ bitmap_block s x -> ~ is_free s c x ->
    (forall q, is_path (addrs s) q -> ~ is_leaf (addrs s) q -> walk (fptr s c ip) q <> x) -> bview c' x i = bview c x i;
  et_count : exists k, 0 <= k /\ s_free_blocks_count (super s') = s_free_blocks_count (super s) - k /\
    u32 (i_blocks (odi (inode_cache s' ip))) = u32 (i_blocks (odi (inode_cache s ip)) + (k + 1) * sb_sectors_in_block (sb s))
}.

Section entered.
Context (n : Z) (s : ext) (c : C) (ip : Z) (p : list Z) (o nb : Z) (s1 s2 : ext) (c1 c2 : C).
Context (G : grown n s c ip s1 c1) (Lf : is_leaf (addrs s) (p ++ [o])) (T : taken s c nb).
Context (Fresh : forall q, is_path (addrs s) q -> walk (fptr s c ip) q <> nb).
Context (Wp : walk (fptr s1 c1 ip) p <> NO_BLOCK) (W0 : walk (fptr s c ip) (p ++ [o]) = NO_BLOCK).
Context (A2 : alloc_ok n s2 c2) (Fr2 : forall x, is_free s2 c2 x <-> is_free s1 c1 x).
Context (Gs2 : group_descs s2 = group_descs s1) (Su2 : super s2 = super s1) (Sb2 : sb s2 = sb s1).
Context (I2 : exists l, length l = 15%nat /\ inode_cache s2 ip = inode_cache s1 ip <| odi := odi (inode_cache s1 ip) <| i_block := l |>
  <| i_blocks := u32 (i_blocks (odi (inode_cache s1 ip)) + 1 * sb_sectors_in_block (sb s)) |> |>).
Context (J2 : forall q, q <> ip -> inode_cache s2 q = inode_cache s1 q).
Context (D2 : forall x, 0 <= x < n -> bclean (bsz s) c1 x -> bclean (bsz s) c2 x).
Context (V2 : forall x i, 0 <= x < n -> 0 <= i < bsz s -> x <> walk (fptr s1 c1 ip) p -> bview c2 x i = bview c1 x i).
Context (N2 : fptr s2 c2 ip (walk (fptr s1 c1 ip) p) o = nb).
Context (E2 : forall x, is_path (addrs s) (p ++ [x]) -> x <> o -> fptr s2 c2 ip (walk (fptr s1 c1 ip) p) x = fptr s1 c1 ip (walk (fptr s1 c1 ip) p) x).
Context (R2 : p <> [] -> forall x, i_block_at x (odi (inode_cache s2 ip)) = i_block_at x (odi (inode_cache s1 ip))).

Lemma entered_system x : (system_block s2 x <-> system_block s1 x) /\ (bitmap_block s2 x <-> bitmap_block s1 x).
Proof. unfold system_block, bitmap_block. by rewrite Gs2, Sb2. Qed.

Lemma entered_taken x : taken s1 c1 x -> taken s2 c2 x.
Proof. unfold taken. by rewrite Su2, (proj1 (entered_system x)), Fr2. Qed.

Lemma entered_fresh q : is_path (addrs s) q -> walk (fptr s1 c1 ip) q <> nb.
Proof.
  intros Hq E. destruct (gr_nodes _ _ _ _ _ _ G q Hq) as [E'|[_ Hf]]; [by apply (Fresh q Hq); congruence|].
  rewrite E in Hf. destruct T as (_ & _ & _ & Nf). done.
Qed.

Lemma entered_same q x : is_path (addrs s) (q ++ [x]) -> walk (fptr s1 c1 ip) q <> NO_BLOCK -> q ++ [x] <> p ++ [o] ->
  fptr s2 c2 ip (walk (fptr s1 c1 ip) q) x = fptr s1 c1 ip (walk (fptr s1 c1 ip) q) x.
Proof.
  intros Hq Nz Ne. pose proof (is_path_app _ _ _ Hq) as Hq'. pose proof (is_path_app _ _ _ (is_leaf_path _ _ Lf)) as Pp.
  pose proof (gr_file _ _ _ _ _ _ G) as F1. pose proof (gr_sb _ _ _ _ _ _ G) as Es.
  destruct (decide (q = p)) as [->|Nq]; [apply E2; [done|congruence]|].
  assert (Nw : walk (fptr s1 c1 ip) q <> walk (fptr s1 c1 ip) p) by (intros E; by destruct Nq; apply (fo_inj s1 c1 ip F1); rewrite ?Es).
  unfold fptr at 1 3. case_bool_decide as Er.
  - apply R2. intros ->. by destruct Nw.
  - assert (Nn : q <> []) by (intros ->; done). pose proof (is_path_last _ _ _ Hq Nn) as Hx.
    assert (Tq : taken s1 c1 (walk (fptr s1 c1 ip) q)) by (apply (fo_taken s1 c1 ip F1); rewrite ?Es; done).
    destruct (info_bounds _ (ao_info _ _ _ A2)) as (_ & E4 & _). rewrite Sb2, Es in E4. destruct Tq as (Hr & Hp & _).
    pose proof (ao_n _ _ _ (gr_alloc _ _ _ _ _ _ G)). apply word_at_ext. intros i Hi. apply V2; [lia|lia|done].
Qed.

Lemma entered_zero : fptr s1 c1 ip (walk (fptr s1 c1 ip) p) o = NO_BLOCK.
Proof.
  assert (E : walk (fptr s1 c1 ip) (p ++ [o]) = NO_BLOCK) by (by rewrite (gr_leaf _ _ _ _ _ _ G)).
  rewrite walk_snoc in E. unfold step in E. by rewrite bool_decide_false in E.
Qed.

Lemma entered_walk q : is_path (addrs s) q -> walk (fptr s2 c2 ip) q = if bool_decide (q = p ++ [o]) then nb else walk (fptr s1 c1 ip) q.
Proof.
  pose proof (gr_sb _ _ _ _ _ _ G) as Es. intros Hq. apply (leaf_walk s1); rewrite ?Es; try done.
  - exact entered_zero.
  - by apply (gr_taken _ _ _ _ _ _ G).
  - destruct I2 as (l & Hl & ->). done.
  - exact entered_same.
Qed.

Lemma entered_file : file_ok s2 c2 ip.
Proof.
  pose proof (gr_sb _ _ _ _ _ _ G) as Es. destruct I2 as (l & Hl & Ei). apply (leaf_file s1 c1 ip p o nb); rewrite ?Es; try done.
  - apply G.
  - exact entered_zero.
  - by apply (gr_taken _ _ _ _ _ _ G).
  - exact entered_fresh.
  - congruence.
  - by rewrite Ei.
  - exact entered_taken.
  - exact entered_same.
Qed.

Lemma entered_ok : entered n s c ip (p ++ [o]) nb s2 c2.
Proof.
  pose proof (gr_sb _ _ _ _ _ _ G) as Es. destruct I2 as (l & Hl & Ei). constructor.
  - done.
  - exact entered_file.
  - intros q Hq. rewrite entered_walk by (by apply is_leaf_path). by rewrite (gr_leaf _ _ _ _ _ _ G).
  - intros q Hq. rewrite entered_walk by done. case_bool_decide as E; [subst q; right; split; [done|by right]|].
    destruct (gr_nodes _ _ _ _ _ _ G q Hq) as [?|[? ?]]; [by left|right; split; [done|by left]].
  - intros x Hx. by apply entered_taken, (gr_taken _ _ _ _ _ _ G).
  - intros x Hx. by apply (gr_free _ _ _ _ _ _ G), Fr2.
  - intros x. destruct (entered_system x) as [-> ->]. apply (gr_sys _ _ _ _ _ _ G).
  - congruence.
  - destruct (gr_inode _ _ _ _ _ _ G) as (l1 & k1 & d1 & E1). rewrite Ei, E1. by eexists l, _, d1.
  - intros q Hq. by rewrite J2, (gr_others _ _ _ _ _ _ G).
  - intros x Hx Hc. by apply D2, (gr_clean _ _ _ _ _ _ G).
  - intros x i Hx Hi Nb Nf Nn. rewrite V2; [by apply (gr_view _ _ _ _ _ _ G)|done|done|].
    intros E. pose proof (is_path_app _ _ _ (is_leaf_path _ _ Lf)) as Pp.
    destruct (gr_nodes _ _ _ _ _ _ G p Pp) as [E'|[_ Hf]]; [|by rewrite <- E in Hf].
    apply (Nn p Pp); [|congruence]. intros Lp. by pose proof (leaf_end _ _ _ Lp (is_leaf_path _ _ Lf)).
  - destruct (gr_count _ _ _ _ _ _ G) as (k & Hk & Ek & Eb). exists k. rewrite Su2, Ei. cbn [odi i_blocks]. split_and!; [done|done|].
    etransitivity; [exact (u32_idem _)|]. rewrite <- u32_add, Eb, u32_add. f_equal. lia.
Qed.

End entered.

Definition marked (ip : Z) (s : ext) : ext :=
  s <| inode_cache := <[ip := inode_cache s ip <| i_dirty := true |>]> (inode_cache s) |>.

Lemma marked_grown n s c ip : alloc_ok n s c -> file_ok s c ip -> grown n s c ip (marked ip s) c.
Proof.
  intros A F.
  assert (Ei : odi (inode_cache (marked ip s) ip) = odi (inode_cache s ip)) by (cbn; by rewrite store_eq).
  constructor; try done.
  - by apply alloc_ok_inodes.
  - apply (same_file s c); try done; rewrite Ei; [apply F|done].
  - intros q Hq. apply same_walk; try done; [by rewrite Ei|by apply is_leaf_path].
  - intros q Hq. left. apply same_walk; try done. by rewrite Ei.
  - exists (i_block (odi (inode_cache s ip))), (i_blocks (odi (inode_cache s ip))), true. cbn. rewrite store_eq.
    destruct (inode_cache s ip) as [x ino cnt u d]. cbn. by destruct x.
  - intros q Nq. cbn. by rewrite store_ne.
  - exists 0. split_and!; [lia|cbn; lia|]. rewrite Ei. f_equal. lia.
Qed.

(** The last steps of [enter_map_entry]: a pointer of the inode, or an entry of the
    last indirect block. *)
Lemma direct_entered n s c ip i nb s1 c1 : grown n s c ip s1 c1 -> is_leaf (addrs s) [i] -> taken s c nb ->
  (forall q, is_path (addrs s) q -> walk (fptr s c ip) q <> nb) -> walk (fptr s c ip) [i] = NO_BLOCK ->
  entered n s c ip [i] nb (with_sectors ip (with_block ip i nb s1)) c1.
Proof.
  intros G Lf T Fresh W0. pose proof (gr_file _ _ _ _ _ _ G) as F1. pose proof (fo_len _ _ _ F1) as Hl. pose proof (gr_sb _ _ _ _ _ _ G) as Es.
  pose proof (is_leaf_path _ _ Lf) as ((Hi & Hi') & _). unfold EXT2_N_BLOCKS in Hi'.
  assert (At : forall x, 0 <= x -> i_block_at x (odi (inode_cache (with_sectors ip (with_block ip i nb s1)) ip)) =
    if bool_decide (x = i) then nb else i_block_at x (odi (inode_cache s1 ip))).
  { intros x Hx. rewrite <- with_block_at by (done || lia). cbn. by rewrite !store_eq. }
  apply (entered_ok n s c ip [] i nb s1 (with_sectors ip (with_block ip i nb s1)) c1 c1); try done.
  - apply alloc_ok_inodes, alloc_ok_inodes. apply G.
  - exists (<[Z.to_nat i := nb]> (i_block (odi (inode_cache s1 ip)))). split; [by rewrite length_insert|].
    cbn. rewrite !store_eq, Es. done.
  - intros q Nq. cbn. by rewrite !store_ne.
  - unfold fptr. rewrite bool_decide_true by done. rewrite At by lia. by rewrite bool_decide_true.
  - intros x ((Hx & _) & _) Nx. unfold fptr. rewrite bool_decide_true by done. rewrite At by lia. by rewrite bool_decide_false.
Qed.

Lemma indirect_entered n s c ip p o nb s1 c1 c2 : grown n s c ip s1 c1 -> is_leaf (addrs s) (p ++ [o]) -> p <> [] -> taken s c nb ->
  (forall q, is_path (addrs s) q -> walk (fptr s c ip) q <> nb) -> walk (fptr s c ip) (p ++ [o]) = NO_BLOCK ->
  walk (fptr s1 c1 ip) p <> NO_BLOCK -> wrote (bsz s) n (walk (fptr s1 c1 ip) p) o nb c1 c2 ->
  entered n s c ip (p ++ [o]) nb (with_sectors ip s1) c2.
Proof.
  intros G Lf Np T Fresh W0 Wp W. pose proof (gr_file _ _ _ _ _ _ G) as F1. pose proof (gr_alloc _ _ _ _ _ _ G) as A1. pose proof (gr_sb _ _ _ _ _ _ G) as Es.
  pose proof (is_leaf_path _ _ Lf) as Pl. pose proof (is_path_app _ _ _ Pl) as Pp. pose proof (is_path_last _ _ _ Pl Np) as Ho.
  assert (Tp : taken s1 c1 (walk (fptr s1 c1 ip) p)) by (apply (fo_taken s1 c1 ip F1); rewrite ?Es; done).
  set (b := walk (fptr s1 c1 ip) p) in *. destruct (info_bounds _ (ao_info _ _ _ A1)) as (_ & E4 & _). rewrite Es in E4.
  assert (Nr : b <> ROOT) by (destruct Tp as (_ & Hp & _); unfold ROOT; lia).
  assert (Rn : 0 <= nb < 2 ^ 32).
  { pose proof (gr_taken _ _ _ _ _ _ G nb T) as (Hr & Hp & _). pose proof (ao_n _ _ _ A1). lia. }
  destruct (alloc_frame n s1 c1 c2 A1) as [A2 F2].
  { rewrite Es. apply W. }
  { intros x k Bx Hk. rewrite Es in Hk. rewrite (w_view _ _ _ _ _ _ _ W), bool_decide_false; [done| |done].
    intros ->. destruct Tp as (_ & _ & Ns & _). by apply Ns, bitmap_system. }
  { intros x. rewrite (w_cached _ _ _ _ _ _ _ W). by left. }
  apply (entered_ok n s c ip p o nb s1 (with_sectors ip s1) c1 c2); try done.
  - by apply alloc_ok_inodes.
  - exists (i_block (odi (inode_cache s1 ip))). split; [apply F1|]. cbn. rewrite store_eq, Es.
    destruct (inode_cache s1 ip) as [x ino cnt u d]. cbn. by destruct x.
  - intros q Nq. cbn. by rewrite store_ne.
  - intros x Hx Hc. apply (w_clean _ _ _ _ _ _ _ W). by right.
  - intros x k Hx Hk Nx. by rewrite (w_view _ _ _ _ _ _ _ W), bool_decide_false.
  - fold b. unfold fptr. rewrite bool_decide_false by done. rewrite (wrote_eq _ _ _ _ _ _ _ W) by lia. by apply uwrap_small.
  - intros x Hx Nx. pose proof (is_path_last _ _ _ Hx Np). fold b. unfold fptr. rewrite !bool_decide_false by done.
    apply (wrote_ne _ _ _ _ _ _ _ b x W); [lia|lia|by right].
  - intros _ x. cbn. by rewrite store_eq.
Qed.

Lemma run_top_block n s c ip depth i : alloc_ok n s c -> file_ok s c ip -> toplevel_index depth = Some i ->
  is_path (addrs s) [i] -> ~ is_leaf (addrs s) [i] -> 1 <= s_free_blocks_count (super s) ->
  exists b s' c', top_block ip depth (s, c) = Some (Some b, (s', c')) /\ grown n s c ip s' c' /\ walk (fptr s' c' ip) [i] = b /\ b <> NO_BLOCK /\
    s_free_blocks_count (super s) - 1 <= s_free_blocks_count (super s').
Proof.
  intros A F Et Pi Nl Hf. unfold top_block, get_toplevel_indirect_block_entry, set_toplevel_indirect_block_entry. rewrite Et.
  erewrite ebind by reflexivity. cbn [fst]. destruct (bool_decide_reflect (i_block_at i (odi (inode_cache s ip)) = NO_BLOCK)) as [E0|N0].
  - destruct (run_new_indirect n s c ip A ltac:(lia)) as (f & s1 & c1 & En & Cl). rewrite (ebind _ _ _ _ _ En).
    rewrite (ebind _ _ _ _ _ (run_set_i_block ip i f s1 c1)), (ebind _ _ _ _ _ (run_add_sectors ip _ _)).
    destruct (top_linked n s c ip i f s1 c1 A F Cl Pi Nl E0) as [G W].
    exists f, (with_sectors ip (with_block ip i f s1)), c1. split_and!; [done|done|done| |].
    + pose proof (cl_new _ _ _ _ _ _ Cl) as (_ & Hp & _). unfold NO_BLOCK. lia.
    + cbn. pose proof (cl_count _ _ _ _ _ _ Cl). lia.
  - exists (i_block_at i (odi (inode_cache s ip))), s, c. split_and!; [done|by apply grown_refl|done|done|lia].
Qed.

Lemma run_enter_map n s c ip position nb : alloc_ok n s c -> file_ok s c ip -> taken s c nb ->
  (forall q, is_path (addrs s) q -> walk (fptr s c ip) q <> nb) -> file_block s c ip position = NO_BLOCK -> 3 <= s_free_blocks_count (super s) ->
  exists s' c', enter_map_entry ip position nb (s, c) = Some (0, (s', c')) /\
    entered n s c ip (snd (calc_block_indirection_offsets (sb s) position)) nb s' c'.
Proof.
  intros A F T Fresh W0 Hfree. pose proof (calc_leaf (sb s) position (ao_info _ _ _ A)) as Cl. unfold enter_map_entry, file_block in *.
  erewrite ebind by reflexivity. cbn [fst]. destruct (calc_block_indirection_offsets (sb s) position) as [depth offs].
  destruct Cl as (Lf & Hd & Ed & Top). cbn [snd] in *. rewrite bool_decide_false by lia.
  assert (M : inode_markdirty ip (s, c) = Some ((), (marked ip s, c))) by reflexivity. rewrite (ebind _ _ _ _ _ M). clear M.
  pose proof (marked_grown n s c ip A F) as G0. destruct offs as [|i r]; [done|]. cbn [length] in Ed.
  destruct (bool_decide_reflect (depth = 0)) as [E0|N0].
  { destruct r; [|cbn in Ed; lia]. cbn [lookup list_lookup default]. rewrite (ebind _ _ _ _ _ (run_set_i_block ip i nb (marked ip s) c)).
    rewrite (ebind _ _ _ _ _ (run_add_sectors ip _ _)). eexists _, _. split; [reflexivity|]. by apply direct_entered. }
  destruct (Top ltac:(lia)) as (i' & r' & [= <- <-] & Et). cbn [tail]. assert (Nr : r <> []) by (intros ->; cbn in Ed; lia).
  destruct (exists_last Nr) as (r0 & o & ->). rewrite removelast_last, last_last. pose proof (is_leaf_path _ _ Lf) as Pl.
  assert (Pi : is_path (addrs s) [i]) by (by apply (is_path_app _ [i] (r0 ++ [o]))).
  assert (Ni : ~ is_leaf (addrs s) [i]) by (intros L; pose proof (leaf_end _ _ (r0 ++ [o]) L Pl) as E; by destruct r0).
  assert (Lr : Z.of_nat (length r0) <= 2).
  { destruct Pl as ((Hi & Hi') & Hlen & _). rewrite length_app in Hlen. cbn in Hlen. unfold height, EXT2_N_BLOCKS, EXT2_NDIR_BLOCKS in *. case_bool_decide; lia. }
  destruct (run_top_block n (marked ip s) c ip depth i (gr_alloc _ _ _ _ _ _ G0) (gr_file _ _ _ _ _ _ G0) Et Pi Ni ltac:(cbn; lia))
    as (b1 & s1 & c1 & E1 & G1 & W1 & N1 & C1).
  rewrite (ebind _ _ _ _ _ E1). pose proof (grown_trans _ _ _ _ _ _ _ _ G0 G1) as G01. pose proof (gr_sb _ _ _ _ _ _ G01) as Es1.
  destruct (run_enter_indirect n ip r0 s1 c1 [i] b1 o) as (b2 & s2 & c2 & E2 & G2 & W2 & N2); [apply G01|apply G01|done|by rewrite Es1|done|done| |].
  { assert (s_free_blocks_count (super (marked ip s)) = s_free_blocks_count (super s)) by done. lia. }
  rewrite (ebind _ _ _ _ _ E2). pose proof (grown_trans _ _ _ _ _ _ _ _ G01 G2) as G. pose proof (gr_sb _ _ _ _ _ _ G) as Es2.
  pose proof (gr_alloc _ _ _ _ _ _ G) as A2. pose proof (gr_file _ _ _ _ _ _ G) as F2.
  assert (Pp : is_path (addrs s) ([i] ++ r0)) by (by apply (is_path_app _ _ [o])). cbn [app] in Pp, W2.
  assert (T2 : taken s2 c2 b2) by (rewrite <- W2; apply (fo_taken s2 c2 ip F2); rewrite ?Es2, ?W2; done).
  assert (R2 : 0 <= b2 < n) by (destruct T2 as (Hr & Hp & _); pose proof (ao_n _ _ _ A2); lia).
  pose proof (ao_ok _ _ _ A2) as O2. rewrite Es2 in O2. destruct (run_get_read (bsz s) n s2 c2 b2 O2 R2) as (bp & c3 & E3 & Hh & Q).
  rewrite (ebind _ _ _ _ _ E3), (ebind _ _ _ _ _ (run_write_entry s2 c3 bp o nb (ao_le _ _ _ A2))). erewrite ebind by reflexivity. cbn [fst snd].
  assert (Q' : quiet (bsz s2) n (fun x => x = b2) c2 c3) by (by rewrite Es2).
  pose proof (quiet_grown n s2 c2 ip c3 _ A2 F2 Q' ltac:(intros x ->; apply T2)) as G3. pose proof (grown_trans _ _ _ _ _ _ _ _ G G3) as G03.
  destruct (run_commit (bsz s) n s2 c3 bp b2 o nb (q_ok _ _ _ _ _ Q) Hh) as (c4 & E4 & W). rewrite (ebind _ _ _ _ _ E4), (ebind _ _ _ _ _ (run_add_sectors ip s2 c4)).
  exists (with_sectors ip s2), c4. split; [reflexivity|].
  assert (W3 : walk (fptr s2 c3 ip) (i :: r0) = b2).
  { rewrite <- W2. apply same_walk; try done; rewrite ?Es2; try done. intros x k Tx Hk. apply (taken_entry n s2 c2 c3 _ _ _ A2 Q' Tx). by rewrite Es2. }
  apply (indirect_entered n s c ip (i :: r0) o nb s2 c3 c4 G03); try done; by rewrite W3.
Qed.

Lemma file_block_leaf s position : info_ok (sb s) -> is_leaf (addrs s) (snd (calc_block_indirection_offsets (sb s) position)).
Proof.
  intros I. pose proof (calc_leaf (sb s) position I) as Cl. destruct (calc_block_indirection_offsets (sb s) position). apply Cl.
Qed.

Lemma entered_file_block n s c ip position nb s' c' x : alloc_ok n s c ->
  entered n s c ip (snd (calc_block_indirection_offsets (sb s) position)) nb s' c' ->
  file_block s' c' ip x = if bool_decide (block_pos (sb s) x = block_pos (sb s) position) then nb else file_block s c ip x.
Proof.
  intros A En. pose proof (ao_info _ _ _ A) as I. unfold file_block. rewrite (et_sb _ _ _ _ _ _ _ _ En).
  rewrite (et_leaf _ _ _ _ _ _ _ _ En) by (by apply file_block_leaf).
  destruct (bool_decide_reflect (block_pos (sb s) x = block_pos (sb s) position)) as [E|N].
  - rewrite bool_decide_true; [done|]. unfold calc_block_indirection_offsets. fold (block_pos (sb s) x) (block_pos (sb s) position). by rewrite E.
  - rewrite bool_decide_false; [done|]. intros E. by apply N, calc_inj.
Qed.


Lemma allocated_file n s c ip b s' c' : alloc_ok n s c -> file_ok s c ip -> allocated n s c b s' c' ->
  file_ok s' c' ip /\ (forall q, is_path (addrs s) q -> walk (fptr s' c' ip) q = walk (fptr s c ip) q) /\ (forall x, taken s c x -> taken s' c' x) /\
  (forall q, is_path (addrs s) q -> walk (fptr s c ip) q <> b).
Proof.
  intros A F Al. destruct (allocated_same _ _ _ _ _ _ Al) as (Es & Ei & _ & E1 & E2). destruct (info_bounds _ (ao_info _ _ _ A)) as (_ & E4 & _).
  assert (Ht : forall x, taken s c x -> taken s' c' x).
  { intros x (Hr & Hp & Ns & Nf). unfold taken. rewrite E1, E2, (proj1 (al_sys _ _ _ _ _ _ Al x)), (al_after _ _ _ _ _ _ Al x). tauto. }
  assert (He : forall x o, taken s c x -> 0 <= o < addrs s -> entry c' x o = entry c x o).
  { intros x o (Hr & Hp & Ns & _) Ho. pose proof (ao_n _ _ _ A). apply word_at_ext. intros i Hi. apply (al_view _ _ _ _ _ _ Al); [lia|lia|].
    intros Bm. by apply Ns, bitmap_system. }
  split_and!; [by apply (same_file s c); rewrite ?Ei; [..|apply F| | |]|intros q Hq; by apply same_walk; rewrite ?Ei|done|].
  intros q Hq E. destruct (decide (q = [])) as [->|Nq].
  - pose proof (ao_free _ _ _ A b (al_free _ _ _ _ _ _ Al)) as ((Hp & _) & _). cbn in E. unfold ROOT in E. lia.
  - pose proof (ao_free _ _ _ A b (al_free _ _ _ _ _ _ Al)) as ((Hp & _) & _).
    assert (Nz : walk (fptr s c ip) q <> NO_BLOCK) by (rewrite E; unfold NO_BLOCK; lia).
    destruct (fo_taken s c ip F q Hq Nq Nz) as (_ & _ & _ & Nf). apply Nf. rewrite E. apply Al.
Qed.

End map.

(** ** A small file system

    Blocks of 1024 bytes, one group of sixteen: 1 the superblock, 2 the group
    descriptors, 3 and 4 the bitmaps, 5 the inode table, 6 in use, 7 to 16 free;
    an inode without blocks. *)

Definition demo_info : sb_info := mkInfo 1024 10 2 128 11 0x7fffffff 1 1 256 (256 * 256) (12 + 256) (12 + 256 + 256 * 256) 0xffff0000.
Definition demo_super : superblock := mkSuper 8 17 10 5 1 0 16 8 0xef53 1 11 128 2.
Definition demo_inode : inode := mkInode (mkOdi 0x81a4 0 0 0 0 0 0 0 1 0 0 (replicate 15 0) 0 0 0 0) 11 1 0 false.
Definition demo_ext : ext := mkExt demo_super demo_info [mkGroup 3 4 5 10 5 1] false 1 false false (fun _ => demo_inode) []
  (fun _ => []) (fun _ => 0) 0.
Definition demo_dev (a : Z) : Z := if bool_decide (a = 3 * 1024) then 0x3f else 0.
Definition demo_cache : Libblockdev.block_cache :=
  match Libblockdev.init_block_cache 8 16 24 demo_dev (17 * 1024) 32 1024 with
  | Some (Some c) => c
  | _ => Libblockdev.mkCache 0 0 (fun _ => Libblockdev.mkBuf 0 true false false) (fun _ _ => 0) []
           (Intrusive.Lists (Intrusive.Header None None) Intrusive.no_links) (fun _ => []) (fun _ => 0) 0
  end.

Lemma demo_bits j : 0 <= j < 16 -> bit_at demo_cache 3 j = bool_decide (j < 6).
Proof.
  intros Hj. assert (All : Forall (fun j => bit_at demo_cache 3 j = bool_decide (j < 6)) (seqZ 0 16)) by (repeat constructor).
  rewrite Forall_forall in All. apply All, elem_of_seqZ. lia.
Qed.

Lemma demo_free x : is_free demo_ext demo_cache x <-> 7 <= x < 17.
Proof.
  split.
  - intros ([|g] & gd & j & E & Hj & -> & Eb); [|done]. injection E as <-. cbn in Hj. cbn [g_block_bitmap] in Eb. rewrite demo_bits in Eb by done.
    apply bool_decide_eq_false in Eb. unfold block_of. cbn. lia.
  - intros Hx. exists 0%nat, (mkGroup 3 4 5 10 5 1), (x - 1). cbn [g_block_bitmap]. rewrite demo_bits by lia. split_and!; [done|lia|cbn; lia| |].
    + unfold block_of. cbn. lia.
    + apply bool_decide_eq_false. lia.
Qed.

Lemma demo_alloc_ok : alloc_ok 17 demo_ext demo_cache.
Proof.
  destruct (init_block_cache_ok 8 16 24 demo_dev (17 * 1024) 32 1024 17) as (c & E & O & _); [lia..|].
  assert (O' : bok 1024 17 demo_cache) by (unfold demo_cache; by rewrite E). clear c E O. constructor; try done.
  - intros [|g] gd Eg; [|done]. injection Eg as <-. split; [cbn; lia|]. by vm_compute.
  - intros [|g] [|h] gd hd Eg Eh; done.
  - intros x Hx%demo_free. split_and!; [lia|cbn; lia| |done]. intros ([|g] & gd & Eg & Hs); [|done]. injection Eg as <-. cbn in Hs. lia.
Qed.

Lemma demo_walk ip q : q <> [] -> walk (fptr demo_ext demo_cache ip) q = NO_BLOCK.
Proof.
  destruct q as [|i r]; [done|]. intros _. rewrite walk_cons. unfold fptr at 2. rewrite bool_decide_true by done.
  assert (Z0 : i_block_at i (odi (inode_cache demo_ext ip)) = NO_BLOCK).
  { unfold i_block_at. cbn [inode_cache demo_ext demo_inode odi i_block]. destruct (replicate 15 0 !! Z.to_nat i) eqn:E; [|done].
    by apply lookup_replicate in E as [-> _]. }
  rewrite Z0. apply foldl_0.
Qed.

Lemma demo_file_ok ip : file_ok demo_ext demo_cache ip.
Proof.
  constructor; [done|..].
  - intros p _ Np Nz. by rewrite demo_walk in Nz.
  - intros p q _ _ Nz E. destruct (decide (p = [])) as [->|Np]; [|by rewrite demo_walk in Nz].
    destruct (decide (q = [])) as [->|Nq]; [done|]. by rewrite (demo_walk ip q Nq) in E.
Qed.

Lemma demo_taken : taken demo_ext demo_cache 6.
Proof.
  split_and!; [done|done|done| |].
  - intros ([|g] & gd & Eg & Hs); [|done]. injection Eg as <-. cbn in Hs. lia.
  - rewrite demo_free. lia.
Qed.

Lemma demo_clean x : 0 <= x < 17 -> bclean 1024 demo_cache x.
Proof. intros _ i Hi. done. Qed.


